(* ===== verification/_CoqProject ===== *)
-Q . S2P
Prelude.v
Concurrent.v
JsNum.v
JsRound.v
JsArith.v
JsOrder.v
JsVal.v
Redact.v
JsDate.v
JsDay.v
JsJson.v
Paging.v
Limits.v
Jobs.v
JobRunner.v
SyncLock.v
SourcePlan.v
PostSync.v
Barrier.v
Orchestrator.v
SyncWitnesses.v
Money.v
RuleEngine.v
ClientCalc.v
ClientMatch.v
SupplierMatch.v
OrderStatus.v
Recon.v
Store.v
Access.v
Accounts.v
Credentials.v
Middleware.v
AccountHandlers.v
Routes.v
Security.v
AccountSafety.v
AccessWitnesses.v
Exceptions.v
Separation.v
Settlement.v
Encryption.v
Withdrawals.v
Fx.v
Runtime.v
Finance.v
Validation.v
Payments.v
Lifecycle.v
Ingestion.v
Attribution.v
Aggregation.v
Promotion.v
Commercial.v
Tracking.v
TrackingLinks.v
Exclusive.v
Eligibility.v
Catalog.v
Assignments.v
Commissions.v
Readiness.v
Samples.v
SettlementWitnesses.v
ReportingWitnesses.v
CommercialWitnesses.v
AssignmentWitnesses.v
ReadinessWitnesses.v
Witnesses.v
