(* ===== verification/Prelude.v ===== *)
(** * MBO Rewards backend: a verification library

    The backend settles affiliate commissions: networks report orders and conversions,
    MBO validates them, calculates what a client earns under its commercial rule, keeps a
    financial ledger, and releases client payments once MBO's own money has arrived and
    reconciles.  The networks' data is fetched by synchronisation runs: rows of a job table
    that any number of workers plan, claim, settle and advance through their stages.  Staff,
    clients and schedulers reach the services through routes that guard every handler.  This
    library models these cores, from the arithmetic of a single amount to the lifecycle of an
    order over the shared database, from a lock row to the interleavings of whole workers,
    and from a permission table to the request that reaches a handler, and proves what makes
    them correct.

    ** The program's parts and the files that model them (paths under [src/src])

    - JavaScript itself.  [JsNum], [JsRound] and [JsArith]: numbers as IEEE doubles
      ([SpecFloat]), their text, [toFixed] and [Number], how the operations round; [JsOrder]: comparison; [JsVal]: values, property access,
      [??], [||], spread, strings; [JsDate]: the calendar, ISO texts and [Date];
      [JsDay]: the days of the calendar as texts, read and printed; [JsJson]: [JSON.parse]
      and [JSON.stringify].  What depends on the machine (local time zone texts) is the
      interface [JsHost].
    - Asynchronous code.  [Concurrent]: a method that awaits is an [io S A], a tree of atomic
      actions on the shared state; a configuration is a pool of such methods and the state,
      and [step] lets any of them do its next action.
    - [Money]: [modules/commercial/commissionMath.js], [modules/reporting/attributionMath.js].
    - [RuleEngine]: [modules/commercial/commercialRuleEngine.js].
    - [ClientCalc], [ClientMatch], [Runtime]: [modules/commercial/clientCommercialCalculation.js],
      [clientCommercialMatcher.js], [services/clientCommercialRuntime.service.js] and the
      effective-rule query of [repositories/commercial.repository.js].
    - [SupplierMatch]: [modules/commercial/supplierCommissionMatcher.js]; whether a supplier rule
      is ready for finance is the interface [ReadinessAssessment].  [Readiness] implements it:
      [modules/commercial/supplierCommissionReadiness.js], on the facts that [Commissions] reads from
      texts and payouts ([modules/ops/campaignCommissions.js]).
    - [OrderStatus]: [modules/order/orderStatusNormalization.contract.js], [orderMerge.js].
    - [Recon]: [modules/order/approvedCommercialBasis.js],
      [modules/finance/reconciliationLogic.contract.js].
    - [Store]: the Postgres state the services share, as one list of rows per Prisma model,
      with the enum, unique and Decimal columns of [prisma/schema.prisma].  What a Decimal
      column gives back is the interface [Database].
    - [Exceptions]: [modules/order/exceptionCase.service.js], [modules/ops/alertException.contract.js],
      [platform/logging/context.js]; [Redact]: the scrubbing of secrets
      in free text ([networkAccount.contract.js]).
    - [Separation]: [modules/finance/financeSeparation.contract.js], [reconciliation.service.js],
      [commissionCalculation.service.js].
    - [Fx], [Finance]: [modules/finance/fx.service.js], [financialTransaction.service.js].
    - [Validation], [Payments]: [modules/order/validation.service.js], [itemValidation.service.js],
      [paymentState.service.js]; validation sees finance through the class [FinanceService],
      which the ledger implements.
    - [Lifecycle]: the services as one system of calls over the store.
    - [Ingestion]: [modules/order/orderIngestion.service.js], [orderConversionIngestion.contract.js]
      and the account label of [modules/supplier/entityIdentity.js]; the system of services and
      ingested reports ([IngestionFacts.runs]).
    - [Settlement]: [modules/finance/statement.service.js], [taxLedger.service.js], [invoice.service.js].
      [Encryption]: [platform/security/encryption.js]; the cipher and base64 of node are the interfaces [Cipher]
      and [Base64].  [Withdrawals]: [modules/finance/financeConsumer.service.js] and the payments, bank
      details and withdrawals of [modules/client/services/portalDashboard.service.js]; the random part of
      a reference is the interface [Dice].
    - [Attribution]: [modules/reporting/attributionLogic.contract.js], [services/attribution.service.js]
      and the reads of the repositories they use.  [Aggregation]: [services/aggregation.service.js]
      with the daily reports.  [Promotion]: [services/conversionPromotion.service.js], which composes
      [Ingestion] and [Attribution] on the staged rows.
    - [Commercial]: the client rules of [modules/commercial/services/commercial.service.js] with the
      writes of [repositories/commercial.repository.js].  [Tracking]: [modules/commercial/trackingUrl.js],
      [supplierCampaignTracking.js] and [modules/tracking/] (parameters, contracts, the links operators
      store).  [TrackingLinks]: [modules/commercial/resolveSupplierDestination.js], the links and coupons of
      [commercial.service.js], [modules/reporting/services/trackingRedirect.service.js], which composes
      them with the clicks of [Attribution].  [URL], the folding of letters, the order of texts, the
      configuration and the CMS view of a coupon are the interfaces [UrlHost], [TextHost], [Locale],
      [TrackingConfig] and [CouponCms].
    - [Exclusive]: the invariant that a group of rows has at most one holder of a role, once for the tables
      below.  [Catalog]: [modules/catalog/services/catalog.service.js], [sourceSelection.service.js],
      their repositories and [modules/merchant/normalizeName.js]; the Boostiny payout mapper is the
      interface [PayoutMapper].  [Eligibility]: [modules/client/services/campaignEligibility.service.js],
      the predicates of [visibility.service.js], [assignmentVisibilityTruth.js], the states of
      [modules/ops/v15FieldContract.js] and [constants/commercialModels.js].  [Assignments]:
      [modules/client/services/clientAssignment.service.js], which composes the catalog, the gates and the
      rules; the partner reads of [repositories/clientCampaignAssignment.repository.js]; the coupon
      fields of [modules/coupons/couponMerge.js].
    - [Access]: [auth/permissions.js], [dataAccess.js], [supplierDataAccess.js].  [Accounts]:
      [modules/auth/auth.service.js], [otp.service.js] and the invitations of
      [modules/client/services/clientOnboarding.service.js].  [Credentials]:
      [clientCredential.service.js], [apiEnvironmentConfig.js].  [Middleware]: [middleware/auth.js],
      [cronAuth.js].  [AccountHandlers]: [controllers/auth.controller.js], [users.controller.js].
      [Routes]: every route of [routes/index.js] with its guards, how Express matches and runs
      them, and the error handler of [app.js].  jsonwebtoken, bcrypt, [node:crypto], the mailer,
      zod's address check, the environment and the rate limiters are the interfaces [Jwt],
      [Bcrypt], [Crypto], [Mailer], [Zod], [Config] and [RateLimiter], with the laws their
      documentation gives; the handlers that are not account handlers are a parameter.
    - [Security], [AccountSafety]: what holds of every request and of every account.
    - [Jobs]: the [JobRun] table of [prisma/schema.prisma] and the Prisma statements the jobs
      issue on it; the ids [uuid()] makes are the interface [Uuid].
    - [SyncLock], [SourcePlan], [PostSync], [Barrier], [Orchestrator]: in [jobs/],
      [syncAccountLock.service.js]; [syncSourcePlan.js]; [postSyncStages.js] with the walks of
      [promotionUnit.js], [conversionPromotionUnit.js] and [awinParentMaterializationUnit.js];
      [entityStagingBarrier.js]; [syncOrchestration.service.js].
    - [JobRunner]: [platform/jobs/jobRunner.js], the in-process runner of the same table.
    - [Limits]: [core/dbPermits.js], [core/concurrency.js].
    - [Paging]: [core/pagination.js], [cursorPagination.js], [dateRange.js] and the paged reads
      of the merchant, client, reporting and mapper-error repositories.  The order of texts
      in the database is the interface [Collation], the coding of [Buffer] [Base64url].
    - [Samples], [Witnesses], [SyncWitnesses], [AccessWitnesses], [SettlementWitnesses],
      [ReportingWitnesses], [CommercialWitnesses], [AssignmentWitnesses],
      [ReadinessWitnesses]: concrete states and the theorems applied to them.

    A service method is a [prog world A]: a function of the store that returns a value or
    throws, keeping the writes made before the error.  Fields of a JavaScript object keep
    their names; a lookup, a nullish default or a truthiness test of the source is the same
    operator of [JsVal] on the same field.  In the order and finance services awaited calls run
    one after the other and concurrent requests are sequences of whole calls
    ([Lifecycle.reachable]).  In the job files every awaited statement is an action of its own,
    so other workers run between any two of them; a statement of Prisma, and a transaction
    the sources open with [$transaction], is one action.  Pauses and delays are explicit: the
    clock of the table moves between actions ([Concurrent.Wait]).  The permit and worker pools
    of [Limits] run on one thread, between two awaits undisturbed: they are state machines
    over their calls and completions.

    ** What the theorems show

    - An order's three statuses only move along the edges of their tables, whatever is
      called and also when the call throws ([Lifecycle]); with reports ingested at any moment
      orders stay well formed, a rejected order is never payable, and a report leaves one order
      under its key ([Ingestion]); a client payment advances only with approval, the supplier's payment, MBO's
      bank receipt and three agreements ([Payments], [Recon], [Separation]).
    - The ledger is append-only with unique keys; recognition is sound and idempotent; a
      late rejection cancels a recognized row exactly, rounding included ([Finance]).
    - A statement is the ledger of its period, line by line; an invoice that is paid is covered by
      confirmed payments; tax follows the client's contract ([Settlement]); a withdrawal stays within
      the balance that is shown, a stored secret is read back ([Withdrawals], [Encryption]).
    - A conversion is only attributed on evidence and at a rule in force ([Attribution]); a day's
      report counts each click and conversion once ([Aggregation]); promoting page by page is one
      pass over the staged rows, whatever the page size ([Promotion]).
    - Rules in force of one assignment for the same conditions never overlap, in whatever order
      they are created, activated and updated ([Commercial]); an assignment has one primary link, a
      new link is found under its address, a visit is let through only where everything is live
      and then leaves one click, whose id goes with the visitor ([TrackingLinks]); an operator's change of
      a supplier's link is validated and audited ([Tracking]).
    - A campaign has at most one primary source ([Catalog]) and a client at most one open assignment of a
      campaign, whatever is called and fails half-way; nothing is published past the gates; an active
      client is listed exactly what the visibility rules allow, and its links are let through
      ([Eligibility], [Assignments]).
    - A calculated amount follows its rule, reconciles, and is never payable by itself; rule
      matching is sound and independent of the order of the rules; tiers select the only
      band ([RuleEngine], [ClientCalc], [ClientMatch], [Runtime]).  A supplier rule is only matched
      when every rule that could apply is verified, and what MBO expects never depends on
      what the network reports ([SupplierMatch]); a rule without an explicit decision is verified only
      when its sources state it, agree with each other and with the rule ([Readiness]), on facts
      that are finite and in their window ([Commissions]).
    - Statuses are only mapped from verified registry rows, merges never lose data, the
      approved basis counts approved items only ([OrderStatus], [Recon]).
    - A supplier commission is split into client and MBO parts that add up to it exactly,
      floating-point rounding included; report days partition the instants, dates are accepted exactly when they exist ([Money]);
      exception metadata is redacted and cases are deduplicated ([Exceptions]).
    - Of workers that contend for one lock at most one holds it, one unit is never claimed within a lease by
      two, staging and a freeze exclude each other, and what has ended is never taken up
      again, for every interleaving ([SyncLock], [Orchestrator], [Barrier]).
    - A plan drops nothing and covers each day of its span once; page chains end; a run goes
      through its stages in order, never stalls, and is finalised exactly when every unit has
      settled ([SourcePlan], [PostSync], [Orchestrator]).
    - A job ends after at most its number of attempts ([JobRunner]); permits are handed out
      first come first served, a worker pool runs every item once ([Limits]); cursors are
      read back, and reading page by page gives the whole selection ([Paging]).
    - No handler runs without the authority its route asks for; a client's account is confined
      to its own tenant, which its credential alone decides; every request is answered; a
      session is what the store says when the request arrives ([Security]).  Sign-up makes one
      administrator whatever interleaves, requests never remove the last one, an issued key
      authenticates and a rotated one is the only active one ([AccountSafety]).  Rows sent to a
      role without the commission permission say nothing about commissions ([Access]); no token
      survives in an error text ([Redact]).
    - A few theorems record behaviour the sources or their comments do not intend: an
      approval that throws half-way, a reversal that keeps corrections, a re-approval that
      does not earn again, correction keys that collide, a margin that blocks its own
      release, and exception cases that are duplicated or reactivated; two holders of one lock
      when a stamp is late, two units of one account, a network that is never promoted, a
      cancellation that is overwritten, staging let in during a promotion; ascending lists
      whose cursor never leaves the first page, a search lost with the cursor, a reversed date
      range that loses its end days, a cancelled job that runs again, a supplier commission
      beyond the doubles that counts as calculated; commissions nested too deep to be stripped,
      portal routes that serve the keys of a client whose API is off, administrators who remove
      each other, guesses beyond the limit, network statuses that no registry can ever map;
      invoices overpaid, paid after they were voided or made twice from one statement, withdrawals
      that together exceed the balance, a commission kept by the client it was taken from, a network's
      click id that stops the promotion, rows promoted that were not asked for, a report that adds
      currencies; a rule replaced before its successor starts, rules extended into each other, revoked
      coupons put back in use, links that cannot be rotated, expired links that redirect, a link stored
      without its audit entry; a refused publication that leaves its rule in force, rules in force
      without their agreement, an archived assignment reopened beside another, the audit of a rule that
      was taken back, detached sources marked active or linked twice; an average commission shown without
      its zeros, amounts read without their decimal comma.

    ** Bounds and fuel

    Amounts with four decimals are exact below [max_units] = 2^38 * 10^4 ten-thousandths
    (about 274 thousand million); the rounding lemmas of [JsRound] and [JsArith] are stated for that range.
    Recursion is structural throughout; the recursions of the sources on nested objects
    carry the depth limit or the size of their argument as fuel ([LogContext.sanitize],
    [ClientMatcher.to_array]).  Dates range over JavaScript's +-8.64e15 ms.
    Loops whose end is itself the point carry fuel and a theorem that says how much is
    enough: the windows of a span one unit per day ([buildDateWindows_tiles]), the days of an
    aggregation window, a walk through pages one unit per row and one more
    ([descending_walk_complete]), the retries of a job one unit per remaining attempt
    ([job_reaches_an_end]), the pages of a promotion one unit per staged row and one more
    ([promotion_walk_complete]), a rebuild one unit per day ([rebuild_covers_range]), a nested
    payout its depth ([nested_values_read_whole]).  The step relations of [Concurrent] and [Limits] need none.

    ** Not modelled

    HTTP adapters, the handlers of the other controllers, the drivers that fetch from a network
    ([jobs/sync.job.js]) and their state rows, field mappings, the reporting and portal read models (with
    the display of a visible campaign, [projectVisibleCampaign]), client onboarding beyond invitations,
    merchant matching, the coupon CMS and its merge, products; the read-only projections of a run;
    metrics and log lines.  In the order and finance services a thrown error keeps earlier writes, as they
    behave on the plain client; the transactions that attribution, aggregation, the catalog and
    the commercial services open are rolled back, but for audit entries, which are written on a
    connection of their own ([audited_transaction]).  The optional rate provider of the FX service is left out.  What could
    be added next is the outcome of a fetched source, the rate limiter and the fan-out that stores supplier rules. *)

From Stdlib Require Export ZArith Lia Bool Ascii Sorted.
From stdpp Require Export base list strings gmap.

(** ** Notation scope of the development *)

Declare Scope js_scope.
Delimit Scope js_scope with js.

(** String equality as the boolean the source computes with [===]. *)
Notation "s =s? t" := (String.eqb s t) (at level 70, no associativity) : js_scope.

Open Scope js_scope.

(** ** Errors and the state-and-error monad

    [core/apiResponse.js]'s [fail(message, status)] builds the error value the
    services throw.  A service method is modelled as a function of the state it
    mutates; a thrown error keeps every write done before it. *)

Record js_error := JsError { err_message : string; err_status : Z; err_code : string }.

(** [fail(message, status)] of [core/apiResponse.js]. *)
Definition api_fail (message : string) (status : Z) : js_error := JsError message status "".
(** [new Error(message)]: neither a status nor a code. *)
Definition plain_error (message : string) : js_error := JsError message 0 "".

(** A text in double quotes, as template literals quote their arguments. *)
Definition quoted (s : string) : string :=
  String (ascii_of_nat 34) (s +:+ String (ascii_of_nat 34) EmptyString).

Inductive outcome (A : Type) : Type :=
| Ok (a : A)
| Throw (e : js_error).
Arguments Ok {A} a.
Arguments Throw {A} e.

Definition outcome_bind {A B} (c : outcome A) (k : A -> outcome B) : outcome B :=
  match c with Ok a => k a | Throw e => Throw e end.
Notation "'let?' x := c 'in' k" := (outcome_bind c (fun x => k))
  (at level 10, x name, c at level 100, k at level 200) : js_scope.

Definition prog (S A : Type) : Type := S -> outcome A * S.

Definition ret {S A} (a : A) : prog S A := fun s => (Ok a, s).
Definition throw {S A} (e : js_error) : prog S A := fun s => (Throw e, s).
Definition bind {S A B} (c : prog S A) (k : A -> prog S B) : prog S B :=
  fun s => match c s with
           | (Ok a, s') => k a s'
           | (Throw e, s') => (Throw e, s')
           end.
(** [try { c } catch (e) { h e }] *)
Definition catch {S A} (c : prog S A) (h : js_error -> prog S A) : prog S A :=
  fun s => match c s with
           | (Ok a, s') => (Ok a, s')
           | (Throw e, s') => h e s'
           end.
Definition gets {S A} (f : S -> A) : prog S A := fun s => (Ok (f s), s).
Definition modify {S} (f : S -> S) : prog S unit := fun s => (Ok tt, f s).

Definition lift {S A} (o : outcome A) : prog S A := match o with Ok a => ret a | Throw e => throw e end.
(** [prisma.$transaction(run)]: nothing is kept of a run that fails. *)
Definition transaction {S A} (c : prog S A) : prog S A :=
  fun s => match c s with (Ok a, s') => (Ok a, s') | (Throw e, _) => (Throw e, s) end.

Notation "'let!' x := c 'in' k" := (bind c (fun x => k))
  (at level 10, x name, c at level 100, k at level 200) : js_scope.
Notation "c ';;' k" := (bind c (fun _ => k))
  (at level 100, k at level 200, right associativity) : js_scope.

(** A loop over a list, left to right, as [for (const x of xs) { await body(x) }]. *)
Fixpoint for_each {S A} (xs : list A) (body : A -> prog S unit) : prog S unit :=
  match xs with
  | [] => ret tt
  | x :: xs' => body x ;; for_each xs' body
  end.

(** The same loop pushing a result per element. *)
Fixpoint collect {S A B} (xs : list A) (body : A -> prog S B) : prog S (list B) :=
  match xs with
  | [] => ret []
  | x :: xs' => bind (body x) (fun y => bind (collect xs' body) (fun ys => ret (y :: ys)))
  end.

(** ** Programs that only make certain steps

    [tracks R c]: every run of [c], finished or failed, relates its start and end state
    by [R].  With [R] a preorder this composes over sequencing, error handlers and loops;
    an invariant [P] is preserved when [c] tracks [fun s s' => P s -> P s']. *)

Definition tracks {S A} (R : S -> S -> Prop) (c : prog S A) : Prop := forall s, R s (c s).2.
Lemma run_tracks {S A} R (c : prog S A) s r s' : tracks R c -> c s = (r, s') -> R s s'.
Proof. intros Hc E. specialize (Hc s). now rewrite E in Hc. Qed.

Section Tracks.
Context {S : Type} (R : S -> S -> Prop) `{!PreOrder R}.

Lemma tracks_ret {A} (a : A) : tracks R (ret a).
Proof. intros s. cbn. reflexivity. Qed.
Lemma tracks_throw {A} e : tracks R (@throw S A e).
Proof. intros s. cbn. reflexivity. Qed.
Lemma tracks_gets {A} (f : S -> A) : tracks R (gets f).
Proof. intros s. cbn. reflexivity. Qed.
Lemma tracks_bind {A B} (c : prog S A) (k : A -> prog S B) :
  tracks R c -> (forall a, tracks R (k a)) -> tracks R (bind c k).
Proof.
  intros Hc Hk s. unfold bind. specialize (Hc s). destruct (c s) as [[a|e] s']; cbn in *; [|exact Hc].
  etransitivity; [exact Hc|apply Hk].
Qed.
Lemma tracks_catch {A} (c : prog S A) h :
  tracks R c -> (forall e, tracks R (h e)) -> tracks R (catch c h).
Proof.
  intros Hc Hh s. unfold catch. specialize (Hc s). destruct (c s) as [[a|e] s']; cbn in *; [exact Hc|].
  etransitivity; [exact Hc|apply Hh].
Qed.
Lemma tracks_for_each {A} (xs : list A) body :
  (forall x, tracks R (body x)) -> tracks R (for_each xs body).
Proof.
  intros Hb. induction xs as [|x xs IH]; cbn [for_each]; [apply tracks_ret|].
  apply tracks_bind; [apply Hb|intros; exact IH].
Qed.
Lemma tracks_collect {A B} (xs : list A) (body : A -> prog S B) :
  (forall x, tracks R (body x)) -> tracks R (collect xs body).
Proof.
  intros Hb. induction xs as [|x xs IH]; cbn [collect]; [apply tracks_ret|].
  apply tracks_bind; [apply Hb|intros]. apply tracks_bind; [exact IH|intros; apply tracks_ret].
Qed.
Lemma tracks_lift {A} (o : outcome A) : tracks R (lift o).
Proof. intros s. destruct o; cbn; reflexivity. Qed.
Lemma tracks_transaction {A} (c : prog S A) : tracks R c -> tracks R (transaction c).
Proof. intros Hc s. unfold transaction. specialize (Hc s). destruct (c s) as [[a|e] s']; [exact Hc|cbn; reflexivity]. Qed.
Lemma tracks_if {A} (b : bool) (c d : prog S A) : tracks R c -> tracks R d -> tracks R (if b then c else d).
Proof. now destruct b. Qed.
End Tracks.

#[export] Instance unchanged_preorder {S} : PreOrder (@eq S).
Proof. split; [intros x; reflexivity|intros x y z; congruence]. Qed.

Lemma transaction_ok {S A} (c : prog S A) s a s' : transaction c s = (Ok a, s') -> c s = (Ok a, s').
Proof. unfold transaction. now destruct (c s) as [[b|e] s1]; intros [= -> ->]. Qed.
Lemma transaction_fails {S A} (c : prog S A) s e s' : transaction c s = (Throw e, s') -> s' = s.
Proof. unfold transaction. now destruct (c s) as [[b|e'] s1]; intros [= -> ->]. Qed.
Lemma lift_ok {S A} (o : outcome A) (s : S) a s' : lift o s = (Ok a, s') -> o = Ok a /\ s' = s.
Proof. destruct o; intros [= -> ->]; auto. Qed.

(** A successful sequence is a successful first step and a successful rest. *)
Lemma bind_ok {S A B} (c : prog S A) (k : A -> prog S B) s b s' :
  bind c k s = (Ok b, s') -> exists a s1, c s = (Ok a, s1) /\ k a s1 = (Ok b, s').
Proof. unfold bind. destruct (c s) as [[a|e] s1]; [eauto|discriminate]. Qed.
Lemma bind_reads {S A B} (c : prog S A) (k : A -> prog S B) s b s' :
  tracks eq c -> bind c k s = (Ok b, s') -> exists a, c s = (Ok a, s) /\ k a s = (Ok b, s').
Proof.
  intros Hc (a & s1 & Ha & Hk)%bind_ok. specialize (Hc s). rewrite Ha in Hc. cbn in Hc. subst s1. eauto.
Qed.
Lemma bind_split {S A B} (c : prog S A) (k : A -> prog S B) s r s' :
  bind c k s = (r, s') -> exists o s1, c s = (o, s1) /\ match o with Ok a => k a s1 = (r, s') | Throw e => (Throw e, s1) = (r, s') end.
Proof. unfold bind. destruct (c s) as [[a|e] s1]; eauto. Qed.
Lemma bind_gets {S A B} (f : S -> A) (k : A -> prog S B) s : bind (gets f) k s = k (f s) s.
Proof. reflexivity. Qed.

Create HintDb tracks.
#[export] Hint Resolve tracks_ret tracks_throw tracks_gets : tracks.

(** Walks through a program, closing the reads and splitting on its branches; the calls
    of other operations are closed by the lemmas of the hint database. *)
Ltac track_step :=
  lazymatch goal with
  | |- tracks _ (ret _) => refine (tracks_ret _ _)
  | |- tracks _ (throw _) => refine (tracks_throw _ _)
  | |- tracks _ (gets _) => refine (tracks_gets _ _)
  | |- tracks _ (lift _) => refine (tracks_lift _ _)
  | |- tracks _ (transaction _) => refine (tracks_transaction _ _ _)
  | |- tracks _ (bind _ _) => refine (tracks_bind _ _ _ _ _)
  | |- tracks _ (catch _ _) => refine (tracks_catch _ _ _ _ _)
  | |- tracks _ (for_each _ _) => refine (tracks_for_each _ _ _ _)
  | |- tracks _ (collect _ _) => refine (tracks_collect _ _ _ _)
  | |- tracks ?R (let x := ?v in @?b x) =>
      let y := fresh x in pose (y := v); change (tracks R (b y)); cbv beta; clearbody y
  | |- tracks _ (match ?x with _ => _ end) => destruct x
  | |- tracks _ _ => solve [eauto 4 with tracks]
  | |- forall _, _ => intro
  end.
Ltac track := repeat track_step.

(** ** Programs that keep an invariant, and what they return *)

Definition holds {S A} (I : S -> Prop) (c : prog S A) (Q : A -> Prop) : Prop :=
  forall s, I s -> I (c s).2 /\ forall a s', c s = (Ok a, s') -> Q a.

Section Holds.
Context {S : Type} (I : S -> Prop).
Lemma holds_ret {A} (a : A) (Q : A -> Prop) : Q a -> holds I (ret a) Q.
Proof. intros Hq w Hw. split; [exact Hw|]. now intros ? ? [= <- _]. Qed.
Lemma holds_throw {A} e (Q : A -> Prop) : holds I (throw e) Q.
Proof. intros w Hw. split; [exact Hw|discriminate]. Qed.
Lemma holds_gets {A} (f : S -> A) (Q : A -> Prop) : (forall w, I w -> Q (f w)) -> holds I (gets f) Q.
Proof. intros Hq w Hw. split; [exact Hw|]. intros ? ? [= <- _]. auto. Qed.
Lemma holds_bind {A B} (c : prog S A) (k : A -> prog S B) (P : A -> Prop) Q :
  holds I c P -> (forall a, P a -> holds I (k a) Q) -> holds I (bind c k) Q.
Proof.
  intros Hc Hk w Hw. destruct (Hc w Hw) as [Hi Hp]. unfold bind. destruct (c w) as [[a|e] w1]; [|split; [exact Hi|discriminate]].
  now apply Hk; [eapply Hp|].
Qed.
Lemma holds_catch {A} (c : prog S A) h (Q : A -> Prop) :
  holds I c Q -> (forall e, holds I (h e) Q) -> holds I (catch c h) Q.
Proof.
  intros Hc Hh w Hw. destruct (Hc w Hw) as [Hi Hq]. unfold catch. destruct (c w) as [[a|e] w1]; [split; [exact Hi|intros ? ? [= <- _]; eauto]|].
  now apply Hh.
Qed.
Lemma holds_weaken {A} (c : prog S A) (P Q : A -> Prop) : (forall a, P a -> Q a) -> holds I c P -> holds I c Q.
Proof. intros Hpq Hc w Hw. destruct (Hc w Hw) as [Hi Hp]. split; eauto. Qed.
Lemma holds_tracks {A} (G : S -> S -> Prop) (c : prog S A) :
  (forall w w', I w -> G w w' -> I w') -> tracks G c -> holds I c (fun _ => True).
Proof. intros HG Hc w Hw. split; [eapply HG; [exact Hw|apply Hc]|auto]. Qed.
End Holds.

(** ** Bounded checks by computation *)

(** [f i] for every [0 <= i < n], evaluated by a binary iteration. *)
Definition all_below (f : Z -> bool) (n : N) : bool :=
  (N.iter n (fun p : Z * bool => (p.1 + 1, p.2 && f p.1)%Z) (0%Z, true)).2.

Lemma all_below_counter f n :
  (N.iter n (fun p : Z * bool => (p.1 + 1, p.2 && f p.1)%Z) (0%Z, true)).1 = Z.of_N n.
Proof.
  induction n as [|n IH] using N.peano_ind; [reflexivity|].
  rewrite N.iter_succ; cbn [fst]. rewrite IH. lia.
Qed.

Lemma all_below_spec f n :
  all_below f n = true -> forall i, (0 <= i < Z.of_N n)%Z -> f i = true.
Proof.
  unfold all_below. induction n as [|n IH] using N.peano_ind; [lia|].
  rewrite N.iter_succ; cbn [snd]. rewrite all_below_counter.
  intros [Hall Hlast]%andb_true_iff i Hi.
  destruct (decide (i = Z.of_N n)) as [->|Hne]; [exact Hlast|].
  apply IH; [exact Hall | lia].
Qed.

Lemma some_bind {A B} (a : A) (k : A -> option B) : Some a ≫= k = k a.
Proof. reflexivity. Qed.

(** ** Lists up to order *)

#[export] Instance filter_bool_perm {A} (p : A -> bool) : Proper (Permutation ==> Permutation) (List.filter p).
Proof.
  induction 1 as [|x l l' _ IH|x y l|l1 l2 l3 _ IH1 _ IH2]; cbn.
  - constructor.
  - destruct (p x); [now constructor|exact IH].
  - destruct (p x), (p y); try reflexivity. apply Permutation_swap.
  - etransitivity; eassumption.
Qed.
#[export] Instance existsb_perm {A} (p : A -> bool) : Proper (Permutation ==> eq) (existsb p).
Proof. induction 1; cbn; try congruence. destruct (p x), (p y); reflexivity. Qed.
#[export] Instance forallb_perm {A} (p : A -> bool) : Proper (Permutation ==> eq) (forallb p).
Proof. induction 1; cbn; try congruence. destruct (p x), (p y); reflexivity. Qed.

Lemma filter_bool_ext {A} (p q : A -> bool) l :
  (forall x, x ∈ l -> p x = q x) -> List.filter p l = List.filter q l.
Proof.
  induction l as [|x l IH]; intros Heq; cbn; [reflexivity|].
  rewrite (Heq x) by (left). rewrite IH by (intros; apply Heq; now right). reflexivity.
Qed.

Lemma elem_of_filter_bool {A} (p : A -> bool) l x : x ∈ List.filter p l <-> x ∈ l /\ p x = true.
Proof. rewrite !list_elem_of_In, filter_In. tauto. Qed.

(** The element of a one-element list. *)
Definition the_only {A} (l : list A) : option A := match l with [x] => Some x | _ => None end.

#[export] Instance the_only_perm {A} : Proper (Permutation ==> eq) (@the_only A).
Proof.
  intros l l' Hp. pose proof (Permutation_length Hp) as Hlen.
  destruct l as [|x [|y l]], l' as [|x' [|y' l']]; try discriminate Hlen; try reflexivity.
  apply Permutation_length_1 in Hp. now subst.
Qed.

Lemma the_only_some {A} (l : list A) x : the_only l = Some x -> l = [x].
Proof. destruct l as [|? [|]]; cbn; congruence. Qed.

Lemma filter_only {A} (p : A -> bool) l c :
  the_only (List.filter p l) = Some c -> c ∈ l /\ p c = true /\ forall d, d ∈ l -> p d = true -> d = c.
Proof.
  intros Hf%the_only_some. assert (Hin : forall d, d ∈ List.filter p l <-> d = c)
    by (intros d; rewrite Hf; apply list_elem_of_singleton).
  split_and!; [apply (elem_of_filter_bool p), Hin|apply (elem_of_filter_bool p l), Hin|]; try reflexivity.
  intros d Hd Hp. apply Hin, elem_of_filter_bool. auto.
Qed.

Lemma filter_nil {A} (p : A -> bool) l : List.filter p l = [] -> forall x, x ∈ l -> p x = true -> False.
Proof.
  intros Hf x Hx Hp. assert (Hin : x ∈ List.filter p l) by (apply elem_of_filter_bool; auto).
  rewrite Hf in Hin. now apply not_elem_of_nil in Hin.
Qed.

(** ** Tactics *)

(** [NoDup] of the literal keys of a record of fields. *)
Ltac nodup_keys := cbn [map fst]; compute_done.

(** Opens every [x ← c; k = Some _] hypothesis into the equations of its steps. *)
Ltac invert_binds :=
  repeat match goal with
  | H : _ ≫= _ = Some _ |- _ =>
      let p := fresh "p" in let E := fresh "E" in
      apply bind_Some in H as (p & E & H); repeat (destruct p as [p ?])
  end.

(** Splits a hypothesis [b = true] (or [false]) built from boolean connectives. *)
Ltac split_bools :=
  repeat match goal with
  | H : (_ && _)%bool = true |- _ => apply andb_true_iff in H as [? ?]
  | H : (_ || _)%bool = false |- _ => apply orb_false_iff in H as [? ?]
  | H : negb _ = true |- _ => apply negb_true_iff in H
  | H : negb _ = false |- _ => apply negb_false_iff in H
  | H : String.eqb _ _ = true |- _ => apply String.eqb_eq in H
  end.

(** ** Sorting *)

(** A stable sort by [le], as [orderBy] gives it on rows in insertion order. *)
Fixpoint sorted_insert {A} (le : A -> A -> bool) (x : A) (l : list A) : list A :=
  match l with
  | [] => [x]
  | y :: l' => if le x y then x :: l else y :: sorted_insert le x l'
  end.
Definition sort_by {A} (le : A -> A -> bool) (l : list A) : list A := foldr (sorted_insert le) [] l.

Section Sort.
Context {A : Type} (le : A -> A -> bool).

Lemma sorted_insert_perm x l : Permutation (sorted_insert le x l) (x :: l).
Proof.
  induction l as [|y l IH]; cbn; [reflexivity|]. destruct (le x y); [reflexivity|].
  rewrite IH. apply Permutation_swap.
Qed.
Lemma sort_by_perm l : Permutation (sort_by le l) l.
Proof. induction l as [|x l IH]; cbn; [reflexivity|]. rewrite sorted_insert_perm. now constructor. Qed.
Lemma elem_of_sort_by l x : x ∈ sort_by le l <-> x ∈ l.
Proof. now rewrite sort_by_perm. Qed.
Lemma sort_by_nil l : sort_by le l = [] <-> l = [].
Proof.
  split; [|intros ->; reflexivity]. intros E. apply Permutation_nil. rewrite <- E. apply sort_by_perm.
Qed.

(** The head of a sorted list is below every element, for a total preorder. *)
Lemma sort_by_head l x :
  (forall a b, le a b = true \/ le b a = true) -> (forall a b c, le a b = true -> le b c = true -> le a c = true) ->
  head (sort_by le l) = Some x -> forall y, y ∈ l -> le x y = true.
Proof.
  intros Htot Htrans. revert x. induction l as [|z l IH]; intros x Hx y Hy; [set_solver|].
  change (sort_by le (z :: l)) with (sorted_insert le z (sort_by le l)) in Hx.
  assert (Hrefl : forall a, le a a = true) by (intros a; destruct (Htot a a); assumption).
  destruct (sort_by le l) as [|w ws] eqn:E; cbn in Hx.
  - apply sort_by_nil in E as ->. cbn in Hx. simplify_eq. apply list_elem_of_singleton in Hy as ->. apply Hrefl.
  - specialize (IH w eq_refl). destruct (le z w) eqn:Ezw; cbn in Hx; simplify_eq; apply elem_of_cons in Hy as [->|Hy].
    + apply Hrefl.
    + eauto.
    + destruct (Htot x z) as [|Hzx]; [assumption|congruence].
    + auto.
Qed.
End Sort.

(** Sorting the elements of [P], on which [le] is a total preorder. *)
Section SortOn.
Context {A : Type} (le : A -> A -> bool) (P : A -> Prop).
Hypothesis le_total : forall a b, P a -> P b -> le a b = true \/ le b a = true.
Hypothesis le_trans : forall a b c, P a -> P b -> P c -> le a b = true -> le b c = true -> le a c = true.
Local Abbreviation below := (fun a b => le a b = true).

Lemma Forall_sorted_insert x l : P x -> Forall P l -> Forall P (sorted_insert le x l).
Proof. intros Hx Hl. rewrite sorted_insert_perm. now constructor. Qed.
Lemma Forall_sort_by l : Forall P l -> Forall P (sort_by le l).
Proof. intros Hl. now rewrite sort_by_perm. Qed.

Lemma sorted_insert_sorted x l :
  P x -> Forall P l -> StronglySorted below l -> StronglySorted below (sorted_insert le x l).
Proof.
  intros Hx Hl Hs. induction Hs as [|y l Hs IH Hy]; cbn; [now repeat constructor|]. apply Forall_cons in Hl as [HPy Hl].
  destruct (le x y) eqn:E.
  - constructor; [now constructor|]. constructor; [exact E|]. rewrite Forall_forall in *. intros z Hz.
    apply (le_trans x y z); auto.
  - constructor; [auto|]. rewrite sorted_insert_perm. constructor; [|exact Hy].
    destruct (le_total x y Hx HPy) as [|Hyx]; [congruence|exact Hyx].
Qed.
Lemma sort_by_sorted l : Forall P l -> StronglySorted below (sort_by le l).
Proof.
  induction l as [|x l IH]; intros Hl; [constructor|]. apply Forall_cons in Hl as [Hx Hl].
  change (sort_by le (x :: l)) with (sorted_insert le x (sort_by le l)).
  apply sorted_insert_sorted; auto using Forall_sort_by.
Qed.

Lemma sorted_insert_first x l : Forall (fun y => le x y = true) l -> sorted_insert le x l = x :: l.
Proof. destruct l as [|y l]; [reflexivity|]. intros [Hy _]%Forall_cons. cbn. now rewrite Hy. Qed.
Lemma Forall_filter_bool (Q : A -> Prop) p l : Forall Q l -> Forall Q (List.filter p l).
Proof. rewrite !Forall_forall. intros HQ x [Hx _]%elem_of_filter_bool. auto. Qed.
Lemma sorted_insert_filter p x l :
  P x -> Forall P l -> StronglySorted below l ->
  List.filter p (sorted_insert le x l) = if p x then sorted_insert le x (List.filter p l) else List.filter p l.
Proof.
  intros Hx Hl Hs. induction Hs as [|y l Hs IH Hy]; [cbn; now destruct (p x)|]. apply Forall_cons in Hl as [HPy Hl].
  cbn. destruct (le x y) eqn:E.
  - cbn. destruct (p x) eqn:Ep; [|reflexivity]. rewrite sorted_insert_first; [reflexivity|].
    assert (Hall : Forall (fun z => le x z = true) (y :: l)).
    { constructor; [exact E|]. rewrite Forall_forall in *. intros z Hz. apply (le_trans x y z); auto. }
    apply (Forall_filter_bool _ p) in Hall. exact Hall.
  - cbn. rewrite IH by exact Hl. destruct (p x), (p y); cbn; rewrite ?E; reflexivity.
Qed.
(** Sorting what is selected is selecting from what is sorted. *)
Lemma sort_by_filter p l : Forall P l -> sort_by le (List.filter p l) = List.filter p (sort_by le l).
Proof.
  induction l as [|x l IH]; intros Hl; [reflexivity|]. apply Forall_cons in Hl as [Hx Hl].
  change (sort_by le (x :: l)) with (sorted_insert le x (sort_by le l)).
  rewrite sorted_insert_filter by auto using Forall_sort_by, sort_by_sorted. cbn [List.filter].
  destruct (p x); [|auto]. change (sort_by le (x :: ?l)) with (sorted_insert le x (sort_by le l)). now rewrite IH.
Qed.
End SortOn.
