(* ===== verification/Concurrent.v ===== *)
(** * Interleaved programs

    The sync services run on several instances at once: each [await] on the database is
    one atomic action, and between two of them any other call may run.  [io] is such a
    program: a tree of atomic actions, each a [prog] of [Prelude], whose continuation
    sees the value it returned or the error it threw.  [exec] runs it alone; [step] runs
    one action of one program of a pool, or lets time pass, and [schedule] replays a given
    interleaving. *)

From S2P Require Import Prelude.
Local Open Scope Z_scope.

Inductive io (S A : Type) : Type :=
| Ret (a : A)
| Raise (e : js_error)
| Act {R : Type} (p : prog S R) (k : outcome R -> io S A).
Arguments Ret {S A} a.
Arguments Raise {S A} e.
Arguments Act {S A R} p k.

Fixpoint io_bind {S A B} (m : io S A) (f : A -> io S B) : io S B :=
  match m with
  | Ret a => f a
  | Raise e => Raise e
  | Act p k => Act p (fun o => io_bind (k o) f)
  end.
(** [try { m } catch (e) { h(e) }] *)
Fixpoint io_catch {S A} (m : io S A) (h : js_error -> io S A) : io S A :=
  match m with
  | Ret a => Ret a
  | Raise e => h e
  | Act p k => Act p (fun o => io_catch (k o) h)
  end.
(** [await p], one atomic action *)
Definition act {S A} (p : prog S A) : io S A :=
  Act p (fun o => match o with Ok a => Ret a | Throw e => Raise e end).

Notation "'do!' x := c 'in' k" := (io_bind c (fun x => k))
  (at level 10, x name, c at level 100, k at level 200) : js_scope.
Notation "c ';;;' k" := (io_bind c (fun _ => k))
  (at level 100, k at level 200, right associativity) : js_scope.

(** [try { m } finally { c }] *)
Definition io_finally {S A} (m : io S A) (c : io S unit) : io S A :=
  do! r := io_catch (do! a := m in Ret (inl a)) (fun e => Ret (inr e)) in
  c ;;; match r with inl a => Ret a | inr e => Raise e end.

(** [for (const x of xs) { await body(x) }] *)
Fixpoint io_each {S A} (xs : list A) (body : A -> io S unit) : io S unit :=
  match xs with
  | [] => Ret tt
  | x :: xs' => body x ;;; io_each xs' body
  end.

(** ** One program alone *)

Fixpoint exec {S A} (m : io S A) : prog S A :=
  match m with
  | Ret a => ret a
  | Raise e => throw e
  | Act p k => fun s => exec (k (p s).1) (p s).2
  end.

Lemma exec_bind {S A B} (m : io S A) (f : A -> io S B) s :
  exec (io_bind m f) s = bind (exec m) (fun a => exec (f a)) s.
Proof. revert s. induction m as [a|e|R p k IH]; intros s; [reflexivity|reflexivity|apply IH]. Qed.

Lemma exec_catch {S A} (m : io S A) h s :
  exec (io_catch m h) s = catch (exec m) (fun e => exec (h e)) s.
Proof. revert s. induction m as [a|e|R p k IH]; intros s; [reflexivity|reflexivity|apply IH]. Qed.

Lemma exec_act {S A} (p : prog S A) s : exec (act p) s = p s.
Proof. unfold act. cbn. now destruct (p s) as [[]]. Qed.

(** ** A pool of programs *)

Section Pool.
Context {S A : Type}.
(** What the environment may do between two actions. *)
Context (env : S -> S -> Prop).

Definition run_one (m : io S A) (s : S) : option (io S A * S) :=
  match m with Act p k => Some (k (p s).1, (p s).2) | _ => None end.

Inductive step : list (io S A) * S -> list (io S A) * S -> Prop :=
| step_run i ts s m m' s' :
    ts !! i = Some m -> run_one m s = Some (m', s') -> step (ts, s) (<[i := m']> ts, s')
| step_env ts s s' : env s s' -> step (ts, s) (ts, s').

Definition steps := rtc step.

(** *** Guarantees

    [obeys I G m]: every action of [m], run in any state of [I], makes a [G] step. *)
Fixpoint obeys (I : S -> Prop) (G : S -> S -> Prop) (m : io S A) : Prop :=
  match m with
  | Act p k => forall s, I s -> G s (p s).2 /\ obeys I G (k (p s).1)
  | _ => True
  end.

Lemma steps_obey (I : S -> Prop) (G : S -> S -> Prop) ts s ts' s' :
  PreOrder G -> (forall s s', I s -> G s s' -> I s') -> (forall s s', I s -> env s s' -> G s s') ->
  Forall (obeys I G) ts -> I s -> steps (ts, s) (ts', s') -> G s s' /\ I s' /\ Forall (obeys I G) ts'.
Proof.
  intros HG HI Henv Hts Hs Hsteps. remember (ts, s) as c eqn:Ec. remember (ts', s') as c' eqn:Ec'.
  revert ts s ts' s' Ec Ec' Hts Hs.
  induction Hsteps as [c|c1 c2 c3 Hstep _ IH]; intros ts s ts' s' E E' Hts Hs.
  - subst. simplify_eq. split; [reflexivity|]. auto.
  - subst. inversion Hstep as [i ts0 s0 m m' s1 Hi Hrun E1 E2|ts0 s0 s1 He E1 E2]; simplify_eq.
    + destruct m as [|e|R p k]; try discriminate Hrun. cbn in Hrun. injection Hrun as <- <-.
      assert (Hm : obeys I G (Act p k)) by (eapply Forall_lookup_1; eassumption).
      destruct (Hm s Hs) as [Hg Hk].
      destruct (IH _ _ _ _ eq_refl eq_refl ltac:(now apply Forall_insert) (HI _ _ Hs Hg)) as (Hg' & ? & ?).
      split; [etransitivity; eassumption|auto].
    + destruct (IH _ _ _ _ eq_refl eq_refl Hts (HI _ _ Hs (Henv _ _ Hs He))) as (Hg' & ? & ?).
      split; [|auto]. etransitivity; [apply Henv; eassumption|exact Hg'].
Qed.

(** *** Results

    [assured I G W P m]: run in a state of [P], every action of [m] makes a [G] step, and
    [m] only returns [a] in a state of [W a]; between two actions it relies on a fact that
    [G] steps keep.  All states of the interleaving are assumed to satisfy [I]. *)
Definition stable (I : S -> Prop) (G : S -> S -> Prop) (P : S -> Prop) : Prop :=
  forall s s', I s -> I s' -> G s s' -> P s -> P s'.

Fixpoint assured (I : S -> Prop) (G : S -> S -> Prop) (W : A -> S -> Prop) (P : S -> Prop) (m : io S A) : Prop :=
  match m with
  | Ret a => forall s, I s -> P s -> W a s
  | Raise _ => True
  | Act p k => forall s, I s -> I (p s).2 -> P s ->
      G s (p s).2 /\ exists P', stable I G P' /\ P' (p s).2 /\ assured I G W P' (k (p s).1)
  end.

(** Interleavings all of whose states satisfy [I]. *)
Definition step_in (I : S -> Prop) (c c' : list (io S A) * S) : Prop := I c.2 /\ step c c' /\ I c'.2.

Definition assured_at I G W (s : S) (m : io S A) : Prop := exists P, stable I G P /\ P s /\ assured I G W P m.

Lemma steps_assured I G W c c' :
  (forall s s', I s -> I s' -> env s s' -> G s s') ->
  Forall (assured_at I G W c.2) c.1 -> rtc (step_in I) c c' -> Forall (assured_at I G W c'.2) c'.1.
Proof.
  intros Henv Hts Hsteps. revert Hts.
  assert (Hkeep : forall s s' m, I s -> I s' -> G s s' -> assured_at I G W s m -> assured_at I G W s' m)
    by (intros s s' m Hs Hs' Hg (P & HP & Hp & Hm); exists P; split_and!; [exact HP|now apply (HP s)|exact Hm]).
  induction Hsteps as [c|c1 c2 c3 (HI & Hstep & HI') _ IH]; intros Hts; [exact Hts|].
  destruct Hstep as [i ts s m m' s' Hi Hrun|ts s s' He]; cbn in *; apply IH.
  - destruct m as [|e|R p k]; try discriminate Hrun. cbn in Hrun. injection Hrun as <- <-.
    assert (Hm : assured_at I G W s (Act p k)) by exact (Forall_lookup_1 _ _ _ _ Hts Hi).
    destruct Hm as (P & HP & Hp & Hm). destruct (Hm s HI HI' Hp) as (Hg & P' & HP' & Hp' & Hk).
    apply Forall_insert; [|exists P'; auto].
    eapply Forall_impl; [exact Hts|]. intros m Hmr. now apply (Hkeep s).
  - eapply Forall_impl; [exact Hts|]. intros m Hm. apply (Hkeep s); auto.
Qed.

(** The results of a pool of assured programs hold together, whatever the interleaving. *)
Lemma results_hold I G W ts s ts' s' i a :
  (forall s s', I s -> I s' -> env s s' -> G s s') ->
  I s -> Forall (assured I G W (fun _ => True)) ts -> rtc (step_in I) (ts, s) (ts', s') ->
  ts' !! i = Some (Ret a) -> W a s'.
Proof.
  intros Henv Hs Hts Hsteps Hi.
  assert (Hs' : I s').
  { apply rtc_inv_r in Hsteps as [E|(c & _ & (_ & _ & HI))]; [now simplify_eq|exact HI]. }
  apply steps_assured with (G := G) (W := W) in Hsteps; [|exact Henv|].
  - destruct (Forall_lookup_1 _ _ _ _ Hsteps Hi) as (P & _ & HP & HW). exact (HW s' Hs' HP).
  - cbn. eapply Forall_impl; [exact Hts|]. intros m Hm. exists (fun _ => True).
    split_and!; [intros ? ? _ _ _ _; exact Logic.I|exact Logic.I|exact Hm].
Qed.

(** Running a program alone is one of its interleavings. *)
Lemma exec_steps ts i m s :
  ts !! i = Some m ->
  steps (ts, s) (<[i := match (exec m s).1 with Ok a => Ret a | Throw e => Raise e end]> ts, (exec m s).2).
Proof.
  revert ts s. induction m as [a|e|R p k IH]; intros ts s Hi; cbn.
  - rewrite list_insert_id by exact Hi. reflexivity.
  - rewrite list_insert_id by exact Hi. reflexivity.
  - eapply rtc_l; [eapply step_run; [exact Hi|reflexivity]|].
    assert (Hk : <[i := k (p s).1]> ts !! i = Some (k (p s).1))
      by (apply list_lookup_insert_eq; now apply lookup_lt_Some in Hi).
    specialize (IH _ _ (p s).2 Hk). now rewrite list_insert_insert_eq in IH.
Qed.
End Pool.

(** *** Sequencing *)

Section Obeys.
Context {S : Type} (I : S -> Prop) (G : S -> S -> Prop) (HI : forall s s', I s -> G s s' -> I s').

Lemma obeys_ret {A} (a : A) : obeys I G (Ret a).
Proof. exact Logic.I. Qed.
Lemma obeys_raise {A} e : obeys (A := A) I G (Raise e).
Proof. exact Logic.I. Qed.
Lemma obeys_bind {A B} (m : io S A) (f : A -> io S B) :
  obeys I G m -> (forall a, obeys I G (f a)) -> obeys I G (io_bind m f).
Proof.
  induction m as [a|e|R p k IH]; cbn; intros Hm Hf; [apply Hf|exact Logic.I|].
  intros s Hs. destruct (Hm s Hs). auto.
Qed.
Lemma obeys_catch {A} (m : io S A) h :
  obeys I G m -> (forall e, obeys I G (h e)) -> obeys I G (io_catch m h).
Proof.
  induction m as [a|e|R p k IH]; cbn; intros Hm Hh; [exact Logic.I|apply Hh|].
  intros s Hs. destruct (Hm s Hs). auto.
Qed.
Lemma obeys_act {A} (p : prog S A) : (forall s, I s -> G s (p s).2) -> obeys I G (act p).
Proof. intros Hp s Hs. split; [auto|]. destruct (p s).1; exact Logic.I. Qed.
Lemma obeys_each {A} (xs : list A) body : (forall x, obeys I G (body x)) -> obeys I G (io_each xs body).
Proof.
  intros Hb. induction xs as [|x xs IH]; cbn; [exact Logic.I|]. apply obeys_bind; [apply Hb|auto].
Qed.
Lemma obeys_finally {A} (m : io S A) c : obeys I G m -> obeys I G c -> obeys I G (io_finally m c).
Proof.
  intros Hm Hc. apply obeys_bind.
  - apply obeys_catch; [|intros; exact Logic.I]. apply obeys_bind; [exact Hm|intros; exact Logic.I].
  - intros r. apply obeys_bind; [exact Hc|]. intros _. now destruct r.
Qed.
End Obeys.

(** A program run alone makes only the steps its actions make. *)
Lemma obeys_exec {S A} (G : S -> S -> Prop) (m : io S A) s :
  PreOrder G -> obeys (fun _ => True) G m -> G s (exec m s).2.
Proof.
  intros HG. revert s. induction m as [a|e|R p k IH]; intros s Hm; cbn; [reflexivity|reflexivity|].
  destruct (Hm s Logic.I) as [Hp Hk]. etransitivity; [exact Hp|]. now apply IH.
Qed.

Create HintDb obeys.
#[export] Hint Resolve obeys_ret obeys_raise : obeys.

(** Walks through a program; atomic actions are left to the hint database. *)
Ltac obey_step :=
  lazymatch goal with
  | |- obeys _ _ (Ret _) => exact Logic.I
  | |- obeys _ _ (Raise _) => exact Logic.I
  | |- obeys _ _ (io_bind _ _) => apply obeys_bind
  | |- obeys _ _ (io_catch _ _) => apply obeys_catch
  | |- obeys _ _ (io_finally _ _) => apply obeys_finally
  | |- obeys _ _ (io_each _ _) => apply obeys_each
  | |- obeys ?I ?G (let x := ?v in @?b x) =>
      let y := fresh x in pose (y := v); change (obeys I G (b y)); cbv beta; clearbody y
  | |- obeys _ _ (match ?x with _ => _ end) => destruct x
  | |- obeys _ _ _ => solve [eauto 4 with obeys]
  | |- forall _, _ => intro
  end.
Ltac obey := repeat obey_step.

(** The rules of [assured]. *)
Section Assured.
Context {S : Type} (I : S -> Prop) (G : S -> S -> Prop).

Lemma true_stable : stable I G (fun _ => True).
Proof. intros ? ? _ _ _ _. exact Logic.I. Qed.
Lemma and_stable P Q : stable I G P -> stable I G Q -> stable I G (fun s => P s /\ Q s).
Proof. intros HP HQ s s' Hs Hs' Hg [Hp Hq]. split; [now apply (HP s)|now apply (HQ s)]. Qed.

Lemma assured_strengthen {A} (W : A -> S -> Prop) (P Q : S -> Prop) m :
  (forall s, I s -> Q s -> P s) -> assured I G W P m -> assured I G W Q m.
Proof. intros HPQ. destruct m as [a|e|R p k]; cbn; auto. Qed.
Lemma assured_bind {A B} (W1 : A -> S -> Prop) (W : B -> S -> Prop) P (m : io S A) (f : A -> io S B) :
  assured I G W1 P m -> (forall a, assured I G W (W1 a) (f a)) -> assured I G W P (io_bind m f).
Proof.
  intros Hm Hf. revert P Hm. induction m as [a|e|R p k IH]; intros P; cbn; intros Hm; [|exact Logic.I|].
  - eapply assured_strengthen; [|apply Hf]. exact Hm.
  - intros s Hs Hs' HP. destruct (Hm s Hs Hs' HP) as (Hg & P' & HP' & Hp' & Hk). split; [exact Hg|].
    exists P'. auto.
Qed.
Lemma assured_act {A} (W : A -> S -> Prop) (P : S -> Prop) (p : prog S A) :
  (forall a, stable I G (W a)) ->
  (forall s, I s -> I (p s).2 -> P s -> G s (p s).2 /\ forall a, (p s).1 = Ok a -> W a (p s).2) ->
  assured I G W P (act p).
Proof.
  intros HW Hp s Hs Hs' HP. destruct (Hp s Hs Hs' HP) as [Hg Ha]. split; [exact Hg|].
  destruct (p s).1 as [a|e].
  - exists (W a). split_and!; [apply HW|auto|]. intros ? _ ?. assumption.
  - exists (fun _ => True). split_and!; [intros ? ? _ _ _ _; exact Logic.I|exact Logic.I|exact Logic.I].
Qed.
Lemma assured_raise {A} (W : A -> S -> Prop) P e : assured I G W P (Raise e).
Proof. exact Logic.I. Qed.

(** A part of a program whose result does not matter. *)
Lemma assured_obeys {A} (W : A -> S -> Prop) (P : S -> Prop) (m : io S A) :
  stable I G P -> (forall a s, I s -> P s -> W a s) -> obeys I G m -> assured I G W P m.
Proof.
  intros HP HW. induction m as [a|e|R p k IH]; cbn; [auto|auto|]. intros Hm s Hs Hs' Hp.
  destruct (Hm s Hs) as [Hg Hk]. split; [exact Hg|]. exists P. split_and!; [exact HP|now apply (HP s)|auto].
Qed.
End Assured.

(** ** Replaying an interleaving *)

Section Schedule.
Context {S A : Type} (tick : Z -> S -> S).

Inductive event := Run (i : nat) | Wait (d : Z).

Definition replay_one (c : list (io S A) * S) (e : event) : list (io S A) * S :=
  match e with
  | Run i => match c.1 !! i ≫= fun m => run_one m c.2 with
             | Some (m', s') => (<[i := m']> c.1, s')
             | None => c
             end
  | Wait d => (c.1, tick (Z.max 0 d) c.2)
  end.
Definition schedule (evs : list event) (c : list (io S A) * S) : list (io S A) * S :=
  fold_left replay_one evs c.

Definition time_passes (s s' : S) : Prop := exists d, 0 <= d /\ s' = tick d s.

Lemma replay_step c e : replay_one c e = c \/ step time_passes c (replay_one c e).
Proof.
  destruct c as [ts s]. destruct e as [i|d]; cbn.
  - destruct (ts !! i) as [m|] eqn:Hi; cbn; [|now left].
    destruct (run_one m s) as [[m' s']|] eqn:Hr; cbn; [|now left]. right. eapply step_run; eassumption.
  - right. apply step_env. exists (Z.max 0 d). split; [lia|reflexivity].
Qed.

Lemma schedule_steps evs c : steps time_passes c (schedule evs c).
Proof.
  revert c. induction evs as [|e evs IH]; intros c; [reflexivity|]. cbn.
  etransitivity; [|apply IH]. destruct (replay_step c e) as [->|Hs]; [reflexivity|now apply rtc_once].
Qed.

(** A check that holds in every state of a replay. *)
Fixpoint along (check : S -> bool) (evs : list event) (c : list (io S A) * S) : bool :=
  check c.2 && match evs with [] => true | e :: rest => along check rest (replay_one c e) end.

Lemma schedule_steps_in (I : S -> Prop) check evs c :
  (forall s, check s = true -> I s) -> along check evs c = true ->
  rtc (step_in time_passes I) c (schedule evs c).
Proof.
  intros HI. revert c. induction evs as [|e evs IH]; intros c Hc; [reflexivity|].
  cbn [along] in Hc. apply andb_true_iff in Hc as [Hc Hrest]. cbn. etransitivity; [|now apply IH].
  destruct (replay_step c e) as [->|Hs]; [reflexivity|]. apply rtc_once. split_and!; [auto|exact Hs|].
  apply HI. destruct evs; cbn [along] in Hrest; now apply andb_true_iff in Hrest as [? _].
Qed.
End Schedule.
