(* ===== verification/JsNum.v ===== *)
(** * JavaScript numbers

    Every amount of the backend is an IEEE-754 double.  Doubles are modelled
    exactly by the standard library's [spec_float] at precision 53 / emax 1024,
    so the model computes bit for bit what V8 computes: the arithmetic
    operators, the comparisons (with NaN and signed zero), [Number.isFinite],
    [Math.abs/floor/max/min], [Number.prototype.toFixed], [Number(string)] and
    [Number::toString].  *)

From Stdlib Require Import SpecFloat.
From S2P Require Import Prelude.
Local Open Scope Z_scope.

(** ** Doubles *)

Definition num : Type := spec_float.
Definition prec : Z := 53.
Definition emax : Z := 1024.

Definition NaN : num := S754_nan.
Definition pinf : num := S754_infinity false.
Definition ninf : num := S754_infinity true.
Definition n0 : num := S754_zero false.

#[export] Instance num_eq_dec : EqDecision num.
Proof. solve_decision. Defined.

Definition nadd : num -> num -> num := SFadd prec emax.
Definition nsub : num -> num -> num := SFsub prec emax.
Definition nmul : num -> num -> num := SFmul prec emax.
Definition ndiv : num -> num -> num := SFdiv prec emax.
Definition nneg : num -> num := SFopp.
Definition nabs : num -> num := SFabs.

Definition neqb : num -> num -> bool := SFeqb.
Definition nltb : num -> num -> bool := SFltb.
Definition nleb : num -> num -> bool := SFleb.

Definition is_nan (x : num) : bool := match x with S754_nan => true | _ => false end.
Definition is_finite (x : num) : bool :=
  match x with S754_nan | S754_infinity _ => false | _ => true end.

(** The double nearest to the rational [n / d] (ties to even). *)
Definition num_of_ratio (n : Z) (d : positive) : num :=
  match n with
  | Z0 => n0
  | Zpos p => let '(q, e, l) := SFdiv_core_binary prec emax (Zpos p) 0 (Zpos d) 0 in
              binary_round_aux prec emax false q e l
  | Zneg p => let '(q, e, l) := SFdiv_core_binary prec emax (Zpos p) 0 (Zpos d) 0 in
              binary_round_aux prec emax true q e l
  end.

Definition num_of_Z (n : Z) : num := num_of_ratio n 1.

(** The double nearest to [m * 10^k]. *)
Definition num_of_decimal (m k : Z) : num :=
  if 0 <=? k then num_of_ratio (m * 10 ^ k) 1
  else num_of_ratio m (Z.to_pos (10 ^ (- k))).

(** [Math.max] / [Math.min] on two arguments, up to the sign of a zero result
    (the results are only compared and printed with [toFixed]). *)
Definition nmax (x y : num) : num :=
  if is_nan x || is_nan y then NaN else if nltb x y then y else x.
Definition nmin (x y : num) : num :=
  if is_nan x || is_nan y then NaN else if nltb y x then y else x.

(** [Math.floor] *)
Definition nfloor (x : num) : num :=
  match x with
  | S754_finite s m e =>
      if 0 <=? e then x
      else let v := (if s then Zneg m else Zpos m) in
           let q := v / 2 ^ (- e) in
           if q =? 0 then S754_zero s else num_of_Z q
  | _ => x
  end.

(** ** Decimal text *)

Definition digit_char (d : Z) : ascii := ascii_of_nat (48 + Z.to_nat d).

(** The value of a decimal digit character. *)
Definition char_digit (c : ascii) : option Z :=
  let n := Z.of_nat (nat_of_ascii c) in
  if (48 <=? n) && (n <=? 57) then Some (n - 48) else None.

(** Decimal digits of [n >= 0] in front of [acc]; [2 ^ fuel > n] is enough. *)
Fixpoint print_digits (fuel : nat) (n : Z) (acc : string) : string :=
  match fuel with
  | O => acc
  | S f =>
      let acc' := String (digit_char (n mod 10)) acc in
      if n <? 10 then acc' else print_digits f (n / 10) acc'
  end.
Definition print_Z (n : Z) (acc : string) : string :=
  print_digits (S (S (Z.to_nat (Z.log2 n)))) n acc.

(** The [f] decimal digits of [n mod 10^f], most significant first. *)
Fixpoint print_frac (f : nat) (n : Z) (acc : string) : string :=
  match f with
  | O => acc
  | S f' => String (digit_char ((n / 10 ^ Z.of_nat f') mod 10)) (print_frac f' n acc)
  end.

(** Reads the leading decimal digits: value, number of digits read, rest. *)
Fixpoint scan_digits (v : Z) (c : nat) (s : string) : Z * nat * string :=
  match s with
  | String a s' =>
      match char_digit a with
      | Some d => scan_digits (v * 10 + d) (S c) s'
      | None => (v, c, s)
      end
  | EmptyString => (v, c, s)
  end.

(** ** [Number.prototype.toFixed] *)

(** The integer [n] for which [n / 10^f] is closest to [|x|], the larger one on a tie. *)
Definition fixed_units (f : nat) (x : num) : Z :=
  match x with
  | S754_finite _ m e =>
      if 0 <=? e then Zpos m * 2 ^ e * 10 ^ Z.of_nat f
      else (2 * Zpos m * 10 ^ Z.of_nat f + 2 ^ (- e)) / 2 ^ (1 - e)
  | _ => 0
  end.

Definition is_neg (x : num) : bool := nltb x n0.

Definition print_fixed (neg : bool) (f : nat) (n : Z) : string :=
  let p := 10 ^ Z.of_nat f in
  let body := print_Z (n / p) (match f with O => "" | _ => String "." (print_frac f n "") end) in
  if neg then String "-" body else body.

(** ** [Number::toString] *)

(** [10^(n-1) <= m * 2^e < 10^n], searched downwards from an upper estimate. *)
Definition pow10_le (k m e : Z) : bool :=
  (* 10^k <= m * 2^e *)
  let a := if 0 <=? k then 10 ^ k else 1 in
  let b := if 0 <=? k then 1 else 10 ^ (- k) in
  let c := if 0 <=? e then m * 2 ^ e else m in
  let d := if 0 <=? e then 1 else 2 ^ (- e) in
  a * d <=? c * b.
Fixpoint dec_exponent (fuel : nat) (n m e : Z) : Z :=
  match fuel with
  | O => n
  | S f => if pow10_le (n - 1) m e then n else dec_exponent f (n - 1) m e
  end.

(** The [k]-digit decimal nearest to [m * 2^e], scaled by [10^(n-k)]. *)
Definition nearest_decimal (k n m e : Z) : Z :=
  let num_ := m * (if 0 <=? e then 2 ^ e else 1) * (if 0 <=? k - n then 10 ^ (k - n) else 1) in
  let den := (if 0 <=? e then 1 else 2 ^ (- e)) * (if 0 <=? k - n then 1 else 10 ^ (n - k)) in
  (2 * num_ + den) / (2 * den).

(** The shortest decimal [(s, k, n)], [s * 10^(n-k)], that reads back as [m * 2^e]. *)
Fixpoint shortest_decimal (fuel : nat) (k n m e : Z) : Z * Z * Z :=
  let s := nearest_decimal k n m e in
  match fuel with
  | O => (s, k, n)
  | S f =>
      if bool_decide (num_of_decimal s (n - k) = S754_finite false (Z.to_pos m) e)
      then (if s =? 10 ^ k then (10 ^ (k - 1), k, n + 1) else (s, k, n))
      else shortest_decimal f (k + 1) n m e
  end.

Fixpoint zeros (n : nat) (acc : string) : string :=
  match n with O => acc | S n' => String "0" (zeros n' acc) end.

Definition string_take (n : nat) (s : string) : string := String.substring 0 n s.
Definition string_drop (n : nat) (s : string) : string :=
  String.substring n (String.length s - n) s.

Definition print_shortest (s k n : Z) : string :=
  let ds := print_Z s "" in
  if (k <=? n) && (n <=? 21) then ds +:+ zeros (Z.to_nat (n - k)) ""
  else if (0 <? n) && (n <=? 21) then
    string_take (Z.to_nat n) ds +:+ "." +:+ string_drop (Z.to_nat n) ds
  else if (-6 <? n) && (n <=? 0) then "0." +:+ zeros (Z.to_nat (- n)) ds
  else
    let ex := n - 1 in
    let tail := String "e" (String (if 0 <=? ex then "+"%char else "-"%char) (print_Z (Z.abs ex) "")) in
    if k =? 1 then ds +:+ tail
    else string_take 1 ds +:+ "." +:+ string_drop 1 ds +:+ tail.

Definition num_to_string (x : num) : string :=
  match x with
  | S754_nan => "NaN"
  | S754_zero _ => "0"
  | S754_infinity s => if s then "-Infinity" else "Infinity"
  | S754_finite s m e =>
      let n := dec_exponent 4 ((Zpos (digits2_pos m) + e) * 30103 / 100000 + 2) (Zpos m) e in
      let '(d, k, n') := shortest_decimal 17 1 n (Zpos m) e in
      let body := print_shortest d k n' in
      if s then String "-" body else body
  end.

(** [x.toFixed(f)]; from 1e21 on it is [String(x)]. *)
Definition num_toFixed (f : nat) (x : num) : string :=
  match x with
  | S754_nan | S754_infinity _ => num_to_string x
  | _ => if nleb (num_of_Z (10 ^ 21)) (nabs x) then num_to_string x
         else print_fixed (is_neg x) f (fixed_units f x)
  end.

(** ** [Number(string)] *)

(** JavaScript white space and line terminators below code point 128. *)
Definition is_space (c : ascii) : bool :=
  let n := nat_of_ascii c in
  ((9 <=? n)%nat && (n <=? 13)%nat) || (n =? 32)%nat.
Fixpoint trim_left (s : string) : string :=
  match s with
  | String c s' => if is_space c then trim_left s' else s
  | EmptyString => EmptyString
  end.
Fixpoint trim_right (s : string) : string :=
  match s with
  | EmptyString => EmptyString
  | String c s' =>
      match trim_right s' with
      | EmptyString => if is_space c then EmptyString else String c EmptyString
      | r => String c r
      end
  end.
Definition trim (s : string) : string := trim_right (trim_left s).

(** [e±ddd]; [None] when the text is not an exponent part reaching the end. *)
Definition scan_exponent (s : string) : option Z :=
  match s with
  | EmptyString => Some 0
  | String c s' =>
      if ((c =? "e")%char || (c =? "E")%char)%bool then
        let '(neg, s'') :=
          match s' with
          | String "-" r => (true, r)
          | String "+" r => (false, r)
          | _ => (false, s')
          end in
        let '(v, n, rest) := scan_digits 0 0 s'' in
        match n, rest with
        | S _, EmptyString => Some (if neg : bool then - v else v)
        | _, _ => None
        end
      else None
  end.

Definition signed (neg : bool) (x : num) : num := if neg then nneg x else x.

(** An unsigned StrDecimalLiteral other than [Infinity]. *)
Definition scan_decimal (s : string) : option num :=
  let '(v, n, rest) := scan_digits 0 0 s in
  match rest with
  | String "." rest' =>
      let '(w, n', rest'') := scan_digits v 0 rest' in
      if (n + n' =? 0)%nat then None
      else match scan_exponent rest'' with
           | Some ex => Some (num_of_decimal w (ex - Z.of_nat n'))
           | None => None
           end
  | _ => if (n =? 0)%nat then None
         else match scan_exponent rest with
              | Some ex => Some (num_of_decimal v ex)
              | None => None
              end
  end.

(** Digits of a [0x] / [0o] / [0b] literal. *)
Definition radix_digit (c : ascii) : Z :=
  let n := Z.of_nat (nat_of_ascii c) in
  if (48 <=? n) && (n <=? 57) then n - 48
  else if (97 <=? n) && (n <=? 122) then n - 87
  else if (65 <=? n) && (n <=? 90) then n - 55
  else 99.
Fixpoint scan_radix (r v : Z) (s : string) : option Z :=
  match s with
  | EmptyString => Some v
  | String c s' => let d := radix_digit c in
                   if d <? r then scan_radix r (v * r + d) s' else None
  end.
Definition radix_of (c : ascii) : option Z :=
  if ((c =? "x")%char || (c =? "X")%char)%bool then Some 16
  else if ((c =? "o")%char || (c =? "O")%char)%bool then Some 8
  else if ((c =? "b")%char || (c =? "B")%char)%bool then Some 2
  else None.

Definition scan_signed (neg : bool) (s : string) : num :=
  if s =s? "Infinity" then (if neg then ninf else pinf)
  else match scan_decimal s with Some x => signed neg x | None => NaN end.

Definition string_to_num (s0 : string) : num :=
  match trim s0 with
  | EmptyString => n0
  | String "-" s => scan_signed true s
  | String "+" s => scan_signed false s
  | String "0" (String c (String d s)) as t =>
      match radix_of c with
      | Some r => match scan_radix r 0 (String d s) with
                  | Some v => num_of_Z v
                  | None => NaN
                  end
      | None => scan_signed false t
      end
  | t => scan_signed false t
  end.

(** [Number(x.toFixed(4))], the rounding every stored amount goes through. *)
Definition round4 (x : num) : num := string_to_num (num_toFixed 4 x).

(** ** Printing and reading fixed-point text *)

Fixpoint all_chars (p : ascii -> bool) (s : string) : bool :=
  match s with EmptyString => true | String c s' => p c && all_chars p s' end.
Lemma all_chars_impl (p q : ascii -> bool) s : (forall c, p c = true -> q c = true) -> all_chars p s = true -> all_chars q s = true.
Proof. intros Hpq. induction s as [|c s IH]; cbn; [auto|]. rewrite !andb_true_iff. intros [? ?]. auto. Qed.
(** Characters of unsigned fixed-point text. *)
Definition plain_char (c : ascii) : bool :=
  match char_digit c with Some _ => true | None => (c =? ".")%char end.

Lemma char_digit_print d : 0 <= d < 10 -> char_digit (digit_char d) = Some d.
Proof.
  intros Hd.
  assert (Hcases : d = 0 \/ d = 1 \/ d = 2 \/ d = 3 \/ d = 4 \/ d = 5 \/ d = 6 \/ d = 7 \/ d = 8 \/ d = 9)
    by lia.
  repeat (destruct Hcases as [-> | Hcases]; [reflexivity|]). subst; reflexivity.
Qed.

Lemma digit_char_plain d : 0 <= d < 10 -> plain_char (digit_char d) = true.
Proof. intros Hd. unfold plain_char. now rewrite char_digit_print. Qed.

Lemma plain_char_not_space c : plain_char c = true -> is_space c = false.
Proof. destruct c as [[] [] [] [] [] [] [] []]; vm_compute; congruence. Qed.

Lemma plain_char_radix c : plain_char c = true -> radix_of c = None.
Proof. destruct c as [[] [] [] [] [] [] [] []]; vm_compute; congruence. Qed.

Lemma trim_left_plain s : all_chars plain_char s = true -> trim_left s = s.
Proof.
  destruct s as [|c s]; [reflexivity|]. cbn. intros [Hc _]%andb_true_iff.
  now rewrite (plain_char_not_space _ Hc).
Qed.

Lemma trim_right_plain s : all_chars plain_char s = true -> trim_right s = s.
Proof.
  induction s as [|c s IH]; [reflexivity|]. cbn. intros [Hc Hs]%andb_true_iff.
  rewrite (IH Hs), (plain_char_not_space _ Hc). now destruct s.
Qed.

Lemma trim_plain s : all_chars plain_char s = true -> trim s = s.
Proof. intros Hs. unfold trim. now rewrite trim_left_plain, trim_right_plain. Qed.

Lemma trim_minus_plain s :
  all_chars plain_char s = true -> trim (String "-" s) = String "-" s.
Proof.
  intros Hs. unfold trim. change (trim_left (String "-" s)) with (String "-" s). cbn [trim_right].
  rewrite (trim_right_plain s Hs). now destruct s.
Qed.

Lemma string_to_num_plain s :
  all_chars plain_char s = true -> s <> "" -> string_to_num s = scan_signed false s.
Proof.
  intros Hs Hne. unfold string_to_num. rewrite (trim_plain s Hs).
  destruct s as [|c s]; [congruence|]. cbn in Hs.
  apply andb_true_iff in Hs as [Hc Hs].
  destruct (ascii_dec c "-") as [->|]; [vm_compute in Hc; congruence|].
  destruct (ascii_dec c "+") as [->|]; [vm_compute in Hc; congruence|].
  assert (Hrest : match s with String c' (String _ _) => radix_of c' = None | _ => True end).
  { destruct s as [|c' [|]]; trivial. cbn in Hs. apply andb_true_iff in Hs as [Hc' _].
    now apply plain_char_radix. }
  destruct c as [[] [] [] [] [] [] [] []]; try reflexivity; try congruence.
  destruct s as [|c' [|d s]]; try reflexivity. now rewrite Hrest.
Qed.

Lemma string_to_num_minus s :
  all_chars plain_char s = true -> string_to_num (String "-" s) = scan_signed true s.
Proof. intros Hs. unfold string_to_num. now rewrite (trim_minus_plain s Hs). Qed.

Lemma print_digits_plain fuel n acc :
  0 <= n -> all_chars plain_char acc = true -> all_chars plain_char (print_digits fuel n acc) = true.
Proof.
  revert n acc. induction fuel as [|f IH]; intros n acc Hn Hacc; [exact Hacc|]. cbn [print_digits].
  assert (Hd : plain_char (digit_char (n mod 10)) = true) by (apply digit_char_plain; Z.div_mod_to_equations; lia).
  destruct (n <? 10); [cbn; now rewrite Hd|].
  apply IH; [Z.div_mod_to_equations; lia | cbn; now rewrite Hd].
Qed.

Lemma print_frac_plain f n acc :
  0 <= n -> all_chars plain_char acc = true -> all_chars plain_char (print_frac f n acc) = true.
Proof.
  intros Hn Hacc. induction f as [|f IH]; [exact Hacc|]. cbn. rewrite digit_char_plain; [exact IH|].
  apply Z.mod_pos_bound; lia.
Qed.

Lemma scan_print_digits fuel n acc v c :
  0 <= n < 2 ^ Z.of_nat fuel ->
  exists k, scan_digits v c (print_digits (S fuel) n acc) =
            scan_digits (v * 10 ^ Z.of_nat (S k) + n) (c + S k) acc.
Proof.
  revert n acc. induction fuel as [|f IH]; intros n acc Hn.
  - exists O. assert (n = 0) as -> by (cbn in Hn; lia). cbn.
    f_equal; lia.
  - change (print_digits (S (S f)) n acc) with
      (if n <? 10 then String (digit_char (n mod 10)) acc
       else print_digits (S f) (n / 10) (String (digit_char (n mod 10)) acc)).
    assert (Hmod : 0 <= n mod 10 < 10) by (apply Z.mod_pos_bound; lia).
    destruct (Z.ltb_spec n 10).
    + exists O. cbn [scan_digits]. rewrite (char_digit_print _ Hmod).
      rewrite Z.mod_small by lia. f_equal; lia.
    + destruct (IH (n / 10) (String (digit_char (n mod 10)) acc)) as [k Hk].
      { rewrite Nat2Z.inj_succ, Z.pow_succ_r in Hn by lia. Z.div_mod_to_equations; lia. }
      exists (S k). rewrite Hk. cbn [scan_digits]. rewrite (char_digit_print _ Hmod).
      rewrite (Nat2Z.inj_succ (S k)), Z.pow_succ_r by lia.
      f_equal; [|lia]. set (p := v * 10 ^ Z.of_nat (S k)).
      replace (v * (10 * 10 ^ Z.of_nat (S k))) with (10 * p) by (subst p; ring).
      Z.div_mod_to_equations; lia.
Qed.

Lemma scan_print_Z n acc v c :
  0 <= n ->
  exists k, scan_digits v c (print_Z n acc) =
            scan_digits (v * 10 ^ Z.of_nat (S k) + n) (c + S k) acc.
Proof.
  intros Hn. apply scan_print_digits. split; [exact Hn|].
  rewrite Nat2Z.inj_succ, Z2Nat.id by apply Z.log2_nonneg.
  destruct (Z.eq_dec n 0) as [->|Hnz]; [reflexivity|].
  apply (Z.log2_spec n); lia.
Qed.

Lemma scan_print_frac f n acc v c :
  0 <= n ->
  scan_digits v c (print_frac f n acc) =
  scan_digits (v * 10 ^ Z.of_nat f + n mod 10 ^ Z.of_nat f) (c + f) acc.
Proof.
  intros Hn. revert v c. induction f as [|f IH]; intros v c.
  - cbn. rewrite Z.mod_1_r. f_equal; lia.
  - cbn [print_frac scan_digits]. rewrite char_digit_print by (apply Z.mod_pos_bound; lia).
    rewrite IH, (Nat2Z.inj_succ f), Z.pow_succ_r by lia.
    set (p := 10 ^ Z.of_nat f). assert (Hp : 0 < p) by (apply Z.pow_pos_nonneg; lia).
    f_equal; [|lia].
    rewrite (Z.mul_comm 10 p), (Z.rem_mul_r n p 10) by lia. lia.
Qed.

(** Reading the text of [n / 10^f] gives the double nearest to that rational. *)
Lemma string_to_num_print_fixed neg f n :
  0 <= n -> f <> O ->
  string_to_num (print_fixed neg f n) = signed neg (num_of_decimal n (- Z.of_nat f)).
Proof.
  intros Hn Hf. unfold print_fixed. destruct f as [|f]; [congruence|].
  set (F := S f) in *. set (p := 10 ^ Z.of_nat F).
  assert (Hp : 0 < p) by (apply Z.pow_pos_nonneg; lia).
  set (tail := String "." (print_frac F n "")).
  assert (Hq : 0 <= n / p) by (apply Z.div_pos; lia).
  assert (Htail : all_chars plain_char tail = true).
  { unfold tail. change (all_chars plain_char (print_frac F n "") = true). now apply print_frac_plain. }
  assert (Hbody : all_chars plain_char (print_Z (n / p) tail) = true) by now apply print_digits_plain.
  assert (Hscan : scan_decimal (print_Z (n / p) tail) = Some (num_of_decimal n (- Z.of_nat F))).
  { unfold scan_decimal. destruct (scan_print_Z (n / p) tail 0 0 Hq) as [k ->].
    unfold tail. cbn [scan_digits]. change (char_digit ".") with (@None Z). cbv iota beta.
    rewrite scan_print_frac by exact Hn. cbn [scan_digits].
    replace (0 * 10 ^ Z.of_nat (S k) + n / p) with (n / p) by lia. fold p.
    replace (n / p * p + n mod p) with n by (pose proof (Z_div_mod_eq_full n p); lia).
    unfold F. cbn [Nat.add Nat.eqb scan_exponent]. reflexivity. }
  assert (Hinf : forall s, all_chars plain_char s = true -> (s =s? "Infinity") = false).
  { intros [|c s]; [reflexivity|]. cbn. intros [Hc _]%andb_true_iff.
    destruct (ascii_dec c "I") as [->|Hne]; [vm_compute in Hc; congruence|].
    destruct (Ascii.eqb_spec c "I"); [congruence|reflexivity]. }
  assert (Hsig : forall b, scan_signed b (print_Z (n / p) tail) = signed b (num_of_decimal n (- Z.of_nat F)))
    by (intros b; unfold scan_signed; now rewrite (Hinf _ Hbody), Hscan).
  destruct neg.
  - rewrite (string_to_num_minus _ Hbody). apply Hsig.
  - rewrite (string_to_num_plain _ Hbody); [apply Hsig|].
    intros E. pose proof Hscan as Hs. rewrite E in Hs. discriminate Hs.
Qed.

(** ** [toFixed] is within half a unit in the last place *)

Lemma fixed_units_nonneg f x : 0 <= fixed_units f x.
Proof.
  destruct x as [|?| |s m e]; cbn; try lia.
  assert (0 < 10 ^ Z.of_nat f) by (apply Z.pow_pos_nonneg; lia).
  destruct (Z.leb_spec 0 e).
  - assert (0 < 2 ^ e) by (apply Z.pow_pos_nonneg; lia). nia.
  - apply Z.div_pos; [|apply Z.pow_pos_nonneg; lia].
    assert (0 < 2 ^ (- e)) by (apply Z.pow_pos_nonneg; lia). nia.
Qed.

(** [|fixed_units f x / 10^f - |x|| <= 10^-f / 2], cleared of denominators. *)
Lemma fixed_units_error f s m e :
  e < 0 ->
  let n := fixed_units f (S754_finite s m e) in
  2 * Z.abs (n * 2 ^ (- e) - Zpos m * 10 ^ Z.of_nat f) <= 2 ^ (- e).
Proof.
  intros He. cbn. destruct (Z.leb_spec 0 e); [lia|].
  set (D := 2 ^ (- e)). set (P := 10 ^ Z.of_nat f).
  assert (HD : 0 < D) by (apply Z.pow_pos_nonneg; lia).
  replace (2 ^ (1 - e)) with (2 * D) by (subst D; rewrite <- Z.pow_succ_r by lia; f_equal; lia).
  pose proof (Z_div_mod_eq_full (2 * Z.pos m * P + D) (2 * D)).
  pose proof (Z.mod_pos_bound (2 * Z.pos m * P + D) (2 * D) ltac:(lia)).
  set (q := (2 * Z.pos m * P + D) / (2 * D)) in *.
  set (r := (2 * Z.pos m * P + D) mod (2 * D)) in *. nia.
Qed.

Lemma num_of_decimal_4 n : num_of_decimal n (- Z.of_nat 4) = num_of_ratio n 10000.
Proof. reflexivity. Qed.

Lemma num_toFixed_finite f x :
  is_finite x = true -> nleb (num_of_Z (10 ^ 21)) (nabs x) = false ->
  num_toFixed f x = print_fixed (is_neg x) f (fixed_units f x).
Proof.
  intros Hfin Hsmall. unfold num_toFixed.
  destruct x; cbn [is_finite] in Hfin; try discriminate Hfin; rewrite Hsmall; exact eq_refl.
Qed.

(** Below 1e21, [Number(x.toFixed(4))] is the double nearest to the fixed-point value. *)
Lemma round4_finite x :
  is_finite x = true -> nleb (num_of_Z (10 ^ 21)) (nabs x) = false ->
  round4 x = signed (is_neg x) (num_of_ratio (fixed_units 4 x) 10000).
Proof.
  intros Hfin Hsmall. unfold round4. rewrite num_toFixed_finite by assumption.
  rewrite string_to_num_print_fixed, num_of_decimal_4; [exact eq_refl | apply fixed_units_nonneg | discriminate].
Qed.
