(* ===== verification/JsRound.v ===== *)
(** * Rounding facts

    What the amount arithmetic relies on: the double read back from a 4-decimal
    text is within half an ulp of it, hence (for amounts below 2^38) printing it
    with [toFixed(4)] gives the same text again; and the exact cancellation
    [x + (-x) = 0].  Proved from the definitions of [spec_float]; no axiom and no
    real numbers are involved. *)

From Stdlib Require Import SpecFloat.
From S2P Require Import Prelude JsNum.
Local Open Scope Z_scope.

(** ** Binary digits *)

Lemma digits2_pos_bounds p :
  2 ^ (Zpos (digits2_pos p) - 1) <= Zpos p < 2 ^ Zpos (digits2_pos p).
Proof.
  induction p as [p IH|p IH|]; cbn [digits2_pos]; [| |vm_compute; split; congruence].
  - rewrite Pos2Z.inj_succ.
    replace (Z.succ (Zpos (digits2_pos p)) - 1) with (Z.succ (Zpos (digits2_pos p) - 1)) by lia.
    rewrite !Z.pow_succ_r by lia. rewrite (Pos2Z.inj_xI p). lia.
  - rewrite Pos2Z.inj_succ.
    replace (Z.succ (Zpos (digits2_pos p)) - 1) with (Z.succ (Zpos (digits2_pos p) - 1)) by lia.
    rewrite !Z.pow_succ_r by lia. rewrite (Pos2Z.inj_xO p). lia.
Qed.

Lemma digits2_pos_unique p k :
  0 < k -> 2 ^ (k - 1) <= Zpos p < 2 ^ k -> Zpos (digits2_pos p) = k.
Proof.
  intros Hk [Hlo Hhi]. pose proof (digits2_pos_bounds p) as [Hl Hh].
  set (j := Zpos (digits2_pos p)) in *. assert (0 < j) by (subst j; lia).
  assert (k - 1 < j) by (apply (Z.pow_lt_mono_r_iff 2); lia).
  assert (j - 1 < k) by (apply (Z.pow_lt_mono_r_iff 2); lia). lia.
Qed.

(** ** Where a remainder lies relative to the half *)

Definition loc_spec (l : location) (r d : Z) : Prop :=
  match l with
  | loc_Exact => r = 0
  | loc_Inexact c => 0 < r /\ (2 * r ?= d) = c
  end.

Lemma new_location_spec d r : 0 < d -> 0 <= r < d -> loc_spec (new_location d r) r d.
Proof.
  intros Hd Hr. unfold new_location.
  destruct (Z.even d) eqn:Heven; unfold new_location_even, new_location_odd;
    destruct (Z.eqb_spec r 0) as [Hr0|Hr0]; unfold loc_spec; try exact Hr0;
    (split; [lia|]); [reflexivity|].
  assert (Hodd : Z.odd d = true) by (rewrite <- Z.negb_even, Heven; reflexivity).
  apply Z.odd_spec in Hodd as [k ->].
  destruct (Z.compare_spec (2 * r + 1) (2 * k + 1)) as [E|L|G];
    [apply Z.compare_lt_iff; lia | apply Z.compare_lt_iff; lia | apply Z.compare_gt_iff; lia].
Qed.

(** Rounding to nearest is within half a unit: [|R - (q + r/d)| <= 1/2]. *)
Lemma round_nearest_even_error q r d l :
  0 <= q -> 0 < d -> 0 <= r < d -> loc_spec l r d ->
  let q1 := round_nearest_even q l in
  2 * Z.abs (q1 * d - (q * d + r)) <= d /\ q <= q1 <= q + 1.
Proof.
  intros Hq Hd Hr Hl. destruct l as [|[]]; cbn in *; [nia| | |].
  - destruct Hl as [Hpos E]. apply Z.compare_eq_iff in E. destruct (Z.even q); nia.
  - destruct Hl as [Hpos E]. rewrite Z.compare_lt_iff in E. nia.
  - destruct Hl as [Hpos E]. rewrite Z.compare_gt_iff in E. nia.
Qed.

(** One right shift keeps the location exact: [q + r/d = 2 (q' + r'/2d)]. *)
Lemma shr_1_spec q r d l :
  0 < q -> 0 < d -> 0 <= r < d -> loc_spec l r d ->
  let mrs := shr_1 (shr_record_of_loc q l) in
  let q' := q / 2 in
  let r' := (q mod 2) * d + r in
  shr_m mrs = q' /\ loc_spec (loc_of_shr_record mrs) r' (2 * d).
Proof.
  intros Hq Hd Hr Hl. destruct q as [|p|p]; try lia.
  assert (Hdiv : forall p', Zpos p = 2 * p' \/ Zpos p = 2 * p' + 1 ->
     (Zpos p) / 2 = p' /\ (Zpos p) mod 2 = Zpos p - 2 * p')
    by (intros p' Hp; split; Z.div_mod_to_equations; lia).
  assert (Hloc : match l with
                 | loc_Exact => r = 0
                 | loc_Inexact Eq => 0 < r /\ 2 * r = d
                 | loc_Inexact Lt => 0 < r /\ 2 * r < d
                 | loc_Inexact Gt => 0 < r /\ d < 2 * r
                 end).
  { destruct l as [|c]; [exact Hl|]. destruct Hl as [Hpos E].
    destruct (Z.compare_spec (2 * r) d) as [H|H|H]; subst c; auto. }
  clear Hl.
  destruct p as [p|p|];
    [ destruct (Hdiv (Zpos p) ltac:(lia)) as [-> ->]
    | destruct (Hdiv (Zpos p) ltac:(lia)) as [-> ->]
    | destruct (Hdiv 0 ltac:(lia)) as [-> ->] ];
    destruct l as [|[]]; cbn [shr_record_of_loc shr_1 shr_m loc_of_shr_record orb] in *;
    (split; [reflexivity|]); unfold loc_spec; try nia; (split; [nia|]);
    (rewrite Z.compare_eq_iff || rewrite Z.compare_gt_iff || rewrite Z.compare_lt_iff); nia.
Qed.

(** ** The double nearest to a positive rational *)

(** [m * 2^e] (with [e < 0]) is normal and within half an ulp of [p / d]. *)
Definition near (p d m e : Z) : Prop :=
  e < 0 /\ 2 ^ 52 <= m < 2 ^ 53 /\ 2 * Z.abs (m * d - p * 2 ^ (- e)) <= d.

Lemma fexp_normal k : -1021 <= k -> fexp prec emax k = k - 53.
Proof. intros. unfold fexp, emin, prec, emax. lia. Qed.

(** Second half of [binary_round_aux]: renormalising a mantissa of 53 bits or 2^53. *)
Lemma renormalise q1 e1 :
  2 ^ 52 <= q1 <= 2 ^ 53 -> -1074 <= e1 ->
  let '(mrs, e2) := shr_fexp prec emax q1 e1 loc_Exact in
  2 ^ 52 <= shr_m mrs < 2 ^ 53 /\
  ((shr_m mrs = q1 /\ e2 = e1) \/ (2 * shr_m mrs = q1 /\ q1 = 2 ^ 53 /\ e2 = e1 + 1)).
Proof.
  intros Hq He. destruct q1 as [|p|p]; try lia. unfold shr_fexp, Zdigits2.
  destruct (Z.eq_dec (Zpos p) (2 ^ 53)) as [E|Hne].
  - change (2 ^ 53) with (Zpos (2 ^ 53)) in E. injection E as ->.
    change (Zpos (digits2_pos (2 ^ 53))) with 54.
    rewrite fexp_normal by lia. replace (54 + e1 - 53 - e1) with 1 by lia.
    cbn [shr iter_pos shr_record_of_loc]. split; [vm_compute; split; congruence|].
    right. split; [reflexivity|]. split; [reflexivity|]. lia.
  - rewrite (digits2_pos_unique p 53) by lia.
    rewrite fexp_normal by lia. replace (53 + e1 - 53 - e1) with 0 by lia.
    cbn [shr shr_record_of_loc shr_m]. split; [lia|]. left. lia.
Qed.

(** First half: a quotient of 53 or 54 bits with its remainder, rounded to 53 bits. *)
Lemma round_quotient q r d e' l :
  2 ^ 52 <= q < 2 ^ 54 -> 0 < d -> 0 <= r < d -> loc_spec l r d -> -1074 <= e' ->
  let '(mrs, e1) := shr_fexp prec emax q e' l in
  let q1 := round_nearest_even (shr_m mrs) (loc_of_shr_record mrs) in
  2 ^ 52 <= q1 <= 2 ^ 53 /\
  ((e1 = e' /\ 2 * Z.abs (q1 * d - (q * d + r)) <= d) \/
   (e1 = e' + 1 /\ 2 ^ 53 <= q /\ 2 * Z.abs (q1 * (2 * d) - (q * d + r)) <= 2 * d)).
Proof.
  intros Hq Hd Hr Hl He. destruct q as [|p|p]; try lia. unfold shr_fexp, Zdigits2.
  destruct (Z.lt_ge_cases (Zpos p) (2 ^ 53)) as [Hlt|Hge].
  - rewrite (digits2_pos_unique p 53) by lia.
    rewrite fexp_normal by lia. replace (53 + e' - 53 - e') with 0 by lia. cbn [shr].
    assert (Hloc : loc_of_shr_record (shr_record_of_loc (Zpos p) l) = l) by (now destruct l as [|[]]).
    assert (Hm : shr_m (shr_record_of_loc (Zpos p) l) = Zpos p) by (now destruct l as [|[]]).
    rewrite Hloc, Hm.
    destruct (round_nearest_even_error (Zpos p) r d l ltac:(lia) Hd Hr Hl) as [Herr Hb].
    split; [lia|]. left. split; [reflexivity|exact Herr].
  - rewrite (digits2_pos_unique p 54) by lia.
    rewrite fexp_normal by lia. replace (54 + e' - 53 - e') with 1 by lia. cbn [shr SpecFloat.iter_pos].
    destruct (shr_1_spec (Zpos p) r d l ltac:(lia) Hd Hr Hl) as [Hm Hloc].
    set (mrs := shr_1 _) in *. rewrite Hm.
    set (r' := (Z.pos p mod 2) * d + r) in *.
    assert (Hmod : 0 <= Z.pos p mod 2 < 2) by (apply Z.mod_pos_bound; lia).
    assert (Hr' : 0 <= r' < 2 * d) by (subst r'; nia).
    destruct (round_nearest_even_error (Zpos p / 2) r' (2 * d) _ ltac:(Z.div_mod_to_equations; lia) ltac:(lia) Hr' Hloc)
      as [Herr Hb].
    assert (Hval : Zpos p / 2 * (2 * d) + r' = Zpos p * d + r).
    { subst r'. pose proof (Z_div_mod_eq_full (Zpos p) 2). nia. }
    rewrite Hval in Herr.
    assert (2 ^ 52 <= Zpos p / 2 < 2 ^ 53) by (Z.div_mod_to_equations; lia).
    split; [lia|]. right. split; [lia|]. split; [lia|exact Herr].
Qed.

Lemma num_of_ratio_near p d :
  Zpos p < Zpos d * 2 ^ 51 -> Zpos d <= Zpos p * 2 ^ 900 ->
  exists m e, num_of_ratio (Zpos p) d = S754_finite false m e /\ near (Zpos p) (Zpos d) (Zpos m) e.
Proof.
  intros Hhi Hlo. unfold num_of_ratio, SFdiv_core_binary.
  pose proof (digits2_pos_bounds p) as [Hp1 Hp2]. pose proof (digits2_pos_bounds d) as [Hd1 Hd2].
  cbn [Zdigits2].
  set (d1 := Zpos (digits2_pos p)) in *. set (d2 := Zpos (digits2_pos d)) in *.
  assert (Hd1p : 0 < d1) by (subst d1; lia). assert (Hd2p : 0 < d2) by (subst d2; lia).
  assert (HE1 : d1 - d2 <= 51).
  { assert (2 ^ (d1 - 1) < 2 ^ (d2 + 51)) by (rewrite Z.pow_add_r by lia; lia).
    assert (d1 - 1 < d2 + 51) by (apply (Z.pow_lt_mono_r_iff 2); lia). lia. }
  assert (HE2 : -902 <= d1 - d2).
  { assert (2 ^ (d2 - 1) < 2 ^ (d1 + 900)) by (rewrite Z.pow_add_r by lia; lia).
    assert (d2 - 1 < d1 + 900) by (apply (Z.pow_lt_mono_r_iff 2); lia). lia. }
  replace (d1 + 0 - (d2 + 0)) with (d1 - d2) by lia.
  rewrite fexp_normal by lia.
  set (e' := d1 - d2 - 53). rewrite Z.min_l by lia.
  replace (0 - 0 - e') with (- e') by lia.
  assert (Hs : 0 < - e') by (subst e'; lia).
  destruct (- e') as [|sp|] eqn:Es; try lia. rewrite Z.shiftl_mul_pow2 by lia.
  pose proof (Z.div_eucl_eq (Zpos p * 2 ^ Zpos sp) (Zpos d) ltac:(lia)) as Hqr.
  pose proof (Z.mod_pos_bound (Zpos p * 2 ^ Zpos sp) (Zpos d) ltac:(lia)) as Hrb.
  unfold Z.modulo in Hrb.
  destruct (Z.div_eucl (Zpos p * 2 ^ Zpos sp) (Zpos d)) as [q r].
  assert (Hqlo : 2 ^ 52 <= q).
  { assert (Zpos d * 2 ^ 52 < q * Zpos d + Zpos d); [|nia].
    assert (Hd1e : d1 - 1 + Zpos sp = d2 + 52) by lia.
    assert (2 ^ (d2 + 52) <= Zpos p * 2 ^ Zpos sp)
      by (rewrite <- Hd1e, Z.pow_add_r by lia; apply Z.mul_le_mono_nonneg_r; lia).
    rewrite Z.pow_add_r in * by lia. nia. }
  assert (Hqhi : q < 2 ^ 54).
  { assert (Hd1e : d1 + Zpos sp = (d2 - 1) + 54) by lia.
    assert (Zpos p * 2 ^ Zpos sp < 2 ^ (d2 - 1) * 2 ^ 54)
      by (rewrite <- Z.pow_add_r, <- Hd1e, Z.pow_add_r by lia; apply Z.mul_lt_mono_pos_r; lia).
    nia. }
  pose proof (new_location_spec (Zpos d) r ltac:(lia) Hrb) as Hloc.
  unfold binary_round_aux.
  pose proof (round_quotient q r (Zpos d) e' _ ltac:(lia) ltac:(lia) Hrb Hloc ltac:(lia)) as Hround.
  destruct (shr_fexp prec emax q e' _) as [mrs e1].
  set (q1 := round_nearest_even _ _) in *. destruct Hround as [Hq1 Herr].
  pose proof (renormalise q1 e1 Hq1 ltac:(lia)) as Hren.
  destruct (shr_fexp prec emax q1 e1 loc_Exact) as [mrs2 e2]. destruct Hren as [Hm Hcase].
  destruct (shr_m mrs2) as [|m|m] eqn:Em; try lia.
  exists m, e2. split.
  - rewrite (proj2 (Z.leb_le e2 (emax - prec))); [reflexivity|]. unfold emax, prec. lia.
  - assert (Hpow : Zpos p * 2 ^ Zpos sp = q * Zpos d + r) by (rewrite (Z.mul_comm q); exact Hqr).
    assert (Hsmall : 2 ^ 53 <= q -> d1 - d2 <= 50).
    { intros Hq53. destruct (Z.le_gt_cases (d1 - d2) 50); [lia|]. assert (Zpos sp = 2) by lia.
      rewrite H0 in Hpow. nia. }
    assert (Hhalf : forall j, 0 <= j -> e2 = e' + j -> 2 ^ (- e2) * 2 ^ j = 2 ^ Zpos sp).
    { intros j Hj E. rewrite <- Z.pow_add_r by lia. f_equal. lia. }
    unfold near.
    destruct Herr as [[He1 Herr]|[He1 [Hq53 Herr]]]; destruct Hcase as [[Eq Ee]|[Eq [E53 Ee]]].
    + split; [lia|]. split; [lia|]. rewrite <- (Hhalf 0 ltac:(lia) ltac:(lia)), Z.mul_1_r in Hpow. nia.
    + split; [lia|]. split; [lia|]. rewrite <- (Hhalf 1 ltac:(lia) ltac:(lia)) in Hpow. change (2 ^ 1) with 2 in Hpow. nia.
    + specialize (Hsmall Hq53). split; [lia|]. split; [lia|].
      rewrite <- (Hhalf 1 ltac:(lia) ltac:(lia)) in Hpow. change (2 ^ 1) with 2 in Hpow. nia.
    + specialize (Hsmall Hq53). split; [lia|]. split; [lia|].
      rewrite <- (Hhalf 2 ltac:(lia) ltac:(lia)) in Hpow. change (2 ^ 2) with 4 in Hpow. nia.
Qed.

(** ** Fixed-point amounts survive printing and reading *)

(** The largest amount (in 1/10000 units) for which a double still separates
    neighbouring 4-decimal amounts: 2^38, about 2.7e11 currency units. *)
Definition max_units : Z := 2 ^ 38 * 10000.

Lemma fixed_units_signed b f x : fixed_units f (signed b x) = fixed_units f x.
Proof. destruct b; [|reflexivity]. now destruct x. Qed.

Lemma fixed_units_unique f s m e n :
  e < 0 -> 2 * Z.abs (n * 2 ^ (- e) - Zpos m * 10 ^ Z.of_nat f) < 2 ^ (- e) ->
  fixed_units f (S754_finite s m e) = n.
Proof.
  intros He Hn. pose proof (fixed_units_error f s m e He) as Herr. cbv zeta in Herr.
  set (k := fixed_units f (S754_finite s m e)) in *.
  assert (HD : 0 < 2 ^ (- e)) by (apply Z.pow_pos_nonneg; lia). nia.
Qed.

Lemma near_exponent n m e : 0 < n < max_units -> near n 10000 m e -> 2 ^ 14 <= 2 ^ (- e).
Proof.
  unfold max_units. intros Hn (He & Hm & Herr). apply Z.pow_le_mono_r; [lia|].
  destruct (Z.le_gt_cases 14 (- e)) as [|Hlt]; [assumption|exfalso].
  assert (2 ^ (- e) <= 2 ^ 13) by (apply Z.pow_le_mono_r; lia).
  assert (0 < 2 ^ (- e)) by (apply Z.pow_pos_nonneg; lia).
  assert (n * 2 ^ (- e) <= n * 2 ^ 13) by (apply Z.mul_le_mono_nonneg_l; lia). lia.
Qed.

(** The double read from a 4-decimal amount: finite, positive, negative exponent, and
    [toFixed(4)] prints exactly that amount again. *)
Lemma amount_read n :
  0 < n < max_units ->
  exists m e, num_of_ratio n 10000 = S754_finite false m e /\ e < 0 /\
              fixed_units 4 (num_of_ratio n 10000) = n.
Proof.
  intros Hn. destruct n as [|p|p]; try lia. unfold max_units in Hn.
  destruct (num_of_ratio_near p 10000) as (m & e & E & Hnear); [lia| |].
  { assert (Hbig : 10000 <= 2 ^ 900) by (apply (Z.le_trans _ (2 ^ 14)); [lia|apply Z.pow_le_mono_r; lia]).
    pose proof (Z.mul_le_mono_nonneg 1 (Zpos p) 10000 (2 ^ 900) ltac:(lia) ltac:(lia) ltac:(lia) Hbig). lia. }
  exists m, e. rewrite E. split; [reflexivity|].
  pose proof (near_exponent _ _ _ Hn Hnear) as Hexp. destruct Hnear as (He & _ & Herr).
  split; [exact He|]. apply fixed_units_unique; [exact He|]. change (10 ^ Z.of_nat 4) with 10000. lia.
Qed.

Lemma nabs_below_1e21 s m e :
  e < 0 -> nleb (num_of_Z (10 ^ 21)) (nabs (S754_finite s m e)) = false.
Proof.
  intros He. assert (E : num_of_Z (10 ^ 21) = S754_finite false 7629394531250000 17)
    by (vm_compute; reflexivity).
  rewrite E. unfold nleb, SFleb, nabs, SFabs, SFcompare.
  destruct (Z.compare_spec 17 e); [lia|lia|reflexivity].
Qed.

(** Reading a positive 4-decimal amount and printing it with 4 decimals is the identity. *)
Lemma toFixed_amount b n :
  0 < n < max_units -> num_toFixed 4 (signed b (num_of_ratio n 10000)) = print_fixed b 4 n.
Proof.
  intros Hn. destruct (amount_read n Hn) as (m & e & E & He & Hu).
  rewrite num_toFixed_finite, fixed_units_signed, Hu; rewrite E.
  - now destruct b.
  - now destruct b.
  - destruct b; apply nabs_below_1e21; exact He.
Qed.

(** [round4] does not change the printed amount: what is stored with [toFixed(4)],
    read back with [Number] and stored again is the same text. *)
Lemma toFixed_round4 x :
  is_finite x = true -> nleb (num_of_Z (10 ^ 21)) (nabs x) = false ->
  0 < fixed_units 4 x < max_units ->
  num_toFixed 4 (round4 x) = num_toFixed 4 x.
Proof.
  intros Hfin Hsmall Hu. rewrite round4_finite, toFixed_amount by assumption.
  now rewrite num_toFixed_finite.
Qed.

Lemma round4_idempotent x :
  is_finite x = true -> nleb (num_of_Z (10 ^ 21)) (nabs x) = false ->
  0 < fixed_units 4 x < max_units -> round4 (round4 x) = round4 x.
Proof. intros. unfold round4 at 1. now rewrite toFixed_round4. Qed.

(** ** Exact cancellation *)

Lemma nadd_cancel x : is_finite x = true -> nadd x (nneg x) = n0.
Proof.
  intros Hfin. destruct x as [s| | |s m e]; try discriminate Hfin; [now destruct s|].
  unfold nadd, nneg, SFopp, SFadd. rewrite Z.min_id.
  destruct (shl_align m e e) as [mm ?]; cbn [fst].
  assert (E : cond_Zopp s (Zpos mm) + cond_Zopp (negb s) (Zpos mm) = 0) by (destruct s; cbn [cond_Zopp negb]; lia).
  now rewrite E.
Qed.
