(* ===== verification/JsArith.v ===== *)
(** * Rounded products, quotients and differences

    How the double operations of the amount arithmetic round: a quotient or product never
    rounds above a double that bounds the exact value, and the difference of two
    four-decimal amounts prints as the exact difference.  Both follow from one
    specification of [binary_round_aux], on integers only. *)

From Stdlib Require Import SpecFloat.
From S2P Require Import Prelude JsNum JsRound.
Local Open Scope Z_scope.

(** ** Right shifts *)

Lemma iter_pos_nat {A} (f : A -> A) n x : SpecFloat.iter_pos f n x = Nat.iter (Pos.to_nat n) f x.
Proof.
  revert x. induction n as [n IH|n IH|]; intros x; cbn [SpecFloat.iter_pos]; [| |reflexivity].
  - rewrite !IH, Pos2Nat.inj_xI. cbn [Nat.iter]. rewrite <- Nat.iter_add.
    replace (Pos.to_nat n + Pos.to_nat n)%nat with (2 * Pos.to_nat n)%nat by lia. now rewrite Nat.iter_succ_r.
  - rewrite !IH, Pos2Nat.inj_xO, <- Nat.iter_add. f_equal. lia.
Qed.

Lemma shr_record_eta mrs : mrs = shr_record_of_loc (shr_m mrs) (loc_of_shr_record mrs).
Proof. now destruct mrs as [m [] []]. Qed.
Lemma shr_m_of_loc q l : shr_m (shr_record_of_loc q l) = q.
Proof. now destruct l as [|[]]. Qed.
Lemma loc_of_loc q l : loc_of_shr_record (shr_record_of_loc q l) = l.
Proof. now destruct l as [|[]]. Qed.

(** [shr_1_spec] also for a mantissa that is already zero. *)
Lemma shr_1_nonneg q r d l :
  0 <= q -> 0 < d -> 0 <= r < d -> loc_spec l r d ->
  let mrs := shr_1 (shr_record_of_loc q l) in
  shr_m mrs = q / 2 /\ loc_spec (loc_of_shr_record mrs) ((q mod 2) * d + r) (2 * d).
Proof.
  intros Hq Hd Hr Hl. destruct (Z.eq_dec q 0) as [->|Hne]; [|apply shr_1_spec; auto; lia].
  change (0 mod 2) with 0. rewrite Z.mul_0_l, Z.add_0_l.
  destruct l as [|[]]; cbn [shr_record_of_loc shr_1 shr_m loc_of_shr_record orb loc_spec] in *;
    (split; [reflexivity|]); [exact Hl| | |]; (split; [lia|]); apply Z.compare_lt_iff; lia.
Qed.

Section Shift.
Variables (q r d : Z) (l : location).
Hypothesis (Hq : 0 <= q) (Hd : 0 < d) (Hr : 0 <= r < d) (Hl : loc_spec l r d).

Lemma shr_remainder P : 0 < P -> 0 <= (q mod P) * d + r < P * d.
Proof. intros HP. pose proof (Z.mod_pos_bound q P HP). nia. Qed.

Lemma shr_iter k :
  let mrs := Nat.iter k shr_1 (shr_record_of_loc q l) in
  let P := 2 ^ Z.of_nat k in
  shr_m mrs = q / P /\ loc_spec (loc_of_shr_record mrs) ((q mod P) * d + r) (P * d).
Proof.
  induction k as [|k IH]; cbv zeta in *.
  - change (Nat.iter 0 shr_1 (shr_record_of_loc q l)) with (shr_record_of_loc q l).
    change (2 ^ Z.of_nat 0) with 1.
    rewrite shr_m_of_loc, loc_of_loc, Z.div_1_r, Z.mod_1_r, !Z.mul_1_l. auto.
  - rewrite Nat2Z.inj_succ, Z.pow_succ_r by lia. set (P := 2 ^ Z.of_nat k) in *.
    assert (HP : 0 < P) by (apply Z.pow_pos_nonneg; lia). destruct IH as [Hm Hloc].
    rewrite Nat.iter_succ. set (mrs := Nat.iter k shr_1 (shr_record_of_loc q l)) in *.
    assert (HqP : 0 <= q / P) by (apply Z.div_pos; assumption).
    assert (HPd : 0 < P * d) by (apply Z.mul_pos_pos; assumption).
    pose proof (shr_1_nonneg (q / P) _ _ _ HqP HPd (shr_remainder P HP) Hloc) as H.
    rewrite <- Hm, <- shr_record_eta in H. cbv zeta in H. destruct H as [-> Hloc']. rewrite Hm in *. split.
    + rewrite Z.div_div by lia. f_equal. lia.
    + replace (2 * P * d) with (2 * (P * d)) by ring.
      replace (q mod (2 * P)) with (P * ((q / P) mod 2) + q mod P)
        by (rewrite (Z.mul_comm 2 P), Z.rem_mul_r by lia; lia).
      replace ((P * ((q / P) mod 2) + q mod P) * d + r) with ((q / P) mod 2 * (P * d) + (q mod P * d + r)) by ring.
      exact Hloc'.
Qed.

(** The number of bits dropped when [q * 2^e] is brought to 53 bits. *)
Definition drop_bits (e : Z) : Z := Z.max 0 (fexp prec emax (Zdigits2 q + e) - e).

Lemma shr_fexp_spec e :
  let k := drop_bits e in
  exists mrs, shr_fexp prec emax q e l = (mrs, e + k) /\ shr_m mrs = q / 2 ^ k /\
              loc_spec (loc_of_shr_record mrs) ((q mod 2 ^ k) * d + r) (2 ^ k * d).
Proof.
  unfold shr_fexp, drop_bits. destruct (fexp prec emax (Zdigits2 q + e) - e) as [|n|n] eqn:E; cbn [shr].
  1, 3: rewrite (Z.max_l 0) by lia; eexists; split; [now rewrite Z.add_0_r|];
        destruct (shr_iter 0) as [A B]; split; [exact A|exact B].
  rewrite Z.max_r by lia. eexists. split; [reflexivity|]. rewrite iter_pos_nat.
  rewrite <- (positive_nat_Z n). apply shr_iter.
Qed.
End Shift.

(** ** One specification of rounding *)

(** The final step of [binary_round_aux] on a rounded mantissa. *)
Definition pack (s : bool) (q e : Z) : num :=
  let '(mrs, e2) := shr_fexp prec emax q e loc_Exact in
  match shr_m mrs with
  | Z0 => S754_zero s
  | Zpos m => if e2 <=? emax - prec then S754_finite s m e2 else S754_infinity s
  | Zneg _ => S754_nan
  end.

Lemma Zdigits2_bounds q : 0 < q -> 2 ^ (Zdigits2 q - 1) <= q < 2 ^ Zdigits2 q.
Proof. intros Hq. destruct q as [|p|p]; try lia. apply digits2_pos_bounds. Qed.

Lemma Zdigits2_pos q : 0 < q -> 0 < Zdigits2 q.
Proof. intros Hq. destruct q; cbn; lia. Qed.

Lemma fexp_max k : fexp prec emax k = Z.max (k - 53) (-1074).
Proof. reflexivity. Qed.

Lemma Zdigits2_le q k : 0 <= q < 2 ^ k -> 0 <= k -> Zdigits2 q <= k.
Proof.
  intros Hq Hk. destruct (Z.eq_dec q 0) as [->|Hne]; [exact Hk|].
  pose proof (Zdigits2_bounds q ltac:(lia)).
  assert (Zdigits2 q - 1 < k); [|lia]. apply (Z.pow_lt_mono_r_iff 2); lia.
Qed.

(** The mantissa left after dropping has at most 53 bits, and 53 when bits were dropped
    above the subnormal range. *)
Lemma dropped_mantissa q e :
  0 <= q -> q / 2 ^ drop_bits q e < 2 ^ 53.
Proof.
  intros Hq. set (k := drop_bits q e). assert (Hk : 0 <= k) by (unfold k, drop_bits; lia).
  apply Z.div_lt_upper_bound; [apply Z.pow_pos_nonneg; lia|].
  destruct (Z.eq_dec q 0) as [->|Hne]; [apply Z.mul_pos_pos; apply Z.pow_pos_nonneg; lia|].
  rewrite <- Z.pow_add_r by lia. destruct (Zdigits2_bounds q ltac:(lia)) as [_ Hlt].
  eapply Z.lt_le_trans; [exact Hlt|]. apply Z.pow_le_mono_r; [lia|].
  unfold k, drop_bits. rewrite fexp_max. lia.
Qed.

Lemma pack_spec s q e :
  0 <= q <= 2 ^ 53 -> -1074 <= e <= 900 ->
  (q = 0 /\ pack s q e = S754_zero s) \/
  (exists m, Zpos m = q /\ pack s q e = S754_finite s m e) \/
  (exists m, q = 2 ^ 53 /\ 2 * Zpos m = q /\ pack s q e = S754_finite s m (e + 1)).
Proof.
  intros Hq He. unfold pack. destruct (Z.eq_dec q (2 ^ 53)) as [->|Hne].
  - pose proof (renormalise (2 ^ 53) e ltac:(lia) ltac:(lia)) as Hren.
    destruct (shr_fexp _ _ _ _ _) as [mrs e2]. destruct Hren as [Hm [[Eq _]|[Eq [_ ->]]]]; [lia|].
    right; right. destruct (shr_m mrs) as [|m|m]; try lia. exists m.
    rewrite (proj2 (Z.leb_le _ _)) by (unfold emax, prec; lia). auto.
  - destruct (shr_fexp_spec q 0 1 loc_Exact ltac:(lia) ltac:(lia) ltac:(lia) eq_refl e) as (mrs & -> & Hm & _).
    assert (E : drop_bits q e = 0).
    { unfold drop_bits. rewrite fexp_max. pose proof (Zdigits2_le q 53 ltac:(lia) ltac:(lia)). lia. }
    rewrite E in *. change (2 ^ 0) with 1 in Hm. rewrite Z.div_1_r in Hm. rewrite Hm, Z.add_0_r.
    destruct q as [|m|m]; [left; auto| |lia]. right; left. exists m.
    rewrite (proj2 (Z.leb_le _ _)) by (unfold emax, prec; lia). auto.
Qed.

Section Round.
Variables (q r d e : Z) (l : location).
Hypothesis (Hq : 0 <= q) (Hd : 0 < d) (Hr : 0 <= r < d) (Hl : loc_spec l r d).
Local Abbreviation k := (drop_bits q e).
Local Abbreviation D := (2 ^ k * d).

Lemma drop_bits_nonneg : 0 <= k.
Proof. unfold drop_bits. lia. Qed.

Lemma rounding_step_pos : 0 < D.
Proof. apply Z.mul_pos_pos; [apply Z.pow_pos_nonneg; [lia|apply drop_bits_nonneg]|exact Hd]. Qed.

(** [binary_round_aux] rounds [(q + r/d) * 2^e] to the nearest multiple of [2^(e+k)]. *)
Lemma binary_round_aux_spec s :
  exists q1, binary_round_aux prec emax s q e l = pack s q1 (e + k) /\
             q / 2 ^ k <= q1 <= 2 ^ 53 /\ 2 * Z.abs (q1 * D - (q * d + r)) <= D.
Proof.
  unfold binary_round_aux. destruct (shr_fexp_spec q r d l Hq Hd Hr Hl e) as (mrs & -> & Hm & Hloc).
  pose proof drop_bits_nonneg as Hk.
  assert (HP : 0 < 2 ^ k) by (apply Z.pow_pos_nonneg; lia).
  exists (round_nearest_even (shr_m mrs) (loc_of_shr_record mrs)). split; [reflexivity|].
  assert (Hdrop : q / 2 ^ k < 2 ^ 53) by now apply dropped_mantissa.
  destruct (round_nearest_even_error (shr_m mrs) _ _ _ ltac:(rewrite Hm; apply Z.div_pos; lia)
              rounding_step_pos (shr_remainder q r d Hd Hr _ HP) Hloc) as [Herr Hb].
  rewrite Hm in *. split; [lia|].
  replace (q * d + r) with (q / 2 ^ k * D + (q mod 2 ^ k * d + r)); [exact Herr|].
  set (P := 2 ^ k). rewrite (Z_div_mod_eq_full q P) at 3. ring.
Qed.
End Round.

(** ** Rounding never passes a double *)

(** A result that is zero or a double at most [M * 2^E]. *)
Definition at_most (s : bool) (x : num) (M E : Z) : Prop :=
  (exists z, x = S754_zero z) \/ exists m e, x = S754_finite s m e /\ e <= E /\ Zpos m <= M * 2 ^ (E - e).

Lemma dropped_exponent q r d e M E :
  0 <= q -> 0 < d -> 0 <= r -> 0 <= M < 2 ^ 53 -> -1074 <= E -> e <= E ->
  q * d + r <= M * d * 2 ^ (E - e) -> e + drop_bits q e <= E.
Proof.
  intros Hq Hd Hr HM HE He Hle. destruct (Z.le_gt_cases (e + drop_bits q e) E) as [|Hgt]; [assumption|exfalso].
  unfold drop_bits in Hgt. rewrite fexp_max in Hgt.
  assert (Hdig : Zdigits2 q - 53 > E - e) by lia.
  assert (Hpos : 0 < q) by (destruct q; cbn in Hdig; lia).
  destruct (Zdigits2_bounds q Hpos) as [Hlo _].
  assert (HqM : q <= M * 2 ^ (E - e)) by nia.
  assert (Hpow : 2 ^ 53 * 2 ^ (E - e) <= 2 ^ (Zdigits2 q - 1))
    by (rewrite <- Z.pow_add_r by lia; apply Z.pow_le_mono_r; lia).
  assert (0 < 2 ^ (E - e)) by (apply Z.pow_pos_nonneg; lia). nia.
Qed.

Lemma round_le s q r d e l M E :
  0 <= q -> 0 < d -> 0 <= r < d -> loc_spec l r d ->
  0 <= M < 2 ^ 53 -> -1074 <= E <= 900 -> e <= E ->
  q * d + r <= M * d * 2 ^ (E - e) ->
  at_most s (binary_round_aux prec emax s q e l) M E.
Proof.
  intros Hq Hd Hr Hl HM HE He Hle.
  pose proof (dropped_exponent q r d e M E Hq Hd (proj1 Hr) HM (proj1 HE) He Hle) as He1.
  destruct (binary_round_aux_spec q r d e l Hq Hd Hr Hl s) as (q1 & -> & Hb & Herr).
  pose proof (rounding_step_pos q d e Hd) as HD. pose proof (drop_bits_nonneg q e) as Hk.
  assert (Hlow : -1074 <= e + drop_bits q e) by (unfold drop_bits; rewrite fexp_max; lia).
  set (k := drop_bits q e) in *.
  assert (HP : 0 < 2 ^ k) by (apply Z.pow_pos_nonneg; lia).
  assert (Hq0 : 0 <= q1) by (pose proof (Z.div_pos q (2 ^ k) Hq HP); lia).
  assert (HN : q1 <= M * 2 ^ (E - (e + k))).
  { assert (Hsplit : 2 ^ (E - e) = 2 ^ (E - (e + k)) * 2 ^ k) by (rewrite <- Z.pow_add_r by lia; f_equal; lia).
    rewrite Hsplit in Hle. set (N := M * 2 ^ (E - (e + k))).
    replace (M * d * (2 ^ (E - (e + k)) * 2 ^ k)) with (N * (2 ^ k * d)) in Hle by (subst N; ring).
    set (D := 2 ^ k * d) in *. nia. }
  destruct (pack_spec s q1 (e + k) ltac:(lia) ltac:(lia)) as [[_ ->]|[(m & Em & ->)|(m & E53 & Em & ->)]].
  - left. now exists s.
  - right. exists m, (e + k). rewrite Em. auto.
  - right. exists m, (e + k + 1). split; [reflexivity|].
    assert (Hlt : e + k < E).
    { destruct (Z.eq_dec (e + k) E) as [Ee|]; [|lia]. rewrite Ee, Z.sub_diag in HN. lia. }
    split; [lia|].
    replace (E - (e + k)) with (1 + (E - (e + k + 1))) in HN by lia.
    rewrite Z.pow_add_r in HN by lia. change (2 ^ 1) with 2 in HN. nia.
Qed.

(** *** Quotients and products *)

(** What makes a [spec_float] a double, on a positive one. *)
Lemma valid_positive m e :
  valid_binary prec emax (S754_finite false m e) = true ->
  Zpos m < 2 ^ 53 /\ -1074 <= e <= 971 /\ (2 ^ 52 <= Zpos m \/ e = -1074).
Proof.
  cbn [valid_binary]. unfold bounded, canonical_mantissa. rewrite fexp_max.
  intros [Hc He]%andb_true_iff. apply Z.eqb_eq in Hc. apply Z.leb_le in He. unfold emax, prec in He.
  destruct (digits2_pos_bounds m) as [Hlo Hhi]. set (g := Zpos (digits2_pos m)) in *.
  assert (0 < g) by (subst g; lia).
  split; [|split; [lia|]].
  - eapply Z.lt_le_trans; [exact Hhi|]. apply Z.pow_le_mono_r; lia.
  - destruct (Z.eq_dec e (-1074)) as [|Hne]; [now right|left].
    replace g with 53 in Hlo by lia. exact Hlo.
Qed.

(** Comparing doubles compares their values. *)
Lemma nltb_false_value m1 e1 m2 e2 :
  valid_binary prec emax (S754_finite false m1 e1) = true ->
  valid_binary prec emax (S754_finite false m2 e2) = true ->
  nltb (S754_finite false m1 e1) (S754_finite false m2 e2) = false ->
  e2 <= e1 /\ Zpos m2 <= Zpos m1 * 2 ^ (e1 - e2).
Proof.
  intros (H1 & E1 & N1)%valid_positive (H2 & E2 & N2)%valid_positive Hlt.
  unfold nltb, SFltb, SFcompare in Hlt.
  destruct (Z.compare_spec e1 e2) as [->|Hc|Hc]; [|discriminate|].
  - split; [lia|]. rewrite Z.sub_diag, Z.pow_0_r, Z.mul_1_r.
    destruct (Z.le_gt_cases (Zpos m2) (Zpos m1)) as [|Hgt]; [assumption|exfalso].
    assert (Hp : (m1 ?= m2)%positive = Lt) by (apply Pos.compare_lt_iff; lia).
    unfold Pos.compare in Hp. now rewrite Hp in Hlt.
  - split; [lia|]. destruct N1 as [N1|]; [|lia].
    assert (2 ^ 1 <= 2 ^ (e1 - e2)) by (apply Z.pow_le_mono_r; lia). nia.
Qed.

(** Dividing a double by one at least as large gives at most one. *)
Lemma ndiv_at_most_one m1 e1 m2 e2 :
  Zpos m2 <= Zpos m1 * 2 ^ (e1 - e2) -> e2 <= e1 ->
  at_most false (ndiv (S754_finite false m2 e2) (S754_finite false m1 e1)) (2 ^ 52) (-52).
Proof.
  intros Hle He. unfold ndiv, SFdiv, SFdiv_core_binary. cbn [xorb].
  set (d1 := Zdigits2 (Zpos m1)). set (d2 := Zdigits2 (Zpos m2)).
  pose proof (Zdigits2_bounds (Zpos m1) ltac:(lia)) as [_ B1]. fold d1 in B1.
  pose proof (Zdigits2_bounds (Zpos m2) ltac:(lia)) as [B2 _]. fold d2 in B2.
  assert (P1 : 0 < d1) by (apply Zdigits2_pos; lia). assert (P2 : 0 < d2) by (apply Zdigits2_pos; lia).
  assert (Hd : d2 + e2 - (d1 + e1) <= 0).
  { assert (2 ^ (d2 - 1) < 2 ^ (d1 + (e1 - e2))) by (rewrite Z.pow_add_r by lia; nia).
    assert (d2 - 1 < d1 + (e1 - e2)) by (apply (Z.pow_lt_mono_r_iff 2); lia). lia. }
  set (e' := Z.min _ _). assert (He' : e' <= -52) by (unfold e'; rewrite fexp_max; lia).
  assert (Hs : 0 <= e2 - e1 - e') by lia.
  set (m' := match e2 - e1 - e' with Z0 => _ | Zpos _ => _ | Zneg _ => _ end).
  assert (Hm' : m' = Zpos m2 * 2 ^ (e2 - e1 - e')).
  { unfold m'. destruct (e2 - e1 - e') eqn:Es; [lia|now rewrite Z.shiftl_mul_pow2 by lia|lia]. }
  pose proof (Z.div_eucl_eq m' (Zpos m1) ltac:(lia)) as Hqr.
  pose proof (Z.mod_pos_bound m' (Zpos m1) ltac:(lia)) as Hrb. unfold Z.modulo in Hrb.
  pose proof (Z.div_pos m' (Zpos m1) ltac:(rewrite Hm'; apply Z.mul_nonneg_nonneg; [lia|apply Z.pow_nonneg; lia]) ltac:(lia)) as Hq.
  unfold Z.div in Hq. destruct (Z.div_eucl m' (Zpos m1)) as [q r].
  apply (round_le false q r (Zpos m1)); try lia.
  - now apply new_location_spec.
  - replace (q * Zpos m1 + r) with m' by lia. rewrite Hm'.
    apply (Z.mul_le_mono_nonneg_r _ _ (2 ^ (e2 - e1 - e'))) in Hle; [|apply Z.pow_nonneg; lia].
    etransitivity; [exact Hle|]. apply Z.eq_le_incl.
    rewrite <- Z.mul_assoc, <- Z.pow_add_r by lia.
    rewrite (Z.mul_comm (2 ^ 52)), <- Z.mul_assoc, <- Z.pow_add_r by lia. do 2 f_equal. lia.
Qed.

(** A share of at most one of an amount is at most the amount. *)
Lemma nmul_share m1 e1 x :
  Zpos m1 < 2 ^ 53 -> -1074 <= e1 <= 900 -> at_most false x (2 ^ 52) (-52) ->
  at_most false (nmul (S754_finite false m1 e1) x) (Zpos m1) e1.
Proof.
  intros Hm He [[z ->]|(m & e & -> & Hle & Hx)]; [left; now exists z|].
  unfold nmul, SFmul. cbn [xorb]. apply (round_le false _ 0 1); try lia; [reflexivity|].
  rewrite <- Z.pow_add_r in Hx by lia.
  replace (e1 - (e1 + e)) with (52 + (-52 - e)) by lia. rewrite Pos2Z.inj_mul. nia.
Qed.

(** ** Differences *)

(** The value of [m * 2^e] in units of the smallest double, [2^-1074]. *)
Definition scaled (m e : Z) : Z := m * 2 ^ (e + 1074).

Lemma scaled_shift m e k : 0 <= k -> -1074 <= e - k -> scaled (m * 2 ^ k) (e - k) = scaled m e.
Proof.
  intros Hk He. unfold scaled. rewrite <- Z.mul_assoc, <- Z.pow_add_r by lia. do 2 f_equal. lia.
Qed.

Lemma iter_xO p n : Zpos (Pos.iter xO p n) = Zpos p * 2 ^ Zpos n.
Proof.
  induction n as [|n IH] using Pos.peano_ind; [cbn; lia|].
  rewrite Pos.iter_succ, Pos2Z.inj_succ, Z.pow_succ_r, (Pos2Z.inj_xO (Pos.iter _ _ _)), IH by lia. lia.
Qed.

Lemma shl_align_value m e e' :
  let '(mz, ez) := shl_align m e e' in ez = Z.min e e' /\ Zpos mz = Zpos m * 2 ^ (e - ez).
Proof.
  unfold shl_align. destruct (e' - e) as [|n|n] eqn:E; cbv iota beta zeta.
  1, 2: split; [lia|]; now rewrite Z.sub_diag, Z.mul_1_r.
  split; [lia|]. rewrite iter_xO. do 2 f_equal. lia.
Qed.

Lemma Zdigits2_shift m k : 0 < m -> 0 <= k -> Zdigits2 (m * 2 ^ k) = Zdigits2 m + k.
Proof.
  intros Hm Hk. destruct (Zdigits2_bounds m Hm) as [Hlo Hhi]. pose proof (Zdigits2_pos m Hm).
  assert (HP : 0 < 2 ^ k) by (apply Z.pow_pos_nonneg; lia).
  destruct (m * 2 ^ k) as [|p|p] eqn:E; try nia. cbn [Zdigits2]. apply digits2_pos_unique; [lia|].
  replace (Zdigits2 m + k - 1) with (Zdigits2 m - 1 + k) by lia.
  rewrite !Z.pow_add_r, <- E by lia. nia.
Qed.

(** Rounding a positive [p * 2^e < 2^(53+E)] errs by at most half of [2^E]. *)
Lemma binary_round_error s p e E :
  -1074 <= e <= E -> E <= 800 -> Zpos p < 2 ^ (53 + (E - e)) ->
  exists m e', binary_round prec emax s p e = S754_finite s m e' /\ -1074 <= e' <= E + 1 /\
    2 * Z.abs (scaled (Zpos m) e' - scaled (Zpos p) e) <= 2 ^ (E + 1074).
Proof.
  intros He HE Hp. unfold binary_round.
  pose proof (shl_align_value p e (fexp prec emax (Zpos (digits2_pos p) + e))) as Hal.
  destruct (shl_align _ _ _) as [mz ez]. destruct Hal as [Hez Hmz].
  change (Zpos (digits2_pos p)) with (Zdigits2 (Zpos p)) in Hez.
  pose proof (Zdigits2_le (Zpos p) (53 + (E - e)) ltac:(lia) ltac:(lia)) as Hdig.
  rewrite fexp_max in Hez.
  assert (Hdz : Zdigits2 (Zpos mz) + ez = Zdigits2 (Zpos p) + e)
    by (rewrite Hmz, Zdigits2_shift by lia; lia).
  destruct (binary_round_aux_spec (Zpos mz) 0 1 ez loc_Exact ltac:(lia) ltac:(lia) ltac:(lia) eq_refl s)
    as (q1 & -> & Hb & Herr).
  set (k := drop_bits (Zpos mz) ez) in *.
  assert (Hk : k = Z.max 0 (Z.max (Zdigits2 (Zpos p) + e - 53) (-1074) - ez))
    by (unfold k, drop_bits; now rewrite Hdz, fexp_max).
  assert (HP : 0 < 2 ^ k) by (apply Z.pow_pos_nonneg; lia).
  assert (Hq1 : 1 <= q1).
  { assert (1 <= Zpos mz / 2 ^ k); [|lia]. apply Z.div_le_lower_bound; [lia|]. rewrite Z.mul_1_r.
    destruct (Zdigits2_bounds (Zpos mz) ltac:(lia)) as [Hlo _]. etransitivity; [|exact Hlo].
    apply Z.pow_le_mono_r; [lia|]. pose proof (Zdigits2_pos (Zpos p) ltac:(lia)). 
    pose proof (Zdigits2_pos (Zpos mz) ltac:(lia)). lia. }
  assert (Hval : scaled (Zpos p) e = scaled (Zpos mz) ez).
  { rewrite Hmz. replace ez with (e - (e - ez)) at 2 by lia. symmetry. apply scaled_shift; lia. }
  assert (Herr' : 2 * Z.abs (scaled q1 (ez + k) - scaled (Zpos p) e) <= 2 ^ (E + 1074)).
  { rewrite Hval. unfold scaled. replace (ez + k + 1074) with (k + (ez + 1074)) by lia.
    rewrite Z.pow_add_r by lia.
    assert (HU : 0 < 2 ^ (ez + 1074)) by (apply Z.pow_pos_nonneg; lia).
    assert (Hle : 2 ^ k * 2 ^ (ez + 1074) <= 2 ^ (E + 1074))
      by (rewrite <- Z.pow_add_r by lia; apply Z.pow_le_mono_r; lia).
    set (U := 2 ^ (ez + 1074)) in *. set (P := 2 ^ k) in *.
    replace (q1 * (P * U) - Zpos mz * U) with ((q1 * (P * 1) - (Zpos mz * 1 + 0)) * U) by ring.
    rewrite Z.abs_mul, (Z.abs_eq U) by lia. nia. }
  destruct (pack_spec s q1 (ez + k) ltac:(lia) ltac:(lia)) as [[H0 _]|[(m & Em & ->)|(m & E53 & Em & ->)]];
    [lia| |].
  - exists m, (ez + k). rewrite Em. split; [reflexivity|]. split; [lia|exact Herr'].
  - exists m, (ez + k + 1). split; [reflexivity|]. split; [lia|].
    replace (scaled (Zpos m) (ez + k + 1)) with (scaled q1 (ez + k)); [exact Herr'|].
    rewrite <- (scaled_shift (Zpos m) (ez + k + 1) 1) by lia. f_equal; lia.
Qed.

(** ** Amounts *)

(** The double of a positive four-decimal amount, with its distance from the amount. *)
Lemma amount_double n :
  0 < n < max_units ->
  exists m e, num_of_ratio n 10000 = S754_finite false m e /\ Zpos m < 2 ^ 53 /\ -100 <= e <= -15 /\
    2 * Z.abs (Zpos m * 10000 - n * 2 ^ (- e)) <= 10000.
Proof.
  intros Hn. destruct n as [|p|p]; try lia. unfold max_units in Hn.
  destruct (num_of_ratio_near p 10000) as (m & e & E & He & Hm & Herr); [lia| |].
  { assert (Hbig : 10000 <= 2 ^ 900) by (apply (Z.le_trans _ (2 ^ 14)); [lia|apply Z.pow_le_mono_r; lia]). nia. }
  exists m, e. split; [exact E|]. split; [lia|]. split; [|exact Herr]. split.
  - destruct (Z.le_gt_cases (-100) e) as [|Hlt]; [assumption|exfalso].
    assert (2 ^ 100 <= 2 ^ (- e)) by (apply Z.pow_le_mono_r; lia). nia.
  - destruct (Z.le_gt_cases e (-15)) as [|Hgt]; [assumption|exfalso].
    assert (2 ^ (- e) <= 2 ^ 14) by (apply Z.pow_le_mono_r; lia).
    assert (0 < 2 ^ (- e)) by (apply Z.pow_pos_nonneg; lia). nia.
Qed.

(** The same on the common scale: an amount's double errs by a third of a unit's half at most. *)
Lemma scaled_amount m e n :
  -1074 <= e <= -15 -> 2 * Z.abs (m * 10000 - n * 2 ^ (- e)) <= 10000 ->
  2 ^ 15 * (2 * Z.abs (scaled m e * 10000 - n * 2 ^ 1074)) <= 10000 * 2 ^ 1074 /\
  2 ^ 15 * 2 ^ (e + 1074) <= 2 ^ 1074.
Proof.
  intros He Herr. unfold scaled.
  assert (HT : 2 ^ 1074 = 2 ^ (- e) * 2 ^ (e + 1074)) by (rewrite <- Z.pow_add_r by lia; f_equal; lia).
  assert (HU : 2 ^ 15 * 2 ^ (e + 1074) <= 2 ^ 1074) by (rewrite <- Z.pow_add_r by lia; apply Z.pow_le_mono_r; lia).
  assert (0 < 2 ^ (e + 1074)) by (apply Z.pow_pos_nonneg; lia).
  split; [|exact HU]. rewrite HT in HU |- *. set (U := 2 ^ (e + 1074)) in *. set (P := 2 ^ (- e)) in *.
  replace (m * U * 10000 - n * (P * U)) with ((m * 10000 - n * P) * U) by ring.
  rewrite Z.abs_mul, (Z.abs_eq U) by lia. nia.
Qed.

(** Subtraction aligns both mantissas at the smaller exponent. *)
Lemma nsub_aligned m1 e1 m2 e2 :
  exists v, nsub (S754_finite false m1 e1) (S754_finite false m2 e2)
              = binary_normalize prec emax v (Z.min e1 e2) false /\
            v = Zpos m1 * 2 ^ (e1 - Z.min e1 e2) - Zpos m2 * 2 ^ (e2 - Z.min e1 e2).
Proof.
  eexists. split; [reflexivity|]. cbn [cond_Zopp].
  pose proof (shl_align_value m1 e1 (Z.min e1 e2)) as H1. pose proof (shl_align_value m2 e2 (Z.min e1 e2)) as H2.
  destruct (shl_align m1 _ _) as [z1 ?], (shl_align m2 _ _) as [z2 ?]; cbn [fst].
  destruct H1 as [-> ->], H2 as [-> ->]. f_equal; do 3 f_equal; lia.
Qed.

Lemma nsub_amounts n c :
  0 < c < n -> n < max_units ->
  exists m e, nsub (num_of_ratio n 10000) (num_of_ratio c 10000) = S754_finite false m e /\ e < 0 /\
              fixed_units 4 (S754_finite false m e) = n - c.
Proof.
  intros Hc Hn.
  destruct (amount_double n ltac:(lia)) as (m1 & e1 & -> & Hm1 & He1 & Herr1).
  destruct (amount_double c ltac:(lia)) as (m2 & e2 & -> & Hm2 & He2 & Herr2).
  destruct (scaled_amount (Zpos m1) e1 n ltac:(lia) Herr1) as [A1 U1].
  destruct (scaled_amount (Zpos m2) e2 c ltac:(lia) Herr2) as [A2 U2].
  destruct (nsub_aligned m1 e1 m2 e2) as (v & -> & Hv).
  set (e0 := Z.min e1 e2) in *.
  assert (Hsv : scaled v e0 = scaled (Zpos m1) e1 - scaled (Zpos m2) e2).
  { rewrite <- (scaled_shift (Zpos m1) e1 (e1 - e0)), <- (scaled_shift (Zpos m2) e2 (e2 - e0)) by lia.
    replace (e1 - (e1 - e0)) with e0 by lia. replace (e2 - (e2 - e0)) with e0 by lia. unfold scaled. rewrite Hv. ring. }
  set (T := 2 ^ 1074) in *. assert (HT : 0 < T) by (apply Z.pow_pos_nonneg; lia).
  assert (Hpos : 0 < v).
  { assert (T <= n * T - c * T) by nia.
    assert (0 < scaled v e0) by (rewrite Hsv; lia). unfold scaled in *.
    assert (0 < 2 ^ (e0 + 1074)) by (apply Z.pow_pos_nonneg; lia). nia. }
  destruct v as [|p|p]; try lia. cbn [binary_normalize].
  destruct (binary_round_error false p e0 e1 ltac:(lia) ltac:(lia)) as (m & e & -> & He & Herr).
  { assert (HP1 : 0 < 2 ^ (e1 - e0)) by (apply Z.pow_pos_nonneg; lia).
    assert (HP2 : 0 < 2 ^ (e2 - e0)) by (apply Z.pow_pos_nonneg; lia).
    rewrite Z.pow_add_r by lia. nia. }
  exists m, e. split; [reflexivity|]. split; [lia|]. apply fixed_units_unique; [lia|].
  change (10 ^ Z.of_nat 4) with 10000.
  assert (Hd : 2 * Z.abs ((n - c) * T - scaled (Zpos m) e * 10000) < T) by (rewrite Hsv in Herr; lia).
  assert (ET : T = 2 ^ (- e) * 2 ^ (e + 1074)) by (unfold T; rewrite <- Z.pow_add_r by lia; f_equal; lia).
  rewrite ET in Hd. unfold scaled in Hd.
  assert (0 < 2 ^ (e + 1074)) by (apply Z.pow_pos_nonneg; lia). set (U := 2 ^ (e + 1074)) in *.
  replace ((n - c) * (2 ^ (- e) * U) - Zpos m * U * 10000) with (((n - c) * 2 ^ (- e) - Zpos m * 10000) * U) in Hd by ring.
  rewrite Z.abs_mul, (Z.abs_eq U) in Hd by lia.
  apply (Z.mul_lt_mono_pos_r U); [assumption|]. rewrite <- Z.mul_assoc. exact Hd.
Qed.

Lemma nsub_self m e : nsub (S754_finite false m e) (S754_finite false m e) = n0.
Proof. destruct (nsub_aligned m e m e) as (v & -> & ->). now rewrite Z.sub_diag. Qed.

(** The printed difference of two amounts is the exact difference. *)
Lemma toFixed_difference n c :
  0 < n < max_units -> 0 <= c <= n ->
  num_toFixed 4 (nsub (num_of_ratio n 10000) (num_of_ratio c 10000)) = print_fixed false 4 (n - c).
Proof.
  intros Hn Hc. destruct (Z.eq_dec c 0) as [->|Hc0].
  - destruct (amount_double n Hn) as (m & e & E & _).
    replace (nsub _ _) with (num_of_ratio n 10000) by now rewrite E.
    rewrite Z.sub_0_r. exact (toFixed_amount false n Hn).
  - destruct (Z.eq_dec c n) as [->|Hne].
    + destruct (amount_double n Hn) as (m & e & -> & _). now rewrite nsub_self, Z.sub_diag.
    + destruct (nsub_amounts n c ltac:(lia) ltac:(lia)) as (m & e & -> & He & Hu).
      rewrite num_toFixed_finite, Hu by (reflexivity || now apply nabs_below_1e21). reflexivity.
Qed.

(** A double at most that of an amount prints as an amount at most as large. *)
Lemma at_most_units x n m e :
  0 < n < max_units -> num_of_ratio n 10000 = S754_finite false m e -> at_most false x (Zpos m) e ->
  0 <= fixed_units 4 x <= n /\ num_toFixed 4 x = print_fixed false 4 (fixed_units 4 x).
Proof.
  intros Hn E Hx. destruct (amount_double n Hn) as (m1 & e1 & E1 & Hm & He & Herr).
  rewrite E in E1. injection E1 as <- <-.
  destruct Hx as [[z ->]|(m' & e' & -> & He' & Hle)]; [split; [cbn; lia|reflexivity]|].
  split; [|rewrite num_toFixed_finite by (reflexivity || apply nabs_below_1e21; lia); reflexivity].
  split; [apply fixed_units_nonneg|].
  pose proof (fixed_units_error 4 false m' e' ltac:(lia)) as Herr'. cbv zeta in Herr'.
  set (c := fixed_units 4 _) in *. change (10 ^ Z.of_nat 4) with 10000 in Herr'.
  assert (Hsplit : 2 ^ (- e') = 2 ^ (- e) * 2 ^ (e - e')) by (rewrite <- Z.pow_add_r by lia; f_equal; lia).
  rewrite Hsplit in Herr'.
  assert (HS : 0 < 2 ^ (e - e')) by (apply Z.pow_pos_nonneg; lia).
  assert (HP : 2 ^ 15 <= 2 ^ (- e)) by (apply Z.pow_le_mono_r; lia).
  set (S := 2 ^ (e - e')) in *. set (P := 2 ^ (- e)) in *. clearbody c S P.
  assert (Hc : 2 * (c * P) <= 2 * (Zpos m * 10000) + P).
  { apply (Z.mul_le_mono_pos_r _ _ S HS). nia. }
  assert (c * P < (n + 1) * P) by lia. nia.
Qed.

(** A difference with a double at least as large is never positive. *)
Lemma round_negative_sign m e me ee :
  nltb (S754_finite false me ee) (binary_round prec emax true m e) = false.
Proof.
  unfold binary_round. destruct (shl_align _ _ _) as [mz ez]. unfold binary_round_aux.
  destruct (shr_fexp _ _ _ _ _) as [mrs e1]. destruct (shr_fexp _ _ _ _ _) as [mrs2 e2].
  destruct (shr_m mrs2); [reflexivity| |reflexivity]. now destruct (e2 <=? _).
Qed.

Lemma nsub_at_most x m e me ee :
  at_most false x (Zpos m) e -> nltb (S754_finite false me ee) (nsub x (S754_finite false m e)) = false.
Proof.
  intros [[z ->]|(m' & e' & -> & He & Hle)]; [reflexivity|].
  destruct (nsub_aligned m' e' m e) as (v & -> & Hv). rewrite Z.min_l, Z.sub_diag in Hv by lia.
  destruct v as [|p|p]; [reflexivity|lia|]. apply round_negative_sign.
Qed.

Lemma at_most_nonneg x M E : at_most false x M E -> nltb x n0 = false.
Proof. now intros [[z ->]|(m & e & -> & _)]. Qed.
