(* ===== verification/JsOrder.v ===== *)
(** * The order on doubles

    [<], [<=] and [===] on numbers that are not [NaN] are a total preorder (with
    [-0] equivalent to [+0]), and a running [Math.max] is its least upper bound. *)

From Stdlib Require Import SpecFloat.
From S2P Require Import Prelude JsNum.
Local Open Scope Z_scope.

(** The position of a number: class of its sign, then exponent, then mantissa. *)
Definition order_key (x : num) : Z * Z * Z :=
  match x with
  | S754_nan | S754_zero _ => (0, 0, 0)
  | S754_infinity true => (-2, 0, 0)
  | S754_infinity false => (2, 0, 0)
  | S754_finite true m e => (-1, - e, - Zpos m)
  | S754_finite false m e => (1, e, Zpos m)
  end.

Definition key_le (a b : Z * Z * Z) : Prop :=
  let '(a1, a2, a3) := a in let '(b1, b2, b3) := b in
  a1 < b1 \/ (a1 = b1 /\ (a2 < b2 \/ (a2 = b2 /\ a3 <= b3))).

Definition le_num (x y : num) : Prop := key_le (order_key x) (order_key y).

Lemma key_le_refl a : key_le a a.
Proof. destruct a as [[? ?] ?]. cbn. lia. Qed.

#[export] Instance le_num_preorder : PreOrder le_num.
Proof.
  split.
  - intros x. unfold le_num, key_le. destruct (order_key x) as [[? ?] ?]. lia.
  - intros x y z. unfold le_num, key_le.
    destruct (order_key x) as [[? ?] ?], (order_key y) as [[? ?] ?], (order_key z) as [[? ?] ?]. lia.
Qed.

Lemma le_num_total x y : le_num x y \/ le_num y x.
Proof.
  unfold le_num, key_le. destruct (order_key x) as [[? ?] ?], (order_key y) as [[? ?] ?]. lia.
Qed.

Ltac compare_cases :=
  repeat match goal with
  | |- context [Z.compare ?a ?b] => destruct (Z.compare_spec a b)
  | |- context [Pos.compare_cont Eq ?a ?b] =>
      change (Pos.compare_cont Eq a b) with (Pos.compare a b); destruct (Pos.compare_spec a b)
  end.

Lemma SFcompare_spec x y :
  is_nan x = false -> is_nan y = false ->
  exists c, SFcompare x y = Some c /\
    (c = Eq -> order_key x = order_key y) /\
    (c = Lt -> le_num x y /\ ~ le_num y x) /\ (c = Gt -> le_num y x /\ ~ le_num x y).
Proof.
  intros Hx Hy. destruct x as [sx|sx| |sx mx ex]; try discriminate Hx;
    destruct y as [sy|sy| |sy my ey]; try discriminate Hy;
    destruct sx, sy; unfold le_num, key_le; cbn [SFcompare order_key]; compare_cases; cbn [CompOpp];
    eexists; (split; [reflexivity|]);
    (split; [intros E; try discriminate E; repeat f_equal; lia|]);
    (split; intros E; try discriminate E; lia).
Qed.

Lemma nleb_spec x y : is_nan x = false -> is_nan y = false -> nleb x y = true <-> le_num x y.
Proof.
  intros Hx Hy. destruct (SFcompare_spec x y Hx Hy) as (c & Hc & He & Hl & Hg).
  unfold nleb, SFleb. rewrite Hc. destruct c.
  - split; [intros _; unfold le_num; rewrite (He eq_refl); apply key_le_refl|reflexivity].
  - split; [intros _; apply Hl; reflexivity|reflexivity].
  - split; [discriminate|]. intros Hle. destruct (Hg eq_refl). contradiction.
Qed.

Lemma neqb_spec x y :
  is_nan x = false -> is_nan y = false -> neqb x y = true <-> le_num x y /\ le_num y x.
Proof.
  intros Hx Hy. destruct (SFcompare_spec x y Hx Hy) as (c & Hc & He & Hl & Hg).
  unfold neqb, SFeqb. rewrite Hc. destruct c.
  - split; [intros _; unfold le_num; rewrite (He eq_refl); split; apply key_le_refl|reflexivity].
  - split; [discriminate|]. intros [_ ?]. destruct (Hl eq_refl). contradiction.
  - split; [discriminate|]. intros [? _]. destruct (Hg eq_refl). contradiction.
Qed.

Lemma nltb_spec x y : is_nan x = false -> is_nan y = false -> nltb x y = true <-> ~ le_num y x.
Proof.
  intros Hx Hy. destruct (SFcompare_spec x y Hx Hy) as (c & Hc & He & Hl & Hg).
  unfold nltb, SFltb. rewrite Hc. destruct c.
  - split; [discriminate|]. intros Hn. destruct Hn. unfold le_num. rewrite (He eq_refl). apply key_le_refl.
  - split; [intros _; apply Hl; reflexivity|reflexivity].
  - split; [discriminate|]. intros Hn. destruct (Hg eq_refl). contradiction.
Qed.

(** ** [Math.max] of a list *)

Definition max_num (l : list num) : num := fold_left nmax l ninf.

Lemma nmax_spec x y :
  is_nan x = false -> is_nan y = false ->
  is_nan (nmax x y) = false /\ le_num x (nmax x y) /\ le_num y (nmax x y) /\ (nmax x y = x \/ nmax x y = y).
Proof.
  intros Hx Hy. unfold nmax. rewrite Hx, Hy. cbn [orb]. pose proof (nltb_spec x y Hx Hy) as Hlt.
  destruct (nltb x y).
  - destruct (le_num_total x y) as [|Hle]; [|destruct (proj1 Hlt eq_refl Hle)].
    split_and!; auto; apply key_le_refl.
  - assert (Hle : le_num y x).
    { destruct (le_num_total y x) as [|Hxy]; [assumption|].
      destruct (nleb y x) eqn:E; [now apply nleb_spec|].
      exfalso.
      assert (Hn : ~ le_num y x) by (intros Hc; apply nleb_spec in Hc; [congruence|assumption..]).
      apply Hlt in Hn. discriminate. }
    split_and!; auto; apply key_le_refl.
Qed.

Lemma nmin_spec x y :
  is_nan x = false -> is_nan y = false ->
  is_nan (nmin x y) = false /\ le_num (nmin x y) y /\ (nmin x y = x \/ nmin x y = y).
Proof.
  intros Hx Hy. unfold nmin. rewrite Hx, Hy. cbn [orb]. destruct (nltb y x) eqn:E.
  - split_and!; auto. apply key_le_refl.
  - split_and!; auto. destruct (le_num_total x y) as [|Hyx]; [assumption|].
    destruct (nleb x y) eqn:E2; [now apply nleb_spec|]. exfalso.
    assert (Hn : ~ le_num x y) by (intros Hc; apply nleb_spec in Hc; [congruence|assumption..]).
    apply nltb_spec in Hn; [congruence|assumption..].
Qed.

Lemma fold_nmax_spec l acc :
  is_nan acc = false -> Forall (fun x => is_nan x = false) l ->
  let m := fold_left nmax l acc in
  is_nan m = false /\ le_num acc m /\ Forall (fun x => le_num x m) l /\ (m = acc \/ m ∈ l).
Proof.
  revert acc. induction l as [|x l IH]; intros acc Hacc Hl; cbn.
  { split_and!; auto. apply key_le_refl. }
  apply Forall_cons in Hl as [Hx Hl]. destruct (nmax_spec acc x Hacc Hx) as (Hn & Ha & Hxm & Hor).
  destruct (IH (nmax acc x) Hn Hl) as (Hm & Hle & Hall & Hin). split_and!; auto.
  - now transitivity (nmax acc x).
  - constructor; [now transitivity (nmax acc x)|exact Hall].
  - destruct Hin as [->|Hin]; [|right; now right]. destruct Hor as [->| ->]; [now left|right; left].
Qed.

(** An element equals the maximum exactly when it is an upper bound. *)
Lemma max_num_winner l x :
  Forall (fun y => is_nan y = false) l -> x ∈ l ->
  neqb x (max_num l) = true <-> Forall (fun y => le_num y x) l.
Proof.
  intros Hl Hx. destruct (fold_nmax_spec l ninf eq_refl Hl) as (Hm & _ & Hall & Hin).
  fold (max_num l) in *. assert (Hxn : is_nan x = false) by (rewrite Forall_forall in Hl; auto).
  rewrite (neqb_spec x _ Hxn Hm). split.
  - intros [_ Hle]. eapply Forall_impl; [exact Hall|]. intros y Hy. now transitivity (max_num l).
  - intros Hub. rewrite Forall_forall in Hall, Hub. split; [auto|].
    destruct Hin as [->|Hin]; [|auto].
    unfold le_num, key_le. destruct x as [[]|[]| |[]]; cbn [order_key ninf]; lia.
Qed.

(** ** The single best of a list

    [max(...scores)], and the element that alone has it: how the sources pick a winner. *)
Section Best.
Context {A : Type} (score : A -> num).

Definition best_of (l : list A) : option A :=
  the_only (List.filter (fun c => neqb (score c) (max_num (map score l))) l).

Lemma best_of_perm l l' :
  Permutation l l' -> Forall (fun x => is_nan x = false) (map score l) -> best_of l = best_of l'.
Proof.
  intros Hp Hnan. unfold best_of.
  rewrite <- (the_only_perm _ _ (filter_bool_perm (fun c => neqb (score c) (max_num (map score l'))) _ _ Hp)).
  f_equal. apply filter_bool_ext. intros c Hin.
  assert (Hp' : Permutation (map score l) (map score l')) by (now apply Permutation_map).
  assert (Hm : score c ∈ map score l) by (apply list_elem_of_fmap; eauto).
  apply eq_true_iff_eq. rewrite !max_num_winner; auto.
  - now rewrite Hp'.
  - now rewrite <- Hp'.
  - now rewrite <- Hp'.
Qed.

Lemma best_of_beats l c :
  Forall (fun x => is_nan x = false) (map score l) -> best_of l = Some c ->
  c ∈ l /\ forall d, d ∈ l -> d <> c -> nltb (score d) (score c) = true.
Proof.
  intros Hnan (Hin & Hmax & Huniq)%filter_only. split; [exact Hin|]. intros d Hd Hne.
  assert (Hs : forall e, e ∈ l -> score e ∈ map score l) by (intros e ?; apply list_elem_of_fmap; eauto).
  assert (Hn : forall e, e ∈ l -> is_nan (score e) = false) by (rewrite Forall_forall in Hnan; auto).
  apply nltb_spec; [auto..|]. intros Hle. apply Hne, Huniq; [exact Hd|].
  apply max_num_winner; auto. apply (max_num_winner _ _ Hnan (Hs c Hin)) in Hmax.
  eapply Forall_impl; [exact Hmax|]. intros y Hy. cbn in Hy. now transitivity (score c).
Qed.
End Best.
