(* ===== verification/JsVal.v ===== *)
(** * JavaScript values

    The rule, condition, fact and metadata objects of the backend are untyped
    JSON, read with [a ?? b], [Number(v)], [String(v)], truthiness and property
    access.  [jsval] is that value type and this file gives those operators their
    ECMAScript meaning, so that the component files translate expressions one for
    one.  A Prisma [Decimal] is represented by its decimal text: [Number] and
    [String] of a [Decimal] go through that text.

    Strings are ASCII: [toUpperCase] and [trim] act on code points below 128.
    The two implementation-defined corners of [Date] (the local-time text of
    [String(date)] and the parse of a text that is not ISO-8601 with an explicit
    zone) are the interface [JsHost].  *)

From Stdlib Require Import SpecFloat.
From S2P Require Import Prelude JsNum.
Local Open Scope Z_scope.

#[local] Set Warnings "-register-all".

Inductive jsval : Type :=
| JUndef
| JNull
| JBool (b : bool)
| JNum (x : num)
| JStr (s : string)
| JDate (t : option Z)
| JArr (l : list jsval)
| JObj (fields : list (string * jsval)).

Class JsHost := {
  local_date_string : Z -> string;
  local_date_parse : string -> option Z
}.

(** ** Property access, spread *)

Fixpoint assoc {A} (k : string) (l : list (string * A)) : option A :=
  match l with
  | [] => None
  | (k', v) :: l' => if k' =s? k then Some v else assoc k l'
  end.

Fixpoint assoc_set {A} (k : string) (v : A) (l : list (string * A)) : list (string * A) :=
  match l with
  | [] => [(k, v)]
  | (k', v') :: l' => if k' =s? k then (k', v) :: l' else (k', v') :: assoc_set k v l'
  end.

(** [o.k]; [undefined] when [o] has no such own property. *)
Definition prop (o : jsval) (k : string) : jsval :=
  match o with
  | JObj l => default JUndef (assoc k l)
  | _ => JUndef
  end.
Notation "o @. k" := (prop o k) (at level 2, left associativity, k at level 1) : js_scope.

Definition has_own (o : jsval) (k : string) : bool :=
  match o with
  | JObj l => match assoc k l with Some _ => true | None => false end
  | _ => false
  end.

Definition obj_fields (o : jsval) : list (string * jsval) :=
  match o with JObj l => l | _ => [] end.

(** [{ ...a, ...b }] *)
Definition spread (a b : jsval) : jsval :=
  JObj (fold_left (fun acc kv => assoc_set kv.1 kv.2 acc) (obj_fields b) (obj_fields a)).
(** [o.k = v] on a copy of [o] *)
Definition with_prop (o : jsval) (k : string) (v : jsval) : jsval :=
  JObj (assoc_set k v (obj_fields o)).

(** ** Tests *)

Definition nullish (v : jsval) : bool :=
  match v with JUndef | JNull => true | _ => false end.
Definition is_undef (v : jsval) : bool :=
  match v with JUndef => true | _ => false end.
Definition truthy (v : jsval) : bool :=
  match v with
  | JUndef | JNull => false
  | JBool b => b
  | JNum x => negb (is_nan x || neqb x n0)
  | JStr s => negb (s =s? "")
  | JDate _ | JArr _ | JObj _ => true
  end.
(** [a ?? b] and [a || b] *)
Definition coalesce (a b : jsval) : jsval := if nullish a then b else a.
Definition js_or (a b : jsval) : jsval := if truthy a then a else b.
Notation "a ?? b" := (coalesce a b) (at level 60, right associativity) : js_scope.
Notation "a |or| b" := (js_or a b) (at level 60, right associativity) : js_scope.

(** [v === "s"], [v === true] *)
Definition is_str (v : jsval) (s : string) : bool :=
  match v with JStr t => t =s? s | _ => false end.
Definition is_true (v : jsval) : bool :=
  match v with JBool true => true | _ => false end.
Notation "v === s" := (is_str v s) (at level 70, no associativity) : js_scope.

Lemma is_str_eq v s : (v === s) = true -> v = JStr s.
Proof. destruct v; try discriminate. cbn. intros E%String.eqb_eq. now subst. Qed.

(** [v == null || v === ""] *)
Definition blank (v : jsval) : bool := nullish v || (v === "").
(** [value && typeof value === "object"], and the same with [!Array.isArray] *)
Definition is_object (v : jsval) : bool :=
  match v with JDate _ | JArr _ | JObj _ => true | _ => false end.
Definition is_array (v : jsval) : bool := match v with JArr _ => true | _ => false end.
Definition as_object (v : jsval) : jsval :=
  if is_object v && negb (is_array v) then v else JObj [].
(** [Array.isArray(v) ? v : []] *)
Definition as_array (v : jsval) : list jsval := match v with JArr l => l | _ => [] end.

Definition of_option_str (o : option string) : jsval :=
  match o with Some s => JStr s | None => JNull end.
Definition of_option_num (o : option num) : jsval :=
  match o with Some x => JNum x | None => JNull end.

(** ** Text *)

Definition upper_char (c : ascii) : ascii :=
  let n := nat_of_ascii c in
  if ((97 <=? n) && (n <=? 122))%nat then ascii_of_nat (n - 32) else c.
Definition lower_char (c : ascii) : ascii :=
  let n := nat_of_ascii c in
  if ((65 <=? n) && (n <=? 90))%nat then ascii_of_nat (n + 32) else c.
Fixpoint map_string (f : ascii -> ascii) (s : string) : string :=
  match s with EmptyString => EmptyString | String c s' => String (f c) (map_string f s') end.
Definition to_upper : string -> string := map_string upper_char.
Definition to_lower : string -> string := map_string lower_char.

(** [s.replace(/[class]+/g, "_")] *)
Fixpoint squeeze (p : ascii -> bool) (inside : bool) (s : string) : string :=
  match s with
  | EmptyString => EmptyString
  | String c s' =>
      if p c then (if inside then squeeze p true s' else String "_" (squeeze p true s'))
      else String c (squeeze p false s')
  end.
Definition sep_class (c : ascii) : bool :=
  is_space c || (c =? "/")%char || (c =? "-")%char.

Fixpoint starts_with (p s : string) : bool :=
  match p, s with
  | EmptyString, _ => true
  | String a p', String b s' => (a =? b)%char && starts_with p' s'
  | _, _ => false
  end.
Definition ends_with (suffix s : string) : bool :=
  let n := String.length s in let k := String.length suffix in
  (k <=? n)%nat && (String.substring (n - k) k s =s? suffix).
Fixpoint includes (s p : string) : bool :=
  starts_with p s || match s with EmptyString => false | String _ s' => includes s' p end.
Definition slice (i j : nat) (s : string) : string := String.substring i (j - i) s.

Fixpoint join (sep : string) (l : list string) : string :=
  match l with
  | [] => ""
  | [s] => s
  | s :: l' => s +:+ sep +:+ join sep l'
  end.

(** ** Conversions *)

Section Conversions.
Context {H : JsHost}.

(** [String(v)] *)
Fixpoint js_string (v : jsval) : string :=
  match v with
  | JUndef => "undefined"
  | JNull => "null"
  | JBool b => if b then "true" else "false"
  | JNum x => num_to_string x
  | JStr s => s
  | JDate None => "Invalid Date"
  | JDate (Some t) => local_date_string t
  | JArr l => join "," (map (fun w => if nullish w then "" else js_string w) l)
  | JObj _ => "[object Object]"
  end.

(** [Number(v)] *)
Definition js_number (v : jsval) : num :=
  match v with
  | JUndef => NaN
  | JNull => n0
  | JBool b => if b then num_of_Z 1 else n0
  | JNum x => x
  | JStr s => string_to_num s
  | JDate None => NaN
  | JDate (Some t) => num_of_Z t
  | JArr _ => string_to_num (js_string v)
  | JObj _ => NaN
  end.

(** The helper the commercial, order and finance files all declare
    ([asNumber], [numOrNull], [finiteNumber], [toNumber]): a finite number or [null]. *)
Definition finite_number (v : jsval) : option num :=
  if blank v then None
  else let n := js_number v in if is_finite n then Some n else None.

End Conversions.

(** ** Objects as maps *)

Lemma assoc_app {A} k (l1 l2 : list (string * A)) :
  assoc k (l1 ++ l2) = match assoc k l1 with Some v => Some v | None => assoc k l2 end.
Proof. induction l1 as [|[j v] l1 IH]; cbn; [reflexivity|]. destruct (j =s? k); [reflexivity|exact IH]. Qed.

Lemma assoc_set_ne {A} k k' (v : A) l : (k =s? k') = false -> assoc k' (assoc_set k v l) = assoc k' l.
Proof.
  intros Hne. induction l as [|[j w] l IH]; cbn [assoc_set assoc].
  - now rewrite Hne.
  - destruct (j =s? k) eqn:E; cbn [assoc]; [|now rewrite IH].
    apply String.eqb_eq in E as ->. now rewrite Hne.
Qed.
Lemma assoc_set_eq {A} k (v : A) l : assoc k (assoc_set k v l) = Some v.
Proof.
  induction l as [|[j w] l IH]; cbn [assoc_set assoc]; [now rewrite String.eqb_refl|].
  destruct (j =s? k) eqn:E; cbn [assoc]; [now rewrite E|now rewrite E].
Qed.
Lemma prop_with_prop_ne o k k' v : (k =s? k') = false -> prop (with_prop o k v) k' = prop o k'.
Proof. intros Hne. unfold with_prop. cbn [prop]. rewrite assoc_set_ne by exact Hne. now destruct o. Qed.
Lemma prop_with_prop_eq o k v : prop (with_prop o k v) k = v.
Proof. unfold with_prop. cbn [prop]. now rewrite assoc_set_eq. Qed.

(** The binding of [k] that wins when the fields are assigned one after the other. *)
Lemma assoc_fold_set {A} k (fs base : list (string * A)) :
  NoDup (map fst fs) ->
  assoc k (fold_left (fun acc kv => assoc_set kv.1 kv.2 acc) fs base) =
  match assoc k fs with Some v => Some v | None => assoc k base end.
Proof.
  revert base. induction fs as [|[j v] fs IH]; intros base Hnd; [reflexivity|]. cbn in Hnd |- *.
  apply NoDup_cons in Hnd as [Hj Hnd]. rewrite IH by exact Hnd. destruct (j =s? k) eqn:E.
  - apply String.eqb_eq in E as ->. rewrite assoc_set_eq.
    replace (assoc k fs) with (@None A); [reflexivity|].
    clear -Hj. induction fs as [|[i w] fs IH]; [reflexivity|]. cbn in *.
    destruct (i =s? k) eqn:E; [apply String.eqb_eq in E as ->; set_solver|apply IH; set_solver].
  - destruct (assoc k fs); [reflexivity|]. now rewrite assoc_set_ne.
Qed.

Lemma prop_spread a b k :
  NoDup (map fst (obj_fields b)) ->
  prop (spread a b) k = match assoc k (obj_fields b) with Some v => v | None => prop a k end.
Proof.
  intros Hnd. unfold spread. cbn [prop]. rewrite assoc_fold_set by exact Hnd.
  destruct (assoc k (obj_fields b)); [reflexivity|]. now destruct a.
Qed.
