(* ===== verification/Redact.v ===== *)
(** * Scrubbing of secrets in free text

    [sanitizeSecretError] of [modules/networkOps/networkAccount.contract.js]: three replacements
    and a cut, on every text that is stored with an exception case or sent to a client.  The
    regular expressions are written out as matchers on the rest of the text that answer the
    length of the match; texts are the bytes of ASCII strings. *)

From S2P Require Import Prelude JsNum JsVal.
Local Open Scope nat_scope.

Module Redaction.

(** ** Character classes *)

Definition in_range (lo hi : nat) (c : ascii) : bool := (lo <=? nat_of_ascii c) && (nat_of_ascii c <=? hi).
Definition alnum (c : ascii) : bool := in_range 48 57 c || in_range 65 90 c || in_range 97 122 c.
Definition among (s : string) (c : ascii) : bool := negb (all_chars (fun d => negb (d =? c)%char) s).
Definition word_char (c : ascii) : bool := alnum c || (c =? "_")%char.
(** [[A-Za-z0-9._\-+=/]] *)
Definition bearer_char (c : ascii) : bool := alnum c || among "._-+=/" c.
(** [[A-Za-z0-9+/_-]] *)
Definition token_char (c : ascii) : bool := alnum c || among "+/_-" c.

(** ** Matching at the start of a text *)

Fixpoint span (p : ascii -> bool) (s : string) : nat :=
  match s with String c s' => if p c then S (span p s') else 0 | EmptyString => 0 end.
(** [p+] *)
Definition some_of (p : ascii -> bool) (s : string) : option nat := match span p s with O => None | n => Some n end.
(** A literal under the flag [i]. *)
Definition literal (l s : string) : option nat := if starts_with l (to_lower s) then Some (String.length l) else None.
(** One match after another. *)
Definition next (n : option nat) (m : string -> option nat) (s : string) : option nat :=
  match n with Some k => option_map (Nat.add k) (m (string_drop k s)) | None => None end.

(** [Bearer\s+[A-Za-z0-9._\-+=/]+] *)
Definition bearer (s : string) : option nat := next (next (literal "bearer" s) (some_of is_space) s) (some_of bearer_char) s.

(** [first[_-]?second] *)
Definition joined (first second s : string) : option nat :=
  next (next (literal first s) (fun r => Some (match r with String c _ => if among "_-" c then 1 else 0 | EmptyString => 0 end)) s)
    (literal second) s.
Fixpoint first_match (ms : list (string -> option nat)) (s : string) : option nat :=
  match ms with
  | [] => None
  | m :: ms' => match m s with Some n => Some n | None => first_match ms' s end
  end.
Definition secret_name : string -> option nat :=
  first_match [joined "api" "key"; joined "access" "token"; joined "refresh" "token"; joined "application" "key";
               (fun s => next (next (literal "user" s) (fun r => Some (match r with String c _ => if among "_-" c then 1 else 0 | EmptyString => 0 end)) s)
                           (joined "api" "key") s);
               joined "client" "secret"; literal "password"; literal "secret"].
(** [\s*[:=]\s*\S+] *)
Definition assigned (s : string) : option nat :=
  let blanks r := Some (span is_space r) in
  next (next (next (blanks s) (fun r => match r with String c _ => if among ":=" c then Some 1 else None | EmptyString => None end) s) blanks s)
    (some_of (fun c => negb (is_space c))) s.

(** [[A-Za-z0-9+/_-]{40,}={0,2}] *)
Definition long_token (s : string) : option nat :=
  let n := span token_char s in
  if n <? 40 then None else Some (n + Nat.min 2 (span (Ascii.eqb "=") (string_drop n s))).

(** ** Replacement *)

(** [text.replace(/.../g, ...)]: [m] sees the character before and the rest of the text, and
    answers the length of its match and what replaces it; [skip] characters of a match are
    still to be passed over. *)
Fixpoint replace_all (m : option ascii -> string -> option (nat * string)) (before : option ascii) (skip : nat) (s : string) : string :=
  match s with
  | EmptyString => ""
  | String c s' =>
      match skip with
      | S k => replace_all m (Some c) k s'
      | O =>
          match m before s with
          | Some (S n, r) => r +:+ replace_all m (Some c) n s'
          | _ => String c (replace_all m (Some c) 0 s')
          end
      end
  end.

Definition bearer_rule (_ : option ascii) (s : string) : option (nat * string) :=
  option_map (fun n => (n, "Bearer [redacted]")) (bearer s).
(** The name is kept; it starts at a word boundary. *)
Definition assignment_rule (before : option ascii) (s : string) : option (nat * string) :=
  if match before with Some c => word_char c | None => false end then None
  else
    match secret_name s with
    | Some n => option_map (fun k => (n + k, slice 0 n s +:+ "=[redacted]")) (assigned (string_drop n s))
    | None => None
    end.
Definition token_rule (_ : option ascii) (s : string) : option (nat * string) :=
  option_map (fun n => (n, "[redacted]")) (long_token s).

Definition MAX_MESSAGE : nat := 400.
Definition redact_secrets (text : string) : string :=
  let text := replace_all bearer_rule None 0 text in
  let text := replace_all assignment_rule None 0 text in
  let text := replace_all token_rule None 0 text in
  if MAX_MESSAGE <? String.length text then slice 0 MAX_MESSAGE text +:+ "…" else text.

Section WithHost.
Context {H : JsHost}.
Definition sanitizeSecretError (message : jsval) : jsval :=
  if blank message then JNull else JStr (redact_secrets (js_string message)).
End WithHost.

(** ** What is left of a token *)

(** No 40 token characters in a row, from any place of the text. *)
Fixpoint no_long_token (s : string) : bool :=
  match s with EmptyString => true | String _ s' => (span token_char s <? 40) && no_long_token s' end.

Lemma token_step before c s :
  (span token_char (String c s) < 40 /\
   replace_all token_rule before 0 (String c s) = String c (replace_all token_rule (Some c) 0 s)) \/
  exists n, replace_all token_rule before 0 (String c s) = "[redacted]" +:+ replace_all token_rule (Some c) n s.
Proof.
  cbn [replace_all]. destruct (token_rule before (String c s)) as [[[|n] r]|] eqn:E; unfold token_rule, long_token in E; cbv zeta in E;
    destruct (span token_char (String c s) <? 40) eqn:El; try discriminate E; cbn [option_map] in E.
  - apply Nat.ltb_ge in El. injection E as E _. apply Nat.eq_add_0 in E as [E _]. cbn [span] in El. rewrite E in El. lia.
  - right. injection E as _ <-. eexists. reflexivity.
  - left. split; [now apply Nat.ltb_lt|reflexivity].
Qed.
Lemma span_replaced before s : span token_char (replace_all token_rule before 0 s) <= span token_char s.
Proof.
  revert before. induction s as [|c s IH]; intros before; [reflexivity|]. destruct (token_step before c s) as [[_ ->]|[n ->]]; [|apply Nat.le_0_l].
  cbn [span]. destruct (token_char c); [|apply Nat.le_0_l]. apply le_n_S, IH.
Qed.
Lemma replaced_no_long_token before skip s : no_long_token (replace_all token_rule before skip s) = true.
Proof.
  revert before skip. induction s as [|c s IH]; intros before [|k]; [reflexivity..| |apply IH].
  destruct (token_step before c s) as [[Hlt ->]|[n ->]]; [|apply (IH (Some c) n)].
  cbn [no_long_token]. rewrite IH, andb_true_r. apply Nat.ltb_lt.
  pose proof (span_replaced (Some c) s) as Hs. cbn [span] in *. destruct (token_char c); lia.
Qed.
Lemma span_cut n s : span token_char (slice 0 n s +:+ "…") <= span token_char s.
Proof.
  unfold slice. rewrite Nat.sub_0_r. revert n. induction s as [|c s IH]; intros [|n]; try apply Nat.le_0_l.
  change (span token_char (String c (String.substring 0 n s +:+ "…")) <= span token_char (String c s)). cbn [span].
  destruct (token_char c); [apply le_n_S, IH|apply Nat.le_0_l].
Qed.
Lemma no_long_token_cut n s : no_long_token s = true -> no_long_token (slice 0 n s +:+ "…") = true.
Proof.
  unfold slice. rewrite Nat.sub_0_r. revert n. induction s as [|c s IH]; intros [|n] Hs; try reflexivity.
  cbn [no_long_token] in Hs. apply andb_true_iff in Hs as [Hc Hs].
  pose proof (span_cut (S n) (String c s)) as Hle. unfold slice in Hle. rewrite Nat.sub_0_r in Hle.
  change (String.substring 0 (S n) (String c s) +:+ "…") with (String c (String.substring 0 n s +:+ "…")) in *.
  cbn [no_long_token]. apply andb_true_iff. split; [|now apply IH].
  apply Nat.ltb_lt. apply Nat.ltb_lt in Hc. lia.
Qed.

Lemma length_cut n s : String.length (slice 0 n s +:+ "…") <= n + 3.
Proof.
  unfold slice. rewrite Nat.sub_0_r. revert n. induction s as [|c s IH]; intros [|n]; try apply (Nat.le_add_l 3).
  change (String.length (String c (String.substring 0 n s +:+ "…")) <= S n + 3). cbn [String.length Nat.add]. apply le_n_S, IH.
Qed.


Example redact_bearer : redact_secrets "401 for bearer abc.def: api-key = xyz" = "401 for Bearer [redacted]: api-key=[redacted]".
Proof. reflexivity. Qed.

End Redaction.
