(* ===== verification/JsDate.v ===== *)
(** * JavaScript dates

    A [Date] is its time value: milliseconds since 1970-01-01T00:00Z, or the
    invalid date.  The file models [Date.UTC], the UTC getters, [toISOString] and
    [new Date(v)], with the proleptic Gregorian calendar written out.  Text that is
    not an ISO-8601 date or an ISO-8601 date-time with an explicit zone is read by
    the host ([JsHost.local_date_parse]). *)

From Stdlib Require Import SpecFloat.
From S2P Require Import Prelude JsNum JsVal.
Local Open Scope Z_scope.

Definition ms_per_day : Z := 86400000.
Definition max_time : Z := 8640000000000000.
Definition time_clip (t : Z) : option Z := if Z.abs t <=? max_time then Some t else None.

(** ** Calendar *)

(** Days from 1970-01-01 to the given civil date. *)
Definition days_from_civil (y m d : Z) : Z :=
  let y' := if m <=? 2 then y - 1 else y in
  let era := y' / 400 in
  let yoe := y' - era * 400 in
  let mp := (m + 9) mod 12 in
  let doy := (153 * mp + 2) / 5 + d - 1 in
  let doe := yoe * 365 + yoe / 4 - yoe / 100 + doy in
  era * 146097 + doe - 719468.

Definition year_of_era (doe : Z) : Z :=
  (doe - doe / 1460 + doe / 36524 - doe / 146096) / 365.

(** Civil date [(y, m, d)] of a day number. *)
Definition civil_from_days (z0 : Z) : Z * Z * Z :=
  let z := z0 + 719468 in
  let era := z / 146097 in
  let doe := z - era * 146097 in
  let yoe := year_of_era doe in
  let doy := doe - (365 * yoe + yoe / 4 - yoe / 100) in
  let mp := (5 * doy + 2) / 153 in
  let d := doy - (153 * mp + 2) / 5 + 1 in
  let m := if mp <? 10 then mp + 3 else mp - 9 in
  ((if m <=? 2 then yoe + era * 400 + 1 else yoe + era * 400), m, d).

Definition is_leap (y : Z) : bool :=
  ((y mod 4 =? 0) && negb (y mod 100 =? 0)) || (y mod 400 =? 0).
Definition days_in_month (y m : Z) : Z :=
  if (m =? 2) then (if is_leap y then 29 else 28)
  else if (m =? 4) || (m =? 6) || (m =? 9) || (m =? 11) then 30 else 31.
Definition valid_civil (y m d : Z) : bool :=
  (1 <=? m) && (m <=? 12) && (1 <=? d) && (d <=? days_in_month y m).

(** ** [Date.UTC(year, monthIndex, day)] and the UTC getters *)

Definition make_day (y month d : Z) : Z :=
  days_from_civil (y + month / 12) (month mod 12 + 1) 1 + d - 1.
Definition date_utc (y month d : Z) : option Z :=
  let full := if (0 <=? y) && (y <=? 99) then 1900 + y else y in
  time_clip (make_day full month d * ms_per_day).

Definition utc_year (t : Z) : Z := (civil_from_days (t / ms_per_day)).1.1.
Definition utc_month (t : Z) : Z := (civil_from_days (t / ms_per_day)).1.2 - 1.
Definition utc_date (t : Z) : Z := (civil_from_days (t / ms_per_day)).2.

(** [setUTCDate(d)] and [setUTCMilliseconds(ms)], as the new time value. *)
Definition set_utc_date (t d : Z) : option Z :=
  time_clip (make_day (utc_year t) (utc_month t) d * ms_per_day + t mod ms_per_day).
Definition utc_milliseconds (t : Z) : Z := t mod 1000.
Definition set_utc_milliseconds (t ms : Z) : option Z :=
  time_clip (t / 1000 * 1000 + ms).

(** ** [toISOString] *)

Definition pad (w : nat) (n : Z) (acc : string) : string := print_frac w n acc.
Definition print_year (y : Z) (acc : string) : string :=
  if (0 <=? y) && (y <=? 9999) then pad 4 y acc
  else String (if y <? 0 then "-"%char else "+"%char) (pad 6 (Z.abs y) acc).
Definition to_iso_string (t : Z) : string :=
  let '(y, m, d) := civil_from_days (t / ms_per_day) in
  let r := t mod ms_per_day in
  print_year y (String "-" (pad 2 m (String "-" (pad 2 d (String "T"
    (pad 2 (r / 3600000) (String ":" (pad 2 (r / 60000 mod 60) (String ":"
    (pad 2 (r / 1000 mod 60) (String "." (pad 3 (r mod 1000) "Z")))))))))))).

(** ** [new Date(text)] *)

(** Exactly [w] digits. *)
Fixpoint take_digits (w : nat) (v : Z) (s : string) : option (Z * string) :=
  match w, s with
  | O, _ => Some (v, s)
  | S w', String c s' =>
      match char_digit c with Some d => take_digits w' (v * 10 + d) s' | None => None end
  | S _, EmptyString => None
  end.
Definition expect (c : ascii) (s : string) : option string :=
  match s with String c' s' => if (c =? c')%char then Some s' else None | _ => None end.

(** ["YYYY-MM-DD"] and the rest of the text. *)
Definition parse_ymd (s : string) : option (Z * Z * Z * string) :=
  '(y, s) ← take_digits 4 0 s; s ← expect "-" s;
  '(m, s) ← take_digits 2 0 s; s ← expect "-" s;
  '(d, s) ← take_digits 2 0 s; Some (y, m, d, s).

(** [Z], [+hh:mm], [-hh:mm] (the colon is optional), reaching the end: offset in minutes. *)
Definition parse_zone (s : string) : option Z :=
  match s with
  | String "Z" EmptyString => Some 0
  | String c s' =>
      if ((c =? "+")%char || (c =? "-")%char)%bool then
        '(h, s') ← take_digits 2 0 s';
        let s' := match expect ":" s' with Some r => r | None => s' end in
        '(mi, s') ← take_digits 2 0 s';
        match s' with
        | EmptyString => Some ((if (c =? "-")%char then -1 else 1) * (h * 60 + mi))
        | _ => None
        end
      else None
  | EmptyString => None
  end.

(** [.ddd]: milliseconds from the first three digits. *)
Definition parse_fraction (s : string) : option (Z * string) :=
  match s with
  | String "." s' =>
      let '(v, n, rest) := scan_digits 0 0 s' in
      match n with
      | O => None
      | _ => Some ((if (n <=? 3)%nat then v * 10 ^ (3 - Z.of_nat n)
                    else v / 10 ^ (Z.of_nat n - 3)), rest)
      end
  | _ => Some (0, s)
  end.

(** [Thh:mm[:ss[.fff]]zone]: milliseconds to add to UTC midnight. *)
Definition parse_time (s : string) : option Z :=
  s ← expect "T" s;
  '(h, s) ← take_digits 2 0 s; s ← expect ":" s;
  '(mi, s) ← take_digits 2 0 s;
  '(sec, ms, s) ←
    match expect ":" s with
    | Some s' => '(sec, s') ← take_digits 2 0 s';
                 '(ms, s') ← parse_fraction s'; Some (sec, ms, s')
    | None => Some (0, 0, s)
    end;
  off ← parse_zone s;
  if (h <=? 23) && (mi <=? 59) && (sec <=? 59)
  then Some (h * 3600000 + mi * 60000 + sec * 1000 + ms - off * 60000) else None.

(** The ISO forms with an explicit (or date-only, hence UTC) zone. *)
Definition iso_parse (s : string) : option Z :=
  '(y, m, d, rest) ← parse_ymd s;
  if (1 <=? m) && (m <=? 12) && (1 <=? d) && (d <=? 31) then
    let day := days_from_civil y m 1 + d - 1 in
    match rest with
    | EmptyString => Some (day * ms_per_day)
    | _ => ms ← parse_time rest; Some (day * ms_per_day + ms)
    end
  else None.

Section NewDate.
Context {H : JsHost}.

Definition date_parse (s : string) : option Z :=
  match iso_parse s with Some t => time_clip t | None => local_date_parse s end.

(** Truncation of a finite double towards zero. *)
Definition num_trunc (x : num) : option Z :=
  match x with
  | S754_zero _ => Some 0
  | S754_finite s m e =>
      let a := if 0 <=? e then Zpos m * 2 ^ e else Zpos m / 2 ^ (- e) in
      Some (if s then - a else a)
  | _ => None
  end.

(** [new Date(v)], as a time value. *)
Definition new_date (v : jsval) : option Z :=
  match v with
  | JDate t => t
  | JStr s => date_parse s
  | JArr _ | JObj _ => date_parse (js_string v)
  | _ => match num_trunc (js_number v) with Some t => time_clip t | None => None end
  end.

End NewDate.

(** ** The UTC day of an instant *)

Lemma make_day_civil y month d :
  0 <= month <= 11 -> make_day y month d = days_from_civil y (month + 1) 1 + d - 1.
Proof.
  intros Hm. unfold make_day. rewrite Z.div_small, Z.mod_small by lia. now rewrite Z.add_0_r.
Qed.

Lemma days_from_civil_day y m d : days_from_civil y m d = days_from_civil y m 1 + d - 1.
Proof. unfold days_from_civil. lia. Qed.

(** A host in the UTC time zone that reads no further text form. *)
Definition weekday_name (t : Z) : string :=
  nth (Z.to_nat ((t / ms_per_day + 4) mod 7)) ["Sun"; "Mon"; "Tue"; "Wed"; "Thu"; "Fri"; "Sat"] "".
Definition month_name (m : Z) : string :=
  nth (Z.to_nat m) ["Jan"; "Feb"; "Mar"; "Apr"; "May"; "Jun"; "Jul"; "Aug"; "Sep"; "Oct"; "Nov"; "Dec"] "".
Definition utc_date_string (t : Z) : string :=
  let r := t mod ms_per_day in
  weekday_name t +:+ " " +:+ month_name (utc_month t) +:+ " " +:+ pad 2 (utc_date t) "" +:+ " "
  +:+ pad 4 (utc_year t) "" +:+ " " +:+ pad 2 (r / 3600000) "" +:+ ":" +:+ pad 2 (r / 60000 mod 60) ""
  +:+ ":" +:+ pad 2 (r / 1000 mod 60) "" +:+ " GMT+0000 (Coordinated Universal Time)".
Definition utc_host : JsHost :=
  {| local_date_string := utc_date_string; local_date_parse := fun _ => None |}.

(** ** The calendar is a bijection *)

(** Years of an era (March-based): days before year [yoe], and the year a day is in. *)
Definition era_year_start (yoe : Z) : Z := 365 * yoe + yoe / 4 - yoe / 100.

Lemma year_of_era_spec doe :
  0 <= doe < 146097 ->
  let yoe := year_of_era doe in
  0 <= yoe < 400 /\ 0 <= doe - era_year_start yoe <= 365 /\
  (doe - era_year_start yoe = 365 -> is_leap (yoe + 1) = true).
Proof.
  intros Hd yoe. unfold is_leap.
  rewrite orb_true_iff, andb_true_iff, negb_true_iff, !Z.eqb_eq, Z.eqb_neq.
  unfold yoe, era_year_start, year_of_era.
  split; [|split]; [Z.div_mod_to_equations; lia .. |].
  intros Hdoy. Z.div_mod_to_equations; lia.
Qed.

Lemma year_of_era_unique yoe doy :
  0 <= yoe < 400 -> 0 <= doy <= 365 -> (doy = 365 -> is_leap (yoe + 1) = true) ->
  year_of_era (era_year_start yoe + doy) = yoe /\ 0 <= era_year_start yoe + doy < 146097.
Proof.
  intros Hy Hd Hleap. unfold is_leap in Hleap.
  rewrite orb_true_iff, andb_true_iff, negb_true_iff, !Z.eqb_eq, Z.eqb_neq in Hleap.
  unfold era_year_start, year_of_era in *.
  split; Z.div_mod_to_equations; lia.
Qed.

(** March-based months: a year's day number and its (month, day), by computation. *)
Definition doy_ok (doy : Z) : bool :=
  let mp := (5 * doy + 2) / 153 in
  let d := doy - (153 * mp + 2) / 5 + 1 in
  let m := if mp <? 10 then mp + 3 else mp - 9 in
  (1 <=? m) && (m <=? 12) && (1 <=? d)
  && (d <=? (if m =? 2 then (if doy =? 365 then 29 else 28) else days_in_month 1 m))
  && ((153 * ((m + 9) mod 12) + 2) / 5 + d - 1 =? doy).
Lemma doys_ok doy : 0 <= doy <= 365 -> doy_ok doy = true.
Proof. intros. apply (all_below_spec doy_ok 366); [vm_compute; reflexivity | lia]. Qed.

Definition month_day_ok (i : Z) : bool :=
  let m := i / 31 + 1 in let d := i mod 31 + 1 in
  let doy := (153 * ((m + 9) mod 12) + 2) / 5 + d - 1 in
  let mp := (5 * doy + 2) / 153 in
  negb (d <=? days_in_month 4 m)
  || ((0 <=? doy) && (doy <=? 365) && (negb (doy =? 365) || ((m =? 2) && (d =? 29)))
      && ((if mp <? 10 then mp + 3 else mp - 9) =? m)
      && (doy - (153 * mp + 2) / 5 + 1 =? d)).
Lemma month_days_ok i : 0 <= i < 372 -> month_day_ok i = true.
Proof. apply (all_below_spec month_day_ok 372). vm_compute. reflexivity. Qed.

Lemma is_leap_era y k : is_leap (y + k * 400) = is_leap y.
Proof.
  unfold is_leap.
  replace ((y + k * 400) mod 4) with (y mod 4) by (Z.div_mod_to_equations; lia).
  replace ((y + k * 400) mod 100) with (y mod 100) by (Z.div_mod_to_equations; lia).
  replace ((y + k * 400) mod 400) with (y mod 400) by (Z.div_mod_to_equations; lia).
  reflexivity.
Qed.

(** Every day number is the day number of its civil date, which is a valid date. *)
Lemma civil_from_days_spec z :
  let '(y, m, d) := civil_from_days z in
  days_from_civil y m d = z /\ valid_civil y m d = true.
Proof.
  unfold civil_from_days. fold (era_year_start (year_of_era (z + 719468 - (z + 719468) / 146097 * 146097))).
  set (era := (z + 719468) / 146097). set (doe := z + 719468 - era * 146097).
  assert (Hdoe : 0 <= doe < 146097) by (subst doe era; Z.div_mod_to_equations; lia).
  destruct (year_of_era_spec doe Hdoe) as (Hy & Hdoy & Hleap).
  set (yoe := year_of_era doe) in *. set (doy := doe - era_year_start yoe) in *.
  pose proof (doys_ok doy Hdoy) as Hok. unfold doy_ok in Hok.
  set (mp := (5 * doy + 2) / 153) in *. set (d := doy - (153 * mp + 2) / 5 + 1) in *.
  set (m := if mp <? 10 then mp + 3 else mp - 9) in *.
  rewrite !andb_true_iff, !Z.leb_le, Z.eqb_eq in Hok.
  destruct Hok as [[[[Hm1 Hm12] Hd1] Hdmax] Hdays].
  split.
  - unfold days_from_civil.
    assert (Hyear : forall b : bool, (if b then (if b then yoe + era * 400 + 1 else yoe + era * 400) - 1
       else (if b then yoe + era * 400 + 1 else yoe + era * 400)) = yoe + era * 400)
      by (intros []; lia).
    rewrite Hyear.
    replace ((yoe + era * 400) / 400) with era by (Z.div_mod_to_equations; lia).
    replace (yoe + era * 400 - era * 400) with yoe by lia.
    rewrite Hdays. subst doy doe. unfold era_year_start. lia.
  - unfold valid_civil. rewrite !andb_true_iff, !Z.leb_le.
    repeat split; try lia. unfold days_in_month in *.
    destruct (Z.eqb_spec m 2) as [Em|Hm]; [|exact Hdmax].
    rewrite Em. change (2 <=? 2) with true. cbv iota.
    replace (yoe + era * 400 + 1) with ((yoe + 1) + era * 400) by lia. rewrite is_leap_era.
    destruct (Z.eqb_spec doy 365) as [H365|]; [rewrite (Hleap H365); lia|].
    destruct (is_leap _); lia.
Qed.

(** A valid civil date is the civil date of its day number. *)
Lemma civil_days_roundtrip y m d :
  valid_civil y m d = true -> civil_from_days (days_from_civil y m d) = (y, m, d).
Proof.
  unfold valid_civil. rewrite !andb_true_iff, !Z.leb_le. intros [[[Hm1 Hm12] Hd1] Hdmax].
  assert (Hd4 : d <= days_in_month 4 m).
  { unfold days_in_month in *. change (is_leap 4) with true.
    destruct (m =? 2); [destruct (is_leap y); lia | exact Hdmax]. }
  assert (Hd31 : d <= 31) by (unfold days_in_month in Hd4; repeat case_match; lia).
  pose proof (month_days_ok ((m - 1) * 31 + (d - 1)) ltac:(lia)) as Hok. unfold month_day_ok in Hok.
  replace (((m - 1) * 31 + (d - 1)) / 31) with (m - 1) in Hok
    by (apply (Z.div_unique _ 31 (m - 1) (d - 1)); lia).
  replace (((m - 1) * 31 + (d - 1)) mod 31) with (d - 1) in Hok
    by (apply (Z.mod_unique _ 31 (m - 1)); lia).
  replace (m - 1 + 1) with m in Hok by lia. replace (d - 1 + 1) with d in Hok by lia.
  rewrite (proj2 (Z.leb_le _ _) Hd4) in Hok. cbn [negb orb] in Hok.
  unfold days_from_civil. set (doy := (153 * _ + 2) / 5 + d - 1) in *.
  rewrite !andb_true_iff, orb_true_iff, andb_true_iff, negb_true_iff, !Z.leb_le, !Z.eqb_eq, Z.eqb_neq in Hok.
  destruct Hok as [[[[Hdoy0 Hdoy1] H365] Hm] Hd].
  set (y' := if m <=? 2 then y - 1 else y). set (era := y' / 400).
  assert (Hyoe : 0 <= y' - era * 400 < 400) by (subst era; Z.div_mod_to_equations; lia).
  set (yoe := y' - era * 400) in *.
  destruct (year_of_era_unique yoe doy Hyoe ltac:(lia)) as [Hyear Hrange].
  { intros E. destruct H365 as [|[-> ->]]; [lia|].
    unfold days_in_month in Hdmax. cbn [Z.eqb Pos.eqb] in Hdmax.
    replace (is_leap (yoe + 1)) with (is_leap y); [destruct (is_leap y); [reflexivity|lia]|].
    assert (Hnext : yoe + 1 = y + (- era) * 400)
      by (unfold yoe, y'; change (2 <=? 2) with true; cbv iota; lia).
    rewrite Hnext. now rewrite is_leap_era. }
  replace (yoe * 365 + yoe / 4 - yoe / 100 + doy) with (era_year_start yoe + doy)
    by (unfold era_year_start; lia).
  unfold civil_from_days.
  set (doe := era_year_start yoe + doy) in *.
  replace ((era * 146097 + doe - 719468 + 719468) / 146097) with era
    by (apply (Z.div_unique _ 146097 era doe); lia).
  replace (era * 146097 + doe - 719468 + 719468 - era * 146097) with doe by lia.
  rewrite Hyear. fold (era_year_start yoe). replace (doe - era_year_start yoe) with doy by lia.
  rewrite Hm, Hd. do 2 f_equal. subst yoe y'. destruct (m <=? 2); lia.
Qed.

(** [Date.UTC] of the UTC year, month and day plus [k] days is the [k]-th next day. *)
Lemma make_day_utc t k :
  make_day (utc_year t) (utc_month t) (utc_date t + k) = t / ms_per_day + k.
Proof.
  unfold utc_year, utc_month, utc_date.
  pose proof (civil_from_days_spec (t / ms_per_day)) as Hspec.
  destruct (civil_from_days (t / ms_per_day)) as [[y m] d]; cbn [fst snd] in *.
  destruct Hspec as [Hday Hvalid]. unfold valid_civil in Hvalid.
  rewrite !andb_true_iff, !Z.leb_le in Hvalid.
  rewrite make_day_civil by lia. replace (m - 1 + 1) with m by lia.
  rewrite <- Hday, (days_from_civil_day y m d). lia.
Qed.

(** Reading exactly [w] decimal digits gives a number below [10^w]. *)
Lemma char_digit_range c d : char_digit c = Some d -> 0 <= d <= 9.
Proof. unfold char_digit. intros. case_match; simplify_eq.
  rewrite andb_true_iff, !Z.leb_le in *. lia.
Qed.

Lemma take_digits_range w v s n rest :
  0 <= v -> take_digits w v s = Some (n, rest) ->
  v * 10 ^ Z.of_nat w <= n < (v + 1) * 10 ^ Z.of_nat w.
Proof.
  revert v s. induction w as [|w IH]; intros v s Hv; [cbn; intros [= <- <-]; lia|].
  destruct s as [|c s]; [discriminate|]. cbn [take_digits].
  destruct (char_digit c) as [d|] eqn:Hd; [|discriminate]. intros Htake.
  pose proof (char_digit_range _ _ Hd) as Hrange.
  specialize (IH (v * 10 + d) s ltac:(lia) Htake).
  rewrite Nat2Z.inj_succ, Z.pow_succ_r by lia.
  assert (0 < 10 ^ Z.of_nat w) by (apply Z.pow_pos_nonneg; lia). nia.
Qed.

Lemma parse_ymd_range s y m d rest :
  parse_ymd s = Some (y, m, d, rest) -> 0 <= y <= 9999 /\ 0 <= m <= 99 /\ 0 <= d <= 99.
Proof.
  unfold parse_ymd. intros Hp. invert_binds. simplify_eq.
  repeat match goal with
  | Ht : take_digits _ 0 _ = Some _ |- _ => apply take_digits_range in Ht; [|lia]
  end.
  cbn in *. lia.
Qed.

Lemma time_clip_in t : Z.abs t <= max_time -> time_clip t = Some t.
Proof. intros Ht. unfold time_clip. now rewrite (proj2 (Z.leb_le _ _) Ht). Qed.

Lemma days_from_civil_bounds y m d :
  1 <= m <= 12 ->
  365 * y - 720000 + d <= days_from_civil y m d <= 366 * y - 719000 + d \/ y < 0.
Proof.
  intros Hm. unfold days_from_civil.
  destruct (Z.leb_spec m 2); Z.div_mod_to_equations; lia.
Qed.

(** [make_day] when the getters read back what was given: the date is a calendar date. *)
Lemma make_day_readback y month d :
  civil_from_days (make_day y month d) = (y, month + 1, d) <-> valid_civil y (month + 1) d = true.
Proof.
  split; intros Hc.
  - pose proof (civil_from_days_spec (make_day y month d)) as Hs. rewrite Hc in Hs. apply Hs.
  - rewrite make_day_civil by (unfold valid_civil in Hc; split_bools; rewrite Z.leb_le in *; lia).
    rewrite <- days_from_civil_day. now apply civil_days_roundtrip.
Qed.
