(* ===== verification/JsDay.v ===== *)
(** * Calendar days as texts

    The planner names days by the first ten characters of [toISOString] and compares,
    shifts and re-parses those texts.  For the years 0 to 9999 a day text is in bijection
    with a day number, its order as a text is the order of days, and [setUTCDate] on it is
    addition. *)

From S2P Require Import Prelude JsNum JsVal JsDate.
Local Open Scope Z_scope.

(** [date.toISOString().slice(0, 10)] *)
Definition iso_slice (t : Z) : string := slice 0 10 (to_iso_string t).
(** [a < b] and [a > b] on texts *)
Definition str_lt (a b : string) : bool := match String.compare a b with Lt => true | _ => false end.
Definition str_gt (a b : string) : bool := str_lt b a.
(** [`${day}T00:00:00.000Z`] *)
Definition at_midnight (day : string) : string := day +:+ "T00:00:00.000Z".

(** The text of a day number. *)
Definition day_text (n : Z) : string := iso_slice (n * ms_per_day).
(** The days of the years 0 to 9999. *)
Definition first_day : Z := -719528.
Definition last_day : Z := 2932896.
Definition regular_day (n : Z) : Prop := first_day <= n <= last_day.

(** ** Order of the calendar *)

Definition lex (a b : Z * Z * Z) : bool :=
  let '(y, m, d) := a in let '(y', m', d') := b in
  (y <? y') || ((y =? y') && ((m <? m') || ((m =? m') && (d <? d')))).

(** The first day of the month [i] months after January of year 0. *)
Definition month_start (i : Z) : Z := days_from_civil (i / 12) (i mod 12 + 1) 1.
Definition month_length (i : Z) : Z := days_in_month (i / 12) (i mod 12 + 1).

Lemma leap_days y : (y / 4 - y / 100 + y / 400) - ((y - 1) / 4 - (y - 1) / 100 + (y - 1) / 400) = if is_leap y then 1 else 0.
Proof.
  unfold is_leap. destruct (Z.eqb_spec (y mod 4) 0), (Z.eqb_spec (y mod 100) 0), (Z.eqb_spec (y mod 400) 0); cbn;
    Z.div_mod_to_equations; lia.
Qed.

(** Days before March of year [y]. *)
Lemma march y m d : 1 <= m <= 12 ->
  let y' := if m <=? 2 then y - 1 else y in
  days_from_civil y m d = 365 * y' + (y' / 4 - y' / 100 + y' / 400) + (153 * ((m + 9) mod 12) + 2) / 5 + d - 1 - 719468.
Proof.
  intros Hm y'. unfold days_from_civil. fold y'. cbv zeta.
  replace ((y' - y' / 400 * 400) / 4) with (y' / 4 - y' / 400 * 100) by (Z.div_mod_to_equations; lia).
  replace ((y' - y' / 400 * 400) / 100) with (y' / 100 - y' / 400 * 4) by (Z.div_mod_to_equations; lia). lia.
Qed.

Lemma month_start_succ i : month_start (i + 1) = month_start i + month_length i.
Proof.
  unfold month_start, month_length. set (y := i / 12). set (m := i mod 12).
  assert (Hm : 0 <= m < 12) by (apply Z.mod_pos_bound; lia).
  assert (Hi : i = 12 * y + m) by apply (Z_div_mod_eq_full i 12).
  replace ((i + 1) / 12) with (if m =? 11 then y + 1 else y) by (destruct (Z.eqb_spec m 11); Z.div_mod_to_equations; lia).
  replace ((i + 1) mod 12) with (if m =? 11 then 0 else m + 1) by (destruct (Z.eqb_spec m 11); Z.div_mod_to_equations; lia).
  clearbody y m. clear i Hi.
  pose proof (leap_days y) as Hleap. unfold days_in_month. rewrite !march by (destruct (Z.eqb_spec m 11); lia).
  replace (y + 1 - 1) with y by lia.
  repeat match goal with
  | |- context [?a =? ?b] => destruct (Z.eqb_spec a b); try lia
  | |- context [?a <=? ?b] => destruct (Z.leb_spec a b); try lia
  end; cbn [orb]; try (destruct (is_leap y)); Z.div_mod_to_equations; lia.
Qed.

Lemma month_start_lt i j : i < j -> month_start i + month_length i <= month_start j.
Proof.
  intros Hlt. replace j with (i + 1 + Z.of_nat (Z.to_nat (j - i - 1))) by lia.
  induction (Z.to_nat (j - i - 1)) as [|k IH]; [rewrite Z.add_0_r, month_start_succ; lia|].
  replace (i + 1 + Z.of_nat (S k)) with (i + 1 + Z.of_nat k + 1) by lia. rewrite month_start_succ.
  assert (0 <= month_length (i + 1 + Z.of_nat k)); [|lia].
  unfold month_length, days_in_month. repeat case_match; lia.
Qed.

(** Days are ordered as their dates. *)
Lemma civil_lt n n' : n < n' -> lex (civil_from_days n) (civil_from_days n') = true.
Proof.
  intros Hlt. pose proof (civil_from_days_spec n) as H. pose proof (civil_from_days_spec n') as H'.
  destruct (civil_from_days n) as [[y m] d], (civil_from_days n') as [[y' m'] d'].
  destruct H as [Hn Hv], H' as [Hn' Hv']. unfold valid_civil in Hv, Hv'. split_bools. rewrite Z.leb_le in *.
  assert (Hidx : forall y m, 1 <= m <= 12 -> (12 * y + m - 1) / 12 = y /\ (12 * y + m - 1) mod 12 + 1 = m)
    by (intros; split; Z.div_mod_to_equations; lia).
  destruct (Hidx y m ltac:(lia)) as [Ey Em]. destruct (Hidx y' m' ltac:(lia)) as [Ey' Em'].
  assert (Es : n = month_start (12 * y + m - 1) + d - 1)
    by (unfold month_start; rewrite Ey, Em, <- Hn, (days_from_civil_day y m d); lia).
  assert (Es' : n' = month_start (12 * y' + m' - 1) + d' - 1)
    by (unfold month_start; rewrite Ey', Em', <- Hn', (days_from_civil_day y' m' d'); lia).
  unfold lex. rewrite !orb_true_iff, !andb_true_iff, !orb_true_iff, !andb_true_iff, !Z.ltb_lt, !Z.eqb_eq.
  destruct (Z.lt_trichotomy (12 * y + m - 1) (12 * y' + m' - 1)) as [Hi|[Hi|Hi]]; [lia| |].
  - rewrite Hi in Es. lia.
  - exfalso. pose proof (month_start_lt _ _ Hi) as Hm. unfold month_length in Hm. rewrite Ey', Em' in Hm. lia.
Qed.

(** ** Fixed-width digits *)

Lemma digit_compare a b : 0 <= a < 10 -> 0 <= b < 10 -> Ascii.compare (digit_char a) (digit_char b) = (a ?= b).
Proof.
  intros Ha Hb.
  assert (Hn : forall c, 0 <= c < 10 -> N_of_ascii (digit_char c) = N.of_nat (48 + Z.to_nat c)).
  { intros c Hc. rewrite <- (nat_ascii_embedding (48 + Z.to_nat c)) by lia.
    unfold nat_of_ascii. now rewrite N2Nat.id. }
  unfold Ascii.compare. rewrite !Hn by assumption.
  destruct (Z.compare_spec a b), (N.compare_spec (N.of_nat (48 + Z.to_nat a)) (N.of_nat (48 + Z.to_nat b))); lia || reflexivity.
Qed.

Lemma print_frac_mod f n acc : 0 <= n -> print_frac f n acc = print_frac f (n mod 10 ^ Z.of_nat f) acc.
Proof.
  intros Hn. assert (Hgen : forall g, (g <= f)%nat -> print_frac g n acc = print_frac g (n mod 10 ^ Z.of_nat f) acc); [|auto].
  induction g as [|g IH]; intros Hg; [reflexivity|]. cbn [print_frac]. rewrite IH by lia. do 2 f_equal.
  set (G := 10 ^ Z.of_nat g). assert (HG : 0 < G) by (apply Z.pow_pos_nonneg; lia).
  assert (HF : 10 ^ Z.of_nat f = G * (10 * 10 ^ Z.of_nat (f - S g))).
  { unfold G. rewrite <- (Z.pow_1_r 10) at 3. rewrite <- !Z.pow_add_r by lia. f_equal. lia. }
  rewrite HF. set (Q := 10 ^ Z.of_nat (f - S g)). assert (HQ : 0 < Q) by (apply Z.pow_pos_nonneg; lia).
  rewrite Z.rem_mul_r by lia. rewrite (Z.mul_comm G), Z.div_add by lia.
  rewrite (Z.div_small (n mod G)) by (apply Z.mod_pos_bound; lia). rewrite Z.add_0_l.
  rewrite Z.mod_mod_divide; [reflexivity|exists Q; lia].
Qed.

Lemma print_frac_compare f n n' acc acc' :
  0 <= n < 10 ^ Z.of_nat f -> 0 <= n' < 10 ^ Z.of_nat f ->
  String.compare (print_frac f n acc) (print_frac f n' acc') =
  match n ?= n' with Eq => String.compare acc acc' | c => c end.
Proof.
  revert n n'. induction f as [|f IH]; intros n n' Hn Hn'.
  - cbn in *. replace n with 0 by lia. replace n' with 0 by lia. reflexivity.
  - cbn [print_frac String.compare]. rewrite (print_frac_mod f n), (print_frac_mod f n') by lia.
    rewrite Nat2Z.inj_succ, Z.pow_succ_r in Hn, Hn' by lia. set (P := 10 ^ Z.of_nat f) in *.
    assert (HP : 0 < P) by (apply Z.pow_pos_nonneg; lia).
    rewrite !(Z.mod_small (_ / P)) by (split; [apply Z.div_pos; lia|apply Z.div_lt_upper_bound; lia]).
    rewrite digit_compare by (split; [apply Z.div_pos; lia|apply Z.div_lt_upper_bound; lia]).
    rewrite IH by (apply Z.mod_pos_bound; lia).
    pose proof (Z_div_mod_eq_full n P). pose proof (Z_div_mod_eq_full n' P).
    pose proof (Z.mod_pos_bound n P HP). pose proof (Z.mod_pos_bound n' P HP).
    destruct (Z.compare_spec (n / P) (n' / P)), (Z.compare_spec (n mod P) (n' mod P)), (Z.compare_spec n n');
      try reflexivity; nia.
Qed.

(** ** Texts of days *)

Definition ymd_text (y m d : Z) : string := pad 4 y (String "-" (pad 2 m (String "-" (pad 2 d "")))).

Lemma regular_year n : regular_day n -> 0 <= (civil_from_days n).1.1 <= 9999.
Proof.
  unfold regular_day. intros Hn.
  assert (Hlo : forall a b, a = b \/ a < b -> (civil_from_days a).1.1 <= (civil_from_days b).1.1).
  { intros a b [->|Hab]; [lia|]. pose proof (civil_lt a b Hab) as Hl.
    destruct (civil_from_days a) as [[y m] d], (civil_from_days b) as [[y' m'] d']. unfold lex in Hl. cbn.
    rewrite !orb_true_iff, !andb_true_iff, !orb_true_iff, !andb_true_iff, !Z.ltb_lt, !Z.eqb_eq in Hl. lia. }
  pose proof (Hlo first_day n ltac:(lia)). pose proof (Hlo n last_day ltac:(lia)).
  change ((civil_from_days first_day).1.1) with 0 in *. change ((civil_from_days last_day).1.1) with 9999 in *. lia.
Qed.

Lemma substring_prefix a b : String.substring 0 (String.length a) (a +:+ b) = a.
Proof. induction a as [|c a IH]; [now destruct b|].
  change (String c a +:+ b) with (String c (a +:+ b)). cbn. f_equal. exact IH.
Qed.

Lemma print_frac_app f n acc b : print_frac f n (acc +:+ b) = print_frac f n acc +:+ b.
Proof.
  induction f as [|f IH]; [reflexivity|]. cbn [print_frac]. rewrite IH. reflexivity.
Qed.

Lemma ymd_text_app y m d rest : pad 4 y (String "-" (pad 2 m (String "-" (pad 2 d rest)))) = ymd_text y m d +:+ rest.
Proof.
  unfold ymd_text, pad. rewrite <- print_frac_app.
  change (String "-" ?a +:+ ?b) with (String "-" (a +:+ b)). rewrite <- print_frac_app.
  change (String "-" ?a +:+ ?b) with (String "-" (a +:+ b)). now rewrite <- print_frac_app.
Qed.

Lemma iso_slice_text t : regular_day (t / ms_per_day) ->
  iso_slice t = let '(y, m, d) := civil_from_days (t / ms_per_day) in ymd_text y m d.
Proof.
  intros Hr. pose proof (regular_year _ Hr) as Hy. unfold iso_slice, to_iso_string.
  destruct (civil_from_days (t / ms_per_day)) as [[y m] d]. cbn in Hy.
  unfold print_year. rewrite (proj2 (Z.leb_le 0 y)), (proj2 (Z.leb_le y 9999)) by lia. cbn [andb].
  set (rest := String "T" _).
  rewrite ymd_text_app. unfold slice. change (10 - 0)%nat with 10%nat.
  replace 10%nat with (String.length (ymd_text y m d)) by reflexivity.
  apply substring_prefix.
Qed.

(** Reading [w] printed digits. *)
Lemma take_digits_print f n v acc :
  0 <= n < 10 ^ Z.of_nat f -> take_digits f v (print_frac f n acc) = Some (v * 10 ^ Z.of_nat f + n, acc).
Proof.
  revert n v. induction f as [|f IH]; intros n v Hn.
  - cbn in *. f_equal. f_equal. lia.
  - cbn [print_frac take_digits]. rewrite print_frac_mod by lia. rewrite Nat2Z.inj_succ, Z.pow_succ_r in * by lia.
    set (P := 10 ^ Z.of_nat f) in *. assert (HP : 0 < P) by (apply Z.pow_pos_nonneg; lia).
    rewrite (Z.mod_small (n / P)) by (split; [apply Z.div_pos; lia|apply Z.div_lt_upper_bound; lia]).
    rewrite char_digit_print by (split; [apply Z.div_pos; lia|apply Z.div_lt_upper_bound; lia]).
    rewrite IH by (apply Z.mod_pos_bound; lia). f_equal. f_equal. pose proof (Z_div_mod_eq_full n P). lia.
Qed.

Lemma civil_fields n : let '(y, m, d) := civil_from_days n in
  days_from_civil y m d = n /\ 1 <= m <= 12 /\ 1 <= d <= 31.
Proof.
  pose proof (civil_from_days_spec n) as Hs. destruct (civil_from_days n) as [[y m] d]. destruct Hs as [Hn Hv].
  unfold valid_civil in Hv. split_bools. rewrite Z.leb_le in *. split; [exact Hn|].
  assert (days_in_month y m <= 31) by (unfold days_in_month; repeat case_match; lia). lia.
Qed.

Lemma day_text_ymd n : regular_day n -> day_text n = let '(y, m, d) := civil_from_days n in ymd_text y m d.
Proof.
  intros Hr. unfold day_text. rewrite iso_slice_text; rewrite Z.div_mul by (unfold ms_per_day; lia); [reflexivity|exact Hr].
Qed.
Lemma iso_slice_day t : regular_day (t / ms_per_day) -> iso_slice t = day_text (t / ms_per_day).
Proof. intros Hr. now rewrite iso_slice_text, day_text_ymd. Qed.

(** Parsing a day text, alone or with the midnight suffix. *)
Lemma parse_ymd_text y m d rest :
  0 <= y <= 9999 -> 1 <= m <= 12 -> 1 <= d <= 31 -> parse_ymd (ymd_text y m d +:+ rest) = Some (y, m, d, rest).
Proof.
  intros Hy Hm Hd. rewrite <- ymd_text_app. unfold parse_ymd, pad. rewrite take_digits_print by (cbn; lia). cbn [option_bind mbind]. cbn [expect].
  rewrite Ascii.eqb_refl. cbn [option_bind mbind]. rewrite take_digits_print by (cbn; lia). cbn [option_bind mbind expect].
  rewrite Ascii.eqb_refl. cbn [option_bind mbind]. rewrite take_digits_print by (cbn; lia). reflexivity.
Qed.

Lemma iso_parse_day n : regular_day n ->
  iso_parse (day_text n) = Some (n * ms_per_day) /\ iso_parse (at_midnight (day_text n)) = Some (n * ms_per_day).
Proof.
  intros Hr. pose proof (regular_year n Hr) as Hy. pose proof (civil_fields n) as Hf.
  rewrite day_text_ymd by exact Hr. destruct (civil_from_days n) as [[y m] d]. destruct Hf as (Hn & Hm & Hd). cbn in Hy.
  assert (Hday : days_from_civil y m 1 + d - 1 = n) by (rewrite <- Hn, (days_from_civil_day y m d); lia).
  assert (Hok : ((1 <=? m) && (m <=? 12) && (1 <=? d) && (d <=? 31)) = true)
    by (rewrite !andb_true_iff, !Z.leb_le; lia).
  assert (Hnil : ymd_text y m d = ymd_text y m d +:+ "") by reflexivity.
  unfold iso_parse, at_midnight. split.
  - rewrite Hnil, parse_ymd_text by assumption. cbn [option_bind mbind]. rewrite Hok, Hday. reflexivity.
  - rewrite parse_ymd_text by assumption. cbn [option_bind mbind]. rewrite Hok, Hday.
    change (parse_time "T00:00:00.000Z") with (Some 0). cbn [option_bind mbind]. now rewrite ?Z.add_0_r.
Qed.

Lemma regular_clip_day n : regular_day n -> time_clip (n * ms_per_day) = Some (n * ms_per_day).
Proof. unfold regular_day, first_day, last_day. intros Hn. apply time_clip_in. unfold ms_per_day, max_time. lia. Qed.

(** Texts of days are ordered as the days. *)
Lemma day_text_lt n n' : regular_day n -> regular_day n' -> str_lt (day_text n) (day_text n') = (n <? n').
Proof.
  assert (Hlt : forall a b, regular_day a -> regular_day b -> a < b -> String.compare (day_text a) (day_text b) = Lt).
  { intros a b Ha Hb Hab. pose proof (civil_lt a b Hab) as Hlex. rewrite !day_text_ymd by assumption.
    pose proof (regular_year a Ha). pose proof (regular_year b Hb).
    pose proof (civil_fields a). pose proof (civil_fields b).
    destruct (civil_from_days a) as [[y m] d], (civil_from_days b) as [[y' m'] d']. cbn [fst snd] in *.
    unfold lex in Hlex. rewrite !orb_true_iff, !andb_true_iff, !orb_true_iff, !andb_true_iff, !Z.ltb_lt, !Z.eqb_eq in Hlex.
    unfold ymd_text, pad. rewrite print_frac_compare by (cbn; lia). cbn [String.compare]. rewrite print_frac_compare by (cbn; lia).
    cbn [String.compare]. rewrite print_frac_compare by (cbn; lia). cbn.
    destruct (Z.compare_spec y y'), (Z.compare_spec m m'), (Z.compare_spec d d'); try reflexivity; lia. }
  intros Hn Hn'. unfold str_lt. destruct (Z.lt_trichotomy n n') as [H|[->|H]].
  - rewrite (Hlt n n') by assumption. symmetry. now apply Z.ltb_lt.
  - rewrite Z.ltb_irrefl. destruct (String.compare (day_text n') (day_text n')) eqn:E; try reflexivity.
    pose proof (String.compare_antisym (day_text n') (day_text n')) as Ha. rewrite E in Ha. discriminate.
  - rewrite String.compare_antisym, (Hlt n' n) by assumption. cbn. symmetry. apply Z.ltb_ge. lia.
Qed.

Lemma day_text_inj n n' : regular_day n -> regular_day n' -> day_text n = day_text n' -> n = n'.
Proof.
  intros Hn Hn' E. pose proof (day_text_lt n n' Hn Hn') as H1. pose proof (day_text_lt n' n Hn' Hn) as H2.
  rewrite E in H1, H2. pose proof (day_text_lt n' n' Hn' Hn') as H3. rewrite H3, Z.ltb_irrefl in *.
  symmetry in H1, H2. apply Z.ltb_ge in H1, H2. lia.
Qed.

(** [setUTCDate(getUTCDate() + k)] on a midnight. *)
Lemma set_date_shift n k : regular_day (n + k) -> set_utc_date (n * ms_per_day) (utc_date (n * ms_per_day) + k) = Some ((n + k) * ms_per_day).
Proof.
  intros Hr. unfold set_utc_date. rewrite make_day_utc, Z.div_mul, Z.mod_mul by (unfold ms_per_day; lia).
  rewrite Z.add_0_r. now apply regular_clip_day.
Qed.

(** A day text has no space to trim. *)
Definition tight (s : string) : bool := all_chars (fun c => negb (is_space c)) s.
Lemma trim_tight s : tight s = true -> trim s = s.
Proof.
  intros Hs. unfold trim. assert (Hl : trim_left s = s).
  { destruct s as [|c s]; [reflexivity|]. cbn in Hs |- *. apply andb_true_iff in Hs as [Hc%negb_true_iff _]. now rewrite Hc. }
  rewrite Hl. clear Hl. induction s as [|c s IH]; [reflexivity|]. cbn in Hs |- *. apply andb_true_iff in Hs as [Hc%negb_true_iff Hs].
  rewrite (IH Hs), Hc. now destruct s.
Qed.
Lemma print_frac_tight f n acc : 0 <= n -> tight acc = true -> tight (print_frac f n acc) = true.
Proof.
  intros Hn Hacc. induction f as [|f IH]; [exact Hacc|]. cbn. rewrite plain_char_not_space; [exact IH|].
  apply digit_char_plain, Z.mod_pos_bound. lia.
Qed.
Lemma trim_day_text n : regular_day n -> trim (day_text n) = day_text n.
Proof.
  intros Hr. pose proof (regular_year n Hr) as Hy. pose proof (civil_fields n) as Hf. apply trim_tight.
  rewrite day_text_ymd by exact Hr. destruct (civil_from_days n) as [[y m] d]. cbn [fst] in Hy. destruct Hf as (_ & Hm & Hd).
  unfold ymd_text, pad. apply print_frac_tight; [lia|]. change (tight (String "-" ?r)) with (tight r).
  apply print_frac_tight; [lia|]. change (tight (String "-" ?r)) with (tight r). apply print_frac_tight; [lia|reflexivity].
Qed.

(** ** Instants *)

(** The time of day as [toISOString] prints it is read back. *)
Lemma parse_time_print h mi sec ms :
  0 <= h <= 23 -> 0 <= mi <= 59 -> 0 <= sec <= 59 -> 0 <= ms <= 999 ->
  parse_time (String "T" (pad 2 h (String ":" (pad 2 mi (String ":" (pad 2 sec (String "." (pad 3 ms "Z"))))))))
  = Some (h * 3600000 + mi * 60000 + sec * 1000 + ms).
Proof.
  intros Hh Hmi Hsec Hms. unfold parse_time, pad. change (expect "T" (String "T" ?r)) with (Some r). cbn [mbind option_bind].
  rewrite take_digits_print by (cbn; lia). cbn [mbind option_bind]. change (expect ":" (String ":" ?r)) with (Some r). cbn [mbind option_bind].
  rewrite take_digits_print by (cbn; lia). cbn [mbind option_bind]. change (expect ":" (String ":" ?r)) with (Some r). cbn [mbind option_bind].
  rewrite take_digits_print by (cbn; lia). cbn [mbind option_bind].
  assert (Hf : parse_fraction (String "." (print_frac 3 ms "Z")) = Some (ms, "Z")).
  { unfold parse_fraction. rewrite scan_print_frac by lia. rewrite (Z.mod_small ms) by (cbn; lia). rewrite Z.mul_0_l, Z.add_0_l. cbn [scan_digits Nat.add char_digit]. change (char_digit "Z") with (@None Z). cbn iota. cbn [Nat.leb]. change (10 ^ (3 - Z.of_nat 3)) with 1. now rewrite Z.mul_1_r. }
  rewrite Hf. cbn [mbind option_bind]. change (parse_zone "Z") with (Some 0). cbn [mbind option_bind].
  rewrite !Z.mul_0_l, !Z.add_0_l. rewrite (proj2 (Z.leb_le h 23)), (proj2 (Z.leb_le mi 59)), (proj2 (Z.leb_le sec 59)) by lia.
  cbn [andb]. f_equal. lia.
Qed.

(** [new Date(d.toISOString())] is [d], within the years 0 to 9999. *)
Lemma iso_roundtrip `{JsHost} t : regular_day (t / ms_per_day) -> date_parse (to_iso_string t) = Some t.
Proof.
  intros Hr. pose proof (regular_year _ Hr) as Hy. pose proof (civil_fields (t / ms_per_day)) as Hf.
  unfold to_iso_string. destruct (civil_from_days (t / ms_per_day)) as [[y m] d]. destruct Hf as (Hn & Hm & Hd). cbn in Hy.
  unfold print_year. rewrite (proj2 (Z.leb_le 0 y)), (proj2 (Z.leb_le y 9999)) by lia. cbn [andb]. rewrite ymd_text_app.
  assert (Hday : days_from_civil y m 1 + d - 1 = t / ms_per_day) by (rewrite <- Hn, (days_from_civil_day y m d); lia).
  set (r := t mod ms_per_day). assert (Hrr : 0 <= r < ms_per_day) by (apply Z.mod_pos_bound; reflexivity).
  unfold date_parse, iso_parse. rewrite parse_ymd_text by assumption. cbn [mbind option_bind].
  rewrite (proj2 (Z.leb_le 1 m)), (proj2 (Z.leb_le m 12)), (proj2 (Z.leb_le 1 d)), (proj2 (Z.leb_le d 31)) by lia. cbn [andb].
  rewrite parse_time_print; unfold ms_per_day in *; try (Z.div_mod_to_equations; lia). cbn [mbind option_bind]. rewrite Hday.
  assert (E : t / 86400000 * 86400000 + (r / 3600000 * 3600000 + r / 60000 mod 60 * 60000 + r / 1000 mod 60 * 1000 + r mod 1000) = t).
  { unfold r. Z.div_mod_to_equations. lia. }
  rewrite E. apply time_clip_in. unfold regular_day, first_day, last_day in Hr. unfold max_time. Z.div_mod_to_equations. lia.
Qed.
