(* ===== verification/JsJson.v ===== *)
(** * JSON.parse and JSON.stringify

    The reader of JSON text, used where the source accepts a JSON array written in a
    string.  [None] is the thrown [SyntaxError].  The fuel is twice the length of the text:
    a value or a list entry consumes at least one character. *)

From S2P Require Import Prelude JsNum JsVal JsDate.
Local Open Scope Z_scope.

Definition json_space (c : ascii) : bool :=
  let n := nat_of_ascii c in ((n =? 32) || (n =? 9) || (n =? 10) || (n =? 13))%nat.
Fixpoint skip_space (s : string) : string :=
  match s with
  | String c s' => if json_space c then skip_space s' else s
  | EmptyString => s
  end.

(** The text after the literal [lit], if [s] starts with it. *)
Fixpoint strip_prefix (lit s : string) : option string :=
  match lit, s with
  | EmptyString, _ => Some s
  | String a l', String b s' => if (a =? b)%char then strip_prefix l' s' else None
  | _, EmptyString => None
  end.

(** ** Strings *)

Definition utf8 (code : Z) (acc : string) : string :=
  let ch n := ascii_of_N (Z.to_N n) in
  if code <? 128 then String (ch code) acc
  else if code <? 2048 then
    String (ch (192 + code / 64)) (String (ch (128 + code mod 64)) acc)
  else
    String (ch (224 + code / 4096))
      (String (ch (128 + code / 64 mod 64)) (String (ch (128 + code mod 64)) acc)).

Definition hex4 (s : string) : option (Z * string) :=
  match s with
  | String a (String b (String c (String d rest))) =>
      let v := [radix_digit a; radix_digit b; radix_digit c; radix_digit d] in
      if forallb (fun x => x <? 16) v
      then Some (fold_left (fun acc x => acc * 16 + x) v 0, rest) else None
  | _ => None
  end.

Definition simple_escape (c : ascii) : option ascii :=
  let n := nat_of_ascii c in
  if ((n =? 34) || (n =? 92) || (n =? 47))%nat then Some c
  else if (n =? 98)%nat then Some (ascii_of_nat 8)
  else if (n =? 102)%nat then Some (ascii_of_nat 12)
  else if (n =? 110)%nat then Some (ascii_of_nat 10)
  else if (n =? 114)%nat then Some (ascii_of_nat 13)
  else if (n =? 116)%nat then Some (ascii_of_nat 9)
  else None.

(** The rest of a string after its opening quote. *)
Fixpoint parse_json_string (fuel : nat) (s : string) : option (string * string) :=
  match fuel, s with
  | S f, String c s' =>
      let n := nat_of_ascii c in
      if (n =? 34)%nat then Some (EmptyString, s')
      else if (n <? 32)%nat then None
      else if (n =? 92)%nat then
        match s' with
        | String e s'' =>
            if (e =? "u")%char then
              '(code, s'') ← hex4 s''; '(t, r) ← parse_json_string f s''; Some (utf8 code t, r)
            else
              e ← simple_escape e; '(t, r) ← parse_json_string f s''; Some (String e t, r)
        | EmptyString => None
        end
      else '(t, r) ← parse_json_string f s'; Some (String c t, r)
  | _, _ => None
  end.

(** ** Numbers *)

(** The longest prefix of digits, and the rest. *)
Fixpoint take_while_digit (s : string) : string * string :=
  match s with
  | String c s' => match char_digit c with
                   | Some _ => let '(d, r) := take_while_digit s' in (String c d, r)
                   | None => (EmptyString, s)
                   end
  | EmptyString => (EmptyString, EmptyString)
  end.

Definition parse_json_number (s : string) : option (num * string) :=
  let '(sign, s) := match strip_prefix "-" s with Some r => ("-", r) | None => ("", s) end in
  let '(int, s) := take_while_digit s in
  if (int =s? "") || (starts_with "0" int && negb (int =s? "0")) then None
  else
    '(frac, s) ← match strip_prefix "." s with
                 | Some r => let '(d, r) := take_while_digit r in
                             if d =s? "" then None else Some ("." +:+ d, r)
                 | None => Some ("", s)
                 end;
    '(exp, s) ← match s with
                | String c r =>
                    if ((c =? "e") || (c =? "E"))%char then
                      let '(sg, r) := match strip_prefix "-" r with
                                      | Some r => ("-", r)
                                      | None => match strip_prefix "+" r with Some r => ("+", r) | None => ("", r) end
                                      end in
                      let '(d, r) := take_while_digit r in
                      if d =s? "" then None else Some ("e" +:+ sg +:+ d, r)
                    else Some ("", s)
                | EmptyString => Some ("", s)
                end;
    Some (string_to_num (sign +:+ int +:+ frac +:+ exp), s).

(** ** Values *)

Fixpoint parse_value (fuel : nat) (s0 : string) : option (jsval * string) :=
  match fuel with
  | O => None
  | S f =>
      match skip_space s0 with
      | EmptyString => None
      | String c s' as s =>
          let n := nat_of_ascii c in
          if (n =? 34)%nat then '(t, r) ← parse_json_string f s'; Some (JStr t, r)
          else if (c =? "[")%char then
            match strip_prefix "]" (skip_space s') with
            | Some r => Some (JArr [], r)
            | None => '(l, r) ← parse_elements f s'; Some (JArr l, r)
            end
          else if (c =? "{")%char then
            match strip_prefix "}" (skip_space s') with
            | Some r => Some (JObj [], r)
            | None => '(l, r) ← parse_members f s' []; Some (JObj l, r)
            end
          else
            match strip_prefix "null" s, strip_prefix "true" s, strip_prefix "false" s with
            | Some r, _, _ => Some (JNull, r)
            | _, Some r, _ => Some (JBool true, r)
            | _, _, Some r => Some (JBool false, r)
            | _, _, _ => '(x, r) ← parse_json_number s; Some (JNum x, r)
            end
      end
  end
with parse_elements (fuel : nat) (s : string) : option (list jsval * string) :=
  match fuel with
  | O => None
  | S f =>
      '(v, s) ← parse_value f s;
      match skip_space s with
      | String "," s' => '(l, r) ← parse_elements f s'; Some (v :: l, r)
      | String "]" r => Some ([v], r)
      | _ => None
      end
  end
with parse_members (fuel : nat) (s : string) (acc : list (string * jsval))
  : option (list (string * jsval) * string) :=
  match fuel with
  | O => None
  | S f =>
      match skip_space s with
      | String c s' =>
          if (nat_of_ascii c =? 34)%nat then
            '(k, s) ← parse_json_string f s';
            s ← strip_prefix ":" (skip_space s);
            '(v, s) ← parse_value f s;
            match skip_space s with
            | String "," s' => parse_members f s' (assoc_set k v acc)
            | String "}" r => Some (assoc_set k v acc, r)
            | _ => None
            end
          else None
      | EmptyString => None
      end
  end.

Definition json_parse (s : string) : option jsval :=
  '(v, rest) ← parse_value (2 * String.length s + 2) s;
  if skip_space rest =s? "" then Some v else None.

Example json_parse_array : json_parse "[1, [true], {}]"
  = Some (JArr [JNum (num_of_Z 1); JArr [JBool true]; JObj []]).
Proof. vm_compute. reflexivity. Qed.

(** ** JSON.stringify *)

Definition hex_digit (n : nat) : ascii := ascii_of_nat (if (n <? 10)%nat then 48 + n else 87 + n)%nat.
(** One character of a quoted text; a byte above 127 is part of a UTF-8 sequence and stays. *)
Definition escape_char (c : ascii) (rest : string) : string :=
  let n := nat_of_ascii c in
  let short e := String "\" (String e rest) in
  if ((n =? 34) || (n =? 92))%nat then short c
  else if (n =? 8)%nat then short "b"%char
  else if (n =? 9)%nat then short "t"%char
  else if (n =? 10)%nat then short "n"%char
  else if (n =? 12)%nat then short "f"%char
  else if (n =? 13)%nat then short "r"%char
  else if (n <? 32)%nat then
    String "\" (String "u" (String "0" (String "0" (String (hex_digit (n / 16)) (String (hex_digit (n mod 16)) rest)))))
  else String c rest.
Fixpoint escape (s rest : string) : string :=
  match s with
  | EmptyString => rest
  | String c s' => escape_char c (escape s' rest)
  end.
Definition quote : ascii := ascii_of_nat 34.
(** The text [s] in quotes, followed by [rest]. *)
Definition json_quote (s rest : string) : string := String quote (escape s (String quote rest)).

Lemma parse_escape_char c f rest :
  parse_json_string (S f) (escape_char c rest)
  = ('(t, r) ← parse_json_string f rest; Some (String c t, r)).
Proof. destruct c as [[] [] [] [] [] [] [] []]; reflexivity. Qed.

Lemma parse_escape s f rest :
  (String.length s < f)%nat -> parse_json_string f (escape s (String quote rest)) = Some (s, rest).
Proof.
  revert f. induction s as [|c s IH]; intros [|f] Hf; cbn [String.length] in Hf; try lia; [reflexivity|].
  cbn [escape]. rewrite parse_escape_char, IH by lia. reflexivity.
Qed.

(** [JSON.stringify(v)] followed by [rest]; an undefined member is left out. *)
Fixpoint json_text (v : jsval) (rest : string) : string :=
  match v with
  | JUndef | JNull | JDate None => "null" +:+ rest
  | JBool b => (if b then "true" else "false") +:+ rest
  | JNum x => (if is_finite x then num_to_string x else "null") +:+ rest
  | JStr s => json_quote s rest
  | JDate (Some t) => json_quote (to_iso_string t) rest
  | JArr l =>
      let fix elements (first : bool) (l : list jsval) : string :=
        match l with
        | [] => String "]" rest
        | w :: l' => let tail := json_text w (elements false l') in if first then tail else String "," tail
        end in
      String "[" (elements true l)
  | JObj fields =>
      let fix members (first : bool) (l : list (string * jsval)) : string :=
        match l with
        | [] => String "}" rest
        | (k, w) :: l' =>
            match w with
            | JUndef => members first l'
            | _ => let tail := json_quote k (String ":" (json_text w (members false l'))) in
                   if first then tail else String "," tail
            end
        end in
      String "{" (members true fields)
  end.
Definition json_stringify (v : jsval) : string := json_text v "".

(** ** Objects of texts are read back *)

Definition text_fields (l : list (string * string)) : list (string * jsval) := map (fun kv => (kv.1, JStr kv.2)) l.

Fixpoint member_texts (first : bool) (l : list (string * string)) (rest : string) : string :=
  match l with
  | [] => String "}" rest
  | (k, t) :: l' =>
      let tail := json_quote k (String ":" (json_quote t (member_texts false l' rest))) in
      if first then tail else String "," tail
  end.
Lemma json_text_fields l : json_stringify (JObj (text_fields l)) = String "{" (member_texts true l "").
Proof.
  unfold json_stringify. cbn [json_text]. f_equal.
  match goal with |- ?members true _ = _ => enough (Hm : forall b, members b (text_fields l) = member_texts b l "") by apply Hm end.
  induction l as [|[k t] l IH]; intros first; [reflexivity|]. cbn [text_fields map fst snd member_texts].
  cbn iota beta. rewrite <- IH. reflexivity.
Qed.

Lemma length_escape s rest : (String.length s + String.length rest <= String.length (escape s rest))%nat.
Proof.
  induction s as [|c s IH]; [reflexivity|]. cbn [escape String.length].
  assert (Hc : (String.length (escape s rest) < String.length (escape_char c (escape s rest)))%nat).
  { unfold escape_char. repeat case_match; cbn [String.length]; lia. }
  lia.
Qed.
Lemma length_quote s rest : (String.length s + String.length rest + 2 <= String.length (json_quote s rest))%nat.
Proof. unfold json_quote. cbn [String.length]. pose proof (length_escape s (String quote rest)). cbn [String.length] in *. lia. Qed.

Lemma parse_quoted f s rest :
  (String.length s + 1 < f)%nat -> parse_value f (json_quote s rest) = Some (JStr s, rest).
Proof.
  destruct f as [|f]; [lia|]. intros Hf. unfold json_quote. cbn [parse_value skip_space]. change (json_space quote) with false.
  cbn iota. change (nat_of_ascii quote =? 34)%nat with true. cbn iota. rewrite parse_escape by lia. reflexivity.
Qed.

Lemma parse_member f k t rest acc :
  (String.length k + String.length t + 1 < f)%nat ->
  parse_members (S f) (json_quote k (String ":" (json_quote t rest))) acc
  = match skip_space rest with
    | String "," s' => parse_members f s' (assoc_set k (JStr t) acc)
    | String "}" r => Some (assoc_set k (JStr t) acc, r)
    | _ => None
    end.
Proof.
  intros Hf. unfold json_quote at 1. cbn [parse_members skip_space]. change (json_space quote) with false.
  cbn iota. change (nat_of_ascii quote =? 34)%nat with true. cbn iota. rewrite parse_escape by lia.
  cbn [mbind option_bind]. change (skip_space (String ":" ?r)) with (String ":" r).
  change (strip_prefix ":" (String ":" ?r)) with (Some r). cbn [mbind option_bind]. rewrite parse_quoted by lia. reflexivity.
Qed.

Lemma parse_member_texts l kv acc f rest :
  (String.length (member_texts true (kv :: l) rest) <= f)%nat ->
  parse_members f (member_texts true (kv :: l) rest) acc
  = Some (foldl (fun m kv => assoc_set kv.1 (JStr kv.2) m) acc (kv :: l), rest).
Proof.
  revert kv acc f. induction l as [|kv' l IH]; intros [k t] acc f Hf; cbn [member_texts] in Hf |- *.
  - pose proof (length_quote k (String ":" (json_quote t (String "}" rest)))) as H1.
    pose proof (length_quote t (String "}" rest)) as H2. cbn [String.length] in *.
    destruct f as [|f]; [lia|]. rewrite parse_member by lia. reflexivity.
  - destruct kv' as [k' t']. set (tail := json_quote k' _) in *.
    pose proof (length_quote k (String ":" (json_quote t (String "," tail)))) as H1.
    pose proof (length_quote t (String "," tail)) as H2. cbn [String.length] in *.
    destruct f as [|f]; [lia|]. rewrite parse_member by lia.
    exact (IH (k', t') (assoc_set k (JStr t) acc) f ltac:(cbn [member_texts]; fold tail; lia)).
Qed.

Lemma assoc_set_new {A} k (v : A) l : k ∉ map fst l -> assoc_set k v l = l ++ [(k, v)].
Proof.
  induction l as [|[k' w] l IH]; [reflexivity|]. cbn [map fst assoc_set]. intros Hk.
  destruct (String.eqb_spec k' k) as [->|Hne]; [exfalso; apply Hk; left|].
  cbn [app]. f_equal. apply IH. intros Hin. apply Hk. now right.
Qed.

(** [JSON.parse(JSON.stringify(o))] is [o], when the values of [o] are texts. *)
Lemma json_text_roundtrip l :
  l <> [] -> NoDup (map fst l) -> json_parse (json_stringify (JObj (text_fields l))) = Some (JObj (text_fields l)).
Proof.
  intros Hl Hnd. rewrite json_text_fields. destruct l as [|kv l]; [contradiction|]. unfold json_parse.
  set (s := String "{" _). set (f := (2 * String.length s + 1)%nat).
  replace (2 * String.length s + 2)%nat with (S f) by lia.
  assert (Hp : parse_value (S f) s = Some (JObj (foldl (fun m kv => assoc_set kv.1 (JStr kv.2) m) [] (kv :: l)), "")).
  { unfold s. cbn [parse_value]. change (skip_space (String "{" ?r)) with (String "{" r).
    change (nat_of_ascii "{" =? 34)%nat with false. change ("{" =? "[")%char with false. change ("{" =? "{")%char with true. cbn iota.
    replace (strip_prefix "}" (skip_space (member_texts true (kv :: l) ""))) with (@None string) by (destruct kv; reflexivity).
    rewrite parse_member_texts by (unfold f, s; cbn [String.length]; lia). reflexivity. }
  rewrite Hp. cbn [mbind option_bind skip_space]. change ("" =s? "") with true. cbn iota. do 2 f_equal.
  enough (Hf : forall acc, NoDup (map fst acc ++ map fst (kv :: l)) ->
      foldl (fun m kv => assoc_set kv.1 (JStr kv.2) m) acc (kv :: l) = acc ++ text_fields (kv :: l)) by exact (Hf [] Hnd).
  clear Hnd Hl Hp. clearbody f. clear f. clear s. generalize (kv :: l). clear kv l.
  induction l as [|[k t] l IH]; intros acc Hnd; cbn [foldl text_fields map fst snd]; [now rewrite app_nil_r|].
  cbn [map fst] in Hnd. rewrite assoc_set_new.
  - rewrite IH; [rewrite <- app_assoc; reflexivity|]. rewrite map_app, <- app_assoc. exact Hnd.
  - apply NoDup_app in Hnd as (_ & Hd & _). intros Hin. apply (Hd k Hin). left.
Qed.
