(* ===== verification/Paging.v ===== *)
(** * Pagination

    [core/pagination.js], [core/cursorPagination.js], [core/dateRange.js] and the paged
    queries of the repositories under [modules/merchant], [modules/client] and
    [modules/reporting].  A query runs over the rows of one table; what a [where] object
    selects and how [orderBy] sorts are written out for the operators these repositories
    use.  The collation of texts is the interface [Collation], the base64url coding of
    [Buffer] the interface [Base64url]. *)

From S2P Require Import Prelude JsNum JsOrder JsVal JsDate JsDay JsJson.
Local Open Scope Z_scope.

(** The database's order on texts, and its case-insensitive [contains]. *)
Class Collation := {
  text_lt : string -> string -> bool;
  text_contains : string -> string -> bool;
  text_lt_irrefl : forall s, text_lt s s = false;
  text_lt_trans : forall s t u, text_lt s t = true -> text_lt t u = true -> text_lt s u = true;
  text_lt_total : forall s t, text_lt s t = true \/ s = t \/ text_lt t s = true
}.

(** [Buffer.from(s).toString("base64url")] and [Buffer.from(s, "base64url").toString("utf8")] *)
Class Base64url := {
  b64_encode : string -> string;
  b64_decode : string -> string;
  b64_roundtrip : forall s, b64_decode (b64_encode s) = s;
  b64_nonempty : forall s, s <> "" -> b64_encode s <> ""
}.

(** ** Page numbers *)

Module Pagination.
Section WithHost.
Context {H : JsHost}.

Record window := Window { page : num; pageSize : num; skip : num }.

(** [Number(v) || d] *)
Definition number_or (v : jsval) (d : num) : num :=
  let x := js_number v in if is_nan x || neqb x n0 then d else x.
Definition getPagination (query : jsval) : window :=
  let page := nmax (number_or (query@."page") (num_of_Z 1)) (num_of_Z 1) in
  let pageSize := nmin (nmax (number_or (query@."pageSize") (num_of_Z 20)) (num_of_Z 1)) (num_of_Z 200) in
  Window page pageSize (nmul (nsub page (num_of_Z 1)) pageSize).

End WithHost.
End Pagination.

(** ** Cursors *)

Module Cursor.
Section WithHost.
Context {H : JsHost} {B : Base64url} {K : Collation}.

Definition invalid_time : js_error := plain_error "Invalid time value".
(** [record[field] instanceof Date ? record[field].toISOString() : record[field]] *)
Definition cursor_value (v : jsval) : outcome jsval :=
  match v with
  | JDate (Some t) => Ok (JStr (to_iso_string t))
  | JDate None => Throw invalid_time
  | _ => Ok v
  end.
Fixpoint cursor_payload (record : jsval) (fields : list string) (acc : list (string * jsval)) : outcome (list (string * jsval)) :=
  match fields with
  | [] => Ok acc
  | field :: rest =>
      let? v := cursor_value (record@.field) in cursor_payload record rest (assoc_set field v acc)
  end.
Definition encodeCursor (record : jsval) (fields : list string) : outcome string :=
  let? payload := cursor_payload record fields [] in Ok (b64_encode (json_stringify (JObj payload))).

Definition is_date_field (field : string) : bool := ends_with "At" field || ends_with "Date" field.
Definition decoded_value (field : string) (v : jsval) : jsval := if is_date_field field then JDate (new_date v) else v.
Fixpoint decode_fields (parsed : jsval) (fields : list string) (acc : list (string * jsval)) : option (list (string * jsval)) :=
  match fields with
  | [] => Some acc
  | field :: rest =>
      if is_undef (parsed@.field) then None
      else decode_fields parsed rest (assoc_set field (decoded_value field (parsed@.field)) acc)
  end.
(** [None] is [null]; reading a property of a parsed [null] throws, which is caught. *)
Definition decodeCursor (cursor : string) (fields : list string) : option jsval :=
  if cursor =s? "" then None
  else match json_parse (b64_decode cursor) with
       | None | Some JNull => None
       | Some parsed => JObj <$> decode_fields parsed fields []
       end.

Definition lt_condition (v : jsval) : jsval := JObj [("lt", v)].
Definition buildCursorWhere (cursor : option jsval) (primary secondary : string) : jsval :=
  match cursor with
  | None => JObj []
  | Some c =>
      JObj [("OR", JArr [JObj [(primary, lt_condition (c@.primary))];
                         JObj [(primary, c@.primary); (secondary, lt_condition (c@.secondary))]])]
  end.

Record sliced := Sliced { page_rows : list jsval; hasMore : bool }.
Definition slicePage (rows : list jsval) (n : nat) : sliced :=
  let more := (n <? length rows)%nat in
  Sliced (if more then take n rows else rows) more.

(** *** What a query selects *)

Definition value_lt (a b : jsval) : bool :=
  match a, b with
  | JStr s, JStr t => text_lt s t
  | JDate (Some x), JDate (Some y) => x <? y
  | _, _ => false
  end.
Definition value_eq (a b : jsval) : bool :=
  match a, b with
  | JStr s, JStr t => s =s? t
  | JDate (Some x), JDate (Some y) => x =? y
  | JBool x, JBool y => Bool.eqb x y
  | JNull, JNull => true
  | _, _ => false
  end.
(** An operator of a column's condition. *)
Definition op_matches (v : jsval) (op : string * jsval) : bool :=
  let '(name, x) := op in
  if name =s? "lt" then value_lt v x
  else if name =s? "lte" then value_lt v x || value_eq v x
  else if name =s? "gte" then value_lt x v || value_eq v x
  else if name =s? "not" then negb (value_eq v x)
  else if name =s? "contains" then
    match x, v with JStr term, JStr s => text_contains term s | _, _ => false end
  else name =s? "mode".
Definition column_matches (row : jsval) (field : string * jsval) : bool :=
  let '(k, condition) := field in
  match condition with
  | JUndef => true
  | JObj ops => forallb (op_matches (row@.k)) ops
  | _ => value_eq (row@.k) condition
  end.
Definition alternative_matches (row alternative : jsval) : bool := forallb (column_matches row) (obj_fields alternative).
Definition matches (where_ row : jsval) : bool :=
  forallb (fun kv => if kv.1 =s? "OR"
                     then match kv.2 with JArr l => existsb (alternative_matches row) l | _ => true end
                     else column_matches row kv)
    (obj_fields where_).

(** [orderBy: [{ primary: dir }, { secondary: dir }]]: [a] comes strictly before [b]. *)
Definition before (ascending : bool) (primary secondary : string) (a b : jsval) : bool :=
  let lt k := if ascending then value_lt (a@.k) (b@.k) else value_lt (b@.k) (a@.k) in
  lt primary || (value_eq (a@.primary) (b@.primary) && lt secondary).
Definition ordered (ascending : bool) (primary secondary : string) (rows : list jsval) : list jsval :=
  sort_by (fun a b => negb (before ascending primary secondary b a)) rows.

(** *** The repositories *)

Record repository := Repository {
  build_where : jsval -> jsval;
  cursor_primary : string;
  ascending : bool
}.

(** [if (filters.k) where.k = filters.k] *)
Definition given (filters : jsval) (k : string) : list (string * jsval) :=
  if truthy (filters@.k) then [(k, filters@.k)] else [].
Definition search_term (filters : jsval) : jsval := JStr (trim (js_string (filters@."search"))).
Definition search_in (filters : jsval) (k : string) : jsval :=
  JObj [(k, JObj [("contains", search_term filters); ("mode", JStr "insensitive")])].
Definition date_range (filters : jsval) (k : string) : list (string * jsval) :=
  if truthy (filters@."from") || truthy (filters@."to")
  then [(k, JObj ((if truthy (filters@."from") then [("gte", filters@."from")] else [])
                  ++ (if truthy (filters@."to") then [("lte", filters@."to")] else [])))]
  else [].

(** [buildWhere] of [merchant.repository.js]; a later assignment of [status] replaces the earlier. *)
Definition merchantWhere (filters : jsval) : jsval :=
  let status := if is_true (filters@."excludeMerged") then [("status", JObj [("not", JStr "MERGED")])] else given filters "status" in
  JObj ([("deletedAt", JNull)] ++ status ++ given filters "verificationStatus"
        ++ (if is_undef (filters@."isVerified") then [] else [("isVerified", filters@."isVerified")])
        ++ given filters "country"
        ++ (if truthy (filters@."merchantId") then [("id", filters@."merchantId")] else [])
        ++ (if truthy (filters@."search")
            then [("OR", JArr [search_in filters "displayName"; search_in filters "normalizedName"; search_in filters "slug"])]
            else [])).
Definition clientWhere (filters : jsval) : jsval :=
  JObj ([("deletedAt", JNull)] ++ given filters "status" ++ given filters "country" ++ given filters "industry"
        ++ (if truthy (filters@."search")
            then [("OR", JArr [search_in filters "name"; search_in filters "slug"])] else [])).
Definition buildClickWhere (filters : jsval) : jsval :=
  JObj (given filters "trackingLinkId" ++ given filters "clientAssignmentId" ++ given filters "campaignSourceId"
        ++ given filters "subId" ++ given filters "country" ++ date_range filters "clickedAt").
Definition buildConversionWhere (filters : jsval) : jsval :=
  JObj (given filters "trackingLinkId" ++ given filters "clientAssignmentId" ++ given filters "campaignSourceId"
        ++ given filters "status" ++ given filters "attributionStatus" ++ given filters "supplier"
        ++ date_range filters "conversionDate").
Definition mapperErrorWhere (filters : jsval) : jsval :=
  JObj (given filters "status" ++ given filters "supplier" ++ given filters "entityType" ++ given filters "entityId").

Definition merchantRepository : repository := Repository merchantWhere "displayName" true.
Definition clientRepository : repository := Repository clientWhere "name" true.
Definition clickRepository : repository := Repository buildClickWhere "clickedAt" false.
Definition conversionRepository : repository := Repository buildConversionWhere "conversionDate" false.
Definition mapperErrorRepository : repository := Repository mapperErrorWhere "createdAt" false.

Definition select (repo : repository) (where_ : jsval) (rows : list jsval) : list jsval :=
  ordered (ascending repo) (cursor_primary repo) "id" (List.filter (matches where_) rows).
(** [findMany(filters, { skip, take })] of the first four: the page and the total *)
Definition findMany (repo : repository) (filters : jsval) (skip n : nat) (rows : list jsval) : list jsval * nat :=
  let found := select repo (build_where repo filters) rows in (take n (drop skip found), length found).
(** [findManyCursor(filters, { take, cursor })] *)
Definition findManyCursor (repo : repository) (filters : jsval) (n : nat) (cursor : option jsval) (rows : list jsval) : sliced :=
  let where_ := spread (build_where repo filters) (buildCursorWhere cursor (cursor_primary repo) "id") in
  slicePage (take (n + 1) (select repo where_ rows)) n.

(** The cursor branch of a query service's [list]: the rows and the next cursor. *)
Definition cursor_page (repo : repository) (filters : jsval) (n : nat) (cursor : string) (rows : list jsval) :
  outcome (list jsval * option string) :=
  let fields := [cursor_primary repo; "id"] in
  let p := findManyCursor repo filters n (decodeCursor cursor fields) rows in
  if hasMore p
  then let? next := encodeCursor (List.last (page_rows p) JUndef) fields in Ok (page_rows p, Some next)
  else Ok (page_rows p, None).

End WithHost.
End Cursor.

(** ** Date ranges of queries *)

Module DateRange.
Section WithHost.
Context {H : JsHost}.

Definition last_ms : Z := ms_per_day - 1.
(** [Date.UTC(y, month, d, ...)] at a time of day given in milliseconds *)
Definition date_utc_at (y month d ms : Z) : option Z :=
  let full := if (0 <=? y) && (y <=? 99) then 1900 + y else y in
  time_clip (make_day full month d * ms_per_day + ms).
(** [None] is [null]; a date built from a match may still be invalid. *)
Definition parseBoundaryDate (value : jsval) (endOfDay : bool) : option (option Z) :=
  if blank value then None
  else match parse_ymd (trim (js_string value)) with
       | Some (y, m, d, EmptyString) => Some (date_utc_at y (m - 1) d (if endOfDay then last_ms else 0))
       | _ => None
       end.

Record range := Range { fromDate : option (option Z); toDate : option (option Z); inverted : bool }.
Definition parseDateRangeQuery (from_ to_ : jsval) : range :=
  let from := parseBoundaryDate from_ false in
  let to := parseBoundaryDate to_ true in
  match from, to with
  | Some (Some f), Some (Some t) => if t <? f then Range to from true else Range from to false
  | _, _ => Range from to false
  end.

(** The instants [{ gte: fromDate, lte: toDate }] selects, for two valid bounds. *)
Definition selects (r : range) (t : Z) : bool :=
  match fromDate r, toDate r with
  | Some (Some a), Some (Some b) => (a <=? t) && (t <=? b)
  | _, _ => false
  end.
End WithHost.
End DateRange.

(** ** Facts *)

Module PagingFacts.
Import Pagination Cursor DateRange.

Section Bounds.
Context {H : JsHost}.

Lemma number_or_num v d : is_nan d = false -> is_nan (number_or v d) = false.
Proof. intros Hd. unfold number_or. destruct (is_nan (js_number v)) eqn:E; cbn; [exact Hd|]. now destruct (neqb _ _). Qed.

(** Whatever a request asks for, the page is at least the first, and between one and two
    hundred rows are returned. *)
Theorem pagination_bounds query :
  let w := getPagination query in
  nleb (num_of_Z 1) (page w) = true /\ nleb (num_of_Z 1) (pageSize w) = true /\ nleb (pageSize w) (num_of_Z 200) = true.
Proof.
  cbv zeta. unfold getPagination. cbn [page pageSize].
  pose proof (nmax_spec (number_or (query@."page") (num_of_Z 1)) (num_of_Z 1)) as (Hp & _ & Hp1 & _);
    [now apply number_or_num|reflexivity|].
  pose proof (nmax_spec (number_or (query@."pageSize") (num_of_Z 20)) (num_of_Z 1)) as (Hs & _ & Hs1 & _);
    [now apply number_or_num|reflexivity|].
  set (m := nmax (number_or (query@."pageSize") _) _) in *.
  destruct (nmin_spec m (num_of_Z 200) Hs eq_refl) as (Hn & Hle & Hor). split_and!.
  - now apply nleb_spec.
  - destruct Hor as [->| ->]; [now apply nleb_spec|reflexivity].
  - now apply nleb_spec.
Qed.
End Bounds.

(** *** Cursors are read back *)

Section Cursors.
Context {H : JsHost} {B : Base64url} {K : Collation}.

(** A column whose name says it is a date holds one of the years 0 to 9999; the others hold texts. *)
Definition typed_column (row : jsval) (field : string) : Prop :=
  if is_date_field field then exists t, row@.field = JDate (Some t) /\ regular_day (t / ms_per_day)
  else exists s, row@.field = JStr s.
Definition column_text (row : jsval) (field : string) : string :=
  match row@.field with JStr s => s | JDate (Some t) => to_iso_string t | _ => "" end.

Lemma cursor_payload_typed row fields acc :
  Forall (typed_column row) fields -> NoDup (map fst acc ++ fields) ->
  cursor_payload row fields acc = Ok (acc ++ text_fields (map (fun f => (f, column_text row f)) fields)).
Proof.
  revert acc. induction fields as [|f fields IH]; intros acc Hf Hnd; cbn [cursor_payload map]; [now rewrite app_nil_r|].
  apply Forall_cons in Hf as [Hf Hrest].
  assert (Hv : cursor_value (row@.f) = Ok (JStr (column_text row f))).
  { unfold typed_column in Hf. unfold column_text. destruct (is_date_field f);
      [destruct Hf as (t & -> & _)|destruct Hf as (s & ->)]; reflexivity. }
  rewrite Hv. cbn [outcome_bind]. rewrite assoc_set_new.
  - rewrite IH; [rewrite <- app_assoc; reflexivity|exact Hrest|]. rewrite map_app, <- app_assoc. exact Hnd.
  - apply NoDup_app in Hnd as (_ & Hd & _). intros Hin. apply (Hd f Hin). left.
Qed.

Lemma assoc_text_fields row fields f :
  f ∈ fields -> assoc f (text_fields (map (fun f => (f, column_text row f)) fields)) = Some (JStr (column_text row f)).
Proof.
  induction fields as [|g fields IH]; [intros Hf; now apply not_elem_of_nil in Hf|]. cbn [map text_fields assoc fst snd].
  destruct (String.eqb_spec g f) as [->|Hne]; [reflexivity|]. intros [->|Hf]%elem_of_cons; [contradiction|]. exact (IH Hf).
Qed.

Lemma decode_fields_typed row all fields acc :
  Forall (typed_column row) fields -> fields ⊆ all -> NoDup (map fst acc ++ fields) ->
  decode_fields (JObj (text_fields (map (fun f => (f, column_text row f)) all))) fields acc
  = Some (acc ++ map (fun f => (f, row@.f)) fields).
Proof.
  revert acc. induction fields as [|f fields IH]; intros acc Hf Hsub Hnd; cbn [decode_fields map]; [now rewrite app_nil_r|].
  apply Forall_cons in Hf as [Hf Hrest]. set (parsed := JObj _).
  assert (Hp : parsed@.f = JStr (column_text row f)) by (unfold parsed, prop; rewrite assoc_text_fields by (apply Hsub; left); reflexivity).
  rewrite Hp. cbn [is_undef].
  assert (Hv : decoded_value f (JStr (column_text row f)) = row@.f).
  { unfold typed_column in Hf. unfold decoded_value, column_text.
    destruct (is_date_field f); [destruct Hf as (t & -> & Ht)|destruct Hf as (s & ->); reflexivity].
    cbn [new_date]. now rewrite iso_roundtrip. }
  rewrite Hv, assoc_set_new.
  - rewrite IH; [rewrite <- app_assoc; reflexivity|exact Hrest|set_solver|]. rewrite map_app, <- app_assoc. exact Hnd.
  - apply NoDup_app in Hnd as (_ & Hd & _). intros Hin. apply (Hd f Hin). left.
Qed.

Lemma cursor_lemma row fields :
  fields <> [] -> NoDup fields -> Forall (typed_column row) fields ->
  exists c, encodeCursor row fields = Ok c /\ decodeCursor c fields = Some (JObj (map (fun f => (f, row@.f)) fields)).
Proof.
  intros Hne Hnd Hf. unfold encodeCursor. rewrite (cursor_payload_typed row fields []) by assumption. cbn [outcome_bind app].
  eexists. split; [reflexivity|]. set (l := map _ fields). assert (Hl : l <> []) by (destruct fields; [contradiction|discriminate]).
  assert (Hkeys : map fst l = fields) by (unfold l; rewrite map_map; apply map_id).
  unfold decodeCursor. destruct (String.eqb_spec (b64_encode (json_stringify (JObj (text_fields l)))) "") as [E|_].
  { exfalso. apply (b64_nonempty (json_stringify (JObj (text_fields l)))); [|exact E]. rewrite json_text_fields. discriminate. }
  rewrite b64_roundtrip, json_text_roundtrip by (rewrite ?Hkeys; assumption).
  unfold l. rewrite (decode_fields_typed row fields fields []) by (assumption || reflexivity). reflexivity.
Qed.

(** A cursor gives back the columns it was made from: texts unchanged, whatever characters
    they hold, and instants to the millisecond. *)
Theorem cursor_roundtrip row fields :
  fields <> [] -> NoDup fields -> Forall (typed_column row) fields ->
  exists c, encodeCursor row fields = Ok c /\ decodeCursor c fields = Some (JObj (map (fun f => (f, row@.f)) fields)).
Proof. apply cursor_lemma. Qed.

(** *** The order of rows *)

Lemma typed_lt_irrefl a k : typed_column a k -> value_lt (a@.k) (a@.k) = false.
Proof.
  unfold typed_column. destruct (is_date_field k); [intros (t & -> & _); apply Z.ltb_irrefl|intros (s & ->); apply text_lt_irrefl].
Qed.
Lemma typed_lt_trans a b c k :
  typed_column a k -> typed_column b k -> typed_column c k ->
  value_lt (a@.k) (b@.k) = true -> value_lt (b@.k) (c@.k) = true -> value_lt (a@.k) (c@.k) = true.
Proof.
  unfold typed_column. destruct (is_date_field k).
  - intros (t & -> & _) (u & -> & _) (v & -> & _). cbn. rewrite !Z.ltb_lt. lia.
  - intros (s & ->) (t & ->) (u & ->). apply text_lt_trans.
Qed.
Lemma typed_lt_total a b k :
  typed_column a k -> typed_column b k ->
  value_lt (a@.k) (b@.k) = true \/ a@.k = b@.k \/ value_lt (b@.k) (a@.k) = true.
Proof.
  unfold typed_column. destruct (is_date_field k).
  - intros (t & -> & _) (u & -> & _). cbn. rewrite !Z.ltb_lt.
    destruct (Z.lt_trichotomy t u) as [|[->|]]; auto.
  - intros (s & ->) (t & ->). cbn. destruct (text_lt_total s t) as [|[->|]]; auto.
Qed.
Lemma typed_eq a b k : typed_column a k -> typed_column b k -> value_eq (a@.k) (b@.k) = true <-> a@.k = b@.k.
Proof.
  unfold typed_column. destruct (is_date_field k).
  - intros (t & -> & _) (u & -> & _). cbn. rewrite Z.eqb_eq. split; congruence.
  - intros (s & ->) (t & ->). cbn. rewrite String.eqb_eq. split; congruence.
Qed.

Section Table.
Context (primary : string) (rows : list jsval).

(** The rows of one table: distinct ids, typed columns. *)
Record table_ok : Prop := {
  ids_distinct : NoDup (map (fun r => r@."id") rows);
  keys_typed : forall r, r ∈ rows -> typed_column r primary;
  ids_typed : forall r, r ∈ rows -> typed_column r "id";
  primary_not_id : primary <> "id"
}.
Hypothesis ok : table_ok.

Lemma same_id_same_row a b : a ∈ rows -> b ∈ rows -> a@."id" = b@."id" -> a = b.
Proof.
  intros [i Hi]%list_elem_of_lookup [j Hj]%list_elem_of_lookup E.
  assert (i = j).
  { apply (NoDup_lookup _ i j (a@."id") (ids_distinct ok)); rewrite list_lookup_fmap; [rewrite Hi|rewrite Hj]; cbn; congruence. }
  congruence.
Qed.

Context (asc : bool).
Local Notation "a ≺ b" := (before asc primary "id" a b = true) (at level 70).

Lemma before_cases a b :
  a ∈ rows -> b ∈ rows ->
  a ≺ b <-> (let lt k := if asc then value_lt (a@.k) (b@.k) else value_lt (b@.k) (a@.k) in
             lt primary = true \/ (a@.primary = b@.primary /\ lt "id" = true)).
Proof.
  intros Ha Hb. unfold before. cbv zeta. rewrite orb_true_iff, andb_true_iff, typed_eq by (now apply keys_typed). reflexivity.
Qed.
Lemma before_irrefl a : a ∈ rows -> ~ a ≺ a.
Proof.
  intros Ha. rewrite before_cases by assumption. cbv zeta.
  destruct asc; rewrite !typed_lt_irrefl by (now apply keys_typed || now apply ids_typed); intros [?|[_ ?]]; discriminate.
Qed.
Lemma before_trans a b c : a ∈ rows -> b ∈ rows -> c ∈ rows -> a ≺ b -> b ≺ c -> a ≺ c.
Proof.
  intros Ha Hb Hc. rewrite !before_cases by assumption. cbv zeta.
  assert (Ht : forall k, (forall r, r ∈ rows -> typed_column r k) ->
    let lt x y := if asc then value_lt (x@.k) (y@.k) else value_lt (y@.k) (x@.k) in
    lt a b = true -> lt b c = true -> lt a c = true).
  { intros k Hk. cbv zeta. destruct asc; intros H1 H2; [apply (typed_lt_trans a b c)|apply (typed_lt_trans c b a)]; auto. }
  cbv zeta in Ht. intros [H1|[E1 H1]] [H2|[E2 H2]].
  - left. apply (Ht primary); auto using keys_typed.
  - left. now rewrite <- E2.
  - left. now rewrite E1.
  - right. split; [congruence|]. apply (Ht "id"); auto using ids_typed.
Qed.
Lemma before_total a b : a ∈ rows -> b ∈ rows -> a ≺ b \/ a = b \/ b ≺ a.
Proof.
  intros Ha Hb. rewrite !before_cases by assumption. cbv zeta.
  destruct (typed_lt_total a b primary) as [H1|[H1|H1]]; [now apply keys_typed..| | |]; destruct asc; auto.
  - destruct (typed_lt_total a b "id") as [H2|[H2|H2]]; [now apply ids_typed..| | |]; auto. right. left. now apply same_id_same_row.
  - destruct (typed_lt_total a b "id") as [H2|[H2|H2]]; [now apply ids_typed..| | |]; auto. right. left. now apply same_id_same_row.
Qed.

Local Abbreviation le := (fun a b => negb (before asc primary "id" b a)).
Lemma le_before a b : a ∈ rows -> b ∈ rows -> le a b = true <-> a ≺ b \/ a = b.
Proof.
  intros Ha Hb. rewrite negb_true_iff. split.
  - intros Hn. destruct (before_total a b Ha Hb) as [|[|]]; auto. congruence.
  - intros [Hab| ->]; apply not_true_iff_false; [|now apply before_irrefl].
    intros Hba. apply (before_irrefl a Ha), (before_trans a b a); auto.
Qed.

Lemma le_total_on a b : a ∈ rows -> b ∈ rows -> le a b = true \/ le b a = true.
Proof. intros Ha Hb. rewrite !le_before by assumption. destruct (before_total a b Ha Hb) as [|[|]]; auto. Qed.
Lemma le_trans_on a b c : a ∈ rows -> b ∈ rows -> c ∈ rows -> le a b = true -> le b c = true -> le a c = true.
Proof.
  intros Ha Hb Hc. rewrite !le_before by assumption. intros [H1| ->] [H2| ->]; auto.
  left. exact (before_trans a b c Ha Hb Hc H1 H2).
Qed.

(** A sorted selection of the table is strictly ordered. *)
Lemma ordered_strict p : StronglySorted (fun a b => a ≺ b) (ordered asc primary "id" (List.filter p rows)).
Proof.
  set (l := ordered _ _ _ _).
  assert (Hin : Forall (fun r => r ∈ rows) (List.filter p rows)) by (apply Forall_forall; intros r [? _]%elem_of_filter_bool; assumption).
  assert (Hs : StronglySorted (fun a b => le a b = true) l).
  { exact (sort_by_sorted le (fun r => r ∈ rows) le_total_on le_trans_on _ Hin). }
  assert (Hl : Forall (fun r => r ∈ rows) l) by (now apply Forall_sort_by).
  assert (Hnd : NoDup l).
  { unfold l, ordered. rewrite sort_by_perm. apply NoDup_ListNoDup, List.NoDup_filter, NoDup_ListNoDup.
    apply (NoDup_fmap_1 (fun r => r@."id")). exact (ids_distinct ok). }
  clear Hin. clearbody l. induction Hs as [|a l Hs IH Ha]; [constructor|].
  apply Forall_cons in Hl as [Har Hl]. apply NoDup_cons in Hnd as [Hna Hnd]. constructor; [auto|].
  rewrite Forall_forall in *. intros b Hb. destruct (proj1 (le_before a b Har (Hl b Hb)) (Ha b Hb)) as [|E]; [assumption|].
  subst b. contradiction.
Qed.

Lemma ordered_filter p q :
  ordered asc primary "id" (List.filter (fun r => p r && q r) rows)
  = List.filter q (ordered asc primary "id" (List.filter p rows)).
Proof.
  unfold ordered. rewrite <- (sort_by_filter le (fun r => r ∈ rows) le_total_on le_trans_on)
    by (apply Forall_forall; intros r [? _]%elem_of_filter_bool; assumption).
  f_equal. clear. induction rows as [|r l IH]; [reflexivity|]. cbn. destruct (p r); cbn; [destruct (q r)|]; now rewrite ?IH.
Qed.
End Table.

(** *** Following cursors *)

Section Walk.
Context (repo : repository) (filters : jsval) (n : nat) (rows : list jsval).
Local Abbreviation primary := (cursor_primary repo).
Local Abbreviation fields := [cursor_primary repo; "id"].
Local Abbreviation found := (select repo (build_where repo filters) rows).

(** The pages a reader gets by asking for the next cursor until there is none. *)
Fixpoint walk (fuel : nat) (cursor : string) : option (list (list jsval)) :=
  match fuel with
  | O => None
  | S f =>
      match cursor_page repo filters n cursor rows with
      | Ok (p, None) => Some [p]
      | Ok (p, Some next) => (fun ps => p :: ps) <$> walk f next
      | Throw _ => None
      end
  end.

Hypothesis ok : table_ok primary rows.
Hypothesis page_nonempty : (1 <= n)%nat.
(** The filter has no alternative of its own. *)
Hypothesis no_search : assoc "OR" (obj_fields (build_where repo filters)) = None.

Lemma assoc_set_absent {A} k (v : A) l : assoc k l = None -> assoc_set k v l = l ++ [(k, v)].
Proof.
  induction l as [|[k' w] l IH]; [reflexivity|]. cbn [assoc assoc_set app]. destruct (k' =s? k); [discriminate|].
  intros Ha. now rewrite IH.
Qed.

Lemma found_in r : r ∈ found -> r ∈ rows.
Proof. unfold select, ordered. intros [Hr _]%elem_of_sort_by%elem_of_filter_bool. exact Hr. Qed.

(** The rows after the cursor of [last] are those it comes before in descending order. *)
Lemma cursor_where last r :
  last ∈ rows -> r ∈ rows ->
  matches (spread (build_where repo filters) (buildCursorWhere (Some (JObj (map (fun f => (f, last@.f)) fields))) primary "id")) r
  = matches (build_where repo filters) r && before false primary "id" last r.
Proof.
  intros Hl Hr. set (c := JObj _).
  assert (Hcp : c@.primary = last@.primary) by (unfold c, prop; cbn [map assoc]; now rewrite String.eqb_refl).
  assert (Hci : c@."id" = last@."id").
  { unfold c, prop at 1. cbn [map assoc]. now rewrite (proj2 (String.eqb_neq _ _) (primary_not_id _ _ ok)). }
  unfold matches, spread. cbn [obj_fields buildCursorWhere fold_left fst snd]. rewrite assoc_set_absent by exact no_search.
  rewrite forallb_app. cbn [forallb fst snd]. change ("OR" =s? "OR") with true. cbn iota. rewrite andb_true_r. f_equal.
  cbn [existsb alternative_matches obj_fields forallb column_matches lt_condition op_matches]. unfold alternative_matches.
  cbn [obj_fields forallb column_matches lt_condition op_matches]. change ("lt" =s? "lt") with true. cbn iota.
  rewrite Hcp, Hci, !andb_true_r, orb_false_r. unfold before. cbv zeta.
  pose proof (keys_typed _ _ ok last Hl) as Htl. pose proof (keys_typed _ _ ok r Hr) as Htr.
  assert (Hsym : value_eq (r@.primary) (last@.primary) = value_eq (last@.primary) (r@.primary)).
  { apply eq_true_iff_eq. rewrite !typed_eq by assumption. split; congruence. }
  rewrite <- Hsym. f_equal. f_equal.
  unfold typed_column in Htl. destruct (is_date_field primary); [destruct Htl as (t & -> & _)|destruct Htl as (t & ->)]; reflexivity.
Qed.

Lemma slice_take (l : list jsval) : slicePage (take (n + 1) l) n = Sliced (take n l) (n <? length l)%nat.
Proof.
  unfold slicePage. rewrite length_take. destruct (Nat.ltb_spec n (length l)) as [Hn|Hn].
  - rewrite (proj2 (Nat.ltb_lt n _)) by lia. rewrite take_take. do 2 f_equal. lia.
  - rewrite (proj2 (Nat.ltb_ge n _)) by lia. now rewrite !take_ge by lia.
Qed.

Lemma page_after last :
  last ∈ rows ->
  findManyCursor repo filters n (Some (JObj (map (fun f => (f, last@.f)) fields))) rows
  = Sliced (take n (List.filter (before false primary "id" last) found))
           (n <? length (List.filter (before false primary "id" last) found))%nat.
Proof.
  intros Hl. unfold findManyCursor. rewrite slice_take. unfold select.
  rewrite <- (ordered_filter primary rows ok (ascending repo)).
  assert (E : List.filter (matches (spread (build_where repo filters)
                (buildCursorWhere (Some (JObj (map (fun f => (f, last@.f)) fields))) primary "id"))) rows
            = List.filter (fun r => matches (build_where repo filters) r && before false primary "id" last r) rows).
  { apply filter_bool_ext. intros r Hr. now apply cursor_where. }
  now rewrite E.
Qed.

Lemma first_page start :
  decodeCursor start fields = None ->
  findManyCursor repo filters n (decodeCursor start fields) rows = Sliced (take n found) (n <? length found)%nat.
Proof.
  intros ->. unfold findManyCursor. rewrite slice_take. do 2 f_equal.
  all: unfold spread; cbn [buildCursorWhere obj_fields fold_left]; now destruct (build_where repo filters).
Qed.

Lemma encode_row last : last ∈ rows ->
  exists c, encodeCursor last fields = Ok c /\ decodeCursor c fields = Some (JObj (map (fun f => (f, last@.f)) fields)).
Proof.
  intros Hl. apply cursor_lemma; [discriminate| |].
  - apply NoDup_cons. split; [|apply NoDup_singleton]. rewrite list_elem_of_singleton. exact (primary_not_id _ _ ok).
  - repeat constructor; [exact (keys_typed _ _ ok last Hl)|exact (ids_typed _ _ ok last Hl)].
Qed.

Lemma found_strict : StronglySorted (fun a b => before (ascending repo) primary "id" a b = true) found.
Proof. apply (ordered_strict primary rows ok). Qed.

(** Of a strictly ordered list, the rows after (and before) one of its rows. *)
Lemma sorted_split asc pre last post :
  (forall r, r ∈ pre ++ last :: post -> r ∈ rows) ->
  StronglySorted (fun a b => before asc primary "id" a b = true) (pre ++ last :: post) ->
  List.filter (before asc primary "id" last) (pre ++ last :: post) = post
  /\ List.filter (fun r => before asc primary "id" r last) (pre ++ last :: post) = pre.
Proof.
  intros Hin Hs. assert (Hlast : last ∈ rows) by (apply Hin, elem_of_app; right; left).
  assert (Hirr : before asc primary "id" last last = false) by (apply not_true_iff_false; now apply (before_irrefl primary rows ok)).
  assert (Hpost : Forall (fun r => before asc primary "id" last r = true) post).
  { clear Hin. induction pre as [|x pre IH]; cbn in Hs; apply StronglySorted_inv in Hs as [Hs' Ha]; [exact Ha|auto]. }
  assert (Hpre : Forall (fun r => before asc primary "id" r last = true) pre).
  { clear Hin Hpost. induction pre as [|x pre IH]; cbn in Hs; [constructor|]. apply StronglySorted_inv in Hs as [Hs' Ha].
    constructor; [|auto]. rewrite Forall_forall in Ha. apply Ha, elem_of_app. right. left. }
  assert (Hasym : forall a b, a ∈ rows -> b ∈ rows -> before asc primary "id" a b = true -> before asc primary "id" b a = false).
  { intros a b Ha Hb Hab. apply not_true_iff_false. intros Hba. apply (before_irrefl primary rows ok asc a Ha).
    exact (before_trans primary rows ok asc a b a Ha Hb Ha Hab Hba). }
  assert (Hall : forall (f : jsval -> bool) l, Forall (fun r => f r = true) l -> List.filter f l = l).
  { intros f l. induction 1 as [|x l Hx _ IH]; [reflexivity|]. cbn. now rewrite Hx, IH. }
  assert (Hnone : forall (f : jsval -> bool) l, Forall (fun r => f r = false) l -> List.filter f l = []).
  { intros f l. induction 1 as [|x l Hx _ IH]; [reflexivity|]. cbn. now rewrite Hx, IH. }
  rewrite !List.filter_app. cbn [List.filter]. rewrite !Hirr. split.
  - rewrite (Hnone _ pre), (Hall _ post) by
      (try assumption; rewrite Forall_forall in Hpre |- *; intros r Hr; apply Hasym; auto; apply Hin, elem_of_app; now left).
    reflexivity.
  - rewrite (Hall _ pre), (Hnone _ post) by
      (try assumption; rewrite Forall_forall in Hpost |- *; intros r Hr; apply Hasym; auto; apply Hin, elem_of_app; right; now right).
    apply app_nil_r.
Qed.

(** The last row of a page that is followed by another. *)
Lemma page_end (l : list jsval) :
  (n < length l)%nat -> exists pre last, take n l = pre ++ [last] /\ l = pre ++ last :: drop n l /\ List.last (take n l) JUndef = last.
Proof.
  intros Hn. destruct (exists_last (l := take n l)) as (pre & last & E); [intros E; apply (f_equal length) in E; rewrite length_take in E; cbn in E; lia|].
  exists pre, last. split_and!; [exact E| |rewrite E; apply last_last].
  rewrite cons_middle, app_assoc, <- E. symmetry. apply take_drop.
Qed.

Lemma walk_desc fuel pre post cursor :
  ascending repo = false -> found = pre ++ post -> (length post < fuel)%nat ->
  findManyCursor repo filters n (decodeCursor cursor fields) rows = Sliced (take n post) (n <? length post)%nat ->
  exists pages, walk fuel cursor = Some pages /\ mjoin pages = post /\ Forall (fun p => (length p <= n)%nat) pages.
Proof.
  intros Hdesc. revert pre post cursor. induction fuel as [|f IH]; intros pre post cursor Hf Hlen Hp; [lia|].
  cbn [walk]. unfold cursor_page. rewrite Hp. cbn [hasMore page_rows]. destruct (Nat.ltb_spec n (length post)) as [Hn|Hn].
  - destruct (page_end post Hn) as (pre' & last & Et & Epost & Elast). rewrite Elast.
    assert (Hfound : found = (pre ++ pre') ++ last :: drop n post) by (rewrite Hf, <- app_assoc; now f_equal).
    assert (Hin : forall r, r ∈ (pre ++ pre') ++ last :: drop n post -> r ∈ rows) by (intros r Hr; apply found_in; now rewrite Hfound).
    assert (Hlast : last ∈ rows) by (apply Hin, elem_of_app; right; left).
    destruct (encode_row last Hlast) as (c & Ec & Dc). rewrite Ec. cbn [outcome_bind].
    destruct (IH (pre ++ take n post) (drop n post) c) as (pages & Hw & Hj & Hs).
    + rewrite Hf, <- app_assoc, take_drop. reflexivity.
    + rewrite length_drop. lia.
    + rewrite Dc, page_after by exact Hlast. pose proof found_strict as Hst. rewrite Hdesc, Hfound in Hst.
      rewrite Hfound. now rewrite (proj1 (sorted_split false _ _ _ Hin Hst)).
    + exists (take n post :: pages). rewrite Hw. split_and!; [reflexivity| |].
      * change (take n post ++ mjoin pages = post). rewrite Hj. apply take_drop.
      * constructor; [rewrite length_take; lia|exact Hs].
  - exists [take n post]. split_and!; [reflexivity|change (take n post ++ [] = post); rewrite app_nil_r; now apply take_ge|].
    constructor; [rewrite length_take; lia|constructor].
Qed.

Lemma before_flip a b : a ∈ rows -> b ∈ rows -> before false primary "id" a b = before true primary "id" b a.
Proof.
  intros Ha Hb. unfold before. cbv zeta. f_equal. f_equal. apply eq_true_iff_eq.
  rewrite !typed_eq by (now apply (keys_typed _ _ ok)). split; congruence.
Qed.

Lemma walk_asc fuel start :
  ascending repo = true -> decodeCursor start fields = None -> (n < length found)%nat -> (2 <= fuel)%nat ->
  walk fuel start = Some [take n found; take (n - 1) found].
Proof.
  intros Hasc Hstart Hn Hfuel. destruct fuel as [|[|f]]; [lia|lia|]. cbn [walk]. unfold cursor_page at 1.
  rewrite first_page by exact Hstart. cbn [hasMore page_rows]. rewrite (proj2 (Nat.ltb_lt _ _) Hn).
  destruct (page_end found Hn) as (pre & last & Et & Ef & Elast). rewrite Elast.
  assert (Hin : forall r, r ∈ pre ++ last :: drop n found -> r ∈ rows) by (intros r Hr; apply found_in; now rewrite Ef).
  assert (Hlast : last ∈ rows) by (apply Hin, elem_of_app; right; left).
  destruct (encode_row last Hlast) as (c & Ec & Dc). rewrite Ec. cbn [outcome_bind].
  assert (Hpre : List.filter (before false primary "id" last) found = pre).
  { pose proof found_strict as Hst. rewrite Hasc, Ef in Hst.
    rewrite (filter_bool_ext _ (fun r => before true primary "id" r last)) by (intros r Hr; apply before_flip; auto using found_in).
    rewrite Ef. exact (proj2 (sorted_split true _ _ _ Hin Hst)). }
  assert (Hlen : length pre = (n - 1)%nat).
  { apply (f_equal length) in Et. rewrite length_take, length_app in Et. cbn in Et. lia. }
  unfold cursor_page. rewrite Dc, page_after, Hpre by exact Hlast. cbn [hasMore page_rows].
  rewrite (proj2 (Nat.ltb_ge _ _)) by lia. cbn [fmap option_fmap option_map]. do 3 f_equal.
  rewrite take_ge by lia. rewrite Ef at 1. now rewrite <- Hlen, take_app_length.
Qed.
End Walk.

(** *** The repositories *)

Lemma assoc_given filters k k' : k <> k' -> assoc k' (given filters k) = None.
Proof. intros Hne. unfold given. destruct (truthy _); [|reflexivity]. cbn. now rewrite (proj2 (String.eqb_neq k k') Hne). Qed.
Lemma assoc_date_range filters k k' : k <> k' -> assoc k' (date_range filters k) = None.
Proof. intros Hne. unfold date_range. destruct (_ || _); [|reflexivity]. cbn. now rewrite (proj2 (String.eqb_neq k k') Hne). Qed.
Lemma assoc_app_none {A} k (l m : list (string * A)) : assoc k l = None -> assoc k m = None -> assoc k (l ++ m) = None.
Proof.
  intros Hl Hm. induction l as [|[k' v] l IH]; [exact Hm|]. cbn in Hl |- *. destruct (k' =s? k); [discriminate|auto].
Qed.
Ltac no_alternative :=
  cbn [build_where obj_fields]; repeat (first [apply assoc_app_none | apply assoc_given | apply assoc_date_range | discriminate]).

(** Reading the clicks, conversions or mapper errors cursor by cursor ends, and the pages
    together are the whole selection in its order: no row twice, none missing, none of the
    pages longer than asked. *)
Theorem descending_walk_complete repo filters n rows start :
  In repo [clickRepository; conversionRepository; mapperErrorRepository] ->
  table_ok (cursor_primary repo) rows -> (1 <= n)%nat -> decodeCursor start [cursor_primary repo; "id"] = None ->
  exists pages, walk repo filters n rows (S (length rows)) start = Some pages
    /\ mjoin pages = select repo (build_where repo filters) rows /\ Forall (fun p => (length p <= n)%nat) pages.
Proof.
  intros Hrepo Hok Hn Hstart.
  assert (Hr : ascending repo = false /\ assoc "OR" (obj_fields (build_where repo filters)) = None).
  { cbn in Hrepo. decompose [or] Hrepo; subst; try contradiction; (split; [reflexivity|]); no_alternative. }
  destruct Hr as [Hdesc Hno]. set (found := select repo (build_where repo filters) rows).
  apply (walk_desc repo filters n rows Hok Hn Hno (S (length rows)) [] found start Hdesc eq_refl).
  - unfold found, select, ordered. rewrite sort_by_perm. apply Nat.lt_succ_r, List.filter_length_le.
  - now apply first_page.
Qed.

(** Reading the merchants or clients cursor by cursor never gets past the first page: the
    rows sort upwards and the cursor asks for smaller ones, so the second page repeats the
    first without its last row, and says there are no more. *)
Theorem ascending_walk_stuck repo filters n rows start fuel :
  In repo [merchantRepository; clientRepository] -> truthy (filters@."search") = false ->
  table_ok (cursor_primary repo) rows -> (1 <= n)%nat -> decodeCursor start [cursor_primary repo; "id"] = None ->
  let found := select repo (build_where repo filters) rows in
  (n < length found)%nat -> (2 <= fuel)%nat ->
  walk repo filters n rows fuel start = Some [take n found; take (n - 1) found].
Proof.
  intros Hrepo Hsearch Hok Hn Hstart found Hlen Hfuel.
  assert (Hr : ascending repo = true /\ assoc "OR" (obj_fields (build_where repo filters)) = None).
  { cbn in Hrepo. decompose [or] Hrepo; subst; try contradiction; (split; [reflexivity|]);
      cbn [build_where obj_fields merchantRepository clientRepository merchantWhere clientWhere]; unfold merchantWhere, clientWhere;
      rewrite Hsearch; cbv zeta; cbn [obj_fields]; repeat apply assoc_app_none; try (apply assoc_given; discriminate); try reflexivity;
      repeat case_match; try reflexivity; apply assoc_given; discriminate. }
  destruct Hr as [Hasc Hno]. now apply walk_asc.
Qed.

(** A search stops at the first page: the alternatives of the cursor replace those of the
    search, so every later page is read as if nothing had been searched for. *)
Theorem search_lost_after_cursor repo filters n c rows :
  In repo [merchantRepository; clientRepository] ->
  findManyCursor repo filters n (Some c) rows = findManyCursor repo (with_prop filters "search" JUndef) n (Some c) rows.
Proof.
  intros Hrepo. unfold findManyCursor.
  assert (E : spread (build_where repo filters) (buildCursorWhere (Some c) (cursor_primary repo) "id")
            = spread (build_where repo (with_prop filters "search" JUndef)) (buildCursorWhere (Some c) (cursor_primary repo) "id")).
  { assert (Hg : forall k, k <> "search" -> given (with_prop filters "search" JUndef) k = given filters k)
      by (intros k Hk; unfold given; rewrite prop_with_prop_ne by (apply String.eqb_neq; congruence); reflexivity).
    assert (Hn : truthy ((with_prop filters "search" JUndef)@."search") = false) by (rewrite prop_with_prop_eq; reflexivity).
    assert (Hset : forall (l : list (string * jsval)) v w, assoc "OR" l = None -> assoc_set "OR" v (l ++ w) = l ++ assoc_set "OR" v w).
    { intros l v w Hl. induction l as [|[k x] l IH]; [reflexivity|]. cbn [assoc] in Hl. destruct (k =s? "OR") eqn:Ek; [discriminate|].
      cbn [app assoc_set]. rewrite Ek. cbn [app]. f_equal. auto. }
    cbn in Hrepo. decompose [or] Hrepo; subst; try contradiction; unfold spread; cbn [build_where merchantRepository clientRepository];
      unfold merchantWhere, clientWhere; cbv zeta; cbn [obj_fields buildCursorWhere fold_left fst snd];
      rewrite ?Hn, ?Hg by discriminate; rewrite ?(prop_with_prop_ne filters) by reflexivity; f_equal; rewrite !app_assoc, !Hset;
      try (destruct (truthy (filters@."search")); reflexivity);
      repeat apply assoc_app_none; try (apply assoc_given; discriminate); try reflexivity;
      repeat case_match; try reflexivity; apply assoc_given; discriminate. }
  now rewrite E.
Qed.
End Cursors.

(** *** Days of a query *)

Section Ranges.
Context {H : JsHost}.
(** Days of the years 100 to 9999: [Date.UTC] takes a two-digit year for one of the 1900s. *)
Definition query_day (n : Z) : Prop := regular_day n /\ 100 <= (civil_from_days n).1.1.

Lemma boundary_day n endOfDay :
  query_day n -> parseBoundaryDate (JStr (day_text n)) endOfDay = Some (Some (n * ms_per_day + if endOfDay then last_ms else 0)).
Proof.
  intros [Hr Hy]. pose proof (regular_year n Hr) as Hyr. pose proof (civil_fields n) as Hf. unfold parseBoundaryDate.
  cbn [js_string]. rewrite trim_day_text by exact Hr.
  assert (Hb : blank (JStr (day_text n)) = false).
  { rewrite day_text_ymd by exact Hr. now destruct (civil_from_days n) as [[y m] d]. }
  rewrite Hb, day_text_ymd by exact Hr. destruct (civil_from_days n) as [[y m] d]. cbn [fst] in Hy, Hyr.
  destruct Hf as (Hn & Hm & Hd). change (ymd_text y m d) with (ymd_text y m d +:+ ""). rewrite parse_ymd_text by assumption.
  do 2 f_equal. unfold date_utc_at. rewrite (proj2 (Z.leb_gt y 99)), andb_false_r by lia.
  rewrite make_day_civil, Z.sub_add, <- days_from_civil_day, Hn by lia. apply time_clip_in.
  unfold regular_day, first_day, last_day in Hr. unfold last_ms, ms_per_day, max_time. destruct endOfDay; lia.
Qed.

(** A range of days selects exactly the instants of its days. *)
Theorem date_range_days a b t :
  query_day a -> query_day b -> a <= b ->
  selects (parseDateRangeQuery (JStr (day_text a)) (JStr (day_text b))) t = ((a <=? t / ms_per_day) && (t / ms_per_day <=? b)).
Proof.
  intros Ha Hb Hab. unfold parseDateRangeQuery. rewrite !boundary_day by assumption.
  rewrite (proj2 (Z.ltb_ge _ _)) by (unfold last_ms, ms_per_day; lia). unfold selects. cbn [fromDate toDate].
  apply eq_true_iff_eq. rewrite !andb_true_iff, !Z.leb_le. unfold last_ms, ms_per_day. Z.div_mod_to_equations. lia.
Qed.

(** A reversed range is turned round after its bounds were widened, so it selects the days
    strictly between the two and, of these two days, one instant each. *)
Theorem inverted_range_loses_days a b t :
  query_day a -> query_day b -> b < a ->
  let r := parseDateRangeQuery (JStr (day_text a)) (JStr (day_text b)) in
  inverted r = true
  /\ (selects r t = true <-> b < t / ms_per_day < a \/ t = b * ms_per_day + last_ms \/ t = a * ms_per_day).
Proof.
  intros Ha Hb Hab. cbv zeta. unfold parseDateRangeQuery. rewrite !boundary_day by assumption.
  rewrite (proj2 (Z.ltb_lt _ _)) by (unfold last_ms, ms_per_day; lia). split; [reflexivity|].
  unfold selects. cbn [fromDate toDate]. rewrite andb_true_iff, !Z.leb_le. unfold last_ms, ms_per_day. Z.div_mod_to_equations. lia.
Qed.
End Ranges.
End PagingFacts.
