(* ===== verification/Limits.v ===== *)
(** * Concurrency limits

    [core/dbPermits.js] and [core/concurrency.js]: how many database connections a fan-out
    may draw, the pool of permits that enforces it, and the worker pool that runs a list of
    items with bounded concurrency.  Between two [await]s a worker runs alone, so the pools
    are state machines whose events are the calls and the completions, in any order. *)

From S2P Require Import Prelude JsNum JsRound JsArith JsOrder JsVal.
From Stdlib Require Import SpecFloat.
From stdpp Require Import relations.
Local Open Scope Z_scope.

(** ** Permits *)

Module DbPermits.
Section WithHost.
Context {H : JsHost}.

Definition DB_WORK_CONCURRENCY_DEFAULT : num := num_of_Z 4.
Definition DB_WORK_CONCURRENCY_CEILING : num := num_of_Z 4.
Definition DB_POOL_LIMIT_DEFAULT : num := num_of_Z 5.
Definition DB_POOL_RESERVE : num := num_of_Z 1.
Definition n1 : num := num_of_Z 1.

(** [x || d] on numbers *)
Definition num_or (x d : num) : num := if is_nan x || neqb x n0 then d else x.

Definition resolveDbConcurrency (requested : jsval) (fallback : num) : num :=
  let safeFallback := nmin (nmax (num_or (nfloor fallback) n1) n1) DB_WORK_CONCURRENCY_CEILING in
  if blank requested then safeFallback
  else
    let value := js_number requested in
    if negb (is_finite value) then safeFallback
    else nmin (nmax (nfloor value) n1) DB_WORK_CONCURRENCY_CEILING.

Definition resolveDbPoolLimit (requested : jsval) (fallback : num) : num :=
  let safeFallback := nmax n1 (num_or (nfloor fallback) DB_POOL_LIMIT_DEFAULT) in
  if blank requested then safeFallback
  else
    let value := js_number requested in
    if negb (is_finite value) || nltb value n1 then safeFallback else nfloor value.

Definition resolveAccountConcurrency (requested poolLimit : jsval) (perAccountConcurrency reserve : num) : num :=
  let limit := resolveDbPoolLimit poolLimit DB_POOL_LIMIT_DEFAULT in
  let perAccount := nmax n1 (num_or (nfloor perAccountConcurrency) n1) in
  let budget := nmax n1 (nsub limit (nmax n0 (num_or (nfloor reserve) n0))) in
  let affordable := nmax n1 (nfloor (ndiv budget perAccount)) in
  let asked := js_number requested in
  let wanted := if is_finite asked && nleb n1 asked then nfloor asked else n1 in
  nmin wanted affordable.

Definition maxConcurrentDbDemand (accountConcurrency perAccountConcurrency : num) : num :=
  nmul (nmax n1 (num_or (nfloor accountConcurrency) n1)) (nmax n1 (num_or (nfloor perAccountConcurrency) n1)).
End WithHost.

(** *** The permit pool

    [waiting] holds the callers whose promise is not resolved yet, oldest first. *)
Record pool := Pool { available : nat; waiting : list nat }.
Definition createPermitPool (size : Z) : pool := Pool (Z.to_nat (Z.max 1 size)) [].
(** [acquire()]: whether the caller goes on at once *)
Definition acquire (caller : nat) (p : pool) : bool * pool :=
  if (0 <? available p)%nat then (true, Pool (available p - 1) (waiting p))
  else (false, Pool (available p) (waiting p ++ [caller])).
(** [release()]: the waiter that goes on *)
Definition release (p : pool) : option nat * pool :=
  match waiting p with
  | next :: rest => (Some next, Pool (available p) rest)
  | [] => (None, Pool (available p + 1) [])
  end.
End DbPermits.

(** ** The worker pool *)

Module Concurrency.
Section Pool.
Context {A B : Type} (items : list A) (worker : A -> nat -> outcome B).

(** What each worker is doing: the index it works on, or [None] once it has returned. *)
Record pool_state := State {
  nextIndex : nat;
  workers : list (option nat);
  results : list (option B);
  failure : option js_error
}.

(** [const index = nextIndex; nextIndex += 1; if (index >= items.length) return;] *)
Definition claim (next : nat) : option nat * nat :=
  (if (next <? length items)%nat then Some next else None, S next).

Definition workerCount (concurrency : Z) : nat := Z.to_nat (Z.min (Z.max concurrency 1) (Z.of_nat (length items))).
Fixpoint launch (count next : nat) : list (option nat) * nat :=
  match count with
  | O => ([], next)
  | S count' => let '(job, next1) := claim next in let '(jobs, next2) := launch count' next1 in (job :: jobs, next2)
  end.
Definition runWithConcurrency (concurrency : Z) : pool_state :=
  let '(jobs, next) := launch (workerCount concurrency) 0 in
  State next jobs (repeat None (length items)) None.

(** The worker [w] finishes its item: it stores the result and claims the next one, or it
    throws, and the whole call rejects with the first error. *)
Inductive finishes : pool_state -> pool_state -> Prop :=
| finishes_ok w i x v s :
    workers s !! w = Some (Some i) -> items !! i = Some x -> worker x i = Ok v ->
    finishes s (State (claim (nextIndex s)).2 (<[w := (claim (nextIndex s)).1]> (workers s))
                      (<[i := Some v]> (results s)) (failure s))
| finishes_error w i x e s :
    workers s !! w = Some (Some i) -> items !! i = Some x -> worker x i = Throw e ->
    finishes s (State (nextIndex s) (<[w := None]> (workers s)) (results s)
                      (match failure s with Some e0 => Some e0 | None => Some e end)).

Definition busy (s : pool_state) : list nat := omap id (workers s).
End Pool.
End Concurrency.

(** ** Facts *)

Module LimitFacts.
Import DbPermits Concurrency.

(** *** Bounds of the resolved concurrency *)

Lemma pack_not_nan s q e : 0 <= q -> is_nan (pack s q e) = false.
Proof.
  intros Hq. unfold pack.
  destruct (shr_fexp_spec q 0 1 loc_Exact Hq ltac:(lia) ltac:(lia) eq_refl e) as (mrs & -> & Hm & _).
  assert (0 <= shr_m mrs)
    by (rewrite Hm; apply Z.div_pos; [exact Hq|apply Z.pow_pos_nonneg; [lia|apply drop_bits_nonneg]]).
  destruct (shr_m mrs); [reflexivity| |lia]. now case_match.
Qed.

Lemma binary_round_aux_not_nan s q r d e l :
  0 <= q -> 0 < d -> 0 <= r < d -> loc_spec l r d -> is_nan (binary_round_aux prec emax s q e l) = false.
Proof.
  intros Hq Hd Hr Hl. destruct (binary_round_aux_spec q r d e l Hq Hd Hr Hl s) as (q1 & -> & Hb & _).
  apply pack_not_nan. etransitivity; [|apply Hb]. apply Z.div_pos; [exact Hq|].
  apply Z.pow_pos_nonneg; [lia|apply drop_bits_nonneg].
Qed.

Lemma num_of_ratio_not_nan n d : is_nan (num_of_ratio n d) = false.
Proof.
  assert (Hp : forall s p, is_nan (let '(q, e, l) := SFdiv_core_binary prec emax (Zpos p) 0 (Zpos d) 0 in
                                   binary_round_aux prec emax s q e l) = false).
  { intros s p. unfold SFdiv_core_binary. set (m := match _ with Z0 => _ | Zpos _ => _ | Zneg _ => _ end).
    assert (Hm : 0 <= m) by (subst m; case_match; [lia|apply Z.shiftl_nonneg; lia|lia]).
    pose proof (Z.div_pos m (Zpos d) Hm ltac:(lia)) as Hq. pose proof (Z.mod_pos_bound m (Zpos d) ltac:(lia)) as Hr.
    unfold Z.div, Z.modulo in *. destruct (Z.div_eucl m (Zpos d)) as [q r].
    eapply binary_round_aux_not_nan; [exact Hq| |exact Hr|]; [lia|]. now apply new_location_spec. }
  destruct n; [reflexivity|apply Hp|apply Hp].
Qed.

Lemma nfloor_not_nan x : is_nan x = false -> is_nan (nfloor x) = false.
Proof. intros Hx. destruct x; cbn; try easy. do 2 (case_match; [easy|]). apply num_of_ratio_not_nan. Qed.

Lemma num_or_not_nan x d : is_nan d = false -> is_nan (num_or x d) = false.
Proof. intros Hd. unfold num_or. destruct (is_nan x) eqn:E; [exact Hd|]. now case_match. Qed.

Lemma clamped x lo hi :
  is_nan x = false -> is_nan lo = false -> is_nan hi = false -> nleb lo hi = true ->
  nleb lo (nmin (nmax x lo) hi) = true /\ nleb (nmin (nmax x lo) hi) hi = true.
Proof.
  intros Hx Hlo Hhi Hle. destruct (nmax_spec x lo Hx Hlo) as (Hn & _ & Hmax & _).
  destruct (nmin_spec (nmax x lo) hi Hn Hhi) as (Hn' & Hmin & Hor).
  split; [|now apply nleb_spec]. destruct Hor as [->| ->]; [now apply nleb_spec|exact Hle].
Qed.

(** Whatever the environment or a caller asks for, a fan-out draws between one connection and
    the ceiling. *)
Theorem db_concurrency_bounds {H : JsHost} requested fallback :
  nleb n1 (resolveDbConcurrency requested fallback) = true /\
  nleb (resolveDbConcurrency requested fallback) DB_WORK_CONCURRENCY_CEILING = true.
Proof.
  unfold resolveDbConcurrency.
  case_match; [|case_match]; try (apply clamped; [now apply num_or_not_nan|reflexivity..]).
  apply clamped; [|reflexivity..]. apply nfloor_not_nan.
  match goal with Hf : negb _ = false |- _ => apply negb_false_iff in Hf; revert Hf end.
  now destruct (js_number requested).
Qed.

(** With a pool of three connections and no configuration a single account still fans out four
    ways: the demand exceeds the whole pool, reserve included. *)
Theorem small_pool_overdrawn {H : JsHost} :
  let limit := JNum (num_of_Z 3) in
  let accounts := resolveAccountConcurrency JUndef limit DB_WORK_CONCURRENCY_CEILING DB_POOL_RESERVE in
  resolveDbPoolLimit limit DB_POOL_LIMIT_DEFAULT = num_of_Z 3 /\
  maxConcurrentDbDemand accounts DB_WORK_CONCURRENCY_CEILING = num_of_Z 4.
Proof. split; vm_compute; reflexivity. Qed.

(** *** Permits go to the callers in the order they asked *)

Inductive event := Acquire (caller : nat) | Release.

(** A pool together with the callers that went on so far. *)
Definition after (e : event) (s : pool * list nat) : pool * list nat :=
  match e with
  | Acquire caller => let '(now, p) := acquire caller s.1 in (p, if now then s.2 ++ [caller] else s.2)
  | Release => let '(next, p) := release s.1 in (p, s.2 ++ option_list next)
  end.
Definition history (size : Z) (es : list event) : pool * list nat :=
  foldl (flip after) (createPermitPool size, []) es.

Definition asked (es : list event) : list nat :=
  omap (fun e => match e with Acquire c => Some c | Release => None end) es.
Definition released (es : list event) : nat :=
  length (omap (fun e => match e with Release => Some () | Acquire _ => None end) es).

(** What the pool promises, as a function of the calls alone: with [n] permits handed out or
    given back so far, the first [n] callers have gone on, the others wait in the order they
    asked, and a permit is free only when nobody waits. *)
Definition promised (n : nat) (callers : list nat) : pool * list nat :=
  (Pool (n - length callers) (drop n callers), take n callers).

Lemma after_acquire n callers c : after (Acquire c) (promised n callers) = promised n (callers ++ [c]).
Proof.
  unfold after, promised, acquire. cbn [fst snd available waiting]. rewrite length_app. cbn [length].
  rewrite Nat.sub_add_distr. destruct (Nat.ltb_spec 0 (n - length callers)).
  - now rewrite !take_ge, !drop_ge by (rewrite ?length_app; cbn; lia).
  - rewrite take_app_le, drop_app_le by lia. now replace (n - length callers)%nat with 0%nat by lia.
Qed.

Lemma after_release n callers : after Release (promised n callers) = promised (S n) callers.
Proof.
  unfold after, promised, release. cbn [fst snd available waiting].
  destruct (drop n callers) as [|next rest] eqn:E.
  - assert (length callers <= n)%nat by (apply (f_equal length) in E; rewrite length_drop in E; cbn in E; lia).
    rewrite !take_ge, !drop_ge by lia. cbn [option_list]. rewrite app_nil_r. now replace (S n - length callers)%nat with (n - length callers + 1)%nat by lia.
  - pose proof (f_equal length E) as El. rewrite length_drop in El. cbn in El.
    assert (Hn : callers !! n = Some next) by (rewrite <- (Nat.add_0_r n), <- lookup_drop, E; reflexivity).
    rewrite (take_S_r _ _ _ Hn). replace (S n) with (n + 1)%nat by lia. rewrite <- drop_drop, E. cbn.
    now replace (n + 1 - length callers)%nat with (n - length callers)%nat by lia.
Qed.

(** C39: The pool implements its promise: after any calls, in any order, exactly the first
    [size + releases] callers went on, first come first served, the later ones wait, and no
    caller waits while a permit is free. *)
Theorem permits_first_come_first_served size es :
  history size es = promised (Z.to_nat (Z.max 1 size) + released es) (asked es).
Proof.
  unfold history. induction es as [|e es IH] using rev_ind.
  - cbn. unfold createPermitPool, promised. cbn. now rewrite drop_nil, take_nil, Nat.sub_0_r, Nat.add_0_r.
  - rewrite foldl_app, IH. unfold asked, released. cbn [foldl flip]. rewrite !omap_app, !length_app.
    destruct e; cbn [omap list_omap length].
    + rewrite after_acquire, Nat.add_0_r. reflexivity.
    + rewrite after_release, app_nil_r. f_equal. lia.
Qed.

(** *** The worker pool runs every item *)

(** A worker that changes what it does changes one entry of the busy list. *)
Lemma busy_update (ws : list (option nat)) w i :
  ws !! w = Some (Some i) ->
  exists rest, omap id ws ≡ₚ i :: rest /\ forall o, omap id (<[w := o]> ws) ≡ₚ option_list o ++ rest.
Proof.
  intros Hw. pose proof (lookup_lt_Some _ _ _ Hw) as Hlt.
  exists (omap id (take w ws) ++ omap id (drop (S w) ws)). split.
  - rewrite <- (take_drop_middle _ _ _ Hw) at 1. rewrite omap_app. cbn. symmetry. apply Permutation_middle.
  - intros o. rewrite insert_take_drop, omap_app by exact Hlt. cbn.
    destruct o; cbn; [symmetry; apply Permutation_middle|reflexivity].
Qed.

Lemma elem_insert_inv {A} (l : list A) w x y : x ∈ <[w := y]> l -> x = y \/ x ∈ l.
Proof.
  intros (j & Hj)%list_elem_of_lookup. apply list_lookup_insert_Some in Hj as [(-> & -> & _)|[_ Hj]]; [now left|].
  right. apply list_elem_of_lookup. now exists j.
Qed.

Section WorkerPool.
Context {A B : Type} (items : list A) (worker : A -> nat -> outcome B) (concurrency : Z).
Local Abbreviation finishes := (finishes items worker).
Local Abbreviation start := (runWithConcurrency (B := B) items concurrency).

(** What the items give when each is run on its own. *)
Definition expected : list (option B) :=
  imap (fun i x => match worker x i with Ok v => Some v | Throw _ => None end) items.

Record inv (n : nat) (s : pool_state (B := B)) : Prop := {
  inv_workers : length (workers s) = workerCount items concurrency;
  inv_results : length (results s) = length items;
  inv_nodup : NoDup (busy s);
  inv_count : (n + length (busy s) = Nat.min (nextIndex s) (length items))%nat;
  inv_busy i : i ∈ busy s -> (i < Nat.min (nextIndex s) (length items))%nat;
  inv_done i : failure s = None -> (i < Nat.min (nextIndex s) (length items))%nat -> i ∉ busy s ->
               results s !! i = expected !! i;
  inv_idle : failure s = None -> None ∈ workers s -> (length items <= nextIndex s)%nat;
  inv_failure e : failure s = Some e -> exists i x, items !! i = Some x /\ worker x i = Throw e
}.

Lemma launch_spec count next :
  (next + count <= length items)%nat ->
  launch items count next = (Some <$> seq next count, (next + count)%nat).
Proof.
  revert next. induction count as [|count IH]; intros next Hle; cbn [launch]; [now rewrite Nat.add_0_r|].
  unfold claim. rewrite (proj2 (Nat.ltb_lt _ _)) by lia. rewrite IH by lia. now rewrite Nat.add_succ_r.
Qed.

Lemma workerCount_le : (workerCount items concurrency <= length items)%nat.
Proof. unfold workerCount. lia. Qed.

Lemma busy_all l : omap id (Some <$> l) = (l : list nat).
Proof. induction l as [|x l IH]; [reflexivity|]. cbn. now f_equal. Qed.

Lemma start_inv : inv 0 start.
Proof.
  unfold runWithConcurrency. pose proof workerCount_le as Hle. rewrite launch_spec by lia.
  constructor; unfold busy; cbn [nextIndex workers results failure]; rewrite ?busy_all, ?length_fmap, ?length_seq.
  - reflexivity.
  - now rewrite repeat_length.
  - apply NoDup_seq.
  - lia.
  - intros i Hi. apply elem_of_seq in Hi. lia.
  - intros i _ Hi Hn. exfalso. apply Hn. apply elem_of_seq. lia.
  - intros _ Hn. apply list_elem_of_fmap in Hn as (? & ? & _). discriminate.
  - discriminate.
Qed.

(** The pool seen from the worker [w] that holds [i]. *)
Lemma inv_split n s w i :
  inv n s -> workers s !! w = Some (Some i) ->
  exists rest, busy s ≡ₚ i :: rest /\ NoDup rest /\
    (forall j, j ∈ rest -> (j < Nat.min (nextIndex s) (length items))%nat) /\
    (S n + length rest = Nat.min (nextIndex s) (length items))%nat /\
    forall o, omap id (<[w := o]> (workers s)) ≡ₚ option_list o ++ rest.
Proof.
  intros [_ _ Hnd Hc Hb _ _ _] Hwi. destruct (busy_update _ _ _ Hwi) as (rest & Hold & Hnew). fold (busy s) in Hold.
  exists rest. rewrite Hold in Hnd. apply NoDup_cons in Hnd as [_ Hrest]. split_and!; [done..| | |done].
  - intros j Hj. apply Hb. rewrite Hold. now right.
  - apply Permutation_length in Hold. cbn in Hold. lia.
Qed.

Lemma finishes_ok_inv n s w i x v :
  inv n s -> workers s !! w = Some (Some i) -> items !! i = Some x -> worker x i = Ok v ->
  inv (S n) (State (claim items (nextIndex s)).2 (<[w := (claim items (nextIndex s)).1]> (workers s))
                   (<[i := Some v]> (results s)) (failure s)).
Proof.
  intros Hinv Hwi Hx Hv. destruct (inv_split _ _ _ _ Hinv Hwi) as (rest & Hold & Hrest & Hbound & Hlen & Hnew).
  destruct Hinv as [Hw Hr _ _ _ Hd Hi Hf].
  unfold claim. cbn [fst snd]. set (o := if (_ <? _)%nat then _ else _).
  specialize (Hnew o). pose proof (Permutation_length Hnew) as Hlen'. rewrite length_app in Hlen'.
  constructor; cbn [nextIndex workers results failure]; unfold busy; cbn [workers].
  - now rewrite length_insert.
  - now rewrite length_insert.
  - rewrite Hnew. subst o. case_match; cbn; [|exact Hrest]. apply NoDup_cons. split; [|exact Hrest].
    intros Hin. apply Hbound in Hin. lia.
  - subst o. destruct (Nat.ltb_spec (nextIndex s) (length items)); cbn in Hlen'; lia.
  - intros j. rewrite Hnew. subst o. destruct (Nat.ltb_spec (nextIndex s) (length items)); cbn [option_list app].
    + intros [->|Hj]%elem_of_cons; [lia|]. apply Hbound in Hj. lia.
    + intros Hj. apply Hbound in Hj. lia.
  - intros j Hfail Hj Hnot. rewrite Hnew in Hnot.
    destruct (decide (j = i)) as [->|Hji].
    + rewrite list_lookup_insert_eq by (rewrite Hr; exact (lookup_lt_Some _ _ _ Hx)).
      unfold expected. rewrite list_lookup_imap, Hx. cbn. now rewrite Hv.
    + rewrite list_lookup_insert_ne by congruence. apply Hd; [exact Hfail| |].
      * subst o. destruct (Nat.ltb_spec (nextIndex s) (length items)); [|lia].
        assert (j <> nextIndex s) by (intros ->; apply Hnot; left). lia.
      * rewrite Hold. intros [->|Hin]%elem_of_cons; [congruence|]. apply Hnot, elem_of_app. now right.
  - intros Hfail Hnone. subst o. destruct (Nat.ltb_spec (nextIndex s) (length items)); [|lia].
    apply elem_insert_inv in Hnone as [|Hnone]; [discriminate|]. specialize (Hi Hfail Hnone). lia.
  - exact Hf.
Qed.

Lemma finishes_error_inv n s w i x e :
  inv n s -> workers s !! w = Some (Some i) -> items !! i = Some x -> worker x i = Throw e ->
  inv (S n) (State (nextIndex s) (<[w := None]> (workers s)) (results s)
                   (match failure s with Some e0 => Some e0 | None => Some e end)).
Proof.
  intros Hinv Hwi Hx He. destruct (inv_split _ _ _ _ Hinv Hwi) as (rest & Hold & Hrest & Hbound & Hlen & Hnew).
  destruct Hinv as [Hw Hr _ _ _ Hd Hi Hf].
  specialize (Hnew None). cbn in Hnew.
  pose proof (Permutation_length Hnew) as Hlen'.
  constructor; cbn [nextIndex workers results failure]; unfold busy; cbn [workers].
  - now rewrite length_insert.
  - exact Hr.
  - now rewrite Hnew.
  - lia.
  - intros j. rewrite Hnew. apply Hbound.
  - intros j Hfail. destruct (failure s); discriminate.
  - intros Hfail. destruct (failure s); discriminate.
  - intros e' He'. destruct (failure s) eqn:E; [now apply Hf|]. injection He' as <-. now exists i, x.
Qed.

Lemma finishes_inv n s s' : inv n s -> finishes s s' -> inv (S n) s'.
Proof. intros Hinv Hstep. destruct Hstep; eauto using finishes_ok_inv, finishes_error_inv. Qed.

Lemma pool_inv n s : nsteps finishes n start s -> inv n s.
Proof.
  intros Hrun. assert (Hgen : forall m s0, inv m s0 -> nsteps finishes n s0 s -> inv (n + m) s).
  { clear Hrun. revert s. induction n as [|n IH]; intros s m s0 Hs Hrun; inversion Hrun; subst; [exact Hs|].
    replace (S n + m)%nat with (n + S m)%nat by lia. eapply IH; [|eassumption]. eapply finishes_inv; eassumption. }
  rewrite <- (Nat.add_0_r n). exact (Hgen 0%nat start start_inv Hrun).
Qed.

Lemma busy_steps n s : inv n s -> busy s <> [] -> exists s', finishes s s'.
Proof.
  intros Hinv Hb. destruct (busy s) as [|i rest] eqn:E; [done|].
  assert (Hi : i ∈ busy s) by (rewrite E; left). pose proof (inv_busy _ _ Hinv i Hi) as Hlt.
  apply list_elem_of_omap in Hi as (o & Ho & Eo). cbn in Eo. subst o.
  apply list_elem_of_lookup in Ho as [w Hw]. destruct (lookup_lt_is_Some_2 items i ltac:(lia)) as [x Hx].
  destruct (worker x i) as [v|e] eqn:Ev; eexists; [eapply finishes_ok|eapply finishes_error]; eassumption.
Qed.

Lemma quiet_complete n s : inv n s -> busy s = [] -> failure s = None -> results s = expected.
Proof.
  intros [Hw Hr _ _ _ Hd Hi _] Hb Hf.
  assert (Hall : (length items <= nextIndex s)%nat).
  { destruct (workers s) as [|o ws] eqn:E.
    - cbn in Hw. unfold workerCount in Hw. lia.
    - apply Hi; [exact Hf|]. unfold busy in Hb. rewrite E in Hb. destruct o; [discriminate|left]. }
  apply list_eq_same_length with (length items); [unfold expected; apply length_imap|exact Hr|].
  intros i x y Hlt Hx Hy. specialize (Hd i Hf ltac:(lia) ltac:(rewrite Hb; apply not_elem_of_nil)).
  rewrite Hx, Hy in Hd. now injection Hd.
Qed.

(** Whatever order the workers finish in: no two of them ever hold the same item and no more
    than the configured number run, each finish counts one item off so there are never more
    finishes than items, a busy pool can always go on, and when it falls silent every item's
    result stands at its own index, unless an item threw, whose error the call rejects with. *)
Theorem pool_runs_every_item n s :
  nsteps finishes n start s ->
  NoDup (busy s) /\ (length (busy s) <= workerCount items concurrency)%nat /\
  (n + length (busy s) <= length items)%nat /\
  (busy s <> [] -> exists s', finishes s s') /\
  (busy s = [] ->
   match failure s with
   | None => results s = expected
   | Some e => exists i x, items !! i = Some x /\ worker x i = Throw e
   end).
Proof.
  intros Hrun%pool_inv. pose proof Hrun as [Hw _ Hnd Hc _ _ _ Hf]. split_and!.
  - exact Hnd.
  - rewrite <- Hw. unfold busy. clear. induction (workers s) as [|[] ws IH]; cbn in *; lia.
  - lia.
  - exact (busy_steps _ _ Hrun).
  - intros Hb. destruct (failure s) as [e|] eqn:E; [now apply Hf|]. exact (quiet_complete _ _ Hrun Hb E).
Qed.
End WorkerPool.

End LimitFacts.
