(* ===== verification/Jobs.v ===== *)
(** * The job table

    The sync services share one Postgres table, [JobRun] of [prisma/schema.prisma]: the
    orchestration runs, their units and the lock rows.  A [jobs] state is that table with
    the clock; an operation of this file is one statement, hence one atomic action of an
    [io] program.  Row ids are random UUIDs: the interface [Uuid] only says they differ.
    [updatedAt] is never read by the modelled code and is left out. *)

From S2P Require Import Prelude JsNum JsVal JsDate Concurrent.
Local Open Scope Z_scope.

Inductive job_status := PENDING | RUNNING | COMPLETED | FAILED | CANCELLED | DEAD_LETTER.
#[export] Instance job_status_eq_dec : EqDecision job_status.
Proof. solve_decision. Defined.
Notation "s =j? t" := (bool_decide (@eq job_status s t)) (at level 70, no associativity) : js_scope.

Definition status_text (s : job_status) : string :=
  match s with
  | PENDING => "PENDING" | RUNNING => "RUNNING" | COMPLETED => "COMPLETED"
  | FAILED => "FAILED" | CANCELLED => "CANCELLED" | DEAD_LETTER => "DEAD_LETTER"
  end.

Record JobRun := Job {
  job_id : string;
  jobName : string;
  status : job_status;
  priority : Z;
  attempt : Z;
  maxAttempts : Z;
  progress : Z;
  payload : jsval;
  result : jsval;
  lastError : option string;
  correlationId : option string;
  startedAt : option Z;
  completedAt : option Z;
  createdAt : Z
}.

Class Uuid := { uuid : nat -> string; uuid_inj :: Inj (=) (=) uuid }.

Record jobs := Jobs { job_rows : list JobRun; clock : Z; next_uuid : nat }.

Definition advance (d : Z) (s : jobs) : jobs := Jobs (job_rows s) (clock s + d) (next_uuid s).

(** ** Rewriting columns *)

Definition set_status (v : job_status) (j : JobRun) : JobRun :=
  Job (job_id j) (jobName j) v (priority j) (attempt j) (maxAttempts j) (progress j) (payload j) (result j)
      (lastError j) (correlationId j) (startedAt j) (completedAt j) (createdAt j).
Definition set_attempt (v : Z) (j : JobRun) : JobRun :=
  Job (job_id j) (jobName j) (status j) (priority j) v (maxAttempts j) (progress j) (payload j) (result j)
      (lastError j) (correlationId j) (startedAt j) (completedAt j) (createdAt j).
Definition set_progress (v : Z) (j : JobRun) : JobRun :=
  Job (job_id j) (jobName j) (status j) (priority j) (attempt j) (maxAttempts j) v (payload j) (result j)
      (lastError j) (correlationId j) (startedAt j) (completedAt j) (createdAt j).
Definition set_payload (v : jsval) (j : JobRun) : JobRun :=
  Job (job_id j) (jobName j) (status j) (priority j) (attempt j) (maxAttempts j) (progress j) v (result j)
      (lastError j) (correlationId j) (startedAt j) (completedAt j) (createdAt j).
Definition set_result (v : jsval) (j : JobRun) : JobRun :=
  Job (job_id j) (jobName j) (status j) (priority j) (attempt j) (maxAttempts j) (progress j) (payload j) v
      (lastError j) (correlationId j) (startedAt j) (completedAt j) (createdAt j).
Definition set_lastError (v : option string) (j : JobRun) : JobRun :=
  Job (job_id j) (jobName j) (status j) (priority j) (attempt j) (maxAttempts j) (progress j) (payload j) (result j)
      v (correlationId j) (startedAt j) (completedAt j) (createdAt j).
Definition set_correlationId (v : option string) (j : JobRun) : JobRun :=
  Job (job_id j) (jobName j) (status j) (priority j) (attempt j) (maxAttempts j) (progress j) (payload j) (result j)
      (lastError j) v (startedAt j) (completedAt j) (createdAt j).
Definition set_startedAt (v : option Z) (j : JobRun) : JobRun :=
  Job (job_id j) (jobName j) (status j) (priority j) (attempt j) (maxAttempts j) (progress j) (payload j) (result j)
      (lastError j) (correlationId j) v (completedAt j) (createdAt j).
Definition set_completedAt (v : option Z) (j : JobRun) : JobRun :=
  Job (job_id j) (jobName j) (status j) (priority j) (attempt j) (maxAttempts j) (progress j) (payload j) (result j)
      (lastError j) (correlationId j) (startedAt j) v (createdAt j).

(** ** Order of query results *)

(** [orderBy: [{ createdAt: "asc" }, { id: "asc" }]] and its variants. *)
Definition by_created (a b : JobRun) : bool := createdAt a <=? createdAt b.
Definition by_created_id (a b : JobRun) : bool :=
  (createdAt a <? createdAt b) || ((createdAt a =? createdAt b) && String.leb (job_id a) (job_id b)).
Definition started_or_last (j : JobRun) : Z := default (max_time + 1) (startedAt j).
Definition by_started_id (a b : JobRun) : bool :=
  (started_or_last a <? started_or_last b)
  || ((started_or_last a =? started_or_last b) && String.leb (job_id a) (job_id b)).
Definition by_started (a b : JobRun) : bool := started_or_last a <=? started_or_last b.
Definition by_priority (a b : JobRun) : bool := priority a <=? priority b.

(** ** Statements *)

Definition get_clock : prog jobs Z := gets clock.

Definition has_job_id (id : string) (j : JobRun) : bool := job_id j =s? id.

(** [findUnique({ where: { id } })] *)
Definition job_find (id : string) : prog jobs (option JobRun) :=
  gets (fun s => List.find (has_job_id id) (job_rows s)).
(** [findMany({ where, orderBy })] *)
Definition job_many (where_ : JobRun -> bool) (le : JobRun -> JobRun -> bool) : prog jobs (list JobRun) :=
  gets (fun s => sort_by le (List.filter where_ (job_rows s))).
(** [findFirst({ where, orderBy })] *)
Definition job_first (where_ : JobRun -> bool) (le : JobRun -> JobRun -> bool) : prog jobs (option JobRun) :=
  gets (fun s => head (sort_by le (List.filter where_ (job_rows s)))).

Definition set_job_rows (l : list JobRun) (s : jobs) : jobs := Jobs l (clock s) (next_uuid s).

(** [updateMany({ where, data })] with the number of rows it matched *)
Definition job_update_many (where_ : JobRun -> bool) (f : JobRun -> JobRun) : prog jobs nat :=
  fun s => (Ok (length (List.filter where_ (job_rows s))),
            set_job_rows (map (fun j => if where_ j then f j else j) (job_rows s)) s).
Definition job_missing : js_error :=
  JsError "An operation failed because it depends on a record that was not found." 0 "P2025".
(** [update({ where: { id }, data })] *)
Definition job_update (id : string) (f : JobRun -> JobRun) : prog jobs JobRun :=
  fun s => match List.find (has_job_id id) (job_rows s) with
           | None => (Throw job_missing, s)
           | Some j => (Ok (f j), set_job_rows (map (fun j => if has_job_id id j then f j else j) (job_rows s)) s)
           end.
(** [deleteMany({ where })] *)
Definition job_delete_many (where_ : JobRun -> bool) : prog jobs nat :=
  fun s => (Ok (length (List.filter where_ (job_rows s))),
            set_job_rows (List.filter (fun j => negb (where_ j)) (job_rows s)) s).

(** The columns a [create] writes; the others take the schema's defaults. *)
Record new_job := NewJob {
  new_jobName : string;
  new_status : job_status;
  new_priority : Z;
  new_maxAttempts : Z;
  new_payload : jsval;
  new_result : jsval;
  new_correlationId : option string;
  new_startedAt : option Z
}.
Section WithUuid.
Context {U : Uuid}.
Definition fresh_job (d : new_job) (s : jobs) : JobRun :=
  Job (uuid (next_uuid s)) (new_jobName d) (new_status d) (new_priority d) 0 (new_maxAttempts d) 0
      (new_payload d) (new_result d) None (new_correlationId d) (new_startedAt d) None (clock s).
(** [create({ data })] *)
Definition job_create (d : new_job) : prog jobs JobRun :=
  fun s => (Ok (fresh_job d s), Jobs (job_rows s ++ [fresh_job d s]) (clock s) (S (next_uuid s))).
(** [createMany({ data })]: one statement *)
Fixpoint job_create_many (ds : list new_job) : prog jobs unit :=
  match ds with
  | [] => ret tt
  | d :: ds' => job_create d ;; job_create_many ds'
  end.
End WithUuid.

(** ** JSON columns *)

(** [{ path: [...], equals: v }] on a Json column *)
Fixpoint json_path (v : jsval) (path : list string) : jsval :=
  match path with
  | [] => v
  | k :: path' => json_path (prop v k) path'
  end.
Definition json_equals (v w : jsval) : bool :=
  match v, w with
  | JStr s, JStr t => s =s? t
  | JNum x, JNum y => neqb x y
  | JBool x, JBool y => Bool.eqb x y
  | _, _ => false
  end.

Definition ACTIVE_STATUSES (s : job_status) : bool := (s =j? PENDING) || (s =j? RUNNING).
Definition TERMINAL_STATUSES (s : job_status) : bool :=
  (s =j? COMPLETED) || (s =j? FAILED) || (s =j? CANCELLED) || (s =j? DEAD_LETTER).
Definition FAILED_STATUSES (s : job_status) : bool :=
  (s =j? FAILED) || (s =j? CANCELLED) || (s =j? DEAD_LETTER).

Lemma terminal_or_active s : TERMINAL_STATUSES s = negb (ACTIVE_STATUSES s).
Proof. now destruct s. Qed.
Lemma failed_terminal s : FAILED_STATUSES s = true -> TERMINAL_STATUSES s = true.
Proof. now destruct s. Qed.

(** ** Sorting *)

Lemma string_leb_trans a b c : String.leb a b = true -> String.leb b c = true -> String.leb a c = true.
Proof.
  unfold String.leb. revert b c.
  induction a as [|x a IH]; intros [|y b] [|z c]; cbn; try congruence; intros H1 H2.
  unfold Ascii.compare in *.
  destruct (N.compare_spec (N_of_ascii x) (N_of_ascii y)), (N.compare_spec (N_of_ascii y) (N_of_ascii z));
    try congruence; destruct (N.compare_spec (N_of_ascii x) (N_of_ascii z)); try lia; try reflexivity.
  eapply IH; eassumption.
Qed.

Lemma by_started_id_total a b : by_started_id a b = true \/ by_started_id b a = true.
Proof.
  unfold by_started_id. destruct (Z.lt_trichotomy (started_or_last a) (started_or_last b)) as [H|[H|H]].
  - left. now rewrite (proj2 (Z.ltb_lt _ _) H).
  - rewrite H, Z.eqb_refl, Z.ltb_irrefl. cbn. destruct (String.leb_total (job_id a) (job_id b)); auto.
  - right. now rewrite (proj2 (Z.ltb_lt _ _) H).
Qed.
Lemma by_started_id_le a b : by_started_id a b = true -> started_or_last a <= started_or_last b.
Proof.
  unfold by_started_id. intros [H%Z.ltb_lt|[H%Z.eqb_eq _]%andb_true_iff]%orb_true_iff; lia.
Qed.
Lemma by_started_id_trans a b c : by_started_id a b = true -> by_started_id b c = true -> by_started_id a c = true.
Proof.
  intros Hab Hbc. pose proof (by_started_id_le _ _ Hab). pose proof (by_started_id_le _ _ Hbc).
  unfold by_started_id in *. destruct (Z.lt_ge_cases (started_or_last a) (started_or_last c)) as [Hlt|Hge].
  - now rewrite (proj2 (Z.ltb_lt _ _) Hlt).
  - assert (Ea : started_or_last a = started_or_last b) by lia.
    assert (Eb : started_or_last b = started_or_last c) by lia.
    rewrite Ea, Eb in *. rewrite Z.ltb_irrefl, Z.eqb_refl in *.
    cbn in *. eapply string_leb_trans; eassumption.
Qed.
