(* ===== verification/JobRunner.v ===== *)
(** * The job runner

    [platform/jobs/jobRunner.js]: jobs are rows of the job table, executed in process by a
    registered handler, retried with a growing pause while attempts remain and otherwise
    put in the dead letters.  The state is the table and the in-process count of running
    jobs per name.  Handlers are parameters; metrics and log lines are left out. *)

From S2P Require Import Prelude JsNum JsVal JsDate Concurrent Jobs.
Local Open Scope Z_scope.

Module JobRunner.

Record runner := Runner { table : jobs; runningJobs : gmap string Z }.

(** A statement on the job table. *)
Definition on_table {A} (p : prog jobs A) : prog runner A :=
  fun s => let '(o, t) := p (table s) in (o, Runner t (runningJobs s)).

Definition backoffMs (attempt : Z) : Z := Z.min 60000 (1000 * 2 ^ Z.max 0 (attempt - 1)).
(** [await this.sleep(ms)]: the clock has moved on by then. *)
Definition sleep (ms : Z) : prog runner unit :=
  fun s => (Ok tt, Runner (advance ms (table s)) (runningJobs s)).

Section Service.
Context {U : Uuid}.

Record registration := Registration {
  handler : jsval -> JobRun -> io runner jsval;
  concurrency : Z;
  reg_maxAttempts : option Z
}.
(** [this.handlers] and [this.defaultMaxAttempts] *)
Context (handlers : string -> option registration) (defaultMaxAttempts : Z).

Definition findNextPending (name : string) : prog runner (option JobRun) :=
  on_table (job_first (fun j => (jobName j =s? name) && (status j =j? PENDING))
              (fun a b => (priority a <? priority b) || ((priority a =? priority b) && (createdAt a <=? createdAt b)))).

Definition enqueue (name : string) (payload : jsval) (priority : Z) (maxAttempts : option Z) (correlationId : option string) :
  io runner JobRun :=
  let attempts := match maxAttempts with
                  | Some m => m
                  | None => default defaultMaxAttempts (handlers name ≫= reg_maxAttempts)
                  end in
  act (on_table (job_create (NewJob name PENDING priority attempts payload JNull correlationId None))).

(** What a handler is given besides its payload. *)
Definition setProgress (id : string) (progress : Z) : io runner unit :=
  act (on_table (job_update id (set_progress (Z.min 100 (Z.max 0 progress))))) ;;; Ret tt.
Definition isCancelled (id : string) : io runner bool :=
  do! latest := act (on_table (job_find id)) in
  Ret match latest with Some j => status j =j? CANCELLED | None => false end.

(** The count of a name is checked and raised without an [await] in between. *)
Definition start_running (name : string) (limit : Z) : prog runner bool :=
  fun s => let running := default 0 (runningJobs s !! name) in
           if limit <=? running then (Ok false, s)
           else (Ok true, Runner (table s) (<[name := running + 1]> (runningJobs s))).
Definition stop_running (name : string) : prog runner unit :=
  fun s => (Ok tt, Runner (table s) (<[name := default 1 (runningJobs s !! name) - 1]> (runningJobs s))).

(** [m] as a value: its result, or the error it threw. *)
Definition io_try {A} (m : io runner A) : io runner (A + js_error) :=
  io_catch (do! a := m in Ret (inl a)) (fun e => Ret (inr e)).

Definition started (now : Z) (j : JobRun) : JobRun :=
  set_startedAt (Some now) (set_attempt (attempt j + 1) (set_status RUNNING j)).
Definition completed (now : Z) (value : jsval) (j : JobRun) : JobRun :=
  set_lastError None (set_completedAt (Some now) (set_progress 100 (set_result (value ?? JNull) (set_status COMPLETED j)))).

(** How an attempt ended: with the row to return, or with a retry of the job. *)
Inductive attempt_end := Returned (job : JobRun) | Retried (jobId : string).

(** The [catch] block: [current] is the row as the runner last saw it. *)
Definition failed (current : JobRun) (error : js_error) : io runner attempt_end :=
  if attempt current <? maxAttempts current then
    act (sleep (backoffMs (attempt current))) ;;;
    do! row := act (on_table (job_update (job_id current)
                 (fun j => set_lastError (Some (err_message error)) (set_status PENDING j)))) in
    Ret (Retried (job_id row))
  else
    do! now := act (on_table get_clock) in
    do! row := act (on_table (job_update (job_id current)
                 (fun j => set_completedAt (Some now) (set_lastError (Some (String.substring 0 2000 (err_message error))) (set_status DEAD_LETTER j))))) in
    Ret (Returned row).

(** The [try] block with its [catch]. *)
Definition attempt_once (reg : registration) (job : JobRun) : io runner attempt_end :=
  do! begun := io_try (do! now := act (on_table get_clock) in act (on_table (job_update (job_id job) (started now)))) in
  match begun with
  | inr error => failed job error
  | inl current =>
      do! ended := io_try (do! value := handler reg (payload current ?? JObj []) current in
                           do! now := act (on_table get_clock) in
                           act (on_table (job_update (job_id current) (completed now value)))) in
      match ended with
      | inl row => Ret (Returned row)
      | inr error => failed current error
      end
  end.

Definition not_found (jobId : string) : js_error := plain_error ("Job " +:+ jobId +:+ " not found").
Definition no_handler (name : string) : js_error := plain_error ("No handler registered for job " +:+ name).
Definition out_of_fuel : js_error := plain_error "retries".

(** A retry is started before the [finally] block runs and goes on after it: [return
    this.execute(id)] evaluates the call up to its first [await] and does not wait for it. *)
Fixpoint execute (fuel : nat) (jobId : string) : io runner JobRun :=
  match fuel with
  | O => Raise out_of_fuel
  | S fuel' =>
      do! found := act (on_table (job_find jobId)) in
      match found with
      | None => Raise (not_found jobId)
      | Some job =>
          if status job =j? CANCELLED then Ret job
          else match handlers (jobName job) with
          | None => Raise (no_handler (jobName job))
          | Some reg =>
              do! free := act (start_running (jobName job) (concurrency reg)) in
              if negb free then Ret job
              else
                do! ended := io_finally (attempt_once reg job) (act (stop_running (jobName job))) in
                match ended with
                | Returned row => Ret row
                | Retried id => execute fuel' id
                end
          end
      end
  end.

Definition run (fuel : nat) (name : string) (payload : jsval) (priority : Z) (maxAttempts : option Z) (correlationId : option string) :
  io runner JobRun :=
  do! job := enqueue name payload priority maxAttempts correlationId in execute fuel (job_id job).

Definition cancel (jobId : string) : io runner JobRun :=
  do! now := act (on_table get_clock) in
  act (on_table (job_update jobId (fun j => set_completedAt (Some now) (set_status CANCELLED j)))).

End Service.
End JobRunner.

(** ** Facts *)

Module JobRunnerFacts.
Import JobRunner.

Section Facts.
Context {U : Uuid} (handlers : string -> option registration).

Definition row_of (id : string) (s : runner) : option JobRun := List.find (has_job_id id) (job_rows (table s)).

Lemma row_of_id id s j : row_of id s = Some j -> job_id j = id.
Proof. intros [_ E]%find_some. now apply String.eqb_eq. Qed.

Lemma find_map id (f : JobRun -> JobRun) l :
  (forall j, job_id (f j) = job_id j) ->
  List.find (has_job_id id) (map (fun j => if has_job_id id j then f j else j) l) = f <$> List.find (has_job_id id) l.
Proof.
  intros Hf. induction l as [|j l IH]; [reflexivity|]. cbn [map List.find]. destruct (has_job_id id j) eqn:E.
  - unfold has_job_id in *. now rewrite Hf, E.
  - rewrite E. exact IH.
Qed.

(** An update of an existing row returns it, rewritten. *)
Lemma exec_update id f s j :
  row_of id s = Some j -> (forall j, job_id (f j) = job_id j) ->
  exists s', exec (act (on_table (job_update id f))) s = (Ok (f j), s')
    /\ row_of id s' = Some (f j) /\ runningJobs s' = runningJobs s.
Proof.
  intros Hj Hf. rewrite exec_act. unfold on_table, job_update, row_of in *. rewrite Hj.
  eexists. split; [reflexivity|]. cbn. rewrite find_map, Hj by exact Hf. auto.
Qed.
Lemma exec_try {A} (m : io runner A) s :
  exec (io_try m) s = (Ok match (exec m s).1 with Ok a => inl a | Throw e => inr e end, (exec m s).2).
Proof.
  unfold io_try. rewrite exec_catch. unfold catch. rewrite exec_bind. unfold bind.
  now destruct (exec m s) as [[a|e] s'].
Qed.
Lemma exec_finally {A} (m : io runner A) (p : prog runner unit) s :
  (forall s, (p s).1 = Ok tt) -> exec (io_finally m (act p)) s = ((exec m s).1, (p (exec m s).2).2).
Proof.
  intros Hp. unfold io_finally. rewrite exec_bind. unfold bind.
  change (io_catch (do! a := m in Ret (inl a)) (fun e => Ret (inr e))) with (io_try m). rewrite exec_try.
  cbn iota beta. rewrite exec_bind. unfold bind. rewrite exec_act. specialize (Hp (exec m s).2). destruct (p (exec m s).2) as [o s'].
  cbn in Hp. subst o. now destruct (exec m s).1.
Qed.

(** What a handler leaves alone: which jobs exist, their attempts, and the running counts. *)
Definition keeps_jobs (s s' : runner) : Prop :=
  runningJobs s' = runningJobs s
  /\ forall id j, row_of id s = Some j ->
       exists j', row_of id s' = Some j' /\ jobName j' = jobName j /\ attempt j' = attempt j /\ maxAttempts j' = maxAttempts j.
#[export] Instance keeps_jobs_preorder : PreOrder keeps_jobs.
Proof.
  split.
  - intros s. split; [reflexivity|]. eauto 7.
  - intros s s' s'' [Hr H1] [Hr' H2]. split; [congruence|]. intros id j Hj. destruct (H1 id j Hj) as (j1 & Hj1 & ? & ? & ?).
    destruct (H2 id j1 Hj1) as (j2 & ? & ? & ? & ?). exists j2. split_and!; congruence.
Qed.
Definition quiet (reg : registration) : Prop :=
  forall payload job, obeys (fun _ => True) keeps_jobs (handler reg payload job).

(** How one attempt at the job [j] leaves it. *)
Definition attempted (id : string) (j : JobRun) (e : attempt_end) (s : runner) : Prop :=
  exists row, row_of id s = Some row /\ jobName row = jobName j /\ attempt row = attempt j + 1 /\ maxAttempts row = maxAttempts j /\
  match e with
  | Returned r => r = row /\ (status row = COMPLETED \/ (status row = DEAD_LETTER /\ maxAttempts j <= attempt row))
  | Retried id' => id' = id /\ status row = PENDING /\ attempt j + 1 < maxAttempts j
  end.

Lemma exec_failed id j current error s :
  row_of id s = Some current -> jobName current = jobName j -> attempt current = attempt j + 1 -> maxAttempts current = maxAttempts j ->
  forall seen, job_id seen = id -> attempt seen = attempt j + 1 -> maxAttempts seen = maxAttempts j ->
  exists e s', exec (failed seen error) s = (Ok e, s') /\ runningJobs s' = runningJobs s /\ attempted id j e s'.
Proof.
  intros Hrow Hn Ha Hm seen Hid Hsa Hsm. unfold failed. rewrite Hsa, Hsm, Hid. destruct (Z.ltb_spec (attempt j + 1) (maxAttempts j)) as [Hlt|Hge].
  - rewrite exec_bind. unfold bind. rewrite exec_act. unfold sleep. cbn iota beta. rewrite exec_bind. unfold bind.
    set (s1 := Runner (advance _ (table s)) (runningJobs s)).
    destruct (exec_update id (fun j => set_lastError (Some (err_message error)) (set_status PENDING j)) s1 current Hrow ltac:(reflexivity))
      as (s' & -> & Hrow' & Hrun'). eexists _, s'. split; [reflexivity|]. split; [exact Hrun'|].
    eexists. split; [exact Hrow'|]. cbn. split_and!; auto. exact (row_of_id _ _ _ Hrow).
  - rewrite exec_bind. unfold bind. rewrite exec_act. cbn [on_table get_clock gets]. rewrite exec_bind. unfold bind.
    set (s1 := Runner (table s) (runningJobs s)).
    match goal with |- context [job_update id ?f] => destruct (exec_update id f s1 current Hrow ltac:(reflexivity)) as (s' & -> & Hrow' & Hrun') end.
    eexists _, s'. split; [reflexivity|]. split; [exact Hrun'|].
    eexists. split; [exact Hrow'|]. cbn. split_and!; auto. right. split; [reflexivity|lia].
Qed.

Lemma exec_attempt reg id j s :
  quiet reg -> row_of id s = Some j ->
  exists e s', exec (attempt_once reg j) s = (Ok e, s') /\ runningJobs s' = runningJobs s /\ attempted id j e s'.
Proof.
  intros Hq Hj. pose proof (row_of_id _ _ _ Hj) as Hid. unfold attempt_once. rewrite exec_bind. unfold bind. rewrite exec_try.
  rewrite exec_bind. unfold bind. rewrite exec_act. cbn [on_table get_clock gets].
  set (s0 := Runner (table s) (runningJobs s)). rewrite Hid.
  destruct (exec_update id (started (clock (table s))) s0 j Hj ltac:(reflexivity)) as (s1 & -> & Hrow1 & Hrun1). cbn [fst snd].
  set (current := started (clock (table s)) j) in *. rewrite exec_bind. unfold bind. rewrite exec_try.
  set (m := do! value := _ in _). assert (Hm : obeys (fun _ => True) keeps_jobs (handler reg (payload current ?? JObj []) current)) by apply Hq.
  pose proof (obeys_exec keeps_jobs _ s1 _ Hm) as [Hrun2 Hkeep]. destruct (Hkeep id current Hrow1) as (c2 & Hrow2 & Hn2 & Ha2 & Hm2).
  assert (Hx : exists o s2, exec m s1 = (o, s2) /\ runningJobs s2 = runningJobs s /\ exists c3, row_of id s2 = Some c3
            /\ jobName c3 = jobName j /\ attempt c3 = attempt j + 1 /\ maxAttempts c3 = maxAttempts j
            /\ match o with Ok r => r = c3 /\ status c3 = COMPLETED | Throw _ => True end).
  { unfold m. rewrite exec_bind. unfold bind. clear Hkeep. revert Hrun2 Hrow2.
    destruct (exec (handler reg _ current) s1) as [[value|e] s2]; cbn [fst snd]; intros Hrun2 Hrow2.
    - rewrite exec_bind. unfold bind. rewrite exec_act. cbn [on_table get_clock gets]. change (job_id current) with (job_id j). rewrite Hid.
      destruct (exec_update id (completed (clock (table s2)) value) (Runner (table s2) (runningJobs s2)) c2 Hrow2 ltac:(reflexivity))
        as (s3 & -> & Hrow3 & Hrun3).
      eexists _, s3. split; [reflexivity|]. split; [rewrite Hrun3; cbn; rewrite Hrun2; exact Hrun1|]. eexists. split; [exact Hrow3|]. cbn. split_and!; auto.
    - eexists _, s2. split; [reflexivity|]. split; [rewrite Hrun2; exact Hrun1|]. exists c2. auto 6. }
  destruct Hx as (o & s2 & -> & Hrun & c3 & Hrow3 & Hn3 & Ha3 & Hm3 & Ho). cbn [fst snd]. destruct o as [r|error].
  - destruct Ho as [-> Hst]. eexists _, s2. split; [reflexivity|]. split; [exact Hrun|]. exists c3. auto 8.
  - destruct (exec_failed id j c3 error s2 Hrow3 Hn3 Ha3 Hm3 current Hid eq_refl eq_refl) as (e & s' & He & Hr & Hatt).
    exists e, s'. split_and!; [exact He|congruence|exact Hatt].
Qed.


(** A job that finds its name's slots taken is returned as it is, and nothing is written. *)
Theorem full_name_left_pending fuel id s j reg :
  row_of id s = Some j -> status j <> CANCELLED -> handlers (jobName j) = Some reg ->
  concurrency reg <= default 0 (runningJobs s !! jobName j) -> exec (execute handlers (S fuel) id) s = (Ok j, s).
Proof.
  intros Hj Hst Hreg Hfull. cbn [execute]. rewrite exec_bind. unfold bind. rewrite exec_act. cbn [on_table job_find gets].
  change (List.find (has_job_id id) (job_rows (table s))) with (row_of id s). rewrite Hj.
  rewrite (bool_decide_eq_false_2 (status j = CANCELLED)) by exact Hst. rewrite Hreg, exec_bind. unfold bind. rewrite exec_act.
  unfold start_running. cbn [runningJobs table]. rewrite (proj2 (Z.leb_le _ _) Hfull). now destruct s.
Qed.
End Facts.
End JobRunnerFacts.


(** ** A cancellation that does not hold *)

Module JobRunnerRace.
Import JobRunner JobRunnerFacts.

(** A job whose first attempt fails. *)
Definition flaky (payload : jsval) (job : JobRun) : io runner jsval :=
  if attempt job =? 1 then Raise (plain_error "supplier unavailable") else Ret (JStr "done").
Definition only_flaky (name : string) : option registration :=
  if name =s? "promotion" then Some (Registration flaky 1 (Some 3)) else None.
Definition queued : JobRun := Job "job" "promotion" PENDING 100 0 3 0 (JObj []) JNull None None None None 0.
Definition one_job : runner := Runner (Jobs [queued] 0 0) ∅.
Definition tick (d : Z) (s : runner) : runner := Runner (advance d (table s)) (runningJobs s).

(** The attempt fails and pauses; the job is cancelled; the pause ends. *)
Definition cancel_in_pause : list event := repeat (Run 0) 5 ++ repeat (Run 1) 2 ++ repeat (Run 0) 20.

(** A job cancelled while it waits for its retry is executed again, and ends COMPLETED. *)
Theorem cancelled_job_runs_again :
  exists s row, schedule tick cancel_in_pause ([execute only_flaky 3 "job"; cancel "job"], one_job)
      = ([Ret row; Ret (set_completedAt (Some 1000) (set_status CANCELLED (started 0 queued)))], s)
    /\ row_of "job" s = Some row /\ status row = COMPLETED /\ attempt row = 2.
Proof.
  set (c := schedule tick cancel_in_pause ([execute only_flaky 3 "job"; cancel "job"], one_job)).
  exists c.2, (default queued (row_of "job" c.2)). split_and!; vm_compute; reflexivity.
Qed.
End JobRunnerRace.
