(* ===== verification/SyncLock.v ===== *)
(** * The account lock

    [jobs/syncAccountLock.service.js]: a lock is a RUNNING row of the job table whose lease
    has not expired; the holder of a key is the earliest live row.  [acquire] writes its
    row and then looks who is first. *)

From Stdlib Require Import Sorted.
From stdpp Require Import pretty.
From S2P Require Import Prelude JsNum JsVal JsDate Concurrent Jobs.
Local Open Scope Z_scope.

Module SyncLock.

Definition SYNC_LOCK_JOB_NAME : string := "sync:lock".
Definition SYNC_UNIT_JOB_NAME : string := "sync:unit".
Definition LOCK_HOLDER_JOB_NAMES : list string := [SYNC_UNIT_JOB_NAME; SYNC_LOCK_JOB_NAME].
Definition DEFAULT_LEASE_MS : Z := 10 * 60 * 1000.

Section Keys.
Context {H : JsHost}.

Definition accountLockKey (platform network accountLabel : jsval) : string :=
  let key := to_lower (trim (js_string (platform ?? (network ?? JStr "")))) in
  let label := trim (js_string (accountLabel ?? JStr "")) in
  "network:" +:+ key +:+ ":" +:+ (if label =s? "" then "default" else label).

Definition stageLockKey (stage scope : jsval) : string :=
  let base := to_lower (trim (js_string (stage ?? JStr ""))) in
  if truthy scope then base +:+ ":" +:+ to_lower (trim (js_string scope)) else base.
End Keys.

(** The answer of [acquire]. *)
Inductive lock_result :=
| Acquired (lockId : string) (lockKey : jsval)
| Refused (reason : string) (heldBy heldByJob : string).

(** The answer of [withLock]. *)
Inductive locked_result (A : Type) :=
| Ran (a : A)
| NotRun (refusal : lock_result).
Arguments Ran {A} a.
Arguments NotRun {A} refusal.

Section Service.
Context {U : Uuid} (leaseMs : Z).

Definition excluded (excludeId : option string) (j : JobRun) : bool :=
  match excludeId with Some id => negb (id =s? "") && (job_id j =s? id) | None => false end.

(** [#liveWhere] at a clock reading [now] *)
Definition liveWhere (now : Z) (lockKey : jsval) (excludeId : option string) (j : JobRun) : bool :=
  existsb (String.eqb (jobName j)) LOCK_HOLDER_JOB_NAMES
  && (status j =j? RUNNING)
  && json_equals (prop (payload j) "lockKey") lockKey
  && match startedAt j with Some t => now - leaseMs <=? t | None => false end
  && negb (excluded excludeId j).

Definition findHolder (lockKey : jsval) (excludeId : option string) : io jobs (option JobRun) :=
  if negb (truthy lockKey) then Ret None
  else do! now := act get_clock in act (job_first (liveWhere now lockKey excludeId) by_started_id).

Definition isFree (lockKey : jsval) (excludeId : option string) : io jobs bool :=
  do! holder := findHolder lockKey excludeId in
  Ret (match holder with None => true | Some _ => false end).

(** [release(lockId, { status, error })] *)
Definition release (lockId : string) (final : job_status) (error : option js_error) : io jobs bool :=
  if lockId =s? "" then Ret false
  else
    do! now := act get_clock in
    do! count := act (job_update_many (fun j => has_job_id lockId j && (jobName j =s? SYNC_LOCK_JOB_NAME))
                        (fun j => let j := set_completedAt (Some now) (set_status final j) in
                                  match error with
                                  | Some e => set_lastError (Some (slice 0 2000 (err_message e))) j
                                  | None => j
                                  end)) in
    Ret (count =? 1)%nat.

(** [renew(lockId)] *)
Definition renew (lockId : string) : io jobs (option bool) :=
  if lockId =s? "" then Ret None
  else
    do! now := act get_clock in
    do! count := act (job_update_many (fun j => has_job_id lockId j && (jobName j =s? SYNC_LOCK_JOB_NAME)
                                                && (status j =j? RUNNING))
                        (set_startedAt (Some now))) in
    Ret (Some (count =? 1)%nat).

Definition lock_row (now : Z) (lockKey holderId metadata : jsval) (correlationId : option string) : new_job :=
  NewJob SYNC_LOCK_JOB_NAME RUNNING 100 1
    (JObj ([("lockKey", lockKey); ("holderId", holderId); ("acquiredAt", JStr (to_iso_string now))]
           ++ (if truthy metadata then [("metadata", metadata)] else [])))
    JNull correlationId (Some now).

Definition held (holder : JobRun) : lock_result := Refused "lock_held" (job_id holder) (jobName holder).

Definition acquire (lockKey holderId : jsval) (correlationId : option string) (metadata : jsval) : io jobs lock_result :=
  if negb (truthy lockKey) then Ret (Refused "no_lock_key" "" "")
  else
    do! existing := findHolder lockKey None in
    match existing with
    | Some holder => Ret (held holder)
    | None =>
        do! now := act get_clock in
        do! row := act (job_create (lock_row now lockKey holderId metadata correlationId)) in
        do! winner := findHolder lockKey None in
        match winner with
        | Some w =>
            if job_id w =s? job_id row then Ret (Acquired (job_id row) lockKey)
            else release (job_id row) CANCELLED None ;;; Ret (held w)
        | None => Ret (Acquired (job_id row) lockKey)
        end
    end.

Definition withLock {A} (lockKey : jsval) (fn : string -> io jobs A) (holderId : jsval)
    (correlationId : option string) (metadata : jsval) : io jobs (locked_result A) :=
  do! lock := acquire lockKey holderId correlationId metadata in
  match lock with
  | Refused _ _ _ => Ret (NotRun lock)
  | Acquired lockId _ =>
      io_catch
        (do! r := fn lockId in release lockId COMPLETED None ;;; Ret (Ran r))
        (fun error => release lockId FAILED (Some error) ;;; Raise error)
  end.

End Service.
End SyncLock.

(** ** Facts *)

Module SyncLockFacts.
Import SyncLock.

(** The rows a key is held by at a clock reading. *)
Definition live (leaseMs : Z) (lockKey : jsval) (s : jobs) : list JobRun :=
  List.filter (liveWhere leaseMs (clock s) lockKey None) (job_rows s).

Section Alone.
Context {U : Uuid} (leaseMs : Z) (lease_pos : 0 < leaseMs).

Lemma findHolder_exec key s :
  truthy key = true ->
  exec (findHolder leaseMs key None) s = (Ok (head (sort_by by_started_id (live leaseMs key s))), s).
Proof. intros Hk. unfold findHolder. rewrite Hk. reflexivity. Qed.

Lemma head_none {A} (l : list A) : head l = None <-> l = [].
Proof. destruct l; cbn; split; congruence. Qed.

(** A key with a live holder is refused, and nothing is written. *)
Lemma acquire_refused key holderId correlationId metadata s :
  truthy key = true -> live leaseMs key s <> [] ->
  exists j, j ∈ live leaseMs key s /\
    exec (acquire leaseMs key holderId correlationId metadata) s = (Ok (held j), s).
Proof.
  intros Hk Hlive. destruct (head (sort_by by_started_id (live leaseMs key s))) as [j|] eqn:E.
  - exists j. split.
    + apply (elem_of_sort_by by_started_id). destruct (sort_by _ _); cbn in E; simplify_eq. left.
    + unfold acquire. rewrite Hk. cbn [negb]. rewrite exec_bind. unfold bind.
      rewrite findHolder_exec by exact Hk. now rewrite E.
  - exfalso. apply head_none, sort_by_nil in E. contradiction.
Qed.

Lemma fresh_lock_live key holderId metadata correlationId now s :
  truthy key = true -> (exists t, key = JStr t) -> now = clock s ->
  liveWhere leaseMs (clock s) key None (fresh_job (lock_row now key holderId metadata correlationId) s) = true.
Proof.
  intros Hk [t ->] ->. unfold liveWhere, fresh_job. cbn [jobName status payload startedAt lock_row new_jobName
    new_status new_payload new_startedAt]. cbn [prop assoc app]. cbn. rewrite !String.eqb_refl. cbn.
  rewrite (proj2 (Z.leb_le _ _)) by lia. reflexivity.
Qed.

(** A free key is granted: exactly one lock row is written, RUNNING and live. *)
Lemma acquire_free t holderId correlationId metadata s :
  truthy (JStr t) = true -> live leaseMs (JStr t) s = [] ->
  let row := fresh_job (lock_row (clock s) (JStr t) holderId metadata correlationId) s in
  exec (acquire leaseMs (JStr t) holderId correlationId metadata) s =
    (Ok (Acquired (job_id row) (JStr t)), Jobs (job_rows s ++ [row]) (clock s) (S (next_uuid s))) /\
  live leaseMs (JStr t) (Jobs (job_rows s ++ [row]) (clock s) (S (next_uuid s))) = [row].
Proof.
  intros Hk Hfree row.
  assert (Hlive : live leaseMs (JStr t) (Jobs (job_rows s ++ [row]) (clock s) (S (next_uuid s))) = [row]).
  { unfold live in *. cbn [job_rows clock]. rewrite List.filter_app, Hfree. cbn [List.filter app].
    unfold row. rewrite (fresh_lock_live (JStr t)) by eauto. reflexivity. }
  split; [|exact Hlive]. unfold acquire. rewrite Hk. cbn [negb]. rewrite exec_bind. unfold bind at 1.
  rewrite findHolder_exec, Hfree by exact Hk. cbn [sort_by foldr head].
  rewrite exec_bind. unfold bind at 1. rewrite exec_act. cbn [get_clock gets].
  rewrite exec_bind. unfold bind at 1. rewrite exec_act. cbn [job_create]. fold row.
  rewrite exec_bind. unfold bind at 1. rewrite findHolder_exec, Hlive by exact Hk. cbn [sort_by foldr sorted_insert head].
  now rewrite String.eqb_refl.
Qed.

Lemma live_advance key s d j :
  j ∈ live leaseMs key s -> (forall t, startedAt j = Some t -> clock s + d - leaseMs <= t) ->
  j ∈ live leaseMs key (advance d s).
Proof.
  unfold live. rewrite !elem_of_filter_bool. intros [Hj Hl] Ht. split; [exact Hj|].
  unfold liveWhere in *. split_bools. cbn [advance clock].
  destruct (startedAt j) as [t|] eqn:E; [|discriminate].
  rewrite (proj2 (Z.leb_le (clock s + d - leaseMs) t)) by auto.
  repeat (apply andb_true_intro; split); try assumption; try reflexivity.
Qed.

(** A granted lock excludes every later [acquire] until its lease ends. *)
Theorem lock_excludes_for_its_lease t holderId correlationId metadata holder' corr' meta' s id s1 d :
  truthy (JStr t) = true ->
  exec (acquire leaseMs (JStr t) holderId correlationId metadata) s = (Ok (Acquired id (JStr t)), s1) ->
  0 <= d <= leaseMs ->
  exists j, job_id j = id /\ exec (acquire leaseMs (JStr t) holder' corr' meta') (advance d s1) = (Ok (held j), advance d s1).
Proof.
  intros Hk Hacq Hd. destruct (live leaseMs (JStr t) s) eqn:Hl.
  - destruct (acquire_free t holderId correlationId metadata s Hk Hl) as [E Hl1]. rewrite Hacq in E. simplify_eq.
    set (row := fresh_job _ s) in *. set (s1 := Jobs _ _ _) in *.
    assert (Hrow : row ∈ live leaseMs (JStr t) (advance d s1)).
    { apply live_advance; [rewrite Hl1; now left|]. intros t0 [= <-]. cbn. lia. }
    destruct (acquire_refused (JStr t) holder' corr' meta' (advance d s1) Hk) as (j & Hj & Hex).
    { intros En. rewrite En in Hrow. now apply not_elem_of_nil in Hrow. }
    exists j. split; [|exact Hex]. unfold live in Hj. apply elem_of_filter_bool in Hj as [Hj Hjl].
    assert (Hjs : j ∈ live leaseMs (JStr t) s1).
    { apply elem_of_filter_bool. split; [exact Hj|]. unfold liveWhere in *. split_bools. cbn in *.
      destruct (startedAt j); [|discriminate]. rewrite Z.leb_le in *.
      repeat (apply andb_true_intro; split); try assumption; try reflexivity. apply Z.leb_le. lia. }
    rewrite Hl1 in Hjs. apply list_elem_of_singleton in Hjs as ->. reflexivity.
  - destruct (acquire_refused (JStr t) holderId correlationId metadata s Hk) as (j' & _ & E); [rewrite Hl; discriminate|].
    rewrite Hacq in E. discriminate.
Qed.

Lemma release_final id final error s :
  (id =s? "") = false -> final <> RUNNING ->
  Forall (fun j => job_id j = id -> jobName j = SYNC_LOCK_JOB_NAME -> status j = final)
    (job_rows (exec (release id final error) s).2).
Proof.
  intros Hid Hf. unfold release. rewrite Hid. cbn. apply Forall_forall. intros j (j0 & -> & _)%list_elem_of_fmap.
  unfold has_job_id. destruct (String.eqb_spec (job_id j0) id), (String.eqb_spec (jobName j0) SYNC_LOCK_JOB_NAME);
    cbn; try congruence. now destruct error.
Qed.

(** [withLock] gives the key back however its body ends. *)
Theorem withLock_releases {A} key (fn : string -> io jobs A) holderId correlationId metadata s id :
  exec (acquire leaseMs key holderId correlationId metadata) s = (Ok (Acquired id key), (exec (acquire leaseMs key holderId correlationId metadata) s).2) ->
  (id =s? "") = false ->
  Forall (fun j => job_id j = id -> jobName j = SYNC_LOCK_JOB_NAME -> status j = COMPLETED \/ status j = FAILED)
    (job_rows (exec (withLock leaseMs key fn holderId correlationId metadata) s).2).
Proof.
  intros Hacq Hid. unfold withLock. rewrite exec_bind. unfold bind. rewrite Hacq. cbn [fst snd].
  set (s1 := (exec (acquire leaseMs key holderId correlationId metadata) s).2). rewrite exec_catch. unfold catch.
  rewrite exec_bind. unfold bind. destruct (exec (fn id) s1) as [[r|e] s2].
  - rewrite exec_bind. unfold bind. pose proof (release_final id COMPLETED None s2 Hid ltac:(discriminate)) as Hrel.
    unfold release in *. rewrite Hid in *. cbn in *. eapply Forall_impl; [exact Hrel|]. auto.
  - rewrite exec_bind. unfold bind. pose proof (release_final id FAILED (Some e) s2 Hid ltac:(discriminate)) as Hrel.
    unfold release in *. rewrite Hid in *. cbn in *. eapply Forall_impl; [exact Hrel|]. auto.
Qed.
End Alone.

(** *** Contended acquisition *)

Section Contended.
Context {U : Uuid} (leaseMs : Z) (key : jsval).

Definition keyed (j : JobRun) : bool :=
  existsb (String.eqb (jobName j)) LOCK_HOLDER_JOB_NAMES && json_equals (prop (payload j) "lockKey") key.

(** The rows of a key carry strictly increasing stamps in insertion order: no two claims
    of one instant, and none whose clock reading was overtaken before it was written. *)
Definition stamped_in_order (s : jobs) : Prop :=
  NoDup (map job_id (job_rows s)) /\
  StronglySorted (fun a b => started_or_last a < started_or_last b) (List.filter keyed (job_rows s)).

Lemma live_keyed now j : liveWhere leaseMs now key None j = true -> keyed j = true.
Proof. unfold liveWhere, keyed. intros H. split_bools. now apply andb_true_intro. Qed.

(** A row of the lock only ever stops running. *)
Definition wanes (r r' : JobRun) : Prop :=
  job_id r' = job_id r /\ jobName r' = jobName r /\ payload r' = payload r /\ startedAt r' = startedAt r /\
  (status r' = RUNNING -> status r = RUNNING).
Definition contends (s s' : jobs) : Prop :=
  clock s <= clock s' /\
  exists kept fresh, job_rows s' = kept ++ fresh /\ Forall2 wanes (job_rows s) kept.

Lemma wanes_refl r : wanes r r.
Proof. unfold wanes. auto. Qed.
Lemma contends_same s : contends s s.
Proof.
  split; [lia|]. exists (job_rows s), []. rewrite app_nil_r. split; [reflexivity|].
  apply Forall_Forall2_diag, Forall_forall. intros; apply wanes_refl.
Qed.
Lemma contends_append s r : contends s (Jobs (job_rows s ++ [r]) (clock s) (S (next_uuid s))).
Proof.
  split; [cbn; lia|]. exists (job_rows s), [r]. split; [reflexivity|].
  apply Forall_Forall2_diag, Forall_forall. intros; apply wanes_refl.
Qed.
Lemma contends_map s f : (forall r, wanes r (f r)) -> contends s (set_job_rows (map f (job_rows s)) s).
Proof.
  intros Hf. split; [cbn; lia|]. exists (map f (job_rows s)), []. rewrite app_nil_r. split; [reflexivity|].
  induction (job_rows s) as [|r l IH]; constructor; auto.
Qed.
Lemma contends_time s s' : time_passes advance s s' -> contends s s'.
Proof.
  intros (d & Hd & ->). split; [cbn; lia|]. exists (job_rows s), []. rewrite app_nil_r. split; [reflexivity|].
  apply Forall_Forall2_diag, Forall_forall. intros; apply wanes_refl.
Qed.

Lemma wanes_live now now' r r' :
  wanes r r' -> now <= now' -> liveWhere leaseMs now' key None r' = true -> liveWhere leaseMs now key None r = true.
Proof.
  intros (_ & Hn & Hp & Hs & Hst) Hle. unfold liveWhere. rewrite Hn, Hp, Hs. intros Hl. split_bools.
  destruct (startedAt r) as [t|]; [|discriminate].
  repeat (apply andb_true_intro; split); try assumption; try reflexivity.
  - apply bool_decide_eq_true. apply Hst. eapply bool_decide_eq_true_1. eassumption.
  - rewrite Z.leb_le in *. lia.
Qed.

Definition known (id : string) (s : jobs) : Prop := id ∈ map job_id (job_rows s).
(** [id] is the earliest live row of the key, if it is live. *)
Definition won (id : string) (s : jobs) : Prop :=
  known id s /\
  forall r r', r ∈ live leaseMs key s -> r' ∈ live leaseMs key s -> job_id r = id -> job_id r' <> id ->
    started_or_last r < started_or_last r'.

Lemma Forall2_ids l k : Forall2 wanes l k -> map job_id k = map job_id l.
Proof. induction 1 as [|r r' l k (Hid & _) _ IH]; cbn; congruence. Qed.
Lemma known_stable id : stable stamped_in_order contends (known id).
Proof.
  intros s s' _ _ (_ & kept & fresh & E & HF) Hk. unfold known in *.
  rewrite E, map_app, (Forall2_ids _ _ HF). apply elem_of_app. auto.
Qed.
Lemma stamp_stable now : stable stamped_in_order contends (fun s => now <= clock s).
Proof. intros s s' _ _ [Hc _]. lia. Qed.

Lemma kept_live s kept now r' :
  Forall2 wanes (job_rows s) kept -> r' ∈ kept -> clock s <= now -> liveWhere leaseMs now key None r' = true ->
  exists r, r ∈ live leaseMs key s /\ wanes r r'.
Proof.
  intros HF (i & Hi)%list_elem_of_lookup Hle Hl.
  destruct (Forall2_lookup_r _ _ _ _ _ HF Hi) as (r & Hr & Hw). exists r. split; [|exact Hw].
  unfold live. apply elem_of_filter_bool. split; [eapply list_elem_of_lookup_2; exact Hr|].
  eapply wanes_live; eassumption.
Qed.

Lemma sorted_app_lt {A} (R : A -> A -> Prop) l1 l2 x y :
  StronglySorted R (l1 ++ l2) -> x ∈ l1 -> y ∈ l2 -> R x y.
Proof.
  induction l1 as [|z l1 IH]; cbn; intros Hs Hx Hy; [set_solver|]. inversion Hs as [|? ? Hs' Hz]; subst.
  apply elem_of_cons in Hx as [->|Hx]; [|auto]. rewrite Forall_forall in Hz. apply Hz. set_solver.
Qed.

Lemma won_stable id : stable stamped_in_order contends (won id).
Proof.
  intros s s' Hs Hs' Hc [Hk Hw]. split; [exact (known_stable id s s' Hs Hs' Hc Hk)|].
  destruct Hc as (Hclk & kept & fresh & E & HF). destruct Hs' as [Hnd Hord].
  intros r r' Hr Hr' Hid Hne. unfold live in Hr, Hr'. rewrite E in Hr, Hr', Hnd, Hord.
  apply elem_of_filter_bool in Hr as [Hr Hrl], Hr' as [Hr' Hrl'].
  rewrite map_app, (Forall2_ids _ _ HF), NoDup_app in Hnd. destruct Hnd as (_ & Hdisj & _).
  apply elem_of_app in Hr as [Hr|Hr].
  2: { exfalso. apply (Hdisj id); [exact Hk|]. rewrite <- Hid. now apply list_elem_of_fmap_2. }
  destruct (kept_live s kept _ r HF Hr Hclk Hrl) as (r0 & Hr0 & Hwr).
  assert (Est : started_or_last r = started_or_last r0)
    by (destruct Hwr as (_ & _ & _ & Hst & _); unfold started_or_last; now rewrite Hst).
  apply elem_of_app in Hr' as [Hr'|Hr'].
  - destruct (kept_live s kept _ r' HF Hr' Hclk Hrl') as (r0' & Hr0' & Hwr').
    assert (Est' : started_or_last r' = started_or_last r0')
      by (destruct Hwr' as (_ & _ & _ & Hst & _); unfold started_or_last; now rewrite Hst).
    rewrite Est, Est'. destruct Hwr as (Hi1 & _), Hwr' as (Hi2 & _). apply Hw; congruence || assumption.
  - rewrite List.filter_app in Hord. eapply (sorted_app_lt _ _ _ _ _ Hord);
      apply elem_of_filter_bool; (split; [assumption|eapply live_keyed; eassumption]).
Qed.

Lemma sorted_distinct (l : list JobRun) a b :
  StronglySorted (fun a b => started_or_last a < started_or_last b) l -> a ∈ l -> b ∈ l -> a <> b ->
  started_or_last a <> started_or_last b.
Proof.
  induction 1 as [|x l _ IH Hx]; intros Ha Hb Hne; [set_solver|]. rewrite Forall_forall in Hx.
  apply elem_of_cons in Ha as [->|Ha], Hb as [->|Hb]; [congruence|specialize (Hx _ Hb); lia|specialize (Hx _ Ha); lia|auto].
Qed.

Lemma unique_id (l : list JobRun) a b : NoDup (map job_id l) -> a ∈ l -> b ∈ l -> job_id a = job_id b -> a = b.
Proof.
  induction l as [|x l IH]; cbn; intros Hnd Ha Hb E; [set_solver|]. apply NoDup_cons in Hnd as [Hx Hnd].
  apply elem_of_cons in Ha as [->|Ha], Hb as [->|Hb]; auto.
  - exfalso. apply Hx. rewrite E. now apply list_elem_of_fmap_2.
  - exfalso. apply Hx. rewrite <- E. now apply list_elem_of_fmap_2.
Qed.

(** What the second look of [acquire] establishes. *)
Lemma winner_won id now w s :
  stamped_in_order s -> now <= clock s -> known id s ->
  head (sort_by by_started_id (List.filter (liveWhere leaseMs now key None) (job_rows s))) = w ->
  match w with Some j => job_id j = id | None => True end -> won id s.
Proof.
  intros [Hnd Hord] Hnow Hk Hw Hid. split; [exact Hk|]. intros r r' Hr Hr' Er Er'.
  unfold live in Hr, Hr'. apply elem_of_filter_bool in Hr as [Hr Hrl], Hr' as [Hr' Hrl'].
  assert (Hnl : liveWhere leaseMs now key None r = true) by (eapply wanes_live; [apply wanes_refl|exact Hnow|exact Hrl]).
  assert (Hnl' : liveWhere leaseMs now key None r' = true) by (eapply wanes_live; [apply wanes_refl|exact Hnow|exact Hrl']).
  destruct w as [j|].
  - assert (Hj : j ∈ List.filter (liveWhere leaseMs now key None) (job_rows s)).
    { apply (elem_of_sort_by by_started_id). destruct (sort_by _ _); cbn in Hw; simplify_eq. left. }
    apply elem_of_filter_bool in Hj as [Hj _].
    assert (r = j) as -> by (eapply unique_id; [exact Hnd|assumption|assumption|congruence]).
    assert (Hle : by_started_id j r' = true)
      by (eapply sort_by_head; [apply by_started_id_total|apply by_started_id_trans|exact Hw|now apply elem_of_filter_bool]).
    apply by_started_id_le in Hle.
    assert (started_or_last j <> started_or_last r'); [|lia].
    apply (sorted_distinct _ _ _ Hord); [apply elem_of_filter_bool..|congruence]; (split; [assumption|eapply live_keyed; eassumption]).
  - apply head_none, sort_by_nil in Hw. exfalso. apply (not_elem_of_nil r). rewrite <- Hw. now apply elem_of_filter_bool.
Qed.

Definition lock_post (a : lock_result) (s : jobs) : Prop :=
  match a with Acquired id _ => won id s | Refused _ _ _ => True end.

Lemma read_obeys {A} (f : jobs -> A) : obeys stamped_in_order contends (act (gets f)).
Proof. apply obeys_act. intros s _. apply contends_same. Qed.

Lemma findHolder_assured id :
  truthy key = true ->
  assured stamped_in_order contends
    (fun w s => known id s /\ (match w with Some j => job_id j = id | None => True end -> won id s)) (known id)
    (findHolder leaseMs key None).
Proof.
  intros Hk. unfold findHolder. rewrite Hk. cbn [negb].
  apply (assured_bind _ _ (fun now s => known id s /\ now <= clock s)).
  - apply assured_act.
    + intros now s s' Hs Hs' Hc [H1 H2]. split; [now apply (known_stable id s)|now apply (stamp_stable now s)].
    + intros s Hs _ Hid. split; [apply contends_same|]. cbn. intros a [= <-]. split; [exact Hid|lia].
  - intros now. apply assured_act.
    + intros w s s' Hs Hs' Hc [H1 H2]. split; [now apply (known_stable id s)|].
      intros Hw. apply (won_stable id s); auto.
    + intros s Hs _ [Hid Hnow]. split; [apply contends_same|]. cbn [job_first gets fst snd]. intros w [= Ew].
      split; [exact Hid|]. intros Hm. eapply winner_won; eassumption.
Qed.

Lemma release_obeys id error : obeys stamped_in_order contends (release id CANCELLED error).
Proof.
  unfold release. destruct (id =s? ""); [exact Logic.I|]. apply obeys_bind; [apply read_obeys|]. intros now.
  apply obeys_bind; [|intros; exact Logic.I]. apply obeys_act. intros s _. apply contends_map. intros r.
  destruct (_ && _); [|apply wanes_refl]. destruct error; unfold wanes; cbn; split_and!; auto; discriminate.
Qed.

Lemma acquire_assured holderId correlationId metadata :
  assured stamped_in_order contends lock_post (fun _ => True) (acquire leaseMs key holderId correlationId metadata).
Proof.
  unfold acquire. destruct (truthy key) eqn:Hk; cbn [negb]; [|exact (fun _ _ _ => Logic.I)].
  apply (assured_bind _ _ (fun _ _ => True)).
  { apply assured_obeys; [apply true_stable|auto|]. unfold findHolder. rewrite Hk. cbn [negb].
    apply obeys_bind; [apply read_obeys|intros; apply read_obeys]. }
  intros [holder|]; [exact (fun _ _ _ => Logic.I)|].
  apply (assured_bind _ _ (fun _ _ => True)).
  { apply assured_obeys; [apply true_stable|auto|apply read_obeys]. }
  intros now. apply (assured_bind _ _ (fun row s => known (job_id row) s)).
  { apply assured_act; [intros; apply known_stable|]. intros s _ _ _. split; [apply contends_append|].
    cbn. intros row [= <-]. unfold known. cbn [job_rows]. rewrite map_app. apply elem_of_app. right. now left. }
  intros row. eapply assured_bind; [apply (findHolder_assured (job_id row) Hk)|].
  intros [w|]; cbv beta iota.
  - destruct (String.eqb_spec (job_id w) (job_id row)) as [Ew|Ew].
    + cbn. intros s _ [_ Hw]. now apply Hw.
    + apply (assured_bind _ _ (fun _ _ => True)).
      * apply (assured_strengthen _ _ _ (fun _ => True)); [auto|].
        apply assured_obeys; [apply true_stable|auto|apply release_obeys].
      * intros _. exact (fun _ _ _ => Logic.I).
  - cbn. intros s _ [_ Hw]. now apply Hw.
Qed.

(** Whatever the interleaving of any number of [acquire] calls for one key, and however time
    passes, two calls that both acquired it never both hold a live lock row, provided rows
    are stamped in insertion order. *)
Theorem contended_lock_exclusive (calls : list (jsval * option string * jsval)) s calls' s' i j a b ka kb ra rb :
  stamped_in_order s ->
  rtc (step_in (time_passes advance) stamped_in_order)
    (map (fun '(holder, corr, meta) => acquire leaseMs key holder corr meta) calls, s) (calls', s') ->
  calls' !! i = Some (Ret (Acquired a ka)) -> calls' !! j = Some (Ret (Acquired b kb)) ->
  ra ∈ live leaseMs key s' -> rb ∈ live leaseMs key s' -> job_id ra = a -> job_id rb = b -> a = b.
Proof.
  intros Hs Hsteps Hi Hj Hra Hrb Ea Eb. destruct (decide (a = b)) as [|Hne]; [assumption|exfalso].
  assert (Hwon : forall n id k, calls' !! n = Some (Ret (Acquired id k)) -> won id s').
  { intros n id k Hn. refine (results_hold _ _ contends lock_post _ _ _ _ _ _ _ Hs _ Hsteps Hn).
    - intros ? ? _ _. apply contends_time.
    - apply Forall_forall. intros m ([[h c] mt] & -> & _)%list_elem_of_fmap. apply acquire_assured. }
  destruct (Hwon _ _ _ Hi) as [_ Ha], (Hwon _ _ _ Hj) as [_ Hb].
  specialize (Ha ra rb Hra Hrb Ea ltac:(congruence)). specialize (Hb rb ra Hrb Hra Eb ltac:(congruence)). lia.
Qed.
End Contended.
End SyncLockFacts.

(** *** A stamp read too early *)

Module SyncLockRace.
Import SyncLock SyncLockFacts.

(** Row numbers as ids. *)
Definition numbered : Uuid.
Proof.
  exact {| uuid := fun n : nat => pretty n |}.
Defined.
#[local] Existing Instance numbered.

Definition key : jsval := JStr "network:awin:default".
Definition call : io jobs lock_result := acquire DEFAULT_LEASE_MS key JNull None JNull.
Definition empty : jobs := Jobs [] 0 0.

(** The first call reads the clock and is delayed before its insert; the second runs to
    its end; then the first writes the earlier stamp and finds itself first. *)
Definition overtaken : list event := [Run 0; Run 0; Run 0; Wait 1; Run 1; Run 1; Run 1; Run 1; Run 1; Run 1; Run 0; Run 0; Run 0].

(** Two concurrent [acquire] calls can both acquire the key and hold it live together. *)
Theorem two_holders :
  exists s a b, schedule advance overtaken ([call; call], empty) = ([Ret (Acquired a key); Ret (Acquired b key)], s) /\
    a <> b /\ map job_id (live DEFAULT_LEASE_MS key s) = [b; a].
Proof.
  exists (schedule advance overtaken ([call; call], empty)).2, "1", "0".
  split_and!; [vm_compute; reflexivity|discriminate|vm_compute; reflexivity].
Qed.
End SyncLockRace.
