(* ===== verification/SourcePlan.v ===== *)
(** * What one bounded network unit is

    [jobs/syncSourcePlan.js]: the audited source objects of every network family, the span
    of days a source has to cover and the units of one account.  A unit is a JSON
    descriptor, as it is stored in the payload of its row.  The theorems show that the
    windows of a source are exactly the days of its span, once each and in order, within
    the width the table gives; that every audited source is planned or deferred; and that
    a chain of paged units always advances. *)

From S2P Require Import Prelude JsNum JsOrder JsVal JsDate JsDay.
Local Open Scope Z_scope.

Module SourcePlan.

Definition DEFAULT_DAYS_BACK : Z := 180.

(** The arguments of [source({ ... })]. *)
Record source_args := SourceArgs {
  arg_sourceObject : string;
  arg_windowed : bool;
  arg_windowDays : option Z;
  arg_maxWindowDays : option Z;
  arg_companions : option (list string);
  arg_executable : bool;
  arg_blockedReason : option string;
  arg_notes : option string;
  arg_spanDaysBack : option Z;
  arg_spanIncremental : option bool;
  arg_paged : bool;
  arg_pagesPerUnit : option Z;
  arg_pageLimit : option Z;
  arg_materialisedAfter : option string
}.
Record source_spec := SourceSpec {
  sourceObject : string;
  windowed : bool;
  windowDays : option Z;
  maxWindowDays : option Z;
  companions : option (list string);
  executable : bool;
  blockedReason : option string;
  notes : option string;
  spanDaysBack : option Z;
  spanIncremental : option bool;
  materialisedAfter : option string;
  paged : bool;
  pagesPerUnit : option Z;
  pageLimit : option Z
}.

Definition source (a : source_args) : source_spec :=
  {| sourceObject := arg_sourceObject a;
     windowed := arg_windowed a;
     windowDays := if arg_windowed a then arg_windowDays a else None;
     maxWindowDays :=
       if arg_windowed a
       then match arg_maxWindowDays a with Some d => Some d | None => arg_windowDays a end
       else None;
     companions := arg_companions a;
     executable := arg_executable a;
     blockedReason := arg_blockedReason a;
     notes := arg_notes a;
     spanDaysBack := arg_spanDaysBack a;
     spanIncremental := arg_spanIncremental a;
     materialisedAfter := arg_materialisedAfter a;
     paged := arg_paged a;
     pagesPerUnit := if arg_paged a then arg_pagesPerUnit a else None;
     pageLimit := if arg_paged a then arg_pageLimit a else None |}.

(** The argument objects of the table: the defaults of [source], and one field given. *)
Definition object (name note : string) : source_args :=
  SourceArgs name false None None None true None (Some note) None None false None None None.
Definition by_window (days : Z) (a : source_args) : source_args :=
  SourceArgs (arg_sourceObject a) true (Some days) (arg_maxWindowDays a) (arg_companions a) (arg_executable a)
    (arg_blockedReason a) (arg_notes a) (arg_spanDaysBack a) (arg_spanIncremental a) (arg_paged a)
    (arg_pagesPerUnit a) (arg_pageLimit a) (arg_materialisedAfter a).
Definition capped (days : Z) (a : source_args) : source_args :=
  SourceArgs (arg_sourceObject a) (arg_windowed a) (arg_windowDays a) (Some days) (arg_companions a) (arg_executable a)
    (arg_blockedReason a) (arg_notes a) (arg_spanDaysBack a) (arg_spanIncremental a) (arg_paged a)
    (arg_pagesPerUnit a) (arg_pageLimit a) (arg_materialisedAfter a).
Definition carrying (names : list string) (a : source_args) : source_args :=
  SourceArgs (arg_sourceObject a) (arg_windowed a) (arg_windowDays a) (arg_maxWindowDays a) (Some names) (arg_executable a)
    (arg_blockedReason a) (arg_notes a) (arg_spanDaysBack a) (arg_spanIncremental a) (arg_paged a)
    (arg_pagesPerUnit a) (arg_pageLimit a) (arg_materialisedAfter a).
Definition spanning (days : Z) (incremental : bool) (a : source_args) : source_args :=
  SourceArgs (arg_sourceObject a) (arg_windowed a) (arg_windowDays a) (arg_maxWindowDays a) (arg_companions a)
    (arg_executable a) (arg_blockedReason a) (arg_notes a) (Some days) (Some incremental) (arg_paged a)
    (arg_pagesPerUnit a) (arg_pageLimit a) (arg_materialisedAfter a).
Definition by_page (pages limit : Z) (a : source_args) : source_args :=
  SourceArgs (arg_sourceObject a) (arg_windowed a) (arg_windowDays a) (arg_maxWindowDays a) (arg_companions a)
    (arg_executable a) (arg_blockedReason a) (arg_notes a) (arg_spanDaysBack a) (arg_spanIncremental a) true
    (Some pages) (Some limit) (arg_materialisedAfter a).
Definition after (name : string) (a : source_args) : source_args :=
  SourceArgs (arg_sourceObject a) (arg_windowed a) (arg_windowDays a) (arg_maxWindowDays a) (arg_companions a)
    (arg_executable a) (arg_blockedReason a) (arg_notes a) (arg_spanDaysBack a) (arg_spanIncremental a) (arg_paged a)
    (arg_pagesPerUnit a) (arg_pageLimit a) (Some name).

Definition UNBOUNDED_FANOUT_REASON : string := "unbounded_per_campaign_fanout".
Definition OPTIMISE_CAMPAIGN_PAGES_PER_UNIT : Z := 8.
Definition OPTIMISE_CAMPAIGN_PAGE_LIMIT : Z := 100.
Definition AWIN_OFFERS_PAGES_PER_UNIT : Z := 1.
Definition AWIN_OFFERS_PAGE_LIMIT : Z := 200.

Record span_spec := SpanSpec { incremental : bool; initialDaysBack : Z }.
Definition SPAN : list (string * span_spec) :=
  [ ("boostiny", SpanSpec true DEFAULT_DAYS_BACK);
    ("optimise", SpanSpec true DEFAULT_DAYS_BACK);
    ("trackier", SpanSpec true DEFAULT_DAYS_BACK);
    ("impact", SpanSpec false 90);
    ("partnerize", SpanSpec false 90);
    ("awin", SpanSpec false 30);
    ("admitad", SpanSpec true DEFAULT_DAYS_BACK);
    ("rakuten", SpanSpec true 14);
    ("cj", SpanSpec false 0) ].

Definition boostiny_sources : list source_spec :=
  [ source (object "campaigns"
        "Paged campaign list; also persists SupplierCommissionRule from payout groups.");
    source (object "coupons" "Paged coupon list, cache-gated by COUPON_REFRESH_HOURS.");
    source (by_window 14 (object "api_reports" "GET performance reports, from/to."));
    source (by_window 14 (object "link_reports" "GET link performance, from/to.")) ].
Definition optimise_sources : list source_spec :=
  [ source (by_page OPTIMISE_CAMPAIGN_PAGES_PER_UNIT OPTIMISE_CAMPAIGN_PAGE_LIMIT (object "campaigns"
        "GET /campaigns, offset-paginated. Every page waits on the 12.5s limiter, so the walk is split into bounded slices of the supplier's own paging."));
    source (object "voucher_codes" "GET /vouchercodes, cache-gated.");
    source (by_window 7 (object "conversions"
        "GET /conversions (fromDate/toDate); the conversionsByPayment variant shares this identity and rides with it."));
    source (by_window 7 (object "reporting"
        "POST /reporting/ (fromDate/toDate); the invoice-date variant shares this identity."));
    source (by_window 30 (object "payment_overview" "GET /payments (startDate/endDate), low volume."));
    source (by_window 30 (object "invoices" "GET /invoices (startDate/endDate), low volume."));
    source (after "campaigns" (object "commission_groups"
        "GET /campaigns/{campaignId}/commission-groups — one request per campaign. Planned as fixed-size campaign chunks once the campaigns unit has staged the campaign list.")) ].
Definition trackier_sources : list source_spec :=
  [ source (object "campaigns"
        "GET /v2/publisher/campaigns; profile and categories ride with it as supporting resources.");
    source (object "coupons" "GET /v2/publishers/coupons; deals share this identity.");
    source (by_window 30 (object "conversions" "GET /v2/publishers/conversions (start/end)."));
    source (by_window 30 (object "tracking"
        "GET /v2/publishers/reports (start/end); reports-kpi rides with it.")) ].
Definition impact_sources : list source_spec :=
  [ source (object "programs" "GET /Catalogs.");
    source (object "catalogs" "GET /Catalogs/Items.");
    source (carrying ["reports"] (by_window 30 (object "actions"
        "GET /Actions (StartDate/EndDate); derived performance is computed from the same rows."))) ].
Definition partnerize_sources : list source_spec :=
  [ source (object "campaigns" "GET campaigns; vouchers ride with the campaign ids.");
    source (carrying ["analytics"] (by_window 30 (object "conversions"
        "GET conversions (start_date/end_date); derived performance is computed from the same rows.")));
    source (by_window 30 (object "payment_information"
        "Finance-gated; the supplier answers 404 for this publisher account and the run records that.")) ].
Definition awin_sources : list source_spec :=
  [ source (object "programmes" "GET programmes.");
    source (by_page AWIN_OFFERS_PAGES_PER_UNIT AWIN_OFFERS_PAGE_LIMIT (object "offers"
        "POST /publisher/{publisherId}/promotions, page-paginated. One page per unit: the catalogue is too large to fetch and stage inside one invocation."));
    source (capped 31 (by_window 30 (object "transactions"
        "GET transactions (startDate/endDate); supplier hard cap is 31 days."))) ].
Definition admitad_sources : list source_spec :=
  [ source (object "programs" "GET /advcampaigns/.");
    source (object "coupons" "GET /coupons/.");
    source (by_window 30 (object "actions"
        "GET /statistics/actions/ (status_updated_start/status_updated_end).")) ].
Definition rakuten_sources : list source_spec :=
  [ source (object "advertisers" "GET /v2/advertisers.");
    source (object "partnerships" "GET /v1/partnerships.");
    source (object "offers" "GET /v1/offers.");
    source (object "commissioning_lists" "GET /v1/commissioninglists.");
    source (capped 30 (by_window 14 (object "events"
        "GET /events/1.0/transactions (process_date_start/end); supplier keeps ~30 days.")));
    source (spanning DEFAULT_DAYS_BACK false (by_window 30 (object "advanced_reports"
        "GET /advancedreports/1.0 (bdate/edate), finance-gated, plus a capped per-payment detail fan-out."))) ].
Definition cj_sources : list source_spec :=
  [ source (object "advertisers"
        "Advertiser Lookup; no date filter exists in this integration.");
    source (object "links" "Link Search; no date filter.");
    source (object "coupons" "Link Search filtered to coupons; no date filter.") ].
Definition FAMILY_SOURCES : list (string * list source_spec) :=
  [("boostiny", boostiny_sources); ("optimise", optimise_sources);
   ("trackier", trackier_sources); ("impact", impact_sources); ("partnerize", partnerize_sources);
   ("awin", awin_sources); ("admitad", admitad_sources); ("rakuten", rakuten_sources); ("cj", cj_sources)].

Section WithHost.
Context {H : JsHost}.

Definition planFamily (platform : jsval) : string :=
  let key := to_lower (js_string (platform |or| JStr "")) in
  if starts_with "optimise" key then "optimise" else key.
Definition planSourcesFor (platform : jsval) : list source_spec :=
  default [] (assoc (planFamily platform) FAMILY_SOURCES).
Definition planSpanFor (platform : jsval) : option span_spec := assoc (planFamily platform) SPAN.

Definition isoDay (value : jsval) : option string :=
  if nullish value || (value === "") then None
  else
    let date := match value with JDate t => t | _ => date_parse (js_string value) end in
    match date with None => None | Some t => Some (iso_slice t) end.

(** What [toISOString] throws on an invalid date. *)
Definition invalid_time : js_error := plain_error "Invalid time value".

Definition addDays (isoDate : string) (days : Z) : outcome string :=
  match date_parse (at_midnight isoDate) with
  | None => Throw invalid_time
  | Some t =>
      match set_utc_date t (utc_date t + days) with
      | None => Throw invalid_time
      | Some t' => Ok (iso_slice t')
      end
  end.

(** [resolvePlanSpan]; [clock] is the instant of the fallback [new Date()].  The lookback
    and overlap counts are whole numbers. *)
Definition resolvePlanSpan (platform lastSuccessfulSync now : jsval) (clock overlapDays : Z)
    (src : option source_spec) : outcome (string * string) :=
  let span := planSpanFor platform in
  let to := match isoDay now with Some d => d | None => iso_slice clock end in
  let daysBack := match src ≫= spanDaysBack with Some d => Some d | None => initialDaysBack <$> span end in
  let incremental := match src ≫= spanIncremental with Some b => Some b | None => incremental <$> span end in
  let initial := Z.max 1 (match daysBack with Some d => if d =? 0 then DEFAULT_DAYS_BACK else d | None => DEFAULT_DAYS_BACK end) in
  let previous := if default false incremental then isoDay lastSuccessfulSync else None in
  match previous with
  | Some day =>
      let? from := addDays day (- Z.max 0 overlapDays) in
      Ok (if str_gt from to then to else from, to)
  | None =>
      let? from := addDays to (- initial) in
      Ok (from, to)
  end.

(** The loop of [buildDateWindows]; [Throw loop_fuel] stands for a loop that has not ended
    after [fuel] rounds and is no value of the source. *)
Definition loop_fuel : js_error := plain_error "loop fuel".
Fixpoint window_loop (fuel : nat) (size : Z) (end_ cursor : string) : outcome (list (string * string)) :=
  if str_gt cursor end_ then Ok []
  else match fuel with
  | O => Throw loop_fuel
  | S fuel' =>
      let? last := addDays cursor (size - 1) in
      let windowEnd := if str_gt last end_ then end_ else last in
      let? next := addDays windowEnd 1 in
      let? rest := window_loop fuel' size end_ next in
      Ok ((cursor, windowEnd) :: rest)
  end.
(** One round per day of the span at most. *)
Definition window_fuel (start end_ : string) : nat :=
  match date_parse (at_midnight start), date_parse (at_midnight end_) with
  | Some a, Some b => S (Z.to_nat ((b - a) / ms_per_day))
  | _, _ => 1
  end.
Definition buildDateWindows (from to : jsval) (windowDays : option Z) : outcome (list (string * string)) :=
  match isoDay from, isoDay to with
  | Some start, Some end_ =>
      if str_gt start end_ then Ok []
      else
        let size := Z.max 1 (match windowDays with Some d => if d =? 0 then 1 else d | None => 1 end) in
        window_loop (window_fuel start end_) size end_ start
  | _, _ => Ok []
  end.

(** The three lists [planAccountUnits] returns. *)
Record plan := Plan { units : list jsval; exclusions : list jsval; deferred : list jsval }.

Definition opt_num (o : option Z) : jsval := match o with Some z => JNum (num_of_Z z) | None => JNull end.

Definition unit_base (platform accountLabel networkOptions : jsval) (src : source_spec) : jsval :=
  JObj ([("platform", platform); ("accountLabel", accountLabel); ("sourceObject", JStr (sourceObject src));
         ("options", spread (JObj []) networkOptions)]
        ++ match companions src with
           | Some names => [("sourceObjectCompanions", JArr (map JStr names))]
           | None => []
           end).
Definition first_page (src : source_spec) : jsval :=
  JObj [("campaignPageIndex", JNum n0); ("campaignPageOffset", JNum n0);
        ("campaignPageLimit", opt_num (pageLimit src)); ("campaignPageBudget", opt_num (pagesPerUnit src))].
Definition window_of (w : string * string) : jsval := JObj [("windowStart", JStr w.1); ("windowEnd", JStr w.2)].

(** The body of the loop over the audited sources: what one source adds to the plan. *)
Definition plan_source (platform accountLabel lastSuccessfulSync now : jsval) (clock : Z) (networkOptions : jsval)
    (overlapDays : Z) (src : source_spec) : outcome plan :=
  match materialisedAfter src with
  | Some dependency =>
      Ok (Plan [] [] [JObj [("platform", platform); ("accountLabel", accountLabel);
                            ("sourceObject", JStr (sourceObject src)); ("after", JStr dependency)]])
  | None =>
      if negb (executable src) then
        Ok (Plan [] [JObj [("platform", platform); ("accountLabel", accountLabel);
                           ("sourceObject", JStr (sourceObject src));
                           ("reason", JStr (default UNBOUNDED_FANOUT_REASON (blockedReason src)));
                           ("notes", of_option_str (notes src))]] [])
      else
        let? span := resolvePlanSpan platform lastSuccessfulSync now clock overlapDays (Some src) in
        let base := unit_base platform accountLabel networkOptions src in
        if paged src then Ok (Plan [spread base (first_page src)] [] [])
        else if negb (windowed src) then Ok (Plan [base] [] [])
        else
          let size := match windowDays src, maxWindowDays src with
                      | Some d, Some m => Some (Z.min d m)
                      | d, None => d
                      | None, Some m => Some (Z.min 0 m)
                      end in
          let? windows := buildDateWindows (JStr span.1) (JStr span.2) size in
          Ok (Plan (map (fun w => spread base (window_of w)) windows) [] [])
  end.

Fixpoint plan_sources (platform accountLabel lastSuccessfulSync now : jsval) (clock : Z) (networkOptions : jsval)
    (overlapDays : Z) (sources : list source_spec) (acc : plan) : outcome plan :=
  match sources with
  | [] => Ok acc
  | src :: rest =>
      let? p := plan_source platform accountLabel lastSuccessfulSync now clock networkOptions overlapDays src in
      plan_sources platform accountLabel lastSuccessfulSync now clock networkOptions overlapDays rest
        (Plan (units acc ++ units p) (exclusions acc ++ exclusions p) (deferred acc ++ deferred p))
  end.
Definition planAccountUnits (platform accountLabel lastSuccessfulSync now : jsval) (clock : Z)
    (networkOptions : jsval) (overlapDays : Z) : outcome plan :=
  plan_sources platform accountLabel lastSuccessfulSync now clock networkOptions overlapDays
    (planSourcesFor platform) (Plan [] [] []).

Definition sourcesMaterialisedAfter (platform sourceObject_ : jsval) : list string :=
  let key := to_lower (js_string (sourceObject_ |or| JStr "")) in
  map sourceObject
    (List.filter (fun src => match materialisedAfter src with Some a => a =s? key | None => false end)
       (planSourcesFor platform)).

Definition planScopedSourceUnits (platform accountLabel sourceObject_ lastSuccessfulSync now : jsval) (clock : Z)
    (networkOptions : jsval) (overlapDays : Z) : outcome (list jsval) :=
  let key := to_lower (trim (js_string (sourceObject_ ?? JStr ""))) in
  if negb (truthy platform) || (key =s? "") then Ok []
  else
    let? planned := planAccountUnits platform accountLabel lastSuccessfulSync now clock
                      (spread networkOptions (JObj [("promoteAfter", JBool false)])) overlapDays in
    Ok (List.filter (fun unit => to_lower (js_string ((unit@."sourceObject") ?? JStr "")) =s? key) (units planned)).

Definition nextPagedUnit (descriptor pagination : jsval) : option jsval :=
  if negb (truthy (pagination@."hasMore")) then None
  else
    let nextOffset := js_number (pagination@."nextOffset") in
    if negb (is_finite nextOffset)
       || nleb nextOffset (js_number ((descriptor@."campaignPageOffset") ?? JNum (num_of_Z (-1)))) then None
    else
      match List.find (fun item => descriptor@."sourceObject" === sourceObject item)
              (planSourcesFor (descriptor@."platform")) with
      | Some src =>
          if negb (paged src) then None
          else Some (JObj
            ([("campaignPageIndex", JNum (nadd (js_number ((descriptor@."campaignPageIndex") ?? JNum n0)) (num_of_Z 1)));
              ("campaignPageOffset", JNum nextOffset);
              ("campaignPageLimit", (descriptor@."campaignPageLimit") ?? opt_num (pageLimit src));
              ("campaignPageBudget", (descriptor@."campaignPageBudget") ?? opt_num (pagesPerUnit src))]
             ++ if nullish (pagination@."carry") then [] else [("campaignPageCarry", pagination@."carry")]))
      | None => None
      end.

End WithHost.
End SourcePlan.

(** ** Windows *)

Module SourcePlanFacts.
Import SourcePlan.

Section WithHost.
Context {H : JsHost}.

Lemma date_parse_midnight n : regular_day n -> date_parse (at_midnight (day_text n)) = Some (n * ms_per_day).
Proof.
  intros Hr. unfold date_parse. rewrite (proj2 (iso_parse_day n Hr)). now apply regular_clip_day.
Qed.
Lemma addDays_text n k : regular_day n -> regular_day (n + k) -> addDays (day_text n) k = Ok (day_text (n + k)).
Proof. intros Hn Hk. unfold addDays. now rewrite date_parse_midnight, set_date_shift. Qed.

Lemma day_text_nonempty n : regular_day n -> (day_text n =s? "") = false.
Proof.
  intros Hr. apply String.eqb_neq. intros E. pose proof (proj1 (iso_parse_day n Hr)) as Hp.
  rewrite E in Hp. discriminate.
Qed.
Lemma isoDay_text n : regular_day n -> isoDay (JStr (day_text n)) = Some (day_text n).
Proof.
  intros Hr. unfold isoDay. cbn [nullish orb is_str]. rewrite day_text_nonempty by exact Hr. cbn [js_string].
  unfold date_parse. rewrite (proj1 (iso_parse_day n Hr)), regular_clip_day by exact Hr. reflexivity.
Qed.
Lemma isoDay_date t : regular_day (t / ms_per_day) -> isoDay (JDate (Some t)) = Some (day_text (t / ms_per_day)).
Proof. intros Hr. unfold isoDay. cbn [nullish is_str orb]. now rewrite iso_slice_day. Qed.

(** The days of a list of windows, in order. *)
Definition window_days (ws : list (Z * Z)) : list Z := mjoin (map (fun w => seqZ w.1 (w.2 - w.1 + 1)) ws).
Definition window_texts (ws : list (Z * Z)) : list (string * string) := map (fun w => (day_text w.1, day_text w.2)) ws.

(** [ws] cuts the days [f .. t] into as few windows of at most [size] days as possible. *)
Record cuts (f t size : Z) (ws : list (Z * Z)) : Prop := {
  cuts_days : window_days ws = seqZ f (t - f + 1);
  cuts_width : Forall (fun w => w.1 <= w.2 /\ w.2 - w.1 + 1 <= size) ws;
  cuts_count : Z.of_nat (length ws) = (t - f + size) / size
}.

Lemma cuts_nil t size : 1 <= size -> cuts (t + 1) t size [].
Proof.
  intros Hs. split; [|constructor|].
  - replace (t - (t + 1) + 1) with 0 by lia. reflexivity.
  - cbn. rewrite Z.div_small; lia.
Qed.
Lemma cuts_cons f t size ws :
  1 <= size -> f <= t -> let e := Z.min (f + size - 1) t in cuts (e + 1) t size ws -> cuts f t size ((f, e) :: ws).
Proof.
  intros Hs Hft e [Hd Hw Hc]. assert (He : e = Z.min (f + size - 1) t) by reflexivity. clearbody e. split.
  - change (window_days ((f, e) :: ws)) with (seqZ f (e - f + 1) ++ window_days ws). rewrite Hd.
    replace (t - f + 1) with ((e - f + 1) + (t - (e + 1) + 1)) by lia.
    rewrite (seqZ_app f (e - f + 1)) by lia. f_equal. f_equal. lia.
  - constructor; [cbn; lia|exact Hw].
  - cbn [length]. rewrite Nat2Z.inj_succ, Hc. destruct (Z.le_ge_cases (f + size - 1) t) as [Hle|Hge].
    + replace e with (f + size - 1) by lia. replace (t - f + size) with ((t - (f + size - 1 + 1) + size) + 1 * size) by lia.
      rewrite Z.div_add by lia. lia.
    + replace e with t by lia. rewrite Z.div_small by lia.
      apply (Z.div_unique _ _ _ (t - f)); lia.
Qed.

Lemma window_loop_cuts fuel size t f :
  1 <= size -> first_day <= t -> first_day <= f -> t + size <= last_day -> f <= t + 1 -> (Z.to_nat (t - f + 1) <= fuel)%nat ->
  exists ws, window_loop fuel size (day_text t) (day_text f) = Ok (window_texts ws) /\ cuts f t size ws.
Proof.
  intros Hs Hlow. revert f.
  induction fuel as [|fuel IH]; intros f Hf Ht Hft Hfuel; cbn [window_loop]; unfold str_gt;
    rewrite day_text_lt by (unfold regular_day; lia); destruct (Z.ltb_spec t f) as [Hlt|Hge];
    try (exists []; split; [reflexivity|]; replace f with (t + 1) by lia; now apply cuts_nil).
  - lia.
  - rewrite addDays_text by (unfold regular_day; lia). cbn [outcome_bind].
    rewrite day_text_lt by (unfold regular_day; lia).
    set (e := Z.min (f + size - 1) t).
    replace (if t <? f + (size - 1) then day_text t else day_text (f + (size - 1))) with (day_text e)
      by (unfold e; destruct (Z.ltb_spec t (f + (size - 1))); f_equal; lia).
    rewrite addDays_text by (unfold regular_day; lia). cbn [outcome_bind].
    destruct (IH (e + 1)) as (ws & -> & Hws); [lia..|]. cbn [outcome_bind].
    exists ((f, e) :: ws). split; [reflexivity|]. now apply cuts_cons.
Qed.

Lemma buildDateWindows_lemma f t size :
  1 <= size -> first_day <= f -> f <= t -> t + size <= last_day ->
  exists ws, buildDateWindows (JStr (day_text f)) (JStr (day_text t)) (Some size) = Ok (window_texts ws) /\ cuts f t size ws.
Proof.
  intros Hs Hf Hft Ht. assert (regular_day f) by (unfold regular_day; lia). assert (regular_day t) by (unfold regular_day; lia).
  unfold buildDateWindows, window_fuel. rewrite !isoDay_text by assumption. unfold str_gt.
  rewrite day_text_lt, !date_parse_midnight by assumption. rewrite (proj2 (Z.ltb_ge t f)) by lia.
  rewrite <- Z.mul_sub_distr_r, Z.div_mul by (unfold ms_per_day; lia).
  rewrite (proj2 (Z.eqb_neq size 0)), Z.max_r by lia. apply window_loop_cuts; lia.
Qed.

(** C37: Whatever the span of days and the width, the loop of [buildDateWindows] ends, and its
    windows are exactly the days of the span: each day once, in order, no window wider than
    asked, and no more windows than needed. *)
Theorem buildDateWindows_tiles f t size :
  1 <= size -> first_day <= f -> f <= t -> t + size <= last_day ->
  exists ws, buildDateWindows (JStr (day_text f)) (JStr (day_text t)) (Some size) = Ok (window_texts ws)
    /\ window_days ws = seqZ f (t - f + 1)
    /\ Forall (fun w => w.1 <= w.2 /\ w.2 - w.1 + 1 <= size) ws
    /\ Z.of_nat (length ws) = (t - f + size) / size.
Proof.
  intros Hs Hf Hft Ht. destruct (buildDateWindows_lemma f t size Hs Hf Hft Ht) as (ws & Hb & [Hd Hw Hc]). eauto.
Qed.

(** ** The span of a source *)

(** The instants of one planning run: the present day, and the last successful sync when
    there was one, inside the years the planner's texts order. *)
Record planning (now : Z) (last : jsval) (overlap : Z) : Prop := {
  plan_now : first_day + 200 <= now / ms_per_day /\ now / ms_per_day + 40 <= last_day;
  plan_last : last = JNull
    \/ exists t, last = JDate (Some t) /\ first_day + Z.max 0 overlap <= t / ms_per_day <= last_day
}.

Definition lookback (platform : jsval) (src : source_spec) : Z :=
  match spanDaysBack src with Some d => d | None => default 0 (initialDaysBack <$> planSpanFor platform) end.

Lemma planSpanFor_bound platform span : planSpanFor platform = Some span -> 0 <= initialDaysBack span <= 180.
Proof.
  unfold planSpanFor. generalize (planFamily platform). intros k.
  assert (Hall : forallb (fun e => (0 <=? initialDaysBack e.2) && (initialDaysBack e.2 <=? 180)) SPAN = true) by reflexivity.
  induction SPAN as [|[k' s] l IH]; [discriminate|]. cbn in Hall. apply andb_true_iff in Hall as [Hs Hl].
  cbn [assoc]. destruct (k' =s? k); [intros [= <-]|auto]. rewrite andb_true_iff, !Z.leb_le in Hs. exact Hs.
Qed.

Lemma resolvePlanSpan_ordered platform last now overlap src :
  planning now last overlap -> (forall d, spanDaysBack src = Some d -> 0 <= d <= 180) ->
  exists f, resolvePlanSpan platform last (JDate (Some now)) now overlap (Some src)
      = Ok (day_text f, day_text (now / ms_per_day))
    /\ first_day <= f <= now / ms_per_day.
Proof.
  intros [Hnow Hlast] Hsrc. set (today := now / ms_per_day) in *.
  assert (Hday : regular_day today) by (unfold regular_day; lia).
  unfold resolvePlanSpan. rewrite isoDay_date by exact Hday. fold today. cbn [mbind option_bind].
  set (inc := default false _). set (initial := Z.max 1 _).
  assert (Hinit : 1 <= initial <= 180).
  { unfold initial, DEFAULT_DAYS_BACK.
    destruct (spanDaysBack src) as [d|] eqn:Ed.
    - specialize (Hsrc d eq_refl). destruct (Z.eqb_spec d 0); lia.
    - destruct (planSpanFor platform) as [s|] eqn:Es; cbn; [|lia].
      pose proof (planSpanFor_bound _ _ Es). destruct (Z.eqb_spec (initialDaysBack s) 0); lia. }
  assert (Hfirst : (let? from := addDays (day_text today) (- initial) in Ok (from, day_text today))
                   = Ok (day_text (today - initial), day_text today)).
  { rewrite addDays_text by (unfold regular_day in *; lia). cbn [outcome_bind]. now rewrite Z.add_opp_r. }
  destruct inc; [destruct Hlast as [->|(t & -> & Ht)]|].
  - change (isoDay JNull) with (@None string). cbv iota. rewrite Hfirst. exists (today - initial). split; [reflexivity|lia].
  - assert (Hrt : regular_day (t / ms_per_day)) by (unfold regular_day; lia).
    rewrite isoDay_date by exact Hrt. rewrite addDays_text by (unfold regular_day; lia). cbn [outcome_bind].
    set (f := t / ms_per_day + - Z.max 0 overlap) in *. assert (Hf : regular_day f) by (unfold f, regular_day; lia).
    unfold str_gt. rewrite day_text_lt by assumption.
    exists (Z.min f today). split; [|unfold f, regular_day in *; lia].
    destruct (Z.ltb_spec today f); do 2 f_equal; f_equal; lia.
  - rewrite Hfirst. exists (today - initial). split; [reflexivity|lia].
Qed.
(** ** The plan of an account *)

(** What the audit guarantees of a source: it is executable, and a windowed source has a
    width within its cap, which is at most 31 days. *)
Definition audited (src : source_spec) : bool :=
  executable src
  && match spanDaysBack src with Some d => (0 <=? d) && (d <=? 180) | None => true end
  && match windowed src, windowDays src, maxWindowDays src with
     | true, Some d, Some m => (1 <=? d) && (d <=? m) && (m <=? 31)
     | true, _, _ => false
     | false, _, _ => true
     end.

Lemma planSourcesFor_audited platform : Forall (fun src => audited src = true) (planSourcesFor platform).
Proof.
  unfold planSourcesFor. generalize (planFamily platform). intros k.
  assert (Hall : forallb (fun e => forallb audited e.2) FAMILY_SOURCES = true) by reflexivity.
  induction FAMILY_SOURCES as [|[k' s] l IH]; [constructor|]. cbn in Hall. apply andb_true_iff in Hall as [Hs Hl].
  cbn [assoc]. destruct (k' =s? k); [|auto]. cbn [default]. apply Forall_forall. intros src Hsrc.
  rewrite forallb_forall in Hs. apply Hs. now apply list_elem_of_In.
Qed.

Section Account.
Context (platform account last options : jsval) (now overlap : Z).

(** What a source adds to the plan of the account: nothing yet, its first page, one
    unit, or the windows that cut its span. *)
Inductive planned (src : source_spec) : plan -> Prop :=
| planned_later a :
    materialisedAfter src = Some a ->
    planned src (Plan [] [] [JObj [("platform", platform); ("accountLabel", account);
                                   ("sourceObject", JStr (sourceObject src)); ("after", JStr a)]])
| planned_pages :
    materialisedAfter src = None -> paged src = true ->
    planned src (Plan [spread (unit_base platform account options src) (first_page src)] [] [])
| planned_whole :
    materialisedAfter src = None -> paged src = false -> windowed src = false ->
    planned src (Plan [unit_base platform account options src] [] [])
| planned_windows f d m ws :
    materialisedAfter src = None -> paged src = false -> windowed src = true ->
    windowDays src = Some d -> maxWindowDays src = Some m -> d <= m ->
    resolvePlanSpan platform last (JDate (Some now)) now overlap (Some src) = Ok (day_text f, day_text (now / ms_per_day)) ->
    cuts f (now / ms_per_day) d ws ->
    planned src (Plan (map (fun w => spread (unit_base platform account options src) (window_of w)) (window_texts ws)) [] []).

Lemma plan_source_planned src :
  planning now last overlap -> audited src = true ->
  exists c, plan_source platform account last (JDate (Some now)) now options overlap src = Ok c /\ planned src c.
Proof.
  intros Hp Ha. unfold audited in Ha. split_bools. unfold plan_source.
  destruct (materialisedAfter src) as [a|] eqn:Em; [eauto using planned|].
  replace (executable src) with true by congruence. cbn [negb].
  destruct (resolvePlanSpan_ordered platform last now overlap src Hp) as (f & Hspan & Hf).
  { intros d E. rewrite E in *. split_bools. lia. }
  rewrite Hspan. cbn [outcome_bind fst snd].
  destruct (paged src) eqn:Ep; [eauto using planned|].
  destruct (windowed src) eqn:Ew; cbn [negb]; [|eauto using planned].
  destruct (windowDays src) as [d|] eqn:Ed; [|discriminate].
  destruct (maxWindowDays src) as [m|] eqn:Ex; [|discriminate]. split_bools. rewrite Z.leb_le in *.
  replace (Z.min d m) with d by lia. destruct Hp as [Hnow _].
  destruct (buildDateWindows_lemma f (now / ms_per_day) d) as (ws & -> & Hcuts); [lia..|].
  cbn [outcome_bind]. eauto using planned.
Qed.

Lemma plan_sources_planned sources acc :
  planning now last overlap -> Forall (fun src => audited src = true) sources ->
  exists cs, plan_sources platform account last (JDate (Some now)) now options overlap sources acc
      = Ok (Plan (units acc ++ mjoin (map units cs)) (exclusions acc) (deferred acc ++ mjoin (map deferred cs)))
    /\ Forall2 planned sources cs.
Proof.
  intros Hp Hs. revert acc. induction Hs as [|src sources Ha _ IH]; intros acc.
  - exists []. cbn. rewrite !app_nil_r. split; [now destruct acc|constructor].
  - destruct (plan_source_planned src Hp Ha) as (c & Hc & Hplanned). cbn [plan_sources]. rewrite Hc. cbn [outcome_bind].
    destruct (IH (Plan (units acc ++ units c) (exclusions acc ++ exclusions c) (deferred acc ++ deferred c))) as (cs & -> & Hcs).
    exists (c :: cs). split; [|now constructor]. cbn. rewrite <- !app_assoc.
    replace (exclusions c) with (@nil jsval) by (now inversion Hplanned). now rewrite app_nil_r.
Qed.

Lemma account_plan_lemma :
  planning now last overlap ->
  exists cs, planAccountUnits platform account last (JDate (Some now)) now options overlap
      = Ok (Plan (mjoin (map units cs)) [] (mjoin (map deferred cs)))
    /\ Forall2 planned (planSourcesFor platform) cs.
Proof. intros Hp. exact (plan_sources_planned _ (Plan [] [] []) Hp (planSourcesFor_audited platform)). Qed.

(** The plan of an account is total and drops nothing: source by source in the audited
    order, it holds the one unit of a catalogue, the first page of a paged source, or the
    windows that cut exactly the source's span, none wider than the supplier's cap; a
    source that waits for another is recorded as deferred, and nothing is excluded. *)
Theorem account_plan_complete :
  planning now last overlap ->
  exists cs, planAccountUnits platform account last (JDate (Some now)) now options overlap
      = Ok (Plan (mjoin (map units cs)) [] (mjoin (map deferred cs)))
    /\ Forall2 planned (planSourcesFor platform) cs.
Proof. apply account_plan_lemma. Qed.
End Account.

(** ** Paged sources *)

Lemma nextPagedUnit_offset descriptor pagination u :
  nextPagedUnit descriptor pagination = Some u ->
  u@."campaignPageOffset" = JNum (js_number (pagination@."nextOffset"))
  /\ is_finite (js_number (pagination@."nextOffset")) = true
  /\ nleb (js_number (pagination@."nextOffset"))
          (js_number ((descriptor@."campaignPageOffset") ?? JNum (num_of_Z (-1)))) = false.
Proof.
  unfold nextPagedUnit. intros Hu. repeat case_match; try discriminate; injection Hu as <-;
    split_bools; split_and!; reflexivity || assumption.
Qed.

(** The offsets of the units planned one after the other from the unit [d]: each unit is
    the one before with the next page of it. *)
Inductive page_chain : jsval -> list num -> Prop :=
| chain_end d : page_chain d []
| chain_next d pagination u offsets :
    nextPagedUnit d pagination = Some u -> page_chain (spread d u) offsets ->
    page_chain d (js_number (pagination@."nextOffset") :: offsets).

Lemma nextPagedUnit_keys descriptor pagination u :
  nextPagedUnit descriptor pagination = Some u -> NoDup (map fst (obj_fields u)).
Proof.
  unfold nextPagedUnit. intros Hu. repeat case_match; try discriminate; injection Hu as <-; nodup_keys.
Qed.

Lemma page_chain_above d offsets :
  page_chain d offsets -> forall x, d@."campaignPageOffset" = JNum x -> is_finite x = true ->
  Forall (fun y => is_finite y = true /\ ~ le_num y x) offsets /\ NoDup offsets.
Proof.
  assert (Hnan : forall y, is_finite y = true -> is_nan y = false) by (intros []; cbn; congruence).
  induction 1 as [d|d pagination u offsets Hu _ IH]; intros x Hx Hfin; [split; constructor|].
  destruct (nextPagedUnit_offset d pagination u Hu) as (Hoff & Hfy & Hle).
  set (y := js_number (pagination@."nextOffset")) in *. rewrite Hx in Hle. cbn [coalesce nullish js_number] in Hle.
  assert (Hyx : ~ le_num y x).
  { intros Hyx. apply (nleb_spec y x (Hnan _ Hfy) (Hnan _ Hfin)) in Hyx. congruence. }
  destruct (IH y) as [Hall Hnd]; [|exact Hfy|].
  { rewrite prop_spread by (eapply nextPagedUnit_keys; exact Hu).
    unfold prop in Hoff. destruct u as [| | | | | | |fields]; try discriminate. cbn [obj_fields].
    destruct (assoc "campaignPageOffset" fields); [exact Hoff|discriminate]. }
  split.
  - constructor; [auto|]. eapply Forall_impl; [exact Hall|]. intros z [Hz Hzy]. split; [exact Hz|].
    intros Hzx. apply Hzy. etransitivity; [exact Hzx|]. destruct (le_num_total x y); tauto.
  - constructor; [|exact Hnd]. intros Hin. rewrite Forall_forall in Hall. destruct (Hall y Hin) as [_ Hyy].
    apply Hyy. reflexivity.
Qed.

(** A chain of paged units never visits an offset twice: a supplier that only ever names
    the offsets [known] can be asked for at most that many further units, whatever it
    claims about having more. *)
Theorem page_chain_terminates d x offsets known :
  d@."campaignPageOffset" = JNum x -> is_finite x = true ->
  page_chain d offsets -> Forall (fun y => y ∈ known) offsets -> (length offsets <= length known)%nat.
Proof.
  intros Hx Hfin Hc Hknown. destruct (page_chain_above d offsets Hc x Hx Hfin) as [_ Hnd].
  apply submseteq_length, NoDup_submseteq; [exact Hnd|]. now rewrite Forall_forall in Hknown.
Qed.

End WithHost.
End SourcePlanFacts.
