(* ===== verification/PostSync.v ===== *)
(** * The post-sync dependency gate

    [jobs/postSyncStages.js]: which bounded units a run may append next, as a function of
    its rows alone; and the continuation a finished page of a walk appends
    ([jobs/promotionUnit.js], [jobs/conversionPromotionUnit.js],
    [jobs/awinParentMaterializationUnit.js]).  A unit is its [JobRun] row.

    The theorems take a run through any sequence of status changes, continuations and
    gate decisions: no stage is seeded before the stages it depends on have completed, no
    stage is seeded past a failure, a replayed gate seeds nothing, the aggregation window
    is pinned to the run, and a run whose units have all completed always goes on. *)

From S2P Require Import Prelude JsNum JsVal JsDate JsDay Concurrent Jobs.
Local Open Scope Z_scope.

Module PostSync.

(** [UNIT_KINDS] *)
Definition NETWORK : string := "network".
Definition AWIN_PARENT_MATERIALIZATION : string := "awin-parent-materialization".
Definition PROMOTION : string := "promotion".
Definition CONVERSION_PROMOTION : string := "conversion-promotion".
Definition AGGREGATION : string := "aggregation".

Definition PROMOTION_PAGE_SIZE : Z := 50.
Definition OFFER_ENTITY_TYPE : string := "offer".
Definition OFFER_NETWORK_SOURCE : string := "rakuten".
Definition CONVERSION_PROMOTION_PAGE_SIZE : Z := 100.
Definition AWIN_MATERIALIZATION_PAGE_SIZE : Z := 200.
Definition AWIN_MATERIALIZATION_NETWORK_SOURCE : string := "awin".

Inductive post_sync_stage :=
| STAGE_NONE | STAGE_AWAITING | STAGE_PROMOTING | STAGE_CONVERSION_PROMOTING
| STAGE_AGGREGATING | STAGE_COMPLETED | STAGE_FAILED.
#[export] Instance post_sync_stage_eq_dec : EqDecision post_sync_stage.
Proof. solve_decision. Defined.

Inductive failure_stage := FAIL_NETWORK | FAIL_PROMOTION | FAIL_CONVERSION_PROMOTION | FAIL_AGGREGATION.
Definition failure_text (f : failure_stage) : string :=
  match f with
  | FAIL_NETWORK => "network" | FAIL_PROMOTION => "promotion"
  | FAIL_CONVERSION_PROMOTION => "conversion_promotion" | FAIL_AGGREGATION => "aggregation"
  end.

Definition PROMOTION_FIRST_TYPE : string := "campaign".
Definition PROMOTION_FOLLOWING_TYPES : list string := ["coupon"; OFFER_ENTITY_TYPE].

Definition postSyncKinds : list string := [AWIN_PARENT_MATERIALIZATION; PROMOTION; CONVERSION_PROMOTION; AGGREGATION].

(** [unit?.payload ?? unit ?? {}]: a row has none of the descriptor's fields itself. *)
Definition descriptorOf (unit : JobRun) : jsval := if nullish (payload unit) then JObj [] else payload unit.
Definition is_kind (kind : string) (unit : JobRun) : bool := (descriptorOf unit)@."kind" === kind.

(** [v === false] *)
Definition is_false (v : jsval) : bool := match v with JBool false => true | _ => false end.
Definition isPlaceholderUnit (unit : JobRun) : bool :=
  let descriptor := descriptorOf unit in
  if descriptor@."kind" === NETWORK then false else is_false (descriptor@."executable").
Definition isBoundedStageUnit (unit : JobRun) (kind : string) : bool := is_kind kind unit && negb (isPlaceholderUnit unit).

Record phase := Phase { complete : bool; phase_reason : option string }.

Fixpoint network_rows (network : list JobRun) : option string :=
  match network with
  | [] => None
  | unit :: rest =>
      if FAILED_STATUSES (status unit) then Some "network_unit_failed"
      else if status unit =j? RUNNING then Some "network_unit_running"
      else if negb (TERMINAL_STATUSES (status unit)) then Some "network_unit_pending"
      else network_rows rest
  end.
(** [(Array.isArray(d) ? d : []).some((entry) => (entry?.status ?? "pending") === "pending")] *)
Definition deferred_unresolved (deferredSources : jsval) : bool :=
  existsb (fun entry => ((entry@."status") ?? JStr "pending") === "pending") (as_array deferredSources).
Definition networkPhaseState (units : list JobRun) (deferredSources : jsval) : phase :=
  let network := List.filter (is_kind NETWORK) units in
  match network with
  | [] =>
      if existsb (fun kind => existsb (fun unit => isBoundedStageUnit unit kind) units) postSyncKinds
      then Phase true None else Phase false (Some "no_network_units")
  | _ =>
      match network_rows network with
      | Some reason => Phase false (Some reason)
      | None =>
          if deferred_unresolved deferredSources then Phase false (Some "deferred_source_unresolved")
          else Phase true None
      end
  end.

(** [networks.add(v)] when [v] is a non-empty string, on a [Set] in insertion order *)
Definition set_add (v : jsval) (networks : list string) : list string :=
  match v with
  | JStr s => if (s =s? "") || existsb (String.eqb s) networks then networks else networks ++ [s]
  | _ => networks
  end.
(** [[...networks].sort()] *)
Definition sorted (networks : list string) : list string := sort_by String.leb networks.

(** The values of a field over the units that satisfy [p], added in order. *)
Definition collect_field (p : JobRun -> bool) (field : string) (units : list JobRun) (networks : list string) : list string :=
  fold_left (fun acc unit => if p unit then set_add ((descriptorOf unit)@.field) acc else acc) units networks.

Definition postSyncNetworks (units : list JobRun) : list string :=
  let networks := collect_field (fun unit => is_kind NETWORK unit && (status unit =j? COMPLETED)) "platform" units [] in
  match networks with
  | [] =>
      sorted (fold_left (fun acc kind => collect_field (fun unit => isBoundedStageUnit unit kind) "networkSource" units acc)
                postSyncKinds [])
  | _ => sorted networks
  end.

Inductive walk_state := absent | outstanding | failed | resolved.
#[export] Instance walk_state_eq_dec : EqDecision walk_state.
Proof. solve_decision. Defined.
Notation "s =w? t" := (bool_decide (@eq walk_state s t)) (at level 70, no associativity) : js_scope.

(** The common tail of [walkState] and [stageState]. *)
Definition rows_state (matching : list JobRun) : walk_state :=
  match matching with
  | [] => absent
  | _ =>
      if existsb (fun unit => FAILED_STATUSES (status unit)) matching then failed
      else if existsb (fun unit => negb (TERMINAL_STATUSES (status unit))) matching then outstanding
      else resolved
  end.
(** [want !== null && v !== want] is false *)
Definition field_is (want : option string) (v : jsval) : bool :=
  match want with Some w => v === w | None => true end.
Definition in_walk (kind : string) (networkSource entityType day : option string) (unit : JobRun) : bool :=
  let descriptor := descriptorOf unit in
  isBoundedStageUnit unit kind
  && field_is networkSource (descriptor@."networkSource")
  && field_is entityType (descriptor@."entityType")
  && field_is day (descriptor@."day").
Definition walkState (units : list JobRun) (kind : string) (networkSource entityType day : option string) : walk_state :=
  rows_state (List.filter (in_walk kind networkSource entityType day) units).
Definition stageState (units : list JobRun) (kind : string) : walk_state :=
  rows_state (List.filter (fun unit => isBoundedStageUnit unit kind) units).

Definition promotionNetworksSeeded (units : list JobRun) : list string :=
  sorted (collect_field (fun unit => isBoundedStageUnit unit PROMOTION) "networkSource" units []).
Definition conversionNetworksSeeded (units : list JobRun) : list string :=
  sorted (collect_field (fun unit => isBoundedStageUnit unit CONVERSION_PROMOTION) "networkSource" units []).

Definition promotion_walk (units : list JobRun) (networkSource entityType : string) : walk_state :=
  walkState units PROMOTION (Some networkSource) (Some entityType) None.
(** The loop of [promotionStageState] over the seeded networks. *)
Definition promoted_fully (units : list JobRun) (networkSource : string) : bool :=
  forallb (fun entityType => promotion_walk units networkSource entityType =w? resolved) [PROMOTION_FIRST_TYPE; "coupon"]
  && (if networkSource =s? OFFER_NETWORK_SOURCE
      then promotion_walk units networkSource OFFER_ENTITY_TYPE =w? resolved else true).
Definition promotionStageState (units : list JobRun) : walk_state :=
  match stageState units PROMOTION with
  | resolved => if forallb (promoted_fully units) (promotionNetworksSeeded units) then resolved else outstanding
  | state => state
  end.

Definition awinParentMaterializationRequired (units : list JobRun) : bool :=
  existsb (String.eqb AWIN_MATERIALIZATION_NETWORK_SOURCE) (postSyncNetworks units)
  || existsb (fun unit => isBoundedStageUnit unit AWIN_PARENT_MATERIALIZATION) units.

(** ** The pinned aggregation window *)

Section WithHost.
Context {H : JsHost}.
(** [AGGREGATION_AFTER_SYNC_DAYS], a whole number read from the environment *)
Context (daysBack : Z).

Definition window_unpinned : js_error :=
  plain_error "A run's aggregation window needs the run's own immutable start timestamp.".
Definition invalid_time : js_error := plain_error "Invalid time value".

Record agg_window := Window { window_from : string; window_to : string; window_length : Z }.

Definition aggregationWindowFor (runStartedAt : jsval) : outcome agg_window :=
  let anchor := match runStartedAt with JDate t => t | _ => date_parse (js_string runStartedAt) end in
  match anchor with
  | None => Throw window_unpinned
  | Some t =>
      match set_utc_date t (utc_date t - Z.max 1 daysBack) with
      | None => Throw invalid_time
      | Some from => Ok (Window (iso_slice from) (iso_slice t) (Z.max 1 daysBack + 1))
      end
  end.

(** The [while] loop of [aggregationDaysFor]; [Throw loop_fuel] is no value of the source. *)
Definition loop_fuel : js_error := plain_error "loop fuel".
Fixpoint day_loop (fuel : nat) (cursor last : option Z) : outcome (list string) :=
  match cursor, last with
  | Some c, Some l =>
      if c <=? l then
        match fuel with
        | O => Throw loop_fuel
        | S fuel' =>
            let? rest := day_loop fuel' (set_utc_date c (utc_date c + 1)) last in
            Ok (iso_slice c :: rest)
        end
      else Ok []
  | _, _ => Ok []
  end.
(** A window has one day more than it looks back. *)
Definition aggregationDaysFor (runStartedAt : jsval) : outcome (list string) :=
  let? window := aggregationWindowFor runStartedAt in
  day_loop (S (Z.to_nat (Z.max 1 daysBack))) (date_parse (at_midnight (window_from window)))
    (date_parse (at_midnight (window_to window))).

(** ** The transition plan *)

Definition promotionSeed (networkSource entityType : string) : jsval :=
  JObj [("kind", JStr PROMOTION); ("networkSource", JStr networkSource); ("entityType", JStr entityType);
        ("cursorId", JNull); ("pageSize", JNum (num_of_Z PROMOTION_PAGE_SIZE)); ("options", JObj [])].
Definition awinParentMaterializationSeed : jsval :=
  JObj [("kind", JStr AWIN_PARENT_MATERIALIZATION); ("networkSource", JStr AWIN_MATERIALIZATION_NETWORK_SOURCE);
        ("cursorId", JNull); ("pageSize", JNum (num_of_Z AWIN_MATERIALIZATION_PAGE_SIZE)); ("options", JObj [])].
Definition conversionSeed (networkSource : string) : jsval :=
  JObj [("kind", JStr CONVERSION_PROMOTION); ("networkSource", JStr networkSource);
        ("cursorId", JNull); ("pageSize", JNum (num_of_Z CONVERSION_PROMOTION_PAGE_SIZE)); ("options", JObj [])].
Definition aggregationSeed (day : string) : jsval :=
  JObj [("kind", JStr AGGREGATION); ("day", JStr day); ("options", JObj [])].

Definition failureStageOf (units : list JobRun) : option failure_stage :=
  let failedOf kind :=
    existsb (fun unit => is_kind kind unit && negb (isPlaceholderUnit unit) && FAILED_STATUSES (status unit)) units in
  if failedOf NETWORK then Some FAIL_NETWORK
  else if failedOf AWIN_PARENT_MATERIALIZATION then Some FAIL_PROMOTION
  else if failedOf PROMOTION then Some FAIL_PROMOTION
  else if failedOf CONVERSION_PROMOTION then Some FAIL_CONVERSION_PROMOTION
  else if failedOf AGGREGATION then Some FAIL_AGGREGATION
  else None.

Record transition := Transition {
  stage : post_sync_stage;
  seeds : list jsval;
  reason : option string;
  failureStage : option failure_stage;
  window : option agg_window
}.

(** The dependants of a network's resolved campaign walk that are not seeded yet. *)
Definition dependant_seeds (units : list JobRun) (networkSource : string) : list jsval :=
  if negb (promotion_walk units networkSource PROMOTION_FIRST_TYPE =w? resolved) then []
  else
    flat_map (fun entityType =>
      if (entityType =s? OFFER_ENTITY_TYPE) && negb (networkSource =s? OFFER_NETWORK_SOURCE) then []
      else if negb (promotion_walk units networkSource entityType =w? absent) then []
      else [promotionSeed networkSource entityType]) PROMOTION_FOLLOWING_TYPES.

Definition plan_aggregation (units : list JobRun) (runStartedAt : jsval) : outcome transition :=
  match stageState units AGGREGATION with
  | absent =>
      if negb (truthy runStartedAt)
      then Ok (Transition STAGE_CONVERSION_PROMOTING [] (Some "aggregation_window_unpinned") None None)
      else
        let? days := aggregationDaysFor runStartedAt in
        let? w := aggregationWindowFor runStartedAt in
        Ok (Transition STAGE_AGGREGATING (map aggregationSeed days) (Some "aggregation_seeded") None (Some w))
  | resolved => Ok (Transition STAGE_COMPLETED [] (Some "post_sync_complete") None None)
  | _ => Ok (Transition STAGE_AGGREGATING [] (Some "aggregation_outstanding") None None)
  end.
Definition plan_conversion (units : list JobRun) (runStartedAt : jsval) : outcome transition :=
  match stageState units CONVERSION_PROMOTION with
  | absent =>
      Ok (Transition STAGE_CONVERSION_PROMOTING (map conversionSeed (postSyncNetworks units))
            (Some "conversion_promotion_seeded") None None)
  | resolved => plan_aggregation units runStartedAt
  | _ => Ok (Transition STAGE_CONVERSION_PROMOTING [] (Some "conversion_promotion_outstanding") None None)
  end.
Definition plan_promotion (units : list JobRun) (runStartedAt : jsval) : outcome transition :=
  let promotion := stageState units PROMOTION in
  if promotion =w? absent then
    match postSyncNetworks units with
    | [] => Ok (Transition STAGE_AWAITING [] (Some "no_completed_network") None None)
    | networks =>
        Ok (Transition STAGE_PROMOTING (map (fun n => promotionSeed n PROMOTION_FIRST_TYPE) networks)
              (Some "promotion_campaign_seeded") None None)
    end
  else if (promotion =w? outstanding) || negb (promotionStageState units =w? resolved) then
    let dependants := flat_map (dependant_seeds units) (promotionNetworksSeeded units) in
    Ok (Transition STAGE_PROMOTING dependants
          (Some match dependants with [] => "promotion_outstanding" | _ => "promotion_dependants_seeded" end) None None)
  else plan_conversion units runStartedAt.

Definition planPostSyncTransition (units : list JobRun) (postSyncRequested : bool) (deferredSources runStartedAt : jsval) :
    outcome transition :=
  if negb postSyncRequested then Ok (Transition STAGE_NONE [] (Some "post_sync_not_requested") None None)
  else match failureStageOf units with
  | Some failure => Ok (Transition STAGE_FAILED [] (Some (failure_text failure +:+ "_failed")) (Some failure) None)
  | None =>
      let network := networkPhaseState units deferredSources in
      if negb (complete network) then Ok (Transition STAGE_AWAITING [] (phase_reason network) None None)
      else if awinParentMaterializationRequired units then
        match walkState units AWIN_PARENT_MATERIALIZATION (Some AWIN_MATERIALIZATION_NETWORK_SOURCE) None None with
        | absent =>
            Ok (Transition STAGE_PROMOTING [awinParentMaterializationSeed]
                  (Some "awin_parent_materialization_seeded") None None)
        | resolved => plan_promotion units runStartedAt
        | _ => Ok (Transition STAGE_PROMOTING [] (Some "awin_parent_materialization_outstanding") None None)
        end
      else plan_promotion units runStartedAt
  end.

Definition postSyncStageOf (units : list JobRun) (postSyncRequested : bool) : post_sync_stage :=
  if negb postSyncRequested then STAGE_NONE
  else match failureStageOf units with
  | Some _ => STAGE_FAILED
  | None =>
      let aggregation := stageState units AGGREGATION in
      if aggregation =w? resolved then STAGE_COMPLETED
      else if negb (aggregation =w? absent) then STAGE_AGGREGATING
      else if negb (stageState units CONVERSION_PROMOTION =w? absent) then STAGE_CONVERSION_PROMOTING
      else if negb (stageState units PROMOTION =w? absent) then STAGE_PROMOTING
      else STAGE_AWAITING
  end.

Definition postSyncMayAppendUnits (units : list JobRun) (postSyncRequested : bool) : bool :=
  if negb postSyncRequested then false
  else match failureStageOf units with
  | Some _ => false
  | None => stageState units AGGREGATION =w? absent
  end.
End WithHost.

(** ** The page after a page *)

(** The shared guard of the three continuations: a further page with a new, non-empty cursor. *)
Definition next_cursor (result : jsval) : option string :=
  if negb (truthy (result@."hasMore")) then None
  else match result@."nextCursor" with
  | JStr nextCursor =>
      if nextCursor =s? "" then None
      else if result@."cursorId" === nextCursor then None
      else Some nextCursor
  | _ => None
  end.
Definition nextPromotionUnit (result : jsval) (kind : string) : option jsval :=
  nextCursor ← next_cursor result;
  Some (JObj [("kind", JStr kind); ("networkSource", result@."networkSource"); ("entityType", result@."entityType");
              ("cursorId", JStr nextCursor);
              ("pageSize", (result@."pageSize") ?? JNum (num_of_Z PROMOTION_PAGE_SIZE)); ("options", JObj [])]).
Definition nextConversionPromotionUnit (result : jsval) (kind : string) : option jsval :=
  nextCursor ← next_cursor result;
  Some (JObj [("kind", JStr kind); ("networkSource", result@."networkSource");
              ("cursorId", JStr nextCursor);
              ("pageSize", (result@."pageSize") ?? JNum (num_of_Z CONVERSION_PROMOTION_PAGE_SIZE)); ("options", JObj [])]).
Definition nextAwinParentMaterializationUnit (result : jsval) (kind : string) : option jsval :=
  nextCursor ← next_cursor result;
  Some (JObj [("kind", JStr kind); ("networkSource", result@."networkSource");
              ("cursorId", JStr nextCursor);
              ("pageSize", (result@."pageSize") ?? JNum (num_of_Z AWIN_MATERIALIZATION_PAGE_SIZE)); ("options", JObj [])]).
End PostSync.

(** ** Facts *)

Module PostSyncFacts.
Import PostSync.

(** *** Rows of a stage *)

Definition rows (kind : string) (units : list JobRun) : list JobRun :=
  List.filter (fun unit => isBoundedStageUnit unit kind) units.
Definition all_completed (l : list JobRun) : Prop := Forall (fun u => status u = COMPLETED) l.
Definition done (kind : string) (units : list JobRun) : Prop := all_completed (rows kind units).
Definition has (kind : string) (units : list JobRun) : Prop := rows kind units <> [].

Lemma completed_status s : FAILED_STATUSES s = false -> TERMINAL_STATUSES s = true -> s = COMPLETED.
Proof. now destruct s. Qed.
Lemma existsb_false {A} (p : A -> bool) l : existsb p l = false <-> Forall (fun x => p x = false) l.
Proof.
  induction l as [|x l IH]; cbn; [split; [constructor|reflexivity]|].
  rewrite orb_false_iff, Forall_cons, IH. reflexivity.
Qed.

Lemma rows_state_absent l : rows_state l = absent <-> l = [].
Proof. destruct l as [|u l]; cbn; [tauto|]. split; [|discriminate]. repeat case_match; discriminate. Qed.
Lemma rows_state_resolved l : rows_state l = resolved <-> l <> [] /\ all_completed l.
Proof.
  destruct l as [|u l]; [split; [discriminate|intros [? _]; congruence]|]. unfold rows_state, all_completed.
  destruct (existsb (fun unit => FAILED_STATUSES (status unit)) (u :: l)) eqn:Ef;
    [|destruct (existsb (fun unit => negb (TERMINAL_STATUSES (status unit))) (u :: l)) eqn:Et].
  - split; [discriminate|]. intros [_ Hc]. apply existsb_exists in Ef as (v & Hv & Hs). apply list_elem_of_In in Hv.
    rewrite Forall_forall in Hc. rewrite (Hc v Hv) in Hs. discriminate.
  - split; [discriminate|]. intros [_ Hc]. apply existsb_exists in Et as (v & Hv & Hs). apply list_elem_of_In in Hv.
    rewrite Forall_forall in Hc. rewrite (Hc v Hv) in Hs. discriminate.
  - split; [|reflexivity]. intros _. split; [discriminate|]. apply existsb_false in Ef, Et. rewrite Forall_forall in *.
    intros v Hv. apply completed_status; [now apply Ef|]. specialize (Et v Hv). now apply negb_false_iff in Et.
Qed.
Lemma rows_state_active l u : u ∈ l -> ACTIVE_STATUSES (status u) = true -> rows_state l = failed \/ rows_state l = outstanding.
Proof.
  intros Hu Ha. destruct (rows_state l) eqn:E; auto.
  - apply rows_state_absent in E as ->. set_solver.
  - apply rows_state_resolved in E as [_ Hc]. unfold all_completed in Hc. rewrite Forall_forall in Hc.
    rewrite (Hc u Hu) in Ha. discriminate.
Qed.

Lemma stageState_rows units kind : stageState units kind = rows_state (rows kind units).
Proof. reflexivity. Qed.

Lemma filter_filter_bool {A} (p q : A -> bool) l :
  (forall x, p x = true -> q x = true) -> List.filter p l = List.filter p (List.filter q l).
Proof.
  intros Hpq. induction l as [|x l IH]; [reflexivity|]. cbn. destruct (q x) eqn:Eq; cbn; [now rewrite IH|].
  destruct (p x) eqn:Ep; [rewrite (Hpq x Ep) in Eq; discriminate|exact IH].
Qed.
Lemma in_walk_bounded kind n e d u : in_walk kind n e d u = true -> isBoundedStageUnit u kind = true.
Proof. unfold in_walk. intros Hu. now split_bools. Qed.
Lemma walkState_rows units kind n e d : walkState units kind n e d = walkState (rows kind units) kind n e d.
Proof. unfold walkState. f_equal. apply filter_filter_bool, in_walk_bounded. Qed.

Lemma collect_field_rows p field units acc : collect_field p field units acc = collect_field p field (List.filter p units) acc.
Proof.
  unfold collect_field. revert acc. induction units as [|u units IH]; intros acc; [reflexivity|]. cbn.
  destruct (p u) eqn:E; cbn; [rewrite E|]; apply IH.
Qed.
Lemma elem_of_set_add v x acc : x ∈ set_add v acc <-> x ∈ acc \/ (v = JStr x /\ x <> "").
Proof.
  destruct v; cbn; try (split; [auto|intros [?|[? _]]; [assumption|discriminate]]).
  destruct (s =s? "") eqn:E; cbn; [apply String.eqb_eq in E as ->; split; [auto|intros [?|[[= <-] ?]]; [auto|congruence]]|].
  apply String.eqb_neq in E. destruct (existsb (String.eqb s) acc) eqn:Ex.
  - split; [auto|]. intros [?|[[= <-] _]]; [assumption|]. apply existsb_exists in Ex as (y & Hy & ->%String.eqb_eq).
    now apply list_elem_of_In.
  - rewrite elem_of_app, list_elem_of_singleton. split; [intros [?| ->]; auto|intros [?|[[= <-] _]]; auto].
Qed.
Lemma elem_of_collect_field p field units acc x :
  x ∈ collect_field p field units acc <->
  x ∈ acc \/ (x <> "" /\ exists u, u ∈ units /\ p u = true /\ (descriptorOf u)@.field = JStr x).
Proof.
  unfold collect_field. revert acc. induction units as [|u units IH]; intros acc; cbn.
  - split; [auto|]. intros [?|[_ (u & Hu & _)]]; [assumption|set_solver].
  - rewrite IH. destruct (p u) eqn:E; [rewrite elem_of_set_add|]; split.
    + intros [[?|[Hx ?]]|[? (v & ? & ? & ?)]]; [auto| |]; right; split; auto; [exists u|exists v]; set_solver.
    + intros [?|[Hne (v & Hv & Hp & Hx)]]; [auto|]. apply elem_of_cons in Hv as [->|Hv]; [auto|]. eauto 10.
    + intros [?|[? (v & ? & ? & ?)]]; [auto|]. right. split; [assumption|]. exists v. set_solver.
    + intros [?|[Hne (v & Hv & Hp & Hx)]]; [auto|]. apply elem_of_cons in Hv as [->|Hv]; [congruence|]. eauto 10.
Qed.
Lemma sorted_nil l : sorted l = [] <-> l = [].
Proof. apply sort_by_nil. Qed.
Lemma elem_of_sorted x l : x ∈ sorted l <-> x ∈ l.
Proof. apply elem_of_sort_by. Qed.

(** The platforms of the completed network units. *)
Definition fetched (units : list JobRun) : list string :=
  collect_field (fun unit => is_kind NETWORK unit && (status unit =j? COMPLETED)) "platform" units [].

Lemma postSyncNetworks_fetched units : fetched units <> [] -> postSyncNetworks units = sorted (fetched units).
Proof. unfold postSyncNetworks. fold (fetched units). now destruct (fetched units). Qed.

Lemma network_bounded u : isBoundedStageUnit u NETWORK = is_kind NETWORK u.
Proof.
  unfold isBoundedStageUnit, isPlaceholderUnit, is_kind. destruct ((descriptorOf u)@."kind" === NETWORK); reflexivity.
Qed.
Lemma rows_network units : rows NETWORK units = List.filter (is_kind NETWORK) units.
Proof. apply filter_bool_ext. intros u _. apply network_bounded. Qed.
Lemma fetched_rows units : fetched units = fetched (rows NETWORK units).
Proof.
  unfold fetched. rewrite collect_field_rows, (collect_field_rows _ _ (rows NETWORK units)). f_equal.
  apply filter_filter_bool. intros u Hu. rewrite network_bounded. now apply andb_true_iff in Hu as [? _].
Qed.

Lemma kind_unique u k k' : isBoundedStageUnit u k = true -> isBoundedStageUnit u k' = true -> k = k'.
Proof.
  unfold isBoundedStageUnit, is_kind. intros H1 H2. split_bools. apply is_str_eq in H, H1. congruence.
Qed.

Lemma rows_idem k units : rows k (rows k units) = rows k units.
Proof. unfold rows. symmetry. now apply filter_filter_bool. Qed.
Lemma promotionNetworksSeeded_rows units : promotionNetworksSeeded units = promotionNetworksSeeded (rows PROMOTION units).
Proof.
  unfold promotionNetworksSeeded. rewrite collect_field_rows, (collect_field_rows _ _ (rows PROMOTION units)).
  fold (rows PROMOTION units). fold (rows PROMOTION (rows PROMOTION units)). now rewrite rows_idem.
Qed.
Lemma promotionStageState_rows units : promotionStageState units = promotionStageState (rows PROMOTION units).
Proof.
  unfold promotionStageState, stageState. fold (rows PROMOTION units). fold (rows PROMOTION (rows PROMOTION units)).
  rewrite rows_idem.
  destruct (rows_state (rows PROMOTION units)); try reflexivity.
  rewrite promotionNetworksSeeded_rows.
  assert (E : forall n, promoted_fully units n = promoted_fully (rows PROMOTION units) n).
  { intros n. unfold promoted_fully, promotion_walk. cbn [forallb]. now rewrite !(walkState_rows units). }
  induction (promotionNetworksSeeded (rows PROMOTION units)) as [|n l IH]; [reflexivity|].
  cbn. rewrite E. destruct (promoted_fully (rows PROMOTION units) n); cbn; [exact IH|reflexivity].
Qed.

(** *** What the gate lets through *)

Lemma network_rows_done l : network_rows l = None -> all_completed l.
Proof.
  induction l as [|u l IH]; cbn [network_rows]; [constructor|].
  destruct (FAILED_STATUSES (status u)) eqn:Ef; [discriminate|]. destruct (status u =j? RUNNING); [discriminate|].
  destruct (TERMINAL_STATUSES (status u)) eqn:Et; [|discriminate]. intros Hl. constructor; [|now apply IH].
  now apply completed_status.
Qed.
Lemma network_complete_done units deferred : complete (networkPhaseState units deferred) = true -> done NETWORK units.
Proof.
  unfold networkPhaseState, done. rewrite rows_network.
  destruct (List.filter (is_kind NETWORK) units) as [|u l]; [constructor|].
  destruct (network_rows (u :: l)) eqn:E; [discriminate|]. intros _. now apply network_rows_done.
Qed.

(** The derived parents of Awin are in place, when the run needs them. *)
Definition materialized (units : list JobRun) : Prop :=
  awinParentMaterializationRequired units = true ->
  walkState units AWIN_PARENT_MATERIALIZATION (Some AWIN_MATERIALIZATION_NETWORK_SOURCE) None None = resolved.

(** The seeds the rows of a run allow. *)
Inductive cleared (units : list JobRun) : jsval -> Prop :=
| cleared_parents :
    awinParentMaterializationRequired units = true ->
    walkState units AWIN_PARENT_MATERIALIZATION (Some AWIN_MATERIALIZATION_NETWORK_SOURCE) None None = absent ->
    cleared units awinParentMaterializationSeed
| cleared_campaign n :
    materialized units -> stageState units PROMOTION = absent -> n ∈ postSyncNetworks units ->
    cleared units (promotionSeed n PROMOTION_FIRST_TYPE)
| cleared_dependant n e :
    materialized units -> e ∈ PROMOTION_FOLLOWING_TYPES -> (e = OFFER_ENTITY_TYPE -> n = OFFER_NETWORK_SOURCE) ->
    n ∈ promotionNetworksSeeded units -> promotionStageState units <> resolved ->
    promotion_walk units n PROMOTION_FIRST_TYPE = resolved -> promotion_walk units n e = absent ->
    cleared units (promotionSeed n e)
| cleared_conversion n :
    materialized units -> promotionStageState units = resolved -> stageState units CONVERSION_PROMOTION = absent ->
    n ∈ postSyncNetworks units -> cleared units (conversionSeed n)
| cleared_day day :
    materialized units -> promotionStageState units = resolved -> stageState units CONVERSION_PROMOTION = resolved ->
    stageState units AGGREGATION = absent -> cleared units (aggregationSeed day).

Lemma dependant_seeds_spec units n seed :
  seed ∈ dependant_seeds units n ->
  promotion_walk units n PROMOTION_FIRST_TYPE = resolved
  /\ exists e, seed = promotionSeed n e /\ e ∈ PROMOTION_FOLLOWING_TYPES
       /\ (e = OFFER_ENTITY_TYPE -> n = OFFER_NETWORK_SOURCE) /\ promotion_walk units n e = absent.
Proof.
  unfold dependant_seeds. case_bool_decide as Hc; cbn [negb]; [|set_solver]. split; [exact Hc|].
  apply list_elem_of_In, in_flat_map in H as (e & He & Hin). exists e.
  destruct ((e =s? OFFER_ENTITY_TYPE) && negb (n =s? OFFER_NETWORK_SOURCE)) eqn:Eo; [destruct Hin|].
  case_bool_decide as Ha; cbn [negb] in Hin; [|destruct Hin]. destruct Hin as [<-|[]]. split_and!; auto.
  - now apply list_elem_of_In.
  - intros ->. cbn in Eo. apply negb_false_iff, String.eqb_eq in Eo. exact Eo.
Qed.

Section Gate.
Context {H : JsHost} (daysBack : Z).

Lemma plan_promotion_cleared units started t seed :
  materialized units -> plan_promotion daysBack units started = Ok t -> seed ∈ seeds t -> cleared units seed.
Proof.
  intros Hm. unfold plan_promotion, plan_conversion, plan_aggregation. case_bool_decide as Hp.
  - destruct (postSyncNetworks units) as [|n0 ns] eqn:En; intros [= <-] Hs; [set_solver|]. cbn [seeds] in Hs.
    apply (list_elem_of_fmap (fun n => promotionSeed n PROMOTION_FIRST_TYPE) (n0 :: ns)) in Hs as (n & -> & Hn).
    rewrite <- En in Hn. now apply cleared_campaign.
  - destruct (_ || _) eqn:Eo.
    + intros [= <-] Hs. cbn [seeds] in Hs. apply list_elem_of_In, in_flat_map in Hs as (n & Hn & Hs).
      apply list_elem_of_In in Hn, Hs. apply dependant_seeds_spec in Hs as (Hc & e & -> & He & Hoff & Ha).
      apply cleared_dependant; auto. intros Hr.
      assert (Hst : stageState units PROMOTION = resolved)
        by (unfold promotionStageState in Hr; now destruct (stageState units PROMOTION)).
      rewrite Hr, Hst in Eo. discriminate Eo.
    + apply orb_false_iff in Eo as [_ Hr%negb_false_iff]. apply bool_decide_eq_true in Hr.
      destruct (stageState units CONVERSION_PROMOTION) eqn:Ec; try (intros [= <-] Hs; set_solver).
      * intros [= <-] Hs. cbn [seeds] in Hs. apply list_elem_of_fmap in Hs as (n & -> & Hn). now apply cleared_conversion.
      * destruct (stageState units AGGREGATION) eqn:Ea; try (intros [= <-] Hs; set_solver).
        destruct (truthy started); cbn [negb]; [|intros [= <-] Hs; set_solver].
        destruct (aggregationDaysFor daysBack started) as [days|]; [|discriminate].
        destruct (aggregationWindowFor daysBack started) as [w|]; [|discriminate].
        intros [= <-] Hs. cbn [seeds] in Hs. apply list_elem_of_fmap in Hs as (day & -> & _). now apply cleared_day.
Qed.

Lemma gate_lemma units requested deferred started t seed :
  planPostSyncTransition daysBack units requested deferred started = Ok t -> seed ∈ seeds t ->
  requested = true /\ failureStageOf units = None /\ done NETWORK units /\ cleared units seed.
Proof.
  unfold planPostSyncTransition. destruct requested; cbn [negb]; [|intros [= <-] Hs; set_solver].
  destruct (failureStageOf units); [intros [= <-] Hs; set_solver|].
  destruct (complete (networkPhaseState units deferred)) eqn:En; cbn [negb]; [|intros [= <-] Hs; set_solver].
  apply network_complete_done in En. intros Ht Hs. split_and!; auto.
  destruct (awinParentMaterializationRequired units) eqn:Er.
  - destruct (walkState _ _ _ _ _) eqn:Ew; try (injection Ht as <-; set_solver).
    + injection Ht as <-. apply list_elem_of_singleton in Hs as ->. now apply cleared_parents.
    + eapply plan_promotion_cleared; [|exact Ht|exact Hs]. intros _. exact Ew.
  - eapply plan_promotion_cleared; [|exact Ht|exact Hs]. unfold materialized. congruence.
Qed.
End Gate.

(** *** Runs

    A run evolves by status changes of its active units, by the continuations its running
    units append, and by the gate. *)

(** The columns of the descriptor [d] that the gate reads are those of the row's payload. *)
Definition carries (row : JobRun) (d : jsval) : Prop :=
  nullish (payload row) = false
  /\ Forall (fun field => (payload row)@.field = d@.field) ["kind"; "networkSource"; "entityType"; "executable"; "platform"].

(** The unit appended for the page after the one [j] ran, whose [result] names its walk. *)
Inductive continuation (j : JobRun) : jsval -> Prop :=
| continue_network u : is_kind NETWORK j = true -> u@."kind" = JStr NETWORK -> continuation j u
| continue_page kind next result u :
    In (kind, next) [(PROMOTION, nextPromotionUnit); (CONVERSION_PROMOTION, nextConversionPromotionUnit);
                     (AWIN_PARENT_MATERIALIZATION, nextAwinParentMaterializationUnit)] ->
    is_kind kind j = true -> next result kind = Some u ->
    result@."networkSource" = (descriptorOf j)@."networkSource" ->
    result@."entityType" = (descriptorOf j)@."entityType" ->
    continuation j u.

Section Runs.
Context {H : JsHost} (daysBack : Z).

Inductive run_step : list JobRun -> list JobRun -> Prop :=
| run_status units i j st :
    units !! i = Some j -> ACTIVE_STATUSES (status j) = true -> run_step units (<[i := set_status st j]> units)
| run_continue units i j u row :
    units !! i = Some j -> status j = RUNNING -> isPlaceholderUnit j = false -> continuation j u ->
    status row = PENDING -> carries row u -> run_step units (units ++ [row])
| run_gate units requested deferred started t new :
    planPostSyncTransition daysBack units requested deferred started = Ok t ->
    Forall (fun row => status row = PENDING /\ exists seed, seed ∈ seeds t /\ carries row seed) new ->
    run_step units (units ++ new).

(** *** Stability *)

Definition by_payload (p : JobRun -> bool) : Prop := forall j st, p (set_status st j) = p j.

Lemma bounded_by_payload kind : by_payload (fun u => isBoundedStageUnit u kind).
Proof. intros j st. reflexivity. Qed.
Lemma walk_by_payload kind n e d : by_payload (in_walk kind n e d).
Proof. intros j st. reflexivity. Qed.

Lemma filter_insert_status p units i j st :
  by_payload p -> units !! i = Some j -> ACTIVE_STATUSES (status j) = true ->
  all_completed (List.filter p units) -> List.filter p (<[i := set_status st j]> units) = List.filter p units.
Proof.
  intros Hp Hi Ha Hc. revert i Hi. induction units as [|u units IH]; intros i Hi; [discriminate|]. cbn in Hc.
  destruct i as [|i]; cbn in Hi; [injection Hi as ->|]; cbn; [rewrite Hp|]; destruct (p _) eqn:E.
  - inversion Hc as [|? ? Hs]. rewrite Hs in Ha. discriminate.
  - reflexivity.
  - f_equal. apply IH; [now inversion Hc|exact Hi].
  - now apply IH.
Qed.
Lemma filter_insert_nil p units i j st :
  by_payload p -> units !! i = Some j -> List.filter p (<[i := set_status st j]> units) = [] <-> List.filter p units = [].
Proof.
  intros Hp. revert i. induction units as [|u units IH]; intros i Hi; [discriminate|].
  destruct i as [|i]; cbn in Hi; [injection Hi as ->|]; cbn; [rewrite Hp|]; destruct (p _); try (split; discriminate).
  - reflexivity.
  - now apply IH.
Qed.
Lemma elem_of_insert_status p units i j st u :
  by_payload p -> units !! i = Some j -> u ∈ List.filter p (<[i := set_status st j]> units) ->
  exists v, v ∈ List.filter p units /\ payload v = payload u.
Proof.
  intros Hp Hi. rewrite elem_of_filter_bool. intros [Hu Hpu].
  apply list_elem_of_lookup in Hu as [k Hk]. destruct (decide (i = k)) as [->|Hne].
  - rewrite list_lookup_insert_eq in Hk by (now apply lookup_lt_Some in Hi). injection Hk as <-.
    exists j. rewrite Hp in Hpu. rewrite elem_of_filter_bool. split; [|reflexivity].
    split; [now apply list_elem_of_lookup_2 with k|exact Hpu].
  - rewrite list_lookup_insert_ne in Hk by exact Hne. exists u. rewrite elem_of_filter_bool.
    split; [|reflexivity]. split; [now apply list_elem_of_lookup_2 with k|exact Hpu].
Qed.

Lemma carries_field row d field :
  carries row d -> In field ["kind"; "networkSource"; "entityType"; "executable"; "platform"] ->
  (descriptorOf row)@.field = d@.field.
Proof.
  intros [Hn Hf] Hin. unfold descriptorOf. rewrite Hn. rewrite Forall_forall in Hf. apply Hf. now apply list_elem_of_In.
Qed.
(** A row that carries an unblocked descriptor is a bounded unit of its kind only. *)
Lemma carries_bounded row d kind :
  carries row d -> d@."kind" = JStr kind -> is_false (d@."executable") = false ->
  forall k, isBoundedStageUnit row k = (kind =s? k).
Proof.
  intros Hc Hk He k. unfold isBoundedStageUnit, isPlaceholderUnit, is_kind.
  rewrite !(carries_field row d "kind" Hc), (carries_field row d "executable" Hc), Hk, He by (cbn; tauto). cbn.
  destruct (kind =s? NETWORK); cbn; now rewrite andb_true_r.
Qed.

Lemma rows_app kind units new : rows kind (units ++ new) = rows kind units ++ rows kind new.
Proof. apply List.filter_app. Qed.

(** Appended units are pending, so the fetched platforms stay. *)
Lemma fetched_app units new : Forall (fun row => status row = PENDING) new -> fetched (units ++ new) = fetched units.
Proof.
  intros Hnew. unfold fetched, collect_field. rewrite fold_left_app. generalize (fold_left (fun acc unit =>
    if is_kind NETWORK unit && (status unit =j? COMPLETED) then set_add ((descriptorOf unit)@."platform") acc else acc) units []).
  induction Hnew as [|row new Hr _ IH]; intros acc; [reflexivity|]. cbn. rewrite Hr, andb_false_r. apply IH.
Qed.

(** *** The invariant of a run *)

Definition parents_of_awin (units : list JobRun) : Prop :=
  Forall (fun u => (descriptorOf u)@."networkSource" = JStr AWIN_MATERIALIZATION_NETWORK_SOURCE)
    (rows AWIN_PARENT_MATERIALIZATION units).
(** The walk of a promotion unit, and that it may run. *)
Definition walk_ready (units : list JobRun) (u : JobRun) : Prop :=
  exists n e, (descriptorOf u)@."networkSource" = JStr n /\ (descriptorOf u)@."entityType" = JStr e /\ n <> ""
    /\ (e = PROMOTION_FIRST_TYPE \/ promotion_walk units n PROMOTION_FIRST_TYPE = resolved).

Record ordered (units : list JobRun) : Prop := {
  ord_parents : has AWIN_PARENT_MATERIALIZATION units -> done NETWORK units /\ fetched units <> [];
  ord_awin : parents_of_awin units;
  ord_promotion : has PROMOTION units ->
    done NETWORK units /\ done AWIN_PARENT_MATERIALIZATION units /\ fetched units <> []
    /\ (AWIN_MATERIALIZATION_NETWORK_SOURCE ∈ fetched units -> has AWIN_PARENT_MATERIALIZATION units);
  ord_walks : Forall (walk_ready units) (rows PROMOTION units);
  ord_conversion : has CONVERSION_PROMOTION units -> promotionStageState units = resolved;
  ord_aggregation : has AGGREGATION units -> stageState units CONVERSION_PROMOTION = resolved
}.

Lemma stage_absent units kind : stageState units kind = absent <-> ~ has kind units.
Proof. rewrite stageState_rows, rows_state_absent. unfold has. split; [intros ->; tauto|].
  destruct (rows kind units); [reflexivity|]. intros Hn. destruct Hn. discriminate.
Qed.
Lemma stage_resolved units kind : stageState units kind = resolved <-> has kind units /\ done kind units.
Proof. apply rows_state_resolved. Qed.
Lemma promotion_resolved units : promotionStageState units = resolved -> has PROMOTION units /\ done PROMOTION units.
Proof.
  unfold promotionStageState. intros Hr. apply stage_resolved. now destruct (stageState units PROMOTION).
Qed.
Lemma fetched_eq units units' : rows NETWORK units' = rows NETWORK units -> fetched units' = fetched units.
Proof. intros E. now rewrite fetched_rows, E, <- fetched_rows. Qed.
Lemma promotion_state_eq units units' :
  rows PROMOTION units' = rows PROMOTION units -> promotionStageState units' = promotionStageState units.
Proof. intros E. now rewrite promotionStageState_rows, E, <- promotionStageState_rows. Qed.
Lemma walk_ready_payload units u v : payload u = payload v -> walk_ready units u -> walk_ready units v.
Proof. unfold walk_ready, descriptorOf. now intros ->. Qed.

Lemma ordered_status units i j st :
  units !! i = Some j -> ACTIVE_STATUSES (status j) = true -> ordered units -> ordered (<[i := set_status st j]> units).
Proof.
  intros Hi Ha [Hpar Hawin Hprom Hwalk Hconv Hagg]. set (units' := <[i := set_status st j]> units).
  assert (Hsame : forall k, done k units -> rows k units' = rows k units)
    by (intros k; apply filter_insert_status; auto using bounded_by_payload).
  assert (Hhas : forall k, has k units' <-> has k units).
  { intros k. unfold has, rows, units'. now rewrite filter_insert_nil by (eauto using bounded_by_payload). }
  split.
  - intros Hp%Hhas. destruct (Hpar Hp) as [Hd Hf]. unfold done. rewrite (Hsame _ Hd), (fetched_eq units) by auto. auto.
  - apply Forall_forall. intros u Hu.
    apply elem_of_insert_status with (p := fun u => isBoundedStageUnit u _) in Hu as (v & Hv & E); [|apply bounded_by_payload|exact Hi].
    unfold parents_of_awin in Hawin. rewrite Forall_forall in Hawin. specialize (Hawin v Hv). unfold descriptorOf in *. now rewrite <- E.
  - intros Hp%Hhas. destruct (Hprom Hp) as (Hd & Hm & Hf & Hw). unfold done. rewrite (Hsame _ Hd), (Hsame _ Hm), (fetched_eq units), Hhas by auto. auto.
  - apply Forall_forall. intros u Hu.
    apply elem_of_insert_status with (p := fun u => isBoundedStageUnit u _) in Hu as (v & Hv & E); [|apply bounded_by_payload|exact Hi].
    rewrite Forall_forall in Hwalk. apply (walk_ready_payload units' v u E). destruct (Hwalk v Hv) as (n & e & Hn & He & Hne & Hready).
    exists n, e. split_and!; auto. destruct Hready as [->|Hr]; [auto|]. right.
    unfold promotion_walk, walkState in *. unfold units'. rewrite filter_insert_status; auto using walk_by_payload.
    now apply rows_state_resolved in Hr as [_ ?].
  - intros Hc%Hhas. specialize (Hconv Hc). rewrite (promotion_state_eq units); [exact Hconv|].
    now apply Hsame, promotion_resolved.
  - intros Hg%Hhas. specialize (Hagg Hg). unfold stageState in *. fold (rows CONVERSION_PROMOTION units') in *.
    fold (rows CONVERSION_PROMOTION units) in Hagg. rewrite Hsame; [exact Hagg|]. now apply rows_state_resolved in Hagg as [_ ?].
Qed.

(** *** Continuations keep the order *)

Lemma continuation_row j u row :
  isPlaceholderUnit j = false -> continuation j u -> carries row u ->
  exists k, isBoundedStageUnit j k = true /\ (forall k', isBoundedStageUnit row k' = (k =s? k'))
    /\ (k <> NETWORK -> (descriptorOf row)@."networkSource" = (descriptorOf j)@."networkSource")
    /\ (k = PROMOTION -> (descriptorOf row)@."entityType" = (descriptorOf j)@."entityType").
Proof.
  intros Hp Hc Hrow. destruct Hc as [u Hj Hk|kind next result u Hin Hj Hu Hn He].
  - exists NETWORK. split_and!; [now rewrite network_bounded| |congruence|discriminate].
    intros k'. unfold isBoundedStageUnit, isPlaceholderUnit, is_kind.
    rewrite !(carries_field row u "kind" Hrow), Hk by (cbn; tauto). cbn. now rewrite andb_true_r.
  - assert (Hfields : u@."kind" = JStr kind /\ is_false (u@."executable") = false
                      /\ u@."networkSource" = result@."networkSource"
                      /\ (kind = PROMOTION -> u@."entityType" = result@."entityType")).
    { destruct Hin as [[= <- <-]|[[= <- <-]|[[= <- <-]|[]]]]; cbn in Hu; apply bind_Some in Hu as (c & _ & [= <-]);
        split_and!; try reflexivity; discriminate. }
    destruct Hfields as (Hk & Hx & Hns & Het). exists kind. split_and!.
    + unfold isBoundedStageUnit. now rewrite Hj, Hp.
    + now apply carries_bounded with u.
    + intros _. rewrite (carries_field row u "networkSource" Hrow) by (cbn; tauto). congruence.
    + intros ->. rewrite (carries_field row u "entityType" Hrow) by (cbn; tauto). rewrite Het; auto.
Qed.

Lemma rows_snoc units row k k' :
  (forall k', isBoundedStageUnit row k' = (k =s? k')) ->
  rows k' (units ++ [row]) = if k =s? k' then rows k' units ++ [row] else rows k' units.
Proof.
  intros Hb. rewrite rows_app. unfold rows at 2. cbn. rewrite Hb. destruct (k =s? k'); [reflexivity|apply app_nil_r].
Qed.

Lemma running_not_done units j k : j ∈ rows k units -> status j = RUNNING -> done k units -> False.
Proof. intros Hj Hs Hd. unfold done, all_completed in Hd. rewrite Forall_forall in Hd. rewrite (Hd j Hj) in Hs. discriminate. Qed.

Lemma in_walk_promotion row n e :
  in_walk PROMOTION (Some n) (Some e) None row =
  isBoundedStageUnit row PROMOTION && ((descriptorOf row)@."networkSource" === n) && ((descriptorOf row)@."entityType" === e).
Proof. unfold in_walk. cbn. now rewrite andb_true_r. Qed.

(** Units that are not in a walk do not change its state. *)
Lemma promotion_walk_app units new n e :
  Forall (fun row => in_walk PROMOTION (Some n) (Some e) None row = false) new ->
  promotion_walk (units ++ new) n e = promotion_walk units n e.
Proof.
  intros Hnew. unfold promotion_walk, walkState. rewrite List.filter_app. f_equal.
  rewrite (filter_bool_ext _ (fun _ => false) new).
  - induction new; [apply app_nil_r|]. cbn. apply IHnew. now inversion Hnew.
  - intros row Hr. rewrite Forall_forall in Hnew. auto.
Qed.

Lemma ordered_continue units i j u row :
  units !! i = Some j -> status j = RUNNING -> isPlaceholderUnit j = false -> continuation j u ->
  status row = PENDING -> carries row u -> ordered units -> ordered (units ++ [row]).
Proof.
  intros Hi Hrun Hp Hc Hpend Hrow [Hpar Hawin Hprom Hwalk Hconv Hagg].
  destruct (continuation_row j u row Hp Hc Hrow) as (k & Hjk & Hrk & Hns & Het).
  assert (Hj : j ∈ rows k units) by (apply elem_of_filter_bool; split; [now apply list_elem_of_lookup_2 with i|exact Hjk]).
  assert (Hrows := fun k' => rows_snoc units row k k' Hrk).
  assert (Hhas : forall k', has k' (units ++ [row]) <-> has k' units).
  { intros k'. unfold has. rewrite Hrows. destruct (k =s? k') eqn:E; [|tauto]. apply String.eqb_eq in E as <-.
    split; intros _ E; [rewrite E in Hj; set_solver|now apply app_nil in E as [_ ?]]. }
  assert (Hdone : forall k', done k' units -> rows k' (units ++ [row]) = rows k' units).
  { intros k' Hd. rewrite Hrows. destruct (k =s? k') eqn:E; [|reflexivity]. apply String.eqb_eq in E as <-.
    destruct (running_not_done units j k Hj Hrun Hd). }
  rewrite <- (fetched_app units [row]) in Hpar, Hprom by (repeat constructor; exact Hpend).
  split.
  - intros Hm%Hhas. destruct (Hpar Hm) as [Hd Hf]. unfold done. rewrite (Hdone _ Hd). auto.
  - unfold parents_of_awin in *. rewrite Hrows. destruct (k =s? _) eqn:E; [|exact Hawin]. apply String.eqb_eq in E as ->.
    apply Forall_app. split; [exact Hawin|]. constructor; [|constructor]. rewrite Hns by discriminate.
    rewrite Forall_forall in Hawin. auto.
  - intros Hq%Hhas. destruct (Hprom Hq) as (Hd & Hm & Hf & Hw). unfold done. rewrite (Hdone _ Hd), (Hdone _ Hm), Hhas. auto.
  - rewrite Hrows. assert (Hold : Forall (walk_ready (units ++ [row])) (rows PROMOTION units)).
    { eapply Forall_impl; [exact Hwalk|]. intros v (n & e & Hn & He & Hne & Hr). exists n, e. split_and!; auto.
      destruct Hr as [->|Hr]; [auto|]. right. rewrite promotion_walk_app; [exact Hr|]. constructor; [|constructor].
      rewrite in_walk_promotion, Hrk. destruct (k =s? PROMOTION) eqn:E; [|reflexivity]. apply String.eqb_eq in E as ->.
      rewrite Hns, Het by (discriminate || reflexivity). apply not_true_is_false. intros Hin.
      apply rows_state_resolved in Hr as [_ Hr]. unfold all_completed in Hr. rewrite Forall_forall in Hr.
      rewrite (Hr j) in Hrun; [discriminate|]. apply elem_of_filter_bool. split; [now apply list_elem_of_lookup_2 with i|].
      rewrite in_walk_promotion, Hjk. exact Hin. }
    destruct (k =s? PROMOTION) eqn:E; [|exact Hold]. apply String.eqb_eq in E as ->. apply Forall_app. split; [exact Hold|].
    constructor; [|constructor]. rewrite Forall_forall in Hold. destruct (Hold j Hj) as (n & e & Hn & He & Hr).
    exists n, e. rewrite Hns, Het by (discriminate || reflexivity). auto.
  - intros Hq%Hhas. specialize (Hconv Hq). rewrite (promotion_state_eq units); [exact Hconv|]. now apply Hdone, promotion_resolved.
  - intros Hq%Hhas. specialize (Hagg Hq). apply stage_resolved in Hagg as [Hh Hd]. apply stage_resolved.
    rewrite Hhas. unfold done. now rewrite Hdone.
Qed.

(** *** The gate keeps the order *)

Lemma cleared_kind units seed : cleared units seed ->
  is_false (seed@."executable") = false /\
  exists k, seed@."kind" = JStr k /\ In k postSyncKinds.
Proof. intros Hc. destruct Hc; (split; [reflexivity|]); eexists; (split; [reflexivity|cbn; tauto]). Qed.

(** A row of kind [k] that the gate appends, and the seed it was cleared for. *)
Definition gate_rows (units new : list JobRun) : Prop :=
  Forall (fun row => status row = PENDING /\ exists seed, cleared units seed /\ carries row seed) new.

Lemma gate_row units new k row :
  gate_rows units new -> row ∈ rows k new ->
  exists seed, cleared units seed /\ carries row seed /\ seed@."kind" = JStr k.
Proof.
  intros Hg [Hr Hb]%elem_of_filter_bool. unfold gate_rows in Hg. rewrite Forall_forall in Hg.
  destruct (Hg row Hr) as (_ & seed & Hc & Hrow). exists seed. split_and!; auto.
  destruct (cleared_kind units seed Hc) as (Hx & k' & Hk & _).
  rewrite (carries_bounded row seed k' Hrow Hk Hx) in Hb. apply String.eqb_eq in Hb as <-. exact Hk.
Qed.
Lemma rows_nil_or k l : rows k l = [] \/ exists row, row ∈ rows k l.
Proof. destruct (rows k l) as [|row l']; [auto|]. right. exists row. left. Qed.

Lemma gate_no_network units new : gate_rows units new -> rows NETWORK new = [].
Proof.
  intros Hg. destruct (rows_nil_or NETWORK new) as [|(row & Hr)]; [assumption|].
  destruct (gate_row units new NETWORK row Hg Hr) as (seed & Hc & _ & Hk).
  destruct (cleared_kind units seed Hc) as (_ & k & Hk' & Hin). rewrite Hk in Hk'. injection Hk' as <-.
  cbn in Hin. decompose [or] Hin; discriminate || contradiction.
Qed.

Lemma fetched_networks units : ordered units -> postSyncNetworks units <> [] -> fetched units <> [].
Proof.
  intros Ho Hne Hf. unfold postSyncNetworks in Hne. fold (fetched units) in Hne. rewrite Hf in Hne. apply Hne.
  assert (Hnone : forall k, In k postSyncKinds -> rows k units = []).
  { destruct Ho as [Hpar _ Hprom _ Hconv Hagg].
    assert (Hp : ~ has PROMOTION units) by (intros Hp; destruct (Hprom Hp) as (_ & _ & ? & _); contradiction).
    assert (Hc : ~ has CONVERSION_PROMOTION units) by (intros Hc; apply Hp, promotion_resolved, Hconv, Hc).
    assert (Ha : ~ has AGGREGATION units) by (intros Ha; apply Hc, stage_resolved, Hagg, Ha).
    assert (Hm : ~ has AWIN_PARENT_MATERIALIZATION units) by (intros Hm; destruct (Hpar Hm); contradiction).
    intros k Hk. destruct (rows_nil_or k units) as [|(row & Hr)]; [assumption|].
    assert (Hh : has k units) by (unfold has; intros E; rewrite E in Hr; set_solver).
    cbn in Hk. decompose [or] Hk; subst; contradiction. }
  apply sorted_nil. change (fold_left _ postSyncKinds []) with
    (fold_left (fun acc kind => collect_field (fun unit => isBoundedStageUnit unit kind) "networkSource" units acc) postSyncKinds []).
  assert (Hcol : forall k acc, In k postSyncKinds ->
    collect_field (fun unit => isBoundedStageUnit unit k) "networkSource" units acc = acc).
  { intros k acc Hk. rewrite collect_field_rows. fold (rows k units). now rewrite Hnone. }
  cbn [fold_left postSyncKinds]. now rewrite !Hcol by (cbn; tauto).
Qed.

Lemma awin_walk units :
  parents_of_awin units ->
  walkState units AWIN_PARENT_MATERIALIZATION (Some AWIN_MATERIALIZATION_NETWORK_SOURCE) None None
  = stageState units AWIN_PARENT_MATERIALIZATION.
Proof.
  intros Hawin. rewrite walkState_rows, stageState_rows. unfold walkState. f_equal.
  unfold parents_of_awin in Hawin. transitivity (List.filter (fun _ => true) (rows AWIN_PARENT_MATERIALIZATION units)).
  - apply filter_bool_ext. intros u Hu. rewrite Forall_forall in Hawin. unfold in_walk. rewrite (Hawin u Hu).
    apply elem_of_filter_bool in Hu as [_ ->]. reflexivity.
  - induction (rows _ units) as [|u l IH]; [reflexivity|]. cbn. f_equal. apply IH. now inversion Hawin.
Qed.
Lemma required_parents units :
  fetched units <> [] -> awinParentMaterializationRequired units = true ->
  AWIN_MATERIALIZATION_NETWORK_SOURCE ∈ fetched units \/ has AWIN_PARENT_MATERIALIZATION units.
Proof.
  intros Hf. unfold awinParentMaterializationRequired. rewrite postSyncNetworks_fetched by exact Hf.
  rewrite orb_true_iff, !existsb_exists. intros [(n & Hn & E%String.eqb_eq)|(u & Hu & Hb)].
  - left. rewrite E. apply elem_of_sorted. now apply list_elem_of_In.
  - right. intros E. assert (Hin : u ∈ rows AWIN_PARENT_MATERIALIZATION units)
      by (apply elem_of_filter_bool; split; [now apply list_elem_of_In|exact Hb]). rewrite E in Hin. set_solver.
Qed.
Lemma materialized_done units : ordered units -> materialized units -> done AWIN_PARENT_MATERIALIZATION units.
Proof.
  intros Ho Hm. destruct (rows_nil_or AWIN_PARENT_MATERIALIZATION units) as [E|(u & Hu)];
    [unfold done; rewrite E; constructor|].
  unfold materialized in Hm. rewrite awin_walk in Hm by apply Ho. apply stage_resolved, Hm.
  unfold awinParentMaterializationRequired. apply orb_true_iff. right. apply existsb_exists. exists u.
  apply elem_of_filter_bool in Hu as [Hu Hb]. split; [now apply list_elem_of_In|exact Hb].
Qed.

(** Once promotion is under way, or being seeded, no parent is seeded any more. *)
Lemma gate_no_parents units new :
  ordered units -> gate_rows units new -> has PROMOTION (units ++ new) -> rows AWIN_PARENT_MATERIALIZATION new = [].
Proof.
  intros Ho Hg Hp. destruct (rows_nil_or AWIN_PARENT_MATERIALIZATION new) as [|(row & Hr)]; [assumption|exfalso].
  destruct (gate_row _ _ _ _ Hg Hr) as (seed & Hc & _ & Hk). destruct Hc; try discriminate Hk.
  unfold has in Hp. rewrite rows_app in Hp. destruct (rows_nil_or PROMOTION new) as [E|(row' & Hr')].
  - rewrite E, app_nil_r in Hp. destruct (ord_promotion _ Ho Hp) as (_ & _ & Hf & Haw).
    destruct (required_parents units Hf H0) as [Hin|Hh]; [apply Haw in Hin as Hh|];
      rewrite awin_walk in H1 by apply Ho; now apply stage_absent in H1.
  - destruct (gate_row _ _ _ _ Hg Hr') as (seed' & Hc' & _ & Hk').
    destruct Hc'; try discriminate Hk'; unfold materialized in *; match goal with Hm : _ -> _ = resolved |- _ => rewrite Hm in H1 by assumption; discriminate end.
Qed.

Lemma gate_promotion_resolved units new :
  gate_rows units new -> promotionStageState units = resolved -> rows PROMOTION new = [].
Proof.
  intros Hg Hr. destruct (rows_nil_or PROMOTION new) as [|(row & Hrow)]; [assumption|exfalso].
  destruct (gate_row _ _ _ _ Hg Hrow) as (seed & Hc & _ & Hk). destruct Hc; try discriminate Hk; [|congruence].
  apply promotion_resolved in Hr as [Hh _]. now apply stage_absent in Hh.
Qed.
(** A campaign page is only seeded when there is no promotion unit yet. *)
Lemma gate_campaign units new n :
  gate_rows units new -> has PROMOTION units ->
  Forall (fun row => in_walk PROMOTION (Some n) (Some PROMOTION_FIRST_TYPE) None row = false) new.
Proof.
  intros Hg Hp. apply Forall_forall. intros row Hrow. apply not_true_is_false. rewrite in_walk_promotion. intros Hin. split_bools.
  assert (Hr : row ∈ rows PROMOTION new) by (apply elem_of_filter_bool; auto).
  destruct (gate_row _ _ _ _ Hg Hr) as (seed & Hc & Hrs & Hk).
  rewrite (carries_field row seed "entityType" Hrs) in * by (cbn; tauto).
  destruct Hc as [| n'| n' e' _ He| |]; try discriminate Hk.
  - now apply stage_absent in Hp.
  - change ((promotionSeed n' e')@."entityType") with (JStr e') in *. cbn [is_str] in *. split_bools. subst e'.
    unfold PROMOTION_FOLLOWING_TYPES in He. set_solver.
Qed.
Lemma network_name units n :
  (n ∈ postSyncNetworks units -> n <> "") /\ (n ∈ promotionNetworksSeeded units -> n <> "").
Proof.
  assert (Hcol : forall p f l acc, (forall x, x ∈ acc -> x <> "") -> forall x, x ∈ collect_field p f l acc -> x <> "").
  { intros p f l acc Hacc x [Hx|[? _]]%elem_of_collect_field; auto. }
  split.
  - unfold postSyncNetworks. fold (fetched units). destruct (fetched units) as [|x l] eqn:E; rewrite elem_of_sorted.
    + cbn [fold_left postSyncKinds]. intros Hn. revert n Hn. do 4 apply Hcol. set_solver.
    + intros Hn. revert n Hn. rewrite <- E. apply Hcol. set_solver.
  - unfold promotionNetworksSeeded. rewrite elem_of_sorted. revert n. apply Hcol. set_solver.
Qed.

Lemma gate_keeps_parents units new :
  gate_rows units new -> ordered units -> has AWIN_PARENT_MATERIALIZATION (units ++ new) -> fetched units <> [].
Proof.
  intros Hg Ho Hm. unfold has in Hm. rewrite rows_app in Hm.
  destruct (rows_nil_or AWIN_PARENT_MATERIALIZATION new) as [E|(row & Hr)];
    [rewrite E, app_nil_r in Hm; now apply (ord_parents _ Ho)|].
  destruct (gate_row _ _ _ _ Hg Hr) as (seed & Hc & _ & Hk). destruct Hc as [Hreq Hw| | | |]; try discriminate Hk.
  destruct (decide (postSyncNetworks units = [])) as [E|Hne]; [|now apply fetched_networks].
  unfold awinParentMaterializationRequired in Hreq. rewrite E in Hreq. cbn in Hreq.
  apply existsb_exists in Hreq as (u & Hu & Hb). apply (ord_parents _ Ho). intros Er.
  assert (Hin : u ∈ rows AWIN_PARENT_MATERIALIZATION units) by (apply elem_of_filter_bool; split; [now apply list_elem_of_In|exact Hb]).
  rewrite Er in Hin. set_solver.
Qed.

Lemma walk_resolved_has units n e : promotion_walk units n e = resolved -> has PROMOTION units.
Proof. unfold promotion_walk. rewrite walkState_rows. intros Hw E. rewrite E in Hw. discriminate. Qed.

Lemma gate_keeps_promotion units new :
  gate_rows units new -> ordered units -> has PROMOTION (units ++ new) ->
  done AWIN_PARENT_MATERIALIZATION units /\ fetched units <> []
  /\ (AWIN_MATERIALIZATION_NETWORK_SOURCE ∈ fetched units -> has AWIN_PARENT_MATERIALIZATION units).
Proof.
  intros Hg Ho Hp. unfold has in Hp. rewrite rows_app in Hp. destruct (rows_nil_or PROMOTION new) as [E|(row & Hr)];
    [rewrite E, app_nil_r in Hp; now destruct (ord_promotion _ Ho Hp) as (_ & ? & ? & ?)|].
  destruct (gate_row _ _ _ _ Hg Hr) as (seed & Hc & _ & Hk).
  destruct Hc as [|n Hmat Habs Hin|n e Hmat _ _ _ _ Hw _| |]; try discriminate Hk;
    [|apply walk_resolved_has in Hw as Hh; now destruct (ord_promotion _ Ho Hh) as (_ & ? & ? & ?)].
  assert (Hf : fetched units <> []) by (apply fetched_networks; [exact Ho|]; intros E; rewrite E in Hin; set_solver).
  split_and!; [now apply materialized_done|exact Hf|]. intros Haw. apply stage_resolved. rewrite <- awin_walk by apply Ho.
  apply Hmat. unfold awinParentMaterializationRequired. apply orb_true_iff. left. apply existsb_exists.
  exists AWIN_MATERIALIZATION_NETWORK_SOURCE. split; [|apply String.eqb_refl].
  apply list_elem_of_In. rewrite postSyncNetworks_fetched by exact Hf. now apply elem_of_sorted.
Qed.

Lemma gate_keeps_walks units new :
  gate_rows units new -> ordered units -> Forall (walk_ready (units ++ new)) (rows PROMOTION (units ++ new)).
Proof.
  intros Hg Ho. rewrite rows_app. apply Forall_app. split; apply Forall_forall.
  - intros u Hu. destruct (proj1 (Forall_forall _ _) (ord_walks _ Ho) u Hu) as (n & e & Hns & He & Hne & Hr).
    exists n, e. split_and!; auto. destruct Hr as [->|Hr]; [auto|]. right. rewrite promotion_walk_app; [exact Hr|].
    apply (gate_campaign units new n Hg). now apply walk_resolved_has in Hr.
  - intros row Hr. destruct (gate_row _ _ _ _ Hg Hr) as (seed & Hc & Hrow & Hk).
    unfold walk_ready. rewrite (carries_field row _ "networkSource" Hrow), (carries_field row _ "entityType" Hrow) by (cbn; tauto).
    destruct Hc as [|n _ _ Hin|n e _ He _ Hin _ Hw _| |]; try discriminate Hk.
    + exists n, PROMOTION_FIRST_TYPE. split_and!; [reflexivity|reflexivity|exact (proj1 (network_name units n) Hin)|now left].
    + exists n, e. split_and!; [reflexivity|reflexivity|exact (proj2 (network_name units n) Hin)|]. right.
      rewrite promotion_walk_app; [exact Hw|]. apply (gate_campaign units new n Hg). now apply walk_resolved_has in Hw.
Qed.

(** A later stage the gate seeds, or finds, means the stage before is finished. *)
Lemma gate_conversion units new :
  gate_rows units new -> ordered units -> has CONVERSION_PROMOTION (units ++ new) -> promotionStageState units = resolved.
Proof.
  intros Hg Ho Hc. unfold has in Hc. rewrite rows_app in Hc. destruct (rows_nil_or CONVERSION_PROMOTION new) as [E|(row & Hr)];
    [rewrite E, app_nil_r in Hc; now apply (ord_conversion _ Ho)|].
  destruct (gate_row _ _ _ _ Hg Hr) as (seed & Hs & _ & Hk). destruct Hs; try discriminate Hk. assumption.
Qed.
Lemma gate_aggregation units new :
  gate_rows units new -> ordered units -> has AGGREGATION (units ++ new) ->
  stageState units CONVERSION_PROMOTION = resolved.
Proof.
  intros Hg Ho Ha. unfold has in Ha. rewrite rows_app in Ha. destruct (rows_nil_or AGGREGATION new) as [E|(row & Hr)];
    [rewrite E, app_nil_r in Ha; now apply (ord_aggregation _ Ho)|].
  destruct (gate_row _ _ _ _ Hg Hr) as (seed & Hs & _ & Hk). destruct Hs; try discriminate Hk. assumption.
Qed.

Lemma ordered_gate units new :
  done NETWORK units -> gate_rows units new -> ordered units -> ordered (units ++ new).
Proof.
  intros Hnet Hg Ho. pose proof (gate_no_network units new Hg) as Hn.
  assert (Hpend : Forall (fun row => status row = PENDING) new) by (eapply Forall_impl; [exact Hg|]; intros ? [? _]; assumption).
  assert (Hnet' : done NETWORK (units ++ new)) by (unfold done; now rewrite rows_app, Hn, app_nil_r).
  split; rewrite ?(fetched_app units new Hpend).
  - intros Hm. split; [exact Hnet'|]. now apply gate_keeps_parents in Hm.
  - unfold parents_of_awin. rewrite rows_app. apply Forall_app. split; [apply (ord_awin _ Ho)|]. apply Forall_forall. intros row Hr.
    destruct (gate_row _ _ _ _ Hg Hr) as (seed & Hc & Hrow & Hk). rewrite (carries_field row seed "networkSource" Hrow) by (cbn; tauto).
    destruct Hc; try discriminate Hk. reflexivity.
  - intros Hp. pose proof (gate_no_parents units new Ho Hg Hp) as Hm. split; [exact Hnet'|].
    unfold done, has. rewrite (rows_app AWIN_PARENT_MATERIALIZATION), Hm, app_nil_r. now apply (gate_keeps_promotion units new).
  - now apply gate_keeps_walks.
  - intros Hc. pose proof (gate_conversion units new Hg Ho Hc) as Hres.
    rewrite (promotion_state_eq units); [exact Hres|]. now rewrite rows_app, (gate_promotion_resolved units new Hg Hres), app_nil_r.
  - intros Ha. pose proof (gate_aggregation units new Hg Ho Ha) as Hres.
    rewrite stageState_rows, rows_app. destruct (rows_nil_or CONVERSION_PROMOTION new) as [->|(row & Hr)]; [now rewrite app_nil_r|].
    destruct (gate_row _ _ _ _ Hg Hr) as (seed & Hs & _ & Hk). destruct Hs; try discriminate Hk. congruence.
Qed.

(** A run as it is created: its bounded units are network units. *)
Definition network_only (units : list JobRun) : Prop := forall k, In k postSyncKinds -> rows k units = [].

Lemma network_only_ordered units : network_only units -> ordered units.
Proof.
  intros Hn. assert (Hno : forall k, In k postSyncKinds -> ~ has k units) by (intros k Hk Hh; now apply Hh, Hn).
  split; try (intros Hh; exfalso; revert Hh; apply Hno; cbn; tauto).
  - unfold parents_of_awin. rewrite Hn by (cbn; tauto). constructor.
  - rewrite Hn by (cbn; tauto). constructor.
Qed.

Lemma run_step_ordered units units' : run_step units units' -> ordered units -> ordered units'.
Proof.
  intros Hs Ho. destruct Hs as [units i j st Hi Ha|units i j u row Hi Hr Hp Hc Hpend Hrow|units requested deferred started t new Ht Hnew].
  - now apply ordered_status.
  - eapply ordered_continue; eassumption.
  - destruct new as [|row new]; [now rewrite app_nil_r|].
    assert (Hfirst : exists seed, seed ∈ seeds t) by (inversion Hnew as [|? ? (_ & seed & ? & _)]; eauto).
    destruct Hfirst as (seed & Hseed). destruct (gate_lemma daysBack _ _ _ _ _ _ Ht Hseed) as (_ & _ & Hdone & _).
    apply ordered_gate; [exact Hdone| |exact Ho]. eapply Forall_impl; [exact Hnew|]. intros row' (Hpend & seed' & Hs' & Hc').
    split; [exact Hpend|]. exists seed'. split; [|exact Hc'].
    destruct (gate_lemma daysBack _ _ _ _ _ _ Ht Hs') as (_ & _ & _ & ?). assumption.
Qed.

Lemma run_ordered units units' : network_only units -> rtc run_step units units' -> ordered units'.
Proof.
  intros Hn Hs. apply network_only_ordered in Hn. induction Hs as [|a b c Hab _ IH]; [exact Hn|].
  apply IH. eapply run_step_ordered; eassumption.
Qed.


(** Nothing is seeded without a request, past a failure, before the network phase is over,
    or ahead of the stage it depends on. *)
Theorem gate_never_skips units requested deferred started t seed :
  planPostSyncTransition daysBack units requested deferred started = Ok t -> seed ∈ seeds t ->
  requested = true /\ failureStageOf units = None /\ done NETWORK units /\ cleared units seed.
Proof. apply gate_lemma. Qed.

(** *** The aggregation window *)

Lemma set_date_regular t k :
  regular_day (t / ms_per_day + k) ->
  exists t', set_utc_date t (utc_date t + k) = Some t' /\ t' / ms_per_day = t / ms_per_day + k.
Proof.
  intros Hr. unfold set_utc_date. rewrite make_day_utc. set (d := t / ms_per_day + k) in *.
  assert (Hm : 0 <= t mod ms_per_day < ms_per_day) by (apply Z.mod_pos_bound; reflexivity).
  exists (d * ms_per_day + t mod ms_per_day). split.
  - apply time_clip_in. unfold regular_day, first_day, last_day, ms_per_day, max_time in *. lia.
  - rewrite Z.add_comm, Z.div_add, Z.div_small by (unfold ms_per_day in *; lia). lia.
Qed.

Lemma day_loop_days fuel n l :
  first_day <= n -> l < last_day -> n <= l + 1 -> (Z.to_nat (l - n + 1) <= fuel)%nat ->
  day_loop fuel (Some (n * ms_per_day)) (Some (l * ms_per_day)) = Ok (map day_text (seqZ n (l - n + 1))).
Proof.
  intros Hn Hl. revert n Hn. induction fuel as [|fuel IH]; intros n Hn Hnl Hf; cbn [day_loop].
  - rewrite (proj2 (Z.leb_gt _ _)) by (unfold ms_per_day; lia). now rewrite seqZ_nil by lia.
  - destruct (Z.leb_spec (n * ms_per_day) (l * ms_per_day)) as [Hle|Hgt].
    + rewrite set_date_shift by (unfold regular_day, ms_per_day in *; lia). rewrite IH by (unfold ms_per_day in *; lia).
      cbn [outcome_bind]. rewrite (seqZ_cons n) by (unfold ms_per_day in *; lia). cbn [map].
      replace (Z.pred (l - n + 1)) with (l - (n + 1) + 1) by lia. reflexivity.
    + now rewrite seqZ_nil by (unfold ms_per_day in *; lia).
Qed.

Lemma aggregationDays_lemma t :
  let day := t / ms_per_day in let back := Z.max 1 daysBack in
  first_day <= day - back -> day < last_day ->
  exists w, aggregationWindowFor daysBack (JDate (Some t)) = Ok w
    /\ aggregationDaysFor daysBack (JDate (Some t)) = Ok (map day_text (seqZ (day - back) (back + 1))).
Proof.
  intros day back Hlo Hhi. unfold aggregationDaysFor, aggregationWindowFor. fold back.
  rewrite <- (Z.add_opp_r (utc_date t)). destruct (set_date_regular t (- back)) as (t' & -> & Ht');
    [unfold regular_day; fold day; lia|]. eexists. split; [reflexivity|]. cbn [outcome_bind window_from window_to].
  rewrite !iso_slice_day by (rewrite ?Ht'; fold day; unfold regular_day; lia). rewrite Ht'. fold day.
  assert (Hfrom : regular_day (day + - back)) by (unfold regular_day; lia).
  assert (Hto : regular_day day) by (unfold regular_day; lia).
  unfold date_parse. rewrite (proj2 (iso_parse_day _ Hfrom)), (proj2 (iso_parse_day _ Hto)), !regular_clip_day by assumption.
  rewrite day_loop_days by lia. do 3 f_equal; lia.
Qed.

(** The aggregation units of a run cover the [daysBack + 1] days up to the day the run
    started, each once and in order, whatever the time at which they are planned. *)
Theorem aggregation_window_pinned t :
  let day := t / ms_per_day in let back := Z.max 1 daysBack in
  first_day <= day - back -> day < last_day ->
  aggregationDaysFor daysBack (JDate (Some t)) = Ok (map day_text (seqZ (day - back) (back + 1))).
Proof. intros day back Hlo Hhi. now destruct (aggregationDays_lemma t Hlo Hhi) as (w & _ & ?). Qed.

(** *** Progress *)

(** Every bounded unit of the run has completed. *)
Definition all_done (units : list JobRun) : Prop := forall k, In k (NETWORK :: postSyncKinds) -> done k units.

Lemma done_state units k : done k units -> stageState units k = absent \/ stageState units k = resolved.
Proof.
  intros Hd. destruct (decide (has k units)) as [Hh|Hn]; [right; now apply stage_resolved|left].
  now apply stage_absent.
Qed.
Lemma done_walk units k n e d : done k units -> walkState units k n e d = absent \/ walkState units k n e d = resolved.
Proof.
  intros Hd. rewrite walkState_rows. unfold walkState. destruct (List.filter _ (rows k units)) as [|u l] eqn:E; [now left|right].
  apply rows_state_resolved. split; [discriminate|]. rewrite <- E. apply Forall_forall. intros v [Hv _]%elem_of_filter_bool.
  unfold done, all_completed in Hd. rewrite Forall_forall in Hd. auto.
Qed.
Lemma done_no_failure units : all_done units -> failureStageOf units = None.
Proof.
  intros Hall. assert (Hf : forall k, In k (NETWORK :: postSyncKinds) ->
    existsb (fun unit => is_kind k unit && negb (isPlaceholderUnit unit) && FAILED_STATUSES (status unit)) units = false).
  { intros k Hk. apply existsb_false, Forall_forall. intros u Hu. apply not_true_is_false. intros [Hb Hs]%andb_true_iff.
    specialize (Hall k Hk). unfold done, all_completed in Hall. rewrite Forall_forall in Hall.
    rewrite (Hall u) in Hs; [discriminate|]. now apply elem_of_filter_bool. }
  unfold failureStageOf. now rewrite !Hf by (cbn; tauto).
Qed.
Lemma network_rows_completed l : all_completed l -> network_rows l = None.
Proof. induction 1 as [|u l Hu _ IH]; [reflexivity|]. cbn [network_rows]. now rewrite Hu. Qed.
Lemma fetched_network units : fetched units <> [] -> has NETWORK units.
Proof. rewrite fetched_rows. unfold has. intros Hf E. rewrite E in Hf. now apply Hf. Qed.
Lemma network_complete units deferred :
  done NETWORK units -> has NETWORK units -> deferred_unresolved deferred = false ->
  complete (networkPhaseState units deferred) = true.
Proof.
  unfold networkPhaseState, done, has. rewrite rows_network. intros Hd Hh Hdef.
  destruct (List.filter (is_kind NETWORK) units) as [|u l]; [congruence|]. now rewrite network_rows_completed, Hdef.
Qed.

(** A seeded network whose promotion is not finished has a dependant left to seed. *)
Lemma unfinished_dependant units n :
  ordered units -> done PROMOTION units -> n ∈ promotionNetworksSeeded units -> promoted_fully units n = false ->
  dependant_seeds units n <> [].
Proof.
  intros Ho Hd Hn Hf. unfold promotionNetworksSeeded in Hn. rewrite elem_of_sorted, elem_of_collect_field in Hn.
  destruct Hn as [Hn|(_ & u & Hu & Hb & Hns)]; [set_solver|].
  assert (Hur : u ∈ rows PROMOTION units) by (now apply elem_of_filter_bool).
  assert (Hcamp : promotion_walk units n PROMOTION_FIRST_TYPE = resolved).
  { destruct (proj1 (Forall_forall _ _) (ord_walks _ Ho) u Hur) as (n' & e & Hns' & He & _ & Hr).
    rewrite Hns in Hns'. injection Hns' as <-. destruct Hr as [->|Hr]; [|exact Hr].
    destruct (done_walk units PROMOTION (Some n) (Some PROMOTION_FIRST_TYPE) None Hd) as [Ha|Ha]; [|exact Ha].
    apply rows_state_absent in Ha. exfalso. eapply (not_elem_of_nil (A := JobRun)). rewrite <- Ha. apply elem_of_filter_bool.
    split; [exact Hu|]. rewrite in_walk_promotion, Hb, Hns, He. cbn. now rewrite !String.eqb_refl. }
  unfold dependant_seeds. rewrite Hcamp, bool_decide_true by reflexivity. cbn [negb PROMOTION_FOLLOWING_TYPES flat_map].
  unfold promoted_fully in Hf. cbn [forallb] in Hf. rewrite Hcamp in Hf. rewrite bool_decide_true in Hf by reflexivity. cbn [andb] in Hf.
  change ("coupon" =s? OFFER_ENTITY_TYPE) with false. cbn [andb]. rewrite String.eqb_refl. cbn [andb].
  assert (Hw : forall e, promotion_walk units n e = absent \/ promotion_walk units n e = resolved) by (intros e; now apply done_walk).
  destruct (Hw "coupon") as [->|Hc]; [discriminate|]. rewrite Hc in *. cbn [bool_decide negb andb] in *.
  rewrite bool_decide_true in Hf by reflexivity. rewrite bool_decide_false by discriminate. cbn [andb negb app] in *.
  destruct (n =s? OFFER_NETWORK_SOURCE); [|discriminate]. cbn [negb].
  destruct (Hw OFFER_ENTITY_TYPE) as [->|Hc']; [discriminate|]. rewrite Hc', bool_decide_true in Hf by reflexivity. discriminate.
Qed.

Lemma plan_promotion_progress units t :
  ordered units -> all_done units -> fetched units <> [] ->
  first_day <= t / ms_per_day - Z.max 1 daysBack -> t / ms_per_day < last_day ->
  exists tr, plan_promotion daysBack units (JDate (Some t)) = Ok tr /\ (seeds tr <> [] \/ stage tr = STAGE_COMPLETED).
Proof.
  intros Ho Hall Hf Hlo Hhi. assert (Hnets : postSyncNetworks units <> []).
  { rewrite postSyncNetworks_fetched by exact Hf. now rewrite sorted_nil. }
  assert (Hd : forall k, In k postSyncKinds -> done k units) by (intros k Hk; apply Hall; now right).
  unfold plan_promotion. destruct (done_state units PROMOTION) as [Hp|Hp]; [apply Hd; cbn; tauto|rewrite Hp|rewrite Hp].
  - rewrite bool_decide_true by reflexivity. destruct (postSyncNetworks units); [congruence|].
    eexists. split; [reflexivity|]. left. discriminate.
  - rewrite !bool_decide_false by discriminate. cbn [orb]. unfold promotionStageState. rewrite Hp.
    destruct (forallb (promoted_fully units) (promotionNetworksSeeded units)) eqn:Ef.
    + rewrite bool_decide_true by reflexivity. cbn [negb]. unfold plan_conversion.
      destruct (done_state units CONVERSION_PROMOTION) as [Hc|Hc]; [apply Hd; cbn; tauto|rewrite Hc|rewrite Hc].
      * eexists. split; [reflexivity|]. left. cbn [seeds]. now destruct (postSyncNetworks units).
      * unfold plan_aggregation. destruct (done_state units AGGREGATION) as [Ha|Ha]; [apply Hd; cbn; tauto|rewrite Ha|rewrite Ha].
        -- cbn [truthy negb]. destruct (aggregationDays_lemma t Hlo Hhi) as (w & -> & ->). cbn [outcome_bind].
           eexists. split; [reflexivity|]. left. cbn [seeds]. rewrite seqZ_cons by lia. discriminate.
        -- eexists. split; [reflexivity|]. now right.
    + rewrite bool_decide_false by discriminate. cbn [negb]. eexists. split; [reflexivity|]. left. cbn [seeds].
      apply not_true_iff_false in Ef. rewrite forallb_forall in Ef.
      intros E. apply Ef. intros n Hn. apply not_false_iff_true. intros Hun.
      apply (unfinished_dependant units n Ho); [apply Hd; cbn; tauto|now apply list_elem_of_In|exact Hun|].
      destruct (dependant_seeds units n) as [|x l] eqn:Ed; [reflexivity|]. exfalso.
      assert (Hin : In x (flat_map (dependant_seeds units) (promotionNetworksSeeded units)))
        by (apply in_flat_map; exists n; rewrite Ed; split; [exact Hn|now left]).
      now rewrite E in Hin.
Qed.


(** *** Replays *)

Lemma failureStageOf_app units new :
  Forall (fun row => status row = PENDING) new -> failureStageOf (units ++ new) = failureStageOf units.
Proof.
  intros Hnew. unfold failureStageOf. rewrite !existsb_app.
  assert (Hf : forall k, existsb (fun unit => is_kind k unit && negb (isPlaceholderUnit unit) && FAILED_STATUSES (status unit)) new = false).
  { intros k. apply existsb_false. eapply Forall_impl; [exact Hnew|]. intros row Hr. cbn. now rewrite Hr, andb_false_r. }
  now rewrite !Hf, !orb_false_r.
Qed.
Lemma network_state_app units new deferred :
  has NETWORK units -> rows NETWORK new = [] -> networkPhaseState (units ++ new) deferred = networkPhaseState units deferred.
Proof.
  unfold has. rewrite !rows_network. intros Hh Hn. unfold networkPhaseState. rewrite List.filter_app, Hn, app_nil_r.
  now destruct (List.filter (is_kind NETWORK) units).
Qed.
Lemma required_app units new :
  fetched units <> [] -> Forall (fun row => status row = PENDING) new -> rows AWIN_PARENT_MATERIALIZATION new = [] ->
  awinParentMaterializationRequired (units ++ new) = awinParentMaterializationRequired units.
Proof.
  intros Hf Hp Hr. unfold awinParentMaterializationRequired. rewrite !postSyncNetworks_fetched by (now rewrite ?fetched_app).
  rewrite fetched_app, existsb_app by exact Hp. replace (existsb _ new) with false; [now rewrite orb_false_r|].
  symmetry. apply existsb_false, Forall_forall. intros row Hrow. apply not_true_is_false. intros Hb.
  assert (Hin : row ∈ rows AWIN_PARENT_MATERIALIZATION new) by (now apply elem_of_filter_bool). rewrite Hr in Hin. set_solver.
Qed.
Lemma walk_app units new k n e d : rows k new = [] -> walkState (units ++ new) k n e d = walkState units k n e d.
Proof. intros E. rewrite walkState_rows, rows_app, E, app_nil_r, <- walkState_rows. reflexivity. Qed.

(** The units of a pending walk keep the gate from seeding it again. *)
Lemma pending_row_state k units new row :
  row ∈ new -> status row = PENDING -> isBoundedStageUnit row k = true ->
  stageState (units ++ new) k = failed \/ stageState (units ++ new) k = outstanding.
Proof.
  intros Hr Hs Hb. apply rows_state_active with row; [|now rewrite Hs].
  apply elem_of_filter_bool. split; [apply elem_of_app; now right|exact Hb].
Qed.

(** The rows [new] are exactly those of the seeds of [t]. *)
Record appended (t : transition) (new : list JobRun) : Prop := {
  app_rows : Forall (fun row => status row = PENDING /\ exists seed, seed ∈ seeds t /\ carries row seed) new;
  app_seeds : forall seed, seed ∈ seeds t -> exists row, row ∈ new /\ carries row seed
}.

Lemma appended_row t new seed :
  appended t new -> seed ∈ seeds t -> exists row, row ∈ new /\ status row = PENDING /\ carries row seed.
Proof.
  intros [Hr Hs] Hseed. destruct (Hs seed Hseed) as (row & Hrow & Hc). exists row. split_and!; auto.
  rewrite Forall_forall in Hr. now destruct (Hr row Hrow).
Qed.

(** The seed of a dependant walk makes it present. *)
Lemma seeded_walk_present units new row n e :
  row ∈ new -> carries row (promotionSeed n e) -> promotion_walk (units ++ new) n e <> absent.
Proof.
  intros Hr Hc Ha. apply rows_state_absent in Ha. eapply (not_elem_of_nil (A := JobRun)). rewrite <- Ha. apply elem_of_filter_bool.
  split; [apply elem_of_app; right; exact Hr|]. rewrite in_walk_promotion, (carries_bounded row _ PROMOTION Hc) by reflexivity.
  rewrite (carries_field row _ "networkSource" Hc), (carries_field row _ "entityType" Hc) by (cbn; tauto). cbn.
  now rewrite !String.eqb_refl.
Qed.
Lemma walk_present_app units new n e : promotion_walk units n e <> absent -> promotion_walk (units ++ new) n e <> absent.
Proof.
  intros Hp Ha. apply Hp. apply rows_state_absent in Ha. rewrite List.filter_app in Ha. apply app_nil in Ha as [Ha _].
  apply rows_state_absent. exact Ha.
Qed.
Lemma dependant_seeds_nil units n :
  (promotion_walk units n PROMOTION_FIRST_TYPE = resolved ->
   forall e, e ∈ PROMOTION_FOLLOWING_TYPES -> (e = OFFER_ENTITY_TYPE -> n = OFFER_NETWORK_SOURCE) -> promotion_walk units n e <> absent) ->
  dependant_seeds units n = [].
Proof.
  intros Hw. destruct (dependant_seeds units n) as [|seed l] eqn:E; [reflexivity|exfalso].
  destruct (dependant_seeds_spec units n seed) as (Hc & e & _ & He & Hoff & Ha); [rewrite E; left|]. now apply (Hw Hc e).
Qed.
Lemma dependant_seed_in units n e :
  promotion_walk units n PROMOTION_FIRST_TYPE = resolved -> e ∈ PROMOTION_FOLLOWING_TYPES ->
  (e = OFFER_ENTITY_TYPE -> n = OFFER_NETWORK_SOURCE) -> promotion_walk units n e = absent ->
  promotionSeed n e ∈ dependant_seeds units n.
Proof.
  intros Hc He Hoff Ha. unfold dependant_seeds. rewrite Hc, bool_decide_true by reflexivity. cbn [negb].
  apply list_elem_of_In, in_flat_map. exists e. split; [now apply list_elem_of_In|]. rewrite Ha, bool_decide_true by reflexivity.
  destruct (e =s? OFFER_ENTITY_TYPE) eqn:E; [|now left]. apply String.eqb_eq in E. rewrite (Hoff E), String.eqb_refl. now left.
Qed.

Lemma resolved_walk_seeded units n e :
  n <> "" -> promotion_walk units n e = resolved -> n ∈ promotionNetworksSeeded units.
Proof.
  intros Hne [Hnn _]%rows_state_resolved. unfold promotionNetworksSeeded. rewrite elem_of_sorted, elem_of_collect_field. right.
  split; [exact Hne|]. destruct (List.filter _ units) as [|u l] eqn:E; [congruence|]. exists u.
  assert (Hu : u ∈ List.filter (in_walk PROMOTION (Some n) (Some e) None) units) by (rewrite E; left).
  apply elem_of_filter_bool in Hu as [Hu Hw]. rewrite in_walk_promotion in Hw. split_bools. split_and!; auto using is_str_eq.
Qed.

(** Once a promotion unit is pending, only missing dependants can be seeded. *)
Lemma plan_promotion_pending units started :
  (stageState units PROMOTION = failed \/ stageState units PROMOTION = outstanding) ->
  (forall n, n ∈ promotionNetworksSeeded units -> dependant_seeds units n = []) ->
  exists t, plan_promotion daysBack units started = Ok t /\ seeds t = [].
Proof.
  intros Hp Hnil. unfold plan_promotion, promotionStageState. eexists.
  destruct Hp as [-> | ->]; (split; [reflexivity|]); cbn [seeds].
  all: induction (promotionNetworksSeeded units) as [|n l IH]; [reflexivity|]; cbn [flat_map]; rewrite Hnil by (now left);
    apply IH; intros m Hm; apply Hnil; now right.
Qed.
Lemma plan_conversion_pending units started k :
  promotionStageState units = resolved ->
  (k = CONVERSION_PROMOTION \/ (k = AGGREGATION /\ stageState units CONVERSION_PROMOTION = resolved)) ->
  (stageState units k = failed \/ stageState units k = outstanding) ->
  exists t, plan_promotion daysBack units started = Ok t /\ seeds t = [].
Proof.
  intros Hr Hk Hs. assert (Hp : stageState units PROMOTION = resolved) by (now apply stage_resolved, promotion_resolved).
  unfold plan_promotion, plan_conversion, plan_aggregation. rewrite Hp, Hr.
  destruct Hk as [->|[-> ->]]; destruct Hs as [-> | ->]; eexists; split; reflexivity.
Qed.

Lemma replay_campaigns units new started t :
  stageState units PROMOTION = absent -> seeds t <> [] ->
  (forall seed, seed ∈ seeds t -> exists n, seed = promotionSeed n PROMOTION_FIRST_TYPE) -> appended t new ->
  exists t', plan_promotion daysBack (units ++ new) started = Ok t' /\ seeds t' = [].
Proof.
  intros Habs Hne Hall Happ. apply stage_absent in Habs. destruct (seeds t) as [|seed l] eqn:Es; [congruence|].
  destruct (Hall seed ltac:(left)) as (n & ->).
  destruct (appended_row t new (promotionSeed n PROMOTION_FIRST_TYPE) Happ) as (row & Hr & Hpend & Hc); [rewrite Es; left|].
  apply plan_promotion_pending.
  - apply pending_row_state with row; [exact Hr|exact Hpend|]. now rewrite (carries_bounded row _ PROMOTION Hc).
  - intros m _. apply dependant_seeds_nil. intros Hw. exfalso. apply rows_state_resolved in Hw as [Hnn Hcomp].
    destruct (List.filter (in_walk PROMOTION (Some m) (Some PROMOTION_FIRST_TYPE) None) (units ++ new)) as [|u us] eqn:E; [congruence|].
    assert (Hu : u ∈ List.filter (in_walk PROMOTION (Some m) (Some PROMOTION_FIRST_TYPE) None) (units ++ new)) by (rewrite E; left).
    apply elem_of_filter_bool in Hu as [[Hu|Hu]%elem_of_app Hb].
    + apply in_walk_bounded in Hb. apply Habs. intros Er.
      assert (Hin : u ∈ rows PROMOTION units) by (now apply elem_of_filter_bool). rewrite Er in Hin. set_solver.
    + inversion Hcomp as [|? ? Hs]; subst. destruct Happ as [Happ _]. rewrite Forall_forall in Happ.
      destruct (Happ u Hu) as [Hs' _]. congruence.
Qed.

Lemma replay_dependants units new started t :
  gate_rows units new -> has PROMOTION units -> seeds t <> [] ->
  seeds t = flat_map (dependant_seeds units) (promotionNetworksSeeded units) -> appended t new ->
  exists t', plan_promotion daysBack (units ++ new) started = Ok t' /\ seeds t' = [].
Proof.
  intros Hg Hh Hne Hs Happ. apply plan_promotion_pending.
  - destruct (seeds t) as [|seed l] eqn:Es; [congruence|].
    destruct (appended_row t new seed Happ) as (row & Hr & Hpend & Hc); [rewrite Es; left|].
    assert (Hin : In seed (flat_map (dependant_seeds units) (promotionNetworksSeeded units))) by (rewrite <- Hs; now left).
    apply in_flat_map in Hin as (n & _ & Hd%list_elem_of_In). apply dependant_seeds_spec in Hd as (_ & e & -> & _).
    apply pending_row_state with row; [exact Hr|exact Hpend|]. now rewrite (carries_bounded row _ PROMOTION Hc).
  - intros n Hn. apply dependant_seeds_nil. intros Hw e He Hoff.
    rewrite (promotion_walk_app units new n _ (gate_campaign units new n Hg Hh)) in Hw.
    destruct (decide (promotion_walk units n e = absent)) as [Ha|Hp]; [|now apply walk_present_app].
    pose proof (resolved_walk_seeded units n _ (proj2 (network_name _ n) Hn) Hw) as Hseed.
    destruct (appended_row t new (promotionSeed n e) Happ) as (row & Hr & _ & Hc).
    { rewrite Hs. apply list_elem_of_In, in_flat_map. exists n. split; [now apply list_elem_of_In|].
      now apply list_elem_of_In, dependant_seed_in. }
    now apply seeded_walk_present with row.
Qed.

Lemma replay_promotion units new started t :
  materialized units -> plan_promotion daysBack units started = Ok t -> seeds t <> [] -> appended t new ->
  exists t', plan_promotion daysBack (units ++ new) started = Ok t' /\ seeds t' = [].
Proof.
  intros Hm Ht Hne Happ. assert (Hg : gate_rows units new).
  { eapply Forall_impl; [exact (app_rows _ _ Happ)|]. intros row (Hp & seed & Hs & Hc). split; [exact Hp|]. exists seed.
    split; [|exact Hc]. exact (plan_promotion_cleared daysBack units started t seed Hm Ht Hs). }
  unfold plan_promotion in Ht. case_bool_decide as Hp.
  { apply replay_campaigns with t; auto. destruct (postSyncNetworks units) as [|n0 ns]; injection Ht as <-; [now destruct Hne|].
    cbn [seeds]. intros seed Hs. apply (list_elem_of_fmap (fun n => promotionSeed n PROMOTION_FIRST_TYPE) (n0 :: ns)) in Hs as (n & -> & _). eauto. }
  destruct (_ || _) eqn:Eo.
  { apply replay_dependants with t; auto; [|now injection Ht as <-].
    destruct (decide (has PROMOTION units)) as [|Hh]; [assumption|]. now apply stage_absent in Hh. }
  apply orb_false_iff in Eo as [_ Hr%negb_false_iff]. apply bool_decide_eq_true in Hr.
  assert (Hr' : promotionStageState (units ++ new) = resolved).
  { rewrite (promotion_state_eq units); [exact Hr|]. now rewrite rows_app, (gate_promotion_resolved units new Hg Hr), app_nil_r. }
  unfold plan_conversion, plan_aggregation in Ht.
  destruct (seeds t) as [|seed l] eqn:Es; [congruence|].
  destruct (appended_row t new seed Happ) as (row & Hrow & Hpend & Hc); [rewrite Es; left|].
  assert (Hseed : seed ∈ seeds t) by (rewrite Es; left).
  destruct (stageState units CONVERSION_PROMOTION) eqn:Ec; try (injection Ht as <-; discriminate Es).
  - injection Ht as <-. cbn [seeds] in Hseed. apply list_elem_of_fmap in Hseed as (n & -> & _).
    apply plan_conversion_pending with CONVERSION_PROMOTION; [exact Hr'|now left|].
    apply pending_row_state with row; [exact Hrow|exact Hpend|]. now rewrite (carries_bounded row _ CONVERSION_PROMOTION Hc).
  - destruct (stageState units AGGREGATION) eqn:Ea; try (injection Ht as <-; discriminate Es).
    destruct (truthy started); cbn [negb] in Ht; [|injection Ht as <-; discriminate Es].
    destruct (aggregationDaysFor daysBack started) as [days|]; [|discriminate].
    destruct (aggregationWindowFor daysBack started) as [w|]; [|discriminate]. injection Ht as <-. cbn [seeds] in Hseed.
    apply list_elem_of_fmap in Hseed as (day & -> & _). apply plan_conversion_pending with AGGREGATION; [exact Hr'|right|].
    + split; [reflexivity|]. rewrite stageState_rows, rows_app. destruct (rows_nil_or CONVERSION_PROMOTION new) as [->|(r & Hin)];
        [now rewrite app_nil_r|]. destruct (gate_row _ _ _ _ Hg Hin) as (sd & Hs & _ & Hk). destruct Hs; try discriminate Hk. congruence.
    + apply pending_row_state with row; [exact Hrow|exact Hpend|]. now rewrite (carries_bounded row _ AGGREGATION Hc).
Qed.

Lemma replay_parents units new row :
  ordered (units ++ new) -> row ∈ new -> status row = PENDING -> carries row awinParentMaterializationSeed ->
  awinParentMaterializationRequired (units ++ new) = true
  /\ let walk := walkState (units ++ new) AWIN_PARENT_MATERIALIZATION (Some AWIN_MATERIALIZATION_NETWORK_SOURCE) None None in
     walk = failed \/ walk = outstanding.
Proof.
  intros Ho Hrow Hp Hc.
  assert (Hb : isBoundedStageUnit row AWIN_PARENT_MATERIALIZATION = true)
    by (now rewrite (carries_bounded row _ AWIN_PARENT_MATERIALIZATION Hc)).
  split; [|cbv zeta; rewrite awin_walk by (now apply ord_awin); now apply pending_row_state with row].
  unfold awinParentMaterializationRequired. apply orb_true_iff. right. apply existsb_exists. exists row.
  split; [|exact Hb]. apply list_elem_of_In, elem_of_app. now right.
Qed.

Lemma gate_parents_settled units new :
  gate_rows units new -> materialized units -> rows AWIN_PARENT_MATERIALIZATION new = [].
Proof.
  intros Hg Hm. destruct (rows_nil_or AWIN_PARENT_MATERIALIZATION new) as [|(row & Hr)]; [assumption|exfalso].
  destruct (gate_row _ _ _ _ Hg Hr) as (seed & Hc & _ & Hk). destruct Hc as [Hreq Hw| | | |]; try discriminate Hk.
  rewrite (Hm Hreq) in Hw. discriminate.
Qed.

(** A replay adds nothing: on the rows of a run to which its seeds have been appended, the
    gate seeds no further unit until one of them settles. *)
Theorem gate_replay units0 units new deferred started t :
  network_only units0 -> rtc run_step units0 units -> fetched units <> [] ->
  planPostSyncTransition daysBack units true deferred started = Ok t -> appended t new ->
  exists t', planPostSyncTransition daysBack (units ++ new) true deferred started = Ok t' /\ seeds t' = [].
Proof.
  intros Hn Hs Hf Ht Happ. pose proof (run_ordered units0 units Hn Hs) as Ho.
  destruct (seeds t) as [|seed0 l0] eqn:Eseeds.
  { destruct new as [|row new]; [rewrite app_nil_r; eauto|]. destruct Happ as [Happ _].
    inversion Happ as [|? ? (_ & seed & Hin & _)]. rewrite Eseeds in Hin. set_solver. }
  assert (Hseed : seed0 ∈ seeds t) by (rewrite Eseeds; left).
  destruct (gate_lemma daysBack _ _ _ _ _ _ Ht Hseed) as (_ & _ & Hnet & _).
  assert (Hg : gate_rows units new).
  { eapply Forall_impl; [exact (app_rows _ _ Happ)|]. intros row (Hp & seed & Hin & Hc). split; [exact Hp|]. exists seed.
    split; [|exact Hc]. now destruct (gate_lemma daysBack _ _ _ _ _ _ Ht Hin) as (_ & _ & _ & ?). }
  assert (Hpend : Forall (fun row => status row = PENDING) new) by (eapply Forall_impl; [exact Hg|]; intros ? [? _]; assumption).
  assert (Hne : seeds t <> []) by (rewrite Eseeds; discriminate).
  unfold planPostSyncTransition in *. cbn [negb] in *. rewrite failureStageOf_app by exact Hpend.
  destruct (failureStageOf units); [injection Ht as <-; discriminate|].
  rewrite network_state_app by (eauto using fetched_network, gate_no_network).
  destruct (complete (networkPhaseState units deferred)); cbn [negb] in *; [|injection Ht as <-; discriminate].
  destruct (awinParentMaterializationRequired units) eqn:Er.
  - destruct (walkState units _ _ _ _) eqn:Ew; try (injection Ht as <-; discriminate).
    + injection Ht as <-. destruct (appended_row _ new awinParentMaterializationSeed Happ) as (row & Hrow & Hp & Hc); [left|].
      destruct (replay_parents units new row) as [-> [-> | ->]]; eauto using ordered_gate.
    + assert (Hm : materialized units) by (intros _; exact Ew). rewrite required_app, Er, walk_app, Ew by eauto using gate_parents_settled.
      now apply replay_promotion with t.
  - assert (Hm : materialized units) by (unfold materialized; congruence). rewrite required_app, Er by eauto using gate_parents_settled.
    now apply replay_promotion with t.
Qed.

End Runs.
End PostSyncFacts.

(** ** A half-written seed *)

Module PostSyncGap.
Import PostSync PostSyncFacts.
#[local] Existing Instance utc_host.

Definition row_of (id : string) (st : job_status) (d : jsval) : JobRun :=
  Job id "sync:unit" st 1 0 3 0 d JNull None (Some "run") None None 0.
Definition complete_row (j : JobRun) : JobRun := if ACTIVE_STATUSES (status j) then set_status COMPLETED j else j.

Lemma complete_all daysBack pre l : rtc (run_step daysBack) (pre ++ l) (pre ++ map complete_row l).
Proof.
  revert pre. induction l as [|j l IH]; intros pre; [reflexivity|]. cbn [map].
  transitivity (pre ++ complete_row j :: l).
  - unfold complete_row. destruct (ACTIVE_STATUSES (status j)) eqn:E; [|reflexivity]. apply rtc_once.
    replace (pre ++ set_status COMPLETED j :: l) with (<[length pre := set_status COMPLETED j]> (pre ++ j :: l))
      by (rewrite insert_app_r_alt, Nat.sub_diag by lia; reflexivity).
    apply run_status; [|exact E]. now rewrite list_lookup_middle.
  - rewrite !cons_middle, !app_assoc. apply IH.
Qed.

(** The first [n] rows of the gate's decision, completed. *)
Definition next (n : nat) (units : list JobRun) : list JobRun :=
  match planPostSyncTransition 1 units true (JArr []) (JDate (Some 0)) with
  | Ok t => map complete_row (units ++ map (row_of "row" PENDING) (take n (seeds t)))
  | Throw _ => units
  end.
Lemma next_steps n units : rtc (run_step 1) units (next n units).
Proof.
  unfold next. destruct (planPostSyncTransition 1 units true _ _) as [t|] eqn:E; [|reflexivity].
  eapply rtc_l; [|apply (complete_all 1 [])]. apply (run_gate _ _ _ _ _ t _ E). apply Forall_forall.
  intros row (seed & -> & Hs)%list_elem_of_fmap. split; [reflexivity|]. exists seed.
  assert (Hin : seed ∈ seeds t) by (apply elem_of_take in Hs as (i & Hi & _); now apply list_elem_of_lookup_2 with i).
  split; [exact Hin|]. destruct (gate_lemma 1 _ _ _ _ _ _ E Hin) as (_ & _ & _ & Hc).
  split; [now destruct Hc|]. repeat constructor.
Qed.

Definition fetched_two : list JobRun :=
  [row_of "u1" COMPLETED (JObj [("kind", JStr NETWORK); ("platform", JStr "admitad")]);
   row_of "u2" COMPLETED (JObj [("kind", JStr NETWORK); ("platform", JStr "rakuten")])].
(** Only the first campaign page is written; every later stage is complete. *)
Definition half_seeded : list JobRun := next 10 (next 10 (next 10 (next 1 fetched_two))).

(** The gate counts the networks whose promotion was seeded, not those that were fetched: a
    worker that stops between the inserts of the campaign pages leaves a network that is
    never promoted in a run that completes. *)
Theorem unpromoted_network_completes :
  network_only fetched_two /\ rtc (run_step 1) fetched_two half_seeded
  /\ postSyncStageOf half_seeded true = STAGE_COMPLETED /\ "rakuten" ∈ fetched half_seeded
  /\ Forall (fun u => isBoundedStageUnit u PROMOTION = true -> (descriptorOf u)@."networkSource" <> JStr "rakuten") half_seeded.
Proof.
  split_and!.
  - intros k Hk. cbn in Hk. decompose [or] Hk; subst; reflexivity || contradiction.
  - unfold half_seeded. repeat (etransitivity; [|apply next_steps]). reflexivity.
  - vm_compute. reflexivity.
  - apply list_elem_of_In. vm_compute. tauto.
  - apply Forall_forall. intros u Hu Hb E.
    assert (Hx : existsb (fun u => isBoundedStageUnit u PROMOTION && ((descriptorOf u)@."networkSource" === "rakuten")) half_seeded = false)
      by (vm_compute; reflexivity).
    apply not_true_iff_false in Hx. apply Hx, existsb_exists. exists u. split; [exact (proj1 (list_elem_of_In _ _) Hu)|].
    rewrite Hb, E. reflexivity.
Qed.
End PostSyncGap.
