(* ===== verification/Barrier.v ===== *)
(** * The entity-staging barrier

    [jobs/entityStagingBarrier.js]: staging and the cursor walks of promotion exclude each
    other by rows of the job table.  A stager writes its ticket and then looks for a freeze;
    the gate writes its intent and then looks for tickets. *)

From S2P Require Import Prelude JsNum JsVal JsDate Concurrent Jobs SyncLock PostSync.
Local Open Scope Z_scope.

Module Barrier.
Import SyncLock PostSync.

Definition ORCHESTRATION_JOB_NAME : string := "sync:orchestration".
Definition UNIT_JOB_NAME : string := "sync:unit".
Definition PLANNER_VERSION : num := num_of_Z 7.

Definition ENTITY_STAGING_BARRIER_KEY : string := "entity-staging".
Definition STAGING_FROZEN_CODE : string := "entity_staging_frozen".
Definition STAGING_PARTICIPANT_LEASE_MS : Z := 30 * 60 * 1000.

(** The text of [POST_SYNC_STAGES] *)
Definition stage_text (s : post_sync_stage) : string :=
  match s with
  | STAGE_NONE => "none" | STAGE_AWAITING => "awaiting_post_sync" | STAGE_PROMOTING => "promoting"
  | STAGE_CONVERSION_PROMOTING => "conversion_promoting" | STAGE_AGGREGATING => "aggregating"
  | STAGE_COMPLETED => "completed" | STAGE_FAILED => "failed"
  end.
Definition frozenStages (s : post_sync_stage) : bool :=
  match s with STAGE_PROMOTING | STAGE_CONVERSION_PROMOTING => true | _ => false end.

(** The answers of [derivedFreeze] and [freezeState]. *)
Inductive freeze := Open | Frozen (runId : option string) (stage : post_sync_stage) (reason : string).

Definition stagingFrozenError (stage : option post_sync_stage) : js_error :=
  let where_ := match stage with Some s => " while post-sync is " +:+ stage_text s | None => "" end in
  JsError ("Entity staging is frozen" +:+ where_ +:+
           ": promotion pages Entity by primary key, and a row staged now could be skipped by the walk.")
    409 STAGING_FROZEN_CODE.
Definition isStagingFrozenError (e : js_error) : bool := err_code e =s? STAGING_FROZEN_CODE.

Section Keys.
Context {H : JsHost}.
Definition stagingParticipantKey (scope : jsval) : string :=
  let suffix := to_lower (trim (js_string (scope ?? JStr ""))) in
  if suffix =s? "" then ENTITY_STAGING_BARRIER_KEY +:+ ":unscoped" else ENTITY_STAGING_BARRIER_KEY +:+ ":" +:+ suffix.
End Keys.

Section Service.
Context {H : JsHost} {U : Uuid} (leaseMs participantLeaseMs : Z).

(** [#liveWhere] with a JSON field of the payload equal to the barrier's key *)
Definition liveWhere (now lease : Z) (field : string) (j : JobRun) : bool :=
  (jobName j =s? SYNC_LOCK_JOB_NAME)
  && (status j =j? RUNNING)
  && match startedAt j with Some t => now - lease <=? t | None => false end
  && json_equals (prop (payload j) field) (JStr ENTITY_STAGING_BARRIER_KEY).

(** [(run.payload?.plannerVersion ?? null) !== PLANNER_VERSION] is false *)
Definition current_planner (run : JobRun) : bool :=
  match prop (payload run) "plannerVersion" with JNum v => neqb v PLANNER_VERSION | _ => false end.
Definition postSyncStages_of (run : JobRun) : jsval := (prop (payload run) "postSyncStages") ?? JStr "none".

Definition unit_rows (runId : string) (j : JobRun) : bool :=
  (jobName j =s? UNIT_JOB_NAME) && match correlationId j with Some c => c =s? runId | None => false end.

(** The loop of [derivedFreeze] over the active runs. *)
Fixpoint derived_loop (runs : list JobRun) : io jobs freeze :=
  match runs with
  | [] => Ret Open
  | run :: rest =>
      if negb (current_planner run) then derived_loop rest
      else if postSyncStages_of run === "none" then derived_loop rest
      else
        do! units := act (job_many (unit_rows (job_id run)) by_priority) in
        let stage := postSyncStageOf units true in
        if frozenStages stage then Ret (Frozen (Some (job_id run)) stage "derived") else derived_loop rest
  end.
Definition active_run (j : JobRun) : bool := (jobName j =s? ORCHESTRATION_JOB_NAME) && ACTIVE_STATUSES (status j).
Definition derivedFreeze : io jobs freeze :=
  do! runs := act (job_many active_run by_created) in derived_loop runs.

Definition freezeIntent : io jobs (option JobRun) :=
  do! now := act get_clock in act (job_first (liveWhere now leaseMs "lockKey") by_started_id).

Definition activeParticipants (excludeId : option string) : io jobs (list JobRun) :=
  do! now := act get_clock in
  do! rows := act (job_many (liveWhere now participantLeaseMs "barrier") by_started) in
  Ret match excludeId with
      | Some id => if id =s? "" then rows else List.filter (fun row => negb (job_id row =s? id)) rows
      | None => rows
      end.

Definition freezeState : io jobs freeze :=
  do! derived := derivedFreeze in
  match derived with
  | Frozen _ _ _ => Ret derived
  | Open =>
      do! intent := freezeIntent in
      match intent with
      | Some row => Ret (Frozen (correlationId row) STAGE_PROMOTING "freeze_intent")
      | None => Ret Open
      end
  end.

Definition assertStagingAllowed : io jobs bool :=
  do! state := freezeState in
  match state with
  | Frozen _ stage _ => Raise (stagingFrozenError (Some stage))
  | Open => Ret true
  end.

Definition leaveStaging (ticketId : string) (final : job_status) : io jobs bool :=
  if ticketId =s? "" then Ret false
  else
    do! now := act get_clock in
    do! count := act (job_update_many (fun j => has_job_id ticketId j && (jobName j =s? SYNC_LOCK_JOB_NAME)
                                                && (status j =j? RUNNING))
                        (fun j => set_completedAt (Some now) (set_status final j))) in
    Ret (count =? 1)%nat.

Definition ticket_row (startedAt : Z) (scope holderId : jsval) (correlationId : option string) : new_job :=
  NewJob SYNC_LOCK_JOB_NAME RUNNING 100 1
    (JObj [("lockKey", JStr (stagingParticipantKey scope)); ("barrier", JStr ENTITY_STAGING_BARRIER_KEY);
           ("scope", scope ?? JNull); ("holderId", holderId); ("acquiredAt", JStr (to_iso_string startedAt))])
    JNull correlationId (Some startedAt).

(** [enterStaging(scope, { holderId, correlationId })], returning the ticket's id *)
Definition enterStaging (scope holderId : jsval) (correlationId : option string) : io jobs string :=
  do! startedAt := act get_clock in
  do! ticket := act (job_create (ticket_row startedAt scope holderId correlationId)) in
  do! state := freezeState in
  match state with
  | Frozen _ stage _ =>
      leaveStaging (job_id ticket) CANCELLED ;;; Raise (stagingFrozenError (Some stage))
  | Open => Ret (job_id ticket)
  end.

Definition withStaging {A} (scope holderId : jsval) (correlationId : option string) (fn : string -> io jobs A) : io jobs A :=
  do! ticket := enterStaging scope holderId correlationId in
  io_finally (fn ticket) (leaveStaging ticket COMPLETED ;;; Ret tt).

Definition intent_row (startedAt : Z) (correlationId : option string) : new_job :=
  NewJob SYNC_LOCK_JOB_NAME RUNNING 100 1
    (JObj [("lockKey", JStr ENTITY_STAGING_BARRIER_KEY); ("freezeIntent", JBool true);
           ("announcedAt", JStr (to_iso_string startedAt))])
    JNull correlationId (Some startedAt).

(** [announceFreezeIntent({ correlationId })]: the intent's id and whether it was refreshed *)
Definition announceFreezeIntent (correlationId : option string) : io jobs (string * bool) :=
  do! existing := freezeIntent in
  do! startedAt := act get_clock in
  match existing with
  | Some row =>
      act (job_update (job_id row) (set_startedAt (Some startedAt))) ;;; Ret (job_id row, true)
  | None =>
      do! row := act (job_create (intent_row startedAt correlationId)) in Ret (job_id row, false)
  end.

Definition clearFreezeIntent : io jobs nat :=
  do! now := act get_clock in
  do! stamp := act get_clock in
  act (job_update_many (liveWhere now leaseMs "lockKey") (fun j => set_completedAt (Some stamp) (set_status COMPLETED j))).

End Service.
End Barrier.

(** ** The handshake *)

Module BarrierFacts.
Import SyncLock PostSync Barrier.

Definition is_lock_with (field : string) (j : JobRun) : bool :=
  (jobName j =s? SYNC_LOCK_JOB_NAME) && json_equals (prop (payload j) field) (JStr ENTITY_STAGING_BARRIER_KEY).
Definition is_ticket : JobRun -> bool := is_lock_with "barrier".
Definition is_intent : JobRun -> bool := is_lock_with "lockKey".

(** A barrier row only ever stops running. *)
Definition fades (r r' : JobRun) : Prop :=
  job_id r' = job_id r /\ is_ticket r' = is_ticket r /\ is_intent r' = is_intent r
  /\ (is_ticket r || is_intent r = true -> status r' = RUNNING -> status r = RUNNING).
Definition goes_on (s s' : jobs) : Prop :=
  clock s <= clock s' /\ exists kept fresh, job_rows s' = kept ++ fresh /\ Forall2 fades (job_rows s) kept.

Lemma fades_refl r : fades r r.
Proof. unfold fades. auto. Qed.
Lemma goes_on_map s f : (forall r, fades r (f r)) -> goes_on s (set_job_rows (map f (job_rows s)) s).
Proof.
  intros Hf. split; [cbn; lia|]. exists (map f (job_rows s)), []. rewrite app_nil_r. split; [reflexivity|].
  induction (job_rows s) as [|r l IH]; constructor; auto.
Qed.
Lemma goes_on_append s rows n : goes_on s (Jobs (job_rows s ++ rows) (clock s) n).
Proof.
  split; [cbn; lia|]. exists (job_rows s), rows. split; [reflexivity|].
  apply Forall_Forall2_diag, Forall_forall. intros; apply fades_refl.
Qed.
Lemma goes_on_same s : goes_on s s.
Proof. destruct s as [l c n]. pose proof (goes_on_append (Jobs l c n) [] n) as Hg. cbn in Hg. now rewrite app_nil_r in Hg. Qed.
Lemma goes_on_time s s' : time_passes advance s s' -> goes_on s s'.
Proof.
  intros (d & Hd & ->). split; [cbn; lia|]. exists (job_rows s), []. rewrite app_nil_r. split; [reflexivity|].
  apply Forall_Forall2_diag, Forall_forall. intros; apply fades_refl.
Qed.
Lemma goes_on_lookup s s' i r : goes_on s s' -> job_rows s !! i = Some r -> exists r', job_rows s' !! i = Some r' /\ fades r r'.
Proof.
  intros (_ & kept & fresh & E & HF) Hi. destruct (Forall2_lookup_l _ _ _ _ _ HF Hi) as (r' & Hr' & Hf).
  exists r'. split; [|exact Hf]. rewrite E. now apply lookup_app_l_Some.
Qed.
Lemma goes_on_lookup_back s s' i r' :
  goes_on s s' -> (i < length (job_rows s))%nat -> job_rows s' !! i = Some r' -> exists r, job_rows s !! i = Some r /\ fades r r'.
Proof.
  intros (_ & kept & fresh & E & HF) Hi Hr'. rewrite E in Hr'. rewrite lookup_app_l in Hr'
    by (apply Forall2_length in HF; lia). destruct (Forall2_lookup_r _ _ _ _ _ HF Hr') as (r & Hr & Hf). eauto.
Qed.

Section Handshake.
Context {H : JsHost} {U : Uuid} (leaseMs participantLeaseMs : Z).

(** Ids are distinct, and no lease runs out during the interleaving: the rows that run are live. *)
Definition no_lease_expires (s : jobs) : Prop :=
  NoDup (map job_id (job_rows s))
  /\ (forall j, j ∈ job_rows s -> is_intent j = true -> status j = RUNNING ->
        liveWhere (clock s) leaseMs "lockKey" j = true)
  /\ (forall j, j ∈ job_rows s -> is_ticket j = true -> status j = RUNNING ->
        liveWhere (clock s) participantLeaseMs "barrier" j = true).

Lemma live_earlier now now' lease field j :
  now <= now' -> liveWhere now' lease field j = true -> liveWhere now lease field j = true.
Proof.
  unfold liveWhere. intros Hle Hl. split_bools. destruct (startedAt j) as [t|]; [|discriminate].
  rewrite Z.leb_le in *. repeat (apply andb_true_intro; split); try assumption; [now apply String.eqb_eq|]. apply Z.leb_le. lia.
Qed.
Lemma live_is now lease field j : liveWhere now lease field j = true -> is_lock_with field j = true /\ status j = RUNNING.
Proof.
  unfold liveWhere, is_lock_with. intros Hl. split_bools. split; [apply andb_true_intro; split; [now apply String.eqb_eq|assumption]|].
  eapply bool_decide_eq_true_1. eassumption.
Qed.

(** None of the first [m] rows is a running row of the given kind. *)
Definition none_running (p : JobRun -> bool) (m : nat) (s : jobs) : Prop :=
  (m <= length (job_rows s))%nat
  /\ forall i j, (i < m)%nat -> job_rows s !! i = Some j -> p j = true -> status j <> RUNNING.
(** The row [id] of the given kind is at index [k]. *)
Definition row_at (p : JobRun -> bool) (k : nat) (id : string) (s : jobs) : Prop :=
  exists j, job_rows s !! k = Some j /\ job_id j = id /\ p j = true.

Definition barrier_kind (p : JobRun -> bool) : Prop := p = is_ticket \/ p = is_intent.

Lemma row_at_stable p k id : barrier_kind p -> stable no_lease_expires goes_on (row_at p k id).
Proof.
  intros Hp s s' _ _ Hg (j & Hj & Hid & Hpj). destruct (goes_on_lookup s s' k j Hg Hj) as (j' & Hj' & Hi & Ht & Hn & _).
  exists j'. split_and!; [exact Hj'|congruence|]. destruct Hp as [-> | ->]; congruence.
Qed.
Lemma none_running_stable p m : barrier_kind p -> stable no_lease_expires goes_on (none_running p m).
Proof.
  intros Hp s s' _ _ Hg [Hm Hnone]. split.
  - destruct Hg as (_ & kept & fresh & E & HF). apply Forall2_length in HF. rewrite E, length_app. lia.
  - intros i j' Hi Hj' Hpj Hrun. destruct (goes_on_lookup_back s s' i j' Hg ltac:(lia) Hj') as (j & Hj & _ & Ht & Hn & Hst).
    apply (Hnone i j Hi Hj); [destruct Hp as [-> | ->]; congruence|]. apply Hst; [|exact Hrun].
    apply orb_true_iff. destruct Hp as [-> | ->]; [left|right]; congruence.
Qed.
Lemma now_stable now : stable no_lease_expires goes_on (fun s => now <= clock s).
Proof. intros s s' _ _ [Hc _]. lia. Qed.

Lemma reads_go_on {A} (f : jobs -> A) : obeys no_lease_expires goes_on (act (gets f)).
Proof. apply obeys_act. intros s _. apply goes_on_same. Qed.
Lemma derivedFreeze_obeys : obeys no_lease_expires goes_on derivedFreeze.
Proof.
  apply obeys_bind; [apply reads_go_on|]. intros runs. induction runs as [|run runs IH]; [exact Logic.I|]. cbn [derived_loop].
  destruct (current_planner run); cbn [negb]; [|exact IH]. destruct (_ === _); [exact IH|].
  apply obeys_bind; [apply reads_go_on|]. intros units. cbv zeta. destruct (frozenStages _); [exact Logic.I|exact IH].
Qed.
Lemma leaveStaging_obeys id final : final <> RUNNING -> obeys no_lease_expires goes_on (leaveStaging id final).
Proof.
  intros Hf. unfold leaveStaging. destruct (id =s? ""); [exact Logic.I|]. apply obeys_bind; [apply reads_go_on|]. intros now.
  apply obeys_bind; [|intros; exact Logic.I]. apply obeys_act. intros s _. apply goes_on_map. intros r.
  destruct (_ && _); [|apply fades_refl]. unfold fades. cbn. split_and!; auto. intros _ E. congruence.
Qed.
Lemma clearFreezeIntent_obeys : obeys no_lease_expires goes_on (clearFreezeIntent leaseMs).
Proof.
  unfold clearFreezeIntent. apply obeys_bind; [apply reads_go_on|]. intros now. apply obeys_bind; [apply reads_go_on|]. intros stamp.
  apply obeys_act. intros s _. apply goes_on_map. intros r.
  destruct (liveWhere now leaseMs "lockKey" r); [|apply fades_refl]. unfold fades. cbn. split_and!; auto. discriminate.
Qed.

Lemma clock_assured P :
  stable no_lease_expires goes_on P ->
  assured no_lease_expires goes_on (fun now s => P s /\ now <= clock s) P (act get_clock).
Proof.
  intros HP. apply assured_act.
  - intros now. apply and_stable; [exact HP|apply now_stable].
  - intros s _ _ Hs. split; [apply goes_on_same|]. cbn. intros a [= <-]. split; [exact Hs|lia].
Qed.
Lemma first_none_running now lease field p s :
  no_lease_expires s -> now <= clock s ->
  (p = is_intent /\ lease = leaseMs /\ field = "lockKey" \/ p = is_ticket /\ lease = participantLeaseMs /\ field = "barrier") ->
  List.filter (liveWhere now lease field) (job_rows s) = [] -> none_running p (length (job_rows s)) s.
Proof.
  intros (_ & Hin & Hti) Hnow Hp E. split; [lia|]. intros i j _ Hj Hpj Hrun. apply (not_elem_of_nil j). rewrite <- E.
  assert (Hmem : j ∈ job_rows s) by (now apply list_elem_of_lookup_2 with i).
  apply elem_of_filter_bool. split; [exact Hmem|]. apply live_earlier with (clock s); [exact Hnow|].
  destruct Hp as [(-> & -> & ->)|(-> & -> & ->)]; auto.
Qed.

(** The look at the intent, by a stager whose ticket is at [k]. *)
Lemma freezeIntent_assured k id :
  assured no_lease_expires goes_on
    (fun intent s => row_at is_ticket k id s /\ (intent = None -> exists m, (k < m)%nat /\ none_running is_intent m s))
    (row_at is_ticket k id) (freezeIntent leaseMs).
Proof.
  unfold freezeIntent. eapply assured_bind; [apply clock_assured, row_at_stable; now left|]. intros now. apply assured_act.
  - intros intent. apply and_stable; [apply row_at_stable; now left|].
    intros s s' Hs Hs' Hg Hn E. destruct (Hn E) as (m & Hm & Hr). exists m. split; [exact Hm|].
    apply (none_running_stable is_intent m (or_intror eq_refl) s); auto.
  - intros s Hs _ [Hrow Hnow]. split; [apply goes_on_same|]. cbn [job_first gets fst snd]. intros w [= Ew]. split; [exact Hrow|].
    intros ->. exists (length (job_rows s)). split; [destruct Hrow as (j & Hj & _); now apply lookup_lt_Some in Hj|].
    apply (first_none_running now leaseMs "lockKey"); auto.
    destruct (sort_by _ _) eqn:Es; [|discriminate]. now apply sort_by_nil in Es.
Qed.

Inductive barrier_result := Entered (ticket : string) | Verified (intent : string) (participants : list JobRun) | Done.

(** A stager in flight had looked when no intent was up; a gate that found no ticket had
    its intent up before. *)
Definition handshake_post (a : barrier_result) (s : jobs) : Prop :=
  match a with
  | Entered id => exists k m, row_at is_ticket k id s /\ (k < m)%nat /\ none_running is_intent m s
  | Verified id [] => exists p n, row_at is_intent p id s /\ (p < n)%nat /\ none_running is_ticket n s
  | _ => True
  end.

Lemma row_at_fresh p d s : p (fresh_job d s) = true ->
  row_at p (length (job_rows s)) (job_id (fresh_job d s)) (Jobs (job_rows s ++ [fresh_job d s]) (clock s) (S (next_uuid s))).
Proof. intros Hp. exists (fresh_job d s). split_and!; [|reflexivity|exact Hp]. cbn [job_rows]. now rewrite list_lookup_middle. Qed.

Lemma exists_row_stable p id : barrier_kind p -> stable no_lease_expires goes_on (fun s => exists k, row_at p k id s).
Proof. intros Hp s s' Hs Hs' Hg (k & Hk). exists k. now apply (row_at_stable p k id Hp s). Qed.

Lemma assured_exists {A B} (W : B -> jobs -> Prop) (P : A -> jobs -> Prop) (m : io jobs B) :
  (forall x, stable no_lease_expires goes_on (P x)) ->
  (forall x, assured no_lease_expires goes_on W (P x) m) -> assured no_lease_expires goes_on W (fun s => exists x, P x s) m.
Proof.
  intros Hst Hm. destruct m as [b|e|R p k]; cbn in *.
  - intros s Hs (x & Hx). exact (Hm x s Hs Hx).
  - exact Logic.I.
  - intros s Hs Hs' (x & Hx). exact (Hm x s Hs Hs' Hx).
Qed.

Lemma enterStaging_assured scope holderId corr :
  assured no_lease_expires goes_on (fun id s => handshake_post (Entered id) s) (fun _ => True)
    (enterStaging leaseMs scope holderId corr).
Proof.
  unfold enterStaging. eapply assured_bind; [apply clock_assured, true_stable|]. intros startedAt.
  apply (assured_bind _ _ (fun ticket s => exists k, row_at is_ticket k (job_id ticket) s)).
  { apply assured_act; [intros t; apply exists_row_stable; now left|]. intros s _ _ _. split; [apply goes_on_append|].
    cbn [job_create fst snd]. intros t [= <-]. exists (length (job_rows s)). now apply row_at_fresh. }
  intros ticket. apply assured_exists; [intros k; apply row_at_stable; now left|]. intros k.
  unfold freezeState. apply (assured_bind _ _ (fun st s => row_at is_ticket k (job_id ticket) s
    /\ (st = Open -> exists m, (k < m)%nat /\ none_running is_intent m s))).
  - apply (assured_bind _ _ (fun _ s => row_at is_ticket k (job_id ticket) s)).
    { apply assured_obeys; [apply row_at_stable; now left|auto|apply derivedFreeze_obeys]. }
    intros [|runId stage reason]; [|cbn; intros s _ Hr; split; [exact Hr|discriminate]].
    eapply assured_bind; [apply freezeIntent_assured|]. intros [row|]; cbn; intros s _ [Hr Hn]; split; auto. discriminate.
  - intros [|runId stage reason].
    + cbn. intros s _ [Hr Hn]. destruct (Hn eq_refl) as (m & Hm & Hnone). eauto.
    + apply (assured_bind _ _ (fun _ _ => True)); [|intros; apply assured_raise].
      apply (assured_strengthen _ _ _ (fun _ => True)); [auto|].
      apply assured_obeys; [apply true_stable|auto|now apply leaveStaging_obeys].
Qed.

(** The gate: announce, then look. *)
Definition gate_handshake (corr : option string) : io jobs barrier_result :=
  do! intent := announceFreezeIntent leaseMs corr in
  do! inFlight := activeParticipants participantLeaseMs None in
  Ret (Verified intent.1 inFlight).

Lemma announce_assured corr :
  assured no_lease_expires goes_on (fun intent s => exists p, row_at is_intent p intent.1 s) (fun _ => True)
    (announceFreezeIntent leaseMs corr).
Proof.
  unfold announceFreezeIntent.
  apply (assured_bind _ _ (fun existing s => match existing with Some row => exists p, row_at is_intent p (job_id row) s | None => True end)).
  { unfold freezeIntent. eapply assured_bind; [apply clock_assured, true_stable|]. intros now. apply assured_act.
    - intros [row|]; [apply exists_row_stable; now right|apply true_stable].
    - intros s _ _ _. split; [apply goes_on_same|]. cbn [job_first gets fst snd]. intros w [= <-].
      destruct (head _) as [row|] eqn:Eh; [|exact Logic.I].
      assert (Hin : row ∈ List.filter (liveWhere now leaseMs "lockKey") (job_rows s)).
      { apply (elem_of_sort_by by_started_id). destruct (sort_by _ _); cbn in Eh; simplify_eq. left. }
      apply elem_of_filter_bool in Hin as [Hin Hl]. apply list_elem_of_lookup in Hin as [p Hp].
      exists p, row. split_and!; [exact Hp|reflexivity|]. now apply live_is in Hl as [? _]. }
  intros existing. eapply assured_bind; [apply clock_assured|].
  { destruct existing as [row|]; [apply exists_row_stable; now right|apply true_stable]. }
  intros startedAt. destruct existing as [row|].
  - apply (assured_bind _ _ (fun _ s => exists p, row_at is_intent p (job_id row) s)); [|intros _; cbn; auto].
    apply assured_act; [intros _; apply exists_row_stable; now right|]. intros s _ _ [Hrow _]. unfold job_update.
    destruct (List.find _ _); [|split; [apply goes_on_same|cbn; discriminate]].
    assert (Hg : goes_on s (set_job_rows (map (fun j => if has_job_id (job_id row) j then set_startedAt (Some startedAt) j else j) (job_rows s)) s)).
    { apply goes_on_map. intros r. destruct (has_job_id _ r); [|apply fades_refl]. unfold fades. cbn. auto. }
    split; [exact Hg|]. cbn [fst snd]. intros _ _. destruct Hrow as (q & r & Hr & Hid & Hi).
    destruct (goes_on_lookup _ _ _ _ Hg Hr) as (r' & Hr' & Hid' & _ & Hi' & _). exists q, r'. split_and!; congruence.
  - apply (assured_bind _ _ (fun r s => exists p, row_at is_intent p (job_id r) s)); [|intros r; cbn; auto].
    apply assured_act; [intros r; apply exists_row_stable; now right|]. intros s _ _ _. split; [apply goes_on_append|].
    cbn [job_create fst snd]. intros r [= <-]. exists (length (job_rows s)). now apply row_at_fresh.
Qed.

Lemma gate_assured corr : assured no_lease_expires goes_on handshake_post (fun _ => True) (gate_handshake corr).
Proof.
  unfold gate_handshake. eapply assured_bind; [apply announce_assured|]. intros [id refreshed]. cbn [fst].
  apply assured_exists; [intros p; apply row_at_stable; now right|]. intros p.
  apply (assured_bind _ _ (fun inFlight s => row_at is_intent p id s /\ (inFlight = [] -> exists n, (p < n)%nat /\ none_running is_ticket n s))).
  - unfold activeParticipants. eapply assured_bind; [apply clock_assured, row_at_stable; now right|]. intros now.
    eapply assured_bind; [|intros rows; cbn; intros s _ Hs; exact Hs]. apply assured_act.
    + intros inFlight. apply and_stable; [apply row_at_stable; now right|].
      intros s s' Hs Hs' Hg Hn E. destruct (Hn E) as (n & Hn' & Hr). exists n. split; [exact Hn'|].
      apply (none_running_stable is_ticket n (or_introl eq_refl) s); auto.
    + intros s Hs _ [Hrow Hnow]. split; [apply goes_on_same|]. cbn [job_many gets fst snd]. intros w [= Ew]. split; [exact Hrow|].
      intros ->. exists (length (job_rows s)). split; [destruct Hrow as (j & Hj & _); now apply lookup_lt_Some in Hj|].
      apply (first_none_running now participantLeaseMs "barrier"); auto. now apply sort_by_nil in Ew.
  - intros [|row rows]; cbn; intros s _ [Hr Hn]; [|exact Logic.I]. destruct (Hn eq_refl) as (n & Hp & Hnone). eauto.
Qed.

(** The calls that share the barrier. *)
Inductive barrier_call :=
| Enter (scope holderId : jsval) (corr : option string)
| Gate (corr : option string)
| Leave (ticket : string)
| Clear.
Definition run_call (c : barrier_call) : io jobs barrier_result :=
  match c with
  | Enter scope holderId corr => do! ticket := enterStaging leaseMs scope holderId corr in Ret (Entered ticket)
  | Gate corr => gate_handshake corr
  | Leave ticket => leaveStaging ticket COMPLETED ;;; Ret Done
  | Clear => clearFreezeIntent leaseMs ;;; Ret Done
  end.

Lemma call_assured c : assured no_lease_expires goes_on handshake_post (fun _ => True) (run_call c).
Proof.
  destruct c as [scope holderId corr|corr|ticket|]; cbn [run_call].
  - eapply assured_bind; [apply enterStaging_assured|]. intros ticket. cbn. auto.
  - apply gate_assured.
  - apply (assured_bind _ _ (fun _ _ => True)); [|intros _; cbn; auto].
    apply assured_obeys; [apply true_stable|auto|now apply leaveStaging_obeys].
  - apply (assured_bind _ _ (fun _ _ => True)); [|intros _; cbn; auto].
    apply assured_obeys; [apply true_stable|auto|apply clearFreezeIntent_obeys].
Qed.

Lemma row_at_unique p k k' id s r' :
  no_lease_expires s -> row_at p k id s -> job_rows s !! k' = Some r' -> job_id r' = id -> k = k' /\ p r' = true.
Proof.
  intros (Hnd & _) (j & Hj & Hid & Hp) Hr' Hid'.
  assert (E : k = k').
  { apply (NoDup_lookup (map job_id (job_rows s)) k k' id Hnd); rewrite list_lookup_fmap; [rewrite Hj|rewrite Hr']; cbn; congruence. }
  split; [exact E|]. subst k'. rewrite Hj in Hr'. congruence.
Qed.

(** C35: Whatever the interleaving of any number of stagers, gates, releases and clearings, and
    however time passes within the leases: while a stager that was let in still holds its
    ticket, the intent of a gate that found no ticket is no longer up. *)
Theorem staging_and_freeze_exclude calls s calls' s' i j ticket intent rt ri :
  no_lease_expires s ->
  rtc (step_in (time_passes advance) no_lease_expires) (map run_call calls, s) (calls', s') ->
  calls' !! i = Some (Ret (Entered ticket)) -> calls' !! j = Some (Ret (Verified intent [])) ->
  rt ∈ job_rows s' -> job_id rt = ticket -> status rt = RUNNING ->
  ri ∈ job_rows s' -> job_id ri = intent -> status ri <> RUNNING.
Proof.
  intros Hs Hsteps Hi Hj Hrt Ht Hst Hri Hii Hsi.
  assert (Hs' : no_lease_expires s').
  { apply rtc_inv_r in Hsteps as [E|(c & _ & (_ & _ & HI))]; [now simplify_eq|exact HI]. }
  assert (Hpost : forall n a, calls' !! n = Some (Ret a) -> handshake_post a s').
  { intros n a Hn. refine (results_hold _ _ goes_on handshake_post _ _ _ _ _ _ _ Hs _ Hsteps Hn).
    - intros ? ? _ _. apply goes_on_time.
    - apply Forall_forall. intros m (c & -> & _)%list_elem_of_fmap. apply call_assured. }
  destruct (Hpost _ _ Hi) as (k & m & Hk & Hkm & [_ Hni]). destruct (Hpost _ _ Hj) as (p & n & Hp & Hpn & [_ Hnt]).
  apply list_elem_of_lookup in Hrt as [k' Hk'], Hri as [p' Hp'].
  destruct (row_at_unique is_ticket k k' ticket s' rt Hs' Hk Hk' Ht) as [-> Hti].
  destruct (row_at_unique is_intent p p' intent s' ri Hs' Hp Hp' Hii) as [-> Hin].
  destruct (Nat.lt_ge_cases k' n) as [Hlt|Hge]; [now apply (Hnt k' rt Hlt Hk' Hti)|].
  apply (Hni p' ri); [lia|exact Hp'|exact Hin|exact Hsi].
Qed.

End Handshake.
End BarrierFacts.
