(* ===== verification/Orchestrator.v ===== *)
(** * Durable sync orchestration

    [jobs/syncOrchestration.service.js]: a full sync is a parent run and one row per bounded
    unit, all on the job table.  Every method is an [io] program whose atomic actions are its
    database statements; an interactive transaction is one action.  The accounts, their sync
    timestamps, the supplier gate and the commission-group chunks are read from other tables
    and are parameters.

    The read-only projections ([describeRun], [unitSummary] and the like) are left out. *)

From Stdlib Require Import SpecFloat.
From S2P Require Import Prelude JsNum JsVal JsDate JsDay Concurrent Jobs SyncLock SourcePlan PostSync Barrier.
Local Open Scope Z_scope.

Module Orchestrator.
Import PostSync Barrier.

Definition DEFAULT_UNIT_MAX_ATTEMPTS : Z := 3.
Definition ABANDONED_UNIT_REASON : string := "worker lease expired before completion".
Definition EXECUTABLE_UNIT_KINDS : list string :=
  [NETWORK; AGGREGATION; CONVERSION_PROMOTION; PROMOTION; AWIN_PARENT_MATERIALIZATION].
Definition UNIT_BLOCKED_REASON : string := "bounded_units_not_implemented".
Definition ACCOUNT_LABELLED_PLATFORMS : list string := ["boostiny"; "optimise_sea"; "optimise_mena"; "optimise_uk"; "trackier"].
Definition SINGLE_ACCOUNT_PLATFORMS : list string := ["impact"; "partnerize"; "awin"; "admitad"; "rakuten"; "cj"].
Definition ADMIN_CANCELLED_REASON : string := "cancelled_by_operator".
Definition SUPPLIER_GATE_EXCLUSION_REASON : string := "supplier_not_enabled".
Definition OPTIMISE_COMMISSION_GROUPS_SOURCE : string := "commission_groups".

Definition num_of_nat (n : nat) : jsval := JNum (num_of_Z (Z.of_nat n)).
Definition js_bool (v : jsval) : jsval := JBool (truthy v).
(** [options.promoteAfter !== false] *)
Definition promote_after (options : jsval) : bool := negb (is_false (options@."promoteAfter")).

(** ** Units *)

Definition isUnitExecutable (descriptor : jsval) : bool :=
  if is_false (descriptor@."executable") then false
  else existsb (fun k => descriptor@."kind" === k) EXECUTABLE_UNIT_KINDS.
(** The same on a row: [unit?.payload ?? unit]. *)
Definition row_executable (unit : JobRun) : bool := isUnitExecutable (descriptorOf unit).

Section WithHost.
Context {H : JsHost}.

Definition text (value : jsval) : option string :=
  if nullish value then None
  else let s := trim (js_string value) in if s =s? "" then None else Some s.

Definition unitLockKey (unit : jsval) : string :=
  if unit@."kind" === NETWORK then SyncLock.accountLockKey (unit@."platform") JUndef (unit@."accountLabel")
  else SyncLock.stageLockKey (unit@."kind") (if unit@."kind" === AGGREGATION then unit@."day" else JNull).

Definition assertUnitExecutable (descriptor : jsval) : outcome bool :=
  if isUnitExecutable descriptor then Ok true
  else Throw (JsError ("Unit kind " +:+ quoted (js_string (descriptor@."kind")) +:+ " is not executable yet: "
                       +:+ js_string ((descriptor@."blockedReason") ?? JStr UNIT_BLOCKED_REASON)) 0 "unit_not_executable").

(** *** Identity *)

Definition identity_fields : list string :=
  ["kind"; "platform"; "accountLabel"; "sourceObject"; "windowStart"; "windowEnd"; "campaignChunkIndex";
   "campaignPageOffset"; "day"; "networkSource"; "cursorId"; "entityType"].
Definition unitIdentity (descriptor : jsval) : string :=
  join "|" (map (fun k => js_string ((descriptor@.k) ?? JStr "")) identity_fields).

(** *** Safe views *)

Definition unitCampaignPage (d : jsval) : jsval :=
  if nullish (d@."campaignPageOffset") then JNull
  else JObj [("index", (d@."campaignPageIndex") ?? JNull); ("offset", d@."campaignPageOffset");
             ("limit", (d@."campaignPageLimit") ?? JNull); ("pages", (d@."campaignPageBudget") ?? JNull)].
Definition unitCampaignChunk (d : jsval) : jsval :=
  if nullish (d@."campaignChunkIndex") then JNull
  else JObj [("index", d@."campaignChunkIndex"); ("of", (d@."campaignChunkCount") ?? JNull);
             ("campaignCount", match d@."campaignIds" with JArr l => num_of_nat (length l) | _ => JNull end)].
Definition unitWindow (d : jsval) : jsval :=
  if truthy (d@."windowStart") && truthy (d@."windowEnd")
  then JObj [("start", d@."windowStart"); ("end", d@."windowEnd")] else JNull.
Definition date_or_null (t : option Z) : jsval := match t with Some t => JDate (Some t) | None => JNull end.
Definition unitView (unit : option JobRun) : jsval :=
  match unit with
  | None => JNull
  | Some unit =>
      let p := payload unit in
      JObj [("unitId", JStr (job_id unit));
            ("sequence", (p@."sequence") ?? JNum (num_of_Z (priority unit)));
            ("kind", (p@."kind") ?? JNull);
            ("platform", (p@."platform") ?? JNull);
            ("accountLabel", (p@."accountLabel") ?? JNull);
            ("sourceObject", (p@."sourceObject") ?? JNull);
            ("window", unitWindow p);
            ("campaignChunk", unitCampaignChunk p);
            ("campaignPage", unitCampaignPage p);
            ("lockKey", (p@."lockKey") ?? JNull);
            ("status", JStr (status_text (status unit)));
            ("attempt", JNum (num_of_Z (attempt unit)));
            ("startedAt", date_or_null (startedAt unit));
            ("executable", JBool (row_executable unit));
            ("blockedReason", if row_executable unit then JNull else (p@."blockedReason") ?? JStr UNIT_BLOCKED_REASON)]
  end.

(** ** The plan of a run *)

(** An element of what [listAccounts] returns: a bare label, or an account row. *)
Inductive account_entry := Label (label : string) | Account (label : option string) (lastSuccessfulSync : jsval).
Definition entry_label (e : account_entry) : string :=
  match e with Label l => l | Account l _ => default "" l end.
(** [undefined] for a bare label *)
Definition entry_last (e : account_entry) : jsval := match e with Label _ => JUndef | Account _ last => last end.
Definition normalizeAccountEntries (entries : list account_entry) : list account_entry :=
  sort_by (fun a b => String.leb (entry_label a) (entry_label b))
    (List.filter (fun e => negb (entry_label e =s? "")) entries).

Record verdict := Verdict { allowed : bool; verdict_status : string }.

Section Plan.
Context (listAccounts : string -> list account_entry) (loadAccountState : string -> string -> jsval)
        (supplierGate : option (string -> verdict)) (overlapDays : Z).

Definition gated (platform : string) : option jsval :=
  match supplierGate with
  | None => None
  | Some gate =>
      let v := gate platform in
      if allowed v then None
      else Some (JObj [("platform", JStr platform); ("accountLabel", JNull); ("sourceObject", JNull);
                       ("reason", JStr SUPPLIER_GATE_EXCLUSION_REASON);
                       ("notes", JStr ("Supplier status " +:+ verdict_status v +:+
                                       ": only ENABLED suppliers are planned into scheduled or full runs."))])
  end.

Definition network_unit (unit : jsval) : jsval := spread (JObj [("kind", JStr NETWORK)]) unit.

(** [planAccount]: what one account adds to the plan *)
Definition planAccount (platform label : string) (last : jsval) (networkOptions : jsval) (now : Z) : outcome SourcePlan.plan :=
  let lastSuccessfulSync :=
    match last with
    | JUndef => ((loadAccountState platform label)@."lastSuccessfulSync") ?? JNull
    | _ => last
    end in
  let? planned := SourcePlan.planAccountUnits (JStr platform) (JStr label) lastSuccessfulSync (JDate (Some now)) now
                    networkOptions overlapDays in
  let units :=
    match SourcePlan.units planned, SourcePlan.exclusions planned with
    | [], [] => [JObj [("kind", JStr NETWORK); ("platform", JStr platform); ("accountLabel", JStr label);
                       ("options", networkOptions)]]
    | us, _ => map network_unit us
    end in
  Ok (SourcePlan.Plan units (SourcePlan.exclusions planned) (SourcePlan.deferred planned)).

Definition join_plans (a b : SourcePlan.plan) : SourcePlan.plan :=
  SourcePlan.Plan (SourcePlan.units a ++ SourcePlan.units b) (SourcePlan.exclusions a ++ SourcePlan.exclusions b)
    (SourcePlan.deferred a ++ SourcePlan.deferred b).
Fixpoint plan_each {A} (step : A -> outcome SourcePlan.plan) (xs : list A) (acc : SourcePlan.plan) : outcome SourcePlan.plan :=
  match xs with
  | [] => Ok acc
  | x :: rest => let? p := step x in plan_each step rest (join_plans acc p)
  end.
Definition no_plan : SourcePlan.plan := SourcePlan.Plan [] [] [].

Definition plan_platform (networkOptions : jsval) (now : Z) (labelled : bool) (platform : string) : outcome SourcePlan.plan :=
  match gated platform with
  | Some exclusion => Ok (SourcePlan.Plan [] [exclusion] [])
  | None =>
      if labelled then
        plan_each (fun e => planAccount platform (entry_label e) (entry_last e) networkOptions now)
          (normalizeAccountEntries (listAccounts platform)) no_plan
      else planAccount platform "default" JUndef networkOptions now
  end.

(** [{ ...unit, sequence: index + 1, lockKey: unitLockKey(unit) }] *)
Definition sequenced (index : nat) (unit : jsval) : jsval :=
  spread unit (JObj [("sequence", num_of_nat (S index)); ("lockKey", JStr (unitLockKey unit))]).

Definition placeholder (kind : string) : jsval :=
  JObj [("kind", JStr kind); ("options", JObj []); ("executable", JBool false); ("blockedReason", JStr UNIT_BLOCKED_REASON)].

Definition buildSyncPlan (fastSync : jsval) (promoteAfter includePostSyncUnits : bool) (now : Z) : outcome SourcePlan.plan :=
  let networkOptions := JObj [("fastSync", js_bool fastSync); ("promoteAfter", JBool false)] in
  let? labelled := plan_each (plan_platform networkOptions now true) ACCOUNT_LABELLED_PLATFORMS no_plan in
  let? all := plan_each (plan_platform networkOptions now false) SINGLE_ACCOUNT_PLATFORMS labelled in
  let units := SourcePlan.units all ++
    (if promoteAfter && includePostSyncUnits
     then map placeholder [PROMOTION; CONVERSION_PROMOTION; AGGREGATION] else []) in
  Ok (SourcePlan.Plan (imap sequenced units) (SourcePlan.exclusions all) (SourcePlan.deferred all)).
End Plan.

(** ** Projection of a run from its units *)

Record summary := Summary {
  totalUnits : nat; completedUnits : nat; failedUnits : nat; cancelledUnits : nat;
  pendingUnits : nat; runningUnits : nat; blockedUnits : nat; supersededUnits : nat;
  partial : bool; latestError : option string; latestWarning : option string; current : option JobRun
}.
Definition empty_summary (n : nat) : summary := Summary n 0 0 0 0 0 0 0 false None None None.

(** [v?.outcome?.k] *)
Definition outcome_field (unit : JobRun) (k : string) : jsval := ((result unit)@."outcome")@.k.

(** The loop of [summarizeUnits]. *)
Definition count_unit (c : summary) (unit : JobRun) : summary :=
  match status unit with
  | COMPLETED =>
      let warned := match outcome_field unit "warnings" with
                    | JArr (w :: ws) => Some (js_string (List.last (w :: ws) JUndef))
                    | _ => latestWarning c
                    end in
      Summary (totalUnits c) (S (completedUnits c)) (failedUnits c) (cancelledUnits c) (pendingUnits c) (runningUnits c)
        (blockedUnits c) (supersededUnits c) (partial c || truthy (outcome_field unit "partialSuccess"))
        (latestError c) warned (current c)
  | CANCELLED =>
      Summary (totalUnits c) (completedUnits c) (failedUnits c) (S (cancelledUnits c)) (pendingUnits c) (runningUnits c)
        (blockedUnits c) (supersededUnits c) (partial c) (latestError c) (latestWarning c) (current c)
  | DEAD_LETTER | FAILED =>
      let error := match lastError unit with Some e => if e =s? "" then latestError c else Some e | None => latestError c end in
      Summary (totalUnits c) (completedUnits c) (S (failedUnits c)) (cancelledUnits c) (pendingUnits c) (runningUnits c)
        (blockedUnits c) (supersededUnits c) (partial c) error (latestWarning c) (current c)
  | RUNNING =>
      Summary (totalUnits c) (completedUnits c) (failedUnits c) (cancelledUnits c) (pendingUnits c) (S (runningUnits c))
        (blockedUnits c) (supersededUnits c) (partial c) (latestError c) (latestWarning c)
        (match current c with Some u => Some u | None => Some unit end)
  | PENDING =>
      if negb (row_executable unit) then
        if truthy ((payload unit)@."supersededBy")
        then Summary (totalUnits c) (completedUnits c) (failedUnits c) (cancelledUnits c) (pendingUnits c) (runningUnits c)
               (blockedUnits c) (S (supersededUnits c)) (partial c) (latestError c) (latestWarning c) (current c)
        else Summary (totalUnits c) (completedUnits c) (failedUnits c) (cancelledUnits c) (pendingUnits c) (runningUnits c)
               (S (blockedUnits c)) (supersededUnits c) (partial c) (latestError c) (latestWarning c) (current c)
      else
        let error := match latestError c, lastError unit with
                     | Some e, _ => Some e
                     | None, Some e => if e =s? "" then None else Some e
                     | None, None => None
                     end in
        Summary (totalUnits c) (completedUnits c) (failedUnits c) (cancelledUnits c) (S (pendingUnits c)) (runningUnits c)
          (blockedUnits c) (supersededUnits c) (partial c) error (latestWarning c) (current c)
  end.
Definition counters (units : list JobRun) : summary := fold_left count_unit units (empty_summary (length units)).

(** [Math.round(x)]: the nearest integer, ties towards plus infinity *)
Definition math_round (x : num) : Z :=
  match x with
  | S754_finite s m e =>
      let a := (if s then -1 else 1) * Zpos m in
      if 0 <=? e then a * 2 ^ e else (2 * a + 2 ^ (- e)) / (2 * 2 ^ (- e))
  | _ => 0
  end.
Definition percent (part whole : nat) : Z :=
  Z.min 100 (math_round (nmul (ndiv (num_of_Z (Z.of_nat part)) (num_of_Z (Z.of_nat whole))) (num_of_Z 100))).

Definition terminal_units (c : summary) : nat := completedUnits c + failedUnits c + cancelledUnits c.
Definition unitsPercentComplete (c : summary) : Z :=
  if (0 <? totalUnits c)%nat then percent (terminal_units c) (totalUnits c) else 0.
Definition settled (c : summary) : bool :=
  (terminal_units c + blockedUnits c + supersededUnits c =? totalUnits c)%nat && (0 <? totalUnits c)%nat.
Definition permanentlyFailed (c : summary) : bool := settled c && (0 <? failedUnits c)%nat.
Definition postSyncOutstanding (postSyncStages : jsval) (mayAppend : bool) : bool :=
  ((postSyncStages === "deferred") || (postSyncStages === "materialised")) && mayAppend.
Definition awaitingPostSync (c : summary) (postSyncStages : jsval) (mayAppend : bool) : bool :=
  settled c && negb (permanentlyFailed c) && postSyncOutstanding postSyncStages mayAppend.
Definition blocked (c : summary) (postSyncStages : jsval) (mayAppend : bool) : bool :=
  settled c && negb (permanentlyFailed c) && negb (awaitingPostSync c postSyncStages mayAppend) && (0 <? blockedUnits c)%nat.
Definition finished (c : summary) (postSyncStages : jsval) (mayAppend : bool) : bool :=
  settled c && (permanentlyFailed c || (negb (awaitingPostSync c postSyncStages mayAppend) && (blockedUnits c =? 0)%nat)).
Definition totalWorkKnown (c : summary) (postSyncStages : jsval) (mayAppend : bool) : bool :=
  negb (postSyncOutstanding postSyncStages mayAppend) || finished c postSyncStages mayAppend.
Definition run_status_text (c : summary) (postSyncStages : jsval) (mayAppend : bool) : string :=
  if finished c postSyncStages mayAppend
  then if (0 <? failedUnits c)%nat then "failed" else if partial c then "partial" else "success"
  else if blocked c postSyncStages mayAppend then "blocked"
  else if awaitingPostSync c postSyncStages mayAppend then "awaiting_post_sync"
  else "running".

Definition phasePercent (units : list JobRun) (belongs : JobRun -> bool) : option Z :=
  let phase := List.filter belongs units in
  match phase with
  | [] => None
  | _ => Some (percent (length (List.filter (fun u => TERMINAL_STATUSES (status u)) phase)) (length phase))
  end.

(** [Object.values(v)] *)
Definition obj_values (v : jsval) : list jsval :=
  match v with JObj l => map snd l | JArr l => l | _ => [] end.
Definition has_campaign_page (v : jsval) : bool := is_object v && negb (is_undef (v@."campaignPage")).
Fixpoint account_scan (accountLabel : string) (values : list jsval) : jsval :=
  match values with
  | [] => JNull
  | value :: rest =>
      if negb (is_object value) then account_scan accountLabel rest
      else if negb (accountLabel =s? "") && is_object (value@.accountLabel) then value@.accountLabel
      else if negb (is_undef (value@."campaignPage")) then value
      else match List.find has_campaign_page (obj_values value) with
           | Some nested => nested
           | None => account_scan accountLabel rest
           end
  end.
Definition accountOutcome (result : jsval) (accountLabel : string) : jsval :=
  if negb (is_object result) then JNull
  else if negb (accountLabel =s? "") && is_object (result@.accountLabel) then result@.accountLabel
  else account_scan accountLabel (obj_values result).

(** ** Matching runs *)

Definition path_equals (v : jsval) (path : list string) (want : jsval) : bool := json_equals (json_path v path) want.
Definition version_matches (plannerVersion : option num) (run : JobRun) : bool :=
  match plannerVersion with Some v => path_equals (payload run) ["plannerVersion"] (JNum v) | None => true end.
Definition identityConditions (options : option jsval) (plannerVersion : option num) (run : JobRun) : bool :=
  match options with
  | Some o => path_equals (payload run) ["options"; "fastSync"] (js_bool (o@."fastSync"))
              && path_equals (payload run) ["options"; "promoteAfter"] (JBool (promote_after o))
  | None => true
  end && version_matches plannerVersion run.
Definition compatibilityConditions (options : option jsval) (plannerVersion : option num) (run : JobRun) : bool :=
  match options with
  | Some o => (if truthy (o@."fastSync") then true else path_equals (payload run) ["options"; "fastSync"] (JBool false))
              && path_equals (payload run) ["options"; "promoteAfter"] (JBool (promote_after o))
  | None => true
  end && version_matches plannerVersion run.

Definition by_priority_id (a b : JobRun) : bool :=
  (priority a <? priority b) || ((priority a =? priority b) && String.leb (job_id a) (job_id b)).
(** [(run.payload?.options?.scopeKey ?? null)] *)
Definition scope_of (run : JobRun) : jsval := (((payload run)@."options")@."scopeKey") ?? JNull.

End WithHost.

(** ** The service *)

Section Service.
Context {H : JsHost} {U : Uuid}.
(** The lease of units and locks, the participant lease of the barrier, the attempts of a
    unit, the length of the aggregation window and of the planning overlap. *)
Context (leaseMs participantLeaseMs maxUnitAttempts daysBack overlapDays : Z).
(** What the service reads outside the job table. *)
Context (listAccounts : string -> list account_entry) (loadAccountState : string -> string -> jsval)
        (supplierGate : option (string -> verdict))
        (planCommissionGroupChunks : string -> string -> list (jsval * list jsval)).

Definition run_row (j : JobRun) : bool := jobName j =s? ORCHESTRATION_JOB_NAME.
Definition unit_row (j : JobRun) : bool := jobName j =s? UNIT_JOB_NAME.
Definition active_run_row (j : JobRun) : bool := run_row j && ACTIVE_STATUSES (status j).

Definition listUnits (runId : string) : io jobs (list JobRun) := act (job_many (unit_rows runId) by_priority).

Definition findActiveRun (options : option jsval) (plannerVersion : option num) : io jobs (option JobRun) :=
  act (job_first (fun j => active_run_row j && compatibilityConditions options plannerVersion j) by_created).
Definition listActiveCompatibleRuns (options : option jsval) (plannerVersion : option num) : io jobs (list JobRun) :=
  act (job_many (fun j => active_run_row j && identityConditions options plannerVersion j) by_created_id).

(** *** Creating runs *)

Record created_run := CreatedRun { created_id : string; created_units : nat; created_deferred : list jsval }.

Definition options_view (options : jsval) : jsval :=
  JObj ([("fastSync", js_bool (options@."fastSync")); ("promoteAfter", JBool (promote_after options))]
        ++ if truthy (options@."scopeKey") then [("scopeKey", JStr (js_string (options@."scopeKey")))] else []).
Definition post_sync_label (options : jsval) (planned : list jsval) : string :=
  if negb (promote_after options) then "none"
  else if existsb (fun unit => negb (unit@."kind" === NETWORK) && is_false (unit@."executable")) planned then "blocked"
  else "deferred".
Definition parent_payload (kind trigger : string) (options : jsval) (plan : SourcePlan.plan) : jsval :=
  let planned := SourcePlan.units plan in
  JObj ([("kind", JStr kind); ("trigger", JStr trigger); ("plannerVersion", JNum PLANNER_VERSION);
         ("options", options_view options); ("postSyncStages", JStr (post_sync_label options planned));
         ("totalUnits", num_of_nat (length planned))]
        ++ (match SourcePlan.exclusions plan with [] => [] | l => [("excludedSources", JArr l)] end)
        ++ (match SourcePlan.deferred plan with [] => [] | l => [("deferredSources", JArr l)] end)).
Definition parent_result (n : nat) : jsval :=
  JObj [("totalUnits", num_of_nat n); ("completedUnits", num_of_nat 0); ("failedUnits", num_of_nat 0);
        ("pendingUnits", num_of_nat n); ("runningUnits", num_of_nat 0); ("percentComplete", num_of_nat 0)].
(** [{ parentRunId, ...unit }] as a row; [priority] is the unit's sequence number *)
Definition unit_new (runId : string) (sequence : Z) (unit : jsval) : new_job :=
  NewJob UNIT_JOB_NAME PENDING sequence maxUnitAttempts (spread (JObj [("parentRunId", JStr runId)]) unit) JNull (Some runId) None.

Fixpoint unit_news (runId : string) (index : nat) (units : list jsval) : list new_job :=
  match units with
  | [] => []
  | unit :: rest => unit_new runId (Z.of_nat (S index)) unit :: unit_news runId (S index) rest
  end.
(** The transaction of [createRun]. *)
Definition create_transaction (kind trigger : string) (options : jsval) (plan : SourcePlan.plan) (started : Z) : prog jobs JobRun :=
  let! parent := job_create (NewJob ORCHESTRATION_JOB_NAME RUNNING 100 1 (parent_payload kind trigger options plan)
                               (parent_result (length (SourcePlan.units plan))) None (Some started)) in
  job_update (job_id parent) (set_correlationId (Some (job_id parent))) ;;
  job_create_many (unit_news (job_id parent) 0 (SourcePlan.units plan)) ;;
  ret parent.

(** The given units of a run, or the plan of the estate. *)
Definition run_plan (options : jsval) (units : option (list jsval)) (now : Z) : outcome SourcePlan.plan :=
  match units with
  | Some us => Ok (SourcePlan.Plan (imap sequenced us) [] [])
  | None => buildSyncPlan listAccounts loadAccountState supplierGate overlapDays (options@."fastSync")
              (promote_after options) (is_true (options@."includePostSyncUnits")) now
  end.
Definition createRun (kind trigger : string) (options : jsval) (units : option (list jsval)) : io jobs created_run :=
  do! now := act get_clock in
  match run_plan options units now with
  | Throw e => Raise e
  | Ok plan =>
      do! started := act get_clock in
      do! parent := act (create_transaction kind trigger options plan started) in
      Ret (CreatedRun (job_id parent) (length (SourcePlan.units plan)) (SourcePlan.deferred plan))
  end.

(** *** Cancelling runs *)

Definition cancelled_row (at_ : Z) (reason : string) (j : JobRun) : JobRun :=
  set_lastError (Some reason) (set_completedAt (Some at_) (set_status CANCELLED j)).
Definition pending_unit_of (runId : string) (j : JobRun) : bool := unit_rows runId j && (status j =j? PENDING).

Inductive collapse_result := Collapsed (runId canonicalRunId : string) | NotCollapsed (reason : string).

(** The transaction of [collapseDuplicateRun]. *)
Definition collapse_transaction (runId : string) (at_ : Z) (reason : string) : prog jobs bool :=
  let! count := job_update_many (fun j => has_job_id runId j && active_run_row j) (cancelled_row at_ reason) in
  if (count =? 0)%nat then ret false
  else job_update_many (pending_unit_of runId) (cancelled_row at_ reason) ;; ret true.
Definition collapseDuplicateRun (runId : string) (canonicalRunId : string) : io jobs collapse_result :=
  let reason := "duplicate_active_run" in
  do! parent := act (job_find runId) in
  match parent with
  | Some p =>
      if negb (run_row p) || negb (ACTIVE_STATUSES (status p)) then Ret (NotCollapsed "already_terminal")
      else if negb (current_planner p) then Ret (NotCollapsed "foreign_planner_version")
      else
        do! units := listUnits runId in
        if existsb (fun u => negb (status u =j? PENDING)) units then Ret (NotCollapsed "work_started")
        else
          do! cancelledAt := act get_clock in
          do! done := act (collapse_transaction runId cancelledAt reason) in
          Ret (if done then Collapsed runId canonicalRunId else NotCollapsed "already_terminal")
  | None => Ret (NotCollapsed "already_terminal")
  end.

Inductive cancel_result :=
| Cancelled (runId : string) (unitsCancelled unitsLeftRunning freezeIntentCleared : nat)
| NotCancelled (code : string).

(** The transaction of [cancelRun]. *)
Definition cancel_transaction (runId : string) (at_ : Z) (reason : string) (payload_ : jsval) : prog jobs (option nat) :=
  let! count := job_update_many (fun j => has_job_id runId j && active_run_row j)
                  (fun j => set_payload payload_ (cancelled_row at_ reason j)) in
  if (count =? 0)%nat then ret None
  else let! n := job_update_many (pending_unit_of runId) (cancelled_row at_ reason) in ret (Some n).
Definition cancelRun (runId reason : string) (actor : jsval) : io jobs cancel_result :=
  if runId =s? "" then Ret (NotCancelled "run_not_found")
  else
    do! parent := act (job_find runId) in
    match parent with
    | Some p =>
        if negb (run_row p) then Ret (NotCancelled "run_not_found")
        else if negb (current_planner p) then Ret (NotCancelled "run_foreign_planner_version")
        else if TERMINAL_STATUSES (status p) then Ret (NotCancelled "run_already_terminal")
        else
          do! cancelledAt := act get_clock in
          let cancellation := JObj [("reason", JStr reason); ("cancelledAt", JStr (to_iso_string cancelledAt)); ("actor", actor ?? JNull)] in
          do! applied := act (cancel_transaction runId cancelledAt reason (with_prop (payload p) "cancellation" cancellation)) in
          match applied with
          | None => Ret (NotCancelled "run_already_terminal")
          | Some unitsCancelled =>
              do! stillRunning := act (job_many (fun j => unit_rows runId j && (status j =j? RUNNING)) by_priority) in
              do! cleared := io_catch (clearFreezeIntent leaseMs) (fun _ => Ret 0%nat) in
              Ret (Cancelled runId unitsCancelled (length stillRunning) cleared)
          end
    | None => Ret (NotCancelled "run_not_found")
    end.

(** *** Reusing runs *)

Definition collapseDuplicatesOf (canonicalRunId : string) (options : option jsval) (plannerVersion : option num) : io jobs unit :=
  do! active := listActiveCompatibleRuns options plannerVersion in
  io_each active (fun run =>
    if job_id run =s? canonicalRunId then Ret tt
    else collapseDuplicateRun (job_id run) canonicalRunId ;;; Ret tt).

Definition unscopedActiveRun (options : option jsval) (plannerVersion : option num) : io jobs (option JobRun) :=
  do! run := findActiveRun options plannerVersion in
  Ret match run with
      | Some r => if nullish (scope_of r) then Some r else None
      | None => None
      end.
Definition activeIncompatibleRun (plannerVersion : num) : io jobs (option JobRun) :=
  do! active := act (job_many active_run_row by_created_id) in
  Ret (List.find (fun run => match (payload run)@."plannerVersion" with JNum v => neqb v plannerVersion | _ => false end) active).
Definition activeForeignPlannerRun : io jobs (option (string * jsval)) :=
  do! active := act (job_many active_run_row by_created_id) in
  Ret match List.find (fun run => negb (current_planner run)) active with
      | Some run => Some (job_id run, ((payload run)@."plannerVersion") ?? JNull)
      | None => None
      end.

Inductive run_answer := Reused (runId : string) (collapsedRunId : option string) | Created (run : created_run).
Definition incompatible_run : js_error :=
  JsError "An active sync run is incompatible with this request." 409 "active_run_incompatible".

Definition getOrCreateRun (kind trigger : string) (options : jsval) (units : option (list jsval)) : io jobs run_answer :=
  let version := Some PLANNER_VERSION in
  let scopeKey := (options@."scopeKey") ?? JNull in
  do! existing :=
    (if truthy scopeKey then
       do! runs := listActiveCompatibleRuns (Some options) version in
       Ret (List.find (fun run => json_equals (scope_of run) scopeKey) runs)
     else unscopedActiveRun (Some options) version) in
  match existing with
  | Some run =>
      collapseDuplicatesOf (job_id run) (Some (((payload run)@."options") ?? options)) version ;;;
      Ret (Reused (job_id run) None)
  | None =>
      do! blocker := activeIncompatibleRun PLANNER_VERSION in
      match blocker with
      | Some _ => Raise incompatible_run
      | None =>
          do! created := createRun kind trigger options units in
          do! active := listActiveCompatibleRuns (Some options) version in
          match active with
          | canonical :: _ =>
              if negb (job_id canonical =s? created_id created) then
                do! collapse := collapseDuplicateRun (created_id created) (job_id canonical) in
                match collapse with
                | Collapsed _ _ => Ret (Reused (job_id canonical) (Some (created_id created)))
                | NotCollapsed _ => Ret (Created created)
                end
              else collapseDuplicatesOf (created_id created) (Some options) version ;;; Ret (Created created)
          | [] => collapseDuplicatesOf (created_id created) (Some options) version ;;; Ret (Created created)
          end
      end
  end.

(** *** Refreshing a run *)

Definition opt_str (o : option string) : jsval := of_option_str o.
Definition summary_result (c : summary) (stages : jsval) (mayAppend : bool) : jsval :=
  JObj [("totalUnits", num_of_nat (totalUnits c)); ("completedUnits", num_of_nat (completedUnits c));
        ("failedUnits", num_of_nat (failedUnits c)); ("cancelledUnits", num_of_nat (cancelledUnits c));
        ("pendingUnits", num_of_nat (pendingUnits c)); ("runningUnits", num_of_nat (runningUnits c));
        ("blockedUnits", num_of_nat (blockedUnits c)); ("supersededUnits", num_of_nat (supersededUnits c));
        ("unitsPercentComplete", JNum (num_of_Z (unitsPercentComplete c)));
        ("percentComplete", if totalWorkKnown c stages mayAppend then JNum (num_of_Z (unitsPercentComplete c)) else JNull);
        ("totalWorkKnown", JBool (totalWorkKnown c stages mayAppend));
        ("status", JStr (run_status_text c stages mayAppend));
        ("latestError", opt_str (latestError c)); ("latestWarning", opt_str (latestWarning c));
        ("currentUnit", unitView (current c))].
(** The [data] of the update of [refreshRun]. *)
Definition refreshed (parent : JobRun) (units : list JobRun) (completed : Z) (j : JobRun) : JobRun :=
  let stages := postSyncStages_of parent in
  let mayAppend := postSyncMayAppendUnits units (negb (stages === "none")) in
  let c := counters units in
  let j := set_progress (unitsPercentComplete c) (set_result (summary_result c stages mayAppend) j) in
  if finished c stages mayAppend && negb (TERMINAL_STATUSES (status parent)) then
    let j := set_lastError (latestError c)
               (set_completedAt (Some completed) (set_status (if (0 <? failedUnits c)%nat then FAILED else COMPLETED) j)) in
    match (if (0 <? failedUnits c)%nat then failureStageOf units else None) with
    | Some f => set_payload (with_prop (payload parent) "failureStage" (JStr (failure_text f))) j
    | None => j
    end
  else j.
Definition refreshRun (runId : option string) : io jobs (option JobRun) :=
  match runId with
  | None => Ret None
  | Some id =>
      if id =s? "" then Ret None
      else
        do! parent := act (job_find id) in
        do! units := listUnits id in
        match parent with
        | None => Ret None
        | Some p =>
            do! now := act get_clock in
            do! row := act (job_update id (refreshed p units now)) in Ret (Some row)
        end
  end.

(** *** Appending units *)

Record append_result := Appended { appended : Z; skipped : Z; append_reason : option string }.

Definition collapse_order (units : list JobRun) : list JobRun := sort_by by_priority_id units.
(** The rows whose identity an earlier row of the order already has. *)
Fixpoint duplicates (seen : list string) (ordered : list JobRun) : list JobRun :=
  match ordered with
  | [] => []
  | unit :: rest =>
      let identity := unitIdentity (payload unit) in
      if existsb (String.eqb identity) seen then unit :: duplicates seen rest else duplicates (identity :: seen) rest
  end.
Fixpoint delete_duplicates (dups : list JobRun) (removed : nat) : io jobs nat :=
  match dups with
  | [] => Ret removed
  | d :: rest =>
      do! count := act (job_delete_many (fun j => has_job_id (job_id d) j && unit_row j && (status j =j? PENDING))) in
      delete_duplicates rest (removed + count)
  end.
Definition collapseDuplicateUnits (runId : string) : io jobs nat :=
  do! units := listUnits runId in delete_duplicates (duplicates [] (collapse_order units)) 0.

(** [{ parentRunId, ...unit, sequence, lockKey }] *)
Definition appended_unit (runId : string) (sequence : Z) (unit : jsval) : new_job :=
  unit_new runId sequence (spread unit (JObj [("sequence", JNum (num_of_Z sequence)); ("lockKey", JStr (unitLockKey unit))])).
Fixpoint append_loop (runId : string) (units : list jsval) (identities : list string) (sequence : Z)
    (appended_ skipped_ : Z) : io jobs (Z * Z) :=
  match units with
  | [] => Ret (appended_, skipped_)
  | unit :: rest =>
      let identity := unitIdentity unit in
      if existsb (String.eqb identity) identities then append_loop runId rest identities sequence appended_ (skipped_ + 1)
      else
        act (job_create (appended_unit runId (sequence + 1) unit)) ;;;
        append_loop runId rest (identity :: identities) (sequence + 1) (appended_ + 1) skipped_
  end.
Definition top_sequence (units : list JobRun) : Z := fold_left (fun m u => Z.max m (priority u)) units 0.

Definition appendUnits (runId : string) (units : list jsval) : io jobs append_result :=
  if (runId =s? "") || (length units =? 0)%nat then Ret (Appended 0 0 None)
  else
    do! parent := act (job_find runId) in
    match parent with
    | None => Ret (Appended 0 0 (Some "not_found"))
    | Some p =>
        if negb (run_row p) then Ret (Appended 0 0 (Some "not_found"))
        else if TERMINAL_STATUSES (status p) then Ret (Appended 0 (Z.of_nat (length units)) (Some "run_terminal"))
        else
          do! existing := listUnits runId in
          do! counts := append_loop runId units (map (fun u => unitIdentity (payload u)) existing) (top_sequence existing) 0 0 in
          if 0 <? counts.1 then
            do! removed := collapseDuplicateUnits runId in
            do! all := listUnits runId in
            act (job_update runId (set_payload (with_prop (payload p) "totalUnits" (num_of_nat (length all))))) ;;;
            refreshRun (Some runId) ;;;
            Ret (Appended (counts.1 - Z.of_nat removed) (counts.2 + Z.of_nat removed) None)
          else Ret (Appended counts.1 counts.2 None)
    end.

(** *** Follow-on units *)

Definition unsettledUnitsFor (runId platform accountLabel sourceObject : string) (excludeUnitId : option string) : io jobs nat :=
  do! units := listUnits runId in
  Ret (length (List.filter (fun u =>
    negb (match excludeUnitId with Some id => job_id u =s? id | None => false end)
    && ((payload u)@."platform" === platform) && ((payload u)@."accountLabel" === accountLabel)
    && ((payload u)@."sourceObject" === sourceObject) && negb (TERMINAL_STATUSES (status u))) units)).

Definition resolve_entry (platform accountLabel sourceObject : string) (units : nat) (at_ : Z) (entry : jsval) : jsval :=
  if (entry@."platform" === platform) && (entry@."accountLabel" === accountLabel) && (entry@."sourceObject" === sourceObject)
  then spread entry (JObj [("status", JStr "materialised"); ("units", num_of_nat units); ("resolvedAt", JStr (to_iso_string at_))])
  else entry.
Definition resolveDeferredSource (runId platform accountLabel sourceObject : string) (units : nat) : io jobs bool :=
  do! parent := act (job_find runId) in
  match parent with
  | Some p =>
      match (payload p)@."deferredSources" with
      | JArr (d :: ds) =>
          do! now := act get_clock in
          act (job_update runId (set_payload (with_prop (payload p) "deferredSources"
                 (JArr (map (resolve_entry platform accountLabel sourceObject units now) (d :: ds)))))) ;;;
          Ret true
      | _ => Ret false
      end
  | None => Ret false
  end.

Record follow_on := FollowOn { follow_append : append_result; continued : bool; follow_resolved : option bool; waitingOnUnits : nat }.
Definition no_follow_on : follow_on := FollowOn (Appended 0 0 None) false None 0.
Definition chunk_unit (platform accountLabel : string) (options : jsval) (count : nat) (chunk : jsval * list jsval) : jsval :=
  JObj [("kind", JStr NETWORK); ("platform", JStr platform); ("accountLabel", JStr accountLabel);
        ("sourceObject", JStr OPTIMISE_COMMISSION_GROUPS_SOURCE); ("campaignChunkIndex", chunk.1);
        ("campaignChunkCount", num_of_nat count); ("campaignIds", JArr chunk.2); ("options", options)].

Definition materialiseFollowOnUnits (runId : string) (descriptor outcome_ : jsval) (completingUnitId : option string) : io jobs follow_on :=
  match text (descriptor@."platform"), text (descriptor@."sourceObject") with
  | Some platform, Some sourceObject =>
      if runId =s? "" then Ret no_follow_on
      else
        let accountLabel := default "default" (text (descriptor@."accountLabel")) in
        let options := spread (descriptor@."options") (JObj [("promoteAfter", JBool false)]) in
        let pagination := ((accountOutcome outcome_ accountLabel)@."campaignPage") ?? JNull in
        match SourcePlan.nextPagedUnit
                (spread descriptor (JObj [("platform", JStr platform); ("accountLabel", JStr accountLabel)])) pagination with
        | Some continuation =>
            do! a := appendUnits runId
                [spread (JObj [("kind", JStr NETWORK); ("platform", JStr platform); ("accountLabel", JStr accountLabel);
                               ("sourceObject", JStr sourceObject); ("options", options)]) continuation] in
            Ret (FollowOn a true None 0)
        | None =>
            let targets := SourcePlan.sourcesMaterialisedAfter (JStr platform) (JStr sourceObject) in
            if negb (existsb (String.eqb OPTIMISE_COMMISSION_GROUPS_SOURCE) targets) then Ret no_follow_on
            else
              do! unsettled := unsettledUnitsFor runId platform accountLabel sourceObject completingUnitId in
              if (0 <? unsettled)%nat then Ret (FollowOn (Appended 0 0 None) false None unsettled)
              else
                match planCommissionGroupChunks platform accountLabel with
                | [] =>
                    do! ok := resolveDeferredSource runId platform accountLabel OPTIMISE_COMMISSION_GROUPS_SOURCE 0 in
                    Ret (FollowOn (Appended 0 0 None) false (Some ok) 0)
                | chunks =>
                    do! a := appendUnits runId (map (chunk_unit platform accountLabel options (length chunks)) chunks) in
                    match append_reason a with
                    | Some _ => Ret (FollowOn a false (Some false) 0)
                    | None =>
                        do! ok := resolveDeferredSource runId platform accountLabel OPTIMISE_COMMISSION_GROUPS_SOURCE (length chunks) in
                        Ret (FollowOn a false (Some ok) 0)
                    end
                end
        end
  | _, _ => Ret no_follow_on
  end.

(** *** Claiming and settling units *)

Definition nextUnit (runId : string) : io jobs (option JobRun) :=
  do! now := act get_clock in
  do! units := listUnits runId in
  Ret (List.find (fun u => row_executable u
    && ((status u =j? PENDING)
        || ((status u =j? RUNNING) && match startedAt u with Some t => t <? now - leaseMs | None => false end))) units).

Definition lockHolder (lockKey : jsval) (excludeUnitId : option string) : io jobs (option JobRun) :=
  SyncLock.findHolder leaseMs lockKey excludeUnitId.

(** [startedAt: { lt: staleBefore }] *)
Definition started_before (t : Z) (j : JobRun) : bool := match startedAt j with Some u => u <? t | None => false end.
Definition expired_claim (unitId : string) (staleBefore : Z) (j : JobRun) : bool :=
  has_job_id unitId j && (status j =j? RUNNING) && started_before staleBefore j.

Definition abandonStaleUnit (unitId : string) (staleBefore : Z) : io jobs (option (option Z)) :=
  do! at_ := act get_clock in
  do! count := act (job_update_many (fun j => expired_claim unitId staleBefore j && unit_row j)
      (fun j => set_lastError (Some ABANDONED_UNIT_REASON) (set_completedAt (Some at_) (set_status DEAD_LETTER j)))) in
  if negb (count =? 1)%nat then Ret None
  else
    do! unit := act (job_find unitId) in
    refreshRun (unit ≫= correlationId) ;;; Ret (Some (attempt <$> unit)).

Inductive claim_result :=
| Claimed (unitId : string) (reclaimed : bool)
| NotClaimed (reason : string) (heldBy : option string).

Definition claim_data (workerId : jsval) (unit : JobRun) (now : Z) (j : JobRun) : JobRun :=
  let previousWorker := if status unit =j? RUNNING then (((result unit)@."claim")@."workerId") ?? JNull else JNull in
  let claim := JObj ([("workerId", workerId); ("claimedAt", JStr (to_iso_string now))]
                     ++ if status unit =j? RUNNING then [("reclaimedFrom", previousWorker)] else []) in
  set_result (with_prop (result unit) "claim" claim)
    (set_attempt (attempt j + 1) (set_startedAt (Some now) (set_status RUNNING j))).
Definition pending_row (unitId : string) (j : JobRun) : bool := has_job_id unitId j && (status j =j? PENDING).

Definition claim_held (unitId : string) (unit : JobRun) (workerId : jsval) : io jobs claim_result :=
  do! now := act get_clock in
  let staleBefore := now - leaseMs in
  if (status unit =j? RUNNING) && started_before staleBefore unit && (maxAttempts unit <=? attempt unit) then
    do! abandoned := abandonStaleUnit (job_id unit) staleBefore in
    Ret (NotClaimed (match abandoned with Some _ => "abandoned" | None => "already_claimed" end) None)
  else
    do! fresh := act (job_update_many (pending_row unitId) (claim_data workerId unit now)) in
    if (fresh =? 1)%nat then Ret (Claimed unitId false)
    else
      do! stale := act (job_update_many (expired_claim unitId staleBefore) (claim_data workerId unit now)) in
      if (stale =? 1)%nat then Ret (Claimed unitId true) else Ret (NotClaimed "already_claimed" None).
Definition claimUnit (unitId : string) (workerId : jsval) : io jobs claim_result :=
  do! found := act (job_find unitId) in
  match found with
  | None => Ret (NotClaimed "not_found" None)
  | Some unit =>
      if negb (unit_row unit) then Ret (NotClaimed "not_found" None)
      else if negb (row_executable unit) then Ret (NotClaimed "not_executable" None)
      else
        do! holder := (if truthy ((payload unit)@."lockKey") then lockHolder ((payload unit)@."lockKey") (Some unitId) else Ret None) in
        match holder with
        | Some h => Ret (NotClaimed "lock_held" (Some (job_id h)))
        | None => claim_held unitId unit workerId
        end
  end.

Definition parentIsActive (runId : option string) : io jobs bool :=
  match runId with
  | None => Ret false
  | Some id =>
      if id =s? "" then Ret false
      else do! parent := act (job_find id) in
           Ret (match parent with Some p => run_row p && ACTIVE_STATUSES (status p) | None => false end)
  end.
Definition recordTerminalParentOutcome (row : JobRun) (outcome_ : jsval) (reason : string) : io jobs unit :=
  do! now := act get_clock in
  act (job_update_many (fun j => has_job_id (job_id row) j && unit_row j)
         (set_result (spread (result row) (JObj [("outcome", outcome_ ?? JNull);
            ("discardedOutcome", JObj [("reason", JStr reason); ("at", JStr (to_iso_string now))])])))) ;;; Ret tt.
Definition running_unit (unitId : string) (j : JobRun) : bool := has_job_id unitId j && unit_row j && (status j =j? RUNNING).

(** The common shape of [completeUnit] and [failUnit]: settle the unit while its run is active. *)
Definition settle_unit (unit : JobRun) (outcome_ : jsval) (late : string) (data : Z -> JobRun -> JobRun) : io jobs (option JobRun) :=
  do! active := parentIsActive (correlationId unit) in
  if negb active then
    recordTerminalParentOutcome unit outcome_ (late +:+ "_after_run_terminal") ;;; act (job_find (job_id unit))
  else
    do! now := act get_clock in
    do! count := act (job_update_many (running_unit (job_id unit)) (data now)) in
    if negb (count =? 1)%nat then
      recordTerminalParentOutcome unit outcome_ (late +:+ "_after_unit_terminal") ;;; act (job_find (job_id unit))
    else refreshRun (correlationId unit) ;;; act (job_find (job_id unit)).

Definition completeUnit (unitId : string) (outcome_ : jsval) : io jobs (option JobRun) :=
  do! found := act (job_find unitId) in
  match found with
  | None => Ret None
  | Some unit =>
      settle_unit unit outcome_ "completed" (fun now j =>
        set_result (with_prop (result unit) "outcome" (outcome_ ?? JNull))
          (set_lastError None (set_completedAt (Some now) (set_progress 100 (set_status COMPLETED j)))))
  end.
(** [message] is the error's text, cut to 2000 characters. *)
Definition failUnit (unitId : string) (error : js_error) : io jobs (option JobRun) :=
  do! found := act (job_find unitId) in
  match found with
  | None => Ret None
  | Some unit =>
      let message := Some (slice 0 2000 (err_message error)) in
      settle_unit unit JNull "failed" (fun now j =>
        if attempt unit <? maxAttempts unit then set_lastError message (set_status PENDING j)
        else set_completedAt (Some now) (set_lastError message (set_status DEAD_LETTER j)))
  end.

(** [workerId && holder && holder !== workerId] *)
Definition other_worker (workerId holder : jsval) : bool :=
  truthy workerId && truthy holder && negb (json_equals holder workerId).
Definition deferUnit (unitId : string) (reason workerId : jsval) : io jobs (option JobRun) :=
  do! found := act (job_find unitId) in
  match found with
  | None => Ret None
  | Some unit =>
      if negb (status unit =j? RUNNING) then Ret (Some unit)
      else if other_worker workerId ((((result unit)@."claim")@."workerId") ?? JNull) then Ret (Some unit)
      else if attempt unit <=? 0 then Ret (Some unit)
      else
        do! now := act get_clock in
        do! count := act (job_update_many (running_unit unitId) (fun j =>
          set_result (with_prop (result unit) "deferred" (JObj [("reason", reason); ("at", JStr (to_iso_string now))]))
            (set_attempt (Z.max 0 (attempt unit - 1)) (set_startedAt None (set_status PENDING j))))) in
        if (count =? 0)%nat then Ret (Some unit)
        else refreshRun (correlationId unit) ;;; act (job_find unitId)
  end.

(** *** The post-sync gate *)

Definition supersedable (kinds : list jsval) (unit : JobRun) : bool :=
  is_false ((payload unit)@."executable") && negb ((payload unit)@."kind" === NETWORK)
  && existsb (fun k => json_equals k ((payload unit)@."kind")) kinds
  && negb (truthy ((payload unit)@."supersededBy")).
Definition supersedePlaceholders (units : list JobRun) (kinds : list jsval) : io jobs unit :=
  do! now := act get_clock in
  io_each units (fun unit =>
    if supersedable kinds unit then
      act (job_update (job_id unit) (set_payload (spread (payload unit)
        (JObj [("supersededBy", JStr "bounded_units"); ("supersededAt", JStr (to_iso_string now))])))) ;;; Ret tt
    else Ret tt).

Record advance_result := Advanced {
  adv_stage : option post_sync_stage; adv_appended : Z; adv_skipped : Z; adv_reason : option string
}.
Definition window_json (w : agg_window) (pinnedTo : string) : jsval :=
  JObj [("from", JStr (window_from w)); ("to", JStr (window_to w)); ("days", JNum (num_of_Z (window_length w)));
        ("pinnedTo", JStr pinnedTo)].

(** The part of [advancePostSync] after the plan: the handshake, the append and the record. *)
Definition seed_stage (runId : string) (parent : JobRun) (units : list JobRun) (plan : transition) : io jobs advance_result :=
  let first := match reason plan with Some r => r =s? "promotion_campaign_seeded" | None => false end in
  do! inFlight :=
    (if first then announceFreezeIntent leaseMs (Some runId) ;;; activeParticipants participantLeaseMs None else Ret []) in
  match inFlight with
  | _ :: _ => Ret (Advanced (Some (stage plan)) 0 0 (Some "staging_in_flight"))
  | [] =>
      supersedePlaceholders units (map (fun seed => seed@."kind") (seeds plan)) ;;;
      do! a := appendUnits runId (seeds plan) in
      do! fresh := act (job_find runId) in
      let current_payload := match fresh with Some f => if nullish (payload f) then payload parent else payload f | None => payload parent end in
      let postSync := (current_payload@."postSync") ?? JObj [] in
      let postSync := match window plan with
                      | Some w => if truthy (postSync@."aggregation") then spread (JObj []) postSync
                                  else with_prop postSync "aggregation"
                                         (window_json w (match startedAt parent with Some _ => "startedAt" | None => "createdAt" end))
                      | None => spread (JObj []) postSync
                      end in
      act (job_update runId (set_payload
        (spread current_payload (JObj [("postSyncStages", JStr "materialised"); ("postSync", postSync)])))) ;;;
      (if first then clearFreezeIntent leaseMs ;;; Ret tt else Ret tt) ;;;
      Ret (Advanced (Some (stage plan)) (appended a) (skipped a) (reason plan))
  end.

Definition advancePostSync (runId : string) : io jobs advance_result :=
  if runId =s? "" then Ret (Advanced None 0 0 (Some "no_run"))
  else
    do! found := act (job_find runId) in
    match found with
    | None => Ret (Advanced None 0 0 (Some "not_found"))
    | Some parent =>
        if negb (run_row parent) then Ret (Advanced None 0 0 (Some "not_found"))
        else if TERMINAL_STATUSES (status parent) then Ret (Advanced None 0 0 (Some "run_terminal"))
        else if negb (current_planner parent) then Ret (Advanced None 0 0 (Some "planner_version_mismatch"))
        else if postSyncStages_of parent === "none" then Ret (Advanced (Some STAGE_NONE) 0 0 (Some "post_sync_not_requested"))
        else
          do! units := listUnits runId in
          let started := JDate (Some (match startedAt parent with Some t => t | None => createdAt parent end)) in
          match planPostSyncTransition daysBack units true (((payload parent)@."deferredSources") ?? JArr []) started with
          | Throw e => Raise e
          | Ok plan =>
              match seeds plan with
              | [] => Ret (Advanced (Some (stage plan)) 0 0 (reason plan))
              | _ => seed_stage runId parent units plan
              end
          end
    end.

(** The loop of [nextWorkableUnit]. *)
Fixpoint workable (runs : list JobRun) : io jobs (option (JobRun * JobRun)) :=
  match runs with
  | [] => Ret None
  | run :: rest =>
      do! unit := nextUnit (job_id run) in
      match unit with
      | Some u => Ret (Some (run, u))
      | None =>
          do! advanced := advancePostSync (job_id run) in
          if adv_appended advanced =? 0 then workable rest
          else
            do! seeded := nextUnit (job_id run) in
            match seeded with Some u => Ret (Some (run, u)) | None => workable rest end
      end
  end.
Definition nextWorkableUnit : io jobs (option (JobRun * JobRun)) :=
  do! runs := act (job_many (fun j => active_run_row j && compatibilityConditions None (Some PLANNER_VERSION) j) by_created_id) in
  workable runs.

End Service.
End Orchestrator.

(** ** Terminal rows *)

Module OrchestratorFacts.
Import PostSync Barrier Orchestrator.

(** A terminal row stays in the table and stays terminal. *)
Definition keeps_terminal (s s' : jobs) : Prop :=
  forall r, r ∈ job_rows s -> TERMINAL_STATUSES (status r) = true ->
  exists r', r' ∈ job_rows s' /\ job_id r' = job_id r /\ TERMINAL_STATUSES (status r') = true.

#[export] Instance keeps_terminal_preorder : PreOrder keeps_terminal.
Proof.
  split; [intros s r Hr Ht; eauto|]. intros s1 s2 s3 H12 H23 r Hr Ht.
  destruct (H12 r Hr Ht) as (r2 & Hr2 & E2 & Ht2). destruct (H23 r2 Hr2 Ht2) as (r3 & Hr3 & E3 & Ht3).
  exists r3. split_and!; [exact Hr3|congruence|exact Ht3].
Qed.

(** A rewriting of a row that does not reopen it. *)
Definition settling (f : JobRun -> JobRun) (j : JobRun) : Prop :=
  job_id (f j) = job_id j /\ (TERMINAL_STATUSES (status j) = true -> TERMINAL_STATUSES (status (f j)) = true).

Lemma keeps_map s (p : JobRun -> bool) f n :
  (forall j, p j = true -> settling f j) ->
  keeps_terminal s (Jobs (map (fun j => if p j then f j else j) (job_rows s)) (clock s) n).
Proof.
  intros Hf r Hr Ht. exists (if p r then f r else r). split.
  - exact (list_elem_of_fmap_2 (fun j => if p j then f j else j) _ _ Hr).
  - destruct (p r) eqn:E; [|auto]. destruct (Hf r E) as [Hid Hs]. auto.
Qed.
Lemma tracks_update_many p f : (forall j, p j = true -> settling f j) -> tracks keeps_terminal (job_update_many p f).
Proof. intros Hf s. apply keeps_map, Hf. Qed.
Lemma tracks_update id f : (forall j, settling f j) -> tracks keeps_terminal (job_update id f).
Proof. intros Hf s. unfold job_update. destruct (List.find _ _); [|reflexivity]. apply keeps_map. auto. Qed.
Lemma tracks_delete_many p : (forall j, p j = true -> TERMINAL_STATUSES (status j) = false) -> tracks keeps_terminal (job_delete_many p).
Proof.
  intros Hp s r Hr Ht. exists r. split; [|auto]. cbn. apply elem_of_filter_bool. split; [exact Hr|].
  destruct (p r) eqn:E; [|reflexivity]. rewrite (Hp r E) in Ht. discriminate.
Qed.
Lemma tracks_create {U : Uuid} d : tracks keeps_terminal (job_create d).
Proof. intros s r Hr Ht. exists r. split; [|auto]. cbn. apply elem_of_app. auto. Qed.
Lemma tracks_create_many {U : Uuid} ds : tracks keeps_terminal (job_create_many ds).
Proof. induction ds as [|d ds IH]; cbn [job_create_many]; [apply tracks_ret, _|]. apply tracks_bind; [apply _|apply tracks_create|auto]. Qed.

Lemma obeys_tracks {A} (p : prog jobs A) : tracks keeps_terminal p -> obeys (fun _ => True) keeps_terminal (act p).
Proof. intros Hp. apply obeys_act. intros s _. apply Hp. Qed.

(** Rewritings that keep or set the status as the service does. *)
Lemma settling_same f j : job_id (f j) = job_id j -> status (f j) = status j -> settling f j.
Proof. intros Hid Hs. split; [exact Hid|]. now rewrite Hs. Qed.
Lemma settling_active f j : job_id (f j) = job_id j -> TERMINAL_STATUSES (status j) = false -> settling f j.
Proof. intros Hid Hs. split; [exact Hid|]. congruence. Qed.
Lemma settling_final f j : job_id (f j) = job_id j -> TERMINAL_STATUSES (status (f j)) = true -> settling f j.
Proof. split; auto. Qed.

Lemma active_not_terminal s : ACTIVE_STATUSES s = true -> TERMINAL_STATUSES s = false.
Proof. now destruct s. Qed.
Lemma status_is j s : (status j =j? s) = true -> status j = s.
Proof. apply bool_decide_eq_true_1. Qed.

Section WithHost.
Context {H : JsHost}.
Lemma settling_refreshed p units now j : settling (refreshed p units now) j.
Proof.
  unfold settling, refreshed. cbv zeta. set (c := counters units). generalize (postSyncMayAppendUnits units (negb (postSyncStages_of p === "none"))).
  intros mayAppend. destruct (finished c (postSyncStages_of p) mayAppend && negb (TERMINAL_STATUSES (status p))); [|split; auto].
  destruct (0 <? failedUnits c)%nat; [destruct (failureStageOf units)|]; split; reflexivity || auto.
Qed.

(** ** The plan of a run *)

Section Planning.
Context (listAccounts : string -> list account_entry) (loadAccountState : string -> string -> jsval)
        (supplierGate : option (string -> verdict)) (overlap now : Z).

(** Every account was last synced at an instant the planner can measure from, or never. *)
Record accounts_planned : Prop := {
  loaded_planned : forall platform label,
    SourcePlanFacts.planning now (((loadAccountState platform label)@."lastSuccessfulSync") ?? JNull) overlap;
  listed_planned : forall platform e, e ∈ listAccounts platform ->
    entry_last e = JUndef \/ SourcePlanFacts.planning now (entry_last e) overlap
}.

Lemma planAccount_total platform label last options :
  accounts_planned -> (last = JUndef \/ SourcePlanFacts.planning now last overlap) ->
  exists p, planAccount loadAccountState overlap platform label last options now = Ok p.
Proof.
  intros Ha Hl. unfold planAccount. set (last' := match last with JUndef => _ | _ => _ end).
  assert (Hp : SourcePlanFacts.planning now last' overlap).
  { destruct Hl as [->|Hl]; [apply (loaded_planned Ha)|]. destruct last; try exact Hl. apply (loaded_planned Ha). }
  destruct (SourcePlanFacts.account_plan_lemma (JStr platform) (JStr label) last' options now overlap Hp) as (cs & -> & _).
  cbn [outcome_bind]. eauto.
Qed.
Lemma plan_each_total {A} (step : A -> outcome SourcePlan.plan) xs acc :
  (forall x, x ∈ xs -> exists p, step x = Ok p) -> exists p, plan_each step xs acc = Ok p.
Proof.
  revert acc. induction xs as [|x xs IH]; intros acc Hs; cbn [plan_each]; [eauto|].
  destruct (Hs x ltac:(left)) as (p & ->). cbn [outcome_bind]. apply IH. intros y Hy. apply Hs. now right.
Qed.
Lemma plan_platform_total options labelled platform :
  accounts_planned -> exists p, plan_platform listAccounts loadAccountState supplierGate overlap options now labelled platform = Ok p.
Proof.
  intros Ha. unfold plan_platform. destruct (gated supplierGate platform); [eauto|]. destruct labelled.
  - apply plan_each_total. intros e He. apply planAccount_total; [exact Ha|]. apply (listed_planned Ha platform).
    unfold normalizeAccountEntries in He. apply elem_of_sort_by, elem_of_filter_bool in He. tauto.
  - apply planAccount_total; auto.
Qed.

(** The plan [q] is part of the plan [p]. *)
Definition part (q p : SourcePlan.plan) : Prop :=
  SourcePlan.units q ⊆ SourcePlan.units p /\ SourcePlan.exclusions q ⊆ SourcePlan.exclusions p
  /\ SourcePlan.deferred q ⊆ SourcePlan.deferred p.
Lemma part_refl p : part p p.
Proof. split_and!; reflexivity. Qed.
Lemma part_trans p q r : part p q -> part q r -> part p r.
Proof. intros (? & ? & ?) (? & ? & ?). split_and!; etransitivity; eassumption. Qed.
Lemma part_join p q : part p (join_plans p q) /\ part q (join_plans p q).
Proof. unfold part, join_plans. cbn [SourcePlan.units SourcePlan.exclusions SourcePlan.deferred]. set_solver. Qed.
Lemma plan_each_parts {A} (step : A -> outcome SourcePlan.plan) xs acc p :
  plan_each step xs acc = Ok p -> part acc p /\ forall x, x ∈ xs -> exists q, step x = Ok q /\ part q p.
Proof.
  revert acc. induction xs as [|x xs IH]; intros acc; cbn [plan_each].
  - intros [= ->]. split; [apply part_refl|]. intros x Hx. now apply not_elem_of_nil in Hx.
  - destruct (step x) as [q|] eqn:Ex; [|discriminate]. cbn [outcome_bind]. intros Hp. destruct (IH _ Hp) as [Hacc Hrest].
    destruct (part_join acc q) as [Ha Hq]. split; [exact (part_trans _ _ _ Ha Hacc)|].
    intros y [->|Hy]%elem_of_cons; [|auto]. exists q. split; [exact Ex|exact (part_trans _ _ _ Hq Hacc)].
Qed.

(** The accounts a run has to cover: the labelled ones that are connected, and the default
    account of the other platforms, of suppliers that may sync. *)
Inductive scheduled : string -> string -> jsval -> Prop :=
| scheduled_label platform e :
    platform ∈ ACCOUNT_LABELLED_PLATFORMS -> gated supplierGate platform = None ->
    e ∈ listAccounts platform -> entry_label e <> "" -> scheduled platform (entry_label e) (entry_last e)
| scheduled_single platform :
    platform ∈ SINGLE_ACCOUNT_PLATFORMS -> gated supplierGate platform = None -> scheduled platform "default" JUndef.

Lemma plan_platform_label options platform p e :
  plan_platform listAccounts loadAccountState supplierGate overlap options now true platform = Ok p ->
  gated supplierGate platform = None -> e ∈ listAccounts platform -> entry_label e <> "" ->
  exists q, planAccount loadAccountState overlap platform (entry_label e) (entry_last e) options now = Ok q /\ part q p.
Proof.
  unfold plan_platform. intros Hp Hg He Hl. rewrite Hg in Hp. apply (proj2 (plan_each_parts _ _ _ _ Hp) e).
  unfold normalizeAccountEntries. apply elem_of_sort_by, elem_of_filter_bool. split; [exact He|].
  now rewrite (proj2 (String.eqb_neq _ _) Hl).
Qed.
Lemma plan_platform_gated options labelled platform p x :
  plan_platform listAccounts loadAccountState supplierGate overlap options now labelled platform = Ok p ->
  gated supplierGate platform = Some x -> x ∈ SourcePlan.exclusions p.
Proof. unfold plan_platform. intros Hp E. rewrite E in Hp. injection Hp as <-. left. Qed.

Lemma sequenced_lookup units i u :
  imap sequenced units !! i = Some u ->
  exists d, units !! i = Some d /\ u = sequenced i d
    /\ u@."sequence" = num_of_nat (S i) /\ u@."lockKey" = JStr (unitLockKey u).
Proof.
  rewrite list_lookup_imap. destruct (units !! i) as [d|]; [|discriminate].
  cbn [fmap option_fmap option_map]. intros [= <-]. exists d. split_and!; try reflexivity.
  - unfold sequenced. rewrite prop_spread by nodup_keys. reflexivity.
  - assert (E : unitLockKey (sequenced i d) = unitLockKey d)
      by (unfold unitLockKey, sequenced; rewrite !prop_spread by nodup_keys; reflexivity).
    rewrite E. unfold sequenced. rewrite prop_spread by nodup_keys. reflexivity.
Qed.

(** The plan of a run is total and complete, whatever accounts are connected and suppliers
    gated: its units are numbered from one in execution order and carry the key they will
    be locked under; every account of a supplier that may sync contributes its whole plan;
    a gated supplier is recorded as excluded. *)
Theorem sync_plan_total fastSync promoteAfter includePostSync :
  accounts_planned ->
  let options := JObj [("fastSync", js_bool fastSync); ("promoteAfter", JBool false)] in
  exists p, buildSyncPlan listAccounts loadAccountState supplierGate overlap fastSync promoteAfter includePostSync now = Ok p
    /\ (forall i u, SourcePlan.units p !! i = Some u ->
          u@."sequence" = num_of_nat (S i) /\ u@."lockKey" = JStr (unitLockKey u))
    /\ (forall platform label last, scheduled platform label last ->
          exists q, planAccount loadAccountState overlap platform label last options now = Ok q
            /\ (forall u, u ∈ SourcePlan.units q -> exists i, SourcePlan.units p !! i = Some (sequenced i u))
            /\ SourcePlan.deferred q ⊆ SourcePlan.deferred p)
    /\ (forall platform x, platform ∈ ACCOUNT_LABELLED_PLATFORMS ++ SINGLE_ACCOUNT_PLATFORMS ->
          gated supplierGate platform = Some x -> x ∈ SourcePlan.exclusions p).
Proof.
  intros Ha options. unfold buildSyncPlan. cbv zeta. fold options.
  destruct (plan_each_total (plan_platform listAccounts loadAccountState supplierGate overlap options now true)
              ACCOUNT_LABELLED_PLATFORMS no_plan) as (p1 & E1); [intros; now apply plan_platform_total|].
  destruct (plan_each_total (plan_platform listAccounts loadAccountState supplierGate overlap options now false)
              SINGLE_ACCOUNT_PLATFORMS p1) as (p2 & E2); [intros; now apply plan_platform_total|].
  rewrite E1. cbn [outcome_bind]. rewrite E2. cbn [outcome_bind]. eexists. split; [reflexivity|].
  destruct (plan_each_parts _ _ _ _ E1) as [_ Hlab], (plan_each_parts _ _ _ _ E2) as [H12 Hsing].
  cbn [SourcePlan.units SourcePlan.exclusions SourcePlan.deferred]. split_and!.
  - intros i u Hu. destruct (sequenced_lookup _ _ _ Hu) as (d & _ & _ & ? & ?). auto.
  - intros platform label last Hs.
    assert (Hq : exists q, planAccount loadAccountState overlap platform label last options now = Ok q /\ part q p2).
    { destruct Hs as [platform e Hpl Hg He Hl|platform Hpl Hg].
      - destruct (Hlab _ Hpl) as (pp & Epp & Hpp). destruct (plan_platform_label _ _ _ _ Epp Hg He Hl) as (q & Eq & Hq).
        exists q. split; [exact Eq|]. exact (part_trans _ _ _ Hq (part_trans _ _ _ Hpp H12)).
      - destruct (Hsing _ Hpl) as (pp & Epp & Hpp). unfold plan_platform in Epp. rewrite Hg in Epp. eauto. }
    destruct Hq as (q & Eq & Hu & _ & Hd). exists q. split_and!; [exact Eq| |exact Hd]. intros u Hin.
    destruct (proj1 (list_elem_of_lookup _ _) (Hu u Hin)) as [i Hi]. exists i.
    rewrite list_lookup_imap, lookup_app_l by (now apply lookup_lt_Some in Hi). now rewrite Hi.
  - intros platform x [Hpl|Hpl]%elem_of_app Hg.
    + destruct (Hlab _ Hpl) as (pp & Epp & (_ & Hx & _)). apply H12, Hx. exact (plan_platform_gated _ _ _ _ _ Epp Hg).
    + destruct (Hsing _ Hpl) as (pp & Epp & (_ & Hx & _)). apply Hx. exact (plan_platform_gated _ _ _ _ _ Epp Hg).
Qed.
End Planning.

(** ** The projection of a run *)

Definition counted (c : summary) : nat :=
  completedUnits c + failedUnits c + cancelledUnits c + pendingUnits c + runningUnits c + blockedUnits c + supersededUnits c.
Definition is_failed (u : JobRun) : bool := (status u =j? DEAD_LETTER) || (status u =j? FAILED).
Definition is_waiting (u : JobRun) : bool := (status u =j? PENDING) && row_executable u.

Lemma count_unit_step c u :
  totalUnits (count_unit c u) = totalUnits c
  /\ counted (count_unit c u) = S (counted c)
  /\ runningUnits (count_unit c u) = (runningUnits c + Nat.b2n (status u =j? RUNNING))%nat
  /\ pendingUnits (count_unit c u) = (pendingUnits c + Nat.b2n (is_waiting u))%nat
  /\ failedUnits (count_unit c u) = (failedUnits c + Nat.b2n (is_failed u))%nat.
Proof.
  unfold count_unit, counted, is_waiting, is_failed.
  destruct (status u); [destruct (row_executable u); [|destruct (truthy (payload u)@."supersededBy")]|..];
    repeat case_bool_decide; try congruence; cbn; split_and!; lia.
Qed.
Definition count (p : JobRun -> bool) (units : list JobRun) : nat := length (List.filter p units).

Lemma counters_fold units c :
  let c' := fold_left count_unit units c in
  totalUnits c' = totalUnits c /\ counted c' = (counted c + length units)%nat
  /\ runningUnits c' = (runningUnits c + count (fun u => status u =j? RUNNING) units)%nat
  /\ pendingUnits c' = (pendingUnits c + count is_waiting units)%nat
  /\ failedUnits c' = (failedUnits c + count is_failed units)%nat.
Proof.
  revert c. induction units as [|u units IH]; intros c; [cbn; split_and!; lia|]. cbn [fold_left].
  destruct (IH (count_unit c u)) as (H1 & H2 & H3 & H4 & H5). destruct (count_unit_step c u) as (E1 & E2 & E3 & E4 & E5).
  unfold count in *. cbn [List.filter length].
  split_and!; [lia|lia| | |]; rewrite ?H3, ?H4, ?H5, ?E3, ?E4, ?E5;
    [destruct (status u =j? RUNNING)|destruct (is_waiting u)|destruct (is_failed u)]; cbn [length Nat.b2n]; lia.
Qed.
Lemma counters_spec units :
  totalUnits (counters units) = length units /\ counted (counters units) = length units
  /\ runningUnits (counters units) = count (fun u => status u =j? RUNNING) units
  /\ pendingUnits (counters units) = count is_waiting units
  /\ failedUnits (counters units) = count is_failed units.
Proof. exact (counters_fold units (empty_summary (length units))). Qed.

Lemma count_zero p units : count p units = 0%nat -> forall u, u ∈ units -> p u = false.
Proof.
  unfold count. intros Hl u Hu. destruct (p u) eqn:E; [|reflexivity]. exfalso. apply length_zero_iff_nil in Hl.
  apply (not_elem_of_nil u). rewrite <- Hl. now apply elem_of_filter_bool.
Qed.

(** A refresh finalises a run only when every unit has settled: there is at least one, none
    is running and none is waiting to be run; and the run fails exactly when a unit did. *)
Theorem finalised_when_settled parent units now j :
  TERMINAL_STATUSES (status j) = false -> TERMINAL_STATUSES (status (refreshed parent units now j)) = true ->
  units <> [] /\ (forall u, u ∈ units -> status u <> RUNNING /\ is_waiting u = false)
  /\ (status (refreshed parent units now j) = FAILED <-> exists u, u ∈ units /\ is_failed u = true).
Proof.
  intros Hj. unfold refreshed. cbv zeta. set (c := counters units).
  generalize (postSyncMayAppendUnits units (negb (postSyncStages_of parent === "none"))). intros mayAppend.
  destruct (finished c (postSyncStages_of parent) mayAppend && negb (TERMINAL_STATUSES (status parent))) eqn:Ef; [|cbn; congruence].
  destruct (counters_spec units) as (Ht & Hc & Hr & Hp & Hf). fold c in Ht, Hc, Hr, Hp, Hf. intros _.
  apply andb_true_iff in Ef as [[[Hs%Nat.eqb_eq Hn%Nat.ltb_lt]%andb_true_iff _]%andb_true_iff _].
  unfold counted, terminal_units in *. assert (Hr0 : runningUnits c = 0%nat) by lia. assert (Hp0 : pendingUnits c = 0%nat) by lia.
  split_and!.
  - intros ->. cbn in *. lia.
  - intros u Hu. rewrite Hr in Hr0. rewrite Hp in Hp0. split; [|exact (count_zero _ _ Hp0 u Hu)].
    exact (bool_decide_eq_false_1 _ (count_zero _ _ Hr0 u Hu)).
  - assert (Hex : (0 <? failedUnits c)%nat = true <-> exists u, u ∈ units /\ is_failed u = true).
    { rewrite Nat.ltb_lt, Hf. unfold count. split.
      - intros Hl. destruct (List.filter is_failed units) as [|u l] eqn:E; [cbn in Hl; lia|]. exists u.
        apply elem_of_filter_bool. rewrite E. left.
      - intros (u & Hu & Hb). assert (Hin : u ∈ List.filter is_failed units) by (now apply elem_of_filter_bool).
        destruct (List.filter is_failed units); [set_solver|cbn; lia]. }
    rewrite <- Hex. destruct (0 <? failedUnits c)%nat; [destruct (failureStageOf units)|]; cbn; split; auto; discriminate.
Qed.

Section Service.
Context {U : Uuid} (leaseMs participantLeaseMs maxUnitAttempts daysBack overlapDays : Z).
Context (listAccounts : string -> list account_entry) (loadAccountState : string -> string -> jsval)
        (supplierGate : option (string -> verdict))
        (planCommissionGroupChunks : string -> string -> list (jsval * list jsval)).

Abbreviation safe := (obeys (fun _ => True) keeps_terminal).

Lemma safe_read {A} (f : jobs -> A) : safe (act (gets f)).
Proof. apply obeys_tracks, tracks_gets, _. Qed.
Lemma safe_update_many p f : (forall j, p j = true -> settling f j) -> safe (act (job_update_many p f)).
Proof. intros Hf. now apply obeys_tracks, tracks_update_many. Qed.
Lemma safe_update id f : (forall j, settling f j) -> safe (act (job_update id f)).
Proof. intros Hf. now apply obeys_tracks, tracks_update. Qed.
Lemma safe_create d : safe (act (job_create d)).
Proof. apply obeys_tracks, tracks_create. Qed.
Hint Resolve safe_read safe_create : obeys.

(** Closes the updates: the new status is terminal, unchanged, or the old one was active. *)
Ltac settle :=
  intros;
  repeat match goal with
  | E : context [pending_row] |- _ => unfold pending_row in E
  | E : context [expired_claim] |- _ => unfold expired_claim in E
  | E : context [running_unit] |- _ => unfold running_unit in E
  | E : context [pending_unit_of] |- _ => unfold pending_unit_of in E
  | E : context [active_run_row] |- _ => unfold active_run_row in E
  | E : context [liveWhere] |- _ => unfold liveWhere in E
  end;
  split_bools;
  repeat match goal with E : (status _ =j? _) = true |- _ => apply status_is in E end;
  first [ now apply settling_same | now apply settling_final
        | apply settling_active; [reflexivity|first [now apply active_not_terminal|congruence|match goal with E : status _ = _ |- _ => rewrite E; reflexivity end]] ].
Ltac safe_act :=
  lazymatch goal with
  | |- safe (act (job_update_many _ _)) => apply safe_update_many; settle
  | |- safe (act (job_update _ _)) => apply safe_update; settle
  | |- safe (act (job_find _)) => apply safe_read
  | |- safe (act (job_many _ _)) => apply safe_read
  | |- safe (act (job_first _ _)) => apply safe_read
  | |- safe (act get_clock) => apply safe_read
  | |- safe (act (job_create _)) => apply safe_create
  end.
Ltac safe_all := repeat first [safe_act | obey_step].

Lemma safe_listUnits id : safe (listUnits id).
Proof. apply safe_read. Qed.
Lemma safe_findHolder k e : safe (SyncLock.findHolder leaseMs k e).
Proof. unfold SyncLock.findHolder. safe_all. Qed.
Lemma safe_refresh id : safe (refreshRun id).
Proof.
  unfold refreshRun, listUnits. safe_all. all: apply settling_refreshed || (apply safe_update; intros; apply settling_refreshed).
Qed.
Hint Resolve safe_listUnits safe_findHolder safe_refresh : obeys.

Lemma safe_delete_duplicates dups n : safe (delete_duplicates dups n).
Proof.
  revert n. induction dups as [|d dups IH]; intros n; cbn [delete_duplicates]; [exact Logic.I|].
  apply obeys_bind; [|auto]. apply obeys_tracks, tracks_delete_many. intros j Hj. split_bools.
  now rewrite (status_is j PENDING).
Qed.
Hint Resolve safe_delete_duplicates : obeys.
Lemma safe_append_loop id units ids seq a b : safe (append_loop maxUnitAttempts id units ids seq a b).
Proof.
  revert ids seq a b. induction units as [|u units IH]; intros; cbn [append_loop]; [exact Logic.I|]. cbv zeta.
  destruct (existsb _ _); [apply IH|]. apply obeys_bind; [apply safe_create|auto].
Qed.
Hint Resolve safe_append_loop : obeys.
Lemma safe_append id units : safe (appendUnits maxUnitAttempts id units).
Proof. unfold appendUnits, collapseDuplicateUnits. safe_all. Qed.
Hint Resolve safe_append : obeys.
Lemma safe_resolve id a b c n : safe (resolveDeferredSource id a b c n).
Proof. unfold resolveDeferredSource. safe_all. Qed.
Lemma safe_unsettled id a b c e : safe (unsettledUnitsFor id a b c e).
Proof. unfold unsettledUnitsFor. safe_all. Qed.
Hint Resolve safe_resolve safe_unsettled : obeys.
Lemma safe_materialise id d o c : safe (materialiseFollowOnUnits maxUnitAttempts planCommissionGroupChunks id d o c).
Proof. unfold materialiseFollowOnUnits. safe_all. Qed.

Lemma safe_abandon id t : safe (abandonStaleUnit id t).
Proof. unfold abandonStaleUnit. safe_all. Qed.
Hint Resolve safe_abandon : obeys.
Lemma safe_claim id w : safe (claimUnit leaseMs id w).
Proof. unfold claimUnit, claim_held, lockHolder. safe_all. Qed.
Lemma safe_record row o r : safe (recordTerminalParentOutcome row o r).
Proof. unfold recordTerminalParentOutcome. safe_all. Qed.
Lemma safe_parent id : safe (parentIsActive id).
Proof. unfold parentIsActive. safe_all. Qed.
Hint Resolve safe_record safe_parent : obeys.
Lemma safe_settle u o l data :
  (forall now j, running_unit (job_id u) j = true -> settling (data now) j) -> safe (settle_unit u o l data).
Proof. intros Hd. unfold settle_unit. repeat first [obey_step | apply safe_update_many; auto | safe_act]. Qed.
Lemma safe_complete id o : safe (completeUnit id o).
Proof. unfold completeUnit. safe_all. apply safe_settle. settle. Qed.
Lemma safe_fail id e : safe (failUnit id e).
Proof. unfold failUnit. safe_all. apply safe_settle. intros. destruct (_ <? _); settle. Qed.
Lemma safe_defer id r w : safe (deferUnit id r w).
Proof. unfold deferUnit. safe_all. Qed.
Lemma safe_announce c : safe (announceFreezeIntent leaseMs c).
Proof. unfold announceFreezeIntent, freezeIntent. safe_all. Qed.
Lemma safe_participants e : safe (activeParticipants participantLeaseMs e).
Proof. unfold activeParticipants. safe_all. Qed.
Lemma safe_clear : safe (clearFreezeIntent leaseMs).
Proof. unfold clearFreezeIntent. safe_all. Qed.
Lemma safe_supersede units kinds : safe (supersedePlaceholders units kinds).
Proof. unfold supersedePlaceholders. safe_all. Qed.
Hint Resolve safe_announce safe_participants safe_clear safe_supersede : obeys.
Lemma safe_seed id p us plan : safe (seed_stage leaseMs participantLeaseMs maxUnitAttempts id p us plan).
Proof. unfold seed_stage. safe_all. Qed.
Hint Resolve safe_seed : obeys.
Lemma safe_advance id : safe (advancePostSync leaseMs participantLeaseMs maxUnitAttempts daysBack id).
Proof. unfold advancePostSync. safe_all. Qed.
Hint Resolve safe_advance : obeys.
Lemma safe_next : safe (nextWorkableUnit leaseMs participantLeaseMs maxUnitAttempts daysBack).
Proof.
  unfold nextWorkableUnit. apply obeys_bind; [apply safe_read|]. intros runs.
  induction runs as [|r runs IH]; cbn [workable]; [exact Logic.I|]. unfold nextUnit. safe_all.
Qed.

Lemma tracks_collapse id t r : tracks keeps_terminal (collapse_transaction id t r).
Proof. unfold collapse_transaction. track; apply tracks_update_many; settle. Qed.
Lemma tracks_cancel id t r p : tracks keeps_terminal (cancel_transaction id t r p).
Proof. unfold cancel_transaction. track; apply tracks_update_many; settle. Qed.
Lemma tracks_create_run kind trigger options plan t : tracks keeps_terminal (create_transaction maxUnitAttempts kind trigger options plan t).
Proof.
  unfold create_transaction. track; [apply tracks_create|apply tracks_update; settle|apply tracks_create_many].
Qed.
Lemma safe_collapse id c : safe (collapseDuplicateRun id c).
Proof. unfold collapseDuplicateRun. safe_all. apply obeys_tracks, tracks_collapse. Qed.
Lemma safe_cancel id r a : safe (cancelRun leaseMs id r a).
Proof. unfold cancelRun. safe_all. apply obeys_tracks, tracks_cancel. Qed.
Hint Resolve safe_collapse : obeys.
Lemma safe_active o v : safe (listActiveCompatibleRuns o v).
Proof. apply safe_read. Qed.
Hint Resolve safe_active : obeys.
Lemma safe_duplicates id o v : safe (collapseDuplicatesOf id o v).
Proof. unfold collapseDuplicatesOf. safe_all. Qed.
Lemma safe_createRun kind trigger options units :
  safe (createRun maxUnitAttempts overlapDays listAccounts loadAccountState supplierGate kind trigger options units).
Proof. unfold createRun. safe_all. apply obeys_tracks, tracks_create_run. Qed.
Hint Resolve safe_duplicates safe_createRun : obeys.
Lemma safe_getOrCreate kind trigger options units :
  safe (getOrCreateRun maxUnitAttempts overlapDays listAccounts loadAccountState supplierGate kind trigger options units).
Proof. unfold getOrCreateRun, unscopedActiveRun, findActiveRun, activeIncompatibleRun. safe_all. Qed.

(** The calls of the service that write the table. *)
Inductive service_call :=
| CStart (kind trigger : string) (options : jsval) (units : option (list jsval))
| CCancel (runId reason : string) (actor : jsval)
| CAppend (runId : string) (units : list jsval)
| CFollow (runId : string) (descriptor outcome_ : jsval) (completing : option string)
| CNext
| CClaim (unitId : string) (workerId : jsval)
| CComplete (unitId : string) (outcome_ : jsval)
| CFail (unitId : string) (error : js_error)
| CDefer (unitId : string) (reason workerId : jsval)
| CAdvance (runId : string)
| CRefresh (runId : option string).
Definition serve (c : service_call) : io jobs unit :=
  match c with
  | CStart kind trigger options units =>
      getOrCreateRun maxUnitAttempts overlapDays listAccounts loadAccountState supplierGate kind trigger options units ;;; Ret tt
  | CCancel runId reason actor => cancelRun leaseMs runId reason actor ;;; Ret tt
  | CAppend runId units => appendUnits maxUnitAttempts runId units ;;; Ret tt
  | CFollow runId descriptor outcome_ completing =>
      materialiseFollowOnUnits maxUnitAttempts planCommissionGroupChunks runId descriptor outcome_ completing ;;; Ret tt
  | CNext => nextWorkableUnit leaseMs participantLeaseMs maxUnitAttempts daysBack ;;; Ret tt
  | CClaim unitId workerId => claimUnit leaseMs unitId workerId ;;; Ret tt
  | CComplete unitId outcome_ => completeUnit unitId outcome_ ;;; Ret tt
  | CFail unitId error => failUnit unitId error ;;; Ret tt
  | CDefer unitId reason workerId => deferUnit unitId reason workerId ;;; Ret tt
  | CAdvance runId => advancePostSync leaseMs participantLeaseMs maxUnitAttempts daysBack runId ;;; Ret tt
  | CRefresh runId => refreshRun runId ;;; Ret tt
  end.
Lemma safe_serve c : safe (serve c).
Proof.
  destruct c; cbn [serve]; (apply obeys_bind; [|intros; exact Logic.I]);
    eauto using safe_getOrCreate, safe_cancel, safe_append, safe_materialise, safe_next, safe_claim, safe_complete,
      safe_fail, safe_defer, safe_advance, safe_refresh.
Qed.

(** C36: Whatever the interleaving of any number of service calls, and however time passes, a run
    or unit that has completed, failed, been cancelled or dead-lettered is never deleted
    and never returns to work. *)
Theorem terminal_never_reopened calls s calls' s' r :
  steps (time_passes advance) (map serve calls, s) (calls', s') ->
  r ∈ job_rows s -> TERMINAL_STATUSES (status r) = true ->
  exists r', r' ∈ job_rows s' /\ job_id r' = job_id r /\ TERMINAL_STATUSES (status r') = true.
Proof.
  intros Hsteps. eapply (steps_obey _ (fun _ => True) keeps_terminal) in Hsteps as [Hg _]; [exact (Hg r)|apply _|auto| | |exact Logic.I].
  - intros x y _ (d & _ & ->) q Hq Ht. exists q. auto.
  - apply Forall_forall. intros m (c & -> & _)%list_elem_of_fmap. apply safe_serve.
Qed.

(** ** Claims *)

Section Claims.
Context (unitId : string) (T0 : Z).

Definition fresh_claim (r : JobRun) : Prop :=
  job_id r = unitId /\ status r = RUNNING /\ exists t, startedAt r = Some t /\ T0 <= t.
Definition worker (r : JobRun) : jsval := ((result r)@."claim")@."workerId".

(** Ids are distinct, a unit is not its own run, and the interleaving fits in a lease. *)
Definition within_lease (s : jobs) : Prop :=
  NoDup (map job_id (job_rows s)) /\ T0 <= clock s <= T0 + leaseMs
  /\ forall r, r ∈ job_rows s -> job_id r = unitId -> correlationId r <> Some unitId.
(** A claim made since [T0] is left alone. *)
Definition respects (r r' : JobRun) : Prop := job_id r' = job_id r /\ (fresh_claim r -> r' = r).
Definition claims_kept (s s' : jobs) : Prop := clock s <= clock s' /\ Forall2 respects (job_rows s) (job_rows s').

Lemma respects_refl r : respects r r.
Proof. split; auto. Qed.
Lemma kept_same s : claims_kept s s.
Proof. split; [lia|]. apply Forall_Forall2_diag, Forall_forall. intros; apply respects_refl. Qed.
Lemma kept_map s (p : JobRun -> bool) f :
  (forall j, p j = true -> job_id (f j) = job_id j) -> (forall j, p j = true -> ~ fresh_claim j) ->
  claims_kept s (set_job_rows (map (fun j => if p j then f j else j) (job_rows s)) s).
Proof.
  intros Hid Hp. split; [cbn; lia|]. cbn [set_job_rows job_rows]. induction (job_rows s) as [|r l IH]; constructor; [|exact IH].
  destruct (p r) eqn:E; [|apply respects_refl]. split; [auto|]. intros Hf. destruct (Hp r E Hf).
Qed.
Lemma kept_time s s' : time_passes advance s s' -> claims_kept s s'.
Proof. intros (d & Hd & ->). split; [cbn; lia|]. apply Forall_Forall2_diag, Forall_forall. intros; apply respects_refl. Qed.

Definition won_by (w : jsval) (s : jobs) : Prop := exists r, r ∈ job_rows s /\ fresh_claim r /\ worker r = w.
Lemma won_by_stable w : stable within_lease claims_kept (won_by w).
Proof.
  intros s s' _ _ [_ HF] (r & Hr & Hf & Hw). apply list_elem_of_lookup in Hr as [i Hi].
  destruct (Forall2_lookup_l _ _ _ _ _ HF Hi) as (r' & Hi' & _ & Hs). rewrite (Hs Hf) in Hi'.
  exists r. split_and!; auto. now apply list_elem_of_lookup_2 with i.
Qed.
Lemma always_stable : stable within_lease claims_kept (fun _ => True).
Proof. intros ? ? _ _ _ _. exact Logic.I. Qed.
Lemma since_stable now : stable within_lease claims_kept (fun s => T0 <= now <= clock s).
Proof. intros s s' _ _ [Hc _]. lia. Qed.

Lemma kept_read {A} (f : jobs -> A) : obeys within_lease claims_kept (act (gets f)).
Proof. apply obeys_act. intros s _. apply kept_same. Qed.
Lemma kept_refresh id : id <> Some unitId -> obeys within_lease claims_kept (refreshRun id).
Proof.
  intros Hne. unfold refreshRun. destruct id as [id|]; [|exact Logic.I]. destruct (id =s? ""); [exact Logic.I|].
  apply obeys_bind; [apply kept_read|]. intros parent. apply obeys_bind; [apply kept_read|]. intros units.
  destruct parent as [p|]; [|exact Logic.I]. apply obeys_bind; [apply kept_read|]. intros now. apply obeys_bind; [|intros; exact Logic.I].
  apply obeys_act. intros s _. unfold job_update. destruct (List.find _ _) as [found|]; [|apply kept_same]. apply kept_map.
  - intros j _. apply settling_refreshed.
  - intros j Hj (Hid & _). apply String.eqb_eq in Hj. congruence.
Qed.

(** No row claimed since [T0] has an expired lease, for a clock read in the meantime. *)
Lemma expired_not_fresh now s j :
  within_lease s -> now <= clock s -> expired_claim unitId (now - leaseMs) j = true -> ~ fresh_claim j.
Proof.
  intros (_ & Hc & _) Hn He (_ & _ & t & Ht & Hle). unfold expired_claim, started_before in He. rewrite Ht in He. split_bools.
  rewrite Z.ltb_lt in *. lia.
Qed.

Lemma abandon_assured now :
  assured within_lease claims_kept (fun _ _ => True) (fun s => T0 <= now <= clock s) (abandonStaleUnit unitId (now - leaseMs)).
Proof.
  unfold abandonStaleUnit. apply (assured_bind _ _ (fun _ s => T0 <= now <= clock s)).
  { apply assured_obeys; [apply since_stable|auto|apply kept_read]. }
  intros at_. apply (assured_bind _ _ (fun _ _ => True)).
  - apply assured_act; [intros _; apply always_stable|]. intros s Hs _ Hn. split; [|auto]. apply kept_map; [reflexivity|].
    intros j Hj. split_bools. now apply (expired_not_fresh now s).
  - intros count. destruct (negb _); [exact (fun _ _ _ => Logic.I)|].
    apply (assured_bind _ _ (fun u _ => match u with Some r => correlationId r <> Some unitId | None => True end)).
    + apply assured_act; [intros u s s' _ _ _ Hu; exact Hu|]. intros s (_ & _ & Hcor) _ _. split; [apply kept_same|].
      cbn. intros u [= <-]. destruct (List.find _ _) as [r|] eqn:E; [|exact Logic.I]. apply find_some in E as [Hr Hid].
      apply Hcor; [now apply list_elem_of_In|]. now apply String.eqb_eq.
    + intros u. apply (assured_bind _ _ (fun _ _ => True)); [|intros; exact (fun _ _ _ => Logic.I)].
      destruct u as [r|]; [|exact (fun _ _ _ => Logic.I)]. cbn [mbind option_bind].
      destruct (decide (correlationId r = Some unitId)) as [E|Hne].
      * (* excluded by the reading *) destruct (refreshRun (correlationId r)) as [| |R q k] eqn:Er; cbn; [auto|auto|]. intros s _ _ Hn. contradiction.
      * apply (assured_strengthen _ _ _ (fun _ => True)); [auto|]. apply assured_obeys; [apply always_stable|auto|now apply kept_refresh].
Qed.

(** A conditional update that matched one row left the claim on it. *)
Lemma claim_update_won p w u now s :
  (forall j, p j = true -> job_id j = unitId) -> T0 <= now ->
  length (List.filter p (job_rows s)) = 1%nat ->
  won_by w (set_job_rows (map (fun j => if p j then claim_data w u now j else j) (job_rows s)) s).
Proof.
  intros Hp Hnow Hl. destruct (List.filter p (job_rows s)) as [|r l] eqn:E; [discriminate|].
  assert (Hr : r ∈ List.filter p (job_rows s)) by (rewrite E; left). apply elem_of_filter_bool in Hr as [Hr Hpr].
  exists (claim_data w u now r). split_and!.
  - cbn. apply list_elem_of_fmap. exists r. now rewrite Hpr.
  - split_and!; [exact (Hp r Hpr)|reflexivity|]. exists now. auto.
  - unfold worker, claim_data. cbn [result set_result]. rewrite prop_with_prop_eq. reflexivity.
Qed.

Definition claim_post (w : jsval) (a : claim_result) (s : jobs) : Prop :=
  match a with Claimed _ _ => won_by w s | NotClaimed _ _ => True end.

Lemma claim_assured w : assured within_lease claims_kept (claim_post w) (fun _ => True) (claimUnit leaseMs unitId w).
Proof.
  unfold claimUnit. apply (assured_bind _ _ (fun u _ => match u with Some r => job_id r = unitId | None => True end)).
  { apply assured_act; [intros u s s' _ _ _ Hu; exact Hu|]. intros s _ _ _. split; [apply kept_same|]. cbn. intros u [= <-].
    destruct (List.find _ _) as [r|] eqn:E; [|exact Logic.I]. apply find_some in E as [_ Hid]. now apply String.eqb_eq. }
  intros [u|]; [|exact (fun _ _ _ => Logic.I)]. destruct (decide (job_id u = unitId)) as [Hid|Hne].
  2: { destruct (if negb (unit_row u) then _ else _) as [| |R q k]; cbn; [contradiction|auto|]. intros s _ _ Hn. contradiction. }
  apply (assured_strengthen _ _ _ (fun _ => True)); [auto|].
  destruct (unit_row u); cbn [negb]; [|exact (fun _ _ _ => Logic.I)].
  destruct (row_executable u); cbn [negb]; [|exact (fun _ _ _ => Logic.I)].
  apply (assured_bind _ _ (fun _ _ => True)).
  { apply assured_obeys; [apply always_stable|auto|]. destruct (truthy _); [|exact Logic.I].
    unfold lockHolder, SyncLock.findHolder. destruct (negb _); [exact Logic.I|].
    apply obeys_bind; [apply kept_read|intros; apply kept_read]. }
  intros [h|]; [exact (fun _ _ _ => Logic.I)|]. unfold claim_held.
  apply (assured_bind _ _ (fun now s => T0 <= now <= clock s)).
  { apply assured_act; [apply since_stable|]. intros s (_ & Hc & _) _ _. split; [apply kept_same|]. cbn. intros now [= <-]. lia. }
  intros now. destruct (_ && _).
  { rewrite Hid. eapply assured_bind; [apply abandon_assured|]. intros [|]; exact (fun _ _ _ => Logic.I). }
  apply (assured_bind _ _ (fun n s => T0 <= now <= clock s /\ (n = 1%nat -> won_by w s))).
  - apply assured_act.
    + intros n s s' Hs Hs' Hg [Hn Hw]. split; [now apply (since_stable now s)|]. intros E. apply (won_by_stable w s); auto.
    + intros s Hs _ Hn. split.
      * apply kept_map; [reflexivity|]. unfold pending_row. intros j Hj (_ & Hrun & _). split_bools.
        apply status_is in H1. congruence.
      * cbn [job_update_many fst snd]. intros n [= <-]. split; [exact Hn|]. intros El. apply claim_update_won; [|lia|exact El].
        unfold pending_row, has_job_id. intros j Hj. now split_bools.
  - intros n. destruct (Nat.eqb_spec n 1) as [E|E]; [cbn; intros s _ [_ Hw]; auto|].
    apply (assured_bind _ _ (fun k s => k = 1%nat -> won_by w s)).
    + apply (assured_strengthen _ _ _ (fun s => T0 <= now <= clock s)); [intros s _ [? _]; assumption|]. apply assured_act.
      * intros k s s' Hs Hs' Hg Hw El. apply (won_by_stable w s); auto.
      * intros s Hs _ Hn. split; [apply kept_map; [reflexivity|intros j Hj; apply (expired_not_fresh now s); auto; lia]|].
        cbn [job_update_many fst snd]. intros k [= <-] El. apply claim_update_won; [|lia|exact El].
        unfold expired_claim, has_job_id. intros j Hj. now split_bools.
    + intros k. destruct (Nat.eqb_spec k 1); [cbn; intros s _ Hw; auto|exact (fun _ _ _ => Logic.I)].
Qed.

(** C28: Exactly one of concurrent claimers wins: whatever the interleaving of the claims of one
    unit by workers of different names, within a lease no two of them are granted. *)
Theorem claim_exclusive workers s calls' s' i j w w' c c' :
  within_lease s ->
  rtc (step_in (time_passes advance) within_lease)
    (map (fun w => do! c := claimUnit leaseMs unitId w in Ret (w, c)) workers, s) (calls', s') ->
  calls' !! i = Some (Ret (w, c)) -> calls' !! j = Some (Ret (w', c')) ->
  (exists b, c = Claimed unitId b) -> (exists b, c' = Claimed unitId b) -> w = w'.
Proof.
  intros Hs Hsteps Hi Hj [b ->] [b' ->].
  assert (Hs' : within_lease s').
  { apply rtc_inv_r in Hsteps as [E|(d & _ & (_ & _ & HI))]; [now simplify_eq|exact HI]. }
  assert (Hwon : forall n w b, calls' !! n = Some (Ret (w, Claimed unitId b)) -> won_by w s').
  { intros n v bv Hn. refine (results_hold _ _ claims_kept (fun a s => claim_post a.1 a.2 s) _ _ _ _ _ _ _ Hs _ Hsteps Hn).
    - intros ? ? _ _. apply kept_time.
    - apply Forall_forall. intros m (v' & -> & _)%list_elem_of_fmap. eapply assured_bind; [apply claim_assured|].
      intros r. cbn. auto. }
  destruct (Hwon _ _ _ Hi) as (r & Hr & (Hid & _) & Hw), (Hwon _ _ _ Hj) as (r' & Hr' & (Hid' & _) & Hw').
  destruct Hs' as (Hnd & _). rewrite <- Hw, <- Hw'. f_equal.
  apply (SyncLockFacts.unique_id (job_rows s')); auto. congruence.
Qed.
End Claims.

End Service.
End WithHost.
End OrchestratorFacts.

(** ** Interleavings the comments exclude *)

Module OrchestratorRaces.
Import PostSync Barrier Orchestrator.
#[local] Existing Instance SyncLockRace.numbered.
#[local] Existing Instance utc_host.

Definition lease : Z := SyncLock.DEFAULT_LEASE_MS.
Definition noon : Z := 1767268800000.

Definition run_json (stages : string) : jsval :=
  JObj [("kind", JStr "full"); ("plannerVersion", JNum PLANNER_VERSION); ("postSyncStages", JStr stages)].
Definition run_of (stages : string) : JobRun :=
  Job "run" ORCHESTRATION_JOB_NAME RUNNING 100 0 1 0 (run_json stages) JNull None (Some "run") (Some noon) None noon.
Definition network_of (id source : string) (st : job_status) (priority : Z) : JobRun :=
  Job id UNIT_JOB_NAME st priority 0 3 0
    (JObj [("kind", JStr NETWORK); ("platform", JStr "admitad"); ("accountLabel", JStr "default");
           ("sourceObject", JStr source); ("lockKey", JStr "network:admitad:default")])
    JNull None (Some "run") None None noon.

(** Two units of one account are both pending. *)
Definition two_units : jobs :=
  Jobs [run_of "none"; network_of "u1" "programs" PENDING 1; network_of "u2" "coupons" PENDING 2] noon 0.
Definition claim_of (u : string) (w : string) : io jobs claim_result := claimUnit lease u (JStr w).

(** Both workers look for a holder of the account's key before either has claimed. *)
Definition both_look : list event := [Run 0; Run 0; Run 0; Run 1; Run 1; Run 1; Run 0; Run 0; Run 1; Run 1].

(** Two units that share an account lock can both be running. *)
Theorem one_key_two_units :
  exists s, schedule advance both_look ([claim_of "u1" "a"; claim_of "u2" "b"], two_units)
      = ([Ret (Claimed "u1" false); Ret (Claimed "u2" false)], s)
    /\ map job_id (SyncLockFacts.live lease (JStr "network:admitad:default") s) = ["u1"; "u2"].
Proof. eexists. split; [vm_compute; reflexivity|vm_compute; reflexivity]. Qed.

(** A worker whose lease has expired reports after another worker has taken the unit over. *)
Definition late_report : jobs :=
  let s1 := (exec (claim_of "u1" "a") two_units).2 in
  let s2 := (exec (claim_of "u1" "b") (advance (lease + 1) s1)).2 in
  (exec (completeUnit "u1" (JStr "from a")) s2).2.

(** [completeUnit] settles the claim of another worker. *)
Theorem completes_anothers_claim :
  (exec (claim_of "u1" "b") (advance (lease + 1) (exec (claim_of "u1" "a") two_units).2)).1 = Ok (Claimed "u1" true)
  /\ exists r, r ∈ job_rows late_report /\ job_id r = "u1" /\ status r = COMPLETED
       /\ ((result r)@."claim")@."workerId" = JStr "b" /\ (result r)@."outcome" = JStr "from a".
Proof.
  split; [vm_compute; reflexivity|]. exists (nth 1 (job_rows late_report) (run_of "none")).
  split_and!; try (vm_compute; reflexivity). apply list_elem_of_In. vm_compute. right. left. reflexivity.
Qed.

(** All units of the run have completed; one call is about to finalise it. *)
Definition all_complete : jobs := Jobs [run_of "none"; network_of "u1" "programs" COMPLETED 1] noon 0.
Definition cancel_call : io jobs (cancel_result + unit) := do! r := cancelRun lease "run" ADMIN_CANCELLED_REASON JNull in Ret (inl r).
Definition refresh_call : io jobs (cancel_result + unit) := refreshRun (Some "run") ;;; Ret (inr tt).
(** The refresh reads the run, the cancellation runs to its end, the refresh writes. *)
Definition refresh_after_cancel : list event :=
  [Run 1; Run 1; Run 1] ++ [Run 0; Run 0; Run 0; Run 0; Run 0; Run 0; Run 0] ++ [Run 1].

(** A run whose cancellation was confirmed ends COMPLETED. *)
Theorem cancellation_overwritten :
  exists s, schedule advance refresh_after_cancel ([cancel_call; refresh_call], all_complete)
      = ([Ret (inl (Cancelled "run" 0 0 0)); Ret (inr tt)], s)
    /\ exists r, r ∈ job_rows s /\ job_id r = "run" /\ status r = COMPLETED.
Proof.
  exists (schedule advance refresh_after_cancel ([cancel_call; refresh_call], all_complete)).2.
  split; [vm_compute; reflexivity|].
  exists (nth 0 (job_rows (schedule advance refresh_after_cancel ([cancel_call; refresh_call], all_complete)).2) (run_of "none")).
  split_and!; try (vm_compute; reflexivity). apply list_elem_of_In. vm_compute. left. reflexivity.
Qed.

(** The network phase is over; a stager of another path meets the gate. *)
Definition before_promotion : jobs := Jobs [run_of "deferred"; network_of "u1" "programs" COMPLETED 1] noon 0.
Definition gate_call : io jobs (string + advance_result) :=
  do! r := advancePostSync lease STAGING_PARTICIPANT_LEASE_MS 3 14 "run" in Ret (inr r).
Definition stage_call : io jobs (string + advance_result) :=
  do! t := enterStaging lease (JStr "manual") JNull None in Ret (inl t).
Definition replay (n i : nat) : list event := repeat (Run i) n.
(** The gate announces and finds no ticket; the stager writes its ticket and finds no
    promotion unit; the gate seeds and drops its intent; the stager finds no intent. *)
Definition late_look : list event := replay 8 0 ++ replay 4 1 ++ replay 30 0 ++ replay 10 1.

(** Staging and a promotion walk can run together. *)
Theorem staging_during_promotion :
  exists s ticket r, schedule advance late_look ([gate_call; stage_call], before_promotion)
      = ([Ret (inr r); Ret (inl ticket)], s)
    /\ adv_reason r = Some "promotion_campaign_seeded"
    /\ (exec derivedFreeze s).1 = Ok (Frozen (Some "run") STAGE_PROMOTING "derived")
    /\ exists t, t ∈ job_rows s /\ job_id t = ticket /\ BarrierFacts.is_ticket t = true /\ status t = RUNNING.
Proof.
  set (c := schedule advance late_look ([gate_call; stage_call], before_promotion)).
  exists c.2, "1", (Advanced (Some STAGE_PROMOTING) 1 0 (Some "promotion_campaign_seeded")).
  split_and!; try (vm_compute; reflexivity).
  exists (nth 3 (job_rows c.2) (run_of "none")). split_and!; try (vm_compute; reflexivity).
  apply list_elem_of_In. vm_compute. do 3 right. left. reflexivity.
Qed.
End OrchestratorRaces.
