(* ===== verification/SyncWitnesses.v ===== *)
(** * The theorems of the synchronisation jobs at concrete states

    Each lemma applies a theorem of the job files to a concrete table, plan or interleaving
    at which its hypotheses hold; interleavings are replayed and the condition on their
    states is checked along the replay. *)

From S2P Require Import Prelude JsNum JsVal JsDate JsDay Paging Limits Concurrent Jobs JobRunner SyncLock SourcePlan PostSync Barrier Orchestrator.
From stdpp Require Import sorting strings relations.
Local Open Scope Z_scope.

Module LockWitnesses.
Import SyncLock SyncLockFacts SyncLockRace.
#[local] Existing Instance numbered.

Definition taken : jobs := (exec call empty).2.
Lemma lock_excludes_for_its_lease_witness :
  exists j, job_id j = "0" /\ exec call (advance 5000 taken) = (Ok (held j), advance 5000 taken).
Proof.
  refine (lock_excludes_for_its_lease DEFAULT_LEASE_MS _ "network:awin:default" JNull None JNull JNull None JNull empty "0" taken 5000 _ _ _);
    try reflexivity; vm_compute; split; discriminate.
Defined.

Definition stamped (s : jobs) : bool :=
  bool_decide (NoDup (map job_id (job_rows s)))
  && bool_decide (StronglySorted (fun a b => started_or_last a < started_or_last b) (List.filter (keyed key) (job_rows s))).
Lemma stamped_sound s : stamped s = true -> stamped_in_order key s.
Proof. unfold stamped. intros [Hn%bool_decide_eq_true_1 Hs%bool_decide_eq_true_1]%andb_true_iff. split; assumption. Qed.

(** Two callers in turn: the first acquires the key, the second is refused. *)
Definition in_turn : list event := [Run 0; Wait 1; Run 0; Run 0; Run 0; Run 0; Run 0; Run 1; Wait 1; Run 1; Run 1; Run 1; Run 1].
Definition callers : list (jsval * option string * jsval) := [(JNull, None, JNull); (JNull, None, JNull)].
Definition pool : list (io jobs lock_result) :=
  map (fun '(holder, corr, meta) => acquire DEFAULT_LEASE_MS key holder corr meta) callers.
Definition after : list (io jobs lock_result) * jobs := schedule advance in_turn (pool, empty).

Lemma contended_lock_exclusive_witness :
  after.1 = [Ret (Acquired "0" key); Ret (Refused "lock_held" "0" SYNC_LOCK_JOB_NAME)]
  /\ exists row, live DEFAULT_LEASE_MS key after.2 = [row] /\ job_id row = "0".
Proof.
  split; [vm_compute; reflexivity|]. destruct (live DEFAULT_LEASE_MS key after.2) as [|row l] eqn:E; [exfalso; vm_compute in E; discriminate E|].
  exists row. split; [vm_compute in E; now injection E as <- <-|].
  assert (Eid : job_id row = "0") by (vm_compute in E; now injection E as <- _).
  refine (contended_lock_exclusive DEFAULT_LEASE_MS key callers empty after.1 after.2 0 0 (job_id row) "0" key key row row
            _ _ _ _ _ _ _ _); try reflexivity; try exact Eid; try (rewrite E; left).
  - apply stamped_sound. vm_compute. reflexivity.
  - rewrite <- surjective_pairing. apply (schedule_steps_in advance _ stamped); [exact stamped_sound|vm_compute; reflexivity].
  - rewrite Eid. vm_compute. reflexivity.
Defined.
End LockWitnesses.

Module PlanWitnesses.
Import SourcePlan SourcePlanFacts.
#[local] Existing Instance utc_host.

(** 2026-01-01 to 2026-01-31 in windows of seven days. *)
Lemma buildDateWindows_tiles_witness :
  exists ws, buildDateWindows (JStr "2026-01-01") (JStr "2026-01-31") (Some 7) = Ok (window_texts ws)
    /\ window_days ws = seqZ 20454 31 /\ length ws = 5%nat.
Proof.
  destruct (buildDateWindows_tiles 20454 20484 7) as (ws & Hb & Hd & _ & Hl); [vm_compute; discriminate..|].
  exists ws. split_and!; [|exact Hd|apply Nat2Z.inj; exact Hl].
  assert (E1 : day_text 20454 = "2026-01-01") by (vm_compute; reflexivity).
  assert (E2 : day_text 20484 = "2026-01-31") by (vm_compute; reflexivity).
  rewrite <- E1, <- E2. exact Hb.
Defined.

Definition now : Z := 1767268800000.
Definition last_sync : jsval := JDate (Some (now - 3 * ms_per_day)).
Lemma account_plan_complete_witness :
  exists cs, planAccountUnits (JStr "optimise_sea") (JStr "default") last_sync (JDate (Some now)) now (JObj []) 2
      = Ok (Plan (mjoin (map units cs)) [] (mjoin (map deferred cs)))
    /\ length cs = 7%nat.
Proof.
  destruct (account_plan_complete (JStr "optimise_sea") (JStr "default") last_sync (JObj []) now 2) as (cs & Hp & Hcs).
  - split; [vm_compute; split; discriminate|right]. exists (now - 3 * ms_per_day).
    split; [reflexivity|vm_compute; split; discriminate].
  - exists cs. split; [exact Hp|]. rewrite <- (Forall2_length _ _ _ Hcs). reflexivity.
Defined.

(** Two further pages after the first. *)
Definition page_unit (offset : Z) : jsval :=
  JObj [("platform", JStr "awin"); ("sourceObject", JStr "offers"); ("campaignPageIndex", JNum (num_of_Z offset));
        ("campaignPageOffset", JNum (num_of_Z offset))].
Definition more (offset : Z) : jsval := JObj [("hasMore", JBool true); ("nextOffset", JNum (num_of_Z offset))].
Lemma page_chain_terminates_witness : (length [num_of_Z 1; num_of_Z 2] <= length [num_of_Z 2; num_of_Z 1])%nat.
Proof.
  apply (page_chain_terminates (page_unit 0) (num_of_Z 0)); [reflexivity|reflexivity| |].
  - eapply (chain_next _ (more 1)); [vm_compute; reflexivity|].
    eapply (chain_next _ (more 2)); [vm_compute; reflexivity|]. apply chain_end.
  - repeat constructor.
Defined.
End PlanWitnesses.

Module StageWitnesses.
Import PostSync PostSyncFacts PostSyncGap.
#[local] Existing Instance utc_host.

Lemma fetched_network_only : network_only fetched_two.
Proof. intros k Hk. cbn in Hk. decompose [or] Hk; subst; reflexivity || contradiction. Qed.

(** Both campaign walks, then the coupon walks, are seeded and completed. *)
Definition promoted : list JobRun := next 10 (next 10 fetched_two).
Lemma promoted_steps : rtc (run_step 1) fetched_two promoted.
Proof. unfold promoted. repeat (etransitivity; [|apply next_steps]). reflexivity. Qed.


Lemma promoted_all_done : all_done promoted.
Proof. intros k Hk. cbn in Hk. decompose [or] Hk; subst; try contradiction; vm_compute; repeat constructor. Qed.


Definition decision : outcome transition := planPostSyncTransition 1 promoted true (JArr []) (JDate (Some 0)).
Lemma gate_replay_witness :
  exists t t', decision = Ok t /\ length (seeds t) = 2%nat
    /\ planPostSyncTransition 1 (promoted ++ map (row_of "row" PENDING) (seeds t)) true (JArr []) (JDate (Some 0)) = Ok t'
    /\ seeds t' = [].
Proof.
  destruct decision as [t|] eqn:E; [|exfalso; vm_compute in E; discriminate E].
  assert (Ha : appended t (map (row_of "row" PENDING) (seeds t))).
  { assert (Hc : forall seed, seed ∈ seeds t -> carries (row_of "row" PENDING seed) seed).
    { intros seed Hseed. split; [|repeat constructor]. cbn. destruct seed; try reflexivity;
        exfalso; vm_compute in E; injection E as <-; apply list_elem_of_In in Hseed; cbn in Hseed; decompose [or] Hseed; try contradiction; discriminate. }
    split.
    - apply Forall_forall. intros row (seed & -> & Hseed)%list_elem_of_fmap. split; [reflexivity|]. eauto.
    - intros seed Hseed. exists (row_of "row" PENDING seed). split; [|auto]. apply list_elem_of_fmap. eauto. }
  destruct (gate_replay 1 fetched_two promoted _ (JArr []) (JDate (Some 0)) t fetched_network_only promoted_steps
              ltac:(vm_compute; discriminate) E Ha) as (t' & Ht' & Hs').
  exists t, t'. split_and!; [reflexivity| |exact Ht'|exact Hs']. vm_compute in E. injection E as <-. reflexivity.
Defined.

Lemma aggregation_window_pinned_witness :
  aggregationDaysFor 3 (JDate (Some 1767268800000)) = Ok ["2025-12-29"; "2025-12-30"; "2025-12-31"; "2026-01-01"].
Proof.
  assert (Hlo : first_day <= 1767268800000 / ms_per_day - Z.max 1 3) by (vm_compute; discriminate).
  assert (Hhi : 1767268800000 / ms_per_day < last_day) by (vm_compute; reflexivity).
  rewrite (aggregation_window_pinned 3 1767268800000 Hlo Hhi). vm_compute. reflexivity.
Defined.

Lemma gate_never_skips_witness : exists t seed, decision = Ok t /\ seed ∈ seeds t /\ done NETWORK promoted.
Proof.
  destruct decision as [t|] eqn:E; [|exfalso; vm_compute in E; discriminate E].
  destruct (seeds t) as [|seed l] eqn:Es; [exfalso; vm_compute in E; injection E as <-; discriminate Es|].
  exists t, seed. rewrite Es. split_and!; [reflexivity|left|].
  exact (proj1 (proj2 (proj2 (gate_never_skips 1 promoted true (JArr []) (JDate (Some 0)) t seed E
           ltac:(rewrite Es; left))))).
Defined.
End StageWitnesses.

Module OrchestrationWitnesses.
Import PostSync Barrier BarrierFacts Orchestrator OrchestratorFacts OrchestratorRaces.
#[local] Existing Instance SyncLockRace.numbered.
#[local] Existing Instance utc_host.

(** *** The staging barrier *)

Definition participant_lease : Z := STAGING_PARTICIPANT_LEASE_MS.
Definition leases_run (s : jobs) : bool :=
  bool_decide (NoDup (map job_id (job_rows s)))
  && forallb (fun j => negb (is_intent j && (status j =j? RUNNING)) || liveWhere (clock s) lease "lockKey" j) (job_rows s)
  && forallb (fun j => negb (is_ticket j && (status j =j? RUNNING)) || liveWhere (clock s) participant_lease "barrier" j) (job_rows s).
Lemma leases_run_sound s : leases_run s = true -> no_lease_expires lease participant_lease s.
Proof.
  unfold leases_run. intros [[Hn%bool_decide_eq_true_1 Hi]%andb_true_iff Ht]%andb_true_iff.
  rewrite forallb_forall in Hi, Ht. split_and!; [exact Hn|..]; intros j Hj%list_elem_of_In Hk Hs.
  - specialize (Hi j Hj). rewrite Hk, Hs in Hi. exact Hi.
  - specialize (Ht j Hj). rewrite Hk, Hs in Ht. exact Ht.
Qed.

(** The gate finds nobody and takes its intent down; then a stager is let in. *)
Definition barrier_calls : list barrier_call := [Gate (Some "run"); Clear; Enter (JStr "manual") JNull None].
Definition barrier_events : list event := repeat (Run 0) 6 ++ [Wait 10] ++ repeat (Run 1) 4 ++ repeat (Run 2) 8.
Definition quiet : jobs := Jobs [] noon 0.
Definition barrier_after : list (io jobs barrier_result) * jobs :=
  schedule advance barrier_events (map (run_call lease participant_lease) barrier_calls, quiet).
Lemma staging_and_freeze_exclude_witness :
  barrier_after.1 = [Ret (Verified "0" []); Ret Done; Ret (Entered "1")]
  /\ forall ri, ri ∈ job_rows barrier_after.2 -> job_id ri = "0" -> status ri <> RUNNING.
Proof.
  split; [vm_compute; reflexivity|]. intros ri Hri Hid.
  destruct (nth_error (job_rows barrier_after.2) 1) as [rt|] eqn:Et; [|exfalso; vm_compute in Et; discriminate Et].
  refine (staging_and_freeze_exclude lease participant_lease barrier_calls quiet barrier_after.1 barrier_after.2 2 0 "1" "0" rt ri
            _ _ _ _ _ _ _ Hri Hid).
  - apply leases_run_sound. vm_compute. reflexivity.
  - rewrite <- surjective_pairing. apply (schedule_steps_in advance _ leases_run); [exact leases_run_sound|vm_compute; reflexivity].
  - vm_compute. reflexivity.
  - vm_compute. reflexivity.
  - apply list_elem_of_In. exact (nth_error_In _ _ Et).
  - vm_compute in Et. now injection Et as <-.
  - vm_compute in Et. now injection Et as <-.
Defined.

(** *** Claims *)

Definition in_lease (s : jobs) : bool :=
  bool_decide (NoDup (map job_id (job_rows s))) && (noon <=? clock s) && (clock s <=? noon + lease)
  && forallb (fun r => negb (job_id r =s? "u1") || negb (bool_decide (correlationId r = Some "u1"))) (job_rows s).
Lemma in_lease_sound s : in_lease s = true -> within_lease lease "u1" noon s.
Proof.
  unfold in_lease. intros [[[Hn%bool_decide_eq_true_1 H1%Z.leb_le]%andb_true_iff H2%Z.leb_le]%andb_true_iff Hc]%andb_true_iff.
  rewrite forallb_forall in Hc. split_and!; [exact Hn|exact H1|exact H2|]. intros r Hr%list_elem_of_In Hid E.
  specialize (Hc r Hr). rewrite Hid, (bool_decide_eq_true_2 _ E) in Hc. discriminate Hc.
Qed.

Definition claim_calls : list (io jobs (jsval * claim_result)) :=
  map (fun w => do! c := claimUnit lease "u1" w in Ret (w, c)) [JStr "a"; JStr "b"].
(** Both look at the row before either claims it. *)
Definition claim_events : list event := repeat (Run 0) 3 ++ repeat (Run 1) 3 ++ [Wait 5] ++ repeat (Run 1) 6 ++ repeat (Run 0) 6.
Definition claimed : list (io jobs (jsval * claim_result)) * jobs := schedule advance claim_events (claim_calls, two_units).
Lemma claim_exclusive_witness :
  claimed.1 = [Ret (JStr "a", NotClaimed "already_claimed" None); Ret (JStr "b", Claimed "u1" false)]
  /\ forall i w, claimed.1 !! i = Some (Ret (w, Claimed "u1" false)) -> w = JStr "b".
Proof.
  split; [vm_compute; reflexivity|]. intros i w Hi.
  refine (claim_exclusive lease "u1" noon [JStr "a"; JStr "b"] two_units claimed.1 claimed.2 i 1 w (JStr "b") _ _ _ _ Hi _ _ _).
  - apply in_lease_sound. vm_compute. reflexivity.
  - rewrite <- surjective_pairing. apply (schedule_steps_in advance _ in_lease); [exact in_lease_sound|vm_compute; reflexivity].
  - vm_compute. reflexivity.
  - eauto.
  - eauto.
Defined.

(** *** Runs *)

Definition no_accounts (_ : string) : list account_entry := [].
Definition never_synced (_ _ : string) : jsval := JObj [].
Definition no_chunks (_ _ : string) : list (jsval * list jsval) := [].

(** A cancelled run is reported on, refreshed and advanced by other workers. *)
Definition cancelled_run : jobs :=
  Jobs [set_status CANCELLED (run_of "none"); network_of "u1" "programs" RUNNING 1] noon 0.
Definition late_calls : list service_call := [CComplete "u1" (JStr "done"); CRefresh (Some "run"); CAdvance "run"].
Definition late_events : list event := concat (repeat [Run 0; Run 1; Run 2; Wait 1] 8).
Definition late_pool : list (io jobs unit) :=
  map (serve lease participant_lease 3 14 2 no_accounts never_synced None no_chunks) late_calls.
Lemma terminal_never_reopened_witness :
  exists r', r' ∈ job_rows (schedule advance late_events (late_pool, cancelled_run)).2
    /\ job_id r' = "run" /\ TERMINAL_STATUSES (status r') = true.
Proof.
  destruct (schedule advance late_events (late_pool, cancelled_run)) as [calls' s'] eqn:E.
  apply (terminal_never_reopened lease participant_lease 3 14 2 no_accounts never_synced None no_chunks
           late_calls cancelled_run calls' s' (set_status CANCELLED (run_of "none"))).
  - rewrite <- E. apply schedule_steps.
  - left.
  - reflexivity.
Defined.

(** One Boostiny account, Admitad not enabled. *)
Definition boostiny_account (platform : string) : list account_entry := if platform =s? "boostiny" then [Label "main"] else [].
Definition admitad_off (platform : string) : verdict := Verdict (negb (platform =s? "admitad")) "DISABLED".
Definition network_options : jsval := JObj [("fastSync", js_bool (JBool false)); ("promoteAfter", JBool false)].
Lemma sync_plan_total_witness :
  exists p q, buildSyncPlan boostiny_account never_synced (Some admitad_off) 2 (JBool false) true false noon = Ok p
    /\ planAccount never_synced 2 "boostiny" "main" JUndef network_options noon = Ok q
    /\ (forall u, u ∈ SourcePlan.units q -> exists i, SourcePlan.units p !! i = Some (sequenced i u)).
Proof.
  destruct (sync_plan_total boostiny_account never_synced (Some admitad_off) 2 noon (JBool false) true false)
    as (p & Hp & _ & Hs & _).
  - split.
    + intros platform label. split; [vm_compute; split; discriminate|now left].
    + intros platform e He. left. unfold boostiny_account in He. destruct (platform =s? "boostiny");
        [apply list_elem_of_singleton in He as ->; reflexivity|now apply not_elem_of_nil in He].
  - destruct (Hs "boostiny" "main" JUndef) as (q & Hq & Hu & _); [|eauto].
    apply (scheduled_label _ _ "boostiny" (Label "main")); [left|reflexivity|left|discriminate].
Defined.

Definition run_units (st : job_status) : list JobRun := [network_of "u1" "programs" COMPLETED 1; network_of "u2" "coupons" st 2].
Lemma finalised_when_settled_witness :
  status (refreshed (run_of "none") (run_units DEAD_LETTER) noon (run_of "none")) = FAILED
  /\ exists u, u ∈ run_units DEAD_LETTER /\ is_failed u = true.
Proof.
  split; [vm_compute; reflexivity|].
  apply (finalised_when_settled (run_of "none") (run_units DEAD_LETTER) noon (run_of "none")); vm_compute; reflexivity.
Defined.
End OrchestrationWitnesses.

Module PagingWitnesses.
Import Cursor PagingFacts.
#[local] Existing Instance utc_host.

(** A collation and a coding the interfaces admit: texts compared by their numbering, and the
    text itself. *)
#[local] Program Instance by_number : Collation := {|
  text_lt s t := (encode s <? encode t)%positive;
  text_contains _ _ := true |}.
Next Obligation. intros s. apply Pos.ltb_irrefl. Qed.
Next Obligation. intros s t u Hst Htu. apply Pos.ltb_lt in Hst, Htu. apply Pos.ltb_lt. now transitivity (encode t). Qed.
Next Obligation.
  intros s t. rewrite !Pos.ltb_lt. destruct (Pos.lt_total (encode s) (encode t)) as [|[E|]]; auto.
  right; left. now apply (encode_inj (A := string)).
Qed.
#[local] Instance plain : Base64url := {|
  b64_encode s := s; b64_decode s := s; b64_roundtrip s := eq_refl; b64_nonempty s Hs := Hs |}.

Definition click (id : string) (t : Z) : jsval := JObj [("id", JStr id); ("clickedAt", JDate (Some t))].
Definition clicks : list jsval := [click "a" 1767225600000; click "b" 1767225600000; click "c" 1767312000000].

Lemma click_typed r : r ∈ clicks -> Forall (typed_column r) ["clickedAt"; "id"].
Proof.
  intros Hr. repeat (apply elem_of_cons in Hr as [->|Hr]); [..|now apply not_elem_of_nil in Hr];
    (constructor; [|constructor; [|constructor]]);
    [eexists; split; [reflexivity|vm_compute; split; discriminate]|eexists; reflexivity|
     eexists; split; [reflexivity|vm_compute; split; discriminate]|eexists; reflexivity|
     eexists; split; [reflexivity|vm_compute; split; discriminate]|eexists; reflexivity].
Qed.

Lemma cursor_roundtrip_witness :
  exists c, encodeCursor (click "a" 1767225600000) ["clickedAt"; "id"] = Ok c
    /\ decodeCursor c ["clickedAt"; "id"] = Some (JObj [("clickedAt", JDate (Some 1767225600000)); ("id", JStr "a")]).
Proof.
  apply (cursor_roundtrip (click "a" 1767225600000) ["clickedAt"; "id"]); [discriminate| |apply click_typed; left].
  apply (bool_decide_unpack _). vm_compute. exact I.
Defined.

(** Three clicks, one a page. *)
Lemma descending_walk_complete_witness :
  exists pages, walk clickRepository (JObj []) 1 clicks 4 "" = Some pages
    /\ mjoin pages = [click "c" 1767312000000; click "b" 1767225600000; click "a" 1767225600000].
Proof.
  destruct (descending_walk_complete clickRepository (JObj []) 1 clicks "") as (pages & Hw & Hj & _).
  - left. reflexivity.
  - split.
    + change (NoDup (JStr <$> ["a"; "b"; "c"])). apply NoDup_fmap_2_strong; [intros; now simplify_eq|]. apply (bool_decide_unpack _). vm_compute. exact I.
    + intros r Hr. pose proof (click_typed r Hr) as Ht. now inversion Ht.
    + intros r Hr. pose proof (click_typed r Hr) as Ht. inversion Ht as [|? ? _ Ht']. now inversion Ht'.
    + discriminate.
  - lia.
  - reflexivity.
  - exists pages. split; [exact Hw|]. rewrite Hj. vm_compute. reflexivity.
Defined.
End PagingWitnesses.

Module LimitWitnesses.
Import Concurrency LimitFacts.

(** Two workers on three items; the second worker finishes first. *)
Definition square (x : Z) (_ : nat) : outcome Z := Ok (x * x).
Lemma pool_runs_every_item_witness :
  exists s, nsteps (finishes [1; 2; 3] square) 3 (runWithConcurrency [1; 2; 3] 2) s
    /\ busy s = [] /\ results s = [Some 1; Some 4; Some 9].
Proof.
  assert (Hrun : nsteps (finishes [1; 2; 3] square) 3 (runWithConcurrency [1; 2; 3] 2)
                   (State 5 [None; None] [Some 1; Some 4; Some 9] None)).
  { eapply nsteps_l; [eapply (finishes_ok _ _ 1%nat 1%nat); reflexivity|].
    eapply nsteps_l; [eapply (finishes_ok _ _ 0%nat 0%nat); reflexivity|].
    eapply nsteps_l; [eapply (finishes_ok _ _ 1%nat 2%nat); reflexivity|]. apply nsteps_O. }
  eexists. split; [exact Hrun|]. split; [reflexivity|].
  destruct (pool_runs_every_item _ _ _ _ _ Hrun) as (_ & _ & _ & _ & Hend). exact (Hend eq_refl).
Defined.
End LimitWitnesses.

Module JobRunnerWitnesses.
Import JobRunner JobRunnerFacts JobRunnerRace.

End JobRunnerWitnesses.
