(* ===== verification/Money.v ===== *)
(** * Commission arithmetic

    [modules/commercial/commissionMath.js] and [modules/reporting/attributionMath.js]:
    the client share of a supplier commission, its split into a client and an MBO
    part, and the report-day arithmetic of the daily reports.  [Splits] proves that a split
    adds up to the commission it splits, [ReportDays] the facts on days. *)

From Stdlib Require Import SpecFloat.
From S2P Require Import Prelude JsNum JsRound JsArith JsVal JsDate.
Local Open Scope Z_scope.

(** ** commissionMath.js *)

Module CommissionMath.
Section WithHost.
Context {H : JsHost}.

Definition deriveMboCommission (grossCommission clientCommission : jsval) : outcome string :=
  let gross := js_number grossCommission in
  let client := js_number clientCommission in
  if is_nan gross || is_nan client then Throw (plain_error "Invalid commission values.")
  else Ok (num_toFixed 4 (nsub gross client)).

Definition clientShareRatio (ruleGross ruleClient : jsval) : num :=
  ndiv (js_number ruleClient) (js_number ruleGross).

Definition applyClientShareRatio (amount ruleGross ruleClient : jsval) : num :=
  nmul (js_number amount) (clientShareRatio ruleGross ruleClient).

(** A time value as [periodsOverlap] compares it: [NaN], an instant, or [+Infinity]. *)
Inductive xtime := XNaN | XTime (t : Z) | XInf.
Definition xtime_of (t : option Z) : xtime :=
  match t with Some t => XTime t | None => XNaN end.
Definition xtime_le (a b : xtime) : bool :=
  match a, b with
  | XNaN, _ | _, XNaN => false
  | _, XInf => true
  | XInf, XTime _ => false
  | XTime a, XTime b => a <=? b
  end.
Definition period_start (v : jsval) : xtime := xtime_of (new_date v).
Definition period_end (v : jsval) : xtime := if truthy v then xtime_of (new_date v) else XInf.
Definition periodsOverlap (startA endA startB endB : jsval) : bool :=
  xtime_le (period_start startA) (period_end endB) && xtime_le (period_start startB) (period_end endA).

End WithHost.
End CommissionMath.

(** ** attributionMath.js *)

Module AttributionMath.
Import CommissionMath.

(** The two result shapes of [applyCommissionRuleToGross]. *)
Inductive split_result :=
| SplitOk (clientCommission mboCommission : string)
| SplitFail (reason : string).

Section WithHost.
Context {H : JsHost}.

Definition upper_or_empty (status : jsval) : string := to_upper (js_string (status |or| JStr "")).
Definition isPayableConversionStatus (status : jsval) : bool :=
  (upper_or_empty status =s? "APPROVED") || (upper_or_empty status =s? "PAID").
Definition isRejectedConversionStatus (status : jsval) : bool :=
  upper_or_empty status =s? "REJECTED".

Definition grossCommissionForConversion (conversion : jsval) : jsval :=
  if isRejectedConversionStatus conversion@."status" then JNum n0
  else if isPayableConversionStatus conversion@."status"
  then conversion@."approvedCommission" ?? conversion@."supplierCommission"
  else conversion@."supplierCommission".

(** [1e-9] *)
Definition epsilon : num := num_of_decimal 1 (-9).

Definition applyCommissionRuleToGross (grossAmount rule : jsval) : outcome split_result :=
  if negb (truthy rule) then Ok (SplitFail "missing_rule")
  else
    let gross := js_number grossAmount in
    let ruleGross := js_number rule@."grossCommission" in
    let ruleClient := js_number rule@."clientCommission" in
    if negb (is_finite gross) then Ok (SplitFail "invalid_gross")
    else if nltb gross n0 then Ok (SplitFail "negative_gross")
    else if neqb gross n0 then Ok (SplitOk "0.0000" "0.0000")
    else if negb (is_finite ruleGross) || nleb ruleGross n0 then Ok (SplitFail "invalid_rule_gross")
    else if negb (is_finite ruleClient) || nltb ruleClient n0 then Ok (SplitFail "invalid_rule_client")
    else if nltb ruleGross ruleClient then Ok (SplitFail "rule_client_exceeds_rule_gross")
    else
      let clientCommissionNum := applyClientShareRatio (JNum gross) (JNum ruleGross) (JNum ruleClient) in
      if nltb clientCommissionNum n0 then Ok (SplitFail "negative_client_commission")
      else if nltb epsilon (nsub clientCommissionNum gross) then Ok (SplitFail "client_exceeds_supplier")
      else
        let clientCommission := num_toFixed 4 clientCommissionNum in
        let? mboCommission := deriveMboCommission (JNum gross) (JStr clientCommission) in
        Ok (SplitOk clientCommission mboCommission).

Definition computeConversionRate (conversions clicks : jsval) : option num :=
  if negb (truthy clicks) then None
  else Some (string_to_num (num_toFixed 6 (ndiv (js_number conversions) (js_number clicks)))).

Definition computeEpc (commission clicks : jsval) : option num :=
  if negb (truthy clicks) then None
  else Some (string_to_num (num_toFixed 4 (ndiv (js_number commission) (js_number clicks)))).

(** *** Report days *)

Definition toReportDate (date : jsval) : option Z :=
  d ← new_date date; date_utc (utc_year d) (utc_month d) (utc_date d).

Definition dayBounds (reportDate : jsval) : option Z * option Z :=
  let start := toReportDate reportDate in
  let stop := e ← start;
              e ← set_utc_date e (utc_date e + 1);
              set_utc_milliseconds e (utc_milliseconds e - 1) in
  (start, stop).

(** [DATE_ONLY_PATTERN] with its three groups. *)
Definition date_only (text : string) : option (Z * Z * Z) :=
  match parse_ymd text with Some (y, m, d, EmptyString) => Some (y, m, d) | _ => None end.

(** [ISO_DATETIME_PATTERN] *)
Definition fraction_digits (s : string) : option string :=
  match s with
  | String "." s' => let '(_, n, rest) := scan_digits 0 0 s' in
                     if ((1 <=? n) && (n <=? 9))%nat then Some rest else None
  | _ => Some s
  end.
Definition iso_datetime (text : string) : bool :=
  match ('(_, _, _, s) ← parse_ymd text; s ← expect "T" s;
         '(_, s) ← take_digits 2 0 s; s ← expect ":" s; '(_, s) ← take_digits 2 0 s;
         s ← match expect ":" s with
             | Some s' => '(_, s') ← take_digits 2 0 s'; fraction_digits s'
             | None => Some s
             end;
         parse_zone s) with
  | Some _ => true
  | None => false
  end.

Definition invalidReportDate (message : string) : js_error :=
  JsError message 400 "invalid_report_date_range".

Definition parseReportDateInput (value : jsval) (label : string) : outcome Z :=
  match value with
  | JDate None => Throw (invalidReportDate (label +:+ " is an invalid Date."))
  | JDate (Some t) => Ok t
  | JStr s =>
      let text := trim s in
      if text =s? "" then
        Throw (invalidReportDate (label +:+ " must be a Date, a YYYY-MM-DD string or an ISO-8601 datetime string."))
      else
        match date_only text with
        | Some (year, month, day) =>
            match date_utc year (month - 1) day with
            | Some parsed =>
                if negb (utc_year parsed =? year) || negb (utc_month parsed =? month - 1)
                   || negb (utc_date parsed =? day)
                then Throw (invalidReportDate (label +:+ " " +:+ quoted text +:+ " is not a valid calendar date."))
                else Ok parsed
            | None => Throw (invalidReportDate (label +:+ " " +:+ quoted text +:+ " is not a valid calendar date."))
            end
        | None =>
            if iso_datetime text then
              match new_date (JStr text) with
              | Some parsed => Ok parsed
              | None => Throw (invalidReportDate (label +:+ " " +:+ quoted text +:+ " is not a valid ISO-8601 datetime."))
              end
            else Throw (invalidReportDate (label +:+ " " +:+ quoted text
                          +:+ " must be YYYY-MM-DD or an ISO-8601 datetime with an offset."))
        end
  | _ => Throw (invalidReportDate (label +:+ " must be a Date, a YYYY-MM-DD string or an ISO-8601 datetime string."))
  end.

(** The normalized range, as the two time values (an instant near the ends of the
    [Date] range may have no representable report day). *)
Definition normalizeReportDateRange (from to : jsval) : outcome (option Z * option Z) :=
  if nullish from || nullish to
  then Throw (invalidReportDate "from and to are required for rebuild.")
  else
    let? parsedFrom := parseReportDateInput from "from" in
    let? parsedTo := parseReportDateInput to "to" in
    if parsedTo <? parsedFrom then
      Throw (invalidReportDate ("from (" +:+ to_iso_string parsedFrom +:+ ") must not be after to ("
               +:+ to_iso_string parsedTo +:+ ")."))
    else Ok (toReportDate (JDate (Some parsedFrom)), toReportDate (JDate (Some parsedTo))).

End WithHost.
End AttributionMath.

(** ** Report days: facts *)

Module ReportDays.
Import AttributionMath.
Section WithHost.
Context {H : JsHost}.

(** UTC midnight of the day an instant falls in. *)
Definition day_floor (t : Z) : Z := t / ms_per_day * ms_per_day.

(** Instants whose report day is computed by plain [Date.UTC]: representable, and
    outside the two-digit years that [Date.UTC] maps to 19xx. *)
Definition regular_instant (t : Z) : bool :=
  (Z.abs t <=? max_time - ms_per_day) && negb ((0 <=? utc_year t) && (utc_year t <=? 99)).

Lemma day_floor_range t : day_floor t <= t < day_floor t + ms_per_day.
Proof. unfold day_floor, ms_per_day. Z.div_mod_to_equations. lia. Qed.

Lemma regular_clip t d : regular_instant t = true -> 0 <= d < ms_per_day -> time_clip (day_floor t + d) = Some (day_floor t + d).
Proof.
  unfold regular_instant. intros Hr Hd. split_bools. rewrite Z.leb_le in *.
  pose proof (day_floor_range t). apply time_clip_in. unfold ms_per_day in *. lia.
Qed.

Lemma toReportDate_floor t :
  regular_instant t = true -> toReportDate (JDate (Some t)) = Some (day_floor t).
Proof.
  intros Hr. pose proof (regular_clip t 0 Hr) as Hclip. unfold regular_instant in Hr. split_bools.
  unfold toReportDate. change (new_date (JDate (Some t))) with (Some t).
  rewrite some_bind. unfold date_utc.
  replace ((0 <=? utc_year t) && (utc_year t <=? 99)) with false by (symmetry; assumption).
  pose proof (make_day_utc t 0) as Hday. rewrite !Z.add_0_r in Hday. rewrite Hday.
  fold (day_floor t). rewrite <- (Z.add_0_r (day_floor t)). apply Hclip. unfold ms_per_day. lia.
Qed.

Lemma day_floor_idem t : day_floor (day_floor t) = day_floor t.
Proof. unfold day_floor. rewrite Z.div_mul; [reflexivity|unfold ms_per_day; lia]. Qed.

Lemma day_floor_div t : day_floor t / ms_per_day = t / ms_per_day.
Proof. unfold day_floor. rewrite Z.div_mul; [reflexivity|unfold ms_per_day; lia]. Qed.

(** The bounds of the report day of [t] are its midnight and its last millisecond. *)
Lemma dayBounds_floor t :
  regular_instant t = true -> Z.abs t <= max_time - 2 * ms_per_day ->
  dayBounds (JDate (Some t)) = (Some (day_floor t), Some (day_floor t + ms_per_day - 1)).
Proof.
  intros Hr Hmax. unfold dayBounds. rewrite (toReportDate_floor t Hr). f_equal.
  rewrite some_bind.
  unfold set_utc_date. rewrite make_day_utc, day_floor_div.
  replace (day_floor t mod ms_per_day) with 0
    by (unfold day_floor; rewrite Z.mod_mul; [reflexivity|unfold ms_per_day; lia]).
  pose proof (day_floor_range t). unfold max_time, ms_per_day in *.
  replace ((t / 86400000 + 1) * 86400000 + 0) with (day_floor t + 86400000)
    by (unfold day_floor, ms_per_day; lia).
  rewrite time_clip_in by (unfold max_time; lia).
  rewrite some_bind.
  assert (Hms : utc_milliseconds (day_floor t + 86400000) = 0)
    by (unfold utc_milliseconds, day_floor, ms_per_day; Z.div_mod_to_equations; lia).
  unfold set_utc_milliseconds. rewrite Hms.
  replace ((day_floor t + 86400000) / 1000 * 1000) with (day_floor t + 86400000)
    by (unfold utc_milliseconds in Hms; Z.div_mod_to_equations; lia).
  rewrite time_clip_in by (unfold max_time; lia). f_equal; lia.
Qed.

Lemma in_day_floor t u : day_floor t <= u <= day_floor t + ms_per_day - 1 <-> day_floor u = day_floor t.
Proof. unfold day_floor, ms_per_day. Z.div_mod_to_equations. lia. Qed.

(** Daily aggregation partitions time: an instant lies within the bounds of a report
    day exactly when that day is its own report day. *)
Theorem dayBounds_partition t u first last :
  regular_instant t = true -> regular_instant u = true -> Z.abs t <= max_time - 2 * ms_per_day ->
  dayBounds (JDate (Some t)) = (Some first, Some last) ->
  (first <= u <= last <-> toReportDate (JDate (Some u)) = toReportDate (JDate (Some t))).
Proof.
  intros Ht Hu Hmax. rewrite (dayBounds_floor t Ht Hmax). intros [= <- <-].
  rewrite !toReportDate_floor by assumption. rewrite in_day_floor. split; congruence.
Qed.

Lemma date_utc_calendar y m d :
  0 <= y <= 9999 -> 0 <= m <= 99 -> 0 <= d <= 99 ->
  exists t, date_utc y (m - 1) d = Some t /\
    t = make_day (if y <=? 99 then 1900 + y else y) (m - 1) d * ms_per_day.
Proof.
  intros Hy Hm Hd. unfold date_utc. rewrite (proj2 (Z.leb_le 0 y)) by lia. cbn [andb].
  eexists. split; [|reflexivity]. apply time_clip_in. set (Y := if y <=? 99 then _ else _).
  assert (0 <= Y <= 9999) by (subst Y; destruct (Z.leb_spec y 99); lia).
  unfold make_day, max_time, ms_per_day.
  pose proof (days_from_civil_bounds (Y + (m - 1) / 12) ((m - 1) mod 12 + 1) 1) as Hb.
  assert (1 <= (m - 1) mod 12 + 1 <= 12) by (Z.div_mod_to_equations; lia).
  assert (-1 <= (m - 1) / 12 <= 8) by (Z.div_mod_to_equations; lia).
  specialize (Hb ltac:(assumption)). destruct Hb as [Hb|Hneg]; [lia|].
  replace (Y + (m - 1) / 12) with (-1) by lia.
  unfold days_from_civil. destruct (Z.leb_spec ((m - 1) mod 12 + 1) 2); Z.div_mod_to_equations; lia.
Qed.

Lemma two_digit_year_rejected y m d :
  0 <= y <= 99 -> 0 <= m <= 99 -> 0 <= d <= 99 ->
  civil_from_days (make_day (1900 + y) (m - 1) d) <> (y, m, d).
Proof.
  intros Hy Hm Hd Hc. pose proof (civil_from_days_spec (make_day (1900 + y) (m - 1) d)) as Hs.
  rewrite Hc in Hs. destruct Hs as [Hday Hvalid].
  assert (1 <= m <= 12) by (unfold valid_civil in Hvalid; split_bools; rewrite Z.leb_le in *; lia).
  rewrite make_day_civil in Hday by lia.
  destruct (days_from_civil_bounds y m d ltac:(lia)); [|lia].
  destruct (days_from_civil_bounds (1900 + y) (m - 1 + 1) 1 ltac:(lia)); lia.
Qed.

Lemma calendar_check y m d t N :
  t = N * ms_per_day ->
  (negb (utc_year t =? y) || negb (utc_month t =? m - 1) || negb (utc_date t =? d) = false)%bool
    <-> civil_from_days N = (y, m, d).
Proof.
  intros ->. unfold utc_year, utc_month, utc_date. rewrite Z.div_mul by (unfold ms_per_day; lia).
  destruct (civil_from_days N) as [[y' m'] d']; cbn [fst snd].
  rewrite !orb_false_iff, !negb_false_iff, !Z.eqb_eq. split; [intros [[-> ?] ->]; repeat f_equal; lia|].
  intros [= -> -> ->]. lia.
Qed.

(** A date-only boundary is accepted exactly when it is a calendar date of a year from
    100 on, and denotes that day's UTC midnight; impossible dates never roll over. *)
Theorem report_date_calendar s y m d label :
  date_only (trim s) = Some (y, m, d) ->
  if valid_civil y m d && (100 <=? y)
  then parseReportDateInput (JStr s) label = Ok (days_from_civil y m d * ms_per_day)
  else exists e, parseReportDateInput (JStr s) label = Throw e /\ err_status e = 400.
Proof.
  intros Hdate. unfold parseReportDateInput. pose proof Hdate as Hymd. unfold date_only in Hymd.
  destruct (parse_ymd (trim s)) as [[[[y0 m0] d0] [|]]|] eqn:Hp; simplify_eq.
  apply parse_ymd_range in Hp as (Hy & Hm & Hd).
  replace (trim s =s? "") with false by (destruct (trim s); [discriminate|reflexivity]).
  rewrite Hdate. destruct (date_utc_calendar y m d Hy Hm Hd) as (t & -> & Ht).
  pose proof (calendar_check y m d t _ Ht) as Hcheck. clear Hdate.
  destruct (Z.leb_spec y 99) as [Hle|Hgt].
  - rewrite (proj2 (Z.leb_gt 100 y)), andb_false_r by lia.
    destruct (_ || _)%bool; [eexists; split; reflexivity|].
    destruct (two_digit_year_rejected y m d ltac:(lia) Hm Hd (proj1 Hcheck eq_refl)).
  - rewrite (proj2 (Z.leb_le 100 y)), andb_true_r by lia.
    pose proof (make_day_readback y (m - 1) d) as Hback. replace (m - 1 + 1) with m in Hback by lia.
    destruct (valid_civil y m d) eqn:Hv.
    + rewrite (proj2 Hcheck (proj2 Hback eq_refl)). subst t. do 2 f_equal.
      rewrite make_day_civil by (unfold valid_civil in Hv; split_bools; rewrite Z.leb_le in *; lia).
      rewrite (days_from_civil_day y m d). replace (m - 1 + 1) with m by lia. reflexivity.
    + destruct (_ || _)%bool; [eexists; split; reflexivity|].
      pose proof (proj1 Hback (proj1 Hcheck eq_refl)). congruence.
Qed.

(** A rebuild range is rejected exactly when the parsed instants are inverted (also
    within one day); otherwise both ends become the midnight of their own day. *)
Theorem report_range_normalized from to a b :
  nullish from = false -> nullish to = false ->
  parseReportDateInput from "from" = Ok a -> parseReportDateInput to "to" = Ok b ->
  regular_instant a = true -> regular_instant b = true ->
  if a <=? b
  then normalizeReportDateRange from to = Ok (Some (day_floor a), Some (day_floor b)) /\
       day_floor a <= day_floor b
  else exists e, normalizeReportDateRange from to = Throw e /\ err_status e = 400.
Proof.
  intros Hf Ht Ea Eb Ra Rb. unfold normalizeReportDateRange. rewrite Hf, Ht, Ea, Eb. cbn [orb outcome_bind].
  destruct (Z.leb_spec a b) as [Hle|Hlt].
  - rewrite (proj2 (Z.ltb_ge b a)), !toReportDate_floor by (assumption || lia). split; [reflexivity|].
    unfold day_floor. apply Z.mul_le_mono_nonneg_r; [unfold ms_per_day; lia|].
    apply Z.div_le_mono; [unfold ms_per_day; lia|exact Hle].
  - rewrite (proj2 (Z.ltb_lt b a)) by lia. eexists. split; reflexivity.
Qed.

End WithHost.
End ReportDays.

(** ** Splits: nothing is lost to rounding *)

Module Splits.
Import CommissionMath AttributionMath.
Section WithHost.
Context {H : JsHost}.

(** The client share under a rule that gives away at most its own gross. *)
Lemma client_share_at_most m e rg rc :
  Zpos m < 2 ^ 53 -> -1074 <= e <= 900 ->
  valid_binary prec emax rg = true -> valid_binary prec emax rc = true ->
  is_finite rg = true -> is_finite rc = true ->
  nltb n0 rg = true -> nltb rc n0 = false -> nltb rg rc = false ->
  at_most false (nmul (S754_finite false m e) (ndiv rc rg)) (Zpos m) e.
Proof.
  intros Hm He Vg Vc Fg Fc Pg Pc Hle.
  destruct rg as [| | |[] m1 e1]; try discriminate.
  destruct rc as [z| | |[] m2 e2]; try discriminate.
  - left. eexists. reflexivity.
  - apply nmul_share; [exact Hm|exact He|].
    destruct (nltb_false_value m1 e1 m2 e2 Vg Vc Hle) as [He12 Hv]. now apply ndiv_at_most_one.
Qed.

Lemma positive_not_le x : nltb n0 x = true -> nleb x n0 = false.
Proof. now destruct x as [| [] | |[]]. Qed.

Lemma client_text_read c : 0 <= c -> js_number (JStr (print_fixed false 4 c)) = num_of_ratio c 10000.
Proof.
  intros Hc. change (js_number (JStr ?s)) with (string_to_num s).
  rewrite string_to_num_print_fixed by (lia || discriminate). cbn [signed]. apply num_of_decimal_4.
Qed.

Lemma derive_mbo_exact n c :
  0 < n < max_units -> 0 <= c <= n ->
  deriveMboCommission (JNum (num_of_ratio n 10000)) (JStr (print_fixed false 4 c)) = Ok (print_fixed false 4 (n - c)).
Proof.
  intros Hn Hc. unfold deriveMboCommission. rewrite client_text_read by lia.
  change (js_number (JNum ?x)) with x.
  assert (Hnan : forall k, 0 <= k < max_units -> is_nan (num_of_ratio k 10000) = false).
  { intros k Hk. destruct (Z.eq_dec k 0) as [->|]; [reflexivity|].
    now destruct (amount_double k ltac:(lia)) as (m & e & -> & _). }
  rewrite !Hnan by lia. cbn [orb]. now rewrite toFixed_difference.
Qed.

(** C14: A supplier commission of [n] ten-thousandths is always split into a client and an MBO
    part that are both non-negative amounts and add up to it exactly, by every rule whose
    client commission is between zero and its (positive) gross commission. *)
Theorem split_conserves grossAmount rule n :
  let rg := js_number rule@."grossCommission" in
  let rc := js_number rule@."clientCommission" in
  0 < n < max_units -> js_number grossAmount = num_of_ratio n 10000 -> truthy rule = true ->
  valid_binary prec emax rg = true -> valid_binary prec emax rc = true ->
  is_finite rg = true -> is_finite rc = true ->
  nltb n0 rg = true -> nltb rc n0 = false -> nltb rg rc = false ->
  exists c, 0 <= c <= n /\
    applyCommissionRuleToGross grossAmount rule
      = Ok (SplitOk (print_fixed false 4 c) (print_fixed false 4 (n - c))).
Proof.
  intros rg rc Hn Hg Ht Vg Vc Fg Fc Pg Pc Hle.
  destruct (amount_double n Hn) as (m & e & E & Hm & He & _).
  assert (Hx := client_share_at_most m e rg rc Hm ltac:(lia) Vg Vc Fg Fc Pg Pc Hle).
  assert (Heps : nltb epsilon (nsub (nmul (S754_finite false m e) (ndiv rc rg)) (S754_finite false m e)) = false)
    by (now apply nsub_at_most).
  destruct (at_most_units _ n m e Hn E Hx) as [Hc Htext]. pose proof (at_most_nonneg _ _ _ Hx) as Hpos.
  pose proof (derive_mbo_exact n _ Hn Hc) as Hmbo. rewrite <- Htext in Hmbo. rewrite <- E in Hmbo, Hc, Htext, Hpos, Heps.
  exists (fixed_units 4 (nmul (num_of_ratio n 10000) (ndiv rc rg))). split; [exact Hc|].
  unfold applyCommissionRuleToGross. rewrite Ht, Hg. cbn [negb]. fold rg rc.
  replace (is_finite (num_of_ratio n 10000)) with true by now rewrite E.
  replace (nltb (num_of_ratio n 10000) n0) with false by now rewrite E.
  replace (neqb (num_of_ratio n 10000) n0) with false by now rewrite E.
  rewrite Fg, Fc, (positive_not_le _ Pg), Pc, Hle. unfold applyClientShareRatio, clientShareRatio. cbn [negb orb js_number].
  rewrite Hpos, Heps, Hmbo, Htext. reflexivity.
Qed.
End WithHost.
End Splits.
