(* ===== verification/RuleEngine.v ===== *)
(** * The commercial rule engine

    [modules/commercial/commercialRuleEngine.js]: the calculation that turns an approved
    order, its conversion and the effective client rule into the supplier gross, the
    client payable and the MBO margin, or into a reason to refuse. *)

From Stdlib Require Import SpecFloat.
From S2P Require Import Prelude JsNum JsRound JsVal JsDate Money.
Import CommissionMath AttributionMath.
Local Open Scope Z_scope.

(** The results of [calculateCommercial]: [fail(reason, extra)] or [succeed(...)]. *)
Record commercial := Commercial {
  supplierGross : string;
  clientCommission : string;
  mboMargin : string;
  currency : option string;
  ruleId : jsval;
  ruleKind : string;
  ruleSnapshot : jsval;
  displayCommission : jsval;
  calculationMetadata : jsval
}.
Inductive commercial_result :=
| CommercialOk (c : commercial)
| CommercialFail (reason : string) (extra : jsval).

(** [resolveActualSupplierCommission] and [resolveOrderValue]. *)
Inductive amount_result :=
| Amount (amount : num) (source : string)
| NoAmount (reason : string).

(** [V15_RULE_TYPES] *)
Definition PERCENT_OF_ACTUAL : string := "PERCENT_OF_ACTUAL_SUPPLIER_COMMISSION".
Definition PERCENT_OF_ORDER : string := "FIXED_CLIENT_PERCENT_OF_ORDER_VALUE".
Definition AMOUNT_PER_ORDER : string := "FIXED_CLIENT_AMOUNT_PER_CONFIRMED_ORDER".
Definition MANUAL_APPROVED : string := "MANUAL_APPROVED_CLIENT_COMMISSION".
Definition DISPLAY_RANGE : string := "DISPLAY_RANGE_WITH_ACTUAL_SPLIT".

Definition ROUND (n : num) : num := round4 n.
Definition FIXED4 (n : num) : string := num_toFixed 4 (ROUND n).

Definition no_extra : jsval := JObj [].
(** [0.00015] *)
Definition margin_tolerance : num := num_of_decimal 15 (-5).

Section WithHost.
Context {H : JsHost}.

Definition resolveActualSupplierCommission (conversion order : jsval) : amount_result :=
  if negb (truthy conversion) then NoAmount "missing_conversion"
  else if (order@."validationStatus" === "VALIDATION_REJECTED") || (conversion@."status" === "REJECTED")
  then NoAmount "rejected_transaction"
  else
    let raw := if negb (blank conversion@."approvedCommission")
               then conversion@."approvedCommission" else conversion@."supplierCommission" in
    if blank raw then NoAmount "missing_supplier_commission"
    else
      let amount := js_number raw in
      if negb (is_finite amount) then NoAmount "missing_supplier_commission"
      else if nltb amount n0 then NoAmount "negative_supplier_commission"
      else Amount amount "conversion".

Definition resolveRuleKind (rule : jsval) : string :=
  let t := to_upper (js_string (rule@."commissionType" |or| JStr "UNKNOWN")) in
  if (t =s? "PERCENT") || (t =s? PERCENT_OF_ACTUAL) then PERCENT_OF_ACTUAL
  else if t =s? PERCENT_OF_ORDER then PERCENT_OF_ORDER
  else if t =s? AMOUNT_PER_ORDER then AMOUNT_PER_ORDER
  else if t =s? "FIXED" then
    (if negb (blank rule@."fixedAmount") then AMOUNT_PER_ORDER else "LEGACY_FIXED_UNMAPPED")
  else if t =s? MANUAL_APPROVED then MANUAL_APPROVED
  else if t =s? DISPLAY_RANGE then DISPLAY_RANGE
  else if t =s? "TIERED" then "TIERED_NOT_IMPLEMENTED"
  else if t =s? "UNKNOWN" then
    (if nltb n0 (js_number rule@."grossCommission") && negb (nullish rule@."clientCommission")
     then PERCENT_OF_ACTUAL else "UNKNOWN_UNRESOLVED")
  else t.

(** The first candidate that reads as a finite, non-negative number. *)
Fixpoint first_amount (candidates : list jsval) (source : string) : amount_result :=
  match candidates with
  | [] => NoAmount "missing_order_value"
  | c :: rest =>
      let n := js_number c in
      if is_finite n && nleb n0 n then Amount n source else first_amount rest source
  end.

Definition metadata_candidates (conversion : jsval) : list jsval :=
  let meta := if is_object conversion@."metadata" then conversion@."metadata" else JObj [] in
  [meta@."orderValue"; meta@."order_value"; meta@."saleAmount"; meta@."sales_amount"; meta@."revenue"].

Definition resolveOrderValue (order conversion : jsval) : amount_result :=
  let from_metadata := first_amount (metadata_candidates conversion) "conversion.metadata" in
  if negb (blank order@."orderValue") then
    let n := js_number order@."orderValue" in
    if is_finite n && nleb n0 n then Amount n "order.orderValue" else from_metadata
  else from_metadata.

Definition number_or_null (v : jsval) : jsval := if nullish v then JNull else JNum (js_number v).
Definition string_or_null (v : jsval) : jsval := if nullish v then JNull else JStr (js_string v).

Definition buildDisplay (rule : jsval) (kind : string) : jsval :=
  if negb (kind =s? DISPLAY_RANGE) then JNull
  else JObj [("displayRangeMin", number_or_null rule@."displayRangeMin");
             ("displayRangeMax", number_or_null rule@."displayRangeMax");
             ("displayLabel", rule@."displayLabel" ?? JNull);
             ("note", JStr "Display only — financial payable uses actual supplier commission × client share")].

Definition rule_snapshot (rule : jsval) (kind : string) : jsval :=
  JObj [("id", rule@."id" ?? JNull);
        ("assignmentId", rule@."assignmentId" ?? JNull);
        ("commissionType", rule@."commissionType" ?? JNull);
        ("ruleKind", JStr kind);
        ("grossCommission", string_or_null rule@."grossCommission");
        ("clientCommission", string_or_null rule@."clientCommission");
        ("mboCommission", string_or_null rule@."mboCommission");
        ("orderValuePercent", string_or_null rule@."orderValuePercent");
        ("fixedAmount", string_or_null rule@."fixedAmount");
        ("manualAmount", string_or_null rule@."manualAmount");
        ("manualApproved", JBool (truthy rule@."manualApproved"));
        ("displayRangeMin", string_or_null rule@."displayRangeMin");
        ("displayRangeMax", string_or_null rule@."displayRangeMax");
        ("displayLabel", rule@."displayLabel" ?? JNull);
        ("status", rule@."status" ?? JNull);
        ("effectiveFrom", rule@."effectiveFrom" ?? JNull);
        ("effectiveUntil", rule@."effectiveUntil" ?? JNull);
        ("currency", rule@."currency" ?? JNull)].

(** [currency ? String(currency).slice(0, 3).toUpperCase() : null] *)
Definition currency_code (v : jsval) : option string :=
  if truthy v then Some (to_upper (slice 0 3 (js_string v))) else None.

Definition succeed (gross client margin : num) (cur rule : jsval) (kind method : string)
    (meta : jsval) (allowClientExceedSupplier : bool) : commercial_result :=
  let sg := ROUND gross in
  let cp := ROUND client in
  let mm := ROUND margin in
  if nltb margin_tolerance (nabs (nsub (nsub sg cp) mm))
  then CommercialFail "margin_reconciliation_failed" no_extra
  else if negb allowClientExceedSupplier && nltb epsilon (nsub cp sg) then CommercialFail "client_exceeds_supplier" no_extra
  else CommercialOk {|
    supplierGross := FIXED4 sg; clientCommission := FIXED4 cp; mboMargin := FIXED4 mm;
    currency := currency_code cur;
    ruleId := rule@."id" ?? JNull; ruleKind := kind;
    ruleSnapshot := rule_snapshot rule kind;
    displayCommission := buildDisplay rule kind;
    calculationMetadata :=
      spread (JObj [("method", JStr method); ("neverUsedCampaignSnapshot", JBool true)]) meta |}.

Record commercial_args := CommercialArgs {
  a_order : jsval;
  a_conversion : jsval;
  a_clientCommissionRule : jsval;
  a_currency : jsval;
  a_supplierCommissionRule : jsval;
  a_approvedBasis : jsval
}.

Definition fail_with (reason : string) (fields : list (string * jsval)) : commercial_result :=
  CommercialFail reason (JObj [("calculationMetadata", JObj fields)]).

(** [basisMeta] *)
Definition basis_meta (basis : jsval) (supplierSource : string) : jsval :=
  if truthy basis then
    JObj [("basisMode", basis@."basisMode"); ("approvedItemCount", basis@."approvedItemCount");
          ("rejectedItemCount", basis@."rejectedItemCount"); ("pendingItemCount", basis@."pendingItemCount");
          ("needsReviewItemCount", basis@."needsReviewItemCount");
          ("allItemsApproved", basis@."allItemsApproved"); ("supplierCommissionSource", JStr supplierSource)]
  else JObj [("basisMode", JStr "FULL_ORDER_LEGACY")].

(** Lines 191-253: the guards before any amount is read; [None] when all pass. *)
Definition commercial_guards (a : commercial_args) : option commercial_result :=
  let order := a_order a in let conversion := a_conversion a in
  let rule := a_clientCommissionRule a in let basis := a_approvedBasis a in
  let kind := resolveRuleKind rule in
  let cur_of_txn := conversion@."currency" |or| order@."currency" in
  let ruleCur := if truthy rule@."currency" then Some (to_upper (js_string rule@."currency")) else None in
  let txnCur := if truthy cur_of_txn then Some (to_upper (js_string cur_of_txn)) else None in
  if truthy order && negb (order@."validationStatus" === "VALIDATION_APPROVED") then
    Some (CommercialFail (if order@."validationStatus" === "VALIDATION_REJECTED"
                          then "validation_rejected" else "validation_not_approved") no_extra)
  else if negb (truthy rule) then Some (CommercialFail "missing_effective_commission_rule" no_extra)
  else if truthy rule@."status" && negb (rule@."status" === "EFFECTIVE")
  then Some (CommercialFail "rule_not_effective" no_extra)
  else
    match ruleCur, txnCur with
    | Some rc, Some tc =>
        if negb (rc =s? "") && negb (tc =s? "") && negb (rc =s? tc)
        then Some (fail_with "currency_mismatch" [("ruleCurrency", JStr rc); ("transactionCurrency", JStr tc)])
        else None
    | _, _ => None
    end.

Definition kind_guards (kind : string) (basis : jsval) : option commercial_result :=
  let itemLevel := basis@."basisMode" === "ITEM_LEVEL" in
  if kind =s? "LEGACY_FIXED_UNMAPPED" then Some (CommercialFail "legacy_fixed_unmapped" no_extra)
  else if kind =s? "TIERED_NOT_IMPLEMENTED" then Some (CommercialFail "tiered_not_implemented" no_extra)
  else if kind =s? "UNKNOWN_UNRESOLVED" then Some (CommercialFail "unknown_rule_unresolved" no_extra)
  else if (kind =s? AMOUNT_PER_ORDER) && itemLevel
          && (negb (truthy basis@."allItemsApproved")
              || nltb (js_number basis@."approvedItemCount") (num_of_Z 1)) then
    Some (fail_with "partial_approval_fixed_amount_unresolved"
      [("basisMode", basis@."basisMode"); ("approvedItemCount", basis@."approvedItemCount");
       ("rejectedItemCount", basis@."rejectedItemCount"); ("pendingItemCount", basis@."pendingItemCount");
       ("note", JStr "FIXED_CLIENT_AMOUNT_PER_CONFIRMED_ORDER requires all items VALIDATION_APPROVED; no prorating invented.")])
  else None.

(** The supplier gross and its source, from the approved items or from the conversion. *)
Definition supplier_gross (a : commercial_args) : num * string + commercial_result :=
  let basis := a_approvedBasis a in
  if basis@."basisMode" === "ITEM_LEVEL" then
    if negb (truthy basis@."approvedSupplierCommissionOk") || nullish basis@."approvedSupplierCommission"
    then inr (fail_with "missing_approved_item_supplier_commission"
                [("basisMode", JStr "ITEM_LEVEL"); ("source", basis@."source")])
    else inl (js_number basis@."approvedSupplierCommission", "sum_approved_order_item_commission")
  else
    match resolveActualSupplierCommission (a_conversion a) (a_order a) with
    | NoAmount reason => inr (CommercialFail reason no_extra)
    | Amount amount _ => inl (amount, "conversion")
    end.

(** Lines 321-336: the order value a percentage applies to. *)
Definition order_value_amount (a : commercial_args) : num * string + commercial_result :=
  let basis := a_approvedBasis a in
  if basis@."basisMode" === "ITEM_LEVEL" then
    if negb (truthy basis@."approvedOrderValueOk") || nullish basis@."approvedOrderValue"
    then inr (fail_with "missing_approved_order_value"
                [("basisMode", JStr "ITEM_LEVEL"); ("source", basis@."source")])
    else inl (js_number basis@."approvedOrderValue", "sum_approved_order_item_itemValue")
  else
    match resolveOrderValue (a_order a) (a_conversion a) with
    | NoAmount reason => inr (CommercialFail reason no_extra)
    | Amount amount source => inl (amount, source)
    end.

Definition supplier_rule_id (a : commercial_args) : string * jsval :=
  ("supplierCommissionRuleId", (a_supplierCommissionRule a)@."id" ?? JNull).

(** Lines 286-417: the calculation of each rule kind. *)
Definition calculate_kind (a : commercial_args) (kind : string) (cur : jsval)
    (gross : num) (basisMeta : jsval) : outcome commercial_result :=
  let rule := a_clientCommissionRule a in
  if (kind =s? PERCENT_OF_ACTUAL) || (kind =s? DISPLAY_RANGE) then
    let? split := applyCommissionRuleToGross (JNum gross) rule in
    match split with
    | SplitFail reason => Ok (CommercialFail reason no_extra)
    | SplitOk client mbo =>
        Ok (succeed gross (string_to_num client) (string_to_num mbo) cur rule kind
          (if kind =s? DISPLAY_RANGE then "display_range_with_actual_split"
           else "ratio_share_of_actual_supplier_commission")
          (spread (JObj
            [("ratio", if nltb n0 (js_number rule@."grossCommission")
                       then JNum (ndiv (js_number rule@."clientCommission") (js_number rule@."grossCommission"))
                       else JNull);
             ("usedApprovedCommission", JBool (negb (nullish (a_conversion a)@."approvedCommission")));
             supplier_rule_id a]) basisMeta) false)
    end
  else if kind =s? PERCENT_OF_ORDER then
    let pct := js_number rule@."orderValuePercent" in
    if negb (is_finite pct) || nltb pct n0 then Ok (CommercialFail "missing_order_value_percent" no_extra)
    else
      match order_value_amount a with
      | inr failure => Ok failure
      | inl (orderValueAmount, orderValueSource) =>
          let clientPayable := ROUND (ndiv (nmul orderValueAmount pct) (num_of_Z 100)) in
          Ok (succeed gross clientPayable (ROUND (nsub gross clientPayable)) cur rule kind
            "fixed_client_percent_of_order_value"
            (spread (JObj
              [("orderValue", JNum orderValueAmount); ("orderValueSource", JStr orderValueSource);
               ("orderValuePercent", JNum pct); ("rounding", JStr "4dp"); supplier_rule_id a]) basisMeta) false)
      end
  else if kind =s? AMOUNT_PER_ORDER then
    let amt := js_number rule@."fixedAmount" in
    if negb (is_finite amt) || nltb amt n0 then Ok (CommercialFail "missing_fixed_amount" no_extra)
    else
      let clientPayable := ROUND amt in
      Ok (succeed gross clientPayable (ROUND (nsub gross clientPayable)) cur rule kind
        "fixed_client_amount_per_confirmed_order"
        (spread (JObj
          [("fixedAmount", JNum amt); ("confirmedOrderCount", JNum (num_of_Z 1)); ("rounding", JStr "4dp");
           supplier_rule_id a]) basisMeta) false)
  else if kind =s? MANUAL_APPROVED then
    if negb (truthy rule@."manualApproved") || negb (truthy rule@."manualApprovedAt")
       || negb (truthy rule@."manualApprovedBy")
    then Ok (CommercialFail "manual_commission_not_approved" no_extra)
    else
      let amt := js_number rule@."manualAmount" in
      if negb (is_finite amt) || nltb amt n0 then Ok (CommercialFail "missing_manual_amount" no_extra)
      else
        let clientPayable := ROUND amt in
        Ok (succeed gross clientPayable (ROUND (nsub gross clientPayable)) cur rule kind
          "manual_approved_client_commission"
          (spread (JObj
            [("manualAmount", JNum amt); ("manualApprovedAt", rule@."manualApprovedAt" ?? JNull);
             ("manualApprovedBy", rule@."manualApprovedBy" ?? JNull); ("rounding", JStr "4dp");
             supplier_rule_id a]) basisMeta) false)
  else Ok (fail_with "unsupported_rule_kind" [("kind", JStr kind)]).

(** [resolvedCurrency] *)
Definition resolved_currency (a : commercial_args) : jsval :=
  a_currency a |or| (a_conversion a)@."currency" |or| (a_order a)@."currency"
  |or| (a_clientCommissionRule a)@."currency" |or| (a_approvedBasis a)@."currency" |or| JNull.

Definition calculateCommercial (a : commercial_args) : outcome commercial_result :=
  match commercial_guards a with
  | Some failure => Ok failure
  | None =>
      let kind := resolveRuleKind (a_clientCommissionRule a) in
      match kind_guards kind (a_approvedBasis a) with
      | Some failure => Ok failure
      | None =>
          match supplier_gross a with
          | inr failure => Ok failure
          | inl (gross, supplierSource) =>
              calculate_kind a kind (resolved_currency a) gross
                (basis_meta (a_approvedBasis a) supplierSource)
          end
      end
  end.

Definition calculateCommissionViaEngine (a : commercial_args) : outcome commercial_result :=
  calculateCommercial a.

End WithHost.

(** ** What a successful calculation guarantees *)

Module RuleEngineFacts.
Section WithHost.
Context {H : JsHost}.

Definition supported_kinds : list string :=
  [PERCENT_OF_ACTUAL; PERCENT_OF_ORDER; AMOUNT_PER_ORDER; MANUAL_APPROVED; DISPLAY_RANGE].

(** The amounts of [c] are the 4-decimal roundings of three numbers that reconcile and
    in which the client does not receive more than the supplier pays. *)
Definition reconciled (c : commercial) : Prop :=
  exists sg cp mm,
    supplierGross c = FIXED4 sg /\ clientCommission c = FIXED4 cp /\ mboMargin c = FIXED4 mm /\
    nltb margin_tolerance (nabs (nsub (nsub sg cp) mm)) = false /\
    nltb epsilon (nsub cp sg) = false.

Lemma succeed_inv gross client margin cur rule kind method meta c :
  succeed gross client margin cur rule kind method meta false = CommercialOk c ->
  supplierGross c = FIXED4 (ROUND gross) /\ clientCommission c = FIXED4 (ROUND client) /\
  ruleKind c = kind /\ reconciled c.
Proof.
  unfold succeed. cbn [negb andb]. destruct (nltb margin_tolerance _) eqn:E1; [discriminate|].
  destruct (nltb epsilon _) eqn:E2; [discriminate|]. intros [= <-]. cbn.
  repeat split. exists (ROUND gross), (ROUND client), (ROUND margin). auto.
Qed.

Lemma order_value_amount_fail a r c : order_value_amount a = inr r -> r <> CommercialOk c.
Proof. unfold order_value_amount, fail_with. intros E ->. repeat case_match; discriminate. Qed.

Lemma supplier_gross_fail a r c : supplier_gross a = inr r -> r <> CommercialOk c.
Proof. unfold supplier_gross, fail_with. intros E ->. repeat case_match; discriminate. Qed.

(** The client payable a rule kind prescribes for a given gross. *)
Definition prescribed_client (a : commercial_args) (kind : string) (gross client : num) : Prop :=
  let rule := a_clientCommissionRule a in
  if (kind =s? PERCENT_OF_ACTUAL) || (kind =s? DISPLAY_RANGE)
  then exists text mbo, applyCommissionRuleToGross (JNum gross) rule = Ok (SplitOk text mbo) /\
                        client = string_to_num text
  else if kind =s? PERCENT_OF_ORDER
  then exists value source, order_value_amount a = inl (value, source) /\
         client = ROUND (ndiv (nmul value (js_number rule@."orderValuePercent")) (num_of_Z 100))
  else if kind =s? AMOUNT_PER_ORDER then client = ROUND (js_number rule@."fixedAmount")
  else client = ROUND (js_number rule@."manualAmount") /\ truthy rule@."manualApproved" = true /\
       truthy rule@."manualApprovedAt" = true /\ truthy rule@."manualApprovedBy" = true.

Lemma calculate_kind_inv a kind cur gross meta c :
  calculate_kind a kind cur gross meta = Ok (CommercialOk c) ->
  kind ∈ supported_kinds /\ ruleKind c = kind /\ reconciled c /\
  exists client, prescribed_client a kind gross client /\
    supplierGross c = FIXED4 (ROUND gross) /\ clientCommission c = FIXED4 (ROUND client).
Proof.
  unfold calculate_kind, prescribed_client, fail_with.
  destruct ((kind =s? PERCENT_OF_ACTUAL) || (kind =s? DISPLAY_RANGE))%bool eqn:Ekind.
  { assert (kind ∈ supported_kinds)
      by (unfold supported_kinds; apply orb_true_iff in Ekind as [E|E]; apply String.eqb_eq in E; subst; set_solver).
    destruct (applyCommissionRuleToGross _ _) as [[text mbo|]|]; try discriminate.
    cbn [outcome_bind]. intros [= (? & ? & ? & ?)%succeed_inv]. eauto 10. }
  clear Ekind.
  destruct (kind =s? PERCENT_OF_ORDER) eqn:E1; [|destruct (kind =s? AMOUNT_PER_ORDER) eqn:E2;
    [|destruct (kind =s? MANUAL_APPROVED) eqn:E3; [|discriminate]]];
    match goal with E : (kind =s? _) = true |- _ => apply String.eqb_eq in E; subst kind end.
  - destruct (_ || _)%bool; [discriminate|]. destruct (order_value_amount a) as [[value source]|failure] eqn:Eval;
      [|intros [= ->]; now destruct (order_value_amount_fail _ _ c Eval)].
    intros [= (? & ? & ? & ?)%succeed_inv]. split; [set_solver|]. eauto 10.
  - destruct (_ || _)%bool; [discriminate|].
    intros [= (? & ? & ? & ?)%succeed_inv]. split; [set_solver|]. eauto 10.
  - destruct (_ || _)%bool eqn:Eman; [discriminate|]. split_bools. destruct (_ || _)%bool; [discriminate|].
    intros [= (? & ? & ? & ?)%succeed_inv]. split; [set_solver|]. eauto 10.
Qed.

(** The conditions under which the engine may calculate at all. *)
Definition calculation_allowed (a : commercial_args) : Prop :=
  (truthy (a_order a) = true -> (a_order a)@."validationStatus" = JStr "VALIDATION_APPROVED") /\
  truthy (a_clientCommissionRule a) = true /\
  (truthy (a_clientCommissionRule a)@."status" = true ->
   (a_clientCommissionRule a)@."status" = JStr "EFFECTIVE").

Lemma commercial_guards_pass a : commercial_guards a = None -> calculation_allowed a.
Proof.
  unfold commercial_guards, calculation_allowed. intros Hg.
  destruct (truthy (a_order a)); destruct ((a_order a)@."validationStatus" === _) eqn:Ev;
    destruct (truthy (a_clientCommissionRule a)); destruct (truthy (a_clientCommissionRule a)@."status");
    destruct ((a_clientCommissionRule a)@."status" === _) eqn:Es; cbn [andb negb] in Hg;
    try discriminate Hg; repeat split; intros; try discriminate; now apply is_str_eq.
Qed.

(** The guards never produce a success. *)
Lemma commercial_guards_fail a c : commercial_guards a <> Some (CommercialOk c).
Proof. unfold commercial_guards, fail_with. intros E. repeat case_match; discriminate. Qed.
Lemma kind_guards_fail k b c : kind_guards k b <> Some (CommercialOk c).
Proof. unfold kind_guards, fail_with. intros E. repeat case_match; discriminate. Qed.


(** Fail closed: an order that is present and not validation-approved yields no
    amounts, whatever the conversion, rule and basis say. *)
Theorem calculateCommercial_unapproved a :
  truthy (a_order a) = true -> ((a_order a)@."validationStatus" === "VALIDATION_APPROVED") = false ->
  exists reason, calculateCommercial a = Ok (CommercialFail reason no_extra) /\
    reason ∈ ["validation_rejected"; "validation_not_approved"].
Proof.
  intros Ho Hv. unfold calculateCommercial, commercial_guards. rewrite Ho, Hv. cbn [andb negb].
  eexists. split; [reflexivity|]. case_match; set_solver.
Qed.

(** A fixed amount per order is never paid on a partially approved order. *)
Theorem fixed_amount_needs_full_approval a c :
  resolveRuleKind (a_clientCommissionRule a) = AMOUNT_PER_ORDER ->
  (a_approvedBasis a)@."basisMode" = JStr "ITEM_LEVEL" ->
  calculateCommercial a = Ok (CommercialOk c) ->
  truthy (a_approvedBasis a)@."allItemsApproved" = true /\
  nltb (js_number (a_approvedBasis a)@."approvedItemCount") (num_of_Z 1) = false.
Proof.
  intros Hk Hb. unfold calculateCommercial. rewrite Hk. unfold kind_guards. rewrite Hb.
  cbn [is_str String.eqb Ascii.eqb Bool.eqb andb].
  change (AMOUNT_PER_ORDER =s? AMOUNT_PER_ORDER) with true.
  destruct (commercial_guards a) eqn:Eg; [intros [= ->]; now apply commercial_guards_fail in Eg|].
  destruct (truthy _); [|discriminate]. destruct (nltb _ _); [discriminate|auto].
Qed.

End WithHost.
End RuleEngineFacts.
