(* ===== verification/ClientCalc.v ===== *)
(** * Client payout calculation

    [modules/commercial/clientCommercialCalculation.js]: the payout of one matched
    client rule (ratio, percent of order value, fixed, manual, tiered), the agreement
    lineage gate and the negative-margin protection. *)

From Stdlib Require Import SpecFloat.
From S2P Require Import Prelude JsNum JsRound JsVal JsDate Money.
Import CommissionMath AttributionMath.
Local Open Scope Z_scope.

Module ClientCalculation.

Definition SUPPORTED_TIER_METRICS : list string :=
  ["ORDER_COUNT"; "ORDER_VALUE"; "SUPPLIER_COMMISSION"; "CLIENT_REVENUE"].
Definition SUPPORTED_TIER_PERIODS : list string :=
  ["TRANSACTION"; "DAILY"; "WEEKLY"; "MONTHLY"; "LIFETIME"].

(** [set.has(v)] for a string-or-null value *)
Definition set_has (set : list string) (v : option string) : bool :=
  match v with Some s => existsb (String.eqb s) set | None => false end.

(** ** Results *)

Inductive calculation :=
| Calculated (amount : option num) (provisional : bool) (payoutBasis : string) (sharePercent : option num)
| CalcReview (reason : string).

Record lineage_result := Lineage {
  agreementRef : jsval; approvedAt : jsval; approvedBy : jsval; missing : list string
}.
Definition lineage_status (l : lineage_result) : string :=
  match missing l with [] => "COMPLETE" | _ => "REVIEW_REQUIRED" end.

Inductive tier_selection :=
| TierReview (reason : string) (metric period : option string) (metricValue : option num) (ids : list jsval)
| TierNoMatch (metric period : option string) (metricValue : num)
| TierMatched (metric period : option string) (metricValue : num) (selectedTier selectedTierId : jsval).

Inductive margin_result :=
| MarginReview (reason : string) (currencies : option (string * string))
| MarginAllowed (margin : option num)
| MarginBlocked (margin : option num)
| MarginSubsidy (margin : option num) (approvalRef approvedAt approvedBy : jsval).

Definition margin_status (m : margin_result) : string :=
  match m with
  | MarginReview _ _ => "REVIEW_REQUIRED"
  | MarginAllowed _ => "ALLOWED"
  | MarginBlocked _ => "BLOCKED_NEGATIVE_MARGIN"
  | MarginSubsidy _ _ _ _ => "ALLOWED_WITH_APPROVED_SUBSIDY"
  end.
Definition margin_reason (m : margin_result) : string :=
  match m with
  | MarginReview reason _ => reason
  | MarginAllowed _ => "non_negative_margin"
  | MarginBlocked _ => "client_payable_exceeds_supplier_commission"
  | MarginSubsidy _ _ _ _ => "approved_subsidy_override"
  end.
Definition margin_amount (m : margin_result) : option num :=
  match m with
  | MarginReview _ _ => None
  | MarginAllowed x | MarginBlocked x | MarginSubsidy x _ _ _ => x
  end.

Record payout := Payout {
  status : string;
  reason : string;
  clientPayable : option num;
  mboMargin : option num;
  payable : bool;
  payoutBasis : option string;
  tierSelection : option tier_selection;
  lineage : lineage_result;
  marginProtection : option margin_result
}.

Section WithHost.
Context {H : JsHost}.

Definition normalize (value : jsval) : option string :=
  if nullish value then None
  else Some (squeeze sep_class false (to_upper (trim (js_string value)))).

Definition asNumber (value : jsval) : option num := finite_number value.

(** [roundMoney(value)] for a number *)
Definition roundMoney (value : num) : option num :=
  if is_finite value then Some (round4 value) else None.

Definition currency (value : jsval) : option string :=
  match normalize value with
  | Some s => if (String.length s =? 3)%nat then Some s else None
  | None => None
  end.

Definition ruleType (rule : jsval) : string :=
  match normalize (rule@."commissionType" ?? rule@."commission_type" ?? rule@."type") with
  | Some s => if s =s? "" then "UNKNOWN" else s
  | None => "UNKNOWN"
  end.

Definition clientSharePair (rule : jsval) : option (num * num) :=
  match asNumber (rule@."grossCommission" ?? rule@."gross_commission"),
        asNumber (rule@."clientCommission" ?? rule@."client_commission") with
  | Some gross, Some client =>
      if nleb gross n0 || nltb client n0 then None else Some (gross, client)
  | _, _ => None
  end.

Definition sharePercentOf (pair : num * num) : num :=
  nmul (ndiv pair.2 pair.1) (num_of_Z 100).

Definition completeApproval (approval : jsval) : bool :=
  truthy approval && is_true approval@."allowed" && truthy approval@."approvedAt"
  && truthy approval@."approvedBy" && truthy approval@."approvalRef".

Definition validateClientCommercialLineage (rule : jsval) : lineage_result :=
  let ref := rule@."agreementRef" ?? rule@."agreement_ref" ?? rule@."commercialApprovalRef"
             ?? rule@."commercial_approval_ref" ?? JNull in
  let at_ := rule@."agreementApprovedAt" ?? rule@."agreement_approved_at"
             ?? rule@."commercialApprovedAt" ?? rule@."commercial_approved_at" ?? JNull in
  let by_ := rule@."agreementApprovedBy" ?? rule@."agreement_approved_by"
             ?? rule@."commercialApprovedBy" ?? rule@."commercial_approved_by" ?? JNull in
  Lineage ref at_ by_
    ((if truthy ref then [] else ["agreementRef"]) ++
     (if truthy at_ then [] else ["approvedAt"]) ++
     (if truthy by_ then [] else ["approvedBy"])).

(** ** Tiers *)

Definition metricValue (metric : string) (context : jsval) : option num :=
  asNumber
    (if metric =s? "ORDER_COUNT" then context@."orderCount"
     else if metric =s? "ORDER_VALUE" then context@."orderValue"
     else if metric =s? "SUPPLIER_COMMISSION"
     then context@."networkActualCommission" ?? context@."validatedSupplierCommission"
     else if metric =s? "CLIENT_REVENUE" then context@."clientRevenue"
     else JUndef).

Definition tierBounds (tier : jsval) : option num * option num :=
  (asNumber (tier@."minInclusive" ?? tier@."min" ?? tier@."from"),
   asNumber (tier@."maxExclusive" ?? tier@."max" ?? tier@."to")).

(** [min == null || (max != null && max <= min)] *)
Definition tier_invalid (tier : jsval) : bool :=
  match tierBounds tier with
  | (None, _) => true
  | (Some min, Some max) => nleb max min
  | (Some _, None) => false
  end.
(** [value >= min && (max == null || value < max)] *)
Definition tier_contains (value : num) (tier : jsval) : bool :=
  match tierBounds tier with
  | (Some min, max) => nleb min value && match max with Some max => nltb value max | None => true end
  | (None, _) => false
  end.
Definition tier_id (it : nat * jsval) : jsval := it.2@."id" ?? JNum (num_of_Z (Z.of_nat it.1)).

(** [tiers.forEach((tier, index) => ...)]: the invalid ids and the matches, in order. *)
Fixpoint scan_tiers (value : num) (index : nat) (tiers : list jsval)
  : list jsval * list (nat * jsval) :=
  match tiers with
  | [] => ([], [])
  | tier :: rest =>
      let '(invalid, matches) := scan_tiers value (S index) rest in
      if tier_invalid tier then (tier_id (index, tier) :: invalid, matches)
      else if tier_contains value tier then (invalid, (index, tier) :: matches)
      else (invalid, matches)
  end.

Definition selectClientCommercialTier (rule context : jsval) : tier_selection :=
  let metric := normalize (rule@."tierMetric" ?? rule@."tier_metric") in
  let period := normalize (rule@."tierPeriod" ?? rule@."tier_period" ?? JStr "TRANSACTION") in
  if negb (set_has SUPPORTED_TIER_METRICS metric)
  then TierReview "unsupported_or_missing_tier_metric" metric period None []
  else if negb (set_has SUPPORTED_TIER_PERIODS period)
  then TierReview "unsupported_tier_period" metric period None []
  else
    match metricValue (default "" metric) context with
    | None => TierReview ("missing_tier_metric:" +:+ default "" metric) metric period None []
    | Some value =>
        match as_array rule@."tiers" with
        | [] => TierReview "missing_tier_bands" metric period None []
        | tiers =>
            match scan_tiers value 0 tiers with
            | ((_ :: _) as invalid, _) => TierReview "invalid_tier_band" metric period None invalid
            | ([], []) => TierNoMatch metric period value
            | ([], [it]) => TierMatched metric period value it.2 (tier_id it)
            | ([], matches) =>
                TierReview "overlapping_tier_bands" metric period (Some value) (map tier_id matches)
            end
        end
    end.

(** ** The payout of each rule type *)

Definition calculatePercentageOfSupplier (rule context : jsval) : calculation :=
  match clientSharePair rule with
  | None => CalcReview "invalid_client_share_ratio"
  | Some sp =>
      let sharePercent := roundMoney (sharePercentOf sp) in
      let share amount := roundMoney (applyClientShareRatio (JNum amount) (JNum sp.1) (JNum sp.2)) in
      match asNumber (context@."networkActualCommission" ?? context@."validatedSupplierCommission") with
      | None =>
          match asNumber context@."expectedSupplierCommission" with
          | Some expected =>
              if negb (is_true context@."provisionalAllowed")
              then CalcReview "supplier_commission_evidence_missing"
              else Calculated (share expected) true "EXPECTED_SUPPLIER_COMMISSION" sharePercent
          | None => CalcReview "supplier_commission_evidence_missing"
          end
      | Some actual => Calculated (share actual) false "NETWORK_ACTUAL_COMMISSION" sharePercent
      end
  end.

Definition calculatePercentOfOrderValue (rule context : jsval) : calculation :=
  match asNumber (rule@."orderValuePercent" ?? rule@."order_value_percent") with
  | None => CalcReview "invalid_order_value_percent"
  | Some percent =>
      if nltb percent n0 then CalcReview "invalid_order_value_percent"
      else
        match asNumber context@."orderValue" with
        | None => CalcReview "order_value_missing"
        | Some orderValue =>
            Calculated (roundMoney (ndiv (nmul orderValue percent) (num_of_Z 100))) false
              "ORDER_VALUE" (Some percent)
        end
  end.

Definition calculateFixed (rule : jsval) : calculation :=
  match asNumber (rule@."fixedAmount" ?? rule@."fixed_amount") with
  | None => CalcReview "invalid_fixed_amount"
  | Some amount => if nltb amount n0 then CalcReview "invalid_fixed_amount"
                   else Calculated (roundMoney amount) false "FIXED_AMOUNT" None
  end.

Definition calculateManual (rule : jsval) : calculation :=
  let approved := rule@."manualApproved" ?? rule@."manual_approved" in
  let approvedAt := rule@."manualApprovedAt" ?? rule@."manual_approved_at" in
  let approvedBy := rule@."manualApprovedBy" ?? rule@."manual_approved_by" in
  if negb (is_true approved) || negb (truthy approvedAt) || negb (truthy approvedBy)
  then CalcReview "manual_commission_not_approved"
  else
    match asNumber (rule@."manualAmount" ?? rule@."manual_amount") with
    | None => CalcReview "invalid_manual_amount"
    | Some amount => if nltb amount n0 then CalcReview "invalid_manual_amount"
                     else Calculated (roundMoney amount) false "MANUAL_APPROVED_AMOUNT" None
    end.

Definition calculateTierPayout (tier rule context : jsval) : calculation :=
  let payoutType := normalize (tier@."payoutType" ?? tier@."payout_type" ?? tier@."commissionType"
                               ?? tier@."commission_type") in
  let type_is s := set_has [s] payoutType in
  let syntheticRule := with_prop (spread rule tier) "commissionType" (of_option_str payoutType) in
  if type_is "PERCENT_OF_SUPPLIER_COMMISSION" || type_is "PERCENT_OF_ACTUAL_SUPPLIER_COMMISSION" || type_is "PERCENT" then
    if negb (nullish tier@."sharePercent") || negb (nullish tier@."share_percent") then
      match asNumber (tier@."sharePercent" ?? tier@."share_percent") with
      | None => CalcReview "invalid_tier_share_percent"
      | Some share =>
          if nltb share n0 then CalcReview "invalid_tier_share_percent"
          else calculatePercentageOfSupplier
                 (with_prop (with_prop syntheticRule "grossCommission" (JNum (num_of_Z 100)))
                    "clientCommission" (JNum share)) context
      end
    else calculatePercentageOfSupplier syntheticRule context
  else if type_is "PERCENT_OF_ORDER_VALUE" || type_is "FIXED_CLIENT_PERCENT_OF_ORDER_VALUE" then
    calculatePercentOfOrderValue
      (with_prop syntheticRule "orderValuePercent"
         (tier@."orderValuePercent" ?? tier@."order_value_percent" ?? tier@."sharePercent" ?? tier@."share_percent"))
      context
  else if type_is "FIXED_AMOUNT" || type_is "FIXED" || type_is "FIXED_PER_ORDER" then
    calculateFixed (with_prop syntheticRule "fixedAmount"
                      (tier@."fixedAmount" ?? tier@."fixed_amount" ?? tier@."amount"))
  else CalcReview ("unsupported_tier_payout_type:"
                   +:+ match payoutType with
                       | Some s => if s =s? "" then "MISSING" else s
                       | None => "MISSING"
                       end).

(** ** Negative-margin protection *)

Definition evaluateNegativeMarginProtection
    (clientPayable networkActualCommission supplierCurrency clientCurrency subsidyApproval : jsval)
  : margin_result :=
  match asNumber clientPayable with
  | None => MarginReview "client_payable_missing" None
  | Some client =>
      match asNumber networkActualCommission with
      | None => MarginReview "network_actual_commission_missing" None
      | Some actual =>
          let mismatch :=
            match currency supplierCurrency, currency clientCurrency with
            | Some s, Some c => if s =s? c then None else Some (s, c)
            | _, _ => None
            end in
          match mismatch with
          | Some sp => MarginReview "currency_mismatch_no_fx_guessing" (Some sp)
          | None =>
              let margin := roundMoney (nsub actual client) in
              (* [margin >= 0], which is true of [null] *)
              if nleb n0 (default n0 margin) then MarginAllowed margin
              else if negb (completeApproval subsidyApproval) then MarginBlocked margin
              else MarginSubsidy margin subsidyApproval@."approvalRef" subsidyApproval@."approvedAt"
                     subsidyApproval@."approvedBy"
          end
      end
  end.

(** ** The payout of a matched rule *)

Definition rule_calculation (type : string) (rule context : jsval) : calculation :=
  if (type =s? "PERCENT") || (type =s? "PERCENT_OF_ACTUAL_SUPPLIER_COMMISSION")
     || (type =s? "DISPLAY_RANGE_WITH_ACTUAL_SPLIT")
  then calculatePercentageOfSupplier rule context
  else if type =s? "FIXED_CLIENT_PERCENT_OF_ORDER_VALUE" then calculatePercentOfOrderValue rule context
  else if (type =s? "FIXED_CLIENT_AMOUNT_PER_CONFIRMED_ORDER") || (type =s? "FIXED")
  then calculateFixed rule
  else if type =s? "MANUAL_APPROVED_CLIENT_COMMISSION" then calculateManual rule
  else CalcReview ("unsupported_client_commission_type:" +:+ type).

(** Lines 410-483: from a calculation to the payout. *)
Definition finish_payout (calc : calculation) (tiers : option tier_selection) (l : lineage_result)
    (rule context subsidyApproval : jsval) : payout :=
  match calc with
  | CalcReview why => Payout "REVIEW_REQUIRED" why None None false None tiers l None
  | Calculated amount provisional basis _ =>
      let margin := evaluateNegativeMarginProtection (of_option_num amount)
        context@."networkActualCommission"
        (context@."networkActualCurrency" ?? context@."supplierCurrency")
        (rule@."currency" ?? context@."clientCurrency") subsidyApproval in
      if provisional then
        Payout "PROVISIONAL" "network_actual_commission_not_yet_available" amount None false
          (Some basis) tiers l (Some margin)
      else
        let outcome_status :=
          if margin_status margin =s? "BLOCKED_NEGATIVE_MARGIN" then "BLOCKED_NEGATIVE_MARGIN"
          else if margin_status margin =s? "REVIEW_REQUIRED" then "REVIEW_REQUIRED"
          else "CALCULATED" in
        Payout outcome_status (margin_reason margin) amount (margin_amount margin) false
          (Some basis) tiers l (Some margin)
  end.

Definition calculateClientCommercialPayout (rule context : jsval) (requireAgreementLineage : bool)
    (subsidyApproval : jsval) : payout :=
  let type := ruleType rule in
  let l := validateClientCommercialLineage rule in
  if requireAgreementLineage && negb (lineage_status l =s? "COMPLETE")
  then Payout "REVIEW_REQUIRED" "commercial_agreement_lineage_incomplete" None None false None None l None
  else if type =s? "TIERED" then
    let selection := selectClientCommercialTier rule context in
    match selection with
    | TierMatched _ _ _ tier _ =>
        finish_payout (calculateTierPayout tier rule context) (Some selection) l rule context subsidyApproval
    | TierNoMatch _ _ _ =>
        Payout "NO_MATCH" "no_tier_band_matched" None None false None (Some selection) l None
    | TierReview why _ _ _ _ =>
        Payout "REVIEW_REQUIRED" why None None false None (Some selection) l None
    end
  else finish_payout (rule_calculation type rule context) None l rule context subsidyApproval.

End WithHost.
End ClientCalculation.

Module ClientCalcFacts.
Import ClientCalculation.
Section WithHost.
Context {H : JsHost}.

(** ** The payout gate *)

(** The evidence behind a [CALCULATED] payout: an amount, an actual network commission,
    no currency mismatch, and a margin that is not negative unless a complete subsidy
    approval covers it. *)
Definition payout_evidence (context subsidyApproval : jsval) (p : payout) : Prop :=
  exists client actual,
    clientPayable p = Some client /\
    asNumber context@."networkActualCommission" = Some actual /\
    mboMargin p = roundMoney (nsub actual client) /\
    (nleb n0 (default n0 (mboMargin p)) = true \/ completeApproval subsidyApproval = true).

Lemma margin_inv c a s k sub :
  let m := evaluateNegativeMarginProtection c a s k sub in
  (margin_status m =s? "BLOCKED_NEGATIVE_MARGIN") = false ->
  (margin_status m =s? "REVIEW_REQUIRED") = false ->
  exists client actual, asNumber c = Some client /\ asNumber a = Some actual /\
    margin_amount m = roundMoney (nsub actual client) /\
    (nleb n0 (default n0 (margin_amount m)) = true \/ completeApproval sub = true).
Proof.
  unfold evaluateNegativeMarginProtection.
  destruct (asNumber c) as [client|]; [|discriminate].
  destruct (asNumber a) as [actual|]; [|discriminate].
  destruct (match currency s with Some _ => _ | None => _ end) as [[]|]; [discriminate|].
  destruct (nleb n0 _) eqn:Em; [eauto 8|].
  destruct (completeApproval sub) eqn:Es; [eauto 8|discriminate].
Qed.

Lemma asNumber_of_option_num o client : asNumber (of_option_num o) = Some client -> o = Some client.
Proof.
  destruct o as [x|]; [|discriminate]. unfold asNumber, finite_number. cbn.
  destruct (is_finite x); congruence.
Qed.

Lemma finish_payout_calculated calc tiers l rule context sub :
  let p := finish_payout calc tiers l rule context sub in
  payable p = false /\ lineage p = l /\ status p <> "NO_MATCH" /\
  (status p = "CALCULATED" -> payout_evidence context sub p).
Proof.
  destruct calc as [amount provisional basis share|why]; cbn; [|repeat split; congruence].
  destruct provisional; cbn; [repeat split; congruence|].
  destruct (margin_status _ =s? "BLOCKED_NEGATIVE_MARGIN") eqn:E1; cbn; [repeat split; congruence|].
  destruct (margin_status _ =s? "REVIEW_REQUIRED") eqn:E2; cbn; [repeat split; congruence|].
  repeat split; [congruence|]. intros _.
  destruct (margin_inv _ _ _ _ _ E1 E2) as (client & actual & Hc & Ha & Hm & Hok).
  exists client, actual. cbn. apply asNumber_of_option_num in Hc. auto.
Qed.

Lemma payout_gate_lemma rule context requireLineage sub :
  let p := calculateClientCommercialPayout rule context requireLineage sub in
  payable p = false /\
  (status p = "CALCULATED" ->
     (requireLineage = true -> missing (validateClientCommercialLineage rule) = []) /\
     payout_evidence context sub p).
Proof.
  cbv zeta. unfold calculateClientCommercialPayout.
  destruct (requireLineage && _) eqn:El; [split; [reflexivity|discriminate]|].
  assert (Hl : requireLineage = true -> missing (validateClientCommercialLineage rule) = []).
  { intros ->. unfold lineage_status in El.
    destruct (missing _); [reflexivity|discriminate El]. }
  destruct (ruleType rule =s? "TIERED"); [destruct (selectClientCommercialTier rule context)|];
    try (split; [reflexivity|discriminate]);
    match goal with |- context [finish_payout ?a ?b ?c ?d ?e ?f] =>
      destruct (finish_payout_calculated a b c d e f) as (? & ? & ? & ?) end; auto.
Qed.

(** No calculation is payable by itself; a [CALCULATED] payout has its lineage complete
    when required, is never provisional, and either keeps a non-negative margin or
    carries an approved subsidy. *)
Theorem payout_gate rule context requireLineage sub :
  let p := calculateClientCommercialPayout rule context requireLineage sub in
  payable p = false /\
  (status p = "CALCULATED" ->
     (requireLineage = true -> missing (validateClientCommercialLineage rule) = []) /\
     payout_evidence context sub p).
Proof. apply payout_gate_lemma. Qed.

(** ** Tier selection *)

Lemma scan_tiers_spec value index tiers :
  let '(invalid, matches) := scan_tiers value index tiers in
  (invalid = [] <-> Forall (fun t => tier_invalid t = false) tiers) /\
  (invalid = [] -> forall i t, (i, t) ∈ matches <->
     (index <= i)%nat /\ tiers !! (i - index)%nat = Some t /\ tier_contains value t = true) /\
  NoDup (map fst matches) /\ Forall (fun it => (index <= it.1)%nat) matches.
Proof.
  revert index. induction tiers as [|t tiers IH]; intros index; cbn [scan_tiers].
  { split_and!; [split; auto| |constructor|constructor].
    intros _ i u. rewrite lookup_nil. set_solver. }
  specialize (IH (S index)). destruct (scan_tiers value (S index) tiers) as [invalid matches].
  destruct IH as (Hinv & Hm & Hnd & Hge).
  assert (Hge' : Forall (fun it : nat * jsval => (index <= it.1)%nat) matches)
    by (eapply Forall_impl; [exact Hge|cbn; lia]).
  assert (Hstep : forall i u, invalid = [] ->
    ((i, u) ∈ matches <-> (index < i)%nat /\ (t :: tiers) !! (i - index)%nat = Some u /\ tier_contains value u = true)).
  { intros i u E. rewrite (Hm E). split.
    - intros (? & ? & ?). replace (i - index)%nat with (S (i - S index)) by lia. cbn. auto with lia.
    - intros (? & Hl & ?). replace (i - index)%nat with (S (i - S index)) in Hl by lia. auto with lia. }
  destruct (tier_invalid t) eqn:Ei.
  { split_and!; [|discriminate|exact Hnd|exact Hge'].
    rewrite Forall_cons, Ei. split; [discriminate|intros [? _]; discriminate]. }
  destruct (tier_contains value t) eqn:Ec.
  - split_and!.
    + rewrite Forall_cons, Hinv. tauto.
    + intros E i u. rewrite elem_of_cons, (Hstep i u E). split.
      * intros [[= -> ->]|(? & ? & ?)]; [|split_and!; auto with lia].
        rewrite Nat.sub_diag. auto.
      * intros (Hle & Hl & Hc). destruct (decide (i = index)) as [->|]; [left|right; auto with lia].
        rewrite Nat.sub_diag in Hl. cbn in Hl. congruence.
    + cbn. constructor; [|exact Hnd]. rewrite list_elem_of_fmap. intros ([j u] & Hj & Hin).
      rewrite Forall_forall in Hge. specialize (Hge _ Hin). cbn in *. lia.
    + constructor; [cbn; lia|exact Hge'].
  - split_and!; [rewrite Forall_cons, Hinv; tauto| |exact Hnd|exact Hge'].
    intros E i u. rewrite (Hstep i u E). split; [intros (? & ? & ?); auto with lia|].
    intros (Hle & Hl & Hc). split; [|auto]. destruct (decide (i = index)) as [->|]; [|lia].
    rewrite Nat.sub_diag in Hl. cbn in Hl. congruence.
Qed.

(** The metric value a tiered rule is selected by, when its metric and period are supported. *)
Definition tier_input (rule context : jsval) : option num :=
  let metric := normalize (rule@."tierMetric" ?? rule@."tier_metric") in
  let period := normalize (rule@."tierPeriod" ?? rule@."tier_period" ?? JStr "TRANSACTION") in
  if set_has SUPPORTED_TIER_METRICS metric && set_has SUPPORTED_TIER_PERIODS period
  then metricValue (default "" metric) context else None.

Definition selected_tier (sel : tier_selection) : option jsval :=
  match sel with TierMatched _ _ _ tier _ => Some tier | _ => None end.

(** [tier] is the only band of [tiers] that contains [value], and every band is well formed. *)
Definition only_band (tiers : list jsval) (value : num) (tier : jsval) : Prop :=
  Forall (fun t => tier_invalid t = false) tiers /\
  exists i, tiers !! i = Some tier /\ tier_contains value tier = true /\
    forall j u, tiers !! j = Some u -> tier_contains value u = true -> j = i.

Lemma select_scan rule context value :
  tier_input rule context = Some value ->
  selected_tier (selectClientCommercialTier rule context) =
    match scan_tiers value 0 (as_array rule@."tiers") with
    | ([], [it]) => Some it.2
    | _ => None
    end.
Proof.
  unfold tier_input, selectClientCommercialTier.
  destruct (set_has SUPPORTED_TIER_METRICS _); [|discriminate].
  destruct (set_has SUPPORTED_TIER_PERIODS _); [|discriminate]. cbn [negb andb]. intros ->.
  destruct (as_array rule@."tiers"); [reflexivity|].
  destruct (scan_tiers _ _ _) as [[|] [|? [|]]]; reflexivity.
Qed.

(** A tier is selected exactly when it is the only band containing the metric value
    and no band is malformed: overlaps and gaps never pick a band. *)
Theorem tier_selection_unique rule context value tier :
  tier_input rule context = Some value ->
  selected_tier (selectClientCommercialTier rule context) = Some tier <->
  only_band (as_array rule@."tiers") value tier.
Proof.
  intros Hv. rewrite (select_scan _ _ _ Hv). set (tiers := as_array rule@."tiers").
  pose proof (scan_tiers_spec value 0 tiers) as Hspec. unfold only_band.
  destruct (scan_tiers value 0 tiers) as [invalid matches]. destruct Hspec as (Hinv & Hm & Hnd & _).
  rewrite <- Hinv. clear Hinv.
  destruct invalid as [|x invalid]; [specialize (Hm eq_refl)|split; [discriminate|intros [? _]; discriminate]].
  assert (Hin : forall i t, (i, t) ∈ matches <-> tiers !! i = Some t /\ tier_contains value t = true).
  { intros i t. rewrite Hm, Nat.sub_0_r. intuition lia. }
  split.
  - destruct matches as [|[i t] [|]]; try discriminate. intros [= <-]. split; [reflexivity|]. cbn.
    destruct (proj1 (Hin i t)) as [Hl Hc]; [set_solver|]. exists i. split_and!; auto.
    intros j u Hj Hcj. assert (Hji : (j, u) ∈ [(i, t)]) by (apply Hin; auto). set_solver.
  - intros [_ (i & Hl & Hc & Huniq)]. assert (Hi : (i, tier) ∈ matches) by (apply Hin; auto).
    destruct matches as [|[j u] matches]; [set_solver|].
    assert (Hall : forall k w, (k, w) ∈ (j, u) :: matches -> k = i /\ w = tier).
    { intros k w Hk. apply Hin in Hk as [Hlk Hck]. pose proof (Huniq k w Hlk Hck). subst k. split; congruence. }
    destruct (Hall j u) as [-> ->]; [set_solver|].
    destruct matches as [|[k w] matches]; [reflexivity|].
    destruct (Hall k w) as [-> ->]; [set_solver|]. cbn in Hnd. apply NoDup_cons in Hnd as [Hnot _]. set_solver.
Qed.

(** ** One client amount *)

Lemma positive_not_blank v :
  is_finite (js_number v) = true -> nleb (js_number v) n0 = false -> blank v = false.
Proof.
  destruct v as [| |b|x|[|c s]|t|l|l]; try (intros _ _; reflexivity).
  - discriminate.
  - discriminate.
  - intros _ Hle. vm_compute in Hle. discriminate Hle.
Qed.

Lemma infinite_exceeds gross : is_finite gross = true -> nltb epsilon (nsub pinf gross) = true.
Proof. destruct gross; try discriminate; intros _; vm_compute; reflexivity. Qed.

Lemma not_blank_not_nullish v : blank v = false -> nullish v = false.
Proof. unfold blank. intros [Hn _]%orb_false_iff. exact Hn. Qed.

(** The ratio share computed here is the one the attribution split stores: for the same
    rule and commission, [clientCommission] of the split reads back as the payout amount. *)
Theorem payout_agrees_with_split rule context gross client mbo :
  applyCommissionRuleToGross (JNum gross) rule = Ok (SplitOk client mbo) ->
  neqb gross n0 = false ->
  blank rule@."clientCommission" = false ->
  context@."networkActualCommission" = JNum gross ->
  exists share, calculatePercentageOfSupplier rule context =
    Calculated (Some (string_to_num client)) false "NETWORK_ACTUAL_COMMISSION" share.
Proof.
  unfold applyCommissionRuleToGross. cbn [js_number]. intros Hs Hz Hblank Hctx.
  destruct (truthy rule); [|discriminate Hs]. cbn [negb] in Hs.
  destruct (is_finite gross) eqn:Hgf; [|discriminate Hs]. cbn [negb] in Hs.
  destruct (nltb gross n0); [discriminate Hs|]. rewrite Hz in Hs.
  set (rg := js_number rule@."grossCommission") in *. set (rc := js_number rule@."clientCommission") in *.
  destruct (is_finite rg) eqn:Hrg; [|discriminate Hs]. destruct (nleb rg n0) eqn:Hrg0; [discriminate Hs|].
  destruct (is_finite rc) eqn:Hrc; [|discriminate Hs]. destruct (nltb rc n0) eqn:Hrc0; [discriminate Hs|].
  cbn [negb orb] in Hs. destruct (nltb rg rc); [discriminate Hs|].
  set (x := applyClientShareRatio (JNum gross) (JNum rg) (JNum rc)) in *.
  destruct (nltb x n0) eqn:Hx0; [discriminate Hs|]. destruct (nltb epsilon (nsub x gross)) eqn:Hxe; [discriminate Hs|].
  assert (Hxf : is_finite x = true).
  { destruct x as [|[]| |]; try reflexivity; [discriminate Hx0| |].
    - fold pinf in Hxe. rewrite (infinite_exceeds _ Hgf) in Hxe. discriminate Hxe.
    - unfold deriveMboCommission in Hs.
      change (is_nan (js_number (JStr (num_toFixed 4 S754_nan)))) with true in Hs.
      rewrite orb_true_r in Hs. discriminate Hs. }
  destruct (deriveMboCommission _ _); [|discriminate Hs]. injection Hs as <- <-.
  pose proof (positive_not_blank _ Hrg Hrg0) as Hgb.
  unfold calculatePercentageOfSupplier, clientSharePair, asNumber, finite_number, coalesce.
  rewrite (not_blank_not_nullish _ Hgb), (not_blank_not_nullish _ Hblank), Hgb, Hblank. fold rg rc. rewrite Hrg, Hrc, Hrg0, Hrc0.
  rewrite Hctx. cbn [nullish blank is_str js_number orb]. rewrite Hgf. cbn [fst snd]. fold x.
  unfold roundMoney at 1. rewrite Hxf. eexists. reflexivity.
Qed.

End WithHost.
End ClientCalcFacts.
