(* ===== verification/ClientMatch.v ===== *)
(** * Client rule selection

    [modules/commercial/clientCommercialMatcher.js]: the three-valued evaluation of rule
    conditions against transaction facts, the effective window, the precedence between
    matching rules, and the selection of the single client rule of an assignment. *)

From Stdlib Require Import SpecFloat.
From S2P Require Import Prelude JsNum JsOrder JsVal JsDate JsJson.
Local Open Scope Z_scope.

Module ClientMatcher.

Definition SET_LIKE_DIMENSIONS : list string :=
  ["COUNTRY"; "REGION"; "CATEGORY"; "PRODUCT"; "SKU"; "CUSTOMER_TYPE"; "COUPON"; "ACTION_TYPE";
   "CAMPAIGN"; "TRAFFIC_TYPE"].
Definition FORBIDDEN_CLIENT_EARNINGS_BASES : list string :=
  ["AVG_COMMISSION"; "MIN_COMMISSION"; "MAX_COMMISSION"; "CAMPAIGN_COMMISSION_SUMMARY";
   "COMMISSIONAVERAGEDISPLAY"; "COMMISSIONDISPLAY"].
Definition has (set : list string) (s : string) : bool := existsb (String.eqb s) set.

(** [{state, reason?}] *)
Inductive evaluation :=
| Match
| NoMatch
| Unknown (why : string).

Definition is_match (e : evaluation) : bool := match e with Match => true | _ => false end.
Definition is_no_match (e : evaluation) : bool := match e with NoMatch => true | _ => false end.
Definition is_unknown (e : evaluation) : bool := match e with Unknown _ => true | _ => false end.
Definition match_if (b : bool) : evaluation := if b then Match else NoMatch.

Section WithHost.
Context {H : JsHost}.

Definition normalize (value : jsval) : option string :=
  if nullish value then None else Some (to_upper (trim (js_string value))).
Definition normalizeDimension (value : jsval) : option string :=
  match normalize value with Some s => Some (squeeze sep_class false s) | None => None end.
Definition asNumber (value : jsval) : option num := finite_number value.
Definition asDate (value : jsval) : option Z := if blank value then None else new_date value.

(** A bound on the depth of [toArray]: the nodes of a value and the characters of its texts. *)
Fixpoint js_size (v : jsval) : nat :=
  match v with
  | JStr s => S (String.length s)
  | JArr l => S (fold_right (fun w n => js_size w + n)%nat O l)
  | _ => 1%nat
  end.
Fixpoint to_array (fuel : nat) (value : jsval) : list jsval :=
  match fuel with
  | O => []
  | S f =>
      if blank value then []
      else
        match value with
        | JArr l => flat_map (to_array f) l
        | JStr s =>
            let trimmed := trim s in
            if trimmed =s? "" then []
            else if starts_with "[" trimmed && ends_with "]" trimmed then
              match json_parse trimmed with
              | Some (JArr l) => flat_map (to_array f) l
              | _ => [JStr trimmed]
              end
            else [JStr trimmed]
        | _ => [value]
        end
  end.
Definition toArray (value : jsval) : list jsval := to_array (js_size value) value.

Definition option_str_eqb (a b : option string) : bool :=
  match a, b with
  | Some s, Some t => s =s? t
  | None, None => true
  | _, _ => false
  end.
Definition comparableEqual (left right : jsval) : bool :=
  match asNumber left, asNumber right with
  | Some l, Some r => neqb l r
  | _, _ => option_str_eqb (normalize left) (normalize right)
  end.

(** ** Conditions *)

Definition conditionValues (condition : jsval) : list jsval :=
  toArray (condition@."normalizedValue" ?? condition@."normalized_value" ?? condition@."value").

Definition conditionDimension (condition : jsval) : string :=
  match normalizeDimension (condition@."conditionType" ?? condition@."condition_type"
                            ?? condition@."dimension" ?? condition@."type") with
  | Some d => if d =s? "ACTION" then "ACTION_TYPE"
              else if d =s? "CUSTOM" then "CUSTOM_FIELD"
              else if d =s? "" then "CUSTOM_FIELD" else d
  | None => "CUSTOM_FIELD"
  end.

(** The fact each dimension reads. *)
Definition fact_keys : list (string * string) :=
  [("COUNTRY", "country"); ("REGION", "region"); ("CATEGORY", "category"); ("PRODUCT", "product");
   ("SKU", "sku"); ("CUSTOMER_TYPE", "customerType"); ("COUPON", "coupon"); ("ORDER_VALUE", "orderValue");
   ("QUANTITY", "quantity"); ("ACTION_TYPE", "actionType"); ("CAMPAIGN", "campaign"); ("DATE", "date");
   ("TRAFFIC_TYPE", "trafficType")].

Definition factValueForCondition (condition facts : jsval) : jsval :=
  let dimension := conditionDimension condition in
  if dimension =s? "DEFAULT" then JBool true
  else if dimension =s? "CUSTOM_FIELD" then
    let key := condition@."field" ?? condition@."key" ?? condition@."sourceConditionType"
               ?? condition@."source_condition_type" in
    if negb (truthy key) || negb (is_object facts@."customFields") then JUndef
    else prop facts@."customFields" (js_string key)
  else
    match assoc dimension fact_keys with
    | Some factKey => prop facts factKey
    | None => JUndef
    end.

(** [compareScalar] on numbers and on times. *)
Definition compareScalar {A} (ltb leb : A -> A -> bool) (actual expected : A) (operator : string) : bool :=
  if operator =s? "GT" then ltb expected actual
  else if operator =s? "GTE" then leb expected actual
  else if operator =s? "LT" then ltb actual expected
  else if operator =s? "LTE" then leb actual expected
  else false.

Definition order_operators : list string := ["GT"; "GTE"; "LT"; "LTE"].

(** [normalize(condition.operator || "EQ")] *)
Definition raw_operator (condition : jsval) : string :=
  default "" (normalize (condition@."operator" |or| JStr "EQ")).
Definition condition_operator (condition : jsval) : string :=
  if raw_operator condition =s? "" then "EQ" else raw_operator condition.

(** [normalize(a)?.test(normalize(e))]; a [null] argument is read as its text. *)
Definition text_test (test : string -> string -> bool) (actual expected : jsval) : bool :=
  match normalize actual with
  | Some a => test a (default "null" (normalize expected))
  | None => false
  end.

Definition any_pair (test : jsval -> jsval -> bool) (actuals expecteds : list jsval) : bool :=
  existsb (fun a => existsb (test a) expecteds) actuals.

Definition evaluateClientCommercialCondition (condition facts : jsval) : evaluation :=
  let dimension := conditionDimension condition in
  if dimension =s? "DEFAULT" then Match
  else
    let operator := condition_operator condition in
    let actual := factValueForCondition condition facts in
    if operator =s? "EXISTS" then match_if (negb (blank actual))
    else if operator =s? "NOT_EXISTS" then match_if (blank actual)
    else if blank actual then Unknown ("missing_fact:" +:+ dimension)
    else
      match conditionValues condition with
      | [] => Unknown ("missing_condition_value:" +:+ dimension)
      | expectedValues =>
          let actualValues := toArray actual in
          let anyEqual := any_pair comparableEqual actualValues expectedValues in
          let actual0 := nth 0 actualValues JUndef in
          let expected0 := nth 0 expectedValues JUndef in
          let expected1 := nth 1 expectedValues JUndef in
          if (operator =s? "EQ") || (operator =s? "IN") then match_if anyEqual
          else if (operator =s? "NEQ") || (operator =s? "NOT_IN") then match_if (negb anyEqual)
          else if operator =s? "CONTAINS" then
            match_if (any_pair (text_test includes) actualValues expectedValues)
          else if operator =s? "STARTS_WITH" then
            match_if (any_pair (text_test (fun a e => starts_with e a)) actualValues expectedValues)
          else if (dimension =s? "DATE") && has order_operators operator then
            match asDate actual0, asDate expected0 with
            | Some a, Some e => match_if (compareScalar Z.ltb Z.leb a e operator)
            | _, _ => Unknown "invalid_date_comparison:DATE"
            end
          else if (dimension =s? "DATE") && (operator =s? "BETWEEN") then
            match asDate actual0, asDate expected0, asDate expected1 with
            | Some time, Some lo, Some hi => match_if ((lo <=? time) && (time <=? hi))
            | _, _, _ => Unknown "invalid_between:DATE"
            end
          else if has order_operators operator then
            match asNumber actual0, asNumber expected0 with
            | Some a, Some e => match_if (compareScalar nltb nleb a e operator)
            | _, _ => Unknown ("non_numeric_comparison:" +:+ dimension)
            end
          else if operator =s? "BETWEEN" then
            match asNumber actual0, asNumber expected0, asNumber expected1 with
            | Some a, Some lo, Some hi => match_if (nleb lo a && nleb a hi)
            | _, _, _ => Unknown ("invalid_between:" +:+ dimension)
            end
          else Unknown ("unsupported_operator:" +:+ operator)
      end.

(** ** Condition groups *)

Definition groupKey (condition : jsval) : string :=
  let dimension := conditionDimension condition in
  if negb (dimension =s? "CUSTOM_FIELD") then dimension
  else dimension +:+ ":" +:+ js_string (condition@."field" ?? condition@."key"
                                        ?? condition@."sourceConditionType" ?? JStr "UNKNOWN").

(** [groups.set(key, [...groups.get(key) || [], condition])]: a map in insertion order. *)
Fixpoint add_to_group (key : string) (condition : jsval) (groups : list (string * list jsval))
  : list (string * list jsval) :=
  match groups with
  | [] => [(key, [condition])]
  | (k, l) :: rest => if k =s? key then (k, l ++ [condition]) :: rest
                      else (k, l) :: add_to_group key condition rest
  end.
Definition group_conditions (conditions : list jsval) : list (string * list jsval) :=
  fold_left (fun groups c => add_to_group (groupKey c) c groups) conditions [].

Fixpoint find_unknown (l : list evaluation) : option evaluation :=
  match l with
  | [] => None
  | e :: rest => if is_unknown e then Some e else find_unknown rest
  end.

Definition evaluateConditionGroup (conditions : list jsval) (facts : jsval) : evaluation :=
  let dimension := conditionDimension (nth 0 conditions JUndef) in
  let alternatives :=
    has SET_LIKE_DIMENSIONS dimension
    && forallb (fun c => (raw_operator c =s? "EQ") || (raw_operator c =s? "IN")) conditions in
  let evaluations := map (fun c => evaluateClientCommercialCondition c facts) conditions in
  if alternatives then
    if existsb is_match evaluations then Match else default NoMatch (find_unknown evaluations)
  else if existsb is_no_match evaluations then NoMatch
  else default Match (find_unknown evaluations).

(** ** Rules *)

Definition ruleCalculationBasis (rule : jsval) : option string :=
  normalizeDimension (rule@."calculationBasis" ?? rule@."calculation_basis"
                      ?? rule@."payoutBasis" ?? rule@."payout_basis").
Definition ruleHasForbiddenSummaryBasis (rule : jsval) : bool :=
  match ruleCalculationBasis rule with
  | Some basis => has FORBIDDEN_CLIENT_EARNINGS_BASES basis
  | None => false
  end.

Inductive state3 := MATCH | NO_MATCH | UNKNOWN.
Record rule_evaluation := RuleEvaluation {
  state : state3; specificity : nat; isDefault : bool; reasons : list string
}.

(** The loop over [groups.values()]. *)
Fixpoint scan_groups (size : nat) (groups : list (string * list jsval)) (facts : jsval)
    (unknown : bool) (reasons : list string) : rule_evaluation :=
  match groups with
  | [] => RuleEvaluation (if unknown then UNKNOWN else MATCH) size false reasons
  | (_, group) :: rest =>
      match evaluateConditionGroup group facts with
      | NoMatch => RuleEvaluation NO_MATCH size false reasons
      | Unknown why => scan_groups size rest facts true
                         (if why =s? "" then reasons else reasons ++ [why])
      | Match => scan_groups size rest facts unknown reasons
      end
  end.

Definition rule_conditions (rule : jsval) : list jsval :=
  List.filter (fun c => negb (conditionDimension c =s? "DEFAULT")) (as_array rule@."conditions").

Definition evaluateClientCommercialRule (rule facts : jsval) : rule_evaluation :=
  if ruleHasForbiddenSummaryBasis rule then
    RuleEvaluation UNKNOWN 0 false
      ["forbidden_client_earnings_basis:" +:+ default "" (ruleCalculationBasis rule)]
  else
    match rule_conditions rule with
    | [] => RuleEvaluation MATCH 0 true []
    | nonDefault =>
        let groups := group_conditions nonDefault in
        scan_groups (length groups) groups facts false []
    end.

(** ** Effective window *)

Inductive window := Active | Inactive (reason : string) | WindowReview (reason : string).

Definition classifyRuleWindow (rule at_ : jsval) : window :=
  match new_date at_ with
  | None => WindowReview "invalid_match_date"
  | Some now =>
      if truthy rule@."status" && negb (option_str_eqb (normalize rule@."status") (Some "EFFECTIVE"))
      then Inactive "rule_not_effective"
      else
        let fromRaw := rule@."effectiveFrom" ?? rule@."effective_from" in
        let untilRaw := rule@."effectiveUntil" ?? rule@."effective_until" in
        let from := if truthy fromRaw then asDate fromRaw else None in
        let until := if truthy untilRaw then asDate untilRaw else None in
        if (truthy fromRaw && negb (bool_decide (is_Some from)))
           || (truthy untilRaw && negb (bool_decide (is_Some until)))
        then WindowReview "invalid_effective_window"
        else if match from, until with Some f, Some u => u <=? f | _, _ => false end
        then WindowReview "invalid_effective_window"
        else if match from with Some f => now <? f | None => false end then Inactive "future_rule"
        else if match until with Some u => u <=? now | None => false end then Inactive "expired_rule"
        else Active
  end.

(** ** Precedence *)

Record candidate := Candidate { c_rule : jsval; c_eval : rule_evaluation }.

(** [LOWER_FIRST] or not, and the score. *)
Definition verifiedPriority (rule : jsval) : option (bool * num) :=
  let metadata := if is_object rule@."metadata" then rule@."metadata" else JObj [] in
  let verified := is_true metadata@."clientPrecedenceVerified" || is_true metadata@."precedenceVerified"
                  || is_true rule@."priorityVerified" in
  if negb verified then None
  else
    match asNumber (rule@."priority" ?? metadata@."priority") with
    | None => None
    | Some priority =>
        let direction := normalize (metadata@."precedenceDirection" ?? rule@."precedenceDirection"
                                    ?? JStr "LOWER_FIRST") in
        if option_str_eqb direction (Some "LOWER_FIRST") then Some (true, nneg priority)
        else if option_str_eqb direction (Some "HIGHER_FIRST") then Some (false, priority)
        else None
    end.

Definition chooseByVerifiedPriority (candidates : list candidate) : option candidate :=
  match candidates with
  | [] => None
  | [c] => Some c
  | _ =>
      match mapM (fun c => verifiedPriority (c_rule c)) candidates with
      | None => None
      | Some resolved =>
          if existsb fst resolved && existsb (fun p => negb p.1) resolved then None
          else
            let bestScore := max_num (map snd resolved) in
            the_only (omap (fun pc => if neqb pc.1.2 bestScore then Some pc.2 else None)
                        (zip resolved candidates))
      end
  end.

Definition max_specificity (candidates : list candidate) : nat :=
  fold_left (fun m c => Nat.max m (specificity (c_eval c))) candidates 0%nat.
Definition chooseBySpecificity (candidates : list candidate) : option candidate :=
  the_only (List.filter (fun c => (specificity (c_eval c) =? max_specificity candidates)%nat) candidates).

(** ** Selection *)

Record match_result := MatchResult {
  m_status : string;
  m_reason : string;
  matchedRule : option jsval;
  matchedClientCommissionRuleId : jsval;
  m_specificity : option nat;
  candidateRuleIds : list jsval;
  reviewReasons : list string
}.

Definition unique_texts (l : list string) : list string :=
  fold_left (fun acc s => if (s =s? "") || has acc s then acc else acc ++ [s]) l [].
Definition rule_ids (rules : list jsval) : list jsval :=
  List.filter truthy (map (fun r => r@."id") rules).
Definition reviewResult (why : string) (rules : list jsval) (reviewReasons : list string) : match_result :=
  MatchResult "REVIEW_REQUIRED" why None JNull None (rule_ids rules) (unique_texts reviewReasons).

Definition in_scope (assignmentId rule : jsval) : bool :=
  negb (truthy assignmentId) || negb (truthy rule@."assignmentId")
  || (js_string rule@."assignmentId" =s? js_string assignmentId).

Definition window_reviews (at_ : jsval) (rules : list jsval) : list (jsval * string) :=
  omap (fun r => match classifyRuleWindow r at_ with WindowReview why => Some (r, why) | _ => None end) rules.
Definition active_rules (at_ : jsval) (rules : list jsval) : list jsval :=
  List.filter (fun r => match classifyRuleWindow r at_ with Active => true | _ => false end) rules.

Definition has_state (s : state3) (e : rule_evaluation) : bool :=
  match s, state e with
  | MATCH, MATCH | NO_MATCH, NO_MATCH | UNKNOWN, UNKNOWN => true
  | _, _ => false
  end.
Definition specific_in (s : state3) (c : candidate) : bool :=
  negb (isDefault (c_eval c)) && has_state s (c_eval c).
Definition default_match (c : candidate) : bool := isDefault (c_eval c) && has_state MATCH (c_eval c).

Definition matched (selected : candidate) : match_result :=
  MatchResult "MATCHED" (if isDefault (c_eval selected) then "default_rule" else "specific_rule")
    (Some (c_rule selected)) ((c_rule selected)@."id" ?? JNull) (Some (specificity (c_eval selected)))
    (rule_ids [c_rule selected]) [].
Definition no_match_result : match_result :=
  MatchResult "NO_MATCH" "no_client_commercial_rule_matched" None JNull None [] [].

(** Lines 436-486: the choice among the evaluated active rules. *)
Definition select_rule (evaluated : list candidate) : match_result :=
  let specificMatches := List.filter (specific_in MATCH) evaluated in
  let specificUnknown := List.filter (specific_in UNKNOWN) evaluated in
  let defaults := List.filter default_match evaluated in
  match specificUnknown, specificMatches, defaults with
  | _ :: _, _, _ =>
      reviewResult "specific_client_rule_missing_or_unverified_facts" (map c_rule specificUnknown)
        (flat_map (fun c => reasons (c_eval c)) specificUnknown)
  | [], _ :: _, _ =>
      match chooseByVerifiedPriority specificMatches with
      | Some selected => matched selected
      | None =>
          match chooseBySpecificity specificMatches with
          | Some selected => matched selected
          | None => reviewResult "ambiguous_client_commercial_rules" (map c_rule specificMatches) []
          end
      end
  | [], [], [selected] => matched selected
  | [], [], _ :: _ =>
      match chooseByVerifiedPriority defaults with
      | Some selected => matched selected
      | None => reviewResult "ambiguous_default_client_rules" (map c_rule defaults) []
      end
  | [], [], [] => no_match_result
  end.

Record match_args := MatchArgs {
  rules : jsval; facts : jsval; attributionResolved : jsval; attributionStatus : jsval;
  assignmentId : jsval; at_ : jsval
}.

Definition scoped_rules (a : match_args) : list jsval :=
  List.filter (in_scope (assignmentId a)) (as_array (rules a)).
(** [at = facts.date ?? new Date()] when no instant is given. *)
Definition match_instant (now : Z) (a : match_args) : jsval :=
  if is_undef (at_ a) then (facts a)@."date" ?? JDate (Some now) else at_ a.
Definition attribution_open (a : match_args) : bool :=
  negb (truthy (attributionResolved a))
  || match normalize (attributionStatus a) with
     | Some s => has ["REVIEW_REQUIRED"; "UNRESOLVED"; "AMBIGUOUS"; "NO_MATCH"] s
     | None => false
     end.

Definition evaluate_candidate (facts rule : jsval) : candidate :=
  Candidate rule (evaluateClientCommercialRule rule facts).

Definition matchClientCommercialRule (now : Z) (a : match_args) : match_result :=
  if attribution_open a then reviewResult "attribution_unresolved" [] []
  else
    let at_ := match_instant now a in
    match window_reviews at_ (scoped_rules a) with
    | (_ :: _) as invalid =>
        reviewResult "invalid_client_rule_window" (map fst invalid) (map snd invalid)
    | [] => select_rule (map (evaluate_candidate (facts a)) (active_rules at_ (scoped_rules a)))
    end.

(** ** Facts *)

Fixpoint firstDefined (values : list jsval) : jsval :=
  match values with
  | [] => JUndef
  | v :: rest => if blank v then firstDefined rest else v
  end.
Definition metadata (record : jsval) : jsval :=
  if is_object record@."metadata" then record@."metadata" else JObj [].

Definition buildClientCommercialFacts (order conversion item assignment campaign overrides : jsval) : jsval :=
  let om := metadata order in let cm := metadata conversion in let im := metadata item in
  let am := metadata assignment in let pm := metadata campaign in
  JObj
    [("country", firstDefined [overrides@."country"; om@."country"; cm@."country"; im@."country"]);
     ("region", firstDefined [overrides@."region"; om@."region"; cm@."region"; im@."region"]);
     ("category", firstDefined [overrides@."category"; item@."category"; im@."category"; campaign@."category";
                                pm@."category"; om@."category"; cm@."category"]);
     ("product", firstDefined [overrides@."product"; item@."productName"; im@."product"; cm@."product"; om@."product"]);
     ("sku", firstDefined [overrides@."sku"; item@."sku"; im@."sku"; cm@."sku"]);
     ("customerType", firstDefined [overrides@."customerType"; om@."customerType"; om@."customer_type";
                                    cm@."customerType"; cm@."customer_type"]);
     ("coupon", firstDefined [overrides@."coupon"; om@."coupon"; om@."couponCode"; cm@."coupon"; cm@."couponCode"]);
     ("orderValue", firstDefined [overrides@."orderValue"; order@."orderValue"; cm@."orderValue"; cm@."order_value";
                                  cm@."saleAmount"; cm@."sales_amount"]);
     ("quantity", firstDefined [overrides@."quantity"; item@."quantity"; im@."quantity"; om@."quantity"]);
     ("actionType", firstDefined [overrides@."actionType"; cm@."actionType"; cm@."action_type"; cm@."action";
                                  om@."actionType"]);
     ("campaign", firstDefined [overrides@."campaign"; assignment@."canonicalCampaignId"; campaign@."id";
                                campaign@."displayName"; am@."campaign"]);
     ("date", firstDefined [overrides@."date"; order@."orderDate"; conversion@."conversionDate"]);
     ("trafficType", firstDefined [overrides@."trafficType"; cm@."trafficType"; cm@."traffic_type"; om@."trafficType"]);
     ("customFields", overrides@."customFields" ?? JObj [])].

End WithHost.
End ClientMatcher.

Module ClientMatchFacts.
Import ClientMatcher.
Section WithHost.
Context {H : JsHost}.

(** ** Operators *)

Definition negate (e : evaluation) : evaluation :=
  match e with Match => NoMatch | NoMatch => Match | Unknown why => Unknown why end.
Definition with_operator (condition : jsval) (op : string) : jsval :=
  with_prop condition "operator" (JStr op).

Lemma negate_match_if b : negate (match_if b) = match_if (negb b).
Proof. now destruct b. Qed.

Lemma with_operator_dimension c op : conditionDimension (with_operator c op) = conditionDimension c.
Proof. unfold conditionDimension, with_operator. now rewrite !prop_with_prop_ne by reflexivity. Qed.
Lemma with_operator_values c op : conditionValues (with_operator c op) = conditionValues c.
Proof. unfold conditionValues, with_operator. now rewrite !prop_with_prop_ne by reflexivity. Qed.
Lemma with_operator_fact c op facts :
  factValueForCondition (with_operator c op) facts = factValueForCondition c facts.
Proof.
  unfold factValueForCondition. rewrite with_operator_dimension. unfold with_operator.
  now rewrite !prop_with_prop_ne by reflexivity.
Qed.

(** An operator name as it is stored: upper case, no outer space, not empty. *)
Definition plain_operator (op : string) : bool := (to_upper (trim op) =s? op) && negb (op =s? "").

Lemma with_operator_operator c op : plain_operator op = true -> condition_operator (with_operator c op) = op.
Proof.
  unfold plain_operator. intros [Hup Hne]%andb_true_iff. apply String.eqb_eq in Hup.
  unfold condition_operator, raw_operator, with_operator.
  rewrite prop_with_prop_eq. unfold js_or, normalize. cbn [truthy]. rewrite Hne.
  cbn [nullish js_string from_option id]. rewrite Hup.
  apply negb_true_iff in Hne. now rewrite Hne.
Qed.

(** Complementary operators give complementary verdicts, and the same verdict when the
    facts or the condition value are missing: absence never satisfies a negation. *)
Theorem operators_complementary c facts op nop :
  (op, nop) ∈ [("EQ", "NEQ"); ("IN", "NOT_IN"); ("EXISTS", "NOT_EXISTS")] ->
  conditionDimension c <> "DEFAULT" ->
  evaluateClientCommercialCondition (with_operator c nop) facts =
  negate (evaluateClientCommercialCondition (with_operator c op) facts).
Proof.
  intros Hop Hdim. unfold evaluateClientCommercialCondition.
  rewrite !with_operator_dimension, !with_operator_fact, !with_operator_values.
  destruct (conditionDimension c =s? "DEFAULT") eqn:E; [apply String.eqb_eq in E; contradiction|].
  assert (Hplain : plain_operator op = true /\ plain_operator nop = true)
    by (rewrite !elem_of_cons, elem_of_nil in Hop;
        destruct Hop as [[= -> ->]|[[= -> ->]|[[= -> ->]|[]]]]; split; reflexivity).
  rewrite !with_operator_operator by apply Hplain.
  rewrite !elem_of_cons, elem_of_nil in Hop.
  destruct Hop as [[= -> ->]|[[= -> ->]|[[= -> ->]|[]]]]; cbn [String.eqb Ascii.eqb Bool.eqb];
    [destruct (blank _); [reflexivity|]; destruct (conditionValues c); [reflexivity|];
     cbn [orb]; now rewrite negate_match_if .. |].
  cbn. now rewrite negate_match_if, negb_involutive.
Qed.

(** ** Precedence *)

Definition priority_of (c : candidate) : option (bool * num) := verifiedPriority (c_rule c).
Definition prioritised (c : candidate) : bool := bool_decide (is_Some (priority_of c)).
Definition lower_first (c : candidate) : bool := (default (true, NaN) (priority_of c)).1.
Definition score (c : candidate) : num := (default (true, NaN) (priority_of c)).2.
(** Every candidate has a verified priority, all in one direction. *)
Definition comparable (l : list candidate) : bool :=
  forallb prioritised l && negb (existsb lower_first l && existsb (fun c => negb (lower_first c)) l).

Lemma mapM_priority l :
  mapM (fun c => verifiedPriority (c_rule c)) l =
  if forallb prioritised l then Some (map (fun c => default (true, NaN) (priority_of c)) l) else None.
Proof.
  induction l as [|c l IH]; [reflexivity|]. cbn [mapM forallb map]. rewrite IH.
  replace (prioritised c) with (match priority_of c with Some _ => true | None => false end)
    by (unfold prioritised; destruct (priority_of c); reflexivity).
  change (verifiedPriority (c_rule c)) with (priority_of c).
  destruct (priority_of c); [|reflexivity]. now destruct (forallb prioritised l).
Qed.

Lemma existsb_map {A B} (f : A -> B) p l : existsb p (map f l) = existsb (fun x => p (f x)) l.
Proof. induction l as [|x l IH]; cbn; [reflexivity|now rewrite IH]. Qed.

Lemma winners_filter best l :
  omap (fun pc : (bool * num) * candidate => if neqb pc.1.2 best then Some pc.2 else None)
       (zip (map (fun c => default (true, NaN) (priority_of c)) l) l)
  = List.filter (fun c => neqb (score c) best) l.
Proof.
  induction l as [|c l IH]; [reflexivity|].
  cbn [map zip zip_with omap list_omap List.filter fst snd]. fold (score c).
  destruct (neqb (score c) best); [|exact IH]. now rewrite <- IH.
Qed.

(** [chooseByVerifiedPriority] as a condition on the set of candidates. *)
Lemma choose_priority_eq l :
  (2 <= length l)%nat ->
  chooseByVerifiedPriority l =
  if comparable l then best_of score l else None.
Proof.
  intros Hlen. unfold chooseByVerifiedPriority, comparable.
  destruct l as [|c1 [|c2 l]]; cbn in Hlen; try lia. set (cs := c1 :: c2 :: l).
  rewrite mapM_priority. destruct (forallb prioritised cs); [|reflexivity]. cbn [andb].
  rewrite !existsb_map. fold lower_first. change (fun x : candidate => negb (default (true, NaN) (priority_of x)).1)
    with (fun c => negb (lower_first c)).
  change (fun x : candidate => (default (true, NaN) (priority_of x)).1) with lower_first.
  destruct (_ && _); [reflexivity|]. cbn [negb]. rewrite map_map.
  rewrite winners_filter. reflexivity.
Qed.

Lemma verifiedPriority_not_nan r b x : verifiedPriority r = Some (b, x) -> is_nan x = false.
Proof.
  unfold verifiedPriority, asNumber, finite_number. intros E.
  repeat case_match; simplify_eq; match goal with Hf : is_finite ?p = true |- _ => destruct p end;
    (discriminate || reflexivity).
Qed.

Lemma scores_not_nan l : comparable l = true -> Forall (fun x => is_nan x = false) (map score l).
Proof.
  intros [Hall _]%andb_true_iff. apply Forall_forall. intros x (c & -> & Hc)%list_elem_of_fmap.
  rewrite forallb_forall in Hall. specialize (Hall c (proj1 (list_elem_of_In _ _) Hc)).
  unfold prioritised in Hall. apply bool_decide_eq_true in Hall as [[b y] Hp].
  unfold score. rewrite Hp. cbn. eapply verifiedPriority_not_nan; exact Hp.
Qed.

#[export] Instance comparable_perm : Proper (Permutation ==> eq) comparable.
Proof. intros l l' Hp. unfold comparable. now rewrite Hp. Qed.

Lemma choose_priority_perm l l' : Permutation l l' -> chooseByVerifiedPriority l = chooseByVerifiedPriority l'.
Proof.
  intros Hp. destruct (decide (2 <= length l)%nat) as [Hlen|Hlen].
  - rewrite (choose_priority_eq l Hlen), (choose_priority_eq l') by (now rewrite <- Hp).
    rewrite <- (comparable_perm _ _ Hp). destruct (comparable l) eqn:Hc; [|reflexivity].
    apply best_of_perm; [exact Hp|now apply scores_not_nan].
  - pose proof (Permutation_length Hp).
    destruct l as [|c [|]], l' as [|c' [|]]; cbn in *; try lia; [reflexivity|].
    apply Permutation_length_1 in Hp. now subst.
Qed.

Lemma max_specificity_spec l m0 :
  let m := fold_left (fun m c => Nat.max m (specificity (c_eval c))) l m0 in
  (m0 <= m)%nat /\ Forall (fun c => (specificity (c_eval c) <= m)%nat) l /\
  (m = m0 \/ Exists (fun c => specificity (c_eval c) = m) l).
Proof.
  revert m0. induction l as [|c l IH]; intros m0; cbn; [split_and!; auto|].
  destruct (IH (Nat.max m0 (specificity (c_eval c)))) as (Hle & Hall & Hor).
  split_and!; [lia|constructor; [lia|exact Hall]|].
  destruct Hor as [Heq|Hex]; [|right; now right].
  destruct (Nat.max_spec m0 (specificity (c_eval c))) as [[_ E]|[_ E]]; [right; left; lia|left; lia].
Qed.

Lemma max_specificity_perm l l' : Permutation l l' -> max_specificity l = max_specificity l'.
Proof.
  intros Hp. unfold max_specificity.
  destruct (max_specificity_spec l 0) as (_ & Ha & Ho), (max_specificity_spec l' 0) as (_ & Ha' & Ho').
  set (m := fold_left _ l 0%nat) in *. set (m' := fold_left _ l' 0%nat) in *.
  rewrite Hp in Ha, Ho. rewrite Forall_forall in Ha, Ha'. rewrite Exists_exists in Ho, Ho'.
  assert (m <= m')%nat by (destruct Ho as [->|(c & Hc & <-)]; [lia|auto]).
  assert (m' <= m)%nat by (destruct Ho' as [->|(c & Hc & <-)]; [lia|auto]). lia.
Qed.

Lemma choose_specificity_perm l l' : Permutation l l' -> chooseBySpecificity l = chooseBySpecificity l'.
Proof.
  intros Hp. unfold chooseBySpecificity. rewrite (max_specificity_perm _ _ Hp). now rewrite Hp.
Qed.

(** The winner of a choice beats every other candidate strictly. *)
Definition beats (l : list candidate) (c d : candidate) : Prop :=
  (comparable l = true /\ nltb (score d) (score c) = true) \/
  (specificity (c_eval d) < specificity (c_eval c))%nat.

Lemma choose_specificity_most l c :
  chooseBySpecificity l = Some c ->
  c ∈ l /\ forall d, d ∈ l -> d <> c -> (specificity (c_eval d) < specificity (c_eval c))%nat.
Proof.
  intros Hc%filter_only. destruct Hc as (Hin & Hmax & Huniq). split; [exact Hin|].
  intros d Hd Hne. apply Nat.eqb_eq in Hmax.
  destruct (max_specificity_spec l 0) as (_ & Hall & _). rewrite Forall_forall in Hall.
  fold (max_specificity l) in Hall. specialize (Hall d Hd).
  destruct (decide (specificity (c_eval d) = max_specificity l)) as [E|]; [|lia].
  destruct Hne. apply Huniq; [exact Hd|]. now apply Nat.eqb_eq.
Qed.

Lemma choose_specificity_beats l c :
  chooseBySpecificity l = Some c -> c ∈ l /\ forall d, d ∈ l -> d <> c -> beats l c d.
Proof. intros [Hin Hmost]%choose_specificity_most. split; [exact Hin|]. intros d Hd Hne. right. auto. Qed.

Lemma choose_priority_beats l c :
  chooseByVerifiedPriority l = Some c -> c ∈ l /\ forall d, d ∈ l -> d <> c -> beats l c d.
Proof.
  intros Hc. destruct (decide (2 <= length l)%nat) as [Hlen|Hlen].
  2: { destruct l as [|c' [|]]; cbn in *; try lia; [discriminate|]. injection Hc as ->.
       split; [now left|]. intros d ->%list_elem_of_singleton. contradiction. }
  rewrite (choose_priority_eq l Hlen) in Hc. destruct (comparable l) eqn:Hcmp; [|discriminate].
  apply best_of_beats in Hc as [Hin Hbeat]; [|now apply scores_not_nan]. split; [exact Hin|]. intros d Hd Hne. left. auto.
Qed.

(** ** Selection *)

Definition contenders (now : Z) (a : match_args) : list candidate :=
  map (evaluate_candidate (facts a)) (active_rules (match_instant now a) (scoped_rules a)).

(** What a selected candidate satisfies among the evaluated ones. *)
Definition selection_ok (evaluated : list candidate) (c : candidate) : Prop :=
  c ∈ evaluated /\ state (c_eval c) = MATCH /\
  (forall d, d ∈ evaluated -> isDefault (c_eval d) = false -> state (c_eval d) <> UNKNOWN) /\
  (isDefault (c_eval c) = true ->
     forall d, d ∈ evaluated -> isDefault (c_eval d) = false -> state (c_eval d) <> MATCH) /\
  (forall d, d ∈ evaluated -> isDefault (c_eval d) = isDefault (c_eval c) ->
     state (c_eval d) = MATCH -> d <> c ->
     exists rivals, d ∈ rivals /\ c ∈ rivals /\ beats rivals c d).

Lemma has_state_spec s e : has_state s e = true <-> state e = s.
Proof. unfold has_state. destruct s, (state e); split; (discriminate || reflexivity). Qed.

Lemma specific_in_spec s c : specific_in s c = true <-> isDefault (c_eval c) = false /\ state (c_eval c) = s.
Proof. unfold specific_in. now rewrite andb_true_iff, negb_true_iff, has_state_spec. Qed.
Lemma default_match_spec c : default_match c = true <-> isDefault (c_eval c) = true /\ state (c_eval c) = MATCH.
Proof. unfold default_match. now rewrite andb_true_iff, has_state_spec. Qed.

Lemma select_rule_ok evaluated :
  m_status (select_rule evaluated) = "MATCHED" ->
  exists c, select_rule evaluated = matched c /\ selection_ok evaluated c.
Proof.
  unfold select_rule, selection_ok.
  destruct (List.filter (specific_in UNKNOWN) evaluated) as [|u us] eqn:EU; [|discriminate].
  assert (Hunk : forall d, d ∈ evaluated -> isDefault (c_eval d) = false -> state (c_eval d) <> UNKNOWN)
    by (intros d Hd ? ?; eapply (filter_nil _ _ EU d Hd), specific_in_spec; auto).
  destruct (List.filter (specific_in MATCH) evaluated) as [|s ss] eqn:ES.
  - assert (Hnone : forall d, d ∈ evaluated -> isDefault (c_eval d) = false -> state (c_eval d) <> MATCH)
      by (intros d Hd ? ?; eapply (filter_nil _ _ ES d Hd), specific_in_spec; auto).
    destruct (List.filter default_match evaluated) as [|d ds] eqn:ED; [discriminate|].
    assert (Hmem : forall x, x ∈ d :: ds <-> x ∈ evaluated /\ isDefault (c_eval x) = true /\ state (c_eval x) = MATCH)
      by (intros x; now rewrite <- ED, elem_of_filter_bool, default_match_spec).
    intros Hst. assert (Hch : exists c, chooseByVerifiedPriority (d :: ds) = Some c /\
      match ds with [] => matched d | _ => match chooseByVerifiedPriority (d :: ds) with Some c => matched c
        | None => reviewResult "ambiguous_default_client_rules" (map c_rule (d :: ds)) [] end end = matched c).
    { destruct ds as [|d2 ds]; [exists d; split; reflexivity|]. destruct (chooseByVerifiedPriority _) as [c|]; [eauto|discriminate Hst]. }
    destruct Hch as (c & Hc & Heq). exists c. split; [destruct ds; exact Heq|].
    apply choose_priority_beats in Hc as [Hin Hbeat]. apply Hmem in Hin as Hin'. destruct Hin' as (? & Hdef & ?).
    split_and!; auto. rewrite Hdef. intros e He Hed Hem Hne. exists (d :: ds). split_and!; auto.
    + apply Hmem; auto.
    + apply Hbeat; auto. apply Hmem; auto.
  - assert (Hmem : forall x, x ∈ s :: ss <-> x ∈ evaluated /\ isDefault (c_eval x) = false /\ state (c_eval x) = MATCH)
      by (intros x; now rewrite <- ES, elem_of_filter_bool, specific_in_spec).
    assert (Hok : forall c, c ∈ s :: ss /\ (forall d, d ∈ s :: ss -> d <> c -> beats (s :: ss) c d) ->
      exists c', matched c = matched c' /\ selection_ok evaluated c').
    { intros c [Hin Hbeat]. exists c. split; [reflexivity|]. apply Hmem in Hin as Hin'.
      destruct Hin' as (? & Hdef & ?). split_and!; auto; [rewrite Hdef; discriminate|].
      rewrite Hdef. intros e He Hed Hem Hne. exists (s :: ss). split_and!; auto.
      - apply Hmem; auto.
      - apply Hbeat; auto. apply Hmem; auto. }
    destruct (chooseByVerifiedPriority (s :: ss)) as [c|] eqn:Ec.
    { intros _. apply Hok. now apply choose_priority_beats. }
    destruct (chooseBySpecificity (s :: ss)) as [c|] eqn:Ec'; [|discriminate].
    intros _. apply Hok. now apply choose_specificity_beats.
Qed.

Lemma window_reviews_nil at0 rs r why :
  window_reviews at0 rs = [] -> r ∈ rs -> classifyRuleWindow r at0 <> WindowReview why.
Proof.
  unfold window_reviews. intros Hnil Hr Hw.
  assert (Hin : (r, why) ∈ omap (fun r => match classifyRuleWindow r at0 with
     | WindowReview why => Some (r, why) | _ => None end) rs)
    by (apply list_elem_of_omap; exists r; split; [exact Hr|now rewrite Hw]).
  rewrite Hnil in Hin. now apply not_elem_of_nil in Hin.
Qed.

Lemma contenders_inv now a c :
  c ∈ contenders now a ->
  c_rule c ∈ as_array (rules a) /\ in_scope (assignmentId a) (c_rule c) = true /\
  classifyRuleWindow (c_rule c) (match_instant now a) = Active /\
  c_eval c = evaluateClientCommercialRule (c_rule c) (facts a).
Proof.
  intros (r & -> & Hr)%list_elem_of_fmap. cbn [evaluate_candidate c_rule c_eval].
  apply elem_of_filter_bool in Hr as [Hr Hw]. apply elem_of_filter_bool in Hr as [Hr Hs].
  destruct (classifyRuleWindow r _); try discriminate. auto.
Qed.

Lemma match_sound_lemma now a rule :
  matchedRule (matchClientCommercialRule now a) = Some rule ->
  attribution_open a = false /\
  (forall r why, r ∈ scoped_rules a -> classifyRuleWindow r (match_instant now a) <> WindowReview why) /\
  rule ∈ as_array (rules a) /\ in_scope (assignmentId a) rule = true /\
  classifyRuleWindow rule (match_instant now a) = Active /\
  selection_ok (contenders now a) (evaluate_candidate (facts a) rule).
Proof.
  unfold matchClientCommercialRule. destruct (attribution_open a); [discriminate|].
  destruct (window_reviews _ _) as [|w ws] eqn:Ew; [|discriminate]. fold (contenders now a). intros Hsel.
  assert (Hst : m_status (select_rule (contenders now a)) = "MATCHED").
  { revert Hsel. unfold select_rule. repeat case_match; (discriminate || reflexivity). }
  destruct (select_rule_ok _ Hst) as (c & Heq & Hok). rewrite Heq in Hsel. injection Hsel as <-.
  assert (Hc : evaluate_candidate (facts a) (c_rule c) = c).
  { destruct (contenders_inv now a c (proj1 Hok)) as (_ & _ & _ & He). destruct c; cbn in *.
    unfold evaluate_candidate. now rewrite He. }
  rewrite Hc. destruct (contenders_inv now a c (proj1 Hok)) as (? & ? & ? & _).
  split_and!; auto. intros r why Hr. eapply window_reviews_nil; eauto.
Qed.


(** The verdict of a selection, without the diagnostic lists. *)
Definition verdict (r : match_result) : string * string * option jsval * jsval * option nat :=
  (m_status r, m_reason r, matchedRule r, matchedClientCommissionRuleId r, m_specificity r).

Lemma select_rule_perm l l' : Permutation l l' -> verdict (select_rule l) = verdict (select_rule l').
Proof.
  intros Hp. unfold select_rule.
  pose proof (filter_bool_perm (specific_in UNKNOWN) _ _ Hp) as HU.
  pose proof (filter_bool_perm (specific_in MATCH) _ _ Hp) as HS.
  pose proof (filter_bool_perm default_match _ _ Hp) as HD.
  rewrite (choose_priority_perm _ _ HS), (choose_specificity_perm _ _ HS), (choose_priority_perm _ _ HD).
  pose proof (Permutation_length HU). pose proof (Permutation_length HS). pose proof (Permutation_length HD).
  destruct (List.filter (specific_in UNKNOWN) l), (List.filter (specific_in UNKNOWN) l'); try discriminate; [|reflexivity].
  destruct (List.filter (specific_in MATCH) l), (List.filter (specific_in MATCH) l'); try discriminate.
  - destruct (List.filter default_match l) as [|d [|]], (List.filter default_match l') as [|d' [|]];
      try discriminate; try reflexivity.
    + apply Permutation_length_1 in HD. now subst.
    + destruct (chooseByVerifiedPriority _); reflexivity.
  - destruct (chooseByVerifiedPriority _); [reflexivity|]. destruct (chooseBySpecificity _); reflexivity.
Qed.

(** Selection is deterministic in the set of rules: their order in the array does not matter. *)
Theorem match_order_independent now a rules' :
  Permutation (as_array (rules a)) rules' ->
  verdict (matchClientCommercialRule now a) =
  verdict (matchClientCommercialRule now
    (MatchArgs (JArr rules') (facts a) (attributionResolved a) (attributionStatus a) (assignmentId a) (at_ a))).
Proof.
  intros Hp. unfold matchClientCommercialRule, scoped_rules, attribution_open, match_instant, window_reviews, active_rules.
  cbn [rules facts attributionResolved attributionStatus assignmentId at_ as_array].
  destruct (_ || _)%bool; [reflexivity|].
  pose proof (filter_bool_perm (in_scope (assignmentId a)) _ _ Hp) as Hs.
  set (at0 := if is_undef _ then _ else _).
  pose proof (omap_Permutation (fun r => match classifyRuleWindow r at0 with
    | WindowReview why => Some (r, why) | _ => None end) _ _ Hs) as Hw.
  pose proof (Permutation_length Hw) as Hlen.
  destruct (omap _ (List.filter _ (as_array (rules a)))), (omap _ (List.filter _ rules')); try discriminate; [|reflexivity].
  apply select_rule_perm, Permutation_map. now rewrite Hs.
Qed.
End WithHost.
End ClientMatchFacts.
