(* ===== verification/SupplierMatch.v ===== *)
(** * Supplier rule selection and the expected commission

    [modules/commercial/supplierCommissionMatcher.js]: the supplier-side twin of
    [ClientMatch].  It selects the supplier rule of a transaction among the rules that are
    ready for finance, calculates the commission the supplier should pay and compares it
    with what the network reported.  Whether a rule is ready
    ([supplierCommissionReadiness.js]) is the interface [ReadinessAssessment], implemented in [Readiness].  Three-valued
    evaluations, rule evaluations and candidates are those of [ClientMatch]. *)

From Stdlib Require Import SpecFloat.
From S2P Require Import Prelude JsNum JsOrder JsVal JsDate JsJson ClientMatch.
Local Open Scope Z_scope.

(** What the matcher reads of an assessment: the decision and its reasons. *)
Record readiness := Readiness { financeReady : bool; readinessReasons : list string }.
Class ReadinessAssessment := { assessSupplierCommissionReadiness : jsval -> readiness }.

Module SupplierMatcher.
Import ClientMatcher (evaluation(..), is_match, is_no_match, match_if, has, option_str_eqb, compareScalar, order_operators,
  any_pair, find_unknown, add_to_group, state3(..), rule_evaluation(..), state, specificity, isDefault, reasons, candidate(..), c_rule, c_eval, rule_ids, has_state, firstDefined).

Definition SET_LIKE_CONDITION_TYPES : list string :=
  ["COUNTRY"; "REGION"; "CATEGORY"; "PRODUCT"; "PRODUCT_ID"; "SKU"; "SKU_LIST"; "CUSTOMER_TYPE"; "COUPON"; "VOUCHER";
   "ACTION_TYPE"; "DEVICE"; "PUBLISHER"; "PUBLISHER_GROUP"; "TRAFFIC_TYPE"; "COMMISSION_TIER"].
Definition EVENT_FIXED_BASES : list string := ["FIXED_AMOUNT"; "FIXED_PER_ORDER"; "CPA"; "CPL"; "CPI"; "CPS"].

Section WithHost.
Context {H : JsHost}.

(** [round4] of a number: [None] is [null]. *)
Definition round4_or_null (value : num) : option num := if is_finite value then Some (round4 value) else None.

Definition asNumber (value : jsval) : option num :=
  if nullish value then None
  else match value with
       | JBool _ => None
       | JStr s => if trim s =s? "" then None else let n := string_to_num s in if is_finite n then Some n else None
       | _ => let n := js_number value in if is_finite n then Some n else None
       end.
Definition asDate (value : jsval) : option Z := if truthy value then new_date value else None.
Definition normalizeText (value : jsval) : option string :=
  if nullish value then None else Some (to_upper (trim (js_string value))).

Definition comparable_item (item : jsval) : list jsval :=
  if blank item then []
  else match item with
       | JStr s =>
           let trimmed := trim s in
           if trimmed =s? "" then []
           else if starts_with "[" trimmed && ends_with "]" trimmed then
             match json_parse trimmed with
             | Some (JArr parsed) => parsed
             | _ => [JStr trimmed]
             end
           else [JStr trimmed]
       | _ => [item]
       end.
Definition toComparableArray (value : jsval) : list jsval :=
  if blank value then [] else flat_map comparable_item (match value with JArr l => l | _ => [value] end).

(** [/[-T:/]/.test(s)] *)
Definition looks_dated (s : string) : bool := existsb (fun c => has ["-"; "T"; ":"; "/"] (String c "")) (String.list_ascii_of_string s).
Definition valuesEqual (left right : jsval) : bool :=
  match asNumber left, asNumber right with
  | Some l, Some r => neqb l r
  | _, _ =>
      match asDate left, asDate right with
      | Some l, Some r =>
          if looks_dated (js_string left) && looks_dated (js_string right) then l =? r
          else option_str_eqb (normalizeText left) (normalizeText right)
      | _, _ => option_str_eqb (normalizeText left) (normalizeText right)
      end
  end.

(** ** Conditions *)

(** [normalizeText(v) || d] *)
Definition text_or (v : jsval) (d : string) : string :=
  match normalizeText v with Some s => if s =s? "" then d else s | None => d end.
Definition condition_type (condition : jsval) : string := text_or (condition@."conditionType") "OTHER_SOURCE_CONDITION".
Definition is_custom (type : string) : bool := (type =s? "CUSTOM_FIELD") || (type =s? "OTHER_SOURCE_CONDITION").

Definition fact_fields : list (string * string) :=
  [("COUNTRY", "country"); ("REGION", "region"); ("CATEGORY", "category"); ("PRODUCT", "product"); ("PRODUCT_ID", "productId");
   ("SKU", "sku"); ("SKU_LIST", "sku"); ("CUSTOMER_TYPE", "customerType"); ("COUPON", "coupon"); ("VOUCHER", "voucher");
   ("ORDER_VALUE", "orderValue"); ("QUANTITY", "quantity"); ("ACTION_TYPE", "actionType"); ("DEVICE", "device"); ("DATE", "date");
   ("PUBLISHER", "publisher"); ("PUBLISHER_GROUP", "publisherGroup"); ("TRAFFIC_TYPE", "trafficType");
   ("PERFORMANCE_THRESHOLD", "performanceThreshold"); ("COMMISSION_TIER", "commissionTier")].
Definition factValueForCondition (condition facts : jsval) : jsval :=
  let type := text_or (condition@."conditionType") "" in
  if type =s? "DEFAULT" then JBool true
  else if is_custom type then
    let key := condition@."sourceConditionType" in
    if truthy key && is_object facts@."customFields" then prop facts@."customFields" (js_string key) else JUndef
  else match assoc type fact_fields with Some field => prop facts field | None => JUndef end.

Definition splitConditionValues (condition : jsval) : list jsval :=
  let source := condition@."sourceConditionValue" in
  let candidates := match source with
                    | JArr l => l
                    | JObj _ => as_array source@."values"
                    | _ => []
                    end in
  match candidates with [] => toComparableArray (condition@."value") | _ => candidates end.

(** [normalizeText(condition?.operator || "EQ")] *)
Definition condition_operator (condition : jsval) : string := default "" (normalizeText (condition@."operator" |or| JStr "EQ")).

(** [normalizeText(actual)?.test(normalizeText(expected))]; a [null] argument is read as its text. *)
Definition text_test (test : string -> string -> bool) (actual expected : jsval) : bool :=
  match normalizeText actual with
  | Some a => test a (default "null" (normalizeText expected))
  | None => false
  end.

Definition evaluateSupplierCommissionCondition (condition facts : jsval) : evaluation :=
  let type := condition_type condition in
  if type =s? "DEFAULT" then Match
  else
    let operator := condition_operator condition in
    let factValue := factValueForCondition condition facts in
    if operator =s? "EXISTS" then match_if (negb (blank factValue))
    else if operator =s? "NOT_EXISTS" then match_if (blank factValue)
    else if blank factValue then Unknown ("missing_fact:" +:+ type)
    else
      match splitConditionValues condition with
      | [] => Unknown ("missing_condition_value:" +:+ type)
      | expectedValues =>
          let factValues := toComparableArray factValue in
          let anyEqual := any_pair valuesEqual factValues expectedValues in
          let actual0 := nth 0 factValues JUndef in
          let expected0 := nth 0 expectedValues JUndef in
          if (operator =s? "EQ") || (operator =s? "IN") then match_if anyEqual
          else if (operator =s? "NEQ") || (operator =s? "NOT_IN") then match_if (negb anyEqual)
          else if operator =s? "CONTAINS" then match_if (any_pair (text_test includes) factValues expectedValues)
          else if operator =s? "STARTS_WITH" then
            match_if (any_pair (text_test (fun a e => starts_with e a)) factValues expectedValues)
          else if (type =s? "DATE") && has order_operators operator then
            match asDate actual0, asDate expected0 with
            | Some a, Some e => match_if (compareScalar Z.ltb Z.leb a e operator)
            | _, _ => Unknown "invalid_date_comparison:DATE"
            end
          else if (type =s? "DATE") && (operator =s? "BETWEEN") then
            match asDate actual0, asDate expected0, asDate (nth 1 expectedValues JUndef) with
            | Some actual, Some lo, Some hi => match_if ((lo <=? actual) && (actual <=? hi))
            | _, _, _ => Unknown "invalid_between:DATE"
            end
          else if has order_operators operator then
            match asNumber actual0, asNumber expected0 with
            | Some a, Some e => match_if (compareScalar nltb nleb a e operator)
            | _, _ => Unknown ("non_numeric_comparison:" +:+ type)
            end
          else if operator =s? "BETWEEN" then
            match asNumber actual0, omap asNumber expectedValues with
            | Some a, lo :: hi :: _ => match_if (nleb lo a && nleb a hi)
            | _, _ => Unknown ("invalid_between:" +:+ type)
            end
          else Unknown ("unsupported_operator:" +:+ operator)
      end.

(** ** Groups and rules *)

Definition conditionGroupKey (condition : jsval) : string :=
  let type := condition_type condition in
  if is_custom type then type +:+ ":" +:+ js_string (condition@."sourceConditionType" |or| JStr "UNKNOWN") else type.

Definition evaluateConditionGroup (conditions : list jsval) (facts : jsval) : evaluation :=
  let type := condition_type (nth 0 conditions JUndef) in
  let isAlternativeSet :=
    has SET_LIKE_CONDITION_TYPES type
    && forallb (fun c => (condition_operator c =s? "EQ") || (condition_operator c =s? "IN")) conditions in
  let evaluations := map (fun c => evaluateSupplierCommissionCondition c facts) conditions in
  if isAlternativeSet then
    if existsb is_match evaluations then Match else default NoMatch (find_unknown evaluations)
  else if existsb is_no_match evaluations then NoMatch
  else default Match (find_unknown evaluations).

Definition group_conditions (conditions : list jsval) : list (string * list jsval) :=
  fold_left (fun groups c => add_to_group (conditionGroupKey c) c groups) conditions [].
(** The loop over [groups.values()]. *)
Fixpoint scan_groups (size : nat) (groups : list (string * list jsval)) (facts : jsval) (hasUnknown : bool) (reasons : list string) :
  rule_evaluation :=
  match groups with
  | [] => RuleEvaluation (if hasUnknown then UNKNOWN else MATCH) size false reasons
  | (_, group) :: rest =>
      match evaluateConditionGroup group facts with
      | NoMatch => RuleEvaluation NO_MATCH size false reasons
      | Unknown why => scan_groups size rest facts true (if why =s? "" then reasons else reasons ++ [why])
      | Match => scan_groups size rest facts hasUnknown reasons
      end
  end.
Definition rule_conditions (rule : jsval) : list jsval :=
  List.filter (fun c => negb (option_str_eqb (normalizeText c@."conditionType") (Some "DEFAULT"))) (as_array rule@."conditions").
Definition evaluateSupplierCommissionRule (rule facts : jsval) : rule_evaluation :=
  match rule_conditions rule with
  | [] => RuleEvaluation MATCH 0 true []
  | nonDefault => let groups := group_conditions nonDefault in scan_groups (length groups) groups facts false []
  end.

(** ** Precedence *)

Definition object_of (v : jsval) : jsval := if is_object v then v else JObj [].

(** [field], [direction] (whether lower values come first) and [score]. *)
Record precedence := Precedence { p_field : string; p_lower : bool; p_score : num }.
Definition verifiedPrecedence (rule : jsval) : option precedence :=
  let metadata := object_of rule@."metadata" in
  if negb (is_true metadata@."sourcePrecedenceVerified" || is_true metadata@."verifiedSourcePrecedence") then None
  else
    let explicitField := normalizeText (metadata@."sourcePrecedenceField" |or| metadata@."precedenceField") in
    let resolvedField :=
      if option_str_eqb explicitField (Some "RANK") then Some "rank"
      else if option_str_eqb explicitField (Some "PRIORITY") then Some "priority"
      else if negb (nullish rule@."priority") then Some "priority"
      else if negb (nullish rule@."rank") then Some "rank" else None in
    match resolvedField with
    | None => None
    | Some field =>
        match asNumber (prop rule field) with
        | None => None
        | Some value =>
            let direction := normalizeText (metadata@."sourcePrecedenceDirection" |or| metadata@."precedenceDirection") in
            if option_str_eqb direction (Some "LOWER_FIRST") then Some (Precedence field true (nneg value))
            else if option_str_eqb direction (Some "HIGHER_FIRST") then Some (Precedence field false value)
            else None
        end
    end.

Definition same_signature (p q : precedence) : bool := (p_field p =s? p_field q) && Bool.eqb (p_lower p) (p_lower q).
Definition chooseByVerifiedPrecedence (candidates : list candidate) : option candidate :=
  match candidates with
  | [] => None
  | [c] => Some c
  | _ =>
      match mapM (fun c => verifiedPrecedence (c_rule c)) candidates with
      | None | Some [] => None
      | Some ((first :: _) as resolved) =>
          if forallb (same_signature first) resolved then
            let maxScore := max_num (map p_score resolved) in
            the_only (omap (fun pc => if neqb (p_score pc.1) maxScore then Some pc.2 else None) (zip resolved candidates))
          else None
      end
  end.
(** The source's [chooseBySpecificity] is that of the client matcher, word for word. *)
Definition chooseBySpecificity (candidates : list candidate) : option candidate := ClientMatcher.chooseBySpecificity candidates.

(** ** The expected commission *)

Inductive grain := ORDER | ITEM | EXPLICIT | ORDER_EQ_ITEM.
Definition grain_text (g : grain) : string :=
  match g with ORDER => "ORDER" | ITEM => "ITEM" | EXPLICIT => "EXPLICIT" | ORDER_EQ_ITEM => "ORDER_EQ_ITEM" end.
Definition verifiedCalculationGrain (rule : jsval) : option grain :=
  let metadata := object_of rule@."metadata" in
  match normalizeText (metadata@."calculationGrain" ?? metadata@."commissionGrain" ?? metadata@."sourceCalculationGrain") with
  | None => None
  | Some raw =>
      if has ["ORDER"; "ORDER_LEVEL"; "PER_ORDER"] raw then Some ORDER
      else if has ["ITEM"; "ITEM_LEVEL"; "LINE_ITEM"; "PER_ITEM"] raw then Some ITEM
      else if has ["EXPLICIT"; "COMMISSIONABLE_VALUE"] raw then Some EXPLICIT
      else None
  end.

Inductive resolved_value := Resolved (value : num) (g : grain) | SourceDataMissing (reason : string).
Definition resolvePercentageCommissionableValue (rule facts : jsval) : resolved_value :=
  match asNumber facts@."commissionableValue" with
  | Some explicit => Resolved explicit EXPLICIT
  | None =>
      let orderValue := asNumber facts@."orderValue" in
      let itemValue := asNumber facts@."itemValue" in
      match verifiedCalculationGrain rule with
      | Some ORDER =>
          match orderValue with Some v => Resolved v ORDER | None => SourceDataMissing "missing_order_value_for_order_grain" end
      | Some ITEM =>
          match itemValue with Some v => Resolved v ITEM | None => SourceDataMissing "missing_item_value_for_item_grain" end
      | Some _ => SourceDataMissing "missing_explicit_commissionable_value"
      | None =>
          match orderValue, itemValue with
          | Some o, None => Resolved o ORDER
          | Some o, Some i => if neqb o i then Resolved o ORDER_EQ_ITEM else SourceDataMissing "ambiguous_commission_grain"
          | None, Some _ => SourceDataMissing "ambiguous_commission_grain"
          | None, None => SourceDataMissing "missing_commissionable_value"
          end
      end
  end.

Inductive calculation_status := CALCULATED | NO_RULE | BASIS_NOT_SUPPORTED | SOURCE_DATA_MISSING.
Definition calculation_text (s : calculation_status) : string :=
  match s with
  | CALCULATED => "CALCULATED" | NO_RULE => "NO_RULE"
  | BASIS_NOT_SUPPORTED => "BASIS_NOT_SUPPORTED" | SOURCE_DATA_MISSING => "SOURCE_DATA_MISSING"
  end.
Record expected_commission := Expected {
  e_status : calculation_status; e_amount : option num; e_currency : option string; e_basis : option string;
  e_reason : option string; e_grain : option grain; e_units : option num
}.

(** [v ? normalizeText(v).slice(0, 3) : null] *)
Definition currency_code (v : jsval) : option string :=
  if truthy v then String.substring 0 3 <$> normalizeText v else None.
(** [a || b || null] on codes *)
Definition given_code (code : option string) : option string :=
  match code with Some s => if s =s? "" then None else Some s | None => None end.
Definition code_or (a b : option string) : option string :=
  match given_code a with Some s => Some s | None => given_code b end.

Definition units_commission (fixedAmount : num) (currency : option string) (basis : string) (units : option num)
    (scale : num -> num) (missing : string) : expected_commission :=
  match units with
  | None => Expected SOURCE_DATA_MISSING None currency (Some basis) (Some missing) None None
  | Some u => Expected CALCULATED (round4_or_null (nmul fixedAmount (scale u))) currency (Some basis) None None (Some u)
  end.

Definition calculateExpectedSupplierCommission (rule facts : jsval) : expected_commission :=
  if negb (truthy rule) then Expected NO_RULE None None None None None None
  else
    let basis := default "" (normalizeText (rule@."basis" |or| JStr "UNKNOWN")) in
    let currency := code_or (currency_code rule@."currency") (currency_code facts@."currency") in
    match asNumber rule@."ratePercent" with
    | Some ratePercent =>
        if negb ((basis =s? "PERCENT_OF_SALE") || (basis =s? "CPS")) then
          Expected BASIS_NOT_SUPPORTED None currency (Some basis) (Some ("percentage_basis_not_supported:" +:+ basis)) None None
        else
          match resolvePercentageCommissionableValue rule facts with
          | SourceDataMissing reason => Expected SOURCE_DATA_MISSING None currency (Some basis) (Some reason) None None
          | Resolved value g =>
              Expected CALCULATED (round4_or_null (ndiv (nmul value ratePercent) (num_of_Z 100))) currency (Some basis) None (Some g) None
          end
    | None =>
        match asNumber rule@."fixedAmount" with
        | None => Expected SOURCE_DATA_MISSING None currency (Some basis) (Some "missing_rule_amount") None None
        | Some fixedAmount =>
            if has EVENT_FIXED_BASES basis then
              Expected CALCULATED (round4_or_null fixedAmount) currency (Some basis) None None (Some (num_of_Z 1))
            else if basis =s? "FIXED_PER_ITEM" then
              units_commission fixedAmount currency basis (asNumber facts@."quantity") id "missing_quantity"
            else if basis =s? "CPC" then
              units_commission fixedAmount currency basis (asNumber facts@."clicks") id "missing_clicks"
            else if basis =s? "CPM" then
              units_commission fixedAmount currency basis (asNumber facts@."impressions") (fun i => ndiv i (num_of_Z 1000)) "missing_impressions"
            else Expected BASIS_NOT_SUPPORTED None currency (Some basis) (Some ("fixed_basis_not_supported:" +:+ basis)) None None
        end
    end.

(** ** The comparison with what the network reported *)

Record actual_commission := Actual { a_amount : option num; a_currency : option string }.
Definition resolveActual (actualCommission actualCurrency facts : jsval) : actual_commission :=
  Actual (asNumber actualCommission)
    (if truthy actualCurrency then currency_code actualCurrency else currency_code facts@."actualCurrency").

Inductive comparison_status := NOT_COMPARABLE | CURRENCY_MISMATCH | SAME | VARIANCE.
Record comparison := Comparison { k_variance : option num; k_status : comparison_status }.
Definition variance_tolerance : num := num_of_decimal 1 (-4).
(** Two codes that are both given and differ. *)
Definition codes_differ (a b : option string) : bool :=
  match given_code a, given_code b with Some s, Some t => negb (s =s? t) | _, _ => false end.
(** [null] in arithmetic is zero. *)
Definition buildComparison (expected : expected_commission) (actual : actual_commission) : comparison :=
  match e_status expected, a_amount actual with
  | CALCULATED, Some amount =>
      if codes_differ (e_currency expected) (a_currency actual) then Comparison None CURRENCY_MISMATCH
      else
        let variance := round4_or_null (nsub amount (default n0 (e_amount expected))) in
        Comparison variance (if nleb (nabs (default n0 variance)) variance_tolerance then SAME else VARIANCE)
  | _, _ => Comparison None NOT_COMPARABLE
  end.

(** ** Selection *)

Record supplier_match := SupplierMatch {
  s_status : string;
  s_reason : string;
  s_rule : option jsval;
  s_sequence : jsval;
  s_expected : option expected_commission;
  s_actual : actual_commission;
  s_comparison : comparison;
  s_candidateRuleIds : list jsval;
  s_readinessBlockedRuleIds : list jsval;
  s_reviewReasons : list string
}.

Context {A : ReadinessAssessment}.

(** An evaluated rule with its assessment. *)
Record assessed := Assessed { item : candidate; ready : readiness }.
Definition evaluate_item (facts rule : jsval) : assessed :=
  Assessed (Candidate rule (evaluateSupplierCommissionRule rule facts)) (assessSupplierCommissionReadiness rule).
Definition evaluated_rules (rules facts : jsval) : list assessed := map (evaluate_item facts) (as_array rules).

(** [financeReady && !isDefault && state === s], and the default matches *)
Definition ready_specific (s : state3) (x : assessed) : bool :=
  financeReady (ready x) && negb (isDefault (c_eval (item x))) && has_state s (c_eval (item x)).
Definition ready_default (x : assessed) : bool :=
  financeReady (ready x) && isDefault (c_eval (item x)) && has_state MATCH (c_eval (item x)).
Definition unready_blocking (readySpecificMatch : bool) (x : assessed) : bool :=
  if financeReady (ready x) then false
  else if has_state NO_MATCH (c_eval (item x)) then false
  else if isDefault (c_eval (item x)) then negb readySpecificMatch
  else has_state MATCH (c_eval (item x)) || has_state UNKNOWN (c_eval (item x)).

(** [[...new Set(l)]] *)
Definition distinct (l : list string) : list string :=
  fold_left (fun acc s => if has acc s then acc else acc ++ [s]) l [].
Definition item_ids (l : list assessed) : list jsval := rule_ids (map (fun x => c_rule (item x)) l).
Definition not_compared : comparison := Comparison None NOT_COMPARABLE.

(** A result without a rule. *)
Definition unresolved (status why : string) (actual : actual_commission) (ids blocked : list jsval) (reviewReasons : list string) :
  supplier_match :=
  SupplierMatch status why None JNull None actual not_compared ids blocked (distinct reviewReasons).
Definition blocked_reasons (x : assessed) : list string :=
  (match readinessReasons (ready x) with [] => ["finance_readiness_not_established"] | l => l end)
  ++ (if has_state UNKNOWN (c_eval (item x)) then reasons (c_eval (item x)) else []).

(** Lines 792-817: the selected rule is calculated and compared. *)
Definition selected_result (selected : candidate) (facts actualCommission actualCurrency : jsval) : supplier_match :=
  let expected := calculateExpectedSupplierCommission (c_rule selected) facts in
  let actual := resolveActual actualCommission actualCurrency facts in
  let safe := match e_status expected with CALCULATED => true | _ => false end in
  SupplierMatch (if safe then "MATCHED" else "REVIEW_REQUIRED")
    (if safe then if isDefault (c_eval selected) then "default_rule" else "specific_rule"
     else "supplier_commission_calculation_not_safe")
    (Some (c_rule selected)) ((c_rule selected)@."commissionSequence" ?? JNull) (Some expected) actual
    (buildComparison expected actual) (rule_ids [c_rule selected]) []
    (if safe then [] else List.filter (fun t => negb (t =s? "")) [default (calculation_text (e_status expected)) (e_reason expected)]).

(** Lines 699-790: the choice among the evaluated rules once none blocks; [inl] a result, [inr] the selected rule. *)
Definition choose (evaluated : list assessed) (actual : actual_commission) : supplier_match + candidate :=
  let specificMatches := List.filter (ready_specific MATCH) evaluated in
  let specificUnknown := List.filter (ready_specific UNKNOWN) evaluated in
  let defaults := List.filter ready_default evaluated in
  match specificUnknown, specificMatches, defaults with
  | _ :: _, _, _ =>
      inl (unresolved "REVIEW_REQUIRED" "specific_rule_missing_facts" actual (item_ids specificUnknown) []
             (flat_map (fun x => reasons (c_eval (item x))) specificUnknown))
  | [], _ :: _, _ =>
      match chooseByVerifiedPrecedence (map item specificMatches) with
      | Some selected => inr selected
      | None =>
          match chooseBySpecificity (map item specificMatches) with
          | Some selected => inr selected
          | None => inl (unresolved "REVIEW_REQUIRED" "ambiguous_specific_rules" actual (item_ids specificMatches) [] [])
          end
      end
  | [], [], _ :: _ =>
      match chooseByVerifiedPrecedence (map item defaults) with
      | Some selected => inr selected
      | None => inl (unresolved "REVIEW_REQUIRED" "ambiguous_default_rules" actual (item_ids defaults) [] [])
      end
  | [], [], [] => inl (unresolved "NO_MATCH" "no_supplier_commission_rule_matched" actual [] [] [])
  end.

Definition matchSupplierCommissionRule (rules facts actualCommission actualCurrency : jsval) : supplier_match :=
  let evaluated := evaluated_rules rules facts in
  let readySpecificMatch := existsb (ready_specific MATCH) evaluated in
  match List.filter (unready_blocking readySpecificMatch) evaluated with
  | (_ :: _) as blocking =>
      unresolved "REVIEW_REQUIRED" "unverified_supplier_rule_applicable" (resolveActual actualCommission actualCurrency facts)
        (item_ids blocking) (item_ids blocking) (flat_map blocked_reasons blocking)
  | [] =>
      match choose evaluated (Actual (asNumber actualCommission) (currency_code actualCurrency)) with
      | inl result => result
      | inr selected => selected_result selected facts actualCommission actualCurrency
      end
  end.

(** ** Facts *)

Definition objectMeta (record : jsval) : jsval := object_of record@."metadata".
(** The quantity of the item, or the sum over the order's items when each has one. *)
Definition match_quantity (order item overrides : jsval) : jsval :=
  let quantity := firstDefined [overrides@."quantity"; item@."quantity"] in
  if nullish quantity then
    match as_array order@."items" with
    | [] => quantity
    | items =>
        match mapM (fun row => asNumber row@."quantity") items with
        | Some quantities => JNum (fold_left nadd quantities n0)
        | None => quantity
        end
    end
  else quantity.
Definition buildSupplierCommissionMatchFacts (order conversion item click overrides : jsval) : jsval :=
  let om := objectMeta order in let cm := objectMeta conversion in
  let im := objectMeta item in let km := objectMeta click in
  JObj
    [("country", firstDefined [overrides@."country"; click@."country"; om@."country"; cm@."country"; im@."country"]);
     ("region", firstDefined [overrides@."region"; om@."region"; cm@."region"; im@."region"]);
     ("category", firstDefined [overrides@."category"; item@."category"; im@."category"; om@."category"; cm@."category"]);
     ("product", firstDefined [overrides@."product"; item@."productName"; im@."product"; cm@."product"]);
     ("productId", firstDefined [overrides@."productId"; item@."productId"; im@."productId"; cm@."productId"]);
     ("sku", firstDefined [overrides@."sku"; item@."sku"; im@."sku"; cm@."sku"]);
     ("customerType", firstDefined [overrides@."customerType"; om@."customerType"; om@."customer_type"; cm@."customerType"; cm@."customer_type"]);
     ("coupon", firstDefined [overrides@."coupon"; om@."coupon"; om@."couponCode"; om@."promoCode"; cm@."coupon"; cm@."couponCode"; cm@."promoCode"]);
     ("voucher", firstDefined [overrides@."voucher"; om@."voucher"; cm@."voucher"]);
     ("orderValue", firstDefined [overrides@."orderValue"; order@."orderValue"; cm@."orderValue"; cm@."order_value"; cm@."saleAmount";
                                  cm@."sales_amount"; cm@."revenue"]);
     ("itemValue", firstDefined [overrides@."itemValue"; item@."itemValue"; im@."itemValue"; im@."item_value"; cm@."itemValue"; cm@."item_value"]);
     ("commissionableValue", firstDefined [overrides@."commissionableValue"; im@."commissionableValue"; om@."commissionableValue"; cm@."commissionableValue"]);
     ("quantity", match_quantity order item overrides);
     ("actionType", firstDefined [overrides@."actionType"; cm@."actionType"; cm@."action_type"; cm@."action"; om@."actionType"]);
     ("device", firstDefined [overrides@."device"; click@."device"; km@."device"; cm@."device"]);
     ("date", firstDefined [overrides@."date"; order@."orderDate"; conversion@."conversionDate"]);
     ("publisher", firstDefined [overrides@."publisher"; cm@."publisher"; om@."publisher"]);
     ("publisherGroup", firstDefined [overrides@."publisherGroup"; cm@."publisherGroup"; cm@."publisher_group"; om@."publisherGroup"]);
     ("trafficType", firstDefined [overrides@."trafficType"; cm@."trafficType"; cm@."traffic_type"; om@."trafficType"]);
     ("performanceThreshold", firstDefined [overrides@."performanceThreshold"; cm@."performanceThreshold"; cm@."performance_threshold"]);
     ("commissionTier", firstDefined [overrides@."commissionTier"; cm@."commissionTier"; cm@."commission_tier"; cm@."tier"]);
     ("currency", firstDefined [overrides@."currency"; order@."currency"; conversion@."currency"; item@."currency"]);
     ("clicks", firstDefined [overrides@."clicks"; cm@."clicks"; om@."clicks"]);
     ("impressions", firstDefined [overrides@."impressions"; cm@."impressions"; om@."impressions"]);
     ("customFields", overrides@."customFields" ?? JObj []);
     ("actualCurrency", firstDefined [overrides@."actualCurrency"; conversion@."currency"; order@."currency"])].

End WithHost.
End SupplierMatcher.

Module SupplierMatchFacts.
Import ClientMatcher (state3(..), state, specificity, isDefault, candidate(..), c_rule, c_eval, has_state).
Import SupplierMatcher.
Section WithHost.
Context {H : JsHost}.

(** ** Precedence *)

Definition precedence_of (c : candidate) : option precedence := verifiedPrecedence (c_rule c).
Definition ranked (c : candidate) : precedence := default (Precedence "" true NaN) (precedence_of c).
Definition rank (c : candidate) : num := p_score (ranked c).
(** Every candidate has a verified precedence, all on one field and in one direction. *)
Definition comparable (l : list candidate) : Prop :=
  (forall c, c ∈ l -> is_Some (precedence_of c)) /\
  (forall c d, c ∈ l -> d ∈ l -> same_signature (ranked c) (ranked d) = true).

Lemma same_signature_spec p q : same_signature p q = true <-> p_field p = p_field q /\ p_lower p = p_lower q.
Proof. unfold same_signature. now rewrite andb_true_iff, String.eqb_eq, Bool.eqb_true_iff. Qed.

Lemma mapM_ranked l :
  (forall c, c ∈ l -> is_Some (precedence_of c)) -> mapM (fun c => verifiedPrecedence (c_rule c)) l = Some (map ranked l).
Proof.
  intros Hl. apply mapM_Some_2. apply Forall2_fmap_r, Forall_Forall2_diag, Forall_forall.
  intros c Hc. destruct (Hl c Hc) as [p Hp]. cbn. unfold ranked. rewrite Hp. exact Hp.
Qed.

Lemma mapM_unranked l c : c ∈ l -> precedence_of c = None -> mapM (fun c => verifiedPrecedence (c_rule c)) l = None.
Proof.
  intros Hc Hn. apply eq_None_not_Some. intros [ps Hps]. apply mapM_Some_1 in Hps.
  apply list_elem_of_lookup in Hc as [i Hi]. destruct (Forall2_lookup_l _ _ _ _ _ Hps Hi) as (p & _ & Hp).
  unfold precedence_of in Hn. congruence.
Qed.

Lemma winners_ranked best l :
  omap (fun pc : precedence * candidate => if neqb (p_score pc.1) best then Some pc.2 else None) (zip (map ranked l) l)
  = List.filter (fun c => neqb (rank c) best) l.
Proof.
  induction l as [|c l IH]; [reflexivity|]. cbn [map zip zip_with omap list_omap List.filter fst snd]. fold (rank c).
  destruct (neqb (rank c) best); [|exact IH]. now rewrite <- IH.
Qed.

(** Two or more candidates are ordered by precedence, or the choice is left open. *)
Lemma choose_precedence_best l : (2 <= length l)%nat -> comparable l -> chooseByVerifiedPrecedence l = best_of rank l.
Proof.
  intros Hlen [Hall Hsig]. unfold chooseByVerifiedPrecedence. destruct l as [|c1 [|c2 l]]; cbn in Hlen; try lia.
  set (cs := c1 :: c2 :: l) in *. rewrite mapM_ranked by exact Hall.
  change (map ranked cs) with (ranked c1 :: map ranked (c2 :: l)) at 1. cbv iota beta.
  change (ranked c1 :: map ranked (c2 :: l)) with (map ranked cs).
  assert (Hs : forallb (same_signature (ranked c1)) (map ranked cs) = true).
  { apply forallb_forall. intros p (c & <- & Hc)%in_map_iff. apply Hsig; [left|now apply list_elem_of_In]. }
  rewrite Hs, winners_ranked, map_map. reflexivity.
Qed.

Lemma choose_precedence_none l : (2 <= length l)%nat -> ~ comparable l -> chooseByVerifiedPrecedence l = None.
Proof.
  intros Hlen Hno. unfold chooseByVerifiedPrecedence. destruct l as [|c1 [|c2 l]]; cbn in Hlen; try lia.
  set (cs := c1 :: c2 :: l) in *. destruct (mapM _ cs) as [ps|] eqn:E; [|reflexivity].
  assert (Hall : forall c, c ∈ cs -> is_Some (precedence_of c)).
  { intros c Hc. apply not_eq_None_Some. intros Hn. rewrite (mapM_unranked cs c Hc Hn) in E. discriminate. }
  rewrite (mapM_ranked cs Hall) in E. injection E as <-. cbn [map cs]. fold (map ranked (c2 :: l)).
  destruct (forallb _ _) eqn:Es; [|reflexivity]. destruct Hno. split; [exact Hall|].
  assert (Hf : forall c, c ∈ cs -> same_signature (ranked c1) (ranked c) = true).
  { intros c Hc. rewrite forallb_forall in Es. apply Es. change (In (ranked c) (map ranked cs)). apply in_map. now apply list_elem_of_In. }
  intros c d Hc Hd. pose proof (Hf c Hc) as Ec. pose proof (Hf d Hd) as Ed. rewrite same_signature_spec in *. intuition congruence.
Qed.

Lemma comparable_forall l :
  comparable l <-> Forall (fun c => is_Some (precedence_of c)) l
                   /\ Forall (fun c => Forall (fun d => same_signature (ranked c) (ranked d) = true) l) l.
Proof. unfold comparable. rewrite !Forall_forall. setoid_rewrite Forall_forall.
  split; intros [Ha Hb]; split; auto. Qed.
#[local] Instance comparable_dec l : Decision (comparable l).
Proof.
  refine (cast_if (decide (Forall (fun c => is_Some (precedence_of c)) l
                           /\ Forall (fun c => Forall (fun d => same_signature (ranked c) (ranked d) = true) l) l)));
    abstract (now rewrite comparable_forall).
Defined.

Lemma asNumber_finite v x : asNumber v = Some x -> is_finite x = true.
Proof. unfold asNumber. intros E. repeat case_match; now simplify_eq. Qed.

Lemma precedence_not_nan r p : verifiedPrecedence r = Some p -> is_nan (p_score p) = false.
Proof.
  unfold verifiedPrecedence. intros E. repeat case_match; simplify_eq; cbn [p_score];
    match goal with Hn : asNumber _ = Some ?x |- _ => apply asNumber_finite in Hn; now destruct x end.
Qed.

Lemma ranks_not_nan l : comparable l -> Forall (fun x => is_nan x = false) (map rank l).
Proof.
  intros [Hall _]. apply Forall_forall. intros x (c & -> & Hc)%list_elem_of_fmap. destruct (Hall c Hc) as [p Hp].
  unfold rank, ranked. rewrite Hp. exact (precedence_not_nan _ _ Hp).
Qed.

Lemma comparable_perm l l' : Permutation l l' -> comparable l -> comparable l'.
Proof. intros Hp [Hall Hsig]. split; intros; [apply Hall|apply Hsig]; now rewrite Hp. Qed.

Lemma choose_precedence_perm l l' : Permutation l l' -> chooseByVerifiedPrecedence l = chooseByVerifiedPrecedence l'.
Proof.
  intros Hp. pose proof (Permutation_length Hp) as Hl. destruct (decide (2 <= length l)%nat) as [Hlen|Hlen].
  - destruct (decide (comparable l)) as [Hc|Hc].
    + rewrite !choose_precedence_best by (try lia; eauto using comparable_perm). now apply best_of_perm; [|apply ranks_not_nan].
    + rewrite !choose_precedence_none; try lia; auto. intros Hc'. apply Hc. now apply (comparable_perm l').
  - destruct l as [|c [|]], l' as [|c' [|]]; cbn in *; try lia; [reflexivity|]. apply Permutation_length_1 in Hp. now subst.
Qed.

(** How the winner of a choice stands to a rival: it has the better verified precedence on
    the same field and direction, or more condition groups. *)
Definition outranks (rivals : list candidate) (c d : candidate) : Prop :=
  (comparable rivals /\ nltb (rank d) (rank c) = true) \/ (specificity (c_eval d) < specificity (c_eval c))%nat.

Lemma choose_precedence_outranks l c :
  chooseByVerifiedPrecedence l = Some c -> c ∈ l /\ forall d, d ∈ l -> d <> c -> outranks l c d.
Proof.
  intros Hc. destruct (decide (2 <= length l)%nat) as [Hlen|Hlen].
  - destruct (decide (comparable l)) as [Hcmp|Hcmp]; [|now rewrite choose_precedence_none in Hc].
    rewrite choose_precedence_best in Hc by assumption. apply best_of_beats in Hc as [Hin Hb]; [|now apply ranks_not_nan].
    split; [exact Hin|]. left. auto.
  - destruct l as [|c' [|]]; cbn in *; try lia; [discriminate|]. injection Hc as ->.
    split; [left|]. intros d ->%list_elem_of_singleton. contradiction.
Qed.
Lemma choose_specificity_outranks l c :
  chooseBySpecificity l = Some c -> c ∈ l /\ forall d, d ∈ l -> d <> c -> outranks l c d.
Proof. intros [Hin Hm]%ClientMatchFacts.choose_specificity_most. split; [exact Hin|]. right. auto. Qed.

(** ** Selection *)

Context {A : ReadinessAssessment}.
Local Abbreviation is_ready x := (financeReady (ready x) = true).
Local Abbreviation eval x := (c_eval (item x)).

Lemma ready_specific_spec s x :
  ready_specific s x = true <-> is_ready x /\ isDefault (eval x) = false /\ state (eval x) = s.
Proof. unfold ready_specific. rewrite !andb_true_iff, negb_true_iff, ClientMatchFacts.has_state_spec. tauto. Qed.
Lemma ready_default_spec x : ready_default x = true <-> is_ready x /\ isDefault (eval x) = true /\ state (eval x) = MATCH.
Proof. unfold ready_default. rewrite !andb_true_iff, ClientMatchFacts.has_state_spec. tauto. Qed.

(** What a selected candidate satisfies among the evaluated rules. *)
Record selection_ok (evaluated : list assessed) (c : candidate) : Prop := {
  selected_ready : exists x, x ∈ evaluated /\ item x = c /\ is_ready x;
  selected_matches : state (c_eval c) = MATCH;
  nothing_undecided d : d ∈ evaluated -> is_ready d -> isDefault (eval d) = false -> state (eval d) <> UNKNOWN;
  specific_first d : isDefault (c_eval c) = true -> d ∈ evaluated -> is_ready d -> isDefault (eval d) = false ->
                     state (eval d) <> MATCH;
  rivals_outranked d : d ∈ evaluated -> is_ready d -> isDefault (eval d) = isDefault (c_eval c) -> state (eval d) = MATCH ->
                       item d <> c -> exists rivals, item d ∈ rivals /\ c ∈ rivals /\ outranks rivals c (item d)
}.

(** A winner among the rules of one class: the specific ones, or the defaults. *)
Lemma winner_ok (p : assessed -> bool) dflt evaluated c :
  (forall x, p x = true <-> is_ready x /\ isDefault (eval x) = dflt /\ state (eval x) = MATCH) ->
  let class := map item (List.filter p evaluated) in
  (c ∈ class /\ forall d, d ∈ class -> d <> c -> outranks class c d) ->
  (forall d, d ∈ evaluated -> is_ready d -> isDefault (eval d) = false -> state (eval d) <> UNKNOWN) ->
  (dflt = true -> forall d, d ∈ evaluated -> is_ready d -> isDefault (eval d) = false -> state (eval d) <> MATCH) ->
  selection_ok evaluated c.
Proof.
  intros Hp class [Hin Hout] Hunk Hspec.
  assert (Hclass : forall x, x ∈ evaluated -> is_ready x -> isDefault (eval x) = dflt -> state (eval x) = MATCH -> item x ∈ class).
  { intros x Hx Hr Hd Hm. apply list_elem_of_fmap_2, elem_of_filter_bool. split; [exact Hx|]. now apply Hp. }
  pose proof Hin as (x & -> & Hx)%list_elem_of_fmap. apply elem_of_filter_bool in Hx as [Hx Hpx]. apply Hp in Hpx as (Hr & Hd & Hm).
  split; auto.
  - eauto.
  - intros d Hdef. apply Hspec. congruence.
  - intros d He Hre Hde Hme Hne. exists class. split_and!; auto; [apply Hclass; auto; congruence|].
    apply Hout; [apply Hclass; auto; congruence|exact Hne].
Qed.

Lemma choose_ok evaluated actual c : choose evaluated actual = inr c -> selection_ok evaluated c.
Proof.
  unfold choose. destruct (List.filter (ready_specific UNKNOWN) evaluated) as [|u us] eqn:EU; [|discriminate].
  assert (Hunk : forall d, d ∈ evaluated -> is_ready d -> isDefault (eval d) = false -> state (eval d) <> UNKNOWN).
  { intros d Hd ? ? ?. eapply (filter_nil _ _ EU d Hd), ready_specific_spec; auto. }
  destruct (List.filter (ready_specific MATCH) evaluated) as [|x xs] eqn:ES.
  - destruct (List.filter ready_default evaluated) as [|d ds] eqn:ED; [discriminate|].
    destruct (chooseByVerifiedPrecedence _) as [w|] eqn:Ew; [|discriminate]. intros [= <-].
    apply (winner_ok _ true evaluated w ready_default_spec); [rewrite ED; now apply choose_precedence_outranks|exact Hunk|].
    intros _ e He ? ? ?. eapply (filter_nil _ _ ES e He), ready_specific_spec; auto.
  - intros Hw. apply (winner_ok _ false evaluated c (ready_specific_spec MATCH)); [rewrite ES|exact Hunk|discriminate].
    destruct (chooseByVerifiedPrecedence _) as [w|] eqn:Ew; [injection Hw as <-; now apply choose_precedence_outranks|].
    destruct (chooseBySpecificity _) as [w|] eqn:Es; [|discriminate]. injection Hw as <-. now apply choose_specificity_outranks.
Qed.

Lemma evaluated_inv rules facts x :
  x ∈ evaluated_rules rules facts -> c_rule (item x) ∈ as_array rules /\ x = evaluate_item facts (c_rule (item x)).
Proof. intros (r & -> & Hr)%list_elem_of_fmap. auto. Qed.

Definition matches_now (facts r : jsval) : Prop :=
  isDefault (evaluateSupplierCommissionRule r facts) = false /\ state (evaluateSupplierCommissionRule r facts) = MATCH.

Lemma none_blocking rules facts r :
  let evaluated := evaluated_rules rules facts in
  List.filter (unready_blocking (existsb (ready_specific MATCH) evaluated)) evaluated = [] ->
  r ∈ as_array rules -> financeReady (assessSupplierCommissionReadiness r) = false ->
  state (evaluateSupplierCommissionRule r facts) = NO_MATCH
  \/ (isDefault (evaluateSupplierCommissionRule r facts) = true
      /\ exists r', r' ∈ as_array rules /\ financeReady (assessSupplierCommissionReadiness r') = true /\ matches_now facts r').
Proof.
  intros evaluated Hnil Hr Hun.
  assert (Hin : evaluate_item facts r ∈ evaluated) by (apply list_elem_of_fmap; eauto).
  assert (Hb : unready_blocking (existsb (ready_specific MATCH) evaluated) (evaluate_item facts r) = false)
    by (apply not_true_iff_false; intros Hb; exact (filter_nil _ _ Hnil _ Hin Hb)).
  unfold unready_blocking in Hb. cbn [evaluate_item item ready c_eval] in Hb. rewrite Hun in Hb. unfold has_state in Hb.
  destruct (state (evaluateSupplierCommissionRule r facts)); [right|now left|right];
    (destruct (isDefault (evaluateSupplierCommissionRule r facts)); [|discriminate Hb]; split; [reflexivity|]);
    apply negb_false_iff, existsb_exists in Hb as (x & Hx & Hs);
    apply list_elem_of_In, evaluated_inv in Hx as [Hx Ex]; rewrite Ex in Hs; apply ready_specific_spec in Hs as (? & ? & ?);
    exists (c_rule (item x)); repeat split; assumption.
Qed.

(** C12: A matched supplier rule is one of the rules, is ready for finance and matches the facts;
    every rule that is not ready either does not apply or is a default that a ready specific
    rule outranks; no ready specific rule is undecided; a default is only taken when no
    specific rule matches; every rival is outranked; and the expected commission is the
    calculation of that rule. *)
Theorem supplier_match_sound rules facts actualCommission actualCurrency :
  let m := matchSupplierCommissionRule rules facts actualCommission actualCurrency in
  s_status m = "MATCHED" ->
  exists rule, s_rule m = Some rule /\ rule ∈ as_array rules
    /\ selection_ok (evaluated_rules rules facts) (item (evaluate_item facts rule))
    /\ s_expected m = Some (calculateExpectedSupplierCommission rule facts)
    /\ e_status (calculateExpectedSupplierCommission rule facts) = CALCULATED
    /\ forall r, r ∈ as_array rules -> financeReady (assessSupplierCommissionReadiness r) = false ->
         state (evaluateSupplierCommissionRule r facts) = NO_MATCH
         \/ (isDefault (evaluateSupplierCommissionRule r facts) = true
             /\ exists r', r' ∈ as_array rules /\ financeReady (assessSupplierCommissionReadiness r') = true /\ matches_now facts r').
Proof.
  cbv zeta. unfold matchSupplierCommissionRule. set (evaluated := evaluated_rules rules facts).
  destruct (List.filter _ evaluated) as [|b bs] eqn:EB; [|discriminate].
  destruct (choose evaluated _) as [r|c] eqn:EC.
  { intros Hs. exfalso. unfold choose in EC. repeat case_match; simplify_eq; discriminate Hs. }
  pose proof (choose_ok _ _ _ EC) as Hok. destruct (selected_ready _ _ Hok) as (x & Hx & Ex & _).
  apply evaluated_inv in Hx as [Hin Hx]. rewrite Ex in Hin, Hx.
  assert (Hc : item (evaluate_item facts (c_rule c)) = c) by (rewrite <- Hx; exact Ex).
  intros Hs. exists (c_rule c). rewrite Hc. split_and!; auto; [|intros; eapply none_blocking; eauto].
  cbn in Hs. now destruct (e_status _).
Qed.

(** The verdict of a match, without the diagnostic lists. *)
Definition outcome_of (m : supplier_match) :=
  (s_status m, s_reason m, s_rule m, s_sequence m, s_expected m, s_actual m, s_comparison m).

Lemma choose_perm evaluated evaluated' actual :
  Permutation evaluated evaluated' ->
  match choose evaluated actual, choose evaluated' actual with
  | inl m, inl m' => outcome_of m = outcome_of m'
  | inr c, inr c' => c = c'
  | _, _ => False
  end.
Proof.
  intros Hp. unfold choose.
  pose proof (filter_bool_perm (ready_specific UNKNOWN) _ _ Hp) as HU.
  pose proof (filter_bool_perm (ready_specific MATCH) _ _ Hp) as HS. pose proof (filter_bool_perm ready_default _ _ Hp) as HD.
  rewrite (choose_precedence_perm _ _ (Permutation_map item HS)), (choose_precedence_perm _ _ (Permutation_map item HD)).
  unfold chooseBySpecificity. rewrite (ClientMatchFacts.choose_specificity_perm _ _ (Permutation_map item HS)).
  pose proof (Permutation_length HU). pose proof (Permutation_length HS). pose proof (Permutation_length HD).
  destruct (List.filter (ready_specific UNKNOWN) evaluated), (List.filter (ready_specific UNKNOWN) evaluated'); try discriminate; [|reflexivity].
  destruct (List.filter (ready_specific MATCH) evaluated), (List.filter (ready_specific MATCH) evaluated'); try discriminate.
  - destruct (List.filter ready_default evaluated), (List.filter ready_default evaluated'); try discriminate; [reflexivity|].
    now destruct (chooseByVerifiedPrecedence _).
  - destruct (chooseByVerifiedPrecedence _); [reflexivity|]. now destruct (ClientMatcher.chooseBySpecificity _).
Qed.

(** The verdict does not depend on the order in which the rules are loaded. *)
Theorem supplier_match_order_independent rules rules' facts actualCommission actualCurrency :
  Permutation (as_array rules) rules' ->
  outcome_of (matchSupplierCommissionRule rules facts actualCommission actualCurrency)
  = outcome_of (matchSupplierCommissionRule (JArr rules') facts actualCommission actualCurrency).
Proof.
  intros Hp. unfold matchSupplierCommissionRule.
  assert (He : Permutation (evaluated_rules rules facts) (evaluated_rules (JArr rules') facts)) by (now apply Permutation_map).
  assert (Hs : existsb (ready_specific MATCH) (evaluated_rules rules facts) = existsb (ready_specific MATCH) (evaluated_rules (JArr rules') facts))
    by (now rewrite He).
  rewrite Hs. set (blocking := unready_blocking _). pose proof (Permutation_length (filter_bool_perm blocking _ _ He)) as Hl.
  destruct (List.filter blocking (evaluated_rules rules facts)), (List.filter blocking (evaluated_rules (JArr rules') facts));
    try discriminate; [|reflexivity].
  pose proof (choose_perm _ _ (Actual (asNumber actualCommission) (currency_code actualCurrency)) He) as Hc.
  destruct (choose _ _), (choose _ _); try contradiction; [exact Hc|now subst].
Qed.

(** The network's figure is kept as it was reported, on every path, and what MBO expects
    never depends on it: rule, verdict and expected commission are the same whatever the
    network claims to have paid. *)
Theorem actual_kept_apart rules facts actualCommission actualCurrency actualCommission' actualCurrency' :
  let m := matchSupplierCommissionRule rules facts actualCommission actualCurrency in
  let m' := matchSupplierCommissionRule rules facts actualCommission' actualCurrency' in
  a_amount (s_actual m) = asNumber actualCommission
  /\ (s_status m, s_reason m, s_rule m, s_expected m) = (s_status m', s_reason m', s_rule m', s_expected m').
Proof.
  cbv zeta. unfold matchSupplierCommissionRule. destruct (List.filter _ _); [|split; reflexivity].
  unfold choose. repeat case_match; simplify_eq; split; reflexivity.
Qed.

(** Between an order value and a different item value nothing is guessed: without an explicit
    commissionable value and a verified grain, no percentage commission is calculated. *)
Theorem ambiguous_value_never_priced rule facts rate o i :
  asNumber rule@."ratePercent" = Some rate -> asNumber facts@."commissionableValue" = None -> verifiedCalculationGrain rule = None ->
  asNumber facts@."orderValue" = Some o -> asNumber facts@."itemValue" = Some i -> neqb o i = false ->
  e_status (calculateExpectedSupplierCommission rule facts) <> CALCULATED.
Proof.
  intros Hr Hc Hg Ho Hi Hne. unfold calculateExpectedSupplierCommission, resolvePercentageCommissionableValue.
  rewrite Hr, Hc, Hg, Ho, Hi, Hne. repeat case_match; discriminate.
Qed.
End WithHost.
End SupplierMatchFacts.

(** ** A commission beyond the doubles *)

Module SupplierOverflow.
Import SupplierMatcher.
#[local] Existing Instance utc_host.
#[local] Instance always_ready : ReadinessAssessment := {| assessSupplierCommissionReadiness _ := Readiness true [] |}.

Definition huge_rule : jsval := JObj [("id", JStr "r"); ("basis", JStr "PERCENT_OF_SALE"); ("ratePercent", JStr "1000")].
Definition huge_facts : jsval := JObj [("commissionableValue", JStr "1e308")].

(** A product that overflows is rounded to [null] and still counts as calculated: the rule is
    matched without an amount, and a network that paid nothing agrees with it. *)
Theorem overflow_is_matched :
  let m := matchSupplierCommissionRule (JArr [huge_rule]) huge_facts (JStr "0") JNull in
  s_status m = "MATCHED" /\ (e_amount <$> s_expected m) = Some None /\ k_status (s_comparison m) = SAME.
Proof. vm_compute. auto. Qed.
End SupplierOverflow.
