(* ===== verification/OrderStatus.v ===== *)
(** * Order status normalization and order merging

    [modules/order/orderStatusNormalization.contract.js] resolves a network's raw status
    through an exact, source-scoped registry; [modules/order/orderMerge.js] builds the
    patch of an order upsert and bridges the internal status vocabularies. *)

From Stdlib Require Import SpecFloat.
From S2P Require Import Prelude JsNum JsVal.
Local Open Scope Z_scope.

Module StatusNormalization.

(** A [null]-or-string of the source and its truthiness. *)
Definition text_truthy (o : option string) : bool :=
  match o with Some s => negb (s =s? "") | None => false end.
Definition text_eqb (a b : option string) : bool :=
  match a, b with
  | Some s, Some t => s =s? t
  | None, None => true
  | _, _ => false
  end.

Record scope := Scope { supplier : option string; sourceObject : option string; sourceReport : option string }.

(** The result of either resolver; [resolved] is its [mboOrderStatus] or
    [supplierPaymentStatus] field. *)
Record resolution := Resolution {
  networkRawStatus : option string;
  resolved : jsval;
  mapped : bool;
  mappingExceptionRequired : bool;
  mappingStatus : string;
  mappingReason : option string;
  r_scope : scope
}.

(** The registry ships empty. *)
Definition VERIFIED_NETWORK_STATUS_REGISTRY : jsval := JArr [].

(** [===] as a [Set] compares its members. *)
Definition same_value (a b : jsval) : bool :=
  match a, b with
  | JUndef, JUndef | JNull, JNull => true
  | JBool x, JBool y => Bool.eqb x y
  | JNum x, JNum y => neqb x y || (is_nan x && is_nan y)
  | JStr s, JStr t => s =s? t
  | _, _ => false
  end.
Definition distinct_values (l : list jsval) : list jsval :=
  fold_left (fun acc v => if existsb (same_value v) acc then acc else acc ++ [v]) l [].

Section WithHost.
Context {H : JsHost}.

Definition preserveNetworkRawStatus (raw : jsval) : option string :=
  match raw with
  | JStr s => if s =s? "" then None else Some s
  | JNum _ | JBool _ => Some (js_string raw)
  | _ => None
  end.

Definition normalizeScope (value : jsval) : option string :=
  if blank value then None else Some (to_upper (trim (js_string value))).
Definition sourceScope (row : jsval) : scope :=
  Scope (normalizeScope row@."supplier") (normalizeScope row@."sourceObject") (normalizeScope row@."sourceReport").
Definition hasSourceScope (s : scope) : bool :=
  text_truthy (supplier s) && (text_truthy (sourceObject s) || text_truthy (sourceReport s)).

(** Whether a registry row applies to a scope and raw token. *)
Definition row_applies (s : scope) (raw : option string) (row : jsval) : bool :=
  let rowScope := sourceScope row in
  text_eqb (supplier rowScope) (supplier s)
  && (if text_truthy (sourceReport s)
      then negb (text_truthy (sourceReport rowScope)) || text_eqb (sourceReport rowScope) (sourceReport s)
      else negb (text_truthy (sourceReport rowScope)))
  && (if text_truthy (sourceObject s)
      then text_truthy (sourceObject rowScope) && text_eqb (sourceObject rowScope) (sourceObject s)
      else negb (text_truthy (sourceObject rowScope)))
  && text_eqb (preserveNetworkRawStatus row@."rawStatus") raw.
Definition exactScopedEntries (registry : jsval) (s : scope) (raw : option string) : list jsval :=
  List.filter (row_applies s raw) (as_array registry).

Definition mapped_values (entries : list jsval) (field : string) : list jsval :=
  distinct_values (List.filter truthy (map (fun row => prop row field) entries)).
Definition uniqueMappedValue (entries : list jsval) (field : string) : jsval :=
  match mapped_values entries field with [v] => v | _ => JNull end.

Definition mapping_reason (raw : option string) (s : scope) (entries : list jsval) (field : string) : option string :=
  match raw with
  | None => Some "source_status_missing"
  | Some _ =>
      if negb (hasSourceScope s) then Some "source_context_missing"
      else match entries with
           | [] => Some "source_status_mapping_not_verified"
           | _ => match mapped_values entries field with
                  | [] => Some ("verified_scope_has_no_" +:+ field +:+ "_mapping")
                  | [_] => None
                  | _ => Some "conflicting_verified_mappings"
                  end
           end
  end.

(** The two resolvers differ in the registry field they read. *)
Definition resolve_field (field : string) (raw supplier sourceObject sourceReport registry : jsval) : resolution :=
  let rawStatus := preserveNetworkRawStatus raw in
  let s := Scope (normalizeScope supplier) (normalizeScope sourceObject) (normalizeScope sourceReport) in
  match rawStatus with
  | None => Resolution None JNull false false "SOURCE_NULL" (Some "source_status_missing") s
  | Some _ =>
      let entries := if hasSourceScope s then exactScopedEntries registry s rawStatus else [] in
      let value := uniqueMappedValue entries field in
      let is_mapped := truthy value in
      Resolution rawStatus value is_mapped (negb is_mapped)
        (if is_mapped then "MAPPED" else "REVIEW_REQUIRED")
        (if is_mapped then None else mapping_reason rawStatus s entries field) s
  end.
Definition resolveOrderStatusFromNetworkRaw (raw supplier sourceObject sourceReport registry : jsval) : resolution :=
  resolve_field "mboOrderStatus" raw supplier sourceObject sourceReport registry.
Definition resolveSupplierPaymentStatusFromNetworkRaw (raw supplier sourceObject sourceReport registry : jsval) : resolution :=
  resolve_field "supplierPaymentStatus" raw supplier sourceObject sourceReport registry.

Definition upper_text (v : jsval) : string := to_upper (js_string (v |or| JStr "")).
Definition mapMboOrderStatusToValidation (mboOrderStatus : jsval) : option string :=
  let s := upper_text mboOrderStatus in
  if s =s? "CONFIRMED" then Some "VALIDATION_APPROVED"
  else if (s =s? "REJECTED") || (s =s? "CANCELLED") then Some "VALIDATION_REJECTED"
  else if s =s? "PENDING" then Some "VALIDATION_PENDING"
  else None.
Definition mapMboOrderStatusToConversionStatus (mboOrderStatus : jsval) : option string :=
  let s := upper_text mboOrderStatus in
  if s =s? "CONFIRMED" then Some "APPROVED"
  else if (s =s? "REJECTED") || (s =s? "CANCELLED") then Some "REJECTED"
  else if s =s? "PENDING" then Some "PENDING"
  else None.
Definition mapNetworkRawToSupplierPayment (raw supplier sourceObject sourceReport registry : jsval) : jsval :=
  resolved (resolveSupplierPaymentStatusFromNetworkRaw raw supplier sourceObject sourceReport registry).

Definition mboOrderStatusLabel (status : jsval) : option string :=
  if negb (truthy status) then None
  else
    let s := to_upper (js_string status) in
    Some (if s =s? "PENDING" then "Pending"
          else if s =s? "CONFIRMED" then "Confirmed"
          else if s =s? "REJECTED" then "Rejected"
          else if s =s? "CANCELLED" then "Cancelled"
          else js_string status).

Definition buildOrderStatusMetadata (existing resolution : jsval) : jsval :=
  let base := as_object existing in
  spread base (JObj
    [("network_raw_status", resolution@."networkRawStatus" ?? base@."network_raw_status" ?? JNull);
     ("networkRawStatus", resolution@."networkRawStatus" ?? base@."networkRawStatus" ?? JNull);
     ("mboOrderStatus", resolution@."mboOrderStatus" ?? base@."mboOrderStatus" ?? JNull);
     ("statusMappingExceptionRequired",
       resolution@."mappingExceptionRequired" ?? base@."statusMappingExceptionRequired" ?? JBool false);
     ("statusMappingStatus", resolution@."mappingStatus" ?? base@."statusMappingStatus" ?? JNull);
     ("statusMappingReason", resolution@."mappingReason" ?? base@."statusMappingReason" ?? JNull);
     ("statusMappingSupplier", resolution@."supplier" ?? base@."statusMappingSupplier" ?? JNull);
     ("statusMappingSourceObject", resolution@."sourceObject" ?? base@."statusMappingSourceObject" ?? JNull);
     ("statusMappingSourceReport", resolution@."sourceReport" ?? base@."statusMappingSourceReport" ?? JNull)]).

End WithHost.
End StatusNormalization.

Module OrderMerge.
Import StatusNormalization.
Section WithHost.
Context {H : JsHost}.

Definition isPresent (value : jsval) : bool := negb (blank value).

Definition mergeScalar (existing incoming : jsval) (forceNull : bool) : jsval :=
  if forceNull then JNull
  else if negb (isPresent incoming) then existing ?? JNull
  else incoming.

Definition mergeMetadata (existing incoming : jsval) : jsval :=
  spread (as_object existing) (as_object incoming).

Definition patch_fields : list string :=
  ["clientId"; "merchantId"; "canonicalCampaignId"; "campaignSourceId"; "clientAssignmentId"; "clickId";
   "orderValue"; "currency"; "orderDate"; "rawPayloadId"].

(** Whether the upsert writes a field. *)
Definition writes_field (existing incoming : jsval) (field : string) : bool :=
  has_own incoming field && isPresent (prop incoming field)
  && negb (js_string (prop incoming field) =s? js_string (prop existing field ?? JStr "")).

Definition buildOrderPatch (existing incoming : jsval) : list (string * jsval) :=
  map (fun field => (field, prop incoming field)) (List.filter (writes_field existing incoming) patch_fields)
  ++ (if nullish incoming@."metadata" then []
      else [("metadata", mergeMetadata existing@."metadata" incoming@."metadata")]).

Definition resolveSupplierOrderId (supplierOrderId supplierConversionId : jsval) : option string :=
  if isPresent supplierOrderId then Some (js_string supplierOrderId)
  else if isPresent supplierConversionId then Some ("conv:" +:+ js_string supplierConversionId)
  else None.

Definition mapConversionStatusToValidation (status : jsval) : option string :=
  let value := to_upper (trim (js_string (status |or| JStr ""))) in
  if value =s? "" then None
  else if (value =s? "APPROVED") || (value =s? "CONFIRMED") then Some "VALIDATION_APPROVED"
  else if value =s? "REJECTED" then Some "VALIDATION_REJECTED"
  else if value =s? "PENDING" then Some "VALIDATION_PENDING"
  else Some "VALIDATION_NEEDS_REVIEW".

Definition mapConversionStatusToSupplierPayment (status : jsval) : option string :=
  let r := resolved (resolveOrderStatusFromNetworkRaw status JNull JNull JNull VERIFIED_NETWORK_STATUS_REGISTRY) in
  if (r === "REJECTED") || (r === "CANCELLED") then Some "PAYMENT_ON_HOLD" else None.

Definition mapLegacyConversionStatus (validationStatus : string) : option string :=
  if validationStatus =s? "VALIDATION_REJECTED" then Some "REJECTED"
  else if validationStatus =s? "VALIDATION_APPROVED" then Some "CONFIRMED"
  else if validationStatus =s? "VALIDATION_NEEDS_REVIEW" then None
  else Some "PENDING".

End WithHost.
End OrderMerge.

Module OrderStatusFacts.
Import StatusNormalization OrderMerge.
Section WithHost.
Context {H : JsHost}.

(** ** Status resolution *)

Lemma distinct_values_spec l acc :
  let r := fold_left (fun acc v => if existsb (same_value v) acc then acc else acc ++ [v]) l acc in
  (forall x, x ∈ acc -> x ∈ r) /\ (forall x, x ∈ r -> x ∈ acc \/ x ∈ l) /\
  (forall w, w ∈ l -> exists v, v ∈ r /\ (w = v \/ same_value w v = true)).
Proof.
  revert acc. induction l as [|x l IH]; intros acc; cbn; [split_and!; auto; set_solver|].
  destruct (existsb (same_value x) acc) eqn:E.
  - destruct (IH acc) as (H1 & H2 & H3). split_and!; [auto| |].
    + intros y Hy. destruct (H2 y Hy); auto. right. now right.
    + intros w [->|Hw]%elem_of_cons; [|auto]. apply existsb_exists in E as (v & Hv & Hs).
      exists v. split; [apply H1, list_elem_of_In; exact Hv|auto].
  - destruct (IH (acc ++ [x])) as (H1 & H2 & H3). split_and!.
    + intros y Hy. apply H1. set_solver.
    + intros y Hy. destruct (H2 y Hy) as [Hin|]; [|set_solver]. set_solver.
    + intros w [->|Hw]%elem_of_cons; [|auto]. exists x. split; [apply H1; set_solver|auto].
Qed.

(** A status is mapped only by verified rows of exactly this supplier, source and raw
    token, and only when all such rows that map the field agree. *)
Theorem mapped_status_is_verified field raw sup obj rep registry :
  mapped (resolve_field field raw sup obj rep registry) = true ->
  let r := resolve_field field raw sup obj rep registry in
  hasSourceScope (r_scope r) = true /\
  (exists row, row ∈ as_array registry /\ row_applies (r_scope r) (networkRawStatus r) row = true /\
     prop row field = resolved r /\ truthy (resolved r) = true) /\
  (forall row, row ∈ as_array registry -> row_applies (r_scope r) (networkRawStatus r) row = true ->
     truthy (prop row field) = true -> prop row field = resolved r \/ same_value (prop row field) (resolved r) = true).
Proof.
  unfold resolve_field. set (s := Scope _ _ _).
  destruct (preserveNetworkRawStatus raw) as [t|]; [|discriminate]. cbn.
  destruct (hasSourceScope s); [|discriminate]. intros Hm. split; [reflexivity|].
  unfold uniqueMappedValue in *. destruct (mapped_values _ _) as [|v [|]] eqn:Ev; [discriminate| |discriminate].
  unfold mapped_values, distinct_values in Ev.
  destruct (distinct_values_spec (List.filter truthy (map (fun row => prop row field)
    (exactScopedEntries registry s (Some t)))) []) as (_ & H2 & H3).
  rewrite Ev in H2, H3. split.
  - destruct (H2 v) as [Hin|Hin]; [now left|now apply not_elem_of_nil in Hin|].
    apply elem_of_filter_bool in Hin as [Hin Ht]. apply list_elem_of_fmap in Hin as (row & -> & Hrow).
    apply elem_of_filter_bool in Hrow as [Hrow Happ]. eauto.
  - intros row Hrow Happ Ht.
    destruct (H3 (prop row field)) as (w & Hw & Hor); [|apply list_elem_of_singleton in Hw as ->; exact Hor].
    apply elem_of_filter_bool. split; [|exact Ht]. apply list_elem_of_fmap. exists row.
    split; [reflexivity|]. apply elem_of_filter_bool. auto.
Qed.

(** With the registry as shipped no network token changes an order or a payment state:
    every raw status is either absent or sent to review, and no conversion status puts a
    supplier payment on hold. *)
Theorem shipped_registry_never_guesses field raw sup obj rep :
  let r := resolve_field field raw sup obj rep VERIFIED_NETWORK_STATUS_REGISTRY in
  mapped r = false /\ resolved r = JNull /\
  mappingStatus r = (match preserveNetworkRawStatus raw with Some _ => "REVIEW_REQUIRED" | None => "SOURCE_NULL" end) /\
  mappingExceptionRequired r = bool_decide (is_Some (preserveNetworkRawStatus raw)) /\
  mapConversionStatusToSupplierPayment raw = None.
Proof.
  unfold mapConversionStatusToSupplierPayment, resolveOrderStatusFromNetworkRaw, resolve_field.
  destruct (preserveNetworkRawStatus raw) as [t|]; [|cbn; auto]. set (sc := Scope (normalizeScope sup) _ _).
  unfold exactScopedEntries. cbn. destruct (hasSourceScope sc); cbn; auto.
Qed.

(** ** Order merge *)

Lemma patch_keys_nodup existing incoming : NoDup (map fst (buildOrderPatch existing incoming)).
Proof.
  unfold buildOrderPatch. rewrite map_app, map_map. cbn [fst]. rewrite map_id.
  apply NoDup_app. split_and!.
  - apply NoDup_ListNoDup, List.NoDup_filter, NoDup_ListNoDup. compute_done.
  - intros x [Hx _]%elem_of_filter_bool. destruct (nullish _); cbn; [set_solver|].
    intros ->%list_elem_of_singleton. unfold patch_fields in Hx. set_solver.
  - destruct (nullish _); cbn; [constructor|apply NoDup_singleton].
Qed.

Lemma assoc_map_filter {A} (f : string -> A) (p : string -> bool) l k :
  assoc k (map (fun x => (x, f x)) (List.filter p l)) =
  if existsb (fun x => (x =s? k) && p x) l then Some (f k) else None.
Proof.
  induction l as [|x l IH]; [reflexivity|]. cbn. destruct (p x) eqn:Ep; cbn.
  - destruct (x =s? k) eqn:E; cbn; [apply String.eqb_eq in E as ->; reflexivity|exact IH].
  - rewrite andb_false_r. exact IH.
Qed.


Definition apply_patch (existing : jsval) (patch : list (string * jsval)) : jsval := spread existing (JObj patch).

(** The value of a patched field after the upsert. *)
Lemma patched_field existing incoming field :
  field ∈ patch_fields ->
  prop (apply_patch existing (buildOrderPatch existing incoming)) field =
  if writes_field existing incoming field then prop incoming field else prop existing field.
Proof.
  intros Hf. unfold apply_patch. rewrite prop_spread by apply patch_keys_nodup. cbn [obj_fields].
  unfold buildOrderPatch. rewrite assoc_app, assoc_map_filter.
  destruct (writes_field existing incoming field) eqn:Ew.
  - replace (existsb _ patch_fields) with true; [reflexivity|]. symmetry. apply existsb_exists.
    exists field. rewrite String.eqb_refl, Ew. split; [now apply list_elem_of_In|reflexivity].
  - replace (existsb _ patch_fields) with false.
    + destruct (nullish _); [reflexivity|]. cbn [assoc].
      destruct ("metadata" =s? field) eqn:E; [|reflexivity]. apply String.eqb_eq in E as <-.
      unfold patch_fields in Hf. set_solver.
    + symmetry. apply not_true_iff_false. intros (x & _ & Hx)%existsb_exists. split_bools. congruence.
Qed.

(** An order upsert never erases a known value, and repeating it writes no field. *)
Theorem order_patch_monotone existing incoming field :
  field ∈ patch_fields ->
  let updated := apply_patch existing (buildOrderPatch existing incoming) in
  (isPresent (prop existing field) = true -> isPresent (prop updated field) = true) /\
  writes_field updated incoming field = false.
Proof.
  intros Hf. cbv zeta. unfold writes_field at 1. rewrite patched_field by exact Hf.
  destruct (writes_field existing incoming field) eqn:Ew.
  - unfold writes_field in Ew. split_bools. split; [auto|].
    unfold isPresent in *. split_bools. unfold coalesce.
    replace (nullish (prop incoming field)) with false
      by (symmetry; destruct (nullish (prop incoming field)) eqn:E; [|reflexivity];
          unfold blank in *; rewrite E in *; discriminate).
    rewrite String.eqb_refl. cbn. apply andb_false_r.
  - split; [auto|exact Ew].
Qed.
End WithHost.
End OrderStatusFacts.
