(* ===== verification/Recon.v ===== *)
(** * Approved basis and reconciliation

    [modules/order/approvedCommercialBasis.js]: the order value and supplier commission
    that item validation leaves approved.  [modules/finance/reconciliationLogic.contract.js]:
    the five pairwise checks between network, MBO and client amounts, and the release
    block derived from them. *)

From Stdlib Require Import SpecFloat.
From Stdlib Require Sorting.Mergesort.
From S2P Require Import Prelude JsNum JsOrder JsVal.
Local Open Scope Z_scope.

(** ** approvedCommercialBasis.js *)

Module ApprovedBasis.

(** Code-unit order on texts, for [Array.prototype.sort]. *)
Module TextOrder <: Orders.TotalLeBool.
Definition t := string.
Definition leb (a b : string) : bool := match String.compare a b with Gt => false | _ => true end.
Lemma leb_total a b : leb a b = true \/ leb b a = true.
Proof.
  unfold leb. rewrite (String.compare_antisym b a). destruct (String.compare a b); cbn; auto.
Qed.
End TextOrder.
Module TextSort := Mergesort.Sort TextOrder.

Section WithHost.
Context {H : JsHost}.

Definition numOrNull (value : jsval) : option num := finite_number value.

Definition upper_currency (v : jsval) : jsval := if truthy v then JStr (to_upper (js_string v)) else v.
Definition basis_currency (order conversion : jsval) : jsval :=
  upper_currency order@."currency" |or| upper_currency conversion@."currency" |or| JNull.

(** [item.validationStatus == null || item.validationStatus === "" ? null : String(...)] *)
Definition item_status (item : jsval) : option string :=
  if blank item@."validationStatus" then None else Some (js_string item@."validationStatus").
Definition has_status (s : string) (item : jsval) : bool :=
  match item_status item with Some t => t =s? s | None => false end.
Definition item_approved : jsval -> bool := has_status "VALIDATION_APPROVED".
Definition item_rejected : jsval -> bool := has_status "VALIDATION_REJECTED".
Definition item_pending : jsval -> bool := has_status "VALIDATION_PENDING".
Definition item_needs_review : jsval -> bool := has_status "VALIDATION_NEEDS_REVIEW".
Definition item_unknown (item : jsval) : bool :=
  negb (item_approved item) && negb (item_rejected item) && negb (item_pending item)
  && negb (item_needs_review item).

Definition count (p : jsval -> bool) (items : list jsval) : nat := length (List.filter p items).
Definition JNat (n : nat) : jsval := JNum (num_of_Z (Z.of_nat n)).

(** The summing loop: [None] once an approved line has no usable amount ([break]). *)
Fixpoint sum_field (field : string) (acc : num) (approved : list jsval) : option num :=
  match approved with
  | [] => Some acc
  | item :: rest =>
      match numOrNull (prop item field) with
      | Some v => if nltb v n0 then None else sum_field field (nadd acc v) rest
      | None => None
      end
  end.

Definition order_items (order : jsval) : list jsval := as_array order@."items".
Definition has_item_level (items : list jsval) : bool :=
  existsb (fun i => negb (blank i@."validationStatus")) items.
Definition all_items_approved (items : list jsval) : bool :=
  negb (length items =? 0)%nat && (count item_approved items =? length items)%nat
  && (count item_rejected items =? 0)%nat && (count item_pending items =? 0)%nat
  && (count item_needs_review items =? 0)%nat && (count item_unknown items =? 0)%nat.

Definition ok_amount (o : option num) : jsval :=
  match o with Some x => JBool (nleb n0 x) | None => JBool false end.
Definition rounded (o : option num) : jsval :=
  match o with Some x => JNum (round4 x) | None => JNull end.

Definition legacy_basis (order conversion : jsval) (items : list jsval) : jsval :=
  let fullOrderValue := numOrNull order@."orderValue" in
  let fullSupplier := numOrNull (if negb (blank conversion@."approvedCommission")
                                 then conversion@."approvedCommission" else conversion@."supplierCommission") in
  JObj [("ok", JBool true); ("basisMode", JStr "FULL_ORDER_LEGACY");
        ("approvedItemCount", JNat 0); ("rejectedItemCount", JNat 0); ("pendingItemCount", JNat 0);
        ("needsReviewItemCount", JNat 0); ("unknownItemCount", JNat (length items));
        ("totalItemCount", JNat (length items)); ("allItemsApproved", JBool true);
        ("approvedOrderValue", of_option_num fullOrderValue);
        ("approvedSupplierCommission", of_option_num fullSupplier);
        ("approvedOrderValueOk", ok_amount fullOrderValue);
        ("approvedSupplierCommissionOk", ok_amount fullSupplier);
        ("currency", basis_currency order conversion);
        ("source", JObj [("orderValue", JStr "order.orderValue_or_conversion_metadata_via_engine");
                         ("supplierCommission", JStr "conversion.approvedCommission|supplierCommission")]);
        ("approvedLineKeys", JArr [])].

Definition item_basis (order conversion : jsval) (items : list jsval) : jsval :=
  let approved := List.filter item_approved items in
  let approvedOrderValue := sum_field "itemValue" n0 approved in
  let approvedSupplierCommission := sum_field "commission" n0 approved in
  JObj [("ok", JBool true); ("basisMode", JStr "ITEM_LEVEL");
        ("approvedItemCount", JNat (count item_approved items));
        ("rejectedItemCount", JNat (count item_rejected items));
        ("pendingItemCount", JNat (count item_pending items));
        ("needsReviewItemCount", JNat (count item_needs_review items));
        ("unknownItemCount", JNat (count item_unknown items));
        ("totalItemCount", JNat (length items));
        ("allItemsApproved", JBool (all_items_approved items));
        ("approvedOrderValue", rounded approvedOrderValue);
        ("approvedSupplierCommission", rounded approvedSupplierCommission);
        ("approvedOrderValueOk", ok_amount approvedOrderValue);
        ("approvedSupplierCommissionOk", ok_amount approvedSupplierCommission);
        ("currency", basis_currency order conversion);
        ("source", JObj [("orderValue", JStr "sum(orderItem.itemValue where VALIDATION_APPROVED)");
                         ("supplierCommission", JStr "sum(orderItem.commission where VALIDATION_APPROVED)");
                         ("neverUsedProductPrice", JBool true)]);
        ("approvedLineKeys", JArr (map (fun i => i@."lineKey" ?? i@."id") approved))].

Definition resolveApprovedCommercialBasis (order conversion : jsval) : jsval :=
  let items := order_items order in
  if negb (has_item_level items) then legacy_basis order conversion items
  else item_basis order conversion items.

Definition approvedBasisFingerprint (basis : jsval) : string :=
  if negb (truthy basis) then "none"
  else if basis@."basisMode" === "FULL_ORDER_LEGACY" then "legacy:full"
  else
    let keys := join "," (TextSort.sort (map js_string (as_array basis@."approvedLineKeys"))) in
    "items:" +:+ keys +:+ "|ov:" +:+ js_string (basis@."approvedOrderValue" ?? JStr "x")
    +:+ "|sc:" +:+ js_string (basis@."approvedSupplierCommission" ?? JStr "x").

End WithHost.
End ApprovedBasis.

(** ** reconciliationLogic.contract.js *)

Module ReconciliationLogic.

Definition NETWORK_ORDERS_VS_MBO_ORDERS : string := "NETWORK_ORDERS_VS_MBO_ORDERS".
Definition NETWORK_COMMISSION_VS_MBO_GROSS : string := "NETWORK_COMMISSION_VS_MBO_GROSS".
Definition NETWORK_INVOICE_VS_NETWORK_PAYMENT : string := "NETWORK_INVOICE_VS_NETWORK_PAYMENT".
Definition NETWORK_PAYMENT_VS_MBO_RECEIPT : string := "NETWORK_PAYMENT_VS_MBO_RECEIPT".
Definition MBO_RECEIPT_VS_CLIENT_PAYABLE : string := "MBO_RECEIPT_VS_CLIENT_PAYABLE".

Definition pair_labels : list (string * string) :=
  [(NETWORK_ORDERS_VS_MBO_ORDERS, "Network Orders vs MBO Orders");
   (NETWORK_COMMISSION_VS_MBO_GROSS, "Network Commission vs MBO Gross");
   (NETWORK_INVOICE_VS_NETWORK_PAYMENT, "Network Invoice vs Network Payment");
   (NETWORK_PAYMENT_VS_MBO_RECEIPT, "Network Payment vs MBO Receipt");
   (MBO_RECEIPT_VS_CLIENT_PAYABLE, "MBO Receipt vs Client Payable")].

(** [0.01] *)
Definition DEFAULT_MATERIALITY_THRESHOLD : num := num_of_decimal 1 (-2).
Definition COUNT_MATERIALITY_THRESHOLD : num := n0.

Definition CLIENT_PAYABLE_BLOCKING_PAIRS : list string :=
  [NETWORK_PAYMENT_VS_MBO_RECEIPT; MBO_RECEIPT_VS_CLIENT_PAYABLE; NETWORK_COMMISSION_VS_MBO_GROSS].

Inductive check_status := MATCHED | MISMATCH | CANNOT_RECONCILE | SKIPPED.
#[export] Instance check_status_eq_dec : EqDecision check_status.
Proof. solve_decision. Defined.

Record check := MkCheck {
  pair_name : string;
  label : string;
  c_status : check_status;
  reasonCode : option string;
  ok : bool;
  skipped : bool;
  sourceDataMissing : bool;
  material : bool;
  left : option num;
  right : option num;
  leftLabel : string;
  rightLabel : string;
  difference : option num;
  mismatchReason : option string
}.

Section WithHost.
Context {H : JsHost}.

Definition toNumber (value : jsval) : option num := finite_number value.

Definition delta_text (prefix : string) (difference : num) (text : string) : string :=
  prefix +:+ (if nltb n0 difference then "+" else "") +:+ text.

Definition buildCheck (pair : string) (l r : jsval) (leftLabel rightLabel : string)
    (materialityThreshold : num) (isCount : bool) : check :=
  let label := default "" (assoc pair pair_labels) in
  match toNumber l, toNumber r with
  | None, None =>
      MkCheck pair label SKIPPED None true true false false None None leftLabel rightLabel None None
  | None, Some rightNum =>
      MkCheck pair label CANNOT_RECONCILE (Some "SOURCE_DATA_MISSING") false false true true
        None (Some rightNum) leftLabel rightLabel None (Some (leftLabel +:+ " missing"))
  | Some leftNum, None =>
      MkCheck pair label CANNOT_RECONCILE (Some "SOURCE_DATA_MISSING") false false true true
        (Some leftNum) None leftLabel rightLabel None (Some (rightLabel +:+ " missing"))
  | Some leftNum, Some rightNum =>
      let difference := nsub leftNum rightNum in
      let threshold := if isCount then COUNT_MATERIALITY_THRESHOLD else materialityThreshold in
      let absDiff := nabs difference in
      let is_ok := nleb absDiff threshold in
      MkCheck pair label (if is_ok then MATCHED else MISMATCH) None is_ok false false
        (negb is_ok && nltb threshold absDiff) (Some leftNum) (Some rightNum) leftLabel rightLabel
        (Some difference)
        (if is_ok then None
         else if isCount then Some (delta_text "Count delta " difference (num_to_string difference))
         else Some (delta_text "Amount delta " difference (num_toFixed 4 difference)))
  end.

(** The arguments of [runReconciliationChecks]. *)
Record recon_inputs := ReconInputs {
  networkOrderCount : jsval; mboOrderCount : jsval;
  networkCommission : jsval; mboGrossNetworkCommission : jsval;
  networkInvoiceAmount : jsval; networkPaymentAmount : jsval;
  mboActualReceiptAmount : jsval; clientPayableAmount : jsval;
  materialityThreshold : num
}.

Definition recon_checks (i : recon_inputs) : list check :=
  let t := materialityThreshold i in
  [buildCheck NETWORK_ORDERS_VS_MBO_ORDERS (networkOrderCount i) (mboOrderCount i)
     "Network orders" "MBO orders" t true;
   buildCheck NETWORK_COMMISSION_VS_MBO_GROSS (networkCommission i) (mboGrossNetworkCommission i)
     "Network commission" "MBO gross network commission" t false;
   buildCheck NETWORK_INVOICE_VS_NETWORK_PAYMENT (networkInvoiceAmount i) (networkPaymentAmount i)
     "Network invoice" "Network payment" t false;
   buildCheck NETWORK_PAYMENT_VS_MBO_RECEIPT (networkPaymentAmount i) (mboActualReceiptAmount i)
     "Network payment" "MBO actual receipt" t false;
   buildCheck MBO_RECEIPT_VS_CLIENT_PAYABLE (mboActualReceiptAmount i) (clientPayableAmount i)
     "MBO actual receipt" "Client payable" t false].

Record recon_result := ReconResult {
  checks : list check;
  allMatched : bool;
  hasMaterialMismatch : bool;
  hasSourceDataMissing : bool;
  cannotReconcile : list check;
  materialMismatches : list check;
  openMismatches : list check;
  summaryStatus : check_status
}.

Definition is_status (s : check_status) (c : check) : bool := bool_decide (c_status c = s).
Definition nonempty {A} (l : list A) : bool := match l with [] => false | _ => true end.

Definition runReconciliationChecks (i : recon_inputs) : recon_result :=
  let cs := recon_checks i in
  let cannot := List.filter (is_status CANNOT_RECONCILE) cs in
  let mat := List.filter material cs in
  let open := List.filter (fun c => negb (ok c) && negb (skipped c)) cs in
  ReconResult cs (negb (nonempty open)) (nonempty mat) (nonempty cannot) cannot mat open
    (if nonempty cannot then CANNOT_RECONCILE else if nonempty open then MISMATCH else MATCHED).

Definition shouldBlockClientPayableRelease (cs : list check) : bool :=
  existsb (fun c => existsb (String.eqb (pair_name c)) CLIENT_PAYABLE_BLOCKING_PAIRS
                    && negb (is_status MATCHED c)) cs.

Definition status_text (s : check_status) : string :=
  match s with
  | MATCHED => "MATCHED" | MISMATCH => "MISMATCH"
  | CANNOT_RECONCILE => "CANNOT_RECONCILE" | SKIPPED => "SKIPPED"
  end.

(** A check as the object it is in the source. *)
Definition check_object (c : check) : jsval :=
  JObj
    [("pair", JStr (pair_name c)); ("label", JStr (label c)); ("status", JStr (status_text (c_status c)));
     ("reasonCode", of_option_str (reasonCode c)); ("ok", JBool (ok c)); ("skipped", JBool (skipped c));
     ("sourceDataMissing", JBool (sourceDataMissing c)); ("material", JBool (material c));
     ("left", of_option_num (left c)); ("right", of_option_num (right c));
     ("leftLabel", JStr (leftLabel c)); ("rightLabel", JStr (rightLabel c));
     ("difference", of_option_num (difference c)); ("mismatchReason", of_option_str (mismatchReason c))].
Definition summarizeChecksForUi (cs : list check) : list jsval := map check_object cs.

Definition resolveNetworkReconRowStatus (r : option recon_result) : string :=
  match r with
  | None => "UNKNOWN"
  | Some r =>
      if hasSourceDataMissing r then "CANNOT_RECONCILE"
      else if allMatched r then "MATCHED"
      else if hasMaterialMismatch r then "MISMATCH"
      else if nonempty (openMismatches r) then "PARTIAL"
      else "PENDING"
  end.

End WithHost.
End ReconciliationLogic.

Module ReconFacts.
Import ApprovedBasis ReconciliationLogic.
Section WithHost.
Context {H : JsHost}.

(** ** Reconciliation *)

(** Both sides are known numbers whose difference is within the threshold. *)
Definition agree (threshold : num) (l r : jsval) : Prop :=
  exists x y, toNumber l = Some x /\ toNumber r = Some y /\ nleb (nabs (nsub x y)) threshold = true.

Lemma buildCheck_matched pair l r ll rl t isCount :
  c_status (buildCheck pair l r ll rl t isCount) = MATCHED <->
  agree (if isCount then COUNT_MATERIALITY_THRESHOLD else t) l r.
Proof.
  unfold buildCheck, agree.
  destruct (toNumber l) as [x|], (toNumber r) as [y|]; cbn; split;
    try discriminate; try (intros (? & ? & ? & ? & ?); discriminate).
  - destruct (nleb _ _) eqn:E; [intros _; eauto|discriminate].
  - intros (? & ? & [= <-] & [= <-] & ->). reflexivity.
Qed.

Lemma release_agreements i :
  shouldBlockClientPayableRelease (checks (runReconciliationChecks i)) = false <->
  agree (materialityThreshold i) (networkCommission i) (mboGrossNetworkCommission i) /\
  agree (materialityThreshold i) (networkPaymentAmount i) (mboActualReceiptAmount i) /\
  agree (materialityThreshold i) (mboActualReceiptAmount i) (clientPayableAmount i).
Proof.
  assert (Hname : forall p l r ll rl t k, pair_name (buildCheck p l r ll rl t k) = p)
    by (intros; unfold buildCheck; repeat case_match; reflexivity).
  assert (Hst : forall p l r ll rl t, negb (is_status MATCHED (buildCheck p l r ll rl t false)) = false <-> agree t l r).
  { intros. rewrite negb_false_iff. unfold is_status. rewrite bool_decide_eq_true. apply buildCheck_matched. }
  unfold shouldBlockClientPayableRelease, runReconciliationChecks, recon_checks.
  cbn [checks existsb]. rewrite !Hname, !orb_false_iff, !andb_false_iff, !Hst. cbn. intuition discriminate.
Qed.

(** A client payable is released exactly when the network commission, the network
    payment and the client payable each agree with their MBO counterpart; a missing
    side never counts as agreement. *)
Theorem release_needs_three_agreements i :
  shouldBlockClientPayableRelease (checks (runReconciliationChecks i)) = false <->
  agree (materialityThreshold i) (networkCommission i) (mboGrossNetworkCommission i) /\
  agree (materialityThreshold i) (networkPaymentAmount i) (mboActualReceiptAmount i) /\
  agree (materialityThreshold i) (mboActualReceiptAmount i) (clientPayableAmount i).
Proof. apply release_agreements. Qed.

(** A one-sided check is never silently accepted, and a check with no evidence on either
    side is skipped, which still blocks a release. *)
Theorem missing_side_blocks pair l r ll rl t isCount :
  toNumber l = None \/ toNumber r = None ->
  let c := buildCheck pair l r ll rl t isCount in
  c_status c <> MATCHED /\ difference c = None /\
  (c_status c = CANNOT_RECONCILE <-> toNumber l <> None \/ toNumber r <> None) /\
  (pair ∈ CLIENT_PAYABLE_BLOCKING_PAIRS -> shouldBlockClientPayableRelease [c] = true).
Proof.
  intros Hmiss. cbv zeta. unfold shouldBlockClientPayableRelease, buildCheck.
  destruct (toNumber l), (toNumber r); try (destruct Hmiss; discriminate); cbn [existsb c_status difference pair_name];
    (split_and!; [discriminate|reflexivity|intuition congruence|
       intros Hp; rewrite orb_false_r; apply andb_true_iff; split; [|reflexivity];
       apply existsb_exists; exists pair; split; [now apply list_elem_of_In|apply String.eqb_refl]]).
Qed.

Lemma open_check_material p l r ll rl t k :
  let c := buildCheck p l r ll rl t k in
  is_nan t = false -> (forall d, difference c = Some d -> is_nan d = false) ->
  negb (ok c) && negb (skipped c) = true -> material c = true.
Proof.
  cbv zeta. intros Ht Hd Hopen. unfold buildCheck in *.
  destruct (toNumber l) as [x|], (toNumber r) as [y|]; try reflexivity; [|discriminate Hopen].
  cbn [ok skipped material difference negb] in *. rewrite andb_true_r in Hopen. rewrite Hopen. cbn [andb].
  specialize (Hd _ eq_refl).
  assert (Hk : is_nan (if k then COUNT_MATERIALITY_THRESHOLD else t) = false) by (now destruct k).
  assert (Ha : is_nan (nabs (nsub x y)) = false) by (now destruct (nsub x y)).
  apply nltb_spec; [assumption..|]. rewrite <- nleb_spec by assumption.
  apply negb_true_iff in Hopen. rewrite Hopen. discriminate.
Qed.

(** Every open mismatch is material (the threshold is a number and the difference does not
    overflow), so a row status is one of three verdicts. *)
Theorem recon_row_status i :
  is_nan (materialityThreshold i) = false ->
  (forall c d, c ∈ recon_checks i -> difference c = Some d -> is_nan d = false) ->
  resolveNetworkReconRowStatus (Some (runReconciliationChecks i)) =
  status_text (summaryStatus (runReconciliationChecks i)).
Proof.
  intros Ht Hd. unfold resolveNetworkReconRowStatus, runReconciliationChecks.
  cbn [hasSourceDataMissing allMatched hasMaterialMismatch openMismatches summaryStatus].
  destruct (nonempty (List.filter (is_status CANNOT_RECONCILE) _)); [reflexivity|].
  destruct (List.filter (fun c => negb (ok c) && negb (skipped c)) (recon_checks i)) as [|c l] eqn:Eo; [reflexivity|].
  cbn [nonempty negb status_text].
  assert (Hc : c ∈ List.filter (fun c => negb (ok c) && negb (skipped c)) (recon_checks i)) by (rewrite Eo; left).
  apply elem_of_filter_bool in Hc as [Hin Hopen].
  assert (Hm : material c = true).
  { assert (Hshape : exists p l r ll rl k, c = buildCheck p l r ll rl (materialityThreshold i) k).
    { unfold recon_checks in Hin. rewrite !elem_of_cons, elem_of_nil in Hin. intuition (subst; eauto 10). }
    destruct Hshape as (p & l0 & r0 & ll & rl & k & ->). apply open_check_material; [exact Ht|eauto|exact Hopen]. }
  destruct (List.filter material (recon_checks i)) eqn:Em; [|reflexivity].
  assert (Hin' : c ∈ List.filter material (recon_checks i)) by (apply elem_of_filter_bool; auto).
  rewrite Em in Hin'. now apply not_elem_of_nil in Hin'.
Qed.

(** ** Approved basis *)

Lemma has_status_excl s t item : s <> t -> has_status s item = true -> has_status t item = false.
Proof.
  unfold has_status. destruct (item_status item); [|discriminate]. intros Hne E%String.eqb_eq. subst.
  now apply String.eqb_neq.
Qed.

Lemma count_cons p x l : count p (x :: l) = ((if p x then 1 else 0) + count p l)%nat.
Proof. unfold count. cbn. now destruct (p x). Qed.

(** Every item is counted under exactly one status. *)
Lemma counts_partition items :
  (count item_approved items + count item_rejected items + count item_pending items
   + count item_needs_review items + count item_unknown items)%nat = length items.
Proof.
  induction items as [|x l IH]; [reflexivity|]. rewrite !count_cons. cbn [length]. rewrite <- IH.
  unfold item_unknown.
  pose proof (has_status_excl "VALIDATION_APPROVED" "VALIDATION_REJECTED" x ltac:(discriminate)).
  pose proof (has_status_excl "VALIDATION_APPROVED" "VALIDATION_PENDING" x ltac:(discriminate)).
  pose proof (has_status_excl "VALIDATION_APPROVED" "VALIDATION_NEEDS_REVIEW" x ltac:(discriminate)).
  pose proof (has_status_excl "VALIDATION_REJECTED" "VALIDATION_PENDING" x ltac:(discriminate)).
  pose proof (has_status_excl "VALIDATION_REJECTED" "VALIDATION_NEEDS_REVIEW" x ltac:(discriminate)).
  pose proof (has_status_excl "VALIDATION_PENDING" "VALIDATION_NEEDS_REVIEW" x ltac:(discriminate)).
  fold item_approved item_rejected item_pending item_needs_review in *.
  destruct (item_approved x), (item_rejected x), (item_pending x), (item_needs_review x); cbn;
    intuition (try discriminate); lia.
Qed.

Lemma count_all p items : count p items = length items <-> Forall (fun i => p i = true) items.
Proof.
  induction items as [|x l IH]; [split; [constructor|reflexivity]|].
  rewrite count_cons, Forall_cons, <- IH. cbn [length].
  assert (count p l <= length l)%nat by (unfold count; apply List.filter_length_le).
  destruct (p x); split; [intros; split; [reflexivity|lia]|intros [_ ?]; lia|lia|intros [? _]; discriminate].
Qed.

(** The item counts of a basis partition the order's items, and the flag that lets a
    fixed amount be paid is set exactly when every item is approved. *)
Theorem basis_counts_items items :
  (count item_approved items + count item_rejected items + count item_pending items
   + count item_needs_review items + count item_unknown items)%nat = length items /\
  (all_items_approved items = true <-> items <> [] /\ Forall (fun i => item_approved i = true) items).
Proof.
  pose proof (counts_partition items) as Hp. split; [exact Hp|]. rewrite <- count_all.
  unfold all_items_approved. rewrite !andb_true_iff, negb_true_iff, !Nat.eqb_eq, Nat.eqb_neq.
  destruct items; cbn [length] in *; [split; [intros ((((( ? & _) & _) & _) & _) & _); lia|intros [? _]; contradiction]|].
  intuition (discriminate || lia).
Qed.

(** Only approved items contribute: two orders with item validation and the same approved
    items (whatever the others hold) have the same approved amounts and lines. *)
Theorem basis_ignores_unapproved order order' conversion field :
  has_item_level (order_items order) = true -> has_item_level (order_items order') = true ->
  List.filter item_approved (order_items order) = List.filter item_approved (order_items order') ->
  field ∈ ["approvedOrderValue"; "approvedSupplierCommission"; "approvedOrderValueOk";
           "approvedSupplierCommissionOk"; "approvedLineKeys"; "approvedItemCount"] ->
  prop (resolveApprovedCommercialBasis order conversion) field =
  prop (resolveApprovedCommercialBasis order' conversion) field.
Proof.
  intros Hl Hl' Heq Hf. unfold resolveApprovedCommercialBasis. rewrite Hl, Hl'. cbn [negb].
  unfold item_basis, count. rewrite Heq. rewrite !elem_of_cons, elem_of_nil in Hf.
  intuition (subst; reflexivity).
Qed.

End WithHost.
End ReconFacts.
