(* ===== verification/Store.v ===== *)
(** * The data store

    The services keep their state in Postgres through Prisma.  A [world] is that state:
    one list of rows per model of [prisma/schema.prisma] (in creation order), the clock
    and the source of fresh ids.  Rows are objects; the columns the schema types as an
    enum accept only its members, the columns it declares unique reject a second row
    (error code P2002), and an [undefined] field of an update leaves its column alone.
    What a Decimal(18,4) column gives back is the interface [Database]. *)

From Stdlib Require Import SpecFloat.
From S2P Require Import Prelude JsNum JsVal JsDate.
Local Open Scope Z_scope.

Inductive table :=
| TOrder | TOrderItem | TConversion | TAssignment | TClient | TRule | TFxRate
| TFinancial | TAdjustment | TException | TAudit
| TUser | TCredential | TEmailOtp | TAccessLog
| TStatement | TStatementLine | TInvoice | TClientPayment | TTaxProfile | TTaxLedger | TWithdrawal | TBankAccount
| TClick | TTrackingLink | TCouponAssignment | TDailyReport | TEntity | TRawPayload | TSupplierCampaign | TSupplierCoupon
| TCampaignSource | TCatalogCampaign | TBrandRequest | TMerchant.
#[export] Instance table_eq_dec : EqDecision table.
Proof. solve_decision. Defined.

Record world := World {
  rows : table -> list jsval;
  now : Z;
  next_id : nat
}.

(** Reading a Decimal(18,4) column gives the stored number: an amount written with four
    decimals reads back as the number it denotes. *)
Class Database := {
  column_decimal : jsval -> jsval;
  column_decimal_exact neg n :
    0 <= n -> exists t, column_decimal (JStr (print_fixed neg 4 n)) = JStr t /\
                        string_to_num t = string_to_num (print_fixed neg 4 n)
}.

(** Columns kept as they are written. *)
Definition plain_database : Database.
Proof. refine {| column_decimal := fun v => v |}. intros. eauto. Defined.

(** ** Columns *)

Definition VALIDATION_STATUS : list string :=
  ["VALIDATION_PENDING"; "VALIDATION_APPROVED"; "VALIDATION_REJECTED"; "VALIDATION_NEEDS_REVIEW"].
Definition SUPPLIER_PAYMENT_STATUS : list string :=
  ["PAYMENT_PENDING"; "PAYMENT_AWAITING_INVOICE"; "PAYMENT_INVOICED"; "PAYMENT_PAYABLE";
   "PAYMENT_RECEIVED"; "PAYMENT_ON_HOLD"].
Definition CLIENT_PAYMENT_STATUS : list string :=
  ["CLIENT_PAYMENT_NOT_READY"; "CLIENT_PAYMENT_PAYABLE"; "CLIENT_PAYMENT_INVOICED";
   "CLIENT_PAYMENT_PROCESSING"; "CLIENT_PAYMENT_PAID"; "CLIENT_PAYMENT_ON_HOLD"].
Definition CONVERSION_STATUS : list string := ["PENDING"; "APPROVED"; "REJECTED"; "PAID"; "UNKNOWN"].

Definition USER_ROLE : list string := ["ADMIN"; "OPERATIONS"; "ANALYST"; "TECH"; "SUPPORT"; "CLIENT"].
Definition API_CREDENTIAL_ENVIRONMENT : list string := ["SANDBOX"; "PRODUCTION"].
Definition ATTRIBUTION_STATUS : list string := ["PENDING"; "ATTRIBUTED"; "ORPHAN"; "REVIEW_REQUIRED"; "REATTRIBUTED"].
Definition STATEMENT_STATUS : list string := ["OPEN"; "CLOSED"; "SUPERSEDED"].
Definition INVOICE_STATUS : list string := ["DRAFT"; "ISSUED"; "PARTIALLY_PAID"; "PAID"; "VOID"; "OVERDUE"].
Definition PAYMENT_RECORD_STATUS : list string := ["PENDING"; "CONFIRMED"; "FAILED"; "CANCELLED"].
Definition TAX_LEDGER_STATUS : list string := ["DRAFT"; "POSTED"; "VOID"].
Definition WITHDRAWAL_STATUS : list string := ["REQUESTED"; "PROCESSING"; "PAID"; "REJECTED"; "CANCELLED"].

Definition ASSIGNMENT_STATUS : list string := ["ASSIGNED"; "ACTIVE"; "PAUSED"; "REVOKED"].
Definition TRACKING_LINK_STATUS : list string := ["GENERATED"; "ACTIVE"; "REVOKED"].
Definition TRACKING_TYPE : list string := ["STANDARD"; "DEEPLINK"; "HYBRID"; "UNKNOWN"].
Definition COUPON_TYPE : list string := ["CODE"; "LINK"; "UNKNOWN"].
Definition COUPON_ASSIGNMENT_STATUS : list string := ["RESERVED"; "ASSIGNED"; "ACTIVE"; "EXPIRED"; "REVOKED"].
Definition COMMISSION_RULE_STATUS : list string := ["DRAFT"; "EFFECTIVE"; "SUPERSEDED"].
Definition COMMISSION_RULE_TYPE : list string :=
  ["PERCENT"; "FIXED"; "TIERED"; "UNKNOWN"; "PERCENT_OF_ACTUAL_SUPPLIER_COMMISSION"; "FIXED_CLIENT_PERCENT_OF_ORDER_VALUE";
   "FIXED_CLIENT_AMOUNT_PER_CONFIRMED_ORDER"; "MANUAL_APPROVED_CLIENT_COMMISSION"; "DISPLAY_RANGE_WITH_ACTUAL_SPLIT"].

Definition CAMPAIGN_SOURCE_STATUS : list string := ["LINKED"; "ACTIVE"; "PREFERRED"; "DEPRECATED"].
Definition CAMPAIGN_SOURCE_RELATIONSHIP_STATUS : list string := ["JOINED"; "NOT_JOINED"; "PENDING"; "UNKNOWN"].
Definition CANONICAL_CAMPAIGN_STATUS : list string := ["DRAFT"; "PUBLISHED"; "PAUSED"; "ARCHIVED"].
Definition CATALOG_VISIBILITY : list string := ["INTERNAL"; "ASSIGNABLE"; "HIDDEN"].
Definition MERCHANT_STATUS : list string := ["DRAFT"; "ACTIVE"; "MERGED"; "ARCHIVED"].
Definition MERCHANT_VERIFICATION_STATUS : list string := ["UNVERIFIED"; "PENDING"; "VERIFIED"; "REJECTED"].
Definition BRAND_REQUEST_STATUS : list string := ["REQUESTED"; "UNDER_REVIEW"; "APPROVED"; "REJECTED"; "FULFILLED"].

(** The enum columns that are written by the modelled services and are not nullable. *)
Definition enum_columns (t : table) : list (string * list string) :=
  match t with
  | TOrder => [("validationStatus", VALIDATION_STATUS); ("supplierPaymentStatus", SUPPLIER_PAYMENT_STATUS);
               ("clientPaymentStatus", CLIENT_PAYMENT_STATUS)]
  | TConversion => [("status", CONVERSION_STATUS); ("attributionStatus", ATTRIBUTION_STATUS)]
  | TUser => [("role", USER_ROLE)]
  | TCredential => [("environment", API_CREDENTIAL_ENVIRONMENT)]
  | TStatement => [("status", STATEMENT_STATUS)]
  | TInvoice => [("status", INVOICE_STATUS)]
  | TClientPayment => [("status", PAYMENT_RECORD_STATUS)]
  | TTaxLedger => [("status", TAX_LEDGER_STATUS)]
  | TWithdrawal => [("status", WITHDRAWAL_STATUS)]
  | TAssignment => [("status", ASSIGNMENT_STATUS)]
  | TTrackingLink => [("status", TRACKING_LINK_STATUS); ("trackingType", TRACKING_TYPE)]
  | TCouponAssignment => [("status", COUPON_ASSIGNMENT_STATUS); ("couponType", COUPON_TYPE)]
  | TRule => [("status", COMMISSION_RULE_STATUS); ("commissionType", COMMISSION_RULE_TYPE)]
  | TCampaignSource => [("status", CAMPAIGN_SOURCE_STATUS); ("relationshipStatus", CAMPAIGN_SOURCE_RELATIONSHIP_STATUS)]
  | TCatalogCampaign => [("status", CANONICAL_CAMPAIGN_STATUS); ("visibility", CATALOG_VISIBILITY)]
  | TMerchant => [("status", MERCHANT_STATUS); ("verificationStatus", MERCHANT_VERIFICATION_STATUS)]
  | TBrandRequest => [("status", BRAND_REQUEST_STATUS)]
  | _ => []
  end.
Definition unique_columns (t : table) : list string :=
  match t with
  | TFinancial => ["id"; "recognitionKey"]
  | TAdjustment => ["id"; "adjustmentKey"]
  | TUser => ["id"; "email"]
  | TInvoice => ["id"; "invoiceNumber"]
  | TTaxProfile | TBankAccount => ["id"; "clientId"]
  | TTaxLedger => ["id"; "recognitionKey"]
  | TWithdrawal => ["id"; "reference"]
  | TTrackingLink => ["id"; "subId"]
  | TMerchant => ["id"; "normalizedName"; "slug"]
  | _ => ["id"]
  end.
Definition decimal_columns (t : table) : list string :=
  match t with
  | TOrder => ["orderValue"; "lastApprovedClientCommission"; "lastApprovedMboCommission";
               "lastApprovedSupplierCommission"]
  | TOrderItem => ["quantity"; "unitPrice"; "itemValue"; "commission"]
  | TConversion => ["supplierCommission"; "approvedCommission"; "clientCommission"; "mboCommission"]
  | TFinancial => ["supplierReceivable"; "clientPayable"; "mboMargin"; "reportingSupplierReceivable";
                   "reportingClientPayable"; "reportingMboMargin"]
  | TAdjustment => ["supplierReceivableDelta"; "clientPayableDelta"; "mboMarginDelta"]
  | TStatement => ["openingBalance"; "closingBalance"]
  | TStatementLine | TClientPayment | TWithdrawal => ["amount"]
  | TInvoice => ["subtotal"; "adjustments"; "taxAmount"; "total"]
  | TTaxProfile => ["taxRatePercent"]
  | TDailyReport => ["grossCommission"; "clientCommission"; "mboCommission"]
  | TTaxLedger => ["taxRate"; "taxAmount"; "taxableAmount"]
  | TRule => ["grossCommission"; "clientCommission"; "mboCommission"; "orderValuePercent"; "fixedAmount"; "manualAmount";
              "displayRangeMin"; "displayRangeMax"]
  | TCampaignSource => ["grossCommission"]
  | _ => []
  end.

Definition in_enum (members : list string) (v : jsval) : bool :=
  match v with JStr s => existsb (String.eqb s) members | _ => false end.
(** A written field fits its column; an [undefined] field is not written. *)
Definition field_ok (t : table) (kv : string * jsval) : bool :=
  is_undef kv.2 ||
  match assoc kv.1 (enum_columns t) with
  | Some members => in_enum members kv.2
  | None => true
  end.

Section WithDatabase.
Context {D : Database}.

Definition encode_field (t : table) (kv : string * jsval) : string * jsval :=
  (kv.1, if existsb (String.eqb kv.1) (decimal_columns t) && negb (nullish kv.2)
         then column_decimal kv.2 else kv.2).
Definition encode (t : table) (data : list (string * jsval)) : list (string * jsval) :=
  map (encode_field t) (List.filter (fun kv => negb (is_undef kv.2)) data).

(** ** Reads *)

(** [v === w] on column values *)
Definition col_eq (v w : jsval) : bool :=
  match v, w with
  | JStr s, JStr t => s =s? t
  | JNum x, JNum y => neqb x y
  | JBool x, JBool y => Bool.eqb x y
  | JNull, JNull => true
  | JDate (Some x), JDate (Some y) => x =? y
  | _, _ => false
  end.
Definition find_where (t : table) (p : jsval -> bool) : prog world (option jsval) :=
  gets (fun w => List.find p (rows w t)).
(** [db.t.findUnique({ where: { [column]: value } })] *)
Definition findUnique (t : table) (column : string) (value : jsval) : prog world (option jsval) :=
  find_where t (fun r => col_eq (prop r column) value).
(** [db.t.findMany({ where: { [column]: value } })], in creation order *)
Definition findMany (t : table) (column : string) (value : jsval) : prog world (list jsval) :=
  gets (fun w => List.filter (fun r => col_eq (prop r column) value) (rows w t)).
Definition get_now : prog world Z := gets now.

(** ** Writes *)

Definition set_rows (t : table) (l : list jsval) (w : world) : world :=
  World (fun u => if decide (u = t) then l else rows w u) (now w) (next_id w).

Definition enum_error : js_error := plain_error "Invalid value provided for an enum column.".
Definition missing_row : js_error := JsError "An operation failed because it depends on a record that was not found." 0 "P2025".
Definition unique_violation : js_error := JsError "Unique constraint failed." 0 "P2002".

Definition has_id (id r : jsval) : bool := col_eq (prop r "id") id.

(** [db.t.update({ where: { id }, data })] *)
Definition update_row (t : table) (id : jsval) (data : list (string * jsval)) : prog world jsval :=
  fun w =>
    if negb (forallb (field_ok t) data) then (Throw enum_error, w)
    else
      match List.find (has_id id) (rows w t) with
      | None => (Throw missing_row, w)
      | Some r =>
          let r' := spread r (JObj (encode t data)) in
          (Ok r', set_rows t (map (fun x => if has_id id x then spread x (JObj (encode t data)) else x) (rows w t)) w)
      end.

Definition fresh_id (n : nat) : string := "id-" +:+ print_Z (Z.of_nat n) "".

(** [db.t.create({ data })] *)
Definition create_row (t : table) (data : list (string * jsval)) : prog world jsval :=
  fun w =>
    let row := JObj (("id", JStr (fresh_id (next_id w))) :: encode t data ++ [("createdAt", JDate (Some (now w)))]) in
    if negb (forallb (field_ok t) data) then (Throw enum_error, w)
    else if existsb (fun column => existsb (fun r => col_eq (prop r column) (prop row column)) (rows w t))
              (unique_columns t)
    then (Throw unique_violation, w)
    else (Ok row, World (rows (set_rows t (rows w t ++ [row]) w)) (now w) (S (next_id w))).

(** [try { await this.audit.record({...}) } catch {}] *)
Definition audit_record (event : list (string * jsval)) : prog world unit :=
  modify (fun w => set_rows TAudit (rows w TAudit ++ [JObj event]) w).

(** Relations loaded with [include]. *)
Definition with_relation (r : jsval) (field : string) (related : jsval) : jsval :=
  spread r (JObj [(field, related)]).

End WithDatabase.

(** ** What the operations change *)

Section StoreFacts.
Context {D : Database}.

Lemma rows_set_same t l w : rows (set_rows t l w) t = l.
Proof. cbn. now rewrite decide_True. Qed.
Lemma rows_set_other t u l w : u <> t -> rows (set_rows t l w) u = rows w u.
Proof. intros. cbn. now rewrite decide_False. Qed.

(** Only table [t] may change. *)
Definition only (t : table) (w w' : world) : Prop := forall u, u <> t -> rows w' u = rows w u.

Lemma update_row_only t id data : tracks (only t) (update_row t id data).
Proof.
  intros w u Hu. unfold update_row. destruct (negb _); [reflexivity|].
  destruct (List.find _ _); [|reflexivity]. now apply rows_set_other.
Qed.
Lemma create_row_only t data : tracks (only t) (create_row t data).
Proof.
  intros w u Hu. unfold create_row. destruct (negb _); [reflexivity|].
  destruct (existsb _ _); [reflexivity|]. cbn. now rewrite decide_False.
Qed.
Lemma audit_record_only event : tracks (only TAudit) (audit_record event).
Proof. intros w u Hu. cbn. now rewrite decide_False. Qed.

(** Rows are only appended or updated field by field, never removed: [r'] is [r] with
    some columns rewritten. *)
Definition rewrites (columns : list string) (r r' : jsval) : Prop :=
  forall k, k ∉ columns -> prop r' k = prop r k.

#[export] Instance rewrites_preorder columns : PreOrder (rewrites columns).
Proof.
  split; [intros r k _; reflexivity|]. intros r1 r2 r3 H12 H23 k Hk. rewrite (H23 k Hk). now apply H12.
Qed.

(** In table [t] no row disappears or moves, and only [columns] of a row are rewritten. *)
Definition evolves (t : table) (columns : list string) (w w' : world) : Prop :=
  exists kept fresh, rows w' t = kept ++ fresh /\ Forall2 (rewrites columns) (rows w t) kept.

#[export] Instance evolves_preorder t columns : PreOrder (evolves t columns).
Proof.
  split.
  - intros w. exists (rows w t), []. rewrite app_nil_r. split; [reflexivity|].
    apply Forall_Forall2_diag, Forall_forall. intros; reflexivity.
  - intros w1 w2 w3 (k1 & f1 & E1 & H1) (k2 & f2 & E2 & H2). rewrite E1 in H2.
    apply Forall2_app_inv_l in H2 as (k & f & Hk & Hf & ->).
    exists k, (f ++ f2). split; [now rewrite E2, app_assoc|].
    etransitivity; [exact H1|exact Hk].
Qed.

#[export] Instance only_preorder t : PreOrder (only t).
Proof. split; [intros w u _; reflexivity|]. intros w1 w2 w3 H12 H23 u Hu. rewrite (H23 u Hu). auto. Qed.

Lemma only_evolves t u columns w w' : only u w w' -> u <> t -> evolves t columns w w'.
Proof.
  intros Ho Hne. exists (rows w t), []. rewrite app_nil_r. split; [apply Ho; congruence|].
  apply Forall_Forall2_diag, Forall_forall. intros; reflexivity.
Qed.
Lemma tracks_only_evolves {A} t u columns (c : prog world A) : tracks (only u) c -> u <> t -> tracks (evolves t columns) c.
Proof. intros Hc Hne w. now apply (only_evolves t u). Qed.

Lemma assoc_fold_set_notin {A} k (fs base : list (string * A)) :
  k ∉ map fst fs -> assoc k (fold_left (fun acc kv => assoc_set kv.1 kv.2 acc) fs base) = assoc k base.
Proof.
  revert base. induction fs as [|[j v] fs IH]; intros base Hk; [reflexivity|]. cbn in *.
  rewrite IH by set_solver. apply assoc_set_ne. apply String.eqb_neq. set_solver.
Qed.

Lemma encode_keys t data : forall k, k ∈ map fst (encode t data) -> k ∈ map fst data.
Proof.
  unfold encode. intros k. rewrite map_map. cbn. intros (kv & -> & Hkv)%list_elem_of_fmap.
  apply elem_of_filter_bool in Hkv as [Hkv _]. apply list_elem_of_fmap. eauto.
Qed.

Lemma encode_nodup t data : NoDup (map fst data) -> NoDup (map fst (encode t data)).
Proof.
  unfold encode. rewrite map_map. cbn. induction data as [|[j x] data IH]; intros Hnd; [constructor|].
  cbn in *. apply NoDup_cons in Hnd as [Hj Hnd].
  destruct (is_undef x); cbn; [auto|]. constructor; [|auto]. intros (y & -> & Hy)%list_elem_of_fmap.
  apply elem_of_filter_bool in Hy as [Hy _]. apply Hj, list_elem_of_fmap. eauto.
Qed.

(** A written column holds the written value (encoded for its type). *)
Lemma assoc_encode t data k v :
  NoDup (map fst data) -> assoc k data = Some v -> v <> JUndef ->
  assoc k (encode t data) = Some (encode_field t (k, v)).2.
Proof.
  unfold encode. induction data as [|[j x] data IH]; intros Hnd Hk Hv; [discriminate|].
  cbn in Hk, Hnd |- *. apply NoDup_cons in Hnd as [Hj Hnd]. destruct (j =s? k) eqn:Ek.
  - injection Hk as ->. apply String.eqb_eq in Ek as ->.
    replace (is_undef v) with false by (destruct v; congruence || reflexivity).
    cbn. now rewrite String.eqb_refl.
  - destruct (is_undef x); cbn; [|rewrite Ek]; auto.
Qed.

Lemma updated_column t data r k v :
  NoDup (map fst data) -> assoc k data = Some v -> v <> JUndef ->
  prop (spread r (JObj (encode t data))) k = (encode_field t (k, v)).2.
Proof.
  intros Hnd Hk Hv. rewrite prop_spread by (now apply encode_nodup). cbn [obj_fields].
  now rewrite (assoc_encode t data k v).
Qed.

Lemma created_column t data id at0 k v :
  NoDup (map fst data) -> assoc k data = Some v -> v <> JUndef -> k <> "id" ->
  prop (JObj (("id", id) :: encode t data ++ [("createdAt", at0)])) k = (encode_field t (k, v)).2.
Proof.
  intros Hnd Hk Hv Hid. cbn [prop assoc]. replace ("id" =s? k) with false by (symmetry; apply String.eqb_neq; congruence).
  assert (E : forall l1 l2 : list (string * jsval), assoc k (l1 ++ l2) = match assoc k l1 with Some x => Some x | None => assoc k l2 end)
    by (intros l1 l2; induction l1 as [|[j x] l1 IH]; cbn; [reflexivity|]; destruct (j =s? k); auto).
  now rewrite E, (assoc_encode t data k v).
Qed.

Lemma assoc_notin {A} k (l : list (string * A)) : k ∉ map fst l -> assoc k l = None.
Proof. induction l as [|[j x] l IH]; intros Hk; [reflexivity|]. cbn in *. rewrite (proj2 (String.eqb_neq j k)) by set_solver. apply IH. set_solver. Qed.
Lemma assoc_encode_undef t data k : NoDup (map fst data) -> assoc k data = Some JUndef -> assoc k (encode t data) = None.
Proof.
  unfold encode. induction data as [|[j x] data IH]; intros Hnd Hk; [discriminate|]. cbn in Hk, Hnd |- *. apply NoDup_cons in Hnd as [Hj Hnd].
  destruct (String.eqb_spec j k) as [->|Hne]; [|destruct (is_undef x); cbn; [|rewrite (proj2 (String.eqb_neq j k)) by exact Hne]; auto].
  injection Hk as ->. cbn. apply assoc_notin. intros Hin. now apply Hj, (encode_keys t).
Qed.
(** A created row has the columns it was given, apart from the decimal ones. *)
Lemma created_value t data id at0 k v :
  NoDup (map fst data) -> assoc k data = Some v -> k ∉ "id" :: "createdAt" :: decimal_columns t ->
  prop (JObj (("id", id) :: encode t data ++ [("createdAt", at0)])) k = v.
Proof.
  intros Hnd Hk Hx. rewrite !not_elem_of_cons in Hx. destruct Hx as (Hid & Hat & Hdec).
  assert (v = JUndef \/ v <> JUndef) as [->|Hv] by (destruct v; (now left) || (now right)).
  - cbn [prop assoc]. rewrite (proj2 (String.eqb_neq "id" k)) by congruence. rewrite assoc_app, assoc_encode_undef by assumption. cbn [assoc].
    now rewrite (proj2 (String.eqb_neq "createdAt" k)) by congruence.
  - rewrite (created_column t data id at0 k v) by (exact Hnd || exact Hk || exact Hv || congruence). unfold encode_field. cbn.
    replace (existsb _ _) with false; [reflexivity|]. symmetry. apply not_true_iff_false. intros (j & Hj & ->%String.eqb_eq)%existsb_exists. now apply Hdec, list_elem_of_In.
Qed.

Lemma spread_rewrites t r data : rewrites (map fst data) r (spread r (JObj (encode t data))).
Proof.
  intros k Hk. unfold spread. cbn [prop obj_fields].
  rewrite assoc_fold_set_notin by (intros Hin; apply Hk, (encode_keys t data), Hin). now destruct r.
Qed.

Lemma rewrites_mono c1 c2 r r' : (forall k, k ∈ c1 -> k ∈ c2) -> rewrites c1 r r' -> rewrites c2 r r'.
Proof. intros Hsub Hr k Hk. apply Hr. auto. Qed.

Lemma update_row_evolves t columns id data :
  (forall k, k ∈ map fst data -> k ∈ columns) -> tracks (evolves t columns) (update_row t id data).
Proof.
  intros Hsub w. unfold update_row. destruct (negb _); [cbn; reflexivity|].
  destruct (List.find _ _); [|cbn; reflexivity]. eexists _, []. cbn [snd].
  rewrite rows_set_same, app_nil_r. split; [reflexivity|]. apply Forall2_fmap_r, Forall_Forall2_diag, Forall_forall.
  intros r _. unfold compose. destruct (has_id id r); [|reflexivity]. eapply rewrites_mono; [exact Hsub|apply spread_rewrites].
Qed.

Lemma create_row_evolves t columns data : tracks (evolves t columns) (create_row t data).
Proof.
  intros w. unfold create_row. destruct (negb _); [cbn; reflexivity|].
  destruct (existsb _ _); [cbn; reflexivity|]. eexists (rows w t), _. cbn [snd rows].
  rewrite rows_set_same. split; [reflexivity|]. apply Forall_Forall2_diag, Forall_forall. intros; reflexivity.
Qed.

(** ** Unique columns *)

(** No two rows of [t] share a value of [column]. *)
Definition distinct (t : table) (column : string) (w : world) : Prop :=
  ForallOrdPairs (fun r r' => col_eq (prop r column) (prop r' column) = false) (rows w t).
Definition keeps_distinct (t : table) (column : string) (w w' : world) : Prop :=
  distinct t column w -> distinct t column w'.

#[export] Instance keeps_distinct_preorder t column : PreOrder (keeps_distinct t column).
Proof. split; [intros w H; exact H|]. intros w1 w2 w3 H12 H23 H1. auto. Qed.

Lemma ForallOrdPairs_snoc {A} (R : A -> A -> Prop) l x :
  ForallOrdPairs R l -> Forall (fun y => R y x) l -> ForallOrdPairs R (l ++ [x]).
Proof.
  induction 1 as [|y l Hy Hl IH]; intros Hx; cbn; [repeat constructor|].
  apply Forall_cons in Hx as [Hyx Hx]. constructor; [|auto].
  apply List.Forall_app. split; [exact Hy|repeat constructor; exact Hyx].
Qed.

Lemma ForallOrdPairs_map {A} (R : A -> A -> Prop) (f : A -> A) l :
  (forall x y, R x y -> R (f x) (f y)) -> ForallOrdPairs R l -> ForallOrdPairs R (map f l).
Proof.
  intros Hf. induction 1 as [|y l Hy Hl IH]; cbn; constructor; [|exact IH].
  apply List.Forall_map. eapply List.Forall_impl; [|exact Hy]. auto.
Qed.

Lemma ForallOrdPairs_Forall2 {A} (P Q : A -> A -> Prop) (R : A -> A -> Prop) l l' :
  Forall2 R l l' -> (forall a a' b b', R a a' -> R b b' -> P a b -> Q a' b') -> ForallOrdPairs P l -> ForallOrdPairs Q l'.
Proof.
  intros Hr HPQ. induction Hr as [|x x' l l' Hx Hl IH]; intros Hp; [constructor|]. inversion Hp as [|? ? Hhd Htl]; subst. constructor; [|now apply IH].
  clear IH Htl Hp. induction Hl as [|y y' l l' Hy Hl IH]; [constructor|]. inversion Hhd; subst. constructor; [now apply (HPQ x x' y y')|now apply IH].
Qed.
Lemma Forall_Forall2_to {A} (P Q : A -> Prop) (R : A -> A -> Prop) l l' :
  Forall2 R l l' -> (forall a a', R a a' -> P a -> Q a') -> Forall P l -> Forall Q l'.
Proof. intros Hr HPQ. induction Hr as [|x x' l l' Hx Hl IH]; intros Hp; [constructor|]. apply Forall_cons in Hp as [Hx' Hp]. constructor; eauto. Qed.

Lemma ordpairs_map_in {A} (R1 R2 Q : A -> A -> Prop) (f : A -> A) l :
  ForallOrdPairs R1 l -> ForallOrdPairs R2 l -> (forall x y, x ∈ l -> y ∈ l -> R1 x y -> R2 x y -> Q (f x) (f y)) -> ForallOrdPairs Q (map f l).
Proof.
  induction 1 as [|x l Hx Hl IH]; intros H2 HQ; [constructor|]. inversion H2 as [|? ? Hx2 Hl2]; subst. cbn. constructor; [|apply IH; [exact Hl2|]; set_solver].
  rewrite Forall_map. rewrite !Forall_forall in *. intros y Hy. apply HQ; [set_solver..|auto|auto].
Qed.
Lemma ordpairs_elem {A} (R : A -> A -> Prop) l : (forall a b, R a b -> R b a) -> ForallOrdPairs R l -> forall a b, a ∈ l -> b ∈ l -> a = b \/ R a b.
Proof.
  intros Hs. induction 1 as [|x l Hx Hl IH]; intros a b Ha Hb; [now apply elem_of_nil in Ha|]. rewrite List.Forall_forall in Hx.
  apply elem_of_cons in Ha as [->|Ha], Hb as [->|Hb]; [now left|right..|now apply IH]; [|apply Hs]; now apply Hx, list_elem_of_In.
Qed.

Lemma update_row_distinct t column id data :
  column ∉ map fst data -> tracks (keeps_distinct t column) (update_row t id data).
Proof.
  intros Hc w Hd. unfold update_row. destruct (negb _); [exact Hd|].
  destruct (List.find _ _); [|exact Hd]. cbn [snd]. unfold distinct in *. rewrite rows_set_same.
  apply ForallOrdPairs_map; [|exact Hd]. intros r r' Hr.
  assert (He : forall x, prop (if has_id id x then spread x (JObj (encode t data)) else x) column = prop x column).
  { intros x. destruct (has_id id x); [|reflexivity]. now apply spread_rewrites. }
  now rewrite !He.
Qed.

Lemma create_row_distinct t column data :
  column ∈ unique_columns t -> tracks (keeps_distinct t column) (create_row t data).
Proof.
  intros Hc w Hd. unfold create_row. destruct (negb _); [exact Hd|].
  destruct (existsb _ (unique_columns t)) eqn:E; [exact Hd|]. cbn [snd]. unfold distinct in *. cbn [rows].
  rewrite rows_set_same. apply ForallOrdPairs_snoc; [exact Hd|]. apply Forall_forall. intros r Hr.
  apply not_true_iff_false. intros Heq. apply not_true_iff_false in E. apply E, existsb_exists.
  exists column. split; [now apply list_elem_of_In|]. apply existsb_exists. exists r. split; [now apply list_elem_of_In|exact Heq].
Qed.

Lemma tracks_only_distinct {A} t u column (c : prog world A) :
  tracks (only u) c -> u <> t -> tracks (keeps_distinct t column) c.
Proof. intros Hc Hne w Hd. unfold distinct. rewrite (Hc w) by congruence. exact Hd. Qed.

(** ** Successful writes and lookups *)

Lemma create_row_ok t data w r w' :
  create_row t data w = (Ok r, w') ->
  r = JObj (("id", JStr (fresh_id (next_id w))) :: encode t data ++ [("createdAt", JDate (Some (now w)))]) /\
  rows w' t = rows w t ++ [r] /\
  forall column x, column ∈ unique_columns t -> x ∈ rows w t -> col_eq (prop x column) (prop r column) = false.
Proof.
  unfold create_row. destruct (negb _); [discriminate|]. destruct (existsb _ (unique_columns t)) eqn:E; [discriminate|].
  intros Heq. injection Heq as <- <-. split; [reflexivity|]. split; [cbn; now rewrite decide_True|].
  intros column x Hc Hx. apply not_true_iff_false. intros Heq. apply not_true_iff_false in E. apply E, existsb_exists.
  exists column. split; [now apply list_elem_of_In|]. apply existsb_exists. exists x. split; [now apply list_elem_of_In|exact Heq].
Qed.

Lemma col_eq_str v s : col_eq v (JStr s) = true -> v = JStr s.
Proof. unfold col_eq. repeat case_match; try discriminate. now intros ->%String.eqb_eq. Qed.
Lemma create_row_fails t data w e w' : create_row t data w = (Throw e, w') -> w' = w.
Proof. unfold create_row. repeat case_match; congruence. Qed.
Lemma update_row_fails t id data w e w' : update_row t id data w = (Throw e, w') -> w' = w.
Proof. unfold update_row. repeat case_match; congruence. Qed.

Lemma update_row_ok t id data w r w' :
  update_row t id data w = (Ok r, w') ->
  rows w' t = map (fun x => if has_id id x then spread x (JObj (encode t data)) else x) (rows w t).
Proof.
  unfold update_row. destruct (negb _); [discriminate|]. destruct (List.find _ _); [|discriminate].
  intros Heq. injection Heq as <- <-. cbn. now rewrite decide_True.
Qed.

Lemma find_app_none {A} (p : A -> bool) l l' : List.find p l = None -> List.find p (l ++ l') = List.find p l'.
Proof. induction l as [|x l IH]; cbn; [reflexivity|]. destruct (p x); [discriminate|exact IH]. Qed.

(** A row found by a column that is not rewritten is found again, rewritten. *)
Lemma evolves_find t columns column value w w' r :
  evolves t columns w w' -> column ∉ columns ->
  List.find (fun x => col_eq (prop x column) value) (rows w t) = Some r ->
  exists r', List.find (fun x => col_eq (prop x column) value) (rows w' t) = Some r' /\ rewrites columns r r'.
Proof.
  intros (kept & fresh & E & Hk) Hc Hf. rewrite E. clear E. revert Hf.
  induction Hk as [|x x' l l' Hx _ IH]; cbn; [discriminate|]. rewrite (Hx column Hc).
  destruct (col_eq _ _); [|exact IH]. intros Heq. injection Heq as ->. eauto.
Qed.

(** Looking a row up by its value of a unique column gives that row. *)
Lemma find_distinct t column w r :
  distinct t column w -> r ∈ rows w t -> col_eq (prop r column) (prop r column) = true ->
  List.find (fun x => col_eq (prop x column) (prop r column)) (rows w t) = Some r.
Proof.
  unfold distinct. intros Hd Hr Hrefl. induction Hd as [|x l Hx _ IH]; [now apply elem_of_nil in Hr|]. cbn.
  apply elem_of_cons in Hr as [->|Hr]; [now rewrite Hrefl|].
  rewrite List.Forall_forall in Hx. rewrite (Hx r) by (now apply list_elem_of_In). auto.
Qed.

Lemma same_id t w i r r0 : distinct t "id" w -> r ∈ rows w t -> r0 ∈ rows w t -> r@."id" = JStr i -> r0@."id" = JStr i -> r = r0.
Proof.
  intros Hd Hr Hr0 Hi Hi0.
  pose proof (find_distinct t "id" w r Hd Hr ltac:(rewrite Hi; apply String.eqb_refl)) as E.
  pose proof (find_distinct t "id" w r0 Hd Hr0 ltac:(rewrite Hi0; apply String.eqb_refl)) as E0.
  rewrite Hi in E. rewrite Hi0 in E0. congruence.
Qed.

(** ** Frames *)

(** Only the tables [ts] may change, and the clock does not move. *)
Definition within (ts : list table) (w w' : world) : Prop :=
  now w' = now w /\ forall u, u ∉ ts -> rows w' u = rows w u.
#[export] Instance within_preorder ts : PreOrder (within ts).
Proof.
  split; [intros w; split; auto|]. intros w1 w2 w3 [N12 H12] [N23 H23].
  split; [congruence|]. intros u Hu. now rewrite H23, H12.
Qed.

Lemma update_row_within ts t id data : t ∈ ts -> tracks (within ts) (update_row t id data).
Proof.
  intros Ht w. split; [unfold update_row; repeat case_match; reflexivity|]. intros u Hu.
  apply update_row_only. intros ->. contradiction.
Qed.
Lemma create_row_within ts t data : t ∈ ts -> tracks (within ts) (create_row t data).
Proof.
  intros Ht w. split; [unfold create_row; repeat case_match; reflexivity|]. intros u Hu.
  apply create_row_only. intros ->. contradiction.
Qed.
Lemma audit_record_within ts event : TAudit ∈ ts -> tracks (within ts) (audit_record event).
Proof.
  intros Ht w. split; [reflexivity|]. intros u Hu. apply audit_record_only. intros ->. contradiction.
Qed.

Lemma within_mono ts us w w' : (forall t, t ∈ ts -> t ∈ us) -> within ts w w' -> within us w w'.
Proof. intros Hsub [Hn Hr]. split; [exact Hn|]. intros u Hu. apply Hr. auto. Qed.
Lemma tracks_within_mono {A} ts us (c : prog world A) :
  forallb (fun t => existsb (fun u => bool_decide (u = t)) us) ts = true -> tracks (within ts) c -> tracks (within us) c.
Proof.
  intros Hsub Hc w. eapply within_mono; [|apply Hc]. intros t Ht. rewrite forallb_forall in Hsub.
  apply list_elem_of_In, Hsub, existsb_exists in Ht as (u & Hu & E). apply bool_decide_eq_true in E as ->.
  now apply list_elem_of_In.
Qed.

(** The rows of [t] keep their number, order and every column. *)
Definition same_columns (t : table) (w w' : world) : Prop := Forall2 (rewrites []) (rows w t) (rows w' t).
#[export] Instance same_columns_preorder t : PreOrder (same_columns t).
Proof.
  split; [intros w; apply Forall_Forall2_diag, Forall_forall; intros; reflexivity|].
  intros w1 w2 w3 H12 H23. unfold same_columns. etransitivity; [exact H12|exact H23].
Qed.
Lemma same_rows_same_columns t w w' : rows w' t = rows w t -> same_columns t w w'.
Proof. unfold same_columns. intros ->. apply Forall_Forall2_diag, Forall_forall; intros; reflexivity. Qed.
Lemma update_row_same_columns t id : tracks (same_columns t) (update_row t id []).
Proof.
  intros w. unfold update_row. destruct (negb _); [cbn; reflexivity|].
  destruct (List.find _ _); [|cbn; reflexivity]. unfold same_columns. cbn [snd]. rewrite rows_set_same.
  apply Forall2_fmap_r, Forall_Forall2_diag, Forall_forall. intros r _. unfold compose.
  destruct (has_id id r); [|reflexivity]. exact (spread_rewrites t r []).
Qed.

Lemma tracks_unchanged {A} (R : world -> world -> Prop) `{!PreOrder R} (c : prog world A) : tracks eq c -> tracks R c.
Proof. intros Hc w. now rewrite <- (Hc w). Qed.
Lemma tracks_outside {A} (R : world -> world -> Prop) ts t (c : prog world A) :
  (forall w w', rows w' t = rows w t -> R w w') -> t ∉ ts -> tracks (within ts) c -> tracks R c.
Proof. intros HR Ht Hc w. apply HR. destruct (Hc w) as [_ Hr]. now apply Hr. Qed.
Lemma same_rows_evolves t columns w w' : rows w' t = rows w t -> evolves t columns w w'.
Proof.
  intros E. exists (rows w t), []. rewrite app_nil_r. split; [exact E|].
  apply Forall_Forall2_diag, Forall_forall. intros; reflexivity.
Qed.
Lemma same_rows_distinct t column w w' : rows w' t = rows w t -> keeps_distinct t column w w'.
Proof. intros E Hd. unfold distinct. now rewrite E. Qed.

Lemma prop_relation r field v k : prop (with_relation r field v) k = if field =s? k then v else prop r k.
Proof.
  unfold with_relation, spread. cbn [obj_fields fold_left prop fst snd]. destruct (field =s? k) eqn:E.
  - apply String.eqb_eq in E as <-. now rewrite assoc_set_eq.
  - rewrite assoc_set_ne by exact E. now destruct r.
Qed.

End StoreFacts.

(** A conjunction of two step relations. *)
Definition both (P Q : world -> world -> Prop) (w w' : world) : Prop := P w w' /\ Q w w'.
#[export] Instance both_preorder P Q `{!PreOrder P, !PreOrder Q} : PreOrder (both P Q).
Proof. split; [intros w; split; reflexivity|]. intros w1 w2 w3 [] []. split; etransitivity; eassumption. Qed.
Lemma tracks_both {A} P Q (c : prog world A) : tracks P c -> tracks Q c -> tracks (both P Q) c.
Proof. intros HP HQ w. split; [apply HP|apply HQ]. Qed.
