(* ===== verification/Access.v ===== *)
(** * Permissions and what a role may see

    [auth/permissions.js], [auth/dataAccess.js] and [auth/supplierDataAccess.js]: the table of
    permissions each role holds, and the functions that take the fields a caller may not see
    out of a record before it is sent.  The redaction of staged records is specified as an
    equivalence: two records a caller cannot tell apart ([same_view]) and only those are
    redacted to the same value. *)

From S2P Require Import Prelude JsNum JsVal.

(** ** [auth/permissions.js] *)

Module Permissions.

Inductive permission :=
| CAMPAIGNS_READ | PERFORMANCE_READ | PAYMENTS_READ | CONVERSIONS_READ | COMMISSION_READ
| EXPORT_DATA | INTEGRATIONS_READ | INTEGRATIONS_MANAGE | SYNC_TRIGGER | USERS_MANAGE
| LOGS_READ | SYSTEM_READ | COUPONS_READ | COUPONS_WRITE | COUPON_COLUMNS_MANAGE
| MERCHANTS_READ | MERCHANTS_MANAGE | CATALOG_READ | CATALOG_MANAGE | CLIENTS_READ
| CLIENTS_MANAGE | TRACKING_READ | TRACKING_MANAGE | COUPON_ASSIGN_READ | COUPON_ASSIGN_MANAGE
| COMMISSION_MANAGE | OPS_READ | OPS_MANAGE | EXCEPTIONS_READ | EXCEPTIONS_MANAGE
| FINANCE_OPS_READ | PRODUCTS_READ | PRODUCTS_MANAGE | PORTAL_CAMPAIGNS_READ | PORTAL_PERFORMANCE_READ
| PORTAL_PAYMENTS_READ | PORTAL_PAYMENTS_MANAGE | PORTAL_SETTINGS_READ | PORTAL_SUPPORT.

(** The wire text of a permission. *)
Definition permission_text (p : permission) : string :=
  match p with
  | CAMPAIGNS_READ => "campaigns:read"
  | PERFORMANCE_READ => "performance:read"
  | PAYMENTS_READ => "payments:read"
  | CONVERSIONS_READ => "conversions:read"
  | COMMISSION_READ => "commission:read"
  | EXPORT_DATA => "export:data"
  | INTEGRATIONS_READ => "integrations:read"
  | INTEGRATIONS_MANAGE => "integrations:manage"
  | SYNC_TRIGGER => "sync:trigger"
  | USERS_MANAGE => "users:manage"
  | LOGS_READ => "logs:read"
  | SYSTEM_READ => "system:read"
  | COUPONS_READ => "coupons:read"
  | COUPONS_WRITE => "coupons:write"
  | COUPON_COLUMNS_MANAGE => "coupon_columns:manage"
  | MERCHANTS_READ => "merchants:read"
  | MERCHANTS_MANAGE => "merchants:manage"
  | CATALOG_READ => "catalog:read"
  | CATALOG_MANAGE => "catalog:manage"
  | CLIENTS_READ => "clients:read"
  | CLIENTS_MANAGE => "clients:manage"
  | TRACKING_READ => "tracking:read"
  | TRACKING_MANAGE => "tracking:manage"
  | COUPON_ASSIGN_READ => "coupon:read"
  | COUPON_ASSIGN_MANAGE => "coupon:manage"
  | COMMISSION_MANAGE => "commission:manage"
  | OPS_READ => "ops:read"
  | OPS_MANAGE => "ops:manage"
  | EXCEPTIONS_READ => "exceptions:read"
  | EXCEPTIONS_MANAGE => "exceptions:manage"
  | FINANCE_OPS_READ => "finance_ops:read"
  | PRODUCTS_READ => "products:read"
  | PRODUCTS_MANAGE => "products:manage"
  | PORTAL_CAMPAIGNS_READ => "portal:campaigns:read"
  | PORTAL_PERFORMANCE_READ => "portal:performance:read"
  | PORTAL_PAYMENTS_READ => "portal:payments:read"
  | PORTAL_PAYMENTS_MANAGE => "portal:payments:manage"
  | PORTAL_SETTINGS_READ => "portal:settings:read"
  | PORTAL_SUPPORT => "portal:support"
  end.

Definition PERMISSIONS : list permission :=
  [CAMPAIGNS_READ; PERFORMANCE_READ; PAYMENTS_READ; CONVERSIONS_READ;
   COMMISSION_READ; EXPORT_DATA; INTEGRATIONS_READ; INTEGRATIONS_MANAGE;
   SYNC_TRIGGER; USERS_MANAGE; LOGS_READ; SYSTEM_READ;
   COUPONS_READ; COUPONS_WRITE; COUPON_COLUMNS_MANAGE; MERCHANTS_READ;
   MERCHANTS_MANAGE; CATALOG_READ; CATALOG_MANAGE; CLIENTS_READ;
   CLIENTS_MANAGE; TRACKING_READ; TRACKING_MANAGE; COUPON_ASSIGN_READ;
   COUPON_ASSIGN_MANAGE; COMMISSION_MANAGE; OPS_READ; OPS_MANAGE;
   EXCEPTIONS_READ; EXCEPTIONS_MANAGE; FINANCE_OPS_READ; PRODUCTS_READ;
   PRODUCTS_MANAGE; PORTAL_CAMPAIGNS_READ; PORTAL_PERFORMANCE_READ; PORTAL_PAYMENTS_READ;
   PORTAL_PAYMENTS_MANAGE; PORTAL_SETTINGS_READ; PORTAL_SUPPORT].

(** Permissions are compared as the texts they are. *)
Definition permission_of_text (t : string) : option permission :=
  List.find (fun p => permission_text p =s? t) PERMISSIONS.

Lemma permission_of_text_of p : permission_of_text (permission_text p) = Some p.
Proof. now destruct p. Qed.

#[export] Instance permission_eq_dec : EqDecision permission.
Proof.
  intros p q. destruct (String.eqb_spec (permission_text p) (permission_text q)) as [E|Hne].
  - left. apply (f_equal permission_of_text) in E. rewrite !permission_of_text_of in E. congruence.
  - right. congruence.
Defined.

Definition operations_permissions : list permission :=
  [CAMPAIGNS_READ; PERFORMANCE_READ; PAYMENTS_READ; CONVERSIONS_READ;
   COMMISSION_READ; EXPORT_DATA; COUPONS_READ; COUPONS_WRITE;
   SYSTEM_READ; MERCHANTS_READ; MERCHANTS_MANAGE; CATALOG_READ;
   CATALOG_MANAGE; CLIENTS_READ; CLIENTS_MANAGE; TRACKING_READ;
   TRACKING_MANAGE; COUPON_ASSIGN_READ; COUPON_ASSIGN_MANAGE; COMMISSION_MANAGE;
   OPS_READ; OPS_MANAGE; EXCEPTIONS_READ; EXCEPTIONS_MANAGE;
   FINANCE_OPS_READ; PRODUCTS_READ; PRODUCTS_MANAGE].
Definition analyst_permissions : list permission :=
  [CAMPAIGNS_READ; PERFORMANCE_READ; CONVERSIONS_READ; EXPORT_DATA;
   COUPONS_READ; MERCHANTS_READ; CATALOG_READ; CLIENTS_READ;
   TRACKING_READ; COUPON_ASSIGN_READ; EXCEPTIONS_READ; PRODUCTS_READ].
Definition tech_permissions : list permission :=
  [CAMPAIGNS_READ; INTEGRATIONS_READ; INTEGRATIONS_MANAGE; SYNC_TRIGGER;
   LOGS_READ; SYSTEM_READ; OPS_READ; EXCEPTIONS_READ;
   PRODUCTS_READ; PRODUCTS_MANAGE].
Definition support_permissions : list permission :=
  [CAMPAIGNS_READ; COUPONS_READ; EXCEPTIONS_READ; CLIENTS_READ].
Definition client_permissions : list permission :=
  [PORTAL_CAMPAIGNS_READ; PORTAL_PERFORMANCE_READ; PORTAL_PAYMENTS_READ; PORTAL_PAYMENTS_MANAGE;
   PORTAL_SETTINGS_READ; PORTAL_SUPPORT].

Definition USER_ROLES : list string := ["ADMIN"; "OPERATIONS"; "ANALYST"; "TECH"; "SUPPORT"; "CLIENT"].
Definition STAFF_USER_ROLES : list string := ["ADMIN"; "OPERATIONS"; "ANALYST"; "TECH"; "SUPPORT"].

Definition ROLE_PERMISSIONS : list (string * list permission) :=
  [("ADMIN", PERMISSIONS); ("OPERATIONS", operations_permissions); ("ANALYST", analyst_permissions);
   ("TECH", tech_permissions); ("SUPPORT", support_permissions); ("CLIENT", client_permissions)].

Definition ENTITY_TYPE_PERMISSIONS : list (string * permission) :=
  [("campaign", CAMPAIGNS_READ); ("performance", PERFORMANCE_READ); ("payment", PAYMENTS_READ);
   ("conversion", CONVERSIONS_READ); ("coupon", COUPONS_READ)].

(** [granted.includes(permission)] *)
Definition granted (p : permission) (l : list permission) : bool :=
  existsb (fun q => permission_text q =s? permission_text p) l.

Lemma granted_elem p l : granted p l = true <-> p ∈ l.
Proof.
  unfold granted. rewrite existsb_exists. setoid_rewrite <- list_elem_of_In. split; [|intros Hp; exists p; now rewrite String.eqb_refl].
  intros (q & Hq & E%String.eqb_eq%(f_equal permission_of_text)). rewrite !permission_of_text_of in E. now simplify_eq.
Qed.

(** [ROLE_PERMISSIONS[role] || []]; the role is a value of the enum column [User.role]. *)
Definition getPermissionsForRole (role : jsval) : list permission :=
  match role with JStr r => default [] (assoc r ROLE_PERMISSIONS) | _ => [] end.
Definition roleHasPermission (role : jsval) (p : permission) : bool :=
  granted p (getPermissionsForRole role).
Definition roleHasAnyPermission (role : jsval) (ps : list permission) : bool :=
  let held := getPermissionsForRole role in
  existsb (fun p => granted p held) ps.

End Permissions.
Export Permissions.

(** ** [auth/dataAccess.js] *)

Module DataAccess.

(** [/a|b|.../i.test(s)] for words of lower-case letters *)
Definition mentions (words : list string) (s : string) : bool :=
  existsb (includes (to_lower s)) words.

Definition COMMISSION_METRIC_PATTERN : list string := ["commission"; "payout"; "revenue"; "order value"; "vat"].
Definition COMMISSION_FIELD_PATTERN : list string :=
  ["commission"; "payout"; "revenue"; "net_revenue"; "validatedcommission"; "netpayout"; "vatpayout"].

Definition canViewCommission (permissions : list permission) : bool := granted COMMISSION_READ permissions.
Definition canViewPayments (permissions : list permission) : bool := granted PAYMENTS_READ permissions.

Definition sensitive (key : string) : bool := mentions COMMISSION_FIELD_PATTERN key.

(** [delete o[k]] on a copy of [o] *)
Definition without (ks : list string) (o : jsval) : jsval :=
  JObj (List.filter (fun kv => negb (existsb (String.eqb kv.1) ks)) (obj_fields o)).

(** [stripSensitiveFromObject(value, 9 - levels)]: below the last level a value is returned
    as it is.  A [Date] has no entries. *)
Fixpoint stripSensitiveFromObject (levels : nat) (value : jsval) : jsval :=
  match levels with
  | O => value
  | S n =>
      match value with
      | JArr l => JArr (map (stripSensitiveFromObject n) l)
      | JObj fields =>
          JObj (map (fun kv => (kv.1, stripSensitiveFromObject n kv.2))
                    (List.filter (fun kv => negb (sensitive kv.1)) fields))
      | JDate _ => JObj []
      | _ => value
      end
  end.

Definition MAX_LEVELS : nat := 9.
Definition NESTED_COLUMNS : list string := ["normalizedData"; "rawData"; "lastSyncedData"; "manualData"].

(** [if (sanitized[column]) sanitized[column] = strip(sanitized[column])] *)
Definition strip_column (row : jsval) (column : string) : jsval :=
  if truthy (row@.column) then with_prop row column (stripSensitiveFromObject MAX_LEVELS (row@.column))
  else row.

Definition sanitizeEntityRow (row : jsval) (permissions : list permission) : jsval :=
  if negb (truthy row) || canViewCommission permissions then row
  else fold_left strip_column NESTED_COLUMNS (without ["commission"; "revenue"] row).

Definition sanitizeEntityRows (rows : list jsval) (permissions : list permission) : list jsval :=
  map (fun row => sanitizeEntityRow row permissions) rows.

Section Metrics.
Context {H : JsHost}.

Definition filterSummaryMetrics (metrics : list jsval) (permissions : list permission) : list jsval :=
  let showCommission := canViewCommission permissions in
  let showPayments := canViewPayments permissions in
  List.filter (fun metric =>
    let label := js_string (metric@."label" |or| JStr "") in
    if negb showCommission && mentions COMMISSION_METRIC_PATTERN label then false
    else if negb showPayments && mentions ["payment"; "payout"] label then false
    else true) metrics.
End Metrics.

End DataAccess.
Export DataAccess.

(** ** [auth/supplierDataAccess.js] *)

Module SupplierDataAccess.

Definition canViewSupplierPayloads (permissions : list permission) : bool := granted SYSTEM_READ permissions.
Definition canViewInternalDiagnostics (permissions : list permission) : bool := granted SYSTEM_READ permissions.
Definition canViewEntityLineage (permissions : list permission) : bool :=
  granted INTEGRATIONS_READ permissions || granted SYSTEM_READ permissions.

Definition COMMISSION_FIELDS : list string :=
  ["defaultCommissionValue"; "commissionUnit"; "commissionCurrency"; "commissionGroups"; "pricingModel"].
Definition INTERNAL_CAMPAIGN_FIELDS : list string :=
  ["entityId"; "supplierRefId"; "rawPayload"; "normalizedPayload"; "fieldPolicies"; "adminOverrides"; "mapperVersion"].
Definition INTERNAL_COUPON_FIELDS : list string := ["entityId"; "rawPayload"; "normalizedPayload"; "mapperVersion"].
Definition INTERNAL_SUPPLIER_FIELDS : list string := ["config"].
Definition INTERNAL_MAPPER_ERROR_FIELDS : list string := ["stackTrace"].

(** The internal fields other than the two payloads, which have their own switch. *)
Definition besides_payloads (fields : list string) : list string :=
  List.filter (fun field => negb ((field =s? "rawPayload") || (field =s? "normalizedPayload"))) fields.

Definition applySupplierCampaignAccess (dto : jsval) (permissions : list permission) (includePayloads : bool) : jsval :=
  if negb (truthy dto) then dto
  else
    let next := JObj (obj_fields dto) in
    let showPayloads := includePayloads && canViewSupplierPayloads permissions in
    let next := if canViewCommission permissions then next else without COMMISSION_FIELDS next in
    let next := if showPayloads then next else without ["rawPayload"; "normalizedPayload"] next in
    if negb (canViewEntityLineage permissions) then without (besides_payloads INTERNAL_CAMPAIGN_FIELDS) next
    else if negb showPayloads then without ["rawPayload"; "normalizedPayload"; "adminOverrides"; "fieldPolicies"] next
    else next.

Definition applySupplierCampaignSummaryAccess (dto : jsval) (permissions : list permission) : jsval :=
  if negb (truthy dto) then dto
  else
    let next := JObj (obj_fields dto) in
    let next := if canViewCommission permissions then next else without COMMISSION_FIELDS next in
    without (INTERNAL_CAMPAIGN_FIELDS ++ ["rawPayload"; "normalizedPayload"; "fieldPolicies"; "adminOverrides"]) next.

Definition applySupplierCouponAccess (dto : jsval) (permissions : list permission) (includePayloads : bool) : jsval :=
  if negb (truthy dto) then dto
  else
    let next := JObj (obj_fields dto) in
    let showPayloads := includePayloads && canViewSupplierPayloads permissions in
    let next := if showPayloads then next else without ["rawPayload"; "normalizedPayload"] next in
    let next := if canViewEntityLineage permissions then next
                else without (besides_payloads INTERNAL_COUPON_FIELDS) next in
    if truthy (next@."supplierCampaign")
    then with_prop next "supplierCampaign" (applySupplierCampaignSummaryAccess (next@."supplierCampaign") permissions)
    else next.

Definition applySupplierAccess (dto : jsval) (permissions : list permission) : jsval :=
  if negb (truthy dto) then dto
  else
    let next := JObj (obj_fields dto) in
    if canViewInternalDiagnostics permissions then next else without INTERNAL_SUPPLIER_FIELDS next.

Definition applyMapperErrorAccess (dto : jsval) (permissions : list permission) : jsval :=
  if negb (truthy dto) then dto
  else
    let next := JObj (obj_fields dto) in
    let next := if canViewInternalDiagnostics permissions then next else without INTERNAL_MAPPER_ERROR_FIELDS next in
    if canViewEntityLineage permissions then next else without ["entity"] next.

End SupplierDataAccess.
Export SupplierDataAccess.

(** ** What a caller without the commission permission can learn *)

Module View.

(** [same_view n v w]: [v] and [w] agree on everything but the fields whose name is
    sensitive, down to [n] levels (and on everything below). *)
Fixpoint same_view (levels : nat) (v w : jsval) : Prop :=
  match levels with
  | O => v = w
  | S n =>
      match v, w with
      | JArr l, JArr l' => Forall2 (same_view n) l l'
      | JObj fs, JObj gs =>
          Forall2 (fun f g => f.1 = g.1 /\ same_view n f.2 g.2)
            (List.filter (fun kv => negb (sensitive kv.1)) fs) (List.filter (fun kv => negb (sensitive kv.1)) gs)
      | JObj fs, JDate _ | JDate _, JObj fs => List.filter (fun kv => negb (sensitive kv.1)) fs = []
      | JDate _, JDate _ => True
      | _, _ => v = w
      end
  end.

Lemma map_eq_Forall2 {A B C} (R : A -> B -> Prop) (f : A -> C) (g : B -> C) l l' :
  (forall x y, f x = g y <-> R x y) -> map f l = map g l' <-> Forall2 R l l'.
Proof.
  intros HR. split.
  - revert l'. induction l as [|x l IH]; intros [|y l'] E; try discriminate E; constructor; cbn in E.
    + apply HR. congruence.
    + apply IH. congruence.
  - induction 1 as [|x y l l' Hxy _ IH]; cbn; [reflexivity|]. f_equal; [now apply HR|exact IH].
Qed.

(** The redacted values coincide exactly when the caller is not meant to tell them apart. *)
Lemma strip_same_view n v w :
  stripSensitiveFromObject n v = stripSensitiveFromObject n w <-> same_view n v w.
Proof.
  revert v w. induction n as [|n IH]; intros v w; [reflexivity|].
  assert (Hfield : forall f g : string * jsval, (f.1, stripSensitiveFromObject n f.2) = (g.1, stripSensitiveFromObject n g.2)
    <-> f.1 = g.1 /\ same_view n f.2 g.2).
  { intros [k a] [k' b]. cbn. rewrite <- IH. split; [intros [= -> ->]|intros [-> ->]]; auto. }
  destruct v, w; cbn [stripSensitiveFromObject same_view]; try (split; congruence).
  - split; [trivial|reflexivity].
  - destruct (List.filter _ _); cbn; split; congruence.
  - rewrite <- (map_eq_Forall2 _ _ _ _ _ IH). split; congruence.
  - destruct (List.filter _ _); cbn; split; congruence.
  - rewrite <- (map_eq_Forall2 _ _ _ _ _ Hfield). split; congruence.
Qed.

#[export] Instance same_view_equivalence n : Equivalence (same_view n).
Proof.
  split.
  - intros v. now apply strip_same_view.
  - intros v w. rewrite <- !strip_same_view. congruence.
  - intros u v w. rewrite <- !strip_same_view. congruence.
Qed.

(** *** Whole rows *)

Definition named (ks : list string) (kv : string * jsval) : bool := existsb (String.eqb kv.1) ks.
Definition redact_field (kv : string * jsval) : string * jsval :=
  (kv.1, if named NESTED_COLUMNS kv then stripSensitiveFromObject MAX_LEVELS kv.2 else kv.2).

(** Two rows a caller without the commission permission cannot tell apart. *)
Definition same_row (r r' : jsval) : Prop :=
  Forall2 (fun f g => f.1 = g.1 /\ if named NESTED_COLUMNS f then same_view MAX_LEVELS f.2 g.2 else f.2 = g.2)
    (List.filter (fun kv => negb (named ["commission"; "revenue"] kv)) (obj_fields r))
    (List.filter (fun kv => negb (named ["commission"; "revenue"] kv)) (obj_fields r')).

(** [o[c] = f(o[c])] on the fields of an object *)
Definition apply_at (c : string) (f : jsval -> jsval) (kv : string * jsval) : string * jsval :=
  (kv.1, if kv.1 =s? c then f kv.2 else kv.2).

Lemma apply_at_absent c f fs : c ∉ map fst fs -> map (apply_at c f) fs = fs.
Proof.
  induction fs as [|[k v] fs IH]; intros Hc; [reflexivity|]. cbn in *. unfold apply_at at 1. cbn [fst snd].
  replace (k =s? c) with false by (symmetry; apply String.eqb_neq; set_solver). rewrite IH by set_solver. reflexivity.
Qed.
Lemma assoc_set_at c f fs v :
  NoDup (map fst fs) -> assoc c fs = Some v -> assoc_set c (f v) fs = map (apply_at c f) fs.
Proof.
  induction fs as [|[k w] fs IH]; intros Hnd Ha; [discriminate|]. cbn in *.
  apply NoDup_cons in Hnd as [Hk Hnd]. unfold apply_at at 1. cbn [fst snd].
  destruct (k =s? c) eqn:E; [|now rewrite IH].
  apply String.eqb_eq in E as ->. injection Ha as ->. now rewrite apply_at_absent.
Qed.
Lemma assoc_none {A} c (fs : list (string * A)) : assoc c fs = None -> c ∉ map fst fs.
Proof.
  induction fs as [|[k w] fs IH]; cbn; intros Ha; [set_solver|].
  destruct (k =s? c) eqn:E; [discriminate|]. apply String.eqb_neq in E. set_solver.
Qed.

Lemma strip_falsy n v : truthy v = false -> stripSensitiveFromObject n v = v.
Proof. destruct n, v; try reflexivity; discriminate. Qed.

Lemma strip_column_map c fs :
  NoDup (map fst fs) -> strip_column (JObj fs) c = JObj (map (apply_at c (stripSensitiveFromObject MAX_LEVELS)) fs).
Proof.
  intros Hnd. unfold strip_column, with_prop. cbn [prop obj_fields]. destruct (assoc c fs) as [v|] eqn:Ha; cbn [default from_option id].
  - rewrite <- (assoc_set_at c _ fs v) by assumption.
    unfold id. destruct (truthy v) eqn:Ht; [reflexivity|].
    rewrite (strip_falsy _ _ Ht). f_equal. clear -Ha. induction fs as [|[k w] fs IH]; [discriminate|]. cbn in *.
    destruct (k =s? c); [congruence|]. now rewrite <- IH.
  - cbn. f_equal. symmetry. apply apply_at_absent. now apply assoc_none.
Qed.

Lemma apply_at_keys c f fs : map fst (map (apply_at c f) fs) = map fst fs.
Proof. rewrite map_map. reflexivity. Qed.

Lemma filter_keys (p : string * jsval -> bool) fs : NoDup (map fst fs) -> NoDup (map fst (List.filter p fs)).
Proof.
  induction fs as [|kv fs IH]; intros Hnd; [constructor|]. cbn in *. apply NoDup_cons in Hnd as [Hk Hnd].
  destruct (p kv); cbn; [|auto]. constructor; [|auto]. intros (x & E & Hx)%list_elem_of_fmap.
  apply elem_of_filter_bool in Hx as [Hx _]. apply Hk. rewrite E. apply list_elem_of_fmap. eauto.
Qed.

(** What is sent: the two amounts are gone and the nested payloads are stripped. *)
Lemma sanitized_row fs permissions :
  NoDup (map fst fs) -> canViewCommission permissions = false ->
  sanitizeEntityRow (JObj fs) permissions =
  JObj (map redact_field (List.filter (fun kv => negb (named ["commission"; "revenue"] kv)) fs)).
Proof.
  intros Hnd Hp. unfold sanitizeEntityRow, without. cbn [truthy negb orb obj_fields]. rewrite Hp.
  change (fun kv : string * jsval => negb (existsb (String.eqb kv.1) _)) with
    (fun kv => negb (named ["commission"; "revenue"] kv)).
  set (l := List.filter _ fs). assert (Hl : NoDup (map fst l)) by now apply filter_keys.
  unfold NESTED_COLUMNS. cbn [fold_left]. rewrite !strip_column_map by (rewrite ?apply_at_keys; exact Hl).
  rewrite !map_map. f_equal. apply map_ext. intros [k v]. unfold apply_at, redact_field, named, NESTED_COLUMNS. cbn [fst snd existsb].
  destruct (k =s? "normalizedData") eqn:E1; [apply String.eqb_eq in E1 as ->; reflexivity|].
  destruct (k =s? "rawData") eqn:E2; [apply String.eqb_eq in E2 as ->; reflexivity|].
  destruct (k =s? "lastSyncedData") eqn:E3; [apply String.eqb_eq in E3 as ->; reflexivity|].
  now destruct (k =s? "manualData").
Qed.

Lemma redact_field_eq f g :
  redact_field f = redact_field g <->
  f.1 = g.1 /\ if named NESTED_COLUMNS f then same_view MAX_LEVELS f.2 g.2 else f.2 = g.2.
Proof.
  unfold redact_field, named. rewrite pair_equal_spec. split; intros [E Ev]; (split; [exact E|]); rewrite <- E in *;
    (destruct (existsb (String.eqb f.1) _); [apply strip_same_view|]; exact Ev).
Qed.


(** A payload: [v] inside [n] lists. *)
Fixpoint nest (n : nat) (v : jsval) : jsval := match n with O => v | S m => JArr [nest m v] end.

(** The recursion stops after nine levels and gives back what is deeper as it is, so a
    commission nested nine lists deep is sent to every role. *)
Theorem commission_leaks_below_nine_levels v permissions :
  sanitizeEntityRow (JObj [("rawData", nest 9 (JObj [("commission", v)]))]) permissions =
  JObj [("rawData", nest 9 (JObj [("commission", v)]))].
Proof. unfold sanitizeEntityRow. destruct (canViewCommission permissions); [now rewrite orb_true_r|reflexivity]. Qed.

(** *** Supplier records *)

Definition listed (ks : list string) (k : string) : bool := existsb (String.eqb k) ks.

Lemma prop_without ks o k : prop (without ks o) k = if listed ks k then JUndef else prop o k.
Proof.
  assert (Ha : forall fs, assoc k (List.filter (fun kv : string * jsval => negb (listed ks kv.1)) fs) =
    if listed ks k then None else assoc k fs).
  { induction fs as [|[j v] fs IH]; cbn; [now destruct (listed _ _)|].
    destruct (j =s? k) eqn:E; [apply String.eqb_eq in E as ->|].
    - destruct (listed ks k) eqn:El; cbn; [exact IH|]. now rewrite String.eqb_refl.
    - destruct (listed ks j); cbn; [exact IH|]. now rewrite E. }
  unfold without. change (fun kv : string * jsval => negb (existsb (String.eqb kv.1) ks)) with
    (fun kv : string * jsval => negb (listed ks kv.1)).
  cbn [prop]. rewrite Ha. destruct (listed ks k); [reflexivity|]. now destruct o.
Qed.

(** The fields of a supplier campaign that are withheld under a set of permissions. *)
Definition campaign_withholds (permissions : list permission) (includePayloads : bool) (k : string) : bool :=
  let payloads := includePayloads && granted SYSTEM_READ permissions in
  (negb (granted COMMISSION_READ permissions) && listed COMMISSION_FIELDS k) ||
  (negb payloads && listed ["rawPayload"; "normalizedPayload"; "adminOverrides"; "fieldPolicies"] k) ||
  (negb (canViewEntityLineage permissions) && listed (besides_payloads INTERNAL_CAMPAIGN_FIELDS) k).

Lemma prop_copy o k : prop (JObj (obj_fields o)) k = prop o k.
Proof. now destruct o. Qed.

Lemma campaign_field dto permissions includePayloads k :
  truthy dto = true ->
  prop (applySupplierCampaignAccess dto permissions includePayloads) k =
  if campaign_withholds permissions includePayloads k then JUndef else prop dto k.
Proof.
  intros Ht. unfold applySupplierCampaignAccess, campaign_withholds, canViewCommission, canViewSupplierPayloads.
  rewrite Ht. cbn [negb]. set (payloads := includePayloads && granted SYSTEM_READ permissions).
  set (lineage := canViewEntityLineage permissions).
  assert (Hinternal : listed (besides_payloads INTERNAL_CAMPAIGN_FIELDS) k =
    listed ["adminOverrides"; "fieldPolicies"] k || listed ["entityId"; "supplierRefId"; "mapperVersion"] k).
  { cbn. destruct (k =s? "entityId"), (k =s? "supplierRefId"), (k =s? "fieldPolicies"), (k =s? "adminOverrides"), (k =s? "mapperVersion"); reflexivity. }
  assert (Hfour : listed ["rawPayload"; "normalizedPayload"; "adminOverrides"; "fieldPolicies"] k =
    listed ["rawPayload"; "normalizedPayload"] k || listed ["adminOverrides"; "fieldPolicies"] k).
  { cbn. destruct (k =s? "rawPayload"), (k =s? "normalizedPayload"); reflexivity. }
  assert (Hpay : payloads = true -> lineage = true).
  { subst payloads lineage. unfold canViewEntityLineage. intros [_ ->]%andb_true_iff. apply orb_true_r. }
  destruct lineage, payloads, (granted COMMISSION_READ permissions); try discriminate (Hpay eq_refl); cbn [negb andb orb];
    rewrite ?prop_without, ?prop_copy, ?Hfour, ?Hinternal;
    destruct (listed COMMISSION_FIELDS k), (listed ["rawPayload"; "normalizedPayload"] k), (listed ["adminOverrides"; "fieldPolicies"] k),
      (listed ["entityId"; "supplierRefId"; "mapperVersion"] k); reflexivity.
Qed.

Lemma granted_mono p ps qs : ps ⊆ qs -> granted p ps = true -> granted p qs = true.
Proof. rewrite !granted_elem. set_solver. Qed.

(** More permissions never hide a field: what a campaign shows under some permissions it
    shows unchanged under more. *)
Theorem permissions_only_reveal dto ps qs includePayloads k :
  ps ⊆ qs -> truthy dto = true ->
  prop (applySupplierCampaignAccess dto ps includePayloads) k <> JUndef ->
  prop (applySupplierCampaignAccess dto qs includePayloads) k = prop (applySupplierCampaignAccess dto ps includePayloads) k.
Proof.
  intros Hsub Ht. rewrite !campaign_field by exact Ht.
  destruct (campaign_withholds ps includePayloads k) eqn:Hw; [congruence|]. intros _.
  replace (campaign_withholds qs includePayloads k) with false; [reflexivity|]. symmetry.
  pose proof (fun p => granted_mono p ps qs Hsub) as Hm. revert Hw. unfold campaign_withholds, canViewEntityLineage.
  rewrite !orb_false_iff, !andb_false_iff, !negb_false_iff, !andb_true_iff, !orb_true_iff. naive_solver.
Qed.

End View.
