(* ===== verification/Accounts.v ===== *)
(** * Accounts

    [modules/auth/auth.service.js], [modules/auth/otp.service.js] and the invitation
    functions of [modules/client/services/clientOnboarding.service.js]: who can get an
    account, how a session or a verification token is made and read back, and how a one-time
    code or an invitation is consumed.

    The libraries the services call are interfaces: [jsonwebtoken] is [Jwt], [bcrypt] is
    [Bcrypt], Node's [crypto] is [Crypto], the mail transport is [Mailer]; [Config] is what
    they read from the environment.  Methods whose awaits can interleave with other requests
    are [io] programs; a [$transaction] under the advisory lock is one action. *)

From Stdlib Require Import SpecFloat.
From S2P Require Import Prelude Concurrent JsNum JsVal JsDate Store Access.
Local Open Scope Z_scope.

(** ** Interfaces *)

(** The claims of a token: texts, or null. *)
Definition claim (c : string * option string) : string * jsval := (c.1, of_option_str c.2).

(** [jwt.sign(payload, secret, { expiresIn })] and [jwt.verify(token, secret)] at a time in
    seconds; [None] when [verify] throws.  A token is accepted with the secret it was signed
    with until it expires, and nothing that was not signed with that secret is accepted. *)
Class Jwt := {
  jwt_sign : Z -> Z -> list (string * option string) -> string -> string;
  jwt_verify : Z -> string -> string -> option jsval;
  jwt_payload (at0 ttl : Z) (claims : list (string * option string)) : jsval :=
    JObj (map claim claims ++ [("iat", JNum (num_of_Z at0)); ("exp", JNum (num_of_Z (at0 + ttl)))]);
  jwt_verify_signed t at0 ttl claims secret :
    jwt_verify t (jwt_sign at0 ttl claims secret) secret =
    if t <? at0 + ttl then Some (jwt_payload at0 ttl claims) else None;
  jwt_unforged t token secret payload :
    jwt_verify t token secret = Some payload ->
    exists at0 ttl claims, token = jwt_sign at0 ttl claims secret /\ payload = jwt_payload at0 ttl claims
}.

(** [bcrypt.hash(text, rounds)] with the salt it draws, and [bcrypt.compare]. *)
Class Bcrypt := {
  bcrypt_hash : nat -> Z -> string -> string;
  bcrypt_compare : string -> string -> bool;
  bcrypt_compare_hash salt rounds text : bcrypt_compare text (bcrypt_hash salt rounds text) = true
}.

Definition is_hex (c : ascii) : bool :=
  let n := nat_of_ascii c in ((48 <=? n) && (n <=? 57) || (97 <=? n) && (n <=? 102))%nat.

(** [createHash("sha256").update(text).digest("hex")], 64 digits; [randomBytes(n).toString("hex")],
    2n digits, and [randomInt(100000, 1000000).toString()] of a draw. *)
Class Crypto := {
  sha256_hex : string -> string;
  random_hex : nat -> nat -> string;
  random_code : nat -> string;
  sha256_digits text : all_chars is_hex (sha256_hex text) = true /\ String.length (sha256_hex text) = 64%nat;
  random_digits d n : all_chars is_hex (random_hex d n) = true /\ String.length (random_hex d n) = (2 * n)%nat
}.

(** [sendOtpEmail({ to, otp })]: the error it fails with, if it fails. *)
Class Mailer := { sendOtpEmail : string -> string -> option js_error }.

Class Config := { JWT_SECRET : option string; CRON_SECRET : option string }.

(** ** Rows *)

(** The defaults of [prisma/schema.prisma] for the columns the services read. *)
Definition column_defaults (t : table) : list (string * jsval) :=
  match t with
  | TUser => [("role", JStr "SUPPORT"); ("isActive", JBool true)]
  | TCredential => [("environment", JStr "PRODUCTION")]
  | TEmailOtp => [("attempts", JNum n0)]
  | _ => []
  end.

Section Rows.
Context {D : Database}.

(** [db.t.create({ data })] with the defaults of the schema *)
Definition insert_row (t : table) (data : list (string * jsval)) : prog world jsval :=
  create_row t (data ++ List.filter (fun kv => is_undef (prop (JObj data) kv.1)) (column_defaults t)).
(** [db.t.deleteMany({ where })] *)
Definition delete_rows (t : table) (p : jsval -> bool) : prog world unit :=
  modify (fun w => set_rows t (List.filter (fun r => negb (p r)) (rows w t)) w).

Definition date_of (v : jsval) : Z := match v with JDate (Some t) => t | _ => 0 end.
(** [findMany({ where, orderBy: { createdAt } })] *)
Definition oldest_first (t : table) (p : jsval -> bool) : prog world (list jsval) :=
  gets (fun w => sort_by (fun a b => date_of (a@."createdAt") <=? date_of (b@."createdAt")) (List.filter p (rows w t))).
Definition newest_first (t : table) (p : jsval -> bool) : prog world (list jsval) :=
  gets (fun w => sort_by (fun a b => date_of (b@."createdAt") <=? date_of (a@."createdAt")) (List.filter p (rows w t))).

(** A draw of the random source. *)
Definition draw : prog world nat := fun w => (Ok (next_id w), World (rows w) (now w) (S (next_id w))).

End Rows.

(** [{ ...select }] *)
Definition select (columns : list string) (r : jsval) : jsval :=
  JObj (map (fun c => (c, r@.c ?? JNull)) columns).
(** [name?.trim() || null] *)
Definition trimmed_name (name : jsval) : jsval :=
  match name with JStr s => JStr (trim s) |or| JNull | _ => JNull end.
(** [name?.trim() || current] *)
Definition renamed (name current : jsval) : jsval :=
  match name with JStr s => JStr (trim s) |or| current | _ => current end.

(** ** [modules/auth/auth.service.js] *)

Module Auth.
Section Service.
Context {D : Database} {J : Jwt} {B : Bcrypt} {C : Config}.

Definition SALT_ROUNDS : Z := 12.
Definition TOKEN_EXPIRY : Z := 7 * 24 * 60 * 60.

Definition getJwtSecret : prog world string :=
  match JWT_SECRET with
  | Some secret => if secret =s? "" then throw (plain_error "JWT_SECRET is not configured.") else ret secret
  | None => throw (plain_error "JWT_SECRET is not configured.")
  end.

Definition toPublicUser (user : jsval) : jsval :=
  JObj [("id", user@."id"); ("email", user@."email"); ("name", user@."name"); ("role", user@."role");
        ("isActive", user@."isActive"); ("clientId", user@."clientId" ?? JNull); ("createdAt", user@."createdAt");
        ("permissions", JArr (map (fun p => JStr (permission_text p)) (getPermissionsForRole (user@."role"))))].

Definition hashPassword (password : string) : prog world string :=
  let! salt := draw in ret (bcrypt_hash salt SALT_ROUNDS password).
Definition verifyPassword (password : string) (passwordHash : jsval) : bool :=
  match passwordHash with JStr h => bcrypt_compare password h | _ => false end.

Definition text_of (v : jsval) : option string := match v with JStr s => Some s | _ => None end.
Definition access_claims (user : jsval) : list (string * option string) :=
  [("sub", text_of (user@."id")); ("email", text_of (user@."email"));
   ("role", text_of (user@."role")); ("clientId", text_of (user@."clientId"))].

Definition signAccessToken (user : jsval) : prog world string :=
  let! secret := getJwtSecret in
  let! t := get_now in
  ret (jwt_sign (t / 1000) TOKEN_EXPIRY (access_claims user) secret).

Definition jwt_error : js_error := plain_error "invalid or expired token".
Definition verify_token (token : string) : prog world jsval :=
  let! secret := getJwtSecret in
  let! t := get_now in
  match jwt_verify (t / 1000) token secret with Some payload => ret payload | None => throw jwt_error end.
Definition verifyAccessToken (token : string) : prog world jsval := verify_token token.

(** A [where] whose id is not a text is refused by Prisma. *)
Definition findUserById (id : jsval) : prog world (option jsval) :=
  match id with
  | JStr _ => findUnique TUser "id" id
  | _ => throw (plain_error "Invalid `prisma.user.findUnique()` invocation")
  end.
Definition findUserByEmail (email : string) : prog world (option jsval) :=
  findUnique TUser "email" (JStr (to_lower email)).

Definition PUBLIC_REGISTRATION_CLOSED_MESSAGE : string :=
  "Public registration is closed. Ask an administrator for an invitation.".
Definition publicRegistrationClosedError : js_error := api_fail PUBLIC_REGISTRATION_CLOSED_MESSAGE 403.

Definition isPublicRegistrationOpen : prog world bool :=
  gets (fun w => (length (rows w TUser) =? 0)%nat).

(** [verifyEmailVerificationToken] of [modules/auth/otp.service.js] *)
Definition verifyEmailVerificationToken (token : string) : prog world jsval :=
  catch
    (let! payload := verify_token token in
     if negb (payload@."purpose" === "email_verification") || negb (truthy (payload@."email"))
     then throw (api_fail "Invalid or expired verification token." 401)
     else ret payload)
    (fun e => if err_status e =? 0 then throw (api_fail "Invalid or expired verification token." 401) else throw e).

(** The transaction under [pg_advisory_xact_lock]: look again, create the administrator,
    consume the codes of the address. *)
Definition bootstrap (email passwordHash : string) (name : jsval) : prog world jsval :=
  let! open := isPublicRegistrationOpen in
  if negb open then throw publicRegistrationClosedError
  else
    let! user := insert_row TUser [("email", JStr email); ("passwordHash", JStr passwordHash);
                                   ("name", trimmed_name name); ("role", JStr "ADMIN")] in
    delete_rows TEmailOtp (fun r => r@."email" === email) ;;
    ret user.

Definition registerUser (email password : string) (name : jsval) (verificationToken : string) : io world jsval :=
  let normalizedEmail := to_lower (trim email) in
  do! tokenPayload := act (verifyEmailVerificationToken verificationToken) in
  if negb (tokenPayload@."email" === normalizedEmail)
  then Raise (api_fail "Email verification does not match this signup request." 400)
  else
    do! open := act isPublicRegistrationOpen in
    if negb open then Raise publicRegistrationClosedError
    else
      do! passwordHash := act (hashPassword password) in
      io_catch (act (bootstrap normalizedEmail passwordHash name))
        (fun e => if err_code e =s? "P2002" then Raise publicRegistrationClosedError else Raise e).

Definition loginUser (email password : string) : prog world jsval :=
  let! found := findUserByEmail email in
  match found with
  | None => throw (api_fail "Invalid email or password." 401)
  | Some user =>
      if negb (truthy (user@."isActive"))
      then throw (api_fail "This account has been deactivated. Contact an administrator." 403)
      else if truthy (user@."inviteTokenHash")
      then throw (api_fail "Please set your password using the invitation link before signing in." 403)
      else if negb (verifyPassword password (user@."passwordHash"))
      then throw (api_fail "Invalid email or password." 401)
      else ret user
  end.

Definition listUsers : prog world (list jsval) :=
  let! users := oldest_first TUser (fun _ => true) in
  ret (map (select ["id"; "email"; "name"; "role"; "isActive"; "createdAt"; "updatedAt"]) users).

Definition createUserByAdmin (email password : string) (name role clientId : jsval) : prog world jsval :=
  let normalizedEmail := to_lower (trim email) in
  let! existing := findUserByEmail normalizedEmail in
  match existing with
  | Some _ => throw (api_fail "An account with this email already exists." 409)
  | None =>
      if (role === "CLIENT") && negb (truthy clientId)
      then throw (api_fail "clientId is required for CLIENT portal users." 400)
      else
        let! passwordHash := hashPassword password in
        insert_row TUser [("email", JStr normalizedEmail); ("passwordHash", JStr passwordHash);
                          ("name", trimmed_name name); ("role", role);
                          ("clientId", if role === "CLIENT" then clientId else JNull)]
  end.

(** An [undefined] field is left out of [data]. *)
Definition updateUserByAdmin (userId role isActive name : jsval) : prog world jsval :=
  update_row TUser userId
    [("role", role); ("isActive", isActive); ("name", if is_undef name then JUndef else trimmed_name name)].

Definition logAccess (userId : jsval) (action : string) (resource metadata ipAddress : jsval) : prog world unit :=
  catch
    (insert_row TAccessLog [("userId", userId |or| JNull); ("action", JStr action); ("resource", resource |or| JNull);
                            ("metadata", metadata |or| JNull); ("ipAddress", ipAddress |or| JNull)] ;; ret tt)
    (fun _ => ret tt).

Record log_page := LogPage { log_rows : list jsval; log_total : nat; log_pages : num }.

(** [skip] and [take] are whole numbers: Prisma refuses others. *)
Definition as_count (x : num) : prog world nat :=
  if is_finite x && neqb (nfloor x) x then ret (Z.to_nat (fixed_units 0 x))
  else throw (plain_error "Invalid `prisma.accessLog.findMany()` invocation").
(** [Math.ceil(x)] *)
Definition nceil (x : num) : num := nneg (nfloor (nneg x)).

Definition listAccessLogs (page pageSize : num) : prog world log_page :=
  let! skip := as_count (nmul (nsub page (num_of_Z 1)) pageSize) in
  let! taken := as_count pageSize in
  let! logs := newest_first TAccessLog (fun _ => true) in
  let! users := gets (fun w => rows w TUser) in
  let! total := gets (fun w => length (rows w TAccessLog)) in
  let with_user := fun r =>
    with_relation r "user"
      match List.find (fun u => col_eq (u@."id") (r@."userId")) users with
      | Some u => select ["email"; "name"; "role"] u
      | None => JNull
      end in
  ret (LogPage (map with_user (take taken (drop skip logs))) total
               (nmax (nceil (ndiv (num_of_Z (Z.of_nat total)) pageSize)) (num_of_Z 1))).

End Service.
End Auth.
Export Auth.

(** ** [modules/auth/otp.service.js] *)

Module Otp.
Section Service.
Context {D : Database} {J : Jwt} {B : Bcrypt} {R : Crypto} {M : Mailer} {C : Config}.

Definition OTP_SALT_ROUNDS : Z := 10.
Definition OTP_EXPIRY_MINUTES : Z := 10.
Definition OTP_RESEND_COOLDOWN_SECONDS : Z := 60.
Definition MAX_VERIFY_ATTEMPTS : Z := 5.
Definition VERIFICATION_TOKEN_EXPIRY : Z := 15 * 60.

Definition normalizeEmail (email : string) : string := to_lower (trim email).
Definition generateOtp : prog world string := let! d := draw in ret (random_code d).

Definition verification_claims (email : string) : list (string * option string) :=
  [("email", Some (normalizeEmail email)); ("purpose", Some "email_verification")].
Definition signEmailVerificationToken (email : string) : prog world string :=
  let! secret := getJwtSecret in
  let! t := get_now in
  ret (jwt_sign (t / 1000) VERIFICATION_TOKEN_EXPIRY (verification_claims email) secret).

Definition recent_code (email : string) (t : Z) (r : jsval) : bool :=
  (r@."email" === email) && (t - OTP_RESEND_COOLDOWN_SECONDS * 1000 <=? date_of (r@."createdAt")).

Definition sendSignupOtp (email : string) : prog world jsval :=
  let normalizedEmail := normalizeEmail email in
  let! t := get_now in
  let! recent := newest_first TEmailOtp (recent_code normalizedEmail t) in
  match recent with
  | _ :: _ => throw (api_fail "Please wait a minute before requesting another code." 429)
  | [] =>
      let! otp := generateOtp in
      let! salt := draw in
      let otpHash := bcrypt_hash salt OTP_SALT_ROUNDS otp in
      let expiresAt := JDate (Some (t + OTP_EXPIRY_MINUTES * 60 * 1000)) in
      insert_row TEmailOtp [("email", JStr normalizedEmail); ("otpHash", JStr otpHash); ("expiresAt", expiresAt)] ;;
      match sendOtpEmail normalizedEmail otp with
      | Some e => throw e
      | None => ret (JObj [("message", JStr "Verification code sent.");
                           ("expiresInMinutes", JNum (num_of_Z OTP_EXPIRY_MINUTES))])
      end
  end.

Definition active_code (email : string) (t : Z) (r : jsval) : bool :=
  (r@."email" === email) && nullish (r@."verifiedAt") && (t <? date_of (r@."expiresAt")).
Definition latest_active_code (email : string) (t : Z) : prog world (option jsval) :=
  let! codes := newest_first TEmailOtp (active_code email t) in ret (head codes).

Definition attempts_of (r : jsval) : num := match r@."attempts" with JNum x => x | _ => n0 end.
(** [update({ where: { id }, data: { attempts: { increment: 1 } } })] *)
Definition count_attempt (id : jsval) : prog world jsval :=
  let! found := findUnique TEmailOtp "id" id in
  match found with
  | Some r => update_row TEmailOtp id [("attempts", JNum (nadd (attempts_of r) (num_of_Z 1)))]
  | None => throw missing_row
  end.

Definition verifySignupOtp (email otp : string) : io world jsval :=
  let normalizedEmail := normalizeEmail email in
  do! t := act get_now in
  do! found := act (latest_active_code normalizedEmail t) in
  match found with
  | None => Raise (api_fail "No active verification code found. Request a new one." 400)
  | Some record =>
      if nleb (num_of_Z MAX_VERIFY_ATTEMPTS) (attempts_of record)
      then Raise (api_fail "Too many invalid attempts. Request a new code." 429)
      else if negb (verifyPassword otp (record@."otpHash"))
      then
        act (count_attempt (record@."id")) ;;;
        Raise (api_fail "Invalid OTP. Please try again." 400)
      else
        act (update_row TEmailOtp (record@."id") [("verifiedAt", JDate (Some t))]) ;;;
        do! token := act (signEmailVerificationToken normalizedEmail) in
        Ret (JObj [("message", JStr "Email verified."); ("verificationToken", JStr token)])
  end.

Definition consumeEmailVerification (email : string) : prog world unit :=
  let normalizedEmail := normalizeEmail email in
  delete_rows TEmailOtp (fun r => r@."email" === normalizedEmail).

End Service.
End Otp.
Export Otp.

(** ** Invitations, [modules/client/services/clientOnboarding.service.js] *)

Module Invitations.
Section Service.
Context {D : Database} {B : Bcrypt} {R : Crypto}.

Definition INVITE_TTL_MS : Z := 7 * 24 * 60 * 60 * 1000.
Definition hashInviteToken (token : string) : string := sha256_hex token.
Definition generateInviteToken : prog world string := let! d := draw in ret (random_hex d 32).

(** [clientRepo.findById(id)]: deleted clients are not found. *)
Definition client_by_id (id : jsval) : prog world (option jsval) :=
  find_where TClient (fun r => has_id id r && nullish (r@."deletedAt")).

Definition active_portal_user (clientId r : jsval) : bool :=
  col_eq (r@."clientId") clientId && (r@."role" === "CLIENT") && is_true (r@."isActive").

Definition invitation (user : jsval) (name : jsval) (token : string) (expiresAt : Z) (reused : bool) : jsval :=
  JObj [("user", JObj [("id", user@."id"); ("email", user@."email"); ("name", name); ("invitePending", JBool true)]);
        ("inviteToken", JStr token); ("inviteExpiresAt", JStr (to_iso_string expiresAt)); ("reused", JBool reused)].

Definition inviteAdministrator (clientId : jsval) (email : string) (name : jsval) : prog world jsval :=
  let! found := client_by_id clientId in
  match found with
  | None => throw (api_fail "Client not found." 404)
  | Some client =>
      if client@."status" === "OFFBOARDED"
      then throw (api_fail "Cannot invite admin for an offboarded client." 409)
      else
        let! existing := find_where TUser (active_portal_user clientId) in
        match existing with
        | Some user =>
            let! t := get_now in
            let inviteActive := truthy (user@."inviteTokenHash") && truthy (user@."inviteExpiresAt")
                                && (t <? date_of (user@."inviteExpiresAt")) in
            let canRefreshInvite := truthy (user@."inviteTokenHash") || negb (truthy (user@."passwordSetAt")) in
            if inviteActive || canRefreshInvite
            then
              let! token := generateInviteToken in
              update_row TUser (user@."id")
                [("inviteTokenHash", JStr (hashInviteToken token)); ("inviteExpiresAt", JDate (Some (t + INVITE_TTL_MS)));
                 ("name", renamed name (user@."name"))] ;;
              ret (invitation user (renamed name (user@."name")) token (t + INVITE_TTL_MS) true)
            else throw (api_fail "A portal administrator already exists for this client. Disable the existing user before inviting another." 409)
        | None =>
            let normalizedEmail := to_lower (trim email) in
            let! taken := findUnique TUser "email" (JStr normalizedEmail) in
            match taken with
            | Some _ => throw (api_fail "An account with this email already exists." 409)
            | None =>
                let! token := generateInviteToken in
                let! secret := draw in
                let! placeholderHash := hashPassword (random_hex secret 32) in
                let! t := get_now in
                let! user := insert_row TUser
                  [("email", JStr normalizedEmail); ("passwordHash", JStr placeholderHash); ("name", trimmed_name name);
                   ("role", JStr "CLIENT"); ("clientId", clientId); ("isActive", JBool true);
                   ("inviteTokenHash", JStr (hashInviteToken token)); ("inviteExpiresAt", JDate (Some (t + INVITE_TTL_MS)));
                   ("passwordSetAt", JNull)] in
                ret (invitation user (user@."name") token (t + INVITE_TTL_MS) false)
            end
        end
  end.

(** [where: { inviteTokenHash, role: "CLIENT", isActive: true }] *)
Definition redeemable (token : string) (r : jsval) : bool :=
  (r@."inviteTokenHash" === hashInviteToken token) && (r@."role" === "CLIENT") && is_true (r@."isActive").
(** [!user.inviteExpiresAt || user.inviteExpiresAt < new Date()] *)
Definition invite_expired (user : jsval) (t : Z) : bool :=
  negb (truthy (user@."inviteExpiresAt")) || (date_of (user@."inviteExpiresAt") <? t).

Definition acceptInviteAndSetPassword (token password : string) : prog world jsval :=
  if (token =s? "") || (password =s? "") || (String.length password <? 8)%nat
  then throw (api_fail "A valid invite token and password (min 8 characters) are required." 400)
  else
    let! found := find_where TUser (redeemable token) in
    match found with
    | None => throw (api_fail "Invite is invalid or has already been used." 404)
    | Some user =>
        let! t := get_now in
        if invite_expired user t
        then throw (api_fail "This invite has expired. Ask MBO to send a new invitation." 410)
        else
          let! passwordHash := hashPassword password in
          let! updated := update_row TUser (user@."id")
            [("passwordHash", JStr passwordHash); ("inviteTokenHash", JNull); ("inviteExpiresAt", JNull);
             ("passwordSetAt", JDate (Some t))] in
          ret (JObj [("id", updated@."id"); ("email", updated@."email"); ("name", updated@."name");
                     ("role", updated@."role"); ("clientId", updated@."clientId")])
    end.

Definition getInviteStatus (token : string) : prog world jsval :=
  if token =s? "" then throw (api_fail "Invite token is required." 400)
  else
    let! found := find_where TUser (fun r => (r@."inviteTokenHash" === hashInviteToken token) && (r@."role" === "CLIENT")) in
    match found with
    | None => throw (api_fail "Invite is invalid or has already been used." 404)
    | Some user =>
        let! t := get_now in
        if invite_expired user t then throw (api_fail "This invite has expired." 410)
        else
          let! client := findUnique TClient "id" (user@."clientId") in
          ret (JObj [("email", user@."email"); ("name", user@."name");
                     ("clientName", (default JNull client)@."name" ?? JNull); ("expiresAt", JStr (to_iso_string (date_of (user@."inviteExpiresAt"))))])
    end.

End Service.
End Invitations.
Export Invitations.
