(* ===== verification/Credentials.v ===== *)
(** * Client API credentials

    [modules/client/services/clientCredential.service.js] and
    [modules/client/apiEnvironmentConfig.js]: the keys a client's machines present, the portal
    login of a client, and the switches of the API environments.  Keys are stored as their
    digest; [apiKeyHashesEqual] compares the bytes two hexadecimal texts stand for. *)

From Stdlib Require Import SpecFloat.
From S2P Require Import Prelude JsNum JsVal JsDate Store Access Accounts.
Local Open Scope Z_scope.

(** ** [Buffer.from(text, "hex")]: pairs of digits up to the first text that is not one *)

Definition hex_digit (c : ascii) : option Z :=
  let n := Z.of_nat (nat_of_ascii c) in
  if (48 <=? n) && (n <=? 57) then Some (n - 48)
  else if (97 <=? n) && (n <=? 102) then Some (n - 87)
  else if (65 <=? n) && (n <=? 70) then Some (n - 55)
  else None.
Fixpoint hex_bytes (s : string) : list Z :=
  match s with
  | String a (String b s') =>
      match hex_digit a, hex_digit b with
      | Some x, Some y => (16 * x + y) :: hex_bytes s'
      | _, _ => []
      end
  | _ => []
  end.

(** ** [modules/client/apiEnvironmentConfig.js] *)

Module ApiEnvironment.

Definition not_false (v : jsval) : jsval := JBool match v with JBool false => false | _ => true end.
(** Reading a property of [null] is a type error; [undefined] gives the default block. *)
Definition normalizeEnvBlock (input : jsval) : outcome jsval :=
  match input with
  | JNull => Throw (plain_error "Cannot read properties of null (reading 'status')")
  | _ =>
      Ok (JObj [("status", JStr (if input@."status" === "DISABLED" then "DISABLED" else "ACTIVE"));
                ("campaignEndpoint", not_false (input@."campaignEndpoint"));
                ("productEndpoint", not_false (input@."productEndpoint"));
                ("reportingEndpoint", not_false (input@."reportingEndpoint"))])
  end.

Definition normalizeApiEnvironmentConfig (raw : jsval) : outcome jsval :=
  let src := if truthy raw && is_object raw then raw else JObj [] in
  let? sandbox := normalizeEnvBlock (src@."SANDBOX" |or| src@."sandbox") in
  let? production := normalizeEnvBlock (src@."PRODUCTION" |or| src@."production") in
  Ok (JObj [("SANDBOX", sandbox); ("PRODUCTION", production)]).

Definition isApiEndpointEnabled (config environment : jsval) (endpoint : string) : outcome bool :=
  let? normalized := normalizeApiEnvironmentConfig config in
  let env := if environment === "SANDBOX" then "SANDBOX" else "PRODUCTION" in
  let block := normalized@.env in
  let on k := negb match block@.k with JBool false => true | _ => false end in
  Ok (if block@."status" === "DISABLED" then false
      else if endpoint =s? "campaign" then on "campaignEndpoint"
      else if endpoint =s? "product" then on "productEndpoint"
      else if endpoint =s? "reporting" then on "reportingEndpoint"
      else true).

End ApiEnvironment.
Export ApiEnvironment.

(** ** [modules/client/services/clientCredential.service.js] *)

Module Credential.

Definition LIVE_PREFIX : string := "mbo_live_".
Definition TEST_PREFIX : string := "mbo_test_".
Definition normalizeEnvironment (environment : jsval) : string :=
  if environment === "SANDBOX" then "SANDBOX" else "PRODUCTION".
Definition keyPrefixForEnvironment (environment : jsval) : string :=
  if normalizeEnvironment environment =s? "SANDBOX" then TEST_PREFIX else LIVE_PREFIX.

Definition apiKeyHashesEqual (storedHash candidateHash : jsval) : bool :=
  match storedHash, candidateHash with
  | JStr stored, JStr candidate =>
      if (stored =s? "") || (candidate =s? "") then false
      else
        let a := hex_bytes stored in
        let b := hex_bytes candidate in
        if negb (length a =? length b)%nat || (length a =? 0)%nat then false
        else bool_decide (a = b)
  | _, _ => false
  end.

Definition iso_or (v : jsval) : jsval :=
  match v with JDate (Some t) => JStr (to_iso_string t) | _ => v ?? JNull end.
Definition toCredentialMeta (row : jsval) : jsval :=
  JObj [("id", row@."id"); ("name", row@."name"); ("environment", row@."environment" |or| JStr "PRODUCTION");
        ("keyPrefix", row@."keyPrefix"); ("createdBy", row@."createdBy" ?? JNull);
        ("lastUsedAt", iso_or (row@."lastUsedAt")); ("revokedAt", iso_or (row@."revokedAt"));
        ("createdAt", iso_or (row@."createdAt")); ("isActive", JBool (negb (truthy (row@."revokedAt"))))].

Section Service.
Context {D : Database} {B : Bcrypt} {R : Crypto}.

Definition hashApiKey (rawKey : string) : string := sha256_hex rawKey.

Record generated_key := GeneratedKey { rawKey : string; keyPrefix : string; keyHash : string }.
Definition generateApiKey (environment : jsval) : prog world generated_key :=
  let! d := draw in
  let raw := keyPrefixForEnvironment environment +:+ random_hex d 24 in
  ret (GeneratedKey raw (slice 0 16 raw) (hashApiKey raw)).

Definition assertActiveClient (clientId : jsval) : prog world jsval :=
  let! found := client_by_id clientId in
  match found with
  | None => throw (api_fail "Client not found." 404)
  | Some client =>
      if client@."status" === "OFFBOARDED"
      then throw (api_fail "Cannot issue credentials for an offboarded client." 409)
      else ret client
  end.

Definition listPortalUsers (clientId : jsval) : prog world (list jsval) :=
  assertActiveClient clientId ;;
  let! users := oldest_first TUser (fun r => col_eq (r@."clientId") clientId && (r@."role" === "CLIENT")) in
  ret (map (fun row =>
    JObj [("id", row@."id"); ("email", row@."email"); ("name", row@."name"); ("role", row@."role");
          ("isActive", row@."isActive"); ("invitePending", JBool (truthy (row@."inviteTokenHash")));
          ("createdAt", iso_or (row@."createdAt"))]) users).

Definition portal_result (user : jsval) (created : bool) : jsval :=
  JObj [("user", user); ("created", JBool created)].

Definition createPortalUser (clientId : jsval) (email password : string) (name : jsval) : prog world jsval :=
  assertActiveClient clientId ;;
  let normalizedEmail := to_lower (trim email) in
  if normalizedEmail =s? "" then throw (api_fail "Email is required." 400)
  else if (password =s? "") || (String.length password <? 8)%nat
  then throw (api_fail "Password must be at least 8 characters." 400)
  else
    let! existingForClient := find_where TUser (active_portal_user clientId) in
    match existingForClient with
    | Some user =>
        if negb (user@."email" === normalizedEmail)
        then throw (api_fail ("A portal login already exists for " +:+ default "" (text_of (user@."email")) +:+
               ". Use that email to reset the password, or disable the existing user first.") 409)
        else
          let! passwordHash := hashPassword password in
          let! t := get_now in
          let! updated := update_row TUser (user@."id")
            [("passwordHash", JStr passwordHash); ("name", renamed name (user@."name")); ("inviteTokenHash", JNull);
             ("inviteExpiresAt", JNull); ("passwordSetAt", JDate (Some t)); ("isActive", JBool true)] in
          ret (portal_result updated false)
    | None =>
        let! emailTaken := findUnique TUser "email" (JStr normalizedEmail) in
        match emailTaken with
        | Some _ => throw (api_fail "An account with this email already exists." 409)
        | None =>
            let! user := createUserByAdmin normalizedEmail password name (JStr "CLIENT") clientId in
            let! t := get_now in
            let! finalized := update_row TUser (user@."id")
              [("inviteTokenHash", JNull); ("inviteExpiresAt", JNull); ("passwordSetAt", JDate (Some t))] in
            ret (portal_result finalized true)
        end
    end.

Definition listApiCredentials (clientId : jsval) : prog world (list jsval) :=
  assertActiveClient clientId ;;
  let! credentials := newest_first TCredential (fun r => col_eq (r@."clientId") clientId) in
  ret (map toCredentialMeta credentials).

Definition listPortalApiCredentials (clientId : jsval) : prog world (list jsval) :=
  assertActiveClient clientId ;;
  let! credentials := newest_first TCredential (fun r => col_eq (r@."clientId") clientId) in
  ret (map (fun row => with_prop (toCredentialMeta row) "note"
    (JStr (if truthy (row@."revokedAt") then "This key was revoked."
           else "The full API key is shown only once at creation or rotate. It cannot be recovered."))) credentials).

(** [where: { clientId, environment, revokedAt: null }] *)
Definition active_key (clientId : jsval) (env : string) (r : jsval) : bool :=
  col_eq (r@."clientId") clientId && (r@."environment" === env) && nullish (r@."revokedAt").
Definition environment_name (env : string) : string := if env =s? "SANDBOX" then "Sandbox" else "Production".

Definition issueApiCredential (clientId name createdBy environment : jsval) : prog world jsval :=
  assertActiveClient clientId ;;
  let env := normalizeEnvironment environment in
  let! activeKey := find_where TCredential (active_key clientId env) in
  match activeKey with
  | Some _ => throw (api_fail ("An active " +:+ environment_name env +:+
                " API key already exists for this client. Revoke or rotate it before creating another.") 409)
  | None =>
      let! generated := generateApiKey (JStr env) in
      let! record := insert_row TCredential
        [("clientId", clientId); ("name", renamed name (JStr (environment_name env))); ("environment", JStr env);
         ("keyPrefix", JStr (keyPrefix generated)); ("keyHash", JStr (keyHash generated)); ("keyEnc", JNull);
         ("createdBy", createdBy ?? JNull)] in
      ret (JObj [("id", record@."id"); ("name", record@."name"); ("environment", record@."environment");
                 ("keyPrefix", record@."keyPrefix"); ("apiKey", JStr (rawKey generated));
                 ("createdAt", iso_or (record@."createdAt"));
                 ("warning", JStr "Copy this API key now. It will not be shown again. Store it securely — MBO cannot recover the secret. Sandbox and Production keys are never interchangeable.")])
  end.

Definition revoke_key (id : jsval) : prog world jsval :=
  let! t := get_now in update_row TCredential id [("revokedAt", JDate (Some t))].

Definition rotatePortalApiCredential (clientId createdBy name environment : jsval) : prog world jsval :=
  assertActiveClient clientId ;;
  let env := normalizeEnvironment environment in
  let! active := gets (fun w => List.filter (active_key clientId env) (rows w TCredential)) in
  for_each active (fun row => revoke_key (row@."id") ;; ret tt) ;;
  issueApiCredential clientId (name |or| JStr (environment_name env)) (createdBy ?? JNull) (JStr env).

Definition revokeApiCredential (clientId credentialId : jsval) : prog world jsval :=
  let! found := find_where TCredential (fun r => has_id credentialId r && col_eq (r@."clientId") clientId) in
  match found with
  | None => throw (api_fail "API credential not found." 404)
  | Some record => if truthy (record@."revokedAt") then ret record else revoke_key credentialId
  end.

Record key_match := KeyMatch { credentialId : jsval; key_client_id : jsval; key_client : jsval; key_environment : jsval }.

(** Whether the client of a key may use it. *)
Definition client_admits (client env : jsval) : bool :=
  if negb (truthy client) || truthy (client@."deletedAt") then false
  else if (client@."status" === "OFFBOARDED") || (client@."status" === "SUSPENDED") then false
  else if (env === "PRODUCTION") && negb (client@."status" === "ACTIVE") then false
  else if (env === "SANDBOX") && negb (client@."status" === "ACTIVE") && negb (client@."status" === "PROSPECT") then false
  else true.

Definition authenticateApiKey (presented : string) : prog world (option key_match) :=
  let trimmed := trim presented in
  if negb (starts_with LIVE_PREFIX trimmed) && negb (starts_with TEST_PREFIX trimmed) then ret None
  else
    let hash := hashApiKey trimmed in
    let prefix := slice 0 16 trimmed in
    let! candidates := gets (fun w =>
      List.filter (fun r => (r@."keyPrefix" === prefix) && nullish (r@."revokedAt")) (rows w TCredential)) in
    match List.find (fun row => apiKeyHashesEqual (row@."keyHash") (JStr hash)) candidates with
    | None => ret None
    | Some row =>
        let! client := findUnique TClient "id" (row@."clientId") in
        let client := default JNull client in
        let env := row@."environment" |or| JStr "PRODUCTION" in
        if negb (client_admits client env) then ret None
        else
          let! t := get_now in
          update_row TCredential (row@."id") [("lastUsedAt", JDate (Some t))] ;;
          ret (Some (KeyMatch (row@."id") (row@."clientId") client env))
    end.

End Service.
End Credential.
Export Credential.
