(* ===== verification/Middleware.v ===== *)
(** * Request guards

    [middleware/auth.js] and [middleware/cronAuth.js]: the functions a route puts before its
    handler.  A guard reads the request and what earlier guards attached to it ([context]),
    and either lets the request on or answers it.  What a guard throws goes to the error
    handler of [app.js].  The rate limiters are [express-rate-limit]'s: the interface
    [RateLimiter] says whether one admits a request. *)

From Stdlib Require Import SpecFloat.
From S2P Require Import Prelude JsNum JsVal JsDate Store Access Accounts Credentials.
Local Open Scope Z_scope.

(** ** Requests *)

(** Header names are lower case; [segments] is the path after [/api] and [params] its
    decoded parameters; [route_path] is the pattern of the route that was taken. *)
Record request := Request {
  method : string;
  segments : list string;
  originalUrl : string;
  headers : list (string * string);
  query : jsval;
  body : jsval;
  ip : jsval;
  params : list (string * string);
  route_path : string
}.
Definition header (req : request) (name : string) : option string := assoc name (headers req).
Definition param (req : request) (name : string) : jsval :=
  match assoc name (params req) with Some s => JStr s | None => JUndef end.
Definition req_path (req : request) : string := "/" +:+ join "/" (segments req).

(** What the guards attach to a request. *)
Record context := Context {
  user : jsval;
  permissions : list permission;
  partnerClientId : jsval;
  partnerClient : jsval;
  partnerAuth : jsval
}.
Definition no_context : context := Context JUndef [] JUndef JUndef JUndef.

Record reply := MkReply { status : Z; reply_body : jsval }.
Inductive verdict := Next (c : context) | Answer (r : reply).

Class RateLimiter := { admits : string -> request -> world -> bool }.

Definition sendAuthError (code : Z) (message : string) : verdict :=
  Answer (MkReply code (JObj [("ok", JBool false); ("message", JStr message)])).

(** ** Bearer tokens and keys *)

Definition readBearerToken (req : request) : option string :=
  match header req "authorization" with
  | Some h => if starts_with "Bearer " h then Some (trim (string_drop 7 h)) else None
  | None => None
  end.

(** [if (!token)]: an empty token is none. *)
Definition present (token : option string) : option string :=
  match token with Some t => if t =s? "" then None else Some t | None => None end.

Definition is_api_key (s : string) : bool := starts_with "mbo_live_" s || starts_with "mbo_test_" s.

Definition extractPartnerApiKey (req : request) : option string :=
  let bearer := readBearerToken req in
  let from_bearer := match bearer with Some b => if is_api_key b then Some b else None | None => None end in
  match header req "x-api-key" with
  | Some k => if trim k =s? "" then from_bearer else Some (trim k)
  | None => from_bearer
  end.

(** ** [middleware/cronAuth.js] *)

Definition CRON_AUTH_REFUSAL_CODE : string := "cron_auth_failed".
Fixpoint skip_blanks (s : string) : string :=
  match s with
  | String c s' => if (c =? " ")%char || (c =? ascii_of_nat 9)%char then skip_blanks s' else s
  | EmptyString => EmptyString
  end.
(** [/^Bearer[ \t]+(\S+)$/] *)
Definition bearer_match (s : string) : option string :=
  if starts_with "Bearer" s then
    let rest := string_drop 6 s in
    let token := skip_blanks rest in
    if negb (rest =s? token) && negb (token =s? "") && all_chars (fun c => negb (is_space c)) token
    then Some token else None
  else None.

Definition presentedCronSecret (req : request) : option string :=
  match header req "authorization" with
  | Some h => if h =s? "" then None else bearer_match (trim h)
  | None => None
  end.
Definition cronSecretMatches (presented configured : option string) : bool :=
  match configured, presented with
  | Some secret, Some s =>
      if trim secret =s? "" then false
      else if s =s? "" then false
      else if negb (String.length secret =? String.length s)%nat then false
      else secret =s? s
  | _, _ => false
  end.

Section Guards.
Context {D : Database} {J : Jwt} {B : Bcrypt} {R : Crypto} {C : Config} {L : RateLimiter} {H : JsHost}.

Definition requireCronSecret (req : request) (c : context) : verdict :=
  if cronSecretMatches (presentedCronSecret req) CRON_SECRET then Next c
  else Answer (MkReply 401 (JObj [("ok", JBool false); ("code", JStr CRON_AUTH_REFUSAL_CODE);
                                  ("message", JStr "Not authorised.")])).

(** ** [middleware/auth.js] *)

Definition session_of (token : string) (c : context) : prog world verdict :=
  catch
    (let! payload := verifyAccessToken token in
     let! found := findUserById (payload@."sub") in
     match found with
     | Some u =>
         if negb (truthy (u@."isActive")) then ret (sendAuthError 401 "Invalid or expired session.")
         else ret (Next (Context u (getPermissionsForRole (u@."role"))
                                 (partnerClientId c) (partnerClient c) (partnerAuth c)))
     | None => ret (sendAuthError 401 "Invalid or expired session.")
     end)
    (fun _ => ret (sendAuthError 401 "Invalid or expired session.")).

Definition authenticate (req : request) (c : context) : prog world verdict :=
  match present (readBearerToken req) with
  | None => ret (sendAuthError 401 "Authentication required.")
  | Some token => session_of token c
  end.

Definition api_key_auth (m : key_match) : jsval :=
  JObj [("type", JStr "api_key"); ("credentialId", credentialId m);
        ("environment", key_environment m |or| JStr "PRODUCTION")].
Definition portal_auth (u : jsval) : jsval := JObj [("type", JStr "portal_user"); ("userId", u@."id")].

Definition partner_by_key (key : string) (c : context) : prog world verdict :=
  if negb (starts_with "mbo_live_" key) && negb (starts_with "mbo_test_" key)
  then ret (sendAuthError 401 "Authentication required.")
  else
    catch
      (let! found := authenticateApiKey key in
       match found with
       | None => ret (sendAuthError 401 "Authentication required.")
       | Some m => ret (Next (Context (user c) (permissions c) (key_client_id m) (key_client m) (api_key_auth m)))
       end)
      (fun _ => ret (sendAuthError 401 "Authentication required.")).

Definition partner_by_session (token : string) (c : context) : prog world verdict :=
  catch
    (let! payload := verifyAccessToken token in
     let! found := findUserById (payload@."sub") in
     match found with
     | None => ret (sendAuthError 401 "Authentication required.")
     | Some u =>
         if negb (truthy (u@."isActive")) then ret (sendAuthError 401 "Authentication required.")
         else if negb (u@."role" === "CLIENT") || negb (truthy (u@."clientId"))
         then ret (sendAuthError 403 "Client portal access required.")
         else
           let! client := client_by_id (u@."clientId") in
           match client with
           | None => ret (sendAuthError 403 "Client account is not active.")
           | Some client =>
               if truthy (client@."deletedAt") || negb (client@."status" === "ACTIVE")
               then ret (sendAuthError 403 "Client account is not active.")
               else ret (Next (Context u (getPermissionsForRole (u@."role")) (u@."clientId") client (portal_auth u)))
           end
     end)
    (fun _ => ret (sendAuthError 401 "Authentication required.")).

Definition authenticatePartner (req : request) (c : context) : prog world verdict :=
  match extractPartnerApiKey req with
  | Some key => partner_by_key key c
  | None =>
      match present (readBearerToken req) with
      | None => ret (sendAuthError 401 "Authentication required.")
      | Some bearer => partner_by_session bearer c
      end
  end.

Definition PORTAL_USER_REQUIRED_MESSAGE : string := "Use the client portal login for this action.".
Definition requirePortalUser (c : context) : verdict :=
  let isPortalUser := ((partnerAuth c)@."type" === "portal_user") && negb (nullish (user c))
                      && ((user c)@."role" === "CLIENT") && negb (nullish (partnerClientId c)) in
  if isPortalUser then Next c else sendAuthError 403 PORTAL_USER_REQUIRED_MESSAGE.

Definition requirePermission (required : list permission) (c : context) : verdict :=
  if negb (truthy (user c)) then sendAuthError 401 "Authentication required."
  else if negb (roleHasAnyPermission ((user c)@."role") required)
  then sendAuthError 403 "You do not have permission to perform this action."
  else Next c.

Definition requireAdminRole (c : context) : verdict :=
  if negb (truthy (user c)) then sendAuthError 401 "Authentication required."
  else if negb ((user c)@."role" === "ADMIN")
  then sendAuthError 403 "You do not have permission to perform this action."
  else Next c.

Definition ENTITY_TYPE_QUERY_PARAM_BY_ROUTE : list (string * string) := [("/fields", "entity_type")].

(** The type the handler filters on: [req.query[param]] of the route. *)
Definition entity_param (req : request) : string :=
  default "type" (assoc (route_path req) ENTITY_TYPE_QUERY_PARAM_BY_ROUTE).
Definition requireEntityTypeAccess (req : request) (c : context) : verdict :=
  if negb (truthy (user c)) then sendAuthError 401 "Authentication required."
  else
    let p := entity_param req in
    let entityType := if truthy ((query req)@.p) then js_string ((query req)@.p) else "" in
    if entityType =s? "" then sendAuthError 400 ("Query parameter '" +:+ p +:+ "' is required.")
    else
      match assoc entityType ENTITY_TYPE_PERMISSIONS with
      | None => sendAuthError 400 ("Unsupported entity type: " +:+ entityType)
      | Some required =>
          if negb (roleHasPermission ((user c)@."role") required)
          then sendAuthError 403 "You do not have permission to view this data."
          else Next c
      end.

Definition requireDeliveryChannel (channel : string) (c : context) : verdict :=
  let m := to_upper (js_string ((partnerClient c)@."deliveryMethod" |or| JStr "API_AND_PORTAL")) in
  let allowed := (m =s? "API_AND_PORTAL") || ((channel =s? "portal") && (m =s? "PORTAL_ONLY"))
                 || ((channel =s? "api") && (m =s? "API_ONLY")) in
  if negb allowed
  then sendAuthError 403 (if channel =s? "portal" then "Portal access is not enabled for this client."
                          else "API access is not enabled for this client.")
  else Next c.

Definition requireApiEndpoint (endpoint : string) (c : context) : outcome verdict :=
  if (partnerAuth c)@."type" === "portal_user" then Ok (Next c)
  else
    let environment := (partnerAuth c)@."environment" |or| JStr "PRODUCTION" in
    let? enabled := isApiEndpointEnabled ((partnerClient c)@."apiEnvironmentConfig") environment endpoint in
    Ok (if enabled then Next c
        else sendAuthError 403 ("The " +:+ endpoint +:+ " endpoint is disabled for this client's " +:+
               (if environment === "SANDBOX" then "Sandbox" else "Production") +:+ " environment.")).

(** The row an audited route writes when its response has been sent. *)
Definition auditAction (action : string) (resource : request -> jsval) (req : request) (c : context) (r : reply) : prog world unit :=
  if (400 <=? status r) || negb (truthy (user c)) then ret tt
  else logAccess ((user c)@."id") action (resource req)
         (JObj [("method", JStr (method req)); ("path", JStr (originalUrl req))]) (ip req).
Definition auditPartnerAccess (action : string) (req : request) (c : context) (r : reply) : prog world unit :=
  if (400 <=? status r) || negb (truthy (partnerClientId c)) then ret tt
  else logAccess ((user c)@."id" ?? JNull) action (JStr ("clients:" +:+ js_string (partnerClientId c)))
         (JObj [("method", JStr (method req)); ("path", JStr (req_path req));
                ("authType", (partnerAuth c)@."type" ?? JNull);
                ("credentialId", (partnerAuth c)@."credentialId" ?? JNull)]) (ip req).

End Guards.

(** ** The guards a route can list *)

Inductive guard :=
| NoStoreHeaders
| Limiter (name : string)
| Authenticate
| AuthenticatePartner
| RequirePortalUser
| RequirePermission (required : list permission)
| RequireAdminRole
| RequireEntityTypeAccess
| RequireDeliveryChannel (channel : string)
| RequireApiEndpoint (endpoint : string)
| RequireCronSecret
| AuditAction (action : string) (resource : request -> jsval)
| AuditPartnerAccess (action : string).

Section RunGuard.
Context {D : Database} {J : Jwt} {B : Bcrypt} {R : Crypto} {C : Config} {L : RateLimiter} {H : JsHost}.

Definition limiter_message (name : string) : string :=
  if name =s? "authRateLimiter" then "Too many authentication attempts."
  else "Certification for this network account was run recently. Try again shortly.".

Definition of_outcome {A} (o : outcome A) : prog world A :=
  match o with Ok a => ret a | Throw e => throw e end.

Definition run_guard (g : guard) (req : request) (c : context) : prog world verdict :=
  match g with
  | NoStoreHeaders | AuditAction _ _ | AuditPartnerAccess _ => ret (Next c)
  | Limiter name =>
      let! admitted := gets (admits name req) in
      ret (if admitted then Next c
           else Answer (MkReply 429 (JObj [("ok", JBool false); ("message", JStr (limiter_message name))])))
  | Authenticate => authenticate req c
  | AuthenticatePartner => authenticatePartner req c
  | RequirePortalUser => ret (requirePortalUser c)
  | RequirePermission required => ret (requirePermission required c)
  | RequireAdminRole => ret (requireAdminRole c)
  | RequireEntityTypeAccess => ret (requireEntityTypeAccess req c)
  | RequireDeliveryChannel channel => ret (requireDeliveryChannel channel c)
  | RequireApiEndpoint endpoint => of_outcome (requireApiEndpoint endpoint c)
  | RequireCronSecret => ret (requireCronSecret req c)
  end.

(** What a guard has registered for the end of the response. *)
Definition on_finish (g : guard) (req : request) (c : context) (r : reply) : prog world unit :=
  match g with
  | AuditAction action resource => auditAction action resource req c r
  | AuditPartnerAccess action => auditPartnerAccess action req c r
  | _ => ret tt
  end.

End RunGuard.
