(* ===== verification/AccountHandlers.v ===== *)
(** * Account handlers

    [controllers/auth.controller.js] and [controllers/users.controller.js]: the handlers of the
    account routes.  Their request bodies are checked by [zod]; which texts [z.string().email()]
    accepts is the interface [Zod]. *)

From Stdlib Require Import SpecFloat.
From S2P Require Import Prelude Concurrent JsNum JsVal JsDate Store Access Accounts Credentials Middleware.
Local Open Scope Z_scope.

Class Zod := { zod_email : string -> bool }.

Section Handlers.
Context {D : Database} {J : Jwt} {B : Bcrypt} {R : Crypto} {M : Mailer} {C : Config} {Z : Zod} {H : JsHost}.

(** ** Schemas: the parsed fields, or the message of the first issue *)

Definition parse_email (v : jsval) : outcome string :=
  match v with
  | JStr s => if zod_email s then Ok s else Throw (api_fail "Invalid email address" 400)
  | _ => Throw (api_fail "Invalid input: expected string" 400)
  end.
Definition parse_text (least : nat) (message : string) (v : jsval) : outcome string :=
  match v with
  | JStr s => if (String.length s <? least)%nat then Throw (api_fail message 400) else Ok s
  | _ => Throw (api_fail "Invalid input: expected string" 400)
  end.
(** [z.string().trim().min(1).max(120).optional()] *)
Definition parse_name (v : jsval) : outcome jsval :=
  match v with
  | JUndef => Ok JUndef
  | JStr s =>
      let t := trim s in
      if (String.length t <? 1)%nat then Throw (api_fail "Too small: expected string to have >=1 characters" 400)
      else if (120 <? String.length t)%nat then Throw (api_fail "Too big: expected string to have <=120 characters" 400)
      else Ok (JStr t)
  | _ => Throw (api_fail "Invalid input: expected string" 400)
  end.
(** [z.enum(STAFF_USER_ROLES)] *)
Definition parse_role (v : jsval) : outcome jsval :=
  if in_enum STAFF_USER_ROLES v then Ok v else Throw (api_fail "Invalid option" 400).
(** [schema.optional()] *)
Definition optional (parse : jsval -> outcome jsval) (v : jsval) : outcome jsval :=
  if is_undef v then Ok JUndef else parse v.
Definition parse_bool (v : jsval) : outcome jsval :=
  match v with JBool _ => Ok v | _ => Throw (api_fail "Invalid input: expected boolean" 400) end.
(** [/^\d{6}$/] *)
Definition parse_otp (v : jsval) : outcome string :=
  match v with
  | JStr s =>
      if (String.length s =? 6)%nat && all_chars (fun ch => match char_digit ch with Some _ => true | None => false end) s
      then Ok s else Throw (api_fail "OTP must be a 6-digit code." 400)
  | _ => Throw (api_fail "Invalid input: expected string" 400)
  end.

Record update_body := UpdateBody { new_role : jsval; new_active : jsval; new_name : jsval }.
Definition updateUserSchema (v : jsval) : outcome update_body :=
  let? role := optional parse_role (v@."role") in
  let? isActive := optional parse_bool (v@."isActive") in
  let? name := (match v@."name" with JNull => Ok JNull | n => parse_name n end) in
  if is_undef role && is_undef isActive && is_undef name
  then Throw (api_fail "At least one field must be provided." 400)
  else Ok (UpdateBody role isActive name).

(** ** Answers *)

Definition ok_reply (code : BinInt.Z) (fields : list (string * jsval)) : reply :=
  MkReply code (JObj (("ok", JBool true) :: fields)).
Definition fail_reply (code : BinInt.Z) (message : string) : reply :=
  MkReply code (JObj [("ok", JBool false); ("message", JStr message)]).
(** An error with a status is answered, another goes to the error handler. *)
Definition handleAuthError (e : js_error) : prog world reply :=
  if (err_status e =? 0) then throw e else ret (fail_reply (err_status e) (err_message e)).
Definition parsed {A} (o : outcome A) : prog world A := of_outcome o.

(** ** [controllers/auth.controller.js] *)

Definition sendOtpHandler (req : request) : prog world reply :=
  catch
    (let! email := parsed (parse_email ((body req)@."email")) in
     let! open := isPublicRegistrationOpen in
     if negb open then ret (fail_reply 403 PUBLIC_REGISTRATION_CLOSED_MESSAGE)
     else
       let! existing := findUserByEmail email in
       match existing with
       | Some _ => ret (fail_reply 409 "An account with this email already exists.")
       | None => let! result := sendSignupOtp email in ret (ok_reply 200 (obj_fields result))
       end)
    handleAuthError.

Definition verifyOtpHandler (req : request) : prog world reply :=
  catch
    (let! email := parsed (parse_email ((body req)@."email")) in
     let! otp := parsed (parse_otp ((body req)@."otp")) in
     let! result := exec (verifySignupOtp email otp) in
     ret (ok_reply 200 (obj_fields result)))
    handleAuthError.

Definition session_reply (code : BinInt.Z) (user : jsval) (token : string) (more : list (string * jsval)) : reply :=
  ok_reply code ([("accessToken", JStr token); ("user", toPublicUser user)] ++ more).

Definition registerHandler (req : request) : prog world reply :=
  catch
    (let! email := parsed (parse_email ((body req)@."email")) in
     let! password := parsed (parse_text 8 "Password must be at least 8 characters." ((body req)@."password")) in
     let! name := parsed (optional parse_name ((body req)@."name")) in
     let! token := parsed (parse_text 1 "Email verification is required." ((body req)@."verificationToken")) in
     let! user := exec (registerUser email password name token) in
     let! accessToken := signAccessToken user in
     logAccess (user@."id") "auth.register" (JStr "auth") JUndef (ip req) ;;
     ret (session_reply 201 user accessToken
            [("message", JStr "Welcome! You are the first user and have been assigned the Admin role.")]))
    handleAuthError.

Definition loginHandler (req : request) : prog world reply :=
  catch
    (let! email := parsed (parse_email ((body req)@."email")) in
     let! password := parsed (parse_text 1 "Invalid input." ((body req)@."password")) in
     let! user := loginUser email password in
     let! accessToken := signAccessToken user in
     logAccess (user@."id") "auth.login" (JStr "auth") JUndef (ip req) ;;
     ret (session_reply 200 user accessToken []))
    handleAuthError.

Definition meHandler (c : context) : prog world reply := ret (ok_reply 200 [("user", toPublicUser (user c))]).
Definition logoutHandler (req : request) (c : context) : prog world reply :=
  logAccess ((user c)@."id") "auth.logout" (JStr "auth") JUndef (ip req) ;;
  ret (ok_reply 200 [("message", JStr "Logged out.")]).

(** ** [controllers/users.controller.js] *)

Definition listUsersHandler : prog world reply :=
  let! users := listUsers in ret (ok_reply 200 [("users", JArr users)]).

Definition createUserHandler (req : request) (c : context) : prog world reply :=
  catch
    (let! email := parsed (parse_email ((body req)@."email")) in
     let! password := parsed (parse_text 8 "Password must be at least 8 characters." ((body req)@."password")) in
     let! name := parsed (optional parse_name ((body req)@."name")) in
     let! role := parsed (parse_role ((body req)@."role")) in
     let! created := createUserByAdmin email password name role JUndef in
     logAccess ((user c)@."id") "users.create" (JStr ("users:" +:+ js_string (created@."id")))
       (JObj [("role", created@."role"); ("email", created@."email")]) (ip req) ;;
     ret (ok_reply 201 [("user", toPublicUser created)]))
    handleAuthError.

Definition update_metadata (b : update_body) : jsval :=
  JObj (List.filter (fun kv => negb (is_undef kv.2))
          [("role", new_role b); ("isActive", new_active b); ("name", new_name b)]).

Definition updateUserHandler (req : request) (c : context) : prog world reply :=
  match updateUserSchema (body req) with
  | Throw e => ret (fail_reply 400 (err_message e))
  | Ok b =>
      let targetId := js_string (param req "id") in
      let self := (user c)@."id" === targetId in
      if self && (match new_active b with JBool false => true | _ => false end)
      then ret (fail_reply 400 "You cannot deactivate your own account.")
      else if self && truthy (new_role b) && negb (col_eq (new_role b) ((user c)@."role"))
      then ret (fail_reply 400 "You cannot change your own role.")
      else
        let! existing := findUnique TUser "id" (JStr targetId) in
        match existing with
        | None => ret (fail_reply 404 "User not found.")
        | Some _ =>
            let! updated := updateUserByAdmin (JStr targetId) (new_role b) (new_active b) (new_name b) in
            logAccess ((user c)@."id") "users.update" (JStr ("users:" +:+ js_string (updated@."id")))
              (update_metadata b) (ip req) ;;
            ret (ok_reply 200 [("user", toPublicUser updated)])
        end
  end.

(** [Math.max(Number(v) || fallback, 1)] *)
Definition count_param (v : jsval) (fallback : num) : num :=
  let n := js_number v in
  nmax (if is_nan n || neqb n n0 then fallback else n) (num_of_Z 1).
Definition listAccessLogsHandler (req : request) : prog world reply :=
  let page := count_param ((query req)@."page") (num_of_Z 1) in
  let pageSize := nmin (count_param ((query req)@."pageSize") (num_of_Z 50)) (num_of_Z 200) in
  let! result := listAccessLogs page pageSize in
  ret (ok_reply 200 [("rows", JArr (log_rows result)); ("total", JNum (num_of_Z (Z.of_nat (log_total result))));
                     ("page", JNum page); ("pageSize", JNum pageSize); ("totalPages", JNum (log_pages result))]).

(** The handlers of the account routes by name; [others] stands for the rest. *)
Definition account_handler (others : string -> request -> context -> prog world reply)
    (name : string) (req : request) (c : context) : prog world reply :=
  if name =s? "sendOtpHandler" then sendOtpHandler req
  else if name =s? "verifyOtpHandler" then verifyOtpHandler req
  else if name =s? "registerHandler" then registerHandler req
  else if name =s? "loginHandler" then loginHandler req
  else if name =s? "meHandler" then meHandler c
  else if name =s? "logoutHandler" then logoutHandler req c
  else if name =s? "listUsersHandler" then listUsersHandler
  else if name =s? "createUserHandler" then createUserHandler req c
  else if name =s? "updateUserHandler" then updateUserHandler req c
  else if name =s? "listAccessLogsHandler" then listAccessLogsHandler req
  else others name req c.

End Handlers.
