(* ===== verification/Routes.v ===== *)
(** * The routes

    [routes/index.js]: every route with the guards it lists and the name of its handler, in
    the order they are registered, and how Express takes a request through them.  A literal
    segment of a pattern matches regardless of case, a parameter matches any segment, a final
    slash is ignored and HEAD is answered by the route of GET; the first route that matches
    runs its guards in order and then its handler; what audited routes log is written when the
    handler has answered (the answers of guards are refusals, which are not logged).  The handlers are a parameter: what is
    shown holds for any behaviour of theirs. *)

From S2P Require Import Prelude Concurrent JsNum JsVal Redact Store Access Accounts Credentials Middleware.
Import Redaction.
Local Open Scope Z_scope.

(** The guards are in the order the request passes them. *)
Record route := Route {
  route_method : string;
  pattern : string;
  guards : list guard;
  handler : string
}.

(** ** What the audited routes name as their resource *)

Definition fixed (text : string) (_ : request) : jsval := JStr text.
Definition text_param (req : request) (name : string) : string := default "undefined" (assoc name (params req)).
(** [`prefix${req.params.name}suffix`] *)
Definition around (prefix name suffix : string) (req : request) : jsval :=
  JStr (prefix +:+ text_param req name +:+ suffix).

Section Table.
Context {H : JsHost}.

Definition scoped_sync_resource (req : request) : jsval :=
  JStr ("sync:" +:+ text_param req "platform" +:+ ":" +:+ text_param req "accountLabel" +:+ ":" +:+
        js_string ((query req)@."sourceObject" ?? (body req)@."sourceObject" ?? JStr "")).
Definition entities_resource (req : request) : jsval :=
  JStr ("entities:" +:+ js_string ((query req)@."type" |or| JStr "all")).
Definition client_product_resource (req : request) : jsval :=
  JStr ("clients:" +:+ js_string ((body req)@."clientId" |or| JStr "unknown")).
Definition certification_resource (req : request) : jsval :=
  JStr (join "/" (map (fun v => if nullish v then "" else js_string v)
    [param req "network"; (body req)@."region" |or| JStr "sea"; (body req)@."accountLabel" |or| JStr "default"])).
Definition connectionAudit (action : string) : guard :=
  AuditAction action (fun req =>
    JStr ("network-connections:" +:+ js_string (param req "id" ?? (body req)@."platform" ?? JStr ""))).

(** ** [routes/index.js] *)

Definition auth_routes : list route :=
  [Route "GET" "/health" [] "health";
   Route "POST" "/auth/send-otp" [Limiter "authRateLimiter"] "sendOtpHandler";
   Route "POST" "/auth/verify-otp" [Limiter "authRateLimiter"] "verifyOtpHandler";
   Route "POST" "/auth/register" [Limiter "authRateLimiter"] "registerHandler";
   Route "POST" "/auth/login" [Limiter "authRateLimiter"] "loginHandler";
   Route "GET" "/auth/me" [Authenticate] "meHandler";
   Route "POST" "/auth/logout" [Authenticate] "logoutHandler";
   Route "GET" "/auth/invite/:token" [Limiter "authRateLimiter"] "getInviteHandler";
   Route "POST" "/auth/set-password" [Limiter "authRateLimiter"] "setPasswordHandler";
   Route "GET" "/users" [Authenticate; RequirePermission [USERS_MANAGE]] "listUsersHandler";
   Route "POST" "/users" [Authenticate; RequirePermission [USERS_MANAGE]; AuditAction "users.create" (fixed "users")] "createUserHandler";
   Route "PATCH" "/users/:id" [Authenticate; RequirePermission [USERS_MANAGE]; AuditAction "users.update" (around "users:" "id" "")] "updateUserHandler";
   Route "GET" "/logs/access" [Authenticate; RequirePermission [LOGS_READ]] "listAccessLogsHandler"].

Definition sync_routes : list route :=
  [Route "POST" "/internal/cron/sync-start" [RequireCronSecret] "cronSyncStartHandler";
   Route "POST" "/internal/cron/sync-drain" [RequireCronSecret] "cronSyncDrainHandler";
   Route "GET" "/sync/status" [Authenticate; RequirePermission [SYSTEM_READ]] "getSyncStatusHandler";
   Route "GET" "/sync/plan-preview" [NoStoreHeaders; Authenticate; RequireAdminRole; RequirePermission [SYSTEM_READ]] "previewSyncPlanHandler";
   Route "POST" "/sync/all" [NoStoreHeaders; Authenticate; RequirePermission [SYNC_TRIGGER]; AuditAction "sync.all" (fixed "sync")] "triggerSyncAll";
   Route "POST" "/sync/incremental" [Authenticate; RequirePermission [SYNC_TRIGGER]; AuditAction "sync.incremental" (fixed "sync")] "triggerIncrementalSync";
   Route "POST" "/sync/runs/:runId/cancel" [Authenticate; RequireAdminRole; RequirePermission [SYNC_TRIGGER]; AuditAction "sync.run.cancel" (around "sync:run:" "runId" "")] "cancelSyncRunHandler";
   Route "POST" "/sync/worker" [Authenticate; RequireAdminRole; RequirePermission [SYNC_TRIGGER]; AuditAction "sync.worker" (fixed "sync:worker")] "triggerSyncWorker";
   Route "POST" "/sync/awin/backfill-staged-offers" [NoStoreHeaders; Authenticate; RequireAdminRole; RequirePermission [SYNC_TRIGGER]; AuditAction "sync.awin.backfill-staged-offers" (fixed "sync:awin:backfill-staged-offers")] "triggerAwinStagedOfferBackfill";
   Route "POST" "/sync/:platform/:accountLabel/durable" [NoStoreHeaders; Authenticate; RequireAdminRole; RequirePermission [SYNC_TRIGGER]; AuditAction "sync.scoped.durable" scoped_sync_resource] "triggerScopedDurableSync";
   Route "POST" "/sync/boostiny/:accountLabel/canary" [Authenticate; RequireAdminRole; RequirePermission [SYNC_TRIGGER]; AuditAction "sync.boostiny.canary" (around "sync:boostiny:" "accountLabel" ":canary")] "triggerBoostinyCanarySync";
   Route "POST" "/sync/:platform/:accountLabel" [Authenticate; RequirePermission [SYNC_TRIGGER]; AuditAction "sync.platform" (around "sync:" "platform" "")] "triggerSyncPlatform";
   Route "POST" "/sync/:platform" [Authenticate; RequirePermission [SYNC_TRIGGER]; AuditAction "sync.platform" (around "sync:" "platform" "")] "triggerSyncPlatform"].

Definition staging_routes : list route :=
  [Route "GET" "/auth/connect/:platform" [Limiter "authRateLimiter"; Authenticate; RequirePermission [INTEGRATIONS_MANAGE]] "oauthConnect";
   Route "GET" "/auth/callback/marketplace/:platform" [Limiter "authRateLimiter"] "oauthCallback";
   Route "GET" "/marketplace/accounts" [Authenticate; RequirePermission [INTEGRATIONS_READ]] "getConnections";
   Route "POST" "/marketplace/accounts/:platform/connect" [Authenticate; RequirePermission [INTEGRATIONS_MANAGE]; AuditAction "integrations.connect" (around "integrations:" "platform" "")] "connectMarketplaceAccount";
   Route "DELETE" "/marketplace/accounts/:platform/:accountLabel" [Authenticate; RequirePermission [INTEGRATIONS_MANAGE]; AuditAction "integrations.disconnect" (around "integrations:" "platform" "")] "disconnectMarketplaceAccount";
   Route "GET" "/entities" [Authenticate; RequireEntityTypeAccess; AuditAction "entities.read" entities_resource] "getEntities";
   Route "GET" "/entities/summary" [Authenticate; RequireEntityTypeAccess] "getEntitySummaryHandler";
   Route "GET" "/ops/imported-records" [Authenticate; RequirePermission [CAMPAIGNS_READ]; AuditAction "imported_records.read" (fixed "imported-records")] "listImportedRecordsHandler";
   Route "GET" "/ops/imported-records/summary" [Authenticate; RequirePermission [CAMPAIGNS_READ]] "importedRecordsSummaryHandler";
   Route "GET" "/ops/imported-records/facets" [Authenticate; RequirePermission [CAMPAIGNS_READ]] "importedRecordsFacetsHandler";
   Route "GET" "/ops/imported-records/columns" [Authenticate; RequirePermission [CAMPAIGNS_READ]] "importedRecordsColumnsHandler";
   Route "GET" "/ops/imported-records/:id" [Authenticate; RequirePermission [CAMPAIGNS_READ]] "getImportedRecordHandler";
   Route "POST" "/ops/imported-records/reprocess" [Authenticate; RequirePermission [SYNC_TRIGGER]; AuditAction "imported_records.reprocess" (fixed "imported-records")] "reprocessImportedRecordsHandler";
   Route "GET" "/fields" [Authenticate; RequireEntityTypeAccess] "getFields"].

Definition coupon_routes : list route :=
  [Route "GET" "/coupons/columns" [Authenticate; RequirePermission [COUPONS_READ]] "getCouponColumns";
   Route "GET" "/admin/coupons/columns" [Authenticate; RequirePermission [COUPONS_READ]] "getCouponColumns";
   Route "POST" "/admin/coupons/columns" [Authenticate; RequirePermission [COUPON_COLUMNS_MANAGE]] "postCouponColumn";
   Route "PUT" "/admin/coupons/columns" [Authenticate; RequirePermission [COUPON_COLUMNS_MANAGE]] "putCouponColumns";
   Route "POST" "/admin/coupons/columns/reset" [Authenticate; RequirePermission [COUPON_COLUMNS_MANAGE]] "resetCouponColumnsHandler";
   Route "PATCH" "/admin/coupons/columns/:key" [Authenticate; RequirePermission [COUPON_COLUMNS_MANAGE]] "patchCouponColumn";
   Route "DELETE" "/admin/coupons/columns/:key" [Authenticate; RequirePermission [COUPON_COLUMNS_MANAGE]] "removeCouponColumn";
   Route "GET" "/admin/coupons" [Authenticate; RequirePermission [COUPONS_READ]] "listAdminCoupons";
   Route "GET" "/admin/coupons/pool" [Authenticate; RequirePermission [COUPONS_READ]] "couponPoolHandler";
   Route "POST" "/admin/coupons/pool/:id/review-alert" [Authenticate; RequirePermission [COUPONS_WRITE]; AuditAction "network.coupon.review_alert" (fixed "CouponCodeMaster")] "reviewCouponAlertHandler";
   Route "PATCH" "/admin/coupons/pool/:id" [Authenticate; RequirePermission [COUPONS_WRITE]; AuditAction "network.coupon.inventory" (fixed "CouponCodeMaster")] "patchCouponInventoryHandler";
   Route "GET" "/admin/coupons/:id" [Authenticate; RequirePermission [COUPONS_READ]] "getAdminCoupon";
   Route "GET" "/admin/coupons/:id/commercial" [Authenticate; RequirePermission [COUPONS_READ]] "getAdminCouponCommercial";
   Route "POST" "/admin/coupons" [Authenticate; RequirePermission [COUPONS_WRITE]] "createAdminCoupon";
   Route "PATCH" "/admin/coupons/:id" [Authenticate; RequirePermission [COUPONS_WRITE]] "patchAdminCoupon";
   Route "DELETE" "/admin/coupons/:id" [Authenticate; RequirePermission [COUPONS_WRITE]] "removeAdminCoupon"].

Definition supplier_routes : list route :=
  [Route "GET" "/suppliers" [Authenticate; RequirePermission [CAMPAIGNS_READ]] "listSuppliersHandler";
   Route "GET" "/suppliers/:key" [Authenticate; RequirePermission [CAMPAIGNS_READ]] "getSupplierHandler";
   Route "GET" "/supplier-campaigns" [Authenticate; RequirePermission [CAMPAIGNS_READ]] "listSupplierCampaignsHandler";
   Route "GET" "/supplier-campaigns/brands" [Authenticate; RequirePermission [CAMPAIGNS_READ]] "listNetworkBrandsHandler";
   Route "GET" "/supplier-campaigns/brands/:brandKey" [Authenticate; RequirePermission [CAMPAIGNS_READ]] "getNetworkBrandWorkspaceHandler";
   Route "GET" "/master/catalog-summary" [Authenticate; RequirePermission [CAMPAIGNS_READ]] "masterCatalogSummaryHandler";
   Route "GET" "/ops/client/guide" [Authenticate; RequirePermission [CLIENTS_READ]] "clientOpsGuideHandler";
   Route "GET" "/ops/network/ai-integration-guide" [Authenticate; RequirePermission [OPS_READ]] "aiIntegrationGuideHandler";
   Route "GET" "/ops/global-search" [Authenticate] "globalSearchHandler";
   Route "GET" "/supplier-campaigns/:id" [Authenticate; RequirePermission [CAMPAIGNS_READ]] "getSupplierCampaignHandler";
   Route "GET" "/supplier-campaigns/tracking-links/queue" [Authenticate; RequirePermission [TRACKING_READ]] "listSupplierTrackingLinkQueueHandler";
   Route "PUT" "/supplier-campaigns/:id/tracking-link" [Authenticate; RequirePermission [TRACKING_MANAGE]; AuditAction "tracking.supplier_link.set" (fixed "supplier-campaigns")] "setSupplierTrackingLinkHandler";
   Route "PUT" "/supplier-campaigns/:id/tracking-link/state" [Authenticate; RequirePermission [TRACKING_MANAGE]; AuditAction "tracking.supplier_link.state" (fixed "supplier-campaigns")] "setSupplierTrackingLinkStateHandler";
   Route "POST" "/supplier-campaigns/promote" [Authenticate; RequirePermission [SYNC_TRIGGER]; AuditAction "promotion.campaigns" (fixed "supplier-campaigns")] "promoteSupplierCampaignsHandler";
   Route "GET" "/supplier-coupons" [Authenticate; RequirePermission [COUPONS_READ]] "listSupplierCouponsHandler";
   Route "POST" "/promotion/run" [Authenticate; RequirePermission [SYNC_TRIGGER]; AuditAction "promotion.run" (fixed "promotion")] "runPromotionHandler";
   Route "POST" "/promotion/retry" [Authenticate; RequirePermission [SYNC_TRIGGER]; AuditAction "promotion.retry" (fixed "promotion")] "retryPromotionHandler";
   Route "GET" "/mapper-errors" [Authenticate; RequirePermission [SYSTEM_READ]] "listMapperErrorsHandler";
   Route "PATCH" "/mapper-errors/:id/retry" [Authenticate; RequirePermission [SYNC_TRIGGER]; AuditAction "mapper_errors.retry" (around "mapper-errors:" "id" "")] "retryMapperErrorHandler"].

Definition catalog_routes : list route :=
  [Route "GET" "/merchants" [Authenticate; RequirePermission [MERCHANTS_READ]] "listMerchantsHandler";
   Route "GET" "/merchants/:id" [Authenticate; RequirePermission [MERCHANTS_READ]] "getMerchantHandler";
   Route "POST" "/merchants" [Authenticate; RequirePermission [MERCHANTS_MANAGE]; AuditAction "merchants.create" (fixed "merchants")] "createMerchantHandler";
   Route "PATCH" "/merchants/:id" [Authenticate; RequirePermission [MERCHANTS_MANAGE]; AuditAction "merchants.update" (around "merchants:" "id" "")] "updateMerchantHandler";
   Route "POST" "/merchants/:id/merge" [Authenticate; RequirePermission [MERCHANTS_MANAGE]; AuditAction "merchants.merge" (around "merchants:" "id" "")] "mergeMerchantHandler";
   Route "POST" "/merchant-matching/run" [Authenticate; RequirePermission [MERCHANTS_MANAGE]; AuditAction "merchant_matching.run" (fixed "merchant-matching")] "runMerchantMatchingHandler";
   Route "GET" "/merchant-review" [Authenticate; RequirePermission [MERCHANTS_READ]] "listMerchantReviewsHandler";
   Route "GET" "/merchant-review/:id" [Authenticate; RequirePermission [MERCHANTS_READ]] "getMerchantReviewHandler";
   Route "PATCH" "/merchant-review/:id" [Authenticate; RequirePermission [MERCHANTS_MANAGE]; AuditAction "merchant_review.update" (around "merchant-review:" "id" "")] "updateMerchantReviewHandler";
   Route "GET" "/catalog" [Authenticate; RequirePermission [CATALOG_READ]] "listCatalogHandler";
   Route "GET" "/catalog/:id" [Authenticate; RequirePermission [CATALOG_READ]] "getCatalogHandler";
   Route "POST" "/catalog" [Authenticate; RequirePermission [CATALOG_MANAGE]; AuditAction "catalog.create" (fixed "catalog")] "createCatalogHandler";
   Route "PATCH" "/catalog/:id" [Authenticate; RequirePermission [CATALOG_MANAGE]; AuditAction "catalog.update" (around "catalog:" "id" "")] "updateCatalogHandler";
   Route "POST" "/catalog/:id/source" [Authenticate; RequirePermission [CATALOG_MANAGE]; AuditAction "catalog.source.attach" (around "catalog:" "id" "")] "attachCatalogSourceHandler";
   Route "PATCH" "/catalog/source/:id" [Authenticate; RequirePermission [CATALOG_MANAGE]; AuditAction "catalog.source.update" (around "catalog:source:" "id" "")] "updateCatalogSourceHandler";
   Route "POST" "/catalog/source/:id/promote" [Authenticate; RequirePermission [CATALOG_MANAGE]; AuditAction "catalog.source.promote" (around "catalog:source:" "id" "")] "promoteCatalogSourceHandler"].

Definition client_routes : list route :=
  [Route "GET" "/clients" [Authenticate; RequirePermission [CLIENTS_READ]] "listClientsHandler";
   Route "GET" "/clients/:id" [Authenticate; RequirePermission [CLIENTS_READ]] "getClientHandler";
   Route "POST" "/clients" [Authenticate; RequirePermission [CLIENTS_MANAGE]; AuditAction "clients.create" (fixed "clients")] "createClientHandler";
   Route "PATCH" "/clients/:id" [Authenticate; RequirePermission [CLIENTS_MANAGE]; AuditAction "clients.update" (around "clients:" "id" "")] "updateClientHandler";
   Route "DELETE" "/clients/:id" [Authenticate; RequirePermission [CLIENTS_MANAGE]; AuditAction "clients.delete" (around "clients:" "id" "")] "deleteClientHandler";
   Route "POST" "/clients/:id/portal-users" [Authenticate; RequirePermission [CLIENTS_MANAGE]; AuditAction "clients.portal_user.create" (around "clients:" "id" "")] "createPortalUserHandler";
   Route "GET" "/clients/:id/portal-users" [Authenticate; RequirePermission [CLIENTS_MANAGE]] "listPortalUsersHandler";
   Route "GET" "/clients/:id/api-keys" [Authenticate; RequirePermission [CLIENTS_MANAGE]] "listApiCredentialsHandler";
   Route "POST" "/clients/:id/api-keys" [Authenticate; RequirePermission [CLIENTS_MANAGE]; AuditAction "clients.api_key.create" (around "clients:" "id" "")] "createApiCredentialHandler";
   Route "POST" "/clients/:id/api-keys/:credentialId/revoke" [Authenticate; RequirePermission [CLIENTS_MANAGE]; AuditAction "clients.api_key.revoke" (around "clients:" "id" "")] "revokeApiCredentialHandler";
   Route "GET" "/clients/:id/onboarding" [Authenticate; RequirePermission [CLIENTS_MANAGE]] "getOnboardingStateHandler";
   Route "PUT" "/clients/:id/onboarding/commercial-model" [Authenticate; RequirePermission [CLIENTS_MANAGE]; AuditAction "clients.commercial_model" (around "clients:" "id" "")] "setCommercialModelHandler";
   Route "POST" "/clients/:id/onboarding/admin" [Authenticate; RequirePermission [CLIENTS_MANAGE]; AuditAction "clients.onboarding.admin" (around "clients:" "id" "")] "inviteAdministratorHandler";
   Route "POST" "/clients/:id/onboarding/allot" [Authenticate; RequirePermission [CLIENTS_MANAGE]; AuditAction "clients.onboarding.allot" (around "clients:" "id" "")] "allotCampaignsHandler";
   Route "GET" "/clients/:id/allocation/campaigns" [Authenticate; RequirePermission [CLIENTS_MANAGE]] "listClientAllocationCampaignsHandler";
   Route "GET" "/clients/:id/allocation/campaigns/:campaignId" [Authenticate; RequirePermission [CLIENTS_MANAGE]] "getClientAllocationCampaignHandler";
   Route "POST" "/clients/:id/onboarding/provision" [Authenticate; RequirePermission [CLIENTS_MANAGE]; AuditAction "clients.onboarding.provision" (around "clients:" "id" "")] "provisionClientHandler";
   Route "POST" "/clients/:id/onboarding/activate" [Authenticate; RequirePermission [CLIENTS_MANAGE]; AuditAction "clients.onboarding.activate" (around "clients:" "id" "")] "activateOnboardingClientHandler"].

Definition partner_routes : list route :=
  [Route "GET" "/v1/client/campaigns" [AuthenticatePartner; RequireDeliveryChannel "api"; RequireApiEndpoint "campaign"] "clientListCampaignsAliasHandler";
   Route "GET" "/v1/client/campaigns/:id" [AuthenticatePartner; RequireDeliveryChannel "api"; RequireApiEndpoint "campaign"] "clientGetCampaignAliasHandler";
   Route "GET" "/v1/client/account" [AuthenticatePartner; RequireDeliveryChannel "api"; RequireApiEndpoint "reporting"] "clientGetAccountHandler";
   Route "GET" "/v1/client/performance" [AuthenticatePartner; RequireDeliveryChannel "api"; RequireApiEndpoint "reporting"] "clientPerformanceAliasHandler";
   Route "GET" "/v1/client/performance/summary" [AuthenticatePartner; RequireDeliveryChannel "api"; RequireApiEndpoint "reporting"] "clientPerformanceSummaryHandler";
   Route "GET" "/v1/client/performance/campaigns" [AuthenticatePartner; RequireDeliveryChannel "api"; RequireApiEndpoint "reporting"] "clientPerformanceCampaignsHandler";
   Route "GET" "/v1/client/performance/affiliate-links" [AuthenticatePartner; RequireDeliveryChannel "api"; RequireApiEndpoint "reporting"] "clientPerformanceAffiliateLinksHandler";
   Route "GET" "/v1/client/performance/coupons" [AuthenticatePartner; RequireDeliveryChannel "api"; RequireApiEndpoint "reporting"] "clientPerformanceCouponsHandler";
   Route "GET" "/v1/client/performance/orders" [AuthenticatePartner; RequireDeliveryChannel "api"; RequireApiEndpoint "reporting"] "clientPerformanceOrdersHandler";
   Route "GET" "/v1/client/orders" [AuthenticatePartner; RequireDeliveryChannel "api"; RequireApiEndpoint "reporting"] "clientListOrdersHandler";
   Route "GET" "/v1/client/confirmed-orders" [AuthenticatePartner; RequireDeliveryChannel "api"; RequireApiEndpoint "reporting"] "clientListConfirmedOrdersHandler";
   Route "GET" "/v1/client/payments" [AuthenticatePartner; RequireDeliveryChannel "api"; RequireApiEndpoint "reporting"] "clientListPaymentsHandler";
   Route "GET" "/v1/client/payouts" [AuthenticatePartner; RequireDeliveryChannel "api"; RequireApiEndpoint "reporting"] "clientListPayoutsHandler";
   Route "GET" "/v1/client/statements" [AuthenticatePartner; RequireDeliveryChannel "api"; RequireApiEndpoint "reporting"] "clientListStatementsHandler";
   Route "GET" "/v1/client/statements/:id" [AuthenticatePartner; RequireDeliveryChannel "api"; RequireApiEndpoint "reporting"] "clientGetStatementHandler";
   Route "GET" "/v1/client/withdrawal-requests" [AuthenticatePartner; RequireDeliveryChannel "api"; RequireApiEndpoint "reporting"] "clientListWithdrawalsHandler";
   Route "POST" "/v1/client/withdrawal-requests" [AuthenticatePartner; RequirePortalUser; RequireDeliveryChannel "api"; RequireApiEndpoint "reporting"] "clientCreateWithdrawalHandler";
   Route "GET" "/v1/client/products" [AuthenticatePartner; RequireDeliveryChannel "api"; RequireApiEndpoint "product"] "clientListProductsHandler";
   Route "GET" "/partner/v1/campaigns" [AuthenticatePartner; RequireDeliveryChannel "api"; RequireApiEndpoint "campaign"; AuditPartnerAccess "partner.campaigns.list"] "partnerListCampaignsHandler";
   Route "GET" "/partner/v1/campaigns/:id" [AuthenticatePartner; RequireDeliveryChannel "api"; RequireApiEndpoint "campaign"; AuditPartnerAccess "partner.campaigns.get"] "partnerGetCampaignHandler";
   Route "GET" "/partner/v1/orders" [AuthenticatePartner; RequireDeliveryChannel "api"; RequireApiEndpoint "reporting"] "clientListOrdersHandler";
   Route "GET" "/partner/v1/confirmed-orders" [AuthenticatePartner; RequireDeliveryChannel "api"; RequireApiEndpoint "reporting"] "clientListConfirmedOrdersHandler";
   Route "GET" "/partner/v1/payment-status" [AuthenticatePartner; RequireDeliveryChannel "api"; RequireApiEndpoint "reporting"] "clientListPaymentsHandler"].

Definition portal_routes : list route :=
  [Route "GET" "/portal/v1/me" [AuthenticatePartner; RequireDeliveryChannel "portal"] "portalMeHandler";
   Route "GET" "/portal/v1/overview" [AuthenticatePartner; RequireDeliveryChannel "portal"] "portalOverviewHandler";
   Route "GET" "/portal/v1/performance" [AuthenticatePartner; RequireDeliveryChannel "portal"] "portalPerformanceHandler";
   Route "GET" "/portal/v1/campaigns" [AuthenticatePartner; RequireDeliveryChannel "portal"] "clientListCampaignsAliasHandler";
   Route "GET" "/portal/v1/campaigns/:id" [AuthenticatePartner; RequireDeliveryChannel "portal"] "clientGetCampaignAliasHandler";
   Route "GET" "/portal/v1/orders" [AuthenticatePartner; RequireDeliveryChannel "portal"] "clientListOrdersHandler";
   Route "GET" "/portal/v1/payment-status" [AuthenticatePartner; RequireDeliveryChannel "portal"] "clientListPaymentsHandler";
   Route "GET" "/portal/v1/products" [AuthenticatePartner; RequireDeliveryChannel "portal"] "clientListProductsHandler";
   Route "GET" "/portal/v1/payments" [AuthenticatePartner; RequireDeliveryChannel "portal"] "portalPaymentsHandler";
   Route "PUT" "/portal/v1/bank" [AuthenticatePartner; RequirePortalUser; RequireDeliveryChannel "portal"] "portalSaveBankHandler";
   Route "POST" "/portal/v1/withdrawals" [AuthenticatePartner; RequirePortalUser; RequireDeliveryChannel "portal"] "portalWithdrawHandler";
   Route "GET" "/portal/v1/payable-statements" [AuthenticatePartner; RequireDeliveryChannel "portal"] "portalListPayableStatementsHandler";
   Route "GET" "/portal/v1/payable-statements/:id" [AuthenticatePartner; RequireDeliveryChannel "portal"] "portalGetPayableStatementHandler";
   Route "GET" "/portal/v1/withdrawal-requests" [AuthenticatePartner; RequireDeliveryChannel "portal"] "portalListWithdrawalRequestsHandler";
   Route "GET" "/portal/v1/withdrawal-requests/:id" [AuthenticatePartner; RequireDeliveryChannel "portal"] "portalGetWithdrawalRequestHandler";
   Route "GET" "/portal/v1/notifications" [AuthenticatePartner; RequireDeliveryChannel "portal"] "portalNotificationsHandler";
   Route "GET" "/portal/v1/dashboard-summary" [AuthenticatePartner; RequireDeliveryChannel "portal"] "portalDashboardSummaryHandler";
   Route "GET" "/portal/v1/settings" [AuthenticatePartner; RequirePortalUser; RequireDeliveryChannel "portal"] "portalSettingsGetHandler";
   Route "PATCH" "/portal/v1/settings" [AuthenticatePartner; RequirePortalUser; RequireDeliveryChannel "portal"] "portalSettingsPatchHandler";
   Route "GET" "/portal/v1/team" [AuthenticatePartner; RequirePortalUser; RequireDeliveryChannel "portal"] "portalTeamHandler";
   Route "POST" "/portal/v1/support" [AuthenticatePartner; RequirePortalUser; RequireDeliveryChannel "portal"] "portalSupportHandler";
   Route "GET" "/portal/v1/api-docs" [AuthenticatePartner; RequireDeliveryChannel "portal"] "portalApiDocsHandler";
   Route "GET" "/portal/v1/api-keys" [AuthenticatePartner; RequirePortalUser; RequireDeliveryChannel "portal"] "portalListApiKeysHandler";
   Route "POST" "/portal/v1/api-keys/rotate" [AuthenticatePartner; RequirePortalUser; RequireDeliveryChannel "portal"] "portalRotateApiKeyHandler"].

Definition assignment_routes : list route :=
  [Route "GET" "/client-brand-requests" [Authenticate; RequirePermission [CLIENTS_READ]] "listBrandRequestsHandler";
   Route "POST" "/client-brand-requests" [Authenticate; RequirePermission [CLIENTS_MANAGE]; AuditAction "client_brand_requests.create" (fixed "client-brand-requests")] "createBrandRequestHandler";
   Route "PATCH" "/client-brand-requests/:id" [Authenticate; RequirePermission [CLIENTS_MANAGE]; AuditAction "client_brand_requests.update" (around "client-brand-requests:" "id" "")] "updateBrandRequestHandler";
   Route "GET" "/client-assignments" [Authenticate; RequirePermission [CLIENTS_READ]] "listAssignmentsHandler";
   Route "POST" "/client-assignments" [Authenticate; RequirePermission [CLIENTS_MANAGE]; AuditAction "client_assignments.create" (fixed "client-assignments")] "createAssignmentHandler";
   Route "PATCH" "/client-assignments/:id" [Authenticate; RequirePermission [CLIENTS_MANAGE]; AuditAction "client_assignments.update" (around "client-assignments:" "id" "")] "updateAssignmentHandler";
   Route "GET" "/tracking-links" [Authenticate; RequirePermission [TRACKING_READ]] "listTrackingLinksHandler";
   Route "GET" "/tracking-links/defaults" [Authenticate; RequirePermission [TRACKING_READ]] "getTrackingLinkDefaultsHandler";
   Route "POST" "/tracking-links" [Authenticate; RequirePermission [TRACKING_MANAGE]; AuditAction "tracking_links.create" (fixed "tracking-links")] "createTrackingLinkHandler";
   Route "PATCH" "/tracking-links/:id" [Authenticate; RequirePermission [TRACKING_MANAGE]; AuditAction "tracking_links.update" (around "tracking-links:" "id" "")] "updateTrackingLinkHandler";
   Route "GET" "/coupon-assignments" [Authenticate; RequirePermission [COUPON_ASSIGN_READ]] "listCouponAssignmentsHandler";
   Route "POST" "/coupon-assignments" [Authenticate; RequirePermission [COUPON_ASSIGN_MANAGE]; AuditAction "coupon_assignments.create" (fixed "coupon-assignments")] "createCouponAssignmentHandler";
   Route "PATCH" "/coupon-assignments/:id" [Authenticate; RequirePermission [COUPON_ASSIGN_MANAGE]; AuditAction "coupon_assignments.update" (around "coupon-assignments:" "id" "")] "updateCouponAssignmentHandler";
   Route "GET" "/commission-rules" [Authenticate; RequirePermission [COMMISSION_READ]] "listCommissionRulesHandler";
   Route "POST" "/commission-rules" [Authenticate; RequirePermission [COMMISSION_MANAGE]; AuditAction "commission_rules.create" (fixed "commission-rules")] "createCommissionRuleHandler";
   Route "PATCH" "/commission-rules/:id" [Authenticate; RequirePermission [COMMISSION_MANAGE]; AuditAction "commission_rules.update" (around "commission-rules:" "id" "")] "updateCommissionRuleHandler"].

Definition reporting_routes : list route :=
  [Route "GET" "/clicks" [Authenticate; RequirePermission [TRACKING_READ]] "listClicksHandler";
   Route "POST" "/clicks" [Authenticate; RequirePermission [TRACKING_MANAGE]; AuditAction "clicks.record" (fixed "clicks")] "recordClickHandler";
   Route "GET" "/conversions" [Authenticate; RequirePermission [CONVERSIONS_READ]] "listConversionsHandler";
   Route "POST" "/conversions" [Authenticate; RequirePermission [SYNC_TRIGGER]; AuditAction "conversions.ingest" (fixed "conversions")] "ingestConversionHandler";
   Route "GET" "/reports/daily" [Authenticate; RequirePermission [PERFORMANCE_READ]] "listDailyReportsHandler";
   Route "GET" "/reports/client" [Authenticate; RequirePermission [PERFORMANCE_READ]] "listClientReportsHandler";
   Route "GET" "/reports/merchant" [Authenticate; RequirePermission [PERFORMANCE_READ]] "listMerchantReportsHandler";
   Route "GET" "/reports/campaign" [Authenticate; RequirePermission [PERFORMANCE_READ]] "listCampaignReportsHandler";
   Route "GET" "/reports/source" [Authenticate; RequirePermission [PERFORMANCE_READ]] "listSourceReportsHandler";
   Route "POST" "/aggregation/run" [Authenticate; RequirePermission [SYNC_TRIGGER]; AuditAction "aggregation.run" (fixed "aggregation")] "runAggregationHandler";
   Route "POST" "/aggregation/rebuild" [Authenticate; RequirePermission [SYNC_TRIGGER]; AuditAction "aggregation.rebuild" (fixed "aggregation")] "rebuildAggregationHandler";
   Route "GET" "/ops/metrics" [Authenticate; RequirePermission [OPS_READ]] "systemMetricsHandler";
   Route "GET" "/ops/queues" [Authenticate; RequirePermission [OPS_READ]] "queueStatusHandler";
   Route "GET" "/ops/jobs/failed" [Authenticate; RequirePermission [OPS_READ]] "failedJobsHandler";
   Route "GET" "/ops/jobs/dead-letter" [Authenticate; RequirePermission [OPS_READ]] "deadLetterHandler";
   Route "GET" "/ops/aggregation" [Authenticate; RequirePermission [OPS_READ]] "aggregationStatusHandler";
   Route "GET" "/ops/promotion" [Authenticate; RequirePermission [OPS_READ]] "promotionStatusHandler";
   Route "GET" "/ops/matching-queue" [Authenticate; RequirePermission [OPS_READ]] "matchingQueueHandler";
   Route "GET" "/ops/storage" [Authenticate; RequirePermission [OPS_READ]] "storageUsageHandler";
   Route "GET" "/ops/database" [Authenticate; RequirePermission [OPS_READ]] "databaseStatsHandler";
   Route "GET" "/ops/workers" [Authenticate; RequirePermission [OPS_READ]] "workerStatusHandler";
   Route "POST" "/ops/outbox/dispatch" [Authenticate; RequirePermission [OPS_READ]; AuditAction "ops.outbox.dispatch" (fixed "event-outbox")] "dispatchOutboxHandler"].

Definition operations_routes : list route :=
  [Route "GET" "/ops/exceptions" [Authenticate; RequirePermission [EXCEPTIONS_READ]] "listExceptionsHandler";
   Route "GET" "/ops/exceptions/:id" [Authenticate; RequirePermission [EXCEPTIONS_READ]] "getExceptionHandler";
   Route "POST" "/ops/exceptions/:id/acknowledge" [Authenticate; RequirePermission [EXCEPTIONS_MANAGE]; AuditAction "exception.acknowledge" (fixed "ExceptionCase")] "acknowledgeExceptionHandler";
   Route "POST" "/ops/exceptions/:id/assign" [Authenticate; RequirePermission [EXCEPTIONS_MANAGE]; AuditAction "exception.assign" (fixed "ExceptionCase")] "assignExceptionHandler";
   Route "POST" "/ops/exceptions/:id/resolve" [Authenticate; RequirePermission [EXCEPTIONS_MANAGE]; AuditAction "exception.resolve" (fixed "ExceptionCase")] "resolveExceptionHandler";
   Route "POST" "/ops/exceptions/:id/reopen" [Authenticate; RequirePermission [EXCEPTIONS_MANAGE]; AuditAction "exception.reopen" (fixed "ExceptionCase")] "reopenExceptionHandler";
   Route "POST" "/ops/exceptions/:id/retry" [Authenticate; RequirePermission [EXCEPTIONS_MANAGE]; AuditAction "exception.retry" (fixed "ExceptionCase")] "retryExceptionHandler";
   Route "GET" "/ops/mapping-review" [Authenticate; RequirePermission [EXCEPTIONS_READ]] "listMappingReviewHandler";
   Route "GET" "/ops/raw-payloads" [Authenticate; RequirePermission [OPS_READ]] "listRawPayloadsHandler";
   Route "GET" "/ops/raw-payloads/:id" [Authenticate; RequirePermission [OPS_READ]] "getRawPayloadHandler";
   Route "POST" "/ops/raw-payloads/:id/replay" [Authenticate; RequirePermission [OPS_MANAGE]; AuditAction "mapping.replay" (fixed "RawPayload")] "replayRawPayloadHandler";
   Route "POST" "/ops/reprocess" [Authenticate; RequirePermission [OPS_MANAGE]; AuditAction "reprocess.batch" (fixed "RawPayload")] "reprocessHandler";
   Route "GET" "/ops/sync-runs" [Authenticate; RequirePermission [OPS_READ]] "listSyncRunsHandler";
   Route "GET" "/ops/sync-runs/:id" [Authenticate; RequirePermission [OPS_READ]] "getSyncRunHandler";
   Route "GET" "/ops/finance/dashboard" [Authenticate; RequirePermission [FINANCE_OPS_READ]] "financeDashboardHandler";
   Route "GET" "/ops/finance/reconcile/transaction/:id" [Authenticate; RequirePermission [FINANCE_OPS_READ]] "reconcileTransactionHandler";
   Route "GET" "/ops/finance/reconcile/conversion/:conversionId" [Authenticate; RequirePermission [FINANCE_OPS_READ]] "reconcileConversionHandler";
   Route "GET" "/ops/finance/reconcile/client/:clientId" [Authenticate; RequirePermission [FINANCE_OPS_READ]] "reconcileClientHandler";
   Route "GET" "/ops/finance/reconcile/supplier/:supplier" [Authenticate; RequirePermission [FINANCE_OPS_READ]] "reconcileSupplierHandler";
   Route "GET" "/ops/finance/portal-cutover-readiness" [Authenticate; RequirePermission [FINANCE_OPS_READ]] "portalCutoverReadinessHandler";
   Route "GET" "/ops/finance/daily-report-cutover-readiness" [Authenticate; RequirePermission [FINANCE_OPS_READ]] "dailyReportCutoverReadinessHandler";
   Route "GET" "/ops/finance/historical-coverage" [Authenticate; RequirePermission [FINANCE_OPS_READ]] "historicalFinanceCoverageHandler";
   Route "GET" "/ops/products" [Authenticate; RequirePermission [PRODUCTS_READ]] "listProductsHandler";
   Route "POST" "/ops/products/sync-feeds" [Authenticate; RequirePermission [PRODUCTS_MANAGE]; AuditAction "products.feed_sync" (fixed "ProductFeed")] "syncProductFeedsHandler";
   Route "GET" "/ops/products/:id" [Authenticate; RequirePermission [PRODUCTS_READ]] "getProductHandler";
   Route "GET" "/ops/product-feeds" [Authenticate; RequirePermission [PRODUCTS_READ]] "listProductFeedsHandler";
   Route "POST" "/ops/product-feeds/ingest" [Authenticate; RequirePermission [PRODUCTS_MANAGE]; AuditAction "products.feed_ingest" (fixed "ProductFeed")] "ingestProductFeedHandler";
   Route "POST" "/ops/client-products/assign" [Authenticate; RequirePermission [PRODUCTS_MANAGE]; AuditAction "products.client_assign" client_product_resource] "assignClientProductHandler"].

Definition admin_routes : list route :=
  [Route "GET" "/ops/admin/campaigns" [Authenticate; RequirePermission [CATALOG_READ]] "adminListCampaignsHandler";
   Route "GET" "/ops/admin/campaigns/:id" [Authenticate; RequirePermission [CATALOG_READ]] "adminGetCampaignHandler";
   Route "POST" "/ops/admin/campaigns/supplier/:supplierCampaignId/certify-mapping" [Authenticate; RequirePermission [OPS_MANAGE]; AuditAction "network.mapping.certify" (fixed "MappingCertification")] "certifyMappingHandler";
   Route "POST" "/ops/admin/campaigns/supplier/:supplierCampaignId/revoke-mapping" [Authenticate; RequirePermission [OPS_MANAGE]; AuditAction "network.mapping.revoke" (fixed "MappingCertification")] "revokeMappingHandler";
   Route "POST" "/ops/admin/campaigns/approve-catalog" [Authenticate; RequirePermission [CATALOG_MANAGE]; AuditAction "network.catalog.approve" (fixed "CanonicalCampaign")] "approveCatalogHandler";
   Route "GET" "/ops/admin/performance" [Authenticate; RequirePermission [PERFORMANCE_READ]] "adminListPerformanceHandler";
   Route "GET" "/ops/admin/client-overview" [Authenticate; RequirePermission [PERFORMANCE_READ]] "adminListClientOverviewHandler";
   Route "GET" "/ops/admin/client-performance" [Authenticate; RequirePermission [PERFORMANCE_READ]] "adminListClientPerformanceHandler";
   Route "GET" "/ops/admin/client-confirmed-orders" [Authenticate; RequirePermission [CONVERSIONS_READ]] "adminListClientConfirmedOrdersHandler";
   Route "GET" "/ops/admin/reporting-overview" [Authenticate; RequirePermission [PERFORMANCE_READ]] "adminReportingOverviewHandler";
   Route "GET" "/ops/admin/orders" [Authenticate; RequirePermission [CONVERSIONS_READ]] "adminListOrdersHandler";
   Route "POST" "/ops/admin/order-items/:id/validation" [Authenticate; RequirePermission [OPS_MANAGE]; AuditAction "order_item.validation" (fixed "OrderItem")] "adminTransitionOrderItemValidationHandler";
   Route "GET" "/ops/admin/product-feeds" [Authenticate; RequirePermission [PRODUCTS_READ]] "adminListProductFeedsHandler";
   Route "GET" "/ops/admin/network-certification" [Authenticate; RequirePermission [INTEGRATIONS_MANAGE]; NoStoreHeaders] "networkCertificationCatalogHandler";
   Route "POST" "/ops/admin/network-certification/:network/run" [Authenticate; RequirePermission [INTEGRATIONS_MANAGE]; NoStoreHeaders; Limiter "certificationRateLimiter"; AuditAction "network.certification.run" certification_resource] "networkCertificationRunHandler"].

Definition connection_routes : list route :=
  [Route "GET" "/ops/admin/network-connections/catalog" [Authenticate; RequirePermission [INTEGRATIONS_READ]] "networkConnectionCatalogHandler";
   Route "GET" "/ops/admin/network-connections" [Authenticate; RequirePermission [INTEGRATIONS_READ]] "listNetworkConnectionsHandler";
   Route "GET" "/ops/admin/network-connections/:id" [Authenticate; RequirePermission [INTEGRATIONS_READ]] "getNetworkConnectionHandler";
   Route "POST" "/ops/admin/network-connections" [Authenticate; RequirePermission [INTEGRATIONS_MANAGE]; connectionAudit "network_connection.create"] "createNetworkConnectionHandler";
   Route "PATCH" "/ops/admin/network-connections/:id" [Authenticate; RequirePermission [INTEGRATIONS_MANAGE]; connectionAudit "network_connection.update"] "updateNetworkConnectionHandler";
   Route "POST" "/ops/admin/network-connections/:id/pause" [Authenticate; RequirePermission [INTEGRATIONS_MANAGE]; connectionAudit "network_connection.pause"] "pauseNetworkConnectionHandler";
   Route "POST" "/ops/admin/network-connections/:id/resume" [Authenticate; RequirePermission [INTEGRATIONS_MANAGE]; connectionAudit "network_connection.resume"] "resumeNetworkConnectionHandler";
   Route "POST" "/ops/admin/network-connections/:id/test" [Authenticate; RequirePermission [INTEGRATIONS_MANAGE]; Limiter "certificationRateLimiter"; connectionAudit "network_connection.test"] "testNetworkConnectionHandler";
   Route "POST" "/ops/admin/network-connections/:id/initial-sync" [Authenticate; RequireAdminRole; RequirePermission [INTEGRATIONS_MANAGE]; RequirePermission [SYNC_TRIGGER]; connectionAudit "network_connection.initial_sync"] "initialSyncNetworkConnectionHandler"].

Definition settlement_routes : list route :=
  [Route "GET" "/ops/admin/commission-vocabulary" [Authenticate; RequirePermission [COMMISSION_READ]] "adminCommissionVocabularyHandler";
   Route "GET" "/ops/admin/payment-status" [Authenticate; RequirePermission [FINANCE_OPS_READ]] "adminListPaymentStatusHandler";
   Route "GET" "/ops/admin/network-billing" [Authenticate; RequirePermission [FINANCE_OPS_READ]] "adminListNetworkBillingHandler";
   Route "GET" "/ops/admin/network-payments-received" [Authenticate; RequirePermission [FINANCE_OPS_READ]] "adminListNetworkPaymentsReceivedHandler";
   Route "GET" "/ops/admin/mbo-receipts" [Authenticate; RequirePermission [FINANCE_OPS_READ]] "adminListMboReceiptsHandler";
   Route "GET" "/ops/admin/client-settlements/payable-orders" [Authenticate; RequirePermission [FINANCE_OPS_READ]] "adminListPayableOrdersHandler";
   Route "GET" "/ops/admin/client-settlements/withdrawal-invoice-requests" [Authenticate; RequirePermission [FINANCE_OPS_READ]] "adminListWithdrawalInvoiceRequestsHandler";
   Route "GET" "/ops/admin/client-settlements/payouts" [Authenticate; RequirePermission [FINANCE_OPS_READ]] "adminListPayoutsHandler";
   Route "GET" "/ops/admin/boostiny/payment-source-mappings" [Authenticate; RequirePermission [FINANCE_OPS_READ]] "boostinyListPaymentMappingsHandler";
   Route "PUT" "/ops/admin/boostiny/payment-source-mappings" [Authenticate; RequirePermission [FINANCE_OPS_READ]; AuditAction "boostiny.payment_source_mapping.upsert" (fixed "BoostinyPaymentSourceMapping")] "boostinyUpsertPaymentMappingHandler";
   Route "GET" "/ops/admin/boostiny/partner-payment-settlements" [Authenticate; RequirePermission [FINANCE_OPS_READ]] "boostinyListPartnerSettlementsHandler";
   Route "POST" "/ops/admin/boostiny/partner-payment-upload" [Authenticate; RequirePermission [FINANCE_OPS_READ]; AuditAction "boostiny.partner_payment.upload" (fixed "BoostinyPartnerPaymentUpload")] "boostinyUploadPartnerPaymentHandler";
   Route "GET" "/ops/admin/feeds" [Authenticate; RequirePermission [PRODUCTS_READ]] "adminListProductFeedsHandler";
   Route "GET" "/ops/data-quality" [Authenticate; RequirePermission [OPS_READ]] "dataQualityHandler";
   Route "GET" "/ops/assignment-coverage" [Authenticate; RequirePermission [OPS_READ]] "assignmentCoverageHandler";
   Route "GET" "/ops/supplier-health" [Authenticate; RequirePermission [OPS_READ]] "supplierHealthHandler";
   Route "GET" "/ops/job-health" [Authenticate; RequirePermission [OPS_READ]] "jobHealthHandler";
   Route "GET" "/ops/system-health" [Authenticate; RequirePermission [OPS_READ]] "systemOpsHealthHandler"].

Definition network_routes : list route :=
  [Route "GET" "/ops/finance/reconcile/network" [Authenticate; RequirePermission [FINANCE_OPS_READ]] "networkReconHandler";
   Route "POST" "/ops/finance/reconcile/network/rebuild" [Authenticate; RequirePermission [FINANCE_OPS_READ]; AuditAction "network.reconciliation.rebuild" (fixed "NetworkReconciliationRow")] "rebuildNetworkReconHandler";
   Route "GET" "/ops/mapping-review/rules" [Authenticate; RequirePermission [OPS_READ]] "mappingRulesHandler";
   Route "GET" "/ops/mapping-registry" [Authenticate; RequirePermission [OPS_READ]] "listMappingRegistryHandler";
   Route "GET" "/ops/mapping-registry/:id" [Authenticate; RequirePermission [OPS_READ]] "getMappingRegistryRuleHandler";
   Route "POST" "/ops/mapping-registry/sync" [Authenticate; RequirePermission [OPS_READ]] "syncMappingRegistryHandler";
   Route "GET" "/ops/network/dashboard" [Authenticate; RequirePermission [CAMPAIGNS_READ]] "networkOpsDashboardHandler";
   Route "GET" "/ops/admin/supplier-commission-rules" [Authenticate; RequirePermission [COMMISSION_READ]] "supplierCommissionRulesHandler";
   Route "POST" "/ops/admin/supplier-commission-rules/test" [Authenticate; RequirePermission [COMMISSION_MANAGE]; AuditAction "supplier_commission_rules.test_create" (fixed "SupplierCommissionRule")] "createTestSupplierCommissionRuleHandler";
   Route "GET" "/ops/admin/tracking-links" [Authenticate; RequirePermission [TRACKING_READ]] "networkTrackingLinksHandler"].

Definition routes : list route :=
  auth_routes ++ sync_routes ++ staging_routes ++ coupon_routes ++ supplier_routes ++ catalog_routes ++
  client_routes ++ partner_routes ++ portal_routes ++ assignment_routes ++ reporting_routes ++ operations_routes ++
  admin_routes ++ connection_routes ++ settlement_routes ++ network_routes.

End Table.

(** ** Matching *)

Inductive segment := Lit (s : string) | Par (name : string).

Fixpoint split_on (sep : ascii) (s : string) : list string :=
  match s with
  | EmptyString => [""]
  | String c s' =>
      if (c =? sep)%char then "" :: split_on sep s'
      else match split_on sep s' with p :: ps => String c p :: ps | [] => [String c ""] end
  end.

(** The segments of a pattern, after its leading slash. *)
Definition parse_segment (s : string) : segment :=
  match s with String ":" name => Par name | _ => Lit s end.
Definition parse_pattern (p : string) : list segment := map parse_segment (split_on "/" (string_drop 1 p)).

(** A path without the empty segment of a final slash. *)
Definition without_final_slash (path : list string) : list string :=
  match last path with Some "" => take (length path - 1) path | _ => path end.

Fixpoint match_segments (p : list segment) (path : list string) : option (list (string * string)) :=
  match p, path with
  | [], [] => Some []
  | Lit l :: p', s :: path' => if to_lower l =s? to_lower s then match_segments p' path' else None
  | Par name :: p', s :: path' =>
      if s =s? "" then None else option_map (cons (name, s)) (match_segments p' path')
  | _, _ => None
  end.

Definition handles (m : string) (r : route) : bool :=
  (route_method r =s? m) || ((m =s? "HEAD") && (route_method r =s? "GET")).

(** The route taken, and the request as its guards see it. *)
Fixpoint find_route (rs : list route) (req : request) : option (route * request) :=
  match rs with
  | [] => None
  | r :: rs' =>
      if handles (method req) r then
        match match_segments (parse_pattern (pattern r)) (without_final_slash (segments req)) with
        | Some ps =>
            Some (r, Request (method req) (segments req) (originalUrl req) (headers req) (query req) (body req) (ip req)
                       ps (pattern r))
        | None => find_route rs' req
        end
      else find_route rs' req
  end.

(** ** Dispatch *)

Section Dispatch.
Context {D : Database} {J : Jwt} {B : Bcrypt} {R : Crypto} {C : Config} {L : RateLimiter} {H : JsHost}.
(** What the named handlers answer. *)
Context (run_handler : string -> request -> context -> prog world reply).

(** The guards in order: the context the handler is called with, or the answer. *)
Fixpoint run_guards (gs : list guard) (req : request) (c : context) : prog world verdict :=
  match gs with
  | [] => ret (Next c)
  | g :: gs' =>
      let! v := run_guard g req c in
      match v with
      | Next c' => run_guards gs' req c'
      | Answer r => ret (Answer r)
      end
  end.

(** The error handler of [app.js] (lines 79-120) on the errors the services raise: they carry
    no upstream response, no details and, for a unique violation, no field names. *)
Definition ENCRYPTION_MESSAGE : string := "Server is missing encryption configuration. Contact your administrator.".
Definition error_message (e : js_error) : string :=
  let message := if err_message e =s? "" then "Unexpected server error" else err_message e in
  let message := if includes (to_upper message) "OAUTH_TOKEN_ENCRYPTION_KEY" then ENCRYPTION_MESSAGE else message in
  redact_secrets message.
Definition error_reply (e : js_error) : reply :=
  if err_code e =s? "P2002"
  then MkReply 409 (JObj [("ok", JBool false); ("message", JStr "A record with this value already exists.")])
  else MkReply (if err_status e =? 0 then 500 else err_status e)
         (JObj ([("ok", JBool false); ("message", JStr (error_message e))]
                ++ (if err_code e =s? "" then [] else [("code", JStr (err_code e))]))).

Definition not_found : reply := MkReply 404 JUndef.

(** The response, with the context the handler ran in when it was reached. *)
Definition respond (r : route) (req : request) : prog world (reply * option context) :=
  catch
    (let! v := run_guards (guards r) req no_context in
     match v with
     | Answer a => ret (a, None)
     | Next c =>
         let! a := catch (run_handler (handler r) req c) (fun e => ret (error_reply e)) in
         for_each (guards r) (fun g => on_finish g req c a) ;;
         ret (a, Some c)
     end)
    (fun e => ret (error_reply e, None)).

(** The same request among others: its guards and its handler are separate steps. *)
Definition respond_steps (r : route) (req : request) : io world reply :=
  do! v := act (run_guards (guards r) req no_context) in
  match v with
  | Answer a => Ret a
  | Next c => act (run_handler (handler r) req c)
  end.

Definition serve (req : request) : prog world reply :=
  match find_route routes req with
  | None => ret not_found
  | Some (r, req') => let! o := respond r req' in ret o.1
  end.

End Dispatch.
