(* ===== verification/Security.v ===== *)
(** * Who reaches a handler

    The guards of [middleware/auth.js] along the routes of [routes/index.js]: what a request
    has shown by the time its handler runs ([has_authority]), that refused requests change
    nothing, which routes a client's account and a client's key can reach, and that the tenant
    of a partner request is a matter of its credentials alone. *)

From S2P Require Import Prelude JsNum JsVal Store Access Accounts Credentials Middleware Routes.
Local Open Scope Z_scope.

Section Security.
Context {D : Database} {J : Jwt} {B : Bcrypt} {R : Crypto} {C : Config} {L : RateLimiter} {H : JsHost}.

(** ** What the authenticating guards establish *)

(** [u] is stored, active, and named by the valid session token the request bears. *)
Definition signed_in (w : world) (req : request) (u : jsval) : Prop :=
  u ∈ rows w TUser /\ truthy (u@."isActive") = true /\
  exists token secret payload,
    readBearerToken req = Some token /\ JWT_SECRET = Some secret /\
    jwt_verify (now w / 1000) token secret = Some payload /\ col_eq (u@."id") (payload@."sub") = true.

(** [row] is a stored, unrevoked key with the digest of the presented one, and its client
    may use it. *)
Definition key_holder (w : world) (key : string) (row client : jsval) : Prop :=
  row ∈ rows w TCredential /\ nullish (row@."revokedAt") = true /\
  apiKeyHashesEqual (row@."keyHash") (JStr (hashApiKey (trim key))) = true /\
  client ∈ rows w TClient /\ col_eq (client@."id") (row@."clientId") = true /\
  client_admits client (row@."environment" |or| JStr "PRODUCTION") = true.

(** The two ways to be a tenant: by a key of the client, or by its portal login. *)
Definition by_key (w : world) (req : request) (c : context) : Prop :=
  exists key row client,
    extractPartnerApiKey req = Some key /\ key_holder w key row client /\
    partnerClientId c = row@."clientId" /\ partnerClient c = client /\
    (partnerAuth c)@."type" = JStr "api_key".
Definition by_login (w : world) (req : request) (c : context) : Prop :=
  exists u client,
    signed_in w req u /\ user c = u /\ u@."role" = JStr "CLIENT" /\ permissions c = client_permissions /\
    client ∈ rows w TClient /\ col_eq (client@."id") (u@."clientId") = true /\ nullish (client@."deletedAt") = true /\
    client@."status" = JStr "ACTIVE" /\
    partnerClientId c = u@."clientId" /\ partnerClient c = client /\ (partnerAuth c)@."type" = JStr "portal_user".

Definition authenticates (g : guard) : bool :=
  match g with Authenticate | AuthenticatePartner => true | _ => false end.

(** A guard that lets the request on as it is. *)
Definition passes (g : guard) (req : request) (c : context) (w : world) : Prop :=
  run_guard g req c w = (Ok (Next c), w).

Lemma guard_passes g req c w c' w' :
  authenticates g = false -> run_guard g req c w = (Ok (Next c'), w') -> c' = c /\ w' = w /\ passes g req c w.
Proof.
  intros Ha E. assert (Hc : c' = c /\ w' = w); [|destruct Hc as [-> ->]; auto].
  destruct g; try discriminate Ha; cbn in E; unfold ret, gets, bind in E; cbn in E.
  - now simplify_eq.
  - destruct (admits name req w); now simplify_eq.
  - unfold requirePortalUser, sendAuthError in E. destruct (_ && _); now simplify_eq.
  - unfold requirePermission, sendAuthError in E. do 2 (destruct (negb _); [now simplify_eq|]). now simplify_eq.
  - unfold requireAdminRole, sendAuthError in E. do 2 (destruct (negb _); [now simplify_eq|]). now simplify_eq.
  - unfold requireEntityTypeAccess, sendAuthError in E. destruct (negb _); [now simplify_eq|].
    destruct (String.eqb _ ""); [now simplify_eq|]. destruct (assoc _ _); [|now simplify_eq].
    destruct (negb _); now simplify_eq.
  - unfold requireDeliveryChannel, sendAuthError in E. destruct (negb _); now simplify_eq.
  - unfold requireApiEndpoint, sendAuthError, of_outcome in E. destruct (is_str _ _); [cbn in E; unfold ret in E; now simplify_eq|].
    destruct (isApiEndpointEnabled _ _ _) as [[|]|]; cbn in E; unfold ret, throw in E; now simplify_eq.
  - unfold requireCronSecret in E. destruct (cronSecretMatches _ _); now simplify_eq.
  - now simplify_eq.
  - now simplify_eq.
Qed.

(** ** A chain of guards *)

Lemma chain_passes gs req c w c' w' :
  existsb authenticates gs = false -> run_guards gs req c w = (Ok (Next c'), w') ->
  c' = c /\ w' = w /\ Forall (fun g => passes g req c w) gs.
Proof.
  revert c w. induction gs as [|g gs IH]; intros c w Ha E; cbn [run_guards existsb] in *.
  - unfold ret in E. simplify_eq. auto.
  - apply orb_false_iff in Ha as [Hg Ha]. apply bind_ok in E as (v & w1 & Eg & E).
    destruct v as [c1|r]; [|unfold ret in E; now simplify_eq].
    destruct (guard_passes _ _ _ _ _ _ Hg Eg) as (-> & -> & Hp).
    destruct (IH _ _ Ha E) as (-> & -> & Hps). auto.
Qed.

Lemma run_guards_app gs hs req c w c' w' :
  run_guards (gs ++ hs) req c w = (Ok (Next c'), w') ->
  exists c1 w1, run_guards gs req c w = (Ok (Next c1), w1) /\ run_guards hs req c1 w1 = (Ok (Next c'), w').
Proof.
  revert c w. induction gs as [|g gs IH]; intros c w E; cbn [run_guards app] in *.
  - exists c, w. auto.
  - apply bind_ok in E as (v & w1 & Eg & E). destruct v as [c1|r]; [|unfold ret in E; now simplify_eq].
    destruct (IH _ _ E) as (c2 & w2 & E1 & E2). exists c2, w2. unfold bind. now rewrite Eg.
Qed.

(** One authenticating guard among checks: the checks after it saw what it attached. *)
Lemma chain_authenticated pre a post req w c w' :
  existsb authenticates (pre ++ post) = false ->
  run_guards (pre ++ a :: post) req no_context w = (Ok (Next c), w') ->
  run_guard a req no_context w = (Ok (Next c), w') /\ Forall (fun g => passes g req c w') post.
Proof.
  intros Ha (c1 & w1 & E1 & E2)%run_guards_app. rewrite existsb_app in Ha. apply orb_false_iff in Ha as [Hpre Hpost].
  destruct (chain_passes _ _ _ _ _ _ Hpre E1) as (-> & -> & _). cbn [run_guards] in E2.
  apply bind_ok in E2 as (v & w2 & Eg & E2). destruct v as [c2|r]; [|unfold ret in E2; now simplify_eq].
  destruct (chain_passes _ _ _ _ _ _ Hpost E2) as (-> & -> & Hp). auto.
Qed.

(** ** The authenticating guards *)

Lemma find_stored t p w u : List.find p (rows w t) = Some u -> u ∈ rows w t /\ p u = true.
Proof. intros [Hu Hp]%List.find_some. now rewrite list_elem_of_In. Qed.

Lemma secret_read w secret w' : getJwtSecret w = (Ok secret, w') -> w' = w /\ JWT_SECRET = Some secret.
Proof.
  unfold getJwtSecret, throw, ret. destruct JWT_SECRET as [s|]; [|discriminate].
  destruct (s =s? ""); intros; now simplify_eq.
Qed.
Lemma token_verified token w payload w' :
  verifyAccessToken token w = (Ok payload, w') ->
  w' = w /\ exists secret, JWT_SECRET = Some secret /\ jwt_verify (now w / 1000) token secret = Some payload.
Proof.
  unfold verifyAccessToken, verify_token. intros (secret & w1 & [-> Hs]%secret_read & E)%bind_ok.
  apply bind_ok in E as (t & w2 & Et & E). unfold get_now, gets in Et. simplify_eq.
  destruct (jwt_verify (now w2 / 1000) token secret) eqn:Ev; unfold ret, throw in E; simplify_eq. eauto.
Qed.
Lemma user_found id w u w' :
  findUserById id w = (Ok (Some u), w') -> w' = w /\ u ∈ rows w TUser /\ col_eq (u@."id") id = true.
Proof.
  unfold findUserById, findUnique, find_where, gets, throw. destruct id; intros [= E <-].
  apply find_stored in E as [? ?]. auto.
Qed.

Lemma present_some o token : present o = Some token -> o = Some token.
Proof. destruct o as [t|]; cbn; [|discriminate]. destruct (t =s? ""); congruence. Qed.

(** A [try] that answers on error lets a request on only by its body. *)
Lemma catch_answer (body : prog world verdict) r w c w' :
  catch body (fun _ => ret (Answer r)) w = (Ok (Next c), w') -> body w = (Ok (Next c), w').
Proof. unfold catch, ret. destruct (body w) as [[v|e] w1]; congruence. Qed.

Lemma session_next token c w c' w' :
  session_of token c w = (Ok (Next c'), w') ->
  w' = w /\ exists u secret payload,
    c' = Context u (getPermissionsForRole (u@."role")) (partnerClientId c) (partnerClient c) (partnerAuth c) /\
    u ∈ rows w TUser /\ truthy (u@."isActive") = true /\ JWT_SECRET = Some secret /\
    jwt_verify (now w / 1000) token secret = Some payload /\ col_eq (u@."id") (payload@."sub") = true.
Proof.
  intros Eb%catch_answer. apply bind_ok in Eb as (payload & w2 & [-> (secret & Hs & Hv)]%token_verified & Eb).
  apply bind_ok in Eb as (found & w2 & Ef & Eb). destruct found as [u|]; [|discriminate Eb].
  apply user_found in Ef as (-> & Hu & Hid). destruct (truthy (u@."isActive")) eqn:Ha; [|discriminate Eb].
  injection Eb as <- <-. split; [reflexivity|]. exists u, secret, payload. split_and!; auto.
Qed.

Lemma authenticate_next req c w c' w' :
  authenticate req c w = (Ok (Next c'), w') ->
  w' = w /\ signed_in w req (user c') /\ permissions c' = getPermissionsForRole ((user c')@."role").
Proof.
  unfold authenticate. destruct (present _) as [token|] eqn:Et; [|discriminate]. apply present_some in Et.
  intros [-> (u & secret & payload & -> & Hu & Ha & Hs & Hv & Hid)]%session_next.
  split; [reflexivity|]. split; [|reflexivity]. split_and!; [exact Hu|exact Ha|]. exists token, secret, payload. auto.
Qed.

(** Authentication writes at most the time of last use of a key. *)
Definition touches_keys (w w' : world) : Prop :=
  only TCredential w w' /\ evolves TCredential ["lastUsedAt"] w w'.
#[local] Instance touches_keys_preorder : PreOrder touches_keys.
Proof.
  split; [intros w; split; reflexivity|].
  intros w1 w2 w3 [H1 H2] [H3 H4]. split; etransitivity; eassumption.
Qed.

Lemma touch_key id t : tracks touches_keys (update_row TCredential id [("lastUsedAt", JDate (Some t))]).
Proof. intros w. split; [apply update_row_only|]. apply update_row_evolves. set_solver. Qed.
#[local] Hint Resolve touch_key : tracks.

Lemma findUnique_reads t column v : tracks touches_keys (findUnique t column v).
Proof. apply tracks_gets. typeclasses eauto. Qed.
Lemma find_where_reads t p : tracks touches_keys (find_where t p).
Proof. apply tracks_gets. typeclasses eauto. Qed.
Lemma get_now_reads : tracks touches_keys get_now.
Proof. apply tracks_gets. typeclasses eauto. Qed.
#[local] Hint Resolve findUnique_reads find_where_reads get_now_reads : tracks.

Lemma authenticateApiKey_touches key : tracks touches_keys (authenticateApiKey key).
Proof. unfold authenticateApiKey. track. Qed.
Lemma verify_touches token : tracks touches_keys (verifyAccessToken token).
Proof. unfold verifyAccessToken, verify_token, getJwtSecret. track. Qed.
Lemma findUserById_touches id : tracks touches_keys (findUserById id).
Proof. unfold findUserById. track. Qed.
#[local] Hint Resolve authenticateApiKey_touches verify_touches findUserById_touches : tracks.

Lemma run_guard_touches g req c : tracks touches_keys (run_guard g req c).
Proof.
  destruct g; cbn [run_guard]; try (track; fail).
  - unfold authenticate, session_of. track.
  - unfold authenticatePartner, partner_by_key, partner_by_session, client_by_id. track.
  - unfold of_outcome. track.
Qed.
Lemma run_guards_touches gs req c : tracks touches_keys (run_guards gs req c).
Proof.
  revert c. induction gs as [|g gs IH]; intros c; cbn [run_guards]; [track|].
  apply tracks_bind; [typeclasses eauto|apply run_guard_touches|]. intros [c'|r]; [apply IH|track].
Qed.

Lemma key_accepted key w m w' :
  authenticateApiKey key w = (Ok (Some m), w') ->
  exists row, key_holder w key row (key_client m) /\ key_client_id m = row@."clientId".
Proof.
  unfold authenticateApiKey. destruct (_ && _); [discriminate|]. intros E.
  apply bind_ok in E as (candidates & w1 & Ec & E). injection Ec as <- <-.
  destruct (List.find _ _) as [row|] eqn:Ef; [|discriminate E].
  apply bind_ok in E as (found & w2 & Ef2 & E). injection Ef2 as Ef2 <-.
  destruct (client_admits _ _) eqn:Ea; [|discriminate E]. cbn [negb] in E.
  apply bind_ok in E as (t & w3 & Et & E). apply bind_ok in E as (x & w4 & _ & E). injection E as <- _.
  apply List.find_some in Ef as [Hrow Hhash]. apply list_elem_of_In, elem_of_filter_bool in Hrow as [Hrow [_ Hrev]%andb_true_iff].
  destruct found as [client|]; [|discriminate Ea]. apply find_stored in Ef2 as [Hcl Hcid].
  exists row. split; [|reflexivity]. unfold key_holder. cbn. auto 8.
Qed.

Lemma partner_next req c w c' w' :
  authenticatePartner req c w = (Ok (Next c'), w') ->
  by_key w req c' /\ user c' = user c /\ permissions c' = permissions c \/ by_login w req c' /\ w' = w.
Proof.
  unfold authenticatePartner. destruct (extractPartnerApiKey req) as [key|] eqn:Ek.
  - unfold partner_by_key. destruct (_ && _); [discriminate|]. intros E%catch_answer.
    apply bind_ok in E as (found & w1 & Em & E). destruct found as [m|]; [|discriminate E]. injection E as <- <-.
    apply key_accepted in Em as (row & Hrow & Hid). left. split; [|auto]. exists key, row, (key_client m). auto.
  - destruct (present _) as [token|] eqn:Et; [|discriminate]. apply present_some in Et. intros E%catch_answer.
    apply bind_ok in E as (payload & w2 & [-> (secret & Hs & Hv)]%token_verified & E).
    apply bind_ok in E as (found & w2 & Ef & E). destruct found as [u|]; [|discriminate E].
    apply user_found in Ef as (-> & Hu & Hid). destruct (truthy (u@."isActive")) eqn:Ha; [|discriminate E]. cbn [negb] in E.
    destruct (negb _ || _) eqn:Hr; [discriminate E|]. apply orb_false_iff in Hr as [Hr%negb_false_iff%is_str_eq Hc].
    apply bind_ok in E as (client & w3 & Ecl & E). injection Ecl as Ecl <-. destruct client as [client|]; [|discriminate E].
    apply find_stored in Ecl as [Hcl [Hcid Hdel]%andb_true_iff].
    destruct (truthy _ || _) eqn:Hst; [discriminate E|]. apply orb_false_iff in Hst as [_ Hst%negb_false_iff%is_str_eq].
    injection E as <- <-. right. split; [|reflexivity]. exists u, client. rewrite Hr. cbn. split_and!; auto.
    split_and!; auto. exists token, secret, payload. auto.
Qed.

(** ** The policy of the routes *)

Definition PUBLIC_PATTERNS : list string :=
  ["/health"; "/auth/send-otp"; "/auth/verify-otp"; "/auth/register"; "/auth/login"; "/auth/invite/:token";
   "/auth/set-password"; "/auth/callback/marketplace/:platform"].
Definition SCHEDULER_PATTERNS : list string := ["/internal/cron/sync-start"; "/internal/cron/sync-drain"].
(** Routes of any signed-in account. *)
Definition ACCOUNT_PATTERNS : list string := ["/auth/me"; "/auth/logout"; "/ops/global-search"].

(** What a guard on the role demands of the user. *)
Definition permitted (g : guard) (req : request) (u : jsval) : Prop :=
  match g with
  | RequirePermission required => exists p, p ∈ required /\ p ∈ getPermissionsForRole (u@."role")
  | RequireAdminRole => u@."role" = JStr "ADMIN"
  | RequireEntityTypeAccess =>
      exists p, assoc (js_string ((query req)@.(entity_param req))) ENTITY_TYPE_PERMISSIONS = Some p /\
                p ∈ getPermissionsForRole (u@."role")
  | _ => True
  end.
Definition on_role (g : guard) : bool :=
  match g with RequirePermission _ | RequireAdminRole | RequireEntityTypeAccess => true | _ => false end.

Definition public_authority (r : route) (c : context) : Prop := pattern r ∈ PUBLIC_PATTERNS /\ c = no_context.
Definition scheduler_authority (r : route) (req : request) : Prop :=
  pattern r ∈ SCHEDULER_PATTERNS /\ exists secret, CRON_SECRET = Some secret /\ trim secret <> "" /\ presentedCronSecret req = Some secret.
Definition staff_authority (r : route) (w : world) (req : request) (c : context) : Prop :=
  signed_in w req (user c) /\ (forall g, g ∈ guards r -> permitted g req (user c)) /\
  (pattern r ∈ ACCOUNT_PATTERNS \/ exists g, g ∈ guards r /\ on_role g = true).
Definition tenant_authority (r : route) (w : world) (req : request) (c : context) : Prop :=
  by_login w req c \/ by_key w req c /\ user c = JUndef /\ forall g, g ∈ guards r -> g <> RequirePortalUser.

(** *** The table *)

Definition harmless (g : guard) : bool :=
  match g with NoStoreHeaders | Limiter _ | AuditAction _ _ | AuditPartnerAccess _ => true | _ => false end.
Fixpoint split_guards (gs : list guard) : option (list guard * guard * list guard) :=
  match gs with
  | [] => None
  | g :: gs' =>
      if authenticates g then Some ([], g, gs')
      else match split_guards gs' with Some (pre, a, post) => Some (g :: pre, a, post) | None => None end
  end.
Definition named_in (l : list string) (s : string) : bool := existsb (String.eqb s) l.
Definition route_ok (r : route) : bool :=
  match split_guards (guards r) with
  | None =>
      named_in PUBLIC_PATTERNS (pattern r) ||
      (named_in SCHEDULER_PATTERNS (pattern r) && match guards r with [RequireCronSecret] => true | _ => false end)
  | Some (pre, a, post) =>
      forallb harmless pre && negb (existsb authenticates post) &&
      match a with
      | Authenticate => named_in ACCOUNT_PATTERNS (pattern r) || existsb on_role post
      | _ => negb (existsb on_role post)
      end
  end.

Lemma routes_ok : forallb route_ok routes = true.
Proof. vm_compute. reflexivity. Qed.

Lemma split_guards_spec gs :
  match split_guards gs with
  | Some (pre, a, post) => gs = pre ++ a :: post /\ existsb authenticates pre = false /\ authenticates a = true
  | None => existsb authenticates gs = false
  end.
Proof.
  induction gs as [|g gs IH]; [reflexivity|]. cbn. destruct (authenticates g) eqn:E; [auto|].
  destruct (split_guards gs) as [[[pre a] post]|]; [|exact IH]. destruct IH as (-> & Hp & Ha). cbn. rewrite E. auto.
Qed.

Lemma named_in_elem l s : named_in l s = true -> s ∈ l.
Proof. unfold named_in. rewrite existsb_exists. intros (x & Hx & ->%String.eqb_eq). now apply list_elem_of_In. Qed.

(** *** What the checks after authentication have shown *)

Lemma permission_passes g req c w : passes g req c w -> permitted g req (user c).
Proof.
  unfold passes. destruct g; try exact (fun _ => Logic.I); cbn; unfold ret.
  - unfold requirePermission, sendAuthError. destruct (negb _); [discriminate|].
    destruct (roleHasAnyPermission _ _) eqn:E; [|discriminate]. intros _.
    apply existsb_exists in E as (p & Hp & Hg%granted_elem). exists p. split; [now apply list_elem_of_In|exact Hg].
  - unfold requireAdminRole, sendAuthError. destruct (negb _); [discriminate|].
    destruct (is_str _ _) eqn:E; [|discriminate]. intros _. now apply is_str_eq.
  - unfold requireEntityTypeAccess, sendAuthError. destruct (negb _); [discriminate|].
    destruct (truthy (prop (query req) _)) eqn:Et.
    + destruct (String.eqb _ ""); [discriminate|]. destruct (assoc _ ENTITY_TYPE_PERMISSIONS) as [p|] eqn:Ea; [|discriminate].
      destruct (roleHasPermission _ _) eqn:E; [|discriminate]. intros _. exists p. split; [exact Ea|now apply granted_elem].
    + cbn. discriminate.
Qed.

Lemma portal_passes req c w : passes RequirePortalUser req c w -> (partnerAuth c)@."type" = JStr "portal_user".
Proof.
  unfold passes. cbn. unfold ret, requirePortalUser, sendAuthError.
  destruct (_ && _) eqn:E; [|discriminate]. intros _. rewrite !andb_true_iff in E. now apply is_str_eq, E.
Qed.

Lemma cron_passes req c w :
  passes RequireCronSecret req c w -> exists secret, CRON_SECRET = Some secret /\ trim secret <> "" /\ presentedCronSecret req = Some secret.
Proof.
  unfold passes. cbn. unfold ret, requireCronSecret. destruct (cronSecretMatches _ _) eqn:E; [|discriminate]. intros _.
  unfold cronSecretMatches in E. destruct CRON_SECRET as [secret|]; [|discriminate E].
  destruct (presentedCronSecret req) as [s|]; [|discriminate E]. exists secret.
  destruct (trim secret =s? "") eqn:Et; [discriminate E|]. apply String.eqb_neq in Et.
  destruct (s =s? ""); [discriminate E|]. destruct (negb _); [discriminate E|]. apply String.eqb_eq in E as <-. auto.
Qed.

Lemma harmless_permitted pre req u g : forallb harmless pre = true -> g ∈ pre -> permitted g req u.
Proof. rewrite forallb_forall. intros Hp Hg%list_elem_of_In%Hp. destruct g; try discriminate Hg; exact Logic.I. Qed.

Lemma reached_authority r req w c w' :
  r ∈ routes -> run_guards (guards r) req no_context w = (Ok (Next c), w') ->
  public_authority r c \/ scheduler_authority r req \/ staff_authority r w req c \/ tenant_authority r w req c.
Proof.
  intros Hr Hrun. pose proof (proj1 (forallb_forall _ _) routes_ok r (proj1 (list_elem_of_In _ _) Hr)) as Hok.
  unfold route_ok in Hok. pose proof (split_guards_spec (guards r)) as Hs.
  destruct (split_guards (guards r)) as [[[pre a] post]|].
  - destruct Hs as (Eg & Hpre & Ha). rewrite Eg in Hrun. rewrite !andb_true_iff, negb_true_iff in Hok.
    destruct Hok as [[Hh Hpost] Hok]. apply chain_authenticated in Hrun as [Hauth Hp];
      [|now rewrite existsb_app, Hpre, Hpost]. rewrite Forall_forall in Hp.
    destruct a; try discriminate Ha.
    + right. right. left. cbn in Hauth. apply authenticate_next in Hauth as (-> & Hin & _). split; [exact Hin|]. split.
      * intros g. rewrite Eg, elem_of_app, elem_of_cons. intros [Hg|[->|Hg]]; [now apply (harmless_permitted pre)|exact Logic.I|].
        eapply permission_passes, Hp, Hg.
      * apply orb_true_iff in Hok as [Hn|He]; [left; now apply named_in_elem|]. right.
        apply existsb_exists in He as (g & Hg & Ho). exists g. split; [|exact Ho].
        rewrite Eg, elem_of_app, elem_of_cons. right. right. now apply list_elem_of_In.
    + right. right. right. cbn in Hauth. destruct (partner_next _ _ _ _ _ Hauth) as [(Hk & Hu & _)|(Hl & _)]; [|now left].
      right. split; [exact Hk|]. split; [exact Hu|]. intros g Hg ->. rewrite Eg, elem_of_app, elem_of_cons in Hg. destruct Hg as [Hg|[Hg|Hg]].
      * rewrite forallb_forall in Hh. discriminate (Hh _ (proj1 (list_elem_of_In _ _) Hg)).
      * discriminate Hg.
      * pose proof (portal_passes _ _ _ (Hp _ Hg)) as Hport. destruct Hk as (? & ? & ? & _ & _ & _ & _ & Ht). congruence.
  - destruct (chain_passes _ _ _ _ _ _ Hs Hrun) as (-> & -> & Hp).
    apply orb_true_iff in Hok as [Hpub|[Hsch Hg]%andb_true_iff]; [left; split; [now apply named_in_elem|reflexivity]|].
    right. left. split; [now apply named_in_elem|]. destruct (guards r) as [|[] [|]]; try discriminate Hg.
    apply Forall_cons in Hp as [Hc _]. eapply cron_passes, Hc.
Qed.

(** C2: A handler only runs for a request that has shown what its route asks for: the public
    routes are a fixed list and carry no identity; the scheduler routes have been shown the
    configured secret; a staff route has a stored, active account, named by a valid session
    token, whose stored role holds what every guard of the route demands; a partner route has
    a tenant, and where a portal login is required not by a key. *)
Theorem handler_reached_with_authority r req w c w' :
  r ∈ routes -> run_guards (guards r) req no_context w = (Ok (Next c), w') ->
  public_authority r c \/ scheduler_authority r req \/ staff_authority r w req c \/ tenant_authority r w req c.
Proof. apply reached_authority. Qed.

(** ** Accounts of clients *)

Definition client_barred (g : guard) : bool :=
  match g with
  | RequirePermission required => forallb (fun p => negb (granted p client_permissions)) required
  | RequireAdminRole | RequireEntityTypeAccess => true
  | _ => false
  end.
Lemma staff_routes_bar_clients :
  forallb (fun r => named_in ACCOUNT_PATTERNS (pattern r) || existsb client_barred (guards r) ||
                    negb (existsb on_role (guards r))) routes = true.
Proof. vm_compute. reflexivity. Qed.

Lemma client_barred_spec g req u : client_barred g = true -> permitted g req u -> u@."role" <> JStr "CLIENT".
Proof.
  intros Hb Hp Hu. destruct g; try discriminate Hb; cbn [permitted client_barred] in Hp, Hb; rewrite Hu in Hp.
  - destruct Hp as (p & Hp & Hc). rewrite forallb_forall in Hb.
    specialize (Hb p (proj1 (list_elem_of_In _ _) Hp)). apply granted_elem in Hc.
    change (getPermissionsForRole (JStr "CLIENT")) with client_permissions in Hc. rewrite Hc in Hb. discriminate.
  - discriminate.
  - destruct Hp as (p & Ha & Hc). assert (Hd : forallb (fun kv => negb (granted kv.2 client_permissions)) ENTITY_TYPE_PERMISSIONS = true)
      by reflexivity. rewrite forallb_forall in Hd. assert (Hin : exists k, (k, p) ∈ ENTITY_TYPE_PERMISSIONS).
    { clear -Ha. revert Ha. induction ENTITY_TYPE_PERMISSIONS as [|[k v] l IH]; cbn; [discriminate|].
      destruct (k =s? _); [intros [= ->]; exists k; now left|]. intros [k' Hk]%IH. exists k'. now right. }
    destruct Hin as [k Hk%list_elem_of_In]. specialize (Hd _ Hk). cbn [snd] in Hd. apply granted_elem in Hc.
    change (getPermissionsForRole (JStr "CLIENT")) with client_permissions in Hc. rewrite Hc in Hd. discriminate.
Qed.

(** A client's account reaches no staff handler: besides what every account has (its own
    profile, logging out, the search that filters by permission) it only reaches partner
    routes, as a tenant whose client is active. *)
Theorem client_account_confined r req w c w' :
  r ∈ routes -> run_guards (guards r) req no_context w = (Ok (Next c), w') -> (user c)@."role" = JStr "CLIENT" ->
  pattern r ∈ ACCOUNT_PATTERNS \/ by_login w req c.
Proof.
  intros Hr Hrun Hc. destruct (reached_authority _ _ _ _ _ Hr Hrun) as [[_ ->]|[[Hs _]|[(_ & Hp & Hg)|[Hl|(_ & Hu & _)]]]].
  - discriminate Hc.
  - assert (Hsch : forallb (fun r => negb (named_in SCHEDULER_PATTERNS (pattern r)) || negb (existsb authenticates (guards r))) routes = true)
      by (vm_compute; reflexivity).
    pose proof (proj1 (forallb_forall _ _) Hsch r (proj1 (list_elem_of_In _ _) Hr)) as Hn.
    apply orb_true_iff in Hn as [Hn|Hn%negb_true_iff].
    + apply negb_true_iff in Hn. apply not_true_iff_false in Hn. destruct Hn. apply existsb_exists. exists (pattern r).
      split; [now apply list_elem_of_In|apply String.eqb_refl].
    + destruct (chain_passes _ _ _ _ _ _ Hn Hrun) as (-> & _ & _). discriminate Hc.
  - destruct Hg as [Hg|(g & Hg & Ho)]; [now left|].
    pose proof (proj1 (forallb_forall _ _) staff_routes_bar_clients r (proj1 (list_elem_of_In _ _) Hr)) as Hb.
    rewrite !orb_true_iff in Hb. destruct Hb as [[Hb|Hb]|Hb].
    + left. now apply named_in_elem.
    + apply existsb_exists in Hb as (g' & Hg' & Hbar). destruct (client_barred_spec g' req (user c) Hbar); [|exact Hc].
      now apply Hp, list_elem_of_In.
    + apply negb_true_iff, not_true_iff_false in Hb. destruct Hb. apply existsb_exists. exists g. split; [now apply list_elem_of_In|exact Ho].
  - now right.
  - rewrite Hu in Hc. discriminate Hc.
Qed.

(** ** Tenants *)

Lemma partner_headers req req' c : headers req = headers req' -> authenticatePartner req c = authenticatePartner req' c.
Proof.
  intros E. assert (Hh : forall name, header req name = header req' name) by (intros; unfold header; now rewrite E).
  unfold authenticatePartner, extractPartnerApiKey, readBearerToken. now rewrite !Hh.
Qed.

(** Only [authenticatePartner] attaches a tenant. *)
Lemma tenant_attached r req w c w' :
  r ∈ routes -> run_guards (guards r) req no_context w = (Ok (Next c), w') -> partnerClientId c <> JUndef ->
  authenticatePartner req no_context w = (Ok (Next c), w').
Proof.
  intros Hr Hrun Hc. pose proof (proj1 (forallb_forall _ _) routes_ok r (proj1 (list_elem_of_In _ _) Hr)) as Hok.
  unfold route_ok in Hok. pose proof (split_guards_spec (guards r)) as Hs.
  destruct (split_guards (guards r)) as [[[pre a] post]|].
  - destruct Hs as (Eg & Hpre & Ha). rewrite Eg in Hrun. rewrite !andb_true_iff, negb_true_iff in Hok.
    apply chain_authenticated in Hrun as [Hauth _]; [|now rewrite existsb_app, Hpre, (proj2 (proj1 Hok))].
    destruct a; try discriminate Ha; [|exact Hauth]. cbn in Hauth. unfold authenticate in Hauth.
    destruct (present _); [|discriminate Hauth]. apply session_next in Hauth as (_ & u & s0 & p0 & -> & _). now destruct Hc.
  - destruct (chain_passes _ _ _ _ _ _ Hs Hrun) as (-> & _). now destruct Hc.
Qed.

(** The tenant of a partner request is decided by its headers alone: whatever two requests
    with the same headers ask for, in their path, query or body, they act for one client and
    with one identity. *)
Theorem tenant_from_credentials r r' req req' w c c' w1 w1' :
  r ∈ routes -> r' ∈ routes -> headers req = headers req' ->
  run_guards (guards r) req no_context w = (Ok (Next c), w1) ->
  run_guards (guards r') req' no_context w = (Ok (Next c'), w1') ->
  partnerClientId c <> JUndef -> partnerClientId c' <> JUndef -> c = c'.
Proof.
  intros Hr Hr' Hh Hrun Hrun' Hc Hc'. apply tenant_attached in Hrun; [|assumption..]. apply tenant_attached in Hrun'; [|assumption..].
  rewrite (partner_headers _ _ _ Hh) in Hrun. congruence.
Qed.

(** ** Refusals *)

(** A guard that does not let a request on answers with an error status; what it throws is
    an error without a status, which is answered with 500. *)
Definition refusal (r : reply) : Prop := 400 <= status r.
Definition ends_well (P : verdict -> Prop) (m : prog world verdict) : Prop :=
  forall w, match (m w).1 with Ok v => P v | Throw e => refusal (error_reply e) end.
Definition verdict_ok (v : verdict) : Prop := match v with Next _ => True | Answer r => refusal r end.

Lemma ends_ret v : verdict_ok v -> ends_well verdict_ok (ret v).
Proof. intros Hv w. exact Hv. Qed.
Lemma ends_bind {A} (m : prog world A) k :
  (forall w, match (m w).1 with Ok _ => True | Throw e => refusal (error_reply e) end) ->
  (forall a, ends_well verdict_ok (k a)) -> ends_well verdict_ok (bind m k).
Proof. intros Hm Hk w. unfold bind. specialize (Hm w). destruct (m w) as [[a|e] w1]; [apply Hk|exact Hm]. Qed.
Lemma ends_catch (m : prog world verdict) v :
  (forall w x, (m w).1 = Ok x -> verdict_ok x) -> verdict_ok v -> ends_well verdict_ok (catch m (fun _ => ret v)).
Proof. intros Hm Hv w. unfold catch. specialize (Hm w). destruct (m w) as [[x|e] w1]; cbn in *; auto. Qed.
Lemma auth_error_ok code m : 400 <= code -> verdict_ok (sendAuthError code m).
Proof. exact (fun h => h). Qed.

(** The verdicts a program can return, for the bodies of a [try]. *)
Definition returns_ok (m : prog world verdict) : Prop := forall w x, (m w).1 = Ok x -> verdict_ok x.
Lemma returns_ret v : verdict_ok v -> returns_ok (ret v).
Proof. intros Hv w x [= <-]. exact Hv. Qed.
Lemma returns_bind {A} (m : prog world A) k : (forall a, returns_ok (k a)) -> returns_ok (bind m k).
Proof. intros Hk w x. unfold bind. destruct (m w) as [[a|e] w1]; [apply Hk|discriminate]. Qed.

Ltac verdicts :=
  repeat lazymatch goal with
  | |- verdict_ok (sendAuthError _ _) => apply auth_error_ok; lia
  | |- verdict_ok (Next _) => exact Logic.I
  | |- verdict_ok (Answer _) => unfold verdict_ok, refusal; cbn; lia
  | |- verdict_ok (if ?b then _ else _) => destruct b
  | |- verdict_ok (match ?x with _ => _ end) => destruct x
  | |- verdict_ok (let _ := _ in _) => cbv zeta
  | |- ends_well _ (ret _) => apply ends_ret
  | |- ends_well _ (catch _ _) => apply ends_catch
  | |- ends_well _ (bind (gets _) _) => apply ends_bind; [exact (fun _ => Logic.I)|intro]
  | |- ends_well _ (if ?b then _ else _) => destruct b
  | |- ends_well _ (match ?x with _ => _ end) => destruct x
  | |- forall w x, (_ w).1 = Ok x -> verdict_ok x => fold_returns
  | |- returns_ok (ret _) => apply returns_ret
  | |- returns_ok (bind _ _) => apply returns_bind; intro
  | |- returns_ok (if ?b then _ else _) => destruct b
  | |- returns_ok (match ?x with _ => _ end) => destruct x
  end
with fold_returns := lazymatch goal with |- forall w x, (?m w).1 = Ok x -> verdict_ok x => change (returns_ok m) end.

Lemma endpoint_error config environment endpoint e :
  isApiEndpointEnabled config environment endpoint = Throw e ->
  e = plain_error "Cannot read properties of null (reading 'status')".
Proof.
  assert (Hb : forall v e, normalizeEnvBlock v = Throw e -> e = plain_error "Cannot read properties of null (reading 'status')")
    by (intros [] ?; cbn; congruence).
  unfold isApiEndpointEnabled, normalizeApiEnvironmentConfig, outcome_bind.
  destruct (normalizeEnvBlock _) eqn:E1; [|intros [= <-]; eapply Hb, E1].
  destruct (normalizeEnvBlock (_ |or| prop _ "production")) eqn:E2; [discriminate|intros [= <-]; eapply Hb, E2].
Qed.

Lemma guard_ends g req c : ends_well verdict_ok (run_guard g req c).
Proof.
  destruct g; cbn [run_guard]; unfold requirePortalUser, requirePermission, requireAdminRole, requireEntityTypeAccess,
    requireDeliveryChannel, requireCronSecret, authenticate, authenticatePartner, session_of, partner_by_key, partner_by_session;
    try (verdicts; fail).
  unfold of_outcome, requireApiEndpoint. destruct (is_str _ _); [verdicts|]. intros w.
  destruct (isApiEndpointEnabled _ _ _) as [enabled|e] eqn:E; cbn.
  - destruct enabled; [exact Logic.I|]. vm_compute. discriminate.
  - apply endpoint_error in E. subst e. vm_compute. discriminate.
Qed.
Lemma guards_end gs req c : ends_well verdict_ok (run_guards gs req c).
Proof.
  revert c. induction gs as [|g gs IH]; intros c; cbn [run_guards]; [exact (fun _ => Logic.I)|].
  intros w. unfold bind. pose proof (guard_ends g req c w) as Hg. destruct (run_guard g req c w) as [[[c'|r]|e] w1]; cbn in *;
    [apply IH|exact Hg|exact Hg].
Qed.

Section Responses.
Context (run_handler : string -> request -> context -> prog world reply).

Lemma audit_ok gs req c a w : exists w', for_each gs (fun g => on_finish g req c a) w = (Ok tt, w').
Proof.
  revert w. induction gs as [|g gs IH]; intros w; cbn [for_each]; [now eexists|]. unfold bind.
  assert (Hg : exists w1, on_finish g req c a w = (Ok tt, w1)).
  { assert (Hl : forall u action resource metadata address w, exists w1, logAccess u action resource metadata address w = (Ok tt, w1)).
    { intros. unfold logAccess, catch. destruct (bind _ _ _) as [[[]|e] w1]; eexists; reflexivity. }
    destruct g; cbn [on_finish]; unfold auditAction, auditPartnerAccess;
      try (destruct (_ || _)); try apply Hl; eexists; reflexivity. }
  destruct Hg as [w1 ->]. apply IH.
Qed.

(** Every request is answered, whatever its handler does; one that is refused before its
    handler is answered with an error status and changes nothing but the time of last use of
    a key. *)
Theorem every_request_is_answered r req w :
  exists a reached w', respond run_handler r req w = (Ok (a, reached), w') /\
    (reached = None -> 400 <= status a /\ touches_keys w w').
Proof.
  unfold respond, catch at 1. unfold bind at 1. pose proof (guards_end (guards r) req no_context w) as Hend.
  pose proof (run_guards_touches (guards r) req no_context w) as Ht.
  destruct (run_guards (guards r) req no_context w) as [[[c|a]|e] w1]; cbn in Hend, Ht.
  - unfold bind, catch. destruct (run_handler (handler r) req c w1) as [[a|e] w2].
    + destruct (audit_ok (guards r) req c a w2) as [w3 ->]. exists a, (Some c), w3. split; [reflexivity|discriminate].
    + cbn. destruct (audit_ok (guards r) req c (error_reply e) w2) as [w3 ->].
      exists (error_reply e), (Some c), w3. split; [reflexivity|discriminate].
  - exists a, None, w1. split; [reflexivity|]. intros _. split; [exact Hend|exact Ht].
  - exists (error_reply e), None, w1. split; [reflexivity|]. intros _. split; [exact Hend|exact Ht].
Qed.

End Responses.

(** ** Session tokens *)

Lemma signed_with claims ttl w token w1 :
  (let! secret := getJwtSecret in let! t := get_now in ret (jwt_sign (t / 1000) ttl claims secret)) w = (Ok token, w1) ->
  exists secret, (forall w2, getJwtSecret w2 = (Ok secret, w2)) /\ token = jwt_sign (now w / 1000) ttl claims secret.
Proof.
  intros (secret & w2 & Es & E)%bind_ok. pose proof (secret_read _ _ _ Es) as [-> Hs].
  apply bind_ok in E as (t & w3 & Et & E). injection Et as <- <-. injection E as <- _. exists secret. split; [|reflexivity].
  intros w3. unfold getJwtSecret in *. rewrite Hs in *. destruct (secret =s? ""); [discriminate Es|reflexivity].
Qed.
Lemma verify_own at0 ttl claims secret w :
  (forall w2, getJwtSecret w2 = (Ok secret, w2)) ->
  verify_token (jwt_sign at0 ttl claims secret) w =
  ((if now w / 1000 <? at0 + ttl then Ok (jwt_payload at0 ttl claims) else Throw jwt_error), w).
Proof.
  intros Hs. unfold verify_token, bind. rewrite Hs. cbn. rewrite jwt_verify_signed. destruct (_ <? _); reflexivity.
Qed.

Definition session_refused : verdict := sendAuthError 401 "Invalid or expired session.".

(** The stored, active account with this id. *)
Definition live_account (id : string) (w : world) : option jsval :=
  match List.find (fun r => col_eq (r@."id") (JStr id)) (rows w TUser) with
  | Some v => if truthy (v@."isActive") then Some v else None
  | None => None
  end.

(** A session is what the store says when the request arrives: for seven days the token of
    an account opens whatever account is now stored under its id, with the role stored there;
    a deactivated or removed account and an expired token are refused at once. *)
Theorem session_follows_the_store u id token req c w w1 w2 :
  u@."id" = JStr id -> signAccessToken u w = (Ok token, w1) -> present (readBearerToken req) = Some token ->
  authenticate req c w2 =
  (Ok (if now w2 / 1000 <? now w / 1000 + TOKEN_EXPIRY then
         match live_account id w2 with
         | Some v => Next (Context v (getPermissionsForRole (v@."role")) (partnerClientId c) (partnerClient c) (partnerAuth c))
         | None => session_refused
         end
       else session_refused), w2).
Proof.
  intros Hid (secret & Hs & ->)%signed_with Hreq. unfold authenticate. rewrite Hreq. unfold session_of, verifyAccessToken, catch.
  unfold bind at 1. rewrite verify_own by exact Hs. destruct (_ <? _); [|reflexivity].
  replace (prop (jwt_payload _ _ (access_claims u)) "sub") with (JStr id) by (unfold jwt_payload, access_claims; cbn; now rewrite Hid).
  unfold bind, findUserById, findUnique, find_where, gets, live_account.
  destruct (List.find _ _) as [v|]; [|reflexivity]. destruct (truthy _); reflexivity.
Qed.

(** The two kinds of token are not interchangeable: a verification code's token opens no
    session, and a session token verifies no address. *)
Theorem tokens_not_interchangeable u email session verification req c w w1 w2 w3 :
  signAccessToken u w = (Ok session, w1) -> signEmailVerificationToken email w = (Ok verification, w2) ->
  (present (readBearerToken req) = Some verification -> authenticate req c w3 = (Ok session_refused, w3)) /\
  verifyEmailVerificationToken session w3 = (Throw (api_fail "Invalid or expired verification token." 401), w3).
Proof.
  intros (secret & Hs & ->)%signed_with (secret' & Hs' & ->)%signed_with. split.
  - intros Hreq. unfold authenticate. rewrite Hreq. unfold session_of, verifyAccessToken, catch. unfold bind at 1.
    rewrite verify_own by exact Hs'. destruct (_ <? _); reflexivity.
  - unfold verifyEmailVerificationToken, catch, bind. rewrite verify_own by exact Hs. destruct (_ <? _); reflexivity.
Qed.

(** ** Keys on the portal routes *)

(** The order list is served to keys on two routes.  Where a client's API is switched off,
    as a delivery channel or for the key's environment, the API route refuses its key; the
    portal route asks for neither and serves the same handler. *)
Theorem portal_serves_keys_of_disabled_api req key w m w' :
  extractPartnerApiKey req = Some key -> is_api_key key = true ->
  authenticateApiKey key w = (Ok (Some m), w') ->
  (key_client m)@."deliveryMethod" = JStr "PORTAL_ONLY" \/
  (key_client m)@."deliveryMethod" = JStr "API_AND_PORTAL" /\
  isApiEndpointEnabled ((key_client m)@."apiEnvironmentConfig") ((api_key_auth m)@."environment" |or| JStr "PRODUCTION") "reporting" = Ok false ->
  exists r r' c a, r ∈ routes /\ r' ∈ routes /\ handler r = handler r' /\
    pattern r = "/portal/v1/orders" /\ pattern r' = "/v1/client/orders" /\
    run_guards (guards r) req no_context w = (Ok (Next c), w') /\
    run_guards (guards r') req no_context w = (Ok (Answer a), w') /\ status a = 403.
Proof.
  intros Hx Hk Hm Hd.
  set (c := Context JUndef [] (key_client_id m) (key_client m) (api_key_auth m)).
  assert (Hauth : authenticatePartner req no_context w = (Ok (Next c), w')).
  { unfold authenticatePartner. rewrite Hx. unfold partner_by_key. unfold is_api_key in Hk.
    rewrite <- negb_orb, Hk. cbn [negb]. unfold catch, bind. now rewrite Hm. }
  set (r := Route "GET" "/portal/v1/orders" [AuthenticatePartner; RequireDeliveryChannel "portal"] "clientListOrdersHandler").
  set (r' := Route "GET" "/v1/client/orders" [AuthenticatePartner; RequireDeliveryChannel "api"; RequireApiEndpoint "reporting"] "clientListOrdersHandler").
  assert (Hr : r ∈ routes).
  { unfold routes. apply list_elem_of_In. repeat (rewrite in_app_iff). do 8 right. left. unfold portal_routes. cbn. auto 30. }
  assert (Hr' : r' ∈ routes).
  { unfold routes. apply list_elem_of_In. repeat (rewrite in_app_iff). do 7 right. left. unfold partner_routes. cbn. auto 30. }
  assert (Hp : run_guards (guards r) req no_context w = (Ok (Next c), w')).
  { cbn [run_guards guards r run_guard]. unfold bind, ret. rewrite Hauth. unfold requireDeliveryChannel. cbn [partnerClient c].
    destruct Hd as [->|[-> _]]; reflexivity. }
  assert (Ha : exists a, run_guards (guards r') req no_context w = (Ok (Answer a), w') /\ status a = 403).
  { cbn [run_guards guards r' run_guard]. unfold bind, ret. rewrite Hauth. unfold requireDeliveryChannel. cbn [partnerClient c].
    destruct Hd as [->|[-> He]]; [eexists; split; reflexivity|].
    assert (Hreq : exists message, requireApiEndpoint "reporting" c = Ok (sendAuthError 403 message)).
    { unfold requireApiEndpoint. cbn [partnerClient partnerAuth c].
      change (is_str (prop (api_key_auth m) "type") "portal_user") with false. cbv iota. rewrite He. eexists. reflexivity. }
    destruct Hreq as [message Hreq]. match goal with |- context [if ?b then _ else Next c] => change b with false end.
    cbn beta iota. unfold of_outcome. rewrite Hreq. eexists; split; reflexivity. }
  destruct Ha as (a & Ha & Hst). exists r, r', c, a. auto 10.
Qed.

End Security.
