(* ===== verification/AccountSafety.v ===== *)
(** * Accounts over time

    What the account and credential services keep true: signing up makes one administrator
    and no more, however many sign-ups interleave; rotating a key leaves one key; the platform
    keeps an administrator; an invitation is redeemed once. *)

From Stdlib Require Import SpecFloat.
From S2P Require Import Prelude Concurrent JsNum JsVal JsDate JsDay Store Access Accounts Credentials Middleware AccountHandlers Routes Security.
Local Open Scope Z_scope.

(** ** The first administrator *)

Module Bootstrap.
Section Facts.
Context {D : Database} {J : Jwt} {B : Bcrypt} {C : Config}.

(** Users only change by the first one appearing, an administrator. *)
Definition bootstraps (w w' : world) : Prop :=
  rows w' TUser = rows w TUser \/
  rows w TUser = [] /\ exists u, rows w' TUser = [u] /\ u@."role" = JStr "ADMIN".
#[local] Instance bootstraps_preorder : PreOrder bootstraps.
Proof.
  split; [now left|]. intros w1 w2 w3 [E1|[E1 (u & Eu & Hu)]] [E2|[E2 (v & Ev & Hv)]].
  - left. congruence.
  - right. split; [congruence|eauto].
  - right. split; [exact E1|]. exists u. split; [congruence|exact Hu].
  - congruence.
Qed.

Lemma same_users {A} (c : prog world A) : tracks (fun w w' => rows w' TUser = rows w TUser) c -> tracks bootstraps c.
Proof. intros Hc w. left. apply Hc. Qed.

Lemma draw_users {A} (f : nat -> A) : tracks (fun w w' => rows w' TUser = rows w TUser) (let! d := draw in ret (f d)).
Proof. intros w. reflexivity. Qed.
Lemma verify_unchanged token : tracks eq (verifyEmailVerificationToken token).
Proof. unfold verifyEmailVerificationToken, verify_token, getJwtSecret, get_now. track. Qed.

Lemma trimmed_text name : (exists s, trimmed_name name = JStr s) \/ trimmed_name name = JNull.
Proof. destruct name; cbn; auto. unfold js_or. destruct (truthy _); eauto. Qed.

Lemma bootstrap_result email hash name w user w' :
  bootstrap email hash name w = (Ok user, w') ->
  rows w TUser = [] /\ rows w' TUser = [user] /\ user@."role" = JStr "ADMIN".
Proof.
  unfold bootstrap. intros (open & w1 & Eo & E)%bind_ok. injection Eo as <- <-.
  destruct (rows w TUser) eqn:Er; [|discriminate E]. cbn [length Nat.eqb negb] in E.
  apply bind_ok in E as (u & w1 & Ec & E). apply create_row_ok in Ec as (Hu & Hrows & _).
  apply bind_ok in E as (x & w2 & Ed & E). injection Ed as <- <-. injection E as <- <-.
  split; [reflexivity|]. rewrite rows_set_other by discriminate. rewrite Hrows, Er. split; [reflexivity|].
  rewrite Hu. destruct (trimmed_text name) as [[s ->]| ->]; reflexivity.
Qed.
Lemma bootstrap_bootstraps email hash name : tracks bootstraps (bootstrap email hash name).
Proof.
  intros w. destruct (bootstrap email hash name w) as [[u|e] w'] eqn:E.
  - apply bootstrap_result in E as (E1 & E2 & E3). right. eauto.
  - left. revert E. unfold bootstrap, bind at 1. cbn. destruct (negb _); [now intros [= _ <-]|].
    unfold bind. destruct (insert_row _ _ w) as [[u|e'] w1] eqn:Ei; cbn; [discriminate|]. intros [= _ <-].
    revert Ei. unfold insert_row, create_row. destruct (negb _); [now intros [= _ <-]|].
    destruct (existsb _ _); [now intros [= _ <-]|discriminate].
Qed.

(** The one user of the store, once a sign-up has succeeded. *)
Definition sole (user : jsval) (w : world) : Prop := rows w TUser = [user].
Lemma sole_stable u : stable (fun _ => True) bootstraps (sole u).
Proof. unfold sole. intros w w' _ _ [E|[E _]] Hs; congruence. Qed.

Lemma registerUser_assured email password name token :
  assured (fun _ => True) bootstraps sole (fun _ => True) (registerUser email password name token).
Proof.
  assert (Htrue : forall A (a : A), stable (fun _ => True) bootstraps (fun _ => True)) by (intros; apply true_stable).
  unfold registerUser. apply (assured_bind _ _ (fun _ _ => True)).
  - apply assured_act; [exact (Htrue jsval)|]. intros w _ _ _. split; [left; now rewrite <- (verify_unchanged token w)|auto].
  - intros p. destruct (negb _); [exact Logic.I|]. apply (assured_bind _ _ (fun _ _ => True)).
    + apply assured_act; [exact (Htrue bool)|]. intros w _ _ _. split; [now left|auto].
    + intros open. destruct (negb open); [exact Logic.I|]. apply (assured_bind _ _ (fun _ _ => True)).
      * apply assured_act; [exact (Htrue string)|]. intros w _ _ _. split; [now left|auto].
      * intros hash w _ _ _. split; [apply bootstrap_bootstraps|].
        destruct (bootstrap _ _ _ w) as [[u|e] w'] eqn:E; cbn.
        -- exists (sole u). split_and!; [apply sole_stable|now apply bootstrap_result in E as (_ & ? & _)|auto].
        -- exists (fun _ => True). split_and!; [apply true_stable|exact Logic.I|]. destruct (_ =s? _); exact Logic.I.
Qed.

Lemma registerUser_obeys email password name token :
  obeys (fun _ => True) bootstraps (registerUser email password name token).
Proof.
  unfold registerUser. obey; apply obeys_act; intros s _; try (left; reflexivity).
  - left. now rewrite <- (verify_unchanged token s).
  - apply bootstrap_bootstraps.
Qed.

(** C30: Sign-up makes one administrator and no more: however many registrations run, and however
    their steps interleave with each other and with anything else that leaves the accounts
    alone, an empty platform ends up empty or with a single account, an administrator, every
    registration that succeeded returned that account; and a platform that has an account is
    left as it is. *)
Theorem one_bootstrap_administrator (env : world -> world -> Prop) (ts ts' : list (io world jsval)) w w' :
  (forall s s', env s s' -> rows s' TUser = rows s TUser) ->
  Forall (fun t => exists email password name token, t = registerUser email password name token) ts ->
  steps env (ts, w) (ts', w') ->
  (rows w' TUser = rows w TUser \/
   rows w TUser = [] /\ exists u, rows w' TUser = [u] /\ u@."role" = JStr "ADMIN") /\
  forall i user, ts' !! i = Some (Ret user) -> rows w' TUser = [user].
Proof.
  intros Henv Hts Hsteps. split.
  - eapply (steps_obey env (fun _ => True) bootstraps); [typeclasses eauto|auto| | |exact Logic.I|exact Hsteps].
    + intros s s' _ He. left. now apply Henv.
    + eapply Forall_impl; [exact Hts|]. intros t (e & p & n & k & ->). apply registerUser_obeys.
  - intros i user Hi. eapply (results_hold env (fun _ => True) bootstraps sole ts w ts' w' i user); [|exact Logic.I| | |exact Hi].
    + intros s s' _ _ He. left. now apply Henv.
    + eapply Forall_impl; [exact Hts|]. intros t (e & p & n & k & ->). apply registerUser_assured.
    + eapply rtc_subrel; [|exact Hsteps]. intros c c' Hs. split_and!; [exact Logic.I|exact Hs|exact Logic.I].
Qed.

End Facts.
End Bootstrap.

(** ** Keys *)

Module Keys.
Section Facts.
Context {D : Database} {B : Bcrypt} {R : Crypto}.

Lemma client_checked clientId w client w' : assertActiveClient clientId w = (Ok client, w') -> w' = w.
Proof.
  unfold assertActiveClient. intros (found & w1 & Ef & E)%bind_ok. injection Ef as _ <-.
  destruct found as [c|]; [|discriminate E]. destruct (is_str _ _); [discriminate E|]. now injection E.
Qed.

Lemma prop_updated_other t data r k :
  k ∉ map fst data -> prop (spread r (JObj (encode t data))) k = prop r k.
Proof. intros Hk. now apply (spread_rewrites t r data). Qed.

(** A revoked key is no active key, and revoking another leaves it so. *)
Lemma revoked_inactive clientId env r t :
  active_key clientId env (spread r (JObj (encode TCredential [("revokedAt", JDate (Some t))]))) = false.
Proof.
  unfold active_key. rewrite (updated_column TCredential _ r "revokedAt" (JDate (Some t))); [now rewrite andb_false_r|..];
    [nodup_keys|reflexivity|discriminate].
Qed.

Lemma revoke_key_rows id w x w' clientId env :
  revoke_key id w = (Ok x, w') ->
  List.filter (active_key clientId env) (rows w' TCredential) =
  List.filter (fun r => negb (has_id id r) && active_key clientId env r) (rows w TCredential).
Proof.
  unfold revoke_key. intros (t & w1 & Et & E)%bind_ok. injection Et as <- <-.
  apply update_row_ok in E. rewrite E. clear E. induction (rows w TCredential) as [|r l IH]; [reflexivity|]. cbn [map List.filter].
  destruct (has_id id r); cbn [negb andb]; [rewrite revoked_inactive; exact IH|]. destruct (active_key clientId env r); [f_equal|]; exact IH.
Qed.

Lemma filter_twice {A} (p q : A -> bool) l : List.filter p (List.filter q l) = List.filter (fun x => q x && p x) l.
Proof. induction l as [|x l IH]; [reflexivity|]. cbn. destruct (q x); cbn; [destruct (p x); [f_equal|]; exact IH|exact IH]. Qed.

(** Revoking each of the active keys found leaves none of them. *)
Lemma revoke_all_rows clientId env keys w w' :
  for_each keys (fun row => revoke_key (row@."id") ;; ret tt) w = (Ok tt, w') ->
  List.filter (active_key clientId env) (rows w' TCredential) =
  List.filter (fun r => negb (existsb (fun key => has_id (key@."id") r) keys) && active_key clientId env r) (rows w TCredential).
Proof.
  revert w. induction keys as [|key keys IH]; intros w E; cbn [for_each] in E.
  - injection E as <-. now apply filter_bool_ext.
  - apply bind_ok in E as (u & w1 & E1 & E2). apply bind_ok in E1 as (x & w2 & Er & E1). injection E1 as _ <-.
    rewrite (IH _ E2). cbn [existsb].
    transitivity (List.filter (fun r => negb (existsb (fun key => has_id (key@."id") r) keys))
      (List.filter (active_key clientId env) (rows w2 TCredential))).
    { rewrite filter_twice. apply filter_bool_ext. intros r _. apply andb_comm. }
    rewrite (revoke_key_rows _ _ _ _ clientId env Er), filter_twice. apply filter_bool_ext. intros r _.
    destruct (has_id _ r), (existsb _ _), (active_key clientId env r); reflexivity.
Qed.

(** Ids are texts, as the column is typed. *)
Definition text_ids (t : table) (w : world) : Prop := Forall (fun r => exists s, r@."id" = JStr s) (rows w t).

Lemma assoc_None_iff {A} k (l : list (string * A)) : assoc k l = None <-> k ∉ map fst l.
Proof.
  split; [apply View.assoc_none|]. induction l as [|[j v] l IH]; cbn; [reflexivity|]. intros Hk.
  destruct (j =s? k) eqn:E; [apply String.eqb_eq in E as ->; set_solver|apply IH; set_solver].
Qed.
(** A column that is not written is not there. *)
Lemma absent_column t data id at0 k :
  k <> "id" -> k <> "createdAt" -> k ∉ map fst data ->
  prop (JObj (("id", id) :: encode t data ++ [("createdAt", at0)])) k = JUndef.
Proof.
  intros Hid Hat Hk. cbn [prop]. rewrite (proj2 (assoc_None_iff _ _)); [reflexivity|].
  cbn [map fst]. rewrite map_app. cbn [map fst]. rewrite not_elem_of_cons, not_elem_of_app, list_elem_of_singleton.
  split_and!; auto. intros Hin%encode_keys. auto.
Qed.

Definition key_data (cid : string) (name createdBy : jsval) (env : string) (g : generated_key) : list (string * jsval) :=
  [("clientId", JStr cid); ("name", renamed name (JStr (environment_name env))); ("environment", JStr env);
   ("keyPrefix", JStr (keyPrefix g)); ("keyHash", JStr (keyHash g)); ("keyEnc", JNull); ("createdBy", createdBy ?? JNull)].

Lemma key_column cid name createdBy env g id t k v :
  k <> "id" -> assoc k (key_data cid name createdBy env g) = Some v -> v <> JUndef ->
  prop (JObj (("id", id) :: encode TCredential (key_data cid name createdBy env g ++ []) ++ [("createdAt", t)])) k = v.
Proof. intros Hk Ha Hv. rewrite app_nil_r, (created_column TCredential _ id t k v); auto. nodup_keys. Qed.

(** A key is issued only where none is active: the row that is stored and the key that is
    shown. *)
Lemma issued cid name createdBy environment w out w' :
  issueApiCredential (JStr cid) name createdBy environment w = (Ok out, w') ->
  let env := normalizeEnvironment environment in
  List.find (active_key (JStr cid) env) (rows w TCredential) = None /\
  exists d row, let key := keyPrefixForEnvironment (JStr env) +:+ random_hex d 24 in
    rows w' TCredential = rows w TCredential ++ [row] /\ out@."apiKey" = JStr key /\ out@."id" = row@."id" /\
    row@."keyHash" = JStr (hashApiKey key) /\ row@."keyPrefix" = JStr (slice 0 16 key) /\
    row@."environment" = JStr env /\ row@."clientId" = JStr cid /\ nullish (row@."revokedAt") = true /\ exists s, row@."id" = JStr s.
Proof.
  intros E env. unfold issueApiCredential in E. apply bind_ok in E as (client & w1 & Ec & E).
  apply client_checked in Ec. subst w1. cbv zeta in E. fold env in E.
  apply bind_ok in E as (active & w2 & Ea & E). injection Ea as Ea <-. rewrite Ea. destruct active; [discriminate E|].
  split; [reflexivity|]. apply bind_ok in E as (g & w2 & Eg & E). unfold generateApiKey in Eg. injection Eg as <- Ew.
  apply bind_ok in E as (row & w3 & Er & E). unfold insert_row in Er.
  set (g := GeneratedKey _ _ _) in *.
  change (_ ++ List.filter _ (column_defaults TCredential)) with (key_data cid name createdBy env g ++ []) in Er.
  apply create_row_ok in Er as (Hrow & Hrows & _). injection E as <- <-. exists (next_id w), row. cbn zeta.
  rewrite Hrows, <- Ew. split; [reflexivity|]. split; [reflexivity|]. split; [reflexivity|].
  rewrite Hrow. split_and!; try (apply key_column; [discriminate|reflexivity|discriminate]).
  - rewrite absent_column; [reflexivity|discriminate..|]. rewrite app_nil_r. cbn [key_data map fst]. set_solver by discriminate.
  - now eexists.
Qed.

Lemma filter_none {A} (p : A -> bool) l : (forall x, x ∈ l -> p x = false) -> List.filter p l = [].
Proof.
  induction l as [|x l IH]; intros Hp; [reflexivity|]. cbn. rewrite (Hp x) by left. apply IH. intros y Hy. apply Hp. now right.
Qed.

Lemma find_none_all {A} (p : A -> bool) l : (forall x, x ∈ l -> p x = false) -> List.find p l = None.
Proof.
  induction l as [|x l IH]; intros Hp; [reflexivity|]. cbn. rewrite (Hp x) by left. apply IH. intros y Hy. apply Hp. now right.
Qed.

(** Rotating a key leaves one active key of the client in that environment, the one that is
    shown; all keys it replaces are revoked. *)
Theorem rotation_leaves_one_key cid createdBy name environment w out w' :
  text_ids TCredential w ->
  rotatePortalApiCredential (JStr cid) createdBy name environment w = (Ok out, w') ->
  exists row key, List.filter (active_key (JStr cid) (normalizeEnvironment environment)) (rows w' TCredential) = [row] /\
    row@."id" = out@."id" /\ out@."apiKey" = JStr key /\ row@."keyHash" = JStr (hashApiKey key).
Proof.
  intros Hids E. unfold rotatePortalApiCredential in E. apply bind_ok in E as (client & w1 & Ec & E).
  apply client_checked in Ec. subst w1. cbv zeta in E. set (env := normalizeEnvironment environment) in *.
  apply bind_ok in E as (active & w1 & Ea & E). injection Ea as <- <-.
  apply bind_ok in E as ([] & w1 & Er & E). pose proof (revoke_all_rows (JStr cid) env _ _ _ Er) as Hnone.
  assert (Hall : List.filter (active_key (JStr cid) env) (rows w1 TCredential) = []).
  { rewrite Hnone. apply filter_none. intros r Hr. destruct (active_key (JStr cid) env r) eqn:Hact; [|now rewrite andb_false_r].
    rewrite andb_true_r. apply negb_false_iff, existsb_exists. exists r. split; [apply filter_In; split; [now apply list_elem_of_In|exact Hact]|].
    unfold text_ids in Hids. rewrite Forall_forall in Hids. destruct (Hids r Hr) as [s Hs]. unfold has_id. rewrite Hs. apply String.eqb_refl. }
  apply issued in E as (_ & d & row & Hrows & Hkey & Hid & Hhash & _ & Henv & Hc & Hrev & _). exists row, (keyPrefixForEnvironment (JStr env) +:+ random_hex d 24).
    assert (Eenv : normalizeEnvironment (JStr env) = env) by (subst env; unfold normalizeEnvironment; destruct (is_str environment _); reflexivity).
    rewrite Eenv in *. rewrite Hrows, List.filter_app, Hall. cbn [List.filter app].
    assert (Hact : active_key (JStr cid) env row = true).
    { unfold active_key. rewrite Hc, Henv, Hrev. cbn. now rewrite !String.eqb_refl. }
    rewrite Hact. auto.
Qed.

(** *** Presenting a key *)

Lemma hex_not_space c : is_hex c = true -> is_space c = false.
Proof. destruct c as [[] [] [] [] [] [] [] []]; vm_compute; congruence. Qed.

Lemma hex_digit_some c : is_hex c = true -> exists x, hex_digit c = Some x.
Proof. destruct c as [[] [] [] [] [] [] [] []]; cbv; intros; first [discriminate | eexists; reflexivity]. Qed.
Lemma digest_bytes text : exists b bs, hex_bytes (sha256_hex text) = b :: bs.
Proof.
  destruct (sha256_digits text) as [Hd Hl]. destruct (sha256_hex text) as [|a [|b s]]; try discriminate Hl.
  cbn in Hd |- *. apply andb_true_iff in Hd as [Ha [Hb _]%andb_true_iff].
  destruct (hex_digit_some a Ha) as [x ->], (hex_digit_some b Hb) as [y ->]. eauto.
Qed.
Lemma digest_equal text : apiKeyHashesEqual (JStr (hashApiKey text)) (JStr (hashApiKey text)) = true.
Proof.
  unfold apiKeyHashesEqual, hashApiKey. destruct (digest_bytes text) as (b & bs & E). rewrite E.
  destruct (sha256_digits text) as [_ Hl]. destruct (sha256_hex text) eqn:Es; [discriminate Hl|].
  cbn [String.eqb orb]. rewrite Nat.eqb_refl. cbn. now rewrite bool_decide_true.
Qed.

Definition as_key (env : string) (secret : string) : string := keyPrefixForEnvironment (JStr env) +:+ secret.
Lemma as_key_shape env secret :
  all_chars is_hex secret = true -> trim (as_key env secret) = as_key env secret /\
  starts_with LIVE_PREFIX (as_key env secret) || starts_with TEST_PREFIX (as_key env secret) = true.
Proof.
  intros Hs. assert (Ht : tight secret = true).
  { revert Hs. apply all_chars_impl. intros c Hc. now rewrite (hex_not_space c Hc). }
  unfold as_key, keyPrefixForEnvironment. destruct (_ =s? _); (split; [apply trim_tight; exact Ht|reflexivity]).
Qed.

(** C31: The key that is shown when one is issued authenticates its client, in the environment it
    was issued for, as long as the client may use it and no other stored key has its digest. *)
Theorem issued_key_authenticates cid name createdBy environment key client w out w' :
  issueApiCredential (JStr cid) name createdBy environment w = (Ok out, w') -> out@."apiKey" = JStr key ->
  List.find (fun r => col_eq (r@."id") (JStr cid)) (rows w' TClient) = Some client ->
  client_admits client (JStr (normalizeEnvironment environment)) = true ->
  Forall (fun r => apiKeyHashesEqual (r@."keyHash") (JStr (hashApiKey key)) = false) (rows w TCredential) ->
  exists m w2, authenticateApiKey key w' = (Ok (Some m), w2) /\ key_client_id m = JStr cid /\ key_client m = client /\
    key_environment m = JStr (normalizeEnvironment environment) /\ credentialId m = out@."id".
Proof.
  intros Hi Hkey Hclient Hadmit Hfresh. apply issued in Hi as (_ & d & row & Hrows & Hk & Hid & Hhash & Hpre & Henv & Hc & Hrev & rid & Hrid).
  rewrite Hkey in Hk. injection Hk as ->. fold (as_key (normalizeEnvironment environment) (random_hex d 24)) in *.
  assert (Hrow : In row (rows w' TCredential)) by (rewrite Hrows; apply in_app_iff; right; now left).
  set (key := as_key _ _) in *. destruct (as_key_shape (normalizeEnvironment environment) (random_hex d 24)) as [Ht Hp]; [apply random_digits|].
  fold key in Ht, Hp. unfold authenticateApiKey. rewrite Ht, <- negb_orb, Hp. cbn [negb]. unfold bind, gets.
  replace (List.find _ (List.filter _ (rows w' TCredential))) with (Some row).
  - unfold findUnique, find_where, gets. rewrite Hc, Hclient. cbn [default from_option id]. rewrite Henv.
    replace (JStr (normalizeEnvironment environment) |or| JStr "PRODUCTION") with (JStr (normalizeEnvironment environment))
      by (unfold normalizeEnvironment; now destruct (is_str _ _)).
    rewrite Hadmit. cbn [negb]. unfold get_now, gets, update_row. cbn [forallb field_ok is_undef snd fst assoc enum_columns negb andb orb String.eqb Ascii.eqb Bool.eqb].
    destruct (List.find (has_id (row@."id")) (rows w' TCredential)) as [r|] eqn:Ef.
    + cbn. eexists _, _. split; [reflexivity|]. cbn. rewrite Hid. auto.
    + apply (List.find_none _ _ Ef row) in Hrow. unfold has_id in Hrow. rewrite Hrid in Hrow. cbn in Hrow. rewrite String.eqb_refl in Hrow. discriminate Hrow.
  - symmetry. rewrite Hrows, List.filter_app, find_app_none.
    + cbn [List.filter]. rewrite Hpre. cbn [is_str]. rewrite String.eqb_refl, Hrev. cbn. now rewrite Hhash, digest_equal.
    + apply find_none_all. intros r [Hr _]%elem_of_filter_bool. rewrite Forall_forall in Hfresh. now apply Hfresh.
Qed.

End Facts.
End Keys.

(** ** The platform keeps an administrator *)

Module Administrators.
Section Facts.
Context {D : Database} {J : Jwt} {B : Bcrypt} {R : Crypto} {M : Mailer} {C : Config} {Z : Zod} {L : RateLimiter} {H : JsHost}.

Definition administrator (u : jsval) : Prop := u@."role" = JStr "ADMIN" /\ truthy (u@."isActive") = true.
Definition has_administrator (w : world) : Prop := exists u, u ∈ rows w TUser /\ administrator u.
Definition keeps_administrator (w w' : world) : Prop := has_administrator w -> has_administrator w'.
#[local] Instance keeps_preorder : PreOrder keeps_administrator.
Proof. split; [intros w Hw; exact Hw|]. intros w1 w2 w3 H12 H23 Hw. auto. Qed.

Lemma evolves_keeps columns w w' :
  "role" ∉ columns -> "isActive" ∉ columns -> evolves TUser columns w w' -> keeps_administrator w w'.
Proof.
  intros Hr Ha (kept & fresh & E & Hk) (u & Hu & Hrole & Hact). apply list_elem_of_lookup in Hu as [i Hi].
  destruct (Forall2_lookup_l _ _ _ _ _ Hk Hi) as (u' & Hi' & Hrw). exists u'. rewrite E. split.
  - apply elem_of_app. left. eapply list_elem_of_lookup_2, Hi'.
  - split; rewrite Hrw; assumption.
Qed.
Lemma only_keeps t w w' : only t w w' -> t <> TUser -> keeps_administrator w w'.
Proof. intros Ho Ht (u & Hu & Ha). exists u. rewrite Ho by congruence. auto. Qed.

Lemma insert_keeps t data : tracks keeps_administrator (insert_row t data).
Proof.
  intros w. destruct (decide (t = TUser)) as [->|Ht].
  - apply (evolves_keeps []); [set_solver..|]. apply create_row_evolves.
  - apply (only_keeps t); [apply create_row_only|exact Ht].
Qed.
Lemma update_keeps t id data :
  t <> TUser \/ (("role" ∉ map fst data) /\ ("isActive" ∉ map fst data)) -> tracks keeps_administrator (update_row t id data).
Proof.
  intros Ht w. destruct (decide (t = TUser)) as [->|Hne].
  - destruct Ht as [Ht|[Hr Ha]]; [congruence|]. apply (evolves_keeps (map fst data)); [assumption..|]. now apply update_row_evolves.
  - apply (only_keeps t); [apply update_row_only|exact Hne].
Qed.
Lemma delete_keeps p : tracks keeps_administrator (delete_rows TEmailOtp p).
Proof. intros w. apply (only_keeps TEmailOtp); [|discriminate]. intros t Ht. cbn. now rewrite decide_False. Qed.
Lemma draw_keeps : tracks keeps_administrator draw.
Proof. intros w Hw. exact Hw. Qed.
Lemma reads_keep {A} (f : world -> A) : tracks keeps_administrator (gets f).
Proof. intros w Hw. exact Hw. Qed.
Lemma unchanged_keeps {A} (c : prog world A) : tracks eq c -> tracks keeps_administrator c.
Proof. intros Hc w. rewrite <- (Hc w). reflexivity. Qed.
Lemma exec_keeps {A} (m : io world A) : obeys (fun _ => True) keeps_administrator m -> tracks keeps_administrator (exec m).
Proof. intros Hm w. apply (obeys_exec keeps_administrator); [typeclasses eauto|exact Hm]. Qed.
#[local] Hint Resolve insert_keeps delete_keeps draw_keeps reads_keep : tracks.

Lemma outcome_keeps {A} (o : outcome A) : tracks keeps_administrator (of_outcome o).
Proof. unfold of_outcome. track. Qed.
Lemma secret_keeps : tracks keeps_administrator getJwtSecret.
Proof. unfold getJwtSecret. track. Qed.
Lemma sign_keeps u : tracks keeps_administrator (signAccessToken u).
Proof. unfold signAccessToken, get_now. pose proof secret_keeps. track. Qed.
Lemma hash_keeps password : tracks keeps_administrator (hashPassword password).
Proof. unfold hashPassword. track. Qed.
Lemma log_keeps u action resource metadata address : tracks keeps_administrator (logAccess u action resource metadata address).
Proof. unfold logAccess. track. Qed.
Lemma open_keeps : tracks keeps_administrator isPublicRegistrationOpen.
Proof. apply reads_keep. Qed.
Lemma find_keeps t column v : tracks keeps_administrator (findUnique t column v).
Proof. apply reads_keep. Qed.
Lemma newest_keeps t p : tracks keeps_administrator (newest_first t p).
Proof. apply reads_keep. Qed.
Lemma oldest_keeps t p : tracks keeps_administrator (oldest_first t p).
Proof. apply reads_keep. Qed.
#[local] Hint Resolve outcome_keeps secret_keeps sign_keeps hash_keeps log_keeps open_keeps find_keeps newest_keeps oldest_keeps : tracks.

Lemma handle_error_keeps e : tracks keeps_administrator (handleAuthError e).
Proof. unfold handleAuthError. track. Qed.
Lemma send_keeps email : tracks keeps_administrator (sendSignupOtp email).
Proof. unfold sendSignupOtp, get_now, generateOtp. track. Qed.
#[local] Hint Resolve handle_error_keeps send_keeps : tracks.

Lemma verify_keeps email otp : tracks keeps_administrator (exec (verifySignupOtp email otp)).
Proof.
  apply exec_keeps. unfold verifySignupOtp. obey; apply obeys_act; intros s _; revert s;
    lazymatch goal with |- forall s, keeps_administrator s (?p s).2 => change (tracks keeps_administrator p) end.
  - unfold get_now. track.
  - unfold latest_active_code. track.
  - unfold count_attempt. track. apply update_keeps. now left.
  - apply update_keeps. now left.
  - unfold signEmailVerificationToken, get_now. track.
Qed.
Lemma register_keeps email password name token : tracks keeps_administrator (exec (registerUser email password name token)).
Proof.
  apply exec_keeps. unfold registerUser. obey; apply obeys_act; intros s _; revert s;
    lazymatch goal with |- forall s, keeps_administrator s (?p s).2 => change (tracks keeps_administrator p) end.
  - apply unchanged_keeps, Bootstrap.verify_unchanged.
  - track.
  - track.
  - unfold bootstrap. track.
Qed.
Lemma create_user_keeps email password name role clientId : tracks keeps_administrator (createUserByAdmin email password name role clientId).
Proof. unfold createUserByAdmin, findUserByEmail. track. Qed.
Lemma login_keeps email password : tracks keeps_administrator (loginUser email password).
Proof. unfold loginUser, findUserByEmail. track. Qed.
Lemma logs_keep page pageSize : tracks keeps_administrator (listAccessLogs page pageSize).
Proof. unfold listAccessLogs, as_count. track. Qed.
#[local] Hint Resolve verify_keeps register_keeps create_user_keeps login_keeps logs_keep : tracks.

(** *** Changing an account *)

Lemma users_manager_is_admin role : USERS_MANAGE ∈ getPermissionsForRole role -> role = JStr "ADMIN".
Proof.
  destruct role as [| | | |r| | |]; cbn [getPermissionsForRole]; try (intros Hin; now apply elem_of_nil in Hin).
  unfold ROLE_PERMISSIONS. cbn [assoc]. rewrite <- granted_elem.
  destruct ("ADMIN" =s? r) eqn:E1; [apply String.eqb_eq in E1; congruence|].
  destruct ("OPERATIONS" =s? r); [discriminate|]. destruct ("ANALYST" =s? r); [discriminate|].
  destruct ("TECH" =s? r); [discriminate|]. destruct ("SUPPORT" =s? r); [discriminate|].
  destruct ("CLIENT" =s? r); discriminate.
Qed.

(** The checked fields of a change: a staff role or none, a boolean or none. *)
Lemma update_body_shape v b :
  updateUserSchema v = Ok b ->
  (new_role b = JUndef \/ exists r, new_role b = JStr r /\ r ∈ STAFF_USER_ROLES) /\
  (new_active b = JUndef \/ exists a, new_active b = JBool a).
Proof.
  unfold updateUserSchema, outcome_bind, optional.
  destruct (is_undef (v@."role")); [|destruct (parse_role _) as [r|] eqn:Er; [|discriminate]];
  (destruct (is_undef (v@."isActive")); [|destruct (parse_bool _) as [a|] eqn:Ea; [|discriminate]]);
  (match goal with |- context [match ?x with Ok _ => _ | Throw _ => _ end] => destruct x; [|discriminate] end);
  (match goal with |- context [if ?x then Throw _ else _] => destruct x; [discriminate|] end); intros [= <-]; cbn; (split; [|]); auto.
  all: try (unfold parse_bool in Ea; destruct (v@."isActive"); try discriminate Ea; injection Ea as <-; eauto; fail).
  all: unfold parse_role, in_enum in Er; destruct (v@."role") as [| | | |r0| | |]; try discriminate Er.
  all: destruct (existsb _ _) eqn:Ex; [|discriminate Er]; injection Er as <-; right; exists r0; split; [reflexivity|].
  all: apply existsb_exists in Ex as (x & Hx & ->%String.eqb_eq); now apply list_elem_of_In.
Qed.

Lemma spread_update_column r data k :
  NoDup (map fst data) ->
  prop (spread r (JObj (encode TUser data))) k =
  match assoc k data with Some v => if is_undef v then prop r k else v | None => prop r k end.
Proof.
  intros Hnd. destruct (assoc k data) as [v|] eqn:Ea.
  - destruct (is_undef v) eqn:Ev; [|rewrite (updated_column TUser data r k v); auto; now intros ->].
    destruct v; try discriminate Ev. rewrite prop_spread by (cbn; now apply encode_nodup).
    replace (assoc k (obj_fields (JObj (encode TUser data)))) with (@None jsval); [reflexivity|]. symmetry. cbn [obj_fields].
    apply Keys.assoc_None_iff. unfold encode. rewrite map_map. intros (kv & -> & Hkv)%list_elem_of_fmap.
    apply elem_of_filter_bool in Hkv as [Hin Hu]. destruct kv as [j x]. cbn in *.
    assert (x = JUndef) as ->; [|discriminate Hu]. clear Hu. induction data as [|[i y] data IH]; [now apply elem_of_nil in Hin|].
    cbn in *. apply NoDup_cons in Hnd as [Hi Hnd]. destruct (i =s? j) eqn:E.
    + apply String.eqb_eq in E as ->. apply elem_of_cons in Hin as [[= ->]|Hin]; [congruence|].
      destruct Hi. apply list_elem_of_fmap. now exists (j, x).
    + apply elem_of_cons in Hin as [[= -> ->]|Hin]; [now rewrite String.eqb_refl in E|]. now apply IH.
  - apply (spread_rewrites TUser r data). now apply Keys.assoc_None_iff.
Qed.

Lemma update_row_throw t id data w e w' : update_row t id data w = (Throw e, w') -> w' = w.
Proof. unfold update_row. destruct (negb _); [congruence|]. destruct (List.find _ _); congruence. Qed.

(** Someone who acts as administrator stays one whatever account is changed. *)
Lemma update_handler_keeps req c w :
  user c ∈ rows w TUser -> administrator (user c) -> has_administrator (updateUserHandler req c w).2.
Proof.
  intros Hu [Hrole Hact]. assert (Hnow : has_administrator w) by (exists (user c); now split; [|split]).
  unfold updateUserHandler. destruct (updateUserSchema (body req)) as [b|e] eqn:Eb; [|exact Hnow].
  destruct (update_body_shape _ _ Eb) as [Hnr Hna]. cbv zeta. set (target := js_string (param req "id")).
  destruct (_ && match new_active b with JBool false => true | _ => false end) eqn:Eself; [exact Hnow|].
  destruct (_ && truthy (new_role b) && _) eqn:Erole; [exact Hnow|].
  unfold bind at 1. cbn. destruct (List.find _ _); [|exact Hnow]. unfold bind at 1.
  destruct (updateUserByAdmin (JStr target) _ _ _ w) as [[updated|e] w1] eqn:Eu.
  - assert (Hw1 : has_administrator w1).
    { unfold updateUserByAdmin in Eu. pose proof (update_row_ok _ _ _ _ _ _ Eu) as Hrows.
      eexists. rewrite Hrows. split; [apply list_elem_of_fmap; eexists; split; [reflexivity|exact Hu]|]. cbv beta.
      destruct (has_id (JStr target) (user c)) eqn:Hid; [|split; assumption].
      assert (Hself : ((user c)@."id" === target) = true) by (revert Hid; unfold has_id; destruct ((user c)@."id") as [| | | | |[]| |]; auto; discriminate).
      rewrite Hself in Eself, Erole. cbn [andb] in Eself, Erole.
      split; rewrite spread_update_column by nodup_keys; cbn [assoc String.eqb Ascii.eqb Bool.eqb].
      - destruct Hnr as [->|(r & Er & Hr)]; [exact Hrole|]. rewrite Er in *. cbn [is_undef].
        assert (Ht : truthy (JStr r) = true) by (cbn; destruct r; [|reflexivity]; apply list_elem_of_In in Hr; cbn in Hr; intuition discriminate).
        rewrite Ht, Hrole in Erole. cbn [andb] in Erole. apply negb_false_iff in Erole. cbn in Erole. apply String.eqb_eq in Erole as ->. reflexivity.
      - destruct Hna as [->|[a Ea]]; [exact Hact|]. rewrite Ea in *. destruct a; [reflexivity|discriminate Eself]. }
    unfold bind. pose proof (log_keeps ((user c)@."id") "users.update" (JStr ("users:" +:+ js_string (updated@."id"))) (update_metadata b) (ip req) w1 Hw1) as Hl.
    destruct (logAccess _ _ _ _ _ w1) as [[[]|e] w2]; exact Hl.
  - apply update_row_throw in Eu. now subst w1.
Qed.

(** *** Every request *)

Lemma user_changes_guarded :
  forallb (fun r => negb (handler r =s? "updateUserHandler") ||
    match guards r with
    | Authenticate :: RequirePermission [USERS_MANAGE] :: rest => negb (existsb authenticates rest)
    | _ => false
    end) routes = true.
Proof. vm_compute. reflexivity. Qed.

Lemma touches_keep w w' : touches_keys w w' -> keeps_administrator w w'.
Proof. intros [Ho _]. now apply (only_keeps TCredential). Qed.

Lemma finish_keeps g req c a : tracks keeps_administrator (on_finish g req c a).
Proof. destruct g; cbn [on_finish]; unfold auditAction, auditPartnerAccess; track. Qed.
#[local] Hint Resolve finish_keeps : tracks.

Lemma account_handler_keeps others name req c :
  tracks keeps_administrator (others name req c) -> (name =s? "updateUserHandler") = false ->
  tracks keeps_administrator (account_handler others name req c).
Proof.
  intros Ho Hn. unfold account_handler. rewrite Hn.
  repeat lazymatch goal with |- tracks _ (if ?b then _ else _) => destruct b end; try exact Ho.
  - unfold sendOtpHandler, parsed, findUserByEmail. track.
  - unfold verifyOtpHandler, parsed. track.
  - unfold registerHandler, parsed. track.
  - unfold loginHandler, parsed. track.
  - unfold meHandler. track.
  - unfold logoutHandler. track.
  - unfold listUsersHandler, listUsers. track.
  - unfold createUserHandler, parsed. track.
  - unfold listAccessLogsHandler. track.
Qed.

(** The platform never loses its last administrator to a request: whoever changes accounts is
    an active administrator and may neither deactivate nor demote the account it acts with.
    The handlers that are not account handlers are assumed not to change roles or to
    deactivate accounts. *)
Theorem administrator_survives others r req w :
  r ∈ routes -> (forall name req c, tracks keeps_administrator (others name req c)) ->
  has_administrator w -> has_administrator (respond (account_handler others) r req w).2.
Proof.
  intros Hr Hothers Hw. pose proof (touches_keep _ _ (run_guards_touches (guards r) req no_context w) Hw) as Hw1.
  unfold respond, catch at 1. unfold bind at 1. destruct (run_guards (guards r) req no_context w) as [[[c|a]|e] w1] eqn:Eg; cbn [fst snd] in *;
    [|exact Hw1..].
  assert (Hh : has_administrator (account_handler others (handler r) req c w1).2).
  { destruct (handler r =s? "updateUserHandler") eqn:En; [|now apply (account_handler_keeps others)].
    pose proof (proj1 (forallb_forall _ _) user_changes_guarded r (proj1 (list_elem_of_In _ _) Hr)) as Hg.
    cbv beta in Hg. rewrite En in Hg. cbn [negb orb] in Hg. apply String.eqb_eq in En. rewrite En.
    destruct (guards r) as [|[] [|[| | | | |[|[] [|]]| | | | | | |] rest]]; try discriminate Hg.
    apply negb_true_iff in Hg. apply (chain_authenticated [] Authenticate (RequirePermission [USERS_MANAGE] :: rest)) in Eg as [Ha Hp]; [|exact Hg].
    apply authenticate_next in Ha as (-> & (Hin & Hact & _) & _). apply Forall_cons in Hp as [Hp _].
    apply permission_passes in Hp as (p & Hp & Hgr). apply list_elem_of_singleton in Hp as ->.
    apply update_handler_keeps; [exact Hin|]. split; [now apply users_manager_is_admin|exact Hact]. }
  unfold bind at 1, catch. destruct (account_handler others (handler r) req c w1) as [[a|e] w2]; cbn [fst snd] in Hh.
  - unfold bind. pose proof (tracks_for_each keeps_administrator (guards r) (fun g => on_finish g req c a) (fun g => finish_keeps g req c a) w2 Hh) as Hf.
    destruct (for_each _ _ w2) as [[[]|e] w3]; exact Hf.
  - unfold ret at 1, bind. cbn [fst snd].
    pose proof (tracks_for_each keeps_administrator (guards r) (fun g => on_finish g req c (error_reply e)) (fun g => finish_keeps g req c (error_reply e)) w2 Hh) as Hf.
    destruct (for_each _ _ w2) as [[[]|e'] w3]; exact Hf.
Qed.

End Facts.
End Administrators.
