(* ===== verification/AccessWitnesses.v ===== *)
(** * The account theorems at concrete states

    Instances of the interfaces of the account files (a reversible token coding, a toy digest
    of 64 digits, fixed limits), a small platform, and the theorems of [Access], [Security] and
    [AccountSafety] applied to it. *)

From Stdlib Require Import SpecFloat.
From stdpp Require Import countable.
From S2P Require Import Prelude Concurrent JsNum JsVal JsDate Store Access Accounts Credentials Middleware AccountHandlers Routes Security AccountSafety.
Local Open Scope Z_scope.

(** ** Interfaces *)

Module Interfaces.

Fixpoint bits_of (p : positive) : string :=
  match p with xH => "" | xO p' => String "0" (bits_of p') | xI p' => String "1" (bits_of p') end.
Fixpoint of_bits (s : string) : positive :=
  match s with
  | EmptyString => xH
  | String c s' => if (c =? "0")%char then xO (of_bits s') else xI (of_bits s')
  end.
Lemma of_bits_of p : of_bits (bits_of p) = p.
Proof. induction p as [p IH|p IH|]; cbn; [now rewrite IH..|reflexivity]. Qed.

Definition token_data : Type := (list Z) * (list (string * option string)) * string.
Definition token_of (d : token_data) : string := "jwt." +:+ bits_of (countable.encode d).
Definition token_read (s : string) : option token_data := countable.decode (of_bits (string_drop 4 s)).
Lemma string_drop_prefix s : string_drop 4 ("jwt." +:+ s) = s.
Proof.
  unfold string_drop. change ("jwt." +:+ s) with (String "j" (String "w" (String "t" (String "." s)))).
  cbn [String.length]. replace (S (S (S (S (String.length s)))) - 4)%nat with (String.length s) by lia.
  cbn [String.substring]. induction s as [|c s IH]; [reflexivity|]. cbn. now rewrite IH.
Qed.
Lemma token_read_of d : token_read (token_of d) = Some d.
Proof. unfold token_read, token_of. rewrite string_drop_prefix, of_bits_of. apply countable.decode_encode. Qed.

#[export] Instance sample_jwt : Jwt.
Proof.
  refine {|
    jwt_sign at0 ttl claims secret := token_of ([at0; ttl], claims, secret);
    jwt_verify t token secret :=
      match token_read token with
      | Some ([at0; ttl], claims, s) =>
          if (s =s? secret) && (token =s? token_of ([at0; ttl], claims, s)) && (t <? at0 + ttl)
          then Some (JObj (map claim claims ++ [("iat", JNum (num_of_Z at0)); ("exp", JNum (num_of_Z (at0 + ttl)))]))
          else None
      | _ => None
      end |}.
  - intros t at0 ttl claims secret. rewrite token_read_of, !String.eqb_refl. reflexivity.
  - intros t token secret payload. destruct (token_read token) as [[[[|at0 [|ttl [|]]] claims] s]|]; try discriminate.
    destruct (s =s? secret) eqn:Es; [|discriminate]. destruct (token =s? _) eqn:Et; [|discriminate].
    destruct (t <? _); [|discriminate]. apply String.eqb_eq in Es as ->, Et as ->. intros [= <-]. eauto.
Defined.

#[export] Instance sample_bcrypt : Bcrypt.
Proof. refine {| bcrypt_hash _ _ text := text; bcrypt_compare text h := text =s? h |}. intros. apply String.eqb_refl. Defined.

Definition hex_char (n : Z) : ascii :=
  ascii_of_nat (Z.to_nat (if n mod 16 <? 10 then 48 + n mod 16 else 87 + n mod 16)).
Fixpoint hex_text (n : nat) (z : Z) : string :=
  match n with O => "" | S m => String (hex_char z) (hex_text m (z / 16)) end.
Lemma hex_text_digits n z : all_chars is_hex (hex_text n z) = true /\ String.length (hex_text n z) = n.
Proof.
  revert z. induction n as [|n IH]; intros z; [now split|]. cbn. destruct (IH (z / 16)) as [-> ->]. split; [|reflexivity].
  rewrite andb_true_r. unfold hex_char. pose proof (Z.mod_pos_bound z 16 ltac:(lia)) as Hm.
  assert (Hc : forallb (fun k => is_hex (ascii_of_nat (Z.to_nat (if Z.of_nat k <? 10 then 48 + Z.of_nat k else 87 + Z.of_nat k)))) (seq 0 16) = true)
    by reflexivity.
  rewrite forallb_forall in Hc. specialize (Hc (Z.to_nat (z mod 16))). rewrite Z2Nat.id in Hc by lia. apply Hc, in_seq. lia.
Qed.
Fixpoint toy_digest (acc : Z) (s : string) : Z :=
  match s with EmptyString => acc | String c s' => toy_digest ((acc * 257 + Z.of_nat (nat_of_ascii c)) mod 2 ^ 256) s' end.

#[export] Instance sample_crypto : Crypto.
Proof.
  refine {| sha256_hex text := hex_text 64 (toy_digest 1 text); random_hex d n := hex_text (2 * n) (Z.of_nat d);
            random_code d := print_Z (100000 + Z.of_nat d) "" |}.
  - intros. apply hex_text_digits.
  - intros. apply hex_text_digits.
Defined.

#[export] Instance sample_mailer : Mailer := {| sendOtpEmail _ _ := None |}.
#[export] Instance sample_config : Config := {| JWT_SECRET := Some "secret"; CRON_SECRET := Some "cron-secret" |}.
#[export] Instance sample_limiter : RateLimiter := {| admits _ _ _ := true |}.
#[export] Instance sample_zod : Zod := {| zod_email s := includes s "@" |}.
#[export] Instance sample_database : Database := plain_database.
#[export] Instance sample_host : JsHost := {| local_date_string _ := ""; local_date_parse _ := None |}.

End Interfaces.
Export Interfaces.

(** ** A small platform *)

Module Platform.

Definition account (id email role : string) (clientId : jsval) : jsval :=
  JObj [("id", JStr id); ("email", JStr email); ("passwordHash", JStr "hunter22"); ("name", JNull); ("role", JStr role);
        ("isActive", JBool true); ("clientId", clientId)].
Definition alice : jsval := account "u-alice" "alice@mbo.test" "ADMIN" JNull.
Definition bob : jsval := account "u-bob" "bob@mbo.test" "ADMIN" JNull.
Definition carol : jsval := account "u-carol" "carol@shop.test" "CLIENT" (JStr "c-shop").

Definition shop : jsval :=
  JObj [("id", JStr "c-shop"); ("name", JStr "Shop"); ("status", JStr "ACTIVE"); ("deliveryMethod", JStr "PORTAL_ONLY")].

Definition secret_key : string := "mbo_live_00112233445566778899".
Definition shop_key : jsval :=
  JObj [("id", JStr "k-shop"); ("clientId", JStr "c-shop"); ("environment", JStr "PRODUCTION");
        ("keyPrefix", JStr (slice 0 16 secret_key)); ("keyHash", JStr (hashApiKey secret_key))].

Definition platform : world :=
  World (fun t => match t with
                  | TUser => [alice; bob; carol]
                  | TClient => [shop]
                  | TCredential => [shop_key]
                  | _ => []
                  end) 1000000 0.
Definition empty : world := World (fun _ => []) 1000000 0.

Definition session (u : jsval) : string := match (signAccessToken u platform).1 with Ok t => t | Throw _ => "" end.
Definition ask (verb : string) (path : list string) (credentials : list (string * string)) (payload : jsval) : request :=
  Request verb path (join "/" path) credentials (JObj []) payload JNull [("id", default "" (last path))] "".
Definition bearing (token : string) : list (string * string) := [("authorization", "Bearer " +:+ token)].

(** The route of a method and pattern. *)
Definition route_of (verb p : string) : route :=
  default (Route "" "" [] "") (List.find (fun r => (route_method r =s? verb) && (pattern r =s? p)) routes).
Lemma route_listed verb p :
  existsb (fun r => (route_method r =s? verb) && (pattern r =s? p)) routes = true -> route_of verb p ∈ routes.
Proof.
  unfold route_of. intros (r & Hr & Hm)%existsb_exists. destruct (List.find _ routes) as [x|] eqn:E.
  - apply List.find_some in E as [E _]. now apply list_elem_of_In.
  - exfalso. pose proof (List.find_none _ _ E r Hr) as Hn. cbn in Hn. congruence.
Qed.

(** What the guards of a route make of a request. *)
Definition let_on (r : route) (req : request) (w : world) : option (context * world) :=
  match run_guards (guards r) req no_context w with (Ok (Next c), w') => Some (c, w') | _ => None end.
Lemma let_on_runs r req w c w' : let_on r req w = Some (c, w') -> run_guards (guards r) req no_context w = (Ok (Next c), w').
Proof. unfold let_on. destruct (run_guards _ _ _ _) as [[[?|?]|?] ?]; congruence. Qed.

End Platform.
Import Platform.

Module AccessWitnesses.


Definition change_bob : request := ask "PATCH" ["users"; "u-bob"] (bearing (session alice)) (JObj [("isActive", JBool false)]).
Definition users_change : route := route_of "PATCH" "/users/:id".

Lemma handler_reached_with_authority_witness :
  exists c w', run_guards (guards users_change) change_bob no_context platform = (Ok (Next c), w') /\
    (public_authority users_change c \/ scheduler_authority users_change change_bob \/
     staff_authority users_change platform change_bob c \/ tenant_authority users_change platform change_bob c).
Proof.
  assert (Hrun : exists c w', let_on users_change change_bob platform = Some (c, w')) by (vm_compute; eauto).
  destruct Hrun as (c & w' & Hrun%let_on_runs). exists c, w'. split; [exact Hrun|].
  refine (handler_reached_with_authority users_change change_bob platform c w' _ Hrun). apply route_listed. reflexivity.
Defined.

Definition portal_orders : route := route_of "GET" "/portal/v1/orders".
Definition carol_orders : request := ask "GET" ["portal"; "v1"; "orders"] (bearing (session carol)) JUndef.

Lemma client_account_confined_witness :
  exists c w', run_guards (guards portal_orders) carol_orders no_context platform = (Ok (Next c), w') /\
    (user c)@."role" = JStr "CLIENT" /\
    (pattern portal_orders ∈ ACCOUNT_PATTERNS \/ by_login platform carol_orders c).
Proof.
  assert (Hrun : exists c w', let_on portal_orders carol_orders platform = Some (c, w') /\ (user c)@."role" = JStr "CLIENT")
    by (vm_compute; eauto).
  destruct Hrun as (c & w' & Hrun%let_on_runs & Hc). exists c, w'. split; [exact Hrun|]. split; [exact Hc|].
  refine (client_account_confined portal_orders carol_orders platform c w' _ Hrun Hc). apply route_listed. reflexivity.
Defined.

Definition key_orders : request := ask "GET" ["portal"; "v1"; "orders"] [("x-api-key", secret_key)] JUndef.
Definition key_campaigns : request := ask "GET" ["portal"; "v1"; "campaigns"; "other"] [("x-api-key", secret_key)] (JObj [("clientId", JStr "c-rival")]).
Definition portal_campaign : route := route_of "GET" "/portal/v1/campaigns/:id".

Lemma tenant_from_credentials_witness :
  exists c w1 c' w1', run_guards (guards portal_orders) key_orders no_context platform = (Ok (Next c), w1) /\
    run_guards (guards portal_campaign) key_campaigns no_context platform = (Ok (Next c'), w1') /\
    partnerClientId c = JStr "c-shop" /\ c = c'.
Proof.
  assert (Hrun : exists c w1, let_on portal_orders key_orders platform = Some (c, w1) /\ partnerClientId c = JStr "c-shop")
    by (vm_compute; eauto).
  assert (Hrun' : exists c w1, let_on portal_campaign key_campaigns platform = Some (c, w1) /\ partnerClientId c = JStr "c-shop")
    by (vm_compute; eauto).
  destruct Hrun as (c & w1 & Hrun%let_on_runs & Hc), Hrun' as (c' & w1' & Hrun'%let_on_runs & Hc').
  exists c, w1, c', w1'. split; [exact Hrun|]. split; [exact Hrun'|]. split; [exact Hc|].
  refine (tenant_from_credentials portal_orders portal_campaign key_orders key_campaigns platform c c' w1 w1' _ _ eq_refl Hrun Hrun' _ _);
    try (apply route_listed; reflexivity); congruence.
Defined.

Definition an_hour_later : world := World (rows platform) (now platform + 3600000) 0.
Definition alice_me : request := ask "GET" ["auth"; "me"] (bearing (session alice)) JUndef.

Lemma session_follows_the_store_witness :
  (signAccessToken alice platform).1 = Ok (session alice) /\
  authenticate alice_me no_context an_hour_later =
  (Ok (Next (Context alice PERMISSIONS JUndef JUndef JUndef)), an_hour_later).
Proof.
  split; [vm_compute; reflexivity|].
  rewrite (session_follows_the_store alice "u-alice" (session alice) alice_me no_context platform (signAccessToken alice platform).2 an_hour_later);
    [reflexivity|reflexivity|vm_compute; reflexivity|vm_compute; reflexivity].
Defined.

Definition verification : string := match (signEmailVerificationToken "dora@mbo.test" platform).1 with Ok t => t | Throw _ => "" end.
Definition dora_me : request := ask "GET" ["auth"; "me"] (bearing verification) JUndef.

Lemma tokens_not_interchangeable_witness :
  authenticate dora_me no_context an_hour_later = (Ok session_refused, an_hour_later) /\
  verifyEmailVerificationToken (session alice) an_hour_later = (Throw (api_fail "Invalid or expired verification token." 401), an_hour_later).
Proof.
  destruct (tokens_not_interchangeable alice "dora@mbo.test" (session alice) verification dora_me no_context platform
    (signAccessToken alice platform).2 (signEmailVerificationToken "dora@mbo.test" platform).2 an_hour_later) as [Ha Hb];
    [vm_compute; reflexivity|vm_compute; reflexivity|]. split; [apply Ha; vm_compute; reflexivity|exact Hb].
Defined.

Definition key_found : key_match := KeyMatch (JStr "k-shop") (JStr "c-shop") shop (JStr "PRODUCTION").

Lemma portal_serves_keys_of_disabled_api_witness :
  exists r r' c a, handler r = handler r' /\ pattern r = "/portal/v1/orders" /\ pattern r' = "/v1/client/orders" /\
    run_guards (guards r) key_orders no_context platform = (Ok (Next c), (authenticateApiKey secret_key platform).2) /\
    run_guards (guards r') key_orders no_context platform = (Ok (Answer a), (authenticateApiKey secret_key platform).2) /\ status a = 403.
Proof.
  destruct (portal_serves_keys_of_disabled_api key_orders secret_key platform key_found (authenticateApiKey secret_key platform).2)
    as (r & r' & c & a & _ & _ & H1 & H2 & H3 & H4 & H5 & H6);
    [vm_compute; reflexivity|reflexivity| |left; reflexivity|exists r, r', c, a; auto 10].
  rewrite (surjective_pairing (authenticateApiKey secret_key platform)) at 1. apply pair_equal_spec. split; [vm_compute|]; reflexivity.
Defined.

Lemma rotation_leaves_one_key_witness :
  exists out row key, (rotatePortalApiCredential (JStr "c-shop") JNull JUndef (JStr "PRODUCTION") platform).1 = Ok out /\
    List.filter (active_key (JStr "c-shop") "PRODUCTION")
      (rows (rotatePortalApiCredential (JStr "c-shop") JNull JUndef (JStr "PRODUCTION") platform).2 TCredential) = [row] /\
    row@."id" = out@."id" /\ out@."apiKey" = JStr key /\ row@."keyHash" = JStr (hashApiKey key).
Proof.
  assert (Hrun : exists out, (rotatePortalApiCredential (JStr "c-shop") JNull JUndef (JStr "PRODUCTION") platform).1 = Ok out) by (vm_compute; eauto).
  destruct Hrun as [out Hout]. destruct (rotatePortalApiCredential _ _ _ _ platform) as [o w'] eqn:E. cbn in Hout. subst o.
  destruct (Keys.rotation_leaves_one_key "c-shop" JNull JUndef (JStr "PRODUCTION") platform out w') as (row & key & H1 & H2 & H3 & H4);
    [|exact E|exists out, row, key; auto].
  repeat constructor; eexists; reflexivity.
Defined.

Definition sandbox_issue : prog world jsval := issueApiCredential (JStr "c-shop") JUndef JNull (JStr "SANDBOX").
Definition sandbox_out : jsval := match (sandbox_issue platform).1 with Ok v => v | Throw _ => JUndef end.
Definition sandbox_key : string := default "" (text_of (sandbox_out@."apiKey")).

Lemma issued_key_authenticates_witness :
  (sandbox_issue platform).1 = Ok sandbox_out /\
  exists m w2, authenticateApiKey sandbox_key (sandbox_issue platform).2 = (Ok (Some m), w2) /\
    key_client_id m = JStr "c-shop" /\ key_client m = shop /\ key_environment m = JStr "SANDBOX" /\ credentialId m = sandbox_out@."id".
Proof.
  split; [vm_compute; reflexivity|].
  apply (Keys.issued_key_authenticates "c-shop" JUndef JNull (JStr "SANDBOX") sandbox_key shop platform sandbox_out (sandbox_issue platform).2).
  - change (issueApiCredential _ _ _ _ platform) with (sandbox_issue platform).
    rewrite (surjective_pairing (sandbox_issue platform)) at 1. apply pair_equal_spec. split; [vm_compute|]; reflexivity.
  - vm_compute. reflexivity.
  - vm_compute. reflexivity.
  - reflexivity.
  - constructor; [vm_compute; reflexivity|constructor].
Defined.

(** Two first sign-ups at once. *)
Definition proof_of (email : string) : string := match (signEmailVerificationToken email empty).1 with Ok t => t | Throw _ => "" end.
Definition sign_up (email : string) : io world jsval := registerUser email "hunter22!" JUndef (proof_of email).
Definition pass_time (d : Z) (w : world) : world := World (rows w) (now w + d) (next_id w).
Definition two_sign_ups : list (io world jsval) := [sign_up "eve@mbo.test"; sign_up "fay@mbo.test"].
Definition interleaved : list event := [Run 0; Run 1; Run 0; Run 1; Run 0; Run 1; Run 1; Run 0].
Definition signed_up : list (io world jsval) * world := schedule pass_time interleaved (two_sign_ups, empty).

Lemma one_bootstrap_administrator_witness :
  (exists u, rows signed_up.2 TUser = [u] /\ u@."email" = JStr "fay@mbo.test") /\
  forall i user, signed_up.1 !! i = Some (Ret user) -> rows signed_up.2 TUser = [user].
Proof.
  split; [vm_compute; eexists; split; reflexivity|].
  refine (proj2 (Bootstrap.one_bootstrap_administrator (time_passes pass_time) two_sign_ups signed_up.1 empty signed_up.2 _ _ _)).
  - intros s s' (d & _ & ->). reflexivity.
  - repeat constructor; unfold sign_up; do 4 eexists; reflexivity.
  - rewrite <- (surjective_pairing signed_up). apply schedule_steps.
Defined.

Definition no_others (_ : string) (_ : request) (_ : context) : prog world reply := ret not_found.

Lemma administrator_survives_witness :
  Administrators.has_administrator platform /\
  Administrators.has_administrator (respond (account_handler no_others) users_change change_bob platform).2.
Proof.
  assert (Hw : Administrators.has_administrator platform) by (exists alice; split; [now left|split; reflexivity]).
  split; [exact Hw|]. apply Administrators.administrator_survives; [apply route_listed; reflexivity| |exact Hw].
  intros name req c w Hadm. exact Hadm.
Defined.

End AccessWitnesses.

(** ** Interleavings the services do not exclude *)

Module Races.
Import AccessWitnesses.

Definition change_alice : request := ask "PATCH" ["users"; "u-alice"] (bearing (session bob)) (JObj [("isActive", JBool false)]).
Definition active_admin (u : jsval) : bool := (u@."role" === "ADMIN") && truthy (u@."isActive").

(** Two administrators who deactivate each other at the same moment both succeed: each has
    passed its guards before the other's change, and nobody is left who could undo it. *)
Theorem administrators_remove_each_other :
  let pool := [respond_steps (account_handler no_others) users_change change_bob;
               respond_steps (account_handler no_others) users_change change_alice] in
  let final := schedule pass_time [Run 0; Run 1; Run 0; Run 1] (pool, platform) in
  existsb active_admin (rows platform TUser) = true /\ existsb active_admin (rows final.2 TUser) = false /\
  map (fun t => match t with Ret a => status a | _ => 0 end) final.1 = [200; 200].
Proof. vm_compute. auto. Qed.

Definition pending_code : jsval :=
  JObj [("id", JStr "o-1"); ("email", JStr "eve@mbo.test"); ("otpHash", JStr "123456"); ("expiresAt", JDate (Some 1600000));
        ("attempts", JNum n0); ("createdAt", JDate (Some 1000000))].
Definition awaiting_code : world := World (fun t => match t with TEmailOtp => [pending_code] | _ => [] end) 1000000 0.
Definition guess (code : string) : io world jsval := verifySignupOtp "eve@mbo.test" code.
Definition seven_guesses : list (io world jsval) :=
  map guess ["000000"; "000001"; "000002"; "000003"; "000004"; "000005"; "123456"].
Definition rounds (n : nat) : list event := concat (repeat (map Run (seq 0 7)) n).

(** Guesses of one code sent together are all compared: six wrong ones and then the right one
    are accepted although five wrong attempts close a code. *)
Theorem guesses_exceed_the_limit :
  let final := schedule pass_time (rounds 4) (seven_guesses, awaiting_code) in
  map attempts_of (rows final.2 TEmailOtp) = [num_of_Z 6] /\
  match final.1 !! 6%nat with Some (Ret _) => true | _ => false end = true.
Proof. vm_compute. auto. Qed.

End Races.
