(* ===== verification/Exceptions.v ===== *)
(** * Exception cases

    [modules/ops/alertException.contract.js] maps operational conditions to a type, a
    severity and a required action; [modules/order/exceptionCase.service.js] records them
    as cases deduplicated on a stable key; [platform/logging/context.js] redacts what is
    stored with them; secrets in free text are scrubbed by [Redact]. *)

From Stdlib Require Import SpecFloat.
From S2P Require Import Prelude JsNum JsVal Redact JsDate Recon Store.
Import Redaction ReconciliationLogic.
Local Open Scope Z_scope.

(** ** Redaction of logged objects *)

Module LogContext.
Definition SENSITIVE_KEYS : list string :=
  ["password"; "passwordhash"; "token"; "accesstoken"; "refreshtoken"; "authorization"; "apikey"; "secret";
   "otp"; "creditcard"; "ssn"; "encryptedaccesstoken"; "encryptedrefreshtoken"; "apisecret"; "applicationkey";
   "userapikey"; "clientsecret"; "client_secret"; "access_token"; "refresh_token"; "api_key";
   "x-db-recovery-token"; "db_recovery_diagnostic_token"].
Definition sensitive (key : string) : bool := existsb (String.eqb (to_lower key)) SENSITIVE_KEYS.

(** [depth] counts down from 6; below it everything is truncated. *)
Fixpoint sanitize (depth : nat) (value : jsval) : jsval :=
  match value with
  | JUndef | JNull => value
  | JStr s => if (2000 <? String.length s)%nat then JStr (slice 0 2000 s +:+ "…") else value
  | JArr l =>
      JArr (map (fun item => match depth with O => JStr "[truncated]" | S d => sanitize d item end) l)
  | JDate _ => JObj []
  | JObj fields =>
      JObj (map (fun kv => (kv.1, if sensitive kv.1 then JStr "[redacted]"
                                  else match depth with
                                       | O => JStr "[truncated]"
                                       | S d => sanitize d kv.2
                                       end)) fields)
  | _ => value
  end.
Definition sanitizeForLog (value : jsval) : jsval := sanitize 6 value.

(** Every value stored under a sensitive key, at any depth, is the redaction marker. *)
Fixpoint redacted (v : jsval) : bool :=
  match v with
  | JArr l => forallb redacted l
  | JObj fields => forallb (fun kv => if sensitive kv.1 then (kv.2 === "[redacted]") else redacted kv.2) fields
  | _ => true
  end.

Lemma sanitize_redacted depth value : redacted (sanitize depth value) = true.
Proof.
  revert value. induction depth as [|d IH]; intros value; destruct value as [| | | |s| |l|fields]; try reflexivity;
    try (cbn [sanitize]; destruct (2000 <? String.length s)%nat; reflexivity);
    cbn [sanitize redacted]; apply forallb_forall; intros x Hx; apply in_map_iff in Hx as (y & <- & _);
    cbn [fst snd]; try reflexivity; try apply IH; destruct (sensitive y.1); try reflexivity. apply IH.
Qed.
End LogContext.
Import LogContext.

(** ** alertException.contract.js *)

Module AlertContract.

Record alert_spec := AlertSpec { a_type : string; a_severity : string; requiredAction : string; a_condition : string }.

Definition BASE_SPECS : list (string * (string * string * string)) :=
  [("AUTHENTICATION_FAILURE", ("NETWORK_AUTH_FAILURE", "CRITICAL", "PAUSE_ACCOUNT_SYNC"));
   ("RATE_LIMIT_EXHAUSTION", ("NETWORK_ORDER_SYNC_FAILURE", "HIGH", "THROTTLE_AND_PRESERVE_CHECKPOINT"));
   ("REQUIRED_MAPPING_MISSING", ("MAPPING_REQUIRED_FIELD_MISSING", "HIGH", "OPS_REVIEW"));
   ("UNKNOWN_SOURCE_STATUS", ("MAPPING_UNKNOWN_ENUM", "HIGH", "QUARANTINE_STATUS_UPDATE"));
   ("CAMPAIGN_BRAND_MAPPING_MISSING", ("NETWORK_CAMPAIGN_SYNC_FAILURE", "MEDIUM", "OPS_REVIEW"));
   ("ATTRIBUTION_AMBIGUOUS", ("ATTRIBUTION_UNRESOLVED", "MEDIUM", "OPS_REVIEW"));
   ("ATTRIBUTION_UNRESOLVED_ORPHAN", ("ATTRIBUTION_UNRESOLVED", "HIGH", "OPS_REVIEW"));
   ("DUPLICATE_PAYMENT_IMPORT", ("DUPLICATE_FINANCIAL_RECOGNITION", "HIGH", "BLOCK_DUPLICATE_POSTING"));
   ("NETWORK_PAYMENT_MISMATCH", ("FINANCIAL_RECONCILIATION_MISMATCH", "HIGH", "FINANCE_RECON_QUEUE"));
   ("CLIENT_PAYABLE_MISMATCH", ("FINANCIAL_RECONCILIATION_MISMATCH", "CRITICAL", "BLOCK_CLIENT_PAYABLE_RELEASE"))].

Definition base_spec (condition : string) : option alert_spec :=
  match assoc condition BASE_SPECS with
  | Some (ty, severity, action) => Some (AlertSpec ty severity action condition)
  | None => None
  end.

Section WithHost.
Context {H : JsHost}.

Definition pair_spec (reconciliationPair : string) : option alert_spec :=
  if existsb (String.eqb reconciliationPair) CLIENT_PAYABLE_BLOCKING_PAIRS
     && (reconciliationPair =s? MBO_RECEIPT_VS_CLIENT_PAYABLE)
  then base_spec "CLIENT_PAYABLE_MISMATCH"
  else base_spec "NETWORK_PAYMENT_MISMATCH".

Definition resolveAlertSpec (condition reconciliationPair : jsval) : option alert_spec :=
  match (if truthy condition then base_spec (js_string condition) else None) with
  | Some spec => Some spec
  | None => if truthy reconciliationPair then pair_spec (js_string reconciliationPair) else None
  end.

Definition applyAlertContract (input : jsval) : jsval :=
  match resolveAlertSpec (input@."condition" ?? input@."metadata"@."alertCondition" ?? JNull)
          (input@."reconciliationPair" ?? input@."metadata"@."reconciliationPair" ?? JNull) with
  | None => input
  | Some spec =>
      spread input (JObj
        [("type", input@."type" ?? JStr (a_type spec));
         ("severity", input@."severity" ?? JStr (a_severity spec));
         ("metadata", spread (as_object input@."metadata") (JObj
            [("alertCondition", JStr (a_condition spec)); ("requiredAction", JStr (requiredAction spec));
             ("contractPointer", JNum (num_of_Z 21))]))])
  end.

Definition mapMappingErrorToCondition (errorCode : jsval) : option string :=
  let code := to_upper (js_string (errorCode |or| JStr "")) in
  if (code =s? "MAPPING_REQUIRED_FIELD_MISSING") || (code =s? "MAPPING_UNMAPPED_CRITICAL_FIELD")
  then Some "REQUIRED_MAPPING_MISSING"
  else if code =s? "MAPPING_UNKNOWN_ENUM" then Some "UNKNOWN_SOURCE_STATUS"
  else None.

Definition isRateLimitExhaustion (error : jsval) (minAttempts : num) : bool :=
  let status := error@."response"@."status" in
  let attempts := js_number (error@."syncAttemptCount" |or| JNum n0) in
  (match status with JNum x => neqb x (num_of_Z 429) | _ => false end && nleb minAttempts attempts)
  || (truthy error@."rateLimitTelemetry" && nleb minAttempts attempts).

End WithHost.
End AlertContract.
Import AlertContract.

(** ** exceptionCase.service.js *)

Module ExceptionCases.
Section Service.
Context {H : JsHost} {D : Database}.

Definition ACTIVE_STATUSES : list string := ["OPEN"; "ACKNOWLEDGED"].
Definition RESOLVED_STATUSES : list string := ["RESOLVED"; "DISMISSED"].

(** [x || "-"] as [join] prints it *)
Definition key_part (v : jsval) : string := js_string (v |or| JStr "-").
Definition buildDedupeKey (i : jsval) : string :=
  join "|" [if nullish i@."type" then "" else js_string i@."type";
            key_part i@."supplier";
            key_part (i@."supplierOrderId" |or| i@."orderId");
            key_part (i@."supplierConversionId" |or| i@."conversionId")].

Definition is_active (status : jsval) : bool := in_enum ACTIVE_STATUSES status.
(** The most recently detected active case with this key. *)
Definition findOpenByDedupeKey (dedupeKey : string) : prog world (option jsval) :=
  gets (fun w => last (List.filter (fun r => (r@."dedupeKey" === dedupeKey) && is_active r@."status")
                        (rows w TException))).

(** [{...(m && typeof m === "object" ? m : {}), ...}] *)
Definition object_or_empty (m : jsval) : jsval := if is_object m then m else JObj [].

Record report_result := ReportResult { rr_record : jsval; rr_created : bool }.

Definition report (input : jsval) : prog world report_result :=
  let resolved := applyAlertContract input in
  let dedupeKey := if truthy resolved@."dedupeKey" then js_string resolved@."dedupeKey" else buildDedupeKey resolved in
  let reason := sanitizeSecretError resolved@."reason" ?? resolved@."reason" in
  let! existing := findOpenByDedupeKey dedupeKey in
  let! t := get_now in
  match existing with
  | Some e =>
      let! updated := update_row TException e@."id"
        [("reason", reason ?? e@."reason");
         ("severity", resolved@."severity" ?? e@."severity");
         ("metadata", sanitizeForLog (spread (spread (object_or_empty e@."metadata") (object_or_empty resolved@."metadata"))
            (JObj [("lastDetectedAt", JStr (to_iso_string t));
                   ("detectCount", JNum (nadd (js_number (e@."metadata"@."detectCount" |or| JNum (num_of_Z 1))) (num_of_Z 1)))])));
         ("orderId", resolved@."orderId" ?? e@."orderId");
         ("conversionId", resolved@."conversionId" ?? e@."conversionId");
         ("clientId", resolved@."clientId" ?? e@."clientId");
         ("entityId", resolved@."entityId" ?? e@."entityId")] in
      ret (ReportResult updated false)
  | None =>
      let! record := create_row TException
        [("type", resolved@."type");
         ("severity", resolved@."severity" ?? JStr "MEDIUM");
         ("status", JStr "OPEN");
         ("dedupeKey", JStr dedupeKey);
         ("orderId", resolved@."orderId" ?? JNull);
         ("conversionId", resolved@."conversionId" ?? JNull);
         ("supplier", resolved@."supplier" ?? JNull);
         ("clientId", resolved@."clientId" ?? JNull);
         ("entityId", resolved@."entityId" ?? JNull);
         ("reason", reason ?? JNull);
         ("metadata", sanitizeForLog (spread (object_or_empty resolved@."metadata")
            (JObj [("detectCount", JNum (num_of_Z 1))])));
         ("assignedTo", resolved@."assignedTo" ?? JNull)] in
      audit_record [("aggregateType", JStr "ExceptionCase"); ("aggregateId", record@."id");
                    ("action", JStr "exception.created");
                    ("after", JObj [("type", record@."type"); ("dedupeKey", JStr dedupeKey); ("status", record@."status")]);
                    ("reason", record@."reason")] ;;
      ret (ReportResult record true)
  end.

Definition not_found : js_error := api_fail "Exception case not found." 404.
Definition getById (id : jsval) : prog world jsval :=
  let! r := findUnique TException "id" id in
  match r with Some r => ret r | None => throw not_found end.

Definition case_audit (id : jsval) (action : string) (after actorId reason : jsval) : prog world unit :=
  audit_record [("aggregateType", JStr "ExceptionCase"); ("aggregateId", id); ("action", JStr action);
                ("actorId", actorId ?? JNull); ("after", after); ("reason", reason ?? JNull)].

Definition acknowledge (id actorId : jsval) : prog world jsval :=
  let! existing := getById id in
  let! t := get_now in
  let! record := update_row TException id
    [("status", JStr "ACKNOWLEDGED");
     ("metadata", spread (object_or_empty existing@."metadata")
        (JObj [("acknowledgedAt", JStr (to_iso_string t)); ("acknowledgedBy", actorId)]))] in
  case_audit id "exception.acknowledged" (JObj [("status", JStr "ACKNOWLEDGED")]) actorId JUndef ;; ret record.

Definition assign (id assignedTo actorId : jsval) : prog world jsval :=
  if negb (truthy assignedTo) then throw (api_fail "assignedTo is required." 400)
  else
    getById id ;;
    let! record := update_row TException id [("assignedTo", JStr (js_string assignedTo))] in
    case_audit id "exception.assigned" (JObj [("assignedTo", assignedTo)]) actorId JUndef ;; ret record.

Definition resolve (id reason status actorId : jsval) : prog world jsval :=
  let finalStatus := if status === "DISMISSED" then "DISMISSED" else "RESOLVED" in
  let! t := get_now in
  let! record := update_row TException id
    [("status", JStr finalStatus); ("resolvedAt", JDate (Some t)); ("reason", reason ?? JUndef)] in
  case_audit id "exception.resolved" (JObj [("status", JStr finalStatus)]) actorId reason ;; ret record.

Definition reopen (id reason actorId : jsval) : prog world jsval :=
  let! existing := getById id in
  if negb (in_enum RESOLVED_STATUSES existing@."status")
  then throw (api_fail "Only resolved or dismissed exceptions can be reopened." 409)
  else
    let! t := get_now in
    let! record := update_row TException id
      [("status", JStr "OPEN"); ("resolvedAt", JNull); ("reason", reason ?? existing@."reason");
       ("metadata", spread (object_or_empty existing@."metadata")
          (JObj [("reopenedAt", JStr (to_iso_string t)); ("reopenedBy", actorId)]))] in
    case_audit id "exception.reopened" (JObj [("status", JStr "OPEN")]) actorId reason ;; ret record.

(** [{ allowed, mode, note }] *)
Definition getRetryPolicy (type : string) : bool * string * string :=
  if existsb (String.eqb type)
       ["MAPPING_REQUIRED_FIELD_MISSING"; "MAPPING_INVALID_VALUE"; "MAPPING_UNKNOWN_ENUM";
        "MAPPING_UNMAPPED_CRITICAL_FIELD"; "MAPPING_CONFLICT"]
  then (true, "MAPPING_REPROCESS",
        "Full reprocess: preserved raw → mapping version → canonical upsert → reconcile → validated close")
  else if existsb (String.eqb type)
       ["DUPLICATE_FINANCIAL_RECOGNITION"; "CONFLICTING_FINANCIAL_TRANSACTION"; "FINANCIAL_RECONCILIATION_MISMATCH";
        "TAX_CONFIGURATION_MISSING"; "TAX_LEGAL_REVIEW_REQUIRED"; "TAX_CURRENCY_MISMATCH"; "TAX_CALCULATION_BLOCKED"]
  then (false, "NONE", "Finance retries must use adjustment/reversal services")
  else if type =s? "ATTRIBUTION_UNRESOLVED"
  then (false, "MANUAL", "Re-run attribution via conversion promotion job manually")
  else (false, "NONE", "No automatic retry for this type").

End Service.
End ExceptionCases.

Module ExceptionFacts.
Import ExceptionCases.
Section Facts.
Context {H : JsHost} {D : Database}.

(** ** What a case update and a case creation do to the table *)

(** The rows after an update: unchanged ones and ones with the written columns. *)
Lemma update_row_rows t id data w :
  let after := rows (update_row t id data w).2 t in
  after = rows w t \/
  after = map (fun x => if has_id id x then spread x (JObj (encode t data)) else x) (rows w t).
Proof.
  cbv zeta. unfold update_row. destruct (negb _); [now left|].
  destruct (List.find _ _); [|now left]. right. cbn [snd]. now rewrite rows_set_same.
Qed.

Lemma create_row_rows t data w :
  let after := rows (create_row t data w).2 t in
  after = rows w t \/
  exists id, after = rows w t ++ [JObj (("id", id) :: encode t data ++ [("createdAt", JDate (Some (now w)))])].
Proof.
  cbv zeta. unfold create_row. destruct (negb _); [now left|]. destruct (existsb _ _); [now left|].
  right. eexists. cbn [snd rows]. rewrite rows_set_same. reflexivity.
Qed.

(** Recording an exception writes cases and audit entries, nothing else. *)
Lemma report_within input : tracks (within [TException; TAudit]) (report input).
Proof.
  unfold report, findOpenByDedupeKey, get_now. track;
    (apply update_row_within || apply create_row_within || apply audit_record_within); compute_done.
Qed.

(** ** Redaction *)

Definition cases_redacted (w : world) : Prop :=
  Forall (fun r => redacted r@."metadata" = true) (rows w TException).

(** Recording an exception never stores a secret under a known sensitive key. *)
Theorem report_keeps_redacted input w :
  cases_redacted w -> cases_redacted (report input w).2.
Proof.
  intros Hw. unfold cases_redacted in *. unfold report, findOpenByDedupeKey, get_now, gets, bind.
  set (resolved := applyAlertContract input).
  destruct (last _) as [e|].
  - match goal with |- context [update_row TException ?id ?data w] =>
      set (run := update_row TException id data w); pose proof (update_row_rows TException id data w : _) as Hrows end.
    assert (Hrun : Forall (fun r => redacted r@."metadata" = true) (rows run.2 TException)).
    { destruct Hrows as [Hr|Hr]; unfold run; rewrite Hr; [exact Hw|].
      apply Forall_fmap, Forall_forall. intros r Hin. unfold compose. rewrite Forall_forall in Hw.
      destruct (has_id _ r); [|auto].
      erewrite (updated_column _ _ _ "metadata"); [|nodup_keys|reflexivity|discriminate].
      apply sanitize_redacted. }
    destruct run as [[u|err] w']; exact Hrun.
  - match goal with |- context [create_row TException ?data w] =>
      set (run := create_row TException data w); pose proof (create_row_rows TException data w : _) as Hrows end.
    assert (Hrun : Forall (fun r => redacted r@."metadata" = true) (rows run.2 TException)).
    { destruct Hrows as [Hr|[id Hr]]; unfold run; rewrite Hr; [exact Hw|].
      apply Forall_app; split; [exact Hw|]. constructor; [|constructor].
      erewrite (created_column _ _ _ _ "metadata"); [|nodup_keys|reflexivity|discriminate|discriminate].
      apply sanitize_redacted. }
    destruct run as [[u|err] w']; [|exact Hrun]. unfold audit_record, modify, ret. cbv beta iota. cbn [snd] in *.
    rewrite rows_set_other by discriminate. exact Hrun.
Qed.

(** ** Deduplication *)

Definition active_pair (r r' : jsval) : Prop :=
  is_active r@."status" = true /\ is_active r'@."status" = true /\ r@."dedupeKey" = r'@."dedupeKey".
(** At most one open or acknowledged case per dedupe key. *)
Definition one_active (w : world) : Prop :=
  ForallOrdPairs (fun r r' => ~ active_pair r r') (rows w TException).

Lemma last_filter_none (p : jsval -> bool) l x : last (List.filter p l) = None -> x ∈ l -> p x = false.
Proof.
  intros Hl Hx. apply last_None in Hl. apply not_true_iff_false. intros Hp.
  assert (Hin : x ∈ List.filter p l) by (apply elem_of_filter_bool; auto). rewrite Hl in Hin.
  now apply not_elem_of_nil in Hin.
Qed.

(** Reporting reuses the active case of a key instead of opening a second one. *)
Theorem report_keeps_one_active input w : one_active w -> one_active (report input w).2.
Proof.
  intros Hw. unfold one_active in *. unfold report, findOpenByDedupeKey, get_now, gets, bind.
  set (resolved := applyAlertContract input). set (key := if truthy _ then _ else _).
  destruct (last _) as [e|] eqn:Elast.
  - match goal with |- context [update_row TException ?id ?data w] =>
      set (run := update_row TException id data w); pose proof (update_row_rows TException id data w : _) as Hrows;
      pose proof (fun r => spread_rewrites TException r data) as Hrw end.
    assert (Hrun : ForallOrdPairs (fun r r' => ~ active_pair r r') (rows run.2 TException)).
    { destruct Hrows as [Hr|Hr]; unfold run; rewrite Hr; [exact Hw|].
      apply ForallOrdPairs_map; [|exact Hw]. intros r r' Hnot. unfold active_pair in *.
      assert (Hsame : forall x k, k ∈ ["status"; "dedupeKey"] ->
        prop (if has_id e@."id" x then spread x (JObj (encode TException _)) else x) k = prop x k)
        by (intros x k Hk; destruct (has_id e@."id" x); [apply Hrw; cbn [map fst]; clear -Hk; set_solver|reflexivity]).
      rewrite !Hsame by set_solver. exact Hnot. }
    destruct run as [[u|err] w']; exact Hrun.
  - match goal with |- context [create_row TException ?data w] =>
      set (run := create_row TException data w); pose proof (create_row_rows TException data w : _) as Hrows end.
    assert (Hrun : ForallOrdPairs (fun r r' => ~ active_pair r r') (rows run.2 TException)).
    { destruct Hrows as [Hr|[id Hr]]; unfold run; rewrite Hr; [exact Hw|].
      apply ForallOrdPairs_snoc; [exact Hw|]. apply Forall_forall. intros r Hin (Ha & _ & Hk).
      erewrite (created_column _ _ _ _ "dedupeKey") in Hk; [|nodup_keys|reflexivity|discriminate|discriminate].
      cbn [encode_field snd fst] in Hk. change (existsb (String.eqb "dedupeKey") (decimal_columns TException)) with false in Hk.
      cbn [andb] in Hk. pose proof (last_filter_none _ _ r Elast Hin) as Hf. cbv beta in Hf.
      rewrite Hk, Ha, andb_true_r in Hf. cbn [is_str] in Hf. now rewrite String.eqb_refl in Hf. }
    destruct run as [[u|err] w']; [|exact Hrun]. unfold audit_record, modify, ret. cbv beta iota. cbn [snd] in *.
    rewrite rows_set_other by discriminate. exact Hrun.
Qed.

(** A closed case next to a newer open one with the same key. *)
Definition reopened_world : world :=
  World (fun t => match t with
    | TException =>
        [JObj [("id", JStr "a"); ("dedupeKey", JStr "k"); ("status", JStr "RESOLVED"); ("reason", JNull)];
         JObj [("id", JStr "b"); ("dedupeKey", JStr "k"); ("status", JStr "OPEN"); ("reason", JNull)]]
    | _ => []
    end) 0 0.

(** Reopening does not look for an active case of the same key: it can leave two. *)
Theorem reopen_can_duplicate :
  one_active reopened_world /\ ~ one_active (reopen (JStr "a") JNull JNull reopened_world).2.
Proof.
  split.
  - unfold one_active. cbn. repeat constructor. intros (Ha & _). discriminate Ha.
  - unfold one_active. cbn. intros Hp. inversion Hp as [|? ? Hall _]. subst.
    inversion Hall as [|? ? Hnot _]. subst. apply Hnot. repeat split.
Qed.

(** Acknowledging a closed case succeeds and makes it active again: the guard on the
    current status never returns early. *)
Theorem acknowledge_reactivates id actorId w e :
  List.find (has_id id) (rows w TException) = Some e -> in_enum RESOLVED_STATUSES e@."status" = true ->
  exists r w', acknowledge id actorId w = (Ok r, w') /\ r ∈ rows w' TException /\
    r@."status" = JStr "ACKNOWLEDGED" /\ is_active e@."status" = false /\ is_active r@."status" = true.
Proof.
  intros Hf Hs. unfold acknowledge, getById, findUnique, find_where, get_now. unfold bind at 1. rewrite bind_gets. cbv beta.
  change (List.find (fun r => col_eq r@."id" id) (rows w TException)) with (List.find (has_id id) (rows w TException)).
  rewrite Hf. cbn [ret]. rewrite bind_gets. unfold bind at 1. unfold update_row. cbn [forallb].
  change (negb _) with false. cbv iota. rewrite Hf. set (data := [_; _]). eexists _, _. split; [reflexivity|].
  assert (Est : (spread e (JObj (encode TException data)))@."status" = JStr "ACKNOWLEDGED")
    by (erewrite updated_column; [|nodup_keys|reflexivity|discriminate]; reflexivity).
  split; [|split; [exact Est|split; [|now rewrite Est]]].
  - cbn [snd]. rewrite rows_set_other, rows_set_same by discriminate. apply List.find_some in Hf as [Hin Hid].
    apply list_elem_of_fmap. exists e. split; [now rewrite Hid|now apply list_elem_of_In].
  - revert Hs. unfold in_enum, is_active. destruct (prop e "status"); try discriminate. cbn [existsb RESOLVED_STATUSES].
    unfold in_enum, ACTIVE_STATUSES. intros Hs. repeat (apply orb_true_iff in Hs as [->%String.eqb_eq|Hs]; [reflexivity|]). discriminate.
Qed.
End Facts.
End ExceptionFacts.
