(* ===== verification/Separation.v ===== *)
(** * Finance separation, order reconciliation and FX

    [modules/finance/financeSeparation.contract.js]: what counts as MBO's own bank receipt
    and when a client payable may be released.  [modules/finance/reconciliation.service.js]:
    the reconciliation inputs of an order and the reported mismatches.
    [modules/finance/fx.service.js]: reporting currency and conversion.
    [modules/finance/commissionCalculation.service.js]: the net position of a ledger. *)

From Stdlib Require Import SpecFloat.
From S2P Require Import Prelude JsNum JsOrder JsVal JsDate Money RuleEngine Recon Store Exceptions.
Import ReconciliationLogic AlertContract ExceptionCases.
Local Open Scope Z_scope.

(** ** financeSeparation.contract.js *)

Module FinanceSeparation.

Definition NETWORK_PAYMENT_EVIDENCE : list string :=
  ["PAID"; "AVAILABLE"; "PAYMENT_SENT"; "PAYMENT SENT"; "WITHDRAWN"; "INVOICED"; "PAYABLE"; "SETTLED"; "RECEIVED"].
Definition BANK_RECEIPT_META_KEYS : list string :=
  ["mboReceivedDateTime"; "mbo_received_date_time"; "bankReceivedAt"; "bank_received_at"].
Definition BANK_RECEIPT_SOURCE_KEYS : list string :=
  ["mboReceiptSource"; "bankReference"; "reconciliationId"; "reconciliationReference"].
Definition amount_keys : list string :=
  ["mboReceivedAmount"; "mbo_received_amount"; "bankReceivedAmount"; "bank_received_amount"; "reconciliationAmount"].

Record receipt := Receipt {
  dateTime : string;
  r_date : string;
  r_time : option string;
  amount : jsval;
  r_currency : jsval;
  r_source : jsval;
  bankReference : jsval;
  financialTransactionId : jsval
}.

Section WithHost.
Context {H : JsHost}.

Definition normalizeLookup (value : jsval) : option string :=
  if blank value then None else Some (squeeze is_space false (to_upper (trim (js_string value)))).
Definition isNetworkPaymentEvidenceOnly (raw : jsval) : bool :=
  match normalizeLookup raw with
  | Some key => negb (key =s? "")
                && existsb (fun token => match normalizeLookup (JStr token) with
                                         | Some t => key =s? t | None => false end) NETWORK_PAYMENT_EVIDENCE
  | None => false
  end.
Definition upper_of (v : jsval) : string := to_upper (js_string (v |or| JStr "")).
Definition shouldNotInferMboReceiptFromNetworkPayment (networkPaymentStatus supplierPaymentStatus : jsval) : bool :=
  isNetworkPaymentEvidenceOnly networkPaymentStatus || (upper_of supplierPaymentStatus =s? "PAYMENT_RECEIVED").

Fixpoint firstPresent (values : list jsval) : jsval :=
  match values with
  | [] => JNull
  | v :: rest => if blank v then firstPresent rest else v
  end.

Definition hasBankReceiptProvenance (meta : jsval) : bool :=
  let bag := as_object meta in
  let calc := as_object bag@."calculationMetadata" in
  (upper_of bag@."mboReceiptSource" =s? "BANK_RECONCILIATION")
  || includes (upper_of bag@."evidenceSource") "BANK"
  || existsb (fun key => truthy (prop bag key) || truthy (prop calc key)) BANK_RECEIPT_SOURCE_KEYS.

Definition parseReceiptDateTime (value : jsval) : option string :=
  if blank value then None
  else match new_date value with Some t => Some (to_iso_string t) | None => None end.

Definition make_receipt (iso : string) (amount cur source reference ftId : jsval) : receipt :=
  Receipt iso (slice 0 10 iso) (if includes iso "T" then Some (slice 11 16 iso) else None)
    amount cur source reference ftId.

(** The receipt evidenced by the order's own metadata. *)
Fixpoint order_receipt (order meta : jsval) (keys : list string) : option receipt :=
  match keys with
  | [] => None
  | key :: rest =>
      match parseReceiptDateTime (prop meta key) with
      | Some iso =>
          if negb (iso =s? "") && hasBankReceiptProvenance meta
          then Some (make_receipt iso (firstPresent (map (prop meta) amount_keys))
                       (meta@."mboReceivedCurrency" ?? order@."currency" ?? JNull)
                       (meta@."mboReceiptSource" |or| JStr "BANK_RECONCILIATION")
                       (meta@."bankReference" ?? meta@."reconciliationReference" ?? JNull) JUndef)
          else order_receipt order meta rest
      | None => order_receipt order meta rest
      end
  end.

(** The receipt evidenced by one financial transaction. *)
Fixpoint ft_receipt (order ft meta calc : jsval) (keys : list string) : option receipt :=
  match keys with
  | [] => None
  | key :: rest =>
      match parseReceiptDateTime (prop meta key ?? prop calc key) with
      | Some iso =>
          if negb (iso =s? "") && hasBankReceiptProvenance (spread meta calc)
          then Some (make_receipt iso (firstPresent (map (prop meta) amount_keys ++ map (prop calc) amount_keys))
                       (ft@."originalCurrency" ?? order@."currency" ?? JNull)
                       (meta@."mboReceiptSource" |or| calc@."mboReceiptSource" |or| JStr "FINANCIAL_TRANSACTION")
                       (meta@."bankReference" ?? calc@."bankReference" ?? calc@."reconciliationId" ?? JNull)
                       (ft@."id" ?? JNull))
          else ft_receipt order ft meta calc rest
      | None => ft_receipt order ft meta calc rest
      end
  end.
Fixpoint first_ft_receipt (order : jsval) (fts : list jsval) : option receipt :=
  match fts with
  | [] => None
  | ft :: rest =>
      match ft_receipt order ft (as_object ft@."metadata") (as_object ft@."calculationMetadata") BANK_RECEIPT_META_KEYS with
      | Some r => Some r
      | None => first_ft_receipt order rest
      end
  end.

Definition extractMboActualReceipt (order : jsval) (financialTransactions : list jsval) : option receipt :=
  match order_receipt order (as_object order@."metadata") BANK_RECEIPT_META_KEYS with
  | Some r => Some r
  | None => first_ft_receipt order financialTransactions
  end.
Definition hasMboActualReceipt (order : jsval) (fts : list jsval) : bool :=
  match extractMboActualReceipt order fts with Some _ => true | None => false end.

(** [{ eligible, reason }]; [None] is eligible. *)
Definition resolveClientPayableEligibility (order : jsval) (fts : list jsval) (reconciliationChecks : option (list check))
  : option string :=
  if negb (upper_of order@."validationStatus" =s? "VALIDATION_APPROVED") then Some "Order not confirmed"
  else if negb (hasMboActualReceipt order fts)
  then Some "MBO actual receipt required before client payable eligibility"
  else
    match reconciliationChecks with
    | None | Some [] => Some "Reconciliation required before client payable eligibility"
    | Some cs =>
        if shouldBlockClientPayableRelease cs then
          Some match List.find (fun c => negb (ok c) && negb (skipped c) && material c) cs with
               | Some c => match mismatchReason c with
                           | Some why => "Reconciliation mismatch blocks client payable: " +:+ why
                           | None => "Reconciliation mismatch blocks client payable release"
                           end
               | None => "Reconciliation mismatch blocks client payable release"
               end
        else None
    end.

Definition resolveFinanceEventStage (order : jsval) (fts : list jsval) (cs : option (list check)) : list string :=
  let meta := as_object order@."metadata" in
  let evidence := meta@."networkPaymentEvidence" ?? meta@."networkPaymentStatus" ?? JNull in
  let supplierPayment := upper_of order@."supplierPaymentStatus" in
  let clientPayment := upper_of order@."clientPaymentStatus" in
  (if upper_of order@."validationStatus" =s? "VALIDATION_APPROVED" then ["CONFIRMED_ORDER"] else []) ++
  (if (supplierPayment =s? "PAYMENT_INVOICED") || (supplierPayment =s? "PAYMENT_PAYABLE") then ["NETWORK_INVOICE"] else []) ++
  (if truthy evidence || (supplierPayment =s? "PAYMENT_RECEIVED") then ["NETWORK_PAYMENT"] else []) ++
  (if hasMboActualReceipt order fts then ["MBO_ACTUAL_RECEIPT"] else []) ++
  (match resolveClientPayableEligibility order fts cs with None => ["CLIENT_PAYABLE_ELIGIBILITY"] | Some _ => [] end) ++
  (if (clientPayment =s? "CLIENT_PAYMENT_PAID") || (clientPayment =s? "CLIENT_PAYMENT_PROCESSING")
      || (clientPayment =s? "CLIENT_PAYMENT_INVOICED") then ["CLIENT_PAYMENT"] else []).

Definition buildNetworkPaymentEvidenceMetadata (existing raw : jsval) : jsval :=
  let base := as_object existing in
  if blank raw then base
  else spread base (JObj [("networkPaymentEvidence", JStr (js_string raw)); ("networkPaymentStatus", JStr (js_string raw))]).

Definition formatMboReceivedDateTime (r : option receipt) : option string :=
  match r with
  | None => None
  | Some r =>
      if dateTime r =s? "" then None
      else
        let date := if r_date r =s? "" then slice 0 10 (dateTime r) else r_date r in
        Some match r_time r with
             | Some t => if t =s? "" then date else date +:+ " " +:+ t
             | None => date
             end
  end.

End WithHost.
End FinanceSeparation.
Import FinanceSeparation.

(** ** commissionCalculation.service.js and reconciliation.service.js *)

Module Reconciliation.

Record net_position := NetPosition {
  n_supplier : string; n_client : string; n_margin : string; reconciles : bool
}.

Section Service.
Context {H : JsHost}.

Definition calculateCommission (a : commercial_args) : outcome commercial_result := calculateCommercial a.

(** [Number(row.field || 0)] *)
Definition amount_or_zero (row : jsval) (field : string) : num := js_number (prop row field |or| JNum n0).
Definition sum_rows (rows : list jsval) (field : string) : num :=
  fold_left (fun acc row => nadd acc (amount_or_zero row field)) rows n0.
Definition netFinancialPosition (rows : list jsval) : net_position :=
  let supplier := sum_rows rows "supplierReceivable" in
  let client := sum_rows rows "clientPayable" in
  let margin := sum_rows rows "mboMargin" in
  NetPosition (num_toFixed 4 supplier) (num_toFixed 4 client) (num_toFixed 4 margin)
    (nleb (nabs (nsub (nsub supplier client) margin)) margin_tolerance).

Fixpoint net_amount (rows : list jsval) (field : string) (total : num) (hasEvidence : bool) : option num :=
  match rows with
  | [] => if hasEvidence then Some total else None
  | row :: rest =>
      if blank (prop row field) then net_amount rest field total hasEvidence
      else
        let value := js_number (prop row field) in
        if negb (is_finite value) then None else net_amount rest field (nadd total value) true
  end.
Definition netFinancialAmount (rows : list jsval) (field : string) : option num := net_amount rows field n0 false.

Fixpoint sourceAmount (candidates : list jsval) : option num :=
  match candidates with
  | [] => None
  | c :: rest =>
      if blank c then sourceAmount rest
      else let value := js_number c in if is_finite value then Some value else sourceAmount rest
  end.

Definition one_if (v : jsval) : jsval := if truthy v then JNum (num_of_Z 1) else JNull.

Definition buildOrderReconciliationInputs (order : jsval) (fts : list jsval) : recon_inputs :=
  let meta := as_object order@."metadata" in
  let receiptAmount := sourceAmount [match extractMboActualReceipt order fts with Some r => amount r | None => JUndef end] in
  ReconInputs (one_if order@."supplierOrderId") (one_if order@."id")
    (of_option_num (sourceAmount [meta@."networkCommission"; meta@."networkReportedCommission"; meta@."reportedCommission"]))
    (of_option_num (netFinancialAmount fts "supplierReceivable"))
    (of_option_num (sourceAmount [meta@."networkInvoiceAmount"; meta@."networkInvoicedAmount"]))
    (of_option_num (sourceAmount [meta@."networkPaymentAmount"; meta@."networkPaidAmount"; meta@."paidCommission"]))
    (of_option_num receiptAmount)
    (of_option_num (netFinancialAmount fts "clientPayable"))
    DEFAULT_MATERIALITY_THRESHOLD.

Definition runOrderReconciliationChecks (order : jsval) (fts : list jsval) : recon_result :=
  runReconciliationChecks (buildOrderReconciliationInputs order fts).

Record row_check := RowCheck {
  rc_ok : bool; rc_supplier : string; rc_client : string; rc_margin : string; rc_difference : string
}.
Definition reconcileTransaction (ft : jsval) : row_check :=
  let supplier := js_number ft@."supplierReceivable" in
  let client := js_number ft@."clientPayable" in
  let margin := js_number ft@."mboMargin" in
  RowCheck (nleb (nabs (nsub (nsub supplier client) margin)) margin_tolerance)
    (num_toFixed 4 supplier) (num_toFixed 4 client) (num_toFixed 4 margin)
    (num_toFixed 6 (nsub (nsub supplier client) margin)).

(** The objects [net] and [perRow] hold. *)
Definition net_object (n : net_position) : jsval :=
  JObj [("supplierReceivable", JStr (n_supplier n)); ("clientPayable", JStr (n_client n)); ("mboMargin", JStr (n_margin n));
        ("reconciles", JBool (reconciles n))].
Definition row_check_object (ft : jsval) : jsval :=
  let c := reconcileTransaction ft in
  JObj [("id", ft@."id"); ("ok", JBool (rc_ok c)); ("supplierReceivable", JStr (rc_supplier c));
        ("clientPayable", JStr (rc_client c)); ("mboMargin", JStr (rc_margin c)); ("difference", JStr (rc_difference c))].

Context {D : Database}.

(** Whether the conversion's ledger reconciles; a mismatch is reported. *)
Definition reconcileConversion (conversionId : jsval) : prog world (bool * net_position * list jsval) :=
  let! fts := findMany TFinancial "conversionId" conversionId in
  let net := netFinancialPosition fts in
  let allOk := reconciles net && forallb (fun r => rc_ok (reconcileTransaction r)) fts in
  (if allOk then ret tt
   else let! _ := report (JObj
          [("type", JStr "FINANCIAL_RECONCILIATION_MISMATCH"); ("severity", JStr "HIGH");
           ("conversionId", conversionId); ("clientId", (nth 0 fts JUndef)@."clientId" ?? JNull);
           ("reason", JStr "Supplier receivable - client payable != MBO margin");
           ("metadata", JObj [("net", net_object net); ("perRow", JArr (map row_check_object fts))])]) in ret tt) ;;
  ret (allOk, net, map row_check_object fts).

(** One exception per open check, keyed by the grain and the pair. *)
Definition reportReconciliationMismatches (cs : list check) (grainKey : string)
    (supplier orderId clientId billingMonth billingYear metadata : jsval) : prog world unit :=
  for_each (List.filter (fun c => negb (ok c) && negb (skipped c)) cs) (fun c =>
    let spec := resolveAlertSpec JUndef (JStr (pair_name c)) in
    let! _ := report (JObj
      [("condition", match spec with Some s => JStr (a_condition s) | None => JNull end);
       ("reconciliationPair", JStr (pair_name c));
       ("type", match spec with Some s => JStr (a_type s) | None => JStr "FINANCIAL_RECONCILIATION_MISMATCH" end);
       ("severity", match spec with Some s => JStr (a_severity s)
                    | None => JStr (if material c then "HIGH" else "MEDIUM") end);
       ("supplier", supplier); ("orderId", orderId); ("clientId", clientId); ("entityId", JStr grainKey);
       ("dedupeKey", JStr ("recon:" +:+ grainKey +:+ ":" +:+ pair_name c));
       ("reason", JStr (label c +:+ ": " +:+ default "mismatch" (mismatchReason c)));
       ("metadata", spread metadata (JObj
          [("grainKey", JStr grainKey); ("pair", JStr (pair_name c)); ("reconciliationPair", JStr (pair_name c));
           ("billingMonth", billingMonth); ("billingYear", billingYear); ("check", check_object c)]))]) in
    ret tt).

(** [{ ...result, checks, blockClientPayable }] *)
Record reconciliation := ReconciliationOf { r_result : recon_result; r_checks : list jsval; blockClientPayable : bool }.
Definition reconciled_result (result : recon_result) : reconciliation :=
  ReconciliationOf result (summarizeChecksForUi (checks result)) (shouldBlockClientPayableRelease (checks result)).

(** The columns [select]ed of an order's transactions. *)
Definition selected (ft : jsval) : jsval :=
  JObj (map (fun k => (k, prop ft k))
    ["id"; "supplierReceivable"; "clientPayable"; "transactionType"; "originalCurrency"; "metadata"; "calculationMetadata"]).

(** [None] when the order does not exist. *)
Definition reconcileOrder (orderId : jsval) : prog world (option reconciliation) :=
  let! order := findUnique TOrder "id" orderId in
  match order with
  | None => ret None
  | Some o =>
      let! fts := findMany TFinancial "orderId" o@."id" in
      let result := runOrderReconciliationChecks o (map selected fts) in
      reportReconciliationMismatches (checks result) ("order:" +:+ js_string o@."id") o@."supplier" o@."id" o@."clientId"
        JNull JNull (JObj [("scope", JStr "order")]) ;;
      ret (Some (reconciled_result result))
  end.

(** The inputs of a grain as the object the caller passes. *)
Definition inputs_object (i : recon_inputs) : jsval :=
  JObj [("networkOrderCount", networkOrderCount i); ("mboOrderCount", mboOrderCount i);
        ("networkCommission", networkCommission i); ("mboGrossNetworkCommission", mboGrossNetworkCommission i);
        ("networkInvoiceAmount", networkInvoiceAmount i); ("networkPaymentAmount", networkPaymentAmount i);
        ("mboActualReceiptAmount", mboActualReceiptAmount i); ("clientPayableAmount", clientPayableAmount i);
        ("materialityThreshold", JNum (materialityThreshold i))].

Definition reconcileNetworkGrain (grainKey : string) (supplier billingMonth billingYear : jsval) (inputs : recon_inputs)
  : prog world reconciliation :=
  let result := runReconciliationChecks inputs in
  reportReconciliationMismatches (checks result) grainKey supplier JNull JNull billingMonth billingYear
    (JObj [("scope", JStr "network_grain"); ("inputs", inputs_object inputs)]) ;;
  ret (reconciled_result result).

End Service.
End Reconciliation.

Module SeparationFacts.
Import Reconciliation.
Section Facts.
Context {H : JsHost}.

(** ** Bank receipt evidence *)

(** The metadata properties an order's receipt is read from. *)
Definition receipt_props : list string :=
  amount_keys ++ BANK_RECEIPT_SOURCE_KEYS ++
  ["mboReceivedCurrency"; "calculationMetadata"; "evidenceSource"].

Lemma order_receipt_same order order' meta meta' keys :
  Forall (fun k => prop meta' k = prop meta k) (keys ++ receipt_props) ->
  order'@."currency" = order@."currency" -> as_object meta = meta -> as_object meta' = meta' ->
  order_receipt order' meta' keys = order_receipt order meta keys.
Proof.
  intros Hs Hcur Ho Ho'. apply Forall_app in Hs as [Hkeys Hprops].
  assert (Ha : map (prop meta') amount_keys = map (prop meta) amount_keys).
  { unfold receipt_props in Hprops. apply Forall_app in Hprops as [Hamt _].
    apply map_ext_Forall. exact Hamt. }
  unfold receipt_props in Hprops. rewrite !Forall_app in Hprops. destruct Hprops as (_ & Hsrc & Hrest).
  unfold BANK_RECEIPT_SOURCE_KEYS in Hsrc. rewrite !Forall_cons in Hsrc. rewrite !Forall_cons in Hrest.
  destruct Hsrc as (E1 & E2 & E3 & E4 & _). destruct Hrest as (E5 & E6 & E7 & _).
  assert (Hp : hasBankReceiptProvenance meta' = hasBankReceiptProvenance meta).
  { unfold hasBankReceiptProvenance, BANK_RECEIPT_SOURCE_KEYS. rewrite Ho, Ho'. cbn [existsb].
    now rewrite E1, E2, E3, E4, E6, E7. }
  induction keys as [|key keys IH]; [reflexivity|]. apply Forall_cons in Hkeys as [Hkey Hkeys].
  cbn [order_receipt]. rewrite (IH Hkeys), Hp, Ha, Hkey, E1, E2, E4, E5, Hcur. reflexivity.
Qed.

(** Of the order, a transaction's receipt only reads the currency. *)
Lemma ft_receipt_same order order' ft meta calc keys :
  order'@."currency" = order@."currency" -> ft_receipt order' ft meta calc keys = ft_receipt order ft meta calc keys.
Proof. intros Hc. induction keys as [|key keys IH]; cbn [ft_receipt]; [reflexivity|]. now rewrite IH, Hc. Qed.
Lemma first_ft_receipt_same order order' fts :
  order'@."currency" = order@."currency" -> first_ft_receipt order' fts = first_ft_receipt order fts.
Proof.
  intros Hc. induction fts as [|ft fts IH]; cbn [first_ft_receipt]; [reflexivity|].
  now rewrite IH, (ft_receipt_same order order').
Qed.

Lemma as_object_idem v : as_object (as_object v) = as_object v.
Proof. destruct v; reflexivity. Qed.

(** Recording a network payment token on an order ([PAID], [RECEIVED], ...) never creates,
    removes or changes MBO's own bank receipt. *)
Theorem network_evidence_is_not_receipt order raw fts :
  let meta := buildNetworkPaymentEvidenceMetadata order@."metadata" raw in
  extractMboActualReceipt (with_prop order "metadata" meta) fts = extractMboActualReceipt order fts.
Proof.
  cbv zeta. unfold extractMboActualReceipt. rewrite prop_with_prop_eq.
  set (meta := buildNetworkPaymentEvidenceMetadata order@."metadata" raw).
  assert (Hcur : (with_prop order "metadata" meta)@."currency" = order@."currency") by (now apply prop_with_prop_ne).
  rewrite (first_ft_receipt_same order _ fts Hcur).
  assert (Hmeta : as_object meta = meta)
    by (unfold meta, buildNetworkPaymentEvidenceMetadata; destruct (blank raw); [apply as_object_idem|reflexivity]).
  assert (Hsame : forall k, k ∉ ["networkPaymentEvidence"; "networkPaymentStatus"] ->
                            prop meta k = prop (as_object order@."metadata") k).
  { intros k Hk. unfold meta, buildNetworkPaymentEvidenceMetadata. destruct (blank raw); [reflexivity|].
    rewrite prop_spread by nodup_keys. cbn [obj_fields assoc]. rewrite !elem_of_cons in Hk.
    destruct (String.eqb_spec "networkPaymentEvidence" k); [subst; tauto|].
    destruct (String.eqb_spec "networkPaymentStatus" k); [subst; tauto|]. reflexivity. }
  rewrite Hmeta. rewrite (order_receipt_same order _ (as_object order@."metadata") meta); auto using as_object_idem.
  repeat constructor; apply Hsame; compute_done.
Qed.

Lemma order_receipt_evidence order meta keys r :
  order_receipt order meta keys = Some r ->
  hasBankReceiptProvenance meta = true /\
  exists key, key ∈ keys /\ parseReceiptDateTime (prop meta key) = Some (dateTime r).
Proof.
  induction keys as [|key keys IH]; cbn [order_receipt]; [discriminate|]. intros Hr.
  assert (Hrec : order_receipt order meta keys = Some r ->
    hasBankReceiptProvenance meta = true /\ exists key', key' ∈ key :: keys /\ parseReceiptDateTime (prop meta key') = Some (dateTime r))
    by (intros (Hp & k & Hk & E)%IH; split; [exact Hp|]; exists k; split; [now right|exact E]).
  destruct (parseReceiptDateTime (prop meta key)) as [iso|] eqn:Ep; [|auto].
  destruct (negb (iso =s? "")); cbn [andb] in Hr; [|auto].
  destruct (hasBankReceiptProvenance meta) eqn:Eh; [|auto]. injection Hr as <-.
  split; [reflexivity|]. exists key. split; [left|exact Ep].
Qed.

(** ** Release of a client payable *)

(** A client payable is eligible exactly when the order is confirmed, MBO has its own
    receipt, reconciliation ran, and none of the three blocking pairs is open. *)
Lemma eligibility_conditions order fts cs :
  resolveClientPayableEligibility order fts (Some cs) = None <->
  upper_of order@."validationStatus" = "VALIDATION_APPROVED" /\
  extractMboActualReceipt order fts <> None /\ cs <> [] /\ shouldBlockClientPayableRelease cs = false.
Proof.
  unfold resolveClientPayableEligibility, hasMboActualReceipt.
  destruct (String.eqb_spec (upper_of order@."validationStatus") "VALIDATION_APPROVED"); cbn [negb];
    [|split; [discriminate|intros (? & _); contradiction]].
  destruct (extractMboActualReceipt order fts); cbn [negb]; [|split; [discriminate|intros (_ & ? & _); contradiction]].
  destruct cs as [|c cs]; [split; [discriminate|intros (_ & _ & ? & _); contradiction]|].
  destruct (shouldBlockClientPayableRelease (c :: cs)); split; try discriminate; [intros (_ & _ & _ & ?); discriminate| |reflexivity].
  intros _. split_and!; (assumption || discriminate || reflexivity).
Qed.

Lemma toNumber_of_option_num x : is_finite x = true -> toNumber (of_option_num (Some x)) = Some x.
Proof. intros Hf. unfold toNumber, finite_number. cbn. now rewrite Hf. Qed.

(** The fifth check compares the receipt with the client payable itself: an order on
    which they differ by more than the threshold is not released, also when the
    difference is exactly MBO's margin. *)
Theorem margin_blocks_release order fts r c :
  sourceAmount [match extractMboActualReceipt order fts with Some r => amount r | None => JUndef end] = Some r ->
  netFinancialAmount fts "clientPayable" = Some c ->
  is_finite r = true -> is_finite c = true ->
  nleb (nabs (nsub r c)) DEFAULT_MATERIALITY_THRESHOLD = false ->
  shouldBlockClientPayableRelease (checks (runOrderReconciliationChecks order fts)) = true.
Proof.
  intros Hr Hc Hfr Hfc Hdiff. apply not_false_iff_true. intros Hopen.
  apply ReconFacts.release_agreements in Hopen as (_ & _ & (x & y & Hx & Hy & Hle)).
  unfold buildOrderReconciliationInputs in *. cbn [mboActualReceiptAmount clientPayableAmount materialityThreshold] in *.
  rewrite Hr, (toNumber_of_option_num _ Hfr) in Hx. rewrite Hc, (toNumber_of_option_num _ Hfc) in Hy.
  injection Hx as <-. injection Hy as <-. congruence.
Qed.
End Facts.
End SeparationFacts.
