(* ===== verification/Settlement.v ===== *)
(** * Statements, tax and invoices

    [modules/finance/statement.service.js], [taxLedger.service.js] and [invoice.service.js]: what a
    client is owed in a period, the tax of its contract, the invoice and its payments.  A
    column of type [@db.Date] keeps the day of an instant. *)

From Stdlib Require Import SpecFloat.
From stdpp Require Import relations.
From S2P Require Import Prelude JsNum JsVal JsDate Store Exceptions.
Import ExceptionCases.
Local Open Scope Z_scope.

Section Rows.
Context {D : Database}.

(** [db.t.findFirst({ where: { id, clientId } })] *)
Definition find_owned (t : table) (id clientId : jsval) : prog world (option jsval) :=
  find_where t (fun r => col_eq r@."id" id && col_eq r@."clientId" clientId).
(** A [@db.Date] column. *)
Definition date_column (t : Z) : jsval := JDate (Some (t / ms_per_day * ms_per_day)).
Definition instant (v : jsval) : Z := match v with JDate (Some t) => t | _ => 0 end.
(** [new Date(v)] as a query or a column takes it: an invalid date is refused. *)
Definition given_date {H : JsHost} (v : jsval) : prog world Z :=
  match new_date v with Some t => ret t | None => throw (plain_error "Invalid value for a date: Provided Date object is invalid.") end.
End Rows.

(** [amounts.reduce((s, x) => s + Number(x), 0)] *)
Definition sum_numbers (amounts : list num) : num := fold_left nadd amounts n0.

(** ** [statement.service.js] *)

Module Statements.
Section Service.
Context {H : JsHost} {D : Database}.

Definition getStatementForClient (statementId clientId : jsval) : prog world jsval :=
  let! found := find_owned TStatement statementId clientId in
  match found with
  | None => throw (api_fail "Statement not found." 404)
  | Some row =>
      let! lines := findMany TStatementLine "statementId" row@."id" in
      let! invoices := findMany TInvoice "statementId" row@."id" in
      ret (with_relation (with_relation row "lines" (JArr lines)) "invoices" (JArr invoices))
  end.

(** The transactions of a statement: of the client, in the currency, in the period. *)
Definition in_statement (clientId : jsval) (cur : string) (from to : Z) (ft : jsval) : bool :=
  col_eq ft@."clientId" clientId
  && ((ft@."reportingCurrency" === cur) || (nullish ft@."reportingCurrency" && (ft@."originalCurrency" === cur)))
  && match ft@."effectiveAt" with JDate (Some t) => (from <=? t) && (t <=? to) | _ => false end.
Definition statement_transactions (clientId : jsval) (cur : string) (from to : Z) : prog world (list jsval) :=
  gets (fun w => sort_by (fun a b => instant a@."effectiveAt" <=? instant b@."effectiveAt")
                   (List.filter (in_statement clientId cur from to) (rows w TFinancial))).
Definition line_amount (cur : string) (ft : jsval) : num :=
  js_number (if ft@."reportingCurrency" === cur then ft@."reportingClientPayable" ?? ft@."clientPayable" else ft@."clientPayable").
Definition statement_line (cur : string) (ft : jsval) : list (string * jsval) :=
  [("financialTransactionId", ft@."id");
   ("description", JStr (js_string ft@."transactionType" +:+ " " +:+ js_string ft@."recognitionKey"));
   ("amount", JStr (num_toFixed 4 (line_amount cur ft))); ("currency", JStr cur); ("effectiveAt", ft@."effectiveAt")].
Definition balance_of (cur : string) (txns : list jsval) : num := sum_numbers (map (line_amount cur) txns).

Definition STATEMENT_KEY : list string := ["clientId"; "periodStart"; "periodEnd"; "currency"].
Definition find_statement (clientId : jsval) (cur : string) (from to : Z) : prog world (option jsval) :=
  find_where TStatement (fun r => col_eq r@."clientId" clientId && col_eq r@."periodStart" (date_column from)
                                  && col_eq r@."periodEnd" (date_column to) && (r@."currency" === cur)).
Definition delete_lines (statementId : jsval) : prog world unit :=
  modify (fun w => set_rows TStatementLine (List.filter (fun r => negb (col_eq r@."statementId" statementId)) (rows w TStatementLine)) w).

Definition buildOrRefresh (clientId periodStart periodEnd currency : jsval) : prog world jsval :=
  if negb (truthy clientId) then throw (api_fail "clientId is required." 400)
  else
    let cur := to_upper (js_string currency) in
    let! from := given_date periodStart in
    let! to := given_date periodEnd in
    let! txns := statement_transactions clientId cur from to in
    let balance := num_toFixed 4 (balance_of cur txns) in
    let! existing := find_statement clientId cur from to in
    let! statement :=
      match existing with
      | Some e =>
          delete_lines e@."id" ;;
          update_row TStatement e@."id" [("openingBalance", JStr "0"); ("closingBalance", JStr balance); ("status", JStr "OPEN")]
      | None =>
          create_row TStatement
            [("clientId", clientId); ("periodStart", date_column from); ("periodEnd", date_column to); ("currency", JStr cur);
             ("openingBalance", JStr "0"); ("closingBalance", JStr balance); ("status", JStr "OPEN")]
      end in
    for_each txns (fun ft => create_row TStatementLine (("statementId", statement@."id") :: statement_line cur ft) ;; ret tt) ;;
    getStatementForClient statement@."id" clientId.

End Service.
End Statements.

(** ** [taxLedger.service.js] *)

Module Tax.

(** What [evaluateTaxReadiness] answers. *)
Record tax := TaxOf { taxRate : num; taxAmount : num; taxableAmount : num; taxCountry : jsval; taxType : jsval; tax_currency : string }.
Inductive readiness :=
| NoTax
| Blocked (reason exceptionType : string)
| Apply (t : tax).

Record tax_result := TaxResult { applied : bool; blocked : bool; reused : bool; tax_reason : string; tax_ledger : jsval; tax_invoice : jsval }.

Section Service.
Context {H : JsHost} {D : Database}.

Definition taxInvoiceRecognitionKey (invoiceId : jsval) : string := "tax:" +:+ js_string invoiceId.

Definition getOrCreateProfile (clientId defaults : jsval) : prog world jsval :=
  let! existing := findUnique TTaxProfile "clientId" clientId in
  match existing with
  | Some p => ret p
  | None =>
      create_row TTaxProfile
        [("clientId", clientId); ("taxEnabled", JBool (is_true defaults@."taxEnabled")); ("taxCountry", defaults@."taxCountry" ?? JNull);
         ("taxRatePercent", if nullish defaults@."taxRatePercent" then JNull else JStr (js_string defaults@."taxRatePercent"));
         ("taxType", defaults@."taxType" ?? JStr "UNKNOWN"); ("legalReviewStatus", defaults@."legalReviewStatus" ?? JStr "PENDING");
         ("notes", defaults@."notes" ?? JNull); ("metadata", defaults@."metadata" ?? JUndef)]
  end.

Definition evaluateTaxReadiness (profile currency : jsval) (taxableAmount : num) : readiness :=
  if negb (truthy profile) || negb (is_true profile@."taxEnabled") then NoTax
  else if negb (profile@."legalReviewStatus" === "APPROVED") && negb (profile@."legalReviewStatus" === "NOT_REQUIRED")
  then Blocked "legal_review_required" "TAX_LEGAL_REVIEW_REQUIRED"
  else if blank profile@."taxRatePercent" then Blocked "tax_rate_missing" "TAX_CONFIGURATION_MISSING"
  else if negb (truthy profile@."taxCountry") then Blocked "tax_country_missing" "TAX_CONFIGURATION_MISSING"
  else
    let rate := js_number profile@."taxRatePercent" in
    if negb (is_finite rate) || nltb rate n0 then Blocked "tax_rate_invalid" "TAX_CONFIGURATION_MISSING"
    else if negb (is_finite taxableAmount) || nltb taxableAmount n0 then Blocked "taxable_amount_invalid" "TAX_CALCULATION_BLOCKED"
    else if negb (truthy currency) || negb (String.length (js_string currency) =? 3)%nat then Blocked "currency_invalid" "TAX_CURRENCY_MISMATCH"
    else Apply (TaxOf rate (round4 (ndiv (nmul taxableAmount rate) (num_of_Z 100))) (round4 taxableAmount)
                  profile@."taxCountry" (profile@."taxType" |or| JStr "UNKNOWN") (to_upper (js_string currency))).

Definition reportBlocked (profile invoice : jsval) (reason exceptionType : string) : prog world report_result :=
  report (JObj
    [("type", JStr exceptionType); ("severity", JStr "HIGH"); ("clientId", invoice@."clientId");
     ("reason", JStr ("TaxLedger blocked: " +:+ reason));
     ("dedupeKey", JStr ("TAX|" +:+ js_string invoice@."clientId" +:+ "|" +:+ js_string invoice@."id" +:+ "|" +:+ exceptionType));
     ("metadata", JObj [("invoiceId", invoice@."id"); ("invoiceNumber", invoice@."invoiceNumber"); ("reason", JStr reason);
                        ("taxEnabled", profile@."taxEnabled" ?? JBool false); ("legalReviewStatus", profile@."legalReviewStatus" ?? JNull)])]).

Definition ledger_data (clientId invoice : jsval) (t : tax) : list (string * jsval) :=
  [("recognitionKey", JStr (taxInvoiceRecognitionKey invoice@."id")); ("clientId", clientId); ("clientInvoiceId", invoice@."id");
   ("clientStatementId", invoice@."statementId" ?? JNull); ("invoiceNumber", invoice@."invoiceNumber"); ("taxCountry", taxCountry t);
   ("taxRate", JStr (num_to_string (taxRate t))); ("taxAmount", JStr (num_to_string (taxAmount t)));
   ("taxableAmount", JStr (num_to_string (taxableAmount t))); ("currency", JStr (tax_currency t)); ("taxType", taxType t);
   ("calculationPolicy", JStr "CONTRACT_CONFIG"); ("status", JStr "POSTED");
   ("metadata", JObj [("source", JStr "epic5_tax_ledger"); ("policy", JStr "CONTRACT_CONFIG");
                      ("note", JStr "Rate from ClientTaxProfile only; no invented GST treatment")])].

(** What is taxed: the subtotal with its adjustments. *)
Definition taxable_of (invoice : jsval) : num := nadd (js_number invoice@."subtotal") (js_number (invoice@."adjustments" |or| JNum n0)).

Definition post_tax (clientId invoice : jsval) (existing : option jsval) (t : tax) : prog world tax_result :=
  let! ledger :=
    match existing with
    | Some e => update_row TTaxLedger e@."id" (ledger_data clientId invoice t)
    | None => create_row TTaxLedger (ledger_data clientId invoice t)
    end in
  let total := round4 (nadd (taxable_of invoice) (taxAmount t)) in
  let! updated := update_row TInvoice invoice@."id"
    [("taxAmount", JStr (num_to_string (taxAmount t))); ("total", JStr (num_to_string total))] in
  audit_record [("aggregateType", JStr "TaxLedger"); ("aggregateId", ledger@."id"); ("action", JStr "TAX_LEDGER_POSTED");
                ("after", JObj [("invoiceId", invoice@."id"); ("taxAmount", JNum (taxAmount t)); ("taxRate", JNum (taxRate t));
                                ("taxCountry", taxCountry t)])] ;;
  ret (TaxResult true false false "" ledger updated).

Definition applyTaxForInvoice (invoiceId clientId : jsval) (force : bool) : prog world tax_result :=
  let! found := find_owned TInvoice invoiceId clientId in
  match found with
  | None => throw (api_fail "Invoice not found." 404)
  | Some invoice =>
      if invoice@."status" === "VOID" then throw (api_fail "Cannot tax a void invoice." 409)
      else
        let! existing := findUnique TTaxLedger "recognitionKey" (JStr (taxInvoiceRecognitionKey invoice@."id")) in
        if match existing with Some e => (e@."status" === "POSTED") && negb force | None => false end
        then ret (TaxResult true false true "" (default JNull existing) invoice)
        else
          let! profile := findUnique TTaxProfile "clientId" clientId in
          let profile := default JNull profile in
          match evaluateTaxReadiness profile invoice@."currency" (taxable_of invoice) with
          | NoTax => ret (TaxResult false false false "tax_disabled" JUndef invoice)
          | Blocked reason exceptionType =>
              reportBlocked profile invoice reason exceptionType ;;
              ret (TaxResult false true false reason JUndef invoice)
          | Apply t => post_tax clientId invoice existing t
          end
  end.

End Service.
End Tax.

(** ** [invoice.service.js] *)

Module Invoices.
Import Tax.

(** [n.toString(36).toUpperCase()] *)
Definition digit36 (d : Z) : ascii := ascii_of_nat (Z.to_nat (if d <? 10 then 48 + d else 55 + d)).
Fixpoint print36 (fuel : nat) (n : Z) (acc : string) : string :=
  match fuel with
  | O => acc
  | S f => let acc := String (digit36 (n mod 36)) acc in if n <? 36 then acc else print36 f (n / 36) acc
  end.

Section Service.
Context {H : JsHost} {D : Database}.

Definition getInvoiceForClient (invoiceId clientId : jsval) : prog world jsval :=
  let! found := find_owned TInvoice invoiceId clientId in
  match found with
  | None => throw (api_fail "Invoice not found." 404)
  | Some row =>
      let! payments := findMany TClientPayment "invoiceId" row@."id" in
      let! statements := findMany TStatement "id" row@."statementId" in
      let! ledgers := findMany TTaxLedger "clientInvoiceId" row@."id" in
      ret (with_relation (with_relation (with_relation row "payments" (JArr payments))
             "statement" (default JNull (hd_error statements))) "taxLedgers" (JArr ledgers))
  end.

Definition invoice_number (clientId : jsval) (t : Z) : string :=
  "INV-" +:+ slice 0 8 (js_string clientId) +:+ "-" +:+ print36 64 t "".

Definition createFromStatement (statementId clientId invoiceNumber dueAt : jsval) (applyTax : bool) : prog world jsval :=
  let! found := find_owned TStatement statementId clientId in
  match found with
  | None => throw (api_fail "Statement not found." 404)
  | Some statement =>
      let total := js_number statement@."closingBalance" in
      if nltb total n0 then throw (api_fail "Cannot invoice negative statement balance." 409)
      else
        let! t := get_now in
        let number := if truthy invoiceNumber then invoiceNumber else JStr (invoice_number clientId t) in
        let! due := if truthy dueAt then (let! d := given_date dueAt in ret (JDate (Some d))) else ret JNull in
        let! invoice := create_row TInvoice
          [("invoiceNumber", number); ("clientId", clientId); ("statementId", statement@."id"); ("currency", statement@."currency");
           ("subtotal", JStr (num_toFixed 4 total)); ("adjustments", JStr "0"); ("taxAmount", JStr "0");
           ("total", JStr (num_toFixed 4 total)); ("status", JStr "DRAFT"); ("dueAt", due)] in
        if applyTax then
          let! r := applyTaxForInvoice invoice@."id" clientId false in
          ret (if truthy (tax_invoice r) then tax_invoice r else invoice)
        else ret invoice
  end.

Definition issue (invoiceId clientId : jsval) : prog world jsval :=
  let! invoice := getInvoiceForClient invoiceId clientId in
  if negb (invoice@."status" === "DRAFT") then throw (api_fail "Only DRAFT invoices can be issued." 409)
  else
    let! t := get_now in
    let! updated := update_row TInvoice invoiceId [("status", JStr "ISSUED"); ("issuedAt", JDate (Some t))] in
    audit_record [("aggregateType", JStr "ClientInvoice"); ("aggregateId", invoiceId); ("action", JStr "INVOICE_ISSUED");
                  ("after", JObj [("status", JStr "ISSUED"); ("total", updated@."total")])] ;;
    ret updated.

(** The confirmed payments of an invoice, added up. *)
Definition confirmed (payments : list jsval) : num :=
  sum_numbers (map (fun p => js_number p@."amount") (List.filter (fun p => p@."status" === "CONFIRMED") payments)).
(** 0.0001 *)
Definition CENT_OF_CENT : num := num_of_ratio 1 10000.

Definition paid_status (invoice : jsval) (paid : num) : string :=
  if nleb paid n0 then (if truthy invoice@."issuedAt" then "ISSUED" else "DRAFT")
  else if nleb (js_number invoice@."total") (nadd paid CENT_OF_CENT) then "PAID"
  else "PARTIALLY_PAID".

Definition refreshInvoicePaidStatus (invoiceId clientId : jsval) : prog world jsval :=
  let! invoice := getInvoiceForClient invoiceId clientId in
  let! t := get_now in
  let status := paid_status invoice (confirmed (as_array invoice@."payments")) in
  update_row TInvoice invoiceId
    [("status", JStr status); ("paidAt", if status =s? "PAID" then JDate (Some t) else JNull)].

Definition payment_data (clientId invoiceId invoice : jsval) (amt : num) (currency reference confirm : jsval) (t : Z) : list (string * jsval) :=
  [("clientId", clientId); ("invoiceId", invoiceId |or| JNull); ("amount", JStr (num_toFixed 4 amt));
   ("currency", JStr (to_upper (js_string (currency |or| invoice@."currency" |or| JStr "USD"))));
   ("status", JStr (if truthy confirm then "CONFIRMED" else "PENDING"));
   ("paidAt", if truthy confirm then JDate (Some t) else JNull); ("reference", reference |or| JNull)].
(** Lines 115-142: the payment is stored, and the invoice refreshed if it is confirmed. *)
Definition store_payment (clientId invoiceId invoice : jsval) (amt : num) (currency reference confirm : jsval) : prog world jsval :=
  let! t := get_now in
  let! payment := create_row TClientPayment (payment_data clientId invoiceId invoice amt currency reference confirm t) in
  audit_record [("aggregateType", JStr "ClientPayment"); ("aggregateId", payment@."id"); ("action", JStr "PAYMENT_RECORDED");
                ("after", JObj [("amount", payment@."amount"); ("status", payment@."status"); ("invoiceId", invoiceId)])] ;;
  (if truthy confirm && truthy invoice then refreshInvoicePaidStatus invoice@."id" clientId ;; ret tt else ret tt) ;;
  ret payment.

Definition recordPayment (clientId invoiceId amount currency reference confirm : jsval) : prog world jsval :=
  if negb (truthy clientId) then throw (api_fail "clientId is required." 400)
  else
    let! invoice := if truthy invoiceId then getInvoiceForClient invoiceId clientId else ret JNull in
    if truthy invoice && (invoice@."status" === "VOID") then throw (api_fail "Cannot pay a void invoice." 409)
    else
      let amt := js_number amount in
      if negb (is_finite amt) || nleb amt n0 then throw (api_fail "Invalid payment amount." 400)
      else if truthy invoice
              && nltb CENT_OF_CENT (nsub (nadd (confirmed (as_array invoice@."payments")) amt) (js_number invoice@."total"))
      then throw (api_fail "Payment cannot exceed invoice payable balance." 409)
      else store_payment clientId invoiceId invoice amt currency reference confirm.

Definition confirmPayment (paymentId clientId : jsval) : prog world jsval :=
  let! found := find_owned TClientPayment paymentId clientId in
  match found with
  | None => throw (api_fail "Payment not found." 404)
  | Some payment =>
      let! t := get_now in
      let! updated := update_row TClientPayment paymentId [("status", JStr "CONFIRMED"); ("paidAt", JDate (Some t))] in
      (if truthy payment@."invoiceId" then refreshInvoicePaidStatus payment@."invoiceId" clientId ;; ret tt else ret tt) ;;
      ret updated
  end.

End Service.
End Invoices.

(** ** What an invoice that is paid has received *)

Module SettlementFacts.
Import Statements Tax Invoices.
Section Facts.
Context {H : JsHost} {D : Database}.

(** *** The invariant *)

Definition payments_of (ps : list jsval) (id : jsval) : list jsval := List.filter (fun p => col_eq p@."invoiceId" id) ps.
(** Paid only with confirmed payments that cover the total. *)
Definition covered (ps : list jsval) (r : jsval) : Prop :=
  r@."status" = JStr "PAID" ->
  nleb (confirmed (payments_of ps r@."id")) n0 = false /\
  nleb (js_number r@."total") (nadd (confirmed (payments_of ps r@."id")) CENT_OF_CENT) = true.
(** The invoice of a payment is there and of the same client. *)
Definition owned (invoices : list jsval) (p : jsval) : Prop :=
  p@."invoiceId" = JNull \/
  exists i r, p@."invoiceId" = JStr i /\ i <> "" /\ r ∈ invoices /\ r@."id" = JStr i /\ r@."clientId" = p@."clientId".
Definition text_id (r : jsval) : Prop := exists s, r@."id" = JStr s.
Record linked (w : world) : Prop := Linked {
  invoice_ids : distinct TInvoice "id" w;
  invoice_texts : Forall text_id (rows w TInvoice);
  payment_ids : distinct TClientPayment "id" w;
  payment_texts : Forall text_id (rows w TClientPayment);
  payments_owned : Forall (owned (rows w TInvoice)) (rows w TClientPayment)
}.
Definition settled (w : world) : Prop := linked w /\ Forall (covered (rows w TClientPayment)) (rows w TInvoice).
(** All but the invoice that is being refreshed. *)
Definition settled_but (id : jsval) (w : world) : Prop :=
  linked w /\ Forall (fun r => has_id id r = false -> covered (rows w TClientPayment) r) (rows w TInvoice).

Lemma settled_any id w : settled w -> settled_but id w.
Proof. intros [Hl Hc]. split; [exact Hl|]. eapply Forall_impl; [exact Hc|]. auto. Qed.
Lemma same_tables w w' : rows w' TInvoice = rows w TInvoice -> rows w' TClientPayment = rows w TClientPayment -> settled w -> settled w'.
Proof. intros Hi Hp [[] Hc]. split; [split; unfold distinct in *; rewrite ?Hi, ?Hp; assumption|]. now rewrite Hi, Hp. Qed.

(** *** Changing invoices *)

Definition IDENTITY : list string := ["id"; "clientId"].
Lemma owned_rows invoices invoices' p : Forall2 (fun r r' => r'@."id" = r@."id" /\ r'@."clientId" = r@."clientId") invoices invoices' ->
  owned invoices p -> owned invoices' p.
Proof.
  intros Hf [Hn|(i & r & Hi & Hne & Hr & Hid & Hc)]; [now left|right]. apply list_elem_of_lookup in Hr as [n Hn].
  destruct (Forall2_lookup_l _ _ _ _ _ Hf Hn) as (r' & Hr' & Hid' & Hc'). exists i, r'.
  split_and!; [exact Hi|exact Hne|now apply list_elem_of_lookup_2 in Hr'|congruence|congruence].
Qed.
Lemma update_invoice id data w :
  (forall k, k ∈ IDENTITY -> k ∉ map fst data) -> forallb (field_ok TInvoice) data = true -> settled_but id w ->
  (forall r, r ∈ rows w TInvoice -> has_id id r = true -> covered (rows w TClientPayment) (spread r (JObj (encode TInvoice data)))) ->
  settled (update_row TInvoice id data w).2.
Proof.
  intros Hk Hf [Hl Hc] Hnew. assert (Hp : rows (update_row TInvoice id data w).2 TClientPayment = rows w TClientPayment)
    by (apply update_row_only; discriminate).
  pose proof (update_row_distinct TInvoice "id" id data ltac:(apply Hk; compute_done) w (invoice_ids w Hl)) as Hd.
  unfold settled. rewrite Hp. revert Hp Hd. unfold update_row. rewrite Hf. cbn [negb]. destruct (List.find (has_id id) (rows w TInvoice)) eqn:Ef; intros Hp Hd.
  - cbn [snd] in *. rewrite rows_set_same. set (upd := fun x => if has_id id x then spread x (JObj (encode TInvoice data)) else x) in *.
    assert (Hkeep : forall r k, k ∈ IDENTITY -> prop (upd r) k = prop r k).
    { intros r k Hin. unfold upd. destruct (has_id id r); [|reflexivity]. apply (spread_rewrites TInvoice r data). auto. }
    destruct Hl as [H1 H2 H3 H4 H5]. split; [split|].
    + exact Hd.
    + rewrite rows_set_same. apply Forall_fmap. eapply Forall_impl; [exact H2|]. intros r [s Hs]. exists s. unfold compose. rewrite Hkeep by compute_done. exact Hs.
    + unfold distinct. rewrite Hp. exact H3.
    + rewrite Hp. exact H4.
    + rewrite Hp, rows_set_same. eapply Forall_impl; [exact H5|]. intros p. apply owned_rows. apply Forall2_fmap_r, Forall_Forall2_diag, Forall_forall.
      intros r _. split; apply Hkeep; compute_done.
    + apply Forall_fmap, Forall_forall. intros r Hr. unfold compose, upd. destruct (has_id id r) eqn:E; [now apply Hnew|].
      rewrite Forall_forall in Hc. now apply Hc.
  - split; [exact Hl|]. apply Forall_forall. intros r Hr. rewrite Forall_forall in Hc. apply Hc; [exact Hr|].
    apply not_true_iff_false. intros E. pose proof (List.find_none _ _ Ef r (proj1 (list_elem_of_In _ _) Hr)). congruence.
Qed.

(** *** Refreshing an invoice *)

Lemma has_text_id id r : text_id r -> has_id id r = true -> exists i, id = JStr i /\ r@."id" = JStr i.
Proof.
  intros [s Hs]. unfold has_id. rewrite Hs. destruct id; cbn [col_eq]; try discriminate. intros ->%String.eqb_eq. eauto.
Qed.

(** What [getInvoiceForClient] gives back. *)
Lemma invoice_found id clientId w r0 :
  List.find (fun r => col_eq r@."id" id && col_eq r@."clientId" clientId) (rows w TInvoice) = Some r0 ->
  exists v, getInvoiceForClient id clientId w = (Ok v, w) /\ v@."payments" = JArr (payments_of (rows w TClientPayment) r0@."id") /\
    forall k, k ∉ ["payments"; "statement"; "taxLedgers"] -> prop v k = prop r0 k.
Proof.
  intros Hf. unfold getInvoiceForClient, find_owned, find_where, findMany. rewrite bind_gets. cbv beta. rewrite Hf, !bind_gets.
  eexists. split; [reflexivity|]. split; [now rewrite !prop_relation|]. intros k Hk. rewrite !prop_relation.
  destruct (String.eqb_spec "taxLedgers" k); [set_solver|]. destruct (String.eqb_spec "statement" k); [set_solver|].
  destruct (String.eqb_spec "payments" k); [set_solver|reflexivity].
Qed.
Lemma invoice_missing id clientId w :
  List.find (fun r => col_eq r@."id" id && col_eq r@."clientId" clientId) (rows w TInvoice) = None ->
  getInvoiceForClient id clientId w = (Throw (api_fail "Invoice not found." 404), w).
Proof. intros Hf. unfold getInvoiceForClient, find_owned, find_where. rewrite bind_gets. cbv beta. now rewrite Hf. Qed.
Lemma paid_status_covers invoice paid : paid_status invoice paid = "PAID" ->
  nleb paid n0 = false /\ nleb (js_number invoice@."total") (nadd paid CENT_OF_CENT) = true.
Proof.
  unfold paid_status. destruct (nleb paid n0); [destruct (truthy _); discriminate|]. destruct (nleb _ _); [auto|discriminate].
Qed.
Lemma paid_status_valid invoice paid : in_enum INVOICE_STATUS (JStr (paid_status invoice paid)) = true.
Proof. unfold paid_status. repeat case_match; reflexivity. Qed.

Lemma refreshed_covered ps r st paidAt :
  (st = "PAID" -> nleb (confirmed (payments_of ps r@."id")) n0 = false /\
     nleb (js_number r@."total") (nadd (confirmed (payments_of ps r@."id")) CENT_OF_CENT) = true) ->
  covered ps (spread r (JObj (encode TInvoice [("status", JStr st); ("paidAt", paidAt)]))).
Proof.
  intros Hp. unfold covered. set (data := [_; _]).
  assert (Ek : forall k, k ∉ map fst data -> prop (spread r (JObj (encode TInvoice data))) k = prop r k) by (intros; now apply spread_rewrites).
  rewrite (Ek "id"), (Ek "total") by compute_done.
  rewrite (updated_column TInvoice data r "status" (JStr st)) by (nodup_keys || reflexivity || discriminate). intros E. injection E as ->. now apply Hp.
Qed.
Lemma refresh_settles id clientId w r0 : settled_but id w ->
  List.find (fun r => col_eq r@."id" id && col_eq r@."clientId" clientId) (rows w TInvoice) = Some r0 ->
  settled (refreshInvoicePaidStatus id clientId w).2.
Proof.
  intros Hs Hf. destruct (invoice_found _ _ _ _ Hf) as (v & Hv & Hp & Hk). unfold refreshInvoicePaidStatus, get_now.
  unfold bind at 1. rewrite Hv, bind_gets, Hp. cbn [as_array]. set (paid := confirmed _).
  pose proof (paid_status_valid v paid) as Hvalid. remember (paid_status v paid) as st eqn:Est. apply update_invoice; [..|exact Hs|].
  - apply Forall_forall. compute_done.
  - cbn [forallb]. unfold field_ok at 1. cbn [fst snd is_undef orb]. change (assoc "status" (enum_columns TInvoice)) with (Some INVOICE_STATUS).
    cbv iota. rewrite Hvalid. cbn. now destruct (_ =s? _).
  - intros r Hr Hid. apply List.find_some in Hf as [Hr0%list_elem_of_In [Hid0 _]%andb_true_iff].
    destruct Hs as [[H1 H2 _ _ _] _]. rewrite Forall_forall in H2. destruct (has_text_id id r (H2 r Hr) Hid) as (i & -> & Hi).
    destruct (has_text_id (JStr i) r0 (H2 r0 Hr0) Hid0) as (j & Hj & Hi0). injection Hj as <-.
    pose proof (same_id TInvoice w i r r0 H1 Hr Hr0 Hi Hi0) as ->.
    apply refreshed_covered. intros ->. symmetry in Est. apply paid_status_covers in Est. now rewrite (Hk "total") in Est by compute_done.
Qed.

(** *** The operations *)

Definition TABLES : list table := [TInvoice; TClientPayment].
(** Neither invoices nor payments change. *)
Definition apart (w w' : world) : Prop := forall t, t ∈ TABLES -> rows w' t = rows w t.
#[local] Instance apart_preorder : PreOrder apart.
Proof. split; [intros w t _; reflexivity|]. intros w1 w2 w3 H12 H23 t Ht. now rewrite H23, H12. Qed.
Lemma apart_settled w w' : apart w w' -> settled w -> settled w'.
Proof. intros Ha. apply same_tables; apply Ha; compute_done. Qed.
Lemma apart_but id w w' : apart w w' -> settled_but id w -> settled_but id w'.
Proof.
  intros Ha [[] Hc]. pose proof (Ha TInvoice ltac:(compute_done)) as Hi. pose proof (Ha TClientPayment ltac:(compute_done)) as Hp.
  split; [split; unfold distinct in *; rewrite ?Hi, ?Hp; assumption|]. now rewrite Hi, Hp.
Qed.
Lemma audit_apart event : tracks apart (audit_record event).
Proof. intros w t Ht. apply audit_record_only. intros ->. revert Ht. compute_done. Qed.
Lemma only_apart {A} t (c : prog world A) : t ∉ TABLES -> tracks (only t) c -> tracks apart c.
Proof. intros Ht Hc w u Hu. apply Hc. intros ->. contradiction. Qed.
Lemma report_apart input : tracks apart (report input).
Proof.
  intros w t Ht. destruct (ExceptionFacts.report_within input w) as [_ Hw]. apply Hw. intros Hin.
  apply list_elem_of_In in Hin. cbn in Hin. destruct Hin as [<-|[<-|[]]]; revert Ht; compute_done.
Qed.
Lemma reads_invoice id clientId w : (getInvoiceForClient id clientId w).2 = w.
Proof.
  unfold getInvoiceForClient, find_owned, find_where, findMany. rewrite bind_gets. destruct (List.find _ _); [|reflexivity].
  now rewrite !bind_gets.
Qed.
Lemma then_settled {A B} (c : prog world A) (k : A -> prog world B) w :
  settled (c w).2 -> (forall a, tracks apart (k a)) -> settled (bind c k w).2.
Proof.
  intros Hc Hk. unfold bind. destruct (c w) as [[a|e] w1]; [|exact Hc]. apply (apart_settled w1); [apply Hk|exact Hc].
Qed.

Lemma issue_settled id clientId w : settled w -> settled (issue id clientId w).2.
Proof.
  intros Hs. unfold issue, get_now. pose proof (reads_invoice id clientId w) as Hr. unfold bind at 1.
  destruct (getInvoiceForClient id clientId w) as [[v|e] w1]; cbn [snd] in Hr; subst w1; [|exact Hs].
  destruct (negb _); [exact Hs|]. rewrite bind_gets. apply then_settled; [|intros u; track; apply audit_apart].
  apply update_invoice; [apply Forall_forall; compute_done|reflexivity|now apply settled_any|]. intros r _ _ E. exfalso. revert E.
  set (data := [_; _]). rewrite (updated_column TInvoice data r "status" (JStr "ISSUED")) by (nodup_keys || reflexivity || discriminate). discriminate.
Qed.

Lemma confirmed_add ps p id : col_eq p@."invoiceId" id = false \/ (p@."status" === "CONFIRMED") = false ->
  confirmed (payments_of (ps ++ [p]) id) = confirmed (payments_of ps id).
Proof.
  intros Hp. unfold confirmed, payments_of. rewrite !List.filter_app. do 2 f_equal. cbn [List.filter].
  destruct (col_eq p@."invoiceId" id); [|cbn [List.filter]; apply app_nil_r]. destruct Hp as [|Hs]; [discriminate|].
  cbn [List.filter]. rewrite Hs. apply app_nil_r.
Qed.
Lemma covered_add ps p r : col_eq p@."invoiceId" r@."id" = false \/ (p@."status" === "CONFIRMED") = false -> covered ps r -> covered (ps ++ [p]) r.
Proof. intros Hp. unfold covered. now rewrite (confirmed_add _ _ _ Hp). Qed.
Lemma add_payment data w p w' :
  create_row TClientPayment data w = (Ok p, w') -> linked w -> owned (rows w TInvoice) p ->
  linked w' /\ rows w' TInvoice = rows w TInvoice /\ rows w' TClientPayment = rows w TClientPayment ++ [p].
Proof.
  intros E [H1 H2 H3 H4 H5] Ho. pose proof (create_row_only TClientPayment data w) as Honly. pose proof (create_row_distinct TClientPayment "id" data ltac:(compute_done) w H3) as Hd.
  rewrite E in Honly, Hd. cbn [snd] in *. destruct (create_row_ok _ _ _ _ _ E) as (Hp & Hrows & _).
  pose proof (Honly TInvoice ltac:(discriminate)) as Hi. split; [|auto]. split; unfold distinct in *; rewrite ?Hi, ?Hrows; auto.
  - now rewrite Hrows in Hd.
  - apply Forall_app_2; [exact H4|]. apply Forall_singleton. rewrite Hp. eexists. reflexivity.
  - apply Forall_app_2; [exact H5|]. now apply Forall_singleton.
Qed.

(** The columns of a recorded payment. *)
Lemma recorded_columns c invoiceId invoice amt currency reference confirm t w p w' :
  create_row TClientPayment (payment_data (JStr c) invoiceId invoice amt currency reference confirm t) w = (Ok p, w') ->
  p@."clientId" = JStr c /\ p@."invoiceId" = (invoiceId |or| JNull) /\ p@."status" = JStr (if truthy confirm then "CONFIRMED" else "PENDING").
Proof.
  intros (-> & _)%create_row_ok. set (data := payment_data _ _ _ _ _ _ _ _).
  assert (Hnd : NoDup (map fst data)) by (unfold data, payment_data; nodup_keys).
  split_and!; match goal with |- prop (JObj (("id", ?i) :: _ ++ [("createdAt", ?a)])) ?k = ?v =>
    rewrite (created_column TClientPayment data i a k v Hnd) end; try reflexivity; try discriminate.
  unfold js_or. destruct invoiceId; cbn; repeat case_match; discriminate.
Qed.

Lemma col_eq_text_false i r : text_id r -> has_id (JStr i) r = false -> col_eq (JStr i) r@."id" = false.
Proof. intros [s Hs]. unfold has_id. rewrite Hs. cbn [col_eq]. now rewrite String.eqb_sym. Qed.

Lemma audit_then_apart {A} event (a : A) : tracks apart (audit_record event ;; ret tt ;; ret a).
Proof. track. apply audit_apart. Qed.

Lemma store_unlinked c invoiceId amt currency reference confirm w : truthy invoiceId = false ->
  settled w -> settled (store_payment (JStr c) invoiceId JNull amt currency reference confirm w).2.
Proof.
  intros Hf [Hl Hc]. unfold store_payment, get_now. rewrite bind_gets. unfold bind at 1.
  destruct (create_row TClientPayment _ w) as [[p|e] w1] eqn:E; [|rewrite (create_row_fails _ _ _ _ _ E); now split].
  destruct (recorded_columns _ _ _ _ _ _ _ _ _ _ _ E) as (_ & Hi & _). unfold js_or in Hi. rewrite Hf in Hi.
  destruct (add_payment _ _ _ _ E Hl) as (Hl' & Ei & Ep); [now left|].
  rewrite andb_false_r. apply (apart_settled w1); [apply audit_then_apart|split; [exact Hl'|]].
  rewrite Ei, Ep. pose proof (invoice_texts w Hl) as Ht. rewrite Forall_forall in *. intros r Hr. apply covered_add; [left|now apply Hc].
  rewrite Hi. destruct (Ht r Hr) as [i ->]. reflexivity.
Qed.

Lemma store_linked c i r0 v amt currency reference confirm w :
  i <> "" -> List.find (fun r => col_eq r@."id" (JStr i) && col_eq r@."clientId" (JStr c)) (rows w TInvoice) = Some r0 ->
  v@."id" = JStr i -> truthy v = true -> settled w -> settled (store_payment (JStr c) (JStr i) v amt currency reference confirm w).2.
Proof.
  intros Hne Hf Hv Htv [Hl Hc]. unfold store_payment, get_now. rewrite bind_gets. unfold bind at 1.
  destruct (create_row TClientPayment _ w) as [[p|e] w1] eqn:E; [|rewrite (create_row_fails _ _ _ _ _ E); now split].
  destruct (recorded_columns _ _ _ _ _ _ _ _ _ _ _ E) as (Hcl & Hi & Hst). unfold js_or in Hi. cbn [truthy] in Hi.
  apply String.eqb_neq in Hne as Hne'. rewrite Hne' in Hi. cbn [negb] in Hi.
  pose proof Hf as [Hr0%list_elem_of_In [Hid0 Hcl0]%andb_true_iff]%List.find_some.
  pose proof (invoice_texts w Hl) as Ht. rewrite Forall_forall in Ht. destruct (has_text_id (JStr i) r0 (Ht r0 Hr0) Hid0) as (j & Hj & Hi0). injection Hj as <-.
  assert (Hcl0' : r0@."clientId" = JStr c) by (now apply col_eq_str).
  destruct (add_payment _ _ _ _ E Hl) as (Hl' & Ei & Ep); [right; exists i, r0; split_and!; congruence || assumption|].
  rewrite Forall_forall in Hc.
  assert (Hbut : settled_but (JStr i) w1).
  { split; [exact Hl'|]. rewrite Ei, Ep. apply Forall_forall. intros r Hr Hno. apply covered_add; [left|now apply Hc]. rewrite Hi.
    now apply col_eq_text_false; [apply Ht|]. }
  destruct (truthy confirm) eqn:Econf.
  - rewrite Htv, Hv. cbn [andb]. unfold bind at 1. cbn [audit_record modify]. 
    match goal with |- settled (bind _ _ ?w2).2 => assert (Hbut2 : settled_but (JStr i) w2 /\ rows w2 TInvoice = rows w TInvoice) end.
    { split; [apply (apart_but _ w1); [apply (audit_apart _ w1)|exact Hbut]|]. cbn. exact Ei. }
    destruct Hbut2 as [Hbut2 Ei2]. apply then_settled; [|intros u; track].
    apply then_settled; [|intros u; track]. apply (refresh_settles _ _ _ r0); [exact Hbut2|]. now rewrite Ei2.
  - apply (apart_settled w1); [apply audit_then_apart|split; [exact Hl'|]]. rewrite Ei, Ep. apply Forall_forall. intros r Hr.
    apply covered_add; [right; now rewrite Hst|now apply Hc].
Qed.

Lemma record_settled c invoiceId amount currency reference confirm w :
  settled w -> settled (recordPayment (JStr c) invoiceId amount currency reference confirm w).2.
Proof.
  intros Hs. unfold recordPayment. destruct (negb (truthy (JStr c))); [exact Hs|]. destruct (truthy invoiceId) eqn:Et.
  - destruct (List.find (fun r => col_eq r@."id" invoiceId && col_eq r@."clientId" (JStr c)) (rows w TInvoice)) as [r0|] eqn:Ef.
    + destruct (invoice_found _ _ _ _ Ef) as (v & Hv & Hp & Hk). unfold bind. rewrite Hv. cbv zeta.
      destruct (truthy v && _); [exact Hs|]. destruct (_ || _); [exact Hs|]. destruct (_ && nltb _ _); [exact Hs|].
      pose proof Ef as [Hr0%list_elem_of_In [Hid0 _]%andb_true_iff]%List.find_some.
      destruct Hs as [Hl Hc]. pose proof (invoice_texts w Hl) as Ht. rewrite Forall_forall in Ht.
      destruct (has_text_id invoiceId r0 (Ht r0 Hr0) Hid0) as (i & -> & Hi). apply (store_linked c i r0); [|exact Ef| | |now split].
      * intros ->. discriminate Et.
      * rewrite Hk by compute_done. exact Hi.
      * destruct v; try discriminate Hp; reflexivity.
    + unfold bind. rewrite (invoice_missing _ _ _ Ef). exact Hs.
  - unfold bind, ret. cbv zeta. cbn [truthy andb]. destruct (_ || _); [exact Hs|]. now apply store_unlinked.
Qed.

(** *** Confirming a payment *)

Lemma confirmed_rows ps ps' id :
  Forall2 (fun p p' => p = p' \/ col_eq p@."invoiceId" id = false /\ col_eq p'@."invoiceId" id = false) ps ps' ->
  payments_of ps' id = payments_of ps id.
Proof.
  unfold payments_of. induction 1 as [|p p' ps ps' Hp _ IH]; [reflexivity|]. cbn [List.filter].
  destruct Hp as [<-|[-> ->]]; [|exact IH]. now rewrite IH.
Qed.
Definition CONFIRMATION (t : Z) : list (string * jsval) := [("status", JStr "CONFIRMED"); ("paidAt", JDate (Some t))].
Definition confirm_row (i : string) (t : Z) (p : jsval) : jsval :=
  if has_id (JStr i) p then spread p (JObj (encode TClientPayment (CONFIRMATION t))) else p.
Lemma confirm_row_keeps i t p k : k ∈ ["id"; "invoiceId"; "clientId"] -> prop (confirm_row i t p) k = prop p k.
Proof.
  intros Hk. unfold confirm_row. destruct (has_id (JStr i) p); [|reflexivity]. apply (spread_rewrites TClientPayment p (CONFIRMATION t)).
  revert k Hk. apply Forall_forall. compute_done.
Qed.
(** Confirming payment [p0] only touches the invoice of [p0]. *)
Lemma confirm_update i t w u w1 p0 : settled w -> update_row TClientPayment (JStr i) (CONFIRMATION t) w = (Ok u, w1) ->
  p0 ∈ rows w TClientPayment -> p0@."id" = JStr i ->
  linked w1 /\ rows w1 TInvoice = rows w TInvoice /\
  forall r, r ∈ rows w TInvoice -> col_eq p0@."invoiceId" r@."id" = false -> covered (rows w1 TClientPayment) r.
Proof.
  intros [[H1 H2 H3 H4 H5] Hc] E Hp0 Hi0.
  assert (Erows : rows w1 TClientPayment = map (confirm_row i t) (rows w TClientPayment)) by (now apply update_row_ok in E).
  assert (Einv : rows w1 TInvoice = rows w TInvoice).
  { pose proof (update_row_only TClientPayment (JStr i) (CONFIRMATION t) w TInvoice ltac:(discriminate)) as Ho. now rewrite E in Ho. }
  split_and!; [|exact Einv|].
  - split; unfold distinct in *; rewrite ?Einv; auto.
    + pose proof (update_row_distinct TClientPayment "id" (JStr i) (CONFIRMATION t) ltac:(compute_done) w H3) as Hd. rewrite E in Hd. exact Hd.
    + rewrite Erows. apply Forall_fmap. eapply Forall_impl; [exact H4|]. intros p [s Hs]. exists s. unfold compose. now rewrite confirm_row_keeps by compute_done.
    + rewrite Erows. apply Forall_fmap. eapply Forall_impl; [exact H5|]. intros p. unfold owned, compose. now rewrite !confirm_row_keeps by compute_done.
  - intros r Hr Hne. unfold covered. rewrite Erows, (confirmed_rows (rows w TClientPayment) (map (confirm_row i t) (rows w TClientPayment)) r@."id").
    + rewrite Forall_forall in Hc. now apply Hc.
    + apply Forall2_fmap_r, Forall_Forall2_diag, Forall_forall. intros p Hp. unfold compose, confirm_row at 1.
      destruct (has_id (JStr i) p) eqn:Eid; [right|now left].
      destruct (has_text_id (JStr i) p (proj1 (Forall_forall _ _) H4 p Hp) Eid) as (j & [= <-] & Hj).
      pose proof (same_id TClientPayment w i p p0 H3 Hp Hp0 Hj Hi0) as ->. rewrite confirm_row_keeps by compute_done. auto.
Qed.

Lemma confirm_settled paymentId c w : settled w -> settled (confirmPayment paymentId (JStr c) w).2.
Proof.
  intros Hs. unfold confirmPayment, find_owned, find_where, get_now. rewrite bind_gets. cbv beta.
  destruct (List.find _ _) as [p0|] eqn:Ef; [|exact Hs]. rewrite bind_gets.
  pose proof Ef as [Hp0%list_elem_of_In [Hid0 Hcl0]%andb_true_iff]%List.find_some. apply col_eq_str in Hcl0.
  pose proof Hs as [[_ H2 _ H4 H5] _]. rewrite Forall_forall in H2, H4, H5.
  destruct (has_text_id paymentId p0 (H4 p0 Hp0) Hid0) as (i & -> & Hi0). unfold bind at 1. fold (CONFIRMATION (now w)).
  destruct (update_row TClientPayment (JStr i) (CONFIRMATION (now w)) w) as [[u|e] w1] eqn:E; [|now rewrite (update_row_fails _ _ _ _ _ _ E)].
  destruct (confirm_update _ _ _ _ _ _ Hs E Hp0 Hi0) as (Hlinked & Einv & Hother).
  destruct (H5 p0 Hp0) as [Hn|(j & r0 & Hj & Hne & Hr0 & Hr0i & Hr0c)].
  - rewrite Hn. split; [exact Hlinked|]. cbn [snd bind ret]. apply Forall_forall. cbn. rewrite Einv. intros r Hr. apply Hother; [exact Hr|].
    rewrite Hn. destruct (H2 r Hr) as [s ->]. reflexivity.
  - rewrite Hj. cbn [truthy]. apply String.eqb_neq in Hne. rewrite Hne. cbn [negb]. apply then_settled; [|intros; track].
    apply then_settled; [|intros; track].
    destruct (List.find (fun r => col_eq r@."id" (JStr j) && col_eq r@."clientId" (JStr c)) (rows w1 TInvoice)) as [r1|] eqn:Ef1.
    + apply (refresh_settles _ _ _ r1); [|exact Ef1]. split; [exact Hlinked|]. rewrite Einv. apply Forall_forall. intros r Hr Hno. apply Hother; [exact Hr|].
      rewrite Hj. apply col_eq_text_false; [exact (H2 r Hr)|exact Hno].
    + exfalso. pose proof (List.find_none _ _ Ef1 r0) as Hno. cbv beta in Hno. rewrite Einv, Hr0i, Hr0c, Hcl0 in Hno. cbn [col_eq] in Hno.
      rewrite !String.eqb_refl in Hno. specialize (Hno (proj1 (list_elem_of_In _ _) Hr0)). discriminate.
Qed.

(** *** Making an invoice *)

Definition unpaid (id : jsval) (w : world) : Prop := forall r, r ∈ rows w TInvoice -> has_id id r = true -> r@."status" <> JStr "PAID".
Lemma retax_settled id taxAmount total w : settled w -> unpaid id w ->
  settled (update_row TInvoice id [("taxAmount", JStr taxAmount); ("total", JStr total)] w).2.
Proof.
  intros Hs Hu. apply update_invoice; [apply Forall_forall; compute_done|reflexivity|now apply settled_any|]. intros r Hr Hid E. exfalso.
  apply (Hu r Hr Hid). rewrite <- E. symmetry. apply (spread_rewrites TInvoice r). compute_done.
Qed.
Lemma post_tax_settled clientId invoice existing t w : settled w -> unpaid invoice@."id" w -> settled (post_tax clientId invoice existing t w).2.
Proof.
  intros Hs Hu. unfold post_tax. unfold bind at 1.
  match goal with |- context [match ?c w with _ => _ end] => set (post := c) end. assert (Ha : apart w (post w).2).
  { unfold post. destruct existing as [e|]; (eapply only_apart; [|apply update_row_only || apply create_row_only]); compute_done. }
  destruct (post w) as [[l|e] w1]; cbn [snd] in Ha; [|now apply (apart_settled w)].
  cbv zeta. apply then_settled; [|intros u; track; apply audit_apart]. apply retax_settled; [now apply (apart_settled w)|].
  intros r Hr. rewrite (Ha TInvoice ltac:(compute_done)) in Hr. now apply Hu.
Qed.
Lemma apply_tax_settled id clientId force w : settled w -> unpaid id w -> settled (applyTaxForInvoice id clientId force w).2.
Proof.
  intros Hs Hu. unfold applyTaxForInvoice, find_owned, find_where, findUnique. rewrite bind_gets. cbv beta.
  destruct (List.find _ _) as [r0|] eqn:Ef; [|exact Hs]. pose proof Ef as [Hr0%list_elem_of_In [Hid0 _]%andb_true_iff]%List.find_some.
  destruct (_ === "VOID"); [exact Hs|]. unfold find_where. rewrite bind_gets. destruct (match List.find _ _ with Some _ => _ | None => _ end); [exact Hs|].
  rewrite bind_gets. cbv zeta. destruct (evaluateTaxReadiness _ _ _) as [|reason type|t]; [exact Hs|..].
  - apply then_settled; [apply (apart_settled w); [apply report_apart|exact Hs]|intros; track].
  - apply post_tax_settled; [exact Hs|]. intros r Hr Hid. apply Hu; [exact Hr|]. destruct Hs as [[_ H2 _ _ _] _]. rewrite Forall_forall in H2.
    destruct (has_text_id id r0 (H2 r0 Hr0) Hid0) as (i & -> & Hi). now rewrite Hi in Hid.
Qed.

Lemma add_invoice data w r w1 : create_row TInvoice data w = (Ok r, w1) -> settled w -> r@."status" <> JStr "PAID" ->
  settled w1 /\ unpaid r@."id" w1.
Proof.
  intros E [[H1 H2 H3 H4 H5] Hc] Hst. pose proof (create_row_only TInvoice data w TClientPayment ltac:(discriminate)) as Ep.
  pose proof (create_row_distinct TInvoice "id" data ltac:(compute_done) w H1) as Hd. rewrite E in Ep, Hd. cbn [snd] in *.
  destruct (create_row_ok _ _ _ _ _ E) as (Hr & Hrows & _).
  assert (Htext : Forall text_id (rows w1 TInvoice)).
  { rewrite Hrows. apply Forall_app_2; [exact H2|]. apply Forall_singleton. rewrite Hr. eexists. reflexivity. }
  split; [split; [split|]|].
  - exact Hd.
  - exact Htext.
  - unfold distinct. rewrite Ep. exact H3.
  - rewrite Ep. exact H4.
  - rewrite Ep, Hrows. eapply Forall_impl; [exact H5|]. intros p [Hn|(i & x & Hi & Hne & Hx & ?)]; [now left|right]. exists i, x. set_solver.
  - rewrite Ep, Hrows. apply Forall_app_2; [exact Hc|]. apply Forall_singleton. now intros ?.
  - intros x Hx Hid. rewrite Forall_forall in Htext. assert (Hrin : r ∈ rows w1 TInvoice) by (rewrite Hrows; set_solver).
    destruct (Htext r Hrin) as [i Hi]. rewrite Hi in Hid. destruct (has_text_id (JStr i) x (Htext x Hx) Hid) as (j & [= <-] & Hj).
    now rewrite (same_id TInvoice w1 i x r Hd Hx Hrin Hj Hi).
Qed.
Lemma create_settled statementId clientId number dueAt tax w : settled w -> settled (createFromStatement statementId clientId number dueAt tax w).2.
Proof.
  intros Hs. unfold createFromStatement, find_owned, find_where, get_now. rewrite bind_gets. cbv beta.
  destruct (List.find _ _) as [st|]; [|exact Hs]. cbv zeta. destruct (nltb _ _); [exact Hs|]. rewrite bind_gets. unfold bind at 1.
  match goal with |- context [match ?c w with _ => _ end] => set (due_date := c) end. assert (Ha : (due_date w).2 = w).
  { unfold due_date. destruct (truthy dueAt); [|reflexivity]. unfold given_date. now destruct (new_date dueAt). }
  destruct (due_date w) as [[due|e] w0]; cbn [snd] in Ha; subst w0; [|exact Hs].
  unfold bind at 1. match goal with |- context [create_row TInvoice ?d w] => set (data := d) end.
  destruct (create_row TInvoice data w) as [[r|e] w1] eqn:E; [|now rewrite (create_row_fails _ _ _ _ _ E)].
  assert (Hst : r@."status" = JStr "DRAFT").
  { destruct (create_row_ok _ _ _ _ _ E) as (-> & _). rewrite (created_column TInvoice data _ _ "status" (JStr "DRAFT")); [reflexivity|..];
      [unfold data; nodup_keys|reflexivity|discriminate|discriminate]. }
  destruct (add_invoice _ _ _ _ E Hs) as [Hs1 Hu]; [now rewrite Hst|]. destruct tax; [|exact Hs1].
  apply then_settled; [now apply apply_tax_settled|intros; track].
Qed.

(** *** Any sequence of invoice operations *)

Inductive invoice_call :=
| Create (statementId clientId invoiceNumber dueAt : jsval) (applyTax : bool)
| Issue (invoiceId clientId : jsval)
| Record (clientId : string) (invoiceId amount currency reference confirm : jsval)
| Confirm (paymentId : jsval) (clientId : string).
Definition invoice_step (c : invoice_call) (w : world) : world :=
  match c with
  | Create s c n d t => (createFromStatement s c n d t w).2
  | Issue i c => (issue i c w).2
  | Record c i a cur ref conf => (recordPayment (JStr c) i a cur ref conf w).2
  | Confirm p c => (confirmPayment p (JStr c) w).2
  end.

Lemma calls_settled calls w : settled w -> settled (fold_left (fun w c => invoice_step c w) calls w).
Proof.
  revert w. induction calls as [|c calls IH]; intros w Hs; [exact Hs|]. cbn [fold_left]. apply IH.
  destruct c; cbn [invoice_step]; [now apply create_settled|now apply issue_settled|now apply record_settled|now apply confirm_settled].
Qed.

(** C23: After any sequence of invoices made and issued and payments recorded and confirmed, in
    whatever order and whether the calls succeed or throw, an invoice that is marked paid has
    confirmed payments above zero that reach its total up to a ten-thousandth. *)
Theorem paid_means_covered calls w :
  settled w -> let w' := fold_left (fun w c => invoice_step c w) calls w in
  forall r, r ∈ rows w' TInvoice -> r@."status" = JStr "PAID" ->
  let paid := confirmed (payments_of (rows w' TClientPayment) r@."id") in
  nleb paid n0 = false /\ nleb (js_number r@."total") (nadd paid CENT_OF_CENT) = true.
Proof.
  intros Hs w' r Hr Hp. destruct (calls_settled calls w Hs) as [_ Hc]. rewrite Forall_forall in Hc. now apply Hc.
Qed.
End Facts.
End SettlementFacts.

(** ** A statement and the ledger *)

Module StatementFacts.
Import Statements.
Section Facts.
Context {H : JsHost} {D : Database}.

(** A row that was created with these columns. *)
Definition stores (t : table) (data : list (string * jsval)) (r : jsval) : Prop :=
  exists id at0, r = JObj (("id", id) :: encode t data ++ [("createdAt", at0)]).
Definition belongs (id l : jsval) : bool := col_eq l@."statementId" id.
(** Statement ids are texts, and every line belongs to a statement. *)
Definition filed (w : world) : Prop :=
  Forall (fun r => exists s, r@."id" = JStr s) (rows w TStatement) /\
  Forall (fun l => exists r, r ∈ rows w TStatement /\ l@."statementId" = r@."id") (rows w TStatementLine).

Lemma stored_statement sid cur ft l : stores TStatementLine (("statementId", JStr sid) :: statement_line cur ft) l -> belongs (JStr sid) l = true.
Proof. intros (id & at0 & ->). apply String.eqb_refl. Qed.

Lemma lines_written sid cur txns w w' :
  for_each txns (fun ft => create_row TStatementLine (("statementId", JStr sid) :: statement_line cur ft) ;; ret tt) w = (Ok tt, w') ->
  exists new, rows w' TStatementLine = rows w TStatementLine ++ new /\
    Forall2 (fun ft l => stores TStatementLine (("statementId", JStr sid) :: statement_line cur ft) l) txns new /\
    only TStatementLine w w'.
Proof.
  revert w. induction txns as [|ft txns IH]; intros w E.
  - injection E as <-. exists []. now rewrite app_nil_r.
  - cbn [for_each] in E. apply bind_ok in E as ([] & w1 & E1 & E). apply bind_ok in E1 as (l & w2 & E1 & E2). injection E2 as <-.
    pose proof (run_tracks _ _ _ _ _ (create_row_only _ _) E1) as Es.
    apply create_row_ok in E1 as (Hl & Hrows & _). destruct (IH w2 E) as (new & Hnew & Hf & Hst). exists (l :: new). split_and!.
    + rewrite Hnew, Hrows. now rewrite <- app_assoc.
    + constructor; [subst l; eexists _, _; reflexivity|exact Hf].
    + now transitivity w2.
Qed.

Lemma filter_all {A} (p : A -> bool) l : (forall x, x ∈ l -> p x = true) -> List.filter p l = l.
Proof. induction l as [|x l IH]; intros Hp; [reflexivity|]. cbn. rewrite (Hp x) by set_solver. f_equal. apply IH. set_solver. Qed.

Definition SETTLED_BALANCE (balance : string) : list (string * jsval) :=
  [("openingBalance", JStr "0"); ("closingBalance", JStr balance); ("status", JStr "OPEN")].
(** Every row of the statement carries the balance. *)
Definition carries (sid balance : string) (w : world) : Prop :=
  forall r, r ∈ rows w TStatement -> col_eq r@."id" (JStr sid) = true ->
  r@."closingBalance" = column_decimal (JStr balance) /\ r@."status" = JStr "OPEN".
Definition cleared (sid : string) (w w1 : world) : Prop :=
  rows w1 TStatementLine = List.filter (fun l => negb (belongs (JStr sid) l)) (rows w TStatementLine).

Lemma refreshed_statement sid balance w s w1 : Forall (fun r => exists s, r@."id" = JStr s) (rows w TStatement) ->
  update_row TStatement (JStr sid) (SETTLED_BALANCE balance) w = (Ok s, w1) ->
  s@."id" = JStr sid /\ carries sid balance w1.
Proof.
  intros Hids E. assert (Hkeep : forall r, (spread r (JObj (encode TStatement (SETTLED_BALANCE balance))))@."id" = r@."id")
    by (intros r; apply (spread_rewrites TStatement r); compute_done).
  split.
  - unfold update_row in E. destruct (negb _); [discriminate|]. destruct (List.find _ _) as [r|] eqn:Ef; [|discriminate]. injection E as <- _.
    rewrite Hkeep. apply List.find_some in Ef as [_ Hi]. now apply col_eq_str in Hi.
  - apply update_row_ok in E. intros r Hr Hi. rewrite E in Hr. apply list_elem_of_fmap in Hr as (x & -> & Hx). destruct (has_id (JStr sid) x) eqn:Ex.
    + split; [rewrite (updated_column TStatement _ x "closingBalance" (JStr balance))|rewrite (updated_column TStatement _ x "status" (JStr "OPEN"))];
        (nodup_keys || reflexivity || discriminate).
    + unfold has_id in Ex. congruence.
Qed.
Lemma created_statement c from to cur balance w s w1 :
  create_row TStatement (("clientId", JStr c) :: ("periodStart", date_column from) :: ("periodEnd", date_column to) :: ("currency", JStr cur)
                         :: SETTLED_BALANCE balance) w = (Ok s, w1) ->
  exists sid, s@."id" = JStr sid /\ carries sid balance w1 /\ forall r, r ∈ rows w TStatement -> col_eq r@."id" (JStr sid) = false.
Proof.
  intros E. apply create_row_ok in E as (-> & Hrows & Hnew). exists (fresh_id (next_id w)). split; [reflexivity|].
  assert (Hno : forall r, r ∈ rows w TStatement -> col_eq r@."id" (JStr (fresh_id (next_id w))) = false) by (intros r Hr; apply (Hnew "id" r); [compute_done|exact Hr]).
  split; [|exact Hno]. intros r Hr Hi. rewrite Hrows in Hr. apply elem_of_app in Hr as [Hr| ->%list_elem_of_singleton].
  - rewrite (Hno r Hr) in Hi. discriminate.
  - now split.
Qed.

(** The statement and its id, with the lines of that statement cleared. *)
Lemma statement_written c cur from to balance w s w1 : filed w ->
  bind (find_statement (JStr c) cur from to) (fun existing =>
    match existing with
    | Some e => delete_lines e@."id" ;; update_row TStatement e@."id" (SETTLED_BALANCE balance)
    | None =>
        create_row TStatement (("clientId", JStr c) :: ("periodStart", date_column from) :: ("periodEnd", date_column to)
                               :: ("currency", JStr cur) :: SETTLED_BALANCE balance)
    end) w = (Ok s, w1) ->
  exists sid, s@."id" = JStr sid /\ carries sid balance w1 /\ cleared sid w w1 /\ rows w1 TFinancial = rows w TFinancial.
Proof.
  intros [Hids Hlines]. unfold find_statement, find_where. rewrite bind_gets. cbv beta. destruct (List.find _ _) as [e|] eqn:Ef; intros E.
  - apply List.find_some in Ef as [He _]. rewrite Forall_forall in Hids. destruct (Hids e (proj2 (list_elem_of_In _ _) He)) as [sid Hsid].
    rewrite Hsid in E. apply bind_ok in E as ([] & w0 & E0 & E). injection E0 as <-. exists sid. unfold cleared.
    pose proof (run_tracks _ _ _ _ _ (update_row_only _ _ _) E) as Ho.
    apply refreshed_statement in E as [Hs Hc]; [|rewrite rows_set_other by discriminate; now rewrite Forall_forall].
    split_and!; [exact Hs|exact Hc|..]; rewrite Ho by discriminate; [apply rows_set_same|now apply rows_set_other].
  - pose proof (run_tracks _ _ _ _ _ (create_row_only _ _) E) as Ho. apply created_statement in E as (sid & Hs & Hc & Hno). exists sid. split_and!; [exact Hs|exact Hc| |now apply Ho]. unfold cleared.
    rewrite Ho by discriminate. symmetry. apply filter_all. intros l Hl. rewrite Forall_forall in Hlines.
    destruct (Hlines l Hl) as (r & Hr & Hlr). unfold belongs. now rewrite Hlr, (Hno r Hr).
Qed.

Lemma filter_negb_nil {A} (p : A -> bool) l : List.filter p (List.filter (fun x => negb (p x)) l) = [].
Proof. induction l as [|x l IH]; [reflexivity|]. cbn. destruct (p x) eqn:E; cbn; [exact IH|]. now rewrite E. Qed.

(** What [getStatementForClient] gives back. *)
Lemma statement_given sid c w out w' : getStatementForClient (JStr sid) (JStr c) w = (Ok out, w') ->
  w' = w /\ exists r, r ∈ rows w TStatement /\ col_eq r@."id" (JStr sid) = true /\
    out@."lines" = JArr (List.filter (belongs (JStr sid)) (rows w TStatementLine)) /\
    forall k, k ∉ ["lines"; "invoices"] -> prop out k = prop r k.
Proof.
  unfold getStatementForClient, find_owned, find_where, findMany. rewrite bind_gets. cbv beta. destruct (List.find _ _) as [r|] eqn:Ef; [|discriminate].
  rewrite !bind_gets. intros E. injection E as <- <-. split; [reflexivity|]. apply List.find_some in Ef as [Hr%list_elem_of_In [Hi _]%andb_true_iff].
  exists r. rewrite !prop_relation. apply col_eq_str in Hi as Hs. split_and!; [exact Hr|exact Hi|now rewrite Hs|].
  intros k Hk. rewrite !prop_relation.
  destruct (String.eqb_spec "invoices" k); [set_solver|]. destruct (String.eqb_spec "lines" k); [set_solver|reflexivity].
Qed.
Lemma own_lines sid cur txns old new :
  Forall2 (fun ft l => stores TStatementLine (("statementId", JStr sid) :: statement_line cur ft) l) txns new ->
  List.filter (belongs (JStr sid)) (List.filter (fun l => negb (belongs (JStr sid) l)) old ++ new) = new.
Proof.
  intros Hf. rewrite List.filter_app, filter_negb_nil. apply filter_all. intros l Hl. apply list_elem_of_lookup in Hl as [n Hn].
  destruct (Forall2_lookup_r _ _ _ _ _ Hf Hn) as (ft & _ & Hs). now apply stored_statement in Hs.
Qed.

(** The ledger of a client in a currency and a period, in the order of the statement. *)
Definition ledger (c cur : string) (from to : Z) (w : world) : list jsval :=
  sort_by (fun a b => instant a@."effectiveAt" <=? instant b@."effectiveAt")
    (List.filter (in_statement (JStr c) cur from to) (rows w TFinancial)).

(** C26: When a statement of a client is built or refreshed, its lines are one for every transaction
    of the client in that currency and period, in the order of time, each with the transaction's
    own amount; the closing balance is their sum to four digits; and the lines of the other
    statements and the transactions are as before. *)
Theorem statement_is_the_ledger c ps pe currency from to w out w' :
  filed w -> new_date ps = Some from -> new_date pe = Some to ->
  buildOrRefresh (JStr c) ps pe currency w = (Ok out, w') ->
  let cur := to_upper (js_string currency) in
  exists sid lines, out@."id" = JStr sid /\ out@."lines" = JArr lines /\
    Forall2 (fun ft l => stores TStatementLine (("statementId", JStr sid) :: statement_line cur ft) l) (ledger c cur from to w) lines /\
    out@."closingBalance" = column_decimal (JStr (num_toFixed 4 (balance_of cur (ledger c cur from to w)))) /\
    rows w' TStatementLine = List.filter (fun l => negb (belongs (JStr sid) l)) (rows w TStatementLine) ++ lines /\
    rows w' TFinancial = rows w TFinancial.
Proof.
  intros Hw Hfrom Hto E cur. unfold buildOrRefresh in E. destruct (negb (truthy (JStr c))); [discriminate|]. cbv zeta in E. fold cur in E.
  unfold given_date in E. rewrite Hfrom, Hto in E. unfold bind at 1, ret at 1 in E. unfold bind at 1, ret at 1 in E.
  unfold statement_transactions in E. rewrite bind_gets in E. fold (ledger c cur from to w) in E. set (txns := ledger c cur from to w) in *.
  apply bind_ok in E as (existing & w0 & E0 & E). apply bind_ok in E as (s & w1 & E1 & E). apply bind_ok in E as ([] & w2 & El & E).
  destruct (statement_written c cur from to (num_toFixed 4 (balance_of cur txns)) w s w1 Hw) as (sid & Hs & Hcarry & Hclear & Hft); [unfold bind; now rewrite E0|].
  rewrite Hs in El, E.
  destruct (lines_written _ _ _ _ _ El) as (new & Hnew & Hstores & Honly). apply statement_given in E as [-> (r & Hr & Hi & Hlines & Hk)].
  rewrite Honly in Hr by discriminate. destruct (Hcarry r Hr Hi) as [Hbal _]. unfold cleared in Hclear.
  exists sid, new. rewrite (Hk "id"), (Hk "closingBalance") by compute_done. split_and!.
  - now apply col_eq_str in Hi.
  - rewrite Hlines, Hnew, Hclear. f_equal. eapply own_lines, Hstores.
  - exact Hstores.
  - exact Hbal.
  - now rewrite Hnew, Hclear.
  - now rewrite Honly, Hft by discriminate.
Qed.

End Facts.
End StatementFacts.

(** ** Tax is the contract's or none *)

Module TaxFacts.
Import Tax.
Section Facts.
Context {H : JsHost} {D : Database}.

(** What the profile of a client must say before anything is taxed, and what is then taxed. *)
Record contract_tax (profile invoice : jsval) (t : tax) : Prop := ContractTax {
  tax_enabled : is_true profile@."taxEnabled" = true;
  tax_reviewed : profile@."legalReviewStatus" = JStr "APPROVED" \/ profile@."legalReviewStatus" = JStr "NOT_REQUIRED";
  tax_rate : taxRate t = js_number profile@."taxRatePercent" /\ blank profile@."taxRatePercent" = false /\
             is_finite (taxRate t) = true /\ nltb (taxRate t) n0 = false;
  tax_place : taxCountry t = profile@."taxCountry" /\ truthy profile@."taxCountry" = true;
  tax_sum : taxAmount t = round4 (ndiv (nmul (taxable_of invoice) (taxRate t)) (num_of_Z 100))
}.

Lemma ready_contract profile invoice t : evaluateTaxReadiness profile invoice@."currency" (taxable_of invoice) = Apply t ->
  contract_tax profile invoice t.
Proof.
  unfold evaluateTaxReadiness. destruct (negb (truthy profile) || _) eqn:E1; [discriminate|]. apply orb_false_iff in E1 as [_ E1%negb_false_iff].
  destruct (negb _ && negb _) eqn:E2; [discriminate|]. destruct (blank _) eqn:E3; [discriminate|]. destruct (negb (truthy _@."taxCountry")) eqn:E4; [discriminate|].
  cbv zeta. destruct (negb (is_finite (js_number _)) || _) eqn:E5; [discriminate|]. apply orb_false_iff in E5 as [E5%negb_false_iff E5'].
  destruct (negb (is_finite (taxable_of _)) || _); [discriminate|]. destruct (_ || _); [discriminate|]. intros [= <-].
  split; cbn; auto.
  - apply andb_false_iff in E2 as [E2%negb_false_iff|E2%negb_false_iff]; apply is_str_eq in E2; auto.
  - apply negb_false_iff in E4. auto.
Qed.

(** What a posting leaves in the row of the ledger and on the invoice. *)
Record taxed (invoice : jsval) (t : tax) (r : tax_result) : Prop := Taxed {
  posted_rate : (tax_ledger r)@."taxRate" = column_decimal (JStr (num_to_string (taxRate t)));
  posted_amount : (tax_ledger r)@."taxAmount" = column_decimal (JStr (num_to_string (taxAmount t)));
  posted_status : (tax_ledger r)@."status" = JStr "POSTED";
  posted_total : (tax_invoice r)@."total" = column_decimal (JStr (num_to_string (round4 (nadd (taxable_of invoice) (taxAmount t)))))
}.

(** A row that was just created or updated reads back the columns that were written. *)
Lemma written_column t k v data w r w' :
  (create_row t data w = (Ok r, w') \/ exists id, update_row t id data w = (Ok r, w')) ->
  NoDup (map fst data) -> assoc k data = Some v -> v <> JUndef -> k <> "id" -> prop r k = (encode_field t (k, v)).2.
Proof.
  intros [E|[id E]] Hn Ha Hv Hk.
  - apply create_row_ok in E as (-> & _). now apply created_column.
  - unfold update_row in E. destruct (negb _); [discriminate|]. destruct (List.find _ _); [|discriminate]. injection E as <- _. now apply updated_column.
Qed.
Lemma ledger_keys clientId invoice t : NoDup (map fst (ledger_data clientId invoice t)).
Proof. unfold ledger_data. nodup_keys. Qed.

Lemma post_tax_ok clientId invoice existing t w r w' : post_tax clientId invoice existing t w = (Ok r, w') -> applied r = true /\ reused r = false /\ taxed invoice t r.
Proof.
  unfold post_tax. intros (l & w1 & El & E)%bind_ok. cbv zeta in E. apply bind_ok in E as (u & w2 & Eu & E). apply bind_ok in E as ([] & w3 & _ & E).
  injection E as <- _. do 2 (split; [reflexivity|]).
  assert (Hl : create_row TTaxLedger (ledger_data clientId invoice t) w = (Ok l, w1) \/ exists id, update_row TTaxLedger id (ledger_data clientId invoice t) w = (Ok l, w1))
    by (destruct existing; eauto). clear El.
  pose proof (fun k v => written_column _ k v _ _ _ _ Hl (ledger_keys _ _ _)) as Hcol. split; cbn [tax_ledger tax_invoice].
  - now rewrite (Hcol "taxRate" (JStr (num_to_string (taxRate t)))).
  - now rewrite (Hcol "taxAmount" (JStr (num_to_string (taxAmount t)))).
  - now rewrite (Hcol "status" (JStr "POSTED")).
  - remember (round4 _) as total. now rewrite (written_column TInvoice "total" (JStr (num_to_string total)) _ _ _ _ (or_intror (ex_intro _ _ Eu)) ltac:(nodup_keys)).
Qed.

(** An invoice is taxed only when the profile of its client says that it is: taxation is
    enabled, the legal review is approved or waived, and a rate and a country are given; the
    rate posted is the profile's, the tax is that percentage of the subtotal with its
    adjustments, and the total is raised by it.  In every other case that returns, the tax
    ledger and the invoices stay as they are. *)
Theorem tax_from_contract id c force w r w' :
  applyTaxForInvoice id (JStr c) force w = (Ok r, w') -> reused r = false ->
  if applied r
  then exists p invoice t, p ∈ rows w TTaxProfile /\ p@."clientId" = JStr c /\ invoice ∈ rows w TInvoice /\ invoice@."clientId" = JStr c /\
         contract_tax p invoice t /\ taxed invoice t r
  else rows w' TTaxLedger = rows w TTaxLedger /\ rows w' TInvoice = rows w TInvoice.
Proof.
  unfold applyTaxForInvoice, find_owned, find_where, findUnique. rewrite bind_gets. cbv beta.
  destruct (List.find _ (rows w TInvoice)) as [invoice|] eqn:Ef; [|discriminate]. apply List.find_some in Ef as [Hin%list_elem_of_In [_ Hc%col_eq_str]%andb_true_iff].
  destruct (_ === "VOID"); [discriminate|]. unfold find_where. rewrite bind_gets.
  destruct (match List.find _ _ with Some _ => _ | None => _ end); [intros [= <- <-]; discriminate|]. rewrite bind_gets. cbv zeta.
  destruct (List.find _ (rows w TTaxProfile)) as [p|] eqn:Ep; cbn [default].
  - apply List.find_some in Ep as [Hp%list_elem_of_In Hpc%col_eq_str]. destruct (evaluateTaxReadiness _ _ _) as [|reason type|t] eqn:Er.
    + intros [= <- <-] _. now split.
    + intros (x & w1 & E1 & E)%bind_ok _. injection E as <- <-. cbn [applied].
      unfold reportBlocked in E1. match type of E1 with report ?i w = _ => destruct (ExceptionFacts.report_within i w) as [_ Hw] end.
      rewrite E1 in Hw. split; apply Hw; compute_done.
    + intros E _. apply post_tax_ok in E as (-> & _ & Ht). apply ready_contract in Er. exists p, invoice, t. auto 10.
  - cbn. intros [= <- <-] _. now split.
Qed.
End Facts.
End TaxFacts.
