(* ===== verification/Encryption.v ===== *)
(** * Stored secrets

    [platform/security/encryption.js]: a secret is stored as the base64 text of the initial
    vector, the authentication tag and the encrypted bytes, twelve, sixteen and the rest.
    [node:crypto] is the interface [Cipher], the coding of [Buffer] the interface [Base64];
    a text is the list of its UTF-8 bytes. *)

From S2P Require Import Prelude JsNum JsVal JsDate JsDay Store Accounts.

(** [Buffer.from(s).toString("base64")] and [Buffer.from(s, "base64")] *)
Class Base64 := {
  to_base64 : string -> string;
  of_base64 : string -> string;
  base64_roundtrip s : of_base64 (to_base64 s) = s
}.
(** SHA-256, AES-256-GCM and the random source: what is sealed under a key and a vector is
    opened again with its tag; the tag has sixteen bytes. *)
Class Cipher := {
  sha256 : string -> string;
  random_bytes : nat -> nat -> string;
  seal : string -> string -> string -> string * string;
  unseal : string -> string -> string -> string -> option string;
  random_length d n : String.length (random_bytes d n) = n;
  tag_length key iv text : String.length (seal key iv text).2 = 16%nat;
  unseal_seal key iv text : unseal key iv (seal key iv text).2 (seal key iv text).1 = Some text
}.

Module Secrets.
Section Secrets.
Context {B : Base64} {C : Cipher}.

Definition deriveKey (secret : string) : string := sha256 secret.
Definition not_configured : js_error := plain_error "Encryption secret is not configured.".
Definition not_authentic : js_error := plain_error "Unsupported state or unable to authenticate data".

Definition encryptSecret (plaintext : jsval) (secret : string) {H : JsHost} : prog world string :=
  if secret =s? "" then throw not_configured
  else
    let! d := draw in
    let iv := random_bytes d 12 in
    let '(encrypted, tag) := seal (deriveKey secret) iv (js_string plaintext) in
    ret (to_base64 (iv +:+ tag +:+ encrypted)).
(** [raw.subarray(i, j)], and to the end. *)
Definition decryptSecret (ciphertext secret : string) : prog world string :=
  if secret =s? "" then throw not_configured
  else
    let raw := of_base64 ciphertext in
    let iv := slice 0 12 raw in
    let tag := slice 12 28 raw in
    let encrypted := string_drop 28 raw in
    match unseal (deriveKey secret) iv tag encrypted with
    | Some text => ret text
    | None => throw not_authentic
    end.

Lemma append_cons c s t : String c s +:+ t = String c (s +:+ t).
Proof. reflexivity. Qed.
Lemma append_assoc s t u : (s +:+ t) +:+ u = s +:+ t +:+ u.
Proof. induction s as [|c s IH]; [reflexivity|]. now rewrite !append_cons, IH. Qed.
Lemma append_length s t : String.length (s +:+ t) = (String.length s + String.length t)%nat.
Proof. induction s as [|c s IH]; [reflexivity|]. rewrite append_cons. cbn. now rewrite IH. Qed.
Lemma substring_skip n m s t : String.length s = n -> String.substring n m (s +:+ t) = String.substring 0 m t.
Proof. revert n. induction s as [|c s IH]; intros n <-; [reflexivity|]. rewrite append_cons. cbn. now apply IH. Qed.
Lemma substring_whole s : String.substring 0 (String.length s) s = s.
Proof. induction s as [|c s IH]; [reflexivity|]. cbn. now f_equal. Qed.
Lemma layout iv tag text : String.length iv = 12%nat -> String.length tag = 16%nat ->
  let raw := iv +:+ tag +:+ text in slice 0 12 raw = iv /\ slice 12 28 raw = tag /\ string_drop 28 raw = text.
Proof.
  intros Hi Ht raw. unfold raw, slice. split_and!.
  - rewrite <- Hi at 1. rewrite Nat.sub_0_r. apply substring_prefix.
  - rewrite substring_skip by exact Hi. change (28 - 12)%nat with 16%nat. rewrite <- Ht at 1. apply substring_prefix.
  - unfold string_drop. rewrite <- append_assoc, substring_skip by (rewrite append_length; lia). rewrite !append_length, Hi, Ht.
    replace (_ - 28)%nat with (String.length text) by lia. apply substring_whole.
Qed.

Lemma encrypted {H : JsHost} plaintext secret w enc w' : encryptSecret plaintext secret w = (Ok enc, w') ->
  rows w' = rows w /\ now w' = now w /\ forall v, decryptSecret enc secret v = (Ok (js_string plaintext), v).
Proof.
  unfold encryptSecret, decryptSecret. destruct (String.eqb_spec secret "") as [->|Hne]; [discriminate|].
  intros (d & w1 & Ed & E)%bind_ok. cbv zeta in E. pose proof (unseal_seal (deriveKey secret) (random_bytes d 12) (js_string plaintext)) as Hu.
  pose proof (tag_length (deriveKey secret) (random_bytes d 12) (js_string plaintext)) as Ht.
  destruct (seal _ _ _) as [text tag]. cbn [fst snd] in *. injection E as <- <-. injection Ed as _ <-. split_and!; [reflexivity..|]. intros v.
  rewrite base64_roundtrip. destruct (layout (random_bytes d 12) tag text (random_length _ _) Ht) as (-> & -> & ->). now rewrite Hu.
Qed.

(** A text that was encrypted under a secret is read back under the same secret, whatever the
    random source gave; without a secret neither call does anything but throw. *)
Theorem secret_roundtrip {H : JsHost} plaintext secret w :
  match encryptSecret plaintext secret w with
  | (Ok stored, w') => decryptSecret stored secret w' = (Ok (js_string plaintext), w') /\ rows w' = rows w
  | (Throw e, w') => secret = "" /\ e = not_configured /\ w' = w /\ forall c, decryptSecret c secret w = (Throw not_configured, w)
  end.
Proof.
  destruct (encryptSecret plaintext secret w) as [[stored|e] w'] eqn:E.
  - apply encrypted in E as (Hr & _ & Hd). now rewrite Hd.
  - unfold encryptSecret in E. destruct (String.eqb_spec secret "") as [->|Hne]; [injection E as <- <-; cbn; auto|].
    unfold bind, draw in E. cbn [fst snd] in E. destruct (seal _ _ _). discriminate E.
Qed.
End Secrets.
End Secrets.
