(* ===== verification/Withdrawals.v ===== *)
(** * What a client has earned, and what it may withdraw

    [modules/finance/financeConsumer.service.js]: earnings by the snapshots on conversions and by
    the ledger, compared; and the money of [modules/client/services/portalDashboard.service.js]:
    the payments summary of a client, its bank details and its withdrawals.  A relation loaded
    with [include] is a field of its row; bounds of a period are instants or absent.  The mode
    of the process is an argument, as is the key of the bank details. *)

From Stdlib Require Import SpecFloat.
From S2P Require Import Prelude JsNum JsVal JsDate JsDay Money Store Accounts Encryption Separation.
Import AttributionMath.
Local Open Scope Z_scope.

(** [const n = Number(v); Number.isFinite(n) ? Number(n.toFixed(4)) : 0] *)
Definition money {H : JsHost} (value : jsval) : num :=
  let n := js_number value in if is_finite n then round4 n else n0.

(** ** [financeConsumer.service.js] *)

Module FinanceConsumer.

Definition FINANCE_CONSUMER_MODES : list string := ["LEGACY"; "SHADOW"; "FINANCE"].
(** The comparison of two amounts. *)
Inductive COMPARISON_STATUS := MATCH | DIFFERENCE | LEGACY_ONLY | FINANCE_ONLY.
#[export] Instance comparison_eq_dec : EqDecision COMPARISON_STATUS.
Proof. solve_decision. Defined.

Record legacy_sum := LegacySum { l_approved : num; l_pending : num; l_total : num }.
Record finance_sum := FinanceSum {
  f_net : num; f_supplier : num; f_margin : num; f_currency : jsval; f_count : nat; f_reconciles : option bool
}.
Record comparison := Comparison { c_legacy : num; c_finance : num; c_difference : num; c_status : COMPARISON_STATUS }.
Record earnings := Earnings {
  e_mode : string; e_legacy : legacy_sum; e_finance : finance_sum; e_comparison : comparison;
  conversionCount : nat; financialTransactionCount : nat
}.
Record coverage := Coverage {
  eligibleApprovedConversions : nat; financiallyRecognized : nat; coveragePercent : num; coverage_complete : bool
}.
Record display := Display { approvedCommission : num; pendingCommission : num; source : string; authoritative : bool }.
Record period := Period { p_from : option Z; p_to : option Z }.
Definition always : period := Period None None.

Section Service.
Context {H : JsHost} {D : Database}.

(** [String(process.env.FINANCE_CONSUMER_MODE || "LEGACY")...] *)
Definition getFinanceConsumerMode (env : jsval) : string :=
  let raw := to_upper (trim (js_string (env |or| JStr "LEGACY"))) in
  if existsb (String.eqb raw) FINANCE_CONSUMER_MODES then raw else "LEGACY".

Definition dayKey (date : jsval) : option string :=
  match new_date date with Some t => Some (iso_slice t) | None => None end.

Definition sumLegacyClientCommission (conversions : list jsval) (includePending : bool) : legacy_sum :=
  let '(approved, pending) :=
    fold_left (fun '(approved, pending) conv =>
      if isRejectedConversionStatus conv@."status" then (approved, pending)
      else
        let amt := if blank conv@."clientCommission" then n0 else money conv@."clientCommission" in
        if isPayableConversionStatus conv@."status" then (nadd approved amt, pending)
        else if includePending then (approved, nadd pending amt) else (approved, pending))
      conversions (n0, n0) in
  LegacySum (money (JNum approved)) (money (JNum pending)) (money (JNum (nadd approved pending))).

(** The row has a payable in the reporting currency. *)
Definition reports_in (cur : jsval) (useReporting : bool) (row : jsval) : bool :=
  col_eq (row@."reportingCurrency" |or| JNull) cur && negb (nullish row@."reportingClientPayable") && useReporting.
Definition counts_in (cur : jsval) (useReporting : bool) (row : jsval) : bool :=
  negb (truthy cur) || reports_in cur useReporting row
  || (negb (truthy row@."reportingCurrency") && col_eq (row@."originalCurrency" |or| JNull) cur).
Definition row_payable (cur : jsval) (useReporting : bool) (row : jsval) : num :=
  js_number (if truthy cur && reports_in cur useReporting row then row@."reportingClientPayable" else row@."clientPayable" |or| JNum n0).
(** [transactions.find((t) => t.field)?.field] *)
Definition first_field (field : string) (rows : list jsval) : jsval :=
  match List.find (fun t => truthy (prop t field)) rows with Some t => prop t field | None => JUndef end.

Definition sumFinanceClientPayable (transactions : list jsval) (useReporting : bool) (reportingCurrency : jsval) : finance_sum :=
  match transactions with
  | [] => FinanceSum n0 n0 n0 reportingCurrency 0 None
  | _ :: _ =>
      let included := List.filter (counts_in reportingCurrency useReporting) transactions in
      let net := fold_left (fun s row => nadd s (row_payable reportingCurrency useReporting row)) included n0 in
      let position := Reconciliation.netFinancialPosition transactions in
      FinanceSum (money (JNum net)) (money (JStr (Reconciliation.n_supplier position))) (money (JStr (Reconciliation.n_margin position)))
        (reportingCurrency |or| first_field "reportingCurrency" transactions |or| first_field "originalCurrency" transactions |or| JNull)
        (length included) (Some (Reconciliation.reconciles position))
  end.

(** [{ gte: from, lte: to }] on a date column *)
Definition within_period (p : period) (v : jsval) : bool :=
  match p_from p, p_to p with
  | None, None => true
  | _, _ =>
      match v with
      | JDate (Some t) =>
          (match p_from p with Some a => a <=? t | None => true end) && (match p_to p with Some b => t <=? b | None => true end)
      | _ => false
      end
  end.
Definition member_id (ids : list jsval) (v : jsval) : bool := existsb (fun i => col_eq v i) ids.
(** [where.conversion = { clientAssignmentId: { in: assignmentIds } }] *)
Definition of_assignments (ids : list jsval) (conversions : list jsval) (ft : jsval) : bool :=
  match ids with
  | [] => true
  | _ => existsb (fun c => has_id ft@."conversionId" c && member_id ids c@."clientAssignmentId") conversions
  end.
Definition transactions_in (clientId : jsval) (p : period) (assignmentIds : list jsval) (w : world) : list jsval :=
  sort_by (fun a b => date_of a@."effectiveAt" <=? date_of b@."effectiveAt")
    (List.filter (fun ft => col_eq ft@."clientId" clientId && within_period p ft@."effectiveAt"
                            && of_assignments assignmentIds (rows w TConversion) ft) (rows w TFinancial)).
Definition conversions_in (p : period) (assignmentIds : list jsval) (w : world) : list jsval :=
  match assignmentIds with
  | [] => []
  | _ => List.filter (fun c => member_id assignmentIds c@."clientAssignmentId" && within_period p c@."conversionDate") (rows w TConversion)
  end.
Definition loadClientFinancialTransactions (clientId : jsval) (p : period) (assignmentIds : list jsval) : prog world (list jsval) :=
  gets (transactions_in clientId p assignmentIds).
Definition loadClientConversions (p : period) (assignmentIds : list jsval) : prog world (list jsval) :=
  gets (conversions_in p assignmentIds).

(** 0.0002 *)
Definition comparison_tolerance : num := num_of_ratio 2 10000.
Definition is_zero (x : num) : bool := neqb x n0.
Definition compareAmounts (legacyAmount financeAmount tolerance : num) : comparison :=
  let diff := money (JNum (nsub financeAmount legacyAmount)) in
  let status :=
    if is_zero legacyAmount && is_zero financeAmount then MATCH
    else if negb (is_zero legacyAmount) && is_zero financeAmount then LEGACY_ONLY
    else if is_zero legacyAmount && negb (is_zero financeAmount) then FINANCE_ONLY
    else if nltb tolerance (nabs diff) then DIFFERENCE
    else MATCH in
  Comparison (money (JNum legacyAmount)) (money (JNum financeAmount)) diff status.

(** The assignments of a client that are not revoked. *)
Definition client_assignments (clientId : jsval) (w : world) : list jsval :=
  List.filter (fun a => col_eq a@."clientId" clientId && negb (a@."status" === "REVOKED")) (rows w TAssignment).
Definition ids_of (rs : list jsval) : list jsval := map (fun r => r@."id") rs.

Definition compareClientEarnings (mode : string) (clientId : jsval) (p : period) (assignmentIds : option (list jsval)) (reportingCurrency : jsval)
    : prog world earnings :=
  let! ids := match assignmentIds with
              | Some ids => ret ids
              | None => let! rs := gets (client_assignments clientId) in ret (ids_of rs)
              end in
  let! conversions := loadClientConversions p ids in
  let! transactions := loadClientFinancialTransactions clientId p ids in
  let legacy := sumLegacyClientCommission conversions true in
  let finance := sumFinanceClientPayable transactions true reportingCurrency in
  ret (Earnings mode legacy finance (compareAmounts (l_approved legacy) (f_net finance) comparison_tolerance)
         (length conversions) (length transactions)).

(** A [Map] from keys to arrays, in the order of first insertion. *)
Definition push_to (key : string) (v : jsval) (groups : list (string * list jsval)) : list (string * list jsval) :=
  assoc_set key (default [] (assoc key groups) ++ [v]) groups.
Definition print_key (day : option string) : string := default "null" day.

Definition group_conversions (assignments conversions : list jsval) : list (string * list jsval) :=
  fold_left (fun groups conv =>
    if negb (truthy conv@."clientAssignmentId") then groups
    else
      match List.find (has_id conv@."clientAssignmentId") (rev assignments) with
      | Some a =>
          if truthy a@."clientId"
          then push_to (js_string a@."clientId" +:+ "|" +:+ print_key (dayKey conv@."conversionDate") +:+ "|" +:+ js_string (conv@."currency" |or| JStr "UNK"))
                 conv groups
          else groups
      | None => groups
      end) conversions [].
Definition transaction_key (txn : jsval) : string :=
  js_string txn@."clientId" +:+ "|" +:+ print_key (dayKey txn@."effectiveAt") +:+ "|"
  +:+ js_string (txn@."reportingCurrency" |or| txn@."originalCurrency" |or| JStr "UNK").
Definition group_transactions (transactions : list jsval) : list (string * list jsval) :=
  fold_left (fun groups txn => push_to (transaction_key txn) txn groups) transactions [].

Record report_row := ReportRow { rr_key : string; rr_comparison : comparison }.
Record report_summary := ReportSummary { matches : nat; differences : nat; legacyOnly : nat; financeOnly : nat; rr_total : nat }.
Definition count_status (s : COMPARISON_STATUS) (l : list report_row) : nat :=
  length (List.filter (fun r => bool_decide (c_status (rr_comparison r) = s)) l).
Definition summary_of (l : list report_row) : report_summary :=
  ReportSummary (count_status MATCH l) (count_status DIFFERENCE l) (count_status LEGACY_ONLY l) (count_status FINANCE_ONLY l) (length l).
(** [new Set([...a.keys(), ...b.keys()])] *)
Definition keys_of (a b : list (string * list jsval)) : list string :=
  map fst a ++ List.filter (fun k => negb (existsb (String.eqb k) (map fst a))) (map fst b).
Definition report_rows (legacyByKey financeByKey : list (string * list jsval)) : list report_row :=
  map (fun key =>
    let legacy := sumLegacyClientCommission (default [] (assoc key legacyByKey)) true in
    let finance := sumFinanceClientPayable (default [] (assoc key financeByKey)) true JNull in
    ReportRow key (compareAmounts (l_approved legacy) (f_net finance) comparison_tolerance)) (keys_of legacyByKey financeByKey).

Definition compareDailyReportDimensions (p : period) (clientId : jsval) : prog world (report_summary * list report_row) :=
  let! assignments :=
    if truthy clientId then gets (client_assignments clientId)
    else gets (fun w => List.filter (fun a => negb (a@."status" === "REVOKED")) (rows w TAssignment)) in
  let! conversions := loadClientConversions p (ids_of assignments) in
  let! transactions :=
    if truthy clientId then loadClientFinancialTransactions clientId p []
    else gets (fun w => List.filter (fun ft => within_period p ft@."effectiveAt") (rows w TFinancial)) in
  let l := report_rows (group_conversions assignments conversions) (group_transactions transactions) in
  ret (summary_of l, l).

Definition eligible_conversion (clientId : jsval) (assignments : list jsval) (c : jsval) : bool :=
  ((c@."status" === "APPROVED") || (c@."status" === "PAID"))
  && (negb (truthy clientId) || existsb (fun a => has_id c@."clientAssignmentId" a && col_eq a@."clientId" clientId) assignments).
Definition earned_transaction (clientId ft : jsval) : bool :=
  (ft@."transactionType" === "COMMISSION_EARNED") && (negb (truthy clientId) || col_eq ft@."clientId" clientId).
Definition getFinancialCoverage (clientId : jsval) : prog world coverage :=
  let! eligible := gets (fun w => length (List.filter (eligible_conversion clientId (rows w TAssignment)) (rows w TConversion))) in
  let! withFinance := gets (fun w => length (List.filter (earned_transaction clientId) (rows w TFinancial))) in
  let ratio := nmul (ndiv (num_of_Z (Z.of_nat withFinance)) (num_of_Z (Z.of_nat eligible))) (num_of_Z 100) in
  let pct := if (0 <? eligible)%nat then string_to_num (num_toFixed 2 ratio) else n0 in
  ret (Coverage eligible withFinance pct ((0 <? eligible)%nat && (eligible <=? withFinance)%nat)).

Definition recordShadowDiscrepancy (payload : jsval) : prog world unit :=
  let! t := get_now in
  audit_record
    [("aggregateType", JStr "FinanceConsumerShadow"); ("aggregateId", payload@."clientId" ?? JNull);
     ("action", JStr "finance_consumer.shadow_discrepancy");
     ("metadata", spread payload (JObj [("recordedAt", JStr (to_iso_string t))]))].

Definition resolveDisplayCommission (mode : string) (legacyApproved legacyPending financeNet : num) : display :=
  if mode =s? "FINANCE" then Display financeNet n0 "financial_transaction" true
  else Display legacyApproved legacyPending "conversion_snapshot" (mode =s? "LEGACY").

End Service.
End FinanceConsumer.

(** ** The money of [portalDashboard.service.js] *)

(** [Math.floor(Math.random() * 9000)] *)
Class Dice := {
  random_9000 : nat -> Z;
  random_range d : 0 <= random_9000 d < 9000
}.

Module PortalMoney.
Import FinanceConsumer.

Record kpis := Kpis { available : num; k_pending : num; inProgress : num; paid : num }.
Record brand_row := BrandRow { brand : string; confirmedCommission : num; pendingConfirmation : num }.
Record payments_summary := PaymentsSummary {
  s_currency : jsval; s_kpis : kpis; commissionSource : string; commissionAuthoritative : bool;
  s_bank : jsval; byBrand : list brand_row; s_withdrawals : list jsval
}.

Section Service.
Context {H : JsHost} {D : Database} {B : Base64} {C : Cipher} {V : Dice}.

Definition assertPartnerClient (clientId : jsval) : prog world jsval :=
  let! found := client_by_id clientId in
  match found with
  | None => throw (api_fail "Client not found." 404)
  | Some client =>
      if (client@."status" === "OFFBOARDED") || truthy client@."deletedAt" then throw (api_fail "Client account is not available." 403)
      else if negb (client@."status" === "ACTIVE") then throw (api_fail "Client account is not active." 403)
      else ret client
  end.

Definition clientCommissionAmount (conversion : jsval) : num :=
  if isRejectedConversionStatus conversion@."status" then n0
  else if blank conversion@."clientCommission" then n0 else money conversion@."clientCommission".

(** The running totals of the summary: approved, pending, and both by brand. *)
Record tally := Tally { t_approved : num; t_pending : num; t_brands : list (string * (num * num)) }.
Definition brand_of (assignments : list jsval) (conv : jsval) : string :=
  match List.find (has_id conv@."clientAssignmentId") (rev assignments) with
  | Some a => js_string (a@."canonicalCampaign"@."merchant"@."displayName" |or| JStr "Other")
  | None => "Other"
  end.
Definition tally_conversion (assignments : list jsval) (t : tally) (conv : jsval) : tally :=
  let b := brand_of assignments conv in
  let '(confirmed, unconfirmed) := default (n0, n0) (assoc b (t_brands t)) in
  let amt := clientCommissionAmount conv in
  if isPayableConversionStatus conv@."status"
  then Tally (nadd (t_approved t) amt) (t_pending t) (assoc_set b (nadd confirmed amt, unconfirmed) (t_brands t))
  else if negb (isRejectedConversionStatus conv@."status")
  then Tally (t_approved t) (nadd (t_pending t) amt) (assoc_set b (confirmed, nadd unconfirmed amt) (t_brands t))
  else Tally (t_approved t) (t_pending t) (assoc_set b (confirmed, unconfirmed) (t_brands t)).
Definition tally_of (assignments conversions : list jsval) : tally :=
  fold_left (tally_conversion assignments) conversions (Tally n0 n0 []).

(** The withdrawals of a client that the portal looks at: the newest hundred. *)
Definition withdrawals_in (clientId : jsval) (w : world) : list jsval :=
  firstn 100 (sort_by (fun a b => date_of b@."createdAt" <=? date_of a@."createdAt")
                (List.filter (fun r => col_eq r@."clientId" clientId) (rows w TWithdrawal))).
Definition sum_withdrawals (states : list string) (ws : list jsval) : num :=
  fold_left (fun s w => nadd s (money w@."amount")) (List.filter (fun w => in_enum states w@."status") ws) n0.
Definition in_progress (ws : list jsval) : num := sum_withdrawals ["REQUESTED"; "PROCESSING"] ws.
Definition paid_out (ws : list jsval) : num := sum_withdrawals ["PAID"] ws.
(** [Math.max(0, money(approved) - inProgress - paid)] *)
Definition available_of (approved : num) (ws : list jsval) : num :=
  nmax n0 (nsub (nsub (money (JNum approved)) (in_progress ws)) (paid_out ws)).

Definition withdrawal_label (status : jsval) : jsval :=
  if status === "REQUESTED" then JStr "Requested" else if status === "PROCESSING" then JStr "Processing"
  else if status === "PAID" then JStr "Paid" else status.
Definition withdrawal_row (w : jsval) : jsval := JObj
  [("id", w@."id"); ("reference", w@."reference"); ("date", JStr (iso_slice (date_of w@."createdAt")));
   ("amount", JNum (money w@."amount")); ("currency", w@."currency"); ("status", withdrawal_label w@."status")].
Definition bank_dto (b : jsval) : jsval := JObj
  [("accountHolder", b@."accountHolder"); ("bankName", b@."bankName"); ("accountLast4", b@."accountNumberLast4");
   ("ifscCode", b@."ifscCode"); ("accountType", b@."accountType"); ("status", b@."status")].
Definition comparison_value (c : comparison) : jsval := JObj
  [("legacyAmount", JNum (c_legacy c)); ("financeAmount", JNum (c_finance c)); ("difference", JNum (c_difference c));
   ("status", JStr match c_status c with
                   | MATCH => "MATCH" | DIFFERENCE => "DIFFERENCE" | LEGACY_ONLY => "LEGACY_ONLY" | FINANCE_ONLY => "FINANCE_ONLY"
                   end)].

Definition getPaymentsSummary (mode : string) (clientId : jsval) : prog world payments_summary :=
  let! client := assertPartnerClient clientId in
  let! assignments := gets (client_assignments clientId) in
  let ids := ids_of assignments in
  let! conversions := loadClientConversions always ids in
  let t := tally_of assignments conversions in
  let! ws := gets (withdrawals_in clientId) in
  let! cmp := compareClientEarnings mode clientId always (Some ids) (client@."currency" |or| JNull) in
  let shown := resolveDisplayCommission mode (t_approved t) (t_pending t) (f_net (e_finance cmp)) in
  (if (mode =s? "SHADOW") && negb (bool_decide (c_status (e_comparison cmp) = MATCH))
   then recordShadowDiscrepancy (JObj [("clientId", clientId); ("scope", JStr "portal_payments"); ("comparison", comparison_value (e_comparison cmp))])
   else ret tt) ;;
  let displayApproved := if mode =s? "FINANCE" then approvedCommission shown else t_approved t in
  let displayPending := if mode =s? "FINANCE" then pendingCommission shown else t_pending t in
  let! bank := findUnique TBankAccount "clientId" clientId in
  ret (PaymentsSummary (client@."currency" |or| JNull)
         (Kpis (money (JNum (available_of displayApproved ws))) (money (JNum displayPending))
            (money (JNum (in_progress ws))) (money (JNum (paid_out ws))))
         (source shown) (authoritative shown)
         (match bank with Some b => bank_dto b | None => JNull end)
         (map (fun '(b, (c, p)) => BrandRow b (money (JNum c)) (money (JNum p))) (t_brands t))
         (map withdrawal_row ws)).

(** [s.replace(/\s+/g, "")] *)
Fixpoint strip_spaces (s : string) : string :=
  match s with
  | EmptyString => EmptyString
  | String c s' => if is_space c then strip_spaces s' else String c (strip_spaces s')
  end.
Definition text_of (v : jsval) : string := js_string (v |or| JStr "").
Definition last4 (s : string) : string := String.substring (String.length s - 4) 4 s.

Definition bank_data (holder bankName accountNumber ifsc accountType accountNumberEnc : string) : list (string * jsval) :=
  [("accountHolder", JStr holder); ("bankName", JStr bankName); ("accountNumberLast4", JStr (last4 accountNumber));
   ("accountNumberEnc", JStr accountNumberEnc); ("ifscCode", JStr ifsc); ("accountType", JStr accountType);
   ("status", JStr "VERIFIED")].
(** [key] is [process.env.OAUTH_TOKEN_ENCRYPTION_KEY || process.env.JWT_SECRET]. *)
Definition saveBankDetails (key clientId body : jsval) : prog world jsval :=
  assertPartnerClient clientId ;;
  let holder := trim (text_of body@."accountHolder") in
  let bankName := trim (text_of body@."bankName") in
  let accountNumber := strip_spaces (text_of body@."accountNumber") in
  let ifsc := to_upper (trim (text_of body@."ifscCode")) in
  let typed := trim (js_string (body@."accountType" |or| JStr "Current")) in
  let accountType := if typed =s? "" then "Current" else typed in
  if (holder =s? "") || (bankName =s? "") || (accountNumber =s? "") || (ifsc =s? "") then throw (api_fail "All bank fields are required." 400)
  else if (String.length accountNumber <? 6)%nat then throw (api_fail "Account number looks invalid." 400)
  else if (String.length ifsc <? 4)%nat then throw (api_fail "IFSC code looks invalid." 400)
  else if negb (truthy key) then throw (api_fail "Server encryption is not configured." 500)
  else
    let! accountNumberEnc := Secrets.encryptSecret (JStr accountNumber) (js_string key) in
    let data := bank_data holder bankName accountNumber ifsc accountType accountNumberEnc in
    let! existing := findUnique TBankAccount "clientId" clientId in
    let! record := match existing with
                   | Some b => update_row TBankAccount b@."id" data
                   | None => create_row TBankAccount (("clientId", clientId) :: data)
                   end in
    ret (bank_dto record).

Definition newWithdrawalRef : prog world string :=
  let! d := draw in ret ("WD-" +:+ print_Z (1000 + random_9000 d) "").
(** At most five redraws of a reference that is taken. *)
Fixpoint free_reference (tries : nat) (reference : string) : prog world string :=
  match tries with
  | O => ret reference
  | S k =>
      let! clash := findUnique TWithdrawal "reference" (JStr reference) in
      match clash with
      | None => ret reference
      | Some _ => let! again := newWithdrawalRef in free_reference k again
      end
  end.

(** Lines 373-381: who asks, for how much, and whether the balance covers it. *)
Definition check_withdrawal (mode : string) (clientId amount : jsval) : prog world (num * jsval) :=
  assertPartnerClient clientId ;;
  let! bank := findUnique TBankAccount "clientId" clientId in
  match bank with
  | None => throw (api_fail "Add bank details before requesting a withdrawal." 400)
  | Some _ =>
      let! summary := getPaymentsSummary mode clientId in
      let value := money amount in
      if is_zero value || nltb value (num_of_Z 1000) then throw (api_fail "Minimum withdrawal is 1,000." 400)
      else if nltb (available (s_kpis summary)) value then throw (api_fail "Amount exceeds available balance." 400)
      else ret (value, s_currency summary)
  end.
(** The currency column defaults to INR. *)
Definition withdrawal_data (clientId requestedBy : jsval) (reference : string) (value : num) (currency : jsval) : list (string * jsval) :=
  [("clientId", clientId); ("reference", JStr reference); ("amount", JNum value); ("currency", currency |or| JStr "INR");
   ("status", JStr "REQUESTED"); ("requestedBy", requestedBy |or| JNull)].
Definition store_withdrawal (clientId requestedBy : jsval) (value : num) (currency : jsval) : prog world jsval :=
  let! first := newWithdrawalRef in
  let! reference := free_reference 5 first in
  let! row := create_row TWithdrawal (withdrawal_data clientId requestedBy reference value currency) in
  audit_record [("aggregateType", JStr "ClientWithdrawal"); ("aggregateId", row@."id"); ("action", JStr "withdrawal.request");
                ("after", JObj [("clientId", clientId); ("reference", row@."reference"); ("amount", JStr (num_to_string value));
                                ("status", JStr "REQUESTED")])] ;;
  ret (JObj [("id", row@."id"); ("reference", row@."reference"); ("date", JStr (iso_slice (date_of row@."createdAt")));
             ("amount", JNum (money row@."amount")); ("status", JStr "Requested")]).
Definition requestWithdrawal (mode : string) (clientId amount requestedBy : jsval) : prog world jsval :=
  let! checked := check_withdrawal mode clientId amount in
  store_withdrawal clientId requestedBy checked.1 checked.2.

End Service.
End PortalMoney.

(** ** A withdrawal within the balance *)

Module WithdrawalFacts.
Import FinanceConsumer PortalMoney.
Section Facts.
Context {H : JsHost} {D : Database} {B : Base64} {C : Cipher} {V : Dice}.

(** What the client has earned, by the ledger or by the snapshots, as the mode says. *)
Definition earned (mode : string) (clientId client : jsval) (w : world) : num :=
  let assignments := client_assignments clientId w in
  if mode =s? "FINANCE"
  then f_net (sumFinanceClientPayable (transactions_in clientId always (ids_of assignments) w) true (client@."currency" |or| JNull))
  else t_approved (tally_of assignments (conversions_in always (ids_of assignments) w)).

Lemma partner_checked clientId w client w' : assertPartnerClient clientId w = (Ok client, w') ->
  w' = w /\ client ∈ rows w TClient /\ has_id clientId client = true /\ client@."status" = JStr "ACTIVE".
Proof.
  unfold assertPartnerClient, client_by_id, find_where. rewrite bind_gets. cbv beta.
  destruct (List.find _ _) as [c|] eqn:Ef; [|discriminate]. apply List.find_some in Ef as [Hin%list_elem_of_In [Hid _]%andb_true_iff].
  destruct (_ || _); [discriminate|]. destruct (_ === "ACTIVE") eqn:Es; [|discriminate]. intros [= <- <-]. apply is_str_eq in Es. auto.
Qed.
Lemma partner_reads clientId : tracks eq (assertPartnerClient clientId).
Proof. unfold assertPartnerClient, client_by_id, find_where. track. Qed.

Lemma shadow_only payload : tracks (only TAudit) (recordShadowDiscrepancy payload).
Proof. unfold recordShadowDiscrepancy, get_now. track. apply audit_record_only. Qed.

Lemma summary_ok mode clientId w s w1 : getPaymentsSummary mode clientId w = (Ok s, w1) ->
  only TAudit w w1 /\ exists client, client ∈ rows w TClient /\ has_id clientId client = true /\ client@."status" = JStr "ACTIVE" /\
    available (s_kpis s) = money (JNum (available_of (earned mode clientId client w) (withdrawals_in clientId w))) /\
    s_currency s = (client@."currency" |or| JNull).
Proof.
  unfold getPaymentsSummary. intros (client & w0 & Ec & E)%bind_ok. apply partner_checked in Ec as (-> & Hc). cbv zeta in E.
  unfold loadClientConversions, compareClientEarnings, loadClientConversions, loadClientFinancialTransactions in E.
  rewrite !bind_gets in E. unfold bind at 1, bind at 1, ret at 1 in E. rewrite !bind_gets in E. unfold ret at 1 in E.
  apply bind_ok in E as ([] & w2 & Ea & E). unfold findUnique, find_where in E. rewrite bind_gets in E. injection E as <- <-.
  split.
  - destruct (_ && _) in Ea; [|injection Ea as <-; reflexivity]. exact (run_tracks _ _ _ _ _ (shadow_only _) Ea).
  - exists client. destruct Hc as (? & ? & ?). split_and!; auto. cbn [s_kpis available]. unfold earned, resolveDisplayCommission.
    destruct (mode =s? "FINANCE"); reflexivity.
Qed.

Lemma summary_within mode clientId : tracks (only TAudit) (getPaymentsSummary mode clientId).
Proof.
  unfold getPaymentsSummary, loadClientConversions, compareClientEarnings, loadClientConversions, loadClientFinancialTransactions, findUnique, find_where.
  track; [apply tracks_unchanged; [typeclasses eauto|apply partner_reads]|apply shadow_only].
Qed.
Lemma check_within mode clientId amount : tracks (only TAudit) (check_withdrawal mode clientId amount).
Proof.
  unfold check_withdrawal, findUnique, find_where. track; [apply tracks_unchanged; [typeclasses eauto|apply partner_reads]|apply summary_within].
Qed.
Lemma draw_keeps_rows : tracks (fun w w' => rows w' = rows w /\ now w' = now w) draw.
Proof. intros w. now split. Qed.
#[local] Instance kept_preorder : PreOrder (fun w w' => rows w' = rows w /\ now w' = now w).
Proof. split; [now intros w|]. intros w1 w2 w3 [E1 E1'] [E2 E2']. split; congruence. Qed.
#[local] Hint Resolve draw_keeps_rows : tracks.
Lemma reference_keeps tries reference : tracks (fun w w' => rows w' = rows w /\ now w' = now w) (free_reference tries reference).
Proof.
  revert reference. induction tries as [|k IH]; intros reference; cbn [free_reference]; [track|]. unfold findUnique, find_where, newWithdrawalRef. track.
Qed.

(** The row that a withdrawal stores. *)
Record requested (clientId : jsval) (value : num) (row : jsval) : Prop := Requested {
  r_client : row@."clientId" = clientId;
  r_amount : row@."amount" = column_decimal (JNum value);
  r_status : row@."status" = JStr "REQUESTED";
  r_reference : exists n, 1000 <= n < 10000 /\ row@."reference" = JStr ("WD-" +:+ print_Z n "")
}.
Definition well_referenced (s : string) : Prop := exists n, 1000 <= n < 10000 /\ s = "WD-" +:+ print_Z n "".
Lemma new_reference w s w' : newWithdrawalRef w = (Ok s, w') -> well_referenced s.
Proof.
  unfold newWithdrawalRef. intros (d & w1 & _ & E)%bind_ok. injection E as <- _. exists (1000 + random_9000 d). pose proof (random_range d). split; [lia|reflexivity].
Qed.
Lemma reference_shape tries s w s' w' : well_referenced s -> free_reference tries s w = (Ok s', w') -> well_referenced s'.
Proof.
  revert s w. induction tries as [|k IH]; intros s w Hs; cbn [free_reference]; [now intros [= <- _]|].
  unfold findUnique, find_where. rewrite bind_gets. destruct (List.find _ _); [|now intros [= <- _]].
  intros (t & w1 & Et & E)%bind_ok. apply new_reference in Et. now apply (IH t w1).
Qed.

Lemma stored clientId requestedBy value currency w out w' : clientId <> JUndef ->
  store_withdrawal clientId requestedBy value currency w = (Ok out, w') ->
  exists row, rows w' TWithdrawal = rows w TWithdrawal ++ [row] /\ requested clientId value row.
Proof.
  intros Hu. unfold store_withdrawal. intros (r1 & w1 & E1 & E)%bind_ok. apply bind_ok in E as (r2 & w2 & E2 & E). apply bind_ok in E as (row & w3 & E3 & E).
  apply bind_ok in E as ([] & w4 & E4 & E). injection E as _ <-.
  pose proof (run_tracks _ _ _ _ _ (reference_keeps _ _) E2) as [K2 _]. pose proof (run_tracks _ _ _ _ _ (audit_record_only _) E4) as K4.
  assert (K1 : rows w1 = rows w) by (injection E1 as _ <-; reflexivity).
  apply new_reference in E1 as Hs. apply (reference_shape _ _ _ _ _ Hs) in E2 as (n & Hn & ->). clear Hs E1.
  apply create_row_ok in E3 as (Hrow & Hrows & _). exists row. rewrite K4 by discriminate. rewrite K2, K1 in Hrows. split; [exact Hrows|].
  assert (Hcol : forall k v, assoc k (withdrawal_data clientId requestedBy ("WD-" +:+ print_Z n "") value currency) = Some v -> v <> JUndef -> k <> "id" ->
                 prop row k = (encode_field TWithdrawal (k, v)).2)
    by (intros k v; rewrite Hrow; apply created_column; unfold withdrawal_data; nodup_keys).
  split; [now rewrite (Hcol "clientId" clientId)|now rewrite (Hcol "amount" (JNum value))|now rewrite (Hcol "status" (JStr "REQUESTED"))|].
  exists n. split; [exact Hn|]. now rewrite (Hcol "reference" (JStr ("WD-" +:+ print_Z n ""))).
Qed.
Lemma stored_or_not clientId requestedBy value currency w e w' :
  store_withdrawal clientId requestedBy value currency w = (Throw e, w') -> rows w' TWithdrawal = rows w TWithdrawal.
Proof.
  unfold store_withdrawal, bind at 1. destruct (newWithdrawalRef w) as [[r1|e1] w1] eqn:E1; [|discriminate E1].
  assert (K1 : rows w1 = rows w) by (injection E1 as _ <-; reflexivity). unfold bind at 1.
  pose proof (reference_keeps 5 r1 w1) as [K2 _]. destruct (free_reference 5 r1 w1) as [[r2|e2] w2]; cbn [snd] in K2; [|intros [= _ <-]; congruence].
  unfold bind at 1. destruct (create_row TWithdrawal _ w2) as [[row|e3] w3] eqn:E3; [|intros [= _ <-]; apply create_row_fails in E3; subst; congruence].
  discriminate.
Qed.


(** *** Bank details *)

(** What is stored of an account: the last four digits, and the number only encrypted. *)
Record kept_account (key clientId body row : jsval) (w' : world) : Prop := KeptAccount {
  k_last4 : row@."accountNumberLast4" = JStr (last4 (strip_spaces (text_of body@."accountNumber")));
  k_secret : exists enc, row@."accountNumberEnc" = JStr enc /\
               Secrets.decryptSecret enc (js_string key) w' = (Ok (strip_spaces (text_of body@."accountNumber")), w');
  k_verified : row@."status" = JStr "VERIFIED"
}.
Definition accounts_keyed (w : world) : Prop :=
  distinct TBankAccount "id" w /\ Forall (fun r => exists s, r@."id" = JStr s) (rows w TBankAccount).

(** The row under the id that was looked up. *)
Lemma updated_own c data w b r w' : accounts_keyed w -> "clientId" ∉ map fst data -> b ∈ rows w TBankAccount -> b@."clientId" = JStr c ->
  update_row TBankAccount b@."id" data w = (Ok r, w') ->
  r = spread b (JObj (encode TBankAccount data)) /\ r ∈ rows w' TBankAccount /\ r@."clientId" = JStr c.
Proof.
  intros [Hd Ht] Hk Hb Hc E. rewrite Forall_forall in Ht. destruct (Ht b Hb) as [s Hs].
  pose proof (find_distinct TBankAccount "id" w b Hd Hb ltac:(rewrite Hs; apply String.eqb_refl)) as Hf. fold (has_id b@."id") in Hf.
  pose proof (update_row_ok _ _ _ _ _ _ E) as Hrows. unfold update_row in E. destruct (negb _); [discriminate|].
  change (fun x => col_eq x@."id" b@."id") with (has_id b@."id") in Hf. rewrite Hf in E. injection E as <- _. split_and!; [reflexivity| |].
  - rewrite Hrows. apply list_elem_of_fmap. exists b. split; [|exact Hb]. apply List.find_some in Hf as [_ ->]. reflexivity.
  - rewrite <- Hc. now apply (spread_rewrites TBankAccount b data).
Qed.

Lemma account_written key c body holder bankName ifsc accountType enc w0 w r w' : accounts_keyed w ->
  (forall v, Secrets.decryptSecret enc (js_string key) v = (Ok (strip_spaces (text_of body@."accountNumber")), v)) ->
  let data := bank_data holder bankName (strip_spaces (text_of body@."accountNumber")) ifsc accountType enc in
  bind (findUnique TBankAccount "clientId" (JStr c)) (fun existing =>
    match existing with
    | Some b => update_row TBankAccount b@."id" data
    | None => create_row TBankAccount (("clientId", JStr c) :: data)
    end) w = (Ok r, w') ->
  r ∈ rows w' TBankAccount /\ r@."clientId" = JStr c /\ kept_account key (JStr c) body r w0.
Proof.
  intros Hw Hdec data. unfold findUnique, find_where. rewrite bind_gets. cbv beta. destruct (List.find _ _) as [b|] eqn:Ef; intros E.
  - apply List.find_some in Ef as [Hb%list_elem_of_In Hbc%col_eq_str]. apply (updated_own c) in E as (-> & Hin & Hc); [|exact Hw|compute_done|exact Hb|exact Hbc].
    split_and!; [exact Hin|exact Hc|].
    assert (Hcol : forall k v, assoc k data = Some v -> v <> JUndef -> (spread b (JObj (encode TBankAccount data)))@.k = (encode_field TBankAccount (k, v)).2)
      by (intros k v; apply updated_column; unfold data, bank_data; nodup_keys).
    split; [|exists enc; split; [|apply Hdec]|]; erewrite Hcol by (reflexivity || discriminate); reflexivity.
  - apply create_row_ok in E as (-> & Hrows & _). split_and!; [rewrite Hrows; set_solver|reflexivity|]. split; [reflexivity| |reflexivity]. exists enc. now split.
Qed.

(** Saved bank details keep the last four digits of the account and the number itself only
    encrypted, from which the key gives the number back; they are of the client that asked, and
    nothing but bank accounts changes. *)
Theorem bank_details_kept key c body w out w' :
  accounts_keyed w -> saveBankDetails key (JStr c) body w = (Ok out, w') ->
  (exists row, row ∈ rows w' TBankAccount /\ row@."clientId" = JStr c /\ out = bank_dto row /\ kept_account key (JStr c) body row w') /\
  only TBankAccount w w'.
Proof.
  intros Hw. unfold saveBankDetails. intros (client & w0 & Ec & E)%bind_ok. apply partner_checked in Ec as (-> & _). cbv zeta in E.
  destruct (_ || _); [discriminate|]. destruct (_ <? 6)%nat; [discriminate|]. destruct (_ <? 4)%nat; [discriminate|]. destruct (negb _); [discriminate|].
  apply bind_ok in E as (enc & w1 & Ee & E). apply Secrets.encrypted in Ee as (Hr & _ & Hdec). cbn [js_string] in Hdec.
  apply bind_ok in E as (existing & w2 & Ex & E). apply bind_ok in E as (row & w3 & Er & E). injection E as <- <-.
  pose proof (account_written key c body _ _ _ _ enc w3 w1 row w3 ltac:(unfold accounts_keyed, distinct in *; now rewrite Hr) Hdec ltac:(unfold bind; rewrite Ex; exact Er)) as (Hin & Hc & Hk).
  split; [now exists row|]. injection Ex as _ <-. intros t Ht. rewrite <- Hr.
  destruct existing; [now apply (run_tracks _ _ _ _ _ (update_row_only _ _ _) Er)|now apply (run_tracks _ _ _ _ _ (create_row_only _ _) Er)].
Qed.
End Facts.
End WithdrawalFacts.

(** ** The comparison of earnings counts everything once *)

Module ComparisonFacts.
Import FinanceConsumer.
Section Facts.
Context {H : JsHost} {D : Database}.

Lemma push_keys key v groups : NoDup (map fst groups) -> NoDup (map fst (push_to key v groups)).
Proof.
  unfold push_to. generalize (default [] (assoc key groups) ++ [v]) as l. intros l Hn. induction groups as [|[k g] groups IH]; cbn; [constructor; [set_solver|constructor]|].
  inversion_clear Hn as [|? ? Hk Hn']. destruct (k =s? key) eqn:E; cbn; constructor; auto.
  apply String.eqb_neq in E. intros Hin. apply Hk. clear -Hin E. induction groups as [|[j h] groups IH]; cbn in *; [set_solver|].
  destruct (j =s? key); set_solver.
Qed.
Lemma push_all key v groups : concat (map snd (push_to key v groups)) ≡ₚ concat (map snd groups) ++ [v].
Proof.
  unfold push_to. induction groups as [|[k g] groups IH]; [reflexivity|]. cbn. destruct (k =s? key) eqn:E; cbn.
  - rewrite <- !app_assoc. apply Permutation_app_head. apply Permutation_app_comm.
  - rewrite <- app_assoc. now apply Permutation_app_head.
Qed.

(** A transaction is in exactly one group. *)
Lemma grouped_transactions l : NoDup (map fst (group_transactions l)) /\ concat (map snd (group_transactions l)) ≡ₚ l.
Proof.
  unfold group_transactions.
  enough (Hg : forall groups, NoDup (map fst groups) ->
    let out := fold_left (fun groups txn => push_to (transaction_key txn) txn groups) l groups in
    NoDup (map fst out) /\ concat (map snd out) ≡ₚ concat (map snd groups) ++ l) by (apply (Hg []); constructor).
  induction l as [|t l IH]; intros groups Hn; cbn [fold_left]; [rewrite app_nil_r; now split|].
  destruct (IH _ (push_keys (transaction_key t) t groups Hn)) as [H1 H2]. split; [exact H1|]. etransitivity; [exact H2|]. rewrite push_all, <- app_assoc. reflexivity.
Qed.
Lemma group_conversions_keys assignments l : NoDup (map fst (group_conversions assignments l)).
Proof.
  unfold group_conversions. generalize (NoDup_nil_2 : NoDup (map fst (@nil (string * list jsval)))). generalize (@nil (string * list jsval)) as groups.
  induction l as [|c l IH]; intros groups Hn; cbn [fold_left]; [exact Hn|]. apply IH.
  destruct (negb _); [exact Hn|]. destruct (List.find _ _); [|exact Hn]. destruct (truthy _); [|exact Hn]. now apply push_keys.
Qed.
Lemma keys_distinct a b : NoDup (map fst a) -> NoDup (map fst b) -> NoDup (keys_of a b).
Proof.
  intros Ha Hb. unfold keys_of. apply NoDup_app. split_and!; [exact Ha| |].
  - intros k Hk Hin. apply list_elem_of_In, filter_In in Hin as [_ Hin%negb_true_iff]. apply not_true_iff_false in Hin. apply Hin.
    apply existsb_exists. exists k. split; [now apply list_elem_of_In|apply String.eqb_refl].
  - apply NoDup_ListNoDup, List.NoDup_filter. now apply NoDup_ListNoDup.
Qed.
Lemma counts_add l : (count_status MATCH l + count_status DIFFERENCE l + count_status LEGACY_ONLY l + count_status FINANCE_ONLY l = length l)%nat.
Proof. unfold count_status. induction l as [|r l IH]; [reflexivity|]. cbn [List.filter length]. destruct (c_status (rr_comparison r)); repeat case_bool_decide; try congruence; cbn [length]; lia. Qed.

(** The daily comparison reads and changes nothing; it has one row for every client, day and
    currency with a conversion or a transaction, no two with the same key; and its four counts add
    up to the number of rows. *)
Theorem comparison_counts_once p clientId w :
  exists s l, compareDailyReportDimensions p clientId w = (Ok (s, l), w) /\
    NoDup (map rr_key l) /\ rr_total s = length l /\ (matches s + differences s + legacyOnly s + financeOnly s = rr_total s)%nat.
Proof.
  unfold compareDailyReportDimensions. set (read := if truthy clientId then gets (client_assignments clientId) else _).
  assert (Hr : exists l, read w = (Ok l, w)) by (unfold read; destruct (truthy clientId); eexists; reflexivity). destruct Hr as [assignments Hr].
  unfold bind at 1. rewrite Hr. unfold loadClientConversions. rewrite bind_gets. set (txns := if truthy clientId then _ else _).
  assert (Ht : exists l, txns w = (Ok l, w)) by (unfold txns; destruct (truthy clientId); eexists; reflexivity). destruct Ht as [transactions Ht].
  unfold bind. rewrite Ht. cbv zeta. eexists _, _. split; [reflexivity|]. split_and!; [|reflexivity|apply counts_add].
  unfold report_rows. rewrite map_map. cbn [rr_key]. rewrite map_id. apply keys_distinct; [apply group_conversions_keys|apply grouped_transactions].
Qed.
End Facts.
End ComparisonFacts.
