(* ===== verification/Fx.v ===== *)
(** * Reporting currency and foreign exchange

    [modules/finance/fx.service.js].  Rates come from the persisted rate records (the
    optional in-memory rate provider is used by tests only and is [null] here). *)

From Stdlib Require Import SpecFloat.
From S2P Require Import Prelude JsNum JsVal JsDate Store.
Local Open Scope Z_scope.

Module Fx.

Definition SUPPORTED : list string := ["INR"; "USD"].
Definition supported (c : string) : bool := existsb (String.eqb c) SUPPORTED.

(** [{ ok: true, currency, reason }] or [{ ok: false, reason, hint? }] *)
Inductive reporting_result :=
| Reporting (currency reason : string)
| NoReporting (reason : string) (hint : option string).

(** A looked-up rate or the reason there is none. *)
Inductive rate_result :=
| Rate (rate : jsval) (source : string) (effectiveDate : jsval)
| NoRate (reason : string).

Record conversion := Conversion {
  originalAmount : string; originalCurrency : string; reportingAmount : string;
  reportingCurrency : string; fxRate : jsval; fxSource : string; fxDate : jsval
}.

Section Service.
Context {H : JsHost} {D : Database}.

(** [/^[A-Z]{2}$/] *)
Definition country_code (c : string) : bool :=
  let upper a := let n := nat_of_ascii a in ((65 <=? n) && (n <=? 90))%nat in
  match c with String a (String b EmptyString) => upper a && upper b | _ => false end.

Definition upper_or_null (v : jsval) : option string :=
  if truthy v then Some (to_upper (js_string v)) else None.

Definition resolveReportingCurrency (country region clientCurrency : jsval) : reporting_result :=
  let c := upper_or_null country in
  let r := upper_or_null region in
  let c_is s := match c with Some x => x =s? s | None => false end in
  let r_in l := match r with Some x => existsb (String.eqb x) l | None => false end in
  if c_is "IN" || r_in ["INDIA"; "IN"; "INDIAN"] then Reporting "INR" "india_region"
  else if match c with Some x => country_code x && negb (x =s? "IN") | None => false end
  then Reporting "USD" "non_india_country"
  else if r_in ["SEA"; "MENA"; "UK"; "GLOBAL"; "EU"; "US"] then Reporting "USD" "known_non_india_region"
  else if truthy clientCurrency && supported (to_upper (js_string clientCurrency))
  then NoReporting "unknown_country_region" (Some (to_upper (js_string clientCurrency)))
  else NoReporting "unknown_country_region" None.

(** [convertAmount(amount, rate)] *)
Definition convertAmount (amount rate : jsval) : string + string :=
  let a := js_number amount in
  let r := js_number rate in
  if negb (is_finite a) || negb (is_finite r) then inr "invalid_amount_or_rate"
  else if nleb r n0 then inr "invalid_fx_rate"
  else inl (num_toFixed 4 (nmul a r)).

Definition invalid_time : js_error := plain_error "Invalid time value".
Definition toDateKey (date : jsval) : outcome string :=
  match new_date date with Some t => Ok (slice 0 10 (to_iso_string t)) | None => Throw invalid_time end.

Definition invalid_currency : js_error := JsError "Unsupported currency pair" 400 "INVALID_CURRENCY".
Definition invalid_rate : js_error := JsError "Invalid FX rate" 400 "INVALID_FX_RATE".

Definition same_rate (from to : string) (day : jsval) (source : string) (r : jsval) : bool :=
  (r@."fromCurrency" === from) && (r@."toCurrency" === to) && col_eq r@."effectiveDate" day && (r@."source" === source).

Definition upsertRate (fromCurrency toCurrency rate effectiveDate : jsval) (source : string) : prog world jsval :=
  let from := to_upper (js_string fromCurrency) in
  let to := to_upper (js_string toCurrency) in
  let r := js_number rate in
  if negb (supported from) || negb (supported to) then throw invalid_currency
  else if negb (is_finite r) || nleb r n0 then throw invalid_rate
  else if from =s? to then
    ret (JObj [("fromCurrency", JStr from); ("toCurrency", JStr to); ("rate", JStr "1");
               ("effectiveDate", effectiveDate); ("source", JStr "identity")])
  else
    let! key := lift (toDateKey effectiveDate) in
    let day := JDate (date_parse key) in
    let! existing := find_where TFxRate (same_rate from to day source) in
    match existing with
    | Some e => update_row TFxRate e@."id" [("rate", JStr (num_to_string r))]
    | None => create_row TFxRate
                [("fromCurrency", JStr from); ("toCurrency", JStr to); ("rate", JStr (num_to_string r));
                 ("effectiveDate", day); ("source", JStr source)]
    end.

(** The row with the latest effective date, the latest created among equals. *)
Definition date_value (v : jsval) : Z := match v with JDate (Some t) => t | _ => 0 end.
Definition later (best : option jsval) (r : jsval) : option jsval :=
  match best with
  | None => Some r
  | Some b => if date_value b@."effectiveDate" <=? date_value r@."effectiveDate" then Some r else best
  end.
Definition latest_rate (from to : string) (day : Z) (l : list jsval) : option jsval :=
  fold_left later (List.filter (fun r => (r@."fromCurrency" === from) && (r@."toCurrency" === to)
                                         && (date_value r@."effectiveDate" <=? day)) l) None.

Definition getRate (fromCurrency toCurrency effectiveDate : jsval) : prog world rate_result :=
  let from := to_upper (js_string (fromCurrency |or| JStr "")) in
  let to := to_upper (js_string (toCurrency |or| JStr "")) in
  if (from =s? "") || (to =s? "") then ret (NoRate "missing_currency")
  else if negb (supported from) || negb (supported to) then ret (NoRate "unsupported_currency")
  else if from =s? to then ret (Rate (JStr "1") "identity" effectiveDate)
  else
    let! t := get_now in
    let! key := lift (toDateKey (effectiveDate |or| JDate (Some t))) in
    match date_parse key with
    | None => throw invalid_time
    | Some day =>
        let! row := gets (fun w => latest_rate from to day (rows w TFxRate)) in
        match row with
        | None => ret (NoRate "missing_fx_rate")
        | Some r => if nleb (js_number r@."rate") n0 then ret (NoRate "missing_fx_rate")
                    else ret (Rate (JStr (js_string r@."rate")) (js_string (r@."source" |or| JStr "manual")) r@."effectiveDate")
        end
    end.

Definition convert (amount fromCurrency toCurrency effectiveDate persistedRate : jsval)
  : prog world (conversion + string) :=
  let from := to_upper (js_string (fromCurrency |or| JStr "")) in
  let to := to_upper (js_string (toCurrency |or| JStr "")) in
  let! t := get_now in
  let original := num_toFixed 4 (js_number amount) in
  if negb (nullish persistedRate) then
    match convertAmount amount persistedRate with
    | inr why => ret (inr why)
    | inl text => ret (inl (Conversion original from text to (JStr (js_string persistedRate)) "persisted"
                              (effectiveDate |or| JDate (Some t))))
    end
  else
    let! rate := getRate (JStr from) (JStr to) effectiveDate in
    match rate with
    | NoRate why => ret (inr why)
    | Rate r source date =>
        match convertAmount amount r with
        | inr why => ret (inr why)
        | inl text => ret (inl (Conversion original from text to r source (date |or| effectiveDate |or| JDate (Some t))))
        end
    end.

(** ** The three amounts of a transaction in the reporting currency *)

Record fx_bundle := FxBundle {
  b_currency : jsval; b_rate : jsval; b_source : string; b_date : jsval;
  b_supplier : jsval; b_client : jsval; b_margin : jsval
}.

Definition applyFxBundle (supplierGross clientCommission mboMargin original reporting effectiveDate persistedRate : jsval)
  : prog world (fx_bundle + string) :=
  if negb (truthy reporting) || col_eq original reporting then
    ret (inl (FxBundle original (JStr "1") "identity" effectiveDate supplierGross clientCommission mboMargin))
  else
    let! s := convert supplierGross original reporting effectiveDate (persistedRate ?? JNull) in
    match s with
    | inr why => ret (inr why)
    | inl sfx =>
        let! c := convert clientCommission original reporting effectiveDate (fxRate sfx) in
        let! m := convert mboMargin original reporting effectiveDate (fxRate sfx) in
        match c, m with
        | inl cfx, inl mfx =>
            ret (inl (FxBundle reporting (fxRate sfx) (fxSource sfx) (fxDate sfx)
                        (JStr (reportingAmount sfx)) (JStr (reportingAmount cfx)) (JStr (reportingAmount mfx))))
        | inr why, _ | _, inr why => ret (inr why)
        end
    end.

End Service.
End Fx.

Module FxFacts.
Import Fx.
Section Facts.
Context {H : JsHost} {D : Database}.

(** ** Rate lookup *)

Lemma fold_later_spec l best :
  match fold_left later l best with
  | None => best = None /\ l = []
  | Some r => (best = Some r \/ r ∈ l) /\
              (forall b, best = Some b -> date_value b@."effectiveDate" <= date_value r@."effectiveDate") /\
              forall x, x ∈ l -> date_value x@."effectiveDate" <= date_value r@."effectiveDate"
  end.
Proof.
  revert best. induction l as [|x l IH]; intros best; cbn [fold_left].
  { destruct best as [b|]; [|auto]. split_and!; [auto|intros ? [= ->]; lia|set_solver]. }
  specialize (IH (later best x)). destruct (fold_left later l (later best x)) as [r|] eqn:E.
  - destruct IH as (Hin & Hb & Hl).
    assert (Hx : date_value x@."effectiveDate" <= date_value r@."effectiveDate").
    { destruct best as [b|]; cbn [later] in Hb; [|now apply Hb].
      destruct (Z.leb_spec (date_value b@."effectiveDate") (date_value x@."effectiveDate")); [now apply Hb|].
      specialize (Hb b eq_refl). lia. }
    split_and!.
    + destruct Hin as [Hl0|]; [|right; now right]. destruct best as [b|]; cbn [later] in Hl0.
      * destruct (_ <=? _); injection Hl0 as ->; [right; left|now left].
      * injection Hl0 as ->. right; left.
    + intros b ->. cbn [later] in Hb.
      destruct (Z.leb_spec (date_value b@."effectiveDate") (date_value x@."effectiveDate"));
        [specialize (Hb x eq_refl); lia|now apply Hb].
    + intros y [->|Hy]%elem_of_cons; auto.
  - destruct IH as [Hlater _]. destruct best as [b|]; cbn in Hlater; [destruct (_ <=? _)|]; discriminate.
Qed.

(** The rate applied to a date is the most recent one that is not in its future. *)
Theorem latest_rate_spec from to day l r :
  latest_rate from to day l = Some r ->
  r ∈ l /\ r@."fromCurrency" = JStr from /\ r@."toCurrency" = JStr to /\
  date_value r@."effectiveDate" <= day /\
  (forall x, x ∈ l -> x@."fromCurrency" = JStr from -> x@."toCurrency" = JStr to ->
     date_value x@."effectiveDate" <= day -> date_value x@."effectiveDate" <= date_value r@."effectiveDate").
Proof.
  unfold latest_rate. intros Hr.
  match type of Hr with fold_left later ?f None = _ => pose proof (fold_later_spec f None) as Hs end.
  rewrite Hr in Hs. destruct Hs as ([?|Hin] & _ & Hall); [discriminate|].
  apply elem_of_filter_bool in Hin as [Hin Hp]. split_bools. rewrite Z.leb_le in *.
  split_and!; auto using is_str_eq. intros x Hx Hf Ht Hd. apply Hall, elem_of_filter_bool. split; [exact Hx|].
  rewrite Hf, Ht. cbn [is_str]. rewrite !String.eqb_refl. cbn. now apply Z.leb_le.
Qed.

(** ** Reads only *)

Lemma getRate_reads f t d : tracks eq (getRate f t d).
Proof. unfold getRate, get_now. track. Qed.
Lemma convert_reads a f t d p : tracks eq (convert a f t d p).
Proof. unfold convert, get_now. track. apply getRate_reads. Qed.
Lemma applyFxBundle_reads s c m o r d p : tracks eq (applyFxBundle s c m o r d p).
Proof. unfold applyFxBundle. track; apply convert_reads. Qed.

(** A reporting currency is INR or USD and is only derived from a country or region. *)
Theorem reporting_currency_policy country region clientCurrency c why :
  resolveReportingCurrency country region clientCurrency = Reporting c why ->
  (c = "INR" \/ c = "USD") /\ (truthy country = true \/ truthy region = true) /\
  resolveReportingCurrency country region JNull = Reporting c why.
Proof.
  unfold resolveReportingCurrency, upper_or_null.
  destruct (truthy country), (truthy region); cbn [truthy andb]; repeat case_match; intros; simplify_eq; auto; discriminate.
Qed.
End Facts.
End FxFacts.
