(* ===== verification/Runtime.v ===== *)
(** * Client commercial runtime

    [modules/commercial/services/clientCommercialRuntime.service.js]: loads the effective
    rules of an assignment (as [CommissionRuleRepository.findEffectiveRulesForAssignment]
    selects them), builds the facts, matches one rule and calculates its payout. *)

From Stdlib Require Import SpecFloat.
From S2P Require Import Prelude JsNum JsVal JsDate ClientCalc ClientMatch Store.
Import ClientCalculation.
Local Open Scope Z_scope.

Module Runtime.

Record runtime_args := RuntimeArgs {
  ra_assignmentId : jsval; ra_attributionResolved : jsval; ra_attributionStatus : jsval;
  ra_order : jsval; ra_conversion : jsval; ra_item : jsval; ra_assignment : jsval; ra_campaign : jsval;
  ra_factOverrides : jsval; ra_networkActualCommission : jsval; ra_networkActualCurrency : jsval;
  ra_expectedSupplierCommission : jsval; ra_validatedSupplierCommission : jsval; ra_orderCount : jsval;
  ra_clientRevenue : jsval; ra_provisionalAllowed : jsval; ra_requireAgreementLineage : bool
}.

Record runtime_result := RuntimeResult {
  rt_status : string;
  rt_reason : string;
  rt_ruleId : jsval;
  rt_snapshot : jsval;
  rt_ruleKind : jsval;
  rt_display : jsval;
  rt_selection : jsval;
  rt_clientPayable : option num;
  rt_mboMargin : option num;
  rt_payoutBasis : option string;
  rt_provisional : bool;
  rt_payable : bool;
  rt_payout : option payout;
  rt_facts : jsval
}.

(** The evidence of a payout as the objects that are stored with it. *)
Definition lineage_object (l : lineage_result) : jsval :=
  JObj [("status", JStr (lineage_status l)); ("agreementRef", agreementRef l); ("approvedAt", approvedAt l);
        ("approvedBy", approvedBy l); ("missing", JArr (map JStr (missing l)))].
Definition margin_object (m : margin_result) : jsval :=
  JObj ([("status", JStr (margin_status m)); ("reason", JStr (margin_reason m)); ("margin", of_option_num (margin_amount m))]
    ++ match m with
       | MarginReview _ (Some (s, c)) => [("supplierCurrency", JStr s); ("clientCurrency", JStr c)]
       | MarginSubsidy _ ref at_ by_ => [("approvalRef", ref); ("approvedAt", at_); ("approvedBy", by_)]
       | _ => []
       end).
Definition tier_object (t : tier_selection) : jsval :=
  let at_ metric period := [("metric", of_option_str metric); ("period", of_option_str period)] in
  match t with
  | TierReview why metric period value ids =>
      JObj ([("status", JStr "REVIEW_REQUIRED"); ("reason", JStr why)] ++ at_ metric period
        ++ match value, ids with
           | Some x, _ => [("metricValue", JNum x); ("matchedTierIds", JArr ids)]
           | None, _ :: _ => [("invalidTierIds", JArr ids)]
           | None, [] => []
           end)
  | TierNoMatch metric period value =>
      JObj ([("status", JStr "NO_MATCH"); ("reason", JStr "no_tier_band_matched")] ++ at_ metric period ++ [("metricValue", JNum value)])
  | TierMatched metric period value tier id =>
      JObj ([("status", JStr "MATCHED")] ++ at_ metric period
        ++ [("metricValue", JNum value); ("selectedTier", tier); ("selectedTierId", id)])
  end.
(** [calculation.x ?? null] of a result *)
Definition payout_part {A} (f : payout -> option A) (g : A -> jsval) (r : runtime_result) : jsval :=
  match rt_payout r with
  | Some p => match f p with Some x => g x | None => JNull end
  | None => JUndef
  end.
Definition rt_marginProtection : runtime_result -> jsval := payout_part marginProtection margin_object.
Definition rt_tierSelection : runtime_result -> jsval := payout_part tierSelection tier_object.
Definition rt_lineage : runtime_result -> jsval := payout_part (fun p => Some (lineage p)) lineage_object.

Section Service.
Context {H : JsHost}.

Definition persistedSubsidyApproval (rule : jsval) : jsval :=
  if negb (is_true rule@."subsidyApproved") then JNull
  else JObj [("allowed", JBool true); ("approvalRef", rule@."subsidyApprovalRef" ?? JNull);
             ("approvedAt", rule@."subsidyApprovedAt" ?? JNull); ("approvedBy", rule@."subsidyApprovedBy" ?? JNull)].

Definition transactionDate (now : Z) (order conversion overrides : jsval) : jsval :=
  ClientMatcher.firstDefined [overrides@."date"; order@."orderDate"; conversion@."conversionDate"; JDate (Some now)].

(** [jsonSafe]; an invalid date has no ISO text ([toISOString] throws). *)
Fixpoint jsonSafe (value : jsval) : jsval :=
  match value with
  | JDate (Some t) => JStr (to_iso_string t)
  | JArr l => JArr (map jsonSafe l)
  | JObj fields => JObj (map (fun kv => (kv.1, jsonSafe kv.2)) fields)
  | _ => value
  end.

Definition snapshot_keys : list string :=
  ["id"; "assignmentId"; "commissionType"; "grossCommission"; "clientCommission"; "mboCommission"; "currency";
   "orderValuePercent"; "fixedAmount"; "manualAmount"; "manualApproved"; "manualApprovedAt"; "manualApprovedBy";
   "displayRangeMin"; "displayRangeMax"; "displayLabel"; "priority"; "priorityVerified"; "agreementRef";
   "agreementApprovedAt"; "agreementApprovedBy"; "subsidyApproved"; "subsidyApprovalRef"; "subsidyApprovedAt";
   "subsidyApprovedBy"; "tierMetric"; "tierPeriod"; "effectiveFrom"; "effectiveUntil"; "status"; "conditions"; "tiers"].
Definition snapshotClientCommercialRule (rule : jsval) : jsval :=
  JObj (map (fun key => (key, jsonSafe (prop rule key)))
          (List.filter (fun key => negb (is_undef (prop rule key))) snapshot_keys)).

(** ** The rule repository *)

Definition time_of (v : jsval) : option Z := match v with JDate t => t | _ => None end.
Definition effective_at (assignmentId : jsval) (at_ : Z) (rule : jsval) : bool :=
  col_eq rule@."assignmentId" assignmentId && (rule@."status" === "EFFECTIVE")
  && match time_of rule@."effectiveFrom" with Some f => f <=? at_ | None => false end
  && (nullish rule@."effectiveUntil"
      || match time_of rule@."effectiveUntil" with Some u => at_ <? u | None => false end).
(** [orderBy: [{ effectiveFrom: "desc" }, { id: "asc" }]] *)
Definition rule_before (a b : jsval) : bool :=
  let ta := default 0 (time_of a@."effectiveFrom") in let tb := default 0 (time_of b@."effectiveFrom") in
  (tb <? ta) || ((ta =? tb) && match String.compare (js_string a@."id") (js_string b@."id") with Gt => false | _ => true end).
Fixpoint insert_rule (r : jsval) (l : list jsval) : list jsval :=
  match l with
  | [] => [r]
  | x :: rest => if rule_before r x then r :: l else x :: insert_rule r rest
  end.
Definition sort_rules (l : list jsval) : list jsval := fold_right insert_rule [] l.
Definition findEffectiveRulesForAssignment (assignmentId : jsval) (at_ : Z) : prog world (list jsval) :=
  gets (fun w => sort_rules (List.filter (effective_at assignmentId at_) (rows w TRule))).

(** ** [evaluate] *)

Definition runtime_context (a : runtime_args) (facts rule : jsval) : jsval :=
  JObj [("networkActualCommission", ra_networkActualCommission a);
        ("networkActualCurrency", ra_networkActualCurrency a);
        ("expectedSupplierCommission", ra_expectedSupplierCommission a);
        ("validatedSupplierCommission", ra_validatedSupplierCommission a);
        ("orderValue", facts@."orderValue"); ("orderCount", ra_orderCount a);
        ("clientRevenue", ra_clientRevenue a); ("provisionalAllowed", ra_provisionalAllowed a);
        ("clientCurrency", rule@."currency" ?? JNull)].

Definition unmatched (status reason : string) (ruleId facts : jsval) : runtime_result :=
  RuntimeResult status reason ruleId JUndef JUndef JUndef JUndef None None None false false None facts.

Definition invalid_date : js_error := plain_error "Invalid time value".

(** The result for a matched rule. *)
Definition matched_result (a : runtime_args) (facts rule ruleId : jsval) (selection : string) : runtime_result :=
  let p := calculateClientCommercialPayout rule (runtime_context a facts rule)
             (ra_requireAgreementLineage a) (persistedSubsidyApproval rule) in
  RuntimeResult (status p) (reason p) ruleId (snapshotClientCommercialRule rule)
    (rule@."commissionType" ?? JNull)
    (if to_upper (js_string (rule@."commissionType" |or| JStr "")) =s? "DISPLAY_RANGE_WITH_ACTUAL_SPLIT"
     then JObj [("displayRangeMin", rule@."displayRangeMin" ?? JNull); ("displayRangeMax", rule@."displayRangeMax" ?? JNull);
                ("displayLabel", rule@."displayLabel" ?? JNull); ("financialBasis", of_option_str (payoutBasis p))]
     else JNull)
    (JStr selection) (clientPayable p) (mboMargin p) (payoutBasis p)
    (status p =s? "PROVISIONAL") false (Some p) facts.

Definition evaluate (a : runtime_args) : prog world runtime_result :=
  if negb (truthy (ra_assignmentId a)) then ret (unmatched "REVIEW_REQUIRED" "assignment_id_missing" JNull JUndef)
  else
    let! now := get_now in
    let at0 := transactionDate now (ra_order a) (ra_conversion a) (ra_factOverrides a) in
    match new_date at0 with
    | None => throw invalid_date
    | Some t =>
        let! rules := findEffectiveRulesForAssignment (ra_assignmentId a) t in
        let facts := ClientMatcher.buildClientCommercialFacts (ra_order a) (ra_conversion a) (ra_item a)
                       (ra_assignment a) (ra_campaign a) (ra_factOverrides a) in
        let m := ClientMatcher.matchClientCommercialRule now
                   (ClientMatcher.MatchArgs (JArr rules) facts (ra_attributionResolved a) (ra_attributionStatus a)
                      (ra_assignmentId a) at0) in
        match ClientMatcher.matchedRule m with
        | Some rule => ret (matched_result a facts rule (ClientMatcher.matchedClientCommissionRuleId m) (ClientMatcher.m_status m))
        | None => ret (unmatched (ClientMatcher.m_status m) (ClientMatcher.m_reason m)
                         (ClientMatcher.matchedClientCommissionRuleId m) JUndef)
        end
    end.

End Service.
End Runtime.

Module RuntimeFacts.
Import Runtime.
Section Facts.
Context {H : JsHost}.

Lemma evaluate_reads a : tracks eq (evaluate a).
Proof. unfold evaluate, get_now, findEffectiveRulesForAssignment. track. Qed.

Lemma insert_rule_perm r l : Permutation (insert_rule r l) (r :: l).
Proof.
  induction l as [|x l IH]; [reflexivity|]. cbn. destruct (rule_before r x); [reflexivity|].
  rewrite IH. apply Permutation_swap.
Qed.
Lemma sort_rules_perm l : Permutation (sort_rules l) l.
Proof. induction l as [|x l IH]; [reflexivity|]. cbn. rewrite insert_rule_perm. now constructor. Qed.

Lemma matched_status now args rule :
  ClientMatcher.matchedRule (ClientMatcher.matchClientCommercialRule now args) = Some rule ->
  ClientMatcher.m_status (ClientMatcher.matchClientCommercialRule now args) = "MATCHED".
Proof.
  unfold ClientMatcher.matchClientCommercialRule, ClientMatcher.select_rule.
  repeat case_match; (discriminate || reflexivity).
Qed.

Lemma runtime_calculated_lemma a w r w' :
  evaluate a w = (Ok r, w') -> rt_status r = "CALCULATED" ->
  w' = w /\ rt_payable r = false /\ rt_provisional r = false /\
  exists rule t, rule ∈ rows w TRule /\ effective_at (ra_assignmentId a) t rule = true /\
    new_date (transactionDate (now w) (ra_order a) (ra_conversion a) (ra_factOverrides a)) = Some t /\
    (ra_requireAgreementLineage a = true -> missing (validateClientCommercialLineage rule) = []) /\
    exists client actual,
      rt_clientPayable r = Some client /\ asNumber (ra_networkActualCommission a) = Some actual /\
      rt_mboMargin r = roundMoney (nsub actual client) /\
      (nleb n0 (default n0 (rt_mboMargin r)) = true \/ completeApproval (persistedSubsidyApproval rule) = true).
Proof.
  intros He Hst. pose proof (evaluate_reads a w) as Hw. rewrite He in Hw. cbn in Hw. subst w'.
  split; [reflexivity|]. revert He. unfold evaluate, get_now, findEffectiveRulesForAssignment, gets, bind.
  destruct (negb _); [intros [= <-]; discriminate Hst|].
  destruct (new_date _) as [t|] eqn:Et; [|discriminate].
  set (facts := ClientMatcher.buildClientCommercialFacts _ _ _ _ _ _).
  match goal with |- context [ClientMatcher.matchClientCommercialRule ?n ?args] => set (m := ClientMatcher.matchClientCommercialRule n args) end.
  destruct (ClientMatcher.matchedRule m) as [rule|] eqn:Em.
  2: { intros [= <-]. exfalso. revert Hst Em. cbn [rt_status unmatched]. unfold m, ClientMatcher.matchClientCommercialRule, ClientMatcher.select_rule.
       repeat case_match; discriminate. }
  intros [= <-]. cbn [rt_payable rt_provisional rt_status rt_clientPayable rt_mboMargin matched_result] in *.
  destruct (ClientCalcFacts.payout_gate_lemma rule (runtime_context a facts rule) (ra_requireAgreementLineage a)
              (persistedSubsidyApproval rule)) as [_ Hgate].
  destruct (Hgate Hst) as [Hlin (client & actual & Hc & Ha & Hm & Hok)].
  split; [reflexivity|]. split; [now rewrite Hst|].
  pose proof (ClientMatchFacts.match_sound_lemma _ _ _ Em) as (_ & _ & Hin & _).
  cbn [ClientMatcher.rules as_array] in Hin. rewrite sort_rules_perm in Hin.
  apply elem_of_filter_bool in Hin as [Hin Heff].
  exists rule, t. split_and!; auto. exists client, actual. auto.
Qed.
(** A calculated runtime result comes from a stored rule that is effective at the
    transaction instant and belongs to the assignment, carries a client amount and a
    margin backed by the actual commission, and never makes anything payable. *)
Theorem runtime_calculated a w r w' :
  evaluate a w = (Ok r, w') -> rt_status r = "CALCULATED" ->
  w' = w /\ rt_payable r = false /\ rt_provisional r = false /\
  exists rule t, rule ∈ rows w TRule /\ effective_at (ra_assignmentId a) t rule = true /\
    new_date (transactionDate (now w) (ra_order a) (ra_conversion a) (ra_factOverrides a)) = Some t /\
    (ra_requireAgreementLineage a = true -> missing (validateClientCommercialLineage rule) = []) /\
    exists client actual,
      rt_clientPayable r = Some client /\ asNumber (ra_networkActualCommission a) = Some actual /\
      rt_mboMargin r = roundMoney (nsub actual client) /\
      (nleb n0 (default n0 (rt_mboMargin r)) = true \/ completeApproval (persistedSubsidyApproval rule) = true).
Proof. apply runtime_calculated_lemma. Qed.
End Facts.
End RuntimeFacts.
