(* ===== verification/Finance.v ===== *)
(** * Financial transactions

    [modules/finance/financialTransaction.service.js]: recognition of the commission of an
    approved conversion as an immutable ledger row, signed adjustments, the reversal of a
    late rejection, and the synchronisation of a changed item basis. *)

From Stdlib Require Import SpecFloat.
From S2P Require Import Prelude JsNum JsRound JsVal JsDate ClientCalc Recon Store Exceptions Separation Fx Runtime.
Import ApprovedBasis ExceptionCases Reconciliation Fx Runtime.
Local Open Scope Z_scope.

Module Ledger.

(** ** Keys *)

Section Keys.
Context {H : JsHost}.
Definition earnRecognitionKey (conversionId : jsval) : string := "earn:" +:+ js_string conversionId.
Definition reversalRecognitionKey (conversionId : jsval) (adjustmentType : string) : string :=
  "rev:" +:+ adjustmentType +:+ ":" +:+ js_string conversionId.
Definition adjustmentRecognitionKey (conversionId : jsval) (adjustmentType correctionKey : string) : string :=
  "adj:" +:+ adjustmentType +:+ ":" +:+ js_string conversionId +:+ ":" +:+ correctionKey.
Definition lateRejectionAdjustmentKey (conversionId : jsval) : string := "LATE_REJECTION:" +:+ js_string conversionId.
End Keys.

(** ** Attribution and the commission basis *)

Record attribution := Attribution {
  a_resolved : bool; a_reason : string; a_assignmentId : jsval;
  a_orderAssignmentId : jsval; a_conversionAssignmentId : jsval
}.
Inductive network_actual :=
| NetworkActual (amount : num) (currency : jsval) (source : string)
| NoNetworkActual (reason : string).

(** [a && b && a !== b] on column values *)
Definition conflict (a b : jsval) : bool := truthy a && truthy b && negb (col_eq a b).

Definition resolveFinancialAttribution (order conversion : jsval) : attribution :=
  let orderAssignmentId := order@."clientAssignmentId" ?? JNull in
  let conversionAssignmentId := conversion@."clientAssignmentId" ?? JNull in
  let orderClientId := order@."clientId" ?? JNull in
  let conversionClientId := conversion@."clientAssignment"@."clientId" ?? JNull in
  if conflict orderAssignmentId conversionAssignmentId
  then Attribution false "assignment_attribution_conflict" JNull orderAssignmentId conversionAssignmentId
  else if conflict orderClientId conversionClientId
  then Attribution false "client_attribution_conflict" JNull orderAssignmentId conversionAssignmentId
  else
    let assignmentId := orderAssignmentId |or| conversionAssignmentId |or| JNull in
    Attribution (truthy assignmentId) (if truthy assignmentId then "resolved" else "missing_assignment")
      assignmentId orderAssignmentId conversionAssignmentId.

Section Basis.
Context {H : JsHost}.
Definition finiteNumber (value : jsval) : option num := finite_number value.

Definition resolveValidatedNetworkActualCommission (approvedBasis conversion : jsval) : network_actual :=
  let itemLevel := approvedBasis@."basisMode" === "ITEM_LEVEL" in
  let approved := negb (blank conversion@."approvedCommission") in
  let raw :=
    if itemLevel
    then (if truthy approvedBasis@."approvedSupplierCommissionOk" then approvedBasis@."approvedSupplierCommission" else JNull)
    else if approved then conversion@."approvedCommission" else conversion@."supplierCommission" in
  match finiteNumber raw with
  | None => NoNetworkActual (if itemLevel then "missing_approved_item_supplier_commission" else "missing_network_actual_commission")
  | Some amount =>
      if nltb amount n0 then NoNetworkActual "negative_network_actual_commission"
      else NetworkActual amount (approvedBasis@."currency" ?? conversion@."currency" ?? JNull)
             (if itemLevel then "sum_approved_order_item_commission"
              else if approved then "conversion.approvedCommission" else "conversion.supplierCommission")
  end.
End Basis.

(** ** The service *)

(** [{ record, created, reused?, unresolved?, reason? }] *)
Inductive recognition :=
| Recognized (record : jsval)
| Reused (record : jsval)
| Unresolved (reason : string).

(** [{ adjustment, resultTransaction, created, reused }] *)
Record adjustment_result := AdjustmentResult {
  adjustment : jsval; resultTransaction : jsval; adj_created : bool
}.

Section Service.
Context {H : JsHost} {D : Database}.

Definition findByRecognitionKey (recognitionKey : string) : prog world (option jsval) :=
  findUnique TFinancial "recognitionKey" (JStr recognitionKey).

Definition or_null (o : option jsval) : jsval := match o with Some v => v | None => JNull end.

Definition getForClient (id clientId : jsval) : prog world jsval :=
  let! row := find_where TFinancial (fun r => col_eq r@."id" id && col_eq r@."clientId" clientId) in
  match row with Some r => ret r | None => throw (api_fail "Financial transaction not found." 404) end.

(** [{ rows, total }]: the latest effective first. *)
Fixpoint insert_latest (r : jsval) (l : list jsval) : list jsval :=
  match l with
  | [] => [r]
  | x :: l' => if date_value x@."effectiveAt" <? date_value r@."effectiveAt" then r :: l else x :: insert_latest r l'
  end.
Definition listForClient (clientId : jsval) (skip take : nat) : prog world (list jsval * nat) :=
  if negb (truthy clientId) then throw (api_fail "clientId is required." 400)
  else let! all := findMany TFinancial "clientId" clientId in
       ret (firstn take (skipn skip (fold_left (fun acc r => insert_latest r acc) all [])), length all).

(** An order with its items, a conversion with its assignment and client. *)
Definition load_order (id : jsval) : prog world (option jsval) :=
  let! order := findUnique TOrder "id" id in
  match order with
  | None => ret None
  | Some o => let! items := findMany TOrderItem "orderId" o@."id" in ret (Some (with_relation o "items" (JArr items)))
  end.
Definition load_assignment (c : jsval) : prog world jsval :=
  let! assignment := findUnique TAssignment "id" c@."clientAssignmentId" in
  match assignment with
  | None => ret (with_relation c "clientAssignment" JNull)
  | Some a => let! client := findUnique TClient "id" a@."clientId" in
              ret (with_relation c "clientAssignment" (with_relation a "client" (or_null client)))
  end.

Definition report_unresolved (fields : list (string * jsval)) (reason : string) : prog world recognition :=
  let! _ := report (JObj fields) in ret (Unresolved reason).

(** [networkActual.currency || conversion.currency || order.currency || approvedBasis.currency || null] *)
Definition original_currency (cur conversion order basis : jsval) : jsval :=
  cur |or| conversion@."currency" |or| order@."currency" |or| basis@."currency" |or| JNull.

(** Lines 352-382 and 847-877: the runtime call both paths make. *)
Definition fact_overrides (order conversion basis transactionAt : jsval) : jsval :=
  let campaignFact := order@."canonicalCampaignId" |or| conversion@."clientAssignment"@."canonicalCampaignId" |or| JNull in
  JObj ([("date", transactionAt)]
        ++ (if (basis@."basisMode" === "ITEM_LEVEL") && truthy basis@."approvedOrderValueOk"
            then [("orderValue", basis@."approvedOrderValue")] else [])
        ++ (if truthy campaignFact then [("campaign", campaignFact)] else [])).
Definition runtime_request (assignmentId order conversion basis transactionAt cur : jsval) (amount : num) : runtime_args :=
  RuntimeArgs assignmentId (JBool true) (JStr "RESOLVED") order conversion JNull
    (if col_eq conversion@."clientAssignment"@."id" assignmentId then conversion@."clientAssignment" else JNull)
    JNull (fact_overrides order conversion basis transactionAt) (JNum amount) cur JNull (JNum amount)
    (JNum (num_of_Z 1)) JNull (JBool false) true.

(** [runtime.status !== "CALCULATED" || runtime.provisional === true] *)
Definition runtime_open (r : runtime_result) : bool := negb (rt_status r =s? "CALCULATED") || rt_provisional r.
Definition runtime_reason (r : runtime_result) : string := if rt_reason r =s? "" then rt_status r else rt_reason r.

(** The ledger row of a recognized commission. *)
Definition earn_row (key : string) (order conversion conversionId clientId basis cur : jsval) (amount : num) (source : string)
    (rt : runtime_result) (fx : fx_bundle) (policy : string) (now : Z) : list (string * jsval) :=
  [("recognitionKey", JStr key); ("transactionType", JStr "COMMISSION_EARNED");
   ("status", JStr "FINANCIAL_RECOGNIZED"); ("orderId", order@."id"); ("conversionId", conversionId);
   ("clientId", clientId); ("supplier", conversion@."supplier" |or| order@."supplier");
   ("campaignSourceId", order@."campaignSourceId" |or| conversion@."campaignSourceId" |or| JNull);
   ("commissionRuleId", rt_ruleId rt);
   ("supplierReceivable", JNum amount); ("clientPayable", of_option_num (rt_clientPayable rt));
   ("mboMargin", of_option_num (rt_mboMargin rt)); ("originalCurrency", cur);
   ("reportingSupplierReceivable", b_supplier fx); ("reportingClientPayable", b_client fx);
   ("reportingMboMargin", b_margin fx); ("reportingCurrency", b_currency fx);
   ("fxRate", b_rate fx); ("fxDate", if truthy (b_date fx) then JDate (new_date (b_date fx)) else JNull);
   ("fxSource", JStr (b_source fx)); ("ruleSnapshot", rt_snapshot rt);
   ("calculationMetadata", JObj
      [("engine", JStr "ClientCommercialRuntimeService"); ("deterministicRuleSelection", JBool true);
       ("ruleSelectionStatus", rt_selection rt); ("payoutBasis", of_option_str (rt_payoutBasis rt));
       ("provisional", JBool false); ("marginProtection", rt_marginProtection rt); ("tierSelection", rt_tierSelection rt);
       ("lineage", rt_lineage rt); ("facts", rt_facts rt); ("networkActualCommissionSource", JStr source);
       ("approvedBasis", basis)]);
   ("effectiveAt", conversion@."conversionDate" |or| JDate (Some now));
   ("metadata", JObj
      [("reportingPolicy", JStr policy); ("displayCommission", rt_display rt |or| JNull);
       ("ruleKind", (rt_ruleKind rt ?? (rt_snapshot rt)@."commissionType" ?? JNull) |or| JNull); ("approvedBasisFingerprint", JStr (approvedBasisFingerprint basis));
       ("basisMode", basis@."basisMode")])].

(** Lines 523-571: create the row, or find the one a concurrent recognition created. *)
Definition store_earn (key : string) (order conversionId clientId : jsval) (data : list (string * jsval))
  : prog world recognition :=
  catch
    (let! record := create_row TFinancial data in
     audit_record [("aggregateType", JStr "FinancialTransaction"); ("aggregateId", record@."id");
                   ("action", JStr "FINANCIAL_RECOGNIZED");
                   ("after", JObj [("recognitionKey", JStr key); ("clientPayable", record@."clientPayable");
                                   ("supplierReceivable", record@."supplierReceivable"); ("mboMargin", record@."mboMargin")])] ;;
     (if order@."clientPaymentStatus" === "CLIENT_PAYMENT_NOT_READY"
      then catch (let! _ := update_row TOrder order@."id" [] in ret tt) (fun _ => ret tt)
      else ret tt) ;;
     ret (Recognized record))
    (fun e =>
       if err_code e =s? "P2002" then
         let! raced := findByRecognitionKey key in
         let! _ := report (JObj
           [("condition", JStr "DUPLICATE_PAYMENT_IMPORT"); ("type", JStr "DUPLICATE_FINANCIAL_RECOGNITION");
            ("conversionId", conversionId); ("orderId", order@."id"); ("clientId", clientId);
            ("reason", JStr "Concurrent duplicate recognition recovered")]) in
         ret (Reused (or_null raced))
       else throw e).

(** Lines 338-521: from an approved, attributed order with a usable commission to its row. *)
Definition recognize_amount (key : string) (order conversion conversionId clientId assignmentId basis : jsval)
    (amount : num) (networkCurrency : jsval) (source : string) : prog world recognition :=
  let! t := get_now in
  let ids := [("conversionId", conversionId); ("orderId", order@."id"); ("clientId", clientId)] in
  let transactionAt := conversion@."conversionDate" |or| order@."orderDate" |or| JDate (Some t) in
  let cur := original_currency networkCurrency conversion order basis in
  if negb (truthy cur) then
    report_unresolved ([("type", JStr "INVALID_CURRENCY"); ("severity", JStr "HIGH")] ++ ids
      ++ [("reason", JStr "Missing original currency on conversion/order")]) "missing_currency"
  else
    let! rt := evaluate (runtime_request assignmentId order conversion basis transactionAt cur amount) in
    if runtime_open rt then
      report_unresolved
        ([("type", JStr (if includes (rt_reason rt) "currency" then "INVALID_CURRENCY"
                         else if rt_status rt =s? "NO_MATCH" then "COMMISSION_MISSING" else "COMMISSION_INVALID"));
          ("severity", JStr "HIGH")] ++ ids ++
         [("reason", JStr (runtime_reason rt));
          ("metadata", JObj [("runtimeStatus", JStr (rt_status rt)); ("ruleSelectionStatus", rt_selection rt ?? JNull);
                             ("matchedClientCommissionRuleId", rt_ruleId rt ?? JNull);
                             ("payoutBasis", of_option_str (rt_payoutBasis rt));
                             ("marginProtection", rt_marginProtection rt ?? JNull); ("approvedBasis", basis)])])
        (runtime_reason rt)
    else
      let! found := findUnique TClient "id" clientId in
      let clientRecord := conversion@."clientAssignment"@."client" |or| or_null found in
      match resolveReportingCurrency (clientRecord@."country" |or| order@."metadata"@."country" |or| JNull)
              (order@."metadata"@."region" |or| JNull) (clientRecord@."currency" |or| JNull) with
      | NoReporting why _ =>
          report_unresolved ([("type", JStr "INVALID_CURRENCY"); ("severity", JStr "HIGH")] ++ ids
            ++ [("reason", JStr why)]) why
      | Reporting reportingCur policy =>
          let! bundle := applyFxBundle (JNum amount) (of_option_num (rt_clientPayable rt)) (of_option_num (rt_mboMargin rt))
                           cur (JStr reportingCur) transactionAt JUndef in
          match bundle with
          | inr why =>
              report_unresolved ([("type", JStr "MISSING_FX_RATE"); ("severity", JStr "HIGH")] ++ ids
                ++ [("reason", JStr why); ("metadata", JObj [("from", cur); ("to", JStr reportingCur)])]) why
          | inl fx =>
              store_earn key order conversionId clientId
                (earn_row key order conversion conversionId clientId basis cur amount source rt fx policy t)
          end
      end.

(** The order a recognition works on (lines 239-264). *)
Definition recognition_order (orderId conversion : jsval) : prog world (option jsval) :=
  let! own := load_order conversion@."orderId" in
  let! order := (if truthy orderId && match own with Some o => negb (col_eq o@."id" orderId) | None => true end
                 then load_order orderId else ret own) in
  match order with
  | Some o => ret (Some o)
  | None => if truthy conversion@."orderId" then load_order conversion@."orderId" else ret None
  end.

Definition recognizeConversion (orderId conversionId : jsval) : prog world recognition :=
  if negb (truthy conversionId) then throw (api_fail "conversionId is required." 400)
  else
    let key := earnRecognitionKey conversionId in
    let! existing := findByRecognitionKey key in
    match existing with
    | Some e => ret (Reused e)
    | None =>
        let! found := findUnique TConversion "id" conversionId in
        match found with
        | None => throw (api_fail "Conversion not found." 404)
        | Some c =>
            let! conversion := load_assignment c in
            let! order := recognition_order orderId conversion in
            match order with
            | None =>
                report_unresolved
                  [("type", JStr "COMMISSION_INVALID"); ("severity", JStr "MEDIUM"); ("conversionId", conversionId);
                   ("orderId", JNull); ("reason", JStr "Financial recognition requires VALIDATION_APPROVED");
                   ("metadata", JObj [("validationStatus", JNull)])] "validation_not_approved"
            | Some order =>
                if negb (order@."validationStatus" === "VALIDATION_APPROVED") then
                  report_unresolved
                    [("type", JStr "COMMISSION_INVALID"); ("severity", JStr "MEDIUM"); ("conversionId", conversionId);
                     ("orderId", order@."id" ?? JNull); ("reason", JStr "Financial recognition requires VALIDATION_APPROVED");
                     ("metadata", JObj [("validationStatus", order@."validationStatus" ?? JNull)])] "validation_not_approved"
                else
                  let clientId := order@."clientId" |or| conversion@."clientAssignment"@."clientId" |or| JNull in
                  if negb (truthy clientId) then
                    report_unresolved
                      [("type", JStr "COMMISSION_MISSING"); ("severity", JStr "HIGH"); ("conversionId", conversionId);
                       ("orderId", order@."id"); ("reason", JStr "Missing clientId for financial recognition")] "missing_client"
                  else
                    let att := resolveFinancialAttribution order conversion in
                    if negb (a_resolved att) then
                      report_unresolved
                        [("type", JStr "COMMISSION_MISSING"); ("severity", JStr "HIGH"); ("conversionId", conversionId);
                         ("orderId", order@."id"); ("clientId", clientId); ("reason", JStr (a_reason att));
                         ("metadata", JObj [("orderAssignmentId", a_orderAssignmentId att);
                                            ("conversionAssignmentId", a_conversionAssignmentId att)])] (a_reason att)
                    else
                      let basis := resolveApprovedCommercialBasis order conversion in
                      match resolveValidatedNetworkActualCommission basis conversion with
                      | NoNetworkActual why =>
                          report_unresolved
                            [("type", JStr "COMMISSION_INVALID"); ("severity", JStr "HIGH"); ("conversionId", conversionId);
                             ("orderId", order@."id"); ("clientId", clientId); ("reason", JStr why);
                             ("metadata", JObj [("approvedBasis", basis)])] why
                      | NetworkActual amount cur source =>
                          recognize_amount key order conversion conversionId clientId (a_assignmentId att) basis amount cur source
                      end
            end
        end
    end.

(** ** Adjustments *)

Definition is_late_rejection (adjustmentType : string) : bool := adjustmentType =s? "LATE_REJECTION".
Definition adjusted_status (adjustmentType : string) : string :=
  if is_late_rejection adjustmentType then "FINANCIAL_REVERSED" else "FINANCIAL_ADJUSTED".
Definition adjustment_key (original : jsval) (adjustmentType correctionKey : string) : string :=
  if is_late_rejection adjustmentType then lateRejectionAdjustmentKey original@."conversionId"
  else adjustmentType +:+ ":" +:+ js_string original@."conversionId" +:+ ":" +:+ correctionKey.
Definition result_key (original : jsval) (adjustmentType correctionKey : string) : string :=
  if is_late_rejection adjustmentType then reversalRecognitionKey original@."conversionId" adjustmentType
  else adjustmentRecognitionKey original@."conversionId" adjustmentType correctionKey.

Record deltas := Deltas { d_supplier : string; d_client : string; d_margin : string }.

(** Lines 647-681: the signed ledger row. *)
Definition result_row (recognitionKey : string) (original : jsval) (adjustmentType : string) (reason : jsval)
    (d : deltas) (fx : fx_bundle) (metadata : jsval) (t : Z) : list (string * jsval) :=
  [("recognitionKey", JStr recognitionKey);
   ("transactionType", JStr (if is_late_rejection adjustmentType then "REVERSAL" else "ADJUSTMENT"));
   ("status", JStr (adjusted_status adjustmentType)); ("orderId", original@."orderId");
   ("conversionId", original@."conversionId"); ("clientId", original@."clientId");
   ("supplier", original@."supplier"); ("campaignSourceId", original@."campaignSourceId");
   ("commissionRuleId", original@."commissionRuleId"); ("relatedTransactionId", original@."id");
   ("supplierReceivable", JStr (d_supplier d)); ("clientPayable", JStr (d_client d)); ("mboMargin", JStr (d_margin d));
   ("originalCurrency", original@."originalCurrency");
   ("reportingSupplierReceivable", b_supplier fx); ("reportingClientPayable", b_client fx);
   ("reportingMboMargin", b_margin fx); ("reportingCurrency", b_currency fx); ("fxRate", b_rate fx);
   ("fxDate", if truthy (b_date fx) then JDate (new_date (b_date fx)) else JNull); ("fxSource", JStr (b_source fx));
   ("ruleSnapshot", original@."ruleSnapshot");
   ("calculationMetadata", JObj [("adjustmentType", JStr adjustmentType); ("reason", reason);
                                 ("originalRecognitionKey", original@."recognitionKey")]);
   ("effectiveAt", JDate (Some t)); ("metadata", metadata)].

(** Lines 683-702: the adjustment record. *)
Definition adjustment_row (adjustmentKey : string) (original result : jsval) (adjustmentType : string) (reason : jsval)
    (d : deltas) (fx : fx_bundle) (createdBy : string) (metadata : jsval) : list (string * jsval) :=
  [("adjustmentKey", JStr adjustmentKey); ("adjustmentType", JStr adjustmentType); ("reason", reason ?? JNull);
   ("originalTransactionId", original@."id"); ("resultTransactionId", result@."id");
   ("orderId", original@."orderId"); ("conversionId", original@."conversionId"); ("clientId", original@."clientId");
   ("supplierReceivableDelta", JStr (d_supplier d)); ("clientPayableDelta", JStr (d_client d));
   ("mboMarginDelta", JStr (d_margin d)); ("currency", original@."originalCurrency");
   ("reportingCurrency", b_currency fx); ("fxRate", b_rate fx); ("createdBy", JStr createdBy); ("metadata", metadata)].

(** Lines 647-728: the result row, the adjustment, the status of the original, the audit. *)
Definition write_adjustment (original : jsval) (adjustmentType adjustmentKey recognitionKey : string) (reason : jsval)
    (d : deltas) (fx : fx_bundle) (createdBy : string) (metadata : jsval) : prog world adjustment_result :=
  let! t := get_now in
  let! result := create_row TFinancial (result_row recognitionKey original adjustmentType reason d fx metadata t) in
  let! adj := create_row TAdjustment
                (adjustment_row adjustmentKey original result adjustmentType reason d fx createdBy metadata) in
  let! _ := update_row TFinancial original@."id" [("status", JStr (adjusted_status adjustmentType))] in
  audit_record [("aggregateType", JStr "CommissionAdjustment"); ("aggregateId", adj@."id");
                ("action", JStr (adjusted_status adjustmentType));
                ("after", JObj [("adjustmentKey", JStr adjustmentKey); ("clientPayableDelta", JStr (d_client d));
                                ("supplierReceivableDelta", JStr (d_supplier d)); ("mboMarginDelta", JStr (d_margin d))]);
                ("reason", reason)] ;;
  ret (AdjustmentResult adj result true).

Definition createAdjustment (originalTransactionId : jsval) (adjustmentType : string) (reason : jsval) (d : deltas)
    (correctionKey createdBy : string) (metadata : jsval) : prog world adjustment_result :=
  let! found := findUnique TFinancial "id" originalTransactionId in
  match found with
  | None => throw (api_fail "Original financial transaction not found." 404)
  | Some original =>
      let adjustmentKey := adjustment_key original adjustmentType correctionKey in
      let! existingAdj := findUnique TAdjustment "adjustmentKey" (JStr adjustmentKey) in
      match existingAdj with
      | Some e =>
          let! result := (if truthy e@."resultTransactionId" then findUnique TFinancial "id" e@."resultTransactionId"
                          else ret None) in
          ret (AdjustmentResult e (or_null result) false)
      | None =>
          let recognitionKey := result_key original adjustmentType correctionKey in
          let! existingTxn := findByRecognitionKey recognitionKey in
          match existingTxn with
          | Some txn => ret (AdjustmentResult JNull txn false)
          | None =>
              let! bundle := applyFxBundle (JStr (d_supplier d)) (JStr (d_client d)) (JStr (d_margin d))
                               original@."originalCurrency" (original@."reportingCurrency" |or| original@."originalCurrency")
                               (original@."fxDate" |or| original@."effectiveAt") original@."fxRate" in
              match bundle with
              | inr why =>
                  let! _ := report (JObj
                    [("type", JStr "MISSING_FX_RATE"); ("severity", JStr "HIGH"); ("conversionId", original@."conversionId");
                     ("orderId", original@."orderId"); ("clientId", original@."clientId"); ("reason", JStr why)]) in
                  throw (api_fail ("FX required for adjustment: " +:+ why) 409)
              | inl fx =>
                  write_adjustment original adjustmentType adjustmentKey recognitionKey reason d fx createdBy metadata
              end
          end
      end
  end.

(** [(-Number(v)).toFixed(4)] *)
Definition negated (v : jsval) : string := num_toFixed 4 (nneg (js_number v)).
Definition reversal_deltas (original : jsval) : deltas :=
  Deltas (negated original@."supplierReceivable") (negated original@."clientPayable") (negated original@."mboMargin").

(** [None]: [{ skipped: true, reason: no_financial_recognition }] *)
Definition reverseForLateRejection (conversionId orderId reason : jsval) : prog world (option adjustment_result) :=
  let! found := findByRecognitionKey (earnRecognitionKey conversionId) in
  match found with
  | None => ret None
  | Some original =>
      let! r := createAdjustment original@."id" "LATE_REJECTION" (reason |or| JStr "Late validation rejection")
                  (reversal_deltas original) "1" "system" (JObj [("orderId", orderId |or| original@."orderId")]) in
      ret (Some r)
  end.

Definition netPositionForConversion (conversionId : jsval) : prog world (list jsval * net_position) :=
  let! fts := findMany TFinancial "conversionId" conversionId in ret (fts, netFinancialPosition fts).

(** ** Following a changed item basis *)

Inductive sync_entry :=
| SyncRecognize (conversionId : jsval) (r : recognition)
| SyncUnresolved (conversionId : jsval) (reason : string)
| SyncNoop (conversionId : jsval) (fingerprint : string)
| SyncAdjust (conversionId : jsval) (r : adjustment_result).
Inductive sync_result :=
| SyncSkipped (reason : string)
| Synced (orderId : jsval) (results : list sync_entry).

Definition sync_tolerance : num := num_of_ratio 15 100000.
Definition negligible (x : num) : bool := nltb (nabs x) sync_tolerance.
(** [Number((target - current).toFixed(4))] *)
Definition step_to (target current : num) : num := round4 (nsub target current).
Definition correction_key (fp : string) (curClient curSupplier : num) : string :=
  slice 0 180 ("item_basis:" +:+ fp +:+ ":from:" +:+ num_toFixed 4 curClient +:+ "_" +:+ num_toFixed 4 curSupplier).

(** Lines 906-963: the correction that moves the net position to its target. *)
Definition correct_net (order existingEarn conversion basis reason : jsval) (amount : num) (rt : runtime_result)
  : prog world sync_entry :=
  let! p := netPositionForConversion conversion@."id" in
  let net := p.2 in
  let targetSupplier := amount in
  let targetClient := js_number (of_option_num (rt_clientPayable rt)) in
  let targetMargin := js_number (of_option_num (rt_mboMargin rt)) in
  let curSupplier := string_to_num (n_supplier net) in
  let curClient := string_to_num (n_client net) in
  let curMargin := string_to_num (n_margin net) in
  let dSupplier := step_to targetSupplier curSupplier in
  let dClient := step_to targetClient curClient in
  let dMargin := step_to targetMargin curMargin in
  let fp := approvedBasisFingerprint basis in
  if negligible dSupplier && negligible dClient && negligible dMargin then ret (SyncNoop conversion@."id" fp)
  else
    let! adj := createAdjustment existingEarn@."id" "COMMISSION_CORRECTION" (reason |or| JStr "Approved item basis changed")
                  (Deltas (num_toFixed 4 dSupplier) (num_toFixed 4 dClient) (num_toFixed 4 dMargin))
                  (correction_key fp curClient curSupplier) "system"
                  (JObj [("orderId", order@."id"); ("approvedBasis", basis); ("fingerprint", JStr fp);
                         ("priorNet", net_object net);
                         ("target", JObj [("supplierReceivable", JNum targetSupplier); ("clientPayable", JNum targetClient);
                                          ("mboMargin", JNum targetMargin)])]) in
    ret (SyncAdjust conversion@."id" adj).

Definition sync_unresolved (order conversion : jsval) (type reason : string) (metadata : list (string * jsval))
  : prog world sync_entry :=
  let! _ := report (JObj
    [("type", JStr type); ("severity", JStr "HIGH"); ("conversionId", conversion@."id"); ("orderId", order@."id");
     ("clientId", order@."clientId"); ("reason", JStr reason); ("metadata", JObj metadata)]) in
  ret (SyncUnresolved conversion@."id" reason).

(** Lines 783-963: one conversion of the order. *)
Definition sync_conversion (order reason conversion : jsval) : prog world sync_entry :=
  let! existing := findByRecognitionKey (earnRecognitionKey conversion@."id") in
  match existing with
  | None => let! created := recognizeConversion order@."id" conversion@."id" in
            ret (SyncRecognize conversion@."id" created)
  | Some existingEarn =>
      let att := resolveFinancialAttribution order conversion in
      if negb (a_resolved att) then
        sync_unresolved order conversion "COMMISSION_MISSING" (a_reason att) [("scope", JStr "item_basis_sync")]
      else
        let! t := get_now in
        let transactionAt := conversion@."conversionDate" |or| order@."orderDate" |or| JDate (Some t) in
        let basis := resolveApprovedCommercialBasis order conversion in
        match resolveValidatedNetworkActualCommission basis conversion with
        | NoNetworkActual why =>
            sync_unresolved order conversion "COMMISSION_INVALID" why
              [("approvedBasis", basis); ("scope", JStr "item_basis_sync")]
        | NetworkActual amount networkCurrency _ =>
            let cur := original_currency networkCurrency conversion order basis in
            if negb (truthy cur) then ret (SyncUnresolved conversion@."id" "missing_currency")
            else
              let! rt := evaluate (runtime_request (a_assignmentId att) order conversion basis transactionAt cur amount) in
              if runtime_open rt then
                sync_unresolved order conversion "COMMISSION_INVALID" (runtime_reason rt)
                  [("scope", JStr "item_basis_sync"); ("runtimeStatus", JStr (rt_status rt));
                   ("matchedClientCommissionRuleId", rt_ruleId rt ?? JNull); ("approvedBasis", basis)]
              else correct_net order existingEarn conversion basis reason amount rt
        end
  end.

Definition syncApprovedBasisForOrder (orderId reason : jsval) : prog world sync_result :=
  if negb (truthy orderId) then throw (api_fail "orderId is required." 400)
  else
    let! found := load_order orderId in
    match found with
    | None => throw (api_fail "Order not found." 404)
    | Some order =>
        let! bare := findMany TConversion "orderId" order@."id" in
        let! conversions := collect bare load_assignment in
        if negb (order@."validationStatus" === "VALIDATION_APPROVED") then ret (SyncSkipped "order_not_approved")
        else let! results := collect conversions (sync_conversion order reason) in ret (Synced order@."id" results)
    end.

End Service.
End Ledger.


Module LedgerFacts.
Import Ledger.
Section Facts.
Context {H : JsHost} {D : Database}.

(** ** What the finance service changes *)

Definition finance_tables : list table := [TOrder; TFinancial; TAdjustment; TException; TAudit].

(** A step of the ledger: transactions and adjustments are only appended, of an existing
    transaction only the status changes, unique keys stay unique, orders keep every
    column, and no other table is written. *)
Record ledger_step (w w' : world) : Prop := LedgerStep {
  step_within : within finance_tables w w';
  step_financial : evolves TFinancial ["status"] w w';
  step_adjustment : evolves TAdjustment [] w w';
  step_orders : same_columns TOrder w w';
  step_keys : keeps_distinct TFinancial "recognitionKey" w w';
  step_adjustment_keys : keeps_distinct TAdjustment "adjustmentKey" w w'
}.
#[export] Instance ledger_step_preorder : PreOrder ledger_step.
Proof.
  split; [intros w; split; reflexivity|]. intros w1 w2 w3 [] [].
  split; etransitivity; eassumption.
Qed.

(** Writes outside orders and the ledger are ledger steps. *)
Lemma tracks_elsewhere {A} ts (c : prog world A) :
  forallb (fun t => existsb (fun u => bool_decide (u = t)) [TException; TAudit]) ts = true ->
  tracks (within ts) c -> tracks ledger_step c.
Proof.
  intros Hts Hc. apply (tracks_within_mono ts [TException; TAudit]) in Hc; [|exact Hts]. clear Hts.
  split; [eapply tracks_within_mono; [|exact Hc]; reflexivity| | | | |].
  - refine (tracks_outside _ _ TFinancial c _ _ Hc _); [apply same_rows_evolves|compute_done].
  - refine (tracks_outside _ _ TAdjustment c _ _ Hc _); [apply same_rows_evolves|compute_done].
  - refine (tracks_outside _ _ TOrder c _ _ Hc _); [apply same_rows_same_columns|compute_done].
  - refine (tracks_outside _ _ TFinancial c _ _ Hc _); [apply same_rows_distinct|compute_done].
  - refine (tracks_outside _ _ TAdjustment c _ _ Hc _); [apply same_rows_distinct|compute_done].
Qed.

(** A write to one of the tables of the service, all others being untouched. *)
Lemma other_rows {A} t u (c : prog world A) w : tracks (only t) c -> u <> t -> rows (c w).2 u = rows w u.
Proof. intros Hc Hu. now apply Hc. Qed.

Lemma create_financial_step data : tracks ledger_step (create_row TFinancial data).
Proof.
  intros w. split.
  - apply create_row_within; compute_done.
  - apply create_row_evolves.
  - apply same_rows_evolves, (other_rows TFinancial); [apply create_row_only|discriminate].
  - apply same_rows_same_columns, (other_rows TFinancial); [apply create_row_only|discriminate].
  - apply create_row_distinct; compute_done.
  - apply same_rows_distinct, (other_rows TFinancial); [apply create_row_only|discriminate].
Qed.
Lemma create_adjustment_step data : tracks ledger_step (create_row TAdjustment data).
Proof.
  intros w. split.
  - apply create_row_within; compute_done.
  - apply same_rows_evolves, (other_rows TAdjustment); [apply create_row_only|discriminate].
  - apply create_row_evolves.
  - apply same_rows_same_columns, (other_rows TAdjustment); [apply create_row_only|discriminate].
  - apply same_rows_distinct, (other_rows TAdjustment); [apply create_row_only|discriminate].
  - apply create_row_distinct; compute_done.
Qed.
Lemma set_status_step id v : tracks ledger_step (update_row TFinancial id [("status", v)]).
Proof.
  intros w. split.
  - apply update_row_within; compute_done.
  - apply update_row_evolves. cbn. intros k Hk. exact Hk.
  - apply same_rows_evolves, (other_rows TFinancial); [apply update_row_only|discriminate].
  - apply same_rows_same_columns, (other_rows TFinancial); [apply update_row_only|discriminate].
  - apply update_row_distinct; compute_done.
  - apply same_rows_distinct, (other_rows TFinancial); [apply update_row_only|discriminate].
Qed.
Lemma touch_order_step id : tracks ledger_step (update_row TOrder id []).
Proof.
  intros w. split.
  - apply update_row_within; compute_done.
  - apply same_rows_evolves, (other_rows TOrder); [apply update_row_only|discriminate].
  - apply same_rows_evolves, (other_rows TOrder); [apply update_row_only|discriminate].
  - apply update_row_same_columns.
  - apply same_rows_distinct, (other_rows TOrder); [apply update_row_only|discriminate].
  - apply same_rows_distinct, (other_rows TOrder); [apply update_row_only|discriminate].
Qed.
Lemma audit_step event : tracks ledger_step (audit_record event).
Proof. apply (tracks_elsewhere [TAudit]); [reflexivity|]. apply audit_record_within. compute_done. Qed.
Lemma report_step input : tracks ledger_step (report input).
Proof. apply (tracks_elsewhere [TException; TAudit]); [reflexivity|]. apply ExceptionFacts.report_within. Qed.
Lemma evaluate_step a : tracks ledger_step (evaluate a).
Proof. apply tracks_unchanged; [exact _|]. apply RuntimeFacts.evaluate_reads. Qed.
Lemma applyFxBundle_step s c m o r d p : tracks ledger_step (applyFxBundle s c m o r d p).
Proof. apply tracks_unchanged; [exact _|]. apply FxFacts.applyFxBundle_reads. Qed.
End Facts.

#[export] Hint Resolve create_financial_step create_adjustment_step set_status_step touch_order_step
  audit_step report_step evaluate_step applyFxBundle_step : tracks.

Section Steps.
Context {H : JsHost} {D : Database}.
Lemma load_order_reads id : tracks eq (load_order id).
Proof. unfold load_order, findUnique, findMany, find_where. track. Qed.
Lemma load_assignment_reads c : tracks eq (load_assignment c).
Proof. unfold load_assignment, findUnique, find_where. track. Qed.
Lemma recognition_order_reads o c : tracks eq (recognition_order o c).
Proof. unfold recognition_order. track; apply load_order_reads. Qed.
Lemma load_order_step id : tracks ledger_step (load_order id).
Proof. apply tracks_unchanged; [exact _|]. apply load_order_reads. Qed.
Lemma load_assignment_step c : tracks ledger_step (load_assignment c).
Proof. apply tracks_unchanged; [exact _|]. apply load_assignment_reads. Qed.
Lemma recognition_order_step o c : tracks ledger_step (recognition_order o c).
Proof. apply tracks_unchanged; [exact _|]. apply recognition_order_reads. Qed.
Lemma report_unresolved_step fields why : tracks ledger_step (report_unresolved fields why).
Proof. unfold report_unresolved. track. Qed.
Lemma findByRecognitionKey_step key : tracks ledger_step (findByRecognitionKey key).
Proof. unfold findByRecognitionKey, findUnique, find_where. track. Qed.
End Steps.

#[export] Hint Resolve load_order_step load_assignment_step recognition_order_step report_unresolved_step
  findByRecognitionKey_step : tracks.

Section Operations.
Context {H : JsHost} {D : Database}.
Lemma store_earn_step key order c cl data : tracks ledger_step (store_earn key order c cl data).
Proof. unfold store_earn. track. Qed.
Lemma recognize_amount_step key o c cid cl a b amount cur src :
  tracks ledger_step (recognize_amount key o c cid cl a b amount cur src).
Proof. unfold recognize_amount, get_now, findUnique, find_where. track. apply store_earn_step. Qed.
Lemma recognizeConversion_step o c : tracks ledger_step (recognizeConversion o c).
Proof. unfold recognizeConversion, findUnique, find_where. track. apply recognize_amount_step. Qed.
Lemma createAdjustment_step id ty reason d k by_ m : tracks ledger_step (createAdjustment id ty reason d k by_ m).
Proof. unfold createAdjustment, write_adjustment, get_now, findUnique, find_where. track. Qed.
Lemma reverseForLateRejection_step c o reason : tracks ledger_step (reverseForLateRejection c o reason).
Proof. unfold reverseForLateRejection. track. apply createAdjustment_step. Qed.
Lemma sync_conversion_step o reason c : tracks ledger_step (sync_conversion o reason c).
Proof.
  unfold sync_conversion, sync_unresolved, correct_net, netPositionForConversion, get_now, findMany.
  track; apply recognizeConversion_step || apply createAdjustment_step.
Qed.
Lemma syncApprovedBasisForOrder_step o reason : tracks ledger_step (syncApprovedBasisForOrder o reason).
Proof. unfold syncApprovedBasisForOrder, findMany. track. apply sync_conversion_step. Qed.
End Operations.
End LedgerFacts.

(** ** Theorems of the ledger

    Recognition of a commission is sound and idempotent, the ledger is append-only with
    unique keys, a late rejection cancels the recognized amounts exactly, and where the
    reversal and correction rules leave the net position of a conversion. *)

Module LedgerTheorems.
Import ClientCalculation Ledger LedgerFacts.
Section Facts.
Context {H : JsHost} {D : Database}.

(** ** The ledger is append-only *)

(** C5: No operation of the finance service removes a transaction or an adjustment or changes
    their amounts: of an existing transaction only the status is rewritten, recognition
    keys and adjustment keys stay unique, orders keep every column, and conversions,
    items, assignments, rules and rates are not written at all. *)
Theorem ledger_append_only o c id ty reason d k by_ m w :
  ledger_step w (recognizeConversion o c w).2 /\
  ledger_step w (createAdjustment id ty reason d k by_ m w).2 /\
  ledger_step w (reverseForLateRejection c o reason w).2 /\
  ledger_step w (syncApprovedBasisForOrder o reason w).2.
Proof.
  split_and!; [apply recognizeConversion_step|apply createAdjustment_step|apply reverseForLateRejection_step|
               apply syncApprovedBasisForOrder_step].
Qed.

(** ** Recognition *)

(** A finished step that only writes [t] leaves the other tables alone. *)
Lemma ran_other {A} t u (c : prog world A) w r w' : tracks (only t) c -> c w = (r, w') -> u <> t -> rows w' u = rows w u.
Proof. intros Hc Hr Hu. specialize (Hc w u Hu). now rewrite Hr in Hc. Qed.

Lemma store_earn_recognized key order c cl data w r w' :
  store_earn key order c cl data w = (Ok (Recognized r), w') ->
  exists w1, create_row TFinancial data w = (Ok r, w1) /\ rows w' TFinancial = rows w1 TFinancial.
Proof.
  unfold store_earn, catch. destruct (bind _ _ w) as [[res|e] w2] eqn:E.
  - intros Heq. injection Heq as -> ->. apply bind_ok in E as (record & w1 & Hc & E).
    apply bind_ok in E as (? & w3 & Ha & E). apply bind_ok in E as (u & w4 & Hu & E).
    injection E as <- <-. exists w1. split; [exact Hc|].
    rewrite <- (ran_other TAudit TFinancial _ _ _ _ (audit_record_only _) Ha) by discriminate.
    clear -Hu. revert Hu. destruct (_ === _); [|intros Heq; now injection Heq as <- <-].
    unfold catch, bind. pose proof (update_row_only TOrder order@."id" [] w3 TFinancial ltac:(discriminate)) as Ho. revert Ho.
    destruct (update_row _ _ _ w3) as [[?|?] w5]; cbn; intros Ho Heq; injection Heq as <- <-; exact Ho.
  - destruct (err_code e =s? "P2002"); [|discriminate]. intros (? & ? & _ & E')%bind_ok.
    apply bind_ok in E' as (? & ? & _ & E'). discriminate E'.
Qed.

Lemma report_unresolved_not fields why w r w' : report_unresolved fields why w <> (Ok (Recognized r), w').
Proof. unfold report_unresolved. intros (? & ? & _ & E)%bind_ok. discriminate E. Qed.

(** What a recognized amount records. *)
Definition earned (order conversion assignmentId : jsval) (amount : num) (r : jsval) (w : world) : Prop :=
  exists rt cur at_, evaluate (runtime_request assignmentId order conversion (resolveApprovedCommercialBasis order conversion) at_ cur amount) w = (Ok rt, w) /\
    rt_status rt = "CALCULATED" /\ rt_provisional rt = false /\ truthy cur = true /\
    r@."supplierReceivable" = column_decimal (JNum amount) /\
    r@."clientPayable" = (encode_field TFinancial ("clientPayable", of_option_num (rt_clientPayable rt))).2 /\
    r@."mboMargin" = (encode_field TFinancial ("mboMargin", of_option_num (rt_mboMargin rt))).2 /\
    r@."originalCurrency" = cur.

Lemma earn_row_nodup key o c cid cl b cur amount src rt fx policy t :
  NoDup (map fst (earn_row key o c cid cl b cur amount src rt fx policy t)).
Proof. nodup_keys. Qed.

Lemma of_option_num_defined o : of_option_num o <> JUndef.
Proof. destruct o; discriminate. Qed.

Lemma recognize_amount_recognized key order conversion cid cl a amount ncur src w r w' :
  recognize_amount key order conversion cid cl a (resolveApprovedCommercialBasis order conversion) amount ncur src w
    = (Ok (Recognized r), w') ->
  earned order conversion a amount r w /\ r@."recognitionKey" = JStr key /\
  rows w' TFinancial = rows w TFinancial ++ [r].
Proof.
  unfold recognize_amount, get_now. rewrite bind_gets. cbv zeta.
  set (basis := resolveApprovedCommercialBasis order conversion).
  destruct (truthy (original_currency _ _ _ _)) eqn:Ecur; cbn [negb]; [|intros []%report_unresolved_not].
  intros (rt & He & Hk)%bind_reads; [|apply RuntimeFacts.evaluate_reads]. revert Hk.
  destruct (runtime_open rt) eqn:Eo; [intros []%report_unresolved_not|].
  unfold findUnique, find_where. rewrite bind_gets.
  destruct (resolveReportingCurrency _ _ _) as [rc policy|]; [|intros []%report_unresolved_not].
  intros ([fx|why] & Hfx & Hk)%bind_reads; [| |apply FxFacts.applyFxBundle_reads]; [|destruct (report_unresolved_not _ _ _ _ _ Hk)].
  apply store_earn_recognized in Hk as (w1 & Hc & ->). apply create_row_ok in Hc as (Hr & -> & _).
  unfold runtime_open in Eo. split_bools.
  assert (Hcol : forall k v, assoc k (earn_row key order conversion cid cl basis (original_currency ncur conversion order basis)
                               amount src rt fx policy (now w)) = Some v -> v <> JUndef -> k <> "id" ->
                             prop r k = (encode_field TFinancial (k, v)).2)
    by (intros k v Hk Hv Hid; subst r; apply created_column; auto using earn_row_nodup).
  split; [|split; [|reflexivity]].
  - exists rt, (original_currency ncur conversion order basis). eexists. split; [exact He|].
    assert (Hcv : original_currency ncur conversion order basis <> JUndef) by (intros E; now rewrite E in Ecur).
    split_and!; auto.
    + rewrite (Hcol "supplierReceivable" (JNum amount)); [reflexivity|reflexivity|discriminate|discriminate].
    + apply Hcol; [reflexivity|apply of_option_num_defined|discriminate].
    + apply Hcol; [reflexivity|apply of_option_num_defined|discriminate].
    + rewrite (Hcol "originalCurrency" (original_currency ncur conversion order basis)); auto.
  - rewrite (Hcol "recognitionKey" (JStr key)); [reflexivity|reflexivity|discriminate|discriminate].
Qed.

(** An order of the store with its items, and a conversion with its assignment. *)
Definition stored_order (w : world) (order : jsval) : Prop :=
  exists row, row ∈ rows w TOrder /\
    order = with_relation row "items" (JArr (List.filter (fun i => col_eq i@."orderId" row@."id") (rows w TOrderItem))).
Definition stored_conversion (w : world) (conversionId conversion : jsval) : Prop :=
  exists row, row ∈ rows w TConversion /\ col_eq row@."id" conversionId = true /\
    load_assignment row w = (Ok conversion, w).

Lemma load_order_stored id w o : load_order id w = (Ok (Some o), w) -> stored_order w o.
Proof.
  unfold load_order, findUnique, find_where, findMany. rewrite bind_gets.
  destruct (List.find _ _) as [row|] eqn:E; [|discriminate]. rewrite bind_gets. intros Heq. injection Heq as <-.
  apply List.find_some in E as [E _]. exists row. split; [now apply list_elem_of_In|reflexivity].
Qed.
Lemma recognition_order_stored orderId c w o : recognition_order orderId c w = (Ok (Some o), w) -> stored_order w o.
Proof.
  unfold recognition_order. intros (own & Hown & Hk)%bind_reads; [|apply load_order_reads].
  apply bind_reads in Hk as (order & Ho & Hk); [|destruct (_ && _); [apply load_order_reads|apply tracks_ret; exact _]].
  destruct order as [x|].
  - injection Hk as ->. revert Ho. destruct (_ && _); [apply load_order_stored|].
    intros Heq. injection Heq as ->. now apply load_order_stored in Hown.
  - clear Ho. revert Hk. destruct (truthy c@."orderId"); [apply load_order_stored|discriminate].
Qed.

Lemma recognized_inv orderId conversionId w r w' :
  recognizeConversion orderId conversionId w = (Ok (Recognized r), w') ->
  List.find (fun x => col_eq x@."recognitionKey" (JStr (earnRecognitionKey conversionId))) (rows w TFinancial) = None /\
  exists order conversion amount cur source,
    stored_order w order /\ stored_conversion w conversionId conversion /\
    order@."validationStatus" = JStr "VALIDATION_APPROVED" /\
    a_resolved (resolveFinancialAttribution order conversion) = true /\
    resolveValidatedNetworkActualCommission (resolveApprovedCommercialBasis order conversion) conversion
      = NetworkActual amount cur source /\
    earned order conversion (a_assignmentId (resolveFinancialAttribution order conversion)) amount r w /\
    r@."recognitionKey" = JStr (earnRecognitionKey conversionId) /\
    rows w' TFinancial = rows w TFinancial ++ [r].
Proof.
  unfold recognizeConversion, findByRecognitionKey, findUnique, find_where.
  destruct (truthy conversionId); cbn [negb]; [|discriminate]. cbv zeta. rewrite bind_gets.
  destruct (List.find _ (rows w TFinancial)) eqn:Ef; [discriminate|]. rewrite bind_gets.
  destruct (List.find _ (rows w TConversion)) as [c|] eqn:Ec; [|discriminate].
  intros (conversion & Hconv & Hk)%bind_reads; [|apply load_assignment_reads].
  apply bind_reads in Hk as ([order|] & Hord & Hk); [| |apply recognition_order_reads];
    [|destruct (report_unresolved_not _ _ _ _ _ Hk)].
  revert Hk. destruct (_ === _) eqn:Ev; cbn [negb]; [|intros []%report_unresolved_not].
  destruct (negb (truthy _)); [intros []%report_unresolved_not|].
  destruct (a_resolved _) eqn:Ea; cbn [negb]; [|intros []%report_unresolved_not].
  destruct (resolveValidatedNetworkActualCommission _ _) as [amount cur source|] eqn:En; [|intros []%report_unresolved_not].
  intros (He & Hkey & Hrows)%recognize_amount_recognized. split; [reflexivity|].
  exists order, conversion, amount, cur, source. apply List.find_some in Ec as [Ec Eid].
  split_and!; auto using is_str_eq.
  - eapply recognition_order_stored; exact Hord.
  - exists c. split_and!; [now apply list_elem_of_In|exact Eid|exact Hconv].
Qed.

(** A validated network amount is a finite, non-negative number. *)
Lemma network_actual_nonneg basis conversion amount cur source :
  resolveValidatedNetworkActualCommission basis conversion = NetworkActual amount cur source ->
  is_finite amount = true /\ nltb amount n0 = false.
Proof.
  unfold resolveValidatedNetworkActualCommission, finiteNumber, finite_number. cbv zeta.
  repeat case_match; intros; simplify_eq; auto.
Qed.


(** Recognizing a conversion a second time, with whatever order id, finds the row of the
    first time and changes nothing. *)
Theorem recognize_twice orderId orderId' conversionId w r w' :
  recognizeConversion orderId conversionId w = (Ok (Recognized r), w') ->
  recognizeConversion orderId' conversionId w' = (Ok (Reused r), w').
Proof.
  intros Hr. assert (Ht : truthy conversionId = true)
    by (revert Hr; unfold recognizeConversion; destruct (truthy conversionId); [reflexivity|discriminate]).
  apply recognized_inv in Hr as (Hnone & _ & _ & _ & _ & _ & _ & _ & _ & _ & _ & _ & Hkey & Hrows).
  unfold recognizeConversion, findByRecognitionKey, findUnique, find_where. rewrite Ht. cbn [negb]. cbv zeta.
  rewrite bind_gets, Hrows, (find_app_none _ _ _ Hnone). cbn [List.find]. rewrite Hkey. cbn [col_eq].
  now rewrite String.eqb_refl.
Qed.

(** ** Late rejection *)

Definition rows_of (conversionId : jsval) (w : world) : list jsval :=
  List.filter (fun r => col_eq r@."conversionId" conversionId) (rows w TFinancial).

Definition set_status (id : jsval) (v : string) (x : jsval) : jsval :=
  if has_id id x then spread x (JObj (encode TFinancial [("status", JStr v)])) else x.
Lemma set_status_prop id v x k : k <> "status" -> prop (set_status id v x) k = prop x k.
Proof.
  intros Hk. unfold set_status. destruct (has_id id x); [|reflexivity]. apply spread_rewrites. cbn.
  rewrite elem_of_cons, elem_of_nil. tauto.
Qed.

Lemma filter_map_same (p : jsval -> bool) f l : (forall x, p (f x) = p x) -> List.filter p (map f l) = map f (List.filter p l).
Proof. intros Hp. induction l as [|x l IH]; cbn; [reflexivity|]. rewrite Hp. destruct (p x); cbn; now rewrite IH. Qed.

Lemma sum_rows_map f field l : (forall x, prop (f x) field = prop x field) -> sum_rows (map f l) field = sum_rows l field.
Proof.
  intros Hf. unfold sum_rows, amount_or_zero. generalize n0 at 2 4 as acc.
  induction l as [|x l IH]; intros acc; cbn [map fold_left]; [reflexivity|]. now rewrite Hf, IH.
Qed.
Lemma sum_rows_snoc l r field : sum_rows (l ++ [r]) field = nadd (sum_rows l field) (amount_or_zero r field).
Proof. unfold sum_rows. now rewrite fold_left_app. Qed.

Lemma result_row_nodup key o ty reason d fx m t : NoDup (map fst (result_row key o ty reason d fx m t)).
Proof. nodup_keys. Qed.

(** The rows after a new adjustment: the old ones and one signed row of the original's
    conversion, the original's status rewritten. *)
Lemma created_adjustment id ty reason d k by_ m w res w' :
  createAdjustment id ty reason d k by_ m w = (Ok res, w') -> adj_created res = true ->
  exists original result fx t, List.find (fun r => col_eq r@."id" id) (rows w TFinancial) = Some original /\
    result = JObj (("id", JStr (fresh_id (next_id w))) ::
               encode TFinancial (result_row (result_key original ty k) original ty reason d fx m t) ++ [("createdAt", JDate (Some t))]) /\
    rows w' TFinancial = map (set_status original@."id" (adjusted_status ty)) (rows w TFinancial ++ [result]).
Proof.
  unfold createAdjustment, findByRecognitionKey, findUnique, find_where. rewrite bind_gets.
  destruct (List.find _ (rows w TFinancial)) as [original|] eqn:Eo; [|discriminate]. cbv zeta. rewrite bind_gets.
  destruct (List.find _ (rows w TAdjustment)) as [e|].
  { intros (? & ? & _ & Hk)%bind_ok. injection Hk as <- <-. discriminate. }
  rewrite bind_gets. cbv beta. revert Eo. case (List.find (fun r => col_eq r@."recognitionKey" _) _); [intros txn _ Heq; injection Heq as <- <-; discriminate|intros Eo].
  intros ([fx|why] & Hfx & Hk)%bind_reads; [| |apply FxFacts.applyFxBundle_reads].
  2: { apply bind_ok in Hk as (? & ? & _ & Hk). discriminate Hk. }
  intros _. unfold write_adjustment, get_now in Hk. rewrite bind_gets in Hk.
  apply bind_ok in Hk as (result & w1 & H1 & Hk). apply bind_ok in Hk as (adj & w2 & H2 & Hk).
  apply bind_ok in Hk as (orig' & w3 & H3 & Hk). apply bind_ok in Hk as (u & w4 & H4 & Hk).
  injection Hk as _ <-. apply create_row_ok in H1 as (Hr & Hrows & _). apply update_row_ok in H3.
  apply (ran_other TAdjustment TFinancial) in H2; [|apply create_row_only|discriminate].
  apply (ran_other TAudit TFinancial) in H4; [|apply audit_record_only|discriminate].
  exists original, result, fx, (now w). split_and!; [reflexivity|exact Hr|].
  rewrite H4, H3, H2, Hrows. reflexivity.
Qed.

(** A money column: the text of a signed amount with at most four decimals. *)
Definition money_column (v : jsval) (x : num) : Prop :=
  exists text b n, v = JStr text /\ string_to_num text = x /\ x = signed b (num_of_ratio n 10000) /\ 0 <= n < max_units.

Lemma js_number_or_zero t : js_number (JStr t |or| JNum n0) = string_to_num t.
Proof. unfold js_or. cbn [truthy]. destruct t; [vm_compute|]; reflexivity. Qed.

Lemma nneg_signed b x : nneg (signed b x) = signed (negb b) x.
Proof. destruct b, x as [[]|[]| |[]]; reflexivity. Qed.

(** The negated amount, printed, stored and read back is the negated amount, except that
    a negative zero comes back as zero. *)
Lemma negated_reads v x :
  money_column v x ->
  exists t, column_decimal (JStr (negated v)) = JStr t /\
            (string_to_num t = nneg x \/ (x = n0 \/ x = nneg n0) /\ string_to_num t = n0).
Proof.
  intros (text & b & n & -> & Ht & Hx & Hn). unfold negated. cbn [js_number]. rewrite Ht, Hx, nneg_signed.
  destruct (decide (n = 0)) as [->|Hn0].
  - assert (E : num_of_ratio 0 10000 = n0) by (vm_compute; reflexivity). rewrite E.
    destruct (column_decimal_exact false 0 ltac:(lia)) as (t & Et & Er). exists t.
    assert (E0 : num_toFixed 4 (signed (negb b) n0) = print_fixed false 4 0) by (destruct b; vm_compute; reflexivity).
    rewrite E0. split; [exact Et|]. right. split; [destruct b; cbn; auto|]. rewrite Er. vm_compute. reflexivity.
  - rewrite toFixed_amount by lia. destruct (column_decimal_exact (negb b) n ltac:(lia)) as (t & Et & Er).
    exists t. split; [exact Et|]. left. rewrite Er, string_to_num_print_fixed, num_of_decimal_4 by (discriminate || lia).
    reflexivity.
Qed.

Lemma money_finite v x : money_column v x -> is_finite x = true.
Proof.
  intros (text & b & n & _ & _ & -> & Hn). destruct (decide (n = 0)) as [->|Hn0].
  - assert (E : num_of_ratio 0 10000 = n0) by (vm_compute; reflexivity). rewrite E. now destruct b.
  - destruct (amount_read n ltac:(lia)) as (m & e & -> & _). now destruct b.
Qed.

Lemma money_amount row field x : money_column (prop row field) x -> amount_or_zero row field = x.
Proof. intros (text & b & n & E & Ht & _). unfold amount_or_zero. rewrite E, js_number_or_zero. exact Ht. Qed.

Lemma cancels x y : is_finite x = true -> y = nneg x \/ (x = n0 \/ x = nneg n0) /\ y = n0 -> nadd (nadd n0 x) y = n0.
Proof.
  intros Hf [->|[[-> | ->] ->]]; [|reflexivity|reflexivity].
  destruct x as [[]| | |b m e]; try discriminate Hf; [reflexivity|reflexivity|].
  change (nadd n0 (S754_finite b m e)) with (S754_finite b m e). now apply nadd_cancel.
Qed.

Definition money_fields : list string := ["supplierReceivable"; "clientPayable"; "mboMargin"].

(** The reversal appends one row to the conversion's ledger, holding the negated texts of
    the amounts first recognized, whatever was adjusted in between. *)
Lemma reversal_rows conversionId orderId reason w earn res w' i :
  distinct TFinancial "id" w -> findByRecognitionKey (earnRecognitionKey conversionId) w = (Ok (Some earn), w) ->
  earn@."id" = JStr i -> col_eq earn@."conversionId" conversionId = true ->
  reverseForLateRejection conversionId orderId reason w = (Ok (Some res), w') -> adj_created res = true ->
  exists result, rows_of conversionId w' = map (set_status earn@."id" "FINANCIAL_REVERSED") (rows_of conversionId w ++ [result]) /\
    forall field, field ∈ money_fields -> prop result field = column_decimal (JStr (negated (prop earn field))).
Proof.
  intros Hd Hf Hid Hconv. unfold reverseForLateRejection.
  intros (found & w1 & Hf' & Hk)%bind_ok. rewrite Hf in Hf'. injection Hf' as <- <-.
  apply bind_ok in Hk as (r & w2 & Hk & Heq). injection Heq as -> ->. intros Hc.
  apply created_adjustment in Hk as (original & result & fx & t & Ho & Hr & Hrows); [|exact Hc].
  assert (Hin : earn ∈ rows w TFinancial).
  { unfold findByRecognitionKey, findUnique, find_where, gets in Hf. injection Hf as Hf.
    apply List.find_some in Hf as [Hf _]. now apply list_elem_of_In. }
  rewrite (find_distinct TFinancial "id" w earn) in Ho; [|exact Hd|exact Hin|rewrite Hid; cbn; now rewrite String.eqb_refl].
  injection Ho as <-.
  assert (Hcol : forall k v, assoc k (result_row (result_key earn "LATE_REJECTION" "1") earn "LATE_REJECTION"
       (reason |or| JStr "Late validation rejection") (reversal_deltas earn) fx (JObj [("orderId", orderId |or| earn@."orderId")]) t)
       = Some v -> v <> JUndef -> k <> "id" -> prop result k = (encode_field TFinancial (k, v)).2)
    by (intros k v Hk Hv Hi; subst result; apply created_column; auto using result_row_nodup).
  exists result. split.
  - unfold rows_of. rewrite Hrows, filter_map_same by (intros x; rewrite set_status_prop; [reflexivity|discriminate]).
    rewrite List.filter_app. cbn [List.filter]. rewrite (Hcol "conversionId" earn@."conversionId"); [|reflexivity| |discriminate].
    + cbn [encode_field snd]. change (existsb _ _ && _) with false. cbn iota. rewrite Hconv. reflexivity.
    + intros E. rewrite E in Hconv. discriminate.
  - intros field Hfield. unfold money_fields in Hfield. rewrite !elem_of_cons, elem_of_nil in Hfield.
    destruct Hfield as [->|[->|[->|[]]]].
    + rewrite (Hcol _ (JStr (negated earn@."supplierReceivable"))); [reflexivity|reflexivity|discriminate|discriminate].
    + rewrite (Hcol _ (JStr (negated earn@."clientPayable"))); [reflexivity|reflexivity|discriminate|discriminate].
    + rewrite (Hcol _ (JStr (negated earn@."mboMargin"))); [reflexivity|reflexivity|discriminate|discriminate].
Qed.

(** C7: When the recognized row is the only one of its conversion, its late rejection brings
    all three sides of the conversion's net position to exactly zero, for every amount
    with four decimals. *)
Theorem reversal_cancels conversionId orderId reason w earn res w' i xs xc xm :
  distinct TFinancial "id" w -> findByRecognitionKey (earnRecognitionKey conversionId) w = (Ok (Some earn), w) ->
  earn@."id" = JStr i -> rows_of conversionId w = [earn] ->
  money_column earn@."supplierReceivable" xs -> money_column earn@."clientPayable" xc ->
  money_column earn@."mboMargin" xm ->
  reverseForLateRejection conversionId orderId reason w = (Ok (Some res), w') -> adj_created res = true ->
  netPositionForConversion conversionId w' =
    (Ok (rows_of conversionId w', NetPosition "0.0000" "0.0000" "0.0000" true), w').
Proof.
  intros Hd Hf Hid Hrows Hs Hc Hm Hrev Hcreated.
  assert (Hconv : col_eq earn@."conversionId" conversionId = true).
  { assert (Hin : earn ∈ rows_of conversionId w) by (rewrite Hrows; left).
    now apply elem_of_filter_bool in Hin as [_ Hin]. }
  destruct (reversal_rows _ _ _ _ _ _ _ _ Hd Hf Hid Hconv Hrev Hcreated) as (result & Hrows' & Hcols).
  assert (Hsum : forall field x, field ∈ money_fields -> money_column (prop earn field) x -> sum_rows (rows_of conversionId w') field = n0).
  { intros field x Hfield Hx. rewrite Hrows', sum_rows_map, sum_rows_snoc, Hrows.
    - unfold sum_rows. cbn [fold_left]. rewrite (money_amount _ _ _ Hx).
      destruct (negated_reads _ _ Hx) as (t & Et & Hy). unfold amount_or_zero at 1.
      rewrite (Hcols field Hfield), Et, js_number_or_zero. apply cancels; [now apply money_finite in Hx|exact Hy].
    - intros y. apply set_status_prop. intros ->. revert Hfield. compute_done. }
  unfold netPositionForConversion, findMany. rewrite bind_gets. cbv beta. fold (rows_of conversionId w').
  unfold netFinancialPosition. rewrite (Hsum "supplierReceivable" xs), (Hsum "clientPayable" xc), (Hsum "mboMargin" xm);
    try assumption; try compute_done.
Qed.

(** ** After a late rejection *)

(** Once a conversion has been recognized, no later recognition of it earns again: also
    after a late rejection reversed the row, the reversed row is reused and nothing is
    written, so a re-approved order keeps its reversed ledger. *)
Theorem reapproval_never_reearns conversionId orderId orderId' reason w earn :
  truthy conversionId = true ->
  findByRecognitionKey (earnRecognitionKey conversionId) w = (Ok (Some earn), w) ->
  let w' := (reverseForLateRejection conversionId orderId reason w).2 in
  exists earn', rewrites ["status"] earn earn' /\
    recognizeConversion orderId' conversionId w' = (Ok (Reused earn'), w').
Proof.
  intros Ht Hf. cbv zeta. unfold findByRecognitionKey, findUnique, find_where, gets in Hf. injection Hf as Hf.
  pose proof (step_financial _ _ (reverseForLateRejection_step conversionId orderId reason w)) as Hev.
  destruct (evolves_find TFinancial ["status"] "recognitionKey" _ _ _ _ Hev ltac:(compute_done) Hf) as (earn' & Hf' & Hr).
  exists earn'. split; [exact Hr|]. unfold recognizeConversion, findByRecognitionKey, findUnique, find_where.
  rewrite Ht. cbn [negb]. cbv zeta. rewrite bind_gets. cbv beta. now rewrite Hf'.
Qed.

(** ** Correction keys *)

Lemma substring_app s t n : (n <= String.length s)%nat -> String.substring 0 n (s +:+ t) = String.substring 0 n s.
Proof.
  revert n. induction s as [|a s IH]; intros [|n] Hn; cbn in *; try reflexivity; [now destruct t|lia|].
  change (String a s +:+ t) with (String a (s +:+ t)). cbn [String.substring]. f_equal. apply IH. lia.
Qed.

(** The prior net position is part of a correction key only while the fingerprint of the
    basis is shorter than 169 characters; past that, corrections of the same basis from
    different net positions share their key. *)
Theorem long_basis_key_ignores_net fp c s c' s' :
  (169 <= String.length fp)%nat -> correction_key fp c s = correction_key fp c' s'.
Proof.
  intros Hl. unfold correction_key, slice.
  assert (E : forall t, String.substring 0 (180 - 0) ("item_basis:" +:+ (fp +:+ t)) = "item_basis:" +:+ String.substring 0 169 fp).
  { intros t. change ("item_basis:" +:+ (fp +:+ t)) with
      (String "i" (String "t" (String "e" (String "m" (String "_" (String "b" (String "a" (String "s" (String "i" (String "s" (String ":" (fp +:+ t)))))))))))).
    cbn [String.substring Nat.sub]. rewrite substring_app by lia. reflexivity. }
  now rewrite !E.
Qed.
End Facts.
End LedgerTheorems.
