(* ===== verification/Validation.v ===== *)
(** * Validation of orders and order items

    [modules/order/validation.service.js] and [modules/order/itemValidation.service.js]: the
    validation state machine of an order and of an order item, with the finance calls a
    transition makes.  The finance service is a dependency of both services
    ([deps.finance]); what they rely on is the interface [FinanceService], which the
    ledger of [Finance] implements. *)

From Stdlib Require Import SpecFloat.
From S2P Require Import Prelude JsNum JsVal JsDate OrderStatus Store Exceptions Finance.
Import OrderMerge ExceptionCases Ledger LedgerFacts.
Local Open Scope Z_scope.

(** What validation needs of finance: the three operations take ledger steps only. *)
Class FinanceService := {
  finance_recognize : jsval -> jsval -> prog world recognition;
  finance_reverse : jsval -> jsval -> jsval -> prog world (option adjustment_result);
  finance_sync : jsval -> jsval -> prog world sync_result;
  finance_recognize_steps o c : tracks ledger_step (finance_recognize o c);
  finance_reverse_steps c o r : tracks ledger_step (finance_reverse c o r);
  finance_sync_steps o r : tracks ledger_step (finance_sync o r)
}.

#[export] Instance ledger_finance {H : JsHost} {D : Database} : FinanceService := {|
  finance_recognize := recognizeConversion;
  finance_reverse := reverseForLateRejection;
  finance_sync := syncApprovedBasisForOrder;
  finance_recognize_steps := recognizeConversion_step;
  finance_reverse_steps := reverseForLateRejection_step;
  finance_sync_steps := syncApprovedBasisForOrder_step
|}.

Module ValidationService.

Definition VALIDATION_TRANSITIONS : list (string * list string) :=
  [("VALIDATION_PENDING", ["VALIDATION_APPROVED"; "VALIDATION_REJECTED"; "VALIDATION_NEEDS_REVIEW"]);
   ("VALIDATION_NEEDS_REVIEW", ["VALIDATION_APPROVED"; "VALIDATION_REJECTED"; "VALIDATION_PENDING"]);
   ("VALIDATION_APPROVED", ["VALIDATION_REJECTED"; "VALIDATION_NEEDS_REVIEW"]);
   ("VALIDATION_REJECTED", ["VALIDATION_NEEDS_REVIEW"])].

(** [(TABLE[from] || []).includes(to)] *)
Definition allows (transitions : list (string * list string)) (from : jsval) (to : string) : bool :=
  match from with
  | JStr s => existsb (String.eqb to) (default [] (assoc s transitions))
  | _ => false
  end.

Section Service.
Context {H : JsHost} {D : Database} {F : FinanceService}.

Definition assertTransition (from : jsval) (to : string) : outcome unit :=
  if from === to then Ok tt
  else if negb (allows VALIDATION_TRANSITIONS from to)
  then Throw (api_fail ("Invalid validation transition: " +:+ js_string from +:+ " → " +:+ to) 409)
  else Ok tt.

(** [try { c } catch { }] *)
Definition attempt {A} (c : prog world A) : prog world unit := catch (let! _ := c in ret tt) (fun _ => ret tt).

Definition is_late (from : jsval) (to : string) : bool :=
  (from === "VALIDATION_APPROVED") && (to =s? "VALIDATION_REJECTED").
Definition is_approval (from : jsval) (to : string) : bool :=
  (to =s? "VALIDATION_APPROVED") && negb (from === "VALIDATION_APPROVED").

(** The amounts kept by a late rejection (lines 81-86). *)
Definition preserved (order linked : jsval) : list (string * jsval) :=
  [("lastApprovedClientCommission", order@."lastApprovedClientCommission" ?? linked@."clientCommission" ?? JNull);
   ("lastApprovedMboCommission", order@."lastApprovedMboCommission" ?? linked@."mboCommission" ?? JNull);
   ("lastApprovedSupplierCommission", order@."lastApprovedSupplierCommission" ?? linked@."supplierCommission" ?? JNull)].

(** The columns a transition writes (lines 72-133). *)
Definition validation_patch (order linked : jsval) (to : string) (t : jsval) : list (string * jsval) :=
  let from := order@."validationStatus" in
  let supplier := order@."supplierPaymentStatus" in
  let snapshot column field := if nullish (prop linked field) then [] else [(column, prop linked field)] in
  [("validationStatus", JStr to); ("validationChangedAt", t)]
  ++ (if is_late from to then
        preserved order linked
        ++ (if (supplier === "PAYMENT_PAYABLE") || (supplier === "PAYMENT_PENDING")
            then [("supplierPaymentStatus", JStr "PAYMENT_ON_HOLD"); ("supplierPaymentChangedAt", t)] else [])
      else [])
  ++ (if to =s? "VALIDATION_REJECTED"
      then [("clientPaymentStatus", JStr "CLIENT_PAYMENT_ON_HOLD"); ("clientPaymentChangedAt", t)] else [])
  ++ (if is_approval from to then
        snapshot "lastApprovedClientCommission" "clientCommission"
        ++ snapshot "lastApprovedMboCommission" "mboCommission"
        ++ snapshot "lastApprovedSupplierCommission" "supplierCommission"
      else []).

(** The patch of a linked conversion (lines 138-154). *)
Definition conversion_patch (from : jsval) (to : string) (t : Z) (conversion : jsval) : list (string * jsval) :=
  [("status", match mapLegacyConversionStatus to with Some s => JStr s | None => JNull end);
   ("approvedDate", if to =s? "VALIDATION_APPROVED" then JDate (Some t) else conversion@."approvedDate")]
  ++ (if to =s? "VALIDATION_REJECTED" then
        [("clientCommission", JNull); ("mboCommission", JNull);
         ("metadata", spread (object_or_empty conversion@."metadata")
            (JObj [("commissionUnresolvedReason", JStr "rejected_validation"); ("preservedOnOrder", JBool true);
                   ("lateRejectionAt", if from === "VALIDATION_APPROVED" then JStr (to_iso_string t) else JUndef)]))]
      else []).

(** Lines 159-188: the finance calls, one per linked conversion, errors ignored. *)
Definition finance_calls (order reason : jsval) (conversions : list jsval) (to : string) : prog world unit :=
  let from := order@."validationStatus" in
  (if is_approval from to then for_each conversions (fun c => attempt (finance_recognize order@."id" c@."id")) else ret tt) ;;
  (if is_late from to
   then for_each conversions (fun c => attempt (finance_reverse c@."id" order@."id" (reason |or| JStr "Late validation rejection")))
   else ret tt).

Definition report_late (order linked reason : jsval) : prog world report_result :=
  let kept := JObj (preserved order linked) in
  report (JObj
    [("type", JStr "LATE_REJECTION"); ("severity", JStr "HIGH"); ("supplier", order@."supplier"); ("orderId", order@."id");
     ("clientId", order@."clientId"); ("conversionId", linked@."id" ?? JNull);
     ("reason", reason |or| JStr "Previously approved order rejected");
     ("metadata", JObj [("preservedClientCommission", kept@."lastApprovedClientCommission");
                        ("preservedMboCommission", kept@."lastApprovedMboCommission");
                        ("preservedSupplierCommission", kept@."lastApprovedSupplierCommission")])]).

Definition apply_transition (orderId order : jsval) (conversions : list jsval) (to : string) (reason actorId : jsval)
    (syncLegacyConversion : bool) : prog world jsval :=
  let from := order@."validationStatus" in
  let linked := nth 0 conversions JUndef in
  let! t := get_now in
  (if is_late from to then let! _ := report_late order linked reason in ret tt else ret tt) ;;
  let! updated := update_row TOrder orderId (validation_patch order linked to (JDate (Some t))) in
  (if syncLegacyConversion
   then for_each conversions (fun c => let! _ := update_row TConversion c@."id" (conversion_patch from to t c) in ret tt)
   else ret tt) ;;
  finance_calls order reason conversions to ;;
  audit_record [("aggregateType", JStr "Order"); ("aggregateId", orderId); ("action", JStr "order.validation.changed");
                ("actorId", actorId); ("before", JObj [("validationStatus", from)]);
                ("after", JObj [("validationStatus", JStr to)]); ("reason", reason)] ;;
  ret updated.

Definition transition (orderId : jsval) (toStatus : string) (reason actorId : jsval) (syncLegacyConversion : bool)
  : prog world jsval :=
  let! found := findUnique TOrder "id" orderId in
  match found with
  | None => throw (api_fail "Order not found." 404)
  | Some order =>
      let! conversions := findMany TConversion "orderId" order@."id" in
      match assertTransition order@."validationStatus" toStatus with
      | Throw e =>
          let! _ := report (JObj
            [("type", JStr "INVALID_VALIDATION_TRANSITION"); ("severity", JStr "HIGH"); ("supplier", order@."supplier");
             ("orderId", order@."id"); ("clientId", order@."clientId"); ("reason", JStr (err_message e));
             ("metadata", JObj [("from", order@."validationStatus"); ("to", JStr toStatus)])]) in
          throw e
      | Ok _ => apply_transition orderId order conversions toStatus reason actorId syncLegacyConversion
      end
  end.

Definition isPayable (order : jsval) : bool := order@."validationStatus" === "VALIDATION_APPROVED".

End Service.
End ValidationService.
Import ValidationService.

(** ** itemValidation.service.js *)

Module ItemValidation.

Record item_result := ItemResult { i_item : jsval; i_order : jsval; i_unchanged : bool; i_finance : option sync_result }.

Section Service.
Context {H : JsHost} {D : Database} {F : FinanceService}.

Definition assertItemTransition (from : jsval) (to : string) : outcome unit :=
  let fromKey := if blank from then JStr "VALIDATION_PENDING" else from in
  if fromKey === to then Ok tt
  else if negb (allows VALIDATION_TRANSITIONS fromKey to)
  then Throw (api_fail ("Invalid item validation transition: " +:+ js_string fromKey +:+ " → " +:+ to) 409)
  else Ok tt.

(** An order with its items and conversions. *)
Definition load_order_with_items (id : jsval) : prog world (option jsval) :=
  let! order := load_order id in
  match order with
  | None => ret None
  | Some o => let! conversions := findMany TConversion "orderId" o@."id" in
              ret (Some (with_relation o "conversions" (JArr conversions)))
  end.

Definition foreign_tenant (order expectedClientId : jsval) : bool :=
  negb (nullish expectedClientId) &&
  (negb (truthy order@."clientId") || negb (js_string order@."clientId" =s? js_string expectedClientId)).

Definition change_item (orderItemId order from : jsval) (toStatus : string) (reason actorId : jsval) : prog world item_result :=
  let! t := get_now in
  let! updated := update_row TOrderItem orderItemId
                    [("validationStatus", JStr toStatus); ("validationChangedAt", JDate (Some t))] in
  audit_record [("aggregateType", JStr "OrderItem"); ("aggregateId", orderItemId);
                ("action", JStr "order_item.validation.changed"); ("actorId", actorId);
                ("before", JObj [("validationStatus", from)]); ("after", JObj [("validationStatus", JStr toStatus)]);
                ("reason", reason); ("metadata", JObj [("orderId", order@."id")])] ;;
  let! refreshed := load_order_with_items order@."id" in
  let! financeResult :=
    (if (or_null refreshed)@."validationStatus" === "VALIDATION_APPROVED"
     then catch (let! r := finance_sync order@."id" (reason |or| JStr ("Item " +:+ toStatus)) in ret (Some r)) (fun _ => ret None)
     else ret None) in
  ret (ItemResult updated (or_null refreshed) false financeResult).

Definition transitionItem (orderItemId : jsval) (toStatus : string) (reason actorId expectedClientId : jsval)
  : prog world item_result :=
  let! found := findUnique TOrderItem "id" orderItemId in
  match found with
  | None => throw (api_fail "Order item not found." 404)
  | Some item =>
      let! parent := load_order_with_items item@."orderId" in
      match parent with
      | None => throw (api_fail "Parent order not found." 404)
      | Some order =>
          if foreign_tenant order expectedClientId
          then throw (api_fail "Order item does not belong to authenticated tenant." 403)
          else
            let from := item@."validationStatus" ?? JNull in
            match assertItemTransition from toStatus with
            | Throw e =>
                let! _ := report (JObj
                  [("type", JStr "INVALID_VALIDATION_TRANSITION"); ("severity", JStr "MEDIUM"); ("supplier", order@."supplier");
                   ("orderId", order@."id"); ("clientId", order@."clientId"); ("reason", JStr (err_message e));
                   ("metadata", JObj [("orderItemId", orderItemId); ("from", from); ("to", JStr toStatus);
                                      ("scope", JStr "order_item")])]) in
                throw e
            | Ok _ =>
                if from === toStatus then ret (ItemResult (with_relation item "order" order) order true None)
                else change_item orderItemId order from toStatus reason actorId
            end
      end
  end.

Definition approveItem (id reason actorId expectedClientId : jsval) : prog world item_result :=
  transitionItem id "VALIDATION_APPROVED" reason actorId expectedClientId.
Definition rejectItem (id reason actorId expectedClientId : jsval) : prog world item_result :=
  transitionItem id "VALIDATION_REJECTED" reason actorId expectedClientId.
Definition markItemNeedsReview (id reason actorId expectedClientId : jsval) : prog world item_result :=
  transitionItem id "VALIDATION_NEEDS_REVIEW" reason actorId expectedClientId.
Definition markItemPending (id reason actorId expectedClientId : jsval) : prog world item_result :=
  transitionItem id "VALIDATION_PENDING" reason actorId expectedClientId.

End Service.
End ItemValidation.

Module ValidationFacts.
Import ItemValidation.
Section Facts.
Context {H : JsHost} {D : Database} {F : FinanceService}.

(** ** The patch of a validation transition *)

Lemma validation_patch_columns order linked to t :
  let data := validation_patch order linked to t in
  NoDup (map fst data) /\ ("id" ∉ map fst data) /\ assoc "validationStatus" data = Some (JStr to) /\
  (if (to =s? "VALIDATION_REJECTED") then assoc "clientPaymentStatus" data = Some (JStr "CLIENT_PAYMENT_ON_HOLD")
   else "clientPaymentStatus" ∉ map fst data) /\
  (assoc "supplierPaymentStatus" data = Some (JStr "PAYMENT_ON_HOLD") /\
     in_enum ["PAYMENT_PAYABLE"; "PAYMENT_PENDING"] order@."supplierPaymentStatus" = true \/
   "supplierPaymentStatus" ∉ map fst data).
Proof.
  cbv zeta. unfold validation_patch, is_late, is_approval.
  destruct (String.eqb_spec to "VALIDATION_REJECTED") as [->|Hne].
  - change ("VALIDATION_REJECTED" =s? "VALIDATION_APPROVED") with false. cbn [andb]. rewrite andb_true_r.
    destruct (_ === "VALIDATION_APPROVED"); [|split_and!; try right; compute_done || reflexivity].
    destruct (_ || _) eqn:Es.
    + split_and!; try (compute_done || reflexivity). left. split; [reflexivity|].
      apply orb_true_iff in Es as [->%is_str_eq| ->%is_str_eq]; reflexivity.
    + split_and!; try right; compute_done || reflexivity.
  - rewrite andb_false_r. cbn [app]. destruct ((_ =s? _) && _).
    + destruct (nullish linked@."clientCommission"), (nullish linked@."mboCommission"), (nullish linked@."supplierCommission");
        split_and!; try right; compute_done || reflexivity.
    + split_and!; try right; compute_done || reflexivity.
Qed.

(** ** Approval and tenants *)

(** C40: Approving an order that has a linked conversion: the order row is written as approved,
    then the conversion update is refused because CONFIRMED is not a member of
    ConversionStatus, the call throws, and no commission is recognized. *)
Theorem approval_with_conversion_throws i order c conversions reason actor w :
  List.find (has_id (JStr i)) (rows w TOrder) = Some order ->
  (order@."validationStatus" = JStr "VALIDATION_PENDING" \/ order@."validationStatus" = JStr "VALIDATION_NEEDS_REVIEW") ->
  List.filter (fun x => col_eq x@."orderId" order@."id") (rows w TConversion) = c :: conversions ->
  exists w', transition (JStr i) "VALIDATION_APPROVED" reason actor true w = (Throw enum_error, w') /\
    (exists order', List.find (has_id (JStr i)) (rows w' TOrder) = Some order' /\
                    order'@."validationStatus" = JStr "VALIDATION_APPROVED") /\
    rows w' TFinancial = rows w TFinancial /\ rows w' TConversion = rows w TConversion.
Proof.
  intros Hf Hv Hc. unfold transition, findUnique, find_where, findMany. rewrite bind_gets. cbv beta.
  change (List.find (fun r => col_eq r@."id" (JStr i)) (rows w TOrder)) with (List.find (has_id (JStr i)) (rows w TOrder)).
  rewrite Hf, bind_gets. cbv beta. rewrite Hc.
  assert (Ha : assertTransition order@."validationStatus" "VALIDATION_APPROVED" = Ok tt) by (destruct Hv as [-> | ->]; reflexivity).
  rewrite Ha. unfold apply_transition, get_now. cbv zeta. rewrite bind_gets.
  assert (Hl : is_late order@."validationStatus" "VALIDATION_APPROVED" = false) by (destruct Hv as [-> | ->]; reflexivity).
  rewrite Hl. destruct (validation_patch_columns order (nth 0 (c :: conversions) JUndef) "VALIDATION_APPROVED" (JDate (Some (now w))))
    as (Hnd & Hid & Ev & _). set (data := validation_patch _ _ _ _) in *.
  assert (Hok : forallb (field_ok TOrder) data = true).
  { unfold data, validation_patch. rewrite Hl. unfold is_approval. destruct Hv as [-> | ->];
      cbn [nth]; destruct (nullish c@."clientCommission"), (nullish c@."mboCommission"), (nullish c@."supplierCommission");
      cbn; unfold field_ok; cbn; rewrite ?orb_true_r; reflexivity. }
  unfold bind at 1. cbn [ret]. unfold bind at 1. unfold update_row at 1. rewrite Hok, Hf. cbn [negb].
  set (w1 := set_rows _ _ w). exists w1. split_and!.
  - reflexivity.
  - exists (spread order (JObj (encode TOrder data))). split; [|now rewrite (updated_column TOrder data order _ _ Hnd Ev)].
    unfold w1. rewrite rows_set_same. revert Hf. generalize (rows w TOrder) as l.
    assert (Hsame : forall x, has_id (JStr i) (spread x (JObj (encode TOrder data))) = has_id (JStr i) x)
      by (intros x; unfold has_id; now rewrite (spread_rewrites TOrder x data "id" Hid)).
    induction l as [|x l IH]; cbn [List.find map]; [discriminate|]. destruct (has_id (JStr i) x) eqn:E.
    + intros Heq. injection Heq as ->. now rewrite Hsame, E.
    + rewrite E. exact IH.
  - unfold w1. now rewrite rows_set_other.
  - unfold w1. now rewrite rows_set_other.
Qed.

(** An item of another tenant's order is refused with status 403 before anything is
    written, whatever the requested status. *)
Theorem item_tenant_guard i to reason actor tenant w item order :
  List.find (fun r => col_eq r@."id" (JStr i)) (rows w TOrderItem) = Some item ->
  load_order_with_items item@."orderId" w = (Ok (Some order), w) ->
  nullish tenant = false -> js_string order@."clientId" <> js_string tenant ->
  transitionItem (JStr i) to reason actor tenant w =
    (Throw (api_fail "Order item does not belong to authenticated tenant." 403), w).
Proof.
  intros Hi Ho Hn Hne. unfold transitionItem, findUnique, find_where. rewrite bind_gets. cbv beta. rewrite Hi.
  unfold bind. rewrite Ho. unfold foreign_tenant. rewrite Hn. apply String.eqb_neq in Hne. rewrite Hne.
  now rewrite orb_true_r.
Qed.
End Facts.
End ValidationFacts.
