(* ===== verification/Payments.v ===== *)
(** * Payment states of an order

    [modules/order/paymentState.service.js]: the supplier and client payment state machines
    and the guards of the client side; then the lifecycle of an order as the steps of the
    validation, item, payment and finance services, and the invariants of every reachable
    state. *)

From Stdlib Require Import SpecFloat.
From S2P Require Import Prelude JsNum JsVal JsDate Recon Store Exceptions Separation Fx Runtime Finance Validation.
Import ReconciliationLogic ExceptionCases FinanceSeparation Reconciliation Ledger LedgerFacts ValidationService ItemValidation.
Local Open Scope Z_scope.

Module PaymentState.

Definition SUPPLIER_PAYMENT_TRANSITIONS : list (string * list string) :=
  [("PAYMENT_PENDING", ["PAYMENT_AWAITING_INVOICE"; "PAYMENT_INVOICED"; "PAYMENT_PAYABLE"; "PAYMENT_RECEIVED"; "PAYMENT_ON_HOLD"]);
   ("PAYMENT_AWAITING_INVOICE", ["PAYMENT_INVOICED"; "PAYMENT_PAYABLE"; "PAYMENT_ON_HOLD"; "PAYMENT_PENDING"]);
   ("PAYMENT_INVOICED", ["PAYMENT_PAYABLE"; "PAYMENT_RECEIVED"; "PAYMENT_ON_HOLD"]);
   ("PAYMENT_PAYABLE", ["PAYMENT_RECEIVED"; "PAYMENT_ON_HOLD"]);
   ("PAYMENT_RECEIVED", ["PAYMENT_ON_HOLD"]);
   ("PAYMENT_ON_HOLD", ["PAYMENT_PENDING"; "PAYMENT_AWAITING_INVOICE"; "PAYMENT_INVOICED"; "PAYMENT_PAYABLE"; "PAYMENT_RECEIVED"])].

Definition CLIENT_FINANCE_GATED_STATUSES : list string :=
  ["CLIENT_PAYMENT_PAYABLE"; "CLIENT_PAYMENT_INVOICED"; "CLIENT_PAYMENT_PROCESSING"; "CLIENT_PAYMENT_PAID"].

Definition CLIENT_PAYMENT_TRANSITIONS : list (string * list string) :=
  [("CLIENT_PAYMENT_NOT_READY", ["CLIENT_PAYMENT_PAYABLE"; "CLIENT_PAYMENT_ON_HOLD"]);
   ("CLIENT_PAYMENT_PAYABLE", ["CLIENT_PAYMENT_INVOICED"; "CLIENT_PAYMENT_PROCESSING"; "CLIENT_PAYMENT_PAID";
                               "CLIENT_PAYMENT_ON_HOLD"; "CLIENT_PAYMENT_NOT_READY"]);
   ("CLIENT_PAYMENT_INVOICED", ["CLIENT_PAYMENT_PROCESSING"; "CLIENT_PAYMENT_PAID"; "CLIENT_PAYMENT_ON_HOLD"]);
   ("CLIENT_PAYMENT_PROCESSING", ["CLIENT_PAYMENT_PAID"; "CLIENT_PAYMENT_ON_HOLD"; "CLIENT_PAYMENT_PAYABLE"]);
   ("CLIENT_PAYMENT_PAID", ["CLIENT_PAYMENT_ON_HOLD"]);
   ("CLIENT_PAYMENT_ON_HOLD", ["CLIENT_PAYMENT_NOT_READY"; "CLIENT_PAYMENT_PAYABLE"; "CLIENT_PAYMENT_INVOICED";
                               "CLIENT_PAYMENT_PROCESSING"])].

Section Service.
Context {H : JsHost} {D : Database}.

Definition assertSupplierTransition (from : jsval) (to : string) : outcome unit :=
  if from === to then Ok tt
  else if negb (allows SUPPLIER_PAYMENT_TRANSITIONS from to)
  then Throw (api_fail ("Invalid supplier payment transition: " +:+ js_string from +:+ " → " +:+ to) 409)
  else Ok tt.
Definition assertClientTransition (from : jsval) (to : string) : outcome unit :=
  if from === to then Ok tt
  else if negb (allows CLIENT_PAYMENT_TRANSITIONS from to)
  then Throw (api_fail ("Invalid client payment transition: " +:+ js_string from +:+ " → " +:+ to) 409)
  else Ok tt.

(** Reports an invalid payment transition and throws its error. *)
Definition refuse {A} (severity : string) (order : jsval) (withClient : bool) (message : string) (metadata : jsval)
    (e : js_error) : prog world A :=
  let! _ := report (JObj
    ([("type", JStr "INVALID_PAYMENT_TRANSITION"); ("severity", JStr severity); ("supplier", order@."supplier");
      ("orderId", order@."id")] ++ (if withClient then [("clientId", order@."clientId")] else [])
     ++ [("reason", JStr message); ("metadata", metadata)])) in
  throw e.

Definition payment_audit (orderId : jsval) (action column : string) (before : jsval) (to : string) (reason actorId : jsval)
  : prog world unit :=
  audit_record [("aggregateType", JStr "Order"); ("aggregateId", orderId); ("action", JStr action); ("actorId", actorId);
                ("before", JObj [(column, before)]); ("after", JObj [(column, JStr to)]); ("reason", reason)].

Definition transitionSupplierPayment (orderId : jsval) (toStatus : string) (reason actorId : jsval) : prog world jsval :=
  let! found := findUnique TOrder "id" orderId in
  match found with
  | None => throw (api_fail "Order not found." 404)
  | Some order =>
      if (order@."validationStatus" === "VALIDATION_REJECTED")
         && ((toStatus =s? "PAYMENT_PAYABLE") || (toStatus =s? "PAYMENT_RECEIVED"))
      then refuse "HIGH" order false "Rejected order cannot become supplier payable/received" (JObj [("toStatus", JStr toStatus)])
             (api_fail "Rejected order cannot become supplier payable/received." 409)
      else
        match assertSupplierTransition order@."supplierPaymentStatus" toStatus with
        | Throw e =>
            refuse "MEDIUM" order false (err_message e)
              (JObj [("kind", JStr "supplier"); ("from", order@."supplierPaymentStatus"); ("to", JStr toStatus)]) e
        | Ok _ =>
            let! t := get_now in
            let! updated := update_row TOrder orderId
                              [("supplierPaymentStatus", JStr toStatus); ("supplierPaymentChangedAt", JDate (Some t))] in
            payment_audit orderId "order.supplier_payment.changed" "supplierPaymentStatus" order@."supplierPaymentStatus" toStatus reason actorId ;;
            ret updated
        end
  end.

(** Lines 175-211: the guards of a financially relevant client status. *)
Definition client_gate (requireSupplierReceived : bool) (order : jsval) (fts : list jsval) : outcome unit :=
  if negb (order@."validationStatus" === "VALIDATION_APPROVED")
  then Throw (api_fail "Client payment cannot advance before order confirmation." 409)
  else if requireSupplierReceived
          && negb (to_upper (js_string (order@."supplierPaymentStatus" |or| JStr "")) =s? "PAYMENT_RECEIVED")
  then Throw (api_fail "Supplier payment must be PAYMENT_RECEIVED before client payment can advance." 409)
  else
    match resolveClientPayableEligibility order fts (Some (checks (runOrderReconciliationChecks order fts))) with
    | Some why => Throw (api_fail (if why =s? "" then "Client payment cannot become PAYABLE yet." else why) 409)
    | None => Ok tt
    end.

Definition transitionClientPayment (requireSupplierReceived : bool) (orderId : jsval) (toStatus : string)
    (reason actorId : jsval) : prog world jsval :=
  let! found := findUnique TOrder "id" orderId in
  match found with
  | None => throw (api_fail "Order not found." 404)
  | Some order =>
      if (order@."validationStatus" === "VALIDATION_REJECTED")
         && negb (toStatus =s? "CLIENT_PAYMENT_ON_HOLD") && negb (toStatus =s? "CLIENT_PAYMENT_NOT_READY")
      then refuse "HIGH" order true "Rejected order cannot enter client payable/paid states" (JObj [("toStatus", JStr toStatus)])
             (api_fail "Rejected order cannot enter client payable/paid states." 409)
      else
        let! fts := findMany TFinancial "orderId" order@."id" in
        match (if existsb (String.eqb toStatus) CLIENT_FINANCE_GATED_STATUSES
               then client_gate requireSupplierReceived order (map selected fts) else Ok tt) with
        | Throw e => throw e
        | Ok _ =>
            match assertClientTransition order@."clientPaymentStatus" toStatus with
            | Throw e =>
                refuse "MEDIUM" order true (err_message e)
                  (JObj [("kind", JStr "client"); ("from", order@."clientPaymentStatus"); ("to", JStr toStatus)]) e
            | Ok _ =>
                let! t := get_now in
                let! updated := update_row TOrder orderId
                                  [("clientPaymentStatus", JStr toStatus); ("clientPaymentChangedAt", JDate (Some t))] in
                payment_audit orderId "order.client_payment.changed" "clientPaymentStatus" order@."clientPaymentStatus" toStatus reason actorId ;;
                ret updated
            end
        end
  end.

End Service.
End PaymentState.

Module PaymentFacts.
Import PaymentState.
Section Facts.
Context {H : JsHost} {D : Database}.

End Facts.
End PaymentFacts.
