(* ===== verification/Lifecycle.v ===== *)
(** * The lifecycle of an order

    Validation, item validation, supplier and client payments and the finance operations
    as the steps of one system over the shared store, in any order and number, failed
    runs included; what every step and every reachable state satisfies. *)

From Stdlib Require Import SpecFloat.
From stdpp Require Import relations.
From S2P Require Import Prelude JsNum JsVal JsDate OrderStatus Recon Store Exceptions Separation Fx Runtime Finance Validation Payments.
Import OrderMerge ReconciliationLogic ExceptionCases FinanceSeparation Reconciliation Ledger LedgerFacts ValidationService ItemValidation ValidationFacts PaymentState.
Local Open Scope Z_scope.

Module Lifecycle.

(** One call of a service on a stored order, item or transaction; ids are text. *)
Inductive call :=
| Validate (orderId to : string) (reason actorId : jsval) (syncLegacy : bool)
| ValidateItem (itemId to : string) (reason actorId expectedClientId : jsval)
| SupplierPayment (orderId to : string) (reason actorId : jsval)
| ClientPayment (requireSupplierReceived : bool) (orderId to : string) (reason actorId : jsval)
| Recognize (orderId conversionId : string)
| Adjust (transactionId type : string) (reason : jsval) (d : deltas) (key by_ : string) (metadata : jsval)
| Reconcile (orderId : string)
| ReconcileGrain (grainKey : string) (supplier billingMonth billingYear : jsval) (inputs : recon_inputs)
| Tick (ms : N).

Section System.
Context {H : JsHost} {D : Database} {F : FinanceService}.

(** The state a call leaves, whether it returns or throws. *)
Definition perform (c : call) (w : world) : world :=
  match c with
  | Validate o to reason actor sync => (transition (JStr o) to reason actor sync w).2
  | ValidateItem i to reason actor tenant => (transitionItem (JStr i) to reason actor tenant w).2
  | SupplierPayment o to reason actor => (transitionSupplierPayment (JStr o) to reason actor w).2
  | ClientPayment req o to reason actor => (transitionClientPayment req (JStr o) to reason actor w).2
  | Recognize o c => (finance_recognize (JStr o) (JStr c) w).2
  | Adjust t type reason d key by_ m => (createAdjustment (JStr t) type reason d key by_ m w).2
  | Reconcile o => (reconcileOrder (JStr o) w).2
  | ReconcileGrain key s m y i => (reconcileNetworkGrain key s m y i w).2
  | Tick ms => World (rows w) (now w + Z.of_N ms) (next_id w)
  end.

Inductive reachable (w0 : world) : world -> Prop :=
| reach_start : reachable w0 w0
| reach_call w c : reachable w0 w -> reachable w0 (perform c w).

(** ** What holds of every order *)

Definition held (v : jsval) : bool := in_enum ["CLIENT_PAYMENT_ON_HOLD"; "CLIENT_PAYMENT_NOT_READY"] v.

Record order_ok (r : jsval) : Prop := OrderOk {
  ok_validation : in_enum VALIDATION_STATUS r@."validationStatus" = true;
  ok_supplier : in_enum SUPPLIER_PAYMENT_STATUS r@."supplierPaymentStatus" = true;
  ok_client : in_enum CLIENT_PAYMENT_STATUS r@."clientPaymentStatus" = true;
  ok_rejected : (r@."validationStatus" === "VALIDATION_REJECTED") = true -> held r@."clientPaymentStatus" = true
}.
Definition orders_ok (w : world) : Prop := distinct TOrder "id" w /\ Forall order_ok (rows w TOrder).

(** A status is kept or moves along an edge of its transition table. *)
Definition moves (transitions : list (string * list string)) (a b : jsval) : Prop :=
  b = a \/ exists s, b = JStr s /\ allows transitions a s = true.
Record lawful (r r' : jsval) : Prop := Lawful {
  law_id : r'@."id" = r@."id";
  law_validation : moves VALIDATION_TRANSITIONS r@."validationStatus" r'@."validationStatus";
  law_supplier : moves SUPPLIER_PAYMENT_TRANSITIONS r@."supplierPaymentStatus" r'@."supplierPaymentStatus";
  law_client : moves CLIENT_PAYMENT_TRANSITIONS r@."clientPaymentStatus" r'@."clientPaymentStatus"
}.

(** A step of the order table. *)
Definition order_step (w w' : world) : Prop :=
  orders_ok w -> orders_ok w' /\ Forall2 lawful (rows w TOrder) (rows w' TOrder).

(** ** Steps that keep every column of every order *)

Lemma order_ok_same r r' : rewrites [] r r' -> order_ok r -> order_ok r'.
Proof. intros Hs []. split; rewrite !(Hs _) by apply not_elem_of_nil; auto. Qed.
Lemma lawful_same r r' r1 r1' : rewrites [] r r1 -> rewrites [] r' r1' -> lawful r r' -> lawful r1 r1'.
Proof. intros Hs Hs' []. split; rewrite !(Hs _), !(Hs' _) by apply not_elem_of_nil; auto. Qed.
Lemma lawful_refl r : lawful r r.
Proof. split; now left || reflexivity. Qed.

Lemma distinct_same t column w w' : same_columns t w w' -> distinct t column w -> distinct t column w'.
Proof.
  unfold same_columns, distinct. generalize (rows w t) (rows w' t). intros l l' Hl. induction Hl as [|r r' l l' Hr Hl IH]; [auto|].
  inversion 1 as [|? ? Hx Hd]; subst. constructor; [|auto]. apply List.Forall_forall. intros x' Hx'.
  apply list_elem_of_In, list_elem_of_lookup in Hx' as [i Hi].
  destruct (Forall2_lookup_r _ _ _ _ _ Hl Hi) as (x & Hx1 & Hxx). rewrite List.Forall_forall in Hx.
  rewrite (Hr _), (Hxx _) by apply not_elem_of_nil. apply Hx, list_elem_of_In. now apply list_elem_of_lookup_2 in Hx1.
Qed.

Lemma order_step_same w w1 w2 w' : same_columns TOrder w w1 -> order_step w1 w2 -> same_columns TOrder w2 w' -> order_step w w'.
Proof.
  intros H01 H12 H23 [Hd Hok]. unfold same_columns in *.
  assert (Hok1 : orders_ok w1).
  { split; [now apply (distinct_same _ _ w)|]. clear -H01 Hok. induction H01; inversion Hok; subst; constructor; eauto using order_ok_same. }
  destruct (H12 Hok1) as [[Hd2 Hok2] Hl]. split; [split|].
  - now apply (distinct_same _ _ w2).
  - clear -H23 Hok2. induction H23; inversion Hok2; subst; constructor; eauto using order_ok_same.
  - clear -H01 Hl H23. revert H23 Hl. generalize (rows w' TOrder) as l3, (rows w2 TOrder) as l2. induction H01 as [|r r1 l l1 Hr _ IH]; intros l3 l2 H23 Hl.
    + inversion Hl; subst. inversion H23; subst. constructor.
    + inversion Hl; subst. inversion H23; subst. constructor; [|eauto]. eapply lawful_same; [| |eassumption]; [|assumption].
      intros k Hk. symmetry. now apply Hr.
Qed.

Lemma order_step_refl w : order_step w w.
Proof. intros Hok. split; [exact Hok|]. apply Forall_Forall2_diag, Forall_forall. intros; apply lawful_refl. Qed.
Lemma same_order_step w w' : same_columns TOrder w w' -> order_step w w'.
Proof. intros Hs. apply (order_step_same w w w w'); [reflexivity|apply order_step_refl|exact Hs]. Qed.

Lemma tracks_same_step {A} (c : prog world A) : tracks (same_columns TOrder) c -> tracks order_step c.
Proof. intros Hc w. apply same_order_step, Hc. Qed.
Lemma within_same {A} ts (c : prog world A) : TOrder ∉ ts -> tracks (within ts) c -> tracks (same_columns TOrder) c.
Proof. intros Ht Hc. refine (tracks_outside _ ts TOrder c _ Ht Hc). apply same_rows_same_columns. Qed.
Lemma report_same input : tracks (same_columns TOrder) (report input).
Proof. apply (within_same [TException; TAudit]); [compute_done|apply ExceptionFacts.report_within]. Qed.
Lemma audit_same event : tracks (same_columns TOrder) (audit_record event).
Proof. apply (within_same [TAudit]); [compute_done|apply audit_record_within; compute_done]. Qed.
Lemma ledger_same {A} (c : prog world A) : tracks ledger_step c -> tracks (same_columns TOrder) c.
Proof. intros Hc w. apply Hc. Qed.
Lemma update_other_same t id data : t <> TOrder -> tracks (same_columns TOrder) (update_row t id data).
Proof. intros Ht w. apply same_rows_same_columns, update_row_only. congruence. Qed.

(** ** The update of an order *)

Lemma has_id_text i r : has_id (JStr i) r = true -> r@."id" = JStr i.
Proof. apply col_eq_str. Qed.

Lemma update_order_step i data w :
  "id" ∉ map fst data ->
  (forall r, List.find (has_id (JStr i)) (rows w TOrder) = Some r -> order_ok r ->
     order_ok (spread r (JObj (encode TOrder data))) /\ lawful r (spread r (JObj (encode TOrder data)))) ->
  order_step w (update_row TOrder (JStr i) data w).2.
Proof.
  intros Hid Hr [Hd Hok]. pose proof (update_row_distinct TOrder "id" (JStr i) data Hid w Hd) as Hd'.
  revert Hd'. unfold update_row. destruct (negb _); [intros _; now apply order_step_refl|].
  destruct (List.find _ _) as [r0|] eqn:Ef; [|intros _; now apply order_step_refl]. cbn [snd]. intros Hd'.
  assert (Huniq : forall r, r ∈ rows w TOrder -> has_id (JStr i) r = true -> r = r0).
  { intros r Hin Hri. apply has_id_text in Hri. pose proof (find_distinct TOrder "id" w r Hd Hin) as Hf.
    rewrite Hri in Hf. cbn [col_eq] in Hf. rewrite String.eqb_refl in Hf. specialize (Hf eq_refl).
    unfold has_id in Ef. congruence. }
  assert (Hall : forall r, r ∈ rows w TOrder ->
    order_ok (if has_id (JStr i) r then spread r (JObj (encode TOrder data)) else r) /\
    lawful r (if has_id (JStr i) r then spread r (JObj (encode TOrder data)) else r)).
  { intros r Hin. rewrite Forall_forall in Hok. destruct (has_id (JStr i) r) eqn:E; [|split; [auto|apply lawful_refl]].
    pose proof (Huniq r Hin E) as ->. apply Hr; auto. }
  split; [split; [exact Hd'|]|]; rewrite rows_set_same.
  - apply Forall_fmap, Forall_forall. intros r Hin. apply Hall, Hin.
  - apply Forall2_fmap_r, Forall_Forall2_diag, Forall_forall. intros r Hin. apply Hall, Hin.
Qed.

(** ** Transition tables and enums *)

Lemma allows_target transitions members from to :
  forallb (fun e => forallb (fun s => existsb (String.eqb s) members) e.2) transitions = true ->
  allows transitions from to = true -> in_enum members (JStr to) = true.
Proof.
  intros Ht. unfold allows. destruct from as [| | | |s| | |]; try discriminate.
  destruct (assoc s transitions) as [l|] eqn:E; [|discriminate]. cbn [default]. intros Hl.
  apply existsb_exists in Hl as (x & Hx & ->%String.eqb_eq).
  assert (Hin : exists k, In (k, l) transitions).
  { clear -E. induction transitions as [|[k v] tr IH]; [discriminate|]. cbn in E. destruct (k =s? s); [|firstorder].
    injection E as ->. exists k. now left. }
  destruct Hin as [k Hin]. rewrite forallb_forall in Ht. specialize (Ht _ Hin). rewrite forallb_forall in Ht. now apply Ht.
Qed.

(** An accepted transition stays in the enum and follows its table. *)
Lemma accepted transitions members (from : jsval) to :
  forallb (fun e => forallb (fun s => existsb (String.eqb s) members) e.2) transitions = true ->
  (from === to) = true \/ allows transitions from to = true -> in_enum members from = true ->
  in_enum members (JStr to) = true /\ moves transitions from (JStr to).
Proof.
  intros Ht [->%is_str_eq|Ha] Hf; [split; [exact Hf|now left]|].
  split; [now apply (allows_target transitions members from)|right; eauto].
Qed.

Lemma in_enum_cases members v (P : jsval -> Prop) : Forall (fun s => P (JStr s)) members -> in_enum members v = true -> P v.
Proof.
  intros HP. destruct v as [| | | |s| | |]; try discriminate. cbn. intros (x & Hx & ->%String.eqb_eq)%existsb_exists.
  rewrite Forall_forall in HP. apply HP. now apply list_elem_of_In.
Qed.
Lemma client_hold v : in_enum CLIENT_PAYMENT_STATUS v = true -> moves CLIENT_PAYMENT_TRANSITIONS v (JStr "CLIENT_PAYMENT_ON_HOLD").
Proof.
  apply (in_enum_cases CLIENT_PAYMENT_STATUS v (fun v => moves CLIENT_PAYMENT_TRANSITIONS v (JStr "CLIENT_PAYMENT_ON_HOLD"))).
  repeat (apply Forall_cons_2; [(now left) || (right; eexists; split; reflexivity)|]). apply Forall_nil_2.
Qed.

(** ** The patch of a validation transition keeps an order lawful *)

Lemma validation_patch_ok order linked to t :
  order_ok order -> (order@."validationStatus" === to) = true \/ allows VALIDATION_TRANSITIONS order@."validationStatus" to = true ->
  let r' := spread order (JObj (encode TOrder (validation_patch order linked to t))) in
  order_ok r' /\ lawful order r'.
Proof.
  intros [Hv Hs Hc Hrej] Hto. cbv zeta.
  destruct (validation_patch_columns order linked to t) as (Hnd & Hid & Ev & Ec & Es).
  set (data := validation_patch order linked to t) in *. set (r' := spread order (JObj (encode TOrder data))).
  destruct (accepted VALIDATION_TRANSITIONS VALIDATION_STATUS _ _ eq_refl Hto Hv) as [Hv' Hm].
  assert (Ev' : r'@."validationStatus" = JStr to) by (unfold r'; now rewrite (updated_column TOrder data order _ _ Hnd Ev)).
  assert (Ekeep : forall k, k ∉ map fst data -> prop r' k = prop order k) by (intros k Hk; now apply spread_rewrites).
  assert (Es' : in_enum SUPPLIER_PAYMENT_STATUS r'@."supplierPaymentStatus" = true /\
                moves SUPPLIER_PAYMENT_TRANSITIONS order@."supplierPaymentStatus" r'@."supplierPaymentStatus").
  { destruct Es as [[Es Hin]|Hno]; [|rewrite (Ekeep _ Hno); split; [exact Hs|now left]].
    unfold r'. rewrite (updated_column TOrder data order _ _ Hnd Es) by discriminate. split; [reflexivity|].
    apply (in_enum_cases ["PAYMENT_PAYABLE"; "PAYMENT_PENDING"] _
             (fun v => moves SUPPLIER_PAYMENT_TRANSITIONS v (JStr "PAYMENT_ON_HOLD"))); [|exact Hin].
    repeat (apply Forall_cons_2; [right; eexists; split; reflexivity|]). apply Forall_nil_2. }
  assert (Ec' : (to = "VALIDATION_REJECTED" -> held r'@."clientPaymentStatus" = true) /\
                in_enum CLIENT_PAYMENT_STATUS r'@."clientPaymentStatus" = true /\
                moves CLIENT_PAYMENT_TRANSITIONS order@."clientPaymentStatus" r'@."clientPaymentStatus").
  { destruct (String.eqb_spec to "VALIDATION_REJECTED") as [->|Hne].
    - unfold r'. rewrite (updated_column TOrder data order _ _ Hnd Ec) by discriminate.
      split_and!; [reflexivity|reflexivity|now apply client_hold].
    - rewrite (Ekeep _ Ec). split_and!; [contradiction|exact Hc|now left]. }
  destruct Es', Ec' as (Hheld & ? & ?). split; split; auto; try (rewrite Ev'; assumption).
  - rewrite Ev'. intros E%is_str_eq. injection E as ->. auto.
Qed.

(** ** Steps of programs *)

Lemma step_then {A B} (c : prog world A) (k : A -> prog world B) w :
  order_step w (c w).2 -> (forall a, tracks (same_columns TOrder) (k a)) -> order_step w (bind c k w).2.
Proof.
  intros Hc Hk. unfold bind. destruct (c w) as [[a|e] w1]; [|exact Hc]. cbn [snd] in Hc.
  apply (order_step_same w w w1); [reflexivity|exact Hc|apply Hk].
Qed.
Lemma then_step {A B} (c : prog world A) (k : A -> prog world B) w :
  tracks (same_columns TOrder) c -> (forall a w1, c w = (Ok a, w1) -> order_step w1 (k a w1).2) -> order_step w (bind c k w).2.
Proof.
  intros Hc Hk. unfold bind. specialize (Hc w). destruct (c w) as [[a|e] w1] eqn:E; [|now apply same_order_step].
  apply (order_step_same w w1 (k a w1).2); [exact Hc|now apply Hk|reflexivity].
Qed.

Lemma attempt_same {A} (c : prog world A) : tracks (same_columns TOrder) c -> tracks (same_columns TOrder) (attempt c).
Proof. intros Hc. unfold attempt. track. Qed.
Lemma finance_calls_same order reason l to : tracks (same_columns TOrder) (finance_calls order reason l to).
Proof.
  unfold finance_calls. track; apply attempt_same, ledger_same; [apply finance_recognize_steps|apply finance_reverse_steps].
Qed.

Lemma apply_transition_step i order conversions to reason actor sync w :
  List.find (has_id (JStr i)) (rows w TOrder) = Some order ->
  (order@."validationStatus" === to) = true \/ allows VALIDATION_TRANSITIONS order@."validationStatus" to = true ->
  order_step w (apply_transition (JStr i) order conversions to reason actor sync w).2.
Proof.
  intros Hf Hto. unfold apply_transition, get_now. cbv zeta. rewrite bind_gets. apply then_step.
  { destruct (is_late _ _); [|apply tracks_ret; exact _]. unfold report_late. track. apply report_same. }
  intros u w1 E. apply step_then.
  - assert (Hrows : rows w1 TOrder = rows w TOrder).
    { revert E. destruct (is_late _ _); [|intros E; now injection E as _ <-]. intros (r & w2 & Hr & E)%bind_ok. injection E as _ <-.
      unfold report_late in Hr. match type of Hr with report ?input _ = _ => destruct (ExceptionFacts.report_within input w) as [_ Hw] end.
      rewrite Hr in Hw. apply Hw. compute_done. }
    apply update_order_step; [apply validation_patch_columns|]. rewrite Hrows. intros r Hr Hok. rewrite Hf in Hr. injection Hr as <-.
    now apply validation_patch_ok.
  - intros updated. track; try (apply update_other_same; discriminate); try apply finance_calls_same. apply audit_same.
Qed.

Lemma assert_validation from to : assertTransition from to = Ok tt ->
  (from === to) = true \/ allows VALIDATION_TRANSITIONS from to = true.
Proof. unfold assertTransition. destruct (from === to); [now left|]. destruct (allows _ _ _); [now right|discriminate]. Qed.
Lemma assert_supplier from to : assertSupplierTransition from to = Ok tt ->
  (from === to) = true \/ allows SUPPLIER_PAYMENT_TRANSITIONS from to = true.
Proof. unfold assertSupplierTransition. destruct (from === to); [now left|]. destruct (allows _ _ _); [now right|discriminate]. Qed.
Lemma assert_client from to : assertClientTransition from to = Ok tt ->
  (from === to) = true \/ allows CLIENT_PAYMENT_TRANSITIONS from to = true.
Proof. unfold assertClientTransition. destruct (from === to); [now left|]. destruct (allows _ _ _); [now right|discriminate]. Qed.

Lemma transition_step i to reason actor sync : tracks order_step (transition (JStr i) to reason actor sync).
Proof.
  intros w. unfold transition, findUnique, find_where, findMany. rewrite bind_gets.
  destruct (List.find _ _) as [order|] eqn:Ef; [|apply order_step_refl]. rewrite bind_gets.
  destruct (assertTransition _ _) as [[]|e] eqn:Ea.
  - apply apply_transition_step; [exact Ef|now apply assert_validation].
  - apply tracks_same_step. track. apply report_same.
Qed.

Lemma refuse_same {A} sev o b m meta e : tracks (same_columns TOrder) (@refuse _ _ A sev o b m meta e).
Proof. unfold refuse. track. apply report_same. Qed.

Lemma supplier_step i to reason actor : tracks order_step (transitionSupplierPayment (JStr i) to reason actor).
Proof.
  intros w. unfold transitionSupplierPayment, findUnique, find_where, get_now. rewrite bind_gets.
  destruct (List.find _ _) as [order|] eqn:Ef; [|apply order_step_refl].
  destruct (_ && _); [apply tracks_same_step, refuse_same|].
  destruct (assertSupplierTransition _ _) as [[]|e] eqn:Ea; [|apply tracks_same_step, refuse_same].
  rewrite bind_gets. apply step_then; [|intros; unfold payment_audit; track; apply audit_same].
  apply update_order_step; [compute_done|]. intros r Hr [Hv Hs Hc Hrej]. unfold has_id in Hr. rewrite Ef in Hr. injection Hr as <-.
  destruct (accepted SUPPLIER_PAYMENT_TRANSITIONS SUPPLIER_PAYMENT_STATUS _ _ eq_refl (assert_supplier _ _ Ea) Hs) as [Hs' Hm].
  set (data := [_; _]). set (r' := spread order _).
  assert (Es : r'@."supplierPaymentStatus" = JStr to) by (unfold r'; now rewrite (updated_column TOrder data order _ (JStr to)) by (nodup_keys || discriminate)).
  assert (Ek : forall k, k ∉ map fst data -> prop r' k = prop order k) by (intros k Hk; now apply spread_rewrites).
  split; split; rewrite ?Es, ?(Ek "id"), ?(Ek "validationStatus"), ?(Ek "clientPaymentStatus") by compute_done; auto; now left.
Qed.

Lemma client_step req i to reason actor : tracks order_step (transitionClientPayment req (JStr i) to reason actor).
Proof.
  intros w. unfold transitionClientPayment, findUnique, find_where, findMany, get_now. rewrite bind_gets.
  destruct (List.find _ _) as [order|] eqn:Ef; [|apply order_step_refl].
  destruct (_ && _ && _) eqn:Erej; [apply tracks_same_step, refuse_same|]. rewrite bind_gets.
  destruct (if existsb _ _ then _ else _); [|apply order_step_refl].
  destruct (assertClientTransition _ _) as [[]|e] eqn:Ea; [|apply tracks_same_step, refuse_same].
  rewrite bind_gets. apply step_then; [|intros; unfold payment_audit; track; apply audit_same].
  apply update_order_step; [compute_done|]. intros r Hr [Hv Hs Hc Hrej]. unfold has_id in Hr. rewrite Ef in Hr. injection Hr as <-.
  destruct (accepted CLIENT_PAYMENT_TRANSITIONS CLIENT_PAYMENT_STATUS _ _ eq_refl (assert_client _ _ Ea) Hc) as [Hc' Hm].
  set (data := [_; _]). set (r' := spread order _).
  assert (Es : r'@."clientPaymentStatus" = JStr to) by (unfold r'; now rewrite (updated_column TOrder data order _ (JStr to)) by (nodup_keys || discriminate)).
  assert (Ek : forall k, k ∉ map fst data -> prop r' k = prop order k) by (intros k Hk; now apply spread_rewrites).
  split; split; rewrite ?Es, ?(Ek "id"), ?(Ek "validationStatus"), ?(Ek "supplierPaymentStatus") by compute_done; auto; [|now left|now left].
  intros Hr. rewrite Hr in Erej. cbn [andb] in Erej. unfold held, in_enum. cbn [existsb].
  destruct (to =s? "CLIENT_PAYMENT_ON_HOLD"), (to =s? "CLIENT_PAYMENT_NOT_READY"); (reflexivity || discriminate Erej).
Qed.

Lemma load_order_with_items_same id : tracks (same_columns TOrder) (load_order_with_items id).
Proof.
  apply tracks_unchanged; [exact _|]. unfold load_order_with_items, findMany. track. apply load_order_reads.
Qed.
Lemma item_same i to reason actor tenant : tracks (same_columns TOrder) (transitionItem i to reason actor tenant).
Proof.
  unfold transitionItem, change_item, findUnique, find_where, get_now.
  track; try apply load_order_with_items_same; try apply report_same; try apply audit_same;
    try (apply update_other_same; discriminate). apply ledger_same, finance_sync_steps.
Qed.
Lemma reconcile_same o : tracks (same_columns TOrder) (reconcileOrder o).
Proof. unfold reconcileOrder, reportReconciliationMismatches, findUnique, find_where, findMany. track. apply report_same. Qed.
Lemma grain_same key s m y i : tracks (same_columns TOrder) (reconcileNetworkGrain key s m y i).
Proof. unfold reconcileNetworkGrain, reportReconciliationMismatches. track. apply report_same. Qed.

Lemma perform_step c w : order_step w (perform c w).
Proof.
  destruct c; cbn [perform].
  - apply transition_step.
  - apply tracks_same_step, item_same.
  - apply supplier_step.
  - apply client_step.
  - apply tracks_same_step, ledger_same, finance_recognize_steps.
  - apply tracks_same_step, ledger_same, createAdjustment_step.
  - apply tracks_same_step, reconcile_same.
  - apply tracks_same_step, grain_same.
  - apply same_order_step, same_rows_same_columns. reflexivity.
Qed.

Lemma held_cases r : order_ok r -> r@."validationStatus" = JStr "VALIDATION_REJECTED" ->
  r@."clientPaymentStatus" = JStr "CLIENT_PAYMENT_ON_HOLD" \/ r@."clientPaymentStatus" = JStr "CLIENT_PAYMENT_NOT_READY".
Proof.
  intros [_ _ _ Hheld] Hrej. rewrite Hrej in Hheld. specialize (Hheld eq_refl). revert Hheld. unfold held.
  apply (in_enum_cases _ _ (fun v => v = JStr "CLIENT_PAYMENT_ON_HOLD" \/ v = JStr "CLIENT_PAYMENT_NOT_READY")).
  repeat (apply Forall_cons_2; [auto|]). apply Forall_nil_2.
Qed.

(** ** Theorems *)

(** C4: Whatever service is called on whatever order, returning or throwing, every order keeps
    its id, its validation, supplier payment and client payment statuses are kept or move
    along one edge of the corresponding transition table, and the enums, the uniqueness of
    ids and the hold on rejected orders are preserved. *)
Theorem calls_follow_tables c w :
  orders_ok w -> orders_ok (perform c w) /\ Forall2 lawful (rows w TOrder) (rows (perform c w) TOrder).
Proof. apply perform_step. Qed.

(** In every state reachable by any sequence of service calls, a rejected order's client
    payment is on hold or not ready: a rejected order is never payable, invoiced,
    processing or paid. *)
Theorem rejected_never_payable w0 w r :
  orders_ok w0 -> reachable w0 w -> r ∈ rows w TOrder -> r@."validationStatus" = JStr "VALIDATION_REJECTED" ->
  r@."clientPaymentStatus" = JStr "CLIENT_PAYMENT_ON_HOLD" \/ r@."clientPaymentStatus" = JStr "CLIENT_PAYMENT_NOT_READY".
Proof.
  intros H0 Hreach. assert (Hok : orders_ok w) by (induction Hreach; [exact H0|now apply perform_step]).
  intros Hin Hrej. destruct Hok as [_ Hok]. rewrite Forall_forall in Hok. now apply (held_cases r (Hok r Hin)).
Qed.

(** A rejected order cannot be approved directly: the attempt fails with status 409 and
    leaves every order as it is. *)
Theorem no_silent_reapproval i order reason actor sync w e w' :
  List.find (has_id (JStr i)) (rows w TOrder) = Some order -> order@."validationStatus" = JStr "VALIDATION_REJECTED" ->
  transition (JStr i) "VALIDATION_APPROVED" reason actor sync w = (e, w') ->
  rows w' TOrder = rows w TOrder /\ rows w' TFinancial = rows w TFinancial /\
  (exists err, e = Throw err) /\ assertTransition order@."validationStatus" "VALIDATION_APPROVED" =
    Throw (api_fail "Invalid validation transition: VALIDATION_REJECTED → VALIDATION_APPROVED" 409).
Proof.
  intros Hf Hv. unfold transition, findUnique, find_where, findMany. rewrite bind_gets. cbv beta.
  change (List.find (fun r => col_eq r@."id" (JStr i)) (rows w TOrder)) with (List.find (has_id (JStr i)) (rows w TOrder)).
  rewrite Hf, Hv, bind_gets. change (assertTransition (JStr "VALIDATION_REJECTED") "VALIDATION_APPROVED") with
    (@Throw unit (api_fail "Invalid validation transition: VALIDATION_REJECTED → VALIDATION_APPROVED" 409)).
  cbv iota. match goal with |- bind (report ?input) _ _ = _ -> _ => pose proof (ExceptionFacts.report_within input w) as [_ Hw] end.
  revert Hw. unfold bind, throw. destruct (report _ w) as [[r|err] w1]; cbn [snd]; intros Hw Heq; injection Heq as <- <-;
    split_and!; try (apply Hw; compute_done); eauto.
Qed.

End System.
End Lifecycle.
