(* ===== verification/Ingestion.v ===== *)
(** * Order ingestion

    [modules/order/orderIngestion.service.js] and
    [modules/order/orderConversionIngestion.contract.js]: how the facts a network reports about
    a transaction become an order and its items.  Orders are identified by supplier, account
    and the supplier's order id, items by order and line key; both are unique keys of the
    schema.  Ingestion creates what it does not find, merges into what it finds, and leaves
    the validation status to the validation service. *)

From Stdlib Require Import SpecFloat.
From stdpp Require Import relations.
From S2P Require Import Prelude JsNum JsVal JsDate OrderStatus Recon Store Exceptions Separation Fx Runtime Finance Validation Payments Lifecycle.
Import StatusNormalization OrderMerge ExceptionCases FinanceSeparation Ledger LedgerFacts ValidationService ItemValidation ValidationFacts PaymentState Lifecycle.
Local Open Scope Z_scope.

(** ** [orderConversionIngestion.contract.js] *)

Module IngestionContract.
Section Contract.
Context {H : JsHost}.

Definition ORDER_CONVERSION_OBJECT : string := "OrderConversion".

(** The truthiness of a text or [null]. *)
Definition some_text (o : option string) : bool := match o with Some s => negb (s =s? "") | None => false end.
(** [first(...values)] *)
Fixpoint first (values : list jsval) : jsval :=
  match values with
  | [] => JNull
  | v :: rest => if blank v then first rest else v
  end.
Definition first_of (o : jsval) (keys : list string) : jsval := first (map (prop o) keys).

(** *** Identity of a conversion *)

(** [parseSourceAccountLabel] of [modules/supplier/entityIdentity.js]: what follows the
    account label, and the label. *)
Fixpoint split_colon (s : string) : option (string * string) :=
  match s with
  | EmptyString => None
  | String c s' =>
      if (c =? ":")%char then Some ("", s')
      else match split_colon s' with Some (a, b) => Some (String c a, b) | None => None end
  end.
Definition parseSourceAccountLabel (externalId : jsval) : string * string :=
  let value := js_string (externalId ?? JStr "") in
  match split_colon value with
  | Some (String c label, rest) => (String c label, rest)
  | _ => ("default", value)
  end.

Definition newline (c : ascii) : bool := (c =? ascii_of_nat 10)%char || (c =? ascii_of_nat 13)%char.
(** [/^conversion(?:-by-payment)?-(.+)$/i] *)
Definition conversion_tail (s : string) : option string :=
  let tail p := if starts_with p (to_lower s) then
                  let rest := string_drop (String.length p) s in
                  if (rest =s? "") || negb (all_chars (fun c => negb (newline c)) rest) then None else Some rest
                else None in
  match tail "conversion-by-payment-" with Some t => Some t | None => tail "conversion-" end.
Fixpoint after_dash (s : string) : option string :=
  match s with
  | EmptyString => None
  | String c s' => if (c =? "-")%char then match conversion_tail s' with Some t => Some t | None => after_dash s' end
                   else after_dash s'
  end.
(** [/(?:^|-)conversion(?:-by-payment)?-(.+)$/i] *)
Definition conversion_suffix (s : string) : option string :=
  match conversion_tail s with Some t => Some t | None => after_dash s end.

Definition extractNetworkConversionId (rawInput entity : jsval) : option string :=
  let raw := as_object (rawInput@."rawData" ?? rawInput) in
  let fromRaw := first_of raw
    ["conversionId"; "conversion_id"; "ActionId"; "action_id"; "etransaction_id"; "networkConversionComponentId";
     "advertiserConversionId"; "network_conversion_id"; "networkConversionId"] in
  if negb (nullish fromRaw) then Some (trim (js_string fromRaw))
  else
    let boostinyOrderId := first_of raw ["order_id"; "orderId"; "OrderId"] in
    if negb (nullish boostinyOrderId) && negb (trim (js_string boostinyOrderId) =s? "")
    then Some (trim (js_string boostinyOrderId))
    else
      let rawId := first_of raw ["id"; "_id"] in
      if negb (nullish rawId) then
        let reportType := to_lower (js_string (raw@."report_type" |or| JStr "")) in
        if (reportType =s? "summary") || (reportType =s? "conversions_by_payment") then None
        else if negb (nullish (raw@."campaign_id")) && (truthy (raw@."date") || truthy (raw@."period_from"))
                && negb (truthy (first_of raw ["conversionId"; "conversion_id"; "order_id"; "orderId"; "OrderId"]))
        then None
        else Some (trim (js_string rawId))
      else
        match conversion_suffix (parseSourceAccountLabel (entity@."externalId" ?? rawInput@."externalId" ?? JNull)).2 with
        | Some id => if starts_with "campaign-" id || includes id "summary" then None else Some id
        | None => None
        end.

(** [\d{n}] at the start of a text: what follows. *)
Fixpoint digits (n : nat) (s : string) : option string :=
  match n, s with
  | O, _ => Some s
  | S m, String c s' => match char_digit c with Some _ => digits m s' | None => None end
  | _, EmptyString => None
  end.
Fixpoint drop_digits (s : string) : string :=
  match s with String c s' => match char_digit c with Some _ => drop_digits s' | None => s end | EmptyString => "" end.
Definition dash (s : string) : option string := match s with String "-" s' => Some s' | _ => None end.
(** [\d{4}-\d{2}-\d{2}] *)
Definition ymd (s : string) : option string :=
  (((digits 4 s ≫= dash) ≫= digits 2) ≫= dash) ≫= digits 2.
Definition some {A} (o : option A) : bool := match o with Some _ => true | None => false end.
Fixpoint anywhere (p : string -> bool) (s : string) : bool :=
  p s || match s with EmptyString => false | String _ s' => anywhere p s' end.

(** [/campaign-\d+-\d{4}-\d{2}-\d{2}/] *)
Definition campaign_date (s : string) : bool :=
  starts_with "campaign-" s && some (digits 1 (string_drop 9 s)) && some (dash (drop_digits (string_drop 9 s)) ≫= ymd).
(** [/-\d{4}-\d{2}-\d{2}(?:-\d{2})?$/] *)
Definition ends_dated (s : string) : bool :=
  match dash s ≫= ymd with
  | Some rest => (rest =s? "") || match dash rest ≫= digits 2 with Some "" => true | _ => false end
  | None => false
  end.
(** [/.{0,n}-\d{4}-\d{2}-\d{2}/] at the start *)
Fixpoint dated_within (n : nat) (s : string) : bool :=
  some (dash s ≫= ymd) ||
  match n, s with
  | S m, String c s' => negb (newline c) && dated_within m s'
  | _, _ => false
  end.
(** [/\/.{0,80}-\d{4}-\d{2}-\d{2}/] *)
Definition path_dated (s : string) : bool := match s with String "/" s' => dated_within 80 s' | _ => false end.

Definition isWeakConversionExternalId (externalId rawData : jsval) : bool :=
  let found := some_text (extractNetworkConversionId rawData (JObj [])) in
  if found then false
  else
    let label := (parseSourceAccountLabel externalId).2 in
    let local := if label =s? "" then js_string (externalId |or| JStr "") else label in
    let raw := as_object rawData in
    let undated := negb (some_text (extractNetworkConversionId raw (JObj []))) in
    if anywhere campaign_date local then true
    else if anywhere ends_dated local && anywhere path_dated local then true
    else if truthy (raw@."campaignName") && truthy (raw@."date") && undated then true
    else if negb (nullish (raw@."campaign_id")) && (truthy (raw@."date") || truthy (raw@."period_from")) && undated then true
    else negb (nullish (raw@."click_id")) && nullish (raw@."id") && nullish (raw@."conversionId") && nullish (raw@."conversion_id").

Definition resolveConversionEntityExternalId (rawData : jsval) (fallbackPrefix : string) : option string :=
  match extractNetworkConversionId rawData (JObj []) with
  | Some id => if id =s? "" then None else Some (fallbackPrefix +:+ "-" +:+ id)
  | None => None
  end.

(** The id of a promotable conversion, or the reason it is none. *)
Definition assertPromotableConversionIdentity (entity : jsval) : string + string :=
  if truthy (entity@."entityType") && negb (entity@."entityType" === "conversion") then inr "not_conversion_entity"
  else
    let raw := as_object (entity@."rawData") in
    if (raw@."report_type" === "summary") || (raw@."report_type" === "conversions_by_payment") then inr "aggregate_grain"
    else
      match extractNetworkConversionId entity (JObj []) with
      | None => inr "missing_network_conversion_id"
      | Some id =>
          if id =s? "" then inr "missing_network_conversion_id"
          else if isWeakConversionExternalId (entity@."externalId") raw then inr "weak_dedupe_external_id"
          else inl id
      end.
Definition isPromotableConversionRow (entity : jsval) : bool :=
  match assertPromotableConversionIdentity entity with inl _ => true | inr _ => false end.

(** *** Keys *)

Definition buildConversionDedupeKey (supplier sourceAccountLabel supplierConversionId networkConversionId : jsval) : option string :=
  let conversionId := supplierConversionId ?? networkConversionId in
  if negb (truthy supplier) || nullish conversionId || (trim (js_string conversionId) =s? "") then None
  else Some (join "|" [to_upper (js_string supplier); js_string (sourceAccountLabel |or| JStr "default"); trim (js_string conversionId)]).

Definition extractLineItemId (item : jsval) : jsval :=
  first_of (as_object item)
    ["lineItemId"; "line_item_id"; "lineId"; "line_id"; "item_id"; "itemId"; "supplierItemId"; "supplier_item_id"; "SkuId"; "sku_id"].

Definition buildOrderItemDedupeKey (supplier sourceAccountLabel supplierConversionId lineItemId : jsval) : option string :=
  let lineId := extractLineItemId (JObj [("lineItemId", lineItemId); ("line_item_id", lineItemId)]) ?? lineItemId in
  match buildConversionDedupeKey supplier sourceAccountLabel supplierConversionId JNull with
  | Some base =>
      if nullish lineId || (trim (js_string lineId) =s? "") then None
      else Some (base +:+ "|" +:+ trim (js_string lineId))
  | None => None
  end.

Definition resolveOrderItemLineKey (item : jsval) (index : nat) : string :=
  if isPresent (item@."lineKey") then js_string (item@."lineKey")
  else
    let lineItemId := extractLineItemId item in
    if negb (nullish lineItemId) && negb (trim (js_string lineItemId) =s? "")
    then "line:" +:+ trim (js_string lineItemId)
    else "idx:" +:+ print_Z (Z.of_nat index) "".

Definition enrichConversionIngestMetadata (base keys : jsval) : jsval :=
  spread base (JObj
    [("mboCanonicalObject", JStr ORDER_CONVERSION_OBJECT);
     ("dedupeKey", of_option_str (buildConversionDedupeKey (keys@."supplier")
        (if is_undef (keys@."sourceAccountLabel") then JStr "default" else keys@."sourceAccountLabel")
        (keys@."supplierConversionId") (keys@."networkConversionId")));
     ("networkConversionId", keys@."supplierConversionId" ?? keys@."networkConversionId" ?? JNull)]).

Definition enrichOrderItemRecord (item keys : jsval) : jsval :=
  let lineItemId := extractLineItemId item in
  spread item (JObj
    [("lineKey", JStr (resolveOrderItemLineKey item 0));
     ("lineItemId", if nullish lineItemId then item@."lineItemId" ?? JNull else JStr (js_string lineItemId));
     ("itemDedupeKey", of_option_str (buildOrderItemDedupeKey (keys@."supplier")
        (if is_undef (keys@."sourceAccountLabel") then JStr "default" else keys@."sourceAccountLabel")
        (keys@."supplierConversionId") lineItemId))]).

Definition map_raw_item (index : nat) (row : jsval) : jsval :=
  let item := as_object row in
  JObj [("supplierItemId", first_of item ["id"; "itemId"; "sku_id"; "lineId"; "line_item_id"]);
        ("lineItemId", extractLineItemId item);
        ("sku", first_of item ["sku"; "SKU"; "productSku"]);
        ("productId", first_of item ["productId"; "product_id"]);
        ("productName", first_of item ["name"; "productName"; "title"]);
        ("quantity", item@."quantity" ?? item@."qty" ?? JNull);
        ("unitPrice", first_of item ["unitPrice"; "price"; "unit_price"]);
        ("itemValue", first_of item ["itemValue"; "amount"; "total"; "value"]);
        ("currency", first_of item ["currency"; "currencyCode"]);
        ("category", first_of item ["category"; "categoryName"]);
        ("commission", first_of item ["commission"; "payout"]);
        ("metadata", JObj [("sourceIndex", JNum (num_of_Z (Z.of_nat index)))]);
        ("lineKey", JStr (resolveOrderItemLineKey item index))].

Definition mapRawOrderItems (rawData : jsval) : list jsval :=
  let raw := as_object rawData in
  match raw@."items" |or| raw@."orderItems" |or| raw@."lineItems" |or| raw@."products" |or| raw@."ActionItems" |or| JNull with
  | JArr list => imap map_raw_item list
  | _ => []
  end.

End Contract.
End IngestionContract.
Import IngestionContract.

(** ** [orderIngestion.service.js] *)

Module OrderIngestion.

(** [@@unique([...])]: a second row with the same key columns is refused. *)
Definition same_key (columns : list string) (r r' : jsval) : bool :=
  forallb (fun c => col_eq (prop r c) (prop r' c)) columns.
Definition ORDER_KEY : list string := ["supplier"; "sourceAccountLabel"; "supplierOrderId"].
Definition ITEM_KEY : list string := ["orderId"; "lineKey"].

Section Service.
Context {H : JsHost} {D : Database} {F : FinanceService}.

Definition create_keyed (t : table) (columns : list string) (data : list (string * jsval)) : prog world jsval :=
  fun w => if existsb (fun r => same_key columns r (JObj data)) (rows w t) then (Throw unique_violation, w)
           else create_row t data w.

Definition is_unique_violation (e : js_error) : bool := err_code e =s? "P2002".

Definition number_conflict (existing incoming : jsval) : bool :=
  let a := js_number existing in
  let b := js_number incoming in
  isPresent existing && isPresent incoming && negb (neqb a b) && is_finite a && is_finite b
  && nltb (num_of_ratio 1 2) (ndiv (nabs (nsub a b)) (nmax (nabs a) (num_of_Z 1))).
Definition detectConflict (existing incoming : jsval) : list jsval :=
  (if number_conflict (existing@."orderValue") (incoming@."orderValue")
   then [JObj [("field", JStr "orderValue"); ("from", JNum (js_number (existing@."orderValue")));
               ("to", JNum (js_number (incoming@."orderValue")))]] else [])
  ++ (if isPresent (existing@."currency") && isPresent (incoming@."currency")
         && negb (to_upper (js_string (existing@."currency")) =s? to_upper (js_string (incoming@."currency")))
      then [JObj [("field", JStr "currency"); ("from", existing@."currency"); ("to", incoming@."currency")]] else []).

Definition findByBusinessKey (supplier sourceAccountLabel supplierOrderId : jsval) : prog world (option jsval) :=
  find_where TOrder (same_key ORDER_KEY (JObj
    [("supplier", supplier); ("sourceAccountLabel", sourceAccountLabel |or| JStr "default"); ("supplierOrderId", supplierOrderId)])).

Definition with_lines (order : jsval) : prog world jsval :=
  let! items := findMany TOrderItem "orderId" (order@."id") in
  let! conversions := findMany TConversion "orderId" (order@."id") in
  ret (with_relation (with_relation order "items" (JArr items)) "conversions" (JArr conversions)).

(** *** What a report says of the status *)

Definition raw_status (input : jsval) : jsval :=
  input@."networkRawStatus" ?? input@."metadata"@."network_raw_status" ?? input@."metadata"@."networkRawStatus"
  ?? input@."metadata"@."rawStatus" ?? JNull.
Definition resolve_status (raw supplier : jsval) : resolution :=
  resolveOrderStatusFromNetworkRaw raw supplier JUndef JUndef VERIFIED_NETWORK_STATUS_REGISTRY.
Definition status_resolution (input : jsval) : resolution := resolve_status (raw_status input) (input@."supplier").
Definition effective_status (input : jsval) : jsval :=
  input@."mboOrderStatus" ?? resolved (status_resolution input)
  ?? (if truthy (input@."legacyConversionStatus")
      then resolved (resolve_status (input@."legacyConversionStatus") (input@."supplier")) else JNull).
Definition exception_required (input : jsval) : bool :=
  mappingExceptionRequired (status_resolution input) || truthy (input@."statusMappingExceptionRequired").
Definition incoming_validation (input : jsval) : jsval :=
  input@."validationStatus" |or|
  (if truthy (effective_status input) then of_option_str (mapMboOrderStatusToValidation (effective_status input))
   else if exception_required input then JStr "VALIDATION_NEEDS_REVIEW"
   else if truthy (input@."legacyConversionStatus") then of_option_str (mapConversionStatusToValidation (input@."legacyConversionStatus"))
   else JNull).
Definition raw_payment (input : jsval) : jsval :=
  input@."networkRawStatus" ?? of_option_str (networkRawStatus (status_resolution input))
  ?? input@."metadata"@."network_raw_status" ?? JNull.
Definition payment_evidence (input : jsval) : bool :=
  truthy (raw_payment input) && isNetworkPaymentEvidenceOnly (raw_payment input).
Definition used_synthetic (input : jsval) : bool :=
  negb (isPresent (input@."supplierOrderId")) && isPresent (input@."supplierConversionId").
Definition account_label (input : jsval) : jsval := input@."sourceAccountLabel" |or| JStr "default".

(** *** The rows that are written *)

Definition short_currency (v : jsval) : jsval :=
  if truthy v then JStr (to_upper (slice 0 3 (js_string v))) else JNull.

Definition order_metadata (input : jsval) : jsval :=
  buildOrderStatusMetadata
    (buildNetworkPaymentEvidenceMetadata
      (mergeMetadata
        (JObj [("syntheticOrderId", JBool (used_synthetic input));
               ("dedupeKey", of_option_str (buildConversionDedupeKey (input@."supplier") (account_label input)
                                              (input@."supplierConversionId") JNull));
               ("networkConversionId", input@."supplierConversionId" ?? JNull)])
        (input@."metadata"))
      (if payment_evidence input then raw_payment input else JNull))
    (JObj [("networkRawStatus", raw_payment input);
           ("mboOrderStatus", effective_status input);
           ("mappingExceptionRequired",
             JBool (mappingExceptionRequired (status_resolution input)) |or| input@."statusMappingExceptionRequired" |or| JBool false)]).

Definition create_data (input : jsval) (supplierOrderId : string) (t : Z) : list (string * jsval) :=
  let validationStatus := incoming_validation input in
  [("supplier", input@."supplier"); ("sourceAccountLabel", account_label input); ("supplierOrderId", JStr supplierOrderId);
   ("clientId", input@."clientId" ?? JNull); ("merchantId", input@."merchantId" ?? JNull);
   ("canonicalCampaignId", input@."canonicalCampaignId" ?? JNull); ("campaignSourceId", input@."campaignSourceId" ?? JNull);
   ("clientAssignmentId", input@."clientAssignmentId" ?? JNull); ("clickId", input@."clickId" ?? JNull);
   ("orderValue", if isPresent (input@."orderValue") then JStr (js_string (input@."orderValue")) else JNull);
   ("currency", short_currency (input@."currency")); ("orderDate", input@."orderDate" ?? JNull);
   ("receivedAt", input@."receivedAt" ?? JDate (Some t));
   ("validationStatus", validationStatus |or| JStr "VALIDATION_PENDING");
   ("supplierPaymentStatus", (input@."supplierPaymentStatus" ?? JNull) |or| JStr "PAYMENT_PENDING");
   ("clientPaymentStatus", input@."clientPaymentStatus" |or| JStr "CLIENT_PAYMENT_NOT_READY");
   ("validationChangedAt",
     if (validationStatus === "VALIDATION_APPROVED") || (validationStatus === "VALIDATION_REJECTED")
     then input@."orderDate" |or| input@."receivedAt" |or| JDate (Some t) else JNull);
   ("rawPayloadId", input@."rawPayloadId" ?? JNull);
   ("metadata", order_metadata input)].

Definition patch_input (input : jsval) (t : Z) : jsval :=
  JObj [("clientId", input@."clientId"); ("merchantId", input@."merchantId"); ("canonicalCampaignId", input@."canonicalCampaignId");
        ("campaignSourceId", input@."campaignSourceId"); ("clientAssignmentId", input@."clientAssignmentId");
        ("clickId", input@."clickId");
        ("orderValue", if isPresent (input@."orderValue") then JStr (js_string (input@."orderValue")) else JUndef);
        ("currency", input@."currency"); ("orderDate", input@."orderDate"); ("rawPayloadId", input@."rawPayloadId");
        ("metadata", mergeMetadata (input@."metadata")
           (JObj [("lastIngestAt", JStr (to_iso_string t)); ("syntheticOrderId", JBool (used_synthetic input))]))].

(** *** Items *)

Definition item_data (existing item : jsval) : list (string * jsval) :=
  let text k := if isPresent (prop item k) then JStr (js_string (prop item k)) else prop existing k ?? JNull in
  [("supplierItemId", mergeScalar (existing@."supplierItemId") (item@."supplierItemId") false);
   ("sku", mergeScalar (existing@."sku") (item@."sku") false);
   ("productId", mergeScalar (existing@."productId") (item@."productId") false);
   ("productName", mergeScalar (existing@."productName") (item@."productName") false);
   ("quantity", text "quantity"); ("unitPrice", text "unitPrice"); ("itemValue", text "itemValue");
   ("currency", if truthy (item@."currency") then short_currency (item@."currency") else existing@."currency" ?? JNull);
   ("category", mergeScalar (existing@."category") (item@."category") false);
   ("commission", text "commission");
   ("metadata", mergeMetadata (existing@."metadata") (item@."metadata"))].

Definition find_line (orderId : jsval) (lineKey : string) : prog world (option jsval) :=
  find_where TOrderItem (same_key ITEM_KEY (JObj [("orderId", orderId); ("lineKey", JStr lineKey)])).

Definition upsert_item (orderId : jsval) (index : nat) (given : jsval) : prog world (list jsval) :=
  let item := given |or| JObj [] in
  let lineKey := resolveOrderItemLineKey item index in
  let! found := find_line orderId lineKey in
  let data := item_data (default JUndef found) item in
  match found with
  | Some existing => let! r := update_row TOrderItem (existing@."id") data in ret [r]
  | None =>
      catch
        (let! r := create_keyed TOrderItem ITEM_KEY ([("orderId", orderId); ("lineKey", JStr lineKey)] ++ data) in ret [r])
        (fun e =>
           if negb (is_unique_violation e) then throw e
           else
             let! raced := find_line orderId lineKey in
             match raced with
             | Some r => let! u := update_row TOrderItem (r@."id") data in ret [u]
             | None => ret []
             end)
  end.

Fixpoint upsert_items (orderId : jsval) (index : nat) (items : list jsval) : prog world (list jsval) :=
  match items with
  | [] => ret []
  | item :: rest =>
      let! r := upsert_item orderId index item in
      let! rs := upsert_items orderId (S index) rest in
      ret (r ++ rs)
  end.
Definition upsertItems (orderId : jsval) (items : list jsval) : prog world (list jsval) := upsert_items orderId 0 items.

Definition linkConversion (orderId conversionId : jsval) : prog world jsval :=
  update_row TConversion conversionId [("orderId", orderId)].

(** *** Orders *)

Definition report_unknown_supplier (input : jsval) : prog world report_result :=
  report (JObj [("type", JStr "SUPPLIER_STATUS_UNKNOWN"); ("severity", JStr "HIGH");
                ("reason", JStr "Cannot ingest order with unknown supplier");
                ("metadata", JObj [("inputKeys", JArr (map (fun kv => JStr kv.1) (obj_fields input)))])]).
Definition report_missing_id (input : jsval) : prog world report_result :=
  report (JObj [("type", JStr "MISSING_SUPPLIER_ORDER_ID"); ("severity", JStr "HIGH"); ("supplier", input@."supplier");
                ("reason", JStr "Missing supplier order id and conversion id");
                ("metadata", JObj [("sourceAccountLabel", account_label input)])]).
Definition report_evidence (input : jsval) : prog world report_result :=
  report (JObj [("type", JStr "MAPPING_UNMAPPED_CRITICAL_FIELD"); ("severity", JStr "LOW"); ("supplier", input@."supplier");
                ("reason", JStr "network_payment_evidence_recorded");
                ("metadata", JObj [("networkPaymentEvidence", JStr (js_string (raw_payment input)));
                                   ("note", JStr "Network payment status stored as evidence only — not MBO bank receipt")])]).
Definition report_unmapped (input : jsval) (supplierOrderId : string) : prog world report_result :=
  report (JObj [("condition", JStr "UNKNOWN_SOURCE_STATUS"); ("type", JStr "MAPPING_UNKNOWN_ENUM"); ("supplier", input@."supplier");
                ("reason", JStr "unknown_network_order_status");
                ("metadata", JObj [("networkRawStatus", of_option_str (networkRawStatus (status_resolution input)));
                                   ("supplierOrderId", JStr supplierOrderId); ("sourceAccountLabel", account_label input)])]).
Definition report_duplicate (input existing : jsval) (supplierOrderId : string) : prog world report_result :=
  report (JObj [("condition", JStr "DUPLICATE_PAYMENT_IMPORT"); ("type", JStr "DUPLICATE_ORDER"); ("supplier", input@."supplier");
                ("orderId", existing@."id");
                ("reason", JStr "Concurrent duplicate order ingest recovered via unique key");
                ("metadata", JObj [("supplierOrderId", JStr supplierOrderId); ("sourceAccountLabel", account_label input)])]).
Definition report_conflicts (input existing : jsval) (conflicts : list jsval) : prog world report_result :=
  report (JObj [("type", JStr "ORDER_DATA_CONFLICT"); ("severity", JStr "MEDIUM"); ("supplier", input@."supplier");
                ("orderId", existing@."id"); ("clientId", existing@."clientId");
                ("reason", JStr "Conflicting order field values on re-ingest");
                ("metadata", JObj [("conflicts", JArr conflicts)])]).

(** Lines 254-293: the order under the key, created if it is not there. *)
Definition find_or_create (input : jsval) (supplierOrderId : string) (found : option jsval) : prog world jsval :=
  match found with
  | Some existing => ret existing
  | None =>
      let! t := get_now in
      catch
        (let! created := create_keyed TOrder ORDER_KEY (create_data input supplierOrderId t) in
         audit_record [("aggregateType", JStr "Order"); ("aggregateId", created@."id"); ("action", JStr "order.created");
                       ("after", JObj [("supplier", input@."supplier"); ("supplierOrderId", JStr supplierOrderId);
                                       ("validationStatus", created@."validationStatus")])] ;;
         ret created)
        (fun e =>
           if negb (is_unique_violation e) then throw e
           else
             let! again := findByBusinessKey (input@."supplier") (account_label input) (JStr supplierOrderId) in
             match again with
             | None => throw e
             | Some existing => report_duplicate input existing supplierOrderId ;; ret existing
             end)
  end.

(** Lines 295-352: merge what was reported into the order. *)
Definition merge_order (input existing : jsval) : prog world jsval :=
  let conflicts := detectConflict existing (JObj [("orderValue", input@."orderValue"); ("currency", input@."currency")]) in
  (match conflicts with [] => ret tt | _ => report_conflicts input existing conflicts ;; ret tt end) ;;
  let! t := get_now in
  match buildOrderPatch existing (patch_input input t) with
  | [] => ret existing
  | patch =>
      let! order := update_row TOrder (existing@."id") patch in
      audit_record [("aggregateType", JStr "Order"); ("aggregateId", order@."id"); ("action", JStr "order.updated");
                    ("before", JObj [("id", existing@."id")]); ("after", JObj patch)] ;;
      ret order
  end.

(** Lines 354-393: what was reported of the statuses. *)
Definition enrich_validation (input order : jsval) : prog world jsval :=
  match incoming_validation input with
  | JStr to =>
      if negb (to =s? "") && negb (order@."validationStatus" === to) && (order@."validationStatus" === "VALIDATION_PENDING")
      then transition (order@."id") to (JStr "supplier_sync_enrichment") JUndef false
      else if (to =s? "VALIDATION_REJECTED") && (order@."validationStatus" === "VALIDATION_APPROVED")
      then transition (order@."id") "VALIDATION_REJECTED" (JStr "supplier_late_rejection") JUndef true
      else ret order
  | _ => ret order
  end.
Definition enrich_payment (input order : jsval) : prog world jsval :=
  let supplierPaymentStatus := input@."supplierPaymentStatus" ?? JNull in
  if truthy supplierPaymentStatus && negb (col_eq supplierPaymentStatus (order@."supplierPaymentStatus"))
     && negb (order@."validationStatus" === "VALIDATION_REJECTED") && (order@."supplierPaymentStatus" === "PAYMENT_PENDING")
  then
    let! t := get_now in
    update_row TOrder (order@."id")
      [("supplierPaymentStatus", supplierPaymentStatus); ("supplierPaymentChangedAt", JDate (Some t))]
  else ret order.

(** Lines 161-200: what is reported about the statuses, whatever becomes of the report. *)
Definition announce (input : jsval) (supplierOrderId : string) : prog world unit :=
  (if payment_evidence input then attempt (report_evidence input) else ret tt) ;;
  (if exception_required input then attempt (report_unmapped input supplierOrderId) else ret tt).
(** Lines 295-403, on the order under the key. *)
Definition complete (input existing : jsval) : prog world jsval :=
  let! merged := merge_order input existing in
  let! validated := enrich_validation input merged in
  let! order := enrich_payment input validated in
  match input@."items" with
  | JArr ((_ :: _) as items) =>
      upsertItems (order@."id") items ;;
      let! again := findUnique TOrder "id" (order@."id") in
      match again with Some o => with_lines o | None => ret JNull end
  | _ => with_lines order
  end.

Definition upsertOrder (input : jsval) : prog world jsval :=
  let supplier := input@."supplier" in
  if negb (truthy supplier) || (supplier === "UNKNOWN")
  then report_unknown_supplier input ;; throw (plain_error "Cannot ingest order with unknown supplier")
  else
    match resolveSupplierOrderId (input@."supplierOrderId") (input@."supplierConversionId") with
    | None | Some "" => report_missing_id input ;; throw (plain_error "Missing supplier order identity")
    | Some supplierOrderId =>
        let! found := findByBusinessKey supplier (account_label input) (JStr supplierOrderId) in
        announce input supplierOrderId ;;
        let! existing := find_or_create input supplierOrderId found in
        complete input existing
    end.

End Service.
End OrderIngestion.
Import OrderIngestion.

(** ** What ingestion keeps true of the orders *)

Module IngestionFacts.
Section Facts.
Context {H : JsHost} {D : Database} {F : FinanceService}.

(** *** The invariant *)

Definition KEPT : list string := "id" :: ORDER_KEY.
Definition ids_text (w : world) : Prop := Forall (fun r => exists s, r@."id" = JStr s) (rows w TOrder).
(** No two orders have the same supplier, account and order id. *)
Definition keyed (w : world) : Prop := ForallOrdPairs (fun r r' => same_key ORDER_KEY r r' = false) (rows w TOrder).
Definition good (w : world) : Prop := orders_ok w /\ keyed w /\ ids_text w.

(** Orders are changed in place and keep their identity. *)
Definition keeps (r r' : jsval) : Prop := forall k, k ∈ KEPT -> prop r' k = prop r k.
Definition in_place (w w' : world) : Prop := Forall2 keeps (rows w TOrder) (rows w' TOrder).
#[local] Instance keeps_preorder : PreOrder keeps.
Proof. split; [intros r k _; reflexivity|]. intros r1 r2 r3 H12 H23 k Hk. now rewrite H23, H12. Qed.
#[local] Instance in_place_preorder : PreOrder in_place.
Proof. split; [intros w; unfold in_place; reflexivity|]. intros w1 w2 w3 H12 H23. unfold in_place in *. transitivity (rows w2 TOrder); assumption. Qed.

Lemma same_key_keeps r r' x x' : keeps r r' -> keeps x x' -> same_key ORDER_KEY r' x' = same_key ORDER_KEY r x.
Proof.
  intros Hr Hx. unfold same_key. cbn [forallb ORDER_KEY]. rewrite !Hr, !Hx by compute_done. reflexivity.
Qed.
Lemma in_place_keyed w w' : in_place w w' -> keyed w -> keyed w'.
Proof.
  unfold in_place, keyed. induction 1 as [|r r' l l' Hr Hl IH]; [auto|]. inversion 1 as [|? ? Hx Hd]; subst.
  constructor; [|auto]. rewrite List.Forall_forall in *. intros x' Hx'%list_elem_of_In%list_elem_of_lookup.
  destruct Hx' as [i Hi]. destruct (Forall2_lookup_r _ _ _ _ _ Hl Hi) as (x & Hxi & Hk).
  rewrite (same_key_keeps _ _ _ _ Hr Hk). apply Hx, list_elem_of_In. now apply list_elem_of_lookup_2 in Hxi.
Qed.
Lemma in_place_ids w w' : in_place w w' -> ids_text w -> ids_text w'.
Proof.
  unfold in_place, ids_text. induction 1 as [|r r' l l' Hr _ IH]; [auto|]. intros [Hs Hl]%Forall_cons. constructor; [|auto].
  destruct Hs as [s Hs]. exists s. rewrite Hr by compute_done. exact Hs.
Qed.
Lemma same_in_place w w' : same_columns TOrder w w' -> in_place w w'.
Proof. intros Hs. eapply Forall2_impl; [exact Hs|]. intros r r' Hr k _. apply Hr, not_elem_of_nil. Qed.
Lemma good_step w w' : good w -> order_step w w' -> in_place w w' -> good w'.
Proof. intros (Hok & Hk & Hi) Hs Hp. split_and!; [now apply Hs|now apply (in_place_keyed w)|now apply (in_place_ids w)]. Qed.
Lemma good_same w w' : good w -> same_columns TOrder w w' -> good w'.
Proof. intros Hg Hs. apply (good_step w); [exact Hg|now apply same_order_step|now apply same_in_place]. Qed.

Lemma update_in_place id data : (forall k, k ∈ KEPT -> k ∉ map fst data) -> tracks in_place (update_row TOrder id data).
Proof.
  intros Hk w. unfold update_row. destruct (negb _); [reflexivity|]. destruct (List.find _ _); [|reflexivity]. cbn [snd].
  unfold in_place. rewrite rows_set_same. apply Forall2_fmap_r, Forall_Forall2_diag, Forall_forall. intros r _ k Hin. unfold compose.
  destruct (has_id id r); [|reflexivity]. apply (spread_rewrites TOrder r data). auto.
Qed.
Lemma same_tracks_in_place {A} (c : prog world A) : tracks (same_columns TOrder) c -> tracks in_place c.
Proof. intros Hc w. apply same_in_place, Hc. Qed.
Lemma validation_patch_key order linked to t k : k ∈ KEPT -> k ∉ map fst (validation_patch order linked to t).
Proof.
  intros Hk. revert k Hk. apply Forall_forall. unfold validation_patch.
  repeat match goal with |- context [if ?b then _ else _] => destruct b end; compute_done.
Qed.
Lemma transition_in_place id to reason actor sync : tracks in_place (transition id to reason actor sync).
Proof.
  unfold transition, findUnique, find_where, findMany, apply_transition, get_now, report_late. track;
    try (apply same_tracks_in_place; first [apply report_same|apply finance_calls_same|apply audit_same|apply update_other_same; discriminate]).
  apply update_in_place. intros k Hk. now apply validation_patch_key.
Qed.

(** *** Updates and inserts keep the invariant *)

Lemma has_id_ids w r id : ids_text w -> r ∈ rows w TOrder -> has_id id r = true -> exists i, id = JStr i.
Proof.
  unfold ids_text. rewrite Forall_forall. intros Hi Hr. destruct (Hi r Hr) as [s Hs]. unfold has_id. rewrite Hs.
  destruct id; cbn [col_eq]; try discriminate. eauto.
Qed.
Lemma absent_id w id : ids_text w -> (forall i, id <> JStr i) -> List.find (has_id id) (rows w TOrder) = None.
Proof.
  intros Hi Hid. destruct (List.find _ _) as [r|] eqn:E; [|reflexivity]. apply List.find_some in E as [Hr Hm].
  apply list_elem_of_In in Hr. destruct (has_id_ids w r id Hi Hr Hm) as [i ->]. now destruct (Hid i).
Qed.

Lemma assoc_member {A} k (v : A) l : NoDup (map fst l) -> In (k, v) l -> assoc k l = Some v.
Proof.
  induction l as [|[j x] l IH]; [contradiction|]. cbn [map fst assoc]. intros [Hj Hnd]%NoDup_cons [[= -> ->]|Hin]; [now rewrite String.eqb_refl|].
  destruct (String.eqb_spec j k) as [->|]; [|auto]. destruct Hj. apply list_elem_of_fmap. exists (k, v). split; [reflexivity|now apply list_elem_of_In].
Qed.
Definition STATUS_COLUMNS : list string := ["validationStatus"; "clientPaymentStatus"].
(** A patch that leaves the identity, the validation and the client payment alone. *)
Lemma update_good id data :
  NoDup (map fst data) -> (forall k, k ∈ KEPT ++ STATUS_COLUMNS -> k ∉ map fst data) ->
  (forall v, In ("supplierPaymentStatus", v) data -> v <> JUndef) ->
  holds good (update_row TOrder id data) (fun _ => True).
Proof.
  intros Hnd Hk Hu w Hg. split; [|auto]. destruct Hg as ((Hd & Hok) & Hkey & Hi).
  assert (Hin : in_place w (update_row TOrder id data w).2) by (apply update_in_place; intros k ?; apply Hk; set_solver).
  split_and!; [split|now apply (in_place_keyed w)|now apply (in_place_ids w)].
  { apply update_row_distinct; [apply Hk; compute_done|exact Hd]. }
  unfold update_row. destruct (negb _) eqn:Ef; [exact Hok|]. destruct (List.find _ _); [|exact Hok]. cbn [snd].
  rewrite rows_set_same. apply Forall_fmap. eapply Forall_impl; [exact Hok|]. intros r Hr. unfold compose.
  destruct (has_id id r); [|exact Hr]. destruct Hr as [Hv Hs Hc Hrej].
  assert (Ek : forall k, k ∉ map fst data -> prop (spread r (JObj (encode TOrder data))) k = prop r k) by (intros; now apply spread_rewrites).
  split; rewrite ?(Ek "validationStatus"), ?(Ek "clientPaymentStatus") by (apply Hk; compute_done); auto.
  destruct (decide ("supplierPaymentStatus" ∈ map fst data)) as [Hin'|]; [|now rewrite Ek].
  apply list_elem_of_fmap in Hin' as ([k v] & Heq & Hin'). cbn in Heq. subst k. apply list_elem_of_In in Hin'.
  rewrite (updated_column TOrder data r _ v Hnd) by (eauto using assoc_member). cbn.
  apply negb_false_iff in Ef. rewrite forallb_forall in Ef. specialize (Ef _ Hin'). unfold field_ok in Ef. cbn in Ef.
  specialize (Hu v Hin'). destruct v; try exact Ef. now destruct Hu.
Qed.

Lemma same_good {A} (c : prog world A) : tracks (same_columns TOrder) c -> holds good c (fun _ => True).
Proof. apply holds_tracks. exact good_same. Qed.
Lemma transition_good id to reason actor sync : holds good (transition id to reason actor sync) (fun _ => True).
Proof.
  intros w Hg. split; [|auto]. destruct id as [| | | |i| | |];
    try (unfold transition, findUnique, find_where; rewrite bind_gets;
         match goal with |- context [List.find (fun r => col_eq r@."id" ?v)] =>
           change (List.find (fun r => col_eq r@."id" v)) with (List.find (has_id v)); rewrite (absent_id w v) by (apply Hg || discriminate) end;
         exact Hg).
  apply (good_step w); [exact Hg|apply transition_step|apply transition_in_place].
Qed.

Definition unpaid (input : jsval) : Prop := truthy input@."clientPaymentStatus" = false.
Lemma or_undef v d : d <> JUndef -> (v |or| d) <> JUndef.
Proof. unfold js_or. destruct v; cbn; repeat case_match; congruence. Qed.
Lemma truthy_undef v : truthy v = true -> v <> JUndef.
Proof. now intros Hv ->. Qed.

Section Created.
Context (input : jsval) (id : string) (t : Z) (at0 : jsval).
Context (Hs : truthy input@."supplier" = true) (Hp : unpaid input).
Let data := create_data input id t.
Let row (rid : jsval) := JObj (("id", rid) :: encode TOrder data ++ [("createdAt", at0)]).

Ltac member := unfold data, create_data; cbn [In]; repeat lazymatch goal with |- (?k, _) = (?k, _) \/ _ => left; reflexivity | |- _ \/ _ => right end.
Lemma create_nodup : NoDup (map fst data).
Proof. unfold data, create_data. nodup_keys. Qed.
Lemma created_field rid k v : In (k, v) data -> v <> JUndef -> k <> "id" -> prop (row rid) k = (encode_field TOrder (k, v)).2.
Proof. intros Hin Hv Hk. apply created_column; auto using create_nodup. now apply assoc_member; [apply create_nodup|]. Qed.
Lemma created_key rid r : same_key ORDER_KEY r (row rid) = same_key ORDER_KEY r (JObj data).
Proof.
  unfold same_key. cbn [forallb ORDER_KEY].
  rewrite (created_field rid "supplier" input@."supplier"), (created_field rid "sourceAccountLabel" (account_label input)),
    (created_field rid "supplierOrderId" (JStr id));
    [reflexivity|..]; try discriminate; try member; [now apply or_undef|now apply truthy_undef].
Qed.
Lemma created_ok rid : forallb (field_ok TOrder) data = true -> order_ok (row rid).
Proof.
  intros Hf. rewrite forallb_forall in Hf.
  assert (Hcol : forall k v members, In (k, v) data -> v <> JUndef -> assoc k (enum_columns TOrder) = Some members ->
    prop (row rid) k = v /\ in_enum members v = true).
  { intros k v members Hin Hv Hk. assert (Hne : k <> "id") by (now intros ->). split.
    - rewrite (created_field rid k v Hin Hv Hne). unfold encode_field. cbn [snd fst].
      replace (existsb (String.eqb k) (decimal_columns TOrder)) with false; [reflexivity|].
      cbn [enum_columns assoc] in Hk. destruct (String.eqb_spec "validationStatus" k) as [<-|]; [reflexivity|].
      destruct (String.eqb_spec "supplierPaymentStatus" k) as [<-|]; [reflexivity|].
      destruct (String.eqb_spec "clientPaymentStatus" k) as [<-|]; [reflexivity|discriminate Hk].
    - specialize (Hf _ Hin). unfold field_ok in Hf. cbn [fst snd] in Hf. rewrite Hk in Hf. now destruct v. }
  destruct (Hcol "validationStatus" (incoming_validation input |or| JStr "VALIDATION_PENDING") VALIDATION_STATUS) as [E1 H1];
    [member|apply or_undef; discriminate|reflexivity|].
  destruct (Hcol "supplierPaymentStatus" ((input@."supplierPaymentStatus" ?? JNull) |or| JStr "PAYMENT_PENDING") SUPPLIER_PAYMENT_STATUS) as [E2 H2];
    [member|apply or_undef; discriminate|reflexivity|].
  destruct (Hcol "clientPaymentStatus" (JStr "CLIENT_PAYMENT_NOT_READY") CLIENT_PAYMENT_STATUS) as [E3 H3]; [|discriminate|reflexivity|].
  { replace (JStr "CLIENT_PAYMENT_NOT_READY") with (input@."clientPaymentStatus" |or| JStr "CLIENT_PAYMENT_NOT_READY") by (unfold js_or; now rewrite Hp).
    member. }
  split; rewrite ?E1, ?E2, ?E3; auto.
Qed.
End Created.

Lemma create_good input id t : truthy input@."supplier" = true -> unpaid input ->
  holds good (create_keyed TOrder ORDER_KEY (create_data input id t)) (fun _ => True).
Proof.
  intros Hs Hp w Hg. split; [|auto]. unfold create_keyed. destruct (existsb _ _) eqn:Ee; [exact Hg|].
  destruct Hg as ((Hd & Hok) & Hkey & Hi). set (data := create_data input id t).
  pose proof (create_row_distinct TOrder "id" data ltac:(compute_done) w Hd) as Hd'.
  destruct (create_row TOrder data w) as [[r|e] w'] eqn:Ec; cbn [snd] in *.
  2:{ assert (w' = w) as -> by (revert Ec; unfold create_row; repeat case_match; congruence). now repeat split. }
  destruct (create_row_ok _ _ _ _ _ Ec) as (-> & Hrows & _).
  assert (Hf : forallb (field_ok TOrder) data = true) by (revert Ec; unfold create_row; destruct (forallb _ _); [auto|discriminate]).
  unfold good, orders_ok, keyed, ids_text. rewrite Hrows. split_and!; [exact Hd'|..].
  - apply Forall_app_2; [exact Hok|]. apply Forall_singleton. now apply created_ok.
  - apply ForallOrdPairs_snoc; [exact Hkey|]. apply Forall_forall. intros r Hr. unfold data; rewrite created_key by exact Hs.
    apply not_true_iff_false. intros E. apply not_true_iff_false in Ee. apply Ee, existsb_exists. exists r. split; [now apply list_elem_of_In|exact E].
  - apply Forall_app_2; [exact Hi|]. apply Forall_singleton. eexists. reflexivity.
Qed.

(** *** The ingestion of an order *)

Lemma any_good {A} (c : prog world A) (Q : A -> Prop) : holds good c Q -> holds good c (fun _ => True).
Proof. now apply holds_weaken. Qed.
Lemma read_good {A} (f : world -> A) : holds good (gets f) (fun _ => True).
Proof. now apply holds_gets. Qed.
Lemma then_good {A B} (c : prog world A) (k : A -> prog world B) :
  holds good c (fun _ => True) -> (forall a, holds good (k a) (fun _ => True)) -> holds good (bind c k) (fun _ => True).
Proof. intros Hc Hk. eapply holds_bind; [exact Hc|auto]. Qed.

Ltac keep :=
  repeat match goal with
  | |- holds _ (report _) _ => apply same_good, report_same
  | |- holds _ (audit_record _) _ => apply same_good, audit_same
  | |- holds _ (transition _ _ _ _ _) _ => apply transition_good
  | |- holds _ (bind _ _) _ => apply then_good; [|intros ?]
  | |- holds _ (gets _) _ => apply read_good
  | |- holds _ (find_where _ _) _ => apply read_good
  | |- holds _ (ret _) _ => apply holds_ret; exact Logic.I
  | |- holds _ (throw _) _ => apply holds_throw
  | |- holds _ (catch _ _) _ => apply holds_catch; [|intros ?]
  | |- holds _ (attempt _) _ => unfold attempt
  | |- holds _ (match ?x with _ => _ end) _ => destruct x eqn:?
  end.

Lemma find_or_create_good input id found : truthy input@."supplier" = true -> unpaid input ->
  holds good (find_or_create input id found) (fun _ => True).
Proof.
  intros Hs Hp. unfold find_or_create, findByBusinessKey, find_where, report_duplicate, get_now. keep. now apply create_good.
Qed.
Lemma patch_keys existing incoming k : k ∈ KEPT ++ STATUS_COLUMNS -> k ∉ map fst (buildOrderPatch existing incoming).
Proof.
  intros Hk Hin. unfold buildOrderPatch in Hin. rewrite map_app, map_map in Hin. cbn [fst] in Hin. rewrite map_id in Hin.
  apply elem_of_app in Hin as [Hin|Hin].
  - apply list_elem_of_In, List.filter_In in Hin as [Hin%list_elem_of_In _]. unfold KEPT, ORDER_KEY, STATUS_COLUMNS, patch_fields in *. set_solver.
  - destruct (nullish _); cbn in Hin; unfold KEPT, ORDER_KEY, STATUS_COLUMNS in *; set_solver.
Qed.
Lemma create_item_same data : tracks (same_columns TOrder) (create_keyed TOrderItem ITEM_KEY data).
Proof.
  intros w. apply same_rows_same_columns. unfold create_keyed. destruct (existsb _ _); [reflexivity|]. apply create_row_only. discriminate.
Qed.
Lemma patch_good existing incoming id : holds good (update_row TOrder id (buildOrderPatch existing incoming)) (fun _ => True).
Proof.
  apply update_good; [apply OrderStatusFacts.patch_keys_nodup|apply patch_keys|].
  intros v Hin. exfalso. unfold buildOrderPatch in Hin. apply in_app_iff in Hin as [Hin|Hin].
  - apply in_map_iff in Hin as (x & [= -> _] & Hx). apply List.filter_In in Hx as [Hx _]. revert Hx. cbn. intuition discriminate.
  - destruct (nullish _); cbn in Hin; intuition discriminate.
Qed.
Lemma merge_good input existing : holds good (merge_order input existing) (fun _ => True).
Proof.
  unfold merge_order, report_conflicts, get_now. keep.
  match goal with Hb : buildOrderPatch _ _ = _ |- _ => rewrite <- Hb end. apply patch_good.
Qed.
Lemma enrich_validation_good input order : holds good (enrich_validation input order) (fun _ => True).
Proof. unfold enrich_validation. keep. Qed.
Lemma enrich_payment_good input order : holds good (enrich_payment input order) (fun _ => True).
Proof.
  unfold enrich_payment, get_now. keep. apply update_good; [nodup_keys|..].
  - intros k Hk. revert k Hk. apply Forall_forall. compute_done.
  - intros v [[= <-]|[[=]|[]]]. match goal with Hb : _ && _ = true |- _ => rewrite !andb_true_iff in Hb; destruct Hb as [[[Ht _] _] _] end.
    now apply truthy_undef.
Qed.
Lemma items_good o items : holds good (upsertItems o items) (fun _ => True).
Proof.
  unfold upsertItems. generalize 0%nat as n. induction items as [|item items IH]; intros n; cbn [upsert_items]; [keep|].
  apply then_good; [|intros r; apply then_good; [apply IH|intros; keep]]. unfold upsert_item, find_line, find_where. keep.
  all: apply same_good; try (apply update_other_same; discriminate). apply create_item_same.
Qed.

Lemma upsertOrder_good input : unpaid input -> holds good (upsertOrder input) (fun _ => True).
Proof.
  intros Hp. unfold upsertOrder, announce, complete, findByBusinessKey, find_where, findUnique, with_lines, findMany,
    report_unknown_supplier, report_missing_id, report_evidence, report_unmapped. keep;
    try (now apply enrich_validation_good); try apply enrich_payment_good; try apply merge_good; try apply items_good.
  all: apply find_or_create_good; [|exact Hp].
  all: match goal with Hb : _ || _ = false |- _ => apply orb_false_iff in Hb as [Hb%negb_false_iff _]; exact Hb end.
Qed.


(** *** Ingestion in place *)

Lemma report_in_place input : tracks in_place (report input).
Proof. apply same_tracks_in_place, report_same. Qed.
Lemma audit_in_place event : tracks in_place (audit_record event).
Proof. apply same_tracks_in_place, audit_same. Qed.
Lemma merge_in_place input existing : tracks in_place (merge_order input existing).
Proof.
  unfold merge_order, report_conflicts, get_now. cbv zeta. refine (tracks_bind _ _ _ _ _); [track; apply report_in_place|intros _].
  refine (tracks_bind _ _ _ _ _); [track|intros t].
  pose proof (fun k => patch_keys existing (patch_input input t) k) as Hk. destruct (buildOrderPatch _ _) as [|kv patch]; track;
    [|apply audit_in_place]. apply update_in_place. intros k Hin. apply Hk. set_solver.
Qed.
Lemma enrich_validation_in_place input order : tracks in_place (enrich_validation input order).
Proof. unfold enrich_validation. track; apply transition_in_place. Qed.
Lemma enrich_payment_in_place input order : tracks in_place (enrich_payment input order).
Proof. unfold enrich_payment, get_now. track. apply update_in_place. apply Forall_forall. compute_done. Qed.
Lemma items_in_place o items : tracks in_place (upsertItems o items).
Proof.
  apply same_tracks_in_place. unfold upsertItems. generalize 0%nat as n.
  induction items as [|item items IH]; intros n; cbn [upsert_items]; [track|].
  unfold upsert_item, find_line, find_where. track; try apply IH; try (apply update_other_same; discriminate).
  apply create_item_same.
Qed.

(** *** The order under a key *)

Lemma col_eq_text s v : col_eq (JStr s) v = true <-> v = JStr s.
Proof. split; [|intros ->; apply String.eqb_refl]. destruct v; try discriminate. now intros ->%String.eqb_eq. Qed.
Definition key_row (supplier account id : string) : jsval :=
  JObj [("supplier", JStr supplier); ("sourceAccountLabel", JStr account); ("supplierOrderId", JStr id)].
Definition under (supplier account id : string) (r : jsval) : bool := same_key ORDER_KEY (key_row supplier account id) r.
Lemma under_iff supplier account id r :
  under supplier account id r = true <->
  r@."supplier" = JStr supplier /\ r@."sourceAccountLabel" = JStr account /\ r@."supplierOrderId" = JStr id.
Proof.
  unfold under, same_key. cbn [forallb ORDER_KEY]. change (key_row supplier account id)@."supplier" with (JStr supplier).
  change (key_row supplier account id)@."sourceAccountLabel" with (JStr account).
  change (key_row supplier account id)@."supplierOrderId" with (JStr id). rewrite !andb_true_iff, !col_eq_text. tauto.
Qed.
Definition present (supplier account id : string) (w : world) : Prop := Exists (fun r => under supplier account id r = true) (rows w TOrder).
Lemma present_in_place s a i w w' : in_place w w' -> present s a i w -> present s a i w'.
Proof.
  unfold in_place, present. rewrite !Exists_exists. intros Hp (r & Hr & Hu). apply list_elem_of_lookup in Hr as [n Hn].
  destruct (Forall2_lookup_l _ _ _ _ _ Hp Hn) as (r' & Hr' & Hk). exists r'. split; [now apply list_elem_of_lookup_2 in Hr'|].
  apply under_iff. apply under_iff in Hu. rewrite !Hk by compute_done. exact Hu.
Qed.
Lemma one_under s a i w : keyed w -> (length (List.filter (under s a i) (rows w TOrder)) <= 1)%nat.
Proof.
  unfold keyed. induction 1 as [|r l Hr _ IH]; cbn [List.filter length]; [lia|]. destruct (under s a i r) eqn:E; [|exact IH].
  destruct (List.filter (under s a i) l) as [|x l'] eqn:El; [cbn; lia|exfalso].
  assert (Hx : In x l /\ under s a i x = true) by (apply List.filter_In; rewrite El; now left). destruct Hx as [Hx Hu].
  rewrite List.Forall_forall in Hr. specialize (Hr x Hx). revert Hr.
  apply under_iff in E as (E1 & E2 & E3), Hu as (U1 & U2 & U3). unfold same_key. cbn [forallb ORDER_KEY].
  rewrite E1, E2, E3, U1, U2, U3. cbn [col_eq]. now rewrite !String.eqb_refl.
Qed.

(** What an input names: its supplier, account and order id, as text. *)
Definition names (input : jsval) (supplier account id : string) : Prop :=
  input@."supplier" = JStr supplier /\ supplier <> "" /\ supplier <> "UNKNOWN" /\ account_label input = JStr account /\ id <> "" /\
  resolveSupplierOrderId input@."supplierOrderId" input@."supplierConversionId" = Some id.

Lemma account_label_or input account : account_label input = JStr account -> (account_label input |or| JStr "default") = JStr account.
Proof.
  unfold account_label, js_or. destruct (truthy input@."sourceAccountLabel") eqn:E; intros Ha; [now rewrite Ha in *; rewrite E|].
  injection Ha as <-. reflexivity.
Qed.
Lemma find_key input supplier account id : names input supplier account id ->
  findByBusinessKey input@."supplier" (account_label input) (JStr id) = find_where TOrder (under supplier account id).
Proof. intros (-> & _ & _ & Ha & _). unfold findByBusinessKey. now rewrite (account_label_or input account Ha). Qed.
Lemma found_present s a i w r : List.find (under s a i) (rows w TOrder) = Some r -> present s a i w.
Proof. intros [Hr Hu]%List.find_some. apply Exists_exists. exists r. split; [now apply list_elem_of_In|exact Hu]. Qed.
Lemma present_found s a i w : present s a i w -> exists r, List.find (under s a i) (rows w TOrder) = Some r.
Proof.
  unfold present. rewrite Exists_exists. intros (r & Hr%list_elem_of_In & Hu). destruct (List.find _ _) eqn:E; [eauto|].
  pose proof (List.find_none _ _ E r Hr). congruence.
Qed.

Lemma upsertOrder_names input supplier account id : names input supplier account id ->
  upsertOrder input = bind (find_where TOrder (under supplier account id)) (fun found =>
    announce input id ;; let! existing := find_or_create input id found in complete input existing).
Proof.
  intros Hn. pose proof (find_key _ _ _ _ Hn) as Hf. destruct Hn as (Hs & Hs1 & Hs2 & Ha & Hi & Hr). unfold upsertOrder.
  rewrite Hs in *. cbn [truthy negb is_str]. apply String.eqb_neq in Hs1, Hs2. rewrite Hs1, Hs2. cbn [negb orb].
  rewrite Hr, Hf. destruct id; [contradiction|reflexivity].
Qed.

Lemma announce_in_place input id : tracks in_place (announce input id).
Proof. unfold announce, attempt, report_evidence, report_unmapped. track; apply report_in_place. Qed.
Lemma complete_in_place input existing : tracks in_place (complete input existing).
Proof.
  unfold complete, findUnique, find_where, with_lines, findMany.
  track; first [apply merge_in_place|apply enrich_validation_in_place|apply enrich_payment_in_place|apply items_in_place].
Qed.
Lemma ran {A} (c : prog world A) w a w' : tracks in_place c -> c w = (Ok a, w') -> in_place w w'.
Proof. intros Hc E. specialize (Hc w). now rewrite E in Hc. Qed.

Lemma created_under input supplier account id t w r w' : names input supplier account id ->
  create_keyed TOrder ORDER_KEY (create_data input id t) w = (Ok r, w') -> present supplier account id w'.
Proof.
  intros (Hs & Hs1 & _ & Ha & _). unfold create_keyed. destruct (existsb _ _); [discriminate|]. intros (-> & Hrows & _)%create_row_ok.
  unfold present. rewrite Hrows. apply Exists_app. right. apply Exists_cons_hd. apply under_iff.
  assert (Hr : truthy input@."supplier" = true) by (rewrite Hs; cbn; apply String.eqb_neq in Hs1; now rewrite Hs1).
  rewrite (created_field input id t _ _ "supplier" (JStr supplier)), (created_field input id t _ _ "sourceAccountLabel" (JStr account)),
    (created_field input id t _ _ "supplierOrderId" (JStr id)); try discriminate; try (split_and!; reflexivity);
    unfold create_data; rewrite ?Hs, ?Ha; cbn; tauto.
Qed.

Lemma find_or_create_present input supplier account id found w o w' : names input supplier account id ->
  (forall r, found = Some r -> present supplier account id w) ->
  find_or_create input id found w = (Ok o, w') -> present supplier account id w'.
Proof.
  intros Hn Hfound. unfold find_or_create. destruct found as [r|]; [intros [= _ <-]; eauto|]. clear Hfound.
  unfold get_now. rewrite bind_gets. unfold catch. destruct (bind _ _ w) as [[a|e] w1] eqn:E.
  - intros [= _ <-]. apply bind_ok in E as (r & w2 & Ec & E). apply bind_ok in E as (u & w3 & Ea & E). injection E as _ <-.
    apply (present_in_place _ _ _ w2); [apply (ran _ _ _ _ (audit_in_place _) Ea)|]. eapply created_under; eassumption.
  - destruct (negb _); [discriminate|]. rewrite (find_key _ _ _ _ Hn). unfold find_where. rewrite bind_gets.
    destruct (List.find _ _) as [x|] eqn:Ef; [|discriminate]. intros (u & w2 & Er & E2)%bind_ok. injection E2 as _ <-.
    apply (present_in_place _ _ _ w1); [apply (ran _ _ _ _ (report_in_place _) Er)|]. eapply found_present, Ef.
Qed.

(** *** The platform: services and ingestion in any order *)

Inductive event := Serve (c : call) | Ingest (input : jsval).
Definition handle (e : event) (w : world) : world :=
  match e with
  | Serve c => perform c w
  | Ingest input => (upsertOrder input w).2
  end.
(** Neither caller of the ingestion gives a client payment status. *)
Definition admissible (e : event) : Prop := match e with Serve _ => True | Ingest input => unpaid input end.
Inductive runs (w0 : world) : world -> Prop :=
| run_start : runs w0 w0
| run_event w e : runs w0 w -> admissible e -> runs w0 (handle e w).

Lemma payment_in_place i to reason actor : tracks in_place (transitionSupplierPayment i to reason actor).
Proof.
  unfold transitionSupplierPayment, refuse, findUnique, find_where, get_now, payment_audit. track; try apply report_in_place; try apply audit_in_place.
  apply update_in_place, Forall_forall. compute_done.
Qed.
Lemma client_payment_in_place req i to reason actor : tracks in_place (transitionClientPayment req i to reason actor).
Proof.
  unfold transitionClientPayment, refuse, findUnique, find_where, findMany, get_now, payment_audit.
  track; try apply report_in_place; try apply audit_in_place. apply update_in_place, Forall_forall. compute_done.
Qed.
Lemma perform_in_place c w : in_place w (perform c w).
Proof.
  destruct c; cbn [perform].
  - apply transition_in_place.
  - apply same_in_place, item_same.
  - apply payment_in_place.
  - apply client_payment_in_place.
  - apply same_in_place, ledger_same, finance_recognize_steps.
  - apply same_in_place, ledger_same, createAdjustment_step.
  - apply same_in_place, reconcile_same.
  - apply same_in_place, grain_same.
  - apply same_in_place, same_rows_same_columns. reflexivity.
Qed.
Lemma handle_good e w : admissible e -> good w -> good (handle e w).
Proof.
  intros Ha Hg. destruct e as [c|input]; cbn [handle].
  - apply (good_step w); [exact Hg|apply perform_step|apply perform_in_place].
  - now apply upsertOrder_good.
Qed.
Lemma runs_good w0 w : good w0 -> runs w0 w -> good w.
Proof. induction 2; [assumption|]. now apply handle_good; [|apply IHruns]. Qed.

(** *** Statuses looked up with the supplier alone *)

Lemma unscoped_never_mapped raw supplier registry :
  resolved (resolveOrderStatusFromNetworkRaw raw supplier JUndef JUndef registry) = JNull.
Proof.
  unfold resolveOrderStatusFromNetworkRaw, resolve_field, hasSourceScope. cbn. rewrite andb_false_r.
  now destruct (preserveNetworkRawStatus raw).
Qed.
Lemma unscoped_exception raw supplier registry : preserveNetworkRawStatus raw <> None ->
  mappingExceptionRequired (resolveOrderStatusFromNetworkRaw raw supplier JUndef JUndef registry) = true.
Proof.
  unfold resolveOrderStatusFromNetworkRaw, resolve_field, hasSourceScope. cbn. rewrite andb_false_r.
  now destruct (preserveNetworkRawStatus raw).
Qed.

(** *** Theorems *)

(** C10: In every state reached by any sequence of service calls and ingested reports, failed
    ones included, the order table is well formed: ids are texts and no two orders share one,
    no two orders have the same supplier, account and order id, and the three statuses of
    every order are members of their enums. *)
Theorem orders_well_formed w0 w :
  good w0 -> runs w0 w ->
  distinct TOrder "id" w /\ keyed w /\
  Forall (fun r => (exists s, r@."id" = JStr s) /\ in_enum VALIDATION_STATUS r@."validationStatus" = true /\
            in_enum SUPPLIER_PAYMENT_STATUS r@."supplierPaymentStatus" = true /\
            in_enum CLIENT_PAYMENT_STATUS r@."clientPaymentStatus" = true) (rows w TOrder).
Proof.
  intros H0 Hr. destruct (runs_good w0 w H0 Hr) as ([Hd Hok] & Hk & Hi). split_and!; [exact Hd|exact Hk|].
  unfold ids_text in Hi. rewrite Forall_forall in *. intros r Hin. destruct (Hok r Hin). auto.
Qed.


(** C11: A report that is ingested leaves exactly one order under its supplier, account and
    order id, however often it is ingested; when that order was already there no order is
    added and every order keeps its id and its key, even if the ingestion fails. *)
Theorem ingested_once input supplier account id w :
  good w -> unpaid input -> names input supplier account id ->
  (forall o w', upsertOrder input w = (Ok o, w') -> length (List.filter (under supplier account id) (rows w' TOrder)) = 1%nat) /\
  (present supplier account id w -> in_place w (upsertOrder input w).2).
Proof.
  intros Hg Hu Hn. rewrite (upsertOrder_names _ _ _ _ Hn). unfold find_where. rewrite bind_gets. split.
  - intros o w' E. assert (Hg' : good w').
    { pose proof (upsertOrder_good input Hu w Hg) as [Hgood _]. rewrite (upsertOrder_names _ _ _ _ Hn) in Hgood.
      unfold find_where in Hgood. rewrite bind_gets, E in Hgood. exact Hgood. }
    assert (Hp : present supplier account id w').
    { apply bind_ok in E as (u & w1 & E1 & E). apply bind_ok in E as (x & w2 & E2 & E).
      apply (ran _ _ _ _ (complete_in_place _ _)) in E. apply (ran _ _ _ _ (announce_in_place _ _)) in E1.
      apply (present_in_place _ _ _ w2); [exact E|]. eapply find_or_create_present; [exact Hn| |exact E2].
      intros r Hr. apply (present_in_place _ _ _ w); [exact E1|]. eapply found_present, Hr. }
    destruct Hg' as (_ & Hk & _). pose proof (one_under supplier account id w' Hk) as Hle.
    destruct (present_found _ _ _ _ Hp) as [r [Hin Hr]%List.find_some].
    assert (Hf : In r (List.filter (under supplier account id) (rows w' TOrder))) by (now apply List.filter_In).
    destruct (List.filter _ _) as [|? [|]]; [contradiction|reflexivity|cbn in Hle; lia].
  - intros [r ->]%present_found. cbn [find_or_create].
    assert (Ht : tracks in_place (announce input id ;; let! existing := ret r in complete input existing)); [|apply Ht].
    track; [apply announce_in_place|apply complete_in_place].
Qed.

(** A status is looked up with the supplier alone, while a verified mapping applies only
    within a source object or report: whatever the registry holds, no reported status is ever
    mapped, and a report that carries only a raw status always goes to review. *)
Theorem reported_status_never_mapped input registry :
  resolved (resolveOrderStatusFromNetworkRaw (raw_status input) input@."supplier" JUndef JUndef registry) = JNull /\
  (truthy input@."validationStatus" = false -> nullish input@."mboOrderStatus" = true -> preserveNetworkRawStatus (raw_status input) <> None ->
   incoming_validation input = JStr "VALIDATION_NEEDS_REVIEW").
Proof.
  split; [apply unscoped_never_mapped|]. intros Hv Hm Hr. unfold incoming_validation, effective_status, status_resolution, resolve_status.
  rewrite !unscoped_never_mapped. unfold js_or, coalesce. rewrite Hv, Hm. cbn [nullish].
  replace (truthy (if truthy input@."legacyConversionStatus" then JNull else JNull)) with false by (now destruct (truthy input@."legacyConversionStatus")).
  unfold exception_required, status_resolution, resolve_status. now rewrite unscoped_exception.
Qed.

End Facts.
End IngestionFacts.
