(* ===== verification/Attribution.v ===== *)
(** * Whose conversion it is

    [modules/reporting/attributionLogic.contract.js] and [services/attribution.service.js]: the click or
    token, the unique coupon or the single assignment that says which client a conversion
    belongs to, and the split of its commission by the rule of that assignment.  A row that is
    not there is [null]; [prisma.$transaction] is [transaction]; the foreign keys of a conversion
    are checked where it is written. *)

From Stdlib Require Import SpecFloat.
From S2P Require Import Prelude JsNum JsVal JsDate Money OrderStatus Store Accounts Exceptions Runtime Ingestion.
Import AttributionMath OrderMerge ExceptionCases Runtime IngestionContract OrderIngestion.
Local Open Scope Z_scope.

(** ** [attributionLogic.contract.js] *)

Module AttributionLogic.

Inductive ATTRIBUTION_EVIDENCE := MBO_CLICK | NETWORK_SUBID | TRACKING_LINK | ASSIGNMENT_HINT | UNIQUE_COUPON | SINGLE_ASSIGNMENT.
#[export] Instance evidence_eq_dec : EqDecision ATTRIBUTION_EVIDENCE.
Proof. solve_decision. Defined.
Definition evidence_text (e : ATTRIBUTION_EVIDENCE) : string :=
  match e with
  | MBO_CLICK => "mbo_click" | NETWORK_SUBID => "network_subid" | TRACKING_LINK => "tracking_link"
  | ASSIGNMENT_HINT => "assignment_hint" | UNIQUE_COUPON => "unique_coupon" | SINGLE_ASSIGNMENT => "single_assignment"
  end.
Inductive ATTRIBUTION_REVIEW_REASON := SHARED_COUPON | MULTIPLE_ASSIGNMENTS | AMBIGUOUS.
Definition review_text (r : ATTRIBUTION_REVIEW_REASON) : string :=
  match r with
  | SHARED_COUPON => "shared_coupon_ambiguous" | MULTIPLE_ASSIGNMENTS => "multiple_assignments_for_source" | AMBIGUOUS => "ambiguous_evidence"
  end.
Inductive ATTRIBUTION_PRIORITY := MBO_CLICK_OR_TOKEN | BY_UNIQUE_COUPON | BY_SINGLE_ASSIGNMENT | REVIEW_REQUIRED | UNATTRIBUTED.
Definition priority_number (p : ATTRIBUTION_PRIORITY) : Z :=
  match p with MBO_CLICK_OR_TOKEN => 1 | BY_UNIQUE_COUPON => 2 | BY_SINGLE_ASSIGNMENT => 3 | REVIEW_REQUIRED => 4 | UNATTRIBUTED => 5 end.
Definition EVIDENCE_PRIORITY (e : ATTRIBUTION_EVIDENCE) : ATTRIBUTION_PRIORITY :=
  match e with
  | MBO_CLICK | NETWORK_SUBID | TRACKING_LINK | ASSIGNMENT_HINT => MBO_CLICK_OR_TOKEN
  | UNIQUE_COUPON => BY_UNIQUE_COUPON
  | SINGLE_ASSIGNMENT => BY_SINGLE_ASSIGNMENT
  end.

Section Contract.
Context {H : JsHost}.

(** [v != null ? String(v) : null] *)
Definition text_or_null (v : jsval) : jsval := if nullish v then JNull else JStr (js_string v).

Definition extractAttributionHints (rawData : jsval) : jsval :=
  let raw := as_object rawData in
  let extended := as_object raw@."extendedData" in
  let clickId := first [raw@."click_id"; raw@."clickId"; raw@."ClickId"; raw@."SubId3"; raw@."subId3"; raw@."p3"; raw@."clickref"; extended@."ex3"] in
  let assignmentId := first [raw@."p2"; raw@."UID2"; raw@."uid2"; raw@."SubId2"; raw@."subId2"; raw@."pubref"; raw@."assignment_id"; raw@."assignmentId"; extended@."ex2"] in
  let clientId := first [raw@."p1"; raw@."UID"; raw@."uid"; raw@."SubId1"; raw@."subId1"; raw@."sub1"; raw@."aff_sub"; raw@."adref"; raw@."client_id"; raw@."clientId"; extended@."ex1"] in
  let subId := first [raw@."sub_id"; raw@."subId"; raw@."aff_sub"; raw@."sub1";
                      if truthy raw@."p3" && negb (js_string raw@."p3" =s? js_string clickId) then raw@."p3" else JNull] in
  let couponCode := first [raw@."voucher"; raw@."coupon"; raw@."coupon_code"; raw@."couponCode"] in
  JObj [("clickId", text_or_null clickId); ("assignmentId", text_or_null assignmentId); ("clientId", text_or_null clientId);
        ("subId", text_or_null subId); ("couponCode", text_or_null couponCode)].

Definition extractCouponCodeHint (conversion : jsval) : jsval :=
  let hints := as_object conversion@."metadata"@."attributionHints" in
  let meta := as_object conversion@."metadata" in
  let raw := hints@."couponCode" ?? meta@."couponCode" ?? meta@."voucher" ?? meta@."coupon" ?? JNull in
  let code := if nullish raw then "" else trim (js_string raw) in
  if code =s? "" then JNull else JStr code.

Definition isClientIdOnlyAttributionHints (hints : jsval) : bool :=
  let h := as_object hints in
  truthy h@."clientId" && negb (truthy (h@."clickId" |or| h@."subId" |or| h@."assignmentId")).

Definition classifyAttributionPriority (evidence : option ATTRIBUTION_EVIDENCE) (reviewRequired : bool) : ATTRIBUTION_PRIORITY :=
  if reviewRequired then REVIEW_REQUIRED
  else match evidence with Some e => EVIDENCE_PRIORITY e | None => UNATTRIBUTED end.

Definition attributionEvidenceLabel (evidence : ATTRIBUTION_EVIDENCE) : string :=
  match evidence with
  | MBO_CLICK => "MBO Click" | NETWORK_SUBID => "Network SubID" | TRACKING_LINK => "Tracking Link"
  | ASSIGNMENT_HINT => "Assignment Token" | UNIQUE_COUPON => "Unique Coupon" | SINGLE_ASSIGNMENT => "Single Assignment"
  end.

Definition attributionReviewReasonLabel (reason : ATTRIBUTION_REVIEW_REASON) : string :=
  match reason with
  | SHARED_COUPON => "Shared coupon — multiple clients"
  | MULTIPLE_ASSIGNMENTS => "Multiple assignments for campaign"
  | AMBIGUOUS => "ambiguous evidence"
  end.

Definition evidence_value (e : option ATTRIBUTION_EVIDENCE) : jsval := match e with Some e => JStr (evidence_text e) | None => JNull end.
Definition priority_value (p : ATTRIBUTION_PRIORITY) : jsval := JNum (num_of_Z (priority_number p)).

Definition buildAttributionReviewMetadata (reason : ATTRIBUTION_REVIEW_REASON) (evidence : option ATTRIBUTION_EVIDENCE)
    (candidateAssignmentIds : list jsval) (couponCode : jsval) : jsval :=
  JObj [("reason", JStr (review_text reason)); ("evidence", evidence_value evidence); ("candidateAssignmentIds", JArr candidateAssignmentIds);
        ("couponCode", couponCode); ("priority", priority_value REVIEW_REQUIRED)].

Definition buildAttributedMetadata (existing : jsval) (evidence : option ATTRIBUTION_EVIDENCE) : jsval :=
  spread (as_object existing) (JObj
    [("attributionEvidence", evidence_value evidence); ("attributionPriority", priority_value (classifyAttributionPriority evidence false));
     ("mboCanonicalObject", JStr ORDER_CONVERSION_OBJECT)]).

Definition shouldExposeClientFromConversion (conversion : jsval) : bool :=
  let status := to_upper (js_string (conversion@."attributionStatus" |or| JStr "")) in
  (status =s? "ATTRIBUTED") || (status =s? "REATTRIBUTED").

(** The client id and name that a conversion shows. *)
Definition resolveDisplayClientFromConversion (conversion order : jsval) : jsval * jsval :=
  if truthy order@."clientId" && truthy order@."client"@."name" then (order@."clientId", order@."client"@."name")
  else if negb (shouldExposeClientFromConversion conversion) then (JNull, JNull)
  else
    let client := conversion@."clientAssignment"@."client" in
    if truthy client@."id" then (client@."id", client@."name" ?? JNull)
    else (conversion@."clientAssignment"@."clientId" ?? JNull, JNull).

End Contract.
End AttributionLogic.

(** ** [attribution.service.js] *)

Module Attribution.
Import AttributionLogic.

(** What the evidence says; [x_review] is the reason of a review that is required. *)
Record context := Context {
  x_clickId : jsval; x_trackingLinkId : jsval; x_campaignSourceId : jsval; x_clientAssignmentId : jsval; x_subId : jsval;
  x_commissionRule : option jsval; x_evidence : option ATTRIBUTION_EVIDENCE; x_review : option ATTRIBUTION_REVIEW_REASON;
  x_candidates : list jsval; x_couponCode : jsval; x_priority : ATTRIBUTION_PRIORITY
}.

Section Service.
Context {H : JsHost} {D : Database} {C : Crypto}.

(** *** The rows that are read *)

Definition row_or_null (r : option jsval) : jsval := default JNull r.
Definition click_by_id (id : jsval) (w : world) : jsval := row_or_null (List.find (has_id id) (rows w TClick)).
(** The latest click with the token. *)
Definition click_by_sub_id (subId : jsval) (w : world) : jsval :=
  row_or_null (hd_error (sort_by (fun a b => date_of b@."clickedAt" <=? date_of a@."clickedAt")
    (List.filter (fun c => col_eq c@."subId" subId) (rows w TClick)))).
Definition link_by_id (id : jsval) (w : world) : jsval :=
  row_or_null (List.find (fun l => has_id id l && nullish l@."deletedAt") (rows w TTrackingLink)).
Definition findPrimaryForAssignment (assignmentId : jsval) (w : world) : jsval :=
  row_or_null (List.find (fun l => col_eq l@."assignmentId" assignmentId && is_true l@."isPrimary" && nullish l@."deletedAt"
                                   && in_enum ["GENERATED"; "ACTIVE"] l@."status") (rows w TTrackingLink)).
Definition assignment_by_id (id : jsval) (w : world) : jsval := row_or_null (List.find (has_id id) (rows w TAssignment)).
(** [{ equals: code, mode: "insensitive" }] *)
Definition same_code (code v : jsval) : bool :=
  match v, code with JStr a, JStr b => to_lower a =s? to_lower b | _, _ => false end.
Definition live_assignment (a : jsval) : bool := in_enum ["ASSIGNED"; "ACTIVE"] a@."status" && is_true a@."published".
Definition live_coupons (couponCode : jsval) (w : world) : list jsval :=
  List.filter (fun m => in_enum ["ASSIGNED"; "ACTIVE"] m@."status"
                        && (same_code couponCode m@."supplierCouponCode" || same_code couponCode m@."clientCouponCode")
                        && existsb (fun a => has_id m@."assignmentId" a && live_assignment a) (rows w TAssignment))
    (rows w TCouponAssignment).
(** [orderBy: [{ createdAt: "asc" }, { id: "asc" }]] *)
Definition created_before (a b : jsval) : bool :=
  (date_of a@."createdAt" <? date_of b@."createdAt")
  || ((date_of a@."createdAt" =? date_of b@."createdAt") && match String.compare (js_string a@."id") (js_string b@."id") with Gt => false | _ => true end).
Definition findActiveByCouponCode (couponCode : jsval) (w : world) : list jsval :=
  firstn 20 (sort_by created_before (live_coupons couponCode w)).
(** [orderBy: [{ publishedAt: "asc" }, { createdAt: "asc" }, { id: "asc" }], take: 5]; a null comes last. *)
Definition sort_key (a : jsval) : bool * Z * Z :=
  (negb (truthy a@."publishedAt"), date_of a@."publishedAt", date_of a@."createdAt").
Definition published_before (a b : jsval) : bool :=
  let '(na, pa, ca) := sort_key a in let '(nb, pb, cb) := sort_key b in
  if Bool.eqb na nb then
    (pa <? pb) || ((pa =? pb) && ((ca <? cb) || ((ca =? cb)
      && match String.compare (js_string a@."id") (js_string b@."id") with Gt => false | _ => true end)))
  else nb.
Definition findPublishedActiveByCampaignSource (campaignSourceId : jsval) (w : world) : list jsval :=
  if negb (truthy campaignSourceId) then []
  else firstn 5 (sort_by published_before
    (List.filter (fun a => col_eq a@."campaignSourceId" campaignSourceId && is_true a@."published" && (a@."status" === "ACTIVE"))
       (rows w TAssignment))).
Definition findEffectiveForAssignment (assignmentId : jsval) (at_ : Z) (w : world) : option jsval :=
  hd_error (sort_rules (List.filter (effective_at assignmentId at_) (rows w TRule))).

(** [[...new Set(ids)]] *)
Fixpoint distinct_ids (l : list jsval) : list jsval :=
  match l with
  | [] => []
  | x :: rest => x :: List.filter (fun y => negb (col_eq y x)) (distinct_ids rest)
  end.

(** *** [resolveAttributionContext]: reads only *)

(** The click of the conversion, by its id, the hinted id, its token or the hinted token. *)
Definition find_click (conversion hints : jsval) (w : world) : jsval :=
  let c := if truthy conversion@."clickId" then click_by_id conversion@."clickId" w else JNull in
  let c := if negb (truthy c) && truthy hints@."clickId" && negb (col_eq hints@."clickId" conversion@."clickId")
           then click_by_id hints@."clickId" w else c in
  let c := if negb (truthy c) && truthy conversion@."subId" then click_by_sub_id conversion@."subId" w else c in
  if negb (truthy c) && truthy hints@."subId" then click_by_sub_id hints@."subId" w else c.
Definition find_link (conversion click : jsval) (w : world) : jsval :=
  if truthy conversion@."trackingLinkId" then link_by_id conversion@."trackingLinkId" w
  else if truthy click then link_by_id click@."trackingLinkId" w else JNull.

(** The assignment as it is found step by step. *)
Record found := Found { g_assignment : jsval; g_link : jsval; g_evidence : option ATTRIBUTION_EVIDENCE;
                        g_review : option ATTRIBUTION_REVIEW_REASON; g_candidates : list jsval }.
Definition is_none {A} (o : option A) : bool := match o with None => true | Some _ => false end.
Definition or_primary (link assignmentId : jsval) (w : world) : jsval :=
  if truthy link then link else findPrimaryForAssignment assignmentId w.

Definition by_token (conversion hints click link : jsval) : found :=
  let assignment := click@."clientAssignmentId" ?? link@."assignmentId" ?? conversion@."clientAssignmentId" ?? JNull in
  let evidence :=
    if truthy click then Some MBO_CLICK
    else if truthy (conversion@."subId" |or| hints@."subId") && truthy assignment then Some NETWORK_SUBID
    else if truthy link then Some TRACKING_LINK else None in
  Found assignment link evidence None [].
Definition by_hint (assignmentIdHint : jsval) (w : world) (g : found) : found :=
  if negb (truthy (g_assignment g)) && truthy assignmentIdHint then
    let assignment := assignment_by_id assignmentIdHint w in
    if truthy assignment
    then Found assignment@."id" (or_primary (g_link g) assignment@."id" w)
           (match g_evidence g with Some e => Some e | None => Some ASSIGNMENT_HINT end) None []
    else g
  else g.
Definition by_coupon (couponCode : jsval) (w : world) (g : found) : found :=
  if negb (truthy (g_assignment g)) && truthy couponCode then
    let ids := distinct_ids (List.filter truthy (map (fun m => m@."assignmentId") (findActiveByCouponCode couponCode w))) in
    match ids with
    | [] => Found (g_assignment g) (g_link g) (g_evidence g) None []
    | [id] => Found id (or_primary (g_link g) id w) (Some UNIQUE_COUPON) None ids
    | _ => Found (g_assignment g) (g_link g) (g_evidence g) (Some SHARED_COUPON) ids
    end
  else g.
Definition source_of (click link conversion : jsval) : jsval :=
  click@."campaignSourceId" ?? link@."campaignSourceId" ?? conversion@."campaignSourceId" ?? JNull.
Definition by_single (conversion click : jsval) (w : world) (g : found) : found :=
  let campaignSourceId := source_of click (g_link g) conversion in
  if negb (truthy (g_assignment g)) && is_none (g_review g) && truthy campaignSourceId then
    match findPublishedActiveByCampaignSource campaignSourceId w with
    | [] => g
    | [a] => Found a@."id" (or_primary (g_link g) a@."id" w) (Some SINGLE_ASSIGNMENT) None (g_candidates g)
    | several => Found (g_assignment g) (g_link g) (g_evidence g) (Some MULTIPLE_ASSIGNMENTS) (map (fun a => a@."id") several)
    end
  else g.

Definition resolveAttributionContext (conversion assignmentIdHint : jsval) (w : world) : context :=
  let hints := as_object conversion@."metadata"@."attributionHints" in
  let assignmentIdHint := assignmentIdHint ?? hints@."assignmentId" ?? conversion@."metadata"@."assignmentId" ?? JNull in
  let click := find_click conversion hints w in
  let link := find_link conversion click w in
  let couponCode := extractCouponCodeHint conversion in
  let g := by_single conversion click w (by_coupon couponCode w (by_hint assignmentIdHint w (by_token conversion hints click link))) in
  let reviewRequired := negb (is_none (g_review g)) in
  Context (click@."id" ?? conversion@."clickId" ?? JNull)
    ((g_link g)@."id" ?? click@."trackingLinkId" ?? JNull)
    (source_of click (g_link g) conversion)
    (if reviewRequired then JNull else g_assignment g)
    (click@."subId" ?? conversion@."subId" ?? JNull)
    (if truthy (g_assignment g) && negb reviewRequired
     then findEffectiveForAssignment (g_assignment g) (date_of conversion@."conversionDate") w else None)
    (g_evidence g) (g_review g) (g_candidates g) couponCode
    (classifyAttributionPriority (g_evidence g) reviewRequired).

(** *** Writing conversions *)

Definition CONVERSION_KEY : list string := ["supplier"; "supplierConversionId"; "sourceAccountLabel"].
(** The foreign keys of a conversion to the tables of the model. *)
Definition CONVERSION_LINKS : list (string * table) :=
  [("clickId", TClick); ("orderId", TOrder); ("trackingLinkId", TTrackingLink); ("clientAssignmentId", TAssignment); ("commissionRuleId", TRule)].
Definition foreign_key_violation : js_error := JsError "Foreign key constraint failed." 0 "P2003".
Definition links_ok (data : list (string * jsval)) (w : world) : bool :=
  forallb (fun '(column, t) => let v := prop (JObj data) column in nullish v || existsb (has_id v) (rows w t)) CONVERSION_LINKS.
Definition create_conversion (data : list (string * jsval)) : prog world jsval :=
  fun w => if links_ok data w then create_keyed TConversion CONVERSION_KEY data w else (Throw foreign_key_violation, w).
Definition update_conversion (id : jsval) (data : list (string * jsval)) : prog world jsval :=
  fun w => if links_ok data w then update_row TConversion id data w else (Throw foreign_key_violation, w).
Definition findBySupplierKey (supplier supplierConversionId sourceAccountLabel : jsval) : prog world (option jsval) :=
  find_where TConversion (fun r => col_eq r@."supplier" supplier && col_eq r@."supplierConversionId" supplierConversionId
                                   && col_eq r@."sourceAccountLabel" (sourceAccountLabel ?? JStr "default")).

Definition hashPii (value : jsval) : jsval := if blank value then JNull else JStr (sha256_hex (js_string value)).
Definition recordClick (input : jsval) : prog world jsval :=
  let! link := gets (link_by_id input@."trackingLinkId") in
  if negb (truthy link) then throw (api_fail "Tracking link not found." 404)
  else if link@."status" === "REVOKED" then throw (api_fail "Tracking link is revoked." 409)
  else
    let! assignment := gets (assignment_by_id link@."assignmentId") in
    if negb (truthy assignment) then throw (api_fail "Assignment not found for tracking link." 404)
    else
      let! t := get_now in
      create_row TClick
        [("trackingLinkId", link@."id"); ("campaignSourceId", link@."campaignSourceId"); ("clientAssignmentId", link@."assignmentId");
         ("subId", input@."subId" ?? link@."subId"); ("ipHash", hashPii input@."ip"); ("userAgentHash", hashPii input@."userAgent");
         ("country", input@."country" ?? JNull); ("device", input@."device" ?? JStr "UNKNOWN"); ("referrer", input@."referrer" ?? JNull);
         ("clickedAt", input@."clickedAt" ?? JDate (Some t)); ("metadata", input@."metadata" ?? JNull)].

(** *** [mergeConversionUpdate]: known values are not overwritten with null *)

Definition kept_field (existing : jsval) (kv : string * jsval) : bool :=
  negb (nullish kv.2 && negb (blank (prop existing kv.1))).
(** The later assignments of the source rewrite fields that are in [out] already, the merged
    metadata apart. *)
Definition merge_field (existing : jsval) (kv : string * jsval) : string * jsval :=
  if (kv.1 =s? "metadata") && negb (nullish kv.2)
  then ("metadata", spread (as_object existing@."metadata") (as_object kv.2)) else kv.
Definition mergeConversionUpdate (existing : jsval) (incoming : list (string * jsval)) : list (string * jsval) :=
  map (merge_field existing) (List.filter (kept_field existing) incoming).

(** *** [attributeConversion] *)

(** [try { await this.exceptions.report(...) } catch {}] *)
Definition try_report (input : jsval) : prog world unit := catch (report input ;; ret tt) (fun _ => ret tt).
(** The fields every report of a conversion carries. *)
Definition conversion_fields (conversion : jsval) : list (string * jsval) :=
  [("supplier", conversion@."supplier"); ("conversionId", conversion@."id"); ("orderId", conversion@."orderId" ?? JNull)].

(** The assignment belongs to another client than the one hinted. *)
Definition reject_wrong_client (conversion assignment clientIdHint assignmentId : jsval) : prog world jsval :=
  try_report (JObj ([("condition", JStr "ATTRIBUTION_UNRESOLVED_ORPHAN"); ("type", JStr "ATTRIBUTION_UNRESOLVED")]
    ++ conversion_fields conversion
    ++ [("clientId", assignment@."clientId"); ("reason", JStr "wrong_client_attribution_rejected");
        ("metadata", JObj [("assignmentId", assignmentId); ("hintedClientId", JStr (js_string clientIdHint));
                           ("assignmentClientId", JStr (js_string assignment@."clientId"))])])) ;;
  update_conversion conversion@."id"
    [("attributionStatus", JStr "ORPHAN");
     ("metadata", spread (as_object conversion@."metadata") (JObj [("attributionRejection",
        JObj [("reason", JStr "wrong_client"); ("hintedClientId", JStr (js_string clientIdHint));
              ("assignmentClientId", JStr (js_string assignment@."clientId"))])]))].

Definition require_review (conversion : jsval) (x : context) (reason : ATTRIBUTION_REVIEW_REASON) : prog world jsval :=
  try_report (JObj ([("condition", JStr "ATTRIBUTION_AMBIGUOUS"); ("type", JStr "ATTRIBUTION_UNRESOLVED")]
    ++ conversion_fields conversion
    ++ [("reason", JStr (review_text reason));
        ("metadata", JObj [("evidence", evidence_value (x_evidence x)); ("reviewReason", JStr (review_text reason));
                           ("candidateAssignmentIds", JArr (x_candidates x)); ("couponCode", x_couponCode x)])])) ;;
  update_conversion conversion@."id"
    [("attributionStatus", JStr "REVIEW_REQUIRED");
     ("metadata", spread (as_object conversion@."metadata") (JObj [("attributionReview",
        buildAttributionReviewMetadata reason (x_evidence x) (x_candidates x) (x_couponCode x))]))].

Definition leave_orphan (conversion : jsval) : prog world jsval :=
  try_report (JObj ([("condition", JStr "ATTRIBUTION_UNRESOLVED_ORPHAN"); ("type", JStr "ATTRIBUTION_UNRESOLVED")]
    ++ conversion_fields conversion
    ++ [("reason", JStr "Conversion could not be attributed to click/assignment");
        ("metadata", JObj [("supplierConversionId", conversion@."supplierConversionId")])])) ;;
  update_conversion conversion@."id" [("attributionStatus", JStr "ORPHAN")].

(** The commission of the client and MBO's, the rule, and why they are unknown. *)
Record split := Split { sp_client : jsval; sp_mbo : jsval; sp_rule : jsval; sp_reason : jsval }.
Definition unresolved (reason : string) : split := Split JNull JNull JNull (JStr reason).
Definition commission_problem (conversion : jsval) (type reason : string) : prog world unit :=
  try_report (JObj ([("type", JStr type); ("severity", JStr "MEDIUM")] ++ conversion_fields conversion ++ [("reason", JStr reason)])).
Definition split_commission (conversion : jsval) (rejected : bool) (rule : option jsval) : prog world split :=
  if rejected then ret (unresolved "rejected_conversion")
  else
    match rule with
    | Some rule =>
        match applyCommissionRuleToGross (grossCommissionForConversion conversion) rule with
        | Ok (SplitOk client mbo) => ret (Split (JStr client) (JStr mbo) rule@."id" JNull)
        | Ok (SplitFail reason) => commission_problem conversion "COMMISSION_INVALID" reason ;; ret (unresolved reason)
        | Throw e => throw e
        end
    | None => commission_problem conversion "COMMISSION_MISSING" "missing_effective_commission_rule" ;; ret (unresolved "missing_effective_commission_rule")
    end.

Definition attributed_data (conversion : jsval) (x : context) (s : split) : list (string * jsval) :=
  [("clickId", x_clickId x); ("trackingLinkId", x_trackingLinkId x); ("campaignSourceId", x_campaignSourceId x);
   ("clientAssignmentId", x_clientAssignmentId x); ("commissionRuleId", sp_rule s); ("subId", x_subId x ?? conversion@."subId");
   ("clientCommission", sp_client s); ("mboCommission", sp_mbo s); ("attributionStatus", JStr "ATTRIBUTED");
   ("metadata", with_prop (buildAttributedMetadata conversion@."metadata" (x_evidence x)) "commissionUnresolvedReason" (sp_reason s))].
Definition present_field (k : string) (v : jsval) : list (string * jsval) := if truthy v then [(k, v)] else [].
(** The order is told whose it is, best effort. *)
Definition enrich_order (conversion : jsval) (x : context) : prog world unit :=
  if negb (truthy conversion@."orderId") then ret tt
  else
    catch (let! assignment := gets (fun w => if truthy (x_clientAssignmentId x) then assignment_by_id (x_clientAssignmentId x) w else JNull) in
           let patch := present_field "clientAssignmentId" (x_clientAssignmentId x) ++ present_field "campaignSourceId" (x_campaignSourceId x)
                        ++ present_field "clickId" (x_clickId x) ++ present_field "clientId" assignment@."clientId"
                        ++ present_field "canonicalCampaignId" assignment@."canonicalCampaignId" in
           match patch with
           | [] => ret tt
           | _ => update_row TOrder conversion@."orderId" patch ;; ret tt
           end)
      (fun _ => ret tt).

Definition attribute_resolved (conversion : jsval) (x : context) (orderValidation : jsval) : prog world jsval :=
  let rejected := (conversion@."status" === "REJECTED") || (orderValidation === "VALIDATION_REJECTED") in
  let! s := split_commission conversion rejected (x_commissionRule x) in
  let! updated := update_conversion conversion@."id" (attributed_data conversion x s) in
  enrich_order conversion x ;;
  ret updated.

Definition attributeConversion (conversionId assignmentIdHint givenClientIdHint : jsval) : prog world jsval :=
  let! found := findUnique TConversion "id" conversionId in
  match found with
  | None => throw (api_fail "Conversion not found." 404)
  | Some conversion =>
      let! orderValidation := gets (fun w =>
        if truthy conversion@."orderId"
        then (row_or_null (List.find (has_id conversion@."orderId") (rows w TOrder)))@."validationStatus" ?? JNull else JNull) in
      let! x := gets (resolveAttributionContext conversion assignmentIdHint) in
      let clientIdHint := givenClientIdHint ?? (as_object conversion@."metadata"@."attributionHints")@."clientId" ?? JNull in
      let! assignment := gets (fun w =>
        if truthy (x_clientAssignmentId x) && truthy clientIdHint then assignment_by_id (x_clientAssignmentId x) w else JNull) in
      if truthy assignment@."clientId" && negb (js_string assignment@."clientId" =s? js_string clientIdHint)
      then reject_wrong_client conversion assignment clientIdHint (x_clientAssignmentId x)
      else
        match x_review x with
        | Some reason => require_review conversion x reason
        | None =>
            if negb (truthy (x_trackingLinkId x)) && negb (truthy (x_clientAssignmentId x)) then leave_orphan conversion
            else attribute_resolved conversion x orderValidation
        end
  end.

(** *** [ingestConversion] *)

Definition given (k : string) (v : jsval) : list (string * jsval) := if truthy v then [(k, v)] else [].
Definition base_data (input : jsval) : list (string * jsval) :=
  let label := input@."sourceAccountLabel" ?? JStr "default" in
  [("supplier", input@."supplier"); ("supplierConversionId", input@."supplierConversionId"); ("sourceAccountLabel", label);
   ("clickId", input@."clickId" ?? JNull); ("subId", input@."subId" ?? JNull); ("trackingLinkId", input@."trackingLinkId" ?? JNull);
   ("supplierCommission", input@."supplierCommission"); ("approvedCommission", input@."approvedCommission" ?? JNull);
   ("currency", input@."currency" ?? JNull); ("status", input@."status" ?? JStr "PENDING"); ("conversionDate", input@."conversionDate");
   ("approvedDate", input@."approvedDate" ?? JNull);
   ("metadata", spread (object_or_empty input@."metadata") (JObj
      [("dedupeKey", input@."metadata"@."dedupeKey"
          ?? of_option_str (buildConversionDedupeKey input@."supplier" label input@."supplierConversionId" JUndef));
       ("networkConversionId", input@."supplierConversionId"); ("mboCanonicalObject", JStr "OrderConversion")]))]
  ++ given "rawPayloadId" input@."rawPayloadId" ++ given "orderId" input@."orderId".

Definition ingestConversion (input : jsval) : prog world jsval :=
  let! existing := findBySupplierKey input@."supplier" input@."supplierConversionId" (input@."sourceAccountLabel" ?? JStr "default") in
  let assignmentIdHint := input@."_assignmentIdHint" ?? input@."metadata"@."attributionHints"@."assignmentId" ?? JNull in
  transaction (
    let! conversion :=
      match existing with
      | Some e =>
          update_conversion e@."id" (mergeConversionUpdate e (base_data input
            ++ [("attributionStatus", JStr (if e@."attributionStatus" === "ATTRIBUTED" then "REATTRIBUTED" else "PENDING"))]))
      | None => create_conversion (base_data input ++ [("attributionStatus", JStr "PENDING")])
      end in
    attributeConversion conversion@."id" assignmentIdHint JUndef).

Definition reattributeAssignment (assignmentId : jsval) : prog world (list jsval) :=
  let! found := gets (fun w => firstn (Z.to_nat 10000) (sort_by (fun a b => (date_of b@."conversionDate" <? date_of a@."conversionDate")
      || ((date_of a@."conversionDate" =? date_of b@."conversionDate")
          && match String.compare (js_string b@."id") (js_string a@."id") with Gt => false | _ => true end))
      (List.filter (fun c => negb (truthy assignmentId) || col_eq c@."clientAssignmentId" assignmentId) (rows w TConversion)))) in
  collect found (fun c => attributeConversion c@."id" JUndef JUndef).

End Service.
End Attribution.

(** ** Nobody is guessed *)

Module AttributionFacts.
Import AttributionLogic Attribution.
Section Facts.
Context {H : JsHost} {D : Database} {C : Crypto}.

(** What may say that a conversion belongs to assignment [a]. *)
Inductive justified (conversion hint : jsval) (w : world) (a : jsval) : Prop :=
| by_click c : c ∈ rows w TClick -> c@."clientAssignmentId" = a -> justified conversion hint w a
| by_tracking_link l : l ∈ rows w TTrackingLink -> nullish l@."deletedAt" = true -> l@."assignmentId" = a -> justified conversion hint w a
| by_itself : conversion@."clientAssignmentId" = a -> justified conversion hint w a
| by_assignment_hint r : r ∈ rows w TAssignment -> has_id hint r = true -> r@."id" = a -> justified conversion hint w a
| by_unique_coupon code m : extractCouponCodeHint conversion = code -> m ∈ live_coupons code w -> m@."assignmentId" = a ->
    ((length (live_coupons code w) <= 20)%nat ->
     forall m' s, m' ∈ live_coupons code w -> m'@."assignmentId" = JStr s -> s <> "" -> a = JStr s) ->
    justified conversion hint w a
| by_single_assignment source r : r ∈ rows w TAssignment -> r@."id" = a -> truthy source = true ->
    List.filter (fun a => col_eq a@."campaignSourceId" source && is_true a@."published" && (a@."status" === "ACTIVE")) (rows w TAssignment) = [r] ->
    justified conversion hint w a.

Lemma row_found p l : truthy (row_or_null (List.find p l)) = true -> row_or_null (List.find p l) ∈ l /\ p (row_or_null (List.find p l)) = true.
Proof.
  destruct (List.find p l) as [r|] eqn:E; [|discriminate]. cbn. intros _. apply List.find_some in E as [Hin Hp]. split; [now apply list_elem_of_In|exact Hp].
Qed.
Lemma click_found conversion hints w : truthy (find_click conversion hints w) = true -> find_click conversion hints w ∈ rows w TClick.
Proof.
  assert (Hid : forall id, truthy (click_by_id id w) = true -> click_by_id id w ∈ rows w TClick) by (intros id Ht; now apply row_found).
  assert (Hsub : forall s, truthy (click_by_sub_id s w) = true -> click_by_sub_id s w ∈ rows w TClick).
  { intros s. unfold click_by_sub_id. destruct (sort_by _ _) as [|c l] eqn:E; [discriminate|]. cbn. intros _.
    assert (Hc : c ∈ c :: l) by set_solver. rewrite <- E in Hc. apply elem_of_sort_by, list_elem_of_In, filter_In in Hc as [Hc _]. now apply list_elem_of_In. }
  unfold find_click. destruct (negb _ && truthy hints@."subId"); [apply Hsub|]. destruct (negb _ && truthy conversion@."subId"); [apply Hsub|].
  destruct (negb _ && _ && negb _); [apply Hid|]. destruct (truthy conversion@."clickId"); [apply Hid|discriminate].
Qed.
Lemma link_found conversion click w : truthy (find_link conversion click w) = true ->
  find_link conversion click w ∈ rows w TTrackingLink /\ nullish (find_link conversion click w)@."deletedAt" = true.
Proof.
  unfold find_link, link_by_id. destruct (truthy conversion@."trackingLinkId"); [|destruct (truthy click); [|discriminate]];
    intros [Hin [_ Hd]%andb_true_iff]%row_found; auto.
Qed.
(** A row is a click, a link or an assignment only if it is an object. *)
Lemma falsy_prop v k : truthy v = false -> prop v k = JUndef.
Proof. destruct v; cbn; try discriminate; reflexivity. Qed.
Lemma token_justified conversion hint hints w click link :
  find_click conversion hints w = click -> find_link conversion click w = link ->
  truthy (g_assignment (by_token conversion hints click link)) = true -> justified conversion hint w (g_assignment (by_token conversion hints click link)).
Proof.
  intros Hc Hl. cbn [by_token g_assignment]. unfold coalesce at 1 4. destruct (nullish click@."clientAssignmentId") eqn:E1.
  - unfold coalesce at 1 3. destruct (nullish link@."assignmentId") eqn:E2.
    + unfold coalesce. destruct (nullish conversion@."clientAssignmentId"); [discriminate|]. intros _. now apply by_itself.
    + intros _. assert (Ht : truthy link = true) by (apply not_false_iff_true; intros Hf; rewrite falsy_prop in E2 by exact Hf; discriminate).
      subst link. apply link_found in Ht as [Hin Hd]. now apply (by_tracking_link _ _ _ _ _ Hin).
  - intros _. assert (Ht : truthy click = true) by (apply not_false_iff_true; intros Hf; rewrite falsy_prop in E1 by exact Hf; discriminate).
    subst click. apply click_found in Ht. now apply (by_click _ _ _ _ _ Ht).
Qed.

(** A step keeps the assignment justified. *)
Definition sound (conversion hint : jsval) (w : world) (g : found) : Prop :=
  truthy (g_assignment g) = true -> justified conversion hint w (g_assignment g).

Lemma hint_sound conversion hint w g : sound conversion hint w g -> sound conversion hint w (by_hint hint w g).
Proof.
  intros Hg. unfold by_hint. destruct (negb _ && truthy hint); [|exact Hg]. destruct (truthy (assignment_by_id hint w)) eqn:Et; [|exact Hg].
  intros _. cbn [g_assignment]. apply row_found in Et as [Hin Hid]. now apply (by_assignment_hint _ _ _ _ _ Hin Hid).
Qed.

Lemma distinct_keeps s l : JStr s ∈ l -> JStr s ∈ distinct_ids l.
Proof.
  induction l as [|x l IH]; [set_solver|]. intros Hin. cbn. apply elem_of_cons in Hin as [<-|Hin]; [set_solver|].
  destruct (col_eq (JStr s) x) eqn:E.
  - assert (x = JStr s) as -> by (destruct x; cbn in E; try discriminate; now apply String.eqb_eq in E as ->). set_solver.
  - apply elem_of_cons; right. apply list_elem_of_In, filter_In. split; [now apply list_elem_of_In, IH|]. now rewrite E.
Qed.
Lemma distinct_from x l : x ∈ distinct_ids l -> x ∈ l.
Proof.
  revert x. induction l as [|y l IH]; intros x; [set_solver|]. cbn. intros Hx. apply elem_of_cons in Hx as [->|Hx]; [set_solver|].
  apply list_elem_of_In, filter_In in Hx as [Hx _]. apply elem_of_cons; right. apply IH. now apply list_elem_of_In.
Qed.
(** All the live coupons of a code are looked at, if there are no more than twenty. *)
Lemma found_live code w m : m ∈ findActiveByCouponCode code w -> m ∈ live_coupons code w.
Proof. intros Hm. apply elem_of_sort_by with (le := created_before). unfold findActiveByCouponCode in Hm. now apply elem_of_take in Hm as (i & Hi%list_elem_of_lookup_2 & _). Qed.
Lemma live_found code w m : (length (live_coupons code w) <= 20)%nat -> m ∈ live_coupons code w -> m ∈ findActiveByCouponCode code w.
Proof. intros Hl Hm. unfold findActiveByCouponCode. rewrite firstn_all2 by (rewrite sort_by_perm; exact Hl). now apply elem_of_sort_by. Qed.
Lemma coupon_sound conversion hint w g : sound conversion hint w g -> sound conversion hint w (by_coupon (extractCouponCodeHint conversion) w g).
Proof.
  intros Hg. unfold by_coupon. destruct (negb (truthy (g_assignment g)) && _); [|exact Hg].
  set (code := extractCouponCodeHint conversion). set (ids := List.filter truthy (map _ _)).
  destruct (distinct_ids ids) as [|id [|id' rest]] eqn:E; [exact Hg| |exact Hg]. intros _. cbn [g_assignment].
  assert (Hid : id ∈ ids) by (apply distinct_from; rewrite E; set_solver). apply list_elem_of_In, filter_In in Hid as [Hid _].
  apply list_elem_of_In, list_elem_of_fmap in Hid as (m & -> & Hm).
  apply (by_unique_coupon _ _ _ _ code m eq_refl (found_live _ _ _ Hm) eq_refl). intros Hlen m' s Hm' Hs Hne. apply (live_found _ _ _ Hlen) in Hm'.
  assert (Hin : JStr s ∈ distinct_ids ids).
  { apply distinct_keeps, list_elem_of_In, filter_In. split; [|cbn; now apply String.eqb_neq in Hne as ->].
    apply list_elem_of_In, list_elem_of_fmap. exists m'. now rewrite Hs. }
  rewrite E in Hin. now apply list_elem_of_singleton in Hin as <-.
Qed.
Lemma single_sound conversion hint click w g : sound conversion hint w g -> sound conversion hint w (by_single conversion click w g).
Proof.
  intros Hg. unfold by_single. set (source := source_of click (g_link g) conversion).
  destruct (negb (truthy (g_assignment g)) && _ && truthy source) eqn:Ec; [|exact Hg]. apply andb_true_iff in Ec as [_ Es].
  unfold findPublishedActiveByCampaignSource. rewrite Es. cbn [negb]. set (l := List.filter _ (rows w TAssignment)).
  destruct (firstn 5 (sort_by published_before l)) as [|r [|r' rest]] eqn:E; [exact Hg| |exact Hg]. intros _. cbn [g_assignment].
  assert (El : l = [r]).
  { pose proof (sort_by_perm published_before l) as Hp. destruct (sort_by published_before l) as [|x [|y t]]; [discriminate| |discriminate].
    injection E as ->. symmetry in Hp. now apply Permutation_singleton_r in Hp. }
  apply (by_single_assignment _ _ _ _ source r); [|reflexivity|exact Es|exact El].
  assert (Hr : r ∈ l) by (rewrite El; set_solver). apply list_elem_of_In, filter_In in Hr as [Hr _]. now apply list_elem_of_In.
Qed.

(** The hint that the context is resolved with. *)
Definition effective_hint (conversion assignmentIdHint : jsval) : jsval :=
  assignmentIdHint ?? (as_object conversion@."metadata"@."attributionHints")@."assignmentId" ?? conversion@."metadata"@."assignmentId" ?? JNull.
Lemma context_justified conversion hint w : truthy (x_clientAssignmentId (resolveAttributionContext conversion hint w)) = true ->
  justified conversion (effective_hint conversion hint) w (x_clientAssignmentId (resolveAttributionContext conversion hint w)).
Proof.
  unfold resolveAttributionContext. cbv zeta. cbn [x_clientAssignmentId]. fold (effective_hint conversion hint).
  set (hints := as_object _). set (click := find_click conversion hints w). set (link := find_link conversion click w).
  set (g := by_single _ _ _ _). assert (Hg : sound conversion (effective_hint conversion hint) w g).
  { apply single_sound, coupon_sound, hint_sound. intros Ht. apply (token_justified conversion (effective_hint conversion hint) hints w click link eq_refl eq_refl Ht). }
  destruct (negb (is_none (g_review g))); [discriminate|exact Hg].
Qed.

(** *** What an attribution leaves *)

Definition reject_status (conversion orderValidation : jsval) : bool :=
  (conversion@."status" === "REJECTED") || (orderValidation === "VALIDATION_REJECTED").
(** The commissions written are unknown, or the split of the conversion's gross by a rule of the
    assignment in force on the day of the conversion, which nothing has rejected. *)
Definition commission_justified (conversion a orderValidation : jsval) (w : world) (r : jsval) : Prop :=
  r@."clientCommission" = JNull /\ r@."mboCommission" = JNull \/
  exists rule c m, reject_status conversion orderValidation = false /\ rule ∈ rows w TRule /\
    effective_at a (date_of conversion@."conversionDate") rule = true /\
    applyCommissionRuleToGross (grossCommissionForConversion conversion) rule = Ok (SplitOk c m) /\
    r@."clientCommission" = column_decimal (JStr c) /\ r@."mboCommission" = column_decimal (JStr m).
Definition order_validation (conversion : jsval) (w : world) : jsval :=
  if truthy conversion@."orderId"
  then (row_or_null (List.find (has_id conversion@."orderId") (rows w TOrder)))@."validationStatus" ?? JNull else JNull.
Definition client_hint (conversion given : jsval) : jsval :=
  given ?? (as_object conversion@."metadata"@."attributionHints")@."clientId" ?? JNull.

Record well_attributed (conversion hint clientHint : jsval) (w : world) (r : jsval) : Prop := WellAttributed {
  wa_assignment : let a := x_clientAssignmentId (resolveAttributionContext conversion hint w) in
    truthy a = true -> r@."clientAssignmentId" = a /\ justified conversion (effective_hint conversion hint) w a;
  wa_client : let a := x_clientAssignmentId (resolveAttributionContext conversion hint w) in
    truthy a = true -> truthy (client_hint conversion clientHint) = true -> truthy (assignment_by_id a w)@."clientId" = true ->
    js_string (assignment_by_id a w)@."clientId" = js_string (client_hint conversion clientHint);
  wa_commission : commission_justified conversion (x_clientAssignmentId (resolveAttributionContext conversion hint w)) (order_validation conversion w) w r
}.

Lemma try_report_within input : tracks (within [TException; TAudit]) (try_report input).
Proof. unfold try_report. track. apply ExceptionFacts.report_within. Qed.
Lemma try_report_ok input w r w' : try_report input w = (r, w') -> r = Ok tt.
Proof. unfold try_report, catch, bind. destruct (report input w) as [[a|e] w1]; now intros [= <- _]. Qed.

(** The row that an update of the conversion gives back. *)
Lemma conversion_updated i data w conversion w1 r w2 :
  List.find (has_id (JStr i)) (rows w TConversion) = Some conversion -> rows w1 TConversion = rows w TConversion ->
  update_conversion (JStr i) data w1 = (Ok r, w2) -> r = spread conversion (JObj (encode TConversion data)).
Proof.
  intros Hf Hr. unfold update_conversion. destruct (links_ok data w1); [|discriminate]. unfold update_row. destruct (negb _); [discriminate|].
  rewrite Hr, Hf. now intros [= <- _].
Qed.
Lemma reported_update input i data w conversion r w2 :
  List.find (has_id (JStr i)) (rows w TConversion) = Some conversion ->
  bind (try_report input) (fun _ => update_conversion (JStr i) data) w = (Ok r, w2) -> r = spread conversion (JObj (encode TConversion data)).
Proof.
  intros Hf (u & w1 & E1 & E2)%bind_ok. eapply conversion_updated; [exact Hf| |exact E2].
  apply (run_tracks _ _ _ _ _ (try_report_within _) E1). compute_done.
Qed.

Lemma split_within conversion rejected rule : tracks (within [TException; TAudit]) (split_commission conversion rejected rule).
Proof. unfold split_commission, commission_problem. track; apply try_report_within. Qed.
Lemma split_ok conversion rejected rule w s w1 : split_commission conversion rejected rule w = (Ok s, w1) ->
  sp_client s = JNull /\ sp_mbo s = JNull \/
  exists ru c m, rejected = false /\ rule = Some ru /\
    applyCommissionRuleToGross (grossCommissionForConversion conversion) ru = Ok (SplitOk c m) /\ sp_client s = JStr c /\ sp_mbo s = JStr m.
Proof.
  unfold split_commission. destruct rejected; [intros [= <- _]; now left|]. destruct rule as [ru|].
  - destruct (applyCommissionRuleToGross _ ru) as [[c m|reason]|e] eqn:E; [..|discriminate].
    + intros [= <- _]. right. exists ru, c, m. now rewrite E.
    + intros (u & w0 & _ & E2)%bind_ok. injection E2 as <- _. now left.
  - intros (u & w0 & _ & E2)%bind_ok. injection E2 as <- _. now left.
Qed.
Lemma sort_rules_in r l : r ∈ sort_rules l -> r ∈ l.
Proof.
  assert (Hi : forall x l, r ∈ insert_rule x l -> r = x \/ r ∈ l).
  { intros x. induction l0 as [|y l0 IH]; cbn; [set_solver|]. destruct (rule_before x y); [set_solver|]. intros Hr. apply elem_of_cons in Hr as [->|Hr]; [set_solver|].
    destruct (IH Hr) as [->|]; set_solver. }
  induction l as [|x l IH]; cbn; [auto|]. intros Hr. destruct (Hi x _ Hr) as [->|Hr']; [set_solver|]. apply elem_of_cons. right. now apply IH.
Qed.
Lemma rule_effective a at_ w rule : findEffectiveForAssignment a at_ w = Some rule -> rule ∈ rows w TRule /\ effective_at a at_ rule = true.
Proof.
  unfold findEffectiveForAssignment. destruct (sort_rules _) as [|x l] eqn:E; [discriminate|]. intros [= <-].
  assert (Hx : x ∈ sort_rules (List.filter (effective_at a at_) (rows w TRule))) by (rewrite E; set_solver).
  apply sort_rules_in, list_elem_of_In, filter_In in Hx as [Hx He]. split; [now apply list_elem_of_In|exact He].
Qed.
(** A rule is looked up for the assignment of the context only. *)
Lemma context_rule conversion hint w rule : x_commissionRule (resolveAttributionContext conversion hint w) = Some rule ->
  rule ∈ rows w TRule /\ effective_at (x_clientAssignmentId (resolveAttributionContext conversion hint w)) (date_of conversion@."conversionDate") rule = true.
Proof.
  unfold resolveAttributionContext. cbv zeta. cbn [x_commissionRule x_clientAssignmentId]. set (g := by_single _ _ _ _).
  destruct (negb (is_none (g_review g))); [rewrite andb_false_r; discriminate|]. rewrite andb_true_r.
  destruct (truthy (g_assignment g)); [|discriminate]. apply rule_effective.
Qed.

Lemma attributed_keys conversion x s : NoDup (map fst (attributed_data conversion x s)).
Proof. unfold attributed_data. nodup_keys. Qed.
Lemma resolved_commissions i conversion hint w w1 s r w2 : conversion@."id" = JStr i ->
  List.find (has_id (JStr i)) (rows w TConversion) = Some conversion -> rows w1 TConversion = rows w TConversion ->
  let x := resolveAttributionContext conversion hint w in
  split_commission conversion (reject_status conversion (order_validation conversion w)) (x_commissionRule x) w = (Ok s, w1) ->
  update_conversion (JStr i) (attributed_data conversion x s) w1 = (Ok r, w2) ->
  (truthy (x_clientAssignmentId x) = true -> r@."clientAssignmentId" = x_clientAssignmentId x) /\
  commission_justified conversion (x_clientAssignmentId x) (order_validation conversion w) w r.
Proof.
  intros Hi Hf Hr x Es Eu. rewrite (conversion_updated _ _ _ _ _ _ _ Hf Hr Eu).
  assert (Hcol : forall k v, assoc k (attributed_data conversion x s) = Some v -> v <> JUndef ->
    (spread conversion (JObj (encode TConversion (attributed_data conversion x s))))@.k = (encode_field TConversion (k, v)).2)
    by (intros k v; apply updated_column, attributed_keys).
  split; [intros Ht; rewrite (Hcol "clientAssignmentId" (x_clientAssignmentId x)); [reflexivity|reflexivity|intros E; rewrite E in Ht; discriminate]|].
  apply split_ok in Es as Hs. assert (Hnu : sp_client s <> JUndef /\ sp_mbo s <> JUndef) by (destruct Hs as [[-> ->]|(?&?&?&_&_&_&->&->)]; split; discriminate).
  unfold commission_justified. rewrite (Hcol "clientCommission" (sp_client s) eq_refl (proj1 Hnu)), (Hcol "mboCommission" (sp_mbo s) eq_refl (proj2 Hnu)).
  destruct Hs as [[-> ->]|(rule & c & m & Hrej & Hrule & Hsplit & -> & ->)]; [left; split; reflexivity|right].
  apply context_rule in Hrule as [Hin Heff]. exists rule, c, m.
  split; [exact Hrej|]. split; [exact Hin|]. split; [exact Heff|]. split; [exact Hsplit|]. split; reflexivity.
Qed.

End Facts.
End AttributionFacts.
