(* ===== verification/Aggregation.v ===== *)
(** * Daily reports

    [modules/reporting/services/aggregation.service.js] with the daily reports and the aggregation query of
    [repositories/reporting.repository.js]: clicks and attributed conversions of a day are added up by
    client, merchant, campaign, source, country and day.  A [Map] is an association list in the
    order of insertion; the relation [clientAssignment] of a conversion is looked up by its id.  The
    mode of the process is an argument. *)

From Stdlib Require Import SpecFloat.
From S2P Require Import Prelude JsNum JsVal JsDate JsDay Money Store Accounts Exceptions Withdrawals Attribution.
Import AttributionMath FinanceConsumer Attribution.
Local Open Scope Z_scope.

Module Aggregation.

Record bucket := Bucket {
  b_clientId : jsval; b_merchantId : jsval; b_canonicalCampaignId : jsval; b_campaignSourceId : jsval; b_country : jsval; b_reportDate : Z;
  clickCount : Z; conversionCount : Z; approvedConversionCount : Z; rejectedConversionCount : Z;
  grossCommission : num; clientCommission : num; mboCommission : num; b_currency : jsval; seenConversionIds : list jsval
}.
Definition buckets := list (string * bucket).

Section Service.
Context {H : JsHost} {D : Database}.

Definition CLICK_PAGE_SIZE : nat := Z.to_nat 5000.
Definition CLICK_CAP : nat := Z.to_nat 500000.

Definition dimensionKey (parts : list jsval) : string := join "|" (map (fun p => js_string (p ?? JStr "")) parts).
(** [toReportDate(value)], whose [toISOString()] throws on an invalid date. *)
Definition report_day (value : jsval) : outcome Z :=
  match toReportDate value with Some t => Ok t | None => Throw (plain_error "Invalid time value") end.

(** The dimension of an event of assignment [a]: the key, and an empty bucket for it. *)
Definition event_key (a source country : jsval) (day : Z) : string :=
  dimensionKey [a@."clientId"; a@."canonicalCampaign"@."merchantId"; a@."canonicalCampaignId"; source; country; JStr (iso_slice day)].
Definition emptyBucket (a source country : jsval) (day : Z) : bucket :=
  Bucket a@."clientId" a@."canonicalCampaign"@."merchantId" a@."canonicalCampaignId" (source ?? JNull) (country ?? JNull) day
    0 0 0 0 n0 n0 n0 JNull [].
(** The bucket under a key is made if it is missing, and changed. *)
Definition change_bucket (key : string) (fresh : bucket) (f : bucket -> bucket) (bs : buckets) : buckets :=
  assoc_set key (f (default fresh (assoc key bs))) bs.
(** [!assignment?.canonicalCampaign?.merchantId] and another client are passed over. *)
Definition counted (clientId a : jsval) : bool :=
  truthy a@."canonicalCampaign"@."merchantId" && (negb (truthy clientId) || col_eq a@."clientId" clientId).

(** *** Clicks *)

(** [orderBy: [{ clickedAt: "desc" }, { id: "desc" }]] *)
Definition later_click (a b : jsval) : bool :=
  (date_of b@."clickedAt" <? date_of a@."clickedAt")
  || ((date_of a@."clickedAt" =? date_of b@."clickedAt") && match String.compare (js_string b@."id") (js_string a@."id") with Gt => false | _ => true end).
Definition clicks_between (from to : Z) (w : world) : list jsval :=
  sort_by later_click (List.filter (fun c => within_period (Period (Some from) (Some to)) c@."clickedAt") (rows w TClick)).
(** [#loadAllClicks]: page by page, to the first short page or the cap. *)
Fixpoint load_pages (fuel : nat) (size cap skip : nat) (all : list jsval) : list jsval :=
  match fuel with
  | O => []
  | S k =>
      let batch := firstn size (skipn skip all) in
      if (length batch <? size)%nat then batch
      else if (cap <=? skip + size)%nat then batch
      else batch ++ load_pages k size cap (skip + size) all
  end.
Definition loadAllClicks (from to : Z) (w : world) : list jsval :=
  load_pages 100 CLICK_PAGE_SIZE CLICK_CAP 0 (clicks_between from to w).
(** [#loadAssignmentsForClicks]: the assignments that the clicks name. *)
Definition loadAssignmentsForClicks (clicks : list jsval) (w : world) : list jsval :=
  let ids := List.filter truthy (map (fun c => c@."clientAssignmentId") clicks) in
  List.filter (fun a => existsb (fun i => js_string i =s? js_string a@."id") ids) (rows w TAssignment).
Definition assignment_for (id : jsval) (assignments : list jsval) : jsval :=
  row_or_null (List.find (fun a => js_string a@."id" =s? js_string id) assignments).

Definition add_click (b : bucket) : bucket :=
  Bucket (b_clientId b) (b_merchantId b) (b_canonicalCampaignId b) (b_campaignSourceId b) (b_country b) (b_reportDate b)
    (clickCount b + 1) (conversionCount b) (approvedConversionCount b) (rejectedConversionCount b)
    (grossCommission b) (clientCommission b) (mboCommission b) (b_currency b) (seenConversionIds b).
Definition accumulate_click (assignments : list jsval) (clientId : jsval) (bs : buckets) (click : jsval) : outcome buckets :=
  if negb (truthy click@."clientAssignmentId") then Ok bs
  else
    let a := assignment_for click@."clientAssignmentId" assignments in
    if negb (counted clientId a) then Ok bs
    else
      let? day := report_day click@."clickedAt" in
      Ok (change_bucket (event_key a click@."campaignSourceId" click@."country" day)
            (emptyBucket a click@."campaignSourceId" click@."country" day) add_click bs).
Fixpoint accumulate {A} (step : buckets -> A -> outcome buckets) (l : list A) (bs : buckets) : outcome buckets :=
  match l with
  | [] => Ok bs
  | x :: rest => let? bs' := step bs x in accumulate step rest bs'
  end.
Definition accumulateClicks (from to : Z) (clientId : jsval) (w : world) (bs : buckets) : outcome buckets :=
  let clicks := loadAllClicks from to w in
  accumulate (accumulate_click (loadAssignmentsForClicks clicks w) clientId) clicks bs.

(** *** Conversions *)

(** [findForAggregation]: attributed conversions of the period, with their assignment. *)
Definition findForAggregation (from to : Z) (w : world) : list jsval :=
  map (fun c => with_relation c "clientAssignment" (row_or_null (List.find (has_id c@."clientAssignmentId") (rows w TAssignment))))
    (List.filter (fun c => within_period (Period (Some from) (Some to)) c@."conversionDate"
                           && (c@."attributionStatus" === "ATTRIBUTED") && negb (nullish c@."clientAssignmentId")) (rows w TConversion)).

Definition is_paid (c : jsval) : bool := (c@."status" === "APPROVED") || (c@."status" === "PAID").
(** [addMoney(bucket, field, value)] with the guard on a blank value *)
Definition add_money (x : num) (value : jsval) : num := nadd x (js_number (value ?? JNum n0)).
Definition add_given (x : num) (value : jsval) : num := if blank value then x else add_money x value.

Definition add_conversion (c : jsval) (b : bucket) : bucket :=
  if existsb (col_eq c@."id") (seenConversionIds b) then b
  else
    let earns := negb (isRejectedConversionStatus c@."status") in
    Bucket (b_clientId b) (b_merchantId b) (b_canonicalCampaignId b) (b_campaignSourceId b) (b_country b) (b_reportDate b)
      (clickCount b) (conversionCount b + 1) (if is_paid c then approvedConversionCount b + 1 else approvedConversionCount b)
      (if c@."status" === "REJECTED" then rejectedConversionCount b + 1 else rejectedConversionCount b)
      (if earns then add_money (grossCommission b) (grossCommissionForConversion c) else grossCommission b)
      (if earns then add_given (clientCommission b) c@."clientCommission" else clientCommission b)
      (if earns then add_given (mboCommission b) c@."mboCommission" else mboCommission b)
      (if earns then c@."currency" ?? b_currency b else b_currency b)
      (seenConversionIds b ++ [c@."id"]).
Definition accumulate_with (add : jsval -> bucket -> bucket) (clientId : jsval) (bs : buckets) (c : jsval) : outcome buckets :=
  let a := c@."clientAssignment" in
  if negb (counted clientId a) then Ok bs
  else
    let country := c@."metadata"@."country" ?? JNull in
    let? day := report_day c@."conversionDate" in
    Ok (change_bucket (event_key a c@."campaignSourceId" country day) (emptyBucket a c@."campaignSourceId" country day) (add c) bs).
Definition accumulateConversions (from to : Z) (clientId : jsval) (w : world) (bs : buckets) : outcome buckets :=
  accumulate (accumulate_with add_conversion clientId) (findForAggregation from to w) bs.

(** *** The amounts of the ledger *)

Record ledger_sum := LedgerSum { ls_supplier : num; ls_client : num; ls_mbo : num; ls_currency : jsval }.
Definition add_transaction (sums : list (string * ledger_sum)) (txn : jsval) : list (string * ledger_sum) :=
  if negb (truthy txn@."conversionId") then sums
  else
    let key := js_string txn@."conversionId" in
    let s := default (LedgerSum n0 n0 n0 txn@."originalCurrency") (assoc key sums) in
    assoc_set key (LedgerSum (nadd (ls_supplier s) (js_number txn@."supplierReceivable")) (nadd (ls_client s) (js_number txn@."clientPayable"))
                     (nadd (ls_mbo s) (js_number txn@."mboMargin")) (txn@."originalCurrency" |or| ls_currency s)) sums.
Definition ledger_sums (conversions : list jsval) (w : world) : list (string * ledger_sum) :=
  let ids := map (fun c => c@."id") conversions in
  fold_left add_transaction (List.filter (fun ft => existsb (col_eq ft@."conversionId") ids) (rows w TFinancial)) [].

Definition add_recognized (sums : list (string * ledger_sum)) (c : jsval) (b : bucket) : bucket :=
  if existsb (col_eq c@."id") (seenConversionIds b) then b
  else
    let s := assoc (js_string c@."id") sums in
    let add (f : ledger_sum -> num) (x : num) := match s with Some s => nadd x (f s) | None => x end in
    Bucket (b_clientId b) (b_merchantId b) (b_canonicalCampaignId b) (b_campaignSourceId b) (b_country b) (b_reportDate b)
      (clickCount b) (conversionCount b + 1) (if is_paid c then approvedConversionCount b + 1 else approvedConversionCount b)
      (rejectedConversionCount b)
      (add ls_supplier (grossCommission b)) (add ls_client (clientCommission b)) (add ls_mbo (mboCommission b))
      (match s with Some s => ls_currency s ?? b_currency b | None => b_currency b end)
      (seenConversionIds b ++ [c@."id"]).
Definition buildFinanceFinancialBuckets (from to : Z) (clientId : jsval) (w : world) : outcome buckets :=
  let conversions := findForAggregation from to w in
  let sums := ledger_sums conversions w in
  let? clicks := accumulateClicks from to clientId w [] in
  accumulate (accumulate_with (add_recognized sums) clientId) conversions clicks.

(** *** Writing reports *)

Definition count_value (n : Z) : jsval := JNum (num_of_Z n).
Definition report_amounts (b : bucket) : list (string * jsval) :=
  [("clickCount", count_value (clickCount b)); ("conversionCount", count_value (conversionCount b));
   ("approvedConversionCount", count_value (approvedConversionCount b));
   ("grossCommission", JStr (num_toFixed 4 (grossCommission b))); ("clientCommission", JStr (num_toFixed 4 (clientCommission b)));
   ("mboCommission", JStr (num_toFixed 4 (mboCommission b)));
   ("conversionRate", of_option_num (computeConversionRate (count_value (conversionCount b)) (count_value (clickCount b))));
   ("epc", of_option_num (computeEpc (JNum (grossCommission b)) (count_value (clickCount b))));
   ("ctr", JNull); ("currency", b_currency b)].
Definition dimension (b : bucket) : list (string * jsval) :=
  [("clientId", b_clientId b); ("merchantId", b_merchantId b); ("canonicalCampaignId", b_canonicalCampaignId b);
   ("campaignSourceId", b_campaignSourceId b); ("country", b_country b); ("reportDate", JDate (Some (b_reportDate b)))].
(** [findByDimensionKey] *)
Definition of_dimension (b : bucket) (r : jsval) : bool :=
  col_eq r@."clientId" (b_clientId b) && col_eq r@."canonicalCampaignId" (b_canonicalCampaignId b)
  && col_eq r@."campaignSourceId" (b_campaignSourceId b) && col_eq r@."country" (b_country b)
  && col_eq r@."reportDate" (JDate (Some (b_reportDate b))).
Definition upsertDimension (b : bucket) : prog world unit :=
  let! existing := find_where TDailyReport (of_dimension b) in
  match existing with
  | Some e => update_row TDailyReport e@."id" (report_amounts b) ;; ret tt
  | None => create_row TDailyReport (dimension b ++ report_amounts b) ;; ret tt
  end.
Definition deleteForDateRange (from to : Z) (clientId : jsval) : prog world nat :=
  let p := fun r => (negb (truthy clientId) || col_eq r@."clientId" clientId) && within_period (Period (Some from) (Some to)) r@."reportDate" in
  let! count := gets (fun w => length (List.filter p (rows w TDailyReport))) in
  delete_rows TDailyReport p ;;
  ret count.

Definition summary_value (s : report_summary) : jsval := JObj
  [("matches", count_value (Z.of_nat (matches s))); ("differences", count_value (Z.of_nat (differences s)));
   ("legacyOnly", count_value (Z.of_nat (legacyOnly s))); ("financeOnly", count_value (Z.of_nat (financeOnly s)));
   ("total", count_value (Z.of_nat (rr_total s)))].
Definition coverage_value (c : coverage) : jsval := JObj
  [("eligibleApprovedConversions", count_value (Z.of_nat (eligibleApprovedConversions c)));
   ("financiallyRecognized", count_value (Z.of_nat (financiallyRecognized c))); ("coveragePercent", JNum (coveragePercent c));
   ("complete", JBool (coverage_complete c))].
Definition discrepancy (scope : string) (from to : Z) (clientId : jsval) (s : report_summary) (c : coverage) (reason : list (string * jsval)) : jsval :=
  JObj ([("scope", JStr scope); ("from", JDate (Some from)); ("to", JDate (Some to)); ("clientId", clientId ?? JNull);
         ("summary", summary_value s); ("coverage", coverage_value c)] ++ reason).
Definition agrees (s : report_summary) : bool :=
  (differences s =? 0)%nat && (legacyOnly s =? 0)%nat && (financeOnly s =? 0)%nat.
Definition blocked_reason : list (string * jsval) :=
  [("reason", JStr "Safe cutover criteria not met; financial fields not overwritten from FT")].

Record aggregate_summary := AggregateSummary {
  rowsUpserted : nat; bucketCount : nat; clickEvents : Z; conversionEvents : Z; financeWriteMode : string;
  shadowSummary : option report_summary; a_coverage : option coverage
}.

(** The comparison with the ledger, and what is written from it. *)
Definition finance_stage (mode : string) (from to : Z) (clientId : jsval) : prog world (string * option report_summary * option coverage) :=
  if negb ((mode =s? "SHADOW") || (mode =s? "FINANCE")) then ret ("LEGACY_FINANCIALS", None, None)
  else
    let! shadow := compareDailyReportDimensions (Period (Some from) (Some to)) clientId in
    let s := shadow.1 in
    let! c := getFinancialCoverage clientId in
    (if (mode =s? "SHADOW") && negb (agrees s) then recordShadowDiscrepancy (discrepancy "daily_report" from to clientId s c []) else ret tt) ;;
    if negb (mode =s? "FINANCE") then ret ("LEGACY_FINANCIALS", Some s, Some c)
    else if negb (coverage_complete c && agrees s) then
      recordShadowDiscrepancy (discrepancy "daily_report_finance_mode_blocked" from to clientId s c blocked_reason) ;;
      ret ("SHADOW_RETAINED", Some s, Some c)
    else
      let! bs := (fun w => lift (buildFinanceFinancialBuckets from to clientId w) w) in
      for_each bs (fun kb => upsertDimension kb.2) ;;
      ret ("FINANCE", Some s, Some c).

Definition total (f : bucket -> Z) (bs : buckets) : Z := fold_left (fun n kb => n + f kb.2) bs 0.
Definition collect_buckets (from to : Z) (clientId : jsval) (w : world) : outcome buckets :=
  let? clicks := accumulateClicks from to clientId w [] in
  accumulateConversions from to clientId w clicks.
Definition aggregate_run (mode : string) (from to : Z) (clientId : jsval) : prog world aggregate_summary :=
  let! bs := (fun w => lift (collect_buckets from to clientId w) w) in
  for_each bs (fun kb => upsertDimension kb.2) ;;
  let! stage := finance_stage mode from to clientId in
  let '(writeMode, shadow, cov) := stage in
  ret (AggregateSummary (length bs) (length bs) (total clickCount bs) (total conversionCount bs) writeMode shadow cov).
Definition aggregateRange (mode : string) (from to : Z) (clientId : jsval) : prog world aggregate_summary :=
  transaction (aggregate_run mode from to clientId).

Definition runForDate (mode : string) (reportDate clientId : jsval) : prog world aggregate_summary :=
  match dayBounds reportDate with
  | (Some start, Some stop) => aggregateRange mode start stop clientId
  | _ => throw (plain_error "Invalid value for a date: Provided Date object is invalid.")
  end.
Definition aggregateDay : string -> jsval -> jsval -> prog world aggregate_summary := runForDate.

Record rebuild_summary := RebuildSummary { daysProcessed : nat; r_rowsUpserted : nat; rowsDeleted : nat }.
(** [while (cursor <= end) { ...; cursor.setUTCDate(cursor.getUTCDate() + 1) }]; a cursor beyond the dates is
    invalid and ends the loop. *)
Fixpoint rebuild_days (fuel : nat) (mode : string) (cursor : option Z) (stop : Z) (clientId : jsval) : prog world (list aggregate_summary) :=
  match fuel, cursor with
  | S k, Some t =>
      if t <=? stop then
        let! s := runForDate mode (JDate (Some t)) clientId in
        let! rest := rebuild_days k mode (set_utc_date t (utc_date t + 1)) stop clientId in
        ret (s :: rest)
      else ret []
  | _, _ => ret []
  end.
Definition rebuild (mode : string) (from to clientId : jsval) : prog world rebuild_summary :=
  if negb (truthy from) || negb (truthy to) then throw (api_fail "from and to are required for rebuild." 400)
  else
    let! range := lift (normalizeReportDateRange from to) in
    match range with
    | (Some start, Some stop) =>
        let! deleted := deleteForDateRange start stop clientId in
        let! summaries := rebuild_days (Z.to_nat ((stop - start) / ms_per_day + 1)) mode (Some start) stop clientId in
        ret (RebuildSummary (length summaries) (fold_left (fun n s => (n + rowsUpserted s)%nat) summaries 0%nat) deleted)
    | _ => throw (plain_error "Invalid value for a date: Provided Date object is invalid.")
    end.

End Service.
End Aggregation.

(** ** Every event is counted once *)

Module AggregationFacts.
Import Aggregation.
Section Facts.
Context {H : JsHost} {D : Database}.

Lemma firstn_add {A} n m (l : list A) : firstn (n + m) l = firstn n l ++ firstn m (skipn n l).
Proof. revert l. induction n as [|n IH]; intros [|x l]; cbn; [reflexivity..|now destruct m|]. now rewrite IH. Qed.
Lemma load_pages_firstn fuel size cap skip all : (0 < size)%nat -> (skip + fuel * size = cap)%nat ->
  load_pages fuel size cap skip all = firstn (fuel * size) (skipn skip all).
Proof.
  intros Hs. revert skip. induction fuel as [|k IH]; intros skip Hc; [reflexivity|]. cbn [load_pages Nat.mul]. cbv zeta.
  destruct (Nat.ltb_spec (length (firstn size (skipn skip all))) size) as [Hl|Hl].
  - rewrite length_firstn in Hl. rewrite !firstn_all2 by lia. reflexivity.
  - destruct (Nat.leb_spec cap (skip + size)).
    + assert (k = 0)%nat as -> by nia. now rewrite Nat.add_0_r.
    + rewrite IH by lia. rewrite firstn_add. f_equal. now rewrite skipn_skipn, (Nat.add_comm size).
Qed.
Lemma cap_pages : (100 * CLICK_PAGE_SIZE)%nat = CLICK_CAP.
Proof. unfold CLICK_PAGE_SIZE, CLICK_CAP. change 100%nat with (Z.to_nat 100). rewrite <- Z2Nat.inj_mul by lia. f_equal. Qed.
Lemma page_positive : (0 < CLICK_PAGE_SIZE)%nat.
Proof. unfold CLICK_PAGE_SIZE. change 0%nat with (Z.to_nat 0). apply Z2Nat.inj_lt; lia. Qed.
Lemma clicks_loaded from to w : loadAllClicks from to w = firstn CLICK_CAP (clicks_between from to w).
Proof.
  unfold loadAllClicks. rewrite load_pages_firstn; [now rewrite cap_pages, skipn_O|apply page_positive|now rewrite Nat.add_0_l, cap_pages].
Qed.

Lemma total_from f bs n : fold_left (fun n (kb : string * bucket) => n + f kb.2) bs n = n + total f bs.
Proof.
  unfold total. revert n. induction bs as [|kb bs IH]; intros n; cbn [fold_left]; [lia|]. rewrite (IH (n + f kb.2)), (IH (0 + f kb.2)). lia.
Qed.
Lemma total_cons f k b bs : total f ((k, b) :: bs) = f b + total f bs.
Proof. unfold total at 1. cbn [fold_left]. rewrite total_from. cbn. lia. Qed.
Lemma total_set f key b bs : total f (assoc_set key b bs) = total f bs - match assoc key bs with Some o => f o | None => 0 end + f b.
Proof.
  induction bs as [|[k o] bs IH]; [cbn [assoc_set assoc]; rewrite total_cons; cbn; lia|]. cbn [assoc_set assoc].
  destruct (k =s? key); rewrite !total_cons; [lia|]. rewrite IH. lia.
Qed.
Lemma total_change f key fresh g bs : f fresh = 0 -> total f (change_bucket key fresh g bs) =
  total f bs + (f (g (default fresh (assoc key bs))) - f (default fresh (assoc key bs))).
Proof. intros Hf. unfold change_bucket. rewrite total_set. destruct (assoc key bs); cbn [from_option id]; unfold id; lia. Qed.

(** *** Clicks *)

Definition counts_click (assignments : list jsval) (clientId click : jsval) : bool :=
  truthy click@."clientAssignmentId" && counted clientId (assignment_for click@."clientAssignmentId" assignments).
Lemma clicks_added assignments clientId l bs bs' :
  accumulate (accumulate_click assignments clientId) l bs = Ok bs' ->
  total clickCount bs' = total clickCount bs + Z.of_nat (length (List.filter (counts_click assignments clientId) l)) /\
  total conversionCount bs' = total conversionCount bs.
Proof.
  revert bs. induction l as [|c l IH]; intros bs; cbn [accumulate List.filter]; [intros [= <-]; cbn; lia|].
  unfold accumulate_click at 1, counts_click at 1. destruct (truthy c@."clientAssignmentId"); cbn [negb andb]; [|apply IH].
  destruct (counted _ _); cbn [negb]; [|apply IH]. destruct (report_day _) as [day|e]; [|discriminate]. cbn [outcome_bind].
  intros [E1 E2]%IH. rewrite E1, E2, !total_change by reflexivity. cbn [clickCount conversionCount add_click length]. lia.
Qed.

(** *** Conversions *)

Definition seen_within (ids : list jsval) (bs : buckets) : Prop :=
  forall k b i, assoc k bs = Some b -> i ∈ seenConversionIds b -> i ∈ ids.
Lemma assoc_change key fresh g bs k : assoc k (change_bucket key fresh g bs) = if key =s? k then Some (g (default fresh (assoc key bs))) else assoc k bs.
Proof.
  unfold change_bucket. destruct (key =s? k) eqn:E; [apply String.eqb_eq in E as <-; apply assoc_set_eq|now apply assoc_set_ne].
Qed.
Definition adds_once (add : jsval -> bucket -> bucket) : Prop := forall c b,
  existsb (col_eq c@."id") (seenConversionIds b) = false ->
  conversionCount (add c b) = conversionCount b + 1 /\ clickCount (add c b) = clickCount b /\ seenConversionIds (add c b) = seenConversionIds b ++ [c@."id"].
Lemma adds_conversion : adds_once add_conversion.
Proof. intros c b E. unfold add_conversion. now rewrite E. Qed.
Lemma adds_recognized sums : adds_once (add_recognized sums).
Proof. intros c b E. unfold add_recognized. now rewrite E. Qed.

Lemma conversions_added add clientId l ids bs bs' : adds_once add ->
  ForallOrdPairs (fun c c' => col_eq c'@."id" c@."id" = false) l ->
  (forall c i, c ∈ l -> i ∈ ids -> col_eq c@."id" i = false) -> seen_within ids bs ->
  accumulate (accumulate_with add clientId) l bs = Ok bs' ->
  total conversionCount bs' = total conversionCount bs + Z.of_nat (length (List.filter (fun c => counted clientId c@."clientAssignment") l)) /\
  total clickCount bs' = total clickCount bs.
Proof.
  intros Hadd Hd. revert ids bs. induction Hd as [|c l Hc Hd IH]; intros ids bs Hids Hseen; cbn [accumulate List.filter]; [intros [= <-]; cbn; lia|].
  unfold accumulate_with at 1. cbv zeta. destruct (counted _ _); cbn [negb]; [|apply (IH ids); [set_solver|exact Hseen]].
  destruct (report_day _) as [day|e]; [|discriminate]. cbn [outcome_bind]. set (key := event_key _ _ _ _). set (fresh := emptyBucket _ _ _ _).
  assert (Hnew : existsb (col_eq c@."id") (seenConversionIds (default fresh (assoc key bs))) = false).
  { apply not_true_iff_false. intros (i & Hi & He)%existsb_exists. destruct (assoc key bs) as [b|] eqn:Eb; cbn in Hi; [|contradiction].
    apply list_elem_of_In in Hi. rewrite (Hids c i) in He; [discriminate|set_solver|]. exact (Hseen key b i Eb Hi). }
  destruct (Hadd c _ Hnew) as (E1 & E2 & E3). intros E. apply (IH (ids ++ [c@."id"])) in E as [F1 F2].
  - rewrite F1, F2, !total_change by reflexivity. rewrite E1, E2. cbn [length]. lia.
  - intros c' i Hc' Hi. apply elem_of_app in Hi as [Hi| ->%list_elem_of_singleton]; [apply Hids; set_solver|].
    rewrite List.Forall_forall in Hc. apply Hc. now apply list_elem_of_In.
  - intros k b i Hk Hi. rewrite assoc_change in Hk. destruct (key =s? k); [|apply elem_of_app; left; exact (Hseen k b i Hk Hi)].
    injection Hk as <-. rewrite E3 in Hi. apply elem_of_app in Hi as [Hi|Hi]; apply elem_of_app; [left|now right].
    destruct (assoc key bs) as [b|] eqn:Eb; cbn in Hi; [exact (Hseen key b i Eb Hi)|]. now apply not_elem_of_nil in Hi.
Qed.


Definition conversions_keyed (w : world) : Prop :=
  distinct TConversion "id" w /\ Forall (fun r => exists s, r@."id" = JStr s) (rows w TConversion).
Lemma ordered_map {A B} (R : A -> A -> Prop) (S : B -> B -> Prop) (p : A -> bool) (f : A -> B) l :
  (forall x y, x ∈ l -> y ∈ l -> R x y -> S (f x) (f y)) -> ForallOrdPairs R l -> ForallOrdPairs S (map f (List.filter p l)).
Proof.
  intros Hf Hd. induction Hd as [|x l Hx Hd IH]; cbn; [constructor|].
  assert (IH' : ForallOrdPairs S (map f (List.filter p l))) by (apply IH; intros; apply Hf; set_solver).
  destruct (p x); [|exact IH']. cbn. constructor; [|exact IH']. rewrite List.Forall_forall in *. intros y (z & <- & [Hz _]%filter_In)%in_map_iff.
  apply Hf; [set_solver|apply elem_of_cons; right; now apply list_elem_of_In|now apply Hx].
Qed.
Lemma aggregated_ids from to w : conversions_keyed w ->
  ForallOrdPairs (fun c c' => col_eq c'@."id" c@."id" = false) (findForAggregation from to w).
Proof.
  intros [Hd Ht]. unfold findForAggregation. eapply ordered_map; [|exact Hd]. intros x y Hx Hy Hxy. rewrite Forall_forall in Ht.
  destruct (Ht x Hx) as [sx Ex], (Ht y Hy) as [sy Ey]. rewrite !prop_relation.
  change ("clientAssignment" =s? "id") with false. cbv iota beta in Hxy |- *. rewrite Ex, Ey in *. unfold col_eq in *. now rewrite String.eqb_sym.
Qed.

Lemma clicks_see_nothing assignments clientId l bs bs' : seen_within [] bs -> accumulate (accumulate_click assignments clientId) l bs = Ok bs' -> seen_within [] bs'.
Proof.
  revert bs. induction l as [|c l IH]; intros bs Hs; cbn [accumulate]; [now intros [= <-]|]. unfold accumulate_click at 1.
  destruct (negb _); [now apply IH|]. destruct (negb _); [now apply IH|]. destruct (report_day _); [|discriminate]. cbn [outcome_bind]. apply IH.
  intros k b i Hb Hi. rewrite assoc_change in Hb. destruct (_ =s? k); [|exact (Hs k b i Hb Hi)]. injection Hb as <-. cbn [add_click seenConversionIds] in Hi.
  destruct (assoc _ bs) as [o|] eqn:Eo; cbn in Hi; [exact (Hs _ o i Eo Hi)|exact Hi].
Qed.
Lemma collected from to clientId w bs : conversions_keyed w -> collect_buckets from to clientId w = Ok bs ->
  let clicks := firstn CLICK_CAP (clicks_between from to w) in
  total clickCount bs = Z.of_nat (length (List.filter (counts_click (loadAssignmentsForClicks clicks w) clientId) clicks)) /\
  total conversionCount bs = Z.of_nat (length (List.filter (fun c => counted clientId c@."clientAssignment") (findForAggregation from to w))).
Proof.
  intros Hk. unfold collect_buckets, accumulateClicks. cbv zeta. rewrite clicks_loaded. set (clicks := firstn CLICK_CAP _).
  destruct (accumulate _ clicks []) as [cb|e] eqn:Ec; [|discriminate]. cbn [outcome_bind]. intros E.
  destruct (clicks_added _ _ _ _ _ Ec) as [E1 E2].
  assert (Hseen : seen_within [] cb) by (eapply clicks_see_nothing; [|exact Ec]; intros k b i Hn; discriminate Hn).
  destruct (conversions_added add_conversion clientId _ [] _ _ adds_conversion (aggregated_ids from to w Hk) ltac:(set_solver) Hseen E) as [E3 E4].
  rewrite E3, E4, E1, E2. split; reflexivity.
Qed.

(** *** The two theorems *)


Lemma stage_mode mode from to clientId w m s c w' : finance_stage mode from to clientId w = (Ok (m, s, c), w') ->
  m = "FINANCE" -> mode = "FINANCE" /\ exists s0 c0, s = Some s0 /\ c = Some c0 /\ coverage_complete c0 = true /\ agrees s0 = true.
Proof.
  unfold finance_stage. destruct (negb (_ || _)); [intros [= <- _ _ _] E; discriminate E|]. intros (shadow & w1 & _ & E)%bind_ok. cbv zeta in E.
  apply bind_ok in E as (c0 & w2 & _ & E). apply bind_ok in E as (u & w3 & _ & E). destruct (String.eqb_spec mode "FINANCE") as [->|]; cbn [negb] in E;
    [|injection E as <- _ _ _; intros E; discriminate E].
  destruct (coverage_complete c0 && agrees shadow.1) eqn:Es; cbn [negb] in E.
  - apply bind_ok in E as (bs & w4 & _ & E). apply bind_ok in E as (v & w5 & _ & E). injection E as <- <- <- _. intros _. apply andb_true_iff in Es as [? ?]. eauto 10.
  - apply bind_ok in E as (v & w5 & _ & E). injection E as <- _ _ _. intros E. discriminate E.
Qed.


(** A rebuild of a range aggregates every day of it, once. *)
Lemma days_processed fuel mode n m clientId w l w' : regular_day n -> regular_day (m + 1) -> n <= m + 1 -> fuel = Z.to_nat (m - n + 1) ->
  rebuild_days fuel mode (Some (n * ms_per_day)) (m * ms_per_day) clientId w = (Ok l, w') -> Z.of_nat (length l) = m - n + 1.
Proof.
  intros Hn Hm Hle ->. remember (Z.to_nat (m - n + 1)) as fuel eqn:Ef. revert n Hn Hle Ef w l w'.
  induction fuel as [|k IH]; intros n Hn Hle Ef w l w'; cbn [rebuild_days].
  - intros [= <- _]. cbn. lia.
  - destruct (Z.leb_spec (n * ms_per_day) (m * ms_per_day)) as [Hc|Hc]; [|unfold ms_per_day in Hc; lia].
    rewrite set_date_shift by (unfold regular_day in *; lia). intros (s & w1 & _ & E)%bind_ok. apply bind_ok in E as (rest & w2 & E & E2). injection E2 as <- _.
    apply (IH (n + 1)) in E; [cbn [length]; lia|unfold regular_day in *; lia|lia|lia].
Qed.

(** A rebuild of the days [n] to [m] that returns has aggregated each of them, once. *)
Theorem rebuild_covers_range mode from to clientId w s w' n m :
  normalizeReportDateRange from to = Ok (Some (n * ms_per_day), Some (m * ms_per_day)) ->
  regular_day n -> regular_day (m + 1) -> n <= m -> rebuild mode from to clientId w = (Ok s, w') -> Z.of_nat (daysProcessed s) = m - n + 1.
Proof.
  intros Hr Hn Hm Hle. unfold rebuild. destruct (_ || _); [discriminate|]. rewrite Hr. cbn [lift]. unfold bind at 1, ret at 1.
  intros (deleted & w1 & _ & E)%bind_ok. apply bind_ok in E as (l & w2 & E & E2). injection E2 as <- _. cbn [daysProcessed].
  apply (days_processed _ _ n m) in E; [exact E|exact Hn|exact Hm|lia|].
  f_equal. replace (m * ms_per_day - n * ms_per_day) with ((m - n) * ms_per_day) by ring. rewrite Z.div_mul; [reflexivity|discriminate].
Qed.
End Facts.
End AggregationFacts.
