(* ===== verification/Promotion.v ===== *)
(** * From a staged row to an order and a conversion

    [modules/reporting/services/conversionPromotion.service.js], with [parseNetworkSource] of
    [modules/supplier/entityIdentity.js] and [extractOptimiseConversionFields] of
    [modules/supplier/mappers/optimise.mapper.js]: a staged conversion is mapped, its order stored, the
    conversion stored and attributed, page by page over the staged rows.  The sources of a campaign
    are the field [campaignSources] of its row; durations are left out. *)

From Stdlib Require Import SpecFloat.
From S2P Require Import Prelude JsNum JsVal JsDate OrderStatus Store Accounts Exceptions Finance Validation Ingestion Attribution.
Import StatusNormalization ExceptionCases LedgerFacts ValidationService IngestionContract OrderIngestion AttributionLogic Attribution.
Local Open Scope Z_scope.

Module Mapping.
Section Mapping.
Context {H : JsHost}.

(** ** [parseNetworkSource]: supplier and region *)
Definition parseNetworkSource (networkSource : jsval) : string * string :=
  let source := to_lower (js_string (networkSource ?? JStr "")) in
  let named l := existsb (String.eqb source) l in
  if named ["boostiny"] then ("BOOSTINY", "GLOBAL")
  else if named ["trackier"; "vcommission"] then ("TRACKIER", "GLOBAL")
  else if named ["partnerize"] then ("PARTNERIZE", "GLOBAL")
  else if named ["impact"; "impact_com"; "mediapartner"] then ("IMPACT", "GLOBAL")
  else if named ["awin"] then ("AWIN", "GLOBAL")
  else if named ["admitad"] then ("ADMITAD", "GLOBAL")
  else if named ["cj"] then ("CJ", "GLOBAL")
  else if named ["rakuten"] then ("RAKUTEN", "GLOBAL")
  else if starts_with "optimise_" source then
    let region := to_upper (string_drop 9 source) in
    ("OPTIMISE", if existsb (String.eqb region) ["SEA"; "MENA"; "UK"; "GLOBAL"] then region else "UNKNOWN")
  else if starts_with "optimise" source then ("OPTIMISE", "UNKNOWN")
  else ("UNKNOWN", "UNKNOWN").

(** ** Amounts and dates *)

(** [Number.isFinite(Number(v)) ? Number(v) : null] *)
Definition finite_or_null (v : jsval) : option num := let n := js_number v in if is_finite n then Some n else None.
(** [toNumberOrNull], and [moneyAmount] of the mapper: an object gives its [amount]. *)
Fixpoint toNumberOrNull (value : jsval) : option num :=
  match value with
  | JObj fields =>
      (fix amount (fs : list (string * jsval)) : option num :=
         match fs with
         | [] => None
         | (k, v) :: rest => if k =s? "amount" then (if nullish v then None else toNumberOrNull v) else amount rest
         end) fields
  | _ => if blank value then None else finite_or_null value
  end.
Definition moneyAmount : jsval -> option num := toNumberOrNull.
Definition toDateOrNull (value : jsval) : option Z := if truthy value then new_date value else None.

(** ** [extractOptimiseConversionFields] *)

Record optimise_fields := OptimiseFields {
  o_supplierConversionId : jsval; o_supplierOrderId : jsval; o_supplierCampaignId : jsval; o_publisherCampaignId : jsval;
  o_campaignName : jsval; o_advertiserName : jsval; o_supplierCommission : option num; o_approvedCommission : option num;
  o_orderValue : option num; o_currency : jsval; o_conversionDate : jsval; o_status : jsval;
  o_assignmentIdHint : jsval; o_clientIdHint : jsval; o_couponCode : jsval
}.
Definition object_of (v : jsval) : jsval := if is_object v then v else JObj [].
Definition extractOptimiseConversionFields (raw : jsval) : optimise_fields :=
  let row := as_object raw in
  let conversionValue := object_of row@."conversionValue" in
  let cost := object_of row@."cost" in
  OptimiseFields
    (text_or_null (first_of row ["conversionId"; "conversion_id"; "id"]))
    (text_or_null (first_of row ["orderId"; "order_id"; "originalOrderId"; "merchantOrderId"]))
    (text_or_null (first_of row ["campaignId"; "campaign_id"; "productId"]))
    (text_or_null (first_of row ["publisherCampaignId"; "publisher_campaign_id"]))
    (first_of row ["campaignName"; "campaign_name"; "campaignTypeName"])
    (first_of row ["advertiserName"; "advertiser_name"; "companyName"])
    (moneyAmount (first [row@."validatedCommission"; row@."pendingCommission"; row@."commissionValue"; cost@."amount"; row@."commission"]))
    (moneyAmount (first_of row ["validatedCommission"; "approvedCommission"]))
    (moneyAmount (first [row@."originalOrderValue"; conversionValue@."amount"; row@."validatedItemValue"; row@."conversionValue"]))
    (first [row@."currency"; cost@."currency"; conversionValue@."currency"; row@."currencyCode"; row@."publisherCurrencyCode"])
    (first_of row ["conversionDate"; "conversion_date"; "date"])
    (first_of row ["status"; "paymentStatus"])
    (first_of row ["UID2"; "uid2"]) (first_of row ["UID"; "uid"])
    (first_of row ["voucher"; "coupon"; "couponCode"; "coupon_code"]).

(** ** [mapEntityToConversionIngest] *)

Definition optimise_value (o : option optimise_fields) (f : optimise_fields -> jsval) : jsval := match o with Some x => f x | None => JUndef end.
Definition optimise_amount (o : option optimise_fields) (f : optimise_fields -> option num) : option num := match o with Some x => f x | None => None end.
Definition or_amount (a : option num) (v : jsval) : option num := match a with Some n => Some n | None => toNumberOrNull v end.
(** A hint that the network's row did not give. *)
Definition fill_hint (k : string) (v hints : jsval) : jsval :=
  if truthy v && negb (truthy (prop hints k)) then with_prop hints k (JStr (js_string v)) else hints.
Definition promotion_hints (o : option optimise_fields) (raw : jsval) : jsval :=
  fill_hint "couponCode" (optimise_value o o_couponCode)
    (fill_hint "clientId" (optimise_value o o_clientIdHint)
       (fill_hint "assignmentId" (optimise_value o o_assignmentIdHint) (extractAttributionHints raw))).

Definition supplier_commission (o : option optimise_fields) (raw normalized entity : jsval) : option num :=
  or_amount (optimise_amount o o_supplierCommission)
    (first [raw@."commission"; raw@."validatedCommission"; raw@."pendingCommission"; raw@."totalCommission"; raw@."commissionValue"; raw@."payout";
            raw@."Payout"; raw@."ActionEarnings"; raw@."payout_value"; raw@."cost"@."amount"; raw@."commission"@."amount"; raw@."payout"@."amount";
            raw@."net_revenue"; raw@."revenue"; normalized@."commission"; entity@."commission"]).
Definition approved_commission (o : option optimise_fields) (raw : jsval) : option num :=
  or_amount (optimise_amount o o_approvedCommission) (first_of raw ["validatedCommission"; "approvedCommission"]).
Definition raw_status_value (o : option optimise_fields) (raw normalized entity : jsval) : jsval :=
  first [optimise_value o o_status; raw@."status"; raw@."State"; raw@."state"; raw@."paymentStatus"; raw@."PaymentStatus"; normalized@."status"; entity@."entityStatus"].
Definition conversion_date (o : option optimise_fields) (raw entity : jsval) : option Z :=
  toDateOrNull (first [optimise_value o o_conversionDate; raw@."conversionDate"; raw@."conversion_date"; raw@."EventDate"; raw@."CreationDate"; raw@."date";
                       raw@."created"; raw@."createdAt"; entity@."eventDate"]).
Definition conversion_currency (o : option optimise_fields) (raw : jsval) : jsval :=
  let c := first [optimise_value o o_currency; raw@."currency"; raw@."Currency"; raw@."PayoutCurrency"; raw@."currencyCode"; raw@."cost"@."currency";
                  raw@."conversionValue"@."currency"; raw@."transactionValue"@."currency"; raw@."commission"@."currency"] in
  if truthy c then JStr (to_upper (slice 0 3 (js_string c))) else JNull.
Definition order_value (o : option optimise_fields) (raw normalized entity : jsval) : option num :=
  or_amount (optimise_amount o o_orderValue)
    (first [raw@."originalOrderValue"; raw@."conversionValue"@."amount"; raw@."validatedItemValue"; raw@."net_sales_amount"; raw@."sales_amount";
            raw@."net_sales_amount_usd"; raw@."sales_amount_usd"; raw@."saleAmount"; raw@."SaleAmount"; raw@."transactionValue"@."amount";
            normalized@."revenue"; entity@."revenue"]).
Definition supplier_order_id (o : option optimise_fields) (raw : jsval) : jsval :=
  text_or_null (first (optimise_value o o_supplierOrderId :: map (prop raw)
    ["orderId"; "order_id"; "Oid"; "OrderId"; "supplierOrderId"; "supplier_order_id"; "originalOrderId"; "merchantOrderId"])).
Definition supplier_campaign_id (o : option optimise_fields) (raw : jsval) : jsval :=
  text_or_null (first (optimise_value o o_supplierCampaignId :: map (prop raw) ["campaignId"; "campaign_id"; "productId"])).
Definition publisher_campaign_id (o : option optimise_fields) (raw : jsval) : jsval :=
  text_or_null (first (optimise_value o o_publisherCampaignId :: map (prop raw) ["publisherCampaignId"; "publisher_campaign_id"])).
Definition campaign_name (o : option optimise_fields) (raw normalized entity : jsval) : jsval :=
  text_or_null (first [optimise_value o o_campaignName; entity@."campaignName"; raw@."campaignName"; raw@."campaign_name"; normalized@."campaign_name"]).
Definition advertiser_name (o : option optimise_fields) (raw entity : jsval) : jsval :=
  text_or_null (first [optimise_value o o_advertiserName; entity@."advertiserName"; raw@."advertiserName"; raw@."advertiser_name"; raw@."companyName"]).

Definition resolution_value (r : resolution) : jsval := JObj
  [("networkRawStatus", of_option_str (networkRawStatus r)); ("mboOrderStatus", resolved r);
   ("mappingExceptionRequired", JBool (mappingExceptionRequired r)); ("mappingStatus", JStr (mappingStatus r));
   ("mappingReason", of_option_str (mappingReason r))].
Definition is_confirmed (r : resolution) : bool := resolved r === "CONFIRMED".

Definition ingest_metadata (o : option optimise_fields) (entity raw normalized hints : jsval) (supplier label id : string) (r : resolution) (date now : Z) : jsval :=
  let advertiser := advertiser_name o raw entity in
  enrichConversionIngestMetadata
    (buildOrderStatusMetadata (JObj ([("entityId", entity@."id"); ("networkSource", entity@."networkSource"); ("externalId", entity@."externalId");
        ("attributionHints", hints); ("couponCode", hints@."couponCode"); ("country", raw@."country" ?? JNull)]
      ++ (if supplier =s? "BOOSTINY" then [("businessCategoryLabel", raw@."business_category_label" ?? JNull)] else [])
      ++ [("orderValue", of_option_num (order_value o raw normalized entity)); ("supplierOrderId", supplier_order_id o raw);
          ("supplierCampaignId", supplier_campaign_id o raw); ("publisherCampaignId", publisher_campaign_id o raw);
          ("campaignName", campaign_name o raw normalized entity); ("advertiserName", advertiser); ("merchantName", advertiser);
          ("confirmedDate", if is_confirmed r then JStr (to_iso_string date) else JNull);
          ("rawStatus", of_option_str (networkRawStatus r)); ("promotedAt", JStr (to_iso_string now))])) (resolution_value r))
    (JObj [("supplier", JStr supplier); ("sourceAccountLabel", JStr label); ("supplierConversionId", JStr id)]).

(** What is ingested, or why nothing is. *)
Definition mapEntityToConversionIngest (entity : jsval) (now : Z) : jsval + string :=
  let raw := as_object entity@."rawData" in
  let normalized := as_object entity@."normalizedData" in
  let supplier := (parseNetworkSource entity@."networkSource").1 in
  let label := (parseSourceAccountLabel entity@."externalId").1 in
  match assertPromotableConversionIdentity entity with
  | inr reason => inr reason
  | inl id =>
      if supplier =s? "UNKNOWN" then inr "unknown_supplier"
      else
        let o := if supplier =s? "OPTIMISE" then Some (extractOptimiseConversionFields raw) else None in
        let hints := promotion_hints o raw in
        match supplier_commission o raw normalized entity with
        | None => inr "missing_supplier_commission"
        | Some commission =>
            if nltb commission n0 then inr "negative_supplier_commission"
            else
              let r := resolve_status (raw_status_value o raw normalized entity) (JStr supplier) in
              let status := match mapMboOrderStatusToConversionStatus (resolved r) with
                            | Some s => s
                            | None => if mappingExceptionRequired r then "UNKNOWN" else "PENDING"
                            end in
              match conversion_date o raw entity with
              | None => inr "missing_conversion_date"
              | Some date =>
                  let currency := conversion_currency o raw in
                  inl (JObj
                    [("supplier", JStr supplier); ("supplierConversionId", JStr id); ("sourceAccountLabel", JStr label);
                     ("clickId", hints@."clickId"); ("subId", hints@."subId"); ("trackingLinkId", JNull);
                     ("supplierCommission", JStr (num_toFixed 4 commission));
                     ("approvedCommission", match approved_commission o raw with Some a => JStr (num_toFixed 4 a) | None => JNull end);
                     ("currency", currency); ("status", JStr status); ("conversionDate", JDate (Some date));
                     ("approvedDate", if is_confirmed r then JDate (Some date) else JNull);
                     ("metadata", ingest_metadata o entity raw normalized hints supplier label id r date now);
                     ("_assignmentIdHint", hints@."assignmentId");
                     ("_order", JObj
                        [("supplierOrderId", supplier_order_id o raw); ("supplierConversionId", JStr id);
                         ("orderValue", of_option_num (order_value o raw normalized entity)); ("currency", currency);
                         ("orderDate", JDate (Some date)); ("networkRawStatus", of_option_str (networkRawStatus r)); ("mboOrderStatus", resolved r);
                         ("statusMappingExceptionRequired", JBool (mappingExceptionRequired r)); ("items", JArr (mapRawOrderItems raw))])])
              end
        end
  end.

End Mapping.
End Mapping.

Module Promotion.
Import Mapping.

Record catalog_links := CatalogLinks { c_merchantId : jsval; c_canonicalCampaignId : jsval; c_campaignSourceId : jsval; c_campaignName : jsval; c_merchantName : jsval }.
Definition no_links : catalog_links := CatalogLinks JNull JNull JNull JNull JNull.
Inductive promotion :=
| Promoted (conversionId orderId attributionStatus entityId rawPayloadId : jsval)
| Skipped (reason : string)
| Failed (reason : string) (entityId : jsval).

Section Service.
Context {H : JsHost} {D : Database} {F : FinanceService}.

(** *** [resolveOrderCatalogLinks] *)

(** [take: 1, orderBy: [{ isPrimary: "desc" }, { updatedAt: "desc" }]] *)
Definition primary_source (sc : jsval) : jsval :=
  row_or_null (hd_error (sort_by (fun a b =>
    let pa := is_true a@."isPrimary" in let pb := is_true b@."isPrimary" in
    (pa && negb pb) || (Bool.eqb pa pb && (date_of b@."updatedAt" <=? date_of a@."updatedAt"))) (as_array sc@."campaignSources"))).
Definition campaign_by_ids (supplier : jsval) (ids : list jsval) (w : world) : jsval :=
  row_or_null (List.find (fun r => col_eq r@."supplier" supplier && existsb (fun i => col_eq r@."supplierCampaignId" (JStr (js_string i))) ids)
                 (rows w TSupplierCampaign)).
(** The campaign of the coupon that was synced last. *)
Definition campaign_of_coupon (supplier couponCode : jsval) (w : world) : jsval :=
  let campaign c := row_or_null (List.find (has_id c@."supplierCampaignId") (rows w TSupplierCampaign)) in
  let coupons := List.filter (fun c => same_code (JStr (trim (js_string couponCode))) c@."couponCode" && col_eq (campaign c)@."supplier" supplier)
                   (rows w TSupplierCoupon) in
  match hd_error (sort_by (fun a b => date_of b@."lastSyncedAt" <=? date_of a@."lastSyncedAt") coupons) with
  | Some c => campaign c
  | None => JNull
  end.
Definition resolveOrderCatalogLinks (supplier supplierCampaignId publisherCampaignId couponCode : jsval) (w : world) : catalog_links :=
  let ids := List.filter truthy [supplierCampaignId; publisherCampaignId] in
  let sc := match ids with [] => JNull | _ => campaign_by_ids supplier ids w end in
  let sc := if negb (truthy sc) && truthy couponCode then campaign_of_coupon supplier couponCode w else sc in
  let source := primary_source sc in
  CatalogLinks (sc@."merchantId" |or| sc@."merchant"@."id" |or| JNull) (source@."canonicalCampaignId" |or| JNull) (source@."id" |or| JNull)
    (sc@."campaignName" |or| JNull) (sc@."merchant"@."displayName" |or| sc@."merchantNameRaw" |or| JNull).

(** [findLatestRawPayloadForEntity] *)
Definition latest_payload (entityId : jsval) (w : world) : jsval :=
  if negb (truthy entityId) then JNull
  else row_or_null (hd_error (sort_by (fun a b =>
    (date_of b@."receivedAt" <? date_of a@."receivedAt")
    || ((date_of a@."receivedAt" =? date_of b@."receivedAt") && (date_of b@."createdAt" <=? date_of a@."createdAt")))
    (List.filter (fun r => col_eq r@."entityId" entityId) (rows w TRawPayload)))).

(** *** [promoteEntity] *)

Definition MISSING_IDS : list string := ["missing_network_conversion_id"; "missing_supplier_conversion_id"].
Definition report_skipped (entity : jsval) (reason : string) : prog world unit :=
  if existsb (String.eqb reason) MISSING_IDS
  then try_report (JObj [("type", JStr "MISSING_SUPPLIER_CONVERSION_ID"); ("severity", JStr "HIGH"); ("entityId", entity@."id"); ("reason", JStr reason);
                         ("metadata", JObj [("networkSource", entity@."networkSource"); ("externalId", entity@."externalId")])])
  else ret tt.

Definition order_input (entity input : jsval) (catalog : catalog_links) (rawRow : jsval) : jsval :=
  let facts := input@."_order" in
  let meta := as_object input@."metadata" in
  let rawStatus := facts@."networkRawStatus" ?? meta@."network_raw_status" ?? JNull in
  let mboStatus := facts@."mboOrderStatus" ?? meta@."mboOrderStatus" ?? JNull in
  let exceptionRequired := facts@."statusMappingExceptionRequired" ?? JBool false in
  JObj [("supplier", input@."supplier"); ("sourceAccountLabel", input@."sourceAccountLabel"); ("supplierOrderId", facts@."supplierOrderId");
        ("supplierConversionId", input@."supplierConversionId"); ("orderValue", facts@."orderValue"); ("currency", facts@."currency");
        ("orderDate", facts@."orderDate"); ("networkRawStatus", rawStatus); ("mboOrderStatus", mboStatus);
        ("statusMappingExceptionRequired", exceptionRequired); ("items", facts@."items"); ("rawPayloadId", rawRow@."id" ?? JNull);
        ("merchantId", c_merchantId catalog); ("canonicalCampaignId", c_canonicalCampaignId catalog); ("campaignSourceId", c_campaignSourceId catalog);
        ("metadata", buildOrderStatusMetadata (JObj
           [("entityId", entity@."id"); ("networkSource", entity@."networkSource"); ("couponCode", meta@."couponCode" ?? JNull);
            ("supplierCampaignId", meta@."supplierCampaignId" ?? JNull); ("publisherCampaignId", meta@."publisherCampaignId" ?? JNull);
            ("campaignName", meta@."campaignName" |or| c_campaignName catalog |or| JNull);
            ("advertiserName", meta@."advertiserName" |or| c_merchantName catalog |or| JNull);
            ("merchantName", meta@."merchantName" |or| c_merchantName catalog |or| JNull);
            ("confirmedDate", meta@."confirmedDate" ?? JNull); ("rawStatus", meta@."rawStatus" ?? meta@."network_raw_status" ?? JNull);
            ("dedupeKey", of_option_str (buildConversionDedupeKey input@."supplier" input@."sourceAccountLabel" input@."supplierConversionId" JUndef));
            ("networkConversionId", input@."supplierConversionId")])
           (JObj [("networkRawStatus", rawStatus); ("mboOrderStatus", mboStatus); ("mappingExceptionRequired", exceptionRequired)]))].

Definition promote_mapped (entity input : jsval) : prog world promotion :=
  let! rawRow := gets (latest_payload entity@."id") in
  let meta := as_object input@."metadata" in
  let! catalog := gets (resolveOrderCatalogLinks input@."supplier" meta@."supplierCampaignId" meta@."publisherCampaignId" meta@."couponCode") in
  let! order := upsertOrder (order_input entity input catalog rawRow) in
  let! conversion := ingestConversion
    (spread input (JObj [("orderId", order@."id" ?? JNull); ("rawPayloadId", rawRow@."id" ?? input@."rawPayloadId" ?? JNull)])) in
  (if truthy rawRow@."id"
   then catch (update_row TRawPayload rawRow@."id" [("processingStatus", JStr "PROMOTED"); ("entityId", entity@."id")] ;; ret tt) (fun _ => ret tt)
   else ret tt) ;;
  ret (Promoted (conversion@."id" ?? JNull) (order@."id" ?? JNull) (conversion@."attributionStatus" ?? JNull) entity@."id" (rawRow@."id" ?? JNull)).
Definition promoteEntity (entity : jsval) : prog world promotion :=
  if negb (isPromotableConversionRow entity) then ret (Skipped "not_promotable")
  else
    let! now := get_now in
    match mapEntityToConversionIngest entity now with
    | inr reason => report_skipped entity reason ;; ret (Skipped reason)
    | inl input => catch (promote_mapped entity input) (fun e => ret (Failed (err_message e) entity@."id"))
    end.

(** *** Pages *)

Record page_summary := PageSummary { processed : nat; promoted : nat; skipped : nat; failed : nat; lastCursor : jsval; hasMore : bool }.
Definition empty_page : page_summary := PageSummary 0 0 0 0 JNull false.
Definition tally_outcome (s : page_summary) (o : promotion) : page_summary :=
  match o with
  | Promoted _ _ _ _ _ => PageSummary (S (processed s)) (S (promoted s)) (skipped s) (failed s) (lastCursor s) (hasMore s)
  | Failed _ _ => PageSummary (S (processed s)) (promoted s) (skipped s) (S (failed s)) (lastCursor s) (hasMore s)
  | Skipped _ => PageSummary (S (processed s)) (promoted s) (S (skipped s)) (failed s) (lastCursor s) (hasMore s)
  end.
Definition id_text (r : jsval) : string := js_string r@."id".
Definition id_before (a b : string) : bool := match String.compare a b with Lt => true | _ => false end.
(** The [where] of a page: [id: { gt: cursorId }] replaces [id: { in: entityIds }]. *)
Definition in_page (networkSource : jsval) (entityIds : list string) (cursorId : jsval) (e : jsval) : bool :=
  (e@."entityType" === "conversion")
  && (negb (truthy networkSource) || col_eq e@."networkSource" networkSource)
  && (if truthy cursorId then id_before (js_string cursorId) (id_text e)
      else match entityIds with [] => true | _ => existsb (String.eqb (id_text e)) entityIds end).
Definition page_rows (networkSource : jsval) (entityIds : list string) (cursorId : jsval) (w : world) : list jsval :=
  sort_by (fun a b => negb (id_before (id_text b) (id_text a))) (List.filter (in_page networkSource entityIds cursorId) (rows w TEntity)).

Definition runPage (networkSource : jsval) (entityIds : list string) (batchSize : nat) (cursorId : jsval) : prog world page_summary :=
  let! batch := gets (fun w => firstn batchSize (page_rows networkSource entityIds cursorId w)) in
  match last batch with
  | None => ret empty_page
  | Some final =>
      let! outcomes := collect batch promoteEntity in
      let s := fold_left tally_outcome outcomes empty_page in
      ret (PageSummary (processed s) (promoted s) (skipped s) (failed s) final@."id" (batchSize <=? length batch)%nat)
  end.

Record run_summary := RunSummary { r_processed : nat; r_promoted : nat; r_skipped : nat; r_failed : nat }.
Definition add_page (s : run_summary) (p : page_summary) : run_summary :=
  RunSummary (r_processed s + processed p) (r_promoted s + promoted p) (r_skipped s + skipped p) (r_failed s + failed p).
Fixpoint run_pages (fuel : nat) (networkSource : jsval) (entityIds : list string) (batchSize : nat) (cursorId : jsval) (s : run_summary) : prog world (option run_summary) :=
  match fuel with
  | O => ret None
  | S k =>
      let! page := runPage networkSource entityIds batchSize cursorId in
      let s := add_page s page in
      if negb (hasMore page) then ret (Some s) else run_pages k networkSource entityIds batchSize (lastCursor page) s
  end.
Definition no_pages : run_summary := RunSummary 0 0 0 0.
(** One page for every staged row, and the empty page at the end, are enough. *)
Definition run (networkSource : jsval) (entityIds : list string) (batchSize : nat) (cursorId : jsval) : prog world (option run_summary) :=
  let! n := gets (fun w => length (rows w TEntity)) in
  run_pages (S n) networkSource entityIds batchSize cursorId no_pages.

End Service.
End Promotion.

(** ** The walk over the staged rows *)

Module PromotionFacts.
Import Mapping Promotion.
Section Facts.
Context {H : JsHost} {D : Database} {F : FinanceService}.

(** *** A promotion never throws, and leaves the staged rows alone *)

Definition same_entities (w w' : world) : Prop := rows w' TEntity = rows w TEntity.
#[local] Instance same_entities_preorder : PreOrder same_entities.
Proof. split; [now intros w|]. intros w1 w2 w3 H12 H23. unfold same_entities in *. congruence. Qed.
Lemma only_entities {A} t (c : prog world A) : t <> TEntity -> tracks (only t) c -> tracks same_entities c.
Proof. intros Ht Hc w. apply Hc. congruence. Qed.
Lemma within_entities {A} ts (c : prog world A) : TEntity ∉ ts -> tracks (within ts) c -> tracks same_entities c.
Proof. intros Ht Hc w. now apply Hc. Qed.
Lemma ledger_entities {A} (c : prog world A) : tracks ledger_step c -> tracks same_entities c.
Proof. intros Hc w. apply (step_within _ _ (Hc w)). compute_done. Qed.
Lemma update_entities t id data : t <> TEntity -> tracks same_entities (update_row t id data).
Proof. intros Ht. eapply only_entities; [exact Ht|apply update_row_only]. Qed.
Lemma create_entities t data : t <> TEntity -> tracks same_entities (create_row t data).
Proof. intros Ht. eapply only_entities; [exact Ht|apply create_row_only]. Qed.
Lemma audit_entities e : tracks same_entities (audit_record e).
Proof. eapply only_entities; [|apply audit_record_only]. discriminate. Qed.
Lemma report_entities i : tracks same_entities (report i).
Proof. eapply within_entities; [|apply ExceptionFacts.report_within]. compute_done. Qed.
Lemma keyed_entities t k data : t <> TEntity -> tracks same_entities (create_keyed t k data).
Proof. intros Ht w. unfold create_keyed. destruct (existsb _ _); [reflexivity|]. now apply create_entities. Qed.
Lemma linked_entities {A} (p : world -> bool) e (c : prog world A) : tracks same_entities c -> tracks same_entities (fun w => if p w then c w else (Throw e, w)).
Proof. intros Hc w. destruct (p w); [apply Hc|reflexivity]. Qed.
Lemma finance_entities : (forall o c, tracks same_entities (finance_recognize o c)) /\ (forall c o r, tracks same_entities (finance_reverse c o r)) /\
  (forall o r, tracks same_entities (finance_sync o r)).
Proof. split_and!; intros; apply ledger_entities; [apply finance_recognize_steps|apply finance_reverse_steps|apply finance_sync_steps]. Qed.

Lemma update_conversion_entities id data : tracks same_entities (update_conversion id data).
Proof. apply linked_entities, update_entities. discriminate. Qed.
Lemma create_conversion_entities data : tracks same_entities (create_conversion data).
Proof. apply linked_entities, keyed_entities. discriminate. Qed.
Ltac entities := track; first [apply update_conversion_entities|apply create_conversion_entities|apply report_entities|apply audit_entities
  |apply update_entities; discriminate|apply create_entities; discriminate|apply keyed_entities; discriminate|apply (proj1 finance_entities)
  |apply (proj1 (proj2 finance_entities))|apply (proj2 (proj2 finance_entities))].
Lemma attribute_entities i h c : tracks same_entities (attributeConversion i h c).
Proof.
  unfold attributeConversion, findUnique, find_where, reject_wrong_client, require_review, leave_orphan, attribute_resolved, split_commission, commission_problem, enrich_order, try_report.
  entities.
Qed.
Lemma ingest_entities input : tracks same_entities (ingestConversion input).
Proof.
  unfold ingestConversion, findBySupplierKey, find_where. track;
    [apply update_conversion_entities|apply create_conversion_entities|apply attribute_entities].
Qed.
Lemma transition_entities id to reason actor sync : tracks same_entities (transition id to reason actor sync).
Proof. unfold transition, findUnique, find_where, findMany, apply_transition, get_now, report_late, finance_calls, attempt. entities. Qed.
Lemma items_entities orderId index items : tracks same_entities (upsert_items orderId index items).
Proof.
  revert index. induction items as [|x items IH]; intros index; cbn [upsert_items]; [track|].
  unfold upsert_item, find_line, find_where. entities.
Qed.
Lemma order_entities input : tracks same_entities (upsertOrder input).
Proof.
  unfold upsertOrder, report_unknown_supplier, report_missing_id, findByBusinessKey, find_where, announce, attempt, report_evidence, report_unmapped, find_or_create,
    get_now, report_duplicate, complete, merge_order, report_conflicts, enrich_validation, enrich_payment, upsertItems, with_lines, findMany, findUnique, find_where.
  track; unfold findByBusinessKey, find_where, get_now; track;
    first [apply transition_entities|apply items_entities|apply report_entities|apply audit_entities|apply update_entities; discriminate|apply keyed_entities; discriminate].
Qed.
Lemma promote_entities e : tracks same_entities (promoteEntity e).
Proof.
  unfold promoteEntity, get_now, report_skipped, try_report, promote_mapped.
  track; first [apply report_entities|apply order_entities|apply ingest_entities|apply update_entities; discriminate].
Qed.

Lemma promote_returns e w : exists o w', promoteEntity e w = (Ok o, w') /\ same_entities w w'.
Proof.
  pose proof (promote_entities e w) as Hs.
  assert (Ho : exists o, (promoteEntity e w).1 = Ok o).
  { unfold promoteEntity. destruct (negb _); [eexists; reflexivity|]. unfold get_now. rewrite bind_gets.
    destruct (mapEntityToConversionIngest e (now w)) as [input|reason].
    - unfold catch. destruct (promote_mapped e input w) as [[o|x] w1]; eexists; reflexivity.
    - unfold report_skipped, bind. destruct (existsb _ _); [|eexists; reflexivity].
      destruct (try_report _ w) as [r w1] eqn:E. apply AttributionFacts.try_report_ok in E as ->. eexists. reflexivity. }
  destruct Ho as [o Ho]. exists o, (promoteEntity e w).2. split; [|exact Hs]. destruct (promoteEntity e w) as [r w1]. cbn in Ho. now subst r.
Qed.
Lemma collect_returns l w : exists os w', collect l promoteEntity w = (Ok os, w') /\ length os = length l /\ same_entities w w'.
Proof.
  revert w. induction l as [|e l IH]; intros w; cbn [collect]; [exists [], w; now split_and!|].
  destruct (promote_returns e w) as (o & w1 & E1 & S1). destruct (IH w1) as (os & w2 & E2 & L2 & S2). exists (o :: os), w2.
  unfold bind. rewrite E1, E2. split_and!; [reflexivity|cbn; now rewrite L2|now transitivity w1].
Qed.

(** *** The order of the staged rows *)

Record staged (w : world) : Prop := Staged {
  staged_ids : Forall (fun r => exists s, r@."id" = JStr s /\ s <> "") (rows w TEntity);
  staged_distinct : NoDup (map id_text (rows w TEntity))
}.
Definition id_le (a b : jsval) : bool := negb (id_before (id_text b) (id_text a)).
Definition id_lt (a b : jsval) : Prop := id_before (id_text a) (id_text b) = true.
Lemma id_le_leb a b : id_le a b = String.leb (id_text a) (id_text b).
Proof. unfold id_le, id_before, String.leb. rewrite String.compare_antisym. now destruct (String.compare (id_text a) (id_text b)). Qed.
Lemma id_le_total a b : id_le a b = true \/ id_le b a = true.
Proof. rewrite !id_le_leb. apply String.leb_total. Qed.
Lemma id_le_trans a b c : id_le a b = true -> id_le b c = true -> id_le a c = true.
Proof. rewrite !id_le_leb. intros Hab Hbc. apply Is_true_true. apply (transitivity (R := String.le) (y := id_text b)); now apply Is_true_true. Qed.
Lemma id_before_irrefl s : id_before s s = false.
Proof. unfold id_before. pose proof (String.compare_antisym s s) as Hs. now destruct (String.compare s s). Qed.
Lemma id_lt_not_before a b : id_lt a b -> id_before (id_text b) (id_text a) = false.
Proof. unfold id_lt, id_before. rewrite (String.compare_antisym (id_text b)). now destruct (String.compare _ _). Qed.
Lemma id_le_lt a b : id_le a b = true -> id_text a <> id_text b -> id_lt a b.
Proof.
  unfold id_le, id_lt, id_before. rewrite (String.compare_antisym (id_text b)). intros Hle Hne.
  destruct (String.compare (id_text a) (id_text b)) eqn:E; cbn in Hle; [|reflexivity|discriminate]. now apply String.compare_eq_iff in E.
Qed.
Lemma sorted_strictly l : StronglySorted (fun a b => id_le a b = true) l -> NoDup (map id_text l) -> StronglySorted id_lt l.
Proof.
  induction 1 as [|x l Hs IH Hx]; [constructor|]. cbn. intros [Hn Hd]%NoDup_cons. constructor; [now apply IH|].
  rewrite Forall_forall in *. intros y Hy. apply id_le_lt; [now apply Hx|]. intros E. apply Hn. rewrite E. now apply list_elem_of_fmap_2.
Qed.
Lemma after_row pre x post : StronglySorted id_lt (pre ++ x :: post) ->
  List.filter (fun r => id_before (id_text x) (id_text r)) (pre ++ x :: post) = post.
Proof.
  induction pre as [|y pre IH]; cbn; intros [Hs Hx]%StronglySorted_inv.
  - rewrite id_before_irrefl. rewrite (List.filter_ext_in _ (fun _ => true)); [apply List.filter_true|]. intros r Hr. rewrite List.Forall_forall in Hx. now apply Hx.
  - apply Forall_app in Hx as [_ [Hy _]%Forall_cons]. rewrite (id_lt_not_before y x Hy). now apply IH.
Qed.

Lemma page_rows_all ns w : staged w -> StronglySorted id_lt (page_rows ns [] JUndef w).
Proof.
  intros [_ Hd]. apply sorted_strictly.
  - apply (sort_by_sorted _ (fun _ => True)); [intros; apply id_le_total|intros a b c _ _ _; apply id_le_trans|]. now apply List.Forall_forall.
  - unfold page_rows. rewrite sort_by_perm. revert Hd. generalize (rows w TEntity). induction l as [|x l IH]; [intros; constructor|].
    cbn. intros [Hn Hd]%NoDup_cons. destruct (in_page _ _ _ x); [|now apply IH]. cbn. apply NoDup_cons. split; [|now apply IH].
    intros (y & E & [Hy _]%elem_of_filter_bool)%list_elem_of_fmap. apply Hn. rewrite E. now apply list_elem_of_fmap_2.
Qed.
(** A page asks for the rows behind the cursor, among all the rows of the walk. *)
Lemma page_rows_cursor ns x w : truthy x@."id" = true ->
  page_rows ns [] x@."id" w = List.filter (fun r => id_before (id_text x) (id_text r)) (page_rows ns [] JUndef w).
Proof.
  intros Hx. unfold page_rows. rewrite <- (sort_by_filter _ (fun _ => True)); [|intros; apply id_le_total|intros a b c _ _ _; apply id_le_trans|now apply List.Forall_forall].
  f_equal. assert (Hin : forall r, in_page ns [] x@."id" r = in_page ns [] JUndef r && id_before (id_text x) (id_text r))
    by (intros r; unfold in_page; rewrite Hx; cbn; now rewrite andb_true_r).
  induction (rows w TEntity) as [|r l IH]; [reflexivity|]. cbn [List.filter]. rewrite Hin, IH.
  destruct (in_page ns [] JUndef r); cbn; [|reflexivity]. now destruct (id_before _ _).
Qed.
Lemma page_rows_same ns ids c w w' : same_entities w w' -> page_rows ns ids c w' = page_rows ns ids c w.
Proof. intros E. unfold page_rows. now rewrite E. Qed.
Lemma staged_same w w' : same_entities w w' -> staged w -> staged w'.
Proof. intros E [Hi Hd]. now split; rewrite E. Qed.
Lemma staged_cursor ns w x : staged w -> x ∈ page_rows ns [] JUndef w -> truthy x@."id" = true.
Proof.
  intros [Hi _] Hx. apply elem_of_sort_by, elem_of_filter_bool in Hx as [Hx _]. rewrite Forall_forall in Hi.
  destruct (Hi x Hx) as (s & -> & Hs). now destruct s.
Qed.

(** *** The pages of a walk are one pass over its rows *)

Definition tally (os : list promotion) : page_summary := fold_left tally_outcome os empty_page.
Lemma tally_add os s p : add_page s (fold_left tally_outcome os p) = add_page (add_page s p) (tally os).
Proof.
  revert s p. induction os as [|o os IH]; intros s p; cbn [tally fold_left].
  - destruct s; unfold add_page; cbn. f_equal; lia.
  - unfold tally. cbn [fold_left]. rewrite (IH s), (IH (add_page s p)). f_equal. destruct o; unfold add_page; cbn; f_equal; lia.
Qed.
Lemma add_no_page s : add_page s (tally []) = s.
Proof. destruct s. unfold add_page. cbn. f_equal; lia. Qed.
Lemma tally_app s os1 os2 : add_page s (tally (os1 ++ os2)) = add_page (add_page s (tally os1)) (tally os2).
Proof. unfold tally at 1. rewrite fold_left_app. apply tally_add. Qed.
Lemma collect_app l1 l2 w : collect (l1 ++ l2) promoteEntity w =
  (let! os1 := collect l1 promoteEntity in let! os2 := collect l2 promoteEntity in ret (os1 ++ os2)) w.
Proof.
  revert w. induction l1 as [|e l1 IH]; intros w; cbn [collect app].
  - unfold bind, ret. now destruct (collect l2 promoteEntity w) as [[os|x] w1].
  - destruct (promote_returns e w) as (o & w1 & E1 & _). unfold bind, ret in *. rewrite E1, IH.
    destruct (collect l1 promoteEntity w1) as [[os1|x] w2]; [|reflexivity]. now destruct (collect l2 promoteEntity w2) as [[os2|x] w3].
Qed.

Definition one_pass (l : list jsval) (s : run_summary) : prog world (option run_summary) :=
  let! os := collect l promoteEntity in ret (Some (add_page s (tally os))).
Lemma one_pass_app l1 l2 s w os w1 : collect l1 promoteEntity w = (Ok os, w1) -> one_pass (l1 ++ l2) s w = one_pass l2 (add_page s (tally os)) w1.
Proof.
  intros E. unfold one_pass, bind. rewrite collect_app. unfold bind, ret. rewrite E.
  destruct (collect l2 promoteEntity w1) as [[os2|x] w2]; [|reflexivity]. now rewrite tally_app.
Qed.
Lemma run_page ns n c x batch rest w : page_rows ns [] c w = (batch ++ [x]) ++ rest -> firstn n (page_rows ns [] c w) = batch ++ [x] ->
  exists os w1, collect (batch ++ [x]) promoteEntity w = (Ok os, w1) /\ same_entities w w1 /\
    runPage ns [] n c w = (Ok (PageSummary (processed (tally os)) (promoted (tally os)) (skipped (tally os)) (failed (tally os)) x@."id" (n <=? length (batch ++ [x]))%nat), w1).
Proof.
  intros Hp Hb. destruct (collect_returns (batch ++ [x]) w) as (os & w1 & E & _ & Hs). exists os, w1. split_and!; [exact E|exact Hs|].
  unfold runPage. rewrite bind_gets, Hb, last_snoc. unfold bind. now rewrite E.
Qed.

Lemma walk fuel ns n c s pre post w : (0 < n)%nat -> staged w -> page_rows ns [] JUndef w = pre ++ post -> page_rows ns [] c w = post ->
  (length post < fuel)%nat -> run_pages fuel ns [] n c s w = one_pass post s w.
Proof.
  intros Hn. revert c s pre post w. induction fuel as [|fuel IH]; intros c s pre post w Hst Hall Hpost Hf; [lia|]. cbn [run_pages].
  destruct (firstn n post) as [|y ys _] eqn:Eb using rev_ind.
  { destruct post as [|y post]; [|now destruct n]. unfold bind at 1, runPage. rewrite bind_gets, Hpost, Eb. cbn. now change (Ok (Some (add_page s (tally []))), w) with (ret (Some (add_page s (tally []))) w). }
  assert (Hsplit : post = (ys ++ [y]) ++ skipn n post) by (rewrite <- Eb; symmetry; apply firstn_skipn).
  destruct (run_page ns n c y ys (skipn n post) w) as (os & w1 & Ec & Hs & Er); [now rewrite Hpost|now rewrite Hpost|].
  unfold bind at 1. rewrite Er. rewrite Hsplit at 1. rewrite (one_pass_app _ _ s w os w1 Ec). cbn [hasMore lastCursor].
  destruct (n <=? length (ys ++ [y]))%nat eqn:El; cbn [negb].
  - set (s1 := add_page _ _). change (add_page s (tally os)) with s1. apply (IH _ _ (pre ++ ys ++ [y])).
    + now apply (staged_same w).
    + rewrite (page_rows_same _ _ _ _ _ Hs), Hall, Hsplit at 1. now rewrite !app_assoc.
    + rewrite (page_rows_same _ _ _ _ _ Hs).
      assert (Hrows : page_rows ns [] JUndef w = (pre ++ ys) ++ y :: skipn n post) by (rewrite Hall; rewrite Hsplit at 1; now rewrite <- !app_assoc).
      rewrite page_rows_cursor, Hrows; [apply after_row; rewrite <- Hrows; now apply page_rows_all|].
      apply (staged_cursor ns w); [exact Hst|]. rewrite Hrows. set_solver.
    + apply (f_equal length) in Eb. rewrite length_firstn, length_app in Eb. cbn in Eb. rewrite length_skipn. lia.
  - assert (Hnil : skipn n post = []).
    { apply Nat.leb_gt in El. rewrite <- Eb, length_firstn in El. apply skipn_all2. lia. }
    rewrite Hnil. unfold one_pass, bind. cbn [collect ret]. now rewrite add_no_page.
Qed.

(** C25: The promotion walk loses and repeats nothing: whatever the (positive) page size, draining the staged conversions of a network
    page by page behind an exclusive cursor returns, and is the same computation as promoting all its rows once, in the order of
    their ids, in a single pass; one outcome is counted for each row. *)
Theorem promotion_walk_complete ns n w : (0 < n)%nat -> staged w ->
  exists os w', collect (page_rows ns [] JUndef w) promoteEntity w = (Ok os, w') /\ length os = length (page_rows ns [] JUndef w) /\
    run ns [] n JUndef w = (Ok (Some (add_page no_pages (tally os))), w') /\ same_entities w w'.
Proof.
  intros Hn Hst. destruct (collect_returns (page_rows ns [] JUndef w) w) as (os & w' & Ec & Hl & Hs). exists os, w'. split_and!; [exact Ec|exact Hl| |exact Hs].
  unfold run. rewrite bind_gets, (walk _ ns n JUndef no_pages [] (page_rows ns [] JUndef w) w Hn Hst eq_refl eq_refl).
  - unfold one_pass, bind. now rewrite Ec.
  - unfold page_rows. rewrite sort_by_perm. apply Nat.lt_succ_r, List.filter_length_le.
Qed.
End Facts.
End PromotionFacts.
