(* ===== verification/Commercial.v ===== *)
(** * Client commission rules

    The rules of [modules/commercial/services/commercial.service.js] with the writes of
    [repositories/commercial.repository.js]: creating, activating and updating the rules of an assignment
    and closing the rules that a new one follows.  The conditions and tiers of a rule are fields of its
    row, as is the campaign of an assignment.  How the host orders texts is the interface [Locale]. *)

From Stdlib Require Import SpecFloat.
From S2P Require Import Prelude JsNum JsVal JsDate JsJson Money Store Runtime Attribution.
Import CommissionMath Attribution.
Local Open Scope Z_scope.

(** [a.localeCompare(b) <= 0] *)
Class Locale := { locale_le : string -> string -> bool }.

Module CommercialRules.
Section Service.
Context {H : JsHost} {D : Database} {L : Locale}.

(** ** The signature of a rule's conditions *)

Fixpoint stableValue (v : jsval) : jsval :=
  match v with
  | JUndef | JNull => JNull
  | JArr l => JArr (map stableValue l)
  | JObj fields => JObj (sort_by (fun a b => locale_le a.1 b.1) (map (fun kv => (kv.1, stableValue kv.2)) fields))
  | JDate _ => JObj []
  | _ => v
  end.
(** [list.sort((l, r) => JSON.stringify(l).localeCompare(JSON.stringify(r)))] *)
Definition sort_texts (l : list jsval) : list jsval := sort_by (fun a b => locale_le (json_stringify a) (json_stringify b)) l.
Definition stableConditionValue (operator : string) (value : jsval) : jsval :=
  match stableValue value with
  | JArr l => JArr (if existsb (String.eqb (to_upper operator)) ["IN"; "NOT_IN"] then sort_texts l else l)
  | v => v
  end.
(** [String(v || fallback).trim().toUpperCase()] *)
Definition upper_or (v : jsval) (fallback : string) : string := to_upper (trim (js_string (v |or| JStr fallback))).
Definition signature_condition (c : jsval) : jsval :=
  let operator := upper_or c@."operator" "EQ" in
  JObj [("conditionType", JStr (upper_or c@."conditionType" "CUSTOM_FIELD")); ("operator", JStr operator); ("field", c@."field" |or| JNull);
        ("value", stableConditionValue operator (c@."value" ?? JNull))].
Definition is_default (c : jsval) : bool := to_upper (js_string (c@."conditionType" |or| JStr "")) =s? "DEFAULT".
Definition commercialConditionSignature (conditions : jsval) : string :=
  match sort_texts (map signature_condition (List.filter (fun c => negb (is_default c)) (as_array conditions))) with
  | [] => "DEFAULT"
  | l => json_stringify (JArr l)
  end.

(** ** Checks *)

Definition assertCommercialAssignment (assignment : jsval) : outcome unit :=
  if negb (truthy assignment) then Throw (api_fail "Assignment not found." 404)
  else if assignment@."status" === "REVOKED" then Throw (api_fail "Cannot add commercial objects to a revoked assignment." 409)
  else if negb (truthy assignment@."published") || negb (assignment@."status" === "ACTIVE")
  then Throw (api_fail "Assignment must be published and active for commercial operations." 409)
  else Ok tt.

Definition has_all (rule : jsval) (fields : list string) : bool := forallb (fun k => truthy (prop rule k)) fields.
Definition rule_type (rule : jsval) : string := to_upper (js_string (rule@."commissionType" |or| JStr "")).
Definition assertCommercialActivationReady (rule : jsval) : outcome unit :=
  if negb (has_all rule ["agreementRef"; "agreementApprovedAt"; "agreementApprovedBy"])
  then Throw (api_fail "Commercial agreement/IO/SOW approval lineage is required before activation." 409)
  else if (rule_type rule =s? "TIERED")
          && (negb (has_all rule ["tierMetric"; "tierPeriod"]) || match as_array rule@."tiers" with [] => true | _ => false end)
  then Throw (api_fail "TIERED rules require tierMetric, tierPeriod and at least one persisted tier." 409)
  else if (rule_type rule =s? "MANUAL_APPROVED_CLIENT_COMMISSION")
          && (negb (is_true rule@."manualApproved") || negb (has_all rule ["manualApprovedAt"; "manualApprovedBy"]))
  then Throw (api_fail "Manual-approved client commission requires explicit approval evidence before activation." 409)
  else if is_true rule@."subsidyApproved" && negb (has_all rule ["subsidyApprovalRef"; "subsidyApprovedAt"; "subsidyApprovedBy"])
  then Throw (api_fail "Approved subsidy requires approval reference, date and approver." 409)
  else Ok tt.

Definition validateCommissionSplit (grossCommission clientCommission : jsval) : outcome string :=
  let gross := js_number grossCommission in
  let client := js_number clientCommission in
  if is_nan gross || is_nan client then Throw (api_fail "Invalid commission values." 400)
  else if nltb gross client then Throw (api_fail "clientCommission cannot exceed grossCommission." 400)
  else match deriveMboCommission (JNum gross) (JNum client) with
       | Ok mbo => Ok mbo
       | Throw _ => Throw (api_fail "Invalid commission values." 400)
       end.

(** ** The repository *)

Definition normalizeConditionCreate (assignmentId c : jsval) : jsval := JObj
  [("assignmentId", assignmentId); ("conditionType", c@."conditionType"); ("operator", c@."operator" ?? JStr "EQ"); ("value", c@."value" ?? JNull);
   ("field", c@."field" ?? JNull); ("metadata", c@."metadata" ?? JNull)].
Definition normalizeTierCreate (assignmentId : jsval) (index : nat) (t : jsval) : jsval := JObj
  [("assignmentId", assignmentId); ("sequence", t@."sequence" ?? JNum (num_of_Z (Z.of_nat index + 1))); ("minInclusive", t@."minInclusive");
   ("maxExclusive", t@."maxExclusive" ?? JNull); ("payoutType", t@."payoutType"); ("sharePercent", t@."sharePercent" ?? JNull);
   ("orderValuePercent", t@."orderValuePercent" ?? JNull); ("fixedAmount", t@."fixedAmount" ?? JNull); ("metadata", t@."metadata" ?? JNull)].
(** The relations of a rule are written with it. *)
Definition write_graph (assignmentId : jsval) (kv : string * jsval) : string * jsval :=
  match kv.2 with
  | JArr l =>
      if kv.1 =s? "conditions" then (kv.1, JArr (map (normalizeConditionCreate assignmentId) l))
      else if kv.1 =s? "tiers" then (kv.1, JArr (imap (normalizeTierCreate assignmentId) l))
      else kv
  | _ => kv
  end.
Definition create_rule (assignmentId : jsval) (data : list (string * jsval)) : prog world jsval :=
  create_row TRule (map (write_graph assignmentId) data).
(** [null] when there is no such rule *)
Definition update_rule (id : jsval) (data : list (string * jsval)) : prog world jsval :=
  let! existing := findUnique TRule "id" id in
  match existing with
  | None => ret JNull
  | Some e => update_row TRule id (map (write_graph e@."assignmentId") data)
  end.
Definition findOverlappingEffective (assignmentId effectiveFrom effectiveUntil excludeId : jsval) (w : world) : list jsval :=
  List.filter (fun r => col_eq r@."assignmentId" assignmentId && (r@."status" === "EFFECTIVE")
                        && (negb (truthy excludeId) || negb (has_id excludeId r))
                        && periodsOverlap effectiveFrom effectiveUntil r@."effectiveFrom" r@."effectiveUntil") (rows w TRule).

(** ** Rules *)

Definition overlapping_rule : js_error := api_fail "An overlapping client commercial rule with the same conditions already exists." 409.
Definition starts_later (existing rule : jsval) : bool :=
  match new_date existing@."effectiveFrom", new_date rule@."effectiveFrom" with
  | Some e, Some n => e <? n
  | _, _ => false
  end.
Definition same_lineage (a b : jsval) : bool :=
  commercialConditionSignature a@."conditions" =s? commercialConditionSignature b@."conditions".
Definition closeSameLineagePredecessors (rule : jsval) (overlapping : list jsval) : prog world unit :=
  for_each overlapping (fun existing =>
    if negb (same_lineage existing rule) then ret tt
    else if negb (starts_later existing rule) then throw overlapping_rule
    else update_rule existing@."id" [("status", JStr "SUPERSEDED"); ("effectiveUntil", rule@."effectiveFrom")] ;; ret tt).

(** The two commissions of a rule, where the input leaves them out. *)
Definition rule_shares (commissionType input : jsval) : outcome (jsval * jsval) :=
  let gross := input@."grossCommission" in
  let share := input@."clientCommission" in
  let amount v := JNum (js_number (v ?? JNum n0)) in
  if negb (nullish gross || nullish share) then Ok (gross, share)
  else if (commissionType === "FIXED_CLIENT_PERCENT_OF_ORDER_VALUE") || (commissionType === "TIERED")
  then Ok (gross ?? JNum (num_of_Z 100), share ?? JNum n0)
  else if (commissionType === "FIXED_CLIENT_AMOUNT_PER_CONFIRMED_ORDER") || ((commissionType === "FIXED") && negb (nullish input@."fixedAmount"))
  then Ok (gross ?? amount input@."fixedAmount", share ?? amount input@."fixedAmount")
  else if commissionType === "MANUAL_APPROVED_CLIENT_COMMISSION"
  then Ok (gross ?? amount input@."manualAmount", share ?? amount input@."manualAmount")
  else Throw (api_fail "grossCommission and clientCommission are required for this rule type." 400).

Definition rule_data (input assignment commissionType gross share : jsval) (mbo : string) : list (string * jsval) :=
  let manual := truthy input@."manualApproved" in
  let opt k := (k, prop input k ?? JNull) in
  [("assignmentId", input@."assignmentId"); ("grossCommission", gross); ("clientCommission", share); ("mboCommission", JStr mbo);
   ("commissionType", commissionType); ("currency", input@."currency" ?? assignment@."canonicalCampaign"@."defaultCurrency" ?? JNull);
   opt "orderValuePercent"; opt "fixedAmount"; opt "manualAmount"; ("manualApproved", JBool manual);
   ("manualApprovedAt", if manual then input@."manualApprovedAt" ?? JNull else JNull);
   ("manualApprovedBy", if manual then input@."manualApprovedBy" ?? JNull else JNull);
   opt "displayRangeMin"; opt "displayRangeMax"; opt "displayLabel"; opt "priority"; ("priorityVerified", JBool (truthy input@."priorityVerified"));
   opt "agreementRef"; opt "agreementApprovedAt"; opt "agreementApprovedBy"; ("subsidyApproved", JBool (truthy input@."subsidyApproved"));
   opt "subsidyApprovalRef"; opt "subsidyApprovedAt"; opt "subsidyApprovedBy"; opt "tierMetric"; opt "tierPeriod"; opt "metadata";
   ("conditions", input@."conditions" ?? JArr []); ("tiers", input@."tiers" ?? JArr []); ("effectiveFrom", input@."effectiveFrom");
   opt "effectiveUntil"; ("status", JStr (if truthy input@."activate" then "EFFECTIVE" else "DRAFT"))].
Definition createCommissionRule (input : jsval) : prog world jsval :=
  let commissionType := input@."commissionType" ?? JStr "PERCENT" in
  let! shares := lift (rule_shares commissionType input) in
  let! mbo := lift (validateCommissionSplit shares.1 shares.2) in
  transaction (
    let! assignment := gets (assignment_by_id input@."assignmentId") in
    lift (assertCommercialAssignment assignment) ;;
    let data := rule_data input assignment commissionType shares.1 shares.2 mbo in
    (if truthy input@."activate" then
       lift (assertCommercialActivationReady (JObj data)) ;;
       let! overlapping := gets (findOverlappingEffective input@."assignmentId" input@."effectiveFrom" (input@."effectiveUntil" ?? JNull) JNull) in
       closeSameLineagePredecessors (JObj data) overlapping
     else ret tt) ;;
    create_rule input@."assignmentId" data).

Definition find_rule (id : jsval) : prog world jsval :=
  let! found := findUnique TRule "id" id in
  match found with None => throw (api_fail "Commission rule not found." 404) | Some rule => ret rule end.
Definition activateCommissionRule (id : jsval) : prog world jsval :=
  let! rule := find_rule id in
  if rule@."status" === "SUPERSEDED" then throw (api_fail "Cannot activate a superseded rule." 409)
  else
    lift (assertCommercialActivationReady rule) ;;
    let! overlapping := gets (findOverlappingEffective rule@."assignmentId" rule@."effectiveFrom" rule@."effectiveUntil" rule@."id") in
    closeSameLineagePredecessors rule overlapping ;;
    update_rule id [("status", JStr "EFFECTIVE")].

(** The columns that an update takes over as they are. *)
Definition UPDATED_COLUMNS : list string :=
  ["effectiveUntil"; "orderValuePercent"; "fixedAmount"; "manualAmount"; "displayRangeMin"; "displayRangeMax"; "displayLabel"; "currency"; "priority";
   "agreementRef"; "agreementApprovedAt"; "agreementApprovedBy"; "subsidyApprovalRef"; "subsidyApprovedAt"; "subsidyApprovedBy"; "tierMetric"; "tierPeriod";
   "metadata"; "conditions"; "tiers"].
Definition if_given (input : jsval) (k : string) (v : jsval) : list (string * jsval) := if is_undef (prop input k) then [] else [(k, v)].
Definition given_columns (input : jsval) (ks : list string) : list (string * jsval) := concat (map (fun k => if_given input k (prop input k)) ks).
Definition activates (input : jsval) : bool :=
  is_true input@."activate" || (to_upper (js_string (input@."status" |or| JStr "")) =s? "EFFECTIVE").
Definition manual_data (input rule : jsval) : list (string * jsval) :=
  if is_undef input@."manualApproved"
  then if_given input "manualApprovedAt" input@."manualApprovedAt" ++ if_given input "manualApprovedBy" input@."manualApprovedBy"
  else if truthy input@."manualApproved"
  then [("manualApproved", JBool true); ("manualApprovedAt", input@."manualApprovedAt" ?? rule@."manualApprovedAt" ?? JNull);
        ("manualApprovedBy", input@."manualApprovedBy" ?? rule@."manualApprovedBy" ?? JNull)]
  else [("manualApproved", JBool false); ("manualApprovedAt", JNull); ("manualApprovedBy", JNull)].
Definition update_data (input rule : jsval) : list (string * jsval) :=
  (if activates input then [] else if_given input "status" input@."status")
  ++ given_columns input UPDATED_COLUMNS
  ++ if_given input "priorityVerified" (JBool (truthy input@."priorityVerified"))
  ++ if_given input "subsidyApproved" (JBool (truthy input@."subsidyApproved"))
  ++ manual_data input rule.
Definition updateCommissionRule (id input : jsval) : prog world jsval :=
  let! rule := find_rule id in
  if truthy input@."supersede" then
    let! t := get_now in
    update_rule id [("status", JStr "SUPERSEDED"); ("effectiveUntil", input@."effectiveUntil" ?? JDate (Some t))]
  else
    let data := update_data input rule in
    let! updated := match data with [] => ret rule | _ => update_rule id data end in
    if activates input then activateCommissionRule updated@."id" else ret updated.

End Service.
End CommercialRules.

(** ** Rules in force do not clash *)

Module CommercialFacts.
Import CommercialRules.
Section Facts.
Context {H : JsHost} {D : Database} {L : Locale}.

Definition in_force (r : jsval) : bool := r@."status" === "EFFECTIVE".
Definition overlaps (a b : jsval) : bool := periodsOverlap a@."effectiveFrom" a@."effectiveUntil" b@."effectiveFrom" b@."effectiveUntil".
(** Rules of one assignment, for the same conditions, at the same time. *)
Definition rivals (a b : jsval) : bool := (js_string a@."assignmentId" =s? js_string b@."assignmentId") && same_lineage a b && overlaps a b.
Definition clash (a b : jsval) : bool := in_force a && in_force b && rivals a b.
Record tidy (w : world) : Prop := Tidy {
  tidy_ids : Forall (fun r => exists i a, r@."id" = JStr i /\ i <> "" /\ r@."assignmentId" = JStr a) (rows w TRule);
  tidy_assignments : Forall (fun r => exists i, r@."id" = JStr i) (rows w TAssignment);
  tidy_distinct : distinct TRule "id" w;
  tidy_rules : ForallOrdPairs (fun a b => clash a b = false) (rows w TRule)
}.

Lemma rivals_sym a b : rivals a b = rivals b a.
Proof.
  unfold rivals, same_lineage, overlaps, periodsOverlap. rewrite (String.eqb_sym (js_string a@."assignmentId")), (String.eqb_sym (commercialConditionSignature a@."conditions")).
  now rewrite (andb_comm (xtime_le (period_start a@."effectiveFrom") _)).
Qed.
Lemma clash_sym a b : clash a b = clash b a.
Proof. unfold clash. now rewrite rivals_sym, (andb_comm (in_force a)). Qed.

(** A rule keeps its keys, and is in force only if it was, as it was. *)
Record yields (r r' : jsval) : Prop := Yields {
  y_id : r'@."id" = r@."id";
  y_assignment : r'@."assignmentId" = r@."assignmentId";
  y_force : in_force r' = true -> in_force r = true /\ forall k, k ∈ ["conditions"; "effectiveFrom"; "effectiveUntil"] -> prop r' k = prop r k
}.
#[local] Instance yields_preorder : PreOrder yields.
Proof.
  split; [intros r; split; auto|]. intros r1 r2 r3 [I12 A12 F12] [I23 A23 F23]. split; [congruence..|]. intros [F3 K3]%F23. apply F12 in F3 as [F2 K2].
  split; [exact F2|]. intros k Hk. now rewrite K3, K2.
Qed.
Lemma rivals_columns a a' b b' :
  (forall k, k ∈ ["assignmentId"; "conditions"; "effectiveFrom"; "effectiveUntil"] -> prop a' k = prop a k) ->
  (forall k, k ∈ ["assignmentId"; "conditions"; "effectiveFrom"; "effectiveUntil"] -> prop b' k = prop b k) -> rivals a' b' = rivals a b.
Proof. intros Ha Hb. unfold rivals, same_lineage, overlaps. now rewrite !Ha, !Hb by set_solver. Qed.
Lemma yields_clash a a' b b' : yields a a' -> yields b b' -> clash a b = false -> clash a' b' = false.
Proof.
  intros Ha Hb Hc. apply not_true_iff_false. unfold clash in *. intros [[Ea Eb]%andb_true_iff Er]%andb_true_iff.
  destruct (y_force _ _ Ha Ea) as [Fa Ka]. destruct (y_force _ _ Hb Eb) as [Fb Kb]. rewrite Fa, Fb in Hc. cbn in Hc.
  rewrite (rivals_columns a a' b b') in Er; [congruence|..]; intros k [->|Hk]%elem_of_cons; auto using y_assignment.
Qed.

(** A rule is left alone, or superseded. *)
Definition fades (r r' : jsval) : Prop :=
  r' = r \/ rewrites ["status"; "effectiveUntil"] r r' /\ r'@."status" = JStr "SUPERSEDED".
#[local] Instance fades_preorder : PreOrder fades.
Proof.
  split; [now left|]. intros r1 r2 r3 [->|[R12 S2]] [->|[R23 S3]]; [now left|now right|now right|right]. split; [now transitivity r2|exact S3].
Qed.
Lemma fades_force r r' : fades r r' -> in_force r' = true -> r' = r.
Proof. intros [->|[_ S]]; [reflexivity|]. unfold in_force. rewrite S. discriminate. Qed.
Lemma fades_column r r' k : fades r r' -> k ∉ ["status"; "effectiveUntil"] -> prop r' k = prop r k.
Proof. intros [->|[R _]] Hk; [reflexivity|now apply R]. Qed.
Lemma fades_id r r' id : fades r r' -> has_id id r' = has_id id r.
Proof. intros Hf. unfold has_id. rewrite (fades_column r r' "id") by (exact Hf || compute_done). reflexivity. Qed.

Lemma fades_yields r r' : fades r r' -> yields r r'.
Proof.
  intros Hf. split; [apply (fades_column _ _ "id" Hf); compute_done|apply (fades_column _ _ "assignmentId" Hf); compute_done|].
  intros Hi. apply (fades_force _ _ Hf) in Hi as Er. rewrite Er in *. auto.
Qed.

Lemma tidy_yields w w' : Forall2 yields (rows w TRule) (rows w' TRule) -> rows w' TAssignment = rows w TAssignment -> tidy w -> tidy w'.
Proof.
  intros Hf Hsame [Hi Has Hd Hc]. split; [|now rewrite Hsame|..].
  - eapply Forall_Forall2_to; [exact Hf| |exact Hi]. intros r r' [E1 E2 _] (i & a & E). exists i, a. now rewrite E1, E2.
  - eapply ForallOrdPairs_Forall2; [exact Hf| |exact Hd]. intros a a' b b' [E1 _ _] [E2 _ _]. cbn beta. now rewrite E1, E2.
  - eapply ForallOrdPairs_Forall2; [exact Hf| |exact Hc]. exact yields_clash.
Qed.

(** What closing the predecessors does: the rules that are not named stay, the named ones of
    the same lineage are superseded if it goes through. *)
Lemma graph_supersede a u : map (write_graph a) [("status", JStr "SUPERSEDED"); ("effectiveUntil", u)] = [("status", JStr "SUPERSEDED"); ("effectiveUntil", u)].
Proof. now destruct u. Qed.
Lemma supersede_step i u w r w' : update_rule (JStr i) [("status", JStr "SUPERSEDED"); ("effectiveUntil", u)] w = (r, w') ->
  rows w' TAssignment = rows w TAssignment /\
  Forall2 (fun x x' => fades x x' /\ (has_id (JStr i) x = false -> x' = x) /\ (has_id (JStr i) x = true -> x'@."status" = JStr "SUPERSEDED"))
    (rows w TRule) (rows w' TRule).
Proof.
  unfold update_rule, findUnique, find_where. rewrite bind_gets. change (fun r0 => col_eq (prop r0 "id") (JStr i)) with (has_id (JStr i)).
  destruct (List.find (has_id (JStr i)) (rows w TRule)) as [e|] eqn:Ef.
  - rewrite graph_supersede. unfold update_row. replace (forallb _ _) with true by (now destruct u). cbn [negb]. rewrite Ef. intros [= _ <-]. split; [reflexivity|].
    rewrite rows_set_same. apply Forall2_fmap_r, Forall_Forall2_diag, Forall_forall. intros x _. unfold compose.
    destruct (has_id (JStr i) x); [|split; [now left|split; [reflexivity|discriminate]]].
    set (data := [("status", JStr "SUPERSEDED"); ("effectiveUntil", u)]).
    assert (Hs : (spread x (JObj (encode TRule data)))@."status" = JStr "SUPERSEDED") by (rewrite (updated_column TRule data x "status" (JStr "SUPERSEDED")); [reflexivity|nodup_keys|reflexivity|discriminate]).
    split; [right; split; [apply (spread_rewrites TRule x data)|exact Hs]|split; [discriminate|intros _; exact Hs]].
  - intros [= _ <-]. split; [reflexivity|]. apply Forall_Forall2_diag, Forall_forall. intros x Hx. split; [now left|split; [reflexivity|]].
    intros Ht. apply List.find_none with (x := x) in Ef; [congruence|now apply list_elem_of_In].
Qed.

Definition closed (rule : jsval) (named : list jsval) (w w' : world) : Prop :=
  Forall (fun e => same_lineage e rule = true -> Forall (fun x => has_id e@."id" x = true -> x@."status" = JStr "SUPERSEDED") (rows w' TRule)) named.
Lemma close_spec rule named w r w' :
  Forall (fun e => exists i, e@."id" = JStr i) named -> closeSameLineagePredecessors rule named w = (r, w') ->
  rows w' TAssignment = rows w TAssignment /\
  Forall2 (fun x x' => fades x x' /\ (Forall (fun e => has_id e@."id" x = false) named -> x' = x)) (rows w TRule) (rows w' TRule) /\
  (r = Ok tt -> closed rule named w w').
Proof.
  unfold closeSameLineagePredecessors. revert w. induction named as [|e named IH]; intros w Hn; cbn [for_each].
  { intros [= <- <-]. split_and!; [reflexivity| |constructor]. apply Forall_Forall2_diag, Forall_forall. intros x _. split; [now left|reflexivity]. }
  apply Forall_cons in Hn as [(i & Hi) Hn]. unfold bind at 1.
  assert (Hstay : forall r0 w0, (r0, w0) = (r, w') -> w0 = w -> r0 <> Ok tt -> rows w' TAssignment = rows w TAssignment /\
    Forall2 (fun x x' => fades x x' /\ (Forall (fun e0 => has_id e0@."id" x = false) (e :: named) -> x' = x)) (rows w TRule) (rows w' TRule) /\ (r = Ok tt -> closed rule (e :: named) w w')).
  { intros r0 w0 [= <- <-] -> Hr. split_and!; [reflexivity| |congruence]. apply Forall_Forall2_diag, Forall_forall. intros x _. split; [now left|reflexivity]. }
  destruct (same_lineage e rule) eqn:El; cbn [negb].
  - destruct (starts_later e rule); cbn [negb]; [|intros E; apply (Hstay _ _ E); [reflexivity|discriminate]].
    unfold bind at 1. rewrite Hi. destruct (update_rule (JStr i) _ w) as [[v|err] w1] eqn:Eu; apply supersede_step in Eu as [Ha Hu].
    + cbn. intros E. apply (IH _ Hn) in E as (Ha' & Hf & Hc). split_and!; [congruence| |].
      * eapply Forall2_trans; [|exact Hu|exact Hf]. intros x y z (Fxy & Kxy & _) (Fyz & Kyz). split; [now transitivity y|].
        intros [Hx Hrest]%Forall_cons. rewrite Hi in Hx. rewrite (Kxy Hx) in *. now apply Kyz.
      * intros ->. constructor; [intros _|now apply Hc]. rewrite Hi.
        apply (Forall_Forall2_to (fun x => has_id (JStr i) x = true -> x@."status" = JStr "SUPERSEDED") _ _ _ _ Hf).
        { intros y z (Fyz & _) Hy Hz. rewrite (fades_id _ _ _ Fyz) in Hz. destruct Fyz as [->|[_ S]]; [now apply Hy|exact S]. }
        eapply Forall_Forall2_to with (P := fun _ => True); [exact Hu| |now apply Forall_true]. intros y z (Fyz & _ & Syz) _ Hz. apply Syz. now rewrite <- (fades_id _ _ _ Fyz).
    + intros [= <- <-]. split_and!; [exact Ha| |discriminate]. eapply Forall2_impl; [exact Hu|]. intros x y (Fxy & Kxy & _). split; [exact Fxy|].
      intros [Hx _]%Forall_cons. rewrite Hi in Hx. now apply Kxy.
  - cbn. intros E. apply (IH _ Hn) in E as (Ha' & Hf & Hc). split_and!; [exact Ha'| |].
    + eapply Forall2_impl; [exact Hf|]. intros x y (Fxy & Kxy). split; [exact Fxy|]. intros [_ Hrest]%Forall_cons. now apply Kxy.
    + intros ->. constructor; [congruence|now apply Hc].
Qed.

(** *** The rules after an activation *)

Lemma overlapping_found a from until ex w r :
  r ∈ findOverlappingEffective a from until ex w <->
  r ∈ rows w TRule /\ col_eq r@."assignmentId" a = true /\ in_force r = true /\ negb (truthy ex) || negb (has_id ex r) = true /\
  periodsOverlap from until r@."effectiveFrom" r@."effectiveUntil" = true.
Proof. unfold findOverlappingEffective. rewrite elem_of_filter_bool, !andb_true_iff. unfold in_force. tauto. Qed.
Lemma overlapping_ids a from until ex w : tidy w -> Forall (fun e => exists i, e@."id" = JStr i) (findOverlappingEffective a from until ex w).
Proof.
  intros Ht. apply Forall_forall. intros r [Hr _]%overlapping_found. pose proof (tidy_ids _ Ht) as Hi. rewrite Forall_forall in Hi.
  destruct (Hi r Hr) as (i & _ & E & _). eauto.
Qed.
(** After the predecessors are closed, no other rule in force is a rival. *)
Lemma nothing_left rule a from until ex w w' :
  tidy w -> rule@."assignmentId" = JStr a -> rule@."effectiveFrom" = from -> period_end rule@."effectiveUntil" = period_end until ->
  closeSameLineagePredecessors rule (findOverlappingEffective (JStr a) from until ex w) w = (Ok tt, w') ->
  Forall (fun x => negb (truthy ex) || negb (has_id ex x) = true -> in_force x && rivals x rule = false) (rows w' TRule).
Proof.
  intros Ht Ha Hfrom Huntil E. apply (close_spec _ _ _ _ _ (overlapping_ids _ _ _ _ _ Ht)) in E as (_ & Hf & Hc). specialize (Hc eq_refl). unfold closed in Hc. rewrite Forall_forall in Hc.
  apply Forall_forall. intros x' Hx' Hex. apply not_true_iff_false. unfold rivals. rewrite !andb_true_iff. intros (Hforce & (Hasg & Hlin) & Hov).
  apply list_elem_of_lookup in Hx' as [n Hn]. destruct (Forall2_lookup_r _ _ _ _ _ Hf Hn) as (x & Hx & (Fx & _)). apply fades_force in Fx as ->; [|exact Hforce].
  pose proof (list_elem_of_lookup_2 _ _ _ Hx) as Hin. pose proof (list_elem_of_lookup_2 _ _ _ Hn) as Hin'.
  pose proof (tidy_ids _ Ht) as Hi. rewrite Forall_forall in Hi. destruct (Hi x Hin) as (i & b & Hid & _ & Hb).
  assert (Hfound : x ∈ findOverlappingEffective (JStr a) from until ex w).
  { apply overlapping_found. rewrite Ha, Hb in Hasg. cbn in Hasg. split_and!; [exact Hin|rewrite Hb; exact Hasg|exact Hforce|exact Hex|].
    unfold overlaps, periodsOverlap in *. rewrite <- Hfrom, <- Huntil, andb_comm. exact Hov. }
  specialize (Hc x Hfound Hlin). rewrite Forall_forall in Hc. specialize (Hc x Hin'). unfold has_id, in_force in *. rewrite Hid in Hc. cbn in Hc.
  rewrite String.eqb_refl in Hc. rewrite (Hc eq_refl) in Hforce. discriminate.
Qed.
Lemma close_tidy rule named w r w' : Forall (fun e => exists i, e@."id" = JStr i) named -> closeSameLineagePredecessors rule named w = (r, w') -> tidy w -> tidy w'.
Proof.
  intros Hn E. apply (close_spec _ _ _ _ _ Hn) in E as (Ha & Hf & _). apply tidy_yields; [|exact Ha]. eapply Forall2_impl; [exact Hf|]. intros x y [F _]. now apply fades_yields.
Qed.

(** *** A rule as it is stored *)

Lemma graph_key a kv : (write_graph a kv).1 = kv.1.
Proof. unfold write_graph. now repeat case_match. Qed.
Lemma graph_keys a data : map fst (map (write_graph a) data) = map fst data.
Proof. rewrite List.map_map. apply map_ext, graph_key. Qed.
Lemma assoc_graph a data k : assoc k (map (write_graph a) data) = option_map (fun v => (write_graph a (k, v)).2) (assoc k data).
Proof.
  induction data as [|[j v] data IH]; [reflexivity|]. cbn [map assoc]. destruct (write_graph a (j, v)) as [j' v'] eqn:E.
  pose proof (graph_key a (j, v)) as Ek. rewrite E in Ek. cbn in Ek. subst j'. destruct (String.eqb_spec j k) as [->|]; [|exact IH]. cbn. now rewrite E.
Qed.
Lemma graph_plain a k v : k ∉ ["conditions"; "tiers"] -> (write_graph a (k, v)).2 = v.
Proof.
  intros Hk. unfold write_graph. destruct v; try reflexivity. cbn.
  destruct (String.eqb_spec k "conditions"), (String.eqb_spec k "tiers"); subst; try reflexivity; exfalso; apply Hk; compute_done.
Qed.
Lemma signature_kept a c : signature_condition (normalizeConditionCreate a c) = signature_condition c.
Proof.
  unfold signature_condition, normalizeConditionCreate, upper_or, js_or, coalesce. cbn [prop assoc String.eqb Ascii.eqb Bool.eqb].
  destruct (prop c "operator"), (prop c "field"), (prop c "value"); reflexivity.
Qed.
Lemma signature_graph a v : commercialConditionSignature (write_graph a ("conditions", v)).2 = commercialConditionSignature v.
Proof.
  destruct v as [| | | | |l| |]; try reflexivity. cbn [write_graph fst snd String.eqb Ascii.eqb Bool.eqb]. unfold commercialConditionSignature. cbn [as_array].
  replace (map signature_condition _) with (map signature_condition (List.filter (fun c => negb (is_default c)) l)); [reflexivity|].
  induction l as [|c l IH]; [reflexivity|]. cbn [map List.filter]. change (is_default (normalizeConditionCreate a c)) with (is_default c).
  destruct (negb (is_default c)); [|exact IH]. cbn [map]. now rewrite signature_kept, IH.
Qed.

(** *** Creating a rule *)

Lemma tidy_snoc data w r w' a :
  create_row TRule data w = (Ok r, w') -> r@."assignmentId" = JStr a -> Forall (fun x => clash x r = false) (rows w TRule) -> tidy w -> tidy w'.
Proof.
  intros E Ha Hc [Hi Has Hd Hr]. pose proof (create_row_distinct TRule "id" data ltac:(compute_done) w Hd) as Hd'.
  pose proof (create_row_only TRule data w TAssignment ltac:(discriminate)) as Ho. rewrite E in Hd', Ho. cbn [snd] in Hd', Ho.
  apply create_row_ok in E as (-> & Hrows & _). split; [|now rewrite Ho|exact Hd'|]; rewrite Hrows.
  - apply List.Forall_app. split; [exact Hi|]. repeat constructor. do 2 eexists. split; [reflexivity|]. split; [discriminate|exact Ha].
  - now apply ForallOrdPairs_snoc.
Qed.
(** The stored rule is a rival of whatever its data is a rival of. *)
Lemma stored_rule a input assignment kind gross share mbo w r w' :
  let data := rule_data input assignment kind gross share mbo in
  create_rule a data w = (Ok r, w') ->
  r@."assignmentId" = input@."assignmentId" /\ r@."status" = JStr (if truthy input@."activate" then "EFFECTIVE" else "DRAFT") /\
  forall x, rivals x r = rivals x (JObj data).
Proof.
  intros data E. unfold create_rule in E. apply create_row_ok in E as (-> & _).
  assert (Hnd : NoDup (map fst (map (write_graph a) data))) by (rewrite graph_keys; unfold data, rule_data; nodup_keys).
  assert (Hcol : forall k v, assoc k data = Some v -> k ∉ "conditions" :: "tiers" :: "id" :: "createdAt" :: decimal_columns TRule ->
    prop (JObj (("id", JStr (fresh_id (next_id w))) :: encode TRule (map (write_graph a) data) ++ [("createdAt", JDate (Some (now w)))])) k = v).
  { intros k v Hk Hx. apply created_value; [exact Hnd| |set_solver]. rewrite assoc_graph, Hk. cbn [option_map]. rewrite graph_plain by set_solver. reflexivity. }
  split; [apply Hcol; [reflexivity|compute_done]|]. split; [apply Hcol; [reflexivity|compute_done]|].
  intros x. unfold rivals, same_lineage, overlaps.
  rewrite (Hcol "assignmentId" (prop (JObj data) "assignmentId")), (Hcol "effectiveFrom" (prop (JObj data) "effectiveFrom")),
    (Hcol "effectiveUntil" (prop (JObj data) "effectiveUntil")) by (reflexivity || compute_done).
  rewrite (created_value TRule (map (write_graph a) data) _ _ "conditions" (write_graph a ("conditions", prop (JObj data) "conditions")).2).
  - now rewrite signature_graph.
  - exact Hnd.
  - now rewrite assoc_graph.
  - compute_done.
Qed.
Lemma assignment_text v w : tidy w -> assertCommercialAssignment (assignment_by_id v w) = Ok tt -> exists a, v = JStr a.
Proof.
  intros Ht. unfold assertCommercialAssignment. destruct (truthy (assignment_by_id v w)) eqn:E; [intros _|discriminate].
  apply AttributionFacts.row_found in E as [Hin Hid]. pose proof (tidy_assignments _ Ht) as Hs. rewrite Forall_forall in Hs.
  destruct (Hs _ Hin) as [i Hi]. unfold has_id at 1 in Hid. rewrite Hi in Hid. destruct v; try discriminate. eauto.
Qed.
Lemma create_tidy input w r w' : createCommissionRule input w = (r, w') -> tidy w -> tidy w'.
Proof.
  unfold createCommissionRule. unfold bind at 1 2. unfold lift at 1 2. destruct (rule_shares _ input) as [[gross share]|]; [|now intros [= _ <-]].
  cbn [ret fst snd]. destruct (validateCommissionSplit gross share) as [mbo|]; [|now intros [= _ <-]]. cbn [ret]. intros E Ht.
  destruct r as [r|e]; [apply transaction_ok in E|now apply transaction_fails in E as ->]. rewrite bind_gets in E.
  apply bind_ok in E as ([] & w0 & [Ha ->]%lift_ok & E). destruct (assignment_text _ _ Ht Ha) as [a Ea].
  apply bind_ok in E as ([] & w1 & E1 & E). apply stored_rule in E as Hs. destruct Hs as (Hsa & Hss & Hsr). rewrite Ea in Hsa.
  destruct (truthy input@."activate") eqn:Eact.
  - apply bind_ok in E1 as ([] & w2 & [_ ->]%lift_ok & E1). rewrite bind_gets, Ea in E1. rewrite Ea in Hsr.
    pose proof (close_tidy _ _ _ _ _ (overlapping_ids _ _ _ _ _ Ht) E1 Ht) as Ht1.
    apply nothing_left in E1; [|exact Ht|cbn; exact Ea|reflexivity|reflexivity].
    eapply tidy_snoc; [exact E|exact Hsa| |exact Ht1]. eapply Forall_impl; [exact E1|]. intros x Hx. specialize (Hx eq_refl).
    unfold clash. rewrite Hsr. destruct (in_force x); [|reflexivity]. cbn in Hx. rewrite Hx. now rewrite andb_false_r.
  - injection E1 as <-. eapply tidy_snoc; [exact E|exact Hsa| |exact Ht]. apply Forall_forall. intros x _. unfold clash, in_force at 2. rewrite Hss.
    now rewrite andb_false_r.
Qed.

(** *** Activating a rule *)

Lemma find_rule_ok id w rule w' : find_rule id w = (Ok rule, w') -> w' = w /\ rule ∈ rows w TRule /\ has_id id rule = true.
Proof.
  unfold find_rule, findUnique, find_where. rewrite bind_gets. change (fun r => col_eq (prop r "id") id) with (has_id id).
  destruct (List.find (has_id id) (rows w TRule)) as [x|] eqn:E; [|discriminate]. intros [= -> ->]. apply List.find_some in E as [Hin Hid].
  split_and!; [reflexivity|now apply list_elem_of_In|exact Hid].
Qed.
Lemma find_rule_fails id w e w' : find_rule id w = (Throw e, w') -> w' = w.
Proof. unfold find_rule, findUnique, find_where. rewrite bind_gets. destruct (List.find _ _); [discriminate|]. now intros [= _ ->]. Qed.
(** An update leaves the table as it is, or rewrites the one row. *)
Definition rewritten (i : string) (data : list (string * jsval)) (x : jsval) : jsval := if has_id (JStr i) x then spread x (JObj (encode TRule data)) else x.
Lemma update_rule_effect i data w r w' : update_rule (JStr i) data w = (r, w') ->
  rows w' TAssignment = rows w TAssignment /\ (rows w' TRule = rows w TRule \/ exists a, rows w' TRule = map (rewritten i (map (write_graph a) data)) (rows w TRule)).
Proof.
  unfold update_rule, findUnique, find_where. rewrite bind_gets. destruct (List.find _ _) as [e|]; [|intros [= _ <-]; auto].
  intros E. pose proof (update_row_only TRule (JStr i) (map (write_graph e@."assignmentId") data) w TAssignment ltac:(discriminate)) as Ho.
  rewrite E in Ho. cbn [snd] in Ho. split; [exact Ho|]. destruct r as [r|err]; [right; exists e@."assignmentId"|left; now apply update_row_fails in E as ->].
  now apply update_row_ok in E.
Qed.
Lemma same_rule i w x y : tidy w -> x ∈ rows w TRule -> y ∈ rows w TRule -> has_id (JStr i) x = true -> has_id (JStr i) y = true -> x = y.
Proof. unfold has_id. intros Ht Hx Hy Ex%col_eq_str Ey%col_eq_str. exact (same_id TRule w i x y (tidy_distinct _ Ht) Hx Hy Ex Ey). Qed.
(** A rule without rivals in force may come into force. *)
Lemma enforce_tidy i w r w' rule :
  tidy w -> rule ∈ rows w TRule -> has_id (JStr i) rule = true ->
  Forall (fun x => has_id (JStr i) x = false -> in_force x && rivals x rule = false) (rows w TRule) ->
  update_rule (JStr i) [("status", JStr "EFFECTIVE")] w = (r, w') -> tidy w'.
Proof.
  intros Ht Hin Hid Hfree [Ha [Hr|(a & Hr)]]%update_rule_effect.
  { revert Ht. apply tidy_yields; [|exact Ha]. rewrite Hr. apply Forall_Forall2_diag, Forall_forall. intros x _. reflexivity. }
  change (map (write_graph a) _) with [("status", JStr "EFFECTIVE")] in Hr. set (data := [("status", JStr "EFFECTIVE")]) in Hr.
  assert (Hk : forall x k, k <> "status" -> prop (rewritten i data x) k = prop x k).
  { intros x k Hk. unfold rewritten. destruct (has_id (JStr i) x); [|reflexivity]. apply spread_rewrites. cbn. set_solver. }
  assert (Hriv : forall x y, rivals (rewritten i data x) (rewritten i data y) = rivals x y) by (intros x y; apply rivals_columns; intros k Hkk; apply Hk; set_solver).
  destruct Ht as [Hi Has Hd Hc] eqn:Et. split; [|now rewrite Ha|unfold distinct|]; rewrite Hr.
  - rewrite Forall_map. eapply Forall_impl; [exact Hi|]. intros x (j & b & Ex). exists j, b. unfold compose. now rewrite !Hk.
  - apply ForallOrdPairs_map; [|exact Hd]. intros x y. now rewrite !Hk.
  - apply (ordpairs_map_in _ _ _ _ _ Hc Hd). intros x y Hx Hy Hxy Hne. rewrite Forall_forall in Hfree. unfold clash in *. rewrite Hriv. unfold rewritten.
    destruct (has_id (JStr i) x) eqn:Ex, (has_id (JStr i) y) eqn:Ey; [| | |exact Hxy].
    + unfold has_id in Ex, Ey. apply col_eq_str in Ex, Ey. rewrite Ex, Ey in Hne. cbn in Hne. now rewrite String.eqb_refl in Hne.
    + rewrite <- (same_rule i w rule x Ht Hin Hx Hid Ex), rivals_sym. specialize (Hfree y Hy Ey). destruct (in_force y); [cbn in Hfree; rewrite Hfree|]; now rewrite ?andb_false_r.
    + rewrite <- (same_rule i w rule y Ht Hin Hy Hid Ey). specialize (Hfree x Hx Ex). destruct (in_force x); [cbn in Hfree; rewrite Hfree|]; now rewrite ?andb_false_r.
Qed.
Lemma rule_id i rule id : has_id id rule = true -> rule@."id" = JStr i -> id = JStr i.
Proof. unfold has_id. intros Hid Ei. rewrite Ei in Hid. destruct id; try discriminate. cbn in Hid. now apply String.eqb_eq in Hid as ->. Qed.
Lemma activate_tidy id w r w' : activateCommissionRule id w = (r, w') -> tidy w -> tidy w'.
Proof.
  intros E Ht. unfold activateCommissionRule in E. unfold bind at 1 in E. destruct (find_rule id w) as [[rule|e] w0] eqn:Ef; [|injection E as _ <-; now apply find_rule_fails in Ef as ->].
  apply find_rule_ok in Ef as (-> & Hin & Hid). destruct (rule@."status" === "SUPERSEDED"); [now injection E as _ <-|].
  unfold bind at 1 in E. unfold lift in E. destruct (assertCommercialActivationReady rule) as [[]|]; [|now injection E as _ <-]. cbn [ret] in E. rewrite bind_gets in E.
  pose proof (tidy_ids _ Ht) as Hi. rewrite Forall_forall in Hi. destruct (Hi _ Hin) as (i & a & Ei & Hne & Ea).
  assert (id = JStr i) as -> by exact (rule_id i rule id Hid Ei).
  rewrite Ei, Ea in E. unfold bind in E. destruct (closeSameLineagePredecessors rule _ w) as [[[]|e] w1] eqn:Ec;
    pose proof (close_tidy _ _ _ _ _ (overlapping_ids _ _ _ _ _ Ht) Ec Ht) as Ht1; [|now injection E as _ <-].
  assert (Htr : truthy (JStr i) = true) by (destruct i; [congruence|reflexivity]).
  assert (Hin1 : rule ∈ rows w1 TRule).
  { apply (close_spec _ _ _ _ _ (overlapping_ids _ _ _ _ _ Ht)) in Ec as (_ & Hf & _). apply list_elem_of_lookup in Hin as [n Hn].
    destruct (Forall2_lookup_l _ _ _ _ _ Hf Hn) as (x' & Hx' & _ & Hstay). rewrite Hstay in Hx'; [now apply list_elem_of_lookup_2 in Hx'|].
    apply Forall_forall. intros e (He & _ & _ & Hex & _)%overlapping_found. rewrite Htr in Hex. cbn in Hex. apply negb_true_iff in Hex.
    destruct (Hi _ He) as (j & _ & Ej & _). unfold has_id in *. rewrite Ei, Ej in *. cbn in *. now rewrite String.eqb_sym. }
  apply (enforce_tidy i w1 r w' rule Ht1 Hin1 Hid); [|exact E].
  apply nothing_left in Ec; [|exact Ht|exact Ea|reflexivity|reflexivity]. eapply Forall_impl; [exact Ec|]. intros x Hx Hxi. apply Hx. now rewrite Hxi, orb_true_r.
Qed.

(** *** Updating a rule *)

(** The columns an update may write, in the order in which it does. *)
Definition FLAGS : list string := ["priorityVerified"; "subsidyApproved"; "manualApproved"; "manualApprovedAt"; "manualApprovedBy"].
Definition WRITABLE : list string := "status" :: UPDATED_COLUMNS ++ FLAGS.
Definition status_data (input : jsval) : list (string * jsval) := if activates input then [] else if_given input "status" input@."status".
Definition flag_data (input rule : jsval) : list (string * jsval) :=
  if_given input "priorityVerified" (JBool (truthy input@."priorityVerified"))
  ++ if_given input "subsidyApproved" (JBool (truthy input@."subsidyApproved")) ++ manual_data input rule.
Lemma update_parts input rule : update_data input rule = status_data input ++ given_columns input UPDATED_COLUMNS ++ flag_data input rule.
Proof. reflexivity. Qed.
Lemma given_keys input k v : map fst (if_given input k v) `sublist_of` [k].
Proof. unfold if_given. destruct (is_undef _); [apply sublist_nil_l|reflexivity]. Qed.
Lemma columns_keys input ks : map fst (given_columns input ks) `sublist_of` ks.
Proof. unfold given_columns. induction ks as [|k ks IH]; [reflexivity|]. cbn [map concat]. rewrite map_app. apply (sublist_app _ [k] _ ks); [apply given_keys|exact IH]. Qed.
Lemma columns_given input ks k : k ∈ map fst (given_columns input ks) -> prop input k <> JUndef.
Proof.
  unfold given_columns. induction ks as [|j ks IH]; cbn [map concat]; [now intros ?%elem_of_nil|]. rewrite map_app, elem_of_app. intros [Hk|Hk]; [|now apply IH].
  unfold if_given in Hk. destruct (is_undef (prop input j)) eqn:E; [now apply elem_of_nil in Hk|]. apply list_elem_of_singleton in Hk as ->. cbn. now destruct (prop input j).
Qed.
Lemma flag_keys input rule : map fst (flag_data input rule) `sublist_of` FLAGS.
Proof.
  unfold flag_data, FLAGS. rewrite !map_app. apply (sublist_app _ ["priorityVerified"]); [apply given_keys|]. apply (sublist_app _ ["subsidyApproved"]); [apply given_keys|].
  unfold manual_data. destruct (is_undef _); [|destruct (truthy _); reflexivity]. rewrite map_app. apply sublist_cons.
  apply (sublist_app _ ["manualApprovedAt"] _ ["manualApprovedBy"]); apply given_keys.
Qed.
Lemma status_keys input : map fst (status_data input) `sublist_of` ["status"].
Proof. unfold status_data. destruct (activates input); [apply sublist_nil_l|apply given_keys]. Qed.
Lemma update_keys input rule : map fst (update_data input rule) `sublist_of` WRITABLE.
Proof. rewrite update_parts, !map_app. apply (sublist_app _ ["status"]); [apply status_keys|]. apply sublist_app; [apply columns_keys|apply flag_keys]. Qed.
Lemma update_nodup input rule : NoDup (map fst (update_data input rule)).
Proof. eapply sublist_NoDup; [|apply update_keys]. compute_done. Qed.
Lemma update_given input rule k : k ∈ map fst (update_data input rule) -> k ∈ UPDATED_COLUMNS -> prop input k <> JUndef.
Proof.
  rewrite update_parts, !map_app, !elem_of_app. intros [Hk|[Hk|Hk]] Hu; [|now apply columns_given in Hk|].
  - pose proof (elem_of_sublist _ _ _ Hk (status_keys _)) as ->%list_elem_of_singleton. exfalso. revert Hu. compute_done.
  - pose proof (elem_of_sublist _ _ _ Hk (flag_keys _ _)) as Hf. exfalso. clear Hk. revert k Hf Hu. change (forall k, k ∈ FLAGS -> k ∉ UPDATED_COLUMNS). apply Forall_forall. compute_done.
Qed.
(** An update writes no status that puts a rule in force. *)
Lemma update_status input rule v : assoc "status" (update_data input rule) = Some v -> v <> JUndef /\ (v === "EFFECTIVE") = false.
Proof.
  rewrite update_parts, assoc_app, (assoc_notin "status" (_ ++ _)).
  - unfold status_data, activates, if_given. destruct (is_true _); [discriminate|]. cbn [orb]. destruct (to_upper _ =s? _) eqn:Eu; [discriminate|].
    destruct (prop input "status"); try discriminate; cbn; intros [= <-]; try (split; [discriminate|reflexivity]). split; [discriminate|]. cbn in *.
    destruct (String.eqb_spec s "EFFECTIVE") as [->|]; [now vm_compute in Eu|reflexivity].
  - rewrite map_app, elem_of_app. intros [Hk|Hk]; [pose proof (elem_of_sublist _ _ _ Hk (columns_keys _ _)) as Hx|pose proof (elem_of_sublist _ _ _ Hk (flag_keys _ _)) as Hx];
      revert Hx; compute_done.
Qed.
Lemma update_yields i input rule w r w' :
  tidy w -> rule ∈ rows w TRule -> has_id (JStr i) rule = true ->
  (in_force rule = true -> input@."conditions" = JUndef /\ input@."effectiveUntil" = JUndef) ->
  update_rule (JStr i) (update_data input rule) w = (r, w') -> tidy w'.
Proof.
  intros Ht Hin Hid Hharm [Ha Hr]%update_rule_effect. apply (tidy_yields w); [|exact Ha|exact Ht].
  destruct Hr as [->|(a & ->)]; [apply Forall_Forall2_diag, Forall_forall; intros x _; reflexivity|].
  apply Forall2_fmap_r, Forall_Forall2_diag, Forall_forall. intros x Hx. unfold compose, rewritten. destruct (has_id (JStr i) x) eqn:Ex; [|reflexivity].
  assert (x = rule) as -> by (now apply (same_rule i w)). set (data := map (write_graph a) (update_data input rule)).
  assert (Hkeep : forall k, k ∉ map fst (update_data input rule) -> prop (spread rule (JObj (encode TRule data))) k = prop rule k).
  { intros k Hk. apply spread_rewrites. unfold data. now rewrite graph_keys. }
  assert (Hw : forall k, k ∉ WRITABLE -> k ∉ map fst (update_data input rule)) by (intros k Hk Hx'; now apply Hk, (elem_of_sublist _ _ _ Hx'), update_keys).
  split; [apply Hkeep, Hw; compute_done..|]. intros Hforce.
  destruct (assoc "status" (update_data input rule)) as [v|] eqn:Es.
  - exfalso. apply update_status in Es as Hv. destruct Hv as [Hv Hv']. unfold in_force in Hforce.
    rewrite (updated_column TRule data rule "status" v) in Hforce; [cbn [encode_field fst snd] in Hforce; cbn in Hforce; congruence|unfold data; rewrite graph_keys; apply update_nodup| |exact Hv].
    unfold data. rewrite assoc_graph, Es. cbn [option_map]. rewrite graph_plain by compute_done. reflexivity.
  - assert (Hs : "status" ∉ map fst (update_data input rule)).
    { intros ((k & v) & Ek & Hk)%list_elem_of_fmap. cbn in Ek. subst k. revert Es Hk. clear. induction (update_data input rule) as [|[j u] l IH]; [now intros _ ?%elem_of_nil|].
      cbn [assoc]. destruct (String.eqb_spec j "status"); [discriminate|]. intros Es [E|E]%elem_of_cons; [congruence|auto]. }
    unfold in_force in *. rewrite (Hkeep "status" Hs) in Hforce. split; [exact Hforce|]. destruct (Hharm Hforce) as [Hc Hu].
    intros k Hk. apply Hkeep. intros Hin'. assert (k ∈ UPDATED_COLUMNS \/ k = "effectiveFrom") as [Hcol| ->] by (clear Hin'; revert k Hk; apply Forall_forall; compute_done).
    + apply (update_given _ _ _ Hin') in Hcol. rewrite !elem_of_cons, elem_of_nil in Hk. destruct Hk as [->|[->|[->|[]]]]; [contradiction| |contradiction].
      revert Hin'. apply Hw. compute_done.
    + revert Hin'. apply Hw. compute_done.
Qed.
(** An update of a rule in force is harmless if it supersedes the rule, or leaves its conditions and its end. *)
Definition harmless (id input : jsval) (w : world) : Prop :=
  truthy input@."supersede" = true \/ (input@."conditions" = JUndef /\ input@."effectiveUntil" = JUndef) \/
  Forall (fun r => has_id id r = true -> in_force r = false) (rows w TRule).
Lemma update_tidy id input w r w' : harmless id input w -> updateCommissionRule id input w = (r, w') -> tidy w -> tidy w'.
Proof.
  intros Hharm E Ht. unfold updateCommissionRule in E. unfold bind at 1 in E. destruct (find_rule id w) as [[rule|e] w0] eqn:Ef; [|injection E as _ <-; now apply find_rule_fails in Ef as ->].
  apply find_rule_ok in Ef as (-> & Hin & Hid). pose proof (tidy_ids _ Ht) as Hi. rewrite Forall_forall in Hi. destruct (Hi _ Hin) as (i & a & Ei & _ & _).
  assert (id = JStr i) as -> by exact (rule_id i rule id Hid Ei). destruct (truthy input@."supersede") eqn:Es.
  - unfold get_now in E. rewrite bind_gets in E. apply supersede_step in E as [Ha Hf]. revert Ht. apply tidy_yields; [|exact Ha]. eapply Forall2_impl; [exact Hf|].
    intros x y [F _]. now apply fades_yields.
  - assert (Hh : in_force rule = true -> input@."conditions" = JUndef /\ input@."effectiveUntil" = JUndef).
    { intros Hforce. destruct Hharm as [Hs|[Hc|Hn]]; [congruence|exact Hc|]. rewrite Forall_forall in Hn. rewrite (Hn _ Hin Hid) in Hforce. discriminate. }
    apply bind_split in E as ([u|e] & w1 & Eu & E).
    all: assert (Ht1 : tidy w1) by (revert Eu; destruct (update_data input rule) as [|kv l] eqn:Ed; [now intros [= _ <-]|intros Eu; rewrite <- Ed in Eu; now apply (update_yields i input rule w _ w1) in Eu]).
    + destruct (activates input); [now apply activate_tidy in E|now injection E as _ <-].
    + now injection E as _ <-.
Qed.

(** The calls that write rules, in any order, by any number of users. *)
Inductive rule_call := Create (input : jsval) | Activate (id : jsval) | Update (id input : jsval).
Definition rule_step (call : rule_call) (w : world) : world :=
  match call with
  | Create input => (createCommissionRule input w).2
  | Activate id => (activateCommissionRule id w).2
  | Update id input => (updateCommissionRule id input w).2
  end.
Definition call_ok (call : rule_call) (w : world) : Prop := match call with Update id input => harmless id input w | _ => True end.
Inductive rules_reach : world -> world -> Prop :=
| reach_here w : rules_reach w w
| reach_call w call w' : call_ok call w -> rules_reach (rule_step call w) w' -> rules_reach w w'.
Lemma step_tidy call w : call_ok call w -> tidy w -> tidy (rule_step call w).
Proof.
  destruct call as [input|id|id input]; cbn; intros Hok.
  - destruct (createCommissionRule input w) eqn:E. exact (create_tidy _ _ _ _ E).
  - destruct (activateCommissionRule id w) eqn:E. exact (activate_tidy _ _ _ _ E).
  - destruct (updateCommissionRule id input w) eqn:E. exact (update_tidy _ _ _ _ _ Hok E).
Qed.
Lemma tidy_apart w a b : tidy w -> a ∈ rows w TRule -> b ∈ rows w TRule -> in_force a = true -> in_force b = true -> rivals a b = true -> a = b.
Proof.
  intros Ht Ha Hb Fa Fb Hr. destruct (ordpairs_elem (fun a b => clash a b = false) (rows w TRule)) with (a := a) (b := b) as [E|E]; [|apply Ht|exact Ha|exact Hb|exact E|].
  - intros x y. now rewrite clash_sym.
  - unfold clash in E. rewrite Fa, Fb, Hr in E. discriminate.
Qed.

(** C16: In a store whose rules have distinct text ids and do not clash, whatever rules are created, activated and
    updated after that, in whatever order and whether or not the calls fail half-way: two different rules of one
    assignment that are in force with the same conditions never overlap in time.  Updates must not change the
    conditions or the end of a rule that is in force. *)
Theorem rules_never_clash w w' : tidy w -> rules_reach w w' ->
  forall a b, a ∈ rows w' TRule -> b ∈ rows w' TRule -> in_force a = true -> in_force b = true ->
  a@."assignmentId" = b@."assignmentId" -> same_lineage a b = true -> overlaps a b = true -> a = b.
Proof.
  intros Ht Hreach a b Ha Hb Fa Fb Eas El Eo. assert (Ht' : tidy w') by (induction Hreach; auto using step_tidy).
  apply (tidy_apart w'); try assumption. unfold rivals. now rewrite Eas, String.eqb_refl, El, Eo.
Qed.
End Facts.
End CommercialFacts.
