(* ===== verification/Tracking.v ===== *)
(** * Tracking links as texts

    [modules/commercial/trackingUrl.js] and [supplierCampaignTracking.js]: the slug, the token and the
    address of a link; [modules/tracking/]: the parameters that carry the attribution
    ([trackingParamRules.js], [trackingUrlBuilder.js]), the two kinds of links ([trackingLink.contract.js])
    and the links that operators store for a supplier ([supplierTrackingLink.contract.js] and
    [.service.js]).  A text is the list of its UTF-8 bytes; [URL], the folding of letters and the
    configuration are interfaces. *)

From S2P Require Import Prelude JsNum JsVal JsDate JsDay Store Accounts Encryption.
Local Open Scope Z_scope.

(** ** What the host provides *)

(** [new URL(s)]: its parts, the query as it is written. *)
Record url := Url {
  u_protocol : string; u_username : string; u_password : string; u_hostname : string; u_origin : string;
  u_pathname : string; u_search : string; u_hash : string
}.
Definition with_search (u : url) (search : string) : url :=
  Url (u_protocol u) (u_username u) (u_password u) (u_hostname u) (u_origin u) (u_pathname u) search (u_hash u).
Definition is_http (u : url) : bool := (u_protocol u =s? "http:") || (u_protocol u =s? "https:").
(** The pairs of a query read back as they are written; the address that is written reads back
    as it was, a web address also with another query. *)
Class UrlHost := {
  parse_url : string -> option url;
  url_string : url -> string;
  search_params : string -> list (string * string);
  search_text : list (string * string) -> string;
  params_again l : search_params (search_text l) = l;
  url_same s u : parse_url s = Some u -> parse_url (url_string u) = Some u;
  url_again s u l : parse_url s = Some u -> is_http u = true ->
    parse_url (url_string (with_search u (search_text l))) = Some (with_search u (search_text l))
}.
Definition is_ascii (c : ascii) : bool := (nat_of_ascii c <? 128)%nat.
(** [s.toLowerCase().normalize("NFKD")] *)
Class TextHost := {
  fold_text : string -> string;
  fold_ascii s : all_chars is_ascii s = true -> fold_text s = to_lower s
}.
Class TrackingConfig := { TRACKING_BASE_URL : option string; BACKEND_URL : option string }.

(** ** trackingUrl.js *)

Module TrackingUrl.

(** The letters without ambiguity *)
Definition TOKEN_ALPHABET : string := "23456789ABCDEFGHJKLMNPQRSTUVWXYZ".

(** [s.replace(/\/+$/, "")] *)
Fixpoint strip_slashes (s : string) : string :=
  match s with
  | EmptyString => EmptyString
  | String c s' =>
      match strip_slashes s' with
      | EmptyString => if (c =? "/")%char then EmptyString else String c EmptyString
      | r => String c r
      end
  end.

(** [s.replace(/[\u0300-\u036f]/g, "")] *)
Fixpoint strip_marks (s : string) : string :=
  match s with
  | String c (String d s' as rest) =>
      let n := nat_of_ascii c in
      let m := nat_of_ascii d in
      if (((n =? 204) && (128 <=? m) && (m <=? 191)) || ((n =? 205) && (128 <=? m) && (m <=? 175)))%nat%bool then strip_marks s'
      else String c (strip_marks rest)
  | _ => s
  end.
Definition slug_char (c : ascii) : bool :=
  let n := nat_of_ascii c in (((97 <=? n) && (n <=? 122)) || ((48 <=? n) && (n <=? 57)))%nat.
(** [s.replace(/[class]+/g, "-")] *)
Fixpoint dash_runs (p : ascii -> bool) (inside : bool) (s : string) : string :=
  match s with
  | EmptyString => EmptyString
  | String c s' => if p c then (if inside then dash_runs p true s' else String "-" (dash_runs p true s')) else String c (dash_runs p false s')
  end.
Fixpoint drop_last_dash (s : string) : string :=
  match s with
  | EmptyString => EmptyString
  | String c EmptyString => if (c =? "-")%char then EmptyString else s
  | String c s' => String c (drop_last_dash s')
  end.
(** [s.replace(/^-|-$/g, "")] *)
Definition strip_dashes (s : string) : string :=
  drop_last_dash (match s with String "-" s' => s' | _ => s end).

(** [encodeURIComponent(s)] *)
Definition unreserved (c : ascii) : bool :=
  slug_char c || slug_char (lower_char c) || existsb (Ascii.eqb c) ["-"; "_"; "."; "!"; "~"; "*"; "'"; "("; ")"]%char.
Definition hex_digit (n : nat) : ascii := default "0"%char (String.get n "0123456789ABCDEF").
Fixpoint encodeURIComponent (s : string) : string :=
  match s with
  | EmptyString => EmptyString
  | String c s' =>
      let n := nat_of_ascii c in
      if unreserved c then String c (encodeURIComponent s')
      else String "%" (String (hex_digit (n / 16)) (String (hex_digit (n mod 16)) (encodeURIComponent s')))
  end.

Definition token_char (byte : ascii) : ascii := default "2"%char (String.get (nat_of_ascii byte mod 32) TOKEN_ALPHABET).

Record built := Built { b_slug : string; b_subId : string; b_mboTrackingUrl : string }.

Section Texts.
Context {H : JsHost} {U : UrlHost} {T : TextHost} {C : Cipher} {G : TrackingConfig}.

Definition base_missing : js_error := plain_error "TRACKING_BASE_URL (or BACKEND_URL) must be configured for MBO tracking link generation.".
Definition getTrackingBaseUrl : outcome string :=
  match of_option_str TRACKING_BASE_URL |or| of_option_str BACKEND_URL with
  | JStr configured => if trim configured =s? "" then Throw base_missing else Ok (strip_slashes (trim configured))
  | _ => Throw base_missing
  end.
Definition getTrackingBaseOrigin (baseUrl : string) : outcome string :=
  match parse_url baseUrl with Some u => Ok (u_origin u) | None => Throw (plain_error "Invalid URL") end.
Definition rewriteTrackingUrlOrigin (mboTrackingUrl : jsval) (canonicalBase : string) : option string :=
  match mboTrackingUrl with
  | JStr text =>
      match parse_url (trim text), parse_url canonicalBase with
      | Some current, Some base =>
          if (text =s? "") || negb (is_http current) || (u_origin current =s? u_origin base) then None
          else Some (u_origin base +:+ u_pathname current +:+ u_search current +:+ u_hash current)
      | _, _ => None
      end
  | _ => None
  end.

Definition slug_text (s : string) : string :=
  strip_dashes (dash_runs (Ascii.eqb "-") false (dash_runs (fun c => negb (slug_char c)) false (strip_marks (fold_text (trim s))))).
Definition slugifyTrackingPart (value : jsval) : string := if truthy value then slug_text (js_string value) else "".

Definition nonempty (s : string) : bool := negb (s =s? "").
Definition or_text (s fallback : string) : string := if s =s? "" then fallback else s.
Definition buildTrackingSlug (clientSlug merchantSlug campaignSlug : jsval) : string :=
  let parts := List.filter nonempty (map slugifyTrackingPart [clientSlug; merchantSlug; campaignSlug]) in
  let parts := match parts with [a; b; c] => if c =s? b then [a; b] else parts | _ => parts end in
  or_text (join "-" parts) "link".

Definition generateTrackingToken (length : nat) : prog world string := let! d := draw in ret (map_string token_char (random_bytes d length)).

Definition tracking_address (slug token : string) : outcome built :=
  match getTrackingBaseUrl with
  | Ok base => Ok (Built slug token (base +:+ "/r/" +:+ encodeURIComponent slug +:+ "/" +:+ encodeURIComponent token))
  | Throw e => Throw e
  end.
Definition buildMboTrackingUrl (optionsOrToken : jsval) : prog world built :=
  let slug := match optionsOrToken with JStr _ => "link" | _ => if is_object optionsOrToken then or_text (slugifyTrackingPart optionsOrToken@."slug") "link" else "link" end in
  let token := match optionsOrToken with
               | JStr s => trim s
               | _ => if is_object optionsOrToken then trim (js_string (optionsOrToken@."token" |or| optionsOrToken@."subId" |or| JStr "")) else ""
               end in
  let! token := (if token =s? "" then generateTrackingToken 8 else ret token) in
  lift (tracking_address slug token).

(** ** resolveSupplierDestination.js, its test of an address, and supplierTrackingLink.contract.js, its list *)

Definition looksLikeHttpUrl (value : jsval) : bool :=
  match value with
  | JStr s => nonempty s && match parse_url (trim s) with Some u => is_http u | None => false end
  | _ => false
  end.
Definition NO_DESTINATION_FALLBACK_SUPPLIERS : list string := ["PARTNERIZE"].
Definition supplierAllowsDestinationTrackingFallback (supplier : jsval) : bool :=
  negb (existsb (String.eqb (to_upper (trim (js_string (supplier ?? JStr ""))))) NO_DESTINATION_FALLBACK_SUPPLIERS).

(** ** supplierCampaignTracking.js *)

Fixpoint until_pipe (s : string) : string :=
  match s with String c s' => if (c =? "|")%char then EmptyString else String c (until_pipe s') | EmptyString => EmptyString end.
Definition word_char (c : ascii) : bool := slug_char (lower_char c) || (c =? "_")%char.
Definition at_boundary (s : string) : bool := match s with String c _ => negb (word_char c) | EmptyString => true end.
(** [\s+(?:Partners?|Affiliates?|Programme|Program|Network)\b], case-insensitive, at the start *)
Definition NETWORK_WORDS : list string := ["partners"; "partner"; "affiliates"; "affiliate"; "programme"; "program"; "network"].
Definition keyword_follows (s : string) : bool :=
  match s with
  | String c _ =>
      is_space c && existsb (fun k => let rest := trim_left s in starts_with k (to_lower rest) && at_boundary (string_drop (String.length k) rest)) NETWORK_WORDS
  | EmptyString => false
  end.
(** The shortest non-empty line prefix before such a word *)
Fixpoint brand_prefix (s : string) : option string :=
  match s with
  | String c s' =>
      if existsb (Ascii.eqb c) ["010"; "013"]%char then None
      else if keyword_follows s' then Some (String c EmptyString) else option_map (String c) (brand_prefix s')
  | EmptyString => None
  end.
Definition extractBrandFromCampaignName (campaignName : jsval) : jsval :=
  match campaignName with
  | JStr text =>
      let name := trim text in
      let pipePart := trim (until_pipe name) in
      if text =s? "" then JNull
      else if nonempty pipePart && negb (pipePart =s? name) then JStr pipePart
      else match brand_prefix name with Some brand => JStr (trim brand) | None => JNull end
  | _ => JNull
  end.
Definition resolveSupplierCampaignBrandSlug (record : jsval) : string :=
  let brand := record@."merchant"@."displayName" |or| record@."merchantNameRaw" |or| record@."brandName"
               |or| extractBrandFromCampaignName record@."campaignName" |or| record@."campaignName" |or| JStr "campaign" in
  or_text (slugifyTrackingPart brand) "campaign".
(** The three tracking columns of a supplier's campaign *)
Definition buildSupplierCampaignMboTracking (record existing : jsval) : prog world (list (string * jsval)) :=
  let supplier := record@."supplier" ?? existing@."supplier" ?? JNull in
  let supplierUrl := if supplierAllowsDestinationTrackingFallback supplier then record@."trackingUrl" |or| record@."destinationUrl" |or| JNull
                     else record@."trackingUrl" |or| JNull in
  if negb (looksLikeHttpUrl supplierUrl)
  then ret [("mboTrackingSlug", JNull); ("mboTrackingToken", JNull); ("mboTrackingUrl", JNull)]
  else
    let slug := existing@."mboTrackingSlug" |or| JStr (resolveSupplierCampaignBrandSlug record) in
    let! token := (if truthy existing@."mboTrackingToken" then ret existing@."mboTrackingToken" else let! t := generateTrackingToken 8 in ret (JStr t)) in
    let! made := buildMboTrackingUrl (JObj [("slug", slug); ("token", token)]) in
    ret [("mboTrackingSlug", JStr (b_slug made)); ("mboTrackingToken", JStr (b_subId made)); ("mboTrackingUrl", JStr (b_mboTrackingUrl made))].
Definition buildAssignedTrackingSlug (brandSlug clientSlug : jsval) : string :=
  let brand := or_text (slugifyTrackingPart brandSlug) "campaign" in
  let client := slugifyTrackingPart clientSlug in
  if client =s? "" then brand else brand +:+ "-" +:+ client.
Definition buildAssignedMboTrackingUrl (brandSlug clientSlug token : jsval) : prog world built :=
  let! token := (if truthy token then ret token else let! t := generateTrackingToken 8 in ret (JStr t)) in
  buildMboTrackingUrl (JObj [("slug", JStr (buildAssignedTrackingSlug brandSlug clientSlug)); ("token", token)]).
End Texts.
End TrackingUrl.

(** ** trackingParamRules.js and trackingUrlBuilder.js *)

Module TrackingParams.
Import TrackingUrl.

Inductive TRACKING_PARAM_CONFIRMATION := CONFIRMED | UNCONFIRMED | DISABLED.
Record TrackingParamRule := ParamRule {
  r_supplier : string; r_confirmation : TRACKING_PARAM_CONFIRMATION;
  clientIdParam : option string; assignmentIdParam : option string; mboClickIdParam : option string;
  trackingLinkSubIdParam : option string; couponParam : option string;
  (** the name of a parameter and of the value it takes *)
  extraParams : list (string * string); verificationFlags : list string
}.
Definition TRACKING_PARAM_RULES : list TrackingParamRule :=
  [ParamRule "OPTIMISE" CONFIRMED (Some "UID") (Some "UID2") None None None [] ["OPTIMISE_CLICK_REFERENCE_UNVERIFIED"];
   ParamRule "TRACKIER" CONFIRMED (Some "p1") (Some "p2") (Some "p3") None None [("click_id", "mboClickId")] ["TRACKIER_PRODUCTION_ECHO_UNVERIFIED"];
   ParamRule "BOOSTINY" UNCONFIRMED None None None None None [] ["BOOSTINY_TRACKING_UNVERIFIED"];
   ParamRule "PARTNERIZE" CONFIRMED (Some "adref") (Some "pubref") (Some "clickref") None None [] ["PARTNERIZE_PRODUCTION_ECHO_UNVERIFIED"];
   ParamRule "IMPACT" CONFIRMED (Some "subId1") (Some "subId2") (Some "subId3") None None [] ["IMPACT_PRODUCTION_ECHO_UNVERIFIED"];
   ParamRule "AWIN" CONFIRMED (Some "clickRef") (Some "clickRef2") (Some "clickRef3") None None [] [];
   ParamRule "UNKNOWN" DISABLED None None None None None [] []].
Definition UNKNOWN_RULE : TrackingParamRule := ParamRule "UNKNOWN" DISABLED None None None None None [] [].
Definition rule_of (key : string) : option TrackingParamRule := List.find (fun r => r_supplier r =s? key) TRACKING_PARAM_RULES.

Record query_params := QueryParams { params : list (string * string); rule : TrackingParamRule; injected : bool; skippedReason : option string }.
Record appended := Appended { a_url : string; applied : list (string * string); skipped : list string }.

Section Params.
Context {H : JsHost} {U : UrlHost}.

Definition resolveSupplierKey (value : jsval) : string :=
  if negb (truthy value) then "UNKNOWN"
  else
    let normalized := to_upper (trim (js_string value)) in
    if normalized =s? "VCOMMISSION" then "TRACKIER"
    else match rule_of normalized with Some _ => normalized | None => "UNKNOWN" end.
Definition getTrackingParamRule (supplier : jsval) : TrackingParamRule := default UNKNOWN_RULE (rule_of (resolveSupplierKey supplier)).

Record attribution_values := Values {
  v_clientId : jsval; v_assignmentId : jsval; v_mboClickId : jsval; v_trackingLinkSubId : jsval; v_couponCode : jsval
}.
(** [value != null ? String(value) : null], empty when there is none *)
Definition text_value (v : jsval) : string := if nullish v then "" else js_string v.
Definition named_value (vs : attribution_values) (name : string) : string :=
  match assoc name [("clientId", v_clientId vs); ("assignmentId", v_assignmentId vs); ("mboClickId", v_mboClickId vs);
                    ("trackingLinkSubId", v_trackingLinkSubId vs); ("couponCode", v_couponCode vs)] with
  | Some v => text_value v
  | None => ""
  end.
(** [if (param && value) params[param] = value] *)
Definition set_param (param : option string) (value : string) (l : list (string * string)) : list (string * string) :=
  match param with
  | Some k => if nonempty k && nonempty value then assoc_set k value l else l
  | None => l
  end.
Definition no_injection (supplier kind : string) : string := "Tracking params for " +:+ supplier +:+ " are " +:+ kind +:+ " — skipping injection.".
Definition rule_params (r : TrackingParamRule) (vs : attribution_values) : list (string * string) :=
  fold_left (fun l '(name, key) => set_param (Some name) (named_value vs key) l) (extraParams r)
    (set_param (couponParam r) (text_value (v_couponCode vs))
      (set_param (trackingLinkSubIdParam r) (text_value (v_trackingLinkSubId vs))
        (set_param (mboClickIdParam r) (text_value (v_mboClickId vs))
          (set_param (assignmentIdParam r) (text_value (v_assignmentId vs))
            (set_param (clientIdParam r) (text_value (v_clientId vs)) []))))).
Definition buildAttributionQueryParams (supplier : jsval) (vs : attribution_values) : query_params :=
  let r := getTrackingParamRule supplier in
  match r_confirmation r with
  | UNCONFIRMED => QueryParams [] r false (Some (no_injection (r_supplier r) "UNCONFIRMED"))
  | DISABLED => QueryParams [] r false (Some (no_injection (r_supplier r) "DISABLED"))
  | CONFIRMED =>
      match rule_params r vs with
      | [] => QueryParams [] r false (Some "No confirmed param values available to inject.")
      | l => QueryParams l r true None
      end
  end.

(** [searchParams.has(k)], [searchParams.set(k, v)] *)
Definition query_has (k : string) (q : list (string * string)) : bool := existsb (fun kv => kv.1 =s? k) q.
Fixpoint query_set (k v : string) (q : list (string * string)) : list (string * string) :=
  match q with
  | [] => [(k, v)]
  | kv :: q' => if kv.1 =s? k then (k, v) :: List.filter (fun kv => negb (kv.1 =s? k)) q' else kv :: query_set k v q'
  end.
(** One parameter: the query, what is applied and what is skipped after it *)
Definition append_param (overwriteExisting : bool) (st : list (string * string) * list (string * string) * list string) (p : string * jsval)
    : list (string * string) * list (string * string) * list string :=
  let '(q, done, missed) := st in
  let '(key, rawValue) := p in
  if (key =s? "") || blank rawValue then (q, done, missed ++ [or_text key "(empty)"])
  else if query_has key q && negb overwriteExisting then (q, done, missed ++ [key])
  else (query_set key (js_string rawValue) q, assoc_set key (js_string rawValue) done, missed).
Definition appendTrackingParams (destinationUrl : jsval) (ps : list (string * jsval)) (overwriteExisting : bool) : outcome appended :=
  match destinationUrl with
  | JStr text =>
      if text =s? "" then Throw (plain_error "destinationUrl is required.")
      else match parse_url text with
           | None => Throw (plain_error ("Invalid destination URL: " +:+ text))
           | Some parsed =>
               if negb (is_http parsed) then Throw (plain_error ("Unsupported URL protocol: " +:+ u_protocol parsed))
               else
                 let '(q, done, missed) := fold_left (append_param overwriteExisting) ps (search_params (u_search parsed), [], []) in
                 let final := match done with [] => parsed | _ => with_search parsed (search_text q) end in
                 Ok (Appended (url_string final) done missed)
           end
  | _ => Throw (plain_error "destinationUrl is required.")
  end.
End Params.
End TrackingParams.

(** ** supplierTrackingLink.contract.js and supplierTrackingLink.service.js *)

Module SupplierLink.
Import TrackingUrl.

Inductive STATE := NOT_GENERATED | AVAILABLE | NEEDS_REVIEW | REVOKED.
Definition state_text (s : STATE) : string :=
  match s with
  | NOT_GENERATED => "TRACKING_LINK_NOT_GENERATED" | AVAILABLE => "TRACKING_LINK_AVAILABLE"
  | NEEDS_REVIEW => "TRACKING_LINK_NEEDS_REVIEW" | REVOKED => "TRACKING_LINK_REVOKED"
  end.
Definition MANUAL_ADMIN : string := "MANUAL_ADMIN".
Definition NEEDS_TRACKING_HOST_EVIDENCE : string := "NEEDS_TRACKING_HOST_EVIDENCE".
(** The hosts of a supplier; none when there is no evidence. *)
Definition SUPPLIER_TRACKING_HOST_ALLOWLIST : list (string * list string) := [("PARTNERIZE", ["prf.hn"])].
Definition DISALLOWED_SCHEMES : list string := ["javascript:"; "data:"; "file:"; "vbscript:"; "blob:"; "about:"; "ftp:"; "http:"].
Definition SupplierTrackingLinkValidationError (message code : string) : js_error := JsError message 0 code.
Record validated := Validated { l_url : string; l_hostname : string }.

(** [s.replace(/\.$/, "")] *)
Fixpoint drop_last_dot (s : string) : string :=
  match s with
  | String "." EmptyString => EmptyString
  | String c s' => String c (drop_last_dot s')
  | EmptyString => EmptyString
  end.
(** White space, angle brackets and quotes *)
Definition illegal_char (c : ascii) : bool := is_space c || existsb (Ascii.eqb c) ["<"; ">"; "034"; "'"]%char.

Section Contract.
Context {H : JsHost} {U : UrlHost}.

Definition trackingHostPolicyFor (supplier : jsval) : list string :=
  default [] (assoc (to_upper (trim (js_string (supplier ?? JStr "")))) SUPPLIER_TRACKING_HOST_ALLOWLIST).
Definition hostMatchesAllowlist (hostname : string) (hosts : list string) : bool :=
  let host := drop_last_dot (to_lower (trim hostname)) in
  nonempty host
  && existsb (fun allowed => let base := to_lower (trim allowed) in nonempty base && ((host =s? base) || ends_with ("." +:+ base) host)) hosts.
Definition validateSupplierTrackingUrl (rawValue supplier : jsval) : outcome validated :=
  let value := match rawValue with JStr s => trim s | _ => "" end in
  let reject message code := Throw (SupplierTrackingLinkValidationError message code) in
  if value =s? "" then reject "Supplier tracking URL is required." "TRACKING_URL_REQUIRED"
  else if 2048 <? Z.of_nat (String.length value) then reject "Supplier tracking URL is too long." "TRACKING_URL_TOO_LONG"
  else if negb (all_chars (fun c => negb (illegal_char c)) value) then reject "Supplier tracking URL contains illegal characters." "TRACKING_URL_MALFORMED"
  else if existsb (fun scheme => starts_with scheme (to_lower value)) DISALLOWED_SCHEMES
  then reject "Supplier tracking URL must use https." "TRACKING_URL_SCHEME_REJECTED"
  else match parse_url value with
       | None => reject "Supplier tracking URL must be an absolute URL." "TRACKING_URL_NOT_ABSOLUTE"
       | Some parsed =>
           if negb (u_protocol parsed =s? "https:") then reject "Supplier tracking URL must use https." "TRACKING_URL_SCHEME_REJECTED"
           else if nonempty (u_username parsed) || nonempty (u_password parsed)
           then reject "Supplier tracking URL must not embed credentials." "TRACKING_URL_CREDENTIALS_REJECTED"
           else match trackingHostPolicyFor supplier with
                | [] => reject "No tracking-host evidence exists for this supplier; refusing to validate against an invented allowlist." NEEDS_TRACKING_HOST_EVIDENCE
                | hosts =>
                    if negb (hostMatchesAllowlist (u_hostname parsed) hosts)
                    then reject "Supplier tracking URL host is not an allowlisted tracking host for this supplier." "TRACKING_HOST_NOT_ALLOWLISTED"
                    else Ok (Validated value (to_lower (u_hostname parsed)))
                end
       end.

Definition stored_text (v : jsval) : string := match v with JStr s => trim s | _ => "" end.
(** What a sync leaves: the link, its state, its provenance, whether the stored link is retained *)
Definition mergeSupplierTrackingLinkOnSync (incomingTrackingUrl existing : jsval) : jsval * jsval * jsval * bool :=
  let incoming := stored_text incomingTrackingUrl in
  let storedUrl := stored_text existing@."trackingUrl" in
  let storedProvenance := existing@."supplierTrackingLinkProvenance" ?? JNull in
  let storedState := existing@."supplierTrackingLinkState" ?? JNull in
  if (incoming =s? "") && (storedProvenance === MANUAL_ADMIN) && nonempty storedUrl
  then (JStr storedUrl, storedState ?? JStr (state_text AVAILABLE), storedProvenance, true)
  else if incoming =s? ""
  then (JNull, JStr (state_text (if storedState === state_text REVOKED then REVOKED else NOT_GENERATED)), JNull, false)
  else (JStr incoming, JStr (state_text AVAILABLE), storedProvenance, false).
Definition isSupplierTrackingLinkUsable (record : jsval) : bool :=
  nonempty (stored_text record@."trackingUrl") && (record@."supplierTrackingLinkState" === state_text AVAILABLE).
Definition classifyTrackingUrlForAudit (value : jsval) : jsval :=
  match value with
  | JStr s => if trim s =s? "" then JNull
              else match parse_url (trim s) with Some u => JStr (to_lower (u_hostname u)) | None => JStr "unparseable" end
  | _ => JNull
  end.
End Contract.

Section Service.
Context {H : JsHost} {D : Database} {U : UrlHost}.

Definition OPERATOR_SETTABLE_STATES : list string := [state_text NEEDS_REVIEW; state_text REVOKED].
Definition WORK_QUEUE_SELECT : list string :=
  ["id"; "supplier"; "supplierRegion"; "supplierCampaignId"; "campaignName"; "merchantNameRaw"; "campaignStatus"; "participationStatus"; "isJoined";
   "destinationUrl"; "trackingUrl"; "supplierTrackingLinkState"; "supplierTrackingLinkProvenance"; "supplierTrackingLinkUpdatedAt";
   "supplierTrackingLinkUpdatedBy"; "updatedAt"].
(** Every selected column but the link, of which only the host is shown *)
Definition toRow (record : jsval) : jsval :=
  JObj (map (fun k => (k, prop record k)) (List.filter (fun k => negb (k =s? "trackingUrl")) WORK_QUEUE_SELECT)
        ++ [("hasSupplierTrackingUrl", JBool (nonempty (stored_text record@."trackingUrl"))); ("supplierTrackingUrlHost", classifyTrackingUrlForAudit record@."trackingUrl")]).
Definition load (supplierCampaignId : jsval) : prog world jsval :=
  let! found := findUnique TSupplierCampaign "id" (JStr (js_string supplierCampaignId)) in
  match found with
  | Some record => ret record
  | None => throw (SupplierTrackingLinkValidationError "Supplier campaign not found." "SUPPLIER_CAMPAIGN_NOT_FOUND")
  end.
Definition assertActor (actor : jsval) : outcome unit :=
  if truthy actor@."id" || truthy actor@."email" then Ok tt
  else Throw (SupplierTrackingLinkValidationError "An authenticated actor is required for a manual supplier tracking-link change." "ACTOR_REQUIRED").

(** [manualChangeAuditControl.contract.js]: a manual change has a complete audit entry. *)
Definition REQUIRED_AUDIT_ENTRY_FIELDS : list string := ["actor"; "timestamp"; "object"; "field"; "oldValue"; "newValue"; "reason"].
Definition MANUAL_CHANGE_CATEGORIES : list string :=
  ["mapping_status"; "campaign_relationship"; "attribution"; "commission_rule"; "payment_reconciliation_state"; "exception_resolution"].
Definition any_of (entry : jsval) (ks : list string) : bool := existsb (fun k => truthy (prop entry k)) ks.
Definition hasAuditField (entry : jsval) (field : string) : bool :=
  is_object entry &&
  (if field =s? "actor" then any_of entry ["actor"; "actorId"; "actorEmail"]
   else if field =s? "timestamp" then any_of entry ["timestamp"; "createdAt"; "occurredAt"]
   else if field =s? "object" then any_of entry ["object"; "aggregateType"; "objectType"]
   else if field =s? "field" then truthy entry@."field" || truthy entry@."metadata"@."field"
   else if field =s? "oldValue" then negb (is_undef entry@."oldValue") || negb (is_undef entry@."before")
   else if field =s? "newValue" then negb (is_undef entry@."newValue") || negb (is_undef entry@."after")
   else if field =s? "reason" then nonempty (trim (js_string (entry@."reason" |or| JStr "")))
   else false).
Definition ManualChangeAuditControlError (message code : string) : js_error := JsError message 0 code.
Definition assertManualChangeAudited (category : string) (auditEntry : jsval) : outcome unit :=
  if negb (existsb (String.eqb category) MANUAL_CHANGE_CATEGORIES)
  then Throw (ManualChangeAuditControlError ("Unknown manual change category: " +:+ category) "UNKNOWN_MANUAL_CHANGE_CATEGORY")
  else if negb (truthy auditEntry) then Throw (ManualChangeAuditControlError "Manual changes require an audit entry." "AUDIT_ENTRY_MISSING")
  else match List.filter (fun field => negb (hasAuditField auditEntry field)) REQUIRED_AUDIT_ENTRY_FIELDS with
       | [] => Ok tt
       | missing => Throw (ManualChangeAuditControlError ("Audit entry missing required fields: " +:+ join ", " missing) "AUDIT_ENTRY_INCOMPLETE")
       end.

Definition recordAudit (record before after reason actor : jsval) : prog world unit :=
  let entry := [("aggregateType", JStr "supplier_campaign"); ("aggregateId", record@."id"); ("action", JStr "supplier_campaign.tracking_link.set");
                ("actorId", actor@."id" ?? JNull); ("actorEmail", actor@."email" ?? JNull); ("before", before); ("after", after); ("reason", reason);
                ("metadata", JObj [("field", JStr "trackingUrl"); ("supplier", record@."supplier")])] in
  let! t := get_now in
  lift (assertManualChangeAudited "campaign_relationship" (JObj (entry ++ [("occurredAt", JDate (Some t))]))) ;;
  audit_record entry.

Definition setSupplierTrackingLink (supplierCampaignId supplierTrackingUrl actor reason : jsval) : prog world jsval :=
  lift (assertActor actor) ;;
  let! record := load supplierCampaignId in
  let! link := lift (validateSupplierTrackingUrl supplierTrackingUrl record@."supplier") in
  let! t := get_now in
  let! updated := update_row TSupplierCampaign record@."id"
    [("trackingUrl", JStr (l_url link)); ("supplierTrackingLinkState", JStr (state_text AVAILABLE)); ("supplierTrackingLinkProvenance", JStr MANUAL_ADMIN);
     ("supplierTrackingLinkUpdatedAt", JDate (Some t)); ("supplierTrackingLinkUpdatedBy", actor@."id" ?? JNull)] in
  recordAudit record
    (JObj [("supplierTrackingUrlHost", classifyTrackingUrlForAudit record@."trackingUrl"); ("supplierTrackingLinkState", record@."supplierTrackingLinkState");
           ("supplierTrackingLinkProvenance", record@."supplierTrackingLinkProvenance")])
    (JObj [("supplierTrackingUrlHost", JStr (l_hostname link)); ("supplierTrackingLinkState", JStr (state_text AVAILABLE));
           ("supplierTrackingLinkProvenance", JStr MANUAL_ADMIN)])
    (reason |or| JStr "Manual supplier tracking link stored by operator.") actor ;;
  ret (toRow updated).

Definition setSupplierTrackingLinkState (supplierCampaignId state actor reason : jsval) : prog world jsval :=
  lift (assertActor actor) ;;
  let next := to_upper (trim (js_string (state ?? JStr ""))) in
  if negb (existsb (String.eqb next) OPERATOR_SETTABLE_STATES)
  then throw (SupplierTrackingLinkValidationError "State is not operator-settable; store a tracking link to reach TRACKING_LINK_AVAILABLE." "STATE_NOT_OPERATOR_SETTABLE")
  else
    let! record := load supplierCampaignId in
    let! t := get_now in
    let! updated := update_row TSupplierCampaign record@."id"
      [("supplierTrackingLinkState", JStr next); ("supplierTrackingLinkUpdatedAt", JDate (Some t)); ("supplierTrackingLinkUpdatedBy", actor@."id" ?? JNull)] in
    recordAudit record (JObj [("supplierTrackingLinkState", record@."supplierTrackingLinkState")]) (JObj [("supplierTrackingLinkState", JStr next)])
      (reason |or| JStr ("Operator set supplier tracking link state to " +:+ next +:+ ".")) actor ;;
    ret (toRow updated).
End Service.
End SupplierLink.

(** ** trackingLink.contract.js *)

Module LinkContract.
Import TrackingUrl TrackingParams.
Section Contract.
Context {H : JsHost}.

Definition first_value (l : list jsval) : jsval := default JNull (List.find (fun v => negb (blank v)) l).
Definition asTrimmedString (value : jsval) : jsval :=
  if blank value then JNull else let s := trim (js_string value) in if s =s? "" then JNull else JStr s.
Definition resolveSupplierTrackingLink (candidates : jsval) : jsval :=
  asTrimmedString (first_value (map (prop candidates) ["supplierTrackingLink"; "networkTrackingLink"; "trackingUrl"; "supplierTrackingUrl"; "destinationUrl"])).
Definition resolveMboTrackingLink (candidates : jsval) : jsval := asTrimmedString (first_value (map (prop candidates) ["mboTrackingLink"; "mboTrackingUrl"])).
Definition assertTrackingLinksIndependent (supplierLink mboLink : jsval) : bool :=
  match asTrimmedString supplierLink, asTrimmedString mboLink with
  | JStr supplier, JStr mbo => negb (supplier =s? mbo)
  | _, _ => true
  end.
Definition VERIFY_LIVE : string := "VERIFY_LIVE".
Definition attributionParameterLabel (supplier : jsval) : string :=
  let r := getTrackingParamRule supplier in
  match r_confirmation r with
  | UNCONFIRMED | DISABLED => VERIFY_LIVE
  | CONFIRMED =>
      match assoc (resolveSupplierKey supplier) [("IMPACT", "SubId1"); ("OPTIMISE", "UID"); ("AWIN", "clickRef"); ("PARTNERIZE", "adref"); ("TRACKIER", "p1")] with
      | Some label => label
      | None => default VERIFY_LIVE (clientIdParam r)
      end
  end.
Definition buildAttributionParamSummary (supplier : jsval) : string :=
  let r := getTrackingParamRule supplier in
  let part param meaning := match param with Some k => [k +:+ "=" +:+ meaning] | None => [] end in
  match concat [part (clientIdParam r) "client"; part (assignmentIdParam r) "assignment"; part (mboClickIdParam r) "mbo_click_id"] with
  | [] => VERIFY_LIVE
  | parts => join ", " parts
  end.
Definition REDIRECT_CHAIN_LABELS : list (string * string) :=
  [("CLIENT", "Client"); ("MBO_TRACKING_LINK", "MBO Tracking Link"); ("MBO_CLICK_ID", "Create / resolve MBO Click ID");
   ("ATTRIBUTION_INJECTION", "Inject MBO attribution token"); ("SUPPLIER_TRACKING_LINK", "Supplier Tracking Link"); ("BRAND_DESTINATION", "Brand destination")].
Definition buildRedirectChain (supplier attributionParameter : jsval) : list jsval :=
  imap (fun i '(step, label) => JObj ([("step", JStr step); ("label", JStr label)]
          ++ (if step =s? "ATTRIBUTION_INJECTION" then [("detail", attributionParameter |or| JStr (attributionParameterLabel supplier))] else [])
          ++ [("order", JNum (num_of_Z (Z.of_nat i + 1)))])) REDIRECT_CHAIN_LABELS.
Definition formatRedirectChainSummary (chain : list jsval) : string := join " → " (map (fun item => js_string item@."label") chain).
Definition toInternalTrackingLinkDto (input : jsval) : jsval :=
  let supplier := input@."supplier" ?? input@."networkSource" ?? JNull in
  let supplierTrackingLink := resolveSupplierTrackingLink input in
  let mboTrackingLink := resolveMboTrackingLink input in
  let attributionParameter := input@."attributionParameter" ?? JStr (attributionParameterLabel supplier) in
  let chain := buildRedirectChain supplier attributionParameter in
  JObj [("id", input@."id" ?? JNull); ("networkSource", supplier); ("supplierTrackingLink", supplierTrackingLink); ("networkTrackingLink", supplierTrackingLink);
        ("mboTrackingLink", mboTrackingLink); ("trackingLinkId", input@."trackingLinkId" ?? input@."id" ?? JNull); ("attributionParameter", attributionParameter);
        ("attributionParamSummary", JStr (buildAttributionParamSummary supplier));
        ("linkKind", if truthy supplierTrackingLink && truthy mboTrackingLink then JStr "BOTH" else if truthy supplierTrackingLink then JStr "SUPPLIER"
                     else if truthy mboTrackingLink then JStr "MBO" else JNull);
        ("redirectChain", JArr chain); ("redirectChainSummary", JStr (formatRedirectChainSummary chain));
        ("linksIndependent", JBool (assertTrackingLinksIndependent supplierTrackingLink mboTrackingLink));
        ("note", JStr "Supplier and MBO tracking links are independent — never substituted.")].
Definition toClientSafeTrackingDto (input : jsval) : jsval :=
  JObj [("mboTrackingLink", resolveMboTrackingLink input); ("trackingLinkId", input@."trackingLinkId" ?? JNull)].
Definition SUPPLIER_FIELDS : list string :=
  ["supplierTrackingLink"; "networkTrackingLink"; "trackingUrl"; "supplierTrackingUrl"; "redirectChain"; "redirectChainSummary"; "attributionParamSummary"].
(** The fields of [{ ...dto }] *)
Definition own_fields (dto : jsval) : list (string * jsval) :=
  match dto with
  | JObj fields => fields
  | JArr l => imap (fun i v => (print_Z (Z.of_nat i) "", v)) l
  | _ => []
  end.
Definition stripSupplierTrackingFields (dto : jsval) : jsval :=
  if is_object dto
  then JObj (map (fun kv => if (kv.1 =s? "tracking") && is_object kv.2 then (kv.1, toClientSafeTrackingDto kv.2) else kv)
               (List.filter (fun kv => negb (existsb (String.eqb kv.1) SUPPLIER_FIELDS)) (own_fields dto)))
  else dto.
End Contract.
End LinkContract.

(** *** What the texts are *)

Module TrackingFacts.
Import TrackingUrl TrackingParams.
Section Facts.
Context {H : JsHost} {U : UrlHost} {T : TextHost}.

(** Letters and digits in groups, one dash between two groups: [start] when a group begins here. *)
Fixpoint grouped (start : bool) (s : string) : bool :=
  match s with
  | EmptyString => negb start
  | String c s' => if (c =? "-")%char then negb start && grouped true s' else slug_char c && grouped false s'
  end.
Definition is_slug (s : string) : bool := (s =s? "") || grouped true s.
(** The same, but a dash may end the text. *)
Fixpoint single_dashed (start : bool) (s : string) : bool :=
  match s with
  | EmptyString => true
  | String c s' => if (c =? "-")%char then negb start && single_dashed true s' else slug_char c && single_dashed false s'
  end.
Lemma slug_not_dash c : slug_char c = true -> (c =? "-")%char = false.
Proof. intros Hc. destruct (Ascii.eqb_spec c "-") as [->|]; [discriminate|reflexivity]. Qed.
Lemma runs_dashed b s : single_dashed b (dash_runs (fun c => negb (slug_char c)) b s) = true.
Proof.
  revert b. induction s as [|c s IH]; intros b; [reflexivity|]. cbn [dash_runs]. destruct (slug_char c) eqn:Ec; cbn [negb].
  - cbn [single_dashed]. now rewrite (slug_not_dash c Ec), Ec, IH.
  - destruct b; [apply IH|]. cbn. apply IH.
Qed.
Lemma collapse_dashed b s : single_dashed b s = true -> dash_runs (Ascii.eqb "-") b s = s.
Proof.
  revert b. induction s as [|c s IH]; intros b; [reflexivity|]. cbn [dash_runs single_dashed]. rewrite (Ascii.eqb_sym "-" c).
  destruct (Ascii.eqb_spec c "-") as [->|Hc].
  - destruct b; [discriminate|]. cbn. intros Hs. now rewrite (IH true).
  - intros [_ Hs]%andb_true_iff. now rewrite IH.
Qed.
Lemma drop_grouped b c s : single_dashed b (String c s) = true -> grouped b (drop_last_dash (String c s)) = true.
Proof.
  revert b c. induction s as [|d s IH]; intros b c.
  - cbn. destruct (c =? "-")%char eqn:Ec; [now destruct b|]. cbn. rewrite Ec. now intros [-> _]%andb_true_iff.
  - change (drop_last_dash (String c (String d s))) with (String c (drop_last_dash (String d s))). intros Hs.
    cbn [single_dashed] in Hs. cbn [grouped]. destruct (c =? "-")%char; apply andb_true_iff in Hs as [Hb Hs]; rewrite Hb; now apply IH.
Qed.
Lemma strip_grouped s : single_dashed false s = true -> is_slug (strip_dashes s) = true.
Proof.
  intros Hs. unfold strip_dashes.
  assert (Ht : exists t, (match s with String "-" s' => s' | _ => s end) = t /\ single_dashed true t = true).
  { destruct s as [|c s]; [now exists ""|]. destruct (Ascii.eqb_spec c "-") as [->|Hc]; [now exists s|]. exists (String c s). split.
    - destruct c as [[] [] [] [] [] [] [] []]; try reflexivity; now exfalso; apply Hc.
    - cbn in *. destruct (Ascii.eqb_spec c "-"); [contradiction|exact Hs]. }
  destruct Ht as (t & -> & Ht). unfold is_slug. destruct t as [|c t]; [reflexivity|]. apply orb_true_iff. right. now apply drop_grouped.
Qed.
Lemma slug_text_shape s : is_slug (slug_text s) = true.
Proof. unfold slug_text. rewrite collapse_dashed; [apply strip_grouped|]; apply runs_dashed. Qed.

Definition slug_or_dash (c : ascii) : bool := slug_char c || (c =? "-")%char.
Lemma grouped_chars b s : grouped b s = true -> all_chars slug_or_dash s = true.
Proof.
  revert b. induction s as [|c s IH]; intros b; [reflexivity|]. cbn [grouped all_chars]. unfold slug_or_dash at 1.
  destruct (c =? "-")%char; intros [Hc Hs]%andb_true_iff; [rewrite orb_true_r|rewrite Hc]; cbn; eauto.
Qed.
Lemma grouped_single b s : grouped b s = true -> single_dashed b s = true.
Proof.
  revert b. induction s as [|c s IH]; intros b; [reflexivity|]. cbn [grouped single_dashed]. destruct (c =? "-")%char; intros [Hc Hs]%andb_true_iff; rewrite Hc; cbn; auto.
Qed.
Lemma slug_or_dash_char c : slug_or_dash c = true -> is_space c = false /\ is_ascii c = true /\ lower_char c = c /\ unreserved c = true.
Proof. destruct c as [[] [] [] [] [] [] [] []]; vm_compute; intros E; try discriminate E; repeat split. Qed.
Lemma trim_right_idem s : trim_right (trim_right s) = trim_right s.
Proof.
  induction s as [|c s IH]; [reflexivity|]. cbn [trim_right]. destruct (trim_right s) as [|d t] eqn:E; [destruct (is_space c) eqn:Ec; cbn; [reflexivity|now rewrite Ec]|].
  cbn [trim_right] in IH |- *. now rewrite IH.
Qed.
Lemma trim_left_head s : match trim_left s with String c _ => is_space c = false | EmptyString => True end.
Proof. induction s as [|c s IH]; [exact I|]. cbn. destruct (is_space c) eqn:E; [exact IH|exact E]. Qed.
Lemma trim_idem s : trim (trim s) = trim s.
Proof.
  unfold trim. pose proof (trim_left_head s) as Hh. destruct (trim_left s) as [|c t]; [reflexivity|].
  assert (E : exists u, trim_right (String c t) = String c u) by (cbn; destruct (trim_right t); [rewrite Hh|]; eauto).
  destruct E as [u E]. rewrite E. cbn [trim_left]. rewrite Hh, <- E. apply trim_right_idem.
Qed.
Lemma marks_ascii s : all_chars is_ascii s = true -> strip_marks s = s.
Proof.
  induction s as [|c [|d s] IH]; [reflexivity|reflexivity|]. cbn [all_chars]. intros [Hc Hs]%andb_true_iff. specialize (IH Hs).
  cbn [strip_marks] in IH |- *. unfold is_ascii in Hc. apply Nat.ltb_lt in Hc.
  replace (nat_of_ascii c =? 204)%nat with false by (symmetry; apply Nat.eqb_neq; lia). replace (nat_of_ascii c =? 205)%nat with false by (symmetry; apply Nat.eqb_neq; lia).
  cbn [andb orb]. now rewrite IH.
Qed.
Lemma lower_slug s : all_chars slug_or_dash s = true -> to_lower s = s.
Proof.
  unfold to_lower. induction s as [|c s IH]; [reflexivity|]. cbn [all_chars map_string]. intros [Hc Hs]%andb_true_iff.
  rewrite (IH Hs). now rewrite (proj1 (proj2 (proj2 (slug_or_dash_char c Hc)))).
Qed.
Lemma runs_single b s : single_dashed b s = true -> dash_runs (fun c => negb (slug_char c)) b s = s.
Proof.
  revert b. induction s as [|c s IH]; intros b; [reflexivity|]. cbn [dash_runs single_dashed]. destruct (Ascii.eqb_spec c "-") as [->|Hc].
  - destruct b; [discriminate|]. cbn. intros Hs. now rewrite (IH true).
  - intros [Hc' Hs]%andb_true_iff. rewrite Hc'. cbn. now rewrite IH.
Qed.
Lemma drop_last_grouped b s : grouped b s = true -> drop_last_dash s = s.
Proof.
  revert b. induction s as [|c s IH]; intros b; [reflexivity|]. cbn [grouped]. destruct s as [|d s].
  - destruct (c =? "-")%char eqn:Ec; [intros [_ E]%andb_true_iff; discriminate E|]. intros _. cbn. now rewrite Ec.
  - intros Hg. change (drop_last_dash (String c (String d s))) with (String c (drop_last_dash (String d s))).
    destruct (c =? "-")%char; apply andb_true_iff in Hg as [_ Hg]; now rewrite (IH _ Hg).
Qed.
Lemma strip_slug s : is_slug s = true -> strip_dashes s = s.
Proof.
  unfold is_slug, strip_dashes. destruct s as [|c s]; [reflexivity|]. cbn [String.eqb orb]. intros Hg.
  replace (match String c s with String "-" s' => s' | _ => String c s end) with (String c s); [now apply drop_last_grouped in Hg|].
  cbn in Hg. destruct (Ascii.eqb_spec c "-") as [->|Hc]; [discriminate|]. destruct c as [[] [] [] [] [] [] [] []]; try reflexivity; now exfalso; apply Hc.
Qed.
Lemma slug_chars s : is_slug s = true -> all_chars slug_or_dash s = true.
Proof. unfold is_slug. destruct s as [|c s]; [reflexivity|]. cbn [String.eqb orb]. apply grouped_chars. Qed.
Lemma slug_single s : is_slug s = true -> single_dashed false s = true.
Proof.
  unfold is_slug. destruct s as [|c s]; [reflexivity|]. cbn [String.eqb orb]. intros Hg%grouped_single. cbn in *. now destruct (c =? "-")%char.
Qed.
(** A slug is its own slug, and is written as it is in an address. *)
Lemma slug_text_fixed s : is_slug s = true -> slug_text s = s.
Proof.
  intros Hs. pose proof (slug_chars s Hs) as Hc. unfold slug_text.
  rewrite trim_tight by (unfold tight; eapply all_chars_impl; [|exact Hc]; intros c Hcc; now rewrite (proj1 (slug_or_dash_char c Hcc))).
  assert (Ha : all_chars is_ascii s = true) by (eapply all_chars_impl; [|exact Hc]; intros c Hcc; apply (slug_or_dash_char c Hcc)).
  rewrite fold_ascii, lower_slug, marks_ascii by assumption. rewrite runs_single, collapse_dashed by (now apply slug_single). now apply strip_slug.
Qed.
Lemma encode_slug s : is_slug s = true -> encodeURIComponent s = s.
Proof.
  intros Hs%slug_chars. induction s as [|c s IH]; [reflexivity|]. cbn [all_chars] in Hs. apply andb_true_iff in Hs as [Hc Hs]. cbn [encodeURIComponent].
  rewrite (proj2 (proj2 (proj2 (slug_or_dash_char c Hc)))). now rewrite IH.
Qed.
Lemma slugify_shape v : is_slug (slugifyTrackingPart v) = true.
Proof. unfold slugifyTrackingPart. destruct (truthy v); [apply slug_text_shape|reflexivity]. Qed.
Lemma slugify_fixed s : is_slug s = true -> slugifyTrackingPart (JStr s) = s.
Proof. intros Hs. unfold slugifyTrackingPart. destruct s; [reflexivity|]. now apply slug_text_fixed. Qed.

(** *** Parameters of an address *)

(** The parameters that the query does not have yet *)
Definition missing_from (q : list (string * string)) (ps : list (string * jsval)) : list (string * string) :=
  map (fun p => (p.1, js_string p.2)) (List.filter (fun p => nonempty p.1 && negb (blank p.2) && negb (query_has p.1 q)) ps).
Lemma query_set_fresh k v q : query_has k q = false -> query_set k v q = q ++ [(k, v)].
Proof. unfold query_has. induction q as [|kv q IH]; [reflexivity|]. cbn. intros [-> Hq]%orb_false_iff. now rewrite IH. Qed.
Lemma query_has_app k q q' : query_has k (q ++ q') = query_has k q || query_has k q'.
Proof. apply existsb_app. Qed.
Lemma query_has_other k q ps : k ∉ map fst ps -> query_has k (missing_from q ps) = false.
Proof.
  intros Hk. apply not_true_iff_false. unfold query_has, missing_from. intros ([j v] & Hin & E%String.eqb_eq)%existsb_exists. cbn in E. subst j. apply Hk.
  apply List.in_map_iff in Hin as ([j' v'] & [= -> _] & Hin%List.filter_In). apply list_elem_of_fmap. exists (k, v'). split; [reflexivity|]. now apply list_elem_of_In.
Qed.
Lemma assoc_set_cons {A} k (v : A) l : assoc_set k v l <> [].
Proof. destruct l as [|[j w] l]; cbn; [discriminate|]. now destruct (j =s? k). Qed.
Lemma append_done ps q done missed q' done' missed' : fold_left (append_param false) ps (q, done, missed) = (q', done', missed') -> done <> [] -> done' <> [].
Proof.
  revert q done missed. induction ps as [|[k v] ps IH]; intros q done missed; cbn [fold_left]; [now intros [= _ -> _]|]. cbn [append_param].
  destruct (_ || _); [apply IH|]. destruct (_ && _); [apply IH|]. intros E _. apply IH in E; [exact E|apply assoc_set_cons].
Qed.
Lemma append_fold ps q done missed :
  NoDup (map fst ps) ->
  let '(q', done', _) := fold_left (append_param false) ps (q, done, missed) in q' = q ++ missing_from q ps /\ (done = [] -> done' = [] -> q' = q).
Proof.
  revert q done missed. induction ps as [|[k v] ps IH]; intros q done missed Hnd; [cbn; now rewrite app_nil_r|].
  apply NoDup_cons in Hnd as [Hk Hnd]. cbn [fold_left append_param]. unfold missing_from. cbn [List.filter fst snd]. unfold nonempty at 1.
  destruct (k =s? "") eqn:Ek; cbn [negb andb orb]; [exact (IH q done _ Hnd)|]. destruct (blank v) eqn:Ev; cbn [negb andb orb]; [exact (IH q done _ Hnd)|].
  destruct (query_has k q) eqn:Eq; cbn [negb andb]; [exact (IH q done _ Hnd)|]. rewrite query_set_fresh by exact Eq.
  specialize (IH (q ++ [(k, js_string v)]) (assoc_set k (js_string v) done) missed Hnd).
  destruct (fold_left _ ps _) as [[q' done'] rest] eqn:Ef. destruct IH as [-> _]. split.
  - rewrite <- app_assoc. cbn [map app fst snd]. f_equal. f_equal. unfold missing_from. f_equal. apply filter_ext_in. intros p Hp. rewrite query_has_app. cbn.
    replace (k =s? p.1) with false; [now rewrite !orb_false_r|]. symmetry. apply String.eqb_neq. intros ->. apply Hk, list_elem_of_fmap. exists p. split; [reflexivity|now apply list_elem_of_In].
  - intros -> ->. exfalso. apply append_done in Ef; [exact (Ef eq_refl)|discriminate].
Qed.
(** The address that a visitor is sent to is the one that was given, with the parameters it lacked. *)
Lemma appended_address s u ps a :
  parse_url s = Some u -> NoDup (map fst ps) -> appendTrackingParams (JStr s) ps false = Ok a ->
  exists u', parse_url (a_url a) = Some u' /\ with_search u' (u_search u) = u /\
    search_params (u_search u') = search_params (u_search u) ++ missing_from (search_params (u_search u)) ps.
Proof.
  intros Hu Hnd. unfold appendTrackingParams. destruct (s =s? ""); [discriminate|]. rewrite Hu. destruct (is_http u) eqn:Eh; cbn [negb]; [|discriminate].
  pose proof (append_fold ps (search_params (u_search u)) [] [] Hnd) as Hf. destruct (fold_left _ ps _) as [[q done] missed]. destruct Hf as [Hq Hsame].
  intros [= <-]. cbn [a_url]. destruct done as [|kv done].
  - exists u. split; [now apply (url_same s)|]. split; [now destruct u|]. rewrite <- Hq. symmetry. now apply Hsame.
  - exists (with_search u (search_text q)). split; [now apply (url_again s)|]. split; [now destruct u|]. cbn [with_search u_search]. now rewrite params_again.
Qed.

(** *** Tokens *)

Fixpoint text_chars (s : string) : list ascii := match s with String c s' => c :: text_chars s' | EmptyString => [] end.
(** A token letter comes from eight of the 256 bytes, whichever letter it is. *)
Lemma token_uniform : Forall (fun c => length (List.filter (fun n => (token_char (ascii_of_nat n) =? c)%char) (seq 0 256)) = 8%nat) (text_chars TOKEN_ALPHABET).
Proof. cbn [text_chars TOKEN_ALPHABET]. repeat constructor; vm_compute; reflexivity. Qed.

(** *** Links of a supplier *)

Section SupplierLinks.
Import SupplierLink.
Context {D : Database}.

(** A link that is accepted is a web address over TLS, without credentials, at a host of the supplier. *)
Record link_of (supplier : jsval) (r : validated) : Prop := LinkOf {
  lo_legal : all_chars (fun c => negb (illegal_char c)) (l_url r) = true;
  lo_short : Z.of_nat (String.length (l_url r)) <= 2048;
  lo_url : exists u, parse_url (l_url r) = Some u /\ u_protocol u = "https:" /\ u_username u = "" /\ u_password u = "" /\
    l_hostname r = to_lower (u_hostname u) /\ hostMatchesAllowlist (u_hostname u) (trackingHostPolicyFor supplier) = true
}.
Lemma empty_text s : nonempty s = false -> s = "".
Proof. unfold nonempty. intros E%negb_false_iff. now apply String.eqb_eq in E. Qed.
Lemma validated_link v supplier r : validateSupplierTrackingUrl v supplier = Ok r -> link_of supplier r.
Proof.
  unfold validateSupplierTrackingUrl. set (value := match v with JStr s => trim s | _ => "" end). destruct (value =s? ""); [discriminate|].
  destruct (2048 <? _) eqn:El; [discriminate|]. apply Z.ltb_ge in El. destruct (all_chars _ value) eqn:Ec; [|discriminate]. cbn [negb].
  destruct (existsb _ DISALLOWED_SCHEMES); [discriminate|]. destruct (parse_url value) as [u|] eqn:Eu; [|discriminate].
  destruct (String.eqb_spec (u_protocol u) "https:") as [Ep|]; [|discriminate]. cbn [negb]. destruct (nonempty (u_username u)) eqn:En; [discriminate|].
  destruct (nonempty (u_password u)) eqn:Ew; [discriminate|]. cbn [orb]. destruct (trackingHostPolicyFor supplier) as [|h hosts] eqn:Eh; [discriminate|].
  destruct (hostMatchesAllowlist _ _) eqn:Em; [|discriminate]. cbn [negb]. intros [= <-]. split; [exact Ec|exact El|]. exists u. rewrite Eh.
  split_and!; auto using empty_text.
Qed.

(** A reason, if one is given, says something. *)
Definition reason_ok (reason : jsval) : Prop := truthy reason = true -> trim (js_string reason) <> "".
Lemma audit_accepted record before after reason actor w :
  assertActor actor = Ok tt -> before <> JUndef -> after <> JUndef -> trim (js_string reason) <> "" -> truthy reason = true ->
  exists entry, recordAudit record before after reason actor w = (Ok tt, set_rows TAudit (rows w TAudit ++ [JObj entry]) w) /\
    assoc "aggregateId" entry = Some record@."id" /\ assoc "actorId" entry = Some (actor@."id" ?? JNull) /\ assoc "actorEmail" entry = Some (actor@."email" ?? JNull) /\
    assoc "before" entry = Some before /\ assoc "after" entry = Some after /\ assoc "reason" entry = Some reason.
Proof.
  intros Ha Hb Hf Hr Ht. unfold recordAudit, get_now. rewrite bind_gets.
  match goal with |- context [audit_record ?e] => set (entry := e) end. exists entry. split; [|repeat split].
  assert (Hok : assertManualChangeAudited "campaign_relationship" (JObj (entry ++ [("occurredAt", JDate (Some (now w)))])) = Ok tt).
  { unfold assertManualChangeAudited. cbn [existsb MANUAL_CHANGE_CATEGORIES String.eqb Ascii.eqb Bool.eqb orb negb truthy]. unfold REQUIRED_AUDIT_ENTRY_FIELDS. cbn [List.filter].
    assert (Hactor : hasAuditField (JObj (entry ++ [("occurredAt", JDate (Some (now w)))])) "actor" = true).
    { unfold assertActor in Ha. unfold hasAuditField, any_of. cbn. unfold coalesce. destruct (truthy actor@."id") eqn:Ei.
      - destruct (actor@."id"); try discriminate Ei; cbn in *; now rewrite ?Ei.
      - cbn [orb] in Ha. destruct (truthy actor@."email") eqn:Ee; [|discriminate]. destruct (actor@."email"); try discriminate Ee; cbn in *; rewrite ?Ee; now rewrite ?orb_true_r. }
    rewrite Hactor. cbn [negb].
    assert (Hreason : hasAuditField (JObj (entry ++ [("occurredAt", JDate (Some (now w)))])) "reason" = true).
    { unfold hasAuditField. cbn. unfold js_or. rewrite Ht. unfold nonempty. apply negb_true_iff, String.eqb_neq. exact Hr. }
    rewrite Hreason. destruct before, after; try contradiction; reflexivity. }
  rewrite Hok. reflexivity.
Qed.

(** A change that goes through is audited; one that fails leaves no trace. *)
Record audited (record actor data before after : jsval) (w w' : world) : Prop := Audited {
  au_frame : forall t, t <> TSupplierCampaign -> t <> TAudit -> rows w' t = rows w t;
  au_rows : rows w' TSupplierCampaign =
    map (fun x => if has_id record@."id" x then spread x (JObj (encode TSupplierCampaign (obj_fields data))) else x) (rows w TSupplierCampaign);
  au_entry : exists entry, rows w' TAudit = rows w TAudit ++ [entry] /\ entry@."aggregateId" = record@."id" /\
    truthy entry@."actorId" || truthy entry@."actorEmail" = true /\ entry@."actorId" = (actor@."id" ?? JNull) /\ entry@."actorEmail" = (actor@."email" ?? JNull) /\
    entry@."before" = before /\ entry@."after" = after /\ trim (js_string entry@."reason") <> ""
}.
Lemma actor_truthy actor : assertActor actor = Ok tt -> truthy (actor@."id" ?? JNull) || truthy (actor@."email" ?? JNull) = true.
Proof. unfold assertActor, coalesce. destruct (actor@."id"), (actor@."email"); cbn; try (now intros _); try discriminate; repeat case_match; try discriminate; reflexivity. Qed.
Lemma reason_given reason fallback : reason_ok reason -> fallback <> "" -> trim fallback <> "" ->
  truthy (reason |or| JStr fallback) = true /\ trim (js_string (reason |or| JStr fallback)) <> "".
Proof.
  intros Hr Hf Ht. unfold js_or. destruct (truthy reason) eqn:E; [split; [exact E|now apply Hr]|]. split; [|exact Ht]. cbn. now destruct fallback.
Qed.
Lemma change_audited record actor data before after reason w r w' :
  assertActor actor = Ok tt -> before <> JUndef -> after <> JUndef -> truthy reason = true /\ trim (js_string reason) <> "" ->
  (let! updated := update_row TSupplierCampaign record@."id" data in recordAudit record before after reason actor ;; ret (toRow updated)) w = (r, w') ->
  match r with Throw _ => w' = w | Ok _ => audited record actor (JObj data) before after w w' end.
Proof.
  intros Ha Hb Hf [Ht Hr] E. unfold bind at 1 in E. destruct (update_row _ _ _ w) as [[u|e] w1] eqn:Eu; [|injection E as <- <-; now apply update_row_fails in Eu].
  destruct (audit_accepted record before after reason actor w1 Ha Hb Hf Hr Ht) as (entry & Ee & Eid & Eact & Email & Ebef & Eaft & Erea).
  unfold bind in E. rewrite Ee in E. injection E as <- <-. pose proof (update_row_only TSupplierCampaign record@."id" data w) as Ho. rewrite Eu in Ho. cbn [snd] in Ho.
  apply update_row_ok in Eu. split.
  - intros t Hc Hau. rewrite rows_set_other by exact Hau. now apply Ho.
  - rewrite rows_set_other by discriminate. exact Eu.
  - exists (JObj entry). rewrite rows_set_same, (Ho TAudit) by discriminate. cbn [prop]. rewrite Eid, Eact, Email, Ebef, Eaft, Erea.
    split_and!; try reflexivity; [now apply actor_truthy|exact Hr].
Qed.
Lemma load_spec id w r w' : load id w = (r, w') -> w' = w /\ match r with Ok record => record@."id" = JStr (js_string id) | Throw _ => True end.
Proof.
  unfold load, findUnique, find_where. rewrite bind_gets. destruct (List.find _ _) as [x|] eqn:Ef; [|now intros [= <- <-]].
  apply List.find_some in Ef as [_ Hid]. intros [= <- <-]. split; [reflexivity|]. now apply col_eq_str in Hid.
Qed.

Inductive link_change := SetLink (id link : jsval) | SetState (id state : jsval).
Definition change_link (change : link_change) (actor reason : jsval) : prog world jsval :=
  match change with
  | SetLink id link => setSupplierTrackingLink id link actor reason
  | SetState id state => setSupplierTrackingLinkState id state actor reason
  end.
Definition changed_id (change : link_change) : jsval := match change with SetLink id _ => id | SetState id _ => id end.
(** What a change writes: a validated link, or a state that operators may set *)
Definition change_data (change : link_change) (record actor data after : jsval) : Prop :=
  match change with
  | SetLink _ link => exists l, validateSupplierTrackingUrl link record@."supplier" = Ok l /\ link_of record@."supplier" l /\
      data@."trackingUrl" = JStr (l_url l) /\ after@."supplierTrackingUrlHost" = JStr (l_hostname l)
  | SetState _ state => data@."trackingUrl" = JUndef /\ exists s, In s OPERATOR_SETTABLE_STATES /\ data@."supplierTrackingLinkState" = JStr s /\ after@."supplierTrackingLinkState" = JStr s
  end.

End SupplierLinks.
End Facts.
End TrackingFacts.
