(* ===== verification/TrackingLinks.v ===== *)
(** * Tracking links, coupons and the public redirect

    [modules/commercial/resolveSupplierDestination.js]: the address behind a link;
    [modules/commercial/services/commercial.service.js]: the tracking links and the coupons of an
    assignment; [modules/reporting/services/trackingRedirect.service.js]: a visit of a link.  The campaign,
    the client and the source of an assignment, the source of a link and the CMS entity of a coupon are
    fields of their rows.  What the CMS shows of a coupon ([coupons/allotmentFields.js],
    [coupons/codeType.js]) is the interface [CouponCms]. *)

From S2P Require Import Prelude JsNum JsVal JsDate JsDay Store Accounts Encryption Attribution Commercial Tracking.
Import Attribution CommercialRules TrackingUrl TrackingParams.
Local Open Scope Z_scope.

(** [buildAllotmentDisplayFields(entity, { campaignEntity })], [resolveCouponCodeType(rawData, network)] and
    [extractParentCampaignIds([entity])] *)
Class CouponCms := {
  allotment_fields : jsval -> jsval -> jsval;
  coupon_code_type : jsval -> jsval -> jsval;
  parent_campaign_ids : jsval -> list string
}.

(** ** resolveSupplierDestination.js *)

Module SupplierDestination.
Section Destination.
Context {H : JsHost} {U : UrlHost} {M : CouponCms}.

Record destination := Destination { d_url : option string; d_source : option string; d_reason : option string }.
Definition nowhere (reason : option string) : destination := Destination None None reason.
Definition pickUrl (candidates : list jsval) : option string := option_map (fun v => trim (js_string v)) (List.find looksLikeHttpUrl candidates).

(** [/\bword\b/] *)
Fixpoint has_word (after_word : bool) (word s : string) : bool :=
  (negb after_word && starts_with word s && at_boundary (string_drop (String.length word) s))
  || match s with String c s' => has_word (word_char c) word s' | EmptyString => false end.
Definition isCodeLikeCoupon (entity couponType : jsval) : bool :=
  let normalized := to_upper (trim (js_string couponType)) in
  if truthy couponType && (normalized =s? "CODE") then true
  else if truthy couponType && (normalized =s? "LINK") then false
  else
    let raw := as_object entity@."rawData" in
    let resolved := coupon_code_type raw entity@."networkSource" in
    let label := to_lower (trim (js_string (resolved |or| (as_object entity@."normalizedData")@."code_type" |or| raw@."code_type" |or| raw@."coupon_type"
                                            |or| raw@."type" |or| JStr ""))) in
    if label =s? "" then raw@."record_source" === "deal"
    else if has_word false "link" label && negb (has_word false "coupon" label) && negb (has_word false "code" label) then false
    else existsb (fun word => has_word false word label) ["coupon"; "code"; "deal"; "voucher"].
Definition at_url (v : jsval) (url : string) : bool := looksLikeHttpUrl v && (trim (js_string v) =s? url).
Definition sourceForAllotment (allotment : jsval) (url : string) : string :=
  if at_url allotment@."trackingUrl" url then "couponCms.trackingUrl"
  else if at_url allotment@."offerLink" url then "couponCms.offerLink"
  else if at_url allotment@."websiteUrl" url then "couponCms.websiteUrl"
  else "couponCms".
Definition destinationFromCouponCmsEntity (entity campaignEntity couponType : jsval) : option (string * string) :=
  if negb (truthy entity) then None
  else
    let allotment := allotment_fields entity campaignEntity in
    let order := if isCodeLikeCoupon entity couponType then ["websiteUrl"; "offerLink"; "trackingUrl"] else ["trackingUrl"; "offerLink"; "websiteUrl"] in
    option_map (fun url => (url, sourceForAllotment allotment url)) (pickUrl (map (prop allotment) order)).

Definition NETWORK_EXTERNAL_ID_PREFIXES : list string := ["trackier"; "boostiny"; "optimise"; "vcommission"; "partnerize"].
Fixpoint after_colon (s : string) : string :=
  match s with
  | String c s' => if includes s' ":" then after_colon s' else if (c =? ":")%char then s' else s
  | EmptyString => EmptyString
  end.
Definition externalIds (network : string) (parentIds : list string) : list string :=
  concat (map (fun id => let raw := trim id in
    if raw =s? "" then []
    else [raw] ++ (if network =s? "" then [] else [network +:+ ":" +:+ raw]) ++ map (fun prefix => prefix +:+ ":" +:+ raw) NETWORK_EXTERNAL_ID_PREFIXES) parentIds).
Definition campaign_keys (campaign : jsval) : list string :=
  let ext := js_string (campaign@."externalId" |or| JStr "") in
  let tail := if includes ext ":" then after_colon ext else ext in
  [ext] ++ (if tail =s? "" then [] else [tail]) ++ (if nullish campaign@."rawData"@."id" then [] else [js_string campaign@."rawData"@."id"]).
Definition by_key (campaigns : list jsval) : list (string * jsval) :=
  fold_left (fun m c => fold_left (fun m k => assoc_set k c m) (campaign_keys c) m) campaigns [].
Definition newest (p : jsval -> bool) (w : world) : jsval :=
  row_or_null (hd_error (sort_by (fun a b => date_of b@."updatedAt" <=? date_of a@."updatedAt") (List.filter p (rows w TEntity)))).
Definition same_name (name : string) (v : jsval) : bool := match v with JStr s => to_lower s =s? to_lower name | _ => false end.
Definition campaign_named (name : string) (e : jsval) : bool :=
  (e@."entityType" === "campaign") && (same_name name e@."campaignName" || same_name name e@."entityName").
Definition loadCampaignEntityForCoupon (entity : jsval) (w : world) : jsval :=
  let parentIds := parent_campaign_ids entity in
  let ids := externalIds (to_lower (trim (js_string (entity@."networkSource" |or| JStr "")))) parentIds in
  let campaigns := firstn 20 (List.filter (fun e => (e@."entityType" === "campaign") && existsb (fun id => col_eq e@."externalId" (JStr id)) ids) (rows w TEntity)) in
  let campaignName := entity@."campaignName" |or| (as_object entity@."rawData")@."campaign_name" in
  if negb (truthy entity) then JNull
  else match campaigns with
       | c :: _ => default c (head (omap (fun id => assoc id (by_key campaigns)) parentIds))
       | [] => if truthy campaignName then newest (campaign_named (js_string campaignName)) w else JNull
       end.
Definition destinationFromEntityWithParent (entity couponType : jsval) (w : world) : option (string * string) :=
  destinationFromCouponCmsEntity entity (loadCampaignEntityForCoupon entity w) couponType.
Definition destinationFromCampaignEntity (campaignEntity : jsval) (preferWebsite : bool) : option (string * string) :=
  let raw := as_object campaignEntity@."rawData" in
  let website := pickUrl (map (prop raw) ["preview_url"; "website"; "website_url"; "landingPage"; "landing_page"; "destination_url"]) in
  let tracking := pickUrl (map (prop raw) ["tracking_link"; "tracking_url"; "trackingURL"; "click_url"]) in
  let source url := if bool_decide (website = Some url) then "campaign.website" else if bool_decide (tracking = Some url) then "campaign.tracking" else "campaign" in
  if negb (truthy campaignEntity) then None
  else option_map (fun url => (url, source url))
         (pickUrl (map of_option_str (if preferWebsite then [website; tracking] else [tracking; website]))).

Definition code_coupon (row : jsval) : bool := to_upper (js_string row@."couponType") =s? "CODE".
Definition destination_of_coupon (w : world) (coupon : jsval) : option (string * string) :=
  let entity := coupon@."supplierCoupon"@."entity" in
  let only_link v := if coupon@."couponType" === "LINK" then v else JNull in
  match destinationFromEntityWithParent entity coupon@."couponType" w with
  | Some found => Some found
  | None =>
      option_map (fun url => (url, "clientCouponAssignment.link"))
        (pickUrl [coupon@."supplierCoupon"@."couponLink"; only_link coupon@."clientCouponCode"; only_link coupon@."supplierCouponCode";
                  coupon@."clientCouponCode"; coupon@."supplierCouponCode"])
  end.
Definition tryCouponRows (w : world) (coupons : list jsval) : option (string * string) := head (omap (destination_of_coupon w) coupons).
(** The newest twenty coupons of an assignment that are in use *)
Definition coupons_in_use (assignmentId : jsval) (w : world) : list jsval :=
  firstn 20 (sort_by (fun a b => date_of b@."createdAt" <=? date_of a@."createdAt")
    (List.filter (fun c => col_eq c@."assignmentId" assignmentId && in_enum ["ACTIVE"; "ASSIGNED"] c@."status") (rows w TCouponAssignment))).

Definition SUPPLIER_TRACKING_LINK_REQUIRED : string := "SUPPLIER_TRACKING_LINK_REQUIRED".
Definition found_at (found : string * string) : destination := Destination (Some found.1) (Some found.2) None.
(** By the name of the campaign, in the CMS and then among the campaigns *)
Definition by_campaign_name (name : jsval) (preferWebsite : bool) (w : world) : option (string * string) :=
  if negb (truthy name) then None
  else
    let entity := newest (fun e => (e@."entityType" === "coupon") && same_name (js_string name) e@."campaignName") w in
    match destinationFromEntityWithParent entity (if preferWebsite then JStr "CODE" else JNull) w with
    | Some (url, source) => Some (url, source +:+ "+campaignName")
    | None => destinationFromCampaignEntity (newest (campaign_named (js_string name)) w) preferWebsite
    end.
Definition by_supplier_campaign (supplierCampaign : jsval) (preferWebsite : bool) : option (string * string) :=
  let tracking := supplierCampaign@."trackingUrl" in
  let landing := supplierCampaign@."destinationUrl" in
  let candidates := if supplierAllowsDestinationTrackingFallback supplierCampaign@."supplier"
                    then (if preferWebsite then [landing; tracking] else [tracking; landing]) else [tracking] in
  option_map (fun url => (url, if truthy tracking && (url =s? trim (js_string tracking)) then "supplierCampaign.trackingUrl" else "supplierCampaign.destinationUrl"))
    (pickUrl candidates).
Definition by_merchant (merchant : jsval) (preferWebsite : bool) : option (string * string) :=
  let website := merchant@."website" in
  let tracking := merchant@."supplierTrackingLink" in
  option_map (fun url => (url, if truthy website && (website === url) then "merchant.website" else "merchant.supplierTrackingLink"))
    (pickUrl (if preferWebsite then [website; tracking] else [tracking; website])).
Definition missing_reason (preferWebsite : bool) : string :=
  if preferWebsite
  then "Website URL is missing for this code campaign. Ensure the Coupon CMS / parent campaign has a preview or website URL."
  else "Supplier tracking URL is missing for this campaign. Ensure the Coupon CMS entry has a tracking URL.".
(** The search over coupons, campaigns and the merchant of an assignment *)
Definition search_destination (assignmentId link : jsval) (w : world) : destination :=
  let assignment := assignment_by_id assignmentId w in
  let loaded := as_array link@."assignment"@."couponAssignments" in
  let coupons := coupons_in_use assignmentId w in
  let preferWebsite := existsb code_coupon coupons || existsb code_coupon loaded in
  let supplierCampaign := assignment@."campaignSource"@."supplierCampaign" |or| link@."campaignSource"@."supplierCampaign" |or| JNull in
  if negb (truthy assignment) then nowhere (Some "Campaign assignment is missing.")
  else match tryCouponRows w loaded, tryCouponRows w coupons, by_campaign_name assignment@."canonicalCampaign"@."displayName" preferWebsite w with
       | Some found, _, _ | None, Some found, _ | None, None, Some found => found_at found
       | None, None, None =>
           if truthy supplierCampaign && negb (supplierAllowsDestinationTrackingFallback supplierCampaign@."supplier")
              && negb (bool_decide (is_Some (pickUrl [supplierCampaign@."trackingUrl"])))
           then nowhere (Some SUPPLIER_TRACKING_LINK_REQUIRED)
           else match by_supplier_campaign supplierCampaign preferWebsite, by_merchant assignment@."canonicalCampaign"@."merchant" preferWebsite with
                | Some found, _ | None, Some found => found_at found
                | None, None => nowhere (Some (missing_reason preferWebsite))
                end
       end.
Definition coupon_entity (id : jsval) (w : world) : jsval := row_or_null (List.find (fun e => has_id id e && (e@."entityType" === "coupon")) (rows w TEntity)).
Definition resolveSupplierDestination (assignmentId couponEntityId link : jsval) (preferPersisted : bool) (w : world) : destination :=
  if preferPersisted && looksLikeHttpUrl link@."supplierTrackingUrl"
  then Destination (Some (trim (js_string link@."supplierTrackingUrl"))) (Some "trackingLink.supplierTrackingUrl") None
  else
    match (if truthy couponEntityId then destinationFromEntityWithParent (coupon_entity couponEntityId w) JNull w else None) with
    | Some found => found_at found
    | None =>
        let assignmentId := if negb (truthy assignmentId) && truthy link@."assignmentId" then link@."assignmentId" else assignmentId in
        if negb (truthy assignmentId) then nowhere (Some "Assignment is missing; cannot resolve supplier tracking URL.")
        else search_destination assignmentId link w
    end.
End Destination.
End SupplierDestination.

(** ** The links and coupons of [commercial.service.js] *)

Module TrackingLinks.
Import SupplierDestination.
Section Links.
Context {H : JsHost} {D : Database} {U : UrlHost} {T : TextHost} {C : Cipher} {G : TrackingConfig} {M : CouponCms}.

Definition assertTrackingLinkAssignment (assignment : jsval) : outcome unit :=
  let published b := match assignment@."published" with JBool p => eqb p b | _ => false end in
  if negb (truthy assignment) then Throw (api_fail "Assignment not found." 404)
  else if assignment@."status" === "REVOKED" then Throw (api_fail "Cannot add tracking links to a revoked assignment." 409)
  else if negb (published true && (assignment@."status" === "ACTIVE")) && negb (published false && (assignment@."status" === "ASSIGNED"))
  then Throw (api_fail "Assignment must be an active published grant or an unpublished review draft." 409)
  else Ok tt.

(** *** The repository *)

Definition is_live (l : jsval) : bool := nullish l@."deletedAt".
Definition clearPrimaryForAssignment (assignmentId exceptId : jsval) : prog world unit :=
  modify (fun w => set_rows TTrackingLink (map (fun l =>
    if col_eq l@."assignmentId" assignmentId && is_live l && (negb (truthy exceptId) || negb (has_id exceptId l))
    then spread l (JObj [("isPrimary", JBool false)]) else l) (rows w TTrackingLink)) w).
(** The token of a link is unique. *)
Definition update_link (id : jsval) (data : list (string * jsval)) : prog world jsval :=
  fun w => if existsb (fun l => negb (has_id id l) && col_eq l@."subId" (prop (JObj data) "subId")) (rows w TTrackingLink) then (Throw unique_violation, w)
           else update_row TTrackingLink id data w.
Definition revoke (id : jsval) : prog world jsval :=
  let! t := get_now in
  update_link id [("status", JStr "REVOKED"); ("isPrimary", JBool false); ("deletedAt", JDate (Some t))].

(** *** Links *)

Definition resolveSupplierTrackingDefaults (assignmentId : jsval) (w : world) : option string := d_url (resolveSupplierDestination assignmentId JNull JNull false w).
Definition supplier_campaign_of (assignment : jsval) : jsval := assignment@."campaignSource"@."supplierCampaign" ?? JNull.
Definition resolveTrackingSlugForAssignment (assignmentId : jsval) (w : world) : string :=
  let assignment := assignment_by_id assignmentId w in
  let supplierCampaign := supplier_campaign_of assignment in
  let brandSlug := supplierCampaign@."mboTrackingSlug" |or| JStr (resolveSupplierCampaignBrandSlug supplierCampaign) in
  let clientSlug := assignment@."client"@."slug" |or| JNull in
  let campaignSlug := assignment@."canonicalCampaign"@."displayName" |or| supplierCampaign@."campaignName" |or| JNull in
  if truthy clientSlug then buildAssignedTrackingSlug brandSlug clientSlug else buildTrackingSlug JUndef brandSlug campaignSlug.

(** [input.mboTrackingUrl?.trim() || generated.mboTrackingUrl] *)
Definition given_or_built (given : jsval) (made : built) : jsval :=
  match given with JStr s => if trim s =s? "" then JStr (b_mboTrackingUrl made) else JStr (trim s) | _ => JStr (b_mboTrackingUrl made) end.
Definition source_ok (input assignment : jsval) (w : world) : bool :=
  negb (truthy input@."campaignSourceId")
  || match List.find (has_id input@."campaignSourceId") (rows w TCampaignSource) with
     | Some source => col_eq source@."canonicalCampaignId" assignment@."canonicalCampaignId"
     | None => false
     end.
Definition link_data (input : jsval) (supplierTrackingUrl : jsval) (made : built) : list (string * jsval) :=
  [("assignmentId", input@."assignmentId"); ("campaignSourceId", input@."campaignSourceId" ?? JNull); ("slug", JStr (b_slug made)); ("subId", JStr (b_subId made));
   ("supplierTrackingUrl", supplierTrackingUrl); ("mboTrackingUrl", given_or_built input@."mboTrackingUrl" made);
   ("deeplinkTemplate", input@."deeplinkTemplate" ?? JNull); ("trackingType", input@."trackingType" ?? JStr "STANDARD"); ("status", JStr "ACTIVE");
   ("isPrimary", JBool (is_true input@."isPrimary")); ("expiresAt", input@."expiresAt" ?? JNull)].
Definition create_link (input : jsval) : prog world jsval :=
  let! assignment := gets (assignment_by_id input@."assignmentId") in
  lift (assertTrackingLinkAssignment assignment) ;;
  let! belongs := gets (source_ok input assignment) in
  if negb belongs then throw (api_fail "Campaign source does not belong to the assignment catalog campaign." 409)
  else
    let! supplierTrackingUrl := gets (fun w =>
      let given := input@."supplierTrackingUrl" ?? JNull in
      if truthy given then given else of_option_str (resolveSupplierTrackingDefaults input@."assignmentId" w)) in
    if negb (truthy supplierTrackingUrl) then throw (api_fail "Cannot create tracking link: supplier tracking URL is missing for this campaign." 409)
    else
      (if is_true input@."isPrimary" then clearPrimaryForAssignment input@."assignmentId" JNull else ret tt) ;;
      let! slug := gets (fun w => if truthy input@."slug" then input@."slug" else JStr (resolveTrackingSlugForAssignment input@."assignmentId" w)) in
      let! made := buildMboTrackingUrl (JObj [("slug", slug); ("token", input@."token" |or| (supplier_campaign_of assignment)@."mboTrackingToken" |or| JUndef)]) in
      create_row TTrackingLink (link_data input supplierTrackingUrl made).
Definition createTrackingLink (input : jsval) : prog world jsval := transaction (create_link input).

Definition find_link_or_fail (id : jsval) : prog world jsval :=
  let! link := gets (link_by_id id) in
  if truthy link then ret link else throw (api_fail "Tracking link not found." 404).
Definition rotateTrackingLink (id input : jsval) : prog world jsval :=
  transaction (
    let! existing := find_link_or_fail id in
    revoke id ;;
    let! slug := gets (fun w => if truthy existing@."slug" then existing@."slug" else JStr (resolveTrackingSlugForAssignment existing@."assignmentId" w)) in
    create_link (JObj [("assignmentId", existing@."assignmentId"); ("campaignSourceId", existing@."campaignSourceId");
      ("supplierTrackingUrl", input@."supplierTrackingUrl" ?? existing@."supplierTrackingUrl"); ("slug", slug);
      ("deeplinkTemplate", input@."deeplinkTemplate" ?? existing@."deeplinkTemplate"); ("trackingType", input@."trackingType" ?? existing@."trackingType");
      ("isPrimary", JBool true); ("expiresAt", input@."expiresAt" ?? existing@."expiresAt")])).
Definition regenerateTrackingToken (id : jsval) : prog world jsval :=
  let! existing := find_link_or_fail id in
  if (existing@."status" === "REVOKED") || truthy existing@."deletedAt" then throw (api_fail "Cannot regenerate a revoked tracking link." 409)
  else
    let! slug := gets (fun w => if truthy existing@."slug" then existing@."slug" else JStr (resolveTrackingSlugForAssignment existing@."assignmentId" w)) in
    let! made := buildMboTrackingUrl (JObj [("slug", slug)]) in
    update_link id [("slug", JStr (b_slug made)); ("subId", JStr (b_subId made)); ("mboTrackingUrl", JStr (b_mboTrackingUrl made))].
Definition LINK_COLUMNS : list string := ["status"; "isPrimary"; "mboTrackingUrl"; "deeplinkTemplate"; "expiresAt"].
Definition updateTrackingLink (id input : jsval) : prog world jsval :=
  if truthy input@."rotate" then rotateTrackingLink id input
  else if truthy input@."regenerateToken" then regenerateTrackingToken id
  else
    let! link := find_link_or_fail id in
    (if is_true input@."isPrimary" then clearPrimaryForAssignment link@."assignmentId" id else ret tt) ;;
    update_link id (given_columns input LINK_COLUMNS).

(** *** Coupons *)

Definition find_coupon (id : jsval) : prog world jsval :=
  let! found := findUnique TCouponAssignment "id" id in
  match found with Some coupon => ret coupon | None => throw (api_fail "Coupon assignment not found." 404) end.
Definition discount (input : jsval) : jsval :=
  if input@."couponType" === "CODE"
  then (match input@."discountPercentage" with JStr s => JStr (trim s) | _ => JUndef end) |or| input@."discountPercentage" |or| JNull
  else JNull.
Definition assignCoupon (input : jsval) : prog world jsval :=
  let! assignment := gets (assignment_by_id input@."assignmentId") in
  lift (assertCommercialAssignment assignment) ;;
  create_row TCouponAssignment
    [("assignmentId", input@."assignmentId"); ("supplierCouponId", input@."supplierCouponId" ?? JNull); ("supplierCouponCode", input@."supplierCouponCode" ?? JNull);
     ("clientCouponCode", input@."clientCouponCode" ?? JNull); ("couponType", input@."couponType" ?? JStr "UNKNOWN"); ("discountPercentage", discount input);
     ("status", JStr "ASSIGNED"); ("validFrom", input@."validFrom" ?? JNull); ("validUntil", input@."validUntil" ?? JNull)].
Definition activateCoupon (id : jsval) : prog world jsval :=
  let! coupon := find_coupon id in
  if in_enum ["REVOKED"; "EXPIRED"] coupon@."status" then throw (api_fail "Cannot activate a revoked or expired coupon assignment." 409)
  else
    let! assignment := gets (assignment_by_id coupon@."assignmentId") in
    lift (assertCommercialAssignment assignment) ;;
    update_row TCouponAssignment id [("status", JStr "ACTIVE")].
Definition deactivateCoupon (id : jsval) : prog world jsval :=
  find_coupon id ;; update_row TCouponAssignment id [("status", JStr "REVOKED")].
Definition updateCouponAssignment (id input : jsval) : prog world jsval :=
  if truthy input@."activate" then activateCoupon id
  else if truthy input@."deactivate" then deactivateCoupon id
  else find_coupon id ;; update_row TCouponAssignment id (given_columns input ["status"; "clientCouponCode"; "validFrom"; "validUntil"]).
End Links.
End TrackingLinks.

(** ** trackingRedirect.service.js *)

Module TrackingRedirect.
Import SupplierDestination TrackingLinks.
Section Redirect.
Context {H : JsHost} {D : Database} {U : UrlHost} {K : Crypto} {M : CouponCms}.

(** A link with its assignment and the coupons of that; [null] when there is none. *)
Definition with_assignment (link : jsval) (w : world) : jsval :=
  let assignment := assignment_by_id link@."assignmentId" w in
  if negb (truthy link) then JNull
  else with_relation link "assignment"
         (if truthy assignment then with_relation assignment "couponAssignments" (JArr (coupons_in_use link@."assignmentId" w)) else JNull).
Definition link_by_token (subId : string) (w : world) : jsval :=
  row_or_null (List.find (fun l => col_eq l@."subId" (JStr subId) && is_live l) (rows w TTrackingLink)).
Definition findBySubId (subId : string) (w : world) : jsval := with_assignment (link_by_token subId w) w.
Definition findBySlugAndToken (slug token : jsval) (w : world) : jsval :=
  let subId := trim (js_string (token |or| JStr "")) in
  let linkSlug := to_lower (trim (js_string (slug |or| JStr ""))) in
  let link := findBySubId subId w in
  if subId =s? "" then JNull
  else if truthy link@."slug" && negb (to_lower (js_string link@."slug") =s? linkSlug) then JNull
  else link.
Definition loadLink (slug token : jsval) : prog world jsval :=
  let subId := trim (js_string (token |or| JStr "")) in
  if subId =s? "" then throw (api_fail "Tracking token is required." 400)
  else if truthy slug then
    gets (fun w =>
      let bySlug := findBySlugAndToken slug (JStr subId) w in
      let byToken := findBySubId subId w in
      if truthy bySlug then bySlug else if truthy byToken@."slug" then JNull else byToken)
  else gets (findBySubId subId).

Definition NETWORK_SUPPLIERS : list (string * string) := [("trackier", "TRACKIER"); ("vcommission", "TRACKIER"); ("boostiny", "BOOSTINY"); ("partnerize", "PARTNERIZE")].
Definition first_coupon (link : jsval) : jsval := default JUndef (hd_error (as_array link@."assignment"@."couponAssignments")).
Definition resolveSupplierFromLink (link : jsval) : string :=
  let fromSource := link@."campaignSource"@."supplierCampaign"@."supplier" |or| link@."assignment"@."campaignSource"@."supplierCampaign"@."supplier" |or| JNull in
  let network := (first_coupon link)@."supplierCoupon"@."entity"@."networkSource" |or| JNull in
  let lower := to_lower (js_string network) in
  if truthy fromSource then resolveSupplierKey fromSource
  else if negb (truthy network) then "UNKNOWN"
  else if starts_with "optimise" lower then "OPTIMISE"
  else match List.find (fun '(word, _) => includes lower word) NETWORK_SUPPLIERS with Some (_, supplier) => supplier | None => "UNKNOWN" end.
Definition pickActiveCouponCode (link : jsval) : jsval :=
  let coupons := as_array link@."assignment"@."couponAssignments" in
  let coded status row := (row@."status" === status) && truthy row@."clientCouponCode" in
  match List.find (coded "ACTIVE") coupons, List.find (coded "ASSIGNED") coupons with
  | Some row, _ | None, Some row => row@."clientCouponCode" ?? JNull
  | None, None => JNull
  end.
Definition shouldInjectAttributionParams (resolved : destination) (link : jsval) : bool :=
  let source := default "" (d_source resolved) in
  let couponType := match List.find (fun row => in_enum ["ACTIVE"; "ASSIGNED"] row@."status") (as_array link@."assignment"@."couponAssignments") with
                    | Some row => row@."couponType"
                    | None => JUndef
                    end in
  negb ((source =s? "couponCms.websiteUrl") || ((to_upper (js_string (couponType |or| JStr "")) =s? "CODE") && includes source "website")).

(** The refusals of a visit *)
Definition assertLive (link : jsval) : outcome unit :=
  let assignment := link@."assignment" in
  let catalog := assignment@."canonicalCampaign" in
  if negb (truthy link) then Throw (api_fail "Tracking link not found." 404)
  else if (link@."status" === "REVOKED") || truthy link@."deletedAt" then Throw (api_fail "Tracking link has been revoked." 410)
  else if negb (in_enum ["ACTIVE"; "GENERATED"] link@."status")
  then Throw (api_fail ("Tracking link status is " +:+ js_string link@."status" +:+ "; redirect is not allowed.") 409)
  else if negb (truthy assignment) then Throw (api_fail "Campaign assignment is missing for this tracking link." 410)
  else if assignment@."status" === "REVOKED" then Throw (api_fail "Campaign assignment has been revoked." 410)
  else if negb (truthy assignment@."published") || negb (assignment@."status" === "ACTIVE")
  then Throw (api_fail "Campaign assignment is not live (unpublished or inactive)." 409)
  else if negb (assignment@."client"@."status" === "ACTIVE") || truthy assignment@."client"@."deletedAt" then Throw (api_fail "Client account is not active." 409)
  else if negb (truthy catalog) || truthy catalog@."deletedAt" then Throw (api_fail "Campaign is missing." 410)
  else if (catalog@."status" === "ARCHIVED") || (catalog@."visibility" === "HIDDEN") then Throw (api_fail "Campaign is inactive or hidden." 410)
  else Ok tt.

Record visit := Visit { v_destination : string; v_subId : jsval; v_slug : jsval; v_source : option string; v_clickId : jsval; v_supplier : string; v_injected : bool }.
Definition persist_destination (link : jsval) (url : string) : prog world unit :=
  if looksLikeHttpUrl link@."supplierTrackingUrl" && (trim (js_string link@."supplierTrackingUrl") =s? url) then ret tt
  else catch (update_link link@."id" [("supplierTrackingUrl", JStr url)] ;; ret tt) (fun _ => ret tt).
Definition click_input (link requestMeta : jsval) (source : option string) : jsval := JObj
  [("trackingLinkId", link@."id"); ("subId", link@."subId"); ("ip", requestMeta@."ip"); ("userAgent", requestMeta@."userAgent"); ("country", requestMeta@."country");
   ("device", requestMeta@."device"); ("referrer", requestMeta@."referrer");
   ("metadata", JObj [("source", JStr "public_redirect"); ("slug", link@."slug" |or| JNull); ("destinationSource", of_option_str source)])].
(** The address with the attribution, and whether it carries it *)
Definition attributed (link click : jsval) (supplier url : string) (resolved : destination) : string * bool :=
  if negb (shouldInjectAttributionParams resolved link) then (url, false)
  else
    let made := buildAttributionQueryParams (JStr supplier)
      (Values (link@."assignment"@."clientId" ?? link@."assignment"@."client"@."id" ?? JNull) link@."assignmentId" (click@."id" ?? JNull) link@."subId" (pickActiveCouponCode link)) in
    if negb (injected made) then (url, false)
    else match appendTrackingParams (JStr url) (map (fun kv => (kv.1, JStr kv.2)) (params made)) false with
         | Ok a => (a_url a, true)
         | Throw _ => (url, false)
         end.
Definition redirect (slug token requestMeta : jsval) : prog world visit :=
  let! link := loadLink slug token in
  lift (assertLive link) ;;
  let! resolved := gets (resolveSupplierDestination link@."assignmentId" JNull link true) in
  match d_url resolved with
  | None => throw (api_fail (default "Supplier tracking URL is missing for this campaign; cannot redirect." (d_reason resolved)) 409)
  | Some url =>
      persist_destination link url ;;
      let! click := recordClick (click_input link requestMeta (d_source resolved)) in
      let supplier := resolveSupplierFromLink link in
      let sent := attributed link click supplier url resolved in
      ret (Visit sent.1 link@."subId" (link@."slug" |or| JNull) (d_source resolved) (click@."id" ?? JNull) supplier sent.2)
  end.
End Redirect.
End TrackingRedirect.

(** ** At most one primary link *)

Module LinkFacts.
Import SupplierDestination TrackingLinks.
Section Facts.
Context {H : JsHost} {D : Database} {U : UrlHost} {T : TextHost} {C : Cipher} {G : TrackingConfig} {M : CouponCms}.

Definition primary (l : jsval) : bool := is_true l@."isPrimary" && is_live l.
Definition vie (a b : jsval) : bool := primary a && primary b && (js_string a@."assignmentId" =s? js_string b@."assignmentId").
Record links_tidy (w : world) : Prop := LinksTidy {
  lt_ids : Forall (fun l => exists i a, l@."id" = JStr i /\ l@."assignmentId" = JStr a) (rows w TTrackingLink);
  lt_assignments : Forall (fun r => exists i, r@."id" = JStr i) (rows w TAssignment);
  lt_distinct : distinct TTrackingLink "id" w;
  lt_primary : ForallOrdPairs (fun a b => vie a b = false) (rows w TTrackingLink)
}.

(** A link keeps its keys, and is primary only if it was. *)
Record cedes (l l' : jsval) : Prop := Cedes {
  c_id : (l'@."id" = l@."id");
  c_assignment : (l'@."assignmentId" = l@."assignmentId");
  c_primary : primary l' = true -> primary l = true
}.
#[local] Instance cedes_preorder : PreOrder cedes.
Proof. split; [intros l; split; auto|]. intros l1 l2 l3 [] []. split; [congruence..|auto]. Qed.
Lemma cedes_vie a a' b b' : cedes a a' -> cedes b b' -> vie a b = false -> vie a' b' = false.
Proof.
  intros [_ Aa Pa] [_ Ab Pb]. unfold vie. rewrite Aa, Ab. destruct (primary a'), (primary b'); try reflexivity. now rewrite (Pa eq_refl), (Pb eq_refl).
Qed.
Definition ceded (w w' : world) : Prop := Forall2 cedes (rows w TTrackingLink) (rows w' TTrackingLink) /\ rows w' TAssignment = rows w TAssignment.
#[local] Instance ceded_preorder : PreOrder ceded.
Proof.
  split; [intros w; split; [apply Forall_Forall2_diag, Forall_forall; reflexivity|reflexivity]|]. intros w1 w2 w3 [F12 A12] [F23 A23].
  split; [|congruence]. eapply Forall2_trans; [|exact F12|exact F23]. intros x y z Hxy Hyz. now transitivity y.
Qed.
Lemma tidy_ceded w w' : ceded w w' -> links_tidy w -> links_tidy w'.
Proof.
  intros [Hf Hsame] [Hi Has Hd Hc]. split; [|now rewrite Hsame|..].
  - eapply Forall_Forall2_to; [exact Hf| |exact Hi]. intros r r' [E1 E2 _] (i & a & E). exists i, a. now rewrite E1, E2.
  - eapply ForallOrdPairs_Forall2; [exact Hf| |exact Hd]. intros a a' b b' [E1 _ _] [E2 _ _]. cbn beta. now rewrite E1, E2.
  - eapply ForallOrdPairs_Forall2; [exact Hf| |exact Hc]. exact cedes_vie.
Qed.

(** *** The writes *)

(** Data that names neither key and cannot make a link primary. *)
Definition demure (data : list (string * jsval)) : Prop :=
  ("id" ∉ map fst data) /\ ("assignmentId" ∉ map fst data) /\ ("deletedAt" ∉ map fst data) /\ NoDup (map fst data) /\
  (forall v, assoc "isPrimary" data = Some v -> v <> JUndef /\ is_true v = false).
Lemma demure_cedes l data : demure data -> cedes l (spread l (JObj (encode TTrackingLink data))).
Proof.
  intros (Hid & Has & Hdel & Hnd & Hp). pose proof (spread_rewrites TTrackingLink l data) as Hr. split; [now apply Hr..|].
  unfold primary, is_live. rewrite (Hr "deletedAt" Hdel). intros [Hprim Hlive]%andb_true_iff. rewrite Hlive, andb_true_r.
  destruct (assoc "isPrimary" data) as [v|] eqn:Ea.
  - destruct (Hp v eq_refl) as [Hv Hf]. rewrite (updated_column TTrackingLink data l "isPrimary" v Hnd Ea Hv) in Hprim. cbn in Hprim. congruence.
  - rewrite Hr in Hprim; [exact Hprim|]. intros ((k & v) & Ek & Hin)%list_elem_of_fmap. cbn in Ek. subst k. clear -Ea Hin.
    induction data as [|[j u] data IH]; [now apply elem_of_nil in Hin|]. cbn in Ea. destruct (String.eqb_spec j "isPrimary") as [->|Hne]; [discriminate|].
    apply elem_of_cons in Hin as [[= <- _]|Hin]; [contradiction|auto].
Qed.
Lemma update_link_ceded id data : demure data -> tracks ceded (update_link id data).
Proof.
  intros Hd w. unfold update_link. destruct (existsb _ _); [reflexivity|]. unfold update_row. destruct (negb _); [reflexivity|].
  destruct (List.find _ _); [|reflexivity]. cbn [snd]. split; [|reflexivity]. rewrite rows_set_same.
  apply Forall2_fmap_r, Forall_Forall2_diag, Forall_forall. intros x _. unfold compose. destruct (has_id id x); [now apply demure_cedes|reflexivity].
Qed.
Lemma clear_cedes l : cedes l (spread l (JObj [("isPrimary", JBool false)])).
Proof. apply (demure_cedes l [("isPrimary", JBool false)]). split_and!; try compute_done. intros v [= <-]. split; [discriminate|reflexivity]. Qed.
Lemma clear_primary l : primary (spread l (JObj [("isPrimary", JBool false)])) = false.
Proof. unfold primary. now rewrite prop_spread by nodup_keys. Qed.
Lemma clear_spec a ex w : let w' := (clearPrimaryForAssignment (JStr a) ex w).2 in
  ceded w w' /\ Forall (fun l => (negb (truthy ex) || negb (has_id ex l)) = true -> l@."assignmentId" = JStr a -> primary l = false) (rows w' TTrackingLink).
Proof.
  cbn [clearPrimaryForAssignment modify snd]. split; [split; [|reflexivity]|]; rewrite rows_set_same.
  - apply Forall2_fmap_r, Forall_Forall2_diag, Forall_forall. intros x _. unfold compose. destruct (_ && _); [apply clear_cedes|reflexivity].
  - apply Forall_map, Forall_forall. intros x _ Hex Ha. unfold compose in *. destruct (col_eq x@."assignmentId" (JStr a) && is_live x && (negb (truthy ex) || negb (has_id ex x))) eqn:E.
    { apply clear_primary. }
    rewrite Ha, Hex in E. cbn in E. rewrite String.eqb_refl, andb_true_r in E. cbn in E. unfold primary. rewrite E. apply andb_false_r.
Qed.

(** *** Creating and rotating *)

Definition same_rows (w w' : world) : Prop := rows w' = rows w.
#[local] Instance same_rows_preorder : PreOrder same_rows.
Proof. split; [intros w; reflexivity|]. intros w1 w2 w3 E1 E2. unfold same_rows in *. congruence. Qed.
Lemma build_same_rows o : tracks same_rows (buildMboTrackingUrl o).
Proof. unfold buildMboTrackingUrl, generateTrackingToken. track. intros w. reflexivity. Qed.
Lemma tidy_same_rows w w' : same_rows w w' -> links_tidy w -> links_tidy w'.
Proof. intros E [Hi Has Hd Hp]. unfold same_rows in E. split; unfold distinct in *; now rewrite E. Qed.
Lemma link_assignment v w : links_tidy w -> assertTrackingLinkAssignment (assignment_by_id v w) = Ok tt -> exists a, v = JStr a.
Proof.
  intros Ht. unfold assertTrackingLinkAssignment. destruct (truthy (assignment_by_id v w)) eqn:E; [intros _|discriminate].
  apply AttributionFacts.row_found in E as [Hin Hid]. pose proof (lt_assignments _ Ht) as Hs. rewrite Forall_forall in Hs.
  destruct (Hs _ Hin) as [i Hi]. unfold has_id at 1 in Hid. rewrite Hi in Hid. destruct v; try discriminate. eauto.
Qed.
Lemma link_row_columns input url made w r w' : create_row TTrackingLink (link_data input url made) w = (Ok r, w') ->
  r@."assignmentId" = input@."assignmentId" /\ r@."isPrimary" = JBool (is_true input@."isPrimary") /\ is_live r = true /\
  r@."slug" = JStr (b_slug made) /\ r@."subId" = JStr (b_subId made).
Proof.
  intros (-> & _)%create_row_ok. split_and!; try (apply created_value; [unfold link_data; nodup_keys|reflexivity|compute_done]).
  unfold is_live. cbn [prop assoc]. rewrite assoc_app, assoc_notin; [reflexivity|]. intros Hk%encode_keys. revert Hk. unfold link_data. cbn [map fst]. compute_done.
Qed.
Lemma tidy_new_link data w r w' a :
  create_row TTrackingLink data w = (Ok r, w') -> r@."assignmentId" = JStr a ->
  (primary r = true -> Forall (fun l => l@."assignmentId" = JStr a -> primary l = false) (rows w TTrackingLink)) -> links_tidy w -> links_tidy w'.
Proof.
  intros E Ha Hc [Hi Has Hd Hr]. pose proof (create_row_distinct TTrackingLink "id" data ltac:(compute_done) w Hd) as Hd'.
  pose proof (create_row_only TTrackingLink data w TAssignment ltac:(discriminate)) as Ho. rewrite E in Hd', Ho. cbn [snd] in Hd', Ho.
  apply create_row_ok in E as (-> & Hrows & _). split; [|now rewrite Ho|exact Hd'|]; rewrite Hrows.
  - apply List.Forall_app. split; [exact Hi|]. repeat constructor. do 2 eexists. split; [reflexivity|exact Ha].
  - apply ForallOrdPairs_snoc; [exact Hr|]. apply Forall_forall. intros x Hx. unfold vie. destruct (primary (JObj _)) eqn:Ep; [|now rewrite andb_false_r].
    specialize (Hc eq_refl). rewrite Forall_forall in Hc, Hi. destruct (Hi x Hx) as (i & b & _ & Eb). rewrite Eb, Ha. cbn [js_string].
    destruct (String.eqb_spec b a) as [->|]; [|now rewrite andb_false_r]. now rewrite (Hc x Hx Eb).
Qed.
Lemma create_link_tidy input w r w' : create_link input w = (Ok r, w') -> links_tidy w -> links_tidy w'.
Proof.
  intros E Ht. unfold create_link in E. rewrite bind_gets in E. apply bind_ok in E as ([] & w0 & [Ha ->]%lift_ok & E). destruct (link_assignment _ _ Ht Ha) as [a Ea].
  rewrite bind_gets in E. destruct (negb _); [discriminate|]. rewrite bind_gets in E. destruct (negb _); [discriminate|].
  apply bind_ok in E as ([] & w1 & E1 & E). rewrite bind_gets in E. apply bind_ok in E as (made & w2 & E2 & E).
  match type of E2 with buildMboTrackingUrl ?o _ = _ => pose proof (build_same_rows o w1) as Hsame end. rewrite E2 in Hsame. cbn [snd] in Hsame. apply link_row_columns in E as Hcol. destruct Hcol as (Hca & Hcp & Hcl & _).
  rewrite Ea in Hca. destruct (is_true input@."isPrimary") eqn:Ep.
  - rewrite Ea in E1. pose proof (clear_spec a JNull w) as [Hced Hfree]. rewrite E1 in Hced, Hfree. cbn [snd] in Hced, Hfree.
    eapply tidy_new_link; [exact E|exact Hca| |eapply tidy_same_rows; [exact Hsame|]; eapply tidy_ceded; [exact Hced|exact Ht]].
    intros _. unfold same_rows in Hsame. rewrite Hsame. eapply Forall_impl; [exact Hfree|]. intros l Hl. now apply Hl.
  - injection E1 as <-. eapply tidy_new_link; [exact E|exact Hca| |eapply tidy_same_rows; [exact Hsame|exact Ht]].
    unfold primary. rewrite Hcp. discriminate.
Qed.
Lemma find_link_spec id w r w' : find_link_or_fail id w = (r, w') -> w' = w /\ match r with Ok l => l ∈ rows w TTrackingLink /\ has_id id l = true /\ is_live l = true | Throw _ => True end.
Proof.
  unfold find_link_or_fail. rewrite bind_gets. destruct (truthy (link_by_id id w)) eqn:E; intros [= <- <-]; split; try reflexivity.
  apply AttributionFacts.row_found in E as [Hin Hp]. apply andb_true_iff in Hp as [Hid Hl]. auto.
Qed.
Lemma revoke_ceded id w : ceded w (revoke id w).2.
Proof.
  unfold revoke, get_now. rewrite bind_gets. unfold update_link. destruct (existsb _ _); [reflexivity|]. unfold update_row. destruct (negb _); [reflexivity|].
  destruct (List.find _ _); [|reflexivity]. cbn [snd]. split; [|reflexivity]. rewrite rows_set_same. apply Forall2_fmap_r, Forall_Forall2_diag, Forall_forall. intros x _. unfold compose.
  destruct (has_id id x); [|reflexivity]. match goal with |- cedes _ (spread _ (JObj (encode _ ?d))) => set (data := d) end.
  pose proof (spread_rewrites TTrackingLink x data) as Hr. split; [apply Hr; compute_done..|].
  unfold primary. rewrite (updated_column TTrackingLink data x "isPrimary" (JBool false)); [discriminate|nodup_keys|reflexivity|discriminate].
Qed.

(** *** Updating *)

Lemma given_demure input : is_true input@."isPrimary" = false -> demure (given_columns input LINK_COLUMNS).
Proof.
  intros Hp. pose proof (CommercialFacts.columns_keys input LINK_COLUMNS) as Hk.
  assert (Hno : forall k, k ∉ LINK_COLUMNS -> k ∉ map fst (given_columns input LINK_COLUMNS)) by (intros k Hk' Hin; now apply Hk', (elem_of_sublist _ _ _ Hin)).
  split_and!; [apply Hno; compute_done..|eapply sublist_NoDup; [|exact Hk]; compute_done|].
  intros v. unfold given_columns, LINK_COLUMNS. cbn [map concat]. unfold if_given.
  destruct (is_undef (prop input "status")), (is_undef (prop input "isPrimary")) eqn:Eu, (is_undef (prop input "mboTrackingUrl")), (is_undef (prop input "deeplinkTemplate")), (is_undef (prop input "expiresAt"));
    cbn; intros [= <-]; (split; [now intros Ev; rewrite Ev in Eu|exact Hp]).
Qed.
(** A link whose rivals are not primary may become primary. *)
Lemma promote_tidy i data w r w' link a :
  links_tidy w -> link ∈ rows w TTrackingLink -> link@."id" = JStr i -> link@."assignmentId" = JStr a ->
  "id" ∉ map fst data -> "assignmentId" ∉ map fst data -> "deletedAt" ∉ map fst data ->
  Forall (fun l => negb (has_id (JStr i) l) = true -> l@."assignmentId" = JStr a -> primary l = false) (rows w TTrackingLink) ->
  update_link (JStr i) data w = (r, w') -> links_tidy w'.
Proof.
  intros Ht Hin Hi Ha K1 K2 K3 Hfree E. unfold update_link in E. destruct (existsb _ _); [now injection E as _ <-|].
  pose proof (update_row_only TTrackingLink (JStr i) data w TAssignment ltac:(discriminate)) as Ho.
  pose proof (update_row_distinct TTrackingLink "id" (JStr i) data K1 w (lt_distinct _ Ht)) as Hd'. rewrite E in Ho, Hd'. cbn [snd] in Ho, Hd'.
  destruct r as [r|e]; [apply update_row_ok in E|now apply update_row_fails in E as ->]. pose proof Ht as [Hids Has Hd Hp].
  assert (Hkeep : forall x k, k ∉ map fst data -> prop (if has_id (JStr i) x then spread x (JObj (encode TTrackingLink data)) else x) k = prop x k).
  { intros x k Hk. destruct (has_id (JStr i) x); [now apply spread_rewrites|reflexivity]. }
  split; [|now rewrite Ho|exact Hd'|]; rewrite E.
  - apply Forall_map. eapply Forall_impl; [exact Hids|]. intros x (j & b & Ex). exists j, b. unfold compose. now rewrite !Hkeep.
  - apply (ordpairs_map_in _ _ _ _ _ Hp Hd). intros x y Hx Hy Hxy Hne. rewrite Forall_forall in Hfree. unfold vie in *. rewrite !Hkeep by assumption.
    assert (Hother : forall z, z ∈ rows w TTrackingLink -> has_id (JStr i) z = false -> (js_string z@."assignmentId" =s? a) = true -> primary z = false).
    { intros z Hz Ez Eza. rewrite Forall_forall in Hids. destruct (Hids z Hz) as (j & b & _ & Eb). rewrite Eb in Eza. apply String.eqb_eq in Eza. cbn in Eza. subst b.
      apply (Hfree z Hz); [now rewrite Ez|exact Eb]. }
    destruct (has_id (JStr i) x) eqn:Ex, (has_id (JStr i) y) eqn:Ey; [| | |exact Hxy].
    + unfold has_id in Ex, Ey. apply col_eq_str in Ex, Ey. rewrite Ex, Ey in Hne. cbn in Hne. now rewrite String.eqb_refl in Hne.
    + unfold has_id in Ex. apply col_eq_str in Ex. assert (x = link) as -> by exact (same_id TTrackingLink w i x link Hd Hx Hin Ex Hi). rewrite Ha. cbn [js_string].
      destruct (String.eqb_spec a (js_string y@."assignmentId")) as [Eay|]; [|now rewrite andb_false_r].
      rewrite (Hother y Hy Ey) by (rewrite <- Eay; apply String.eqb_refl). now rewrite andb_false_r.
    + unfold has_id in Ey. apply col_eq_str in Ey. assert (y = link) as -> by exact (same_id TTrackingLink w i y link Hd Hy Hin Ey Hi). rewrite Ha. cbn [js_string].
      destruct (String.eqb_spec (js_string x@."assignmentId") a) as [Eax|]; [|now rewrite andb_false_r].
      now rewrite (Hother x Hx Ex) by (rewrite Eax; apply String.eqb_refl).
Qed.
Lemma link_key id l w : links_tidy w -> l ∈ rows w TTrackingLink -> has_id id l = true -> exists i a, id = JStr i /\ l@."id" = JStr i /\ l@."assignmentId" = JStr a.
Proof.
  intros Ht Hin Hid. pose proof (lt_ids _ Ht) as Hi. rewrite Forall_forall in Hi. destruct (Hi l Hin) as (i & a & Ei & Ea). exists i, a.
  split_and!; try assumption. exact (CommercialFacts.rule_id i l id Hid Ei).
Qed.
Lemma ceded_elem w w' l : ceded w w' -> l ∈ rows w TTrackingLink -> exists l', l' ∈ rows w' TTrackingLink /\ cedes l l'.
Proof. intros [Hf _] [n Hn]%list_elem_of_lookup. destruct (Forall2_lookup_l _ _ _ _ _ Hf Hn) as (l' & Hl' & Hc). exists l'. split; [now apply list_elem_of_lookup_2 in Hl'|exact Hc]. Qed.

Inductive link_call := CreateLink (input : jsval) | RotateLink (id input : jsval) | RegenerateToken (id : jsval) | UpdateLink (id input : jsval).
Definition run_link (call : link_call) : prog world jsval :=
  match call with
  | CreateLink input => createTrackingLink input
  | RotateLink id input => rotateTrackingLink id input
  | RegenerateToken id => regenerateTrackingToken id
  | UpdateLink id input => updateTrackingLink id input
  end.
Lemma rotate_tidy id input w : links_tidy w -> links_tidy (rotateTrackingLink id input w).2.
Proof.
  intros Ht. destruct (rotateTrackingLink id input w) as [[r|e] w'] eqn:E; unfold rotateTrackingLink in E; [|now apply transaction_fails in E as ->].
  apply transaction_ok, bind_ok in E as (l & w0 & [-> _]%find_link_spec & E). apply bind_ok in E as (u & w1 & Er & E). rewrite bind_gets in E.
  apply create_link_tidy in E; [exact E|]. pose proof (revoke_ceded id w) as Hc. rewrite Er in Hc. now apply (tidy_ceded w).
Qed.
Lemma regenerate_tidy id w : links_tidy w -> links_tidy (regenerateTrackingToken id w).2.
Proof.
  intros Ht. destruct (regenerateTrackingToken id w) as [r w'] eqn:E. cbn. unfold regenerateTrackingToken in E. apply bind_split in E as ([l|e] & w0 & [-> _]%find_link_spec & E); [|now injection E as _ <-].
  destruct (_ || _); [now injection E as _ <-|]. rewrite bind_gets in E. apply bind_split in E as ([made|e] & w1 & Eb & E);
    match type of Eb with buildMboTrackingUrl ?o _ = _ => pose proof (build_same_rows o w) as Hsame end; rewrite Eb in Hsame; cbn [snd] in Hsame.
  - match type of E with update_link ?i ?d _ = _ => pose proof (update_link_ceded i d) as Hu end.
    assert (Hd : tracks ceded (update_link id [("slug", JStr (b_slug made)); ("subId", JStr (b_subId made)); ("mboTrackingUrl", JStr (b_mboTrackingUrl made))])) by (apply Hu; split_and!; try compute_done; discriminate).
    specialize (Hd w1). rewrite E in Hd. cbn [snd] in Hd. eapply tidy_ceded; [exact Hd|]. now apply (tidy_same_rows w).
  - injection E as _ <-. now apply (tidy_same_rows w).
Qed.
Lemma update_link_tidy id input w : links_tidy w -> links_tidy (updateTrackingLink id input w).2.
Proof.
  intros Ht. unfold updateTrackingLink. destruct (truthy input@."rotate"); [now apply rotate_tidy|]. destruct (truthy input@."regenerateToken"); [now apply regenerate_tidy|].
  destruct (bind _ _ w) as [r w'] eqn:E. cbn. apply bind_split in E as ([l|e] & w0 & [-> Hl]%find_link_spec & E); [|now injection E as _ <-]. destruct Hl as (Hin & Hid & _).
  destruct (link_key id l w Ht Hin Hid) as (i & a & -> & Ei & Ea). apply bind_split in E as ([[]|e] & w1 & E1 & E).
  - destruct (is_true input@."isPrimary") eqn:Ep.
    + rewrite Ea in E1. pose proof (clear_spec a (JStr i) w) as [Hced Hfree]. rewrite E1 in Hced, Hfree. cbn [snd] in Hced, Hfree.
      destruct (ceded_elem _ _ _ Hced Hin) as (l' & Hin' & Hc'). pose proof (CommercialFacts.columns_keys input LINK_COLUMNS) as Hk.
      apply (promote_tidy i (given_columns input LINK_COLUMNS) w1 r w' l' a); try exact E; [now apply (tidy_ceded w)|exact Hin'|now rewrite (c_id _ _ Hc')|now rewrite (c_assignment _ _ Hc')|..];
        try (intros Hx; pose proof (elem_of_sublist _ _ _ Hx Hk) as Hx'; revert Hx'; compute_done).
      eapply Forall_impl; [exact Hfree|]. intros x Hx Hn. apply Hx. now rewrite Hn, orb_true_r.
    + injection E1 as <-. pose proof (update_link_ceded (JStr i) _ (given_demure input Ep) w) as Hc. rewrite E in Hc. now apply (tidy_ceded w).
  - injection E as _ <-. destruct (is_true input@."isPrimary"); [discriminate E1|now injection E1].
Qed.
Lemma run_link_tidy call w : links_tidy w -> links_tidy (run_link call w).2.
Proof.
  destruct call as [input|id input|id|id input]; cbn [run_link].
  - intros Ht. destruct (createTrackingLink input w) as [[r|e] w'] eqn:E; unfold createTrackingLink in E; [apply transaction_ok in E|now apply transaction_fails in E as ->].
    now apply create_link_tidy in E.
  - apply rotate_tidy.
  - apply regenerate_tidy.
  - apply update_link_tidy.
Qed.

(** In a store whose links have distinct ids and no assignment has two primary links, whatever links are
    created, rotated, given a new token or updated after that, and whether or not the calls fail: no assignment
    has two primary links that are not deleted. *)
Theorem one_primary_link calls w :
  links_tidy w -> let w' := fold_left (fun w call => (run_link call w).2) calls w in
  forall a b, a ∈ rows w' TTrackingLink -> b ∈ rows w' TTrackingLink -> primary a = true -> primary b = true -> a@."assignmentId" = b@."assignmentId" -> a = b.
Proof.
  intros Ht w' a b Ha Hb Pa Pb Eab.
  assert (Ht' : links_tidy w') by (unfold w'; clear -Ht; revert w Ht; induction calls as [|call calls IH]; intros w Ht; [exact Ht|]; cbn; now apply IH, run_link_tidy).
  destruct (ordpairs_elem (fun a b => vie a b = false) (rows w' TTrackingLink)) with (a := a) (b := b) as [E|E]; [|apply Ht'|exact Ha|exact Hb|exact E|].
  - intros x y. unfold vie. now rewrite (andb_comm (primary x)), String.eqb_sym.
  - unfold vie in E. rewrite Pa, Pb, Eab, String.eqb_refl in E. discriminate.
Qed.
End Facts.
End LinkFacts.

(** ** A visit is recorded, and attributed *)

Module RedirectFacts.
Import SupplierDestination TrackingLinks TrackingRedirect LinkFacts TrackingFacts.
Section Facts.
Context {H : JsHost} {D : Database} {U : UrlHost} {K : Crypto} {M : CouponCms}.

Lemma find_Forall2 (R : jsval -> jsval -> Prop) (p : jsval -> bool) l l' :
  Forall2 R l l' -> (forall x x', R x x' -> p x' = p x) ->
  match List.find p l with Some x => exists x', List.find p l' = Some x' /\ R x x' | None => List.find p l' = None end.
Proof.
  intros Hr Hp. induction Hr as [|x x' l l' Hx Hl IH]; [reflexivity|]. cbn. rewrite (Hp x x' Hx). destruct (p x); [eauto|exact IH].
Qed.
Lemma with_assignment_prop link w k : truthy link = true -> k <> "assignment" -> prop (with_assignment link w) k = prop link k.
Proof.
  intros Ht Hk. unfold with_assignment. rewrite Ht. cbn [negb]. rewrite prop_relation. now rewrite (proj2 (String.eqb_neq "assignment" k)) by congruence.
Qed.
Lemma token_found subId w : truthy (findBySubId subId w) = true ->
  let l := link_by_token subId w in truthy l = true /\ l ∈ rows w TTrackingLink /\ l@."subId" = JStr subId /\ is_live l = true /\ findBySubId subId w = with_assignment l w.
Proof.
  unfold findBySubId. intros Ht. assert (E : truthy (link_by_token subId w) = true) by (unfold with_assignment in Ht; now destruct (truthy (link_by_token subId w))).
  split; [exact E|]. unfold link_by_token in *. apply AttributionFacts.row_found in E as [Hin Hp]. apply andb_true_iff in Hp as [Hs Hl].
  split_and!; [exact Hin|now apply col_eq_str in Hs|exact Hl|reflexivity].
Qed.
(** The link a visit leads to: by its token, and by its slug if it has one and a slug is given. *)
Lemma loaded slug token w link w' : loadLink slug token w = (Ok link, w') -> truthy link = true ->
  let subId := trim (js_string (token |or| JStr "")) in
  w' = w /\ exists l, l ∈ rows w TTrackingLink /\ truthy l = true /\ l@."subId" = JStr subId /\ is_live l = true /\ link = with_assignment l w /\
    (truthy slug = true -> truthy l@."slug" = true -> to_lower (js_string l@."slug") = to_lower (trim (js_string slug))).
Proof.
  unfold loadLink. cbv zeta. destruct (trim (js_string (token |or| JStr "")) =s? "") eqn:Es; [discriminate|]. destruct (truthy slug) eqn:Esl.
  - intros [= <- <-] Ht. split; [reflexivity|]. set (subId := trim (js_string (token |or| JStr ""))) in *.
    assert (Eid : trim (js_string (JStr subId |or| JStr "")) = subId) by (unfold js_or; cbn [truthy]; rewrite Es; cbn [negb js_string]; apply trim_idem).
    unfold findBySlugAndToken in *. rewrite Eid, Es in *. assert (Eor : (slug |or| JStr "") = slug) by (unfold js_or; now rewrite Esl).
    rewrite Eor in *. destruct (truthy (findBySubId subId w)@."slug" && _) eqn:Eslug.
    + cbn [truthy] in Ht |- *. apply andb_true_iff in Eslug as [E1 _]. rewrite E1 in Ht. discriminate.
    + destruct (truthy (findBySubId subId w)) eqn:Ef; [|destruct (truthy (findBySubId subId w)@."slug"); [discriminate|congruence]].
      destruct (token_found subId w Ef) as (Hl & Hin & Hsub & Hlive & E). exists (link_by_token subId w). rewrite E in Eslug |- *. split_and!; auto.
      intros _ Hs. rewrite (with_assignment_prop _ _ "slug") in Eslug by (exact Hl || discriminate). rewrite Hs in Eslug. cbn in Eslug.
      apply negb_false_iff, String.eqb_eq in Eslug. exact Eslug.
  - intros [= <- <-] Ht. split; [reflexivity|]. destruct (token_found _ w Ht) as (Hl & Hin & Hsub & Hlive & E). eexists. split_and!; eauto. discriminate.
Qed.

(** What lets a visitor through *)
Record open_to (l : jsval) (w : world) : Prop := OpenTo {
  o_status : in_enum ["ACTIVE"; "GENERATED"] l@."status" = true;
  o_assignment : exists a, a ∈ rows w TAssignment /\ has_id l@."assignmentId" a = true /\ truthy a@."published" = true /\ a@."status" = JStr "ACTIVE" /\
    a@."client"@."status" = JStr "ACTIVE" /\ truthy a@."client"@."deletedAt" = false /\ truthy a@."canonicalCampaign" = true /\
    truthy a@."canonicalCampaign"@."deletedAt" = false /\ (a@."canonicalCampaign"@."status" === "ARCHIVED") = false /\ (a@."canonicalCampaign"@."visibility" === "HIDDEN") = false
}.
Lemma live_open l w : truthy l = true -> assertLive (with_assignment l w) = Ok tt -> open_to l w.
Proof.
  intros Ht. unfold assertLive. rewrite !(with_assignment_prop l w "status"), (with_assignment_prop l w "deletedAt") by (exact Ht || discriminate).
  assert (Ea : (with_assignment l w)@."assignment" =
    if truthy (assignment_by_id l@."assignmentId" w) then with_relation (assignment_by_id l@."assignmentId" w) "couponAssignments" (JArr (coupons_in_use l@."assignmentId" w)) else JNull).
  { unfold with_assignment. rewrite Ht. cbn [negb]. now rewrite prop_relation. }
  rewrite Ea. destruct (negb (truthy (with_assignment l w))); [discriminate|]. destruct (_ || truthy l@."deletedAt"); [discriminate|].
  destruct (in_enum _ l@."status") eqn:Es; cbn [negb]; [|discriminate]. destruct (truthy (assignment_by_id l@."assignmentId" w)) eqn:Eas; [|discriminate].
  apply AttributionFacts.row_found in Eas as [Hin Hid]. fold (assignment_by_id l@."assignmentId" w) in Hin, Hid. set (a := assignment_by_id l@."assignmentId" w) in *.
  rewrite !prop_relation. cbn [String.eqb Ascii.eqb Bool.eqb]. destruct (negb (truthy (with_relation _ _ _))); [discriminate|].
  destruct (a@."status" === "REVOKED"); [discriminate|]. destruct (truthy a@."published") eqn:Ep; cbn [negb orb]; [|discriminate].
  destruct (a@."status" === "ACTIVE") eqn:Est; cbn [negb]; [|discriminate]. destruct (a@."client"@."status" === "ACTIVE") eqn:Ec; cbn [negb orb]; [|discriminate].
  destruct (truthy a@."client"@."deletedAt") eqn:Ecd; [discriminate|]. destruct (truthy a@."canonicalCampaign") eqn:Eca; cbn [negb orb]; [|discriminate].
  destruct (truthy a@."canonicalCampaign"@."deletedAt") eqn:Ecad; [discriminate|]. destruct (a@."canonicalCampaign"@."status" === "ARCHIVED") eqn:Ear; [discriminate|]. cbn [orb].
  destruct (a@."canonicalCampaign"@."visibility" === "HIDDEN") eqn:Eh; [discriminate|]. intros _. split; [exact Es|]. exists a. split_and!; auto using is_str_eq.
Qed.

(** *** The parameters of a supplier *)

Lemma rule_listed supplier : In (getTrackingParamRule supplier) TRACKING_PARAM_RULES.
Proof.
  unfold getTrackingParamRule, rule_of. destruct (List.find _ TRACKING_PARAM_RULES) as [r|] eqn:E; [now apply List.find_some in E|]. cbn. tauto.
Qed.
Lemma assoc_set_keys {A} j k (v : A) l : j ∈ map fst (assoc_set k v l) <-> j = k \/ j ∈ map fst l.
Proof.
  induction l as [|[i u] l IH]; cbn [assoc_set map fst]; [set_solver|]. destruct (String.eqb_spec i k) as [->|Hne]; cbn [map fst]; [set_solver|].
  rewrite !elem_of_cons, IH. tauto.
Qed.
Lemma assoc_set_nodup {A} k (v : A) l : NoDup (map fst l) -> NoDup (map fst (assoc_set k v l)).
Proof.
  induction l as [|[i u] l IH]; intros Hnd; cbn [assoc_set map fst]; [repeat constructor; set_solver|]. apply NoDup_cons in Hnd as [Hi Hnd].
  destruct (String.eqb_spec i k) as [->|Hne]; cbn [map fst]; apply NoDup_cons; [auto|]. split; [|auto]. rewrite assoc_set_keys. intros [E|Hin]; [congruence|contradiction].
Qed.
Lemma set_param_nodup p v l : NoDup (map fst l) -> NoDup (map fst (set_param p v l)).
Proof. unfold set_param. destruct p; [|auto]. destruct (_ && _); [apply assoc_set_nodup|auto]. Qed.
Lemma params_nodup r vs : NoDup (map fst (rule_params r vs)).
Proof.
  unfold rule_params. generalize (extraParams r). match goal with |- forall l, NoDup (map fst (fold_left _ l ?base)) => assert (Hb : NoDup (map fst base)) by (do 5 apply set_param_nodup; constructor); revert Hb; generalize base end.
  intros base Hb l. revert base Hb. induction l as [|[n k] l IH]; intros base Hb; [exact Hb|]. cbn [fold_left]. apply IH. now apply set_param_nodup.
Qed.
(** A supplier that takes the id of a click is sent it. *)
Lemma params_click r vs k : In r TRACKING_PARAM_RULES -> mboClickIdParam r = Some k -> nonempty (text_value (v_mboClickId vs)) = true ->
  assoc k (rule_params r vs) = Some (text_value (v_mboClickId vs)).
Proof.
  intros Hr Hk Hv. unfold rule_params, set_param, named_value.
  repeat (destruct Hr as [<-|Hr]; [try discriminate Hk; cbn in Hk; injection Hk as <-;
    cbn [clientIdParam assignmentIdParam mboClickIdParam trackingLinkSubIdParam couponParam extraParams fold_left assoc String.eqb Ascii.eqb Bool.eqb];
    rewrite ?Hv; cbn [nonempty String.eqb negb andb]; destruct (nonempty (text_value (v_clientId vs))), (nonempty (text_value (v_assignmentId vs))); reflexivity|]).
  destruct Hr.
Qed.

(** *** The click *)

Lemma click_recorded input w r w' : recordClick input w = (r, w') ->
  match r with
  | Throw _ => rows w' TClick = rows w TClick
  | Ok click => let link := link_by_id input@."trackingLinkId" w in
      rows w' TClick = rows w TClick ++ [click] /\ click@."trackingLinkId" = link@."id" /\ click@."clientAssignmentId" = link@."assignmentId" /\
      click@."subId" = (input@."subId" ?? link@."subId") /\ exists i, click@."id" = JStr i /\ i <> ""
  end.
Proof.
  unfold recordClick. rewrite bind_gets. set (link := link_by_id _ w). destruct (negb (truthy link)); [now intros [= <- <-]|].
  destruct (link@."status" === "REVOKED"); [now intros [= <- <-]|]. rewrite bind_gets. destruct (negb _); [now intros [= <- <-]|]. unfold get_now. rewrite bind_gets.
  intros E. destruct r as [click|e]; [|now apply create_row_fails in E as ->]. apply create_row_ok in E as (-> & Hrows & _). split; [exact Hrows|].
  split_and!; try (apply created_value; [nodup_keys|reflexivity|compute_done]). eexists. split; [reflexivity|discriminate].
Qed.
Definition kept_links (w w' : world) : Prop := rows w' TClick = rows w TClick /\ Forall2 (rewrites ["supplierTrackingUrl"]) (rows w TTrackingLink) (rows w' TTrackingLink).
Lemma persist_kept link url w : kept_links w (persist_destination link url w).2.
Proof.
  assert (Hrefl : kept_links w w) by (split; [reflexivity|apply Forall_Forall2_diag, Forall_forall; reflexivity]).
  unfold persist_destination. destruct (_ && _); [exact Hrefl|]. unfold catch, bind, update_link. destruct (existsb _ _); [exact Hrefl|].
  unfold update_row. destruct (negb _); [exact Hrefl|]. destruct (List.find _ _); [|exact Hrefl]. cbn [snd ret]. split; [reflexivity|]. rewrite rows_set_same.
  apply Forall2_fmap_r, Forall_Forall2_diag, Forall_forall. intros x _. unfold compose. destruct (has_id _ x); [|reflexivity]. apply (spread_rewrites TTrackingLink x [("supplierTrackingUrl", JStr url)]).
Qed.
Lemma persist_ok link url w : exists w', persist_destination link url w = (Ok tt, w').
Proof. unfold persist_destination. destruct (_ && _); [eexists; reflexivity|]. unfold catch. destruct (bind _ _ w) as [[[]|e] w1]; eexists; reflexivity. Qed.
(** The link is found again by its id, with the same columns. *)
Lemma kept_link l w w' : links_tidy w -> kept_links w w' -> l ∈ rows w TTrackingLink -> is_live l = true -> rewrites ["supplierTrackingUrl"] l (link_by_id l@."id" w').
Proof.
  intros Ht [_ Hf] Hin Hl. pose proof (find_Forall2 _ (fun x => has_id l@."id" x && nullish x@."deletedAt") _ _ Hf) as Hfind.
  assert (Hw : List.find (fun x => has_id l@."id" x && nullish x@."deletedAt") (rows w TTrackingLink) = Some l).
  { pose proof (lt_ids _ Ht) as Hi. rewrite Forall_forall in Hi. destruct (Hi l Hin) as (i & a & Ei & _).
    destruct (List.find _ _) as [x|] eqn:Ex.
    - apply List.find_some in Ex as [Hx%list_elem_of_In [Hxi _]%andb_true_iff]. unfold has_id in Hxi. rewrite Ei in Hxi. apply col_eq_str in Hxi. f_equal. exact (same_id TTrackingLink w i x l (lt_distinct _ Ht) Hx Hin Hxi Ei).
    - exfalso. apply List.find_none with (x := l) in Ex; [|now apply list_elem_of_In]. unfold has_id in Ex. rewrite Ei in Ex. cbn in Ex. rewrite String.eqb_refl in Ex. unfold is_live in Hl. now rewrite Hl in Ex. }
  rewrite Hw in Hfind. destruct Hfind as (x' & Ex & Hr).
  { intros x x' Hx. unfold has_id. now rewrite !Hx by compute_done. }
  unfold link_by_id. rewrite Ex. exact Hr.
Qed.

(** *** The address *)

(** Where the visitor is sent: the address of the supplier, which carries the click if parameters are added. *)
Record sent_to (url : string) (v : visit) : Prop := SentTo {
  st_plain : v_injected v = false -> v_destination v = url;
  st_params : v_injected v = true -> exists u u' added, parse_url url = Some u /\ parse_url (v_destination v) = Some u' /\ with_search u' (u_search u) = u /\
    search_params (u_search u') = search_params (u_search u) ++ added /\
    forall k, mboClickIdParam (getTrackingParamRule (JStr (v_supplier v))) = Some k ->
      query_has k (search_params (u_search u)) = true \/ (k, js_string (v_clickId v)) ∈ added
}.
Lemma attributed_sent link click supplier url resolved i subId slug source : click@."id" = JStr i -> i <> "" ->
  sent_to url (let sent := attributed link click supplier url resolved in Visit sent.1 subId slug source (click@."id" ?? JNull) supplier sent.2).
Proof.
  intros Hi Hne. cbv zeta. unfold attributed. destruct (negb (shouldInjectAttributionParams _ _)); [now split|].
  set (vs := Values _ _ _ _ _). destruct (injected (buildAttributionQueryParams (JStr supplier) vs)) eqn:Einj; cbn [negb]; [|now split].
  destruct (appendTrackingParams (JStr url) _ false) as [a|e] eqn:Ea; [|now split]. split; [discriminate|]. intros _. cbn [fst snd v_destination v_supplier v_clickId].
  assert (Ep : params (buildAttributionQueryParams (JStr supplier) vs) = rule_params (getTrackingParamRule (JStr supplier)) vs).
  { unfold buildAttributionQueryParams in *. destruct (r_confirmation _); [|discriminate|discriminate]. now destruct (rule_params _ vs). }
  rewrite Ep in Ea. destruct (parse_url url) as [u|] eqn:Eu; [|exfalso; unfold appendTrackingParams in Ea; rewrite Eu in Ea; now destruct (url =s? "")].
  apply (appended_address url u) in Ea as (u' & Hu' & Hsame & Hq); [|exact Eu|rewrite List.map_map; cbn [fst]; apply params_nodup].
  exists u, u', (missing_from (search_params (u_search u)) (map (fun kv => (kv.1, JStr kv.2)) (rule_params (getTrackingParamRule (JStr supplier)) vs))).
  split_and!; [reflexivity|exact Hu'|exact Hsame|exact Hq|]. intros k Hk. destruct (query_has k (search_params (u_search u))) eqn:Eq; [now left|right].
  assert (Hid : text_value (v_mboClickId vs) = i) by (cbn [vs v_mboClickId]; unfold coalesce; rewrite Hi; reflexivity).
  assert (Hn : nonempty (text_value (v_mboClickId vs)) = true) by (rewrite Hid; unfold nonempty; apply negb_true_iff; now apply String.eqb_neq).
  pose proof (params_click _ vs k (rule_listed (JStr supplier)) Hk Hn) as Has. rewrite Hid in Has. rewrite Hi. cbn [coalesce nullish js_string].
  unfold missing_from. apply list_elem_of_fmap. exists (k, JStr i). split; [reflexivity|]. apply elem_of_filter_bool. cbn [fst snd blank nullish]. rewrite Eq. split.
  - apply list_elem_of_fmap. exists (k, i). split; [reflexivity|]. clear -Has. induction (rule_params _ vs) as [|[j x] l IH]; [discriminate|]. cbn in Has.
    destruct (String.eqb_spec j k) as [->|]; [injection Has as ->; now left|right; auto].
  - assert (Hkn : nonempty k = true) by (pose proof (rule_listed (JStr supplier)) as Hl; clear -Hl Hk; revert Hk; repeat (destruct Hl as [<-|Hl]; [intros [= <-]; reflexivity || discriminate|]); destruct Hl).
    rewrite Hkn. unfold blank. cbn. rewrite (proj2 (String.eqb_neq i "") Hne). reflexivity.
Qed.


(** *** A new link *)

Section NewLink.
Context {T : TextHost} {C : Cipher} {G : TrackingConfig}.

Lemma token_char_tight c : is_space (token_char c) = false.
Proof. destruct c as [[] [] [] [] [] [] [] []]; reflexivity. Qed.
Lemma token_tight s : tight (map_string token_char s) = true.
Proof. unfold tight. induction s as [|c s IH]; [reflexivity|]. cbn [map_string all_chars]. rewrite token_char_tight. exact IH. Qed.
Lemma map_string_length f s : String.length (map_string f s) = String.length s.
Proof. induction s as [|c s IH]; [reflexivity|]. cbn. now rewrite IH. Qed.
Lemma or_text_nonempty s fallback : fallback <> "" -> or_text s fallback <> "".
Proof. unfold or_text. destruct (String.eqb_spec s ""); auto. Qed.
Lemma or_text_slug s fallback : is_slug s = true -> is_slug fallback = true -> is_slug (or_text s fallback) = true.
Proof. unfold or_text. now destruct (s =s? ""). Qed.
(** The parts of an address: a slug, and a token without space around it *)
Lemma built_parts o w b w' : buildMboTrackingUrl o w = (Ok b, w') ->
  is_slug (b_slug b) = true /\ b_slug b <> "" /\ trim (b_subId b) = b_subId b /\ b_subId b <> "".
Proof.
  unfold buildMboTrackingUrl. set (token := match o with JStr _ => _ | _ => _ end). set (slug := match o with JStr _ => _ | _ => _ end).
  assert (Hslug : is_slug slug = true /\ slug <> "").
  { unfold slug. destruct o; cbn [is_object]; try (split; [reflexivity|discriminate]);
      (split; [apply or_text_slug; [apply slugify_shape|reflexivity]|now apply or_text_nonempty]). }
  assert (Htok : trim token = token) by (unfold token; destruct o; cbn [is_object]; try reflexivity; apply trim_idem).
  intros (t & w1 & Et & E)%bind_ok. apply lift_ok in E as [E ->]. unfold tracking_address in E. destruct getTrackingBaseUrl; [|discriminate]. injection E as <-. cbn [b_slug b_subId].
  split; [apply Hslug|]. split; [apply Hslug|]. destruct (String.eqb_spec token "") as [_|Hne]; [|injection Et as <- _; auto].
  unfold generateTrackingToken, draw, bind in Et. injection Et as <- _. split; [apply trim_tight, token_tight|]. intros E.
  apply (f_equal String.length) in E. rewrite map_string_length, random_length in E. discriminate.
Qed.
Lemma lower_slug_trim s : is_slug s = true -> to_lower (trim s) = s.
Proof.
  intros Hs%slug_chars. rewrite trim_tight; [now apply lower_slug|]. unfold tight. eapply all_chars_impl; [|exact Hs]. intros c Hc. now rewrite (proj1 (slug_or_dash_char c Hc)).
Qed.
Lemma create_link_row input w r w' : create_link input w = (Ok r, w') -> exists w1 made url o w0, buildMboTrackingUrl o w0 = (Ok made, w1) /\ create_row TTrackingLink (link_data input url made) w1 = (Ok r, w').
Proof.
  intros E. unfold create_link in E. rewrite bind_gets in E. apply bind_ok in E as ([] & w0 & _ & E). rewrite bind_gets in E. destruct (negb _); [discriminate|].
  rewrite bind_gets in E. destruct (negb _); [discriminate|]. apply bind_ok in E as ([] & w1 & _ & E). rewrite bind_gets in E. apply bind_ok in E as (made & w2 & E2 & E).
  do 5 eexists. split; [exact E2|exact E].
Qed.

(** The address of a link that was created leads to that link: its slug is made of lower-case letters, digits and
    single dashes and is written in the address as it is, and the token is found again. *)
Theorem new_link_found input w r w' : createTrackingLink input w = (Ok r, w') ->
  exists slug token, r@."slug" = JStr slug /\ r@."subId" = JStr token /\ is_slug slug = true /\ slug <> "" /\ encodeURIComponent slug = slug /\
    loadLink (JStr slug) (JStr token) w' = (Ok (with_assignment r w'), w').
Proof.
  intros E%transaction_ok. apply create_link_row in E as (w1 & made & url & o & w0 & Eb & E). destruct (built_parts _ _ _ _ Eb) as (Hs & Hsne & Ht & Htne).
  apply link_row_columns in E as Hcol. destruct Hcol as (_ & _ & Hlive & Hslug & Hsub). apply create_row_ok in E as (Hr & Hrows & Huniq).
  exists (b_slug made), (b_subId made). split_and!; auto using encode_slug.
  assert (Hfind : link_by_token (b_subId made) w' = r).
  { unfold link_by_token. rewrite Hrows, find_app_none.
    - cbn. rewrite Hsub. cbn. rewrite String.eqb_refl, Hlive. reflexivity.
    - destruct (List.find _ _) as [x|] eqn:Ex; [|reflexivity]. exfalso. apply List.find_some in Ex as [Hx [Hxs _]%andb_true_iff]. apply list_elem_of_In in Hx.
      pose proof (Huniq "subId" x ltac:(compute_done) Hx) as Hn. rewrite Hsub in Hn. congruence. }
  assert (Htr : truthy r = true) by (rewrite Hr; reflexivity).
  assert (Hor : forall s, s <> "" -> (JStr s |or| JStr "") = JStr s) by (intros s Hn; unfold js_or; cbn; now rewrite (proj2 (String.eqb_neq s "") Hn)).
  unfold loadLink, findBySlugAndToken, findBySubId. rewrite !Hor by assumption. cbn [js_string]. rewrite Ht, (proj2 (String.eqb_neq _ "") Htne). cbn [truthy].
  rewrite (proj2 (String.eqb_neq _ "") Hsne). cbn [negb]. unfold gets. rewrite !Hor by assumption. cbn [js_string]. rewrite Ht, (proj2 (String.eqb_neq _ "") Htne), Hfind.
  rewrite (with_assignment_prop r w' "slug") by (exact Htr || discriminate). rewrite Hslug. cbn [js_string truthy]. rewrite (lower_slug_trim _ Hs), (lower_slug _ (slug_chars _ Hs)), String.eqb_refl.
  rewrite (proj2 (String.eqb_neq _ "") Hsne). cbn [negb andb]. assert (Hwt : truthy (with_assignment r w') = true) by (unfold with_assignment; rewrite Htr; reflexivity). now rewrite Hwt.
Qed.
End NewLink.
End Facts.
End RedirectFacts.
