(* ===== verification/Exclusive.v ===== *)
(** * At most one holder

    Several tables have a role that at most one row of a group may have: the primary source of a campaign,
    the open assignment of a client to a campaign.  No constraint of the schema keeps it; the services do,
    by looking before they write and by taking the role from the others first.  This file states the
    invariant once, for a table, the columns that make up a group and a test of the role, with the steps
    that keep it. *)

From S2P Require Import Prelude JsVal Store.
Local Open Scope Z_scope.

Lemma id_unique_column t : "id" ∈ unique_columns t.
Proof. destruct t; cbn; set_solver. Qed.

Section Exclusive.
Context {D : Database} (t : table) (keys : list string) (claims : jsval -> bool).

Definition same_text (v u : jsval) : bool := match v, u with JStr x, JStr y => x =s? y | _, _ => false end.
Definition same_group (a b : jsval) : bool := forallb (fun k => same_text (prop a k) (prop b k)) keys.
Definition rivals (a b : jsval) : bool := claims a && claims b && same_group a b.
Record exclusive (w : world) : Prop := IsExclusive {
  ex_ids : Forall (fun r => exists i, r@."id" = JStr i) (rows w t);
  ex_distinct : distinct t "id" w;
  ex_apart : ForallOrdPairs (fun a b => rivals a b = false) (rows w t)
}.

Lemma same_text_sym v u : same_text v u = same_text u v.
Proof. destruct v, u; try reflexivity. apply String.eqb_sym. Qed.
Lemma same_group_sym a b : same_group a b = same_group b a.
Proof. unfold same_group. induction keys as [|k l IH]; [reflexivity|]. cbn. now rewrite IH, same_text_sym. Qed.
Lemma rivals_symmetric a b : rivals a b = rivals b a.
Proof. unfold rivals. now rewrite (andb_comm (claims a)), same_group_sym. Qed.
Lemma same_group_trans a b c : same_group a b = true -> same_group b c = same_group a c.
Proof.
  unfold same_group. induction keys as [|k l IH]; [reflexivity|]. cbn. intros [E El]%andb_true_iff. rewrite (IH El).
  destruct (prop a k), (prop b k); try discriminate. apply String.eqb_eq in E. now subst.
Qed.
Lemma same_group_keys a a' b b' : (forall k, k ∈ keys -> prop a' k = prop a k) -> (forall k, k ∈ keys -> prop b' k = prop b k) -> same_group a' b' = same_group a b.
Proof.
  unfold same_group. induction keys as [|k l IH]; intros Ha Hb; [reflexivity|]. cbn. rewrite (Ha k), (Hb k) by set_solver. rewrite IH; [reflexivity|set_solver..].
Qed.

(** Two holders of one group are the same row. *)
Lemma exclusive_same w a b : exclusive w -> a ∈ rows w t -> b ∈ rows w t -> claims a = true -> claims b = true -> same_group a b = true -> a = b.
Proof.
  intros Hx Ha Hb Pa Pb Hg. destruct (ordpairs_elem (fun a b => rivals a b = false) (rows w t)) with (a := a) (b := b) as [E|E]; [|apply Hx|exact Ha|exact Hb|exact E|].
  - intros x y. now rewrite rivals_symmetric.
  - unfold rivals in E. now rewrite Pa, Pb, Hg in E.
Qed.

(** A row keeps its keys, and claims the role only if it did. *)
Record yields (r r' : jsval) : Prop := Yields {
  y_id : (r'@."id" = r@."id");
  y_keys : forall k, k ∈ keys -> prop r' k = prop r k;
  y_claims : claims r' = true -> claims r = true
}.
#[export] Instance yields_preorder : PreOrder yields.
Proof.
  split; [intros r; split; auto|]. intros r1 r2 r3 [I12 K12 H12] [I23 K23 H23]. split; [congruence| |auto]. intros k Hk. now rewrite K23, K12.
Qed.
Lemma yields_rivals a a' b b' : yields a a' -> yields b b' -> rivals a b = false -> rivals a' b' = false.
Proof.
  intros [_ Ka Ha] [_ Kb Hb]. unfold rivals. rewrite (same_group_keys a a' b b' Ka Kb). destruct (claims a'), (claims b'); try reflexivity. now rewrite (Ha eq_refl), (Hb eq_refl).
Qed.
Definition yielded (w w' : world) : Prop := Forall2 yields (rows w t) (rows w' t).
#[export] Instance yielded_preorder : PreOrder yielded.
Proof.
  split; [intros w; apply Forall_Forall2_diag, Forall_forall; intros; reflexivity|]. intros w1 w2 w3 F12 F23. unfold yielded in *. etransitivity; eassumption.
Qed.
Lemma exclusive_yielded w w' : yielded w w' -> exclusive w -> exclusive w'.
Proof.
  intros Hf [Hi Hd Ha]. split.
  - eapply Forall_Forall2_to; [exact Hf| |exact Hi]. intros r r' [E _ _] [i Er]. exists i. now rewrite E.
  - eapply ForallOrdPairs_Forall2; [exact Hf| |exact Hd]. intros a a' b b' [E1 _ _] [E2 _ _]. cbn beta. now rewrite E1, E2.
  - eapply ForallOrdPairs_Forall2; [exact Hf| |exact Ha]. exact yields_rivals.
Qed.
Lemma same_rows_yielded w w' : rows w' t = rows w t -> yielded w w'.
Proof. intros E. unfold yielded. rewrite E. apply Forall_Forall2_diag, Forall_forall. intros; reflexivity. Qed.
Lemma yielded_elem w w' r : yielded w w' -> r ∈ rows w t -> exists r', r' ∈ rows w' t /\ yields r r'.
Proof. intros Hf [n Hn]%list_elem_of_lookup. destruct (Forall2_lookup_l _ _ _ _ _ Hf Hn) as (r' & Hr' & Hy). exists r'. split; [now apply list_elem_of_lookup_2 in Hr'|exact Hy]. Qed.

(** Data that names no key keeps the invariant if it does not grant the role. *)
Lemma spread_yields data r : "id" ∉ map fst data -> (forall k, k ∈ keys -> k ∉ map fst data) -> (claims (spread r (JObj (encode t data))) = true -> claims r = true) ->
  yields r (spread r (JObj (encode t data))).
Proof. intros Hid Hk Hh. pose proof (spread_rewrites t r data) as Hr. split; [now apply Hr|intros k Hkk; now apply Hr, Hk|exact Hh]. Qed.
Lemma update_yielded id data : "id" ∉ map fst data -> (forall k, k ∈ keys -> k ∉ map fst data) -> (forall r, claims (spread r (JObj (encode t data))) = true -> claims r = true) ->
  tracks yielded (update_row t id data).
Proof.
  intros Hid Hk Hh w. unfold update_row. destruct (negb _); [reflexivity|]. destruct (List.find _ _); [|reflexivity]. unfold yielded. cbn [snd]. rewrite rows_set_same.
  apply Forall2_fmap_r, Forall_Forall2_diag, Forall_forall. intros r _. unfold compose. destruct (has_id id r); [apply spread_yields; auto|reflexivity].
Qed.

(** A new row may hold the role if no row of its group does. *)
Lemma exclusive_create data w r w' :
  create_row t data w = (Ok r, w') -> (claims r = true -> Forall (fun x => claims x && same_group x r = false) (rows w t)) -> exclusive w -> exclusive w'.
Proof.
  intros E Hfree [Hi Hd Ha]. pose proof (create_row_distinct t "id" data (id_unique_column t) w Hd) as Hd'. rewrite E in Hd'. cbn [snd] in Hd'.
  apply create_row_ok in E as (-> & Hrows & _). split; [|exact Hd'|]; rewrite Hrows.
  - apply List.Forall_app. split; [exact Hi|]. repeat constructor. eexists. reflexivity.
  - apply ForallOrdPairs_snoc; [exact Ha|]. apply Forall_forall. intros x Hx. unfold rivals. destruct (claims (JObj _)) eqn:Eh; [|now rewrite andb_false_r].
    specialize (Hfree eq_refl). rewrite Forall_forall in Hfree. specialize (Hfree x Hx). now rewrite andb_true_r.
Qed.

(** A row may take the role if no other row of its group claims it. *)
Lemma exclusive_take i data w o w' : exclusive w -> "id" ∉ map fst data -> (forall k, k ∈ keys -> k ∉ map fst data) ->
  (forall x y, x ∈ rows w t -> y ∈ rows w t -> has_id (JStr i) x = true -> has_id (JStr i) y = false -> claims y && same_group y x = false) ->
  update_row t (JStr i) data w = (o, w') -> exclusive w'.
Proof.
  intros Hx Hid Hk Hfree E. pose proof (update_row_distinct t "id" (JStr i) data Hid w (ex_distinct _ Hx)) as Hd'. rewrite E in Hd'. cbn [snd] in Hd'.
  destruct o as [r|e]; [apply update_row_ok in E|now apply update_row_fails in E as ->]. pose proof Hx as [Hi Hd Ha].
  assert (Hkeep : forall x k, k ∉ map fst data -> prop (if has_id (JStr i) x then spread x (JObj (encode t data)) else x) k = prop x k).
  { intros x k Hkk. destruct (has_id (JStr i) x); [now apply spread_rewrites|reflexivity]. }
  split; [|exact Hd'|]; rewrite E.
  - apply Forall_map. eapply Forall_impl; [exact Hi|]. intros x [j Ex]. exists j. unfold compose. now rewrite Hkeep.
  - apply (ordpairs_map_in _ _ _ _ _ Ha Hd). intros x y Hxr Hyr Hxy Hne. unfold rivals in *.
    rewrite (same_group_keys x _ y _ (fun k Hkk => Hkeep x k (Hk k Hkk)) (fun k Hkk => Hkeep y k (Hk k Hkk))).
    destruct (has_id (JStr i) x) eqn:Ex, (has_id (JStr i) y) eqn:Ey; [| | |exact Hxy].
    + unfold has_id in Ex, Ey. apply col_eq_str in Ex, Ey. rewrite Ex, Ey in Hne. cbn in Hne. now rewrite String.eqb_refl in Hne.
    + specialize (Hfree x y Hxr Hyr Ex Ey). rewrite same_group_sym. rewrite <- andb_assoc, Hfree. apply andb_false_r.
    + specialize (Hfree y x Hyr Hxr Ey Ex). rewrite (andb_comm (claims x)), <- andb_assoc, Hfree. apply andb_false_r.
Qed.
Definition keeps_exclusive (w w' : world) : Prop := exclusive w -> exclusive w'.
#[export] Instance keeps_exclusive_preorder : PreOrder keeps_exclusive.
Proof. split; [intros w Hw; exact Hw|]. intros w1 w2 w3 H12 H23 H1. auto. Qed.
Lemma tracks_yielded {A} (c : prog world A) : tracks yielded c -> tracks keeps_exclusive c.
Proof. intros Hc w. exact (exclusive_yielded _ _ (Hc w)). Qed.
Lemma exclusive_elsewhere {A} ts (c : prog world A) : t ∉ ts -> tracks (within ts) c -> tracks keeps_exclusive c.
Proof. intros Ht Hc. apply tracks_yielded. intros w. apply same_rows_yielded. now apply (Hc w). Qed.
End Exclusive.
