(* ===== verification/Eligibility.v ===== *)
(** * Which campaigns may be assigned, published and shown

    [modules/client/services/campaignEligibility.service.js]: whether a campaign may be assigned to a client
    and published for it, with the states of [modules/ops/v15FieldContract.js];
    [modules/client/services/visibility.service.js] and [modules/client/assignmentVisibilityTruth.js]: which
    assignments a client sees (the display of a campaign in [projectVisibleCampaign] is not modelled);
    [modules/client/constants/commercialModels.js]: the shares of the commercial models. *)

From Stdlib Require Import SpecFloat.
From S2P Require Import Prelude JsNum JsVal Tracking.
Import TrackingUrl.
Local Open Scope Z_scope.

(** ** v15FieldContract.js *)

Module FieldContract.
Section Contract.
Context {H : JsHost}.

Definition upper_trim (v : jsval) : string := trim (to_upper (js_string v)).
Definition mapRelationshipStatus (raw : jsval) : option string :=
  let v := upper_trim raw in
  if blank raw then None
  else if (v =s? "JOINED") || (v =s? "APPROVED") then Some v
  else if (v =s? "NOT_JOINED") || (v =s? "NOT_APPLIED") then Some "NOT_APPLIED"
  else if (v =s? "PENDING") || (v =s? "REQUIRES_APPROVAL") then Some "PENDING"
  else if (v =s? "REJECTED") || (v =s? "SUSPENDED") then Some v
  else Some "UNKNOWN".
Definition resolveRelationshipStatus (campaignSource supplierCampaign : jsval) : option string :=
  let sc := supplierCampaign |or| campaignSource@."supplierCampaign" |or| JNull in
  let fromSource := campaignSource@."relationshipStatus" in
  let participation := to_upper (js_string (sc@."participationStatus" |or| JStr "")) in
  if truthy fromSource && negb (to_upper (js_string fromSource) =s? "UNKNOWN") then mapRelationshipStatus fromSource
  else if is_true sc@."isJoined" then Some "JOINED"
  else if participation =s? "JOINED" then Some "JOINED"
  else if participation =s? "PENDING" then Some "PENDING"
  else if (participation =s? "NOT_JOINED") || (participation =s? "NOT_APPLIED") then Some "NOT_APPLIED"
  else if truthy fromSource then mapRelationshipStatus fromSource
  else if negb (truthy campaignSource) && negb (truthy sc) then None
  else Some "UNKNOWN".
Definition mapCampaignStatus (raw : jsval) : option string :=
  let v := upper_trim raw in
  if blank raw then None
  else if (v =s? "ACTIVE") || (v =s? "PAUSED") || (v =s? "UNKNOWN") then Some v
  else if (v =s? "RETIRED") || (v =s? "EXPIRED") then Some "EXPIRED"
  else if (v =s? "INACTIVE") || (v =s? "DISABLED") || (v =s? "PENDING") then Some "INACTIVE"
  else Some "UNKNOWN".
Definition is_status (o : option string) (s : string) : bool := match o with Some t => t =s? s | None => false end.
Definition deriveIsAssignable (campaignStatus : jsval) (relationshipStatus : option string) (supportsLink supportsCoupon supportsDeeplink commissionAvailable
    hasCampaignSource : bool) (mappingStatus : option string) : bool :=
  let rel := mapRelationshipStatus (of_option_str relationshipStatus) in
  if negb hasCampaignSource then false
  else if is_status mappingStatus "ERROR" then false
  else is_status (mapCampaignStatus campaignStatus) "ACTIVE" && (is_status rel "JOINED" || is_status rel "APPROVED")
       && (supportsLink || supportsCoupon || supportsDeeplink) && commissionAvailable.
End Contract.
End FieldContract.

(** ** visibility.service.js and assignmentVisibilityTruth.js *)

Module Visibility.

Definition isClientEligible (client : jsval) : bool := truthy client && nullish client@."deletedAt" && (client@."status" === "ACTIVE").
Definition isCatalogAssignable (catalogCampaign : jsval) : bool :=
  if negb (truthy catalogCampaign) || negb (nullish catalogCampaign@."deletedAt") then false
  else if catalogCampaign@."status" === "ARCHIVED" then false
  else if catalogCampaign@."visibility" === "HIDDEN" then false
  else true.
Definition isCatalogPublishable (catalogCampaign : jsval) : bool :=
  isCatalogAssignable catalogCampaign && (catalogCampaign@."status" === "PUBLISHED") && negb (catalogCampaign@."visibility" === "HIDDEN").
Definition isAssignmentVisibleToClient (assignment client catalogCampaign : jsval) : bool :=
  if negb (truthy assignment) then false
  else if negb (isClientEligible client) then false
  else if negb (isCatalogPublishable (catalogCampaign ?? assignment@."canonicalCampaign")) then false
  else is_true assignment@."published" && (assignment@."status" === "ACTIVE").
Definition isAssignmentAllottedToClient (assignment client catalogCampaign : jsval) : bool :=
  if negb (truthy assignment) then false
  else if negb (isClientEligible client) then false
  else if assignment@."status" === "REVOKED" then false
  else isCatalogAssignable (catalogCampaign ?? assignment@."canonicalCampaign").
Definition filterVisibleAssignments (assignments : list jsval) (client : jsval) : list jsval :=
  List.filter (fun assignment => isAssignmentVisibleToClient assignment client assignment@."canonicalCampaign") assignments.
Definition filterAllottedAssignments (assignments : list jsval) (client : jsval) : list jsval :=
  List.filter (fun assignment => isAssignmentAllottedToClient assignment client assignment@."canonicalCampaign") assignments.

Section Truth.
Context {H : JsHost}.
Definition no_asset (dto : jsval) : bool :=
  truthy dto && negb (truthy (dto@."link" |or| dto@."trackingUrl")) && negb (truthy (dto@."couponCode" |or| dto@."coupon"@."code")).
Definition isClientCampaignVisible (client assignment dto : jsval) : bool :=
  if negb (truthy client) || truthy client@."deletedAt" || negb (client@."status" === "ACTIVE") then false
  else if negb (truthy assignment) || (assignment@."status" === "REVOKED") then false
  else if negb (is_true assignment@."published") then false
  else if negb (to_upper (js_string (assignment@."status" |or| JStr "")) =s? "ACTIVE") then false
  else negb (no_asset dto).
Definition explainClientVisibilityBlock (client assignment dto : jsval) : option string :=
  if negb (truthy client) then Some "missing_client"
  else if truthy client@."deletedAt" then Some "client_deleted"
  else if negb (client@."status" === "ACTIVE") then Some "client_not_active"
  else if negb (truthy assignment) then Some "missing_assignment"
  else if assignment@."status" === "REVOKED" then Some "assignment_revoked"
  else if negb (is_true assignment@."published") then Some "not_published"
  else if negb (to_upper (js_string (assignment@."status" |or| JStr "")) =s? "ACTIVE")
  then Some ("assignment_status_" +:+ to_lower (js_string (assignment@."status" |or| JStr "unknown")))
  else if no_asset dto then Some "no_tracking_or_coupon" else None.
End Truth.
End Visibility.

(** ** campaignEligibility.service.js *)

Module Eligibility.
Import FieldContract Visibility.
Section Service.
Context {H : JsHost} {U : UrlHost}.

Definition ELIGIBILITY_REASON_LABELS : list (string * string) :=
  [("catalog_archived", "Campaign archived"); ("catalog_hidden", "Campaign hidden"); ("catalog_not_assignable", "Campaign not assignable");
   ("catalog_not_publishable", "Campaign not publishable"); ("client_not_active", "Client is not active"); ("client_offboarded", "Client is offboarded");
   ("country_mismatch", "Country mismatch"); ("currency_mismatch", "Currency mismatch"); ("no_campaign_source_linked", "Source not linked");
   ("missing_merchant", "Needs merchant mapping"); ("no_eligible_campaign_source", "No eligible campaign source"); ("missing_source", "Source not linked");
   ("source_inactive", "Source inactive"); ("source_deprecated", "Source deprecated"); ("relationship_not_joined", "Publisher not joined");
   ("relationship_unknown", "Publisher relationship not confirmed"); ("relationship_pending", "Relationship pending");
   ("missing_tracking_or_coupon_capability", "No supported distribution channel"); ("missing_commission", "No commission information");
   ("campaign_inactive", "Campaign inactive"); ("supplier_campaign_archived", "Supplier campaign archived"); ("supplier_campaign_retired", "Campaign retired");
   ("missing_effective_commission_rule", "Missing client commission rule"); ("mapping_error", "Mapping error")].
Definition labelEligibilityReason (code : string) : string :=
  match assoc code ELIGIBILITY_REASON_LABELS with
  | Some label => label
  | None => map_string (fun c => if (c =? "_")%char then " "%char else c) (if code =s? "" then "Not eligible" else code)
  end.

(** [hasHttpUrl] is the test of an address of [resolveSupplierDestination.js]. *)
Definition hasHttpUrl (value : jsval) : bool :=
  match value with
  | JStr s => nonempty s && match parse_url (trim s) with Some u => is_http u | None => false end
  | _ => false
  end.
Record capabilities := Capabilities { supportsLink : bool; supportsCoupon : bool; supportsDeeplink : bool; c_trackingUrl : jsval }.
Definition any_coupon (supplierCampaign : jsval) : bool :=
  existsb (fun c => truthy (c@."couponCode" |or| c@."couponLink")) (as_array supplierCampaign@."coupons").
(** [channelSupport?.includes?.("DEEPLINK")] *)
Definition includes_deeplink (v : jsval) : bool :=
  match v with JArr l => existsb (fun x => x === "DEEPLINK") l | JStr s => includes s "DEEPLINK" | _ => false end.
Definition deriveSourceCapabilities (source : jsval) : capabilities :=
  let supplierCampaign := source@."supplierCampaign" |or| JNull in
  let trackingUrl := supplierCampaign@."trackingUrl" |or| supplierCampaign@."destinationUrl" |or| JNull in
  Capabilities (is_true source@."supportsLink" || hasHttpUrl trackingUrl) (is_true source@."supportsCoupon" || any_coupon supplierCampaign)
    (includes_deeplink source@."channelSupport" || is_true supplierCampaign@."deepLinkingEnabled") trackingUrl.

Definition when (b : bool) (code : string) : list string := if b then [code] else [].
Record evaluation := Evaluation { v_reasons : list string; v_capabilities : option capabilities; v_relationship : option string; v_commissionAvailable : bool }.
Definition v_ok (e : evaluation) : bool := match v_reasons e with [] => true | _ => false end.
Definition relationship_reasons (relationship : option string) : list string :=
  if is_status relationship "JOINED" || is_status relationship "APPROVED" then []
  else if is_status relationship "PENDING" || is_status relationship "REQUIRES_APPROVAL" then ["relationship_pending"]
  else if is_status relationship "NOT_APPLIED" || is_status relationship "NOT_JOINED" then ["relationship_not_joined"]
  else match relationship with
       | None => ["relationship_unknown"]
       | Some r => if r =s? "UNKNOWN" then ["relationship_unknown"] else ["relationship_not_joined"]
       end.
Definition nonzero (v : jsval) : bool := negb (nullish v) && negb (neqb (js_number v) n0).
Definition no_channel (caps : capabilities) : bool := negb (supportsLink caps) && negb (supportsCoupon caps) && negb (supportsDeeplink caps).
Definition isSourceEligible (source : jsval) (requireJoined : bool) : evaluation :=
  let supplierCampaign := source@."supplierCampaign" |or| JNull in
  let relationship := resolveRelationshipStatus source supplierCampaign in
  let campaignStatus := mapCampaignStatus supplierCampaign@."campaignStatus" in
  let caps := deriveSourceCapabilities source in
  let gross := source@."grossCommission" ?? supplierCampaign@."defaultCommissionValue" ?? JNull in
  let commissionAvailable := nonzero gross || match as_array supplierCampaign@."commissionRules" with [] => false | _ => true end in
  if negb (truthy source) then Evaluation ["missing_source"] None None false
  else Evaluation
    (when (match source@."isActive" with JBool false => true | _ => false end) "source_inactive"
     ++ when (source@."status" === "DEPRECATED") "source_deprecated"
     ++ (if requireJoined then relationship_reasons relationship else [])
     ++ when (negb (truthy supplierCampaign@."merchantId")) "missing_merchant"
     ++ when (match campaignStatus with Some s => negb (s =s? "ACTIVE") | None => false end) "campaign_inactive"
     ++ when (no_channel caps) "missing_tracking_or_coupon_capability"
     ++ when (negb commissionAvailable) "missing_commission"
     ++ when (truthy supplierCampaign@."archivedAt") "supplier_campaign_archived"
     ++ when (supplierCampaign@."campaignStatus" === "RETIRED") "supplier_campaign_retired"
     ++ when (truthy supplierCampaign@."syncConflict") "mapping_error")
    (Some caps) relationship commissionAvailable.

(** *** The evaluation of a campaign for a client *)

Inductive mode := Assign | Publish.
Record request := Request {
  q_mode : mode; q_catalogCampaign : jsval; q_client : jsval; q_sources : list jsval; q_hasCouponAssignment : bool;
  q_hasResolvableTrackingDestination : bool; q_hasEffectiveCommissionRule : bool; q_preferredSource : jsval }.
Definition is_publish (q : request) : bool := match q_mode q with Publish => true | Assign => false end.

Definition catalog_reasons (catalog : jsval) : list string :=
  if isCatalogAssignable catalog then []
  else if (catalog@."status" === "ARCHIVED") || truthy catalog@."deletedAt" then ["catalog_archived"]
  else if catalog@."visibility" === "HIDDEN" then ["catalog_hidden"]
  else ["catalog_not_assignable"].
(** The reasons and the gaps of the client *)
Definition barred (client : jsval) : bool :=
  let clientStatus := to_upper (js_string (client@."status" |or| JStr "")) in (clientStatus =s? "OFFBOARDED") || (clientStatus =s? "SUSPENDED").
Definition mode_reasons (q : request) : list string :=
  match q_mode q with
  | Publish => when (negb (isCatalogPublishable (q_catalogCampaign q))) "catalog_not_publishable" ++ when (barred (q_client q)) "client_not_active"
               ++ when (negb (q_hasEffectiveCommissionRule q)) "missing_effective_commission_rule"
  | Assign => when ((q_client q)@."status" === "OFFBOARDED") "client_offboarded"
  end.
Definition mode_gaps (q : request) : list string := when (is_publish q && negb (barred (q_client q)) && negb (isClientEligible (q_client q))) "client_not_active".
Definition upper_if (v : jsval) : option string := if truthy v then Some (to_upper (js_string v)) else None.
Definition regional_gaps (catalog client : jsval) : list string :=
  let clientCountry := upper_if client@."country" in
  let catalogCountries := List.filter nonempty (map (fun c => to_upper (js_string c)) (as_array catalog@."countries")) in
  let no_countries := match catalogCountries with [] => true | _ => false end in
  let clientCurrency := upper_if client@."currency" in
  let catalogCurrency := upper_if catalog@."defaultCurrency" in
  match clientCountry with
  | Some c => when (negb no_countries && negb (existsb (String.eqb c) catalogCountries)) "country_mismatch" ++ when no_countries "country_incomplete_data"
  | None => ["country_incomplete_data"]
  end
  ++ match clientCurrency, catalogCurrency with
     | Some a, Some b => when (negb (a =s? b)) "currency_mismatch"
     | _, _ => ["currency_incomplete_data"]
     end
  ++ ["regional_inr_usd_rule_deferred_wave_d"].

Definition HARD_SOURCE_REASONS : list string :=
  ["missing_source"; "source_inactive"; "source_deprecated"; "supplier_campaign_archived"; "supplier_campaign_retired"].
Definition is_hard (code : string) : bool := existsb (String.eqb code) HARD_SOURCE_REASONS.
Record source_choice := SourceChoice { s_eligible : option jsval; s_reasons : list string; s_gaps : list string }.
(** [for (const code of l) if (!reasons.includes(code)) reasons.push(code)] *)
Definition push_new (reasons codes : list string) : list string :=
  fold_left (fun acc code => if existsb (String.eqb code) acc then acc else acc ++ [code]) codes reasons.
(** [[...new Set(l)]] *)
Definition new_set : list string -> list string := push_new [].
Definition no_source (before : list string) (evaluated : option evaluation) : list string :=
  push_new (before ++ ["no_eligible_campaign_source"]) (match evaluated with Some e => v_reasons e | None => [] end).
(** [reasons]: what was found before *)
Definition choose_source (q : request) (reasons : list string) : source_choice :=
  let preferred := q_preferredSource q in
  match q_sources q with
  | [] =>
      let bridge := match q_mode q with
                    | Assign => q_hasCouponAssignment q
                    | Publish => q_hasCouponAssignment q || q_hasResolvableTrackingDestination q
                    end in
      SourceChoice None (reasons ++ when (negb bridge) "no_campaign_source_linked"
                         ++ when (is_publish q && negb (q_hasCouponAssignment q) && negb (q_hasResolvableTrackingDestination q)) "missing_tracking_or_coupon_capability")
        (when bridge "no_campaign_source_linked")
  | sources =>
      if truthy preferred then
        let e := isSourceEligible preferred true in
        let hard := List.filter is_hard (v_reasons e) in
        match hard with
        | [] => if truthy preferred@."id" then SourceChoice (Some preferred) reasons (v_reasons e)
                else SourceChoice None (no_source (reasons ++ v_reasons e) (Some e)) []
        | _ => SourceChoice None (no_source (reasons ++ hard) (Some e)) []
        end
      else match List.find (fun source => v_ok (isSourceEligible source true)) sources with
           | Some source => SourceChoice (Some source) reasons []
           | None => SourceChoice None (no_source reasons (option_map (fun s => isSourceEligible s true) (hd_error sources))) []
           end
  end.
Definition channel_reasons (q : request) (eligibleSource : option jsval) : list string :=
  match q_mode q, eligibleSource with
  | Publish, Some source =>
      match v_capabilities (isSourceEligible source true) with
      | Some caps => when (negb (supportsLink caps || supportsDeeplink caps || q_hasResolvableTrackingDestination q)
                           && negb (supportsCoupon caps || q_hasCouponAssignment q)) "missing_tracking_or_coupon_capability"
      | None => when (negb (q_hasResolvableTrackingDestination q) && negb (q_hasCouponAssignment q)) "missing_tracking_or_coupon_capability"
      end
  | _, _ => []
  end.
Definition admin_assignable (src : jsval) : bool :=
  let caps := deriveSourceCapabilities src in
  let sc := src@."supplierCampaign" |or| JNull in
  let gross := src@."grossCommission" ?? sc@."defaultCommissionValue" ?? JNull in
  deriveIsAssignable sc@."campaignStatus" (resolveRelationshipStatus src sc) (supportsLink caps) (supportsCoupon caps) (supportsDeeplink caps) (nonzero gross) true
    (if truthy sc@."syncConflict" then Some "ERROR" else None).

Record eligibility := EligibilityResult {
  g_ok : bool; g_mode : mode; g_reasons : list string; g_reasonLabels : list string; g_remainingGaps : list string;
  g_eligibleSourceId : jsval; g_adminAssignable : option bool; g_status : string }.
Definition eligibilityStatus (ok : bool) (reasons : list string) : string :=
  if ok then "ELIGIBLE"
  else if existsb (fun r => existsb (String.eqb r) ["relationship_unknown"; "missing_merchant"; "relationship_pending"]) reasons then "NEEDS_REVIEW"
  else if existsb (String.eqb "no_campaign_source_linked") reasons then "UNAVAILABLE"
  else "NOT_ELIGIBLE".
Definition evaluate (q : request) : eligibility :=
  let choice := choose_source q (catalog_reasons (q_catalogCampaign q) ++ mode_reasons q) in
  let reasons := new_set (s_reasons choice ++ channel_reasons q (s_eligible choice)) in
  let ok := match reasons with [] => true | _ => false end in
  let shown := match s_eligible choice with Some s => Some s | None => hd_error (q_sources q) end in
  EligibilityResult ok (q_mode q) reasons (map labelEligibilityReason reasons)
    (new_set (mode_gaps q ++ regional_gaps (q_catalogCampaign q) (q_client q) ++ s_gaps choice ++ ["mapping_approval_state_not_modeled"]))
    (match s_eligible choice with Some s => s@."id" ?? JNull | None => JNull end) (option_map admin_assignable shown) (eligibilityStatus ok reasons).
(** [labels.join("; ") || reasons.join(", ")] *)
Definition reason_text (result : eligibility) : string :=
  let labels := join "; " (g_reasonLabels result) in if labels =s? "" then join ", " (g_reasons result) else labels.
Definition in_mode (m : mode) (q : request) : request :=
  Request m (q_catalogCampaign q) (q_client q) (q_sources q) (q_hasCouponAssignment q) (q_hasResolvableTrackingDestination q) (q_hasEffectiveCommissionRule q) (q_preferredSource q).
Definition assertAssignable (q : request) : outcome eligibility :=
  let result := evaluate (in_mode Assign q) in
  if g_ok result then Ok result else Throw (JsError ("Cannot assign campaign. Reason: " +:+ reason_text result) 409 "").
Definition assertPublishable (q : request) : outcome eligibility :=
  let result := evaluate (in_mode Publish q) in
  if g_ok result then Ok result else Throw (JsError ("Campaign assignment is not publishable: " +:+ reason_text result) 409 "").
End Service.
End Eligibility.

(** ** commercialModels.js *)

Module CommercialModels.
Section Models.
Context {H : JsHost}.

Record preset := Preset {
  p_key : string; p_label : string; p_clientSharePercent : num; p_mboSharePercent : num;
  p_grossCommission : string; p_clientCommission : string; p_commissionType : string }.
Definition OFFERS_ONLY : preset := Preset "OFFERS_ONLY" "Offers Only" n0 (num_of_Z 100) "100.0000" "0.0000" "PERCENT".
Definition OFFERS_PLUS_COMMISSION : preset := Preset "OFFERS_PLUS_COMMISSION" "Offers + Commission" (num_of_Z 70) (num_of_Z 30) "100.0000" "70.0000" "PERCENT".
Definition COMMERCIAL_MODEL_PRESETS : list (string * preset) := map (fun p => (p_key p, p)) [OFFERS_ONLY; OFFERS_PLUS_COMMISSION].
Definition toShareNumber (value : jsval) (fallback : num) : num :=
  if blank value then fallback else let n := js_number value in if is_finite n then n else fallback.
Definition formatShare (value : num) : string := num_toFixed 4 value.
Definition resolveCommercialPreset (model clientSharePercent : jsval) : option preset :=
  match assoc (js_string model) COMMERCIAL_MODEL_PRESETS with
  | None => None
  | Some base =>
      if model === "OFFERS_ONLY" then Some OFFERS_ONLY
      else
        let clamped := nmin (num_of_Z 100) (nmax n0 (toShareNumber clientSharePercent (p_clientSharePercent base))) in
        Some (Preset (p_key base) (p_label base) clamped (nsub (num_of_Z 100) clamped) "100.0000" (formatShare clamped) (p_commissionType base))
  end.
End Models.
End CommercialModels.

(** ** What may be published *)

Module EligibilityFacts.
Import FieldContract Visibility Eligibility.
Section Facts.
Context {H : JsHost} {U : UrlHost}.

Lemma push_new_kept codes : forall reasons, push_new reasons codes = [] -> reasons = [] /\ codes = [].
Proof.
  induction codes as [|c codes IH]; intros reasons; cbn; [auto|]. intros E%IH. destruct E as [E _], (existsb _ reasons) eqn:Ex.
  - now subst.
  - now apply app_eq_nil in E as [_ [=]].
Qed.
Lemma new_set_nil l : new_set l = [] <-> l = [].
Proof. split; [apply push_new_kept|now intros ->]. Qed.
Lemma when_nil b code : when b code = [] <-> b = false.
Proof. now destruct b. Qed.
Lemma no_source_reasons before evaluated : no_source before evaluated <> [].
Proof. intros [E _]%push_new_kept. now apply app_eq_nil in E as [_ [=]]. Qed.
Lemma catalog_clear catalog : catalog_reasons catalog = [] <-> isCatalogAssignable catalog = true.
Proof. unfold catalog_reasons. destruct (isCatalogAssignable catalog); [easy|]. destruct (_ || _); [easy|]. destruct (_ === _); easy. Qed.

(** The source that an assignment goes out with: the one the operator selected, unless it cannot be used at all,
    else the first without any reservation. *)
Definition accepted_source (q : request) : option jsval :=
  let preferred := q_preferredSource q in
  if truthy preferred
  then if negb (existsb is_hard (v_reasons (isSourceEligible preferred true))) && truthy preferred@."id" then Some preferred else None
  else List.find (fun source => v_ok (isSourceEligible source true)) (q_sources q).
Definition has_channel (q : request) (source : jsval) : bool :=
  let caps := deriveSourceCapabilities source in
  supportsLink caps || supportsDeeplink caps || q_hasResolvableTrackingDestination q || supportsCoupon caps || q_hasCouponAssignment q.
Record publishable (q : request) : Prop := Publishable {
  pub_campaign : isCatalogPublishable (q_catalogCampaign q) = true;
  pub_client : barred (q_client q) = false;
  pub_rule : q_hasEffectiveCommissionRule q = true;
  pub_channel : match q_sources q with
                | [] => q_hasCouponAssignment q || q_hasResolvableTrackingDestination q = true
                | _ => exists source, accepted_source q = Some source /\ has_channel q source = true
                end
}.

Lemma filter_hard l : List.filter is_hard l = [] <-> existsb is_hard l = false.
Proof. induction l as [|c l IH]; [easy|]. cbn [List.filter existsb]. destruct (is_hard c); [split; discriminate|exact IH]. Qed.
(** What the choice of a source adds to the reasons *)
Lemma choice_linked q reasons : q_sources q <> [] ->
  s_eligible (choose_source q reasons) = accepted_source q /\
  (s_reasons (choose_source q reasons) = [] <-> reasons = [] /\ is_Some (accepted_source q)).
Proof.
  intros Hne. unfold choose_source, accepted_source. destruct (q_sources q) as [|s l]; [congruence|]. destruct (truthy (q_preferredSource q)).
  - set (e := isSourceEligible _ _). pose proof (filter_hard (v_reasons e)) as Hf. destruct (List.filter is_hard _) as [|h hs].
    + rewrite (proj1 Hf eq_refl). cbn [negb andb]. destruct (truthy _); cbn [s_eligible s_reasons]; [split; [reflexivity|]; split; [eauto|now intros [-> _]]|].
      split; [reflexivity|]. split; [intros E; now apply no_source_reasons in E|intros [_ [? [=]]]].
    + destruct (existsb is_hard _) eqn:Eh; [|discriminate (proj2 Hf eq_refl)]. cbn [negb andb s_eligible s_reasons]. split; [reflexivity|]. split; [intros E; now apply no_source_reasons in E|intros [_ [? [=]]]].
  - destruct (List.find _ _) as [x|]; cbn [s_eligible s_reasons]; (split; [reflexivity|]); split; [eauto|now intros [-> _]|intros E; now apply no_source_reasons in E|intros [_ [? [=]]]].
Qed.
Lemma mode_clear q : is_publish q = true ->
  mode_reasons q = [] <-> isCatalogPublishable (q_catalogCampaign q) = true /\ barred (q_client q) = false /\ q_hasEffectiveCommissionRule q = true.
Proof.
  unfold is_publish, mode_reasons. destruct (q_mode q); [discriminate|intros _]. destruct (isCatalogPublishable _), (barred _), (q_hasEffectiveCommissionRule q); cbn; intuition congruence.
Qed.
Lemma accepted_truthy q source : accepted_source q = Some source -> truthy source = true.
Proof.
  unfold accepted_source. destruct (truthy (q_preferredSource q)) eqn:E; [destruct (_ && _); [intros [= <-]; exact E|discriminate]|].
  intros [_ Hs]%find_some. unfold isSourceEligible in Hs. now destruct (truthy source).
Qed.
Lemma channel_clear q source : is_publish q = true -> truthy source = true -> channel_reasons q (Some source) = [] <-> has_channel q source = true.
Proof.
  unfold is_publish, channel_reasons, has_channel. destruct (q_mode q); [discriminate|]. intros _ Ht. unfold isSourceEligible. rewrite Ht. cbn [negb v_capabilities].
  rewrite when_nil. destruct (supportsLink _), (supportsDeeplink _), (supportsCoupon _), (q_hasResolvableTrackingDestination q), (q_hasCouponAssignment q); cbn; intuition congruence.
Qed.

(** A campaign may be published for a client exactly if the campaign is published and not hidden or deleted, the
    client is neither offboarded nor suspended, there is an effective commission rule, and there is a way to
    send customers: a coupon or an address, or a usable source that has one. *)
Lemma publish_gates q : is_publish q = true -> g_ok (evaluate q) = true <-> publishable q.
Proof.
  intros Hp. unfold evaluate. cbn [g_ok]. set (reasons := catalog_reasons (q_catalogCampaign q) ++ mode_reasons q).
  set (all := _ ++ channel_reasons q _). assert (Hok : (match new_set all with [] => true | _ => false end) = true <-> all = []).
  { rewrite <- new_set_nil. now destruct (new_set all). }
  rewrite Hok. subst all. rewrite app_nil.
  assert (Hcat : isCatalogPublishable (q_catalogCampaign q) = true -> catalog_reasons (q_catalogCampaign q) = []).
  { intros [[Hc _]%andb_true_iff _]%andb_true_iff. now apply catalog_clear. }
  assert (Hr : reasons = [] <-> isCatalogPublishable (q_catalogCampaign q) = true /\ barred (q_client q) = false /\ q_hasEffectiveCommissionRule q = true).
  { subst reasons. rewrite app_nil, (mode_clear q Hp). intuition auto. }
  destruct (q_sources q) as [|s l] eqn:Es.
  - unfold choose_source. rewrite Es. cbn [s_reasons s_eligible]. rewrite !app_nil, Hr, !when_nil. unfold channel_reasons, is_publish in *. destruct (q_mode q); [discriminate|]. cbn [andb].
    split; [intros [(Hg & Hb & _) _]; destruct Hg as (? & ? & ?); apply negb_false_iff in Hb; split; auto; now rewrite Es|].
    intros [Hc Hb Hl Hch]. rewrite Es in Hch. split; [|reflexivity]. split; [auto|]. split; [now apply negb_false_iff|]. destruct (q_hasCouponAssignment q), (q_hasResolvableTrackingDestination q); easy.
  - destruct (choice_linked q reasons) as [He Hs]; [congruence|]. rewrite He, Hs, Hr. split.
    + intros [[(? & ? & ?) [source Ha]] Hch]. rewrite Ha in Hch. split; auto. rewrite Es. exists source. split; [exact Ha|]. apply channel_clear; eauto using accepted_truthy.
    + intros [Hc Hb Hl Hch]. rewrite Es in Hch. destruct Hch as (source & Ha & Hch). rewrite Ha. split; [eauto|]. apply channel_clear; eauto using accepted_truthy.
Qed.
(** Without an operator's choice, the source that is found has a channel of its own. *)
Lemma found_has_channel q source : truthy (q_preferredSource q) = false -> accepted_source q = Some source -> has_channel q source = true.
Proof.
  intros Hn Ha. pose proof (accepted_truthy _ _ Ha) as Ht. unfold accepted_source in Ha. rewrite Hn in Ha. apply find_some in Ha as [_ Hs].
  destruct (no_channel (deriveSourceCapabilities source)) eqn:En.
  - assert (Hin : In "missing_tracking_or_coupon_capability" (v_reasons (isSourceEligible source true))).
    { unfold isSourceEligible. rewrite Ht, En. cbn [negb v_reasons]. rewrite !in_app_iff. do 5 right. left. now left. }
    unfold v_ok in Hs. now destruct (v_reasons _).
  - unfold has_channel. unfold no_channel in En. destruct (supportsLink _), (supportsDeeplink _), (supportsCoupon _), (q_hasResolvableTrackingDestination q); cbn in *; congruence.
Qed.

(** A reason is given exactly when the campaign is not shown. *)
Lemma block_explained client assignment dto : explainClientVisibilityBlock client assignment dto = None <-> isClientCampaignVisible client assignment dto = true.
Proof.
  unfold explainClientVisibilityBlock, isClientCampaignVisible. destruct (truthy client); [|easy]. destruct (truthy client@."deletedAt"); [easy|].
  destruct (client@."status" === "ACTIVE"); [|easy]. destruct (truthy assignment); [|easy]. destruct (assignment@."status" === "REVOKED"); [easy|].
  destruct (is_true assignment@."published"); [|easy]. destruct (_ =s? "ACTIVE"); [|easy]. cbn. now destruct (no_asset dto).
Qed.
End Facts.
End EligibilityFacts.
