(* ===== verification/Catalog.v ===== *)
(** * The catalog

    [modules/catalog/services/catalog.service.js]: the campaigns of the catalog and the supplier campaigns
    that are their sources, with [repositories/campaignSource.repository.js] and
    [repositories/catalog.repository.js]; [sourceSelection.service.js]: which source a campaign is routed to;
    [modules/merchant/normalizeName.js]: the names of merchants.  What the Boostiny mapper makes of the
    payout groups of a campaign is the interface [PayoutMapper]. *)

From Stdlib Require Import SpecFloat.
From S2P Require Import Prelude JsNum JsVal JsDate Store Accounts Runtime Attribution Commercial Tracking TrackingLinks Exclusive.
Import Attribution CommercialRules TrackingUrl.
Local Open Scope Z_scope.

(** [resolveBoostinyDefaultCommission({ commissionGroups })] *)
Class PayoutMapper := { boostiny_commission : jsval -> jsval }.

(** ** normalizeName.js *)

Module MerchantNames.
Section Names.
Context {H : JsHost} {T : TextHost}.

Definition swap_char (a b c : ascii) : ascii := if (c =? a)%char then b else c.
(** After the letters and digits are kept there are only single spaces, which [replace(/\s+/g, " ")] leaves. *)
Definition normalizeMerchantName (value : jsval) : string :=
  if negb (truthy value) then ""
  else trim (map_string (swap_char "-" " ") (dash_runs (fun c => negb (slug_char c)) false (strip_marks (fold_text (trim (js_string value)))))).
Definition slugifyMerchantName (value : jsval) : string :=
  or_text (strip_dashes (dash_runs (Ascii.eqb "-") false (dash_runs is_space false (normalizeMerchantName value)))) "merchant".
End Names.
End MerchantNames.

(** ** sourceSelection.service.js *)

Module SourceSelection.

Definition isRoutableSource (source : jsval) : bool :=
  truthy source@."isActive" && negb (source@."status" === "DEPRECATED") && (source@."relationshipStatus" === "JOINED").
Section Selection.
Context {H : JsHost}.
(** [compareSources(a, b) <= 0] *)
Definition source_le (a b : jsval) : bool :=
  let pa := truthy a@."isPrimary" in let pb := truthy b@."isPrimary" in
  let x := js_number a@."priority" in let y := js_number b@."priority" in
  if negb (Bool.eqb pa pb) then pa
  else if negb (neqb x y) then nleb x y
  else date_of a@."createdAt" <=? date_of b@."createdAt".
Record selection := Selection { sel_primary : option jsval; sel_secondary : list jsval; sel_inactive : list jsval; sel_tier : string }.
Definition select (sources : list jsval) : selection :=
  let sorted := sort_by source_le sources in
  let routable := List.filter isRoutableSource sorted in
  let primary := match List.find (fun source => truthy source@."isPrimary") routable with Some s => Some s | None => hd_error routable end in
  Selection primary
    (match primary with Some p => List.filter (fun source => negb (col_eq source@."id" p@."id")) routable | None => routable end)
    (List.filter (fun source => negb (isRoutableSource source)) sorted)
    (match primary with Some _ => "primary" | None => "inactive" end).

Record conflict := Conflict { k_code : string; k_message : string; k_sourceIds : list jsval }.
Definition active_primaries (sources : list jsval) : list jsval := List.filter (fun source => truthy source@."isPrimary" && truthy source@."isActive") sources.
Definition ids_of (sources : list jsval) : list jsval := map (fun source => source@."id") sources.
Definition detectConflicts (sources : list jsval) : list conflict :=
  let primaries := active_primaries sources in
  let activeWithoutJoin := List.filter (fun source => truthy source@."isActive" && negb (source@."relationshipStatus" === "JOINED")) sources in
  match primaries with _ :: _ :: _ => [Conflict "MULTIPLE_PRIMARY" "More than one active primary source is configured." (ids_of primaries)] | _ => [] end
  ++ match activeWithoutJoin with
     | [] => []
     | l => [Conflict "ACTIVE_NOT_JOINED" "Active sources exist without JOINED relationship status." (ids_of l)]
     end.
End Selection.
End SourceSelection.

(** ** catalog.service.js *)

Module CatalogService.
Import MerchantNames SourceSelection.
Section Service.
Context {H : JsHost} {D : Database} {T : TextHost} {M : CouponCms} {B : PayoutMapper}.

Definition DEFAULT_SOURCE_PRIORITY : num := num_of_Z 100.
Definition resolveGrossCommission (supplierCampaign : jsval) : jsval :=
  let v := supplierCampaign@."defaultCommissionValue" in
  if negb (nullish v) && negb (trim (js_string v) =s? "") then v
  else if to_upper (js_string (supplierCampaign@."supplier" |or| JStr "")) =s? "BOOSTINY" then boostiny_commission supplierCampaign@."commissionGroups"
  else JNull.
Definition mapRelationshipStatus (supplierCampaign : jsval) : string :=
  let participation := to_upper (trim (js_string (supplierCampaign@."participationStatus" |or| JStr ""))) in
  if truthy supplierCampaign@."isJoined" then "JOINED"
  else if (participation =s? "JOINED") || (participation =s? "APPROVED") then "JOINED"
  else if participation =s? "PENDING" then "PENDING"
  else if existsb (String.eqb participation) ["NOT_JOINED"; "NOT_APPLIED"; "REJECTED"; "SUSPENDED"] then "NOT_JOINED"
  else "UNKNOWN".
Definition has_address (supplierCampaign : jsval) : bool := truthy (supplierCampaign@."trackingUrl" |or| supplierCampaign@."destinationUrl").
Definition deriveChannelSupport (supplierCampaign : jsval) : list string :=
  (if has_address supplierCampaign then ["WEB"] else []) ++ (if truthy supplierCampaign@."deepLinkingEnabled" then ["DEEPLINK"] else []).
Definition USABLE_COUPON_STATUSES : list string := ["ACTIVE"; "SCHEDULED"; "UNKNOWN"].
Definition usable_coupons (supplierCampaignId : jsval) (w : world) : list jsval :=
  firstn 25 (List.filter (fun c => col_eq c@."supplierCampaignId" supplierCampaignId && in_enum USABLE_COUPON_STATUSES c@."couponStatus") (rows w TSupplierCoupon)).
Definition has_text (v : jsval) : bool := negb (nullish v) && negb (trim (js_string v) =s? "").
Definition deriveSupportsCoupon (supplierCampaignId : jsval) (w : world) : bool :=
  truthy supplierCampaignId && existsb (fun row => has_text row@."couponCode" || has_text row@."couponLink") (usable_coupons supplierCampaignId w).
Definition buildSourceSnapshot (supplierCampaign priority : jsval) (isPrimary supportsCoupon : bool) : list (string * jsval) :=
  [("priority", priority ?? JNum DEFAULT_SOURCE_PRIORITY); ("isPrimary", JBool isPrimary); ("relationshipStatus", JStr (mapRelationshipStatus supplierCampaign));
   ("supportsLink", JBool (has_address supplierCampaign)); ("supportsCoupon", JBool supportsCoupon); ("grossCommission", resolveGrossCommission supplierCampaign);
   ("channelSupport", JArr (map JStr (deriveChannelSupport supplierCampaign))); ("isActive", JBool true); ("status", JStr (if isPrimary then "PREFERRED" else "LINKED"))].

(** *** The repositories *)

Definition campaign_by_id (id : jsval) (w : world) : jsval :=
  row_or_null (List.find (fun c => has_id id c && nullish c@."deletedAt") (rows w TCatalogCampaign)).
Definition supplier_campaign_by_id (id : jsval) (w : world) : jsval := row_or_null (List.find (has_id id) (rows w TSupplierCampaign)).
Definition merchant_by_id (id : jsval) (w : world) : jsval := row_or_null (List.find (fun m => has_id id m && nullish m@."deletedAt") (rows w TMerchant)).
Definition findByNormalizedName (name : string) (w : world) : jsval :=
  row_or_null (List.find (fun m => col_eq m@."normalizedName" (JStr name) && nullish m@."deletedAt" && negb (m@."status" === "MERGED")) (rows w TMerchant)).
Definition findBySlug (slug : string) (w : world) : jsval :=
  row_or_null (List.find (fun m => col_eq m@."slug" (JStr slug) && nullish m@."deletedAt") (rows w TMerchant)).
Definition in_pair (canonicalCampaignId supplierCampaignId source : jsval) : bool :=
  col_eq source@."canonicalCampaignId" canonicalCampaignId && col_eq source@."supplierCampaignId" supplierCampaignId.
Definition findByCampaignPair (canonicalCampaignId supplierCampaignId : jsval) (w : world) : jsval :=
  row_or_null (List.find (in_pair canonicalCampaignId supplierCampaignId) (rows w TCampaignSource)).
Definition findBySupplierCampaignId (supplierCampaignId : jsval) (w : world) : list jsval :=
  List.filter (fun s => col_eq s@."supplierCampaignId" supplierCampaignId) (rows w TCampaignSource).
(** [orderBy: [{ isPrimary: "desc" }, { priority: "asc" }, { createdAt: "asc" }]] is the order of [source_le]. *)
Definition findByCanonicalCampaignId (canonicalCampaignId : jsval) (w : world) : list jsval :=
  map (fun s => with_relation s "supplierCampaign" (supplier_campaign_by_id s@."supplierCampaignId" w))
    (sort_by source_le (List.filter (fun s => col_eq s@."canonicalCampaignId" canonicalCampaignId) (rows w TCampaignSource))).
(** A campaign has a supplier campaign as its source once. *)
Definition create_source (canonicalCampaignId supplierCampaignId : jsval) (snapshot : list (string * jsval)) : prog world jsval :=
  fun w => if existsb (in_pair canonicalCampaignId supplierCampaignId) (rows w TCampaignSource) then (Throw unique_violation, w)
           else create_row TCampaignSource (("canonicalCampaignId", canonicalCampaignId) :: ("supplierCampaignId", supplierCampaignId) :: snapshot) w.
Definition demoted (source : jsval) : jsval := spread source (JObj [("isPrimary", JBool false); ("status", JStr "ACTIVE")]).
Definition clearPrimaryForCampaign (canonicalCampaignId exceptId : jsval) : prog world unit :=
  modify (fun w => set_rows TCampaignSource (map (fun s =>
    if col_eq s@."canonicalCampaignId" canonicalCampaignId && (negb (truthy exceptId) || negb (has_id exceptId s)) then demoted s else s) (rows w TCampaignSource)) w).
Definition deactivate (id : jsval) : prog world jsval :=
  update_row TCampaignSource id [("isActive", JBool false); ("isPrimary", JBool false); ("status", JStr "DEPRECATED")].

(** *** Campaigns *)

Definition create (input : jsval) : prog world jsval :=
  let! merchant := gets (merchant_by_id input@."merchantId") in
  if negb (truthy merchant) then throw (api_fail "Merchant not found." 404)
  else if merchant@."status" === "MERGED" then throw (api_fail "Cannot create catalog entry for a merged merchant." 409)
  else create_row TCatalogCampaign
    [("merchantId", input@."merchantId"); ("displayName", JStr (trim (js_string input@."displayName"))); ("status", input@."status" ?? JStr "DRAFT");
     ("visibility", input@."visibility" ?? JStr "INTERNAL"); ("category", input@."category" ?? JNull); ("countries", input@."countries" ?? JArr []);
     ("defaultCurrency", input@."defaultCurrency" ?? JNull)].
(** A name that is given is text. *)
Definition update (id input : jsval) : prog world jsval :=
  let! campaign := gets (campaign_by_id id) in
  if negb (truthy campaign) then throw (api_fail "Catalog campaign not found." 404)
  else update_row TCatalogCampaign id
    (if_given input "displayName" (JStr (trim (js_string input@."displayName"))) ++ given_columns input ["status"; "visibility"; "category"; "countries"; "defaultCurrency"]).

(** *** Sources *)

Definition attach_source (canonicalCampaignId input : jsval) : prog world jsval :=
  let supplierCampaignId := input@."supplierCampaignId" in
  let! catalog := gets (campaign_by_id canonicalCampaignId) in
  if negb (truthy catalog) then throw (api_fail "Catalog campaign not found." 404)
  else
    let! supplierCampaign := gets (supplier_campaign_by_id supplierCampaignId) in
    if negb (truthy supplierCampaign) then throw (api_fail "Supplier campaign not found." 404)
    else if truthy supplierCampaign@."archivedAt" then throw (api_fail "Cannot attach archived supplier campaign." 409)
    else if truthy supplierCampaign@."merchantId" && negb (col_eq supplierCampaign@."merchantId" catalog@."merchantId")
    then throw (api_fail "Supplier campaign merchant does not match catalog merchant." 409)
    else
      let! existingPair := gets (findByCampaignPair canonicalCampaignId supplierCampaignId) in
      if truthy existingPair then throw (api_fail "Supplier campaign is already attached to this catalog entry." 409)
      else
        let! existingLinks := gets (findBySupplierCampaignId supplierCampaignId) in
        if existsb (fun link => negb (col_eq link@."canonicalCampaignId" canonicalCampaignId)) existingLinks
        then throw (api_fail "Supplier campaign is already linked to another catalog entry." 409)
        else
          let! currentSources := gets (findByCanonicalCampaignId canonicalCampaignId) in
          let shouldBePrimary := is_true input@."isPrimary" || match currentSources with [] => true | _ => false end in
          (if shouldBePrimary then clearPrimaryForCampaign canonicalCampaignId JNull else ret tt) ;;
          let! supportsCoupon := gets (deriveSupportsCoupon supplierCampaignId) in
          create_source canonicalCampaignId supplierCampaignId (buildSourceSnapshot supplierCampaign input@."priority" shouldBePrimary supportsCoupon).
Definition attachSource (canonicalCampaignId input : jsval) : prog world jsval := transaction (attach_source canonicalCampaignId input).

Definition source_not_found : js_error := api_fail "Campaign source not found." 404.
Definition find_source (id : jsval) : prog world jsval :=
  let! found := findUnique TCampaignSource "id" id in
  match found with Some source => ret source | None => throw source_not_found end.
Definition detachSource (sourceId : jsval) : prog world jsval := find_source sourceId ;; deactivate sourceId.
Definition disableSource (sourceId : jsval) : prog world jsval := find_source sourceId ;; deactivate sourceId.
Definition promotePrimarySource (sourceId : jsval) : prog world jsval :=
  transaction (
    let! source := find_source sourceId in
    if negb (truthy source@."isActive") || (source@."status" === "DEPRECATED") then throw (api_fail "Cannot promote an inactive source." 409)
    else if negb (source@."relationshipStatus" === "JOINED") then throw (api_fail "Cannot promote a source that is not JOINED." 409)
    else
      clearPrimaryForCampaign source@."canonicalCampaignId" sourceId ;;
      update_row TCampaignSource sourceId
        [("isPrimary", JBool true); ("status", JStr "PREFERRED"); ("priority", JNum (nmin (js_number source@."priority") (num_of_Z 1)))]).
Definition SOURCE_COLUMNS : list string := ["priority"; "isActive"; "status"; "channelSupport"].
Definition updateSource (sourceId input : jsval) : prog world jsval :=
  find_source sourceId ;;
  match input@."isActive" with
  | JBool false => disableSource sourceId
  | _ => update_row TCampaignSource sourceId (given_columns input SOURCE_COLUMNS)
  end.

Record routing := Routing { o_resolved : bool; o_conflicts : list conflict; o_selection : selection }.
(** [a.priority - b.priority || a.createdAt - b.createdAt], at most 0 *)
Definition older_le (a b : jsval) : bool :=
  let x := js_number a@."priority" in let y := js_number b@."priority" in
  if negb (neqb x y) then nleb x y else date_of a@."createdAt" <=? date_of b@."createdAt".
Definition resolveSourceConflicts (canonicalCampaignId : jsval) : prog world routing :=
  let! sources := gets (findByCanonicalCampaignId canonicalCampaignId) in
  match detectConflicts sources with
  | [] => ret (Routing false [] (select sources))
  | conflicts =>
      transaction (
        (match sort_by older_le (active_primaries sources) with
         | winner :: _ :: _ =>
             clearPrimaryForCampaign canonicalCampaignId winner@."id" ;;
             update_row TCampaignSource winner@."id" [("isPrimary", JBool true); ("status", JStr "PREFERRED")] ;; ret tt
         | _ => ret tt
         end) ;;
        let! refreshed := gets (findByCanonicalCampaignId canonicalCampaignId) in
        ret (Routing true conflicts (select refreshed)))
  end.
Definition getRouting (canonicalCampaignId : jsval) (w : world) : selection * list conflict :=
  let sources := findByCanonicalCampaignId canonicalCampaignId w in (select sources, detectConflicts sources).

(** *** A campaign for a supplier campaign

    This and the next one run in the transaction of their caller; called without one they open their own
    ([run_catalog] below). *)

Definition linked_campaign (links : list jsval) : option jsval := List.find (fun link => truthy link@."isActive" && truthy link@."canonicalCampaignId") links.
Definition refresh_source (existing supplierCampaignId : jsval) : prog world unit :=
  let! supplierCampaign := gets (supplier_campaign_by_id supplierCampaignId) in
  if negb (truthy supplierCampaign) then ret tt
  else
    let! supportsCoupon := gets (deriveSupportsCoupon supplierCampaignId) in
    let snapshot := JObj (buildSourceSnapshot supplierCampaign existing@."priority" (truthy existing@."isPrimary") supportsCoupon) in
    update_row TCampaignSource existing@."id"
      (map (fun k => (k, prop snapshot k)) ["relationshipStatus"; "supportsLink"; "supportsCoupon"; "grossCommission"; "channelSupport"]) ;; ret tt.
Definition reopen_campaign (catalog : jsval) : prog world unit :=
  if (catalog@."status" === "ARCHIVED") || (catalog@."visibility" === "HIDDEN") then
    update_row TCatalogCampaign catalog@."id"
      [("status", if catalog@."status" === "ARCHIVED" then JStr "PUBLISHED" else catalog@."status");
       ("visibility", if catalog@."visibility" === "HIDDEN" then JStr "ASSIGNABLE" else catalog@."visibility")] ;; ret tt
  else ret tt.
(** [v?.trim()] *)
Definition trimmed (v : jsval) : jsval := match v with JStr s => JStr (trim s) | _ => JUndef end.
Definition country_codes (v : jsval) : list string := List.filter nonempty (map (fun c => to_upper (slice 0 2 (js_string c))) (as_array v)).
Definition ensureFromSupplierCampaign (supplierCampaignId : jsval) : prog world jsval :=
  let! links := gets (findBySupplierCampaignId supplierCampaignId) in
  match linked_campaign links with
  | Some existing =>
      let! catalog := gets (campaign_by_id existing@."canonicalCampaignId") in
      if negb (truthy catalog) || truthy catalog@."deletedAt" then throw (api_fail "Linked catalog campaign is unavailable." 409)
      else reopen_campaign catalog ;; refresh_source existing supplierCampaignId ;; ret existing@."canonicalCampaignId"
  | None =>
      let! supplierCampaign := gets (supplier_campaign_by_id supplierCampaignId) in
      if negb (truthy supplierCampaign) then throw (api_fail "Supplier campaign not found." 404)
      else if truthy supplierCampaign@."archivedAt" then throw (api_fail "Cannot assign an archived supplier campaign." 409)
      else if negb (truthy supplierCampaign@."merchantId") then throw (api_fail "Supplier campaign must be matched to a merchant before it can be allotted." 409)
      else
        let displayName := trimmed supplierCampaign@."campaignName" |or| trimmed supplierCampaign@."merchantNameRaw"
                           |or| JStr ("Supplier campaign " +:+ js_string supplierCampaign@."supplierCampaignId") in
        let! catalog := create_row TCatalogCampaign
          [("merchantId", supplierCampaign@."merchantId"); ("displayName", displayName); ("status", JStr "PUBLISHED"); ("visibility", JStr "ASSIGNABLE"); ("category", JNull);
           ("countries", JArr (map JStr (country_codes supplierCampaign@."countryCodes"))); ("defaultCurrency", supplierCampaign@."currencyCode" ?? JNull)] in
        let! supportsCoupon := gets (deriveSupportsCoupon supplierCampaignId) in
        create_source catalog@."id" supplierCampaignId (buildSourceSnapshot supplierCampaign (JNum DEFAULT_SOURCE_PRIORITY) true supportsCoupon) ;;
        ret catalog@."id"
  end.

(** *** A campaign for a coupon of the CMS *)

Definition latest_coupon (entityId : jsval) (w : world) : jsval :=
  row_or_null (hd_error (sort_by (fun a b => date_of b@."lastSyncedAt" <=? date_of a@."lastSyncedAt") (List.filter (fun c => col_eq c@."entityId" entityId) (rows w TSupplierCoupon)))).
(** The first of the slugs [base], [base-1], ... that is free; a hundred are tried. *)
Definition resolveUniqueMerchantSlug (displayName : jsval) (w : world) : outcome string :=
  let base := slugifyMerchantName displayName in
  match List.find (fun slug => negb (truthy (findBySlug slug w)))
          (map (fun attempt => if (attempt =? 0)%nat then base else base +:+ "-" +:+ print_Z (Z.of_nat attempt) "") (seq 0 100)) with
  | Some slug => Ok slug
  | None => Throw (api_fail "Unable to generate unique merchant slug." 409)
  end.
Definition merchant_for (brand allotment : jsval) (normalizedName : string) : prog world jsval :=
  let! merchant := gets (findByNormalizedName normalizedName) in
  if negb (truthy merchant) then
    let! chosen := gets (resolveUniqueMerchantSlug brand) in
    let! slug := lift chosen in
    create_row TMerchant
      [("displayName", JStr (trim (js_string brand))); ("normalizedName", JStr normalizedName); ("slug", JStr slug); ("website", allotment@."websiteUrl" ?? JNull);
       ("logoUrl", allotment@."brandLogo" ?? JNull); ("supplierTrackingLink", allotment@."trackingUrl" ?? JNull); ("status", JStr "ACTIVE");
       ("verificationStatus", JStr "UNVERIFIED"); ("isVerified", JBool false)]
  else if (merchant@."status" === "DRAFT") || (merchant@."status" === "ARCHIVED") then update_row TMerchant merchant@."id" [("status", JStr "ACTIVE")]
  else ret merchant.
Definition campaign_for (merchant entity : jsval) (displayName : string) : prog world jsval :=
  let! existing := gets (fun w => row_or_null (hd_error (sort_by (fun a b => date_of b@."updatedAt" <=? date_of a@."updatedAt")
    (List.filter (fun c => col_eq c@."merchantId" merchant@."id" && nullish c@."deletedAt" && same_code (JStr displayName) c@."displayName") (rows w TCatalogCampaign))))) in
  if truthy existing then
    (if (existing@."status" === "ARCHIVED") || (existing@."visibility" === "HIDDEN") || (existing@."status" === "DRAFT")
     then update_row TCatalogCampaign existing@."id" [("status", JStr "PUBLISHED"); ("visibility", JStr "ASSIGNABLE")] ;; ret tt else ret tt) ;;
    ret existing@."id"
  else
    let! catalog := create_row TCatalogCampaign
      [("merchantId", merchant@."id"); ("displayName", JStr displayName); ("status", JStr "PUBLISHED"); ("visibility", JStr "ASSIGNABLE");
       ("category", entity@."category" ?? JNull); ("countries", JArr []); ("defaultCurrency", JNull)] in
    ret catalog@."id".
Definition attach_linked (linkedCoupon sc merchant canonicalId : jsval) : prog world unit :=
  if negb (truthy linkedCoupon@."supplierCampaignId") then ret tt
  else if truthy sc@."archivedAt" then ret tt
  else if negb (truthy sc) then throw (plain_error "Cannot read properties of null (reading 'merchantId')")
  else if truthy sc@."merchantId" && negb (col_eq sc@."merchantId" merchant@."id") then ret tt
  else catch (
    let! pair := gets (findByCampaignPair canonicalId sc@."id") in
    if truthy pair then ret tt
    else attach_source canonicalId (JObj [("supplierCampaignId", sc@."id"); ("isPrimary", JBool true)]) ;; ret tt) (fun _ => ret tt).
Definition ensureFromCouponCmsEntity (entity : jsval) : prog world jsval :=
  if negb (truthy entity@."id") then throw (api_fail "Coupon CMS entity is required." 400)
  else
    let! linkedCoupon := gets (latest_coupon entity@."id") in
    let! sc := gets (supplier_campaign_by_id linkedCoupon@."supplierCampaignId") in
    if truthy linkedCoupon@."supplierCampaignId" && truthy sc@."merchantId" then ensureFromSupplierCampaign linkedCoupon@."supplierCampaignId"
    else
      let allotment := allotment_fields entity JNull in
      let brand := allotment@."brandName" |or| entity@."advertiserName" |or| entity@."campaignName" |or| entity@."entityName" |or| JStr "Unknown brand" in
      let displayName := trim (js_string (entity@."campaignName" |or| entity@."entityName" |or| brand)) in
      let normalizedName := normalizeMerchantName brand in
      if displayName =s? "" then throw (api_fail "Coupon CMS entry is missing a campaign name." 400)
      else if normalizedName =s? "" then throw (api_fail "Coupon CMS brand name is invalid." 400)
      else
        let! merchant := merchant_for brand allotment normalizedName in
        let! canonicalId := campaign_for merchant entity displayName in
        attach_linked linkedCoupon sc merchant canonicalId ;;
        ret canonicalId.
End Service.
End CatalogService.

(** ** At most one primary source *)

Module CatalogFacts.
Import MerchantNames SourceSelection CatalogService.
Section Facts.
Context {H : JsHost} {D : Database} {T : TextHost} {M : CouponCms} {B : PayoutMapper}.

Definition GROUP : list string := ["canonicalCampaignId"].
Definition primary (source : jsval) : bool := truthy source@."isPrimary".
Definition in_catalog (id : jsval) (w : world) : bool := existsb (has_id id) (rows w TCatalogCampaign).
(** At most one primary source per campaign, and every source belongs to a campaign. *)
Record catalog_tidy (w : world) : Prop := CatalogTidy {
  ct_primary : exclusive TCampaignSource GROUP primary w;
  ct_linked : Forall (fun s => in_catalog s@."canonicalCampaignId" w = true) (rows w TCampaignSource)
}.

(** Steps that make no source primary and lose no campaign. *)
Record settled (w w' : world) : Prop := Settled {
  st_sources : yielded TCampaignSource GROUP primary w w';
  st_catalog : forall id, in_catalog id w = true -> in_catalog id w' = true
}.
#[local] Instance settled_preorder : PreOrder settled.
Proof. split; [intros w; split; [reflexivity|auto]|]. intros w1 w2 w3 [Y12 C12] [Y23 C23]. split; [now transitivity w2|auto]. Qed.
Lemma tidy_settled w w' : settled w w' -> catalog_tidy w -> catalog_tidy w'.
Proof.
  intros [Hy Hc] [Hp Hl]. split; [now apply (exclusive_yielded _ _ _ w)|]. eapply Forall_Forall2_to; [exact Hy| |exact Hl].
  intros s s' [_ Hk _] Hs. rewrite Hk by (unfold GROUP; set_solver). auto.
Qed.
Definition stays_tidy (w w' : world) : Prop := catalog_tidy w -> catalog_tidy w'.
#[local] Instance stays_tidy_preorder : PreOrder stays_tidy.
Proof. split; [intros w Hw; exact Hw|]. intros w1 w2 w3 H12 H23 H1. auto. Qed.
Lemma tracks_settled {A} (c : prog world A) : tracks settled c -> tracks stays_tidy c.
Proof. intros Hc w. exact (tidy_settled _ _ (Hc w)). Qed.

Lemma in_catalog_kept columns w w' id : "id" ∉ columns -> evolves TCatalogCampaign columns w w' -> in_catalog id w = true -> in_catalog id w' = true.
Proof.
  intros Hid (kept & fresh & E & Hk). unfold in_catalog. rewrite E, existsb_app. intros Hin. rewrite (proj2 (orb_true_iff _ _)); [reflexivity|left]. clear E.
  induction Hk as [|x x' l l' Hx _ IH]; [discriminate|]. cbn in *. unfold has_id in *. rewrite (Hx "id" Hid). destruct (col_eq _ _); [reflexivity|auto].
Qed.
Lemma elsewhere_settled {A} t (c : prog world A) : t <> TCampaignSource -> tracks (only t) c -> tracks (evolves TCatalogCampaign ["status"; "visibility"; "displayName"; "category"; "countries"; "defaultCurrency"]) c ->
  tracks settled c.
Proof.
  intros Ht Ho Hc w. split; [apply same_rows_yielded, Ho; congruence|]. intros id. eapply in_catalog_kept; [|apply Hc]. compute_done.
Qed.
Lemma update_campaign_settled id data : (forall k, k ∈ map fst data -> k ∈ ["status"; "visibility"; "displayName"; "category"; "countries"; "defaultCurrency"]) -> tracks settled (update_row TCatalogCampaign id data).
Proof. intros Hk. apply (elsewhere_settled TCatalogCampaign); [discriminate|apply update_row_only|now apply update_row_evolves]. Qed.
Lemma create_campaign_settled data : tracks settled (create_row TCatalogCampaign data).
Proof. apply (elsewhere_settled TCatalogCampaign); [discriminate|apply create_row_only|apply create_row_evolves]. Qed.
Lemma create_merchant_settled data : tracks settled (create_row TMerchant data).
Proof. apply (elsewhere_settled TMerchant); [discriminate|apply create_row_only|]. apply (tracks_only_evolves _ TMerchant); [apply create_row_only|discriminate]. Qed.
Lemma update_merchant_settled id data : tracks settled (update_row TMerchant id data).
Proof. apply (elsewhere_settled TMerchant); [discriminate|apply update_row_only|]. apply (tracks_only_evolves _ TMerchant); [apply update_row_only|discriminate]. Qed.
Lemma source_step_settled (c : world -> world) : (forall w, only TCampaignSource w (c w)) -> (forall w, yielded TCampaignSource GROUP primary w (c w)) -> forall w, settled w (c w).
Proof. intros Ho Hy w. split; [apply Hy|]. intros id. unfold in_catalog. now rewrite (Ho w TCatalogCampaign) by discriminate. Qed.
Lemma update_source_settled id data : "id" ∉ map fst data -> "canonicalCampaignId" ∉ map fst data -> "isPrimary" ∉ map fst data -> tracks settled (update_row TCampaignSource id data).
Proof.
  intros Hid Hc Hp w0. apply (source_step_settled (fun w => (update_row TCampaignSource id data w).2)); intros w; [apply update_row_only|].
  apply update_yielded; [exact Hid|unfold GROUP; set_solver|]. intros r. unfold primary. now rewrite (spread_rewrites TCampaignSource r data "isPrimary" Hp).
Qed.
Lemma demoted_yields s : yields GROUP primary s (demoted s).
Proof.
  unfold demoted. pose proof (spread_rewrites TCampaignSource s [("isPrimary", JBool false); ("status", JStr "ACTIVE")]) as Hr.
  split; [apply Hr; compute_done|intros k Hk; apply Hr; revert k Hk; apply Forall_forall; unfold GROUP; compute_done|]. unfold primary. rewrite prop_spread by nodup_keys. discriminate.
Qed.
Lemma clear_settled c ex : tracks settled (clearPrimaryForCampaign c ex).
Proof.
  intros w0. apply (source_step_settled (fun w => (clearPrimaryForCampaign c ex w).2)); intros w; [intros u Hu; now apply rows_set_other|]. unfold yielded. cbn [clearPrimaryForCampaign modify snd]. rewrite rows_set_same.
  apply Forall2_fmap_r, Forall_Forall2_diag, Forall_forall. intros x _. unfold compose. destruct (_ && _); [apply demoted_yields|reflexivity].
Qed.
Lemma same_text_col v u : same_text v u = true -> col_eq v u = true.
Proof. now destruct v, u. Qed.
Lemma clear_primary_spec c ex w : Forall (fun s => same_text s@."canonicalCampaignId" c = true -> (negb (truthy ex) || negb (has_id ex s)) = true -> primary s = false)
  (rows (clearPrimaryForCampaign c ex w).2 TCampaignSource).
Proof.
  cbn [clearPrimaryForCampaign modify snd]. rewrite rows_set_same. apply Forall_map, Forall_forall. intros x _. unfold compose.
  destruct (col_eq x@."canonicalCampaignId" c && (negb (truthy ex) || negb (has_id ex x))) eqn:E.
  - intros _ _. unfold primary, demoted. now rewrite prop_spread by nodup_keys.
  - intros Ec%same_text_col Hx. rewrite Ec, Hx in E. discriminate.
Qed.
Lemma deactivate_settled id : tracks settled (deactivate id).
Proof.
  intros w0. apply (source_step_settled (fun w => (deactivate id w).2)); intros w; [apply update_row_only|]. apply update_yielded; [compute_done|unfold GROUP; intros k ->%list_elem_of_singleton; compute_done|].
  intros r. unfold primary. rewrite prop_spread by (apply encode_nodup; nodup_keys). discriminate.
Qed.

(** *** Writes that make a source primary *)

Lemma snapshot_keys sc priority p coupon : NoDup ("canonicalCampaignId" :: "supplierCampaignId" :: map fst (buildSourceSnapshot sc priority p coupon)).
Proof. compute_done. Qed.
Lemma created_source c s sc priority p coupon w r w' :
  create_source c s (buildSourceSnapshot sc priority p coupon) w = (Ok r, w') ->
  create_row TCampaignSource (("canonicalCampaignId", c) :: ("supplierCampaignId", s) :: buildSourceSnapshot sc priority p coupon) w = (Ok r, w') /\
  r@."canonicalCampaignId" = c /\ primary r = p.
Proof.
  unfold create_source. destruct (existsb _ _); [discriminate|]. intros E. split; [exact E|]. apply create_row_ok in E as (-> & _).
  split; [apply created_value; [apply snapshot_keys|reflexivity|compute_done]|]. unfold primary. rewrite (created_value _ _ _ _ "isPrimary" (JBool p)); [reflexivity|apply snapshot_keys|reflexivity|compute_done].
Qed.
Lemma create_source_tidy c s sc priority p coupon w o w' :
  create_source c s (buildSourceSnapshot sc priority p coupon) w = (o, w') -> in_catalog c w = true ->
  (p = true -> Forall (fun x => same_text x@."canonicalCampaignId" c = true -> primary x = false) (rows w TCampaignSource)) -> catalog_tidy w -> catalog_tidy w'.
Proof.
  intros E Hc Hfree [Hx Hl]. destruct o as [r|e]; [|revert E; unfold create_source; destruct (existsb _ _); [intros [= _ <-]; now split|intros E%create_row_fails; subst; now split]].
  apply created_source in E as (E & Er & Ep). split.
  - apply (exclusive_create _ _ _ _ _ _ _ E); [|exact Hx]. rewrite Ep. intros Hp. specialize (Hfree Hp). eapply Forall_impl; [exact Hfree|]. intros x Hxc. unfold same_group, GROUP. cbn [forallb].
    rewrite Er, andb_true_r. destruct (same_text _ c) eqn:Es; [now rewrite (Hxc Es)|apply andb_false_r].
  - match type of E with create_row _ ?d _ = _ => pose proof (create_row_only TCampaignSource d w TCatalogCampaign ltac:(discriminate)) as Ho end. rewrite E in Ho. cbn [snd] in Ho.
    apply create_row_ok in E as (_ & Hrows & _). rewrite Hrows. unfold in_catalog in *. rewrite Ho. apply List.Forall_app. split; [exact Hl|]. repeat constructor. now rewrite Er.
Qed.
(** A source takes the role after it was taken from the others. *)
Lemma take_primary_tidy s i c data w o w' :
  catalog_tidy w -> s ∈ rows w TCampaignSource -> s@."id" = JStr i -> (forall v, same_text v s@."canonicalCampaignId" = true -> same_text v c = true) ->
  "id" ∉ map fst data -> "canonicalCampaignId" ∉ map fst data ->
  bind (clearPrimaryForCampaign c (JStr i)) (fun _ => update_row TCampaignSource (JStr i) data) w = (o, w') -> catalog_tidy w'.
Proof.
  intros Ht Hin Hi Hc Hid Hcol E. unfold bind in E. pose proof (clear_settled c (JStr i) w) as Hs. pose proof (clear_primary_spec c (JStr i) w) as Hfree.
  destruct (clearPrimaryForCampaign c (JStr i) w) as [[[]|e] w1] eqn:Ec; [|discriminate Ec]. cbn [snd] in Hs, Hfree. pose proof (tidy_settled _ _ Hs Ht) as [Hx1 Hl1].
  destruct (yielded_elem _ _ _ _ _ _ (st_sources _ _ Hs) Hin) as (s1 & Hin1 & [E1 K1 _]). specialize (K1 "canonicalCampaignId" ltac:(unfold GROUP; set_solver)).
  split.
  - apply (exclusive_take _ _ _ i data w1 o w' Hx1 Hid); [unfold GROUP; set_solver| |exact E]. intros x y Hxr Hyr Ex Ey. unfold has_id in Ex. apply col_eq_str in Ex.
    assert (x = s1) as -> by (apply (same_id TCampaignSource w1 i); [apply Hx1|exact Hxr|exact Hin1|exact Ex|congruence]). unfold same_group, GROUP. cbn [forallb]. rewrite K1, andb_true_r.
    destruct (same_text _ _) eqn:Eyc; [|apply andb_false_r]. rewrite Forall_forall in Hfree. rewrite (Hfree y Hyr (Hc _ Eyc)); [reflexivity|]. rewrite Ey. apply orb_true_r.
  - pose proof (update_row_only TCampaignSource (JStr i) data w1 TCatalogCampaign ltac:(discriminate)) as Ho. rewrite E in Ho. cbn [snd] in Ho. unfold in_catalog in *. rewrite Ho.
    destruct o as [r|e]; [apply update_row_ok in E; rewrite E; apply Forall_map|now apply update_row_fails in E as ->]. eapply Forall_impl; [exact Hl1|].
    intros x Hex. unfold compose. destruct (has_id (JStr i) x); [rewrite (spread_rewrites TCampaignSource x data) by exact Hcol|]; exact Hex.
Qed.

(** *** The operations *)

#[local] Hint Resolve update_merchant_settled create_merchant_settled create_campaign_settled deactivate_settled clear_settled : tracks.
Lemma find_source_settled id : tracks settled (find_source id).
Proof. unfold find_source, findUnique, find_where. track. Qed.
Lemma find_source_ok id w s w' : find_source id w = (Ok s, w') -> w' = w /\ s ∈ rows w TCampaignSource /\ has_id id s = true.
Proof.
  unfold find_source, findUnique, find_where. rewrite bind_gets. destruct (List.find _ _) as [x|] eqn:E; [|discriminate]. intros [= <- <-].
  apply List.find_some in E as [Hx Hid]. split; [reflexivity|]. split; [now apply list_elem_of_In|exact Hid].
Qed.
#[local] Hint Resolve find_source_settled : tracks.
Lemma given_without input ks k : k ∉ ks -> k ∉ map fst (given_columns input ks).
Proof. intros Hk Hin. now apply Hk, (elem_of_sublist _ _ _ Hin), CommercialFacts.columns_keys. Qed.
Lemma entry_create_tidy input : tracks stays_tidy (create input).
Proof. apply tracks_settled. unfold create. track. Qed.
Lemma entry_update_tidy id input : tracks stays_tidy (update id input).
Proof.
  apply tracks_settled. unfold update. track. apply update_campaign_settled. intros k. rewrite map_app, elem_of_app. intros [Hk|Hk].
  - pose proof (elem_of_sublist _ _ _ Hk (CommercialFacts.given_keys _ _ _)). set_solver.
  - pose proof (elem_of_sublist _ _ _ Hk (CommercialFacts.columns_keys _ _)). set_solver.
Qed.
Lemma update_source_tidy id input : tracks stays_tidy (updateSource id input).
Proof.
  apply tracks_settled. unfold updateSource, disableSource. track; apply update_source_settled; apply given_without; compute_done.
Qed.
Lemma campaign_in_catalog id w : truthy (campaign_by_id id w) = true -> in_catalog id w = true.
Proof.
  intros Ht. apply AttributionFacts.row_found in Ht as [Hin [Hid _]%andb_true_iff]. unfold in_catalog. apply existsb_exists. eexists. apply list_elem_of_In in Hin. split; [exact Hin|exact Hid].
Qed.
Lemma attach_tidy c input w o w' : attach_source c input w = (o, w') -> catalog_tidy w -> catalog_tidy w'.
Proof.
  intros E Ht. unfold attach_source in E. rewrite bind_gets in E. destruct (truthy (campaign_by_id c w)) eqn:Ec; [|now injection E as _ <-]. cbn [negb] in E. apply campaign_in_catalog in Ec.
  rewrite bind_gets in E. destruct (negb _); [now injection E as _ <-|]. destruct (truthy _); [now injection E as _ <-|]. destruct (_ && _); [now injection E as _ <-|].
  rewrite bind_gets in E. destruct (truthy _); [now injection E as _ <-|]. rewrite bind_gets in E. destruct (existsb _ _); [now injection E as _ <-|]. rewrite bind_gets in E.
  set (p := is_true input@."isPrimary" || _) in E. clearbody p. apply bind_split in E as (u & w1 & E1 & E).
  assert (Hs : settled w w1 /\ (p = true -> Forall (fun x => same_text x@."canonicalCampaignId" c = true -> primary x = false) (rows w1 TCampaignSource)) /\ u = Ok tt).
  { destruct p.
    - pose proof (clear_settled c JNull w) as Hs. pose proof (clear_primary_spec c JNull w) as Hf. rewrite E1 in Hs, Hf. cbn [snd] in Hs, Hf. injection E1 as <- _. split; [exact Hs|]. split; [|reflexivity].
      intros _. eapply Forall_impl; [exact Hf|]. cbn. auto.
    - injection E1 as <- <-. split; [reflexivity|]. split; [discriminate|reflexivity]. }
  destruct Hs as (Hs & Hfree & ->). rewrite bind_gets in E. apply create_source_tidy in E; [exact E|now apply (st_catalog _ _ Hs)|exact Hfree|now apply (tidy_settled w)].
Qed.
Lemma source_id id s w : catalog_tidy w -> s ∈ rows w TCampaignSource -> has_id id s = true -> exists i, id = JStr i /\ s@."id" = JStr i.
Proof.
  intros Ht Hin Hid. pose proof (ex_ids _ _ _ _ (ct_primary _ Ht)) as Hi. rewrite Forall_forall in Hi. destruct (Hi s Hin) as [i Ei]. exists i. split; [exact (CommercialFacts.rule_id i s id Hid Ei)|exact Ei].
Qed.
Lemma source_promote_tidy id : tracks stays_tidy (promotePrimarySource id).
Proof.
  refine (tracks_transaction _ _ _). intros w Ht. destruct (bind _ _ w) as [o w'] eqn:E. cbn. apply bind_split in E as ([s|e] & w0 & Ef & E).
  2: { injection E as _ <-. pose proof (find_source_settled id w) as Hs. rewrite Ef in Hs. now apply (tidy_settled w). }
  apply find_source_ok in Ef as (-> & Hin & Hid). destruct (source_id id s w Ht Hin Hid) as (i & -> & Ei). destruct (_ || _); [now injection E as _ <-|]. destruct (negb _); [now injection E as _ <-|].
  apply (take_primary_tidy s i) in E; [exact E|exact Ht|exact Hin|exact Ei|auto|compute_done|compute_done].
Qed.
Lemma found_by_campaign c s w : s ∈ findByCanonicalCampaignId c w ->
  exists x, x ∈ rows w TCampaignSource /\ col_eq x@."canonicalCampaignId" c = true /\ forall k, k <> "supplierCampaign" -> prop s k = prop x k.
Proof.
  unfold findByCanonicalCampaignId. intros (x & -> & Hx)%list_elem_of_fmap. apply elem_of_sort_by, elem_of_filter_bool in Hx as [Hx Hc]. exists x. split; [exact Hx|]. split; [exact Hc|].
  intros k Hk. rewrite prop_relation. now rewrite (proj2 (String.eqb_neq "supplierCampaign" k)) by congruence.
Qed.
Lemma resolve_tidy c : tracks stays_tidy (resolveSourceConflicts c).
Proof.
  intros w Ht. unfold resolveSourceConflicts. rewrite bind_gets. destruct (detectConflicts _) as [|k l]; [exact Ht|]. unfold transaction.
  destruct (bind _ _ w) as [[o|e] w'] eqn:E; [cbn|exact Ht]. apply bind_split in E as (u & w1 & E1 & E). assert (w' = w1) as -> by (destruct u; now injection E). clear E.
  destruct (sort_by older_le _) as [|winner [|second rest]] eqn:Es; [now injection E1 as _ <-..|].
  assert (Hw : winner ∈ sort_by older_le (active_primaries (findByCanonicalCampaignId c w))) by (rewrite Es; left). apply elem_of_sort_by, elem_of_filter_bool in Hw as [Hw _].
  apply found_by_campaign in Hw as (s & Hin & Hc & Hk). rewrite (Hk "id") in E1 by discriminate. pose proof (ex_ids _ _ _ _ (ct_primary _ Ht)) as Hi. rewrite Forall_forall in Hi. destruct (Hi s Hin) as [i Ei].
  rewrite Ei in E1. unfold bind in E1. destruct (clearPrimaryForCampaign c (JStr i) w) as [[[]|e] w2] eqn:Ec; [|discriminate Ec].
  destruct (update_row _ _ _ w2) as [o2 w3] eqn:Eu. assert (w1 = w3) as -> by (destruct o2; now injection E1).
  eapply (take_primary_tidy s i c _ w o2 w3 Ht Hin Ei); [| | |unfold bind; rewrite Ec; exact Eu]; [|compute_done..].
  intros v. destruct v; try discriminate. cbn. destruct (prop s "canonicalCampaignId"); try discriminate. intros ->%String.eqb_eq. destruct c; try discriminate. exact Hc.
Qed.
Lemma refresh_settled existing sc : tracks settled (refresh_source existing sc).
Proof. unfold refresh_source. track. apply update_source_settled; compute_done. Qed.
Lemma reopen_settled catalog : tracks settled (reopen_campaign catalog).
Proof. unfold reopen_campaign. track. apply update_campaign_settled. apply Forall_forall. compute_done. Qed.
Lemma ensure_supplier_tidy sc : tracks stays_tidy (ensureFromSupplierCampaign sc).
Proof.
  intros w Ht. destruct (ensureFromSupplierCampaign sc w) as [o w'] eqn:E. cbn. unfold ensureFromSupplierCampaign in E. rewrite bind_gets in E. destruct (linked_campaign _) as [existing|].
  - rewrite bind_gets in E. destruct (_ || _); [now injection E as _ <-|].
    assert (Hs : tracks settled (reopen_campaign (campaign_by_id existing@."canonicalCampaignId" w) ;; refresh_source existing sc ;; ret existing@."canonicalCampaignId")) by (track; first [apply reopen_settled|apply refresh_settled]).
    specialize (Hs w). rewrite E in Hs. now apply (tidy_settled w).
  - rewrite bind_gets in E. destruct (negb _); [now injection E as _ <-|]. destruct (truthy _); [now injection E as _ <-|]. destruct (negb _); [now injection E as _ <-|].
    apply bind_split in E as ([catalog|e] & w1 & Ec & E); [|apply create_row_fails in Ec as ->; now injection E as _ <-].
    match type of Ec with create_row _ ?d _ = _ => pose proof (create_campaign_settled d w) as Hs end. rewrite Ec in Hs. cbn [snd] in Hs. pose proof (tidy_settled _ _ Hs Ht) as Ht1.
    rewrite bind_gets in E. apply bind_split in E as (r & w2 & Er & E). assert (w' = w2) as -> by (destruct r; now injection E). clear E.
    match type of Ec with create_row _ ?d _ = _ => pose proof (create_row_only TCatalogCampaign d w TCampaignSource ltac:(discriminate)) as Ho end. rewrite Ec in Ho. cbn [snd] in Ho.
    apply create_row_ok in Ec as (Hr & Hrows & Hnew). apply create_source_tidy in Er; [exact Er| |intros _|exact Ht1].
    + unfold in_catalog. rewrite Hrows, existsb_app. cbn. rewrite Hr. unfold has_id. cbn. rewrite String.eqb_refl. apply orb_true_r.
    + rewrite Ho. eapply Forall_impl; [exact (ct_linked _ Ht)|]. intros x (y & Hy%list_elem_of_In & Hid)%existsb_exists Hsame. exfalso. specialize (Hnew "id" y ltac:(compute_done) Hy).
      unfold has_id in Hid. destruct (prop x "canonicalCampaignId"); try discriminate. destruct (prop catalog "id"); try discriminate. apply String.eqb_eq in Hsame. congruence.
Qed.
Lemma merchant_settled brand allotment name : tracks settled (merchant_for brand allotment name).
Proof. unfold merchant_for. track. Qed.
Lemma campaign_settled merchant entity name : tracks settled (campaign_for merchant entity name).
Proof. unfold campaign_for. track. apply update_campaign_settled. apply Forall_forall. compute_done. Qed.
Lemma attach_stays c input : tracks stays_tidy (attach_source c input).
Proof. intros w Ht. destruct (attach_source c input w) eqn:E. now apply attach_tidy in E. Qed.
#[local] Hint Resolve ensure_supplier_tidy attach_stays : tracks.
Lemma ensure_coupon_tidy entity : tracks stays_tidy (ensureFromCouponCmsEntity entity).
Proof.
  unfold ensureFromCouponCmsEntity, attach_linked. track; apply tracks_settled; first [apply merchant_settled|apply campaign_settled].
Qed.

(** The calls of the service; the two last run in a transaction of their own or in that of the caller. *)
Inductive catalog_call :=
| Create (input : jsval) | Update (id input : jsval) | Attach (campaign input : jsval) | Detach (source : jsval) | Promote (source : jsval)
| UpdateSource (source input : jsval) | ResolveConflicts (campaign : jsval) | FromSupplier (supplierCampaign : jsval) | FromCoupon (entity : jsval).
Definition run_catalog (call : catalog_call) (w : world) : world :=
  match call with
  | Create input => (create input w).2
  | Update id input => (update id input w).2
  | Attach campaign input => (attachSource campaign input w).2
  | Detach source => (detachSource source w).2
  | Promote source => (promotePrimarySource source w).2
  | UpdateSource source input => (updateSource source input w).2
  | ResolveConflicts campaign => (resolveSourceConflicts campaign w).2
  | FromSupplier supplierCampaign => (transaction (ensureFromSupplierCampaign supplierCampaign) w).2
  | FromCoupon entity => (transaction (ensureFromCouponCmsEntity entity) w).2
  end.
Lemma run_catalog_tidy call w : catalog_tidy w -> catalog_tidy (run_catalog call w).
Proof.
  destruct call; cbn [run_catalog].
  - apply entry_create_tidy.
  - apply entry_update_tidy.
  - apply (tracks_transaction stays_tidy _ (attach_stays campaign input)).
  - apply (tracks_settled (detachSource source)). unfold detachSource. track.
  - apply source_promote_tidy.
  - apply update_source_tidy.
  - apply resolve_tidy.
  - apply (tracks_transaction stays_tidy _ (ensure_supplier_tidy supplierCampaign)).
  - apply (tracks_transaction stays_tidy _ (ensure_coupon_tidy entity)).
Qed.

Lemma ordpairs_filter {A} (R : A -> A -> Prop) p (l : list A) : ForallOrdPairs R l -> ForallOrdPairs R (List.filter p l).
Proof.
  induction 1 as [|x l Hx _ IH]; cbn; [constructor|]. destruct (p x); [|exact IH]. constructor; [|exact IH]. rewrite List.Forall_forall in *. intros y [Hy _]%filter_In. auto.
Qed.
Lemma ordpairs_perm {A} (R : A -> A -> Prop) (l l' : list A) : (forall a b, R a b -> R b a) -> Permutation l l' -> ForallOrdPairs R l -> ForallOrdPairs R l'.
Proof.
  intros Hs. induction 1 as [|x l l' Hp IH|x y l|l1 l2 l3 _ IH1 _ IH2]; intros Hl; auto.
  - inversion Hl as [|? ? Hx Hr]; subst. constructor; [|auto]. rewrite List.Forall_forall in *. intros z Hz. apply Hx. apply list_elem_of_In in Hz. apply list_elem_of_In. now rewrite Hp.
  - inversion Hl as [|? ? Hy Hr]; subst. inversion Hr as [|? ? Hx Hr']; subst. apply List.Forall_cons_iff in Hy as [Hyx Hy]. repeat constructor; auto.
Qed.
(** The sources of a campaign have at most one primary among them. *)
Lemma no_primary_conflict c w k : catalog_tidy w -> k ∈ (getRouting (JStr c) w).2 -> k_code k <> "MULTIPLE_PRIMARY".
Proof.
  intros Ht Hk. unfold getRouting, detectConflicts in Hk. cbn [snd] in Hk. apply elem_of_app in Hk as [Hk|Hk].
  2: { destruct (List.filter _ _) in Hk; [now apply elem_of_nil in Hk|]. apply list_elem_of_singleton in Hk as ->. discriminate. }
  exfalso. set (sources := findByCanonicalCampaignId (JStr c) w) in *.
  assert (Hapart : ForallOrdPairs (fun a b => rivals GROUP primary a b = false) (active_primaries sources)).
  { apply ordpairs_filter. unfold sources, findByCanonicalCampaignId. apply ForallOrdPairs_map.
    - intros x y Hxy. unfold rivals, primary, same_group, GROUP in *. cbn [forallb] in *. rewrite !prop_relation. exact Hxy.
    - eapply ordpairs_perm; [|symmetry; apply sort_by_perm|apply ordpairs_filter, (ex_apart _ _ _ _ (ct_primary _ Ht))]. intros a b. now rewrite rivals_symmetric. }
  destruct (active_primaries sources) as [|a [|b l]] eqn:Ep; [now apply elem_of_nil in Hk..|]. inversion Hapart as [|? ? Hab _]; subst. apply List.Forall_cons_iff in Hab as [Hab _].
  assert (Hp : forall x, x ∈ active_primaries sources -> primary x = true /\ x@."canonicalCampaignId" = JStr c).
  { intros x [Hx [Hp _]%andb_true_iff]%elem_of_filter_bool. split; [exact Hp|]. apply found_by_campaign in Hx as (y & _ & Hc & Hsame). rewrite Hsame by discriminate. now apply col_eq_str. }
  rewrite Ep in Hp. destruct (Hp a ltac:(left)) as [Pa Ca], (Hp b ltac:(right; left)) as [Pb Cb].
  unfold rivals, same_group, GROUP in Hab. cbn [forallb] in Hab. rewrite Pa, Pb, Ca, Cb in Hab. cbn in Hab. now rewrite String.eqb_refl in Hab.
Qed.

(** C21: In a catalog whose sources have distinct ids and belong to campaigns, none of which has two primary sources,
    whatever campaigns and sources are created, attached, promoted, updated, resolved or derived from supplier
    campaigns and coupons after that, in whatever order and whether or not the calls fail: no campaign has two
    primary sources, so its routing never reports that conflict. *)
Theorem one_primary_source calls w : catalog_tidy w -> let w' := fold_left (fun w call => run_catalog call w) calls w in
  (forall a b, a ∈ rows w' TCampaignSource -> b ∈ rows w' TCampaignSource -> primary a = true -> primary b = true ->
     same_text a@."canonicalCampaignId" b@."canonicalCampaignId" = true -> a = b) /\
  forall c k, k ∈ (getRouting (JStr c) w').2 -> k_code k <> "MULTIPLE_PRIMARY".
Proof.
  intros Ht w'. assert (Ht' : catalog_tidy w') by (unfold w'; clear w'; revert w Ht; induction calls as [|call calls IH]; intros w Ht; [exact Ht|]; cbn; now apply IH, run_catalog_tidy).
  split; [|intros c k; now apply no_primary_conflict]. intros a b Ha Hb Pa Pb Hc. apply (exclusive_same _ _ _ w' a b (ct_primary _ Ht')); try assumption. unfold same_group, GROUP. cbn. now rewrite Hc.
Qed.
End Facts.
End CatalogFacts.
