(* ===== verification/Assignments.v ===== *)
(** * The campaigns of a client

    [modules/client/services/clientAssignment.service.js]: assigning campaigns of the catalog to clients,
    publishing, pausing, archiving and updating the assignments, with the coupons that are reserved and the
    commission rule that is drafted on the way; [repositories/clientCampaignAssignment.repository.js]: the
    assignments that a client is shown; [coupons/couponMerge.js]: the fields of a coupon of the CMS. *)

From Stdlib Require Import SpecFloat.
From S2P Require Import Prelude JsNum JsVal JsDate Store Accounts Money Runtime Attribution Commercial Tracking TrackingLinks Exclusive Eligibility Catalog.
Import CommissionMath Attribution CommercialRules TrackingUrl SupplierDestination Visibility Eligibility CommercialModels CatalogService.
Local Open Scope Z_scope.

(** ** couponMerge.js *)

Module CouponFields.
Section Fields.
Context {H : JsHost}.

Definition underscore_or_dash (c : ascii) : bool := (c =? "_")%char || (c =? "-")%char.
Definition any_word (words : list string) (s : string) : bool := existsb (fun word => has_word false word s) words.
Definition normalizeStoredCodeType (value : jsval) : option string :=
  let normalized := map_string (fun c => if (c =? "_")%char then " "%char else c) (squeeze underscore_or_dash false (to_lower (trim (js_string (value ?? JStr ""))))) in
  if normalized =s? "" then None
  else if (normalized =s? "both") || includes normalized "both" || (normalized =s? "code and link") then Some "both"
  else if any_word ["link"] normalized && negb (any_word ["code"] normalized) && negb (any_word ["coupon"] normalized) then Some "link"
  else if any_word ["code"; "coupon"; "voucher"] normalized && negb (any_word ["link"] normalized) then Some "code"
  else if any_word ["link"] normalized && any_word ["code"; "coupon"] normalized then Some "both"
  else if normalized =s? "link" then Some "link"
  else if (normalized =s? "code") || (normalized =s? "coupon") then Some "code"
  else Some normalized.
Definition normalizeCampaignStatus (value : jsval) : string :=
  let normalized := to_lower (trim (js_string (value ?? JStr ""))) in if (normalized =s? "paused") || (normalized =s? "pause") then "Paused" else "Active".
Definition stored_code_type (normalizedData : jsval) : option string :=
  let rawCode := normalizedData@."code" ?? JNull in
  let rawLink := normalizedData@."link" ?? JNull in
  let display := normalizedData@."display_value" ?? JNull in
  match normalizeStoredCodeType normalizedData@."code_type" with
  | Some t => Some t
  | None =>
      if truthy rawCode && truthy rawLink && negb (js_string rawCode =s? js_string rawLink) then Some "both"
      else if truthy rawLink && negb (truthy rawCode) then Some "link"
      else if truthy (rawCode |or| display) then Some "code" else None
  end.
Definition extractCouponFieldsFromNormalized (normalizedData : jsval) : jsval :=
  let rawCode := normalizedData@."code" ?? JNull in
  let rawLink := normalizedData@."link" ?? JNull in
  let display := normalizedData@."display_value" ?? JNull in
  let codeType := of_option_str (stored_code_type normalizedData) in
  let couponCode := if codeType === "link" then JNull else if codeType === "both" then rawCode |or| JNull else rawCode |or| display |or| JNull in
  let couponLink := if codeType === "link" then rawLink |or| display |or| JNull else if codeType === "both" then rawLink |or| JNull else JNull in
  let custom := List.filter (fun kv => negb (kv.1 =s? "campaignStatus")) (obj_fields (as_object normalizedData@."custom")) in
  spread (JObj
    [("brandName", normalizedData@."brand_name" ?? normalizedData@."advertiser" ?? JNull); ("campaignName", normalizedData@."campaign_name" ?? JNull);
     ("categoryName", normalizedData@."category_name" ?? JNull); ("couponCode", couponCode); ("couponLink", couponLink); ("codeType", codeType);
     ("discountPercentage", normalizedData@."discount_percentage" ?? normalizedData@."discount" ?? JNull); ("startDate", normalizedData@."start_date" ?? JNull);
     ("expiryDate", normalizedData@."expiry" ?? JNull); ("couponStatus", normalizedData@."status" ?? JNull);
     ("campaignStatus", JStr (normalizeCampaignStatus (normalizedData@."campaign_status" ?? normalizedData@."custom"@."campaignStatus" ?? JStr "Active")));
     ("networkSource", normalizedData@."network_source" ?? JNull)]) (JObj custom).
End Fields.
End CouponFields.

(** ** clientCampaignAssignment.repository.js *)

Module AssignmentRepository.
Section Repository.
Context {H : JsHost} {D : Database}.

Definition ACTIVE_ASSIGNMENT_STATUSES : list string := ["ASSIGNED"; "ACTIVE"; "PAUSED"].
(** The campaign and the client of an assignment *)
Definition campaign_of (a : jsval) (w : world) : jsval := row_or_null (List.find (has_id a@."canonicalCampaignId") (rows w TCatalogCampaign)).
Definition client_of (a : jsval) (w : world) : jsval := row_or_null (List.find (has_id a@."clientId") (rows w TClient)).
Definition findActiveByPair (clientId canonicalCampaignId : jsval) (w : world) : jsval :=
  row_or_null (List.find (fun a => col_eq a@."clientId" clientId && col_eq a@."canonicalCampaignId" canonicalCampaignId
                                   && in_enum ACTIVE_ASSIGNMENT_STATUSES a@."status") (rows w TAssignment)).

(** [{ contains: term, mode: "insensitive" }] *)
Definition contains_text (term : string) (v : jsval) : bool := match v with JStr s => includes (to_lower s) (to_lower term) | _ => false end.
Definition campaign_open (campaign : jsval) : bool :=
  nullish campaign@."deletedAt" && (campaign@."status" === "PUBLISHED") && negb (campaign@."visibility" === "HIDDEN").
Definition merchant_of (campaign : jsval) (w : world) : jsval := row_or_null (List.find (has_id campaign@."merchantId") (rows w TMerchant)).
Definition campaign_matches (filters campaign : jsval) (w : world) : bool :=
  (negb (truthy filters@."category") || same_code filters@."category" campaign@."category")
  && (negb (truthy filters@."country") || existsb (fun c => c === to_upper (js_string filters@."country")) (as_array campaign@."countries"))
  && (negb (truthy filters@."brand") || contains_text (trim (js_string filters@."brand")) (merchant_of campaign w)@."displayName").
Definition search_matches (search : jsval) (a campaign : jsval) (w : world) : bool :=
  let term := trim (js_string search) in
  negb (truthy search) || (term =s? "")
  || contains_text term campaign@."displayName" || contains_text term campaign@."category" || contains_text term (merchant_of campaign w)@."displayName"
  || existsb (fun c => col_eq c@."assignmentId" a@."id" && contains_text term c@."clientCouponCode" && in_enum ["ASSIGNED"; "ACTIVE"] c@."status") (rows w TCouponAssignment).
Definition buildPartnerWhere (filters : jsval) : outcome (world -> jsval -> bool) :=
  if negb (truthy filters@."clientId") then Throw (plain_error "Partner assignment queries require clientId.")
  else Ok (fun w a =>
    let campaign := campaign_of a w in
    col_eq a@."clientId" filters@."clientId" && truthy campaign && campaign_open campaign && campaign_matches filters campaign w
    && (a@."status" === "ACTIVE") && is_true a@."published" && search_matches filters@."search" a campaign w).
(** [orderBy: [{ createdAt: "desc" }, { id: "desc" }]] *)
Definition newest_first (a b : jsval) : bool := created_before b a.
Definition findManyForPartner (filters : jsval) (skip take : nat) (w : world) : outcome (list jsval * nat) :=
  let? where_ := buildPartnerWhere filters in
  let found := List.filter (where_ w) (rows w TAssignment) in
  Ok (firstn take (skipn skip (sort_by newest_first found)), length found).
Definition partner_base (clientId : jsval) (w : world) (a : jsval) : bool :=
  col_eq a@."clientId" clientId && in_enum ACTIVE_ASSIGNMENT_STATUSES a@."status" && truthy (campaign_of a w) && campaign_open (campaign_of a w).
Definition findPartnerCampaignForClient (clientId id : jsval) (w : world) : jsval :=
  let byAssignment := row_or_null (List.find (fun a => partner_base clientId w a && has_id id a) (rows w TAssignment)) in
  if truthy byAssignment then byAssignment
  else row_or_null (hd_error (sort_by (fun a b => date_of b@."createdAt" <=? date_of a@."createdAt")
         (List.filter (fun a => partner_base clientId w a && col_eq a@."canonicalCampaignId" id) (rows w TAssignment)))).
End Repository.
End AssignmentRepository.

(** ** clientAssignment.service.js *)

Module Assignments.
Import CouponFields AssignmentRepository.
Section Service.
Context {H : JsHost} {D : Database} {U : UrlHost} {T : TextHost} {M : CouponCms} {B : PayoutMapper}.

Definition resolveCouponType (codeType couponCode couponLink : jsval) : string :=
  let codeType := to_lower (trim (js_string (codeType ?? JStr ""))) in
  if codeType =s? "link" then "LINK"
  else if (codeType =s? "code") || (codeType =s? "both") then "CODE"
  else if truthy couponLink && negb (truthy couponCode) then "LINK"
  else if truthy couponCode then "CODE"
  else "UNKNOWN".
Definition couponStatusForAssignment (published : bool) : string := if published then "ASSIGNED" else "RESERVED".

Definition validateCatalogForAssignment (catalogCampaign client : jsval) (sources : list jsval) (hasCouponAssignment : bool) (preferredSource : jsval) : outcome eligibility :=
  let result := evaluate (Request Assign catalogCampaign client sources hasCouponAssignment false false preferredSource) in
  if negb (isCatalogAssignable catalogCampaign) then
    if (catalogCampaign@."status" === "ARCHIVED") || truthy catalogCampaign@."deletedAt" then Throw (api_fail "Cannot assign an archived catalog campaign." 409)
    else if catalogCampaign@."visibility" === "HIDDEN" then Throw (api_fail "Cannot assign a hidden catalog campaign." 409)
    else Throw (api_fail "Catalog campaign is not assignable." 409)
  else if negb (g_ok result) then Throw (api_fail ("Cannot assign campaign. Reason: " +:+ reason_text result) 409)
  else Ok result.

(** *** Reads *)

Definition coupon_columns : list string := ["couponCode"; "couponLink"; "couponStatus"; "discountValue"; "couponEndDate"].
Definition with_coupons (supplierCampaign : jsval) (w : world) : jsval :=
  if negb (truthy supplierCampaign) then JNull
  else with_relation supplierCampaign "coupons"
         (JArr (map (fun c => JObj (map (fun k => (k, prop c k)) coupon_columns)) (usable_coupons supplierCampaign@."id" w))).
(** [orderBy: [{ isPrimary: "desc" }, { priority: "asc" }]] *)
Definition preferred_le (a b : jsval) : bool :=
  let pa := is_true a@."isPrimary" in let pb := is_true b@."isPrimary" in
  if negb (Bool.eqb pa pb) then pa else nleb (js_number a@."priority") (js_number b@."priority").
Definition loadCatalogSources (canonicalCampaignId : jsval) (w : world) : list jsval :=
  map (fun s => with_relation s "supplierCampaign" (with_coupons (supplier_campaign_by_id s@."supplierCampaignId" w) w))
    (sort_by preferred_le (List.filter (fun s => col_eq s@."canonicalCampaignId" canonicalCampaignId && is_true s@."isActive") (rows w TCampaignSource))).
Definition loadCampaignSource (campaignSourceId : jsval) (w : world) : jsval :=
  match List.find (has_id campaignSourceId) (rows w TCampaignSource) with
  | None => JNull
  | Some s => with_relation (with_relation s "supplierCampaign" (supplier_campaign_by_id s@."supplierCampaignId" w))
                "canonicalCampaign" (row_or_null (List.find (has_id s@."canonicalCampaignId") (rows w TCatalogCampaign)))
  end.
Definition loadCouponCms (couponEntityId : jsval) : prog world jsval :=
  let! entity := gets (coupon_entity couponEntityId) in
  if negb (truthy entity) then throw (api_fail "Coupon CMS coupon not found." 404)
  else
    let! supplierCoupon := gets (latest_coupon couponEntityId) in
    ret (JObj [("entity", entity); ("supplierCoupon", supplierCoupon); ("supplierCampaignId", supplierCoupon@."supplierCampaignId" ?? JNull)]).
Definition client_by_id (id : jsval) (w : world) : jsval := row_or_null (List.find (fun c => has_id id c && nullish c@."deletedAt") (rows w TClient)).

Definition first_of (l : list jsval) : jsval := row_or_null (hd_error l).
Definition find_source_of (p : jsval -> bool) (sources : list jsval) : jsval := row_or_null (List.find p sources).
Definition resolveCampaignSourceId (campaignSourceId canonicalCampaignId supplierCampaignId : jsval) (sources : list jsval) (w : world) : outcome jsval :=
  let source := loadCampaignSource campaignSourceId w in
  let catalogMerchantId := source@."canonicalCampaign"@."merchantId" in
  let supplierMerchantId := source@."supplierCampaign"@."merchantId" in
  let matching := find_source_of (fun s => col_eq s@."supplierCampaignId" supplierCampaignId && truthy s@."isActive") sources in
  let primary := find_source_of (fun s => truthy s@."isPrimary" && truthy s@."isActive") sources |or| find_source_of (fun s => truthy s@."isActive") sources in
  if truthy campaignSourceId then
    if negb (truthy source) then Throw source_not_found
    else if negb (truthy source@."isActive") || (source@."status" === "DEPRECATED") then Throw (api_fail "Campaign source is not active." 409)
    else if truthy canonicalCampaignId && negb (col_eq source@."canonicalCampaignId" canonicalCampaignId)
    then Throw (api_fail "Campaign source does not belong to the canonical campaign." 409)
    else if truthy catalogMerchantId && truthy supplierMerchantId && negb (col_eq catalogMerchantId supplierMerchantId)
    then Throw (api_fail "Campaign source merchant does not match canonical campaign merchant." 409)
    else Ok source@."id"
  else if truthy supplierCampaignId && truthy matching then Ok matching@."id"
  else Ok (primary@."id" ?? JNull).

(** *** Coupons *)

Definition text_or_null (v : jsval) : jsval := if nullish v then JNull else JStr (js_string v).
(** [v ? new Date(v) : null], which the database refuses if it is no date *)
Definition date_or_null (v : jsval) : outcome jsval :=
  if negb (truthy v) then Ok JNull
  else match new_date v with Some t => Ok (JDate (Some t)) | None => Throw (plain_error "Invalid value provided: a date.") end.
Definition coupon_data (assignmentId supplierCouponId code couponType discount status validFrom validUntil : jsval) : list (string * jsval) :=
  [("assignmentId", assignmentId); ("supplierCouponId", supplierCouponId); ("supplierCouponCode", code); ("clientCouponCode", code); ("couponType", couponType);
   ("discountPercentage", discount); ("status", status); ("validFrom", validFrom); ("validUntil", validUntil)].
Definition auditCouponChange (record : jsval) (action status : string) : prog world unit :=
  if negb (truthy record@."id") then ret tt
  else audit_record [("aggregateType", JStr "ClientCouponAssignment"); ("aggregateId", record@."id"); ("action", JStr action);
    ("after", JObj [("assignmentId", record@."assignmentId"); ("status", JStr status); ("supplierCouponCode", record@."supplierCouponCode"); ("clientCouponCode", record@."clientCouponCode")])].
Definition coupon_action (status : string) : string := if status =s? "RESERVED" then "coupon.reserve" else "coupon.assign".
Definition createCouponAssignmentFromCms (assignmentId couponCms : jsval) (published : bool) : prog world jsval :=
  let status := couponStatusForAssignment published in
  let fields := extractCouponFieldsFromNormalized couponCms@."entity"@."normalizedData" in
  let allotment := allotment_fields couponCms@."entity" JNull in
  let sc := couponCms@."supplierCoupon" in
  let link := sc@."couponLink" ?? fields@."couponLink" ?? allotment@."offerLink" ?? allotment@."trackingUrl" in
  let couponType := resolveCouponType fields@."codeType" (sc@."couponCode" ?? fields@."couponCode") link in
  let code := if couponType =s? "LINK" then link else sc@."couponCode" ?? fields@."couponCode" in
  let until := if nullish sc@."couponEndDate" then date_or_null allotment@."expiryDate" else Ok sc@."couponEndDate" in
  let validFrom := sc@."couponStartDate" ?? JNull in
  let fallback := allotment@."offerLink" |or| allotment@."trackingUrl" in
  if negb (truthy code) && (couponType =s? "UNKNOWN") then
    if negb (truthy fallback) then ret JNull
    else
      let! validUntil := lift until in
      let! created := create_row TCouponAssignment
        (coupon_data assignmentId (sc@."id" ?? JNull) fallback (JStr "LINK") (text_or_null allotment@."discountPercentage") (JStr status) validFrom validUntil) in
      auditCouponChange created "coupon.reserve" status ;; ret created
  else
    let discount := if couponType =s? "CODE" then sc@."discountValue" ?? fields@."discountPercentage" ?? allotment@."discountPercentage" ?? JNull
                    else allotment@."discountPercentage" ?? JNull in
    let! validUntil := lift until in
    let! created := create_row TCouponAssignment
      (coupon_data assignmentId (sc@."id" ?? JNull) (code ?? JNull) (JStr couponType) (text_or_null discount) (JStr status) validFrom validUntil) in
    auditCouponChange created (coupon_action status) status ;; ret created.
Definition OPEN_COUPON : list string := ["RESERVED"; "ASSIGNED"; "ACTIVE"].
Definition open_coupons (assignmentId : jsval) (w : world) : list jsval :=
  List.filter (fun c => col_eq c@."assignmentId" assignmentId && in_enum OPEN_COUPON c@."status") (rows w TCouponAssignment).
Definition ensureCouponFromClientFacing (assignmentId clientFacing : jsval) (published : bool) : prog world jsval :=
  let code := trim (js_string (clientFacing@."couponCode" |or| JStr "")) in
  let link := trim (js_string (clientFacing@."trackingUrl" |or| clientFacing@."couponLink" |or| JStr "")) in
  let status := couponStatusForAssignment published in
  if (code =s? "") && (link =s? "") then ret JNull
  else
    let! existing := gets (fun w => first_of (open_coupons assignmentId w)) in
    if truthy existing then ret existing
    else
      let! validUntil := lift (date_or_null clientFacing@."expiry") in
      let! created := create_row TCouponAssignment
        (coupon_data assignmentId JNull (JStr (or_text code link)) (JStr (if code =s? "" then "LINK" else "CODE")) JNull (JStr status) JNull validUntil) in
      auditCouponChange created (coupon_action status) status ;; ret created.
(** [couponAssignmentRepo.updateManyForAssignment(assignmentId, { status: "RESERVED" }, { status })], with the audit of the caller *)
Definition is_reserved_for (assignmentId c : jsval) : bool := col_eq c@."assignmentId" assignmentId && (c@."status" === "RESERVED").
Definition move_reserved (assignmentId : jsval) (status action count_field : string) : prog world nat :=
  let! count := gets (fun w => length (List.filter (is_reserved_for assignmentId) (rows w TCouponAssignment))) in
  modify (fun w => set_rows TCouponAssignment (map (fun c => if is_reserved_for assignmentId c then spread c (JObj [("status", JStr status)]) else c) (rows w TCouponAssignment)) w) ;;
  (if (count =? 0)%nat then ret tt
   else audit_record [("aggregateType", JStr "ClientCampaignAssignment"); ("aggregateId", assignmentId); ("action", JStr action);
          ("after", JObj [(count_field, JNum (num_of_Z (Z.of_nat count))); ("status", JStr status)])]) ;;
  ret count.
Definition promoteReservedCoupons (assignmentId : jsval) : prog world nat := move_reserved assignmentId "ASSIGNED" "coupon.assign_from_reserve" "promotedCount".
Definition releaseReservedCoupons (assignmentId : jsval) : prog world nat := move_reserved assignmentId "REVOKED" "coupon.release_reservation" "releasedCount".

(** *** The commission rule *)

(** [orderBy: [{ status: "desc" }, { effectiveFrom: "desc" }]]: EFFECTIVE comes after DRAFT. *)
Definition open_rule_le (a b : jsval) : bool :=
  let ea := a@."status" === "EFFECTIVE" in let eb := b@."status" === "EFFECTIVE" in
  if negb (Bool.eqb ea eb) then ea else date_of b@."effectiveFrom" <=? date_of a@."effectiveFrom".
Definition open_rule (assignmentId : jsval) (w : world) : option jsval :=
  hd_error (sort_by open_rule_le (List.filter (fun r => col_eq r@."assignmentId" assignmentId && in_enum ["DRAFT"; "EFFECTIVE"] r@."status") (rows w TRule))).
Definition draft_rule (assignmentId : jsval) (p : preset) (mbo : string) (effectiveFrom : Z) : list (string * jsval) :=
  [("assignmentId", assignmentId); ("grossCommission", JStr (p_grossCommission p)); ("clientCommission", JStr (p_clientCommission p)); ("mboCommission", JStr mbo);
   ("commissionType", JStr (p_commissionType p)); ("effectiveFrom", JDate (Some effectiveFrom)); ("effectiveUntil", JNull); ("status", JStr "DRAFT")].
Definition ensureCommissionRuleDraft (assignmentId clientRecord clientFacing : jsval) : prog world jsval :=
  let model := clientRecord@."commercialModel" |or| JStr "OFFERS_PLUS_COMMISSION" in
  let share := clientFacing@."clientCommissionPercent" ?? clientRecord@."clientSharePercent" ?? JUndef in
  match resolveCommercialPreset model share with
  | None => ret JNull
  | Some p =>
      let! mbo := lift (deriveMboCommission (JStr (p_grossCommission p)) (JStr (p_clientCommission p))) in
      let! existing := gets (open_rule assignmentId) in
      match existing with
      | Some rule => ret rule
      | None =>
          let! t := get_now in
          catch (create_row TRule (draft_rule assignmentId p mbo t)) (fun _ => create_row TRule (draft_rule assignmentId p mbo (t + 1000)))
      end
  end.
Definition activateCommissionRule (assignmentId : jsval) : prog world jsval :=
  let! found := gets (open_rule assignmentId) in
  match found with
  | None => ret JNull
  | Some rule =>
      if rule@."status" === "EFFECTIVE" then ret rule
      else
        let! updated := update_row TRule rule@."id" [("status", JStr "EFFECTIVE")] in
        audit_record [("aggregateType", JStr "ClientCommissionRule"); ("aggregateId", updated@."id"); ("action", JStr "commercial_rule.activate");
          ("before", JObj [("status", JStr "DRAFT")]); ("after", JObj [("status", JStr "EFFECTIVE"); ("assignmentId", assignmentId)])] ;;
        ret updated
  end.

(** *** Publishing *)

Definition source_address (s : jsval) : jsval := s@."supplierCampaign"@."trackingUrl" |or| s@."supplierCampaign"@."destinationUrl".
Definition assignment_link (assignmentId : jsval) (w : world) : jsval :=
  row_or_null (List.find (fun l => col_eq l@."assignmentId" assignmentId && nullish l@."deletedAt" && in_enum ["GENERATED"; "ACTIVE"] l@."status") (rows w TTrackingLink)).
Definition publish_request (assignmentId catalogCampaign client : jsval) (sources : list jsval) (hasCouponAssignment : bool) (preferredSource : jsval) (w : world) : request :=
  let trackingLink := assignment_link assignmentId w in
  let preferred := preferredSource |or| find_source_of (fun s => truthy s@."isPrimary") sources |or| first_of sources in
  let sourceTrackingUrl := source_address preferred |or| find_source_of (fun s => truthy (source_address s)) sources in
  Request Publish catalogCampaign client sources
    (hasCouponAssignment || match open_coupons assignmentId w with [] => false | _ => true end || any_coupon preferred@."supplierCampaign")
    (truthy (trackingLink@."supplierTrackingUrl" |or| trackingLink@."mboTrackingUrl" |or| sourceTrackingUrl))
    (match findEffectiveForAssignment assignmentId (now w) w with Some _ => true | None => false end) preferred.
Definition assertPublishEligibility (assignmentId catalogCampaign client : jsval) (sources : list jsval) (hasCouponAssignment : bool) (preferredSource : jsval) : prog world eligibility :=
  let! q := gets (publish_request assignmentId catalogCampaign client sources hasCouponAssignment preferredSource) in
  let result := evaluate q in
  if g_ok result then ret result else throw (api_fail ("Campaign assignment is not publishable: " +:+ join ", " (g_reasons result)) 409).
Definition published_data (t : Z) : list (string * jsval) :=
  [("status", JStr "ACTIVE"); ("published", JBool true); ("publishedAt", JDate (Some t)); ("unpublishedAt", JNull)].
Definition audit_publish (published : jsval) (before : list (string * jsval)) (after : list (string * jsval)) : prog world unit :=
  audit_record ([("aggregateType", JStr "ClientCampaignAssignment"); ("aggregateId", published@."id"); ("action", JStr "assignment.publish")]
    ++ before ++ [("after", JObj after); ("reason", JStr "activation_review")]).
(** The gates and the write that follows them *)
Definition go_live (assignmentId catalogCampaign client : jsval) (sources : list jsval) (hasCouponAssignment : bool) (preferredSource : jsval) : prog world jsval :=
  assertPublishEligibility assignmentId catalogCampaign client sources hasCouponAssignment preferredSource ;;
  promoteReservedCoupons assignmentId ;;
  let! t := get_now in
  update_row TAssignment assignmentId (published_data t).
Definition find_assignment (id : jsval) : prog world jsval :=
  let! found := findUnique TAssignment "id" id in
  match found with Some a => ret a | None => throw (api_fail "Assignment not found." 404) end.
Definition publish (id : jsval) : prog world jsval :=
  let! assignment := find_assignment id in
  if assignment@."status" === "REVOKED" then throw (api_fail "Cannot publish a revoked assignment." 409)
  else
    let! catalogCampaign := gets (campaign_of assignment) in
    let! client := gets (client_of assignment) in
    let! sources := gets (loadCatalogSources assignment@."canonicalCampaignId") in
    let facing := assignment@."clientFacing" |or| JObj [] in
    ensureCommissionRuleDraft assignment@."id" client facing ;;
    activateCommissionRule assignment@."id" ;;
    ensureCouponFromClientFacing assignment@."id" facing true ;;
    let! published := go_live assignment@."id" catalogCampaign client sources false
      (find_source_of (fun s => col_eq s@."id" assignment@."campaignSourceId") sources |or| find_source_of (fun s => truthy s@."isPrimary") sources |or| first_of sources) in
    audit_publish published [("before", JObj [("published", assignment@."published"); ("status", assignment@."status")])]
      [("published", JBool true); ("status", JStr "ACTIVE"); ("clientId", published@."clientId"); ("canonicalCampaignId", published@."canonicalCampaignId");
       ("campaignSourceId", published@."campaignSourceId")] ;;
    ret published.
Definition pause (id : jsval) : prog world jsval :=
  let! assignment := find_assignment id in
  if negb (truthy assignment@."published") then throw (api_fail "Cannot pause a draft assignment." 409)
  else if assignment@."status" === "REVOKED" then throw (api_fail "Cannot pause a revoked assignment." 409)
  else update_row TAssignment id [("status", JStr "PAUSED")].
Definition unpublish (id : jsval) : prog world jsval :=
  let! assignment := find_assignment id in
  if assignment@."status" === "REVOKED" then throw (api_fail "Cannot unpublish a revoked assignment." 409)
  else if negb (is_true assignment@."published") then ret assignment
  else let! t := get_now in update_row TAssignment id [("published", JBool false); ("unpublishedAt", JDate (Some t))].
Definition archive (id : jsval) : prog world jsval :=
  let! assignment := find_assignment id in
  (if truthy assignment@."published" then ret 0%nat else releaseReservedCoupons assignment@."id") ;;
  let! t := get_now in
  let! archived := update_row TAssignment id [("status", JStr "REVOKED"); ("published", JBool false); ("unpublishedAt", JDate (Some t))] in
  audit_record [("aggregateType", JStr "ClientCampaignAssignment"); ("aggregateId", archived@."id"); ("action", JStr "assignment.archive");
    ("before", JObj [("status", assignment@."status"); ("published", assignment@."published")]); ("after", JObj [("status", JStr "REVOKED"); ("published", JBool false)])] ;;
  ret archived.
Definition resolveLifecycle (assignment : jsval) : option string :=
  if negb (truthy assignment) then None
  else if assignment@."status" === "REVOKED" then Some "archived"
  else if assignment@."status" === "PAUSED" then Some "paused"
  else if truthy assignment@."published" && (assignment@."status" === "ACTIVE") then Some "published"
  else Some "draft".

(** *** Updating *)

Definition ASSIGNMENT_COLUMNS : list string := ["startDate"; "endDate"; "channel"; "notes"; "status"; "clientFacing"].
Definition update (id input : jsval) : prog world jsval :=
  let! assignment := find_assignment id in
  if input@."lifecycle" === "published" then publish id
  else if input@."lifecycle" === "draft" then unpublish id
  else if input@."lifecycle" === "paused" then pause id
  else if input@."lifecycle" === "archived" then archive id
  else
    let! source := (if is_undef input@."campaignSourceId" then ret []
                    else if truthy input@."campaignSourceId" then
                      let! sources := gets (loadCatalogSources assignment@."canonicalCampaignId") in
                      if existsb (fun s => col_eq s@."id" input@."campaignSourceId") sources then ret [("campaignSourceId", input@."campaignSourceId")]
                      else throw (api_fail "Campaign source does not belong to this catalog campaign." 409)
                    else ret [("campaignSourceId", JNull)]) in
    match given_columns input ASSIGNMENT_COLUMNS ++ source with
    | [] => ret assignment
    | data => update_row TAssignment id data
    end.
(** An assignment fulfils one request. *)
Definition fulfillBrandRequest (requestId assignmentId : jsval) : prog world jsval :=
  let! request := findUnique TBrandRequest "id" requestId in
  match request with
  | None => throw (api_fail "Brand request not found." 404)
  | Some _ =>
      let! t := get_now in
      let! taken := gets (fun w => existsb (fun r => negb (has_id requestId r) && col_eq r@."fulfilledAssignmentId" assignmentId) (rows w TBrandRequest)) in
      if taken then throw unique_violation
      else update_row TBrandRequest requestId [("status", JStr "FULFILLED"); ("resolvedAt", JDate (Some t)); ("fulfilledAssignmentId", assignmentId)]
  end.

(** *** Assigning *)

(** What the campaign, the source and the coupon of an assignment are found to be *)
Record target := Target { t_campaign : jsval; t_supplierCampaign : jsval; t_couponCms : jsval }.
Definition from_source (input : jsval) (t : target) : prog world target :=
  if truthy (t_campaign t) || negb (truthy input@."campaignSourceId") then ret t
  else
    let! source := gets (loadCampaignSource input@."campaignSourceId") in
    if negb (truthy source) then throw source_not_found
    else ret (Target source@."canonicalCampaignId" (t_supplierCampaign t ?? source@."supplierCampaignId") (t_couponCms t)).
Definition from_supplier (t : target) : prog world target :=
  if truthy (t_campaign t) || negb (truthy (t_supplierCampaign t)) then ret t
  else let! id := ensureFromSupplierCampaign (t_supplierCampaign t) in ret (Target id (t_supplierCampaign t) (t_couponCms t)).
Definition from_coupon (input : jsval) (t : target) : prog world target :=
  if truthy (t_campaign t) || negb (truthy ((t_couponCms t)@."entity" |or| input@."couponEntityId")) then ret t
  else
    let! couponCms := (if truthy (t_couponCms t)@."entity" then ret (t_couponCms t) else loadCouponCms input@."couponEntityId") in
    if truthy couponCms@."supplierCampaignId" then
      let! id := ensureFromSupplierCampaign couponCms@."supplierCampaignId" in
      ret (Target id (t_supplierCampaign t ?? couponCms@."supplierCampaignId") couponCms)
    else
      let! id := ensureFromCouponCmsEntity couponCms@."entity" in
      ret (Target id (t_supplierCampaign t) couponCms).
Definition load_coupon (input : jsval) (t : target) : prog world target :=
  if negb (nullish (t_couponCms t)@."entity") || negb (truthy input@."couponEntityId") then ret t
  else
    let! couponCms := loadCouponCms input@."couponEntityId" in
    ret (Target (t_campaign t) (t_supplierCampaign t ?? couponCms@."supplierCampaignId") couponCms).
Definition resolve_target (input : jsval) : prog world target :=
  let! t := from_source input (Target (input@."canonicalCampaignId" ?? JNull) (input@."supplierCampaignId" ?? JNull) (input@."couponCms" ?? JNull)) in
  let! t := from_supplier t in
  let! t := from_coupon input t in
  if negb (truthy (t_campaign t)) then throw (api_fail "canonicalCampaignId, campaignSourceId, supplierCampaignId, or couponEntityId is required." 400)
  else load_coupon input t.

(** The coupon goes to the assignment that exists. *)
Definition attach_to_duplicate (input duplicate clientRecord catalogCampaign couponCms campaignSourceId : jsval) (sources : list jsval) : prog world jsval :=
  createCouponAssignmentFromCms duplicate@."id" couponCms (truthy input@."publish" || truthy duplicate@."published") ;;
  (if negb (truthy duplicate@."campaignSourceId") && truthy campaignSourceId
   then update_row TAssignment duplicate@."id" [("campaignSourceId", campaignSourceId)] ;; ret tt else ret tt) ;;
  if truthy input@."publish" && negb (truthy duplicate@."published") then
    activateCommissionRule duplicate@."id" ;;
    let! published := go_live duplicate@."id" catalogCampaign clientRecord sources true
      (find_source_of (fun s => col_eq s@."id" (campaignSourceId |or| duplicate@."campaignSourceId")) sources) in
    audit_publish published [] [("clientId", published@."clientId"); ("published", JBool true)] ;;
    ret published
  else ret (spread duplicate (JObj [("_allotmentOutcome", JStr "already_assigned")])).
Definition already_assigned : js_error := JsError "An active assignment already exists for this client and catalog campaign." 409 "ALREADY_ASSIGNED".
Definition assignment_data (input canonicalCampaignId campaignSourceId : jsval) : list (string * jsval) :=
  [("clientId", input@."clientId"); ("canonicalCampaignId", canonicalCampaignId); ("campaignSourceId", campaignSourceId); ("status", JStr "ASSIGNED");
   ("published", JBool false); ("startDate", input@."startDate" ?? JNull); ("endDate", input@."endDate" ?? JNull); ("channel", input@."channel" ?? JNull);
   ("notes", input@."notes" ?? JNull); ("clientFacing", input@."clientFacing" ?? JUndef)].
Definition create_new (input clientRecord catalogCampaign canonicalCampaignId campaignSourceId couponCms : jsval) (sources : list jsval) : prog world jsval :=
  let! created := create_row TAssignment (assignment_data input canonicalCampaignId campaignSourceId) in
  (if truthy couponCms@."entity" then createCouponAssignmentFromCms created@."id" couponCms (truthy input@."publish")
   else ensureCouponFromClientFacing created@."id" input@."clientFacing" (truthy input@."publish")) ;;
  ensureCommissionRuleDraft created@."id" clientRecord input@."clientFacing" ;;
  if truthy input@."publish" then
    activateCommissionRule created@."id" ;;
    let! published := go_live created@."id" catalogCampaign clientRecord sources (truthy (couponCms@."entity" |or| input@."clientFacing"@."couponCode"))
      (find_source_of (fun s => col_eq s@."id" campaignSourceId) sources) in
    audit_publish published [] [("clientId", published@."clientId"); ("canonicalCampaignId", published@."canonicalCampaignId");
      ("campaignSourceId", published@."campaignSourceId"); ("published", JBool true)] ;;
    ret published
  else ret created.
Definition create_draft (input : jsval) : prog world jsval :=
  let! clientRecord := gets (fun w => input@."clientRecord" ?? client_by_id input@."clientId" w) in
  if negb (truthy clientRecord) then throw (api_fail "Client not found." 404)
  else if clientRecord@."status" === "OFFBOARDED" then throw (api_fail "Cannot assign campaigns to an offboarded client." 409)
  else
    let! t := resolve_target input in
    let canonicalCampaignId := t_campaign t in
    let! catalogCampaign := gets (campaign_by_id canonicalCampaignId) in
    if negb (truthy catalogCampaign) then throw (api_fail "Catalog campaign not found." 404)
    else
      let! sources := gets (loadCatalogSources canonicalCampaignId) in
      let! chosen := gets (resolveCampaignSourceId (input@."campaignSourceId" ?? JNull) canonicalCampaignId (t_supplierCampaign t) sources) in
      let! campaignSourceId := lift chosen in
      let usingLegacyCoupon := truthy ((t_couponCms t)@."entity" |or| input@."couponEntityId") in
      if negb usingLegacyCoupon && negb (truthy campaignSourceId)
      then throw (api_fail "Cannot assign campaign. Reason: Campaign source is not linked to an approved merchant." 409)
      else
        lift (validateCatalogForAssignment catalogCampaign clientRecord sources usingLegacyCoupon
                (if truthy campaignSourceId then find_source_of (fun s => col_eq s@."id" campaignSourceId) sources else JNull)) ;;
        let! duplicate := gets (findActiveByPair input@."clientId" canonicalCampaignId) in
        if truthy duplicate && truthy (t_couponCms t)@."entity" then attach_to_duplicate input duplicate clientRecord catalogCampaign (t_couponCms t) campaignSourceId sources
        else if truthy duplicate then throw already_assigned
        else create_new input clientRecord catalogCampaign canonicalCampaignId campaignSourceId (t_couponCms t) sources.
(** A transaction around calls of the audit, which writes on a connection of its own: its entries stay when the rest is
    taken back. *)
Definition audited_transaction {A} (c : prog world A) : prog world A :=
  fun w => match c w with (Ok a, w') => (Ok a, w') | (Throw e, w') => (Throw e, set_rows TAudit (rows w' TAudit) w) end.
Definition createDraft (input : jsval) : prog world jsval := audited_transaction (create_draft input).
Definition createClientCampaignAssignment (input : jsval) : prog world jsval := createDraft input.
End Service.
End Assignments.

(** ** One open assignment, published through the gates *)

Module AssignmentFacts.
Import CouponFields AssignmentRepository Assignments EligibilityFacts.
Section Facts.
Context {H : JsHost} {D : Database} {U : UrlHost} {T : TextHost} {M : CouponCms} {B : PayoutMapper}.

(** *** What the parts write *)

Definition SIDE : list table := [TRule; TCouponAssignment; TAudit].
Definition CATALOG : list table := [TCatalogCampaign; TCampaignSource; TMerchant].
Lemma side_create t data : t ∈ SIDE -> tracks (within SIDE) (create_row t data).
Proof. intros Ht. now apply create_row_within. Qed.
Lemma side_update t id data : t ∈ SIDE -> tracks (within SIDE) (update_row t id data).
Proof. intros Ht. now apply update_row_within. Qed.
Lemma side_rows l w : within SIDE w (set_rows TAudit l w).
Proof. split; [reflexivity|]. intros u Hu. apply rows_set_other. intros ->. apply Hu. unfold SIDE. set_solver. Qed.
Lemma side_audit event : tracks (within SIDE) (audit_record event).
Proof. apply audit_record_within. unfold SIDE. set_solver. Qed.
#[local] Hint Resolve side_audit : tracks.
#[local] Hint Extern 4 (tracks (within SIDE) (create_row _ _)) => (apply side_create; unfold SIDE; set_solver) : tracks.
#[local] Hint Extern 4 (tracks (within SIDE) (update_row _ _ _)) => (apply side_update; unfold SIDE; set_solver) : tracks.
Lemma side_audit_coupon record action status : tracks (within SIDE) (auditCouponChange record action status).
Proof. unfold auditCouponChange. track. Qed.
#[local] Hint Resolve side_audit_coupon : tracks.
Lemma side_coupon_cms a cms p : tracks (within SIDE) (createCouponAssignmentFromCms a cms p).
Proof. unfold createCouponAssignmentFromCms. track. Qed.
Lemma side_coupon_facing a facing p : tracks (within SIDE) (ensureCouponFromClientFacing a facing p).
Proof. unfold ensureCouponFromClientFacing. track. Qed.
Lemma side_move a status action field : tracks (within SIDE) (move_reserved a status action field).
Proof.
  unfold move_reserved. track. intros w. split; [reflexivity|]. intros u Hu. apply rows_set_other. intros ->. apply Hu. unfold SIDE. set_solver.
Qed.
Lemma side_rule_draft a client facing : tracks (within SIDE) (ensureCommissionRuleDraft a client facing).
Proof. unfold ensureCommissionRuleDraft, get_now. track. Qed.
Lemma side_rule_activate a : tracks (within SIDE) (activateCommissionRule a).
Proof. unfold activateCommissionRule. track. Qed.
Lemma side_gate a c client sources coupon preferred : tracks (within SIDE) (assertPublishEligibility a c client sources coupon preferred).
Proof. unfold assertPublishEligibility. track. Qed.
Lemma side_audit_publish p before after : tracks (within SIDE) (audit_publish p before after).
Proof. unfold audit_publish. track. Qed.
#[local] Hint Resolve side_coupon_cms side_coupon_facing side_move side_rule_draft side_rule_activate side_gate side_audit_publish : tracks.

Lemma catalog_create t data : t ∈ CATALOG -> tracks (within CATALOG) (create_row t data).
Proof. intros Ht. now apply create_row_within. Qed.
Lemma catalog_update t id data : t ∈ CATALOG -> tracks (within CATALOG) (update_row t id data).
Proof. intros Ht. now apply update_row_within. Qed.
#[local] Hint Extern 4 (tracks (within CATALOG) (create_row _ _)) => (apply catalog_create; unfold CATALOG; set_solver) : tracks.
#[local] Hint Extern 4 (tracks (within CATALOG) (update_row _ _ _)) => (apply catalog_update; unfold CATALOG; set_solver) : tracks.
Lemma catalog_create_source c s snapshot : tracks (within CATALOG) (create_source c s snapshot).
Proof. intros w. unfold create_source. destruct (existsb _ _); [reflexivity|]. apply catalog_create. unfold CATALOG. set_solver. Qed.
Lemma clear_within c ex : tracks (within CATALOG) (clearPrimaryForCampaign c ex).
Proof. intros w. split; [reflexivity|]. intros u Hu. apply rows_set_other. intros ->. apply Hu. unfold CATALOG. set_solver. Qed.
#[local] Hint Resolve catalog_create_source clear_within : tracks.
Lemma catalog_from_supplier sc : tracks (within CATALOG) (ensureFromSupplierCampaign sc).
Proof. unfold ensureFromSupplierCampaign, reopen_campaign, refresh_source. track. Qed.
#[local] Hint Resolve catalog_from_supplier : tracks.
Lemma catalog_from_coupon entity : tracks (within CATALOG) (ensureFromCouponCmsEntity entity).
Proof. unfold ensureFromCouponCmsEntity, merchant_for, campaign_for, attach_linked, attach_source. track. Qed.
#[local] Hint Resolve catalog_from_coupon : tracks.
Lemma catalog_target input : tracks (within CATALOG) (resolve_target input).
Proof. unfold resolve_target, from_source, from_supplier, from_coupon, load_coupon, loadCouponCms. track. Qed.

(** *** The invariant *)

Definition text_ids (t : table) (w : world) : Prop := Forall (fun r => exists i, r@."id" = JStr i) (rows w t).
Definition keeps_text_ids (t : table) (w w' : world) : Prop := text_ids t w -> text_ids t w'.
#[local] Instance keeps_text_ids_preorder t : PreOrder (keeps_text_ids t).
Proof. split; [intros w Hw; exact Hw|]. intros w1 w2 w3 H12 H23 H1. auto. Qed.
Lemma text_ids_elsewhere {A} t ts (c : prog world A) : t ∉ ts -> tracks (within ts) c -> tracks (keeps_text_ids t) c.
Proof. intros Ht Hc w Hw. unfold text_ids. now rewrite (proj2 (Hc w) t Ht). Qed.
Lemma text_ids_create t u data : tracks (keeps_text_ids t) (create_row u data).
Proof.
  intros w Hw. destruct (create_row u data w) as [[r|e] w'] eqn:E; cbn; [|now apply create_row_fails in E as ->]. destruct (decide (t = u)) as [<-|Hne].
  - apply create_row_ok in E as (-> & Hrows & _). unfold text_ids. rewrite Hrows. apply List.Forall_app. split; [exact Hw|]. repeat constructor. eexists. reflexivity.
  - pose proof (create_row_only u data w t Hne) as Ho. rewrite E in Ho. cbn [snd] in Ho. unfold text_ids. now rewrite Ho.
Qed.
Lemma text_ids_update t u id data : "id" ∉ map fst data -> tracks (keeps_text_ids t) (update_row u id data).
Proof.
  intros Hid w Hw. destruct (update_row u id data w) as [[r|e] w'] eqn:E; cbn; [|now apply update_row_fails in E as ->]. destruct (decide (t = u)) as [<-|Hne].
  - apply update_row_ok in E. unfold text_ids. rewrite E. apply Forall_map. eapply Forall_impl; [exact Hw|]. intros x [i Ex]. exists i. unfold compose. destruct (has_id id x); [now rewrite (spread_rewrites t x data "id" Hid)|exact Ex].
  - pose proof (update_row_only u id data w t Hne) as Ho. rewrite E in Ho. cbn [snd] in Ho. unfold text_ids. now rewrite Ho.
Qed.
#[local] Hint Resolve text_ids_create : tracks.
#[local] Hint Extern 5 (tracks (keeps_text_ids _) (update_row _ _ _)) => (apply text_ids_update; compute_done) : tracks.
Lemma text_ids_create_source t c s snapshot : tracks (keeps_text_ids t) (create_source c s snapshot).
Proof. intros w. unfold create_source. destruct (existsb _ _); [intros Hw; exact Hw|]. apply text_ids_create. Qed.
Lemma text_ids_clear c ex : tracks (keeps_text_ids TCatalogCampaign) (clearPrimaryForCampaign c ex).
Proof. apply (text_ids_elsewhere _ [TCampaignSource]); [set_solver|]. intros w. split; [reflexivity|]. intros u Hu. apply rows_set_other. set_solver. Qed.
#[local] Hint Resolve text_ids_create_source text_ids_clear : tracks.
Lemma text_ids_supplier sc : tracks (keeps_text_ids TCatalogCampaign) (ensureFromSupplierCampaign sc).
Proof. unfold ensureFromSupplierCampaign, reopen_campaign, refresh_source. track. Qed.
#[local] Hint Resolve text_ids_supplier : tracks.
Lemma text_ids_target input : tracks (keeps_text_ids TCatalogCampaign) (resolve_target input).
Proof.
  unfold resolve_target, from_source, from_supplier, from_coupon, load_coupon, loadCouponCms, ensureFromCouponCmsEntity, merchant_for, campaign_for, attach_linked, attach_source. track.
Qed.

Definition PAIR : list string := ["clientId"; "canonicalCampaignId"].
Definition open (a : jsval) : bool := in_enum ACTIVE_ASSIGNMENT_STATUSES a@."status".
Definition live (a : jsval) : bool := is_true a@."published".
(** The columns of an assignment hold what their types allow, and only an active or paused assignment is published. *)
Record lawful (a : jsval) : Prop := Lawful {
  l_client : exists i, a@."clientId" = JStr i;
  l_campaign : exists i, a@."canonicalCampaignId" = JStr i;
  l_status : in_enum ASSIGNMENT_STATUS a@."status" = true;
  l_published : exists b, a@."published" = JBool b;
  l_live : live a = true -> in_enum ["ACTIVE"; "PAUSED"] a@."status" = true
}.
Record tidy (w : world) : Prop := Tidy {
  at_open : exclusive TAssignment PAIR open w;
  at_lawful : Forall lawful (rows w TAssignment);
  at_campaigns : text_ids TCatalogCampaign w;
  at_clients : text_ids TClient w;
  at_client_ids : distinct TClient "id" w
}.
Lemma lawful_open a : lawful a -> (a@."status" === "REVOKED") = false -> open a = true.
Proof.
  intros Hl Hr. pose proof (l_status _ Hl) as Hs. unfold open, in_enum in *. destruct (prop a "status"); try discriminate. cbn in *. revert Hs Hr.
  repeat (destruct (_ =s? _); cbn; try reflexivity; try discriminate).
Qed.

(** Steps that leave the assignments, the campaigns' ids and the clients alone. *)
Lemma tidy_frame w w' : tidy w -> rows w' TAssignment = rows w TAssignment -> rows w' TClient = rows w TClient -> text_ids TCatalogCampaign w' -> tidy w'.
Proof.
  intros [Ho Hl Hc Hk Hd] Ea Ec Ht. split; [|now rewrite Ea|exact Ht|unfold text_ids; now rewrite Ec|unfold distinct; now rewrite Ec].
  apply (exclusive_yielded _ _ _ w); [now apply same_rows_yielded|exact Ho].
Qed.
Lemma tidy_side w w' : within SIDE w w' -> tidy w -> tidy w'.
Proof.
  intros [_ Hr] Ht. apply (tidy_frame w); [exact Ht|apply Hr; unfold SIDE; set_solver..|]. unfold text_ids. rewrite Hr by (unfold SIDE; set_solver). apply Ht.
Qed.
Lemma tidy_rows w w' : tidy w -> only TAssignment w w' -> exclusive TAssignment PAIR open w' -> Forall lawful (rows w' TAssignment) -> tidy w'.
Proof.
  intros [_ _ Hc Hk Hd] Ho He Hl. split; [exact He|exact Hl|unfold text_ids; rewrite Ho by discriminate; exact Hc|unfold text_ids; rewrite Ho by discriminate; exact Hk|].
  unfold distinct. rewrite Ho by discriminate. exact Hd.
Qed.

(** *** Writes *)

(** No assignment is published that was not. *)
Definition hushed (w w' : world) : Prop :=
  forall a', a' ∈ rows w' TAssignment -> live a' = true -> exists a, a ∈ rows w TAssignment /\ a@."id" = a'@."id" /\ live a = true.
Definition calm (w w' : world) : Prop := tidy w -> tidy w' /\ hushed w w'.
#[local] Instance calm_preorder : PreOrder calm.
Proof.
  split; [intros w Ht; split; [exact Ht|intros a Ha Hl; eauto]|]. intros w1 w2 w3 C12 C23 T1. destruct (C12 T1) as [T2 H12]. destruct (C23 T2) as [T3 H23]. split; [exact T3|]. intros a3 Ha3 L3.
  destruct (H23 a3 Ha3 L3) as (a2 & Ha2 & E2 & L2). destruct (H12 a2 Ha2 L2) as (a1 & Ha1 & E1 & L1). exists a1. split_and!; [exact Ha1|congruence|exact L1].
Qed.
Lemma same_rows_hushed w w' : rows w' TAssignment = rows w TAssignment -> hushed w w'.
Proof. intros E a Ha Hl. rewrite E in Ha. eauto. Qed.
Lemma side_calm w w' : within SIDE w w' -> calm w w'.
Proof. intros Hw Ht. split; [now apply (tidy_side w)|apply same_rows_hushed, Hw; unfold SIDE; set_solver]. Qed.
Lemma target_calm input : tracks calm (resolve_target input).
Proof.
  intros w Ht. destruct (catalog_target input w) as [_ Hr]. split; [|apply same_rows_hushed, Hr; unfold CATALOG; set_solver].
  apply (tidy_frame w); [exact Ht|apply Hr; unfold CATALOG; set_solver..|]. apply (text_ids_target input w), Ht.
Qed.

Definition spares (data : list (string * jsval)) : Prop := ("id" ∉ map fst data) /\ ("clientId" ∉ map fst data) /\ ("canonicalCampaignId" ∉ map fst data).
Definition rewritten (data : list (string * jsval)) (a : jsval) : jsval := spread a (JObj (encode TAssignment data)).
Lemma update_effect i data w o w' a : tidy w -> a ∈ rows w TAssignment -> a@."id" = JStr i -> update_row TAssignment (JStr i) data w = (o, w') ->
  w' = w \/ (o = Ok (rewritten data a) /\ rows w' TAssignment = map (fun x => if has_id (JStr i) x then rewritten data a else x) (rows w TAssignment)).
Proof.
  intros Ht Hin Hi E. destruct o as [r|e]; [right|left; now apply update_row_fails in E].
  assert (Hsame : forall x, x ∈ rows w TAssignment -> has_id (JStr i) x = true -> x = a).
  { intros x Hx Hid. unfold has_id in Hid. apply col_eq_str in Hid. exact (same_id TAssignment w i x a (ex_distinct _ _ _ _ (at_open _ Ht)) Hx Hin Hid Hi). }
  pose proof E as Eo. unfold update_row in Eo. destruct (negb _); [discriminate|]. destruct (List.find _ _) as [x|] eqn:Ef; [|discriminate]. injection Eo as <- _.
  apply List.find_some in Ef as [Hx%list_elem_of_In Hid]. rewrite (Hsame x Hx Hid). split; [reflexivity|]. apply update_row_ok in E. rewrite E.
  apply list_fmap_ext. intros n y Hy%list_elem_of_lookup_2. destruct (has_id (JStr i) y) eqn:Ey; [|reflexivity]. now rewrite (Hsame y Hy Ey).
Qed.
Lemma rewrite_tidy i data w o w' a : tidy w -> a ∈ rows w TAssignment -> a@."id" = JStr i -> spares data -> lawful (rewritten data a) -> (open (rewritten data a) = true -> open a = true) ->
  update_row TAssignment (JStr i) data w = (o, w') -> tidy w'.
Proof.
  intros Ht Hin Hi (Kid & Kc & Kp) Hl Ho E. pose proof (update_row_only TAssignment (JStr i) data w) as Honly. rewrite E in Honly. cbn [snd] in Honly.
  destruct (update_effect i data w o w' a Ht Hin Hi E) as [->|[_ Hr]]; [exact Ht|]. apply (tidy_rows w); [exact Ht|exact Honly| |].
  - apply (exclusive_yielded _ _ _ w); [|apply Ht]. unfold yielded. rewrite Hr. apply Forall2_fmap_r, Forall_Forall2_diag, Forall_forall. intros x Hx. unfold compose.
    destruct (has_id (JStr i) x) eqn:Ex; [|reflexivity]. unfold has_id in Ex. apply col_eq_str in Ex.
    assert (x = a) as -> by exact (same_id TAssignment w i x a (ex_distinct _ _ _ _ (at_open _ Ht)) Hx Hin Ex Hi). apply spread_yields; [exact Kid| |exact Ho].
    unfold PAIR. intros k. rewrite !elem_of_cons, elem_of_nil. now intros [->|[->|[]]].
  - rewrite Hr. apply Forall_map. eapply Forall_impl; [exact (at_lawful _ Ht)|]. intros x Hx. unfold compose. destruct (has_id _ x); assumption.
Qed.
Lemma update_hushed i data w o w' a : tidy w -> a ∈ rows w TAssignment -> a@."id" = JStr i -> "id" ∉ map fst data -> (live (rewritten data a) = true -> live a = true) ->
  update_row TAssignment (JStr i) data w = (o, w') -> hushed w w'.
Proof.
  intros Ht Hin Hi Kid Hlive E. destruct (update_effect i data w o w' a Ht Hin Hi E) as [->|[_ Hr]]; [now apply same_rows_hushed|]. intros a' Ha' L. rewrite Hr in Ha'.
  apply list_elem_of_fmap in Ha' as (x & -> & Hx). destruct (has_id (JStr i) x); [|eauto]. exists a. split_and!; [exact Hin| |auto]. unfold rewritten. now rewrite (spread_rewrites TAssignment a data "id" Kid).
Qed.
Lemma lawful_rewritten data a : lawful a -> spares data -> in_enum ASSIGNMENT_STATUS (rewritten data a)@."status" = true -> (exists b, (rewritten data a)@."published" = JBool b) ->
  (live (rewritten data a) = true -> in_enum ["ACTIVE"; "PAUSED"] (rewritten data a)@."status" = true) -> lawful (rewritten data a).
Proof.
  intros [Hc Hp _ _ _] (_ & Kc & Kp) Hs Hb Hl. pose proof (spread_rewrites TAssignment a data) as Hr. split; try assumption; unfold rewritten; now rewrite Hr.
Qed.
Lemma find_assignment_ok id w a w' : find_assignment id w = (Ok a, w') -> w' = w /\ a ∈ rows w TAssignment /\ has_id id a = true.
Proof.
  unfold find_assignment, findUnique, find_where. rewrite bind_gets. destruct (List.find _ _) as [x|] eqn:E; [|discriminate]. intros [= <- <-].
  apply List.find_some in E as [Hx%list_elem_of_In Hid]. auto.
Qed.
Lemma find_assignment_fails id w e w' : find_assignment id w = (Throw e, w') -> w' = w.
Proof. unfold find_assignment, findUnique, find_where. rewrite bind_gets. destruct (List.find _ _); [discriminate|]. now intros [= _ <-]. Qed.
Lemma assignment_key id a w : tidy w -> a ∈ rows w TAssignment -> has_id id a = true -> exists i, id = JStr i /\ a@."id" = JStr i.
Proof.
  intros Ht Hin Hid. pose proof (ex_ids _ _ _ _ (at_open _ Ht)) as Hi. rewrite Forall_forall in Hi. destruct (Hi a Hin) as [i Ei]. exists i. split; [exact (CommercialFacts.rule_id i a id Hid Ei)|exact Ei].
Qed.
Lemma row_lawful a w : tidy w -> a ∈ rows w TAssignment -> lawful a.
Proof. intros Ht Hin. pose proof (at_lawful _ Ht) as Hl. rewrite Forall_forall in Hl. auto. Qed.

(** *** Pausing, withdrawing, archiving and updating *)

Lemma update_calm i data w o w' a : a ∈ rows w TAssignment -> a@."id" = JStr i -> spares data -> lawful (rewritten data a) -> (open (rewritten data a) = true -> open a = true) ->
  (live (rewritten data a) = true -> live a = true) -> update_row TAssignment (JStr i) data w = (o, w') -> calm w w'.
Proof.
  intros Hin Hi Hs Hl Ho Hv E Ht. split; [now apply (rewrite_tidy i data w o w' a)|]. apply (update_hushed i data w o w' a); try assumption. apply Hs.
Qed.
Ltac read_column := unfold rewritten; rewrite prop_spread by (apply encode_nodup; nodup_keys); reflexivity.
(** A call that begins with the assignment *)
Lemma find_then {A} id (k : jsval -> prog world A) :
  (forall i a w, id = JStr i -> tidy w -> a ∈ rows w TAssignment -> a@."id" = JStr i -> lawful a -> calm w (k a w).2) -> tracks calm (bind (find_assignment id) k).
Proof.
  intros Hk w Ht. unfold bind. destruct (find_assignment id w) as [[a|e] w0] eqn:Ef; [|apply find_assignment_fails in Ef as ->; split; [exact Ht|apply same_rows_hushed; reflexivity]].
  apply find_assignment_ok in Ef as (-> & Hin & Hid). destruct (assignment_key id a w Ht Hin Hid) as (i & -> & Ei). apply (Hk i); auto. now apply (row_lawful a w).
Qed.
Lemma calm_refl w : calm w w.
Proof. reflexivity. Qed.
Lemma pause_calm id : tracks calm (pause id).
Proof.
  unfold pause. apply find_then. intros i a w -> Ht Hin Ei Hl. destruct (negb (truthy _)) eqn:Ep; [apply calm_refl|]. destruct (_ === "REVOKED") eqn:Er; [apply calm_refl|].
  destruct (update_row _ _ _ w) as [o w'] eqn:E. set (data := [("status", JStr "PAUSED")]) in E.
  assert (Es : (rewritten data a)@."status" = JStr "PAUSED") by read_column. assert (Ev : (rewritten data a)@."published" = a@."published") by (apply (spread_rewrites TAssignment a data); compute_done).
  apply (update_calm i data w o w' a Hin Ei); [split_and!; compute_done| |intros _; now apply lawful_open|unfold live; now rewrite Ev|exact E].
  apply lawful_rewritten; [exact Hl|split_and!; compute_done|now rewrite Es|rewrite Ev; apply Hl|now rewrite Es].
Qed.
Lemma unpublish_calm id : tracks calm (unpublish id).
Proof.
  unfold unpublish. apply find_then. intros i a w -> Ht Hin Ei Hl. destruct (_ === "REVOKED"); [apply calm_refl|]. destruct (negb _); [apply calm_refl|]. unfold get_now. rewrite bind_gets.
  destruct (update_row _ _ _ w) as [o w'] eqn:E. set (data := [("published", JBool false); _]) in E.
  assert (Ev : (rewritten data a)@."published" = JBool false) by read_column. assert (Es : (rewritten data a)@."status" = a@."status") by (apply (spread_rewrites TAssignment a data); compute_done).
  apply (update_calm i data w o w' a Hin Ei); [split_and!; compute_done| |unfold open; now rewrite Es|unfold live; now rewrite Ev|exact E].
  apply lawful_rewritten; [exact Hl|split_and!; compute_done|rewrite Es; apply Hl|rewrite Ev; eauto|unfold live; now rewrite Ev].
Qed.
Lemma revoke_calm i a t w o w' : a ∈ rows w TAssignment -> a@."id" = JStr i -> lawful a ->
  update_row TAssignment (JStr i) [("status", JStr "REVOKED"); ("published", JBool false); ("unpublishedAt", JDate (Some t))] w = (o, w') -> calm w w'.
Proof.
  intros Hin Ei Hl E. set (data := [("status", JStr "REVOKED"); _; _]) in E.
  assert (Ev : (rewritten data a)@."published" = JBool false) by read_column. assert (Es : (rewritten data a)@."status" = JStr "REVOKED") by read_column.
  apply (update_calm i data w o w' a Hin Ei); [split_and!; compute_done| |unfold open; now rewrite Es|unfold live; now rewrite Ev|exact E].
  apply lawful_rewritten; [exact Hl|split_and!; compute_done|now rewrite Es|rewrite Ev; eauto|unfold live; now rewrite Ev].
Qed.
Lemma archive_calm id : tracks calm (archive id).
Proof.
  unfold archive. apply find_then. intros i a w -> Ht Hin Ei Hl. destruct (bind _ _ w) as [o w'] eqn:E. cbn [snd]. apply bind_split in E as (u & w1 & E1 & E).
  assert (Hw : within SIDE w w1).
  { destruct (truthy _) in E1; [injection E1 as _ <-; reflexivity|]. pose proof (side_move a@."id" "REVOKED" "coupon.release_reservation" "releasedCount" w) as Hs. unfold releaseReservedCoupons in E1. now rewrite E1 in Hs. }
  assert (Hin1 : a ∈ rows w1 TAssignment) by (rewrite (proj2 Hw) by (unfold SIDE; set_solver); exact Hin).
  transitivity w1; [now apply side_calm|]. destruct u as [n|e]; [|now injection E as _ <-]. unfold get_now in E. rewrite bind_gets in E. apply bind_split in E as (r & w2 & E2 & E).
  transitivity w2; [now apply (revoke_calm i a (now w1) w1 r w2)|]. destruct r as [r|e]; [|now injection E as _ <-]. injection E as _ <-. apply side_calm. apply side_audit.
Qed.
Lemma edit_calm id input : input@."status" = JUndef -> (forall s, In s ["published"; "draft"; "paused"; "archived"] -> (input@."lifecycle" === s) = false) -> tracks calm (update id input).
Proof.
  intros Hs Hlc. unfold update. apply find_then. intros i a w -> Ht Hin Ei Hl. rewrite !Hlc by (cbn; tauto). destruct (bind _ _ w) as [o w'] eqn:E. cbn [snd]. apply bind_split in E as (r & w1 & E1 & E).
  assert (Hw1 : w1 = w /\ forall l, r = Ok l -> map fst l = [] \/ map fst l = ["campaignSourceId"]).
  { destruct (is_undef _) in E1; [injection E1 as <- <-; split; [reflexivity|]; intros l [= <-]; now left|]. destruct (truthy _) in E1; [|injection E1 as <- <-; split; [reflexivity|]; intros l [= <-]; now right].
    rewrite bind_gets in E1. destruct (existsb _ _); injection E1 as <- <-; (split; [reflexivity|]); [intros l [= <-]; now right|discriminate]. }
  destruct Hw1 as [-> Hsrc]. destruct r as [source|e]; [|now injection E as _ <-]. specialize (Hsrc source eq_refl). set (data := given_columns input ASSIGNMENT_COLUMNS ++ source) in E.
  assert (Hk : forall k, k ∉ ["startDate"; "endDate"; "channel"; "notes"; "clientFacing"; "campaignSourceId"] -> k ∉ map fst data).
  { intros k Hk Hd. unfold data in Hd. rewrite map_app, elem_of_app in Hd. destruct Hd as [Hd|Hd]; [|destruct Hsrc as [Hsrc|Hsrc]; rewrite Hsrc in Hd; set_solver].
    pose proof (elem_of_sublist _ _ _ Hd (CommercialFacts.columns_keys _ _)) as Hc. unfold ASSIGNMENT_COLUMNS in Hc.
    assert (k = "status") as -> by set_solver. apply CommercialFacts.columns_given in Hd. contradiction. }
  assert (Hkeep : forall k, k ∉ ["startDate"; "endDate"; "channel"; "notes"; "clientFacing"; "campaignSourceId"] -> prop (rewritten data a) k = prop a k).
  { intros k Hkk. unfold rewritten. now rewrite (spread_rewrites TAssignment a data) by auto. }
  assert (Hrun : update_row TAssignment (JStr i) data w = (o, w') \/ w' = w) by (destruct data; [right; now injection E|now left]). destruct Hrun as [Hrun| ->]; [|apply calm_refl].
  assert (Hsp : spares data) by (split_and!; apply Hk; compute_done).
  apply (update_calm i data w o w' a Hin Ei Hsp); [|unfold open; now rewrite Hkeep by compute_done|unfold live; now rewrite Hkeep by compute_done|exact Hrun].
  apply lawful_rewritten; [exact Hl|exact Hsp|..]; unfold live; rewrite !Hkeep by compute_done; apply Hl.
Qed.

(** *** Publishing *)

(** What holds of an assignment when it is published: its campaign and its client pass the gates, a commission rule
    is in force and its coupons are no longer only reserved. *)
Record gated (a : jsval) (w : world) : Prop := Gated {
  ga_gates : exists c coupon tracking preferred, c ∈ rows w TCatalogCampaign /\ has_id a@."canonicalCampaignId" c = true /\
    publishable (Request Publish c (client_of a w) (loadCatalogSources a@."canonicalCampaignId" w) coupon tracking true preferred);
  ga_rule : exists rule, rule ∈ rows w TRule /\ Runtime.effective_at a@."id" (now w) rule = true;
  ga_coupons : Forall (fun c => is_reserved_for a@."id" c = false) (rows w TCouponAssignment)
}.
Lemma sources_frame c ts w w' : within ts w w' -> TCampaignSource ∉ ts -> TSupplierCampaign ∉ ts -> TSupplierCoupon ∉ ts -> loadCatalogSources c w' = loadCatalogSources c w.
Proof.
  intros [_ Hr] H1 H2 H3. unfold loadCatalogSources. rewrite (Hr TCampaignSource H1). apply map_ext. intros s. f_equal. unfold with_coupons, supplier_campaign_by_id, usable_coupons.
  now rewrite (Hr TSupplierCampaign H2), (Hr TSupplierCoupon H3).
Qed.
Lemma gated_audit a w w' : within [TAudit] w w' -> gated a w -> gated a w'.
Proof.
  intros Hw [(c & coupon & tracking & preferred & Hin & Hid & Hp) Hrule Hc]. pose proof Hw as [En Hr]. split.
  - exists c, coupon, tracking, preferred. rewrite (sources_frame _ [TAudit] w w' Hw) by set_solver. unfold client_of. rewrite !Hr by set_solver. auto.
  - rewrite En, Hr by set_solver. exact Hrule.
  - rewrite Hr by set_solver. exact Hc.
Qed.
Definition vetted (w w' : world) : Prop := tidy w -> tidy w' /\
  forall a', a' ∈ rows w' TAssignment -> live a' = true -> (exists a, a ∈ rows w TAssignment /\ a@."id" = a'@."id" /\ live a = true) \/ gated a' w'.
Lemma calm_vetted w w' : calm w w' -> vetted w w'.
Proof. intros Hc Ht. destruct (Hc Ht) as [Ht' Hh]. split; [exact Ht'|]. intros a' Ha' L. left. now apply Hh. Qed.
(** Calm steps may come before, the audit after. *)
Lemma vetted_calm w w1 w' : calm w w1 -> vetted w1 w' -> vetted w w'.
Proof.
  intros Hc Hv Ht. destruct (Hc Ht) as [T1 Hh]. destruct (Hv T1) as [T' Hg]. split; [exact T'|]. intros a' Ha' L. destruct (Hg a' Ha' L) as [(a & Ha & E & La)|Hgate]; [left|now right].
  destruct (Hh a Ha La) as (a0 & Ha0 & E0 & L0). exists a0. split_and!; [exact Ha0|congruence|exact L0].
Qed.
Lemma vetted_audit w w1 w' : vetted w w1 -> within [TAudit] w1 w' -> vetted w w'.
Proof.
  intros Hv Hw Ht. destruct (Hv Ht) as [T1 Hg]. split; [apply (tidy_side w1); [apply (within_mono [TAudit]); [unfold SIDE; set_solver|exact Hw]|exact T1]|].
  intros a' Ha' L. rewrite (proj2 Hw) in Ha' by set_solver. destruct (Hg a' Ha' L) as [Hold|Hgate]; [now left|right; now apply (gated_audit a' w1)].
Qed.
Lemma audit_publish_within p before after : tracks (within [TAudit]) (audit_publish p before after).
Proof. unfold audit_publish. apply audit_record_within. set_solver. Qed.
Lemma promote_spec a w : let w' := (promoteReservedCoupons a w).2 in
  within [TCouponAssignment; TAudit] w w' /\ Forall (fun c => is_reserved_for a c = false) (rows w' TCouponAssignment).
Proof.
  unfold promoteReservedCoupons, move_reserved. rewrite bind_gets. unfold bind, modify, ret. set (w1 := set_rows TCouponAssignment _ w).
  assert (Hw : within [TCouponAssignment; TAudit] w w1) by (split; [reflexivity|]; intros u Hu; apply rows_set_other; set_solver).
  assert (Hc : Forall (fun c => is_reserved_for a c = false) (rows w1 TCouponAssignment)).
  { unfold w1. rewrite rows_set_same. apply Forall_map, Forall_forall. intros c _. unfold compose. destruct (is_reserved_for a c) eqn:E; [|exact E]. unfold is_reserved_for. rewrite !prop_spread by nodup_keys. cbn. apply andb_false_r. }
  destruct (_ =? 0)%nat; cbn [snd]; [auto|]. unfold audit_record, modify. cbn [snd]. split; [|rewrite rows_set_other by discriminate; exact Hc].
  etransitivity; [exact Hw|]. split; [reflexivity|]. intros u Hu. apply rows_set_other. set_solver.
Qed.
Lemma publishable_truthy q : publishable q -> truthy (q_catalogCampaign q) = true.
Proof. intros Hp%pub_campaign. unfold isCatalogPublishable, isCatalogAssignable in Hp. now destruct (truthy _). Qed.
Lemma go_live_spec i c client sources coupon preferred w o w' a :
  tidy w -> a ∈ rows w TAssignment -> a@."id" = JStr i -> lawful a -> open a = true ->
  (truthy c = true -> c ∈ rows w TCatalogCampaign /\ has_id a@."canonicalCampaignId" c = true) -> client = client_of a w -> sources = loadCatalogSources a@."canonicalCampaignId" w ->
  go_live (JStr i) c client sources coupon preferred w = (o, w') -> vetted w w'.
Proof.
  intros Ht Hin Ei Hl Ho Hcampaign -> -> E. unfold go_live, assertPublishEligibility in E. apply bind_split in E as (g & w0 & Eg & E). rewrite bind_gets in Eg.
  set (q := publish_request _ _ _ _ _ _ w) in Eg. destruct (g_ok (evaluate q)) eqn:Eok; [|injection Eg as <- <-; injection E as _ <-; apply calm_vetted, calm_refl]. injection Eg as <- <-.
  apply publish_gates in Eok; [|reflexivity].
  destruct (Hcampaign (publishable_truthy q Eok)) as [Hc Hcid]. apply bind_split in E as (n & w1 & En & E). pose proof (promote_spec (JStr i) w) as [Hw1 Hres]. rewrite En in Hw1, Hres. cbn [snd] in Hw1, Hres.
  assert (Hside : calm w w1) by (apply side_calm, (within_mono [TCouponAssignment; TAudit]); [unfold SIDE; set_solver|exact Hw1]).
  destruct n as [n|e]; [|injection E as _ <-; now apply calm_vetted]. unfold get_now in E. rewrite bind_gets in E.
  assert (Hin1 : a ∈ rows w1 TAssignment) by (rewrite (proj2 Hw1) by set_solver; exact Hin). pose proof (proj1 (Hside Ht)) as T1. set (data := published_data (now w1)) in E.
  assert (Hsp : spares data) by (split_and!; compute_done). assert (Es : (rewritten data a)@."status" = JStr "ACTIVE") by read_column. assert (Ev : (rewritten data a)@."published" = JBool true) by read_column.
  assert (Hlaw : lawful (rewritten data a)) by (apply lawful_rewritten; [exact Hl|exact Hsp|now rewrite Es|rewrite Ev; eauto|now rewrite Es]).
  intros _. split; [apply (rewrite_tidy i data w1 o w' a); auto|]. pose proof (update_row_within [TAssignment] TAssignment (JStr i) data ltac:(set_solver) w1) as Hw2. rewrite E in Hw2. cbn [snd] in Hw2.
  destruct (update_effect i data w1 o w' a T1 Hin1 Ei E) as [->|[_ Hr]]; [intros a' Ha' L; left; rewrite (proj2 Hw1) in Ha' by set_solver; eauto|].
  intros a' Ha' L. rewrite Hr in Ha'. apply list_elem_of_fmap in Ha' as (x & -> & Hx). destruct (has_id (JStr i) x); [right|left; rewrite (proj2 Hw1) in Hx by set_solver; eauto].
  assert (Hall : within [TCouponAssignment; TAudit; TAssignment] w w') by (etransitivity; eapply within_mono; [|exact Hw1| |exact Hw2]; set_solver).
  assert (Hkeep : forall k, k ∉ map fst data -> prop (rewritten data a) k = prop a k) by (intros k Hk; now apply (spread_rewrites TAssignment a data)).
  pose proof Hall as [Hnow Hrows]. split.
  - exists c, (q_hasCouponAssignment q), (q_hasResolvableTrackingDestination q), (q_preferredSource q). unfold client_of. rewrite !(Hkeep "canonicalCampaignId"), (Hkeep "clientId") by compute_done.
    rewrite (sources_frame _ _ w w' Hall) by set_solver. rewrite !Hrows by set_solver. split; [exact Hc|]. split; [exact Hcid|].
    pose proof (pub_rule _ Eok) as Hrule. change (publishable q) in Eok. destruct q eqn:Eq. cbn in Hrule |- *. unfold publish_request in Eq. injection Eq. intros. subst. exact Eok.
  - rewrite (Hkeep "id"), Hnow, Ei by compute_done. rewrite (Hrows TRule) by set_solver. pose proof (pub_rule _ Eok) as Hrule. unfold q, publish_request in Hrule. cbn in Hrule.
    destruct (findEffectiveForAssignment _ _ _) as [rule|] eqn:Er; [|discriminate]. exists rule. now apply AttributionFacts.rule_effective.
  - rewrite (Hkeep "id"), Ei by compute_done. rewrite (proj2 Hw2) by set_solver. exact Hres.
Qed.

Lemma run_side {A} (c : prog world A) w o w' : tracks (within SIDE) c -> c w = (o, w') -> within SIDE w w'.
Proof. intros Hc E. specialize (Hc w). now rewrite E in Hc. Qed.
(** What a step within [SIDE] leaves *)
Lemma side_keeps w w' a : within SIDE w w' ->
  rows w' TAssignment = rows w TAssignment /\ rows w' TCatalogCampaign = rows w TCatalogCampaign /\ client_of a w' = client_of a w /\
  loadCatalogSources a@."canonicalCampaignId" w' = loadCatalogSources a@."canonicalCampaignId" w.
Proof.
  intros Hw. pose proof Hw as [_ Hr]. unfold client_of. split_and!; [apply Hr; unfold SIDE; set_solver..|rewrite Hr by (unfold SIDE; set_solver); reflexivity|].
  apply (sources_frame _ SIDE); [exact Hw|unfold SIDE; set_solver..].
Qed.
(** The preparation, the gates and the audit of an assignment that is found *)
Lemma live_after {A} (prepare : prog world A) i a c coupon preferred (after : jsval -> prog world unit) w o w' :
  tracks (within SIDE) prepare -> (forall p, tracks (within [TAudit]) (after p)) ->
  tidy w -> a ∈ rows w TAssignment -> a@."id" = JStr i -> lawful a -> open a = true -> (truthy c = true -> c ∈ rows w TCatalogCampaign /\ has_id a@."canonicalCampaignId" c = true) ->
  bind prepare (fun _ => bind (go_live (JStr i) c (client_of a w) (loadCatalogSources a@."canonicalCampaignId" w) coupon preferred) (fun p => bind (after p) (fun _ => ret p))) w = (o, w') -> vetted w w'.
Proof.
  intros Hprep Hafter Ht Hin Ei Hl Ho Hc E. apply bind_split in E as (u & w1 & E1 & E). apply (run_side _ _ _ _ Hprep) in E1. pose proof (side_calm _ _ E1) as C1. apply (vetted_calm w w1 w' C1).
  destruct u as [u|e]; [|injection E as _ <-; apply calm_vetted, calm_refl]. destruct (side_keeps w w1 a E1) as (Ra & Rc & Rk & Rs). apply bind_split in E as (p & w2 & E2 & E).
  assert (V2 : vetted w1 w2).
  { eapply (go_live_spec i c (client_of a w) _ coupon preferred w1 p w2 a); try exact E2; try assumption; [apply (C1 Ht)|now rewrite Ra|now rewrite Rc|now rewrite Rk|now rewrite Rs]. }
  destruct p as [p|e]; [|now injection E as _ <-]. apply (vetted_audit w1 w2 w' V2). pose proof (Hafter p w2) as Hp. apply bind_split in E as (x & w3 & E3 & E). rewrite E3 in Hp. cbn [snd] in Hp. destruct x; injection E as _ <-; exact Hp.
Qed.
Lemma bind_assoc {S A X Y} (c : prog S A) (k : A -> prog S X) (h : X -> prog S Y) s : bind (bind c k) h s = bind c (fun a => bind (k a) h) s.
Proof. unfold bind. now destruct (c s) as [[a|e] s1]. Qed.
Lemma vetted_if w w' : (tidy w -> vetted w w') -> vetted w w'.
Proof. intros Hv Ht. exact (Hv Ht Ht). Qed.
Lemma campaign_found a w : truthy (campaign_of a w) = true -> campaign_of a w ∈ rows w TCatalogCampaign /\ has_id a@."canonicalCampaignId" (campaign_of a w) = true.
Proof. apply AttributionFacts.row_found. Qed.
Lemma publish_vetted id : tracks vetted (publish id).
Proof.
  intros w. unfold publish, bind at 1. destruct (find_assignment id w) as [[a|e] w0] eqn:Ef; [|apply find_assignment_fails in Ef as ->; apply calm_vetted, calm_refl].
  apply find_assignment_ok in Ef as (-> & Hin & Hid). apply vetted_if. intros Ht. destruct (assignment_key id a w Ht Hin Hid) as (i & -> & Ei). pose proof (row_lawful a w Ht Hin) as Hl.
  destruct (_ === "REVOKED") eqn:Er; [apply calm_vetted, calm_refl|]. rewrite !bind_gets, Ei. set (facing := _ |or| _). destruct (bind _ _ w) as [o w'] eqn:E. cbn [snd]. rewrite <- bind_assoc, <- bind_assoc in E.
  eapply live_after in E; [exact E| |intros p; apply audit_publish_within|exact Ht|exact Hin|exact Ei|exact Hl|now apply lawful_open|apply campaign_found]. track.
Qed.

(** *** Assigning *)

Lemma client_found v w : tidy w -> truthy (client_by_id v w) = true -> exists i, v = JStr i /\ row_or_null (List.find (has_id v) (rows w TClient)) = client_by_id v w.
Proof.
  intros Ht Hc. pose proof Hc as Hf. apply AttributionFacts.row_found in Hf as [Hin Hp]. fold (client_by_id v w) in Hin, Hp. apply andb_true_iff in Hp as [Hid _]. set (x := client_by_id v w) in *.
  pose proof (at_clients _ Ht) as Hi. unfold text_ids in Hi. rewrite Forall_forall in Hi. destruct (Hi x Hin) as [i Ei]. exists i. assert (v = JStr i) as -> by exact (CommercialFacts.rule_id i x v Hid Ei). split; [reflexivity|].
  pose proof (find_distinct TClient "id" w x (at_client_ids _ Ht) Hin ltac:(rewrite Ei; apply String.eqb_refl)) as Hf. rewrite Ei in Hf. unfold has_id. now rewrite Hf.
Qed.
Lemma campaign_key v w : tidy w -> truthy (campaign_by_id v w) = true -> exists i, v = JStr i /\ campaign_by_id v w ∈ rows w TCatalogCampaign /\ has_id v (campaign_by_id v w) = true.
Proof.
  intros Ht Hc. apply AttributionFacts.row_found in Hc as [Hin Hp]. fold (campaign_by_id v w) in Hin, Hp. apply andb_true_iff in Hp as [Hid _].
  pose proof (at_campaigns _ Ht) as Hi. unfold text_ids in Hi. rewrite Forall_forall in Hi. destruct (Hi _ Hin) as [i Ei]. exists i. split; [exact (CommercialFacts.rule_id i _ v Hid Ei)|auto].
Qed.
Lemma pair_free clientId campaign w : truthy (findActiveByPair clientId campaign w) = false ->
  Forall (fun a => open a && (col_eq a@."clientId" clientId && col_eq a@."canonicalCampaignId" campaign) = false) (rows w TAssignment).
Proof.
  unfold findActiveByPair. intros Hf. apply Forall_forall. intros a Ha. destruct (open a && _) eqn:E; [exfalso|reflexivity]. apply andb_true_iff in E as [Ho [Hc Hp]%andb_true_iff].
  destruct (List.find _ _) as [x|] eqn:Ex.
  - apply List.find_some in Ex as [_ [[Hx _]%andb_true_iff _]%andb_true_iff]. cbn in Hf. destruct x; discriminate.
  - apply List.find_none with (x := a) in Ex; [|now apply list_elem_of_In]. unfold open in Ho. now rewrite Hc, Hp, Ho in Ex.
Qed.
Lemma create_calm input i c source w r w' : input@."clientId" = JStr i -> truthy (findActiveByPair (JStr i) (JStr c) w) = false ->
  create_row TAssignment (assignment_data input (JStr c) source) w = (Ok r, w') ->
  calm w w' /\ r ∈ rows w' TAssignment /\ lawful r /\ open r = true /\ (exists j, r@."id" = JStr j) /\ r@."clientId" = JStr i /\ r@."canonicalCampaignId" = JStr c.
Proof.
  intros Hi Hfree E. pose proof E as E0. apply create_row_ok in E as (Hr & Hrows & _).
  assert (Hcol : forall k v, assoc k (assignment_data input (JStr c) source) = Some v -> k ∉ "id" :: "createdAt" :: decimal_columns TAssignment -> prop r k = v).
  { intros k v Hk Hx. rewrite Hr. apply created_value; [unfold assignment_data; nodup_keys|exact Hk|exact Hx]. }
  assert (Ec : r@."clientId" = JStr i) by (rewrite <- Hi; apply Hcol; [reflexivity|compute_done]). assert (Ep : r@."canonicalCampaignId" = JStr c) by (apply Hcol; [reflexivity|compute_done]).
  assert (Es : r@."status" = JStr "ASSIGNED") by (apply Hcol; [reflexivity|compute_done]). assert (Ev : r@."published" = JBool false) by (apply Hcol; [reflexivity|compute_done]).
  assert (Hl : lawful r) by (split; [eauto|eauto|now rewrite Es|eauto|unfold live; now rewrite Ev]).
  split_and!; [|rewrite Hrows; set_solver|exact Hl|unfold open; now rewrite Es|rewrite Hr; eexists; reflexivity|exact Ec|exact Ep].
  intros Ht. pose proof (create_row_only TAssignment (assignment_data input (JStr c) source) w) as Honly. rewrite E0 in Honly. cbn [snd] in Honly. split.
  - apply (tidy_rows w); [exact Ht|exact Honly| |rewrite Hrows; apply List.Forall_app; split; [exact (at_lawful _ Ht)|repeat constructor; apply Hl]].
    apply (exclusive_create _ _ _ _ _ _ _ E0); [|exact (at_open _ Ht)]. intros _. eapply Forall_impl; [exact (pair_free _ _ _ Hfree)|]. intros x Hx. unfold same_group, PAIR. cbn [forallb]. rewrite Ec, Ep, andb_true_r.
    destruct (open x) eqn:Eox; [|reflexivity]. cbv beta in Hx. rewrite Eox in Hx. cbn [andb] in *. destruct (prop x "clientId"); try reflexivity. destruct (prop x "canonicalCampaignId"); try apply andb_false_r. exact Hx.
  - intros a' Ha' L. rewrite Hrows in Ha'. apply elem_of_app in Ha' as [Ha'|Ha']; [eauto|]. apply list_elem_of_singleton in Ha' as ->. unfold live in L. rewrite Ev in L. discriminate.
Qed.
(** A new assignment, and one to which a coupon is added *)
Lemma create_new_vetted input c campaign source cms w o w' i :
  tidy w -> input@."clientId" = JStr i -> truthy (findActiveByPair (JStr i) (JStr c) w) = false -> campaign ∈ rows w TCatalogCampaign -> has_id (JStr c) campaign = true ->
  create_new input (row_or_null (List.find (has_id (JStr i)) (rows w TClient))) campaign (JStr c) source cms (loadCatalogSources (JStr c) w) w = (o, w') -> vetted w w'.
Proof.
  intros Ht Hi Hfree Hin Hid E. unfold create_new in E. apply bind_split in E as ([r|e] & w1 & Ec & E); [|apply create_row_fails in Ec as ->; injection E as _ <-; apply calm_vetted, calm_refl].
  pose proof (create_row_within [TAssignment] TAssignment (assignment_data input (JStr c) source) ltac:(set_solver) w) as Hw. rewrite Ec in Hw. cbn [snd] in Hw.
  destruct (create_calm input i c source w r w1 Hi Hfree Ec) as (C1 & Hr & Hl & Ho & (j & Ej) & Eci & Ecc). apply (vetted_calm w w1 w' C1). pose proof (proj1 (C1 Ht)) as T1.
  assert (Ek : client_of r w1 = row_or_null (List.find (has_id (JStr i)) (rows w TClient))) by (unfold client_of; rewrite Eci, (proj2 Hw) by set_solver; reflexivity).
  assert (Es : loadCatalogSources r@."canonicalCampaignId" w1 = loadCatalogSources (JStr c) w) by (rewrite Ecc; apply (sources_frame _ [TAssignment]); [exact Hw|set_solver..]).
  rewrite <- Ek, <- Es, Ej in E. destruct (truthy input@."publish").
  - rewrite <- bind_assoc, <- bind_assoc in E. eapply live_after in E; [exact E| |intros p; apply audit_publish_within|exact T1|exact Hr|exact Ej|exact Hl|exact Ho|].
    + track.
    + intros _. rewrite (proj2 Hw), Ecc by set_solver. auto.
  - rewrite <- bind_assoc in E. apply bind_split in E as (u & w2 & E2 & E). apply calm_vetted, side_calm.
    assert (w' = w2) as -> by (destruct u; now injection E). revert E2. apply run_side. track.
Qed.
Lemma duplicate_vetted input d campaign source cms w o w' i c :
  tidy w -> d ∈ rows w TAssignment -> open d = true -> d@."clientId" = JStr i -> d@."canonicalCampaignId" = JStr c -> campaign ∈ rows w TCatalogCampaign -> has_id (JStr c) campaign = true ->
  attach_to_duplicate input d (row_or_null (List.find (has_id (JStr i)) (rows w TClient))) campaign cms source (loadCatalogSources (JStr c) w) w = (o, w') -> vetted w w'.
Proof.
  intros Ht Hin Ho Ei Ec Hc Hid E. pose proof (row_lawful d w Ht Hin) as Hl. pose proof (ex_ids _ _ _ _ (at_open _ Ht)) as Hids. rewrite Forall_forall in Hids. destruct (Hids d Hin) as [j Ej].
  unfold attach_to_duplicate in E. rewrite Ej in E. apply bind_split in E as (u & w1 & E1 & E). apply run_side in E1; [|track]. pose proof (side_calm _ _ E1) as C1. apply (vetted_calm w w1 w' C1).
  destruct u as [u|e]; [|injection E as _ <-; apply calm_vetted, calm_refl]. destruct (side_keeps w w1 d E1) as (Ra & Rc & Rk & Rs). pose proof (proj1 (C1 Ht)) as T1.
  assert (Hin1 : d ∈ rows w1 TAssignment) by now rewrite Ra. apply bind_split in E as (u2 & w2 & E2 & E).
  assert (Hd : calm w1 w2 /\ within [TAssignment] w1 w2 /\ exists d2, d2 ∈ rows w2 TAssignment /\ forall k, k <> "campaignSourceId" -> prop d2 k = prop d k).
  { destruct (_ && _) in E2; [|injection E2 as _ <-; split_and!; [apply calm_refl|reflexivity|eauto]].
    apply bind_split in E2 as (x & w3 & Eu & E2). assert (w2 = w3) as -> by (destruct x; now injection E2). set (data := [("campaignSourceId", source)]) in Eu.
    assert (Hkeep : forall k, k <> "campaignSourceId" -> prop (rewritten data d) k = prop d k) by (intros k Hk; apply (spread_rewrites TAssignment d data); cbn; set_solver).
    assert (Hsp : spares data) by (split_and!; compute_done). pose proof (update_row_within [TAssignment] TAssignment (JStr j) data ltac:(set_solver) w1) as Hw. rewrite Eu in Hw. cbn [snd] in Hw. split_and!.
    - apply (update_calm j data w1 x w3 d Hin1 Ej Hsp); [|unfold open; now rewrite Hkeep by discriminate|unfold live; now rewrite Hkeep by discriminate|exact Eu].
      apply lawful_rewritten; [exact Hl|exact Hsp|..]; unfold live; rewrite !Hkeep by discriminate; apply Hl.
    - exact Hw.
    - destruct (update_effect j data w1 x w3 d T1 Hin1 Ej Eu) as [->|[_ Hr]]; [eauto|]. exists (rewritten data d). split; [|exact Hkeep]. rewrite Hr. apply list_elem_of_fmap. exists d. split; [|exact Hin1].
      unfold has_id. rewrite Ej. cbn. now rewrite String.eqb_refl. }
  destruct Hd as (C2 & Hw2 & d2 & Hin2 & Hsame). apply (vetted_calm w1 w2 w' C2). destruct u2 as [u2|e]; [|injection E as _ <-; apply calm_vetted, calm_refl]. pose proof (proj1 (C2 T1)) as T2.
  destruct (_ && _) in E; [|injection E as _ <-; apply calm_vetted, calm_refl].
  assert (Ek : client_of d2 w2 = row_or_null (List.find (has_id (JStr i)) (rows w TClient))).
  { unfold client_of. rewrite Hsame, Ei, (proj2 Hw2) by (discriminate || set_solver). rewrite (proj2 E1) by (unfold SIDE; set_solver). reflexivity. }
  assert (Es : loadCatalogSources d2@."canonicalCampaignId" w2 = loadCatalogSources (JStr c) w).
  { rewrite Hsame by discriminate. rewrite (sources_frame _ [TAssignment] w1 w2 Hw2) by set_solver. rewrite Rs, Ec. reflexivity. }
  rewrite <- Ek, <- Es in E. eapply live_after in E; [exact E|track|intros p; apply audit_publish_within|exact T2|exact Hin2|rewrite Hsame by discriminate; exact Ej|now apply (row_lawful d2 w2)|unfold open; rewrite Hsame by discriminate; exact Ho|].
  intros _. rewrite (proj2 Hw2), Rc, Hsame, Ec by (discriminate || set_solver). auto.
Qed.
Lemma create_draft_vetted input : nullish input@."clientRecord" = true -> tracks vetted (createDraft input).
Proof.
  intros Hrec w. unfold createDraft, audited_transaction. destruct (create_draft input w) as [[r|e] w'] eqn:E; [cbn [snd]|apply calm_vetted, side_calm, side_rows]. apply vetted_if. intros Ht.
  unfold create_draft in E. rewrite bind_gets in E.
  assert (Hco : forall v, (input@."clientRecord" ?? v) = v) by (intros v; unfold coalesce; now rewrite Hrec). rewrite !Hco in E. destruct (truthy (client_by_id _ w)) eqn:Ecl; [|discriminate]. cbn [negb] in E.
  destruct (client_found _ w Ht Ecl) as (i & Ei & Efind). destruct (_ === "OFFBOARDED"); [discriminate|]. apply bind_ok in E as (t & w1 & Et & E).
  pose proof (target_calm input w) as C1. pose proof (catalog_target input w) as Hw1. rewrite Et in C1, Hw1. cbn [snd] in C1, Hw1. apply (vetted_calm w w1 w' C1). pose proof (proj1 (C1 Ht)) as T1.
  assert (Hclients : rows w1 TClient = rows w TClient) by (apply Hw1; unfold CATALOG; set_solver). rewrite <- Efind, Ei, <- Hclients in E. rewrite bind_gets in E.
  destruct (truthy (campaign_by_id _ w1)) eqn:Ecc; [|discriminate]. cbn [negb] in E. destruct (campaign_key _ w1 T1 Ecc) as (c & Ec & Hin & Hid). rewrite Ec in *. rewrite !bind_gets in E.
  apply bind_ok in E as (source & w2 & [_ ->]%lift_ok & E). destruct (_ && _); [discriminate|]. apply bind_ok in E as (g & w2 & [_ ->]%lift_ok & E). rewrite bind_gets in E.
  destruct (truthy (findActiveByPair _ _ w1)) eqn:Ed.
  - cbn [andb] in E. destruct (truthy _) in E; [|discriminate]. apply AttributionFacts.row_found in Ed as Hd. fold (findActiveByPair (JStr i) (JStr c) w1) in Hd. destruct Hd as [Hdin [[Hdc Hdp]%andb_true_iff Hdo]%andb_true_iff].
    apply col_eq_str in Hdc, Hdp. now apply (duplicate_vetted input _ _ source _ w1 _ w' i c T1 Hdin Hdo Hdc Hdp Hin Hid) in E.
  - cbn [andb] in E. now apply (create_new_vetted input c _ source _ w1 _ w' i T1 Ei Ed Hin Hid) in E.
Qed.

(** *** The service *)

Lemma update_vetted id input : input@."status" = JUndef -> tracks vetted (update id input).
Proof.
  intros Hs. assert (Hlc : {s | In s ["published"; "draft"; "paused"; "archived"] /\ (input@."lifecycle" === s) = true} + {forall s, In s ["published"; "draft"; "paused"; "archived"] -> (input@."lifecycle" === s) = false}).
  { destruct (input@."lifecycle" === "published") eqn:E1; [left; exists "published"; cbn; tauto|]. destruct (input@."lifecycle" === "draft") eqn:E2; [left; exists "draft"; cbn; tauto|].
    destruct (input@."lifecycle" === "paused") eqn:E3; [left; exists "paused"; cbn; tauto|]. destruct (input@."lifecycle" === "archived") eqn:E4; [left; exists "archived"; cbn; tauto|].
    right. intros s [<-|[<-|[<-|[<-|[]]]]]; assumption. }
  destruct Hlc as [(s & Hin & E)|Hlc]; [|intros w; now apply calm_vetted, edit_calm]. intros w. unfold update, bind at 1. destruct (find_assignment id w) as [[a|e] w0] eqn:Ef; [|apply find_assignment_fails in Ef as ->; apply calm_vetted, calm_refl].
  apply find_assignment_ok in Ef as (-> & _ & _). apply is_str_eq in E. rewrite E. destruct Hin as [<-|[<-|[<-|[<-|[]]]]]; cbn [is_str String.eqb Ascii.eqb Bool.eqb].
  - apply publish_vetted.
  - apply calm_vetted, unpublish_calm.
  - apply calm_vetted, pause_calm.
  - apply calm_vetted, archive_calm.
Qed.
Inductive assignment_call :=
| Draft (input : jsval) | Live (id : jsval) | Hold (id : jsval) | Withdraw (id : jsval) | Retire (id : jsval) | Edit (id input : jsval).
Definition run_assignment (call : assignment_call) (w : world) : world :=
  match call with
  | Draft input => (createDraft input w).2
  | Live id => (publish id w).2
  | Hold id => (pause id w).2
  | Withdraw id => (unpublish id w).2
  | Retire id => (archive id w).2
  | Edit id input => (update id input w).2
  end.
(** The client is looked up, not handed over with the call; an update leaves the status to the lifecycle. *)
Definition call_ok (call : assignment_call) : Prop :=
  match call with Draft input => nullish input@."clientRecord" = true | Edit _ input => input@."status" = JUndef | _ => True end.
Lemma run_vetted call w : call_ok call -> vetted w (run_assignment call w).
Proof.
  destruct call as [input|id|id|id|id|id input]; cbn [call_ok run_assignment]; intros Hok.
  - now apply create_draft_vetted.
  - apply publish_vetted.
  - apply calm_vetted, pause_calm.
  - apply calm_vetted, unpublish_calm.
  - apply calm_vetted, archive_calm.
  - now apply update_vetted.
Qed.


(** *** What the client is shown *)

Definition related (a : jsval) (w : world) : jsval := with_relation (with_relation a "canonicalCampaign" (campaign_of a w)) "client" (client_of a w).
Lemma publishable_open c : isCatalogPublishable c = truthy c && campaign_open c.
Proof.
  unfold isCatalogPublishable, isCatalogAssignable, campaign_open. destruct (truthy c), (nullish c@."deletedAt"); try reflexivity. cbn [negb orb andb].
  destruct (prop c "status") as [| | | |st| | |]; try (cbn; now destruct (_ === "HIDDEN")). cbn. destruct (String.eqb_spec st "ARCHIVED") as [->|]; [reflexivity|]. destruct (st =s? "PUBLISHED"), (_ === "HIDDEN"); reflexivity.
Qed.
Lemma visible_related a k w : isAssignmentVisibleToClient (related a w) k (campaign_of a w) =
  isClientEligible k && (truthy (campaign_of a w) && campaign_open (campaign_of a w)) && (is_true a@."published" && (a@."status" === "ACTIVE")).
Proof.
  unfold isAssignmentVisibleToClient. assert (Ec : (campaign_of a w ?? (related a w)@."canonicalCampaign") = campaign_of a w).
  { unfold related. rewrite !prop_relation. cbn. unfold coalesce. now destruct (nullish _). }
  rewrite Ec, publishable_open. unfold related at 1 2 3. rewrite !prop_relation. cbn [String.eqb Ascii.eqb Bool.eqb truthy with_relation spread negb].
  destruct (isClientEligible k); [|reflexivity]. destruct (truthy (campaign_of a w) && _); reflexivity.
Qed.
Lemma listed_row i a w : (match buildPartnerWhere (JObj [("clientId", JStr i)]) with Ok p => p w a | Throw _ => false end) =
  negb (i =s? "") && col_eq a@."clientId" (JStr i) && (truthy (campaign_of a w) && campaign_open (campaign_of a w)) && (is_true a@."published" && (a@."status" === "ACTIVE")).
Proof.
  set (f := JObj _). unfold buildPartnerWhere, campaign_matches, search_matches. change (f@."clientId") with (JStr i). change (f@."category") with JUndef. change (f@."country") with JUndef.
  change (f@."brand") with JUndef. change (f@."search") with JUndef. cbn [truthy negb orb andb]. destruct (i =s? ""); [reflexivity|]. cbn [negb andb].
  destruct (col_eq _ _), (truthy _), (campaign_open _), (_ === "ACTIVE"), (is_true _); reflexivity.
Qed.
(** A visit of a link of an assignment that is visible to its client is not refused. *)
Lemma visible_visited l a w : isAssignmentVisibleToClient (related a w) (client_of a w) (campaign_of a w) = true -> in_enum ["ACTIVE"; "GENERATED"] l@."status" = true -> nullish l@."deletedAt" = true ->
  TrackingRedirect.assertLive (with_relation l "assignment" (related a w)) = Ok tt.
Proof.
  rewrite visible_related. intros [[Hk [Hct Hco]%andb_true_iff]%andb_true_iff [Hp Ha]%andb_true_iff]%andb_true_iff Hs Hd.
  unfold isClientEligible in Hk. apply andb_true_iff in Hk as [[_ Hkd]%andb_true_iff Hks]. unfold campaign_open in Hco. apply andb_true_iff in Hco as [[Hcd Hcs]%andb_true_iff Hcv]. apply negb_true_iff in Hcv.
  assert (Hfalse : forall v, nullish v = true -> truthy v = false) by now intros []. assert (Hother : forall v s t, (v === s) = true -> (s =s? t) = false -> (v === t) = false).
  { intros v x t Hx Hxt. destruct v; try discriminate. cbn in *. apply String.eqb_eq in Hx. now subst. }
  set (L := with_relation l _ _). assert (EL : L@."status" = l@."status" /\ L@."deletedAt" = l@."deletedAt" /\ L@."assignment" = related a w) by (unfold L; rewrite !prop_relation; auto). destruct EL as (El1 & El2 & El3).
  assert (ER : (related a w)@."status" = a@."status" /\ (related a w)@."published" = a@."published" /\ (related a w)@."client" = client_of a w /\ (related a w)@."canonicalCampaign" = campaign_of a w)
    by (unfold related; rewrite !prop_relation; auto). destruct ER as (Er1 & Er2 & Er3 & Er4).
  assert (Hrev : (l@."status" === "REVOKED") = false).
  { unfold in_enum in Hs. destruct (prop l "status"); try reflexivity. cbn in *. destruct (String.eqb_spec s "REVOKED") as [->|]; [discriminate|reflexivity]. }
  unfold TrackingRedirect.assertLive. rewrite El3, El1, El2, Er1, Er2, Er3, Er4, Hrev, Hs, (Hfalse _ Hd), (Hother _ _ "REVOKED" Ha), Ha, Hks, (Hfalse _ Hkd), Hct, (Hfalse _ Hcd), (Hother _ _ "ARCHIVED" Hcs), Hcv by reflexivity.
  destruct (prop a "published") as [| |[]| | | | |]; try discriminate. reflexivity.
Qed.

End Facts.
End AssignmentFacts.
