(* ===== verification/Commissions.v ===== *)
(** * The commissions a supplier states

    [modules/ops/campaignCommissions.js]: the commission facts in what a network sends about a campaign,
    whether texts ("8.20% Or $17.50"), numbers with a model, or nested groups of them; the basis of a
    payout; the window in which a fact applies; the average, least and greatest commission that are shown.
    A fact is a record; the values it is read from are JavaScript values.  Nested values are read to their
    depth, which is the fuel of the recursions. *)

From Stdlib Require Import SpecFloat.
From S2P Require Import Prelude JsNum JsVal JsDate Tracking TrackingLinks.
Import TrackingUrl SupplierDestination.
Local Open Scope Z_scope.

Module CampaignCommissions.
Section Commissions.
Context {H : JsHost}.

(** ** Numbers *)

Definition is_char (a c : ascii) : bool := (c =? a)%char.
Fixpoint without (p : ascii -> bool) (s : string) : string :=
  match s with EmptyString => EmptyString | String c s' => if p c then without p s' else String c (without p s') end.
Definition finite_or_none (n : num) : option num := if is_finite n then Some n else None.
Definition explicitNumber (value : jsval) : option num :=
  match value with
  | JNum n => finite_or_none n
  | JStr s => let text := trim (without (is_char ",") s) in if text =s? "" then None else finite_or_none (string_to_num text)
  | _ => None
  end.
Definition isInteger (x : num) : bool := is_finite x && neqb (nfloor x) x.
(** [s.replace(/\.?0+$/, "")] *)
Fixpoint zeros_only (s : string) : bool := match s with EmptyString => true | String c s' => is_char "0" c && zeros_only s' end.
Fixpoint drop_zeros (s : string) : string :=
  match s with
  | EmptyString => EmptyString
  | String c s' => if (is_char "0" c && zeros_only s') || (is_char "." c && negb (s' =s? "") && zeros_only s') then EmptyString else String c (drop_zeros s')
  end.
Definition trimNum (n : num) : string :=
  if isInteger n then num_to_string n else drop_zeros (num_to_string (string_to_num (num_toFixed 4 n))).

(** *** A number in a text

    The patterns of the source take as many digits as there are, and no shorter match can go on where the longest
    does not. *)

Definition is_digit (c : ascii) : bool := match char_digit c with Some _ => true | None => false end.
(** [\d*], with the rest *)
Fixpoint take_digits_text (s : string) : string * string :=
  match s with
  | String c s' => if is_digit c then let '(a, b) := take_digits_text s' in (String c a, b) else ("", s)
  | EmptyString => ("", "")
  end.
(** [-?\d+(?:[p]\d+)?] at the start of [s] *)
Definition take_number (p : ascii -> bool) (s : string) : option (string * string) :=
  let '(sign, s) := match s with String c s' => if is_char "-" c then ("-", s') else ("", s) | EmptyString => ("", s) end in
  let '(whole, rest) := take_digits_text s in
  if whole =s? "" then None
  else Some (match rest with
             | String c rest' => let '(frac, rest'') := take_digits_text rest' in
                                 if p c && negb (frac =s? "") then (sign +:+ whole +:+ String c frac, rest'') else (sign +:+ whole, rest)
             | EmptyString => (sign +:+ whole, rest)
             end).
Definition point (c : ascii) : bool := is_char "." c.
Definition point_or_comma (c : ascii) : bool := point c || is_char "," c.
Fixpoint first_number (s : string) : option string :=
  match take_number point s with
  | Some (n, _) => Some n
  | None => match s with EmptyString => None | String _ s' => first_number s' end
  end.

(** ** Nested values *)

Fixpoint depth (v : jsval) : nat :=
  match v with
  | JArr l => S (fold_right (fun w n => Nat.max (depth w) n) O l)
  | JObj fields => S (fold_right (fun kv n => Nat.max (depth kv.2) n) O fields)
  | _ => O
  end.
Definition numeric_scalar (value : jsval) : option num :=
  match first_number (without (is_char ",") (trim (js_string value))) with
  | Some n => finite_or_none (string_to_num n)
  | None => None
  end.
Fixpoint numeric_from (fuel : nat) (value : jsval) : option num :=
  if blank value then None
  else if is_object value then
    match fuel with
    | O => None
    | S f => numeric_from f (value@."amount" ?? value@."value" ?? value@."rate" ?? value@."performance_value" ?? value@."commission")
    end
  else numeric_scalar value.
Definition numericFrom (value : jsval) : option num := numeric_from (depth value) value.

(** ** Currencies *)

(** [code.trim().toUpperCase().slice(0, 3)], if it is three letters *)
Definition is_upper (c : ascii) : bool := let n := nat_of_ascii c in ((65 <=? n) && (n <=? 90))%nat.
Definition currency_code (s : string) : option string :=
  let code := slice 0 3 (to_upper (trim s)) in if (String.length code =? 3)%nat && all_chars is_upper code then Some code else None.
Definition code_or (s : string) (fallback : jsval) : jsval := match currency_code s with Some code => JStr code | None => fallback |or| JNull end.
Fixpoint currency_from (fuel : nat) (entry fallback : jsval) : jsval :=
  match entry with
  | JUndef | JNull => fallback |or| JNull
  | JStr s => code_or s fallback
  | JArr _ | JObj _ | JDate _ =>
      let raw := entry@."currency" ?? entry@."currency_code" ?? entry@."currencyCode" ?? entry@."iso" ?? entry@."code" ?? JNull in
      match fuel with
      | S f => if is_object raw then currency_from f raw fallback else if blank raw then fallback |or| JNull else code_or (js_string raw) fallback
      | O => if blank raw then fallback |or| JNull else code_or (js_string raw) fallback
      end
  | _ => fallback |or| JNull
  end.
Definition currencyFrom (entry fallback : jsval) : jsval := currency_from (depth entry) entry fallback.
Definition symbolCurrency (symbol : string) : option string :=
  let s := to_lower symbol in
  if starts_with "s$" s then Some "SGD"
  else if starts_with "hk$" s then Some "HKD"
  else if (s =s? "au$") || (s =s? "a$") then Some "AUD"
  else if starts_with "nz$" s then Some "NZD"
  else if (s =s? "ca$") || (s =s? "c$") then Some "CAD"
  else if starts_with "us$" s || (s =s? "$") then Some "USD"
  else if s =s? "£" then Some "GBP"
  else if s =s? "€" then Some "EUR"
  else if s =s? "rp" then Some "IDR"
  else if s =s? "rm" then Some "MYR"
  else if (s =s? "rs") || (s =s? "rs.") || (s =s? "₹") then Some "INR"
  else None.

(** ** Models and bases *)

Inductive kind := PERCENT | FIXED.
Definition kind_text (k : kind) : string := match k with PERCENT => "PERCENT" | FIXED => "FIXED" end.
Definition is_kind (k k' : kind) : bool := match k, k' with PERCENT, PERCENT | FIXED, FIXED => true | _, _ => false end.
Definition mentions (words : list string) (s : string) : bool := existsb (includes s) words.
Fixpoint first_given (entry : jsval) (names : list string) (fallback : jsval) : jsval :=
  match names with [] => fallback | k :: names => prop entry k ?? first_given entry names fallback end.
(** [Some true]: a percentage, [Some false]: an amount *)
Definition looksPercent (entry : jsval) (valueText : string) (fallbackUnit : jsval) : option bool :=
  let model := to_lower (js_string (first_given entry ["model"; "performance_model"; "type"; "payout_type"; "commissionType"; "commission_type"] (JStr ""))) in
  let unit := to_upper (js_string (fallbackUnit |or| JStr "")) in
  if includes valueText "%" then Some true
  else if mentions ["percent"; "revshare"; "sale-share"; "cps"; "share"] model then Some true
  else if mentions ["fix"; "flat"; "cpa"; "cpl"; "cpc"; "cpi"; "cpm"; "amount"; "fixed cost"] model && negb (includes model "percent") then Some false
  else if unit =s? "PERCENT" then Some true
  else if (unit =s? "FLAT") || (unit =s? "FIXED") then Some false
  else None.
Definition basis_of_text (text : string) (k : option kind) : string :=
  let amount := mentions ["FIX"; "FLAT"; "AMOUNT"] text in
  let percent := match k with Some PERCENT => true | _ => false end in
  match List.find (fun word => has_word false word text) ["CPA"; "CPL"; "CPI"; "CPC"; "CPM"] with
  | Some basis => basis
  | None =>
      if has_word false "CPS" text then if percent then "PERCENT_OF_SALE" else "CPS"
      else if includes text "ITEM" && amount then "FIXED_PER_ITEM"
      else if includes text "ORDER" && amount then "FIXED_PER_ORDER"
      else match k with Some PERCENT => "PERCENT_OF_SALE" | Some FIXED => "FIXED_AMOUNT" | None => "UNKNOWN" end
  end.
Definition payoutBasisFrom (entry fallbackUnit : jsval) (k : option kind) : string :=
  basis_of_text (to_upper (js_string (first_given entry
    ["basis"; "model"; "performance_model"; "performanceModel"; "pricing_model"; "pricingModel"; "type"; "payout_type"; "commissionType"; "commission_type"]
    (fallbackUnit ?? JStr "")))) k.
Definition payoutBasisFromText (text : jsval) (k : option kind) : string :=
  if blank text then payoutBasisFrom (JObj []) JNull k else payoutBasisFrom (JObj [("basis", JStr (js_string text))]) JNull k.

(** ** Facts *)

Record fact := Fact { f_kind : kind; f_value : num; f_currency : jsval; f_basis : string; f_display : string; f_from : jsval; f_until : jsval }.
Definition with_basis (basis : string) (f : fact) : fact := Fact (f_kind f) (f_value f) (f_currency f) basis (f_display f) (f_from f) (f_until f).
Definition firstDefined (values : list jsval) : jsval := match List.find (fun v => negb (blank v)) values with Some v => v | None => JNull end.
Definition window_field (entry : jsval) (names : list string) : jsval := if is_object entry then firstDefined (map (prop entry) names) else JNull.
Definition withEffectiveWindow (facts : list fact) (entry : jsval) : list fact :=
  let from := window_field entry ["effectiveFrom"; "effective_from"; "startDate"; "start_date"; "validFrom"; "valid_from"] in
  let until := window_field entry ["effectiveUntil"; "effective_until"; "endDate"; "end_date"; "validUntil"; "valid_until"] in
  map (fun f => Fact (f_kind f) (f_value f) (f_currency f) (f_basis f) (f_display f) (f_from f ?? from) (f_until f ?? until)) facts.
Definition parseDate (value : jsval) : option (option Z) := if blank value then None else Some (new_date value).
Definition classifyCommissionFactWindow (f : fact) (at_ : option Z) : string :=
  match at_ with
  | None => "REVIEW_REQUIRED"
  | Some current =>
      match parseDate (f_from f), parseDate (f_until f) with
      | Some None, _ | _, Some None => "REVIEW_REQUIRED"
      | from, until =>
          let a := match from with Some t => t | None => None end in
          let b := match until with Some t => t | None => None end in
          if match a, b with Some a, Some b => b <=? a | _, _ => false end then "REVIEW_REQUIRED"
          else if match a with Some a => current <? a | None => false end then "FUTURE"
          else if match b with Some b => b <=? current | None => false end then "EXPIRED"
          else "ACTIVE"
      end
  end.
Definition text_or_blank (v : jsval) : string := js_string (v |or| JStr "").
Definition factKey (f : fact) : string :=
  join "|" [kind_text (f_kind f); num_to_string (f_value f); text_or_blank (f_currency f); f_basis f; text_or_blank (f_from f); text_or_blank (f_until f); f_display f].
Definition makePercentFact (value : option num) (upTo : bool) (basis : string) : list fact :=
  match value with
  | Some n => if is_finite n then [Fact PERCENT n JNull basis ((if upTo then "Up to " else "") +:+ trimNum n +:+ "%") JUndef JUndef] else []
  | None => []
  end.
Definition makeFixedFact (value : option num) (currency : jsval) (basis : string) : list fact :=
  match value with
  | Some n => if is_finite n
              then [Fact FIXED n (currency |or| JNull) basis (if truthy currency then js_string currency +:+ " " +:+ trimNum n else trimNum n) JUndef JUndef]
              else []
  | None => []
  end.
(** ** Texts *)

(** [s.matchAll(re)]: the matches with their ends; [skip] characters belong to the last one. *)
Fixpoint scan {A} (match_at : string -> option (A * string)) (skip pos : nat) (s : string) : list (nat * nat * A) :=
  match s with
  | EmptyString => []
  | String _ s' =>
      match skip, match_at s with
      | S k, _ => scan match_at k (S pos) s'
      | O, Some (a, rest) => let n := (String.length s - String.length rest)%nat in (pos, pos + n, a)%nat :: scan match_at (n - 1) (S pos) s'
      | O, None => scan match_at O (S pos) s'
      end
  end.
(** [p] at the start, whatever the case *)
Definition strip_word (p s : string) : option string := if starts_with p (to_lower s) then Some (string_drop (String.length p) s) else None.
(** "up", white space, "to", white space *)
Definition strip_up_to (s : string) : option string :=
  match strip_word "up" s with
  | Some rest => option_map trim_left (strip_word "to" (trim_left rest))
  | None => None
  end.
(** A number followed by [\s*%], after "up to" or not *)
Definition percent_at (s : string) : option (bool * string * string) :=
  let '(upTo, s) := match strip_up_to s with Some rest => (true, rest) | None => (false, s) end in
  match take_number point_or_comma s with
  | Some (n, rest) => match trim_left rest with
                      | String c rest' => if is_char "%" c then Some (upTo, n, rest') else None
                      | EmptyString => None
                      end
  | None => None
  end.
Definition CODES : list string := ["usd"; "aed"; "sar"; "gbp"; "eur"; "idr"; "myr"; "sgd"; "hkd"; "thb"; "inr"].
Definition SYMBOLS : list string := ["s$"; "hk$"; "au$"; "nz$"; "ca$"; "us$"; "a$"; "c$"; "rp"; "rm"; "rs."; "rs"] ++ CODES ++ ["£"; "€"; "$"; "₹"].
Definition first_some {A B} (f : A -> option B) (l : list A) : option B := fold_right (fun x rest => match f x with Some y => Some y | None => rest end) None l.
(** The symbol or code and the number of an amount *)
Definition symbol_at (s : string) : option (string * string * string) :=
  first_some (fun symbol => match strip_word symbol s with
                            | Some rest => option_map (fun nr => (string_take (String.length symbol) s, nr.1, nr.2)) (take_number point_or_comma (trim_left rest))
                            | None => None
                            end) SYMBOLS.
Definition code_at (s : string) : option (string * string * string) :=
  match take_number point_or_comma s with
  | Some (n, rest) => let rest := trim_left rest in
                      first_some (fun code => option_map (fun rest' => (string_take 3 rest, n, rest')) (strip_word code rest)) CODES
  | None => None
  end.
Definition money_at (s : string) : option (string * string * bool * string) :=
  match symbol_at s, code_at s with
  | Some (symbol, n, rest), _ => Some (symbol, n, true, rest)
  | None, Some (code, n, rest) => Some (code, n, false, rest)
  | None, None => None
  end.
Definition comma_as_point (c : ascii) : ascii := if is_char "," c then "."%char else c.
Definition overlaps (used : list (nat * nat)) (start end_ : nat) : bool := existsb (fun u => (start <? u.2)%nat && (u.1 <? end_)%nat) used.
Definition percent_matches (s : string) : list (nat * nat * (bool * num)) :=
  List.filter (fun m => is_finite m.2.2) (map (fun m => (m.1, (m.2.1, string_to_num (map_string comma_as_point m.2.2)))) (scan percent_at O O s)).
Definition money_fact (symbol n : string) (before : bool) : list fact :=
  let amount := string_to_num (without (is_char ",") n) in
  let currency := match (if before then symbolCurrency symbol else None) with Some c => JStr c | None => currencyFrom (JStr symbol) JNull end in
  if is_finite amount then makeFixedFact (Some amount) currency "FIXED_AMOUNT" else [].
Definition parseCommissionText (text : jsval) : list fact :=
  if blank text || is_object text then []
  else
    let s := js_string text in
    let percents := percent_matches s in
    let used := map fst percents in
    flat_map (fun m => makePercentFact (Some m.2.2) m.2.1 "PERCENT_OF_SALE") percents
    ++ flat_map (fun m => let '((start, end_), (symbol, n, before)) := m in if overlaps used start end_ then [] else money_fact symbol n before) (scan money_at O O s).

(** ** Entries *)

Definition isPresent (value : jsval) : bool :=
  match value with JUndef | JNull | JBool _ => false | JStr s => negb (trim s =s? "") | _ => true end.
Definition GENERIC_KEYS : list string := ["value"; "commission"; "performance_value"; "amount"; "rate"; "payout_value"; "commissionCost"].
Definition PERCENT_VALUE_KEYS : list string := ["percentage"; "percent"; "rate_percent"; "ratePercent"].
Definition FIXED_VALUE_KEYS : list string := ["fixed"; "fixed_amount"; "fixedAmount"].
Definition commissionValueField (entry : jsval) : jsval * option kind :=
  let scalar v := isPresent v && negb (is_object v) in
  match List.find isPresent (map (prop entry) GENERIC_KEYS), List.find scalar (map (prop entry) PERCENT_VALUE_KEYS), List.find scalar (map (prop entry) FIXED_VALUE_KEYS) with
  | Some v, _, _ => (v, None)
  | None, Some v, _ => (v, Some PERCENT)
  | None, None, Some v => (v, Some FIXED)
  | None, None, None => (JNull, None)
  end.
Definition UNIT_WORDS : list string := ["or"; "rp"; "rm"; "rs"] ++ CODES.
(** [/%|\bor\b|\$|£|€|₹|\b(?:rp|rm|rs\.?|usd|...)\b/i]: "rs" is a word wherever "rs." is followed by one. *)
Definition has_unit (s : string) : bool := mentions ["%"; "$"; "£"; "€"; "₹"] s || existsb (fun word => has_word false word (to_lower s)) UNIT_WORDS.
Definition is_text (v : jsval) : bool := match v with JStr _ => true | _ => false end.
Definition fact_of (percent : option bool) (n : option num) (entry fallbackUnit currency : jsval) : list fact :=
  match percent with
  | Some false => makeFixedFact n currency (payoutBasisFrom entry fallbackUnit (Some FIXED))
  | _ => makePercentFact n false (payoutBasisFrom entry fallbackUnit (Some PERCENT))
  end.
Definition scalar_facts (entry fallbackUnit fallbackCurrency : jsval) : list fact :=
  match parseCommissionText entry with
  | [] => match numericFrom entry with
          | None => []
          | n => fact_of (looksPercent (JObj []) (js_string entry) fallbackUnit) n (JObj []) fallbackUnit fallbackCurrency
          end
  | facts => facts
  end.
(** The facts of an entry whose value is not nested *)
Definition entry_facts (entry valueField : jsval) (keyedKind : option kind) (fallbackUnit fallbackCurrency : jsval) : list fact :=
  let parsed := if is_text valueField && (has_unit (js_string valueField) || is_text entry@."type") then parseCommissionText valueField else [] in
  match parsed, numericFrom valueField with
  | _ :: _, _ => withEffectiveWindow (map (fun f => with_basis (payoutBasisFrom entry fallbackUnit (Some (f_kind f))) f) parsed) entry
  | [], None => []
  | [], n =>
      let valueText := if nullish valueField then "" else js_string valueField in
      let percent := match keyedKind with Some FIXED => Some false | Some PERCENT => Some true | None => looksPercent entry valueText fallbackUnit end in
      withEffectiveWindow (fact_of percent n entry fallbackUnit (currencyFrom entry fallbackCurrency)) entry
  end.
Fixpoint structured_facts (fuel : nat) (entry fallbackUnit fallbackCurrency : jsval) : list fact :=
  if blank entry then []
  else if negb (is_object entry) then scalar_facts entry fallbackUnit fallbackCurrency
  else
    let '(valueField, keyedKind) := commissionValueField entry in
    match fuel with
    | S f => if is_object valueField then withEffectiveWindow (structured_facts f valueField fallbackUnit (currencyFrom entry fallbackCurrency)) entry
             else entry_facts entry valueField keyedKind fallbackUnit fallbackCurrency
    | O => entry_facts entry valueField keyedKind fallbackUnit fallbackCurrency
    end.
Definition structuredFacts (entry fallbackUnit fallbackCurrency : jsval) : list fact := structured_facts (depth entry) entry fallbackUnit fallbackCurrency.
(** ** Groups *)

Definition isEmptyBag (value : jsval) : bool := blank value || match value with JArr [] => true | _ => false end.
(** [Object.values(v)] *)
Fixpoint characters (s : string) : list jsval := match s with EmptyString => [] | String c s' => JStr (String c "") :: characters s' end.
Definition object_values (v : jsval) : list jsval :=
  match v with JArr l => l | JObj fields => map snd fields | JStr s => characters s | _ => [] end.
Definition all_digits (s : string) : bool := negb (s =s? "") && all_chars is_digit s.
Definition keyedCommissionBag (input : jsval) : option (list jsval) :=
  match input with
  | JObj fields =>
      if existsb (fun k => negb (nullish (prop input k))) ["value"; "amount"; "rate"; "performance_value"; "payout_value"] then None
      else match fields with
           | [] => None
           | _ => if forallb (fun kv => all_digits kv.1) fields || (forallb (fun kv => is_object kv.2) fields && nullish input@."type" && nullish input@."model")
                  then Some (map snd fields) else None
           end
  | _ => None
  end.
Definition GROUP_KEYS : list string := ["groups"; "commissionGroups"; "commission_groups"; "commissionGroup"; "commissions"; "active_commissions"].
(** [input.groups || input.commissionGroups || ...] *)
Definition nested_groups (input : jsval) : jsval := fold_right (fun k rest => prop input k |or| rest) input@."active_commissions" (removelast GROUP_KEYS).
Definition merged_group (input group : jsval) : jsval :=
  spread (if is_object group then spread input group else with_prop input "value" group) (JObj (map (fun k => (k, JUndef)) GROUP_KEYS)).
Fixpoint flatten_entries (fuel : nat) (input : jsval) : list jsval :=
  if isEmptyBag input then []
  else match fuel, input with
       | S f, JArr l => flat_map (flatten_entries f) l
       | S f, (JObj _ | JDate _) =>
           let nested := nested_groups input in
           if negb (isEmptyBag nested) then map (merged_group input) (flat_map (flatten_entries f) (object_values nested))
           else match keyedCommissionBag input with
                | Some items => flat_map (flatten_entries f) items
                | None => [input]
                end
       | _, _ => [input]
       end.
Definition flattenCommissionEntries (input : jsval) : list jsval := flatten_entries (depth input) input.
Definition RAW_KEYS : list string := ["payouts"; "commissions"; "active_commissions"; "commissionGroups"; "commission_groups"; "commissionGroup"; "commission"; "commissionCost"].
Definition collectSourceEntries (groups raw : jsval) : list jsval :=
  flat_map flattenCommissionEntries (List.filter (fun bag => negb (isEmptyBag bag)) (groups :: if is_object raw then map (prop raw) RAW_KEYS else [])).

(** ** The facts of a campaign *)

Definition push_fact (collected : list fact) (f : fact) : list fact :=
  if (f_display f =s? "") || existsb (fun g => factKey g =s? factKey f) collected then collected else collected ++ [f].
Definition distinct_facts (facts : list fact) : list fact := fold_left push_fact facts [].
Record campaign := Campaign { c_groups : jsval; c_commissionUnit : jsval; c_currency : jsval; c_defaultValue : jsval; c_raw : jsval }.
Definition collected_facts (c : campaign) : list fact :=
  match distinct_facts (flat_map (fun entry => structuredFacts entry (c_commissionUnit c) (c_currency c)) (collectSourceEntries (c_groups c) (c_raw c))) with
  | [] => distinct_facts (structuredFacts (JObj [("value", c_defaultValue c); ("currency", c_currency c); ("model", c_commissionUnit c)]) (c_commissionUnit c) (c_currency c))
  | collected => collected
  end.

Record summary := Summary {
  s_comparable : bool; s_kind : option string; s_count : nat; s_average : option num; s_min : option num; s_max : option num; s_currency : jsval; s_basis : option string;
  s_averageDisplay : option string; s_minDisplay : option string; s_maxDisplay : option string }.
Definition normalized (facts : list fact) : list fact :=
  map (fun f => if includes (f_display f) "%" then Fact PERCENT (f_value f) (f_currency f) (f_basis f) (f_display f) (f_from f) (f_until f) else f) facts.
Definition num_sum (l : list num) : num := fold_left nadd l n0.
Definition all_same (l : list string) : bool := match l with [] => true | x :: l => forallb (String.eqb x) l end.
Definition mixed (count : nat) : summary :=
  Summary false (Some "MIXED") count None None None JNull None (Some "MIXED") (Some "MIXED") (Some "MIXED").
Definition comparable (k : kind) (facts : list fact) (currency : jsval) (basis : string) : summary :=
  let values := map f_value facts in
  let average := ndiv (num_sum values) (num_of_Z (Z.of_nat (length values))) in
  let least := fold_left nmin values pinf in
  let greatest := fold_left nmax values ninf in
  let format n := match explicitNumber (JNum n) with
                  | Some n => Some (match k with PERCENT => trimNum n +:+ "%" | FIXED => if truthy currency then js_string currency +:+ " " +:+ trimNum n else trimNum n end)
                  | None => None
                  end in
  Summary true (Some (kind_text k)) (length facts) (Some average) (Some least) (Some greatest) currency (Some basis) (format average) (format least) (format greatest).
Definition summarizeCommissionFacts (facts : list fact) : summary :=
  match normalized facts with
  | [] => Summary false None 0 None None None JNull None None None None
  | (f :: _) as l =>
      if forallb (fun g => is_kind PERCENT (f_kind g)) l then comparable PERCENT l JNull "PERCENT_OF_SALE"
      else if negb (forallb (fun g => is_kind FIXED (f_kind g)) l) then mixed (length l)
      else if all_same (map (fun g => text_or_blank (f_currency g)) l) && all_same (map f_basis l) then comparable FIXED l (f_currency f) (f_basis f)
      else mixed (length l)
  end.
Definition averageCommissionFacts (facts : list fact) : option string := s_averageDisplay (summarizeCommissionFacts facts).
Record listing := Listing {
  l_facts : list fact; l_display : option string; l_averageDisplay : option string; l_allFacts : list (fact * string); l_excludedFacts : list (fact * string);
  l_windowReviewRequired : bool }.
Definition listCampaignCommissionFacts (c : campaign) (at_ : option Z) : listing :=
  let allFacts := map (fun f => (f, classifyCommissionFactWindow f at_)) (collected_facts c) in
  let active (fw : fact * string) := fw.2 =s? "ACTIVE" in
  let facts := map fst (List.filter active allFacts) in
  let excluded := List.filter (fun fw => negb (active fw)) allFacts in
  Listing facts (match facts with [] => None | _ => Some (join " · " (map f_display facts)) end) (averageCommissionFacts facts) allFacts excluded
    (existsb (fun fw => fw.2 =s? "REVIEW_REQUIRED") excluded).
End Commissions.
End CampaignCommissions.


(** ** The fuel is enough; facts are finite and distinct *)

Module CommissionFacts.
Import CampaignCommissions.
Section Facts.
Context {H : JsHost}.

Lemma depth_field fields k v : (k, v) ∈ fields -> (S (depth v) <= depth (JObj fields))%nat.
Proof.
  cbn [depth]. induction fields as [|[j u] fields IH]; intros Hin; [now apply not_elem_of_nil in Hin|]. cbn [fold_right snd].
  apply elem_of_cons in Hin as [[= -> ->]|Hin]; [lia|]. apply IH in Hin. lia.
Qed.
Lemma depth_element l v : v ∈ l -> (S (depth v) <= depth (JArr l))%nat.
Proof.
  cbn [depth]. induction l as [|u l IH]; intros Hin; [now apply not_elem_of_nil in Hin|]. cbn [fold_right].
  apply elem_of_cons in Hin as [->|Hin]; [lia|]. apply IH in Hin. lia.
Qed.
Lemma assoc_in {A} k (l : list (string * A)) v : assoc k l = Some v -> (k, v) ∈ l.
Proof.
  induction l as [|[j u] l IH]; [discriminate|]. cbn. destruct (String.eqb_spec j k) as [->|]; [intros [= ->]; left|intros E; right; auto].
Qed.
Lemma depth_prop o k : (depth (prop o k) <= pred (depth o))%nat.
Proof.
  destruct o as [| | | | | | |fs]; try apply Nat.le_0_l. cbn [prop]. destruct (assoc k fs) as [v|] eqn:E; [|apply Nat.le_0_l]. apply assoc_in, depth_field in E. change (default JUndef (Some v)) with v. lia.
Qed.
Lemma depth_coalesce a b n : (depth a <= n)%nat -> (depth b <= n)%nat -> (depth (a ?? b) <= n)%nat.
Proof. unfold coalesce. now destruct (nullish a). Qed.
Lemma depth_or a b n : (depth a <= n)%nat -> (depth b <= n)%nat -> (depth (a |or| b) <= n)%nat.
Proof. unfold js_or. now destruct (truthy a). Qed.
Create HintDb depth.
#[local] Hint Resolve depth_prop depth_coalesce depth_or : depth.
Lemma depth_leaf n : (depth JNull <= n)%nat.
Proof. cbn. lia. Qed.
#[local] Hint Resolve depth_leaf : depth.
Lemma object_flat v : is_object v = true -> depth v = O -> exists t, v = JDate t.
Proof. destruct v; try discriminate; eauto. Qed.

Lemma numeric_fuel n m v : (depth v <= n)%nat -> (depth v <= m)%nat -> numeric_from n v = numeric_from m v.
Proof.
  assert (Hflat : forall f v, is_object v = true -> depth v = O -> numeric_from (S f) v = None).
  { intros f u Hu Hd. destruct (object_flat u Hu Hd) as [t ->]. now destruct f. }
  revert m v. induction n as [|n IH]; intros [|m] v Hn Hm; cbn [numeric_from]; try reflexivity.
  - destruct (blank v) eqn:Eb; [reflexivity|]. destruct (is_object v) eqn:Ev; [|reflexivity]. symmetry. specialize (Hflat m v Ev ltac:(lia)). cbn [numeric_from] in Hflat. now rewrite Eb, Ev in Hflat.
  - destruct (blank v) eqn:Eb; [reflexivity|]. destruct (is_object v) eqn:Ev; [|reflexivity]. specialize (Hflat n v Ev ltac:(lia)). cbn [numeric_from] in Hflat. now rewrite Eb, Ev in Hflat.
  - destruct (blank v); [reflexivity|]. destruct (is_object v); [|reflexivity]. set (u := _ ?? _). assert (Hu : (depth u <= pred (depth v))%nat) by (unfold u; auto 10 with depth). apply IH; lia.
Qed.
Lemma currency_fuel n m v fallback : (depth v <= n)%nat -> (depth v <= m)%nat -> currency_from n v fallback = currency_from m v fallback.
Proof.
  revert m v. induction n as [|n IH]; intros [|m] v Hn Hm; [reflexivity|..];
    (destruct v as [| | | | |t|l|fs]; try reflexivity; try (cbn in Hn, Hm; lia)).
  cbn [currency_from]. set (raw := _ ?? _). assert (Hr : (depth raw <= pred (depth (JObj fs)))%nat) by (unfold raw; auto 10 with depth).
  destruct (is_object raw); [apply IH; lia|reflexivity].
Qed.
Lemma value_depth entry v k : commissionValueField entry = (v, k) -> (depth v <= pred (depth entry))%nat.
Proof.
  unfold commissionValueField. intros E. assert (Hf : forall p names u, List.find p (map (prop entry) names) = Some u -> (depth u <= pred (depth entry))%nat).
  { intros p names u Hu. apply List.find_some in Hu as [Hu _]. apply list_elem_of_In, list_elem_of_fmap in Hu as (j & -> & _). apply depth_prop. }
  repeat match type of E with context [match List.find ?p (map (prop entry) ?l) with _ => _ end] => destruct (List.find p (map (prop entry) l)) eqn:?; [injection E as <- <-; eauto|] end.
  injection E as <- <-. apply depth_leaf.
Qed.
Lemma structured_fuel n m v unit currency : (depth v <= n)%nat -> (depth v <= m)%nat -> structured_facts n v unit currency = structured_facts m v unit currency.
Proof.
  assert (Hflat : forall f v c, is_object v = true -> depth v = O -> structured_facts (S f) v unit c = structured_facts O v unit c).
  { intros f u c Hu Hd. destruct (object_flat u Hu Hd) as [t ->]. reflexivity. }
  revert m v currency. induction n as [|n IH]; intros [|m] v currency Hn Hm; try reflexivity.
  - destruct (is_object v) eqn:Ev; [symmetry; apply Hflat; auto; lia|]. cbn [structured_facts]. rewrite Ev. reflexivity.
  - destruct (is_object v) eqn:Ev; [apply Hflat; auto; lia|]. cbn [structured_facts]. rewrite Ev. reflexivity.
  - cbn [structured_facts]. destruct (blank v); [reflexivity|]. destruct (is_object v) eqn:Ev; [|reflexivity]. cbn [negb]. destruct (commissionValueField v) as [u k] eqn:Eu. apply value_depth in Eu.
    destruct (is_object u); [|reflexivity]. f_equal. apply IH; lia.
Qed.
Lemma object_values_depth v u : u ∈ object_values v -> (depth u <= pred (depth v))%nat.
Proof.
  destruct v as [| | | |s|t|l|fs]; cbn [object_values]; intros Hu; try (now apply not_elem_of_nil in Hu).
  - assert (Hc : depth u = O); [|cbn; lia]. induction s as [|c s IH]; cbn in Hu; [now apply not_elem_of_nil in Hu|]. apply elem_of_cons in Hu as [->|Hu]; [reflexivity|auto].
  - apply depth_element in Hu. lia.
  - apply list_elem_of_fmap in Hu as ([k w] & -> & Hw). apply depth_field in Hw. cbn [snd]. lia.
Qed.
Lemma flat_map_ext_in {A B} (f g : A -> list B) l : (forall x, x ∈ l -> f x = g x) -> flat_map f l = flat_map g l.
Proof. intros Hl. induction l as [|x l IH]; [reflexivity|]. cbn. rewrite Hl by left. f_equal. apply IH. intros y Hy. apply Hl. now right. Qed.
Lemma nested_depth v : (depth (nested_groups v) <= pred (depth v))%nat.
Proof. unfold nested_groups, GROUP_KEYS. cbn [removelast fold_right]. auto 10 with depth. Qed.
Lemma keyed_depth v items u : keyedCommissionBag v = Some items -> u ∈ items -> (S (depth u) <= depth v)%nat.
Proof.
  destruct v as [| | | | | | |fs]; try discriminate. cbn [keyedCommissionBag]. destruct (existsb _ _); [discriminate|]. destruct fs as [|kv fs]; [discriminate|].
  destruct (_ || _); [|discriminate]. intros [= <-] Hu. change (u ∈ map snd (kv :: fs)) in Hu. apply list_elem_of_fmap in Hu as ([k w] & -> & Hw). now apply depth_field in Hw.
Qed.
Lemma flatten_fuel n m v : (depth v <= n)%nat -> (depth v <= m)%nat -> flatten_entries n v = flatten_entries m v.
Proof.
  revert m v. induction n as [|n IH]; intros [|m] v Hn Hm; [reflexivity|..];
    (destruct v as [| | | | |t|l|fs]; try reflexivity; try (cbn in Hn, Hm; lia)); cbn [flatten_entries].
  - destruct (isEmptyBag _); [reflexivity|]. apply flat_map_ext_in. intros u Hu. apply depth_element in Hu. apply IH; lia.
  - destruct (isEmptyBag (JObj fs)); [reflexivity|]. destruct (negb _).
    + f_equal. apply flat_map_ext_in. intros u Hu. apply object_values_depth in Hu. pose proof (nested_depth (JObj fs)). apply IH; lia.
    + destruct (keyedCommissionBag _) as [items|] eqn:Ek; [|reflexivity]. apply flat_map_ext_in. intros u Hu. pose proof (keyed_depth _ _ _ Ek Hu). apply IH; lia.
Qed.
(** Reading further than the depth of a value finds nothing else: the recursions of the source, which have no bound,
    end with what the model gives. *)
Theorem nested_values_read_whole n v unit currency : (depth v <= n)%nat ->
  flatten_entries n v = flattenCommissionEntries v /\ structured_facts n v unit currency = structuredFacts v unit currency /\
  numeric_from n v = numericFrom v /\ currency_from n v currency = currencyFrom v currency.
Proof. intros Hn. split_and!; [now apply flatten_fuel|now apply structured_fuel|now apply numeric_fuel|now apply currency_fuel]. Qed.

(** *** The facts of a campaign *)

Definition finite_fact (f : fact) : Prop := is_finite (f_value f) = true.
Lemma percent_finite n upTo basis : Forall finite_fact (makePercentFact n upTo basis).
Proof. destruct n as [n|]; cbn; [|constructor]. destruct (is_finite n) eqn:E; repeat constructor. exact E. Qed.
Lemma fixed_finite n currency basis : Forall finite_fact (makeFixedFact n currency basis).
Proof. destruct n as [n|]; cbn; [|constructor]. destruct (is_finite n) eqn:E; repeat constructor. exact E. Qed.
Lemma window_finite facts entry : Forall finite_fact facts -> Forall finite_fact (withEffectiveWindow facts entry).
Proof. intros Hf. apply Forall_map. eapply Forall_impl; [exact Hf|]. now intros []. Qed.
Lemma flat_map_Forall {A B} (P : B -> Prop) (f : A -> list B) l : (forall x, Forall P (f x)) -> Forall P (flat_map f l).
Proof. intros Hf. induction l; cbn; [constructor|]. apply Forall_app. auto. Qed.
Lemma text_finite t : Forall finite_fact (parseCommissionText t).
Proof.
  unfold parseCommissionText. destruct (_ || _); [constructor|]. apply Forall_app. split; apply flat_map_Forall.
  - intros m. apply percent_finite.
  - intros [[a b] [[symbol n] before]]. destruct (overlaps _ _ _); [constructor|]. unfold money_fact. destruct (is_finite _); [apply fixed_finite|constructor].
Qed.
Lemma fact_of_finite percent n entry unit currency : Forall finite_fact (fact_of percent n entry unit currency).
Proof. unfold fact_of. destruct percent as [[]|]; auto using percent_finite, fixed_finite. Qed.
Lemma structured_finite fuel entry unit currency : Forall finite_fact (structured_facts fuel entry unit currency).
Proof.
  assert (Hentry : forall e v k c, Forall finite_fact (entry_facts e v k unit c)).
  { intros e v k c. unfold entry_facts. destruct (if is_text v && _ then _ else _) as [|f fs] eqn:E.
    - destruct (numericFrom v); [|constructor]. apply window_finite, fact_of_finite.
    - apply window_finite, Forall_map. rewrite <- E. destruct (_ && _); [|constructor]. eapply Forall_impl; [apply text_finite|]. now intros []. }
  revert entry currency. induction fuel as [|fuel IH]; intros entry currency; cbn [structured_facts]; (destruct (blank entry); [constructor|]);
    (destruct (negb (is_object entry));
      [unfold scalar_facts; pose proof (text_finite entry) as Ht; destruct (parseCommissionText entry); [destruct (numericFrom entry); [apply fact_of_finite|constructor]|exact Ht]|]);
    destruct (commissionValueField entry) as [v k]; [apply Hentry|]. destruct (is_object v); [apply window_finite, IH|apply Hentry].
Qed.
Definition well_listed (l : list fact) : Prop := Forall finite_fact l /\ Forall (fun f => f_display f <> "") l /\ NoDup (map factKey l).
Lemma push_well l f : well_listed l -> finite_fact f -> well_listed (push_fact l f).
Proof.
  intros (Hf & Hd & Hk) Hfin. unfold push_fact. destruct (String.eqb_spec (f_display f) "") as [|Hne]; [now split_and!|]. cbn [orb].
  destruct (existsb _ l) eqn:E; [now split_and!|]. split_and!; [apply Forall_app; auto|apply Forall_app; auto|]. rewrite map_app. apply NoDup_app. split_and!; [exact Hk| |apply NoDup_singleton].
  intros x Hx Hin. apply list_elem_of_singleton in Hin as ->. apply list_elem_of_fmap in Hx as (g & Eg & Hg). apply not_true_iff_false in E. apply E, existsb_exists.
  exists g. split; [now apply list_elem_of_In|]. now rewrite Eg, String.eqb_refl.
Qed.
Lemma distinct_well facts : Forall finite_fact facts -> well_listed (distinct_facts facts).
Proof.
  intros Hf. unfold distinct_facts. assert (H0 : well_listed []) by (split_and!; constructor). revert H0. generalize (@nil fact).
  induction Hf as [|f facts Hx _ IH]; intros l Hl; [exact Hl|]. cbn. apply IH. now apply push_well.
Qed.
Lemma collected_well c : well_listed (collected_facts c).
Proof.
  unfold collected_facts. set (l := flat_map _ _). assert (Hl : well_listed (distinct_facts l)) by (apply distinct_well, flat_map_Forall; intros; apply structured_finite).
  destruct (distinct_facts l); [apply distinct_well, structured_finite|exact Hl].
Qed.
(** A fact applies at [t]: its window begins at [t] or before and ends after, where it has a beginning and an end. *)
Definition in_window (f : fact) (t : Z) : Prop :=
  (blank (f_from f) = true \/ exists a, new_date (f_from f) = Some a /\ a <= t) /\ (blank (f_until f) = true \/ exists b, new_date (f_until f) = Some b /\ t < b).
Lemma active_iff f at_ : classifyCommissionFactWindow f at_ = "ACTIVE" <-> exists t, at_ = Some t /\ in_window f t.
Proof.
  unfold classifyCommissionFactWindow, in_window, parseDate. destruct at_ as [t|]; [|split; [discriminate|now intros (? & [=] & _)]].
  destruct (blank (f_from f)), (blank (f_until f)), (new_date (f_from f)) as [a|], (new_date (f_until f)) as [b|];
    repeat match goal with |- context [?x <=? ?y] => destruct (Z.leb_spec x y) | |- context [?x <? ?y] => destruct (Z.ltb_spec x y) end;
    (split; [try discriminate; intros _; exists t; split_and!; eauto with lia
            |intros (t' & [= <-] & [Hb|(a' & [=] & Ha)] & [Hc|(b' & [=] & Hd)]); first [reflexivity|discriminate|lia]]).
Qed.

(** The facts listed for a campaign have finite values, something to show and keys of their own; those that are current
    are exactly the ones whose window has begun and not ended at the time asked for. *)
Theorem listed_facts_current c at_ : let l := listCampaignCommissionFacts c at_ in
  well_listed (map fst (l_allFacts l)) /\ forall f, f ∈ l_facts l <-> f ∈ map fst (l_allFacts l) /\ exists t, at_ = Some t /\ in_window f t.
Proof.
  cbn [listCampaignCommissionFacts l_allFacts l_facts]. rewrite map_map. cbn [fst]. rewrite map_id. split; [apply collected_well|]. intros f. rewrite <- active_iff. split.
  - intros ([g s] & -> & Hg)%list_elem_of_fmap. apply elem_of_filter_bool in Hg as [Hg Ha]. apply list_elem_of_fmap in Hg as (g' & [= -> ->] & Hg). cbn in *. apply String.eqb_eq in Ha. auto.
  - intros [Hf Ha]. apply list_elem_of_fmap. exists (f, "ACTIVE"). split; [reflexivity|]. apply elem_of_filter_bool. split; [|reflexivity]. apply list_elem_of_fmap. exists f. now rewrite Ha.
Qed.
End Facts.
End CommissionFacts.
