(* ===== verification/Readiness.v ===== *)
(** * When a supplier rule is ready for finance

    [modules/commercial/supplierCommissionReadiness.js]: whether the commission of a supplier rule is
    established well enough to be calculated with.  A rate alone proves nothing; what the network stated is
    read again with the parser of [Commissions] and has to agree with the rule.  The assessment is the
    implementation of the interface [ReadinessAssessment] that the matcher of [SupplierMatch] asks. *)

From Stdlib Require Import SpecFloat.
From stdpp Require Import sorting.
From S2P Require Import Prelude JsNum JsVal JsJson Jobs ClientMatch Accounts SupplierMatch Tracking TrackingLinks Commissions.
Import TrackingUrl SupplierDestination CampaignCommissions.
Local Open Scope Z_scope.

Module Readiness.
Section Assessment.
Context {H : JsHost}.

Definition UNVERIFIED_CONDITION_TYPES : list string := ["OTHER_SOURCE_CONDITION"; "CUSTOM_FIELD"; "COMMISSION_TIER"; "PERFORMANCE_THRESHOLD"].
Definition PERCENT_BASES : list string := ["PERCENT_OF_SALE"; "CPS"].
Definition FIXED_BASES : list string := ["FIXED_AMOUNT"; "FIXED_PER_ORDER"; "FIXED_PER_ITEM"; "CPA"; "CPL"; "CPI"; "CPS"; "CPC"; "CPM"].
Definition NOT_READY_STATUSES : list string := ["REVIEW_REQUIRED"; "NEEDS_REVIEW"; "UNMAPPED"; "VERIFY_LIVE"; "UNVERIFIED"].
Definition NEUTRAL_FIXED_BASES : list string := ["FIXED_AMOUNT"; "UNKNOWN"; ""].
Definition one_of (l : list string) (s : string) : bool := existsb (String.eqb s) l.

(** ** Texts *)

Definition present (value : jsval) : bool := match value with JUndef | JNull => false | JStr s => negb (trim s =s? "") | _ => true end.
Definition text (value : jsval) : option string := if present value then Some (trim (js_string value)) else None.
Definition upper_text (value : jsval) : option string := option_map to_upper (text value).
Definition present_texts (l : list jsval) : string := join " " (map js_string (List.filter present l)).
Definition or_none (s : string) : option string := if s =s? "" then None else Some s.
Definition sourceCommissionText (entry : jsval) : option string :=
  let value := first_given entry ["value"; "commission"; "performance_value"; "amount"; "rate"; "payout_value"; "commissionCost"; "percentage"; "percent"; "fixed"; "fixed_amount"; "fixedAmount"] JNull in
  let model := first_given entry ["model"; "performance_model"; "performanceModel"; "pricing_model"; "pricingModel"; "type"; "payout_type"; "commissionType"; "commission_type"] JNull in
  if nullish entry then None
  else if negb (is_object entry) then Some (js_string entry)
  else if nullish value then None
  else if is_object value then or_none (present_texts [value@."type" ?? value@."model" ?? model ?? JNull; value@."value" ?? value@."amount" ?? value@."rate" ?? value@."payout" ?? JNull])
  else Some (present_texts [JStr (js_string value); model]).

(** A place where a word begins and [p] holds *)
Fixpoint at_word (p : string -> bool) (after_word : bool) (s : string) : bool :=
  (negb after_word && p s) || match s with String c s' => at_word p (word_char c) s' | EmptyString => false end.
Definition up_to_here (s : string) : bool :=
  match strip_word "up" s with
  | Some rest => match strip_word "to" (trim_left rest) with Some rest => at_boundary rest | None => false end
  | None => false
  end.
Definition from_number_here (s : string) : bool :=
  match strip_word "from" s with
  | Some rest => at_boundary rest && match trim_left rest with String c _ => is_digit c | EmptyString => false end
  | None => false
  end.
Definition commissionTextIsAmbiguous (sourceText : string) : bool :=
  at_word up_to_here false sourceText || at_word from_number_here false sourceText
  || existsb (fun word => has_word false word (to_lower sourceText)) ["variable"; "depend"; "depends"; "starting"; "max"; "maximum"; "varies"].
Definition UNIT_TEXTS : list string := ["percent"; "revshare"; "sale-share"; "share"; "fixed"; "flat"; "cpa"; "cpl"; "cpc"; "cpi"; "cpm"; "cps"].
Definition commissionUnitIsExplicit (sourceText : string) : bool := has_unit sourceText || mentions UNIT_TEXTS (to_lower sourceText).

(** ** Identities *)

Definition code_sort (l : list string) : list string := sort_by String.leb l.
Fixpoint canonicalJson (value : jsval) : string :=
  match value with
  | JUndef | JNull => "null"
  | JArr l => "[" +:+ join "," (code_sort (map canonicalJson l)) +:+ "]"
  | JObj fields =>
      "{" +:+ join "," (map (fun kv => json_quote kv.1 (":" +:+ kv.2))
                          (sort_by (fun a b => String.leb a.1 b.1)
                             (flat_map (fun kv => match kv.2 with JUndef => [] | _ => [(kv.1, canonicalJson kv.2)] end) fields))) +:+ "}"
  | JDate _ => "{}"
  | JStr s => json_stringify (JStr (trim s))
  | _ => json_stringify value
  end.
Definition fingerprint {C : Crypto} (value : jsval) : string := slice 0 16 (sha256_hex (canonicalJson value)).
Definition conditionDimension (condition : jsval) : string :=
  let type := to_upper (js_string (condition@."conditionType" ?? JStr "OTHER_SOURCE_CONDITION")) in
  if one_of ["OTHER_SOURCE_CONDITION"; "CUSTOM_FIELD"] type then type +:+ ":" +:+ js_string (condition@."sourceConditionType" ?? JStr "UNKNOWN") else type.
Definition condition_key (condition : jsval) : string :=
  join ":" [conditionDimension condition; js_string (condition@."operator" ?? JStr ""); js_string (condition@."value" ?? JStr "")].
Definition counts (condition : jsval) : bool := truthy condition && negb (to_upper (js_string (condition@."conditionType" ?? JStr "")) =s? "DEFAULT").
Definition canonicalConditionSignature (conditions : jsval) : string := join "|" (code_sort (map condition_key (List.filter counts (as_array conditions)))).
Definition ECONOMIC_ENTRY_FIELDS : list string :=
  ["value"; "commission"; "performance_value"; "amount"; "rate"; "payout_value"; "commissioncost"; "percentage"; "percent"; "fixed"; "fixed_amount"; "fixedamount"; "payout";
   "commissionvalue"; "commission_value"].
Definition nonEconomicFields (entry : jsval) : jsval :=
  JObj (List.filter (fun kv => negb (is_undef kv.2) && negb (one_of ECONOMIC_ENTRY_FIELDS (to_lower kv.1))) (obj_fields entry)).
Record identity := Identity { i_strategy : string; i_sufficient : bool; i_key : string; i_inputs : jsval }.
(** [String(value).trim().toLowerCase().replace(/\s+/g, " ")] *)
Fixpoint single_spaces (inside : bool) (s : string) : string :=
  match s with
  | EmptyString => EmptyString
  | String c s' => if is_space c then (if inside then single_spaces true s' else String " " (single_spaces true s')) else String c (single_spaces false s')
  end.
Definition lower_words (value : jsval) : jsval := of_option_str (option_map (fun t => single_spaces false (to_lower t)) (text value)).
Definition SEMANTIC_INPUTS : list string :=
  ["name"; "commissionModel"; "commissionType"; "conditions"; "customerType"; "country"; "categoryProductGoal"; "couponOrTier"; "actionType"].
Definition identity_inputs (a : jsval) : jsval :=
  JObj (map (fun k => (k, if k =s? "conditions" then JStr (canonicalConditionSignature a@."conditions") |or| JNull else lower_words (prop a k))) SEMANTIC_INPUTS
        ++ map (fun k => (k, prop a k ?? JNull)) ["kind"; "basis"; "currency"]).
Definition anonymousRuleIdentity {C : Crypto} (a : jsval) : identity :=
  let inputs := identity_inputs a in
  if existsb (fun k => present (prop inputs k)) SEMANTIC_INPUTS then Identity "ANONYMOUS_SEMANTIC_FINGERPRINT" true ("ANON:" +:+ fingerprint inputs) inputs
  else
    let entry := if is_undef a@."entry" then JObj [] else a@."entry" in
    Identity "ANONYMOUS_INSUFFICIENT" false
      ("ANON_UNIDENTIFIED:" +:+ fingerprint (spread inputs (JObj [("entry", nonEconomicFields entry); ("evidence", entry)]))) inputs.

(** ** What the sources claim *)

Definition VALUE_TOLERANCE : num := num_of_decimal 5 (-5).
Definition sameAmount (a b : option num) : bool :=
  match a, b with Some x, Some y => nleb (nabs (nsub x y)) VALUE_TOLERANCE | _, _ => false end.
Definition currencyOf (value : jsval) : option string := match text value with Some t => currency_code t | None => None end.
Definition establishedFactBasis (f : fact) : option string :=
  let basis := to_upper (trim (f_basis f)) in
  match f_kind f with PERCENT => None | FIXED => if one_of NEUTRAL_FIXED_BASES basis then None else Some basis end.
Definition or_empty (o : option string) : string := match o with Some s => s | None => "" end.
Definition baseFactKey (f : fact) : string :=
  join "|" [kind_text (f_kind f); js_string (of_option_num (explicitNumber (JNum (f_value f)))); match f_kind f with FIXED => or_empty (currencyOf (f_currency f)) | PERCENT => "" end].
Definition claimKey (f : fact) : string := baseFactKey f +:+ "|" +:+ or_empty (establishedFactBasis f).
(** The facts of the parser, without the state of their window *)
Definition parseEvidenceSource (input : jsval) : list fact :=
  if blank input then []
  else
    let facts := collected_facts (Campaign (JArr [input]) JNull JNull JNull (JObj [])) in
    if is_text input then map (fun f => match f_kind f with FIXED => with_basis (payoutBasisFromText input (Some FIXED)) f | PERCENT => f end) facts else facts.
Record evidence := Evidence { e_fact : fact; e_sources : list string }.
Definition add_source (source : string) (f : fact) (l : list evidence) : list evidence :=
  if existsb (fun e => claimKey (e_fact e) =s? claimKey f) l
  then map (fun e => if (claimKey (e_fact e) =s? claimKey f) && negb (one_of (e_sources e) source) then Evidence (e_fact e) (e_sources e ++ [source]) else e) l
  else l ++ [Evidence f [source]].
Definition sourceEconomicsFacts (sources : list (string * jsval)) : list evidence :=
  fold_left (fun l si => fold_left (fun l f => add_source si.1 f l) (parseEvidenceSource si.2) l) sources [].

(** The claims of a source: the keys of its facts, each with the bases established for it *)
Record claim := Claim { cl_fact : fact; cl_bases : list string }.
Definition add_new (x : string) (l : list string) : list string := if one_of l x then l else l ++ [x].
Definition add_claim (f : fact) (claims : list (string * claim)) : list (string * claim) :=
  let base := baseFactKey f in
  let c := match assoc base claims with Some c => c | None => Claim f [] end in
  assoc_set base (match establishedFactBasis f with Some basis => Claim (cl_fact c) (add_new basis (cl_bases c)) | None => c end) claims.
Definition evidence_sources (e : evidence) : list string := match e_sources e with [] => ["evidence"] | l => l end.
Definition claims_by_source (facts : list evidence) : list (string * list (string * claim)) :=
  fold_left (fun all e => fold_left (fun all source => assoc_set source (add_claim (e_fact e) (default [] (assoc source all))) all) (evidence_sources e) all) facts [].
Definition claimDisplay (c : claim) : string :=
  match cl_bases c with [] => f_display (cl_fact c) | bases => f_display (cl_fact c) +:+ " " +:+ join "/" bases end.
Record agreement := Agreement { ag_conflict : bool; ag_sources : list string; ag_claims : jsval }.
Definition bases_by_claim (claims : list (string * list (string * claim))) : list (string * list string) :=
  fold_left (fun acc sc => fold_left (fun acc bc => assoc_set bc.1 (fold_left (fun l b => add_new b l) (cl_bases bc.2) (default [] (assoc bc.1 acc))) acc) sc.2 acc) claims [].
Definition more_than_one {A} (l : list A) : bool := match l with _ :: _ :: _ => true | _ => false end.
Definition sourceClaimAgreement (facts : list evidence) : agreement :=
  let claims := claims_by_source facts in
  let signatures := map (fun sc => join "," (code_sort (map fst sc.2))) claims in
  let conflict := negb (all_same signatures) || existsb (fun bb => more_than_one bb.2) (bases_by_claim claims) in
  Agreement conflict (map fst claims) (JObj (map (fun sc => (sc.1, JArr (map (fun bc => JStr (claimDisplay bc.2)) sc.2))) claims)).
(** ** The claims against the rule *)

Record reconciliation := Reconciliation { rc_reasons : list string; rc_compared : jsval }.
Definition rc_reconciled (r : reconciliation) : bool := match rc_reasons r with [] => true | _ => false end.
Definition push_if (b : bool) (code : string) : list string := if b then [code] else [].
Definition rule_kind (rule : jsval) : option (kind * num) :=
  match explicitNumber rule@."ratePercent", explicitNumber rule@."fixedAmount" with
  | Some rate, _ => Some (PERCENT, rate)
  | None, Some amount => Some (FIXED, amount)
  | None, None => None
  end.
Fixpoint distinct_by {A} (key : A -> string) (seen : list string) (l : list A) : list A :=
  match l with
  | [] => []
  | x :: l => if one_of seen (key x) then distinct_by key seen l else x :: distinct_by key (key x :: seen) l
  end.
(** The basis the sources establish for a fixed amount: that of the facts, else that of the model *)
Definition established_bases (sameKind : list fact) (key : string) : list string :=
  distinct_by id [] (omap establishedFactBasis (List.filter (fun f => baseFactKey f =s? key) sameKind)).
Definition model_basis (rule : jsval) : option string :=
  match text rule@."commissionModel" with
  | Some _ => let basis := payoutBasisFromText rule@."commissionModel" (Some FIXED) in if one_of NEUTRAL_FIXED_BASES basis then None else Some basis
  | None => None
  end.
Definition source_basis (rule : jsval) (established : list string) : option string :=
  match established with [] => model_basis rule | [basis] => Some basis | _ => None end.
Definition differ (a b : option string) : bool := match a, b with Some x, Some y => negb (x =s? y) | _, _ => false end.
Definition basis_reasons (rule : jsval) (established : list string) : list string :=
  let ruleBasis := upper_text rule@."basis" in
  push_if (more_than_one established) "source_economics_ambiguous"
  ++ match source_basis rule established with
     | Some basis => push_if (negb (or_empty ruleBasis =s? basis)) "source_economics_basis_mismatch"
     | None => match ruleBasis with Some basis => push_if (negb (one_of NEUTRAL_FIXED_BASES basis)) "source_payout_basis_unverified" | None => [] end
     end.
Definition strings (l : list string) : jsval := JArr (map JStr l).
Definition reconcile_fact (rule : jsval) (k : kind) (ruleValue : num) (sameKind : list fact) (f : fact) (evidenceSources : jsval) : reconciliation :=
  let established := established_bases sameKind (baseFactKey f) in
  Reconciliation
    (push_if (negb (sameAmount (explicitNumber (JNum (f_value f))) (Some ruleValue))) "source_economics_mismatch"
     ++ match k with
        | FIXED => push_if (differ (currencyOf (f_currency f)) (currencyOf rule@."currency")) "source_economics_currency_mismatch" ++ basis_reasons rule established
        | PERCENT => []
        end)
    (JObj [("kind", JStr (kind_text k)); ("evidenceSources", evidenceSources); ("sourceValue", JNum (f_value f)); ("sourceCurrency", f_currency f ?? JNull);
           ("sourceBasis", match k with FIXED => of_option_str (source_basis rule established) | PERCENT => JNull end); ("ruleValue", JNum ruleValue);
           ("ruleCurrency", of_option_str (currencyOf rule@."currency")); ("ruleBasis", match k with FIXED => of_option_str (upper_text rule@."basis") | PERCENT => JNull end)]).
Definition reconcileSourceEconomics (rule : jsval) (facts : list evidence) : reconciliation :=
  match rule_kind rule, facts with
  | None, _ | _, [] => Reconciliation [] JNull
  | Some (k, ruleValue), _ =>
      let agreed := sourceClaimAgreement facts in
      let compared fields := JObj (("kind", JStr (kind_text k)) :: ("evidenceSources", strings (ag_sources agreed)) :: fields) in
      if ag_conflict agreed then Reconciliation ["source_economics_evidence_conflict"] (compared [("sourceValuesBySource", ag_claims agreed)])
      else
        let sameKind := List.filter (fun f => is_kind (f_kind f) k) (map e_fact facts) in
        match distinct_by baseFactKey [] sameKind with
        | [] => Reconciliation ["source_economics_kind_mismatch"]
                  (compared [("sourceKinds", strings (distinct_by id [] (map (fun e => kind_text (f_kind (e_fact e))) facts)))])
        | [f] => reconcile_fact rule k ruleValue sameKind f (strings (ag_sources agreed))
        | distinct => Reconciliation ["source_economics_ambiguous"] (compared [("sourceValues", strings (map f_display distinct))])
        end
  end.
Definition modelShapeConflict (rule : jsval) : option string :=
  match text rule@."commissionModel", rule_kind rule with
  | Some model, Some (k, _) =>
      match looksPercent (JObj [("model", JStr model)]) "" JNull with
      | Some percent => if Bool.eqb percent (is_kind k PERCENT) then None else Some "source_model_shape_mismatch"
      | None => None
      end
  | _, _ => None
  end.

(** ** Evidence *)

Definition metadataOf (rule : jsval) : jsval := if is_object rule@."metadata" then rule@."metadata" else JObj [].
Definition equal_text (a b : option string) : bool := match a, b with Some x, Some y => x =s? y | None, None => true | _, _ => false end.
Definition usable_raw (raw : jsval) : bool := is_object raw || is_text raw.
Definition of_text (o : option string) : jsval := match o with Some s => JStr s | None => JNull end.
Definition numericEvidenceSources (rule sourceText : jsval) : list (string * jsval) :=
  let raw := rule@."rawRuleReference" in
  let rawText := if usable_raw raw then text (of_text (sourceCommissionText raw)) else None in
  let explicit := text sourceText in
  let metaText := text (metadataOf rule)@."sourceCommissionText" in
  (if usable_raw raw then [("raw_rule_reference", raw)] else [])
  ++ match explicit with Some t => if equal_text explicit rawText then [] else [("source_text", JStr t)] | None => [] end
  ++ match metaText with
     | Some t => if equal_text metaText rawText || equal_text metaText explicit then [] else [("metadata_source_commission_text", JStr t)]
     | None => []
     end.
Record resolved := Resolved { ev_text : option string; ev_sources : list string; ev_numeric : list (string * jsval); ev_display : option string }.
Definition resolveReadinessEvidence (rule sourceText factDisplay : jsval) : resolved :=
  let metadata := metadataOf rule in
  let parts := omap (fun st => option_map (pair st.1) st.2)
    [("source_text", text sourceText); ("raw_rule_reference", text (of_text (sourceCommissionText rule@."rawRuleReference")));
     ("metadata_source_commission_text", text metadata@."sourceCommissionText"); ("supplier_commission_model", text rule@."commissionModel")] in
  Resolved (match parts with [] => None | _ => Some (join " " (map snd parts)) end) (map fst parts) (numericEvidenceSources rule sourceText)
    (match text factDisplay with Some t => Some t | None => text metadata@."factDisplay" end).
Definition conditionVerified (condition : jsval) : bool :=
  let meta := condition@."metadata" in is_true meta@."matcherReady" || is_true meta@."semanticsVerified".

(** ** The assessment *)

Record assessment := Assessment {
  a_financeReady : bool; a_reviewReasons : list string; a_semanticStatus : string; a_mappingStatus : string; a_fieldMappingOutcome : string; a_decisionSource : string;
  a_evidenceSources : list string; a_sourceEconomics : option reconciliation }.
Definition buildResult (ready : bool) (reviewReasons : list string) (numeric : bool) (mappingStatus : option string) (decisionSource : string) (evidenceSources : list string)
    (reconciled : option reconciliation) : assessment :=
  let by_outcome a b c := if ready then a else if numeric then b else c in
  Assessment ready (distinct_by id [] reviewReasons) (by_outcome "VERIFIED" "VERIFY_LIVE" "UNMAPPED")
    (match mappingStatus with Some s => s | None => by_outcome "MAPPED" "REVIEW_REQUIRED" "UNMAPPED" end) (if ready then "MAPPED" else "REVIEW_REQUIRED") decisionSource evidenceSources reconciled.
Definition basis_gate (rule : jsval) : list string :=
  let basis := upper_text rule@."basis" in
  match rule_kind rule with
  | Some (PERCENT, _) => match basis with Some b => push_if (negb (one_of PERCENT_BASES b)) ("percent_basis_not_executable:" +:+ b) | None => [] end
  | Some (FIXED, _) =>
      match basis with
      | None => ["payout_basis_unknown"]
      | Some b => if b =s? "UNKNOWN" then ["payout_basis_unknown"] else push_if (negb (one_of FIXED_BASES b)) ("fixed_basis_not_executable:" +:+ b)
      end ++ match text rule@."currency" with None => ["fixed_payout_currency_missing"] | Some _ => [] end
  | None => []
  end.
Definition up_to_display (display : string) : bool :=
  match strip_word "up" (trim_left display) with Some rest => match strip_word "to" (trim_left rest) with Some _ => true | None => false end | None => false end.
Definition text_gate (numeric : bool) (display source : string) : list string :=
  push_if (numeric && (source =s? "")) "legacy_readiness_evidence_missing"
  ++ push_if (up_to_display display || commissionTextIsAmbiguous source) "up_to_ceiling_not_exact_rate"
  ++ push_if (negb (source =s? "") && negb (commissionUnitIsExplicit source)) "commission_unit_not_explicit".
Definition condition_gate (rule : jsval) : list string :=
  flat_map (fun condition => let type := to_upper (js_string (condition@."conditionType" ?? JStr "")) in
    push_if (one_of UNVERIFIED_CONDITION_TYPES type && negb (conditionVerified condition)) ("unverified_condition_semantics:" +:+ type)) (as_array rule@."conditions").
(** [identity]: what the caller says of the identity of the rule, or [null] *)
Definition identity_gate (rule identity : jsval) : list string :=
  let metadata := metadataOf rule in
  let strategy := identity@."strategy" ?? metadata@."identityStrategy" ?? JNull in
  let stated := if truthy identity then identity@."sufficient" else metadata@."identitySufficient" in
  let outcomeKey := js_string (rule@."outcomeKey" ?? JStr "") in
  push_if ((strategy === "ANONYMOUS_INSUFFICIENT") || match stated with JBool false => true | _ => false end || mentions ["ANON_UNIDENTIFIED"; "ANON_SOURCE_ENTRY_"] outcomeKey)
    "anonymous_rule_identity_insufficient".
Definition economics (rule : jsval) (e : resolved) : option reconciliation :=
  match rule_kind rule with
  | Some _ => if or_empty (ev_text e) =s? "" then None else Some (reconcileSourceEconomics rule (sourceEconomicsFacts (ev_numeric e)))
  | None => None
  end.
Definition economics_gate (rule : jsval) (o : option reconciliation) : list string :=
  match o with Some r => rc_reasons r ++ match modelShapeConflict rule with Some c => [c] | None => [] end | None => [] end.
Definition generic_reasons (rule identity : jsval) (e : resolved) : list string :=
  let numeric := match rule_kind rule with Some _ => true | None => false end in
  match upper_text rule@."mappingStatus" with Some s => push_if (one_of NOT_READY_STATUSES s) ("mapping_status_" +:+ to_lower s) | None => [] end
  ++ push_if (negb numeric) "no_numeric_commission_outcome" ++ basis_gate rule ++ text_gate numeric (or_empty (ev_display e)) (or_empty (ev_text e))
  ++ economics_gate rule (economics rule e) ++ condition_gate rule ++ identity_gate rule identity
  ++ map js_string (List.filter present (as_array (metadataOf rule)@."reviewReasons")).
Definition assess (rule sourceText factDisplay identity : jsval) : assessment :=
  let metadata := metadataOf rule in
  let numeric := match rule_kind rule with Some _ => true | None => false end in
  let explicitStatus := upper_text rule@."mappingStatus" in
  match metadata@."financeReady" with
  | JBool false =>
      buildResult false (match as_array metadata@."reviewReasons" with [] => ["network_specific_finance_ready_false"] | l => map js_string l end) numeric explicitStatus "NETWORK_SPECIFIC" [] None
  | JBool true => buildResult true [] numeric explicitStatus "NETWORK_SPECIFIC" [] None
  | _ =>
      let e := resolveReadinessEvidence rule sourceText factDisplay in
      let reasons := generic_reasons rule identity e in
      buildResult (match reasons with [] => numeric | _ => false end) reasons numeric None "GENERIC" (ev_sources e) (economics rule e)
  end.
Definition readinessMetadata (a : assessment) (extra : jsval) : jsval :=
  spread (JObj [("financeReady", JBool (a_financeReady a)); ("reviewReasons", strings (a_reviewReasons a)); ("semanticStatus", JStr (a_semanticStatus a));
                ("readinessVersion", JStr "SCR-READINESS-5"); ("readinessDecisionSource", JStr (a_decisionSource a)); ("readinessEvidenceSources", strings (a_evidenceSources a))]) extra.
(** What the matcher asks: the rule alone *)
#[export] Instance rule_readiness : ReadinessAssessment :=
  {| assessSupplierCommissionReadiness rule := let a := assess rule JNull JNull JNull in SupplierMatch.Readiness (a_financeReady a) (a_reviewReasons a) |}.
End Assessment.
End Readiness.

(** ** A rule that is ready is established *)

Module ReadinessFacts.
Import SupplierMatcher SupplierMatchFacts Readiness.

Lemma push_if_nil b code : push_if b code = [] <-> b = false.
Proof. now destruct b. Qed.
Lemma one_of_iff l s : one_of l s = true <-> s ∈ l.
Proof.
  unfold one_of. rewrite existsb_exists. split; [intros (x & Hx & ->%String.eqb_eq); now apply list_elem_of_In|]. intros Hs. exists s. split; [now apply list_elem_of_In|apply String.eqb_refl].
Qed.
Lemma distinct_by_covers {A} (key : A -> string) l : forall seen x, x ∈ l -> key x ∈ seen \/ exists y, y ∈ distinct_by key seen l /\ key y = key x.
Proof.
  induction l as [|z l IH]; intros seen x Hx; [now apply not_elem_of_nil in Hx|]. cbn [distinct_by]. destruct (one_of seen (key z)) eqn:Ez.
  - apply elem_of_cons in Hx as [->|Hx]; [left; now apply one_of_iff|auto].
  - apply elem_of_cons in Hx as [->|Hx]; [right; exists z; split; [left|reflexivity]|]. destruct (IH (key z :: seen) x Hx) as [Hs|(y & Hy & Ey)].
    + apply elem_of_cons in Hs as [->|Hs]; [right; exists z; split; [left|reflexivity]|now left].
    + right. exists y. split; [now right|exact Ey].
Qed.
Lemma distinct_by_incl {A} (key : A -> string) l : forall seen x, x ∈ distinct_by key seen l -> x ∈ l.
Proof.
  induction l as [|z l IH]; intros seen x; cbn [distinct_by]; [easy|]. destruct (one_of seen (key z)); [intros Hx; right; eauto|].
  intros [->|Hx]%elem_of_cons; [left|right; eauto].
Qed.
Lemma distinct_by_one {A} (key : A -> string) l x : distinct_by key [] l = [x] -> x ∈ l /\ forall y, y ∈ l -> key y = key x.
Proof.
  intros E. split; [apply (distinct_by_incl key l []); rewrite E; left|]. intros y Hy. destruct (distinct_by_covers key l [] y Hy) as [[]%not_elem_of_nil|(z & Hz & Ez)].
  rewrite E in Hz. apply list_elem_of_singleton in Hz as ->. now symmetry.
Qed.
Lemma is_kind_iff k k' : is_kind k k' = true <-> k = k'.
Proof. destruct k, k'; easy. Qed.

Section Facts.
Context {H : JsHost}.

(** What the sources of a rule say, once read *)
Definition stated (rule : jsval) : list evidence := sourceEconomicsFacts (numericEvidenceSources rule JNull).
(** One claim of the kind of the rule, which is the rule's own *)
Record claimed (rule : jsval) (k : kind) (v : num) (f : fact) : Prop := Claimed {
  cd_stated : f ∈ map e_fact (stated rule);
  cd_kind : f_kind f = k;
  cd_amount : sameAmount (explicitNumber (JNum (f_value f))) (Some v) = true;
  cd_only g : g ∈ map e_fact (stated rule) -> f_kind g = k -> baseFactKey g = baseFactKey f;
  cd_currency : k = FIXED -> differ (currencyOf (f_currency f)) (currencyOf rule@."currency") = false;
  cd_basis g basis : k = FIXED -> g ∈ map e_fact (stated rule) -> f_kind g = k -> establishedFactBasis g = Some basis -> upper_text rule@."basis" = Some basis
}.
Record established (rule : jsval) : Prop := Established {
  es_amount : exists k v, rule_kind rule = Some (k, v) /\
    match k with
    | PERCENT => forall b, upper_text rule@."basis" = Some b -> b ∈ PERCENT_BASES
    | FIXED => (exists b, upper_text rule@."basis" = Some b /\ b ∈ FIXED_BASES) /\ text rule@."currency" <> None
    end /\
    (stated rule = [] \/ ag_conflict (sourceClaimAgreement (stated rule)) = false /\ exists f, claimed rule k v f);
  es_text : exists t, ev_text (resolveReadinessEvidence rule JNull JNull) = Some t /\ commissionUnitIsExplicit t = true /\ commissionTextIsAmbiguous t = false;
  es_conditions c : c ∈ as_array rule@."conditions" -> to_upper (js_string (c@."conditionType" ?? JStr "")) ∈ UNVERIFIED_CONDITION_TYPES -> conditionVerified c = true;
  es_identity : mentions ["ANON_UNIDENTIFIED"; "ANON_SOURCE_ENTRY_"] (js_string (rule@."outcomeKey" ?? JStr "")) = false
}.

Lemma basis_gate_kind rule k v : rule_kind rule = Some (k, v) -> basis_gate rule = [] ->
  match k with
  | PERCENT => forall b, upper_text rule@."basis" = Some b -> b ∈ PERCENT_BASES
  | FIXED => (exists b, upper_text rule@."basis" = Some b /\ b ∈ FIXED_BASES) /\ text rule@."currency" <> None
  end.
Proof.
  unfold basis_gate. intros ->. destruct k.
  - destruct (upper_text _) as [b|]; [|discriminate]. intros E%push_if_nil b' [= <-]. apply negb_false_iff in E. now apply one_of_iff.
  - intros [E1 E2]%app_eq_nil. split; [|now destruct (text _)]. destruct (upper_text _) as [b|]; [|discriminate]. exists b. split; [reflexivity|]. destruct (b =s? "UNKNOWN"); [discriminate|].
    apply push_if_nil, negb_false_iff in E1. now apply one_of_iff.
Qed.
Lemma basis_reasons_basis rule sameKind key g basis : basis_reasons rule (established_bases sameKind key) = [] -> g ∈ sameKind -> baseFactKey g = key ->
  establishedFactBasis g = Some basis -> upper_text rule@."basis" = Some basis.
Proof.
  unfold basis_reasons. intros [E1%push_if_nil E2]%app_eq_nil Hg Hk Hb.
  assert (Hin : basis ∈ omap establishedFactBasis (List.filter (fun f => baseFactKey f =s? key) sameKind)).
  { apply list_elem_of_omap. exists g. split; [|exact Hb]. apply elem_of_filter_bool. split; [exact Hg|]. now rewrite Hk, String.eqb_refl. }
  destruct (distinct_by_covers id _ [] basis Hin) as [[]%not_elem_of_nil|(y & Hy & Ey)]. unfold id in Ey. subst y. fold (established_bases sameKind key) in Hy.
  destruct (established_bases sameKind key) as [|x [|x' l]]; [now apply not_elem_of_nil in Hy| |discriminate]. apply list_elem_of_singleton in Hy as ->. cbn [source_basis] in E2.
  apply push_if_nil, negb_false_iff, String.eqb_eq in E2. destruct (upper_text _) as [b|]; cbn in E2; [now subst|]. exfalso. subst.
  clear -Hb. unfold establishedFactBasis in Hb. destruct (f_kind g); [discriminate|]. destruct (one_of _ _) eqn:E; [discriminate|]. injection Hb as Hb. now rewrite Hb in E.
Qed.
Lemma reconciled_claim rule k v : rule_kind rule = Some (k, v) -> rc_reasons (reconcileSourceEconomics rule (stated rule)) = [] ->
  stated rule = [] \/ ag_conflict (sourceClaimAgreement (stated rule)) = false /\ exists f, claimed rule k v f.
Proof.
  unfold reconcileSourceEconomics. intros Hk. rewrite Hk. destruct (stated rule) as [|e l] eqn:Es; [now left|]. rewrite <- Es. destruct (ag_conflict _); [discriminate|]. intros Hr. right. split; [reflexivity|].
  set (sameKind := List.filter _ (map e_fact (stated rule))) in Hr. assert (Hsame : forall g, g ∈ sameKind <-> g ∈ map e_fact (stated rule) /\ f_kind g = k).
  { intros g. unfold sameKind. rewrite elem_of_filter_bool, is_kind_iff. reflexivity. }
  destruct (distinct_by baseFactKey [] sameKind) as [|f [|f' rest]] eqn:Ed; [discriminate| |discriminate]. apply distinct_by_one in Ed as [Hf Honly]. exists f. apply Hsame in Hf as [Hf Hfk].
  unfold reconcile_fact in Hr. cbn [rc_reasons] in Hr. apply app_eq_nil in Hr as [Ha Hr]. apply push_if_nil, negb_false_iff in Ha. split; try assumption.
  - intros g Hg Hgk. apply Honly. now apply Hsame.
  - intros ->. apply app_eq_nil in Hr as [Hc _]. now apply push_if_nil in Hc.
  - intros g basis -> Hg Hgk Hb. apply app_eq_nil in Hr as [_ Hr]. apply (basis_reasons_basis rule sameKind (baseFactKey f) g); [exact Hr|now apply Hsame|apply Honly; now apply Hsame|exact Hb].
Qed.
Lemma condition_gate_verified rule c : condition_gate rule = [] -> c ∈ as_array rule@."conditions" ->
  to_upper (js_string (c@."conditionType" ?? JStr "")) ∈ UNVERIFIED_CONDITION_TYPES -> conditionVerified c = true.
Proof.
  unfold condition_gate. intros E Hc Ht%one_of_iff. apply list_elem_of_In, in_split in Hc as (l1 & l2 & El). rewrite El, flat_map_app in E. apply app_eq_nil in E as [_ E]. cbn [flat_map] in E.
  apply app_eq_nil in E as [E _]. apply push_if_nil in E. rewrite Ht in E. now destruct (conditionVerified c).
Qed.
Lemma generic_established rule : rule_kind rule <> None -> generic_reasons rule JNull (resolveReadinessEvidence rule JNull JNull) = [] -> established rule.
Proof.
  intros Hk Hr. unfold generic_reasons in Hr. destruct (rule_kind rule) as [[k v]|] eqn:Ek; [clear Hk|easy].
  apply app_eq_nil in Hr as [_ Hr]. apply app_eq_nil in Hr as [_ Hr]. apply app_eq_nil in Hr as [Hbasis Hr]. apply app_eq_nil in Hr as [Htext Hr]. apply app_eq_nil in Hr as [Hecon Hr].
  apply app_eq_nil in Hr as [Hcond Hr]. apply app_eq_nil in Hr as [Hid _]. set (e := resolveReadinessEvidence rule JNull JNull) in *. unfold text_gate in Htext.
  apply app_eq_nil in Htext as [Ht1 Htext]. apply app_eq_nil in Htext as [Ht2 Ht3]. apply push_if_nil in Ht1, Ht2, Ht3. cbn [andb] in Ht1. rewrite Ht1 in Ht3. cbn [negb andb] in Ht3.
  unfold economics in Hecon. rewrite Ek, Ht1 in Hecon. cbn [economics_gate] in Hecon. apply app_eq_nil in Hecon as [Hrec _]. split.
  - exists k, v. split_and!; [exact Ek|now apply (basis_gate_kind rule k v)|now apply reconciled_claim].
  - destruct (ev_text e) as [t|] eqn:Et; [|discriminate]. exists t. cbn [or_empty] in Ht2, Ht3. apply orb_false_iff in Ht2 as [_ Ht2]. apply negb_false_iff in Ht3. split_and!; [exact Et|assumption|assumption].
  - intros c. now apply condition_gate_verified.
  - unfold identity_gate in Hid. apply push_if_nil in Hid. now apply orb_false_iff in Hid as [_ Hid].
Qed.
Lemma ready_established rule : a_financeReady (assess rule JNull JNull JNull) = true -> (metadataOf rule)@."financeReady" = JBool true \/ established rule.
Proof.
  intros Hready. unfold assess in Hready. destruct (prop (metadataOf rule) "financeReady") as [| |[]| | | | |]; try discriminate; try (left; reflexivity); right;
    (cbn [buildResult a_financeReady] in Hready; destruct (generic_reasons _ _ _) eqn:E in Hready; [|discriminate]; apply generic_established; [now destruct (rule_kind rule)|exact E]).
Qed.


(** *** Identities *)

Lemma code_sort_perm l l' : Permutation l l' -> code_sort l = code_sort l'.
Proof.
  intros Hp. assert (Hs : forall l, StronglySorted (fun a b => String.leb a b = true) (code_sort l)).
  { intros k. apply (sort_by_sorted String.leb (fun _ => True)); [intros; apply String.leb_total|intros ? ? ? _ _ _; apply string_leb_trans|now apply Forall_true]. }
  assert (Hanti : AntiSymm eq (fun a b => String.leb a b = true)) by (intros x y; apply String.leb_antisym).
  apply (StronglySorted_unique (fun a b => String.leb a b = true)); [apply Hs|apply Hs|]. unfold code_sort. now rewrite !sort_by_perm.
Qed.
Lemma signature_perm cs cs' : Permutation cs cs' -> canonicalConditionSignature (JArr cs) = canonicalConditionSignature (JArr cs').
Proof.
  intros Hp. unfold canonicalConditionSignature. f_equal. apply code_sort_perm, Permutation_map. cbn [as_array].
  induction Hp; cbn; repeat match goal with |- context [counts ?x] => destruct (counts x) end; eauto using Permutation.
Qed.
Lemma inputs_other a k v : k ∉ "conditions" :: ["name"; "commissionModel"; "commissionType"; "customerType"; "country"; "categoryProductGoal"; "couponOrTier"; "actionType"; "kind"; "basis"; "currency"] ->
  identity_inputs (with_prop a k v) = identity_inputs a.
Proof.
  intros Hk. assert (Hne : forall j, j ∈ "conditions" :: ["name"; "commissionModel"; "commissionType"; "customerType"; "country"; "categoryProductGoal"; "couponOrTier"; "actionType"; "kind"; "basis"; "currency"] ->
    prop (with_prop a k v) j = prop a j). { intros j Hj. apply prop_with_prop_ne, String.eqb_neq. intros ->. contradiction. }
  unfold identity_inputs, SEMANTIC_INPUTS. cbn [map String.eqb Ascii.eqb Bool.eqb]. rewrite !Hne by set_solver. reflexivity.
Qed.
(** The identity of a rule without an id of its own does not depend on the order of its conditions, and where its meaning
    identifies it not on the entry it was read from, so not on its rate. *)
Theorem identity_from_meaning {C : Crypto} a :
  (forall cs cs', a@."conditions" = JArr cs -> Permutation cs cs' -> anonymousRuleIdentity (with_prop a "conditions" (JArr cs')) = anonymousRuleIdentity a) /\
  (i_sufficient (anonymousRuleIdentity a) = true -> forall entry, anonymousRuleIdentity (with_prop a "entry" entry) = anonymousRuleIdentity a).
Proof.
  split.
  - intros cs cs' Ec Hp. assert (Ei : identity_inputs (with_prop a "conditions" (JArr cs')) = identity_inputs a).
    { unfold identity_inputs, SEMANTIC_INPUTS. cbn [map String.eqb Ascii.eqb Bool.eqb]. rewrite prop_with_prop_eq, !prop_with_prop_ne by reflexivity. now rewrite Ec, (signature_perm cs cs' Hp). }
    unfold anonymousRuleIdentity. now rewrite Ei, prop_with_prop_ne by reflexivity.
  - unfold anonymousRuleIdentity. intros Hs entry. rewrite inputs_other by (rewrite elem_of_cons; set_solver). destruct (existsb _ SEMANTIC_INPUTS); [reflexivity|discriminate].
Qed.
End Facts.
End ReadinessFacts.
