(* ===== verification/Samples.v ===== *)
(** * Concrete states

    A UTC host, columns kept as written, a store with one approved order, one conversion,
    one client rule and the rows the services create from them.  The theorems of the other
    files are applied to them in [Witnesses]. *)

From Stdlib Require Import SpecFloat.
From S2P Require Import Prelude JsNum JsVal JsDate Store Exceptions.
Local Open Scope Z_scope.

Module Samples.

#[export] Existing Instance utc_host.
#[export] Existing Instance plain_database.

(** 2024-03-15T12:00:00.000Z *)
Definition noon : Z := 1710504000000.
Definition at_noon : jsval := JDate (Some noon).

Definition store (f : table -> list jsval) : world := World f noon 100.

Definition rule : jsval := JObj
  [("id", JStr "rule-1"); ("assignmentId", JStr "asg-1"); ("status", JStr "EFFECTIVE");
   ("effectiveFrom", JDate (Some (noon - 86400000))); ("effectiveUntil", JNull); ("conditions", JArr []);
   ("commissionType", JStr "PERCENT"); ("grossCommission", JStr "10"); ("clientCommission", JStr "7"); ("currency", JStr "USD");
   ("agreementRef", JStr "AG-1"); ("agreementApprovedAt", at_noon); ("agreementApprovedBy", JStr "ops")].
Definition client : jsval := JObj [("id", JStr "cl-1"); ("country", JStr "US"); ("currency", JStr "USD")].
Definition assignment : jsval := JObj [("id", JStr "asg-1"); ("clientId", JStr "cl-1")].

Definition order_in (validation supplier payment : string) : jsval := JObj
  [("id", JStr "ord-1"); ("clientId", JStr "cl-1"); ("clientAssignmentId", JStr "asg-1"); ("supplier", JStr "NET");
   ("supplierOrderId", JStr "s-1"); ("currency", JStr "USD"); ("orderDate", at_noon);
   ("validationStatus", JStr validation); ("supplierPaymentStatus", JStr supplier); ("clientPaymentStatus", JStr payment)].
Definition conversion : jsval := JObj
  [("id", JStr "cv-1"); ("orderId", JStr "ord-1"); ("clientAssignmentId", JStr "asg-1"); ("supplier", JStr "NET");
   ("status", JStr "PENDING"); ("currency", JStr "USD"); ("conversionDate", at_noon); ("supplierCommission", JStr "12.5")].

Definition tables (orders items conversions financials adjustments : list jsval) (t : table) : list jsval :=
  match t with
  | TOrder => orders
  | TOrderItem => items
  | TConversion => conversions
  | TAssignment => [assignment]
  | TClient => [client]
  | TRule => [rule]
  | TFinancial => financials
  | TAdjustment => adjustments
  | _ => []
  end.

(** An approved order that is not recognized yet. *)
Definition approved_world : world :=
  store (tables [order_in "VALIDATION_APPROVED" "PAYMENT_PENDING" "CLIENT_PAYMENT_NOT_READY"] [] [conversion] [] []).

(** The same with its commission recognized. *)
Definition ledger_row (id key type status supplierReceivable clientPayable mboMargin : string) : jsval := JObj
  [("id", JStr id); ("recognitionKey", JStr key); ("transactionType", JStr type);
   ("status", JStr status); ("orderId", JStr "ord-1"); ("conversionId", JStr "cv-1"); ("clientId", JStr "cl-1");
   ("supplierReceivable", JStr supplierReceivable); ("clientPayable", JStr clientPayable); ("mboMargin", JStr mboMargin);
   ("originalCurrency", JStr "USD"); ("reportingCurrency", JStr "USD"); ("fxRate", JStr "1"); ("effectiveAt", at_noon)].
Definition earned_row : jsval := ledger_row "ft-1" "earn:cv-1" "COMMISSION_EARNED" "FINANCIAL_RECOGNIZED" "12.5000" "8.7500" "3.7500".
Definition correction_row : jsval := ledger_row "ft-2" "adj:COMMISSION_CORRECTION:cv-1:k" "ADJUSTMENT" "FINANCIAL_ADJUSTED" "-2.5000" "-1.7500" "-0.7500".

Definition recognized_world (financials : list jsval) : world :=
  store (tables [order_in "VALIDATION_APPROVED" "PAYMENT_PENDING" "CLIENT_PAYMENT_NOT_READY"] [] [conversion] financials []).

End Samples.
