(* ===== verification/SettlementWitnesses.v ===== *)
(** * Settlement at concrete states

    The theorems on statements, tax, invoices and withdrawals at a client with a small ledger, and
    runs in which the services let more money out than they mean to. *)

From Stdlib Require Import SpecFloat.
From S2P Require Import Prelude JsNum JsVal JsDate Store Exceptions Accounts Settlement Encryption Withdrawals Samples.
Import Samples.
Local Open Scope Z_scope.

Module Settled.

(** Bytes kept as they are; a cipher that marks what it sealed; the first reference every time. *)
#[export] Instance plain_base64 : Base64 := {| to_base64 s := s; of_base64 s := s; base64_roundtrip s := eq_refl |}.
Definition zero_bytes (n : nat) : string := zeros n "".
Lemma zero_bytes_length n : String.length (zero_bytes n) = n.
Proof. unfold zero_bytes. induction n as [|n IH]; [reflexivity|]. cbn. now rewrite IH. Qed.
#[export] Instance toy_cipher : Cipher.
Proof.
  refine {| sha256 s := s; random_bytes _ n := zero_bytes n;
            seal key iv text := ("sealed:" +:+ text, zero_bytes 16);
            unseal key iv tag text := if starts_with "sealed:" text then Some (string_drop 7 text) else None |}.
  - intros d n. apply zero_bytes_length.
  - intros key iv text. apply zero_bytes_length.
  - intros key iv text. cbn [fst snd]. change (starts_with "sealed:" ("sealed:" +:+ text)) with (starts_with "" text). unfold string_drop.
    rewrite Secrets.append_length, Secrets.substring_skip by reflexivity.
    replace (String.length "sealed:" + String.length text - 7)%nat with (String.length text) by (cbn; lia). rewrite Secrets.substring_whole. now destruct text.
Defined.
#[export] Instance fixed_dice : Dice.
Proof. refine {| random_9000 d := Z.of_nat d mod 9000 |}. intros d. apply Z.mod_pos_bound. lia. Defined.

Definition cl : jsval := JStr "cl-1".
Definition partner (status : string) : jsval := JObj [("id", cl); ("status", JStr status); ("currency", JStr "USD"); ("deletedAt", JNull)].
Definition invoice (status total : string) : jsval := JObj
  [("id", JStr "inv-1"); ("invoiceNumber", JStr "INV-1"); ("clientId", cl); ("statementId", JStr "st-1"); ("currency", JStr "USD");
   ("subtotal", JStr total); ("adjustments", JStr "0"); ("taxAmount", JStr "0"); ("total", JStr total); ("status", JStr status); ("issuedAt", at_noon)].
Definition statement (closing : string) : jsval := JObj
  [("id", JStr "st-1"); ("clientId", cl); ("currency", JStr "USD"); ("periodStart", JDate (Some 1709251200000));
   ("periodEnd", JDate (Some 1711843200000)); ("closingBalance", JStr closing); ("status", JStr "OPEN")].
Definition profile : jsval := JObj
  [("id", JStr "tp-1"); ("clientId", cl); ("taxEnabled", JBool true); ("taxCountry", JStr "IN"); ("taxRatePercent", JStr "18");
   ("taxType", JStr "GST"); ("legalReviewStatus", JStr "APPROVED")].
Definition with_tables (f : list (table * list jsval)) : world :=
  store (fun t => default [] (snd <$> List.find (fun p => bool_decide (p.1 = t)) f)).

(** ** Invoices and payments *)

Section Invoices.
Import Invoices SettlementFacts.

Definition issued_world : world := with_tables [(TInvoice, [invoice "ISSUED" "100.0000"])].
Lemma issued_settled : settled issued_world.
Proof.
  split; [split|].
  - repeat constructor.
  - apply Forall_singleton. now exists "inv-1".
  - constructor.
  - constructor.
  - constructor.
  - apply Forall_singleton. intros E. discriminate E.
Qed.
Definition id1 : jsval := JStr "inv-1".
Definition pay (confirm : bool) : invoice_call := Record "cl-1" id1 (JStr "100") JUndef JUndef (JBool confirm).
Definition run_calls (calls : list invoice_call) (w : world) : world := fold_left (fun w c => invoice_step c w) calls w.
Definition status_of (w : world) (t : table) (n : nat) : jsval := (nth n (rows w t) JUndef)@."status".

Lemma paid_means_covered_witness :
  let w' := run_calls [Record "cl-1" id1 (JStr "40") JUndef JUndef (JBool true); Record "cl-1" id1 (JStr "60") JUndef JUndef (JBool true)] issued_world in
  status_of w' TInvoice 0 = JStr "PAID" /\
  nleb (num_of_Z 100) (nadd (confirmed (payments_of (rows w' TClientPayment) id1)) CENT_OF_CENT) = true.
Proof.
  cbv zeta. split; [vm_compute; reflexivity|].
  apply (paid_means_covered [Record "cl-1" id1 (JStr "40") JUndef JUndef (JBool true); Record "cl-1" id1 (JStr "60") JUndef JUndef (JBool true)]
           issued_world issued_settled (nth 0 (rows (run_calls [Record "cl-1" id1 (JStr "40") JUndef JUndef (JBool true); Record "cl-1" id1 (JStr "60") JUndef JUndef (JBool true)] issued_world) TInvoice) JUndef)).
  - vm_compute. left.
  - vm_compute. reflexivity.
Defined.

(** Two payments of the whole total are recorded while both are pending, and then both confirmed:
    the check of the balance counts confirmed payments only, and confirming checks nothing. *)
Theorem overpaid_by_confirming :
  let w' := run_calls [pay false; pay false] issued_world in
  length (rows w' TClientPayment) = 2%nat /\
  let w'' := run_calls (map (fun p => Confirm p@."id" "cl-1") (rows w' TClientPayment)) w' in
  confirmed (payments_of (rows w'' TClientPayment) id1) = num_of_Z 200.
Proof. vm_compute. split; reflexivity. Qed.

(** A payment that was pending when its invoice was voided makes the invoice paid. *)
Theorem void_invoice_is_paid :
  let w1 := run_calls [pay false] issued_world in
  let w2 := set_rows TInvoice [invoice "VOID" "100.0000"] w1 in
  status_of w2 TInvoice 0 = JStr "VOID" /\
  status_of (run_calls (map (fun p => Confirm p@."id" "cl-1") (rows w2 TClientPayment)) w2) TInvoice 0 = JStr "PAID".
Proof. vm_compute. split; reflexivity. Qed.

(** A statement is invoiced as often as it is asked for. *)
Theorem statement_invoiced_twice :
  let w' := run_calls [Create (JStr "st-1") cl (JStr "A") JUndef false; Create (JStr "st-1") cl (JStr "B") JUndef false]
              (with_tables [(TStatement, [statement "75.0000"])]) in
  map (fun r => (r@."statementId", r@."total")) (rows w' TInvoice) = [(JStr "st-1", JStr "75.0000"); (JStr "st-1", JStr "75.0000")].
Proof. vm_compute. reflexivity. Qed.
End Invoices.

(** ** Statements and tax *)

Section Statements.
Import Statements StatementFacts Tax TaxFacts.

Definition ledger_world : world := with_tables [(TFinancial, [correction_row; earned_row])].
Definition march_1 : jsval := JStr "2024-03-01".
Definition march_31 : jsval := JStr "2024-03-31".
Definition built : outcome jsval * world := buildOrRefresh cl march_1 march_31 (JStr "usd") ledger_world.
Lemma statement_is_the_ledger_witness :
  exists out lines, built.1 = Ok out /\ out@."lines" = JArr lines /\ length lines = 2%nat /\ out@."closingBalance" = JStr "7.0000".
Proof.
  assert (E : exists out, built = (Ok out, built.2)) by (eexists; vm_compute; reflexivity). destruct E as [out E].
  destruct (statement_is_the_ledger "cl-1" march_1 march_31 (JStr "usd") 1709251200000 1711843200000 ledger_world out built.2) as (sid & lines & _ & Hl & Hf & Hb & _).
  - split; constructor.
  - vm_compute. reflexivity.
  - vm_compute. reflexivity.
  - exact E.
  - exists out, lines. split_and!; [now rewrite E|exact Hl| |].
    + apply Forall2_length in Hf. rewrite <- Hf. vm_compute. reflexivity.
    + rewrite Hb. vm_compute. reflexivity.
Defined.

(** A statement of the days 1 to 15 March leaves out what was earned at noon of the 15th: its last
    day ends at midnight. *)
Theorem last_day_left_out :
  exists out, (buildOrRefresh cl march_1 (JStr "2024-03-15") (JStr "USD") ledger_world).1 = Ok out /\ out@."lines" = JArr [].
Proof. eexists. split; vm_compute; reflexivity. Qed.

Definition taxed_world : world := with_tables [(TInvoice, [invoice "DRAFT" "100.0000"]); (TTaxProfile, [profile])].
Definition taxing : outcome tax_result * world := applyTaxForInvoice (JStr "inv-1") cl false taxed_world.
Lemma tax_from_contract_witness :
  exists r p inv t, taxing.1 = Ok r /\ contract_tax p inv t /\ taxed inv t r /\ (tax_invoice r)@."total" = JStr "118".
Proof.
  assert (E : exists r, taxing = (Ok r, taxing.2) /\ applied r = true /\ reused r = false /\ (tax_invoice r)@."total" = JStr "118")
    by (eexists; vm_compute; auto). destruct E as (r & E & Ha & Hr & Ht).
  pose proof (tax_from_contract (JStr "inv-1") "cl-1" false taxed_world r taxing.2 E Hr) as Hc. rewrite Ha in Hc.
  destruct Hc as (p & inv & t & _ & _ & _ & _ & Hcontract & Htaxed). exists r, p, inv, t. split_and!; [now rewrite E|exact Hcontract|exact Htaxed|exact Ht].
Defined.
End Statements.

(** ** Withdrawals *)

Section Withdrawals.
Import FinanceConsumer PortalMoney WithdrawalFacts.

Definition body : jsval := JObj
  [("accountHolder", JStr "Asha"); ("bankName", JStr "Bank"); ("accountNumber", JStr "1234 5678 90"); ("ifscCode", JStr "hdfc01")].
Definition partner_tables (commission : string) (withdrawals : list jsval) : list (table * list jsval) :=
  [(TClient, [partner "ACTIVE"]); (TAssignment, [JObj [("id", JStr "asg-1"); ("clientId", cl); ("status", JStr "ACTIVE")]]);
   (TConversion, [JObj [("id", JStr "cv-1"); ("clientAssignmentId", JStr "asg-1"); ("status", JStr "APPROVED"); ("clientCommission", JStr commission)]]);
   (TBankAccount, [JObj [("id", JStr "b-1"); ("clientId", cl)]]); (TWithdrawal, withdrawals)].
Definition earned_world (commission : string) (withdrawals : list jsval) : world := with_tables (partner_tables commission withdrawals).

Definition saved : outcome jsval * world := saveBankDetails (JStr "k") cl body (earned_world "1500" []).
Lemma bank_details_kept_witness :
  exists row, row ∈ rows saved.2 TBankAccount /\ row@."clientId" = cl /\ row@."accountNumberLast4" = JStr "7890".
Proof.
  assert (E : exists out, saved = (Ok out, saved.2)) by (eexists; vm_compute; reflexivity). destruct E as [out E].
  destruct (bank_details_kept (JStr "k") "cl-1" body (earned_world "1500" []) out saved.2) as [(row & Hin & Hc & _ & Hk) _].
  - split; [repeat constructor|]. apply Forall_singleton. now exists "b-1".
  - exact E.
  - exists row. split_and!; [exact Hin|exact Hc|]. rewrite (k_last4 _ _ _ _ _ Hk). vm_compute. reflexivity.
Defined.

(** Two requests of the whole balance that are checked before either is stored are both stored. *)
Theorem concurrent_withdrawals_overdraw :
  let w := earned_world "1500" [] in
  (check_withdrawal "LEGACY" cl (JStr "1500") w).1 = Ok (num_of_Z 1500, JStr "USD") /\
  rows (check_withdrawal "LEGACY" cl (JStr "1500") w).2 TWithdrawal = rows w TWithdrawal /\
  let first := store_withdrawal cl JNull (num_of_Z 1500) (JStr "USD") w in
  let second := store_withdrawal cl JNull (num_of_Z 1500) (JStr "USD") first.2 in
  in_progress (rows second.2 TWithdrawal) = num_of_Z 3000.
Proof. vm_compute. split_and!; reflexivity. Qed.

(** A hundred and one withdrawals of 1000 were paid out of 101000 earned; the balance looks at a
    hundred of them, and 1000 can be withdrawn once more. *)
Definition paid_withdrawal (n : Z) : jsval := JObj
  [("id", JStr ("w-" +:+ print_Z n "")); ("clientId", cl); ("reference", JStr ("R-" +:+ print_Z n "")); ("amount", JStr "1000");
   ("status", JStr "PAID"); ("createdAt", JDate (Some (noon + n)))].
Theorem old_withdrawals_forgotten :
  let w := earned_world "101000" (map (fun n => paid_withdrawal (Z.of_nat n)) (seq 0 101)) in
  paid_out (rows w TWithdrawal) = num_of_Z 101000 /\
  exists out, (requestWithdrawal "LEGACY" cl (JStr "1000") JNull w).1 = Ok out.
Proof. split; [vm_compute; reflexivity|]. eexists. vm_compute. reflexivity. Qed.

(** One approved conversion has no transaction, and the transaction of a conversion that was
    rejected since stands in for it: the coverage is complete. *)
Theorem coverage_counts_the_rejected :
  let w := with_tables
    [(TConversion, [JObj [("id", JStr "cv-1"); ("status", JStr "REJECTED")]; JObj [("id", JStr "cv-2"); ("status", JStr "APPROVED")]]);
     (TFinancial, [earned_row])] in
  getFinancialCoverage JUndef w = (Ok (Coverage 1 1 (num_of_Z 100) true), w).
Proof. vm_compute. reflexivity. Qed.
End Withdrawals.
End Settled.
