(* ===== verification/ReportingWitnesses.v ===== *)
(** * Attribution, aggregation and promotion at concrete states

    The theorems on attribution, the daily reports and the promotion walk at small stores, and runs
    in which the services do what they do not mean to. *)

From Stdlib Require Import SpecFloat.
From S2P Require Import Prelude JsNum JsVal JsDate Store Exceptions Accounts Encryption Withdrawals Validation Attribution Aggregation Promotion Samples SettlementWitnesses.
Import Samples Settled.
Local Open Scope Z_scope.

Module Reported.

(** ** Attribution *)

Section Attribution.
Import AttributionLogic Attribution AttributionFacts.

Definition live (id client : string) : jsval := JObj
  [("id", JStr id); ("clientId", JStr client); ("campaignSourceId", JStr "src-1"); ("canonicalCampaignId", JStr "cc-1"); ("status", JStr "ACTIVE");
   ("published", JBool true); ("canonicalCampaign", JObj [("id", JStr "cc-1"); ("merchantId", JStr "m-1")])].
Definition coupon_of (id assignment : string) : jsval := JObj
  [("id", JStr id); ("assignmentId", JStr assignment); ("status", JStr "ACTIVE"); ("supplierCouponCode", JStr "SAVE10"); ("clientCouponCode", JNull)].
(** A conversion with the coupon SAVE10, and the fields [more]. *)
Definition sold (id : string) (more : list (string * jsval)) : jsval := JObj
  (more ++ [("id", JStr id); ("supplier", JStr "BOOSTINY"); ("supplierConversionId", JStr id); ("sourceAccountLabel", JStr "default"); ("status", JStr "APPROVED");
            ("currency", JStr "USD"); ("conversionDate", at_noon); ("supplierCommission", JStr "12.5000"); ("approvedCommission", JNull);
            ("attributionStatus", JStr "PENDING"); ("metadata", JObj [("attributionHints", JObj [("couponCode", JStr "save10")])])]).
Definition coupon_world (coupons : list jsval) : world :=
  with_tables [(TConversion, [sold "cv-9" []]); (TAssignment, [live "asg-1" "cl-1"; live "asg-2" "cl-2"]); (TCouponAssignment, coupons); (TRule, [rule])].
Definition attribute (w : world) : outcome jsval := (attributeConversion (JStr "cv-9") JUndef JUndef w).1.
Definition answered (o : outcome jsval) : jsval := match o with Ok r => r | Throw _ => JUndef end.


(** An attributed conversion is found to be another client's: it becomes an orphan, but keeps the assignment and the
    commission of the client it was taken from, who is still paid for it. *)
Definition wrong_client_world : world := with_tables
  [(TConversion, [sold "cv-9" [("clientAssignmentId", JStr "asg-1"); ("clientCommission", JStr "5000.0000"); ("mboCommission", JStr "3.7500")]]);
   (TAssignment, [live "asg-1" "cl-1"]); (TClient, [partner "ACTIVE"]); (TRule, [rule])].
Theorem rejected_client_keeps_commission :
  let run := attributeConversion (JStr "cv-9") JUndef (JStr "cl-2") wrong_client_world in
  ((answered run.1)@."attributionStatus", (answered run.1)@."metadata"@."attributionRejection"@."reason") = (JStr "ORPHAN", JStr "wrong_client") /\
  ((answered run.1)@."clientAssignmentId", (answered run.1)@."clientCommission") = (JStr "asg-1", JStr "5000.0000") /\
  match (PortalMoney.getPaymentsSummary "LEGACY" cl run.2).1 with
  | Ok s => PortalMoney.available (PortalMoney.s_kpis s) = num_of_Z 5000
  | Throw _ => False
  end.
Proof. vm_compute. split_and!; reflexivity. Qed.
End Attribution.

(** ** Daily reports *)

Section Reports.
Import Attribution Aggregation AggregationFacts.

Definition earned_on (id currency commission : string) : jsval := JObj
  [("id", JStr id); ("clientAssignmentId", JStr "asg-1"); ("campaignSourceId", JStr "src-1"); ("status", JStr "APPROVED"); ("currency", JStr currency);
   ("conversionDate", at_noon); ("attributionStatus", JStr "ATTRIBUTED"); ("supplierCommission", JStr commission); ("clientCommission", JStr commission);
   ("mboCommission", JStr "0.0000"); ("metadata", JObj [])].
Definition click_on (id : string) : jsval := JObj
  [("id", JStr id); ("clientAssignmentId", JStr "asg-1"); ("campaignSourceId", JStr "src-1"); ("clickedAt", at_noon)].
Definition day_world : world := with_tables
  [(TConversion, [earned_on "cv-1" "USD" "100.0000"; earned_on "cv-2" "INR" "8000.0000"]); (TClick, [click_on "c-1"; click_on "c-2"; click_on "c-3"]);
   (TAssignment, [live "asg-1" "cl-1"])].
Definition midnight : Z := 1710460800000.
Definition last_ms : Z := 1710547199999.
Definition summary_of (o : outcome aggregate_summary) : aggregate_summary := match o with Ok s => s | Throw _ => AggregateSummary 0 0 0 0 "" None None end.
Definition day_run : outcome aggregate_summary * world := aggregateRange "LEGACY" midnight last_ms JUndef day_world.


(** A hundred dollars and eight thousand rupees of one campaign are reported as 8100 rupees. *)
Theorem currencies_added_together :
  map (fun r => (r@."clientCommission", r@."currency")) (rows day_run.2 TDailyReport) = [(JStr "8100.0000", JStr "INR")].
Proof. vm_compute. reflexivity. Qed.
End Reports.

(** ** Promotion *)

Section Promotions.
Import Mapping Promotion PromotionFacts.

Definition entity (id conversion : string) (more : list (string * jsval)) : jsval := JObj
  [("id", JStr id); ("entityType", JStr "conversion"); ("networkSource", JStr "boostiny"); ("externalId", JStr conversion);
   ("rawData", JObj (more ++ [("conversionId", JStr conversion); ("commission", JStr "12.5"); ("status", JStr "approved"); ("conversionDate", JStr "2024-03-15");
                              ("orderId", JStr ("o-" +:+ conversion)); ("currency", JStr "usd")]))].
Definition staged_world : world := with_tables [(TEntity, [entity "e3" "c3" []; entity "e1" "c1" []; entity "e2" "c2" []])].
Lemma three_staged : staged staged_world.
Proof. split; [repeat (apply Forall_cons; split; [eexists; split; [reflexivity|discriminate]|]); now apply Forall_nil|]. compute_done. Qed.
Definition promoted_ids (w : world) : list jsval := map (fun r => r@."supplierConversionId") (rows w TConversion).

Lemma promotion_walk_complete_witness :
  (run (JStr "boostiny") [] 2 JUndef staged_world).1 = Ok (Some (RunSummary 3 3 0 0)) /\
  exists os w', collect (page_rows (JStr "boostiny") [] JUndef staged_world) promoteEntity staged_world = (Ok os, w') /\
    length os = length (page_rows (JStr "boostiny") [] JUndef staged_world) /\
    run (JStr "boostiny") [] 2 JUndef staged_world = (Ok (Some (add_page no_pages (tally os))), w') /\ same_entities staged_world w'.
Proof. split; [vm_compute; reflexivity|]. apply (promotion_walk_complete (JStr "boostiny") 2 staged_world); [lia|exact three_staged]. Defined.

(** Asked to promote one named row, with pages of one, the walk goes on with every row behind it. *)
Theorem named_rows_exceeded :
  let w' := (run (JStr "boostiny") ["e1"] 1 JUndef staged_world).2 in
  promoted_ids w' = [JStr "c1"; JStr "c2"; JStr "c3"].
Proof. vm_compute. reflexivity. Qed.

(** The click id of the network is written to the foreign key of the clicks: unless it is one of
    ours, the conversion is not stored, and its order is left without it. *)
Theorem foreign_click_fails :
  let w := with_tables [(TEntity, [entity "e1" "c1" [("clickId", JStr "network-click-77")]])] in
  let run := promoteEntity (entity "e1" "c1" [("clickId", JStr "network-click-77")]) w in
  run.1 = Ok (Failed "Foreign key constraint failed." (JStr "e1")) /\ rows run.2 TConversion = [] /\ length (rows run.2 TOrder) = 1%nat.
Proof. vm_compute. split_and!; reflexivity. Qed.
End Promotions.
End Reported.
