(* ===== verification/CommercialWitnesses.v ===== *)
(** * Rules, links and redirects at concrete states

    Instances of the interfaces of the tracking files (addresses over TLS with an escaped query, ASCII
    letters, an alphabetical order), the theorems on rules, links and visits at small stores, and runs in
    which the services do what they do not mean to. *)

From Stdlib Require Import SpecFloat.
From S2P Require Import Prelude JsNum JsVal JsDate Store Accounts Encryption Runtime Attribution Commercial Tracking TrackingLinks Samples SettlementWitnesses.
Import Samples Settled.
Local Open Scope Z_scope.

Module Traded.

(** ** Addresses *)

Fixpoint cut (stop : ascii) (s : string) : string * string :=
  match s with
  | EmptyString => ("", "")
  | String c s' => if (c =? stop)%char then ("", s) else let '(a, b) := cut stop s' in (String c a, b)
  end.
Definition starts_at (stop : ascii) (s : string) : bool := match s with String c _ => (c =? stop)%char | EmptyString => true end.
Definition lacks (stop : ascii) (s : string) : bool := all_chars (fun c => negb (c =? stop)%char) s.
Lemma cut_spec stop s : let '(a, b) := cut stop s in s = a +:+ b /\ lacks stop a = true /\ starts_at stop b = true.
Proof.
  induction s as [|c s IH]; [now cbn|]. cbn. destruct (c =? stop)%char eqn:E; [split_and!; [reflexivity|reflexivity|exact E]|]. destruct (cut stop s) as [a b]. destruct IH as (-> & Ha & Hb).
  unfold lacks in *. cbn [all_chars]. rewrite E. auto.
Qed.
Lemma cut_app stop a b : lacks stop a = true -> starts_at stop b = true -> cut stop (a +:+ b) = (a, b).
Proof.
  unfold lacks. induction a as [|c a IH]; cbn [all_chars].
  - intros _ Hb. destruct b as [|c b]; [reflexivity|]. cbn [starts_at] in Hb. change ("" +:+ String c b) with (String c b). cbn [cut]. now rewrite Hb.
  - intros [Hc%negb_true_iff Ha]%andb_true_iff Hb. rewrite Secrets.append_cons. cbn [cut]. now rewrite Hc, (IH Ha Hb).
Qed.
Fixpoint strip_prefix (p s : string) : option string :=
  match p, s with
  | EmptyString, _ => Some s
  | String a p', String b s' => if (a =? b)%char then strip_prefix p' s' else None
  | _, _ => None
  end.
Definition toy_parse (s : string) : option url :=
  match strip_prefix "https://" s with
  | None => None
  | Some rest => let '(front, search) := cut "?" rest in
                 let '(host, path) := cut "/" front in
                 Some (Url "https:" "" "" host ("https://" +:+ host) path search "")
  end.
Definition toy_string (u : url) : string := "https://" +:+ (u_hostname u +:+ u_pathname u) +:+ u_search u.
(** Each character of a name or a value after a mark *)
Fixpoint marked (s : string) : string := match s with String c s' => String "x" (String c (marked s')) | EmptyString => EmptyString end.
Definition pairs_text (l : list (string * string)) : string := fold_right (fun kv rest => marked kv.1 +:+ String "=" (marked kv.2 +:+ String "&" rest)) "" l.
Definition toy_search (l : list (string * string)) : string := match l with [] => "" | _ => String "?" (pairs_text l) end.
Fixpoint read_pairs (key acc s : string) : list (string * string) :=
  match s with
  | String "x" (String c s') => read_pairs key (acc +:+ String c "") s'
  | String "=" s' => read_pairs acc "" s'
  | String "&" s' => (key, acc) :: read_pairs "" "" s'
  | _ => []
  end.
Definition toy_params (s : string) : list (string * string) := match s with String _ s' => read_pairs "" "" s' | EmptyString => [] end.
Lemma app_empty s : s +:+ "" = s.
Proof. induction s as [|c s IH]; [reflexivity|]. now rewrite Secrets.append_cons, IH. Qed.
Lemma read_marked s key acc rest : read_pairs key acc (marked s +:+ rest) = read_pairs key (acc +:+ s) rest.
Proof.
  revert acc. induction s as [|c s IH]; intros acc; cbn [marked].
  - now rewrite app_empty.
  - rewrite !Secrets.append_cons. cbn [read_pairs]. now rewrite IH, Secrets.append_assoc.
Qed.
Lemma pairs_read l : read_pairs "" "" (pairs_text l) = l.
Proof.
  induction l as [|[k v] l IH]; [reflexivity|]. cbn [pairs_text fold_right fst snd]. rewrite read_marked. cbn [read_pairs]. rewrite read_marked. cbn [read_pairs].
  fold (pairs_text l). now rewrite IH.
Qed.
Lemma strip_https r : strip_prefix "https://" ("https://" +:+ r) = Some r.
Proof. reflexivity. Qed.
Lemma toy_again s u l : toy_parse s = Some u -> starts_at "?" l = true -> toy_parse (toy_string (with_search u l)) = Some (with_search u l).
Proof.
  unfold toy_parse. destruct (strip_prefix "https://" s) as [rest|]; [|discriminate]. pose proof (cut_spec "?" rest) as Hc. destruct (cut "?" rest) as [front search].
  destruct Hc as (_ & Hf & _). pose proof (cut_spec "/" front) as Hp. destruct (cut "/" front) as [host path]. destruct Hp as (-> & Hh & Hpath). intros [= <-] Hl.
  unfold toy_string, with_search. cbn [u_hostname u_pathname u_search u_protocol u_username u_password u_origin u_hash]. rewrite strip_https.
  now rewrite (cut_app "?" _ _ Hf Hl), (cut_app "/" _ _ Hh Hpath).
Qed.
#[export] Instance toy_urls : UrlHost.
Proof.
  refine {| parse_url := toy_parse; url_string := toy_string; search_params := toy_params; search_text := toy_search |}.
  - intros [|kv l]; [reflexivity|]. apply pairs_read.
  - intros s u E. assert (Eu : with_search u (u_search u) = u) by now destruct u. rewrite <- Eu at 1. rewrite (toy_again s u _ E); [now rewrite Eu|].
    unfold toy_parse in E. destruct (strip_prefix "https://" s) as [rest|]; [|discriminate]. pose proof (cut_spec "?" rest) as Hc. destruct (cut "?" rest) as [front search].
    destruct (cut "/" front). injection E as <-. apply Hc.
  - intros s u l E _. apply (toy_again s u _ E). now destruct l.
Defined.
#[export] Instance ascii_text : TextHost := {| fold_text := to_lower; fold_ascii _ _ := eq_refl |}.
#[export] Instance tracking_config : TrackingConfig := {| TRACKING_BASE_URL := Some "https://go.mbo.test/"; BACKEND_URL := None |}.
#[export] Instance alphabetical : Locale := {| locale_le a b := (a =s? b) || String.ltb a b |}.
#[export] Instance no_cms : CouponCms := {| allotment_fields _ _ := JObj []; coupon_code_type _ _ := JNull; parent_campaign_ids _ := [] |}.
Lemma zeros_hex n s : all_chars is_hex s = true -> all_chars is_hex (zeros n s) = true.
Proof. intros Hs. induction n as [|n IH]; [exact Hs|exact IH]. Qed.
#[export] Instance zero_crypto : Crypto.
Proof.
  refine {| sha256_hex _ := zeros 64 ""; random_hex _ n := zeros (2 * n) ""; random_code _ := "100000" |}.
  - intros. split; reflexivity.
  - intros. split; [now apply zeros_hex|apply zero_bytes_length].
Defined.

(** ** Samples *)

Definition day : Z := 86400000.
Definition at_day (n : Z) : jsval := JDate (Some (noon + n * day)).
(** A published assignment of a live client, with the fields [source] of its supplier campaign *)
Definition granted (source : list (string * jsval)) : jsval := JObj
  [("id", JStr "asg-1"); ("clientId", JStr "cl-1"); ("canonicalCampaignId", JStr "cc-1"); ("status", JStr "ACTIVE"); ("published", JBool true);
   ("client", JObj [("id", JStr "cl-1"); ("slug", JStr "Acme Ltd"); ("status", JStr "ACTIVE"); ("deletedAt", JNull)]);
   ("canonicalCampaign", JObj [("id", JStr "cc-1"); ("displayName", JStr "Dazn"); ("status", JStr "ACTIVE"); ("visibility", JStr "PUBLIC"); ("deletedAt", JNull)]);
   ("campaignSource", JObj [("supplierCampaign", JObj ([("supplier", JStr "PARTNERIZE"); ("campaignName", JStr "Dazn Partners")] ++ source))])].

(** ** Rules *)

Section Rules.
Import Runtime CommercialRules CommercialFacts.

Definition rule_from (from until : jsval) : jsval := JObj
  [("assignmentId", JStr "asg-1"); ("grossCommission", JNum (num_of_Z 100)); ("clientCommission", JNum (num_of_Z 70)); ("effectiveFrom", from); ("effectiveUntil", until);
   ("agreementRef", JStr "AG-2"); ("agreementApprovedAt", at_noon); ("agreementApprovedBy", JStr "ops"); ("activate", JBool true)].
Definition rules_world (rules : list jsval) : world := with_tables [(TAssignment, [granted []]); (TRule, rules)].
Definition one_rule : world := rules_world [rule].
Definition successor : rule_call := Create (rule_from (at_day 1) JNull).
Lemma one_rule_tidy : tidy one_rule.
Proof.
  split.
  - apply Forall_singleton. exists "rule-1", "asg-1". split_and!; reflexivity || discriminate.
  - apply Forall_singleton. now exists "asg-1".
  - repeat constructor.
  - repeat constructor.
Qed.

(** A successor: one of the two rules is in force afterwards, and none clash. *)
Lemma rules_never_clash_witness :
  let w' := rule_step successor one_rule in
  (length (rows w' TRule), map in_force (rows w' TRule)) = (2%nat, [false; true]) /\
  forall a b, a ∈ rows w' TRule -> b ∈ rows w' TRule -> in_force a = true -> in_force b = true ->
  a@."assignmentId" = b@."assignmentId" -> same_lineage a b = true -> overlaps a b = true -> a = b.
Proof.
  split; [vm_compute; reflexivity|]. apply (rules_never_clash one_rule _ one_rule_tidy). apply (reach_call _ successor); [exact I|constructor].
Defined.

(** The predecessor is superseded at once: the time before the successor starts has no rule any more. *)
Lemma successor_leaves_gap :
  ((findEffectiveRulesForAssignment (JStr "asg-1") noon one_rule).1, (findEffectiveRulesForAssignment (JStr "asg-1") noon (rule_step successor one_rule)).1)
  = (Ok [rule], Ok []).
Proof. vm_compute. reflexivity. Qed.

Definition ended_rule : jsval := JObj
  [("id", JStr "rule-0"); ("assignmentId", JStr "asg-1"); ("status", JStr "EFFECTIVE"); ("effectiveFrom", at_day (-9)); ("effectiveUntil", at_day (-5)); ("conditions", JArr [])].
(** The end of a rule in force is moved without looking at the rules that follow it. *)
Lemma extended_rule_clashes :
  let w := rules_world [ended_rule; rule] in
  let w' := (updateCommissionRule (JStr "rule-0") (JObj [("effectiveUntil", JNull)]) w).2 in
  (match rows w TRule with [a; b] => clash a b | _ => true end, match rows w' TRule with [a; b] => clash a b | _ => false end) = (false, true).
Proof. vm_compute. reflexivity. Qed.
End Rules.

(** ** Links *)

Section Links.
Import SupplierDestination TrackingUrl TrackingParams TrackingLinks LinkFacts TrackingRedirect RedirectFacts.

Definition click_url : string := "https://prf.hn/click/camref:1".
Definition link_of_client (id token : string) (main : bool) (more : list (string * jsval)) : jsval := JObj
  (more ++ [("id", JStr id); ("assignmentId", JStr "asg-1"); ("slug", JStr "dazn-acme-ltd"); ("subId", JStr token); ("supplierTrackingUrl", JStr click_url);
            ("mboTrackingUrl", JStr "https://go.mbo.test/r/dazn-acme-ltd/AAAA"); ("status", JStr "ACTIVE"); ("isPrimary", JBool main); ("deletedAt", JNull)]).
Definition links_world (source : list (string * jsval)) (links : list jsval) : world :=
  with_tables [(TAssignment, [granted source]); (TTrackingLink, links)].
Definition two_links : world := links_world [] [link_of_client "l-1" "AAAA" true []; link_of_client "l-2" "BBBB" false []].
Lemma two_links_tidy : links_tidy two_links.
Proof.
  split.
  - repeat constructor; (do 2 eexists; split; reflexivity).
  - apply Forall_singleton. now exists "asg-1".
  - repeat constructor.
  - repeat constructor.
Qed.
Definition new_link : jsval := JObj [("assignmentId", JStr "asg-1"); ("supplierTrackingUrl", JStr click_url); ("isPrimary", JBool true)].
Definition link_calls : list link_call := [UpdateLink (JStr "l-2") (JObj [("isPrimary", JBool true)]); RotateLink (JStr "l-1") (JObj [])].

(** The primary link moves with every call. *)
Lemma one_primary_link_witness :
  let w' := fold_left (fun w call => (run_link call w).2) link_calls two_links in
  map (fun l => (l@."id", l@."status", primary l)) (rows w' TTrackingLink) =
    [(JStr "l-1", JStr "REVOKED", false); (JStr "l-2", JStr "ACTIVE", false); (JStr "id-101", JStr "ACTIVE", true)] /\
  forall a b, a ∈ rows w' TTrackingLink -> b ∈ rows w' TTrackingLink -> primary a = true -> primary b = true -> a@."assignmentId" = b@."assignmentId" -> a = b.
Proof. split; [vm_compute; reflexivity|]. exact (one_primary_link link_calls two_links two_links_tidy). Defined.

Definition bare_world : world := links_world [] [].
Definition made (w : world) : jsval * world := match createTrackingLink new_link w with (Ok r, w') => (r, w') | (Throw _, w') => (JUndef, w') end.
(** A link is created under the brand and the client, and found by its address. *)
Lemma new_link_found_witness :
  (made bare_world).1@."mboTrackingUrl" = JStr "https://go.mbo.test/r/dazn-acme-ltd/JJJJJJJJ" /\
  exists slug token, (made bare_world).1@."slug" = JStr slug /\ (made bare_world).1@."subId" = JStr token /\ TrackingFacts.is_slug slug = true /\ slug <> "" /\
    encodeURIComponent slug = slug /\
    loadLink (JStr slug) (JStr token) (made bare_world).2 = (Ok (with_assignment (made bare_world).1 (made bare_world).2), (made bare_world).2).
Proof. split; [vm_compute; reflexivity|]. apply (new_link_found new_link bare_world). vm_compute. reflexivity. Defined.

Definition visit_of (w : world) : prog world visit := redirect (JStr "Dazn-Acme-Ltd") (JStr " AAAA ") (JObj [("ip", JStr "10.0.0.1")]).
Definition shown (v : visit) : jsval * string * bool * list (string * string) :=
  (v_clickId v, v_supplier v, v_injected v, match parse_url (v_destination v) with Some u => search_params (u_search u) | None => [] end).

(** The date until which a link is valid is stored and shown, and not looked at. *)
Lemma expired_link_redirects :
  let w := links_world [] [link_of_client "l-1" "AAAA" true [("expiresAt", at_day (-30))]] in
  match (visit_of w w).1 with Ok v => v_clickId v | Throw _ => JUndef end = JStr "id-100".
Proof. vm_compute. reflexivity. Qed.

(** The token of a new link is that of the supplier's campaign, and the revoked link keeps it: where the campaign
    has a token, rotating its link fails, and so does a link for a second assignment. *)
Lemma rotation_with_campaign_token_fails :
  let w := links_world [("mboTrackingToken", JStr "AAAA")] [link_of_client "l-1" "AAAA" true []] in
  ((rotateTrackingLink (JStr "l-1") (JObj []) w).1, (createTrackingLink new_link w).1) = (Throw unique_violation, Throw unique_violation).
Proof. vm_compute. reflexivity. Qed.

(** ** Coupons *)

Definition coupon (status : string) : jsval := JObj [("id", JStr "k-1"); ("assignmentId", JStr "asg-1"); ("status", JStr status); ("clientCouponCode", JStr "SAVE10")].
(** A revoked coupon is not activated by [activate], but by [status]. *)
Lemma revoked_coupon_revived :
  let w := with_tables [(TAssignment, [granted []]); (TCouponAssignment, [coupon "REVOKED"])] in
  let after input := map (fun c => c@."status") (rows (updateCouponAssignment (JStr "k-1") (JObj input) w).2 TCouponAssignment) in
  (after [("activate", JBool true)], after [("status", JStr "ACTIVE")]) = ([JStr "REVOKED"], [JStr "ACTIVE"]).
Proof. vm_compute. reflexivity. Qed.
End Links.

(** ** Links of a supplier *)

Section SupplierLinks.
Import SupplierLink LinkContract TrackingFacts.

Definition supplier_campaign : jsval := JObj
  [("id", JStr "sc-1"); ("supplier", JStr "PARTNERIZE"); ("trackingUrl", JNull); ("supplierTrackingLinkState", JStr "TRACKING_LINK_NOT_GENERATED");
   ("supplierTrackingLinkProvenance", JNull); ("destinationUrl", JStr "https://dazn.test/")].
Definition campaign_world : world := with_tables [(TSupplierCampaign, [supplier_campaign])].
Definition operator : jsval := JObj [("id", JStr "u-1"); ("email", JNull)].
Definition set_click : link_change := SetLink (JStr "sc-1") (JStr " https://prf.hn/click/camref:1 ").

(** A reason of spaces: the link is stored, then the audit entry is refused. *)
Lemma blank_reason_unaudited :
  let run := change_link set_click operator (JStr "  ") campaign_world in
  (match run.1 with Throw e => err_code e | Ok _ => "" end, map (fun c => c@."trackingUrl") (rows run.2 TSupplierCampaign), rows run.2 TAudit)
  = ("AUDIT_ENTRY_INCOMPLETE", [JStr "https://prf.hn/click/camref:1"], []).
Proof. vm_compute. reflexivity. Qed.

(** The landing page of the advertiser passes for the link of the supplier, and so does a text that is no web address. *)
Lemma landing_page_as_link :
  (resolveSupplierTrackingLink (JObj [("trackingUrl", JStr ""); ("destinationUrl", JStr "https://dazn.test/")]),
   resolveSupplierTrackingLink (JObj [("trackingUrl", JStr "javascript:alert(1)")]))
  = (JStr "https://dazn.test/", JStr "javascript:alert(1)").
Proof. vm_compute. reflexivity. Qed.
End SupplierLinks.
End Traded.
