(* ===== verification/AssignmentWitnesses.v ===== *)
(** * The catalog and the assignments at concrete states

    The theorems on primary sources, assignments and what a client is shown at small stores, and runs in
    which the services do what they do not mean to. *)

From Stdlib Require Import SpecFloat.
From S2P Require Import Prelude JsNum JsVal JsDate Store Accounts Runtime Attribution Commercial Tracking TrackingLinks Exclusive Eligibility Catalog Assignments.
From S2P Require Import Samples SettlementWitnesses CommercialWitnesses.
Import Samples Settled Traded.
Local Open Scope Z_scope.

#[export] Instance no_payouts : PayoutMapper := {| boostiny_commission _ := JNull |}.

(** ** The catalog *)

Module Listed.
Import SourceSelection CatalogService CatalogFacts.

Definition campaign (status : string) : jsval := JObj
  [("id", JStr "cc-1"); ("merchantId", JStr "m-1"); ("displayName", JStr "Dazn"); ("status", JStr status); ("visibility", JStr "ASSIGNABLE"); ("countries", JArr []);
   ("deletedAt", JNull)].
Definition source (id sc : string) (primary active : bool) (status : string) : jsval := JObj
  [("id", JStr id); ("canonicalCampaignId", JStr "cc-1"); ("supplierCampaignId", JStr sc); ("priority", JNum (num_of_Z 100)); ("isPrimary", JBool primary);
   ("relationshipStatus", JStr "JOINED"); ("supportsLink", JBool true); ("isActive", JBool active); ("status", JStr status); ("createdAt", at_noon)].
Definition supplier_campaign (id : string) : jsval := JObj
  [("id", JStr id); ("supplier", JStr "PARTNERIZE"); ("supplierCampaignId", JStr "1"); ("merchantId", JStr "m-1"); ("campaignName", JStr "Dazn"); ("isJoined", JBool true);
   ("trackingUrl", JStr "https://prf.hn/click"); ("defaultCommissionValue", JNum (num_of_Z 8)); ("campaignStatus", JStr "ACTIVE")].
Definition catalog (sources : list jsval) : world :=
  with_tables [(TCatalogCampaign, [campaign "PUBLISHED"]); (TCampaignSource, sources); (TSupplierCampaign, map supplier_campaign ["sc-1"; "sc-2"; "sc-3"])].
Definition two_sources : world := catalog [source "s-1" "sc-1" true true "PREFERRED"; source "s-2" "sc-2" false true "LINKED"].
Lemma two_sources_tidy : catalog_tidy two_sources.
Proof.
  split; [split|].
  - repeat constructor; eexists; reflexivity.
  - repeat constructor.
  - repeat constructor.
  - repeat constructor.
Qed.
Definition promote_second : list catalog_call := [Promote (JStr "s-2"); Attach (JStr "cc-1") (JObj [("supplierCampaignId", JStr "sc-3"); ("isPrimary", JBool true)])].
(** The second source is promoted and a third one attached as primary: it is the only one. *)
Lemma one_primary_source_witness : let w' := fold_left (fun w call => run_catalog call w) promote_second two_sources in
  map primary (rows w' TCampaignSource) = [false; false; true] /\
  (forall a b, a ∈ rows w' TCampaignSource -> b ∈ rows w' TCampaignSource -> primary a = true -> primary b = true ->
     same_text a@."canonicalCampaignId" b@."canonicalCampaignId" = true -> a = b) /\
  forall c k, k ∈ (getRouting (JStr c) w').2 -> k_code k <> "MULTIPLE_PRIMARY".
Proof. split; [vm_compute; reflexivity|]. apply (one_primary_source promote_second two_sources). exact two_sources_tidy. Defined.

(** Promoting a source marks the ones that were taken out of use as active again. *)
Theorem promotion_revives_deprecated :
  let w := catalog [source "s-1" "sc-1" false false "DEPRECATED"; source "s-2" "sc-2" false true "LINKED"] in
  map (fun s => (s@."isActive", s@."status")) (rows (promotePrimarySource (JStr "s-2") w).2 TCampaignSource) =
  [(JBool false, JStr "ACTIVE"); (JBool true, JStr "PREFERRED")].
Proof. vm_compute. reflexivity. Qed.
(** A supplier campaign whose source was detached is linked to a second campaign when it is allotted, although attaching
    it to another campaign is refused. *)
Theorem detached_source_linked_twice :
  let w := (detachSource (JStr "s-1") (catalog [source "s-1" "sc-1" true true "PREFERRED"])).2 in
  let w' := (ensureFromSupplierCampaign (JStr "sc-1") w).2 in
  map (fun s => (s@."canonicalCampaignId", s@."supplierCampaignId")) (rows w' TCampaignSource) = [(JStr "cc-1", JStr "sc-1"); (JStr (fresh_id (next_id w)), JStr "sc-1")] /\
  length (rows w' TCatalogCampaign) = 2%nat /\
  (let elsewhere := set_rows TCatalogCampaign [with_prop (campaign "PUBLISHED") "id" (JStr "cc-2")] w in
   match (attachSource (JStr "cc-2") (JObj [("supplierCampaignId", JStr "sc-1")]) elsewhere).1 with Throw e => err_message e | Ok _ => "" end) =
  "Supplier campaign is already linked to another catalog entry.".
Proof. vm_compute. auto. Qed.
End Listed.


(** ** The assignments *)

Module Granted.
Import Visibility Eligibility AssignmentRepository Assignments AssignmentFacts.

Definition client : jsval := JObj
  [("id", JStr "k-1"); ("name", JStr "Acme"); ("status", JStr "ACTIVE"); ("commercialModel", JStr "OFFERS_PLUS_COMMISSION"); ("clientSharePercent", JNum (num_of_Z 60)); ("deletedAt", JNull)].
Definition assignment (id status : string) (published : bool) : jsval := JObj
  [("id", JStr id); ("clientId", JStr "k-1"); ("canonicalCampaignId", JStr "cc-1"); ("campaignSourceId", JStr "s-1"); ("status", JStr status); ("published", JBool published);
   ("createdAt", at_noon)].
Definition granted (campaign_status : string) (assignments : list jsval) : world :=
  with_tables [(TCatalogCampaign, [Listed.campaign campaign_status]); (TCampaignSource, [Listed.source "s-1" "sc-1" true true "PREFERRED"]);
    (TSupplierCampaign, [Listed.supplier_campaign "sc-1"]); (TClient, [client]); (TAssignment, assignments)].
Lemma granted_tidy status assignments : exclusive TAssignment PAIR open (granted status assignments) -> Forall lawful assignments -> tidy (granted status assignments).
Proof.
  intros Hx Hl. split; [exact Hx|exact Hl|..].
  - repeat constructor; eexists; reflexivity.
  - repeat constructor; eexists; reflexivity.
  - repeat constructor.
Qed.
Lemma assignment_lawful id status published : in_enum ASSIGNMENT_STATUS (JStr status) = true -> (published = true -> in_enum ["ACTIVE"; "PAUSED"] (JStr status) = true) ->
  lawful (assignment id status published).
Proof. intros Hs Hp. split; try (eexists; reflexivity); [exact Hs|]. unfold live. cbn. intros E. apply Hp. now destruct published. Qed.
Definition revoked_and_drafted : world := granted "PUBLISHED" [assignment "a-1" "REVOKED" false; assignment "a-2" "ASSIGNED" false].
Lemma revoked_and_drafted_tidy : tidy revoked_and_drafted.
Proof.
  apply granted_tidy; [split|].
  - repeat constructor; eexists; reflexivity.
  - repeat constructor.
  - repeat constructor.
  - repeat constructor; apply assignment_lawful; easy.
Qed.
Definition for_acme : jsval := JObj [("clientId", JStr "k-1"); ("canonicalCampaignId", JStr "cc-1"); ("publish", JBool true)].
Definition regrant : list assignment_call := [Live (JStr "a-2"); Draft for_acme; Retire (JStr "a-2"); Draft for_acme; Hold (JStr "id-101")].
Definition shown_world : world := granted "PUBLISHED" [assignment "a-1" "PAUSED" true; assignment "a-2" "ACTIVE" true; assignment "a-3" "ACTIVE" false].

(** A publication that fails at its gates leaves the commission rule in force: the calls before the gates wrote it, and no
    transaction takes it back. *)
Theorem refused_publication_leaves_rule :
  let w := granted "DRAFT" [assignment "a-1" "ASSIGNED" false] in
  let '(r, w') := update (JStr "a-1") (JObj [("lifecycle", JStr "published")]) w in
  r = Throw (api_fail "Campaign assignment is not publishable: catalog_not_publishable" 409) /\ rows w TRule = [] /\
  map (fun r => (r@."assignmentId", r@."status")) (rows w' TRule) = [(JStr "a-1", JStr "EFFECTIVE")].
Proof. vm_compute. auto. Qed.
(** The rule that publishing puts in force is one that the commercial service refuses to activate. *)
Theorem published_without_agreement :
  let w' := (publish (JStr "a-1") (granted "PUBLISHED" [assignment "a-1" "ASSIGNED" false])).2 in
  map (fun r => (r@."status", CommercialRules.assertCommercialActivationReady r)) (rows w' TRule) =
  [(JStr "EFFECTIVE", Throw (api_fail "Commercial agreement/IO/SOW approval lineage is required before activation." 409))].
Proof. vm_compute. reflexivity. Qed.
(** A grant that is refused when it is to be published leaves the audit of a rule that was put in force, and no such rule:
    the audit is written outside the transaction that is taken back. *)
Theorem refused_grant_leaves_audit :
  let w := granted "DRAFT" [] in
  let '(r, w') := createDraft for_acme w in
  r = Throw (api_fail "Campaign assignment is not publishable: catalog_not_publishable" 409) /\
  map (fun e => (e@."aggregateType", e@."action")) (rows w' TAudit) = [(JStr "ClientCommissionRule", JStr "commercial_rule.activate")] /\
  rows w' TRule = [] /\ rows w' TAssignment = [].
Proof. vm_compute. auto. Qed.
(** An update that sets the status of an archived assignment opens it again beside the one that replaced it. *)
Theorem reopened_beside_another :
  let w := granted "PUBLISHED" [assignment "a-1" "REVOKED" false; assignment "a-2" "ACTIVE" true] in
  map open (rows (update (JStr "a-1") (JObj [("status", JStr "ACTIVE")]) w).2 TAssignment) = [true; true].
Proof. vm_compute. reflexivity. Qed.
(** A visit is let through to a campaign that went back to draft, which the client is no longer shown. *)
Theorem visited_though_not_listed :
  let w := granted "DRAFT" [assignment "a-1" "ACTIVE" true] in
  let l := JObj [("status", JStr "ACTIVE"); ("deletedAt", JNull)] in
  findManyForPartner (JObj [("clientId", JStr "k-1")]) 0 10 w = Ok ([], 0%nat) /\
  TrackingRedirect.assertLive (with_relation l "assignment" (related (assignment "a-1" "ACTIVE" true) w)) = Ok tt.
Proof. vm_compute. auto. Qed.
End Granted.
