(* ===== verification/ReadinessWitnesses.v ===== *)
(** * Supplier rules at concrete states

    A rule that is matched and established, identities, and texts that the parser of commissions reads as
    something else. *)

From Stdlib Require Import SpecFloat.
From S2P Require Import Prelude JsNum JsVal ClientMatch SupplierMatch Commissions Readiness Accounts Samples CommercialWitnesses.
Import Samples Traded SupplierMatcher CampaignCommissions Readiness CommissionFacts ReadinessFacts.
Local Open Scope Z_scope.

Module Vouched.

Definition country_ae : jsval := JObj [("conditionType", JStr "COUNTRY"); ("operator", JStr "EQ"); ("value", JStr "AE")].
Definition stated_rule : jsval := JObj
  [("id", JStr "rule"); ("basis", JStr "PERCENT_OF_SALE"); ("ratePercent", JStr "10"); ("currency", JStr "AED"); ("conditions", JArr [country_ae]);
   ("rawRuleReference", JObj [("value", JStr "10%"); ("model", JStr "cps")]); ("commissionModel", JStr "CPS")].
Definition facts : jsval := JObj [("country", JStr "ae"); ("orderValue", JStr "250"); ("currency", JStr "AED")].
(** The same rule with a rate the source does not state is not matched. *)
Example contradicted_rule_not_matched :
  let rule := with_prop stated_rule "ratePercent" (JStr "12") in
  s_status (matchSupplierCommissionRule (JArr [rule]) facts (JStr "25") (JStr "AED")) = "REVIEW_REQUIRED" /\
  a_reviewReasons (assess rule JNull JNull JNull) = ["source_economics_mismatch"].
Proof. vm_compute. auto. Qed.

Definition shown (t : string) : list string := map f_display (parseCommissionText (JStr t)).
(** An average just beside a multiple of ten is shown without its zeros. *)
Theorem average_shown_without_zeros :
  averageCommissionFacts (flat_map (fun t => parseCommissionText (JStr t)) ["9.7%"; "10.1%"; "10.2%"]) = Some "1%".
Proof. vm_compute. reflexivity. Qed.
(** In an amount a comma is dropped where it is the decimal point, and what follows a second separator is lost; in a
    percentage it is the decimal point. *)
Theorem amounts_misread : shown "EUR 1,50" = ["EUR 150"] /\ shown "1,50%" = ["1.5%"] /\ shown "USD 1,234,567.50" = ["USD 1234"].
Proof. vm_compute. auto. Qed.
(** A rule with the amount that was misread is ready for finance. *)
Theorem misread_amount_is_ready :
  a_financeReady (assess (JObj [("basis", JStr "CPA"); ("fixedAmount", JStr "150"); ("currency", JStr "EUR"); ("rawRuleReference", JStr "EUR 1,50 CPA")]) JNull JNull JNull) = true.
Proof. vm_compute. reflexivity. Qed.
End Vouched.
