(* ===== verification/Witnesses.v ===== *)
(** * The theorems at concrete states

    Each lemma applies a theorem of the development to a concrete input at which its
    hypotheses hold, evaluated by the definitions themselves. *)

From Stdlib Require Import SpecFloat.
From S2P Require Import Prelude JsNum JsRound JsVal JsDate Money RuleEngine ClientCalc ClientMatch SupplierMatch OrderStatus Recon Store Exceptions Separation Fx Runtime Finance Validation Payments Lifecycle Ingestion Samples.
Import Samples.
Local Open Scope Z_scope.

Module MoneyWitnesses.
Import AttributionMath Splits ReportDays.

(** 33.3333 at 75 percent: the client part rounds up to 25.0000, the margin takes the remaining 8.3333. *)
Definition share_rule : jsval := JObj [("grossCommission", JStr "10.00"); ("clientCommission", JStr "7.50")].
Lemma split_conserves_witness :
  exists c, 0 <= c <= 333333 /\
    applyCommissionRuleToGross (JStr "33.3333") share_rule
      = Ok (SplitOk (print_fixed false 4 c) (print_fixed false 4 (333333 - c))).
Proof.
  apply (split_conserves (JStr "33.3333") share_rule 333333); [vm_compute; split; reflexivity|..];
    vm_compute; reflexivity.
Defined.

Lemma dayBounds_partition_witness :
  1710460800000 <= noon + 1000 <= 1710547199999 <->
  toReportDate (JDate (Some (noon + 1000))) = toReportDate (JDate (Some noon)).
Proof. apply (dayBounds_partition noon (noon + 1000)); reflexivity || discriminate. Defined.

Lemma report_date_calendar_witness :
  parseReportDateInput (JStr "2024-02-29") "from" = Ok (days_from_civil 2024 2 29 * ms_per_day).
Proof. exact (report_date_calendar "2024-02-29" 2024 2 29 "from" eq_refl). Defined.

Lemma report_range_normalized_witness :
  normalizeReportDateRange (JStr "2024-03-01") (JStr "2024-03-15")
    = Ok (Some (day_floor 1709251200000), Some (day_floor 1710460800000)) /\
  day_floor 1709251200000 <= day_floor 1710460800000.
Proof.
  apply (report_range_normalized (JStr "2024-03-01") (JStr "2024-03-15") 1709251200000 1710460800000);
    vm_compute; reflexivity.
Defined.
End MoneyWitnesses.

Module RuleWitnesses.
Import RuleEngineFacts ClientCalculation ClientCalcFacts ClientMatcher ClientMatchFacts.

Definition approved_order : jsval := order_in "VALIDATION_APPROVED" "PAYMENT_PENDING" "CLIENT_PAYMENT_NOT_READY".
Definition priced (order ruleRow basis : jsval) : commercial_args :=
  CommercialArgs order conversion ruleRow JNull JNull basis.


Definition fixed_rule : jsval := JObj
  [("id", JStr "rule-2"); ("status", JStr "EFFECTIVE"); ("commissionType", JStr "FIXED_CLIENT_AMOUNT_PER_CONFIRMED_ORDER");
   ("fixedAmount", JStr "5"); ("currency", JStr "USD")].
Definition full_basis : jsval := JObj
  [("basisMode", JStr "ITEM_LEVEL"); ("allItemsApproved", JBool true); ("approvedItemCount", JNum (num_of_Z 2));
   ("approvedSupplierCommissionOk", JBool true); ("approvedSupplierCommission", JNum (num_of_Z 12))].
Lemma fixed_amount_needs_full_approval_witness :
  truthy full_basis@."allItemsApproved" = true /\ nltb (js_number full_basis@."approvedItemCount") (num_of_Z 1) = false.
Proof.
  destruct (calculateCommercial (priced approved_order fixed_rule full_basis)) as [[c|]|] eqn:E; [|exfalso; vm_compute in E; discriminate E..].
  exact (fixed_amount_needs_full_approval (priced approved_order fixed_rule full_basis) c eq_refl eq_refl E).
Defined.

Definition tiered_rule : jsval := JObj
  [("commissionType", JStr "TIERED"); ("tierMetric", JStr "ORDER_COUNT");
   ("tiers", JArr [JObj [("id", JStr "t1"); ("minInclusive", JNum n0); ("maxExclusive", JNum (num_of_Z 5))];
                   JObj [("id", JStr "t2"); ("minInclusive", JNum (num_of_Z 5))]])].
Definition seven_orders : jsval := JObj [("orderCount", JNum (num_of_Z 7))].
Lemma tier_selection_unique_witness :
  selected_tier (selectClientCommercialTier tiered_rule seven_orders) = nth_error (as_array tiered_rule@."tiers") 1 /\
  only_band (as_array tiered_rule@."tiers") (num_of_Z 7) (nth 1 (as_array tiered_rule@."tiers") JUndef).
Proof.
  split; [vm_compute; reflexivity|].
  apply (tier_selection_unique tiered_rule seven_orders (num_of_Z 7)); [vm_compute; reflexivity|vm_compute; reflexivity].
Defined.

Lemma payout_agrees_with_split_witness :
  exists share, calculatePercentageOfSupplier rule (JObj [("networkActualCommission", JNum (num_of_ratio 25 2))]) =
    Calculated (Some (string_to_num "8.7500")) false "NETWORK_ACTUAL_COMMISSION" share.
Proof.
  apply (payout_agrees_with_split rule _ (num_of_ratio 25 2) "8.7500" "3.7500"); vm_compute; reflexivity.
Defined.

Definition network_condition : jsval := JObj [("dimension", JStr "NETWORK"); ("value", JStr "NET")].
Lemma operators_complementary_witness :
  evaluateClientCommercialCondition (with_operator network_condition "NOT_IN") (JObj [("network", JStr "net")]) =
  negate (evaluateClientCommercialCondition (with_operator network_condition "IN") (JObj [("network", JStr "net")])).
Proof. apply (operators_complementary network_condition _ "IN" "NOT_IN"); [right; left|vm_compute; discriminate]. Defined.

Definition one_rule_args (l : list jsval) : match_args :=
  MatchArgs (JArr l) (JObj []) (JBool true) (JStr "RESOLVED") (JStr "asg-1") at_noon.

Definition other_rule : jsval := JObj
  [("id", JStr "rule-3"); ("assignmentId", JStr "asg-1"); ("status", JStr "EFFECTIVE");
   ("conditions", JArr [network_condition])].
Lemma match_order_independent_witness :
  verdict (matchClientCommercialRule noon (one_rule_args [rule; other_rule])) =
  verdict (matchClientCommercialRule noon (one_rule_args [other_rule; rule])).
Proof. apply (match_order_independent noon (one_rule_args [rule; other_rule])). apply Permutation_swap. Defined.
End RuleWitnesses.

Module OrderWitnesses.
Import StatusNormalization OrderMerge OrderStatusFacts ApprovedBasis ReconciliationLogic ReconFacts.

Definition registry : jsval := JArr
  [JObj [("supplier", JStr "NET"); ("sourceObject", JStr "orders"); ("rawStatus", JStr "paid"); ("mboOrderStatus", JStr "CONFIRMED")]].
Lemma mapped_status_is_verified_witness :
  hasSourceScope (r_scope (resolve_field "mboOrderStatus" (JStr "paid") (JStr "NET") (JStr "orders") JNull registry)) = true.
Proof.
  exact (proj1 (mapped_status_is_verified "mboOrderStatus" (JStr "paid") (JStr "NET") (JStr "orders") JNull registry
                  ltac:(vm_compute; reflexivity))).
Defined.

Definition stored : jsval := JObj [("currency", JStr "USD")].
Definition incoming : jsval := JObj [("currency", JNull); ("clientId", JStr "cl-1")].
Lemma order_patch_monotone_witness :
  isPresent (prop (apply_patch stored (buildOrderPatch stored incoming)) "currency") = true.
Proof.
  refine (proj1 (order_patch_monotone stored incoming "currency" _) _); [compute_done|vm_compute; reflexivity].
Defined.

Lemma missing_side_blocks_witness :
  shouldBlockClientPayableRelease
    [buildCheck NETWORK_PAYMENT_VS_MBO_RECEIPT (JNum (num_of_Z 5)) JNull "Network payment" "MBO actual receipt" DEFAULT_MATERIALITY_THRESHOLD false] = true.
Proof.
  refine (proj2 (proj2 (proj2 (missing_side_blocks NETWORK_PAYMENT_VS_MBO_RECEIPT (JNum (num_of_Z 5)) JNull "Network payment"
            "MBO actual receipt" DEFAULT_MATERIALITY_THRESHOLD false _))) _); [right; reflexivity|compute_done].
Defined.

Definition some_inputs : recon_inputs :=
  ReconInputs JNull JNull (JNum (num_of_Z 5)) (JNum (num_of_Z 5)) JNull JNull JNull JNull DEFAULT_MATERIALITY_THRESHOLD.
Lemma recon_row_status_witness :
  resolveNetworkReconRowStatus (Some (runReconciliationChecks some_inputs)) =
  status_text (summaryStatus (runReconciliationChecks some_inputs)).
Proof.
  apply recon_row_status; [reflexivity|]. intros c d Hc Hd. apply list_elem_of_In in Hc. cbn [recon_checks In some_inputs] in Hc.
  repeat (destruct Hc as [<-|Hc]; [vm_compute in Hd; (discriminate Hd || (injection Hd as <-; reflexivity))|]). destruct Hc.
Defined.

Definition item (id status value : string) : jsval :=
  JObj [("id", JStr id); ("validationStatus", JStr status); ("itemValue", JStr value); ("commission", JStr "1")].
Definition with_items (l : list jsval) : jsval := JObj [("id", JStr "ord-1"); ("items", JArr l)].
Lemma basis_ignores_unapproved_witness :
  prop (resolveApprovedCommercialBasis (with_items [item "a" "VALIDATION_APPROVED" "10"; item "b" "VALIDATION_REJECTED" "20"]) conversion) "approvedOrderValue" =
  prop (resolveApprovedCommercialBasis (with_items [item "a" "VALIDATION_APPROVED" "10"]) conversion) "approvedOrderValue".
Proof. apply basis_ignores_unapproved; reflexivity || compute_done. Defined.
End OrderWitnesses.

Module ServiceWitnesses.
Import ExceptionCases ExceptionFacts FinanceSeparation Reconciliation SeparationFacts ReconciliationLogic Fx FxFacts Runtime RuntimeFacts.

Definition empty_world : world := store (fun _ => []).
Definition leak : jsval := JObj [("type", JStr "SYNC_FAILED"); ("metadata", JObj [("apiKey", JStr "k")])].
Lemma report_keeps_redacted_witness : cases_redacted (report leak empty_world).2.
Proof. apply report_keeps_redacted. constructor. Defined.

Definition one_case : world := store (fun t => match t with TException =>
  [JObj [("id", JStr "a"); ("dedupeKey", JStr "k"); ("status", JStr "RESOLVED")]] | _ => [] end).
Lemma report_keeps_one_active_witness : one_active (report leak one_case).2.
Proof. apply report_keeps_one_active. repeat constructor. Defined.

Lemma acknowledge_reactivates_witness :
  exists r w', acknowledge (JStr "a") JNull one_case = (Ok r, w') /\ r ∈ rows w' TException /\
    r@."status" = JStr "ACKNOWLEDGED" /\ is_active (JStr "RESOLVED") = false /\ is_active r@."status" = true.
Proof.
  exact (acknowledge_reactivates (JStr "a") JNull one_case
           (JObj [("id", JStr "a"); ("dedupeKey", JStr "k"); ("status", JStr "RESOLVED")]) eq_refl eq_refl).
Defined.

(** An order paid 10.00 to MBO of which 7.00 is payable to the client. *)
Definition received_order : jsval := JObj
  [("id", JStr "ord-1"); ("validationStatus", JStr "VALIDATION_APPROVED"); ("currency", JStr "USD");
   ("metadata", JObj [("mboReceivedDateTime", JStr "2024-03-15T12:00:00.000Z"); ("bankReference", JStr "B-1");
                      ("mboReceivedAmount", JStr "10")])].
Definition payable_row : jsval := JObj [("clientPayable", JStr "7.0000"); ("supplierReceivable", JStr "10.0000")].
Lemma margin_blocks_release_witness :
  shouldBlockClientPayableRelease (checks (runOrderReconciliationChecks received_order [payable_row])) = true.
Proof.
  apply (margin_blocks_release received_order [payable_row] (num_of_Z 10) (num_of_Z 7)); vm_compute; reflexivity.
Defined.

Definition rate_row (day : Z) (rate : string) : jsval := JObj
  [("fromCurrency", JStr "USD"); ("toCurrency", JStr "INR"); ("rate", JStr rate); ("effectiveDate", JDate (Some day))].
Lemma latest_rate_spec_witness : rate_row 2 "83" ∈ [rate_row 1 "82"; rate_row 2 "83"; rate_row 9 "84"].
Proof. exact (proj1 (latest_rate_spec "USD" "INR" 5 [rate_row 1 "82"; rate_row 2 "83"; rate_row 9 "84"] (rate_row 2 "83") eq_refl)). Defined.

Definition request : runtime_args :=
  RuntimeArgs (JStr "asg-1") (JBool true) (JStr "RESOLVED") (JObj []) Samples.conversion JNull assignment JNull (JObj [])
    (JNum (num_of_ratio 25 2)) (JStr "USD") JNull JNull JNull JNull (JBool false) true.
Lemma runtime_calculated_witness : exists r, evaluate request approved_world = (Ok r, approved_world) /\ rt_payable r = false.
Proof.
  destruct (evaluate request approved_world) as [[r|e] w'] eqn:E; [|exfalso; vm_compute in E; discriminate E].
  assert (Hst : rt_status r = "CALCULATED").
  { change r with (match Ok r with Ok r => r | Throw _ => r end).
    replace (Ok r) with ((evaluate request approved_world).1) by (now rewrite E). vm_compute. reflexivity. }
  destruct (runtime_calculated request approved_world r w' E Hst) as (-> & Hp & _). exists r. exact (conj eq_refl Hp).
Defined.
End ServiceWitnesses.

Module LedgerWitnesses.
Import Reconciliation Ledger LedgerFacts LedgerTheorems.

Definition order_id : jsval := JStr "ord-1".
Definition conversion_id : jsval := JStr "cv-1".


Lemma recognize_twice_witness :
  exists r w', recognizeConversion order_id conversion_id approved_world = (Ok (Recognized r), w') /\
               recognizeConversion JNull conversion_id w' = (Ok (Reused r), w').
Proof.
  destruct (recognizeConversion order_id conversion_id approved_world) as [[[r|r|why]|e] w'] eqn:E;
    [|exfalso; vm_compute in E; discriminate E..].
  exists r, w'. split; [reflexivity|]. exact (recognize_twice order_id JNull conversion_id approved_world r w' E).
Defined.

Lemma earned_columns :
  money_column earned_row@."supplierReceivable" (num_of_ratio 125000 10000) /\
  money_column earned_row@."clientPayable" (num_of_ratio 87500 10000) /\
  money_column earned_row@."mboMargin" (num_of_ratio 37500 10000).
Proof.
  assert (Hmax : max_units = 2748779069440000) by reflexivity.
  split_and!; [exists "12.5000", false, 125000|exists "8.7500", false, 87500|exists "3.7500", false, 37500];
    rewrite Hmax; split_and!; (vm_compute; reflexivity) || lia.
Qed.

Lemma reversal_cancels_witness :
  exists w', (reverseForLateRejection conversion_id order_id JNull (recognized_world [earned_row])).2 = w' /\
    netPositionForConversion conversion_id w' = (Ok (rows_of conversion_id w', NetPosition "0.0000" "0.0000" "0.0000" true), w').
Proof.
  destruct earned_columns as (Hs & Hc & Hm).
  destruct (reverseForLateRejection conversion_id order_id JNull (recognized_world [earned_row])) as [[[res|]|e] w'] eqn:E;
    [|exfalso; vm_compute in E; discriminate E..].
  exists w'. split; [reflexivity|].
  refine (reversal_cancels conversion_id order_id JNull (recognized_world [earned_row]) earned_row res w' "ft-1" _ _ _ _ eq_refl eq_refl eq_refl Hs Hc Hm E _).
  - repeat constructor.
  - change res with (match Ok (Some res) with Ok (Some r) => r | _ => res end).
    replace (Ok (Some res)) with (reverseForLateRejection conversion_id order_id JNull (recognized_world [earned_row])).1 by (now rewrite E).
    vm_compute. reflexivity.
Defined.

Lemma reapproval_never_reearns_witness :
  let w' := (reverseForLateRejection conversion_id order_id JNull (recognized_world [earned_row])).2 in
  exists earn', rewrites ["status"] earned_row earn' /\
    recognizeConversion order_id conversion_id w' = (Ok (Reused earn'), w').
Proof. apply (reapproval_never_reearns conversion_id order_id order_id JNull (recognized_world [earned_row]) earned_row); reflexivity. Defined.

Definition long_basis : string :=
  "items:0001,0002,0003,0004,0005,0006,0007,0008,0009,0010,0011,0012,0013,0014,0015,0016,0017,0018,0019,0020,0021,0022,0023,0024,0025,0026,0027,0028,0029,0030,0031,0032,0033|ov:1|sc:1".
Lemma long_basis_key_ignores_net_witness :
  correction_key long_basis (num_of_Z 7) (num_of_Z 10) = correction_key long_basis (num_of_Z 8) (num_of_Z 11).
Proof. apply long_basis_key_ignores_net. vm_compute. lia. Defined.
End LedgerWitnesses.

Module LifecycleWitnesses.
Import Lifecycle PaymentState PaymentFacts Reconciliation FinanceSeparation ValidationService ValidationFacts ItemValidation.

Definition order_world (orders : list jsval) : world := store (tables orders [] [Samples.conversion] [] []).
Definition pending_order : jsval := order_in "VALIDATION_PENDING" "PAYMENT_PENDING" "CLIENT_PAYMENT_NOT_READY".
Definition rejected_order : jsval := order_in "VALIDATION_REJECTED" "PAYMENT_PENDING" "CLIENT_PAYMENT_ON_HOLD".

Lemma single_ok o : order_ok o -> orders_ok (order_world [o]).
Proof. intros Ho. split; [repeat constructor|]. constructor; [exact Ho|constructor]. Qed.
Lemma pending_ok : order_ok pending_order.
Proof. split; (reflexivity || (vm_compute; discriminate)). Qed.

Definition rejection : call := Validate "ord-1" "VALIDATION_REJECTED" JNull JNull true.
Lemma calls_follow_tables_witness :
  orders_ok (perform rejection (order_world [pending_order])) /\
  Forall2 lawful (rows (order_world [pending_order]) TOrder) (rows (perform rejection (order_world [pending_order])) TOrder).
Proof. exact (calls_follow_tables rejection _ (single_ok _ pending_ok)). Defined.

Lemma rejected_never_payable_witness :
  exists r, r ∈ rows (perform rejection (order_world [pending_order])) TOrder /\
    (r@."clientPaymentStatus" = JStr "CLIENT_PAYMENT_ON_HOLD" \/ r@."clientPaymentStatus" = JStr "CLIENT_PAYMENT_NOT_READY").
Proof.
  set (w := perform rejection (order_world [pending_order])).
  assert (Hin : nth 0 (rows w TOrder) JUndef ∈ rows w TOrder) by (vm_compute; left).
  exists (nth 0 (rows w TOrder) JUndef). split; [exact Hin|].
  apply (rejected_never_payable (order_world [pending_order]) w); [apply single_ok, pending_ok| |exact Hin|vm_compute; reflexivity].
  apply reach_call, reach_start.
Defined.

Lemma approval_with_conversion_throws_witness :
  exists w', transition (JStr "ord-1") "VALIDATION_APPROVED" JNull JNull true (order_world [pending_order]) = (Throw enum_error, w') /\
    (exists order', List.find (has_id (JStr "ord-1")) (rows w' TOrder) = Some order' /\
                    order'@."validationStatus" = JStr "VALIDATION_APPROVED") /\
    rows w' TFinancial = [] /\ rows w' TConversion = [Samples.conversion].
Proof.
  exact (approval_with_conversion_throws "ord-1" pending_order Samples.conversion [] JNull JNull (order_world [pending_order])
           eq_refl (or_introl eq_refl) eq_refl).
Defined.

Definition an_item : jsval := JObj [("id", JStr "it-1"); ("orderId", JStr "ord-1"); ("validationStatus", JNull)].
Definition item_world : world := store (tables [pending_order] [an_item] [] [] []).
Lemma item_tenant_guard_witness :
  transitionItem (JStr "it-1") "VALIDATION_APPROVED" JNull JNull (JStr "cl-2") item_world =
    (Throw (api_fail "Order item does not belong to authenticated tenant." 403), item_world).
Proof.
  eapply (item_tenant_guard "it-1" _ _ _ (JStr "cl-2") item_world an_item); [reflexivity|reflexivity|reflexivity|vm_compute; discriminate].
Defined.

(** An order on which network, MBO and client amounts agree: nothing is kept by MBO. *)
Definition settled_order : jsval := spread (order_in "VALIDATION_APPROVED" "PAYMENT_RECEIVED" "CLIENT_PAYMENT_NOT_READY")
  (JObj [("metadata", JObj
    [("mboReceivedDateTime", JStr "2024-03-15T12:00:00.000Z"); ("bankReference", JStr "B-1"); ("mboReceivedAmount", JStr "10");
     ("networkCommission", JStr "10"); ("networkPaymentAmount", JStr "10")])]).
Definition settled_row : jsval := ledger_row "ft-1" "earn:cv-1" "COMMISSION_EARNED" "FINANCIAL_RECOGNIZED" "10.0000" "10.0000" "0.0000".
Definition settled_world : world := store (tables [settled_order] [] [Samples.conversion] [settled_row] []).
End LifecycleWitnesses.

Module IngestionWitnesses.
Import StatusNormalization Lifecycle IngestionContract OrderIngestion IngestionFacts.

(** A network reports a sale of 40 dollars, twice. *)
Definition sale : jsval := JObj
  [("supplier", JStr "NET"); ("sourceAccountLabel", JStr "main"); ("supplierOrderId", JStr "s-9"); ("orderValue", JStr "40");
   ("currency", JStr "usd"); ("networkRawStatus", JStr "locked"); ("items", JArr [JObj [("sku", JStr "a"); ("quantity", JStr "2")]])].
Definition empty_world : world := store (tables [] [] [] [] []).
Lemma empty_good : good empty_world.
Proof. split; [split|split]; constructor. Qed.
Definition once : world := (upsertOrder sale empty_world).2.
Lemma sale_names : names sale "NET" "main" "s-9".
Proof. split_and!; (discriminate || reflexivity). Qed.

Lemma orders_well_formed_witness :
  keyed (handle (Ingest sale) (handle (Serve (Tick 5)) (handle (Ingest sale) empty_world))).
Proof.
  apply (orders_well_formed empty_world); [apply empty_good|].
  repeat (apply run_event; [|exact I || reflexivity]). apply run_start.
Defined.

(** The report of a rejected sale. *)
Definition rejected_sale : jsval := JObj
  [("supplier", JStr "NET"); ("supplierOrderId", JStr "s-10"); ("orderValue", JStr "15"); ("mboOrderStatus", JStr "REJECTED")].

Lemma ingested_once_witness :
  length (List.filter (under "NET" "main" "s-9") (rows once TOrder)) = 1%nat /\
  in_place once (upsertOrder sale once).2 /\ length (rows (upsertOrder sale once).2 TOrder) = 1%nat.
Proof.
  split; [|split].
  - destruct (ingested_once sale "NET" "main" "s-9" empty_world empty_good eq_refl sale_names) as [Hone _].
    apply (Hone (match (upsertOrder sale empty_world).1 with Ok o => o | Throw _ => JNull end)). vm_compute. reflexivity.
  - apply (ingested_once sale "NET" "main" "s-9" once); [|reflexivity|exact sale_names|].
    + apply upsertOrder_good; [reflexivity|exact empty_good].
    + apply Exists_exists. exists (nth 0 (rows once TOrder) JUndef). split; [vm_compute; left|vm_compute; reflexivity].
  - vm_compute. reflexivity.
Defined.

Lemma reported_status_never_mapped_witness :
  incoming_validation sale = JStr "VALIDATION_NEEDS_REVIEW" /\
  resolved (resolveOrderStatusFromNetworkRaw (raw_status sale) (JStr "NET") JUndef JUndef (JArr [JObj
    [("supplier", JStr "NET"); ("rawStatus", JStr "locked"); ("mboOrderStatus", JStr "PENDING")]])) = JNull.
Proof.
  split; [apply (reported_status_never_mapped sale JNull); reflexivity || discriminate|].
  apply (reported_status_never_mapped sale).
Defined.
End IngestionWitnesses.

(** ** Behaviour at a concrete ledger *)

Module Observations.
Import Reconciliation Ledger LedgerWitnesses.

(** A conversion recognized with 12.50 / 8.75 / 3.75 and then corrected by
    -2.50 / -1.75 / -0.75: its late rejection negates the recognized row alone, and the
    rejected conversion keeps a net position of minus the correction. *)
Theorem late_rejection_keeps_corrections :
  let run := reverseForLateRejection conversion_id order_id JNull (recognized_world [earned_row; correction_row]) in
  (exists res, run.1 = Ok (Some res) /\ adj_created res = true) /\
  exists rows, netPositionForConversion conversion_id run.2 = (Ok (rows, NetPosition "-2.5000" "-1.7500" "-0.7500" true), run.2).
Proof.
  cbv zeta. split; [eexists; split; vm_compute; reflexivity|]. eexists. vm_compute. reflexivity.
Qed.
End Observations.

Module SupplierWitnesses.
Import SupplierMatcher SupplierMatchFacts SupplierOverflow.
#[local] Existing Instance always_ready.

(** Ten percent of an order of 250. *)
Definition ten_percent : jsval :=
  JObj [("id", JStr "rule"); ("basis", JStr "PERCENT_OF_SALE"); ("ratePercent", JStr "10"); ("currency", JStr "AED");
        ("conditions", JArr [JObj [("conditionType", JStr "COUNTRY"); ("operator", JStr "EQ"); ("value", JStr "AE")]])].
Definition order_facts : jsval := JObj [("country", JStr "ae"); ("orderValue", JStr "250"); ("currency", JStr "AED")].

Lemma supplier_match_sound_witness :
  exists rule, s_rule (matchSupplierCommissionRule (JArr [ten_percent]) order_facts (JStr "25") (JStr "AED")) = Some rule
    /\ rule ∈ [ten_percent] /\ e_amount (calculateExpectedSupplierCommission rule order_facts) = Some (num_of_Z 25).
Proof.
  destruct (supplier_match_sound (JArr [ten_percent]) order_facts (JStr "25") (JStr "AED")) as (rule & Hs & Hin & _).
  - vm_compute. reflexivity.
  - exists rule. split; [exact Hs|]. split; [exact Hin|]. apply list_elem_of_singleton in Hin as ->. vm_compute. reflexivity.
Defined.
End SupplierWitnesses.
